(* ===== verification/_CoqProject ===== *)
-Q . S2P
Prelude.v
Kernel.v
Cubic.v
Dctcp.v
Fifo.v
Fq.v
FqReset.v
ArenaHtab.v
ArenaSpinLock.v
Packet.v
Flow.v
Bpf.v
Asm.v
Range.v
Loader.v
States.v
Loops.v
Sdiv.v
DivModBounds.v
Div0.v
DivOverflow.v
Subreg.v
Movsx.v
Bswap.v
Masking.v
Scev.v
Bounds.v
Stack.v
Widths.v
Paths.v
Suite.v
XdpLb.v
Early.v
XdpSynproxy.v
Synack.v
SynProxy.v
ClsRedirect.v
ClsParse.v
ClsForward.v
ClsDecide.v
