(* ===== verification/Prelude.v ===== *)
(** * A verification of the Rust BPF selftests

    The repository is the Linux BPF selftest programs written in Rust.  Every
    file of src/progs/ is one BPF object: a set of programs the kernel runs at
    an attach point, sharing maps and globals.  src/bpf-rs-core/ holds the
    bindings to the kernel (helpers, maps, contexts) and the [test_tags!]
    declarations by which the loader tests the programs.  Four kinds of
    program have logic of their own, and they are what is modelled:

    - callbacks the kernel drives with state kept between calls: the congestion
      controls bpf_cubic.rs and bpf_dctcp.rs and the packet schedulers
      bpf_qdisc_fifo.rs and bpf_qdisc_fq.rs;
    - data structures in memory shared with user space: the hash table
      arena_htab.rs; and shared between CPUs: the lock arena_spin_lock.rs;
    - packet programs: the XDP load balancer xdp_lb_bench.rs, the SYN proxy
      xdp_synproxy_kern.rs, the decapsulator test_cls_redirect.rs and the flow
      dissector bpf_flow.rs;
    - naked programs, whose bodies are BPF assembly with declared outcomes:
      eight verifier_*.rs files in full and the accepted programs of others
      (some six hundred programs).

    ** How the code is rendered

    A handler that changes state is a function in the state monad [ST] below,
    over a record with one field per global, map and kernel field it touches;
    loops are structural in a bound the code computes or checks.  Machine
    integers are [Z] with the wrap-around written out ([uw], [sw], and the
    operators of [w32_scope] and [w64_scope]).  What the kernel does is a
    parameter: a class per file (Kernel) with the helpers and kfuncs, those
    whose answer the program cannot foresee being functions of the number of
    the call, and a second class, or named hypotheses, with the documented
    laws a theorem needs.  Each such theorem has a witness on a concrete kernel.

    ** The files

    - Prelude (this file): machine words, the state monad, Hoare triples and
      their automation.
    - Kernel: the interface of the kernel's intrusive lists, red-black trees,
      [bpf_loop] and number iterators, with an instance.
    - Cubic (progs/bpf_cubic.rs).  [V] is the lookup table, [BpfBictcp] the
      per-socket state, one definition per callback and per helper function,
      [handle] the struct_ops table.  [cubic_root] is compared with the real
      cube root on all 64-bit arguments (from 64 up, by a checked table of intervals);
      [fls64] with the logarithm; the window target, the Reno floor, the
      multiplicative decrease, the restart after idle and the delay tracking
      have their functional specifications; [cubic_reachable_ok] is the
      invariant over every sequence of callbacks.
    - Dctcp (progs/bpf_dctcp.rs).  The same layout; the marking estimate alpha
      is bounded over every sequence of callbacks, follows its recurrence,
      dies out without marks; the window cut, the ECN-echo machine and the
      undo after a loss are specified.
    - Fifo (progs/bpf_qdisc_fifo.rs).  Callbacks over the kernel's list; they
      refine a bounded queue, keep the order, lose and duplicate nothing, and
      reset within the loop's bound.
    - Fq (progs/bpf_qdisc_fq.rs).  Flows are records in a heap reached through
      two lists, a tree of throttled flows and a tree of priority flows; one
      definition per callback and helper function.  Over every run from a
      successful initialisation packets are conserved, no flow with packets is
      out of reach of the dequeue, and nothing is sent before its time.
    - FqReset: the references to a flow are counted over every run, and a
      reset is shown to leave the packets of throttled flows behind.
    - ArenaHtab (progs/arena_htab.rs).  Arena memory, the allocator, the lists
      and the table, in a monad of computations that may fault.  Nothing faults;
      the table is a finite map; its pointers are the user's; the driver binds
      every key it has memory for to itself, the first 127 in any case.
    - ArenaSpinLock (progs/arena_spin_lock.rs).  CPUs running [prog] at once over
      a memory with release and acquire views, a step per access; mutual
      exclusion without races, a counter no increment of which is lost, and
      the end of every run.
    - Packet: packets as lists of bytes, shared by the packet programs.
    - Flow (progs/bpf_flow.rs).  One definition per program; the tail calls are
      unfolded as often as the kernel allows.  The reference is a tree of
      headers: [encode] gives its bytes and [expect] what a dissector should
      say; [flow_dissects] proves that the programs say it.  On arbitrary bytes
      ports come from inside the packet only; for a TCP header outside the
      linear part the verdict is shown to depend on the address of the stack.
    - Bpf, Asm: the instruction set, as far as the naked programs use it, and
      the assembler from the source's strings.
    - Range: an executable analysis of the values of registers and stack slots
      (unions of intervals, low halves, frame addresses; small sets of values
      are split into paths), proved sound against the instruction semantics.
    - Loader (bpf-rs-core/src/lib.rs, [test_tags!]): the tags, and what a
      [__success] test with [__retval], [__msg] and [__xlated] tags promises.
    - States: the states of registers and stack slots a log line shows, and what
      it means that they are true whenever a run is there.  A line that speaks
      of a value and cannot be read makes its test fail.
    - Loops: what the log lines about loops say (header counts, widened ranges,
      linear variables), and a sound check of it on every path.
    - Sdiv, DivModBounds, Div0, DivOverflow, Subreg, Movsx, Bswap, Masking
      (progs/verifier_sdiv.rs and so on): every naked function with its tags
      and text verbatim, in the file's order.  The *_tests_pass theorems state
      that every test declared to succeed returns its declared value from
      every start and for all helper results, and that the register states of
      its expected verifier log hold; further theorems treat the rewritten
      listings of the division tests, the masking sequence for every index and
      limit, and two programs the verifier must refuse, which are shown to
      deserve it.
    - Scev (progs/verifier_scev.rs), Bounds, Stack, Widths, Paths (each several
      files of src/progs/, named in its header): the accepted programs the
      machine can run, verbatim.  [modelled] lists them; they return as
      declared, and what is logged of their registers, stack slots and loops is
      true.  The headers say which programs are left out, and why.
    - Suite states the files' theorems together.
    - XdpLb (progs/xdp_lb_bench.rs).  The packet is a list of bytes, the maps
      and globals a record; [process_packet] follows the labelled block of the
      code.  Its theorem says what is sent (a valid outer header to a real of
      the table, the packet behind it) and what is counted; the driver
      [xdp_lb_bench] puts the packet back after each timed iteration; flows
      stay with their real; the hash ring is never left.
    - Early: the monad of computations that fault outside the packet or return
      early, which the next two groups use.
    - XdpSynproxy (progs/xdp_synproxy_kern.rs): the model of the SYN proxy, with the safety of every step, the checksums and the option parser.
    - Synack: the answer to a SYN byte by byte, as the code builds it over the
      request, and that its checksums are right.
    - SynProxy: the programs as a whole.  A packet is sent back only for a
      valid SYN and is exactly its SYN-ACK; every valid SYN is answered; no
      byte outside the packet is touched and no connection reference kept; the
      TC program does what the XDP program does; the time stamp of an answer
      tells what the client offered.
    - ClsRedirect (progs/test_cls_redirect.rs): the model of the decapsulator, a
      cursor over a packet of which a part is mapped, and the reference: the
      decision as a function of the packet's bytes, and the bytes that leave.
      ClsParse, ClsForward, ClsDecide: parsing and classifying follow the
      reference, so do the actions, and so does the program; a packet sent on
      in GUE is one the next host accepts.

    ** Bounds and fuel

    [Range.analyze] has the fuel [Loader.FUEL] = 200: it is the length of the
    longest path explored, and a success of the analysis proves it was enough;
    a run of the program then ends within it; [Loops.LOOP_FUEL] = 3000 plays the
    same part for the programs with loops.  [Range.LIMIT] = 4096 is the
    size up to which a set of values is enumerated rather than abstracted.
    [Flow.program] counts the tail calls left; at 0 a call fails, as in the
    kernel.  [ArenaHtab.scan] counts the rounds can_loop grants, more than the arena
    holds elements.  [XdpSynproxy.parse_options] runs six batches of seven
    options as the code does, enough for the forty bytes a header holds;
    [ClsRedirect.skip_headers] has the six rounds of the code.  The
    loops of the callbacks need no fuel of their own: their bounds are the
    code's.

    ** What is not modelled

    The verifier and the just-in-time compilers (the kernel); the other
    verifier tests, whose subject is what the kernel lets a program do with
    its own objects (maps, references, dynptrs, iterators, packet and context
    pointers), and the programs of the groups Scev to Paths that the loader
    expects to be rejected; the programs that record one event in a global
    (tracing, LSM, sockmap); the bindings of bpf-rs-core; the Python tools.  *)

From Stdlib Require Export ZArith Lia List Bool.
From coqutil Require Export Datatypes.RecordSettersUsingExistingGetters.
Export ListNotations.
#[global] Open Scope Z_scope.
#[global] Arguments const {E} newValue _ /.

(** * Machine integers

    Rust's [u8] ... [u64] and [i32], [i64] are represented by [Z]; an unsigned
    [w]-bit value is in [0, 2^w).  [uw w] is the [as u<w>] cast, [sw w] the
    [as i<w>] cast, and the wrapping operations are the mathematical ones
    followed by the cast. *)

Definition uw (w z : Z) : Z := z mod 2 ^ w.
Definition sw (w z : Z) : Z :=
  let r := uw w z in if r <? 2 ^ (w - 1) then r else r - 2 ^ w.

Abbreviation u8 := (uw 8).
Abbreviation u16 := (uw 16).
Abbreviation u32 := (uw 32).
Abbreviation u64 := (uw 64).
Abbreviation i32 := (sw 32).
Abbreviation i64 := (sw 64).

Definition is_u (w z : Z) : Prop := 0 <= z < 2 ^ w.
Abbreviation is_u8 := (is_u 8).
Abbreviation is_u16 := (is_u 16).
Abbreviation is_u32 := (is_u 32).
Abbreviation is_u64 := (is_u 64).

(** Shifts of a [w]-bit word: Rust masks nothing here because every shift
    amount in the modelled code is below the width. *)
Definition shl (w a n : Z) : Z := uw w (Z.shiftl a n).
Definition shr (a n : Z) : Z := Z.shiftr a n.
Definition rotl (w a n : Z) : Z := Z.lor (shl w a n) (Z.shiftr a (w - n)).
Definition notw (w a : Z) : Z := uw w (Z.lnot a).

Arguments uw : simpl never.
Arguments sw : simpl never.
Arguments shl : simpl never.
Arguments shr : simpl never.
Arguments rotl : simpl never.
Arguments notw : simpl never.

Declare Scope w32_scope.
Delimit Scope w32_scope with w32.
Declare Scope w64_scope.
Delimit Scope w64_scope with w64.
Notation "a ⊞ b" := (uw 32 (a + b)) (at level 50, left associativity) : w32_scope.
Notation "a ⊟ b" := (uw 32 (a - b)) (at level 50, left associativity) : w32_scope.
Notation "a ⊠ b" := (uw 32 (a * b)) (at level 40, left associativity) : w32_scope.
Notation "a ⊞ b" := (uw 64 (a + b)) (at level 50, left associativity) : w64_scope.
Notation "a ⊟ b" := (uw 64 (a - b)) (at level 50, left associativity) : w64_scope.
Notation "a ⊠ b" := (uw 64 (a * b)) (at level 40, left associativity) : w64_scope.

(** ** Automation *)

Create HintDb words.

(** Turn boolean tests of the code into propositions, everywhere. *)
Ltac bsimp :=
  repeat match goal with
  | H : (_ =? _) = true |- _ => apply Z.eqb_eq in H
  | H : (_ =? _) = false |- _ => apply Z.eqb_neq in H
  | H : (_ <? _) = true |- _ => apply Z.ltb_lt in H
  | H : (_ <? _) = false |- _ => apply Z.ltb_ge in H
  | H : (_ <=? _) = true |- _ => apply Z.leb_le in H
  | H : (_ <=? _) = false |- _ => apply Z.leb_gt in H
  | H : negb _ = true |- _ => apply negb_true_iff in H
  | H : negb _ = false |- _ => apply negb_false_iff in H
  | H : (_ && _)%bool = true |- _ => apply andb_true_iff in H; destruct H
  | H : (_ || _)%bool = false |- _ => apply orb_false_iff in H; destruct H
  end.

(** Case split on the tests of the goal and simplify them. *)
Ltac case_if :=
  match goal with
  | |- context [if ?b then _ else _] =>
      lazymatch b with
      | context [if _ then _ else _] => fail
      | _ => let E := fresh "Hif" in destruct b eqn:E
      end
  end.
Ltac case_if_in H :=
  match type of H with
  | context [if ?b then _ else _] => let E := fresh "Hif" in destruct b eqn:E
  end.
Ltac case_ifs := repeat (case_if; cbn [negb andb orb fst snd]); bsimp.

(** Linear arithmetic with the casts unfolded. *)
Ltac wunfold := unfold is_u, sw, uw in *.
Ltac word_lia := wunfold; Z.div_mod_to_equations; lia.

(** ** Casts *)

Lemma uw_range w z : 0 <= w -> is_u w (uw w z).
Proof. intros; apply Z.mod_pos_bound, Z.pow_pos_nonneg; lia. Qed.

Lemma u8_range z : is_u8 (u8 z).
Proof. now apply uw_range. Qed.
Lemma u16_range z : is_u16 (u16 z).
Proof. now apply uw_range. Qed.
Lemma u32_range z : is_u32 (u32 z).
Proof. now apply uw_range. Qed.
Lemma u64_range z : is_u64 (u64 z).
Proof. now apply uw_range. Qed.

Lemma uw_small w z : is_u w z -> uw w z = z.
Proof. apply Z.mod_small. Qed.

Lemma uw_uw w z : 0 <= w -> uw w (uw w z) = uw w z.
Proof. intros; apply uw_small, uw_range; lia. Qed.

Lemma is_u_mono v w z : 0 <= v <= w -> is_u v z -> is_u w z.
Proof.
  intros Hvw Hz; unfold is_u in *.
  pose proof (Z.pow_le_mono_r 2 v w); lia.
Qed.

Lemma is_u_min w a b : is_u w a -> is_u w b -> is_u w (Z.min a b).
Proof. unfold is_u; lia. Qed.
Lemma is_u_max w a b : is_u w a -> is_u w b -> is_u w (Z.max a b).
Proof. unfold is_u; lia. Qed.

Lemma is_u_div w a b : is_u w a -> 0 <= b -> is_u w (a / b).
Proof.
  unfold is_u; intros Ha Hb.
  destruct (Z.eq_dec b 0) as [->|]; [rewrite Z.div_0_r; lia|].
  split; [apply Z.div_pos; lia|].
  apply Z.le_lt_trans with a; [apply Z.div_le_upper_bound; nia | lia].
Qed.

Lemma shiftr_div a n : 0 <= n -> Z.shiftr a n = a / 2 ^ n.
Proof. apply Z.shiftr_div_pow2. Qed.

Lemma is_u_shr w a n : is_u w a -> 0 <= n -> is_u w (shr a n).
Proof.
  intros; unfold shr; rewrite shiftr_div by lia.
  apply is_u_div; [assumption | apply Z.pow_nonneg; lia].
Qed.

Lemma is_u_land n a b : 0 <= n -> is_u n a -> is_u n b -> is_u n (Z.land a b).
Proof.
  unfold is_u; intros Hn Ha Hb; split; [apply Z.land_nonneg; lia|].
  destruct (Z.eq_dec (Z.land a b) 0) as [->|]; [apply Z.pow_pos_nonneg; lia|].
  assert (0 <= Z.land a b) by (apply Z.land_nonneg; lia).
  apply Z.log2_lt_pow2; [lia|].
  pose proof (Z.log2_land a b ltac:(lia) ltac:(lia)).
  destruct (Z.eq_dec a 0) as [->|]; [rewrite Z.land_0_l in *; lia|].
  assert (Z.log2 a < n) by (apply Z.log2_lt_pow2; lia). lia.
Qed.

Lemma is_u_lor_lxor n a b : 0 < n -> is_u n a -> is_u n b ->
  is_u n (Z.lor a b) /\ is_u n (Z.lxor a b).
Proof.
  unfold is_u; intros Hn Ha Hb.
  assert (L : forall x, 0 <= x < 2 ^ n -> Z.log2 x < n).
  { intros x Hx; destruct (Z.eq_dec x 0) as [->|]; [cbn; lia|].
    apply Z.log2_lt_pow2; lia. }
  pose proof (L a Ha); pose proof (L b Hb).
  assert (0 <= Z.lor a b) by (apply Z.lor_nonneg; lia).
  assert (0 <= Z.lxor a b) by (apply Z.lxor_nonneg; lia).
  pose proof (Z.log2_lor a b ltac:(lia) ltac:(lia)).
  pose proof (Z.log2_lxor a b ltac:(lia) ltac:(lia)).
  assert (0 < 2 ^ n) by (apply Z.pow_pos_nonneg; lia).
  split; split; try lia.
  - destruct (Z.eq_dec (Z.lor a b) 0) as [->|]; [lia|]. apply Z.log2_lt_pow2; lia.
  - destruct (Z.eq_dec (Z.lxor a b) 0) as [->|]; [lia|]. apply Z.log2_lt_pow2; lia.
Qed.

Lemma sw_range w z : 0 < w -> - 2 ^ (w - 1) <= sw w z < 2 ^ (w - 1).
Proof.
  intros Hw; unfold sw.
  pose proof (uw_range w z ltac:(lia)) as Hr; unfold is_u in Hr.
  assert (2 ^ w = 2 * 2 ^ (w - 1)) as E.
  { replace w with (Z.succ (w - 1)) at 1 by lia; rewrite Z.pow_succ_r; lia. }
  destruct (Z.ltb_spec (uw w z) (2 ^ (w - 1))); lia.
Qed.

Lemma sw_small w z : 0 < w -> - 2 ^ (w - 1) <= z < 2 ^ (w - 1) -> sw w z = z.
Proof.
  intros Hw Hz; unfold sw, uw.
  assert (2 ^ w = 2 * 2 ^ (w - 1)) as E.
  { replace w with (Z.succ (w - 1)) at 1 by lia; rewrite Z.pow_succ_r; lia. }
  destruct (Z.leb_spec 0 z).
  - rewrite Z.mod_small by lia. destruct (Z.ltb_spec z (2 ^ (w - 1))); lia.
  - replace (z mod 2 ^ w) with (z + 2 ^ w)
      by (symmetry; rewrite <- (Z_mod_plus_full z 1), Z.mul_1_l; apply Z.mod_small; lia).
    destruct (Z.ltb_spec (z + 2 ^ w) (2 ^ (w - 1))); lia.
Qed.

Lemma i32_small z : - 2 ^ 31 <= z < 2 ^ 31 -> i32 z = z.
Proof. intros; apply sw_small; [lia|assumption]. Qed.
Lemma i64_small z : - 2 ^ 63 <= z < 2 ^ 63 -> i64 z = z.
Proof. intros; apply sw_small; [lia|assumption]. Qed.
Lemma i32_range z : - 2 ^ 31 <= i32 z < 2 ^ 31.
Proof. now apply (sw_range 32). Qed.
Lemma i64_range z : - 2 ^ 63 <= i64 z < 2 ^ 63.
Proof. now apply (sw_range 64). Qed.

(** A cast only looks at the value modulo [2^w]. *)
Lemma uw_sw w z : 0 < w -> uw w (sw w z) = uw w z.
Proof.
  intros Hw; unfold sw.
  destruct (uw w z <? 2 ^ (w - 1)); [apply uw_uw; lia|].
  unfold uw. rewrite Zminus_mod, Z_mod_same_full, Z.sub_0_r, !Zmod_mod. reflexivity.
Qed.

#[export] Hint Resolve u8_range u16_range u32_range u64_range is_u_min is_u_max
  is_u_shr : words.
#[export] Hint Extern 2 (is_u _ _) => (unfold is_u; lia) : words.
#[export] Hint Extern 1 (0 <= _) => lia : words.

(** * Lists *)

Lemma flat_map_ext_in {A B} (f g : A -> list B) l :
  (forall a, In a l -> f a = g a) -> flat_map f l = flat_map g l.
Proof.
  induction l as [|a l IH]; intros H; [reflexivity|]; cbn [flat_map].
  rewrite (H a) by now left. rewrite IH; [reflexivity|]. intros b Hb; apply H; now right.
Qed.

(** * State-passing computations

    A handler that mutates shared state is a function from the state to its
    result and the new state. *)

Definition ST (S A : Type) : Type := S -> A * S.
Definition ret {S A} (a : A) : ST S A := fun s => (a, s).
Definition bind {S A B} (m : ST S A) (k : A -> ST S B) : ST S B :=
  fun s => let (a, s') := m s in k a s'.
Definition get {S A} (f : S -> A) : ST S A := fun s => (f s, s).
Definition modify {S} (f : S -> S) : ST S unit := fun s => (tt, f s).
Definition when {S} (b : bool) (m : ST S unit) : ST S unit := if b then m else ret tt.

Declare Scope st_scope.
Delimit Scope st_scope with st.
Notation "x <- c ;; k" := (bind c (fun x => k))
  (at level 61, c at next level, right associativity) : st_scope.
Notation "c ;; k" := (bind c (fun _ => k))
  (at level 61, right associativity) : st_scope.

(** ** Reasoning about state-passing computations *)

Section Triples.
Context {S : Type}.

(** [triple P m Q]: from a state in [P], [m] ends in [Q] of its result and the
    new state. *)
Definition triple {A} (P : S -> Prop) (m : ST S A) (Q : A -> S -> Prop) : Prop :=
  forall s, P s -> Q (fst (m s)) (snd (m s)).

Definition preserves {A} (P : S -> Prop) (m : ST S A) : Prop := triple P m (fun _ => P).

Lemma triple_ret {A} (a : A) (P : S -> Prop) (Q : A -> S -> Prop) :
  (forall s, P s -> Q a s) -> triple P (ret a) Q.
Proof. intros H s; apply H. Qed.

Lemma triple_bind {A B} (m : ST S A) (k : A -> ST S B) P Q R :
  triple P m Q -> (forall a, triple (Q a) (k a) R) -> triple P (bind m k) R.
Proof.
  intros Hm Hk s Hs; unfold bind. specialize (Hm s Hs).
  destruct (m s) as [a s']; apply Hk, Hm.
Qed.

Lemma triple_get {A} (f : S -> A) (P : S -> Prop) (Q : A -> S -> Prop) :
  (forall s, P s -> Q (f s) s) -> triple P (get f) Q.
Proof. intros H s; apply H. Qed.

Lemma triple_modify (f : S -> S) (P : S -> Prop) (Q : unit -> S -> Prop) :
  (forall s, P s -> Q tt (f s)) -> triple P (modify f) Q.
Proof. intros H s; apply H. Qed.

Lemma triple_if {A} (b : bool) (m n : ST S A) P Q :
  (b = true -> triple P m Q) -> (b = false -> triple P n Q) ->
  triple P (if b then m else n) Q.
Proof. destruct b; auto. Qed.

Lemma triple_when (b : bool) (m : ST S unit) P (Q : unit -> S -> Prop) :
  (b = true -> triple P m Q) -> (b = false -> forall s, P s -> Q tt s) ->
  triple P (when b m) Q.
Proof. destruct b; cbn; [auto|]. intros _ H; apply triple_ret; auto. Qed.

Lemma triple_weaken {A} (m : ST S A) (P P' : S -> Prop) (Q Q' : A -> S -> Prop) :
  triple P m Q -> (forall s, P' s -> P s) -> (forall a s, Q a s -> Q' a s) -> triple P' m Q'.
Proof. intros H HP HQ s Hs; apply HQ, H, HP, Hs. Qed.

Lemma preserves_ret {A} (a : A) P : preserves P (ret a).
Proof. apply triple_ret; auto. Qed.

Lemma preserves_get {A} (f : S -> A) P : preserves P (get f).
Proof. apply triple_get; auto. Qed.

Lemma preserves_bind {A B} (m : ST S A) (k : A -> ST S B) P :
  preserves P m -> (forall a, preserves P (k a)) -> preserves P (bind m k).
Proof. apply triple_bind. Qed.

Lemma preserves_when b (m : ST S unit) P : (b = true -> preserves P m) -> preserves P (when b m).
Proof. intros; apply triple_when; auto. Qed.

Lemma preserves_if {A} (b : bool) (m n : ST S A) P :
  (b = true -> preserves P m) -> (b = false -> preserves P n) ->
  preserves P (if b then m else n).
Proof. destruct b; auto. Qed.

Lemma preserves_modify (f : S -> S) P : (forall s, P s -> P (f s)) -> preserves P (modify f).
Proof. intros H s Hs; apply (H s Hs). Qed.

End Triples.

Create HintDb inv.
#[export] Hint Resolve preserves_ret preserves_get : inv.

(** Walk through a handler, leaving one goal per state update. *)
Ltac preserve :=
  repeat first
    [ apply preserves_bind; [| intro] | apply preserves_when; intro
    | apply preserves_if; intro | solve [auto with inv] ].
