(* ===== verification/Kernel.v ===== *)
(** Interfaces to the kernel's graph kfuncs, iterator and loop helper.

    The qdisc programs store their nodes in [bpf_list_head]s and
    [bpf_rb_root]s and walk them with [bpf_loop] and [bpf_iter_num], all of
    which live in the kernel.  Each is a class: the operations the programs
    call, a view of the abstract contents, and the laws they rely on.  The
    instances at the end ([list_klist], [list_ktree]) show the laws can be
    met and make the programs executable. *)

From S2P Require Import Prelude.

(** ** Lists: bpf_list_push_front, bpf_list_push_back, bpf_list_pop_front, bpf_list_empty *)

Class KList (A : Type) := {
  klist : Type;
  kl_empty : klist;
  bpf_list_push_back : klist -> A -> klist;
  bpf_list_push_front : klist -> A -> klist;
  bpf_list_pop_front : klist -> option A * klist;
  bpf_list_empty : klist -> bool;
  kl_elems : klist -> list A
}.

Class KListLaws (A : Type) {KL : KList A} : Prop := {
  elems_empty : kl_elems kl_empty = [];
  elems_push_back l a : kl_elems (bpf_list_push_back l a) = kl_elems l ++ [a];
  elems_push_front l a : kl_elems (bpf_list_push_front l a) = a :: kl_elems l;
  pop_front_nil l : kl_elems l = [] ->
    fst (bpf_list_pop_front l) = None /\ kl_elems (snd (bpf_list_pop_front l)) = [];
  pop_front_cons l a r : kl_elems l = a :: r ->
    fst (bpf_list_pop_front l) = Some a /\ kl_elems (snd (bpf_list_pop_front l)) = r;
  list_empty_spec l : bpf_list_empty l = match kl_elems l with [] => true | _ => false end
}.

(** ** Red-black trees: bpf_rbtree_add, bpf_rbtree_first, bpf_rbtree_remove

    A node is filed under the key its comparator reads; among equal keys a
    later insertion goes behind ([less a b] is false, so the search descends
    to the right). *)

Section SortedInsert.
Context {A : Type} (key : A -> Z).

Fixpoint sorted_insert (a : A) (l : list A) : list A :=
  match l with
  | [] => [a]
  | b :: r => if key a <? key b then a :: l else b :: sorted_insert a r
  end.

Fixpoint sorted (l : list A) : Prop :=
  match l with
  | [] => True
  | a :: r => Forall (fun b => key a <= key b) r /\ sorted r
  end.

Lemma insert_Forall (P : A -> Prop) a l : P a -> Forall P l -> Forall P (sorted_insert a l).
Proof.
  intros Ha; induction 1 as [|b r Hb Hr IH]; cbn; [auto|]. case_if; auto.
Qed.

Lemma insert_sorted a l : sorted l -> sorted (sorted_insert a l).
Proof.
  induction l as [|b r IH]; cbn; [auto|]. intros [Hb Hr]. case_if; bsimp; cbn.
  - split; [|auto]. constructor; [lia|].
    eapply Forall_impl; [|exact Hb]. cbn; intros; lia.
  - split; [|auto]. apply insert_Forall; [lia | exact Hb].
Qed.

Lemma insert_split a l : exists l1 l2, l = l1 ++ l2 /\ sorted_insert a l = l1 ++ a :: l2.
Proof.
  induction l as [|b r (l1 & l2 & -> & E)]; cbn; [now exists [], []|].
  case_if; [now exists [], (b :: l1 ++ l2) | exists (b :: l1), l2]. now rewrite E.
Qed.

End SortedInsert.

Class KTree (A : Type) := {
  ktree : Type;
  kt_empty : ktree;
  bpf_rbtree_add : (A -> Z) -> ktree -> A -> ktree;
  bpf_rbtree_first : ktree -> option A;
  bpf_rbtree_remove_first : ktree -> option A * ktree;
  kt_elems : ktree -> list A
}.

Class KTreeLaws (A : Type) {KT : KTree A} : Prop := {
  tree_empty : kt_elems kt_empty = [];
  tree_add key t a : kt_elems (bpf_rbtree_add key t a) = sorted_insert key a (kt_elems t);
  tree_first t : bpf_rbtree_first t = hd_error (kt_elems t);
  tree_remove_nil t : kt_elems t = [] ->
    fst (bpf_rbtree_remove_first t) = None /\ kt_elems (snd (bpf_rbtree_remove_first t)) = [];
  tree_remove_cons t a r : kt_elems t = a :: r ->
    fst (bpf_rbtree_remove_first t) = Some a /\ kt_elems (snd (bpf_rbtree_remove_first t)) = r
}.

(** ** Loops: bpf_loop and bpf_iter_num

    Both run a body that may ask to stop (first component [true]); the number
    of rounds is limited to BPF_MAX_LOOPS. *)

Definition BPF_MAX_LOOPS := 2 ^ 23.

Fixpoint run_loop {S} (n : nat) (body : S -> bool * S) (s : S) : S :=
  match n with
  | O => s
  | Datatypes.S n => let (stop, s) := body s in if stop : bool then s else run_loop n body s
  end.

Class KLoop := {
  bpf_loop : forall {S : Type}, Z -> (S -> bool * S) -> S -> S;
  bpf_for : forall {S : Type}, Z -> (S -> bool * S) -> S -> S;
  bpf_loop_spec : forall (S : Type) n (body : S -> bool * S) s,
    0 <= n <= BPF_MAX_LOOPS -> bpf_loop n body s = run_loop (Z.to_nat n) body s;
  bpf_for_spec : forall (S : Type) n (body : S -> bool * S) s,
    0 <= n <= BPF_MAX_LOOPS -> bpf_for n body s = run_loop (Z.to_nat n) body s
}.

Lemma run_loop_inv {S} (P : S -> Prop) n body (s : S) :
  (forall s, P s -> P (snd (body s))) -> P s -> P (run_loop n body s).
Proof.
  intros Hb; revert s; induction n as [|n IH]; intros s Hs; [exact Hs|]; cbn [run_loop].
  specialize (Hb s Hs). destruct (body s) as [[] s']; [exact Hb | now apply IH].
Qed.

(** A loop that either is stopped or runs out of rounds. *)
Lemma run_loop_stop {S} (P Q : S -> Prop) n (body : S -> bool * S) (s : S) :
  (forall s, P s -> let (stop, s') := body s in if stop : bool then Q s' else P s') ->
  P s -> Q (run_loop n body s) \/ P (run_loop n body s).
Proof.
  intros Hb; revert s; induction n as [|n IH]; intros s Hs; [now right|]; cbn [run_loop].
  specialize (Hb s Hs). destruct (body s) as [[] s']; [now left | now apply IH].
Qed.

(** ** Instances *)

#[export] Instance list_klist (A : Type) : KList A := {|
  klist := list A;
  kl_empty := [];
  bpf_list_push_back l a := l ++ [a];
  bpf_list_push_front l a := a :: l;
  bpf_list_pop_front l := match l with [] => (None, []) | a :: r => (Some a, r) end;
  bpf_list_empty l := match l with [] => true | _ => false end;
  kl_elems l := l
|}.

#[export] Instance list_klist_laws (A : Type) : KListLaws A.
Proof. constructor; cbn; intros; subst; auto. Qed.

#[export] Instance list_ktree (A : Type) : KTree A := {|
  ktree := list A;
  kt_empty := [];
  bpf_rbtree_add key t a := sorted_insert key a t;
  bpf_rbtree_first t := hd_error t;
  bpf_rbtree_remove_first t := match t with [] => (None, []) | a :: r => (Some a, r) end;
  kt_elems t := t
|}.

#[export] Instance list_ktree_laws (A : Type) : KTreeLaws A.
Proof. constructor; cbn; intros; subst; auto. Qed.

#[export] Instance run_kloop : KLoop := {|
  bpf_loop S n body s := run_loop (Z.to_nat n) body s;
  bpf_for S n body s := run_loop (Z.to_nat n) body s;
  bpf_loop_spec S n body s _ := eq_refl;
  bpf_for_spec S n body s _ := eq_refl
|}.
