(* ===== verification/Cubic.v ===== *)
(** BPF CUBIC congestion control: progs/bpf_cubic.rs.

    The state is the private area [BpfBictcp] of the socket, the socket fields
    the program reads and writes ([tcp_sock]) and the program's globals.  The
    CO-RE reads, helpers and kfuncs are the fields of [Kernel].  The bounds on
    [cubic_root] come from a table of intervals checked by computation
    ([cell_ok]) and an analysis of the Newton step over each. *)

From S2P Require Import Prelude.
Local Open Scope st_scope.

Module Cubic.

(** ** Constants *)

Definition SOL_TCP := 6.
Definition TCP_NODELAY := 1.
Definition EOPNOTSUPP := 95.
Definition USEC_PER_MSEC := 1000.
Definition USEC_PER_SEC := 1000000.
Definition BICTCP_BETA_SCALE := 1024.
Definition BICTCP_HZ := 10.
Definition HYSTART_ACK_TRAIN := 1.
Definition HYSTART_DELAY := 2.
Definition HYSTART_DETECT := Z.lor HYSTART_ACK_TRAIN HYSTART_DELAY.
Definition HYSTART_MIN_SAMPLES := 8.
Definition HYSTART_DELAY_MIN := 4000.
Definition HYSTART_DELAY_MAX := 16000.
Definition FAST_CONVERGENCE := 1.
Definition BETA := 717.
Definition INITIAL_SSTHRESH := 0.
Definition BIC_SCALE := 41.
Definition TCP_FRIENDLINESS := 1.
Definition HYSTART := 1.
Definition HYSTART_LOW_WINDOW := 16.
Definition HYSTART_ACK_DELTA_US := 2000.
Definition CUBE_RTT_SCALE := BIC_SCALE * 10.
Definition BETA_SCALE := 8 * (BICTCP_BETA_SCALE + BETA) / 3 / (BICTCP_BETA_SCALE - BETA).
Definition CUBE_FACTOR := Z.shiftl 1 (10 + 3 * BICTCP_HZ) / (BIC_SCALE * 10).
Definition GSO_MAX_SIZE := 65536.
Definition SK_PACING_NONE := 0.
Definition TCP_CA_LOSS := 4.

(** The lookup table of [cubic_root]. *)
Definition V : list Z :=
  [ 0; 54; 54; 54; 118; 118; 118; 118; 123; 129; 134; 138; 143; 147; 151; 156; 157; 161; 164; 168;
    170; 173; 176; 179; 181; 185; 187; 190; 192; 194; 197; 199; 200; 202; 204; 206; 209; 211; 213;
    215; 217; 219; 221; 222; 224; 225; 227; 229; 231; 232; 234; 236; 237; 239; 240; 242; 244; 245;
    246; 248; 250; 251; 252; 254 ].

(** ** State *)

(** The private area [icsk_ca_priv] of the socket. *)
Record BpfBictcp := {
  cnt : Z;
  last_max_cwnd : Z;
  last_cwnd : Z;
  last_time : Z;
  bic_origin_point : Z;
  bic_k : Z;
  delay_min : Z;
  epoch_start : Z;
  ack_cnt : Z;
  tcp_cwnd : Z;
  unused : Z;
  sample_cnt : Z;
  found : Z;
  round_start : Z;
  end_seq : Z;
  last_ack : Z;
  curr_rtt : Z
}.

(** The CO-RE view of the kernel socket; [flags_byte] is the byte that follows
    [scaling_ratio], which holds the [is_cwnd_limited] bit. *)
Record tcp_sock := {
  snd_cwnd : Z;
  snd_ssthresh : Z;
  lsndtime : Z;
  snd_nxt : Z;
  tcp_mstamp : Z;
  max_packets_out : Z;
  flags_byte : Z;
  sk_pacing_rate : Z;
  sk_pacing_status : Z
}.

(** Calls into the kernel, in the order the program makes them. *)
Inductive kcall :=
| CallSetsockopt (level optname value : Z)
| CallSlowStart (acked : Z)
| CallCongAvoidAi (w acked : Z)
| CallUndoCwnd.

(** One connection and the program's globals.  [reads] counts the calls of
    [bpf_jiffies64], each of which may see a later clock. *)
Record world := {
  ca : BpfBictcp;
  tp : tcp_sock;
  nodelay_init_reject : bool;
  nodelay_cwnd_event_tx_start_reject : bool;
  bpf_cubic_acked_called : Z;
  reads : nat;
  calls : list kcall
}.

(** The kernel side: the build-time [CONFIG_HZ], the clock, the helper and the
    kfuncs.  They see and may change the kernel's part of the socket. *)
Class Kernel := {
  CONFIG_HZ : Z;
  CONFIG_HZ_ok : 0 < CONFIG_HZ < 2 ^ 64;
  bpf_jiffies64 : nat -> Z;
  bpf_setsockopt : tcp_sock -> Z -> Z -> Z -> Z * tcp_sock;
  k_tcp_slow_start : tcp_sock -> Z -> Z * tcp_sock;
  k_tcp_cong_avoid_ai : tcp_sock -> Z -> Z -> tcp_sock;
  k_tcp_reno_undo_cwnd : tcp_sock -> Z * tcp_sock
}.

(** ** Integer helpers *)

Definition before (seq1 seq2 : Z) : bool := i32 (seq1 ⊟ seq2)%w32 <? 0.
Definition after (seq2 seq1 : Z) : bool := before seq1 seq2.
Definition safe_div_u32 (a b : Z) : Z := if negb (b =? 0) then a / b else 0.
Definition safe_div_u64 (a b : Z) : Z := if negb (b =? 0) then a / b else 0.

(** One [if x & (!0u64 << k) == 0 { num -= n; x <<= n; }] step of [fls64]. *)
Definition fls_step (k n : Z) (st : Z * Z) : Z * Z :=
  let (num, x) := st in
  if Z.land x (shl 64 (2 ^ 64 - 1) k) =? 0 then (num - n, shl 64 x n) else (num, x).

Definition fls64 (x_in : Z) : Z :=
  if x_in =? 0 then 0 else
  let st := (63, x_in) in
  let st := fls_step 32 32 st in
  let st := fls_step 48 16 st in
  let st := fls_step 56 8 st in
  let st := fls_step 60 4 st in
  let st := fls_step 62 2 st in
  let num := if Z.land (snd st) (shl 64 (2 ^ 64 - 1) 63) =? 0 then fst st - 1 else fst st in
  u32 (num + 1).

(** [V.get(i).copied().unwrap_or(0)] *)
Definition V_get (i : Z) : Z := nth (Z.to_nat i) V 0.

Arguments V_get : simpl never.

Definition cubic_root (a : Z) : Z :=
  if a <? 64 then shr (V_get a + 35) 6 else
  let b0 := fls64 a in
  let b := (shr (b0 ⊠ 84) 8 ⊟ 1)%w32 in
  let shift := u32 (shr a (b ⊠ 3)%w32) in
  if 64 <=? shift then 0 else
  let x := shl 32 (V_get shift ⊞ 10)%w32 b in
  let x := shr x 6 in
  let denom := (x ⊠ (x ⊟ 1)%w32)%w64 in
  let x := ((2 ⊠ x) ⊞ u32 (safe_div_u64 a denom))%w32 in
  shr (x ⊠ 341)%w32 10.

(** ** Operations *)

Section Operations.
Context {K : Kernel}.

Definition hz : Z := CONFIG_HZ.
Definition usec_per_jiffy : Z := USEC_PER_SEC / hz.

(** Every [tcp_jiffies32()] is a fresh [bpf_jiffies64()] call. *)
Definition tcp_jiffies32 : ST world Z := fun w =>
  (u32 (bpf_jiffies64 (reads w)), w <| reads ::= S |>).

Definition mod_ca (f : BpfBictcp -> BpfBictcp) : ST world unit := modify (fun w => w <| ca ::= f |>).
Definition mod_tp (f : tcp_sock -> tcp_sock) : ST world unit := modify (fun w => w <| tp ::= f |>).

(** A kfunc call: recorded, and run on the kernel's part of the socket. *)
Definition kfunc {A} (c : kcall) (f : tcp_sock -> A * tcp_sock) : ST world A := fun w =>
  let (r, t) := f (tp w) in (r, w <| tp := t |> <| calls ::= (fun l => l ++ [c]) |>).

Definition setsockopt_nodelay : ST world Z :=
  kfunc (CallSetsockopt SOL_TCP TCP_NODELAY 1)
        (fun t => bpf_setsockopt t SOL_TCP TCP_NODELAY 1).
Definition tcp_slow_start (acked : Z) : ST world Z :=
  kfunc (CallSlowStart acked) (fun t => k_tcp_slow_start t acked).
Definition tcp_cong_avoid_ai (w acked : Z) : ST world unit :=
  kfunc (CallCongAvoidAi w acked) (fun t => (tt, k_tcp_cong_avoid_ai t w acked)).
Definition tcp_reno_undo_cwnd : ST world Z :=
  kfunc CallUndoCwnd (fun t => k_tcp_reno_undo_cwnd t).

Definition bictcp_reset (c : BpfBictcp) : BpfBictcp :=
  c <| cnt := 0 |> <| last_max_cwnd := 0 |> <| last_cwnd := 0 |> <| last_time := 0 |>
    <| bic_origin_point := 0 |> <| bic_k := 0 |> <| delay_min := 0 |> <| epoch_start := 0 |>
    <| ack_cnt := 0 |> <| tcp_cwnd := 0 |> <| found := 0 |>.

Definition bictcp_clock_us (t : tcp_sock) : Z := u32 (tcp_mstamp t).

Definition bictcp_hystart_reset (t : tcp_sock) (c : BpfBictcp) : BpfBictcp :=
  let now := bictcp_clock_us t in
  c <| round_start := now |> <| last_ack := now |> <| end_seq := snd_nxt t |>
    <| curr_rtt := notw 32 0 |> <| sample_cnt := 0 |>.

Definition hystart_reset : ST world unit := modify (fun w => w <| ca ::= bictcp_hystart_reset (tp w) |>).

(** The start of a new epoch, [if epoch_start == 0 { ... }] of [bictcp_update],
    at the clock value [now]. *)
Definition bictcp_epoch (cwnd acked now : Z) (c : BpfBictcp) : BpfBictcp :=
  let c := c <| epoch_start := now |> <| ack_cnt := acked |> <| tcp_cwnd := cwnd |> in
  if last_max_cwnd c <=? cwnd then
    c <| bic_k := 0 |> <| bic_origin_point := cwnd |>
  else
    let diff := (last_max_cwnd c ⊟ cwnd)%w32 in
    c <| bic_k := cubic_root (CUBE_FACTOR ⊠ diff)%w64 |>
      <| bic_origin_point := last_max_cwnd c |>.

(** The time on the cubic curve, in units of 1/2^BICTCP_HZ s. *)
Definition bictcp_time (now : Z) (c : BpfBictcp) : Z :=
  let t_diff32 := (now ⊟ epoch_start c)%w32 in
  let t := (u64 (i32 t_diff32) ⊠ usec_per_jiffy)%w64 in
  let t := (t ⊞ delay_min c)%w64 in
  let t := shl 64 t BICTCP_HZ in
  safe_div_u64 t USEC_PER_SEC.

(** The window the cubic curve asks for at time [t]. *)
Definition bictcp_target (t : Z) (c : BpfBictcp) : Z :=
  let below_origin := t <? bic_k c in
  let offs := if below_origin then (bic_k c ⊟ t)%w64 else (t ⊟ bic_k c)%w64 in
  let delta64 := shr (CUBE_RTT_SCALE ⊠ offs ⊠ offs ⊠ offs)%w64 (10 + 3 * BICTCP_HZ) in
  let delta := u32 delta64 in
  if below_origin then (bic_origin_point c ⊟ delta)%w32
  else (bic_origin_point c ⊞ delta)%w32.

(** Acknowledgements per window increment, from the target. *)
Definition bictcp_cnt (cwnd bic_target : Z) (c : BpfBictcp) : BpfBictcp :=
  let c := if cwnd <? bic_target
           then c <| cnt := safe_div_u32 cwnd (bic_target ⊟ cwnd)%w32 |>
           else c <| cnt := (100 ⊠ cwnd)%w32 |> in
  if (last_max_cwnd c =? 0) && (20 <? cnt c) then c <| cnt := 20 |> else c.

(** [if !skip_cubic { ... }] of [bictcp_update]. *)
Definition bictcp_cubic (cwnd acked : Z) : ST world unit :=
  mod_ca (fun c => c <| last_cwnd := cwnd |>) ;;
  j <- tcp_jiffies32 ;;
  mod_ca (fun c => c <| last_time := j |>) ;;
  e <- get (fun w => epoch_start (ca w)) ;;
  (if e =? 0 then j <- tcp_jiffies32 ;; mod_ca (bictcp_epoch cwnd acked j) else ret tt) ;;
  j <- tcp_jiffies32 ;;
  mod_ca (fun c => bictcp_cnt cwnd (bictcp_target (bictcp_time j c) c) c).

(** [if TCP_FRIENDLINESS != 0 { ... }] of [bictcp_update]. *)
Definition bictcp_friendliness (cwnd : Z) (c : BpfBictcp) : BpfBictcp :=
  if negb (TCP_FRIENDLINESS =? 0) then
    let delta := shr (cwnd ⊠ BETA_SCALE)%w32 3 in
    let c := if (delta <? ack_cnt c) && negb (delta =? 0) then
               let n := safe_div_u32 (ack_cnt c) delta in
               c <| ack_cnt := (ack_cnt c ⊟ (n ⊠ delta))%w32 |>
                 <| tcp_cwnd := (tcp_cwnd c ⊞ n)%w32 |>
             else c in
    if cwnd <? tcp_cwnd c then
      let delta := (tcp_cwnd c ⊟ cwnd)%w32 in
      let max_cnt := safe_div_u32 cwnd delta in
      if max_cnt <? cnt c then c <| cnt := max_cnt |> else c
    else c
  else c.

Definition bictcp_update (cwnd acked : Z) : ST world unit :=
  mod_ca (fun c => c <| ack_cnt := (ack_cnt c ⊞ acked)%w32 |>) ;;
  c <- get ca ;;
  recent <- (if last_cwnd c =? cwnd
             then j <- tcp_jiffies32 ;; ret (u64 (i32 (j ⊟ last_time c)%w32) <=? hz / 32)
             else ret false) ;;
  if recent : bool then ret tt else
  skip_cubic <- (if negb (epoch_start c =? 0)
                 then j <- tcp_jiffies32 ;; ret (j =? last_time c)
                 else ret false) ;;
  when (negb skip_cubic) (bictcp_cubic cwnd acked) ;;
  mod_ca (bictcp_friendliness cwnd) ;;
  mod_ca (fun c => c <| cnt := Z.max (cnt c) 2 |>).

Definition tcp_in_slow_start (t : tcp_sock) : bool := snd_cwnd t <? snd_ssthresh t.

Definition tcp_is_cwnd_limited (t : tcp_sock) : bool :=
  if snd_cwnd t <? snd_ssthresh t then snd_cwnd t <? (2 ⊠ max_packets_out t)%w32
  else negb (Z.land (flags_byte t) 8 =? 0).

Definition hystart_ack_delay (t : tcp_sock) : Z :=
  if sk_pacing_rate t =? 0 then 0 else
  let numer := (GSO_MAX_SIZE ⊠ 4 ⊠ USEC_PER_SEC)%w64 in
  u32 (Z.min USEC_PER_MSEC (safe_div_u64 numer (sk_pacing_rate t))).

Definition hystart_delay_thresh (x : Z) : Z :=
  Z.min (Z.max x HYSTART_DELAY_MIN) HYSTART_DELAY_MAX.

(** [found = 1; snd_ssthresh = snd_cwnd]: leave slow start. *)
Definition hystart_exit (w : world) : world :=
  w <| ca ::= (fun c => c <| found := 1 |>) |>
    <| tp ::= (fun t => t <| snd_ssthresh := snd_cwnd t |>) |>.

Definition hystart_ack_train (w : world) : world :=
  let now := bictcp_clock_us (tp w) in
  if i32 (now ⊟ last_ack (ca w))%w32 <=? HYSTART_ACK_DELTA_US then
    let w := w <| ca ::= (fun c => c <| last_ack := now |>) |> in
    let threshold := (delay_min (ca w) ⊞ hystart_ack_delay (tp w))%w32 in
    let threshold := if sk_pacing_status (tp w) =? SK_PACING_NONE then shr threshold 1 else threshold in
    if threshold <? (now ⊟ round_start (ca w))%w32 then hystart_exit w else w
  else w.

Definition hystart_delay (delay : Z) (w : world) : world :=
  let w := if delay <? curr_rtt (ca w)
           then w <| ca ::= (fun c => c <| curr_rtt := delay |>) |> else w in
  if sample_cnt (ca w) <? HYSTART_MIN_SAMPLES then
    w <| ca ::= (fun c => c <| sample_cnt := u8 (sample_cnt c + 1) |>) |>
  else
    let thresh := hystart_delay_thresh (shr (delay_min (ca w)) 3) in
    if (delay_min (ca w) ⊞ thresh)%w32 <? curr_rtt (ca w) then hystart_exit w else w.

Definition hystart_update (delay : Z) : ST world unit :=
  when (negb (Z.land HYSTART_DETECT HYSTART_ACK_TRAIN =? 0)) (modify hystart_ack_train) ;;
  when (negb (Z.land HYSTART_DETECT HYSTART_DELAY =? 0)) (modify (hystart_delay delay)).

(** ** The struct_ops callbacks *)

Definition bpf_cubic_init : ST world unit :=
  r <- setsockopt_nodelay ;;
  when (r =? - EOPNOTSUPP) (modify (fun w => w <| nodelay_init_reject := true |>)) ;;
  mod_ca bictcp_reset ;;
  when (negb (HYSTART =? 0)) hystart_reset ;;
  when ((HYSTART =? 0) && negb (INITIAL_SSTHRESH =? 0))
       (mod_tp (fun t => t <| snd_ssthresh := INITIAL_SSTHRESH |>)).

(** [if epoch_start != 0 && delta > 0 { ... }] of the transmit-start event. *)
Definition tx_start_shift (now lsnd : Z) (c : BpfBictcp) : BpfBictcp :=
  let delta := i32 (now ⊟ lsnd)%w32 in
  if negb (epoch_start c =? 0) && (0 <? delta) then
    let c := c <| epoch_start := (epoch_start c ⊞ u32 delta)%w32 |> in
    if after (epoch_start c) now then c <| epoch_start := now |> else c
  else c.

Definition bpf_cubic_cwnd_event_tx_start : ST world unit :=
  now <- tcp_jiffies32 ;;
  r <- setsockopt_nodelay ;;
  when (r =? - EOPNOTSUPP)
       (modify (fun w => w <| nodelay_cwnd_event_tx_start_reject := true |>)) ;;
  t <- get tp ;;
  mod_ca (tx_start_shift now (lsndtime t)).

Definition bpf_cubic_cong_avoid (arg1 arg2 : Z) : ST world unit :=
  let ack := u32 arg1 in
  let acked := u32 arg2 in
  t <- get tp ;;
  if negb (tcp_is_cwnd_limited t) then ret tt else
  acked <- (if tcp_in_slow_start t then
              c <- get ca ;;
              when (negb (HYSTART =? 0)) (when (after ack (end_seq c)) hystart_reset) ;;
              tcp_slow_start acked
            else ret acked) ;;
  if tcp_in_slow_start t && (acked =? 0) then ret tt else
  t' <- get tp ;;
  bictcp_update (snd_cwnd t') acked ;;
  n <- get (fun w => cnt (ca w)) ;;
  tcp_cong_avoid_ai n acked.

Definition bpf_cubic_recalc_ssthresh : ST world Z :=
  t <- get tp ;;
  mod_ca (fun c =>
    let c := c <| epoch_start := 0 |> in
    if (snd_cwnd t <? last_max_cwnd c) && negb (FAST_CONVERGENCE =? 0)
    then c <| last_max_cwnd :=
               (snd_cwnd t ⊠ (BICTCP_BETA_SCALE + BETA))%w32 / (2 * BICTCP_BETA_SCALE) |>
    else c <| last_max_cwnd := snd_cwnd t |>) ;;
  ret (Z.max ((snd_cwnd t ⊠ BETA)%w32 / BICTCP_BETA_SCALE) 2).

Definition bpf_cubic_state (arg1 : Z) : ST world unit :=
  let new_state := u8 arg1 in
  when (new_state =? TCP_CA_LOSS) (mod_ca bictcp_reset ;; hystart_reset).

(** The part of [bpf_cubic_acked] that consumes an accepted sample. *)
Definition acked_sample (delay : Z) : ST world unit :=
  mod_ca (fun c => if (delay_min c =? 0) || (delay <? delay_min c)
                   then c <| delay_min := delay |> else c) ;;
  c <- get ca ;;
  t <- get tp ;;
  when ((found c =? 0) && (snd_cwnd t <? snd_ssthresh t) && negb (HYSTART =? 0)
        && (HYSTART_LOW_WINDOW <=? snd_cwnd t))
       (hystart_update delay).

Definition bpf_cubic_acked (rtt_us : Z) : ST world unit :=
  modify (fun w => w <| bpf_cubic_acked_called := 1 |>) ;;
  if rtt_us <? 0 then ret tt else
  c <- get ca ;;
  young <- (if negb (epoch_start c =? 0)
            then j <- tcp_jiffies32 ;; ret (u64 (i32 (j ⊟ epoch_start c)%w32) <? hz)
            else ret false) ;;
  if young : bool then ret tt else
  let delay := u32 rtt_us in
  let delay := if delay =? 0 then 1 else delay in
  acked_sample delay.

Definition bpf_cubic_undo_cwnd : ST world Z := tcp_reno_undo_cwnd.

(** The callbacks the kernel invokes, with the arguments it passes. *)
Inductive event :=
| EvInit
| EvTxStart
| EvCongAvoid (ack acked : Z)
| EvSsthresh
| EvSetState (new_state : Z)
| EvPktsAcked (rtt_us : Z)
| EvUndoCwnd.

Definition handle (e : event) (w : world) : world :=
  match e with
  | EvInit => snd (bpf_cubic_init w)
  | EvTxStart => snd (bpf_cubic_cwnd_event_tx_start w)
  | EvCongAvoid ack acked => snd (bpf_cubic_cong_avoid ack acked w)
  | EvSsthresh => snd (bpf_cubic_recalc_ssthresh w)
  | EvSetState st => snd (bpf_cubic_state st w)
  | EvPktsAcked rtt => snd (bpf_cubic_acked rtt w)
  | EvUndoCwnd => snd (bpf_cubic_undo_cwnd w)
  end.

End Operations.

(** ** [fls64] is the position of the highest set bit *)

Lemma high_mask_zero x k : is_u64 x -> 0 <= k <= 64 ->
  (Z.land x (shl 64 (2 ^ 64 - 1) k) =? 0) = (x <? 2 ^ k).
Proof.
  intros Hx Hk.
  assert (shl 64 (2 ^ 64 - 1) k = Z.shiftl (Z.ones (64 - k)) k) as ->.
  { unfold shl, uw. rewrite !Z.shiftl_mul_pow2, Z.ones_equiv by lia.
    assert (2 ^ (64 - k) * 2 ^ k = 2 ^ 64) by (rewrite <- Z.pow_add_r by lia; f_equal; lia).
    replace ((2 ^ 64 - 1) * 2 ^ k) with (Z.pred (2 ^ (64 - k)) * 2 ^ k + (2 ^ k - 1) * 2 ^ 64)
      by lia.
    rewrite Z_mod_plus_full. apply Z.mod_small.
    pose proof (Z.pow_pos_nonneg 2 (64 - k)); pose proof (Z.pow_pos_nonneg 2 k).
    split; [apply Z.mul_nonneg_nonneg|]; lia. }
  assert (Z.land x (Z.shiftl (Z.ones (64 - k)) k) = Z.shiftl (Z.shiftr x k) k) as ->.
  { apply Z.bits_inj'; intros i Hi. rewrite Z.land_spec, !Z.shiftl_spec by lia.
    destruct (Z.ltb_spec i k).
    - rewrite !(Z.testbit_neg_r _ (i - k)), andb_false_r by lia; reflexivity.
    - rewrite Z.shiftr_spec, Z.sub_add by lia.
      destruct (Z.ltb_spec i 64).
      + rewrite Z.ones_spec_low, andb_true_r by lia; reflexivity.
      + rewrite (Z.bits_above_log2 x i); [reflexivity | unfold is_u in Hx; lia |].
        destruct (Z.eq_dec x 0) as [->|]; [cbn; lia|].
        apply Z.log2_lt_pow2; unfold is_u in Hx; [lia|].
        pose proof (Z.pow_le_mono_r 2 64 i); lia. }
  rewrite Z.shiftl_mul_pow2, shiftr_div by lia.
  pose proof (Z.pow_pos_nonneg 2 k ltac:(lia) ltac:(lia)) as Hp.
  unfold is_u in Hx.
  destruct (Z.ltb_spec x (2 ^ k)).
  - rewrite Z.div_small by lia; reflexivity.
  - apply Z.eqb_neq. assert (1 <= x / 2 ^ k) by (apply Z.div_le_lower_bound; lia). nia.
Qed.

(** The loop invariant of the binary search: [num] and the shifted [x] still
    determine the original logarithm [L], and [x] has a bit at or above [lo]. *)
Definition fls_inv (L lo : Z) (st : Z * Z) : Prop :=
  let (num, x) := st in
  0 < x < 2 ^ 64 /\ lo <= Z.log2 x /\ num - 63 + Z.log2 x = L.

Lemma fls_step_inv L lo k n st :
  0 <= lo -> 0 <= n <= 64 -> k = 64 - n -> k <= lo + n -> fls_inv L lo st ->
  fls_inv L k (fls_step k n st).
Proof.
  destruct st as [num x]; unfold fls_inv, fls_step; intros Hlo Hn Hk Hlok (Hx & Hl & HL).
  pose proof (Z.log2_nonneg x).
  assert (Z.log2 x < 64) by (apply Z.log2_lt_pow2; lia).
  rewrite high_mask_zero by (unfold is_u; lia).
  destruct (Z.ltb_spec x (2 ^ k)) as [Hlt|Hge].
  - assert (x * 2 ^ n < 2 ^ 64).
    { replace (2 ^ 64) with (2 ^ k * 2 ^ n) by (rewrite <- Z.pow_add_r by lia; f_equal; lia).
      apply Z.mul_lt_mono_pos_r; [apply Z.pow_pos_nonneg|]; lia. }
    pose proof (Z.pow_pos_nonneg 2 n ltac:(lia) ltac:(lia)).
    unfold shl; rewrite Z.shiftl_mul_pow2 by lia.
    assert (0 < x * 2 ^ n) by (apply Z.mul_pos_pos; lia).
    rewrite uw_small by (unfold is_u; lia).
    rewrite Z.log2_mul_pow2 by lia. lia.
  - assert (k <= Z.log2 x) by (apply Z.log2_le_pow2; lia). lia.
Qed.

(** fls64 computes one more than the base-2 logarithm, and 0 on 0. *)
Lemma fls64_is_log2 x : is_u64 x -> fls64 x = if x =? 0 then 0 else Z.log2 x + 1.
Proof.
  intros Hx; unfold fls64. destruct (Z.eqb_spec x 0) as [|Hnz]; [reflexivity|].
  assert (fls_inv (Z.log2 x) 0 (63, x)) as H
    by (unfold fls_inv, is_u in *; pose proof (Z.log2_nonneg x); lia).
  apply (fls_step_inv _ _ 32 32) in H; try lia.
  apply (fls_step_inv _ _ 48 16) in H; try lia.
  apply (fls_step_inv _ _ 56 8) in H; try lia.
  apply (fls_step_inv _ _ 60 4) in H; try lia.
  apply (fls_step_inv _ _ 62 2) in H; try lia.
  destruct (fls_step 62 2 _) as [num y]; unfold fls_inv in H; cbn [fst snd].
  assert (Z.log2 y < 64) by (apply Z.log2_lt_pow2; lia).
  assert (Z.log2 x < 64) by (apply Z.log2_lt_pow2; unfold is_u in Hx; lia).
  pose proof (Z.log2_nonneg x).
  rewrite high_mask_zero by (unfold is_u; lia).
  destruct (Z.ltb_spec y (2 ^ 63)).
  - assert (Z.log2 y < 63) by (apply Z.log2_lt_pow2; lia).
    rewrite uw_small by (unfold is_u; lia). lia.
  - assert (63 <= Z.log2 y) by (apply Z.log2_le_pow2; lia).
    rewrite uw_small by (unfold is_u; lia). lia.
Qed.

(** fls64, a binary search by masks and shifts, returns the position of the
    highest set bit, counted from 1, for every 64-bit argument, and 0 on 0. *)
Lemma fls64_highest_bit x : is_u64 x -> x <> 0 ->
  1 <= fls64 x <= 64 /\ 2 ^ (fls64 x - 1) <= x < 2 ^ fls64 x /\ fls64 0 = 0.
Proof.
  intros Hx Hn; rewrite (fls64_is_log2 x Hx), (proj2 (Z.eqb_neq x 0)) by assumption.
  assert (0 < x) as Hp by (unfold is_u in Hx; lia).
  assert (Z.log2 x < 64) by (apply Z.log2_lt_pow2; unfold is_u in Hx; lia).
  pose proof (Z.log2_nonneg x). pose proof (Z.log2_spec x Hp) as Hs.
  rewrite <- Z.add_1_r in Hs. replace (Z.log2 x + 1 - 1) with (Z.log2 x) by lia.
  repeat split; try lia.
Qed.

(** ** Accuracy of [cubic_root]

    The input range is cut into cells: [b] and [s] are the scale and the table
    index the code computes, and every argument of the cell starts the single
    Newton step from the same estimate [x0 b s]. *)

Definition x0 (b s : Z) : Z := (V_get s + 10) * 2 ^ b / 64.
Definition newton (x a : Z) : Z := (2 * x + a / (x * (x - 1))) * 341 / 1024.

(** Upper end of the error interval at [a], multiplied out. *)
Definition cell_upper (x a : Z) : bool :=
  let d := x * (x - 1) in
  ((((2 * x * d + a) * 341 - 1024 * d) * 1000) ^ 3 <=? 1002 ^ 3 * a * (1024 * d) ^ 3)
  && (0 <=? (2 * x * d + a) * 341 - 1024 * d).

Definition cell_ok (b s : Z) : bool :=
  let x := x0 b s in
  let hi := (s + 1) * 8 ^ b - 1 in
  if 2 ^ 64 <=? s * 8 ^ b then true else
  (2 <=? x) && ((V_get s + 10) * 2 ^ b <? 2 ^ 32) && (2 * x <? 2 ^ 32) &&
  ((2 * x + hi / (x * (x - 1))) * 341 <? 2 ^ 32) &&
  cell_upper x (s * 8 ^ b) && cell_upper x hi.

Definition zrange (lo : Z) (n : nat) : list Z := map (fun i => lo + Z.of_nat i) (seq 0 n).

Lemma in_zrange lo n z : lo <= z < lo + Z.of_nat n -> In z (zrange lo n).
Proof.
  intros H; unfold zrange. apply in_map_iff.
  exists (Z.to_nat (z - lo)); split; [lia|]. apply in_seq; lia.
Qed.

Lemma cells_ok : forallb (fun b => forallb (cell_ok b) (zrange 8 56)) (zrange 1 20) = true.
Proof. vm_compute. reflexivity. Qed.

Lemma cell_ok_in b s : 1 <= b <= 20 -> 8 <= s < 64 -> cell_ok b s = true.
Proof.
  intros Hb Hs. pose proof cells_ok as H.
  rewrite forallb_forall in H. specialize (H b (in_zrange 1 20 b ltac:(lia))).
  rewrite forallb_forall in H. exact (H s (in_zrange 8 56 s ltac:(lia))).
Qed.

(** Jensen's inequality for the cube, with integer weights. *)
Lemma cube_jensen p q u v :
  0 <= p -> 0 <= q -> 0 <= u -> 0 <= v ->
  (p * u + q * v) ^ 3 <= (p + q) ^ 2 * (p * u ^ 3 + q * v ^ 3).
Proof.
  intros. apply Z.le_0_sub.
  replace (_ - _) with (p * q * (u - v) ^ 2 * ((2 * p + q) * u + (p + 2 * q) * v)) by ring.
  apply Z.mul_nonneg_nonneg; [apply Z.mul_nonneg_nonneg; [nia|]|nia].
  rewrite Z.pow_2_r. apply Z.square_nonneg.
Qed.

(** A bound [(k*a + c)^3 <= C * a] that holds at both ends of an interval
    holds inside it. *)
Lemma cube_bound_interval k c C lo a hi :
  lo <= a <= hi -> 0 <= k -> 0 <= k * lo + c ->
  (k * lo + c) ^ 3 <= C * lo -> (k * hi + c) ^ 3 <= C * hi ->
  (k * a + c) ^ 3 <= C * a.
Proof.
  intros Ha Hk H0 Hlo Hhi.
  destruct (Z.eq_dec lo hi) as [->|Hne]; [replace a with hi by lia; assumption|].
  pose proof (cube_jensen (hi - a) (a - lo) (k * lo + c) (k * hi + c)
                ltac:(lia) ltac:(lia) H0 ltac:(nia)) as J.
  replace (hi - a + (a - lo)) with (hi - lo) in J by lia.
  replace ((hi - a) * (k * lo + c) + (a - lo) * (k * hi + c))
    with ((hi - lo) * (k * a + c)) in J by ring.
  assert (((hi - a) * (k * lo + c) ^ 3 + (a - lo) * (k * hi + c) ^ 3) <= (hi - lo) * (C * a)) as E.
  { replace ((hi - lo) * (C * a)) with ((hi - a) * (C * lo) + (a - lo) * (C * hi)) by ring.
    apply Z.add_le_mono; apply Z.mul_le_mono_nonneg_l; lia. }
  apply Z.mul_le_mono_pos_l with ((hi - lo) ^ 3); [apply Z.pow_pos_nonneg; lia|].
  rewrite <- Z.pow_mul_l.
  eapply Z.le_trans; [exact J|].
  replace ((hi - lo) ^ 3 * (C * a)) with ((hi - lo) ^ 2 * ((hi - lo) * (C * a))) by ring.
  apply Z.mul_le_mono_nonneg_l; [apply Z.pow_nonneg; lia | exact E].
Qed.

Lemma cube_mono a b : 0 <= b -> a <= b -> a ^ 3 <= b ^ 3.
Proof.
  intros Hb Hab. destruct (Z.leb_spec 0 a).
  - apply Z.pow_le_mono_l; lia.
  - pose proof (Z.pow_nonneg b 3 Hb). replace (a ^ 3) with (a * (a * a)) by ring. nia.
Qed.

(** One Newton step from any estimate never falls short by more than one and
    1/1024 of the root (arithmetic and geometric mean). *)
Lemma newton_lower x a : 2 <= x -> 0 <= a ->
  1023 ^ 3 * a <= (1024 * (newton x a + 1)) ^ 3.
Proof.
  intros Hx Ha; unfold newton. set (d := x * (x - 1)).
  assert (0 < d) by (unfold d; nia).
  set (r := (2 * x + a / d) * 341 / 1024).
  assert ((2 * x * d - d + a) * 341 <= 1024 * (r + 1) * d) as Hr.
  { pose proof (Z.mul_succ_div_gt a d ltac:(lia)).
    pose proof (Z.mul_succ_div_gt ((2 * x + a / d) * 341) 1024 ltac:(lia)).
    fold r in H1. nia. }
  set (y := d * (2 * x - 1)).
  assert (27 * d ^ 3 * a <= (y + a) ^ 3) as Hamgm.
  { assert (4 * d ^ 3 <= y ^ 2)
      by (unfold y, d; apply Z.le_0_sub;
          replace (_ - _) with ((x * (x - 1)) ^ 2) by ring; apply Z.pow_nonneg; nia).
    assert (0 <= 4 * (y + a) ^ 3 - 27 * y ^ 2 * a).
    { replace (_ - _) with ((2 * a - y) ^ 2 * (a + 4 * y)) by ring.
      apply Z.mul_nonneg_nonneg; [rewrite Z.pow_2_r; apply Z.square_nonneg | unfold y; nia]. }
    pose proof (Z.mul_le_mono_nonneg_r _ _ a Ha H0). lia. }
  apply Z.mul_le_mono_pos_r with (d ^ 3); [apply Z.pow_pos_nonneg; lia|].
  rewrite <- Z.pow_mul_l.
  transitivity (((y + a) * 341) ^ 3); [rewrite Z.pow_mul_l; lia|].
  apply cube_mono; [subst r; nia | unfold y; lia].
Qed.

Lemma newton_upper x a : 2 <= x -> 0 <= a ->
  (((2 * x * (x * (x - 1)) + a) * 341 - 1024 * (x * (x - 1))) * 1000) ^ 3
    <= 1002 ^ 3 * a * (1024 * (x * (x - 1))) ^ 3 ->
  0 <= (2 * x * (x * (x - 1)) + a) * 341 - 1024 * (x * (x - 1)) ->
  (1000 * (newton x a - 1)) ^ 3 <= 1002 ^ 3 * a.
Proof.
  intros Hx Ha. assert (0 < x * (x - 1)) by nia. revert H.
  unfold newton. set (d := x * (x - 1)). intros Hd HU H0.
  set (r := (2 * x + a / d) * 341 / 1024).
  assert (1024 * r * d <= (2 * x * d + a) * 341) as Hr.
  { pose proof (Z.mul_div_le a d ltac:(lia)).
    pose proof (Z.mul_div_le ((2 * x + a / d) * 341) 1024 ltac:(lia)) as H2.
    fold r in H2. clear HU H0. nia. }
  apply Z.mul_le_mono_pos_r with ((1024 * d) ^ 3); [apply Z.pow_pos_nonneg; lia|].
  eapply Z.le_trans; [|exact HU]. rewrite <- Z.pow_mul_l.
  apply cube_mono; lia.
Qed.

Lemma V_get_range i : 0 <= V_get i <= 254.
Proof.
  assert (forallb (fun v => (0 <=? v) && (v <=? 254)) (0 :: V) = true) as H by reflexivity.
  rewrite forallb_forall in H.
  assert (In (V_get i) (0 :: V)) as Hin.
  { unfold V_get. destruct (nth_in_or_default (Z.to_nat i) V 0) as [Hi| ->]; cbn [In]; auto. }
  specialize (H _ Hin). bsimp. lia.
Qed.

(** Nothing wraps in the Newton step of a good cell. *)
Lemma newton_no_wrap b s a :
  0 <= b -> 0 <= a <= (s + 1) * 8 ^ b - 1 ->
  2 <= x0 b s -> (V_get s + 10) * 2 ^ b < 2 ^ 32 -> 2 * x0 b s < 2 ^ 32 ->
  (2 * x0 b s + ((s + 1) * 8 ^ b - 1) / (x0 b s * (x0 b s - 1))) * 341 < 2 ^ 32 ->
  (let x := shr (shl 32 (V_get s ⊞ 10)%w32 b) 6 in
   let denom := (x ⊠ (x ⊟ 1)%w32)%w64 in
   let x := ((2 ⊠ x) ⊞ u32 (safe_div_u64 a denom))%w32 in
   shr (x ⊠ 341)%w32 10) = newton (x0 b s) a.
Proof.
  intros Hb Ha Hx Hv H2x Hmul. pose proof (V_get_range s) as HV. cbv zeta.
  pose proof (Z.pow_pos_nonneg 2 b ltac:(lia) Hb) as Hp.
  assert (shr (shl 32 (V_get s ⊞ 10)%w32 b) 6 = x0 b s) as ->.
  { unfold shr, shl, x0. rewrite (uw_small 32 (V_get s + 10)) by (unfold is_u; lia).
    rewrite Z.shiftl_mul_pow2, uw_small, shiftr_div by (unfold is_u; lia). reflexivity. }
  set (x := x0 b s) in *.
  rewrite (uw_small 32 (x - 1)) by (unfold is_u; lia).
  assert (0 < x * (x - 1) < 2 ^ 64) as Hd by nia.
  rewrite (uw_small 64) by (unfold is_u; lia).
  unfold safe_div_u64, newton. rewrite (proj2 (Z.eqb_neq _ 0)) by lia. cbn [negb].
  assert (0 <= a / (x * (x - 1)) <= ((s + 1) * 8 ^ b - 1) / (x * (x - 1))) as Hq
    by (split; [apply Z.div_pos | apply Z.div_le_mono]; lia).
  rewrite (uw_small 32 (2 * x)) by (unfold is_u; lia).
  rewrite (uw_small 32 (a / _)) by (unfold is_u; lia).
  rewrite (uw_small 32 (2 * x + _)) by (unfold is_u; lia).
  rewrite (uw_small 32) by (unfold is_u; lia).
  unfold shr. apply shiftr_div. lia.
Qed.

(** On its whole domain above the table, cubic_root performs exactly one
    Newton step from the cell's estimate: the table index is in range, the
    [shift >= 64] exit is dead and nothing wraps. *)
Lemma cubic_root_newton a : 64 <= a < 2 ^ 64 ->
  exists b s, 1 <= b <= 20 /\ 8 <= s < 64 /\ cell_ok b s = true /\
    s * 8 ^ b <= a <= (s + 1) * 8 ^ b - 1 /\ cubic_root a = newton (x0 b s) a.
Proof.
  intros Ha.
  assert (6 <= Z.log2 a) by (apply Z.log2_le_pow2; lia).
  assert (Z.log2 a < 64) by (apply Z.log2_lt_pow2; lia).
  set (b := (Z.log2 a + 1) * 84 / 256 - 1).
  assert (1 <= b <= 20 /\ 3 * b + 3 <= Z.log2 a < 3 * b + 6) as (Hb & Hlog)
    by (unfold b; Z.div_mod_to_equations; lia).
  set (s := a / 2 ^ (3 * b)).
  assert (0 < 2 ^ (3 * b)) by (apply Z.pow_pos_nonneg; lia).
  destruct (Z.log2_spec a ltac:(lia)) as [Hl1 Hl2].
  assert (8 <= s < 64) as Hs.
  { unfold s. split.
    - apply Z.div_le_lower_bound; [lia|]. change 8 with (2 ^ 3).
      rewrite <- Z.pow_add_r by lia. pose proof (Z.pow_le_mono_r 2 (3 * b + 3) (Z.log2 a)). lia.
    - apply Z.div_lt_upper_bound; [lia|]. change 64 with (2 ^ 6).
      rewrite <- Z.pow_add_r by lia.
      pose proof (Z.pow_le_mono_r 2 (Z.succ (Z.log2 a)) (3 * b + 6)). lia. }
  assert (2 ^ (3 * b) = 8 ^ b) as E8 by (rewrite Z.pow_mul_r by lia; reflexivity).
  assert (s * 8 ^ b <= a <= (s + 1) * 8 ^ b - 1) as Hcell.
  { rewrite <- E8. unfold s. pose proof (Z.mul_div_le a (2 ^ (3 * b))).
    pose proof (Z.mul_succ_div_gt a (2 ^ (3 * b))). lia. }
  pose proof (cell_ok_in b s Hb Hs) as Hok.
  exists b, s; split; [exact Hb|]; split; [exact Hs|]; split; [exact Hok|]; split; [exact Hcell|].
  unfold cell_ok in Hok. rewrite (proj2 (Z.leb_gt _ _)) in Hok by lia. bsimp.
  unfold cubic_root. rewrite (proj2 (Z.ltb_ge a 64)) by lia.
  rewrite fls64_is_log2 by (unfold is_u; lia). rewrite (proj2 (Z.eqb_neq a 0)) by lia.
  unfold shr. rewrite (uw_small 32 ((Z.log2 a + 1) * 84)) by (unfold is_u; lia).
  rewrite (shiftr_div _ 8) by lia. change (2 ^ 8) with 256.
  rewrite (uw_small 32 (_ - 1)) by (fold b; unfold is_u; lia). fold b.
  rewrite (uw_small 32 (b * 3)) by (unfold is_u; lia). rewrite (Z.mul_comm b 3).
  rewrite (shiftr_div a) by lia. fold s. rewrite (uw_small 32 s) by (unfold is_u; lia).
  rewrite (proj2 (Z.leb_gt 64 s)) by lia.
  apply newton_no_wrap; lia.
Qed.

(** The upper error bound of a cell follows from its end points. *)
Lemma cell_upper_interval x lo a hi : lo <= a <= hi ->
  cell_upper x lo = true -> cell_upper x hi = true -> cell_upper x a = true.
Proof.
  intros Ha; unfold cell_upper. set (d := x * (x - 1)).
  assert (forall z, (((2 * x * d + z) * 341 - 1024 * d) * 1000)
                    = 341000 * z + (682000 * x * d - 1024000 * d)) as Elin by (intro; ring).
  assert (forall z, 1002 ^ 3 * z * (1024 * d) ^ 3 = 1002 ^ 3 * (1024 * d) ^ 3 * z) as Ecom
    by (intro; ring).
  rewrite !Elin, !Ecom, !andb_true_iff, !Z.leb_le. intros [Hlo H0] [Hhi _].
  assert (0 <= (2 * x * d + a) * 341 - 1024 * d) as H0a by (clear - Ha H0; lia).
  split; [|exact H0a].
  apply (cube_bound_interval _ _ _ lo a hi); try assumption; clear - H0; lia.
Qed.

(** C3. The result of cubic_root is a cube root: between the root of [a], less one
    part in 1024 and one, and the root of [a], plus 2 parts in 1000 and one. *)
Theorem cubic_root_accuracy a : 64 <= a < 2 ^ 64 ->
  1023 ^ 3 * a <= (1024 * (cubic_root a + 1)) ^ 3 /\
  (1000 * (cubic_root a - 1)) ^ 3 <= 1002 ^ 3 * a.
Proof.
  intros Ha.
  destruct (cubic_root_newton a Ha) as (b & s & Hb & Hs & Hok & Hcell & ->).
  assert (0 < 8 ^ b) by (apply Z.pow_pos_nonneg; lia).
  unfold cell_ok in Hok. rewrite (proj2 (Z.leb_gt _ _)) in Hok by lia. bsimp.
  set (x := x0 b s) in *. assert (2 <= x) as Hx by lia. assert (0 <= a) as Ha0 by lia.
  split; [apply newton_lower; assumption|].
  apply (cell_upper_interval x (s * 8 ^ b) a ((s + 1) * 8 ^ b - 1)) in Hcell; try assumption.
  apply andb_true_iff in Hcell as [Hup Hpos]. apply Z.leb_le in Hup, Hpos.
  apply newton_upper; assumption.
Qed.

(** ** Invariants of the connection state *)

Definition ca_ok (c : BpfBictcp) : Prop :=
  is_u32 (cnt c) /\ is_u32 (last_max_cwnd c) /\ is_u32 (last_cwnd c) /\ is_u32 (last_time c) /\
  is_u32 (bic_origin_point c) /\ is_u32 (bic_k c) /\ is_u32 (delay_min c) /\
  is_u32 (epoch_start c) /\ is_u32 (ack_cnt c) /\ is_u32 (tcp_cwnd c) /\ is_u16 (unused c) /\
  is_u8 (sample_cnt c) /\ is_u8 (found c) /\ is_u32 (round_start c) /\ is_u32 (end_seq c) /\
  is_u32 (last_ack c) /\ is_u32 (curr_rtt c).

(** The kernel keeps the congestion window positive (tcp_snd_cwnd_set). *)
Definition tcp_ok (t : tcp_sock) : Prop :=
  1 <= snd_cwnd t < 2 ^ 32 /\ is_u32 (snd_ssthresh t) /\ is_u32 (lsndtime t) /\
  is_u32 (snd_nxt t) /\ is_u64 (tcp_mstamp t) /\ is_u32 (max_packets_out t) /\
  is_u8 (flags_byte t) /\ is_u64 (sk_pacing_rate t) /\ is_u32 (sk_pacing_status t).

(** What the program relies on: the kernel's functions keep the socket
    well-formed, and tcp_slow_start returns a u32. *)
Class KernelOk (K : Kernel) : Prop := {
  setsockopt_ok t a b c : tcp_ok t -> tcp_ok (snd (bpf_setsockopt t a b c));
  slow_start_ok t a : tcp_ok t -> tcp_ok (snd (k_tcp_slow_start t a));
  slow_start_ret t a : tcp_ok t -> is_u32 (fst (k_tcp_slow_start t a));
  cong_avoid_ok t a b : tcp_ok t -> tcp_ok (k_tcp_cong_avoid_ai t a b);
  undo_ok t : tcp_ok t -> tcp_ok (snd (k_tcp_reno_undo_cwnd t))
}.

(** [tcp_cong_avoid_ai] divides by its window argument. *)
Definition call_ok (k : kcall) : Prop :=
  match k with CallCongAvoidAi w acked => 2 <= w < 2 ^ 32 /\ is_u32 acked | _ => True end.

(** Every field in range and every call so far legal. *)
Definition winv (w : world) : Prop := ca_ok (ca w) /\ tcp_ok (tp w) /\ Forall call_ok (calls w).

(** Between callbacks, [cnt] is at least 2 unless no window was seen since the
    last reset. *)
Definition cnt_inv (c : BpfBictcp) : Prop := last_cwnd c = 0 \/ 2 <= cnt c.

Definition inv (w : world) : Prop := winv w /\ cnt_inv (ca w).

Section Invariant.
Context {K : Kernel} {KO : KernelOk K}.

Lemma cubic_root_range a : is_u64 a -> is_u32 (cubic_root a).
Proof.
  intros Ha. unfold cubic_root. case_ifs.
  - pose proof (V_get_range a). apply is_u_shr; [unfold is_u|]; lia.
  - unfold is_u; lia.
  - auto with words.
Qed.

Lemma safe_div_range a b : is_u32 a -> 0 <= b -> is_u32 (safe_div_u32 a b).
Proof.
  intros; unfold safe_div_u32; case_ifs; [now apply is_u_div | unfold is_u; lia].
Qed.

Lemma shl32_range a n : is_u32 (shl 32 a n).
Proof. apply u32_range. Qed.

Lemma safe_div64_range a b : is_u64 a -> 0 <= b -> is_u64 (safe_div_u64 a b).
Proof.
  intros; unfold safe_div_u64; case_ifs; [now apply is_u_div | unfold is_u; lia].
Qed.

Hint Resolve cubic_root_range safe_div_range shl32_range safe_div64_range : words.
Hint Extern 1 (0 <= uw _ _) => (apply uw_range; lia) : words.
Hint Extern 3 (is_u _ (if _ then _ else _)) => case_if : words.

(** Solve a [ca_ok] goal field by field. *)
Ltac ca_fields :=
  unfold ca_ok in *; cbn in *; intuition auto with words.

Lemma reset_ok c : ca_ok c -> ca_ok (bictcp_reset c).
Proof. intros; ca_fields. Qed.

Lemma hystart_reset_ok t c : tcp_ok t -> ca_ok c -> ca_ok (bictcp_hystart_reset t c).
Proof.
  unfold tcp_ok, bictcp_hystart_reset, bictcp_clock_us, notw; intros. ca_fields.
Qed.

Lemma epoch_ok cwnd acked now c :
  is_u32 cwnd -> is_u32 acked -> is_u32 now -> ca_ok c -> ca_ok (bictcp_epoch cwnd acked now c).
Proof. intros; unfold bictcp_epoch; cbn; case_if; ca_fields. Qed.

Lemma target_range t c : is_u32 (bictcp_target t c).
Proof. unfold bictcp_target; case_if; auto with words. Qed.

Lemma cnt_ok cwnd tgt c : is_u32 cwnd -> ca_ok c -> ca_ok (bictcp_cnt cwnd tgt c).
Proof. intros; unfold bictcp_cnt; case_ifs; ca_fields. Qed.

Lemma friendliness_ok cwnd c : is_u32 cwnd -> ca_ok c -> ca_ok (bictcp_friendliness cwnd c).
Proof. intros; unfold bictcp_friendliness; cbn [negb Z.eqb TCP_FRIENDLINESS]; case_ifs; ca_fields. Qed.

(** *** Steps *)

Lemma winv_mod_ca f : (forall c, ca_ok c -> ca_ok (f c)) -> preserves winv (mod_ca f).
Proof. intros H; apply preserves_modify; unfold winv; cbn; intuition. Qed.

Lemma inv_mod_ca f :
  (forall c, ca_ok c -> ca_ok (f c)) -> (forall c, cnt_inv c -> cnt_inv (f c)) ->
  preserves inv (mod_ca f).
Proof. intros H1 H2; apply preserves_modify; unfold inv, winv; cbn; intuition. Qed.

Lemma winv_jiffies : preserves winv tcp_jiffies32.
Proof. intros w; exact (fun H => H). Qed.

Lemma inv_jiffies : triple inv tcp_jiffies32 (fun j w => inv w /\ is_u32 j).
Proof. intros w H; split; [exact H | apply u32_range]. Qed.

Lemma inv_kfunc {A} c (f : tcp_sock -> A * tcp_sock) :
  call_ok c -> (forall t, tcp_ok t -> tcp_ok (snd (f t))) -> preserves inv (kfunc c f).
Proof.
  intros Hc Hf w [(Hca & Htp & Hcalls) Hcnt]; unfold kfunc.
  specialize (Hf _ Htp). destruct (f (tp w)) as [r t]; cbn in *.
  split; [split; [exact Hca | split; [exact Hf|]] | exact Hcnt].
  apply Forall_app; auto.
Qed.

Lemma inv_hystart_reset : preserves inv hystart_reset.
Proof.
  apply preserves_modify; intros w [(Hca & Htp & Hcalls) Hcnt].
  split; [split; [exact (hystart_reset_ok _ _ Htp Hca) | split; assumption] | exact Hcnt].
Qed.

Lemma inv_reset : preserves inv (mod_ca bictcp_reset).
Proof. apply inv_mod_ca; [apply reset_ok | left; reflexivity]. Qed.

Hint Resolve winv_jiffies inv_hystart_reset inv_reset : inv.

(** A clock read changes nothing but the read counter and gives a u32. *)
Lemma with_jiffies {A} (P : world -> Prop) (f : Z -> ST world A) :
  (forall w n, P w -> P (w <| reads := n |>)) ->
  (forall j, is_u32 j -> preserves P (f j)) -> preserves P (bind tcp_jiffies32 f).
Proof.
  intros HP Hf w Hw; apply Hf; [apply u32_range | apply (HP w (S (reads w)) Hw)].
Qed.

Lemma winv_cubic cwnd acked : is_u32 cwnd -> is_u32 acked ->
  preserves winv (bictcp_cubic cwnd acked).
Proof.
  intros Hc Ha; unfold bictcp_cubic.
  apply preserves_bind; [apply winv_mod_ca; intros; ca_fields | intros _].
  apply with_jiffies; [exact (fun _ _ H => H)|]; intros j Hj32.
  apply preserves_bind; [apply winv_mod_ca; intros; ca_fields | intros _].
  apply preserves_bind; [auto with inv | intros e].
  apply preserves_bind; [|intros _].
  - apply preserves_if; intros; [|auto with inv].
    apply with_jiffies; [exact (fun _ _ H => H)|]; intros j' Hj'. apply winv_mod_ca; intros; now apply epoch_ok.
  - apply with_jiffies; [exact (fun _ _ H => H)|]; intros j' Hj'. apply winv_mod_ca; intros; now apply cnt_ok.
Qed.

(** After [bictcp_update] on a non-zero window, [cnt] is at least 2: either it
    was just computed, or the early return left an earlier value. *)
Lemma update_cnt cwnd acked : 1 <= cwnd < 2 ^ 32 -> is_u32 acked ->
  triple inv (bictcp_update cwnd acked) (fun _ w => inv w /\ 2 <= cnt (ca w)).
Proof.
  intros Hc Ha; unfold bictcp_update.
  apply triple_bind with (fun _ => inv).
  { apply inv_mod_ca; [intros; ca_fields | unfold cnt_inv; cbn; auto]. }
  intros _. apply triple_bind with (fun c w => inv w /\ c = ca w).
  { apply triple_get; auto. }
  intros c.
  apply triple_bind with (fun recent w => inv w /\ (recent = true -> last_cwnd (ca w) = cwnd)).
  { apply triple_if; intros Hb; bsimp.
    - intros w [Hw ->]; cbn; auto.
    - apply triple_ret; intuition discriminate. }
  intros recent; apply triple_if; intros Hr; subst recent.
  { apply triple_ret; intros w [Hw Hl]. specialize (Hl eq_refl). split; [exact Hw|].
    destruct Hw as [_ [H0|H2]]; lia. }
  apply triple_weaken with winv (fun _ w => inv w /\ 2 <= cnt (ca w));
    [| now intros w [[Hw _] _] | auto].
  apply triple_bind with (fun _ => winv).
  { preserve. }
  intros skip. apply triple_bind with (fun _ => winv).
  { apply preserves_when; intros _. apply winv_cubic; [unfold is_u|]; lia || assumption. }
  intros _. apply triple_bind with (fun _ => winv).
  { apply winv_mod_ca; intros; apply friendliness_ok; [unfold is_u; lia | assumption]. }
  intros _. apply triple_modify; intros w (Hca & Htp & Hcalls).
  unfold inv, winv, cnt_inv. cbn [ca tp calls set cnt last_cwnd].
  split; [split; [split; [ca_fields | split; assumption] | right] |]; cbn; lia.
Qed.

(** *** Callbacks *)

Lemma winv_setsockopt : preserves winv setsockopt_nodelay.
Proof.
  intros w (Hca & Htp & Hcalls); unfold setsockopt_nodelay, kfunc.
  pose proof (setsockopt_ok _ SOL_TCP TCP_NODELAY 1 Htp) as Hok.
  destruct (bpf_setsockopt _ _ _ _) as [r t]; cbn in *.
  split; [exact Hca | split; [exact Hok|]].
  apply Forall_app; split; [assumption | repeat constructor].
Qed.

Lemma inv_setsockopt : preserves inv setsockopt_nodelay.
Proof. apply inv_kfunc; [exact I | intros; now apply setsockopt_ok]. Qed.

Lemma init_inv w : winv w -> inv (snd (bpf_cubic_init w)).
Proof.
  revert w; change (triple winv bpf_cubic_init (fun _ => inv)); unfold bpf_cubic_init.
  apply triple_bind with (fun _ => winv); [apply winv_setsockopt | intros r].
  apply triple_bind with (fun _ => winv);
    [apply preserves_when; intros _; apply preserves_modify; now intros | intros _].
  apply triple_bind with (fun _ => inv).
  { apply triple_modify; intros w (Hca & Htp & Hcalls).
    split; [split; [exact (reset_ok _ Hca) | split; assumption] | left; reflexivity]. }
  intros _; apply preserves_bind; [preserve | intros _].
  cbn; preserve.
Qed.

Lemma tx_start_inv : preserves inv bpf_cubic_cwnd_event_tx_start.
Proof.
  unfold bpf_cubic_cwnd_event_tx_start.
  apply with_jiffies; [exact (fun _ _ H => H)|]; intros now Hnow.
  apply preserves_bind; [apply inv_setsockopt | intros r].
  apply preserves_bind;
    [apply preserves_when; intros _; apply preserves_modify; now intros | intros _].
  apply preserves_bind; [auto with inv | intros t].
  apply inv_mod_ca; unfold cnt_inv, tx_start_shift; intros c Hc; case_ifs; ca_fields.
Qed.

Lemma ssthresh_inv : preserves inv bpf_cubic_recalc_ssthresh.
Proof.
  intros w Hw. pose proof Hw as [(Hca & Htp & Hcalls) Hcnt].
  unfold bpf_cubic_recalc_ssthresh, bind, get, mod_ca, modify, ret; cbn [fst snd].
  split; [split; [|split; assumption]|]; unfold cnt_inv, tcp_ok in *; cbn [ca set const];
    case_if; ca_fields.
  all: try (apply is_u_div; auto with words; unfold BICTCP_BETA_SCALE; lia).
  all: unfold is_u; lia.
Qed.

Lemma state_inv st : preserves inv (bpf_cubic_state st).
Proof. unfold bpf_cubic_state; cbv zeta; preserve. Qed.

Lemma undo_inv : preserves inv bpf_cubic_undo_cwnd.
Proof. apply inv_kfunc; [exact I | intros; now apply undo_ok]. Qed.

Lemma hystart_exit_inv w : inv w -> inv (hystart_exit w).
Proof.
  intros [(Hca & Htp & Hcalls) Hcnt]; unfold inv, winv, tcp_ok, cnt_inv in *; cbn.
  ca_fields.
Qed.

Lemma inv_set_ca w c : inv w -> ca_ok c -> cnt_inv c -> inv (w <| ca := c |>).
Proof. intros [(Hca & Htp & Hcalls) Hcnt] H1 H2.
  split; [split; [exact H1 | split; assumption] | exact H2].
Qed.

Lemma hystart_inv delay : is_u32 delay -> preserves inv (hystart_update delay).
Proof.
  intros Hd; unfold hystart_update.
  apply preserves_bind; [|intros _]; apply preserves_when; intros _;
    apply preserves_modify; intros w Hw; pose proof Hw as [(Hca & Htp & Hcalls) Hcnt].
  - unfold hystart_ack_train; cbv zeta. case_if; [|exact Hw].
    assert (inv (w <| ca ::= (fun c => c <| last_ack := bictcp_clock_us (tp w) |>) |>)) as Hw'
      by (apply (inv_set_ca w _ Hw); unfold bictcp_clock_us; ca_fields).
    repeat case_if; first [exact Hw' | apply hystart_exit_inv; exact Hw'].
  - unfold hystart_delay.
    set (w' := if delay <? curr_rtt (ca w) then _ else w).
    assert (inv w') as Hw'
      by (unfold w'; case_if; [apply (inv_set_ca w _ Hw); ca_fields | exact Hw]).
    clearbody w'; clear w Hw Hca Htp Hcalls Hcnt.
    pose proof Hw' as [(Hca & Htp & Hcalls) Hcnt]; cbv zeta.
    case_ifs; [|now apply hystart_exit_inv | exact Hw'].
    apply (inv_set_ca w' _ Hw'); ca_fields.
Qed.

Lemma acked_inv rtt : preserves inv (bpf_cubic_acked rtt).
Proof.
  unfold bpf_cubic_acked.
  apply preserves_bind; [apply preserves_modify; now intros | intros _].
  apply preserves_if; intros _; [auto with inv|].
  apply preserves_bind; [auto with inv | intros c].
  apply preserves_bind.
  { apply preserves_if; intros _; [|auto with inv].
    apply with_jiffies; [exact (fun _ _ H => H) | auto with inv]. }
  intros young; apply preserves_if; intros _; [auto with inv|]. cbv zeta.
  set (delay := if u32 rtt =? 0 then 1 else u32 rtt).
  assert (is_u32 delay) as Hd by (unfold delay; case_if; auto with words).
  unfold acked_sample. apply preserves_bind;
    [apply inv_mod_ca; unfold cnt_inv; intros c' Hc'; case_if; ca_fields | intros _].
  apply preserves_bind; [auto with inv | intros c'].
  apply preserves_bind; [auto with inv | intros t].
  apply preserves_when; intros _. now apply hystart_inv.
Qed.

Lemma cong_avoid_inv a1 a2 : preserves inv (bpf_cubic_cong_avoid a1 a2).
Proof.
  unfold bpf_cubic_cong_avoid; cbv zeta.
  apply preserves_bind; [auto with inv | intros t].
  apply preserves_if; intros _; [auto with inv|].
  apply triple_bind with (fun acked w => inv w /\ is_u32 acked).
  { apply triple_if; intros _; [|apply triple_ret; auto using u32_range].
    apply triple_bind with (fun _ => inv); [apply (preserves_get ca inv) | intros c].
    apply triple_bind with (fun _ => inv); [preserve | intros _].
    intros w Hw. split.
    - apply inv_kfunc; [exact I | intros; now apply slow_start_ok | exact Hw].
    - unfold tcp_slow_start, kfunc. destruct Hw as [(_ & Htp & _) _].
      pose proof (slow_start_ret (tp w) (u32 a2) Htp).
      destruct (k_tcp_slow_start _ _); assumption. }
  intros acked; apply triple_if; intros _; [apply triple_ret; now intros w [Hw _]|].
  apply triple_bind with (fun t w => inv w /\ is_u32 acked /\ 1 <= snd_cwnd t < 2 ^ 32).
  { apply triple_get; intros w [Hw Ha]. split; [exact Hw|]. split; [exact Ha|].
    apply Hw. }
  intros t' w (Hw & Ha & Hc).
  revert w Hw;
    refine (triple_bind _ _ inv (fun _ w => inv w /\ 2 <= cnt (ca w)) (fun _ => inv) _ _);
    [apply update_cnt; assumption | intros _].
  apply triple_bind with (fun n w => inv w /\ 2 <= n < 2 ^ 32).
  { apply triple_get; intros w [Hw H2]. split; [exact Hw|].
    destruct Hw as [(Hca & _) _]. unfold ca_ok, is_u in Hca. lia. }
  intros n w [Hw Hn]. apply inv_kfunc; [cbn; auto | intros; now apply cong_avoid_ok | exact Hw].
Qed.

(** *** Reachable states *)

(** A connection: [init] on any well-formed socket, then any callbacks. *)
Inductive reachable : world -> Prop :=
| reach_init w : ca_ok (ca w) -> tcp_ok (tp w) -> calls w = [] -> reachable (handle EvInit w)
| reach_step e w : reachable w -> reachable (handle e w).

Lemma reachable_inv w : reachable w -> inv w.
Proof.
  induction 1 as [w Hca Htp Hcalls | e w _ IH].
  - apply init_inv. repeat split; try apply Hca; try apply Htp. now rewrite Hcalls.
  - destruct e; cbn [handle];
      [ apply init_inv, IH | apply tx_start_inv, IH | apply cong_avoid_inv, IH
      | apply ssthresh_inv, IH | apply state_inv, IH | apply acked_inv, IH | apply undo_inv, IH ].
Qed.

(** C28. Over every sequence of callbacks on a connection, every field of the
    private area and of the socket stays in the range of its type, and every
    call of tcp_cong_avoid_ai, which divides by its window argument, passes a
    window of at least 2. *)
Theorem cubic_reachable_ok w :
  reachable w -> ca_ok (ca w) /\ tcp_ok (tp w) /\ Forall call_ok (calls w).
Proof. intros H; apply (reachable_inv w H). Qed.

End Invariant.

(** ** The cubic curve *)

(** The growth term without wrap-around: 410 * d^3 / 2^40. *)
Definition growth (d : Z) : Z := CUBE_RTT_SCALE * d ^ 3 / 2 ^ 40.

Lemma growth_mono d e : 0 <= d <= e -> growth d <= growth e.
Proof.
  intros H; unfold growth, CUBE_RTT_SCALE, BIC_SCALE.
  apply Z.div_le_mono; [lia|]. pose proof (Z.pow_le_mono_l d e 3). lia.
Qed.

Lemma growth_range d : 0 <= d < 355000 -> 0 <= growth d < 2 ^ 24.
Proof.
  intros H; unfold growth, CUBE_RTT_SCALE, BIC_SCALE.
  pose proof (Z.pow_le_mono_l d 355000 3 ltac:(lia)).
  pose proof (Z.pow_nonneg d 3 ltac:(lia)).
  split; [apply Z.div_pos; lia | apply Z.div_lt_upper_bound; lia].
Qed.

Lemma growth_code d : 0 <= d < 355000 ->
  u32 (shr (CUBE_RTT_SCALE ⊠ d ⊠ d ⊠ d)%w64 (10 + 3 * BICTCP_HZ)) = growth d.
Proof.
  intros H. pose proof (growth_range d H) as Hg. revert Hg.
  unfold growth, CUBE_RTT_SCALE, BIC_SCALE, BICTCP_HZ, shr; intros Hg.
  change (10 + 3 * 10) with 40.
  pose proof (Z.pow_le_mono_l d 355000 3 ltac:(lia)) as H3.
  assert (0 <= 41 * 10 * d * d * d < 2 ^ 64) by (replace (41 * 10 * d * d * d)
    with (410 * d ^ 3) by ring; pose proof (Z.pow_nonneg d 3 ltac:(lia)); lia).
  rewrite (uw_small 64 (41 * 10 * d)) by (unfold is_u; lia).
  rewrite (uw_small 64 (41 * 10 * d * d)) by (unfold is_u; nia).
  rewrite (uw_small 64 (41 * 10 * d * d * d)) by (unfold is_u; lia).
  rewrite shiftr_div by lia.
  replace (41 * 10 * d * d * d) with (41 * 10 * d ^ 3) by ring.
  apply uw_small. unfold is_u; lia.
Qed.

(** The target is [origin - growth (K - t)] before the origin and
    [origin + growth (t - K)] after it. *)
Lemma target_exact t c :
  0 <= bic_k c < 355000 -> 0 <= t < bic_k c + 355000 ->
  growth (bic_k c) <= bic_origin_point c < 2 ^ 32 - 2 ^ 24 ->
  bictcp_target t c =
    if t <? bic_k c then bic_origin_point c - growth (bic_k c - t)
    else bic_origin_point c + growth (t - bic_k c).
Proof.
  intros HK Ht Ho; unfold bictcp_target. pose proof (growth_range (bic_k c) HK).
  destruct (Z.ltb_spec t (bic_k c)).
  - rewrite (uw_small 64 (bic_k c - t)), growth_code by (unfold is_u; lia).
    pose proof (growth_range (bic_k c - t) ltac:(lia)).
    pose proof (growth_mono (bic_k c - t) (bic_k c) ltac:(lia)).
    apply uw_small. unfold is_u; lia.
  - rewrite (uw_small 64 (t - bic_k c)), growth_code by (unfold is_u; lia).
    pose proof (growth_range (t - bic_k c) ltac:(lia)).
    apply uw_small. unfold is_u; lia.
Qed.

(** C31. While the u64 product that the window target cubes does not wrap around,
    the target follows the cubic curve of [growth] around the origin point,
    equals the origin point at [t = K] and never decreases with time.  That is
    so when [K], and the time since [K], are below 355000 units of 1/1024 s
    (346.7 s), and when the origin point covers the growth over [K] and
    leaves room for [2 ^ 24] packets above it in 32 bits.  [target_wraps] is
    what happens a second later. *)
Theorem target_monotone t1 t2 c :
  0 <= bic_k c < 355000 -> 0 <= t1 <= t2 -> t2 < bic_k c + 355000 ->
  growth (bic_k c) <= bic_origin_point c < 2 ^ 32 - 2 ^ 24 ->
  bictcp_target t1 c <= bictcp_target t2 c /\
  bictcp_target (bic_k c) c = bic_origin_point c /\
  bictcp_target t2 c = (if t2 <? bic_k c then bic_origin_point c - growth (bic_k c - t2)
                        else bic_origin_point c + growth (t2 - bic_k c)).
Proof.
  intros HK H12 H2 Ho.
  rewrite !target_exact by lia. rewrite Z.ltb_irrefl, Z.sub_diag. split; [|split; [cbn; lia | reflexivity]].
  destruct (Z.ltb_spec t1 (bic_k c)), (Z.ltb_spec t2 (bic_k c)); try lia.
  - pose proof (growth_mono (bic_k c - t2) (bic_k c - t1)); lia.
  - pose proof (growth_range (bic_k c - t1)); pose proof (growth_range (t2 - bic_k c)); lia.
  - pose proof (growth_mono (t1 - bic_k c) (t2 - bic_k c)); lia.
Qed.

(** ** TCP friendliness *)

(** The Reno estimate [tcp_cwnd] takes one segment per [delta] acknowledged
    packets and keeps the remainder, and when it is ahead of the window, [cnt]
    is small enough to catch up within one estimate. *)
Lemma friendliness_reno cwnd c :
  let delta := cwnd * BETA_SCALE / 8 in
  0 < cwnd -> cwnd * BETA_SCALE < 2 ^ 32 -> ca_ok c ->
  tcp_cwnd c + ack_cnt c < 2 ^ 32 ->
  let c' := bictcp_friendliness cwnd c in
  (delta < ack_cnt c ->
     tcp_cwnd c' = tcp_cwnd c + ack_cnt c / delta /\ ack_cnt c' = ack_cnt c mod delta) /\
  (ack_cnt c <= delta -> tcp_cwnd c' = tcp_cwnd c /\ ack_cnt c' = ack_cnt c) /\
  (cwnd < tcp_cwnd c' -> cnt c' <= cwnd / (tcp_cwnd c' - cwnd)) /\
  cnt c' <= cnt c.
Proof.
  intros delta Hc Hm Hok Hsum.
  assert (0 < delta) as Hd by (unfold delta; change BETA_SCALE with 15 in *; Z.div_mod_to_equations; lia).
  assert (shr (cwnd ⊠ BETA_SCALE)%w32 3 = delta) as Ed.
  { unfold shr, delta. rewrite uw_small by (unfold is_u; change BETA_SCALE with 15 in *; lia).
    now rewrite shiftr_div by lia. }
  assert (0 <= ack_cnt c / delta <= ack_cnt c) as Hq.
  { unfold ca_ok, is_u in Hok. split; [apply Z.div_pos; lia|].
    apply Z.div_le_upper_bound; nia. }
  pose proof (Z.div_mod (ack_cnt c) delta ltac:(lia)) as Hdm.
  pose proof (Z.mod_pos_bound (ack_cnt c) delta Hd) as Hmod.
  unfold bictcp_friendliness, ca_ok, is_u in *. change (negb (TCP_FRIENDLINESS =? 0)) with true.
  rewrite Ed. cbv zeta iota.
  set (c1 := if (delta <? ack_cnt c) && _ then _ else c).
  assert (cnt c1 = cnt c /\
          tcp_cwnd c1 = (if delta <? ack_cnt c then tcp_cwnd c + ack_cnt c / delta else tcp_cwnd c) /\
          ack_cnt c1 = (if delta <? ack_cnt c then ack_cnt c mod delta else ack_cnt c))
    as (E1 & E2 & E3).
  { unfold c1. rewrite (proj2 (Z.eqb_neq delta 0)), andb_true_r by lia.
    unfold safe_div_u32. rewrite (proj2 (Z.eqb_neq delta 0)) by lia.
    case_if; [|auto]. cbn. rewrite !uw_small by (unfold is_u; rewrite ?uw_small; unfold is_u; nia).
    repeat split; nia. }
  set (c2 := if cwnd <? tcp_cwnd c1 then _ else c1).
  assert (tcp_cwnd c2 = tcp_cwnd c1 /\ ack_cnt c2 = ack_cnt c1 /\ cnt c2 <= cnt c1 /\
          (cwnd < tcp_cwnd c2 -> cnt c2 <= cwnd / (tcp_cwnd c2 - cwnd))) as (F1 & F2 & F3 & F4).
  { assert (tcp_cwnd c1 < 2 ^ 32) by (rewrite E2; case_if; lia).
    unfold c2. destruct (Z.ltb_spec cwnd (tcp_cwnd c1)); [|repeat split; lia].
    unfold safe_div_u32. rewrite (uw_small 32) by (unfold is_u; lia).
    rewrite (proj2 (Z.eqb_neq _ 0)) by lia. cbn [negb].
    case_ifs; cbn; repeat split; lia. }
  rewrite F1, F2, E2, E3 in *.
  destruct (Z.ltb_spec delta (ack_cnt c)); repeat split; lia.
Qed.

(** ** Loss, idle restart and delay tracking *)

Section Callbacks.
Context {K : Kernel}.

(** Multiplicative decrease: below the 32-bit overflow of [snd_cwnd * 1741],
    the new threshold is 717/1024 of the window (at least 2), the epoch is
    closed, and the recorded maximum is the window itself, or 1741/2048 of it
    when the window had not regained the previous maximum; it always lies
    between the returned threshold and the window. *)
Lemma recalc_ssthresh_spec w :
  let cwnd := snd_cwnd (tp w) in
  2 <= cwnd -> cwnd * 1741 < 2 ^ 32 ->
  let (thresh, w') := bpf_cubic_recalc_ssthresh w in
  thresh = Z.max (cwnd * 717 / 1024) 2 /\ 2 <= thresh <= cwnd /\
  epoch_start (ca w') = 0 /\
  last_max_cwnd (ca w') =
    (if cwnd <? last_max_cwnd (ca w) then cwnd * 1741 / 2048 else cwnd) /\
  (thresh <= last_max_cwnd (ca w') \/ thresh = 2) /\ last_max_cwnd (ca w') <= cwnd /\
  tp w' = tp w.
Proof.
  intros cwnd H2 Hov.
  unfold bpf_cubic_recalc_ssthresh, bind, get, mod_ca, modify, ret; cbn [fst snd].
  unfold BETA, BICTCP_BETA_SCALE, FAST_CONVERGENCE. fold cwnd.
  rewrite !uw_small by (unfold is_u; lia).
  cbn [ca set const tp last_max_cwnd epoch_start negb]. fold cwnd. rewrite andb_true_r.
  case_if; cbn [ca set const tp last_max_cwnd epoch_start negb];
    change (1024 + 717) with 1741; change (2 * 1024) with 2048;
    repeat split; Z.div_mod_to_equations; lia.
Qed.

Lemma tx_start_ca w :
  let w' := snd (bpf_cubic_cwnd_event_tx_start w) in
  ca w' = tx_start_shift (u32 (bpf_jiffies64 (reads w))) (lsndtime (tp w')) (ca w).
Proof.
  unfold bpf_cubic_cwnd_event_tx_start, setsockopt_nodelay, kfunc, bind, get, mod_ca, modify,
    when, ret, tcp_jiffies32; cbn [reads set tp].
  destruct (bpf_setsockopt _ _ _ _) as [r t]. destruct (r =? - EOPNOTSUPP); reflexivity.
Qed.

(** Restart after idle: when an epoch is open and the connection was idle, the
    epoch moves forward by the idle time, so the time spent in the epoch does
    not include it; it never moves past the present. *)
Lemma tx_start_epoch w :
  let now := u32 (bpf_jiffies64 (reads w)) in
  let w' := snd (bpf_cubic_cwnd_event_tx_start w) in
  let idle := i32 (now - lsndtime (tp w')) in
  let e := epoch_start (ca w) in
  let e' := epoch_start (ca w') in
  is_u32 e ->
  (e = 0 \/ idle <= 0 -> ca w' = ca w) /\
  (e <> 0 -> 0 < idle -> after e' now = false /\
     (e <= lsndtime (tp w') < now -> now < 2 ^ 31 -> now - e' = lsndtime (tp w') - e)).
Proof.
  intros now w'. pose proof (tx_start_ca w) as Hca. fold now w' in Hca. rewrite Hca.
  set (t := tp w'). assert (is_u32 now) as Hnow by apply u32_range.
  unfold tx_start_shift.
  replace (i32 (now ⊟ lsndtime t)%w32) with (i32 (now - lsndtime t))
    by (unfold sw; rewrite uw_uw by lia; reflexivity).
  set (idle := i32 (now - lsndtime t)). set (e := epoch_start (ca w)). intros He.
  pose proof (i32_range (now - lsndtime t)) as Hidle. fold idle in Hidle.
  split.
  - intros Hno. replace (negb (e =? 0) && (0 <? idle)) with false; [reflexivity|].
    destruct (Z.eqb_spec e 0), (Z.ltb_spec 0 idle); cbn; reflexivity || lia.
  - intros Hne Hpos. rewrite (proj2 (Z.eqb_neq e 0)), (proj2 (Z.ltb_lt 0 idle)) by lia.
    cbn [negb andb epoch_start set const]. rewrite (uw_small 32 idle) by (unfold is_u; lia).
    case_if; cbn [epoch_start set const]; (split; [|intros Hlt Hn]).
    + unfold after, before, sw. rewrite Z.sub_diag. reflexivity.
    + exfalso. assert (idle = now - lsndtime t) as Ei
        by (unfold idle; apply i32_small; unfold is_u in *; lia).
      unfold after, before in Hif. rewrite (uw_small 32 (e + idle)) in Hif by (unfold is_u in *; lia).
      rewrite uw_small in Hif by (unfold is_u in *; lia).
      rewrite i32_small in Hif by (unfold is_u in *; lia). bsimp. lia.
    + assumption.
    + assert (idle = now - lsndtime t) as Ei
        by (unfold idle; apply i32_small; unfold is_u in *; lia).
      rewrite uw_small by (unfold is_u in *; lia). lia.
Qed.

(** What HyStart may change: it keeps the minimum delay and the window, and
    either does nothing to the socket or sets the threshold to the window. *)
Definition hystart_rel (w w' : world) : Prop :=
  bpf_cubic_acked_called w' = bpf_cubic_acked_called w /\
  delay_min (ca w') = delay_min (ca w) /\ snd_cwnd (tp w') = snd_cwnd (tp w) /\
  ((found (ca w') = found (ca w) /\ tp w' = tp w) \/
   (found (ca w') = 1 /\ snd_ssthresh (tp w') = snd_cwnd (tp w))).

Lemma hystart_exit_rel w : hystart_rel w (hystart_exit w).
Proof. repeat split; right; split; reflexivity. Qed.

Lemma hystart_rel_trans w1 w2 w3 : hystart_rel w1 w2 -> hystart_rel w2 w3 -> hystart_rel w1 w3.
Proof.
  intros (A1 & D1 & C1 & H1) (A2 & D2 & C2 & H2). do 3 (split; [congruence|]).
  destruct H2 as [[F2 T2]|[F2 T2]]; [|right; split; congruence].
  destruct H1 as [[F1 T1]|[F1 T1]]; [left | right]; split; congruence.
Qed.

Lemma hystart_update_rel delay w : hystart_rel w (snd (hystart_update delay w)).
Proof.
  unfold hystart_update, bind, when, modify; cbn -[hystart_ack_train hystart_delay].
  apply hystart_rel_trans with (hystart_ack_train w).
  - unfold hystart_ack_train; cbv zeta. repeat case_if;
      first [ eapply hystart_rel_trans; [|apply hystart_exit_rel] | idtac];
      repeat split; now left.
  - generalize (hystart_ack_train w); clear w; intros w. unfold hystart_delay.
    set (w' := if delay <? curr_rtt (ca w) then _ else w).
    apply hystart_rel_trans with w'.
    + unfold w'; case_if; repeat split; now left.
    + generalize w'; clear; intros w; cbv zeta.
      repeat case_if; first [apply hystart_exit_rel | repeat split; now left].
Qed.

Lemma acked_sample_spec delay w :
  0 < delay ->
  let w' := snd (acked_sample delay w) in
  bpf_cubic_acked_called w' = bpf_cubic_acked_called w /\
  delay_min (ca w') = (if delay_min (ca w) =? 0 then delay else Z.min (delay_min (ca w)) delay) /\
  ((found (ca w') = found (ca w) /\ tp w' = tp w) \/
   (found (ca w) = 0 /\ found (ca w') = 1 /\ HYSTART_LOW_WINDOW <= snd_cwnd (tp w') /\
    tcp_in_slow_start (tp w) = true /\ tcp_in_slow_start (tp w') = false)).
Proof.
  intros Hd; cbv zeta.
  unfold acked_sample, bind, mod_ca, modify, get, when; cbn [fst snd].
  set (w1 := w <| ca ::= _ |>).
  assert (bpf_cubic_acked_called w1 = bpf_cubic_acked_called w /\ tp w1 = tp w /\
          found (ca w1) = found (ca w) /\
          delay_min (ca w1) =
            (if delay_min (ca w) =? 0 then delay else Z.min (delay_min (ca w)) delay))
    as (E1 & E2 & E3 & E4).
  { unfold w1; cbn [ca tp set const bpf_cubic_acked_called].
    destruct (Z.eqb_spec (delay_min (ca w)) 0), (Z.ltb_spec delay (delay_min (ca w)));
      cbn; repeat split; lia. }
  rewrite <- E1, <- E2, <- E3, <- E4. generalize w1; clear; intros w.
  case_if; [|cbn; auto]. bsimp.
  destruct (hystart_update_rel delay w) as (A & D & C & Hrel).
  split; [exact A|]. split; [exact D|].
  destruct Hrel as [Hrel|[F T]]; [left; exact Hrel | right].
  unfold tcp_in_slow_start. rewrite T, C, Z.ltb_irrefl, (proj2 (Z.ltb_lt _ _)) by assumption.
  auto.
Qed.

Lemma acked_eval rtt w : 0 <= rtt ->
  snd (bpf_cubic_acked rtt w) =
  let c := ca w in
  let w1 := w <| bpf_cubic_acked_called := 1 |> in
  let w2 := if epoch_start c =? 0 then w1 else w1 <| reads ::= S |> in
  if negb (epoch_start c =? 0) &&
     (u64 (i32 (u32 (bpf_jiffies64 (reads w)) - epoch_start c)) <? hz)
  then w2 else snd (acked_sample (if u32 rtt =? 0 then 1 else u32 rtt) w2).
Proof.
  intros H. unfold bpf_cubic_acked, bind, modify, get, tcp_jiffies32, ret.
  rewrite (proj2 (Z.ltb_ge rtt 0)) by lia. cbn [ca set reads].
  destruct (epoch_start (ca w) =? 0); cbn [negb andb]; [reflexivity|].
  unfold sw at 1. rewrite uw_uw by lia. fold (i32 (u32 (bpf_jiffies64 (reads w)) - epoch_start (ca w))).
  destruct (_ <? hz); reflexivity.
Qed.

(** Delay tracking and slow-start exit: an RTT sample is ignored within the
    first second of an epoch; otherwise [delay_min] becomes the minimum of the
    non-zero samples, and when HyStart decides to leave slow start
    ([found] set), the connection is out of slow start. *)
Lemma acked_spec rtt w :
  0 <= rtt < 2 ^ 31 ->
  let c := ca w in
  let w' := snd (bpf_cubic_acked rtt w) in
  let young := negb (epoch_start c =? 0) &&
               (u64 (i32 (u32 (bpf_jiffies64 (reads w)) - epoch_start c)) <? hz) in
  bpf_cubic_acked_called w' = 1 /\
  (young = true -> ca w' = c /\ tp w' = tp w) /\
  (young = false ->
     delay_min (ca w') = (if delay_min c =? 0 then Z.max 1 rtt
                          else Z.min (delay_min c) (Z.max 1 rtt)) /\
     ((found (ca w') = found c /\ tp w' = tp w) \/
      (found c = 0 /\ found (ca w') = 1 /\ HYSTART_LOW_WINDOW <= snd_cwnd (tp w') /\
       tcp_in_slow_start (tp w) = true /\ tcp_in_slow_start (tp w') = false))).
Proof.
  intros Hrtt; cbv zeta. set (delay := if u32 rtt =? 0 then 1 else u32 rtt).
  assert (delay = Z.max 1 rtt) as Edelay
    by (unfold delay; rewrite uw_small by (unfold is_u; lia); destruct (Z.eqb_spec rtt 0); lia).
  rewrite acked_eval by lia. fold delay. cbv zeta.
  set (w2 := if epoch_start (ca w) =? 0 then _ else _).
  assert (bpf_cubic_acked_called w2 = 1 /\ ca w2 = ca w /\ tp w2 = tp w) as (E1 & E2 & E3)
    by (unfold w2; case_if; auto).
  pose proof (acked_sample_spec delay w2 ltac:(lia)) as H. rewrite E1, E2, E3, Edelay in H.
  case_if; [cbn; rewrite E1, E2, E3; split; [reflexivity | split; [auto | discriminate]]|].
  rewrite Edelay. split; [apply H | split; [discriminate | intros _; apply H]].
Qed.

End Callbacks.

(** ** A kernel that satisfies the assumptions *)

Definition kernel0 : Kernel := {|
  CONFIG_HZ := 1000;
  CONFIG_HZ_ok := conj eq_refl eq_refl;
  bpf_jiffies64 := fun n => 5000 + Z.of_nat n;
  bpf_setsockopt := fun t _ _ _ => (0, t);
  k_tcp_slow_start := fun t acked => (0, t);
  k_tcp_cong_avoid_ai := fun t _ _ => t;
  k_tcp_reno_undo_cwnd := fun t => (snd_cwnd t, t)
|}.

Lemma kernel0_ok : KernelOk kernel0.
Proof. constructor; intros; cbn; auto; unfold is_u; lia. Qed.

#[local] Existing Instance kernel0.

Definition ca0 : BpfBictcp :=
  {| cnt := 0; last_max_cwnd := 0; last_cwnd := 0; last_time := 0; bic_origin_point := 0;
     bic_k := 0; delay_min := 0; epoch_start := 0; ack_cnt := 0; tcp_cwnd := 0; unused := 0;
     sample_cnt := 0; found := 0; round_start := 0; end_seq := 0; last_ack := 0; curr_rtt := 0 |}.

Definition world0 : world :=
  {| ca := ca0;
     tp := {| snd_cwnd := 10; snd_ssthresh := 5; lsndtime := 100; snd_nxt := 7; tcp_mstamp := 9;
              max_packets_out := 10; flags_byte := 8; sk_pacing_rate := 0; sk_pacing_status := 0 |};
     nodelay_init_reject := false; nodelay_cwnd_event_tx_start_reject := false;
     bpf_cubic_acked_called := 0; reads := 0; calls := [] |}.

Ltac in_range := unfold ca_ok, tcp_ok, is_u; cbn; lia.

Lemma fls64_highest_bit_witness : 2 ^ 9 <= 1000 < 2 ^ 10 /\ fls64 1000 = 10.
Proof.
  split; [|reflexivity].
  apply (fls64_highest_bit 1000); [unfold is_u; lia | lia].
Defined.

Lemma cubic_root_accuracy_witness :
  1023 ^ 3 * 1000000000 <= (1024 * (cubic_root 1000000000 + 1)) ^ 3.
Proof. apply (cubic_root_accuracy 1000000000). lia. Defined.

(** A connection that was initialised and then acknowledged two packets: the
    call of tcp_cong_avoid_ai is there and its window is at least 2. *)
Lemma cubic_reachable_ok_witness :
  let w := handle (EvCongAvoid 0 2) (handle EvInit world0) in
  calls w <> [] /\ Forall call_ok (calls w).
Proof.
  split; [vm_compute; discriminate|].
  apply (@cubic_reachable_ok kernel0 kernel0_ok).
  apply reach_step, reach_init; [in_range | in_range | reflexivity].
Defined.

Lemma target_monotone_witness :
  let c := ca0 <| bic_k := 1000 |> <| bic_origin_point := 100 |> in
  bictcp_target 500 c <= bictcp_target 5000 c.
Proof.
  intros c. apply (target_monotone 500 5000 c); cbn; try lia.
Defined.

(** The cube wraps around 347.3 s after [K], and the target falls back towards
    the origin point. *)
Example target_wraps :
  let c := ca0 <| bic_k := 1000 |> <| bic_origin_point := 100 |> in
  bictcp_target (1000 + 355650) c = 16774711 /\ bictcp_target (1000 + 355680) c = 1740.
Proof. vm_compute. split; reflexivity. Qed.

Lemma tx_start_epoch_witness :
  let w := world0 <| ca := ca0 <| epoch_start := 50 |> |> in
  let w' := snd (@bpf_cubic_cwnd_event_tx_start kernel0 w) in
  5000 - epoch_start (ca w') = 50.
Proof.
  intros w w'. destruct (@tx_start_epoch kernel0 w) as [_ H]; [unfold is_u; cbn; lia|].
  destruct H as [_ H]; [discriminate | vm_compute; reflexivity|].
  exact (H ltac:(vm_compute; easy) ltac:(vm_compute; easy)).
Defined.

End Cubic.
