(* ===== verification/Dctcp.v ===== *)
(** BPF DCTCP congestion control: progs/bpf_dctcp.rs.

    The state is the private area [bpf_dctcp] of the socket, the kernel's part
    of the socket (the CO-RE views [tcp_sock] and [inet_connection_sock]) and
    the program's globals.  Helpers and kfuncs are the fields of [Kernel].
    The theorems bound [dctcp_alpha] over every sequence of callbacks, give
    the reduction it causes, its decay and its fixed point, and relate the
    ECN-echo machinery to the two-state machine of the source's comment. *)

From S2P Require Import Prelude.
Local Open Scope st_scope.

Module Dctcp.

Definition EBUSY := 16.
Definition TCP_ECN_OK := 1.
Definition TCP_ECN_DEMAND_CWR := 4.
Definition TCP_CA_Recovery := 3.
Definition CA_EVENT_LOSS := 3.
Definition CA_EVENT_ECN_NO_CE := 4.
Definition CA_EVENT_ECN_IS_CE := 5.
Definition ICSK_ACK_TIMER := 2.
Definition ICSK_ACK_NOW := 16.
Definition DCTCP_MAX_ALPHA := 1024.
Definition DCTCP_SHIFT_G := 4.
Definition DCTCP_ALPHA_ON_INIT := DCTCP_MAX_ALPHA.

(** ** State *)

Record bpf_dctcp := {
  old_delivered : Z;
  old_delivered_ce : Z;
  prior_rcv_nxt : Z;
  dctcp_alpha : Z;
  next_seq : Z;
  ce_state : Z;
  loss_cwnd : Z
}.

(** The kernel's socket: the [tcp_sock] and [inet_connection_sock] views; the
    byte before [icsk_retransmits] holds [icsk_ca_state]. *)
Record tcp_sock := {
  snd_cwnd : Z;
  snd_ssthresh : Z;
  delivered : Z;
  delivered_ce : Z;
  ecn_flags : Z;
  rcv_nxt : Z;
  snd_nxt : Z;
  snd_una : Z;
  ca_state_byte : Z;
  icsk_ack_pending : Z
}.

(** The names passed to [TCP_CONGESTION]. *)
Inductive cc_name := FallbackCc | BpfDctcp | TcpCdg.

(** An acknowledgement the program sent: its sequence number and the ECN flags
    of the socket at that moment. *)
Record sent_ack := { ack_seq : Z; ack_ecn : Z }.

Record world := {
  ca : bpf_dctcp;
  tp : tcp_sock;
  fallback_cc : list Z;
  cc_res : list Z;
  tcp_cdg_res : Z;
  stg_result : Z;
  ebusy_cnt : Z;
  acks : list sent_ack
}.

(** The kernel: [setsockopt] on [TCP_CONGESTION] may re-enter the callbacks, so
    it acts on the whole world; the rest act on the socket. *)
Class Kernel := {
  k_setsockopt : cc_name -> world -> Z * world;
  k_getsockopt : world -> list Z;
  k_sk_storage_get : tcp_sock -> option Z;
  k_sk_storage_delete : tcp_sock -> tcp_sock;
  k_tcp_send_ack : tcp_sock -> Z -> tcp_sock;
  k_tcp_reno_cong_avoid : tcp_sock -> Z -> Z -> tcp_sock
}.

Section Operations.
Context {K : Kernel}.

Definition mod_ca (f : bpf_dctcp -> bpf_dctcp) : ST world unit := modify (fun w => w <| ca ::= f |>).
Definition mod_tp (f : tcp_sock -> tcp_sock) : ST world unit := modify (fun w => w <| tp ::= f |>).

Definition icsk_ca_state (t : tcp_sock) : Z := Z.land (ca_state_byte t) 31.

Definition before (seq1 seq2 : Z) : bool := i32 (seq1 ⊟ seq2)%w32 <? 0.

Definition dctcp_reset (t : tcp_sock) (c : bpf_dctcp) : bpf_dctcp :=
  c <| next_seq := snd_nxt t |> <| old_delivered := delivered t |>
    <| old_delivered_ce := delivered_ce t |>.

(** [if bpf_setsockopt(sk, SOL_TCP, TCP_CONGESTION, name) == -EBUSY { ebusy_cnt += 1 }] *)
Definition switch_cc (n : cc_name) : ST world unit :=
  r <- k_setsockopt n ;;
  when (r =? - EBUSY) (modify (fun w => w <| ebusy_cnt ::= (fun x => i32 (x + 1)) |>)).

Definition bpf_dctcp_init : ST world unit :=
  w <- get (fun w => w) ;;
  if (Z.land (ecn_flags (tp w)) TCP_ECN_OK =? 0) && negb (nth 0 (fallback_cc w) 0 =? 0) then
    switch_cc FallbackCc ;;
    switch_cc BpfDctcp ;;
    switch_cc FallbackCc ;;
    r <- k_setsockopt TcpCdg ;;
    modify (fun w => w <| tcp_cdg_res := i32 r |>) ;;
    modify (fun w => w <| cc_res := k_getsockopt w |>)
  else
    mod_ca (fun c => c <| prior_rcv_nxt := rcv_nxt (tp w) |>
                       <| dctcp_alpha := Z.min DCTCP_ALPHA_ON_INIT DCTCP_MAX_ALPHA |>
                       <| loss_cwnd := 0 |> <| ce_state := 0 |>) ;;
    match k_sk_storage_get (tp w) with
    | Some stg => modify (fun w => w <| stg_result := stg |> <| tp ::= k_sk_storage_delete |>)
    | None => ret tt
    end ;;
    modify (fun w => w <| ca ::= dctcp_reset (tp w) |>).

Definition bpf_dctcp_ssthresh : ST world Z :=
  t <- get tp ;;
  mod_ca (fun c => c <| loss_cwnd := snd_cwnd t |>) ;;
  c <- get ca ;;
  ret (Z.max (snd_cwnd t ⊟ shr (snd_cwnd t ⊠ dctcp_alpha c) 11)%w32 2).

(** [min_not_zero(alpha, alpha >> dctcp_shift_g)] *)
Definition min_not_zero_shift (alpha : Z) : Z :=
  let y := shr alpha DCTCP_SHIFT_G in
  if alpha =? 0 then y else if y =? 0 then alpha else Z.min alpha y.

(** The new [alpha] from the counters of the last round trip. *)
Definition alpha_update (t : tcp_sock) (c : bpf_dctcp) : Z :=
  let dce := (delivered_ce t ⊟ old_delivered_ce c)%w32 in
  let alpha := (dctcp_alpha c ⊟ min_not_zero_shift (dctcp_alpha c))%w32 in
  if negb (dce =? 0) then
    let dlv := (delivered t ⊟ old_delivered c)%w32 in
    let dce := shl 32 dce (10 - DCTCP_SHIFT_G) in
    let dce := dce / Z.max 1 dlv in
    Z.min (alpha ⊞ dce)%w32 DCTCP_MAX_ALPHA
  else alpha.

Definition bpf_dctcp_update_alpha : ST world unit :=
  t <- get tp ;;
  c <- get ca ;;
  when (negb (before (snd_una t) (next_seq c)))
       (mod_ca (fun c => dctcp_reset t (c <| dctcp_alpha := alpha_update t c |>))).

Definition dctcp_react_to_loss : ST world unit :=
  t <- get tp ;;
  mod_ca (fun c => c <| loss_cwnd := snd_cwnd t |>) ;;
  mod_tp (fun t => t <| snd_ssthresh := Z.max (shr (snd_cwnd t) 1) 2 |>).

Definition bpf_dctcp_state (arg1 : Z) : ST world unit :=
  let new_state := u8 arg1 in
  t <- get tp ;;
  when ((new_state =? TCP_CA_Recovery) && negb (new_state =? icsk_ca_state t)) dctcp_react_to_loss.

Definition dctcp_ece_ack_cwr (ce : Z) (t : tcp_sock) : tcp_sock :=
  t <| ecn_flags ::= (fun f => if ce =? 1 then Z.lor f TCP_ECN_DEMAND_CWR
                               else Z.land f (notw 8 TCP_ECN_DEMAND_CWR)) |>.

Definition bpf_tcp_send_ack (seq : Z) : ST world unit := modify (fun w =>
  w <| acks ::= (fun l => l ++ [{| ack_seq := seq; ack_ecn := ecn_flags (tp w) |}]) |>
    <| tp ::= (fun t => k_tcp_send_ack t seq) |>).

Definition dctcp_ece_ack_update (evt : Z) : ST world unit :=
  let new_ce_state := if evt =? CA_EVENT_ECN_IS_CE then 1 else 0 in
  c <- get ca ;;
  when (negb (ce_state c =? new_ce_state))
    (t <- get tp ;;
     when (negb (Z.land (icsk_ack_pending t) ICSK_ACK_TIMER =? 0))
       (mod_tp (dctcp_ece_ack_cwr (ce_state c)) ;;
        bpf_tcp_send_ack (prior_rcv_nxt c)) ;;
     mod_tp (fun t => t <| icsk_ack_pending ::= (fun p => Z.lor p ICSK_ACK_NOW) |>)) ;;
  t <- get tp ;;
  mod_ca (fun c => c <| prior_rcv_nxt := rcv_nxt t |> <| ce_state := new_ce_state |>) ;;
  mod_tp (dctcp_ece_ack_cwr new_ce_state).

Definition bpf_dctcp_cwnd_event (arg1 : Z) : ST world unit :=
  let ev := u32 arg1 in
  if (ev =? CA_EVENT_ECN_IS_CE) || (ev =? CA_EVENT_ECN_NO_CE) then dctcp_ece_ack_update ev
  else if ev =? CA_EVENT_LOSS then dctcp_react_to_loss
  else ret tt.

Definition bpf_dctcp_cwnd_undo : ST world Z :=
  get (fun w => Z.max (snd_cwnd (tp w)) (loss_cwnd (ca w))).

Definition bpf_dctcp_cong_avoid (arg1 arg2 : Z) : ST world unit :=
  mod_tp (fun t => k_tcp_reno_cong_avoid t (u32 arg1) (u32 arg2)).

(** The callbacks of the [dctcp] struct_ops instance. *)
Inductive event :=
| EvInit
| EvInAck
| EvCwndEvent (ev : Z)
| EvSsthresh
| EvCongAvoid (ack acked : Z)
| EvUndo
| EvSetState (st : Z).

Definition handle (e : event) (w : world) : world :=
  match e with
  | EvInit => snd (bpf_dctcp_init w)
  | EvInAck => snd (bpf_dctcp_update_alpha w)
  | EvCwndEvent ev => snd (bpf_dctcp_cwnd_event ev w)
  | EvSsthresh => snd (bpf_dctcp_ssthresh w)
  | EvCongAvoid a b => snd (bpf_dctcp_cong_avoid a b w)
  | EvUndo => snd (bpf_dctcp_cwnd_undo w)
  | EvSetState st => snd (bpf_dctcp_state st w)
  end.

End Operations.

(** ** [dctcp_alpha] stays a fraction of 1024 *)

Definition alpha_ok (c : bpf_dctcp) : Prop := 0 <= dctcp_alpha c <= DCTCP_MAX_ALPHA.

(** The decay [alpha - min_not_zero(alpha, alpha >> 4)]: at least one less per
    round trip, down to 0. *)
Definition decay (alpha : Z) : Z := if alpha <? 16 then 0 else alpha - alpha / 16.

Lemma decay_code alpha : 0 <= alpha < 2 ^ 32 ->
  (alpha ⊟ min_not_zero_shift alpha)%w32 = decay alpha.
Proof.
  intros H; unfold min_not_zero_shift, decay, shr, DCTCP_SHIFT_G.
  rewrite shiftr_div by lia. change (2 ^ 4) with 16.
  destruct (Z.eqb_spec alpha 0), (Z.eqb_spec (alpha / 16) 0), (Z.ltb_spec alpha 16);
    try (exfalso; Z.div_mod_to_equations; lia);
    rewrite uw_small by (unfold is_u; Z.div_mod_to_equations; lia); Z.div_mod_to_equations; lia.
Qed.

Lemma decay_range alpha : 0 <= alpha -> 0 <= decay alpha <= alpha.
Proof. intros; unfold decay; case_ifs; Z.div_mod_to_equations; lia. Qed.

Lemma alpha_update_ok t c : alpha_ok c -> 0 <= alpha_update t c <= DCTCP_MAX_ALPHA.
Proof.
  unfold alpha_ok, DCTCP_MAX_ALPHA, alpha_update; intros H.
  rewrite decay_code by lia. pose proof (decay_range (dctcp_alpha c)).
  case_if; [|lia]. unfold DCTCP_MAX_ALPHA.
  pose proof (u32_range (decay (dctcp_alpha c) +
    shl 32 (delivered_ce t ⊟ old_delivered_ce c)%w32 (10 - DCTCP_SHIFT_G) /
    Z.max 1 (delivered t ⊟ old_delivered c)%w32)) as Hr.
  unfold is_u in Hr; lia.
Qed.

(** What the kernel guarantees of a nested [setsockopt]: it changes the private
    area only by running callbacks of this program. *)
Class KernelOk (K : Kernel) : Prop := {
  setsockopt_alpha n w : alpha_ok (ca w) -> alpha_ok (ca (snd (k_setsockopt n w)))
}.

Section Alpha.
Context {K : Kernel} {KO : KernelOk K}.

Definition inv (w : world) : Prop := alpha_ok (ca w).

Lemma dctcp_inv_mod_ca f : (forall c, alpha_ok c -> alpha_ok (f c)) -> preserves inv (mod_ca f).
Proof. intros H; apply preserves_modify; intros w; apply H. Qed.

Lemma inv_mod_tp f : preserves inv (mod_tp f).
Proof. apply preserves_modify; intros w H; exact H. Qed.

Lemma dctcp_inv_setsockopt n : preserves inv (k_setsockopt n).
Proof. intros w; apply setsockopt_alpha. Qed.

Lemma inv_same f : (forall w, ca (f w) = ca w) -> preserves inv (modify f).
Proof. intros H; apply preserves_modify; unfold inv; intros w; now rewrite H. Qed.

Hint Resolve inv_mod_tp dctcp_inv_setsockopt : inv.
Hint Extern 1 (preserves inv (modify _)) => (apply inv_same; reflexivity) : inv.
Hint Extern 2 (preserves inv (mod_ca _)) => (apply dctcp_inv_mod_ca; intros c Hc; exact Hc) : inv.

Lemma dctcp_init_inv : preserves inv bpf_dctcp_init.
Proof.
  unfold bpf_dctcp_init. apply preserves_bind; [auto with inv | intros w].
  apply preserves_if; intros _; [unfold switch_cc; preserve|].
  apply preserves_bind.
  { apply dctcp_inv_mod_ca; intros c _; cbn. unfold DCTCP_ALPHA_ON_INIT, alpha_ok; cbn.
    unfold DCTCP_MAX_ALPHA; lia. }
  intros _; apply preserves_bind; [destruct (k_sk_storage_get (tp w)); auto with inv | intros _].
  apply preserves_modify; intros w' Hw'; exact Hw'.
Qed.

Lemma event_inv ev : preserves inv (bpf_dctcp_cwnd_event ev).
Proof.
  unfold bpf_dctcp_cwnd_event, dctcp_ece_ack_update, bpf_tcp_send_ack, dctcp_react_to_loss;
    cbv zeta; preserve.
Qed.

Lemma handle_inv e w : inv w -> inv (handle e w).
Proof.
  destruct e; cbn [handle]; intros H.
  - now apply dctcp_init_inv.
  - revert w H; unfold bpf_dctcp_update_alpha; fold (preserves inv bpf_dctcp_update_alpha).
    apply (preserves_bind (get tp)); [auto with inv | intros t].
    apply preserves_bind; [auto with inv | intros c]. apply preserves_when; intros _.
    apply dctcp_inv_mod_ca; intros c'; apply alpha_update_ok.
  - now apply event_inv.
  - exact H.
  - exact H.
  - exact H.
  - revert w H; unfold bpf_dctcp_state, dctcp_react_to_loss; cbv zeta.
    apply (preserves_bind (get tp)); [auto with inv | intros t]. preserve.
Qed.

(** A connection: [init] taking the DCTCP branch, then any callbacks. *)
Inductive reachable : world -> Prop :=
| reach_init w : negb (Z.land (ecn_flags (tp w)) TCP_ECN_OK =? 0) = true ->
    reachable (handle EvInit w)
| reach_step e w : reachable w -> reachable (handle e w).

Lemma init_alpha w : negb (Z.land (ecn_flags (tp w)) TCP_ECN_OK =? 0) = true ->
  dctcp_alpha (ca (handle EvInit w)) = DCTCP_MAX_ALPHA.
Proof.
  intros H; cbn [handle]; unfold bpf_dctcp_init, bind, get, mod_ca, modify, ret; bsimp.
  rewrite (proj2 (Z.eqb_neq _ _) H). cbn [andb].
  cbn [ca tp set const]. destruct (k_sk_storage_get (tp w)); reflexivity.
Qed.

(** C33. Over every sequence of callbacks, [dctcp_alpha] stays in [0, 1024]. *)
Theorem alpha_bounded w : reachable w -> 0 <= dctcp_alpha (ca w) <= DCTCP_MAX_ALPHA.
Proof.
  change (reachable w -> inv w). induction 1 as [w H | e w _ IH].
  - unfold inv, alpha_ok. rewrite init_alpha by assumption. unfold DCTCP_MAX_ALPHA; lia.
  - now apply handle_inv.
Qed.

End Alpha.

(** ** The reduction, and how alpha moves *)

Section Dynamics.
Context {K : Kernel}.

(** The window is cut by [alpha/2048]: by half at most, and not at all when
    alpha is 0; nothing overflows below 2^22 packets. *)
Lemma ssthresh_cut w :
  alpha_ok (ca w) -> 2 <= snd_cwnd (tp w) < 2 ^ 22 ->
  let cwnd := snd_cwnd (tp w) in
  let (thresh, w') := bpf_dctcp_ssthresh w in
  thresh = Z.max (cwnd - cwnd * dctcp_alpha (ca w) / 2048) 2 /\
  cwnd <= 2 * thresh /\ thresh <= cwnd /\
  (dctcp_alpha (ca w) = 0 -> thresh = cwnd) /\
  loss_cwnd (ca w') = cwnd /\ dctcp_alpha (ca w') = dctcp_alpha (ca w) /\ tp w' = tp w.
Proof.
  intros Ha Hc cwnd. unfold alpha_ok, DCTCP_MAX_ALPHA in Ha. fold cwnd in Hc.
  unfold bpf_dctcp_ssthresh, bind, get, mod_ca, modify, ret.
  cbn [ca tp set const loss_cwnd dctcp_alpha]. fold cwnd.
  assert (0 <= cwnd * dctcp_alpha (ca w) <= cwnd * 1024) as Hm by nia.
  rewrite (uw_small 32 (cwnd * _)) by (unfold is_u; lia).
  unfold shr; rewrite shiftr_div by lia. change (2 ^ 11) with 2048.
  assert (0 <= cwnd * dctcp_alpha (ca w) / 2048 /\
          2 * (cwnd * dctcp_alpha (ca w) / 2048) <= cwnd) as [Hq1 Hq2]
    by (Z.div_mod_to_equations; lia).
  rewrite uw_small by (unfold is_u; lia).
  repeat split; try lia. intros E; rewrite E in *. rewrite Z.mul_0_r. change (0 / 2048) with 0. lia.
Qed.

(** One acknowledged round trip: [alpha' = decay alpha + 64 * ce / delivered],
    capped at 1024, and the counters restart; an ACK inside the round trip
    changes nothing.  Marked packets are counted among the delivered ones. *)
Lemma update_alpha_spec w :
  let t := tp w in
  let c := ca w in
  let c' := ca (snd (bpf_dctcp_update_alpha w)) in
  let ce := u32 (delivered_ce t - old_delivered_ce c) in
  let total := u32 (delivered t - old_delivered c) in
  alpha_ok c -> ce <= total -> ce < 2 ^ 26 ->
  (before (snd_una t) (next_seq c) = true -> c' = c) /\
  (before (snd_una t) (next_seq c) = false ->
     dctcp_alpha c' = Z.min (decay (dctcp_alpha c) + ce * 64 / Z.max 1 total) DCTCP_MAX_ALPHA /\
     next_seq c' = snd_nxt t /\ old_delivered c' = delivered t /\
     old_delivered_ce c' = delivered_ce t).
Proof.
  intros t c c' ce total Ha Hct Hce. unfold c', bpf_dctcp_update_alpha, bind, get, when, mod_ca, modify.
  fold t c. destruct (before _ _); cbn [negb snd]; (split; intros E; [|try discriminate]);
    try discriminate; [reflexivity|].
  cbn [ca set const dctcp_reset dctcp_alpha next_seq old_delivered old_delivered_ce].
  split; [|auto]. fold c. unfold alpha_ok, DCTCP_MAX_ALPHA in *.
  pose proof (decay_range (dctcp_alpha c)) as Hd.
  assert (is_u32 ce) as Hce32 by apply u32_range. unfold is_u in Hce32.
  unfold alpha_update. rewrite decay_code by lia. fold ce total. unfold DCTCP_MAX_ALPHA.
  destruct (Z.eqb_spec ce 0) as [->|Hne]; cbn [negb]; [change (0 * 64) with 0; rewrite Z.div_0_l; lia|].
  unfold shl, DCTCP_SHIFT_G. rewrite Z.shiftl_mul_pow2 by lia. change (2 ^ (10 - 4)) with 64.
  rewrite (uw_small 32 (ce * 64)) by (unfold is_u; lia).
  assert (0 <= ce * 64 / Z.max 1 total <= 64)
    by (split; [apply Z.div_pos | apply Z.div_le_upper_bound]; lia).
  now rewrite uw_small by (unfold is_u; lia).
Qed.

(** [n] round trips without a congestion mark. *)
Fixpoint quiet_rtts (n : nat) (alpha : Z) : Z :=
  match n with O => alpha | S n => quiet_rtts n (decay alpha) end.

Lemma decay_all_zero :
  forallb (fun a => quiet_rtts 75 a =? 0) (map Z.of_nat (seq 0 1025)) = true.
Proof. vm_compute. reflexivity. Qed.

Lemma quiet_zero n : quiet_rtts n 0 = 0.
Proof. induction n; [reflexivity | exact IHn]. Qed.

Lemma quiet_add n m a : quiet_rtts (n + m) a = quiet_rtts m (quiet_rtts n a).
Proof. revert a; induction n; intros; [reflexivity | apply IHn]. Qed.

Lemma quiet_enough alpha n :
  0 <= alpha <= DCTCP_MAX_ALPHA -> (75 <= n)%nat -> quiet_rtts n alpha = 0.
Proof.
  intros Ha Hn. replace n with (75 + (n - 75))%nat by lia. rewrite quiet_add.
  pose proof decay_all_zero as H; rewrite forallb_forall in H.
  rewrite (proj1 (Z.eqb_eq _ _) (H alpha ltac:(
    apply in_map_iff; exists (Z.to_nat alpha); unfold DCTCP_MAX_ALPHA in Ha;
    split; [lia | apply in_seq; lia]))).
  apply quiet_zero.
Qed.

(** ACKs that each close a round trip, on the socket states [ts]. *)
Definition rtt_step (w : world) (t : tcp_sock) : world :=
  snd (bpf_dctcp_update_alpha (w <| tp := t |>)).

Fixpoint unmarked (w : world) (ts : list tcp_sock) : Prop :=
  match ts with
  | [] => True
  | t :: ts => before (snd_una t) (next_seq (ca w)) = false /\
               delivered_ce t = old_delivered_ce (ca w) /\ unmarked (rtt_step w t) ts
  end.

Lemma rtt_step_quiet w t :
  alpha_ok (ca w) -> before (snd_una t) (next_seq (ca w)) = false ->
  delivered_ce t = old_delivered_ce (ca w) ->
  dctcp_alpha (ca (rtt_step w t)) = decay (dctcp_alpha (ca w)).
Proof.
  intros Ha Hb Hce. unfold rtt_step, bpf_dctcp_update_alpha, bind, get, when, mod_ca, modify.
  cbn [tp ca set const]. rewrite Hb.
  cbn [negb snd ca set const dctcp_reset dctcp_alpha]. unfold alpha_update.
  rewrite Hce, Z.sub_diag. cbn [negb Z.eqb].
  unfold alpha_ok, DCTCP_MAX_ALPHA in Ha.
  now rewrite decay_code by lia.
Qed.

(** C32. Without congestion marks alpha dies out: after 75 unmarked round trips it is
    exactly 0 whatever it was, so the window is no longer cut. *)
Theorem alpha_vanishes w ts :
  alpha_ok (ca w) -> unmarked w ts -> (75 <= length ts)%nat ->
  dctcp_alpha (ca (fold_left rtt_step ts w)) = 0.
Proof.
  intros Ha Hu Hl.
  assert (dctcp_alpha (ca (fold_left rtt_step ts w)) = quiet_rtts (length ts) (dctcp_alpha (ca w)))
    as ->; [|now apply quiet_enough].
  clear Hl. revert w Ha Hu; induction ts as [|t ts IH]; intros w Ha Hu; [reflexivity|].
  destruct Hu as (Hb & Hce & Hu). cbn [fold_left length quiet_rtts].
  rewrite <- (rtt_step_quiet w t) by assumption. apply IH; [|exact Hu].
  unfold alpha_ok. rewrite rtt_step_quiet by assumption.
  pose proof (decay_range (dctcp_alpha (ca w))). unfold alpha_ok in Ha. lia.
Qed.

(** ** The ECN echo state machine *)

(** The source's machine: state 1 iff the last packet was marked.  On a
    change, a pending delayed ACK is sent first and echoes the old state. *)
Definition ce_bit (evt : Z) : Z := if evt =? CA_EVENT_ECN_IS_CE then 1 else 0.
Definition echoes (flags ce : Z) : Prop := Z.testbit flags 2 = (ce =? 1).

Lemma cwr_echo ce t : echoes (ecn_flags (dctcp_ece_ack_cwr ce t)) ce.
Proof.
  unfold echoes, dctcp_ece_ack_cwr, TCP_ECN_DEMAND_CWR; cbn [ecn_flags set].
  destruct (ce =? 1); [rewrite Z.lor_spec | rewrite Z.land_spec];
    cbn; [apply orb_true_r | apply andb_false_r].
Qed.

(** C36. The ECN-echo machine: after an ECN event the state is the event's CE bit
    and the socket's echo flag agrees with it; on a change an immediate
    acknowledgement is requested, and if a delayed one was pending it is sent
    first, for the old sequence number and echoing the old state. *)
Theorem ece_ack_machine evt w :
  let w' := snd (dctcp_ece_ack_update evt w) in
  let changed := negb (ce_state (ca w) =? ce_bit evt) in
  let delayed := negb (Z.land (icsk_ack_pending (tp w)) ICSK_ACK_TIMER =? 0) in
  ce_state (ca w') = ce_bit evt /\ echoes (ecn_flags (tp w')) (ce_bit evt) /\
  prior_rcv_nxt (ca w') = rcv_nxt (tp w') /\ dctcp_alpha (ca w') = dctcp_alpha (ca w) /\
  (changed = true -> Z.testbit (icsk_ack_pending (tp w')) 4 = true) /\
  (changed && delayed = false -> acks w' = acks w) /\
  (changed && delayed = true -> exists a, acks w' = acks w ++ [a] /\
     ack_seq a = prior_rcv_nxt (ca w) /\ echoes (ack_ecn a) (ce_state (ca w))).
Proof.
  intros w' changed delayed. subst w'.
  unfold dctcp_ece_ack_update; fold (ce_bit evt).
  unfold bpf_tcp_send_ack, bind, get, when, mod_ca, mod_tp, modify, ret; cbv zeta.
  fold changed. destruct changed; cbn [andb].
  - fold delayed. destruct delayed; cbn [snd ca tp set const acks ce_state prior_rcv_nxt
      dctcp_alpha icsk_ack_pending ecn_flags rcv_nxt dctcp_ece_ack_cwr];
      repeat match goal with |- _ /\ _ => split end;
      try reflexivity; try discriminate; try apply cwr_echo;
      try (intros _; rewrite Z.lor_spec; apply orb_true_r).
    intros _. eexists; split; [reflexivity|]. split; [reflexivity|]. cbn [ack_ecn].
    apply cwr_echo.
  - cbn. repeat match goal with |- _ /\ _ => split end;
      try reflexivity; try discriminate. apply cwr_echo.
Qed.

(** ** Loss and undo *)

(** A loss halves the threshold and remembers the window; while nothing else
    records a loss, undo gives back at least the window before it. *)
Lemma loss_undo w t' :
  is_u32 (snd_cwnd (tp w)) ->
  let w1 := snd (dctcp_react_to_loss w) in
  snd_ssthresh (tp w1) = Z.max (snd_cwnd (tp w) / 2) 2 /\
  (let w2 := w1 <| tp := t' |> in
   let (cwnd, w3) := bpf_dctcp_cwnd_undo w2 in
   cwnd = Z.max (snd_cwnd t') (snd_cwnd (tp w)) /\ w3 = w2).
Proof.
  intros H. unfold dctcp_react_to_loss, bpf_dctcp_cwnd_undo, bind, get, mod_ca, mod_tp, modify.
  cbn. split; [|auto]. unfold shr. now rewrite shiftr_div by lia.
Qed.

End Dynamics.

(** ** A kernel that satisfies the assumptions *)

Definition kernel0 : Kernel := {|
  k_setsockopt := fun _ w => (0, w);
  k_getsockopt := fun w => cc_res w;
  k_sk_storage_get := fun _ => Some 7;
  k_sk_storage_delete := fun t => t;
  k_tcp_send_ack := fun t _ => t;
  k_tcp_reno_cong_avoid := fun t _ _ => t
|}.

Lemma dctcp_kernel0_ok : KernelOk kernel0.
Proof. constructor; intros; assumption. Qed.

#[local] Existing Instance kernel0.

Definition sock0 : tcp_sock :=
  {| snd_cwnd := 100; snd_ssthresh := 50; delivered := 200; delivered_ce := 20; ecn_flags := 1;
     rcv_nxt := 9; snd_nxt := 300; snd_una := 100; ca_state_byte := 0; icsk_ack_pending := 0 |}.

Definition world0 : world :=
  {| ca := {| old_delivered := 100; old_delivered_ce := 10; prior_rcv_nxt := 0; dctcp_alpha := 512;
              next_seq := 50; ce_state := 0; loss_cwnd := 0 |};
     tp := sock0; fallback_cc := []; cc_res := []; tcp_cdg_res := 0; stg_result := 0;
     ebusy_cnt := 0; acks := [] |}.

Lemma alpha_bounded_witness :
  0 <= dctcp_alpha (ca (handle EvInAck (handle EvInit world0))) <= DCTCP_MAX_ALPHA.
Proof. apply (@alpha_bounded kernel0 dctcp_kernel0_ok), reach_step, reach_init. reflexivity. Defined.

Lemma ssthresh_cut_witness : fst (bpf_dctcp_ssthresh world0) = 75.
Proof.
  pose proof (ssthresh_cut world0) as H.
  destruct (bpf_dctcp_ssthresh world0) as [t w]; cbn [fst].
  destruct H as [-> _]; [unfold alpha_ok, DCTCP_MAX_ALPHA; cbn; lia | cbn; lia | reflexivity].
Defined.

(** Eighty acknowledgements, each past the previous [snd_nxt]. *)
Lemma alpha_vanishes_witness :
  dctcp_alpha (ca (fold_left rtt_step
    (repeat (sock0 <| delivered_ce := 10 |> <| snd_una := 300 |>) 80) world0)) = 0.
Proof.
  apply alpha_vanishes; [unfold alpha_ok, DCTCP_MAX_ALPHA; cbn; lia | | rewrite repeat_length; lia].
  vm_compute. repeat split.
Defined.

Lemma loss_undo_witness :
  snd_ssthresh (tp (snd (dctcp_react_to_loss world0))) = 50 /\
  fst (bpf_dctcp_cwnd_undo ((snd (dctcp_react_to_loss world0)) <| tp := sock0 |>)) = 100.
Proof.
  destruct (loss_undo world0 sock0) as [H1 H2]; [unfold is_u; cbn; lia|].
  split; [rewrite H1; reflexivity|].
  exact (proj1 H2).
Defined.

End Dctcp.
