(* ===== verification/Fifo.v ===== *)
(** The FIFO packet scheduler: progs/bpf_qdisc_fifo.rs.

    The state is the qdisc's counters, the program's list [q_fifo] of
    [skb_node]s and the packets handed back to the kernel.  [spec] is the
    abstract queue; the theorems show that the callbacks implement it and
    that over any sequence of operations no packet is lost, duplicated or
    reordered. *)

From S2P Require Import Prelude Kernel.
Local Open Scope st_scope.

Module Fifo.

Definition NET_XMIT_SUCCESS := 0.
Definition NET_XMIT_DROP := 1.

(** A packet: its identity and [qdisc_skb_cb(skb)->pkt_len]. *)
Record sk_buff := { skb_id : Z; pkt_len : Z }.

(** The program's node, with its [__kptr] to a packet. *)
Record skb_node := { node_skb : option sk_buff }.

Record Qdisc := { qlen : Z; limit : Z; backlog : Z }.

Section Fifo.
Context {KL : KList skb_node} {LP : KLoop}.

(** [allocs] counts the [bpf_obj_new] calls; [to_free], [sent] and [freed] are
    the packets passed to bpf_qdisc_skb_drop, bpf_qdisc_bstats_update and
    bpf_kfree_skb. *)
Record world := {
  sch : Qdisc;
  q_fifo : klist;
  init_called : bool;
  allocs : nat;
  to_free : list sk_buff;
  sent : list sk_buff;
  freed : list sk_buff
}.

(** Whether the [n]-th [bpf_obj_new] succeeds. *)
Context (obj_new : nat -> bool).

Definition bpf_obj_new : ST world (option skb_node) := fun w =>
  (if obj_new (allocs w) then Some {| node_skb := None |} else None, w <| allocs ::= S |>).

(** [bpf_kptr_xchg(&node->skb, new)]: the old packet and the updated node. *)
Definition bpf_kptr_xchg (n : skb_node) (new : option sk_buff) : option sk_buff * skb_node :=
  (node_skb n, {| node_skb := new |}).

Definition qdisc_skb_drop (skb : sk_buff) : ST world unit :=
  modify (fun w => w <| to_free ::= (fun l => l ++ [skb]) |>).

Definition bpf_fifo_enqueue (skb : sk_buff) : ST world Z :=
  s <- get sch ;;
  if qlen s =? limit s then qdisc_skb_drop skb ;; ret NET_XMIT_DROP else
  n <- bpf_obj_new ;;
  match n with
  | None => qdisc_skb_drop skb ;; ret NET_XMIT_DROP
  | Some skbn =>
      let len := pkt_len skb in
      modify (fun w => w <| sch ::= (fun s => s <| qlen := u32 (qlen s + 1) |>) |>) ;;
      let (old, skbn) := bpf_kptr_xchg skbn (Some skb) in
      match old with Some o => qdisc_skb_drop o | None => ret tt end ;;
      modify (fun w => w <| q_fifo ::= (fun l => bpf_list_push_back l skbn) |>) ;;
      modify (fun w => w <| sch ::= (fun s => s <| backlog := u32 (backlog s + len) |>) |>) ;;
      ret NET_XMIT_SUCCESS
  end.

(** [bpf_list_pop_front(&q_fifo)] *)
Definition pop_front : ST world (option skb_node) := fun w =>
  let (n, l) := bpf_list_pop_front (q_fifo w) in (n, w <| q_fifo := l |>).

Definition bpf_fifo_dequeue : ST world (option sk_buff) :=
  node <- pop_front ;;
  match node with
  | None => ret None
  | Some skbn =>
      let (skb, skbn) := bpf_kptr_xchg skbn None in
      match skb with
      | None => ret None
      | Some skb =>
          modify (fun w => w <| sch ::= (fun s => s <| backlog := u32 (backlog s - pkt_len skb) |>) |>) ;;
          modify (fun w => w <| sent ::= (fun l => l ++ [skb]) |>) ;;
          modify (fun w => w <| sch ::= (fun s => s <| qlen := u32 (qlen s - 1) |>) |>) ;;
          ret (Some skb)
      end
  end.

Definition bpf_fifo_init : ST world Z :=
  modify (fun w => w <| sch ::= (fun s => s <| limit := 1000 |>) |>) ;;
  modify (fun w => w <| init_called := true |>) ;;
  ret 0.

(** One round of the reset loop; [true] leaves it. *)
Definition reset_round : ST world bool :=
  node <- pop_front ;;
  match node with
  | None => ret true
  | Some skbn =>
      let (skb, skbn) := bpf_kptr_xchg skbn None in
      match skb with
      | Some skb => modify (fun w => w <| freed ::= (fun l => l ++ [skb]) |>)
      | None => ret tt
      end ;;
      ret false
  end.

Definition bpf_fifo_reset : ST world unit :=
  n <- get (fun w => i32 (qlen (sch w))) ;;
  modify (bpf_for n reset_round) ;;
  modify (fun w => w <| sch ::= (fun s => s <| qlen := 0 |>) |>).

(** ** The abstract queue *)

Definition total (q : list sk_buff) : Z := fold_right (fun s a => pkt_len s + a) 0 q.

(** The refinement relation: the nodes hold the queue's packets in order, and
    the counters are its length and its total size. *)
Definition refines (w : world) (q : list sk_buff) : Prop :=
  map node_skb (kl_elems (q_fifo w)) = map Some q /\
  qlen (sch w) = Z.of_nat (length q) /\ backlog (sch w) = u32 (total q) /\
  Z.of_nat (length q) <= limit (sch w) < 2 ^ 31.

Context {LL : KListLaws skb_node}.

Lemma total_app p q : total (p ++ q) = total p + total q.
Proof. unfold total; induction p as [|x p IH]; cbn [app fold_right]; lia. Qed.

Lemma u32_add_l a b : u32 (u32 a + b) = u32 (a + b).
Proof. apply Zplus_mod_idemp_l. Qed.
Lemma u32_sub_l a b : u32 (u32 a - b) = u32 (a - b).
Proof. apply Zminus_mod_idemp_l. Qed.

(** Enqueue: a packet is accepted at the tail exactly when there is room and
    memory, and is otherwise handed back once; the queue is the abstract queue
    in both cases. *)
Lemma enqueue_refines skb w q : refines w q ->
  let (r, w') := bpf_fifo_enqueue skb w in
  if (Z.of_nat (length q) <? limit (sch w)) && obj_new (allocs w)
  then r = NET_XMIT_SUCCESS /\ refines w' (q ++ [skb]) /\ to_free w' = to_free w /\
       sent w' = sent w /\ limit (sch w') = limit (sch w)
  else r = NET_XMIT_DROP /\ refines w' q /\ to_free w' = to_free w ++ [skb] /\
       sent w' = sent w /\ limit (sch w') = limit (sch w).
Proof.
  intros Hr. pose proof Hr as (Hel & Hq & Hb & Hl).
  unfold bpf_fifo_enqueue, bpf_obj_new, qdisc_skb_drop, bind, get, modify, ret.
  rewrite Hq. destruct (Z.eqb_spec (Z.of_nat (length q)) (limit (sch w))) as [E|E].
  { rewrite (proj2 (Z.ltb_ge _ _)) by lia. split; [reflexivity | split; [exact Hr | auto]]. }
  rewrite (proj2 (Z.ltb_lt _ _)) by lia. cbn [andb].
  destruct (obj_new (allocs w)); cbn [bpf_kptr_xchg node_skb];
    [|split; [reflexivity | split; [exact Hr | auto]]].
  unfold refines; cbn [sch q_fifo to_free sent qlen backlog limit set const].
  rewrite elems_push_back, !map_app, Hel, Hb, u32_add_l, total_app, length_app.
  cbn [map node_skb length]. change (total [skb]) with (pkt_len skb + 0). rewrite Z.add_0_r.
  rewrite Hq, (uw_small 32 (Z.of_nat (length q) + 1)) by (unfold is_u; lia).
  repeat split; lia.
Qed.

(** Dequeue: the oldest packet, which leaves the queue and is counted as sent,
    or nothing when the queue is empty. *)
Lemma dequeue_refines w q : refines w q ->
  let (r, w') := bpf_fifo_dequeue w in
  to_free w' = to_free w /\ limit (sch w') = limit (sch w) /\
  match q with
  | [] => r = None /\ refines w' [] /\ sent w' = sent w
  | skb :: q' => r = Some skb /\ refines w' q' /\ sent w' = sent w ++ [skb]
  end.
Proof.
  intros (Hel & Hq & Hb & Hl). unfold bpf_fifo_dequeue, pop_front, bind, modify, ret.
  destruct q as [|skb q]; cbn [map] in Hel.
  - apply map_eq_nil in Hel. destruct (pop_front_nil _ Hel) as [E1 E2].
    destruct (bpf_list_pop_front (q_fifo w)) as [n l]; cbn [fst snd] in *; subst n.
    unfold refines; cbn [sch q_fifo to_free sent limit set const]. rewrite E2, Hq, Hb. auto 10.
  - destruct (kl_elems (q_fifo w)) as [|n r] eqn:E; [discriminate|]. injection Hel as Hn Hr.
    destruct (pop_front_cons _ _ _ E) as [E1 E2].
    destruct (bpf_list_pop_front (q_fifo w)) as [n' l]; cbn [fst snd] in *; subst n'.
    cbn [bpf_kptr_xchg]. rewrite Hn.
    unfold refines; cbn [sch q_fifo to_free sent qlen backlog limit set const].
    rewrite E2, Hq, Hb, u32_sub_l. cbn [length] in *.
    change (total (skb :: q)) with (pkt_len skb + total q).
    replace (pkt_len skb + total q - pkt_len skb) with (total q) by lia.
    rewrite (uw_small 32 (_ - 1)) by (unfold is_u; lia).
    repeat split; auto; lia.
Qed.

(** ** Reset *)

Lemma reset_round_spec w n r s :
  kl_elems (q_fifo w) = n :: r -> node_skb n = Some s ->
  let (stop, w') := reset_round w in
  stop = false /\ kl_elems (q_fifo w') = r /\ freed w' = freed w ++ [s] /\
  sch w' = sch w /\ sent w' = sent w /\ to_free w' = to_free w.
Proof.
  intros E Hn. unfold reset_round, pop_front, bind, modify, ret.
  destruct (pop_front_cons _ _ _ E) as [E1 E2].
  destruct (bpf_list_pop_front (q_fifo w)) as [n' l]; cbn [fst snd] in *; subst n'.
  cbn [bpf_kptr_xchg]. rewrite Hn. cbn. auto 10.
Qed.

Lemma reset_loop q : forall w, map node_skb (kl_elems (q_fifo w)) = map Some q ->
  let w' := run_loop (length q) reset_round w in
  kl_elems (q_fifo w') = [] /\ freed w' = freed w ++ q /\ sch w' = sch w /\
  sent w' = sent w /\ to_free w' = to_free w.
Proof.
  induction q as [|s q IH]; intros w Hel; cbn [length run_loop map] in *.
  - apply map_eq_nil in Hel. rewrite app_nil_r. auto.
  - destruct (kl_elems (q_fifo w)) as [|n r] eqn:E; [discriminate|]. injection Hel as Hn Hr.
    pose proof (reset_round_spec w n r s E Hn) as Hround.
    destruct (reset_round w) as [stop w']. destruct Hround as (-> & E' & Hf & Hs & Hsent & Hto).
    destruct (IH w' ltac:(now rewrite E')) as (G1 & G2 & G3 & G4 & G5).
    rewrite G2, G3, G4, G5, Hf, Hs, Hsent, Hto, <- app_assoc. auto.
Qed.

(** Reset empties the queue and frees each queued packet exactly once, in order;
    the loop's bound, read from [qlen], is enough.  The backlog is left to the
    kernel's qdisc_reset. *)
Lemma reset_spec w q : refines w q -> Z.of_nat (length q) <= BPF_MAX_LOOPS ->
  let w' := snd (bpf_fifo_reset w) in
  kl_elems (q_fifo w') = [] /\ qlen (sch w') = 0 /\ freed w' = freed w ++ q /\
  backlog (sch w') = backlog (sch w).
Proof.
  intros (Hel & Hq & Hb & Hl) Hmax.
  unfold bpf_fifo_reset, bind, get, modify; cbn [snd].
  rewrite Hq, i32_small by lia. rewrite bpf_for_spec by lia. rewrite Nat2Z.id.
  destruct (reset_loop q w Hel) as (G1 & G2 & G3 & _). cbn. rewrite G2, G3. auto.
Qed.

(** ** Runs *)

Inductive op := Enqueue (skb : sk_buff) | Dequeue.

(** What the network saw: packets accepted, delivered and dropped. *)
Record outcome := { accepted : list sk_buff; delivered : list sk_buff; dropped : list sk_buff }.

Definition step (o : op) (st : outcome * world) : outcome * world :=
  let (out, w) := st in
  match o with
  | Enqueue skb =>
      let (r, w) := bpf_fifo_enqueue skb w in
      if r =? NET_XMIT_SUCCESS then (out <| accepted ::= (fun l => l ++ [skb]) |>, w)
      else (out <| dropped ::= (fun l => l ++ [skb]) |>, w)
  | Dequeue =>
      let (r, w) := bpf_fifo_dequeue w in
      match r with
      | Some skb => (out <| delivered ::= (fun l => l ++ [skb]) |>, w)
      | None => (out, w)
      end
  end.

Definition run (ops : list op) (st : outcome * world) : outcome * world :=
  fold_left (fun st o => step o st) ops st.

(** Delivered packets, then the queue, are the accepted packets in order. *)
Definition run_inv (st : outcome * world) : Prop :=
  exists q, refines (snd st) q /\ accepted (fst st) = delivered (fst st) ++ q /\
    sent (snd st) = delivered (fst st) /\ to_free (snd st) = dropped (fst st) /\
    limit (sch (snd st)) = 1000.

Lemma step_inv o st : run_inv st -> run_inv (step o st).
Proof.
  destruct st as [out w]; intros (q & Hr & Ha & Hs & Hf & Hlim); cbn [fst snd] in *.
  destruct o as [skb|]; cbn [step].
  - pose proof (enqueue_refines skb w q Hr) as H.
    destruct (bpf_fifo_enqueue skb w) as [r w'].
    case_if_in H; destruct H as (-> & Hr' & Hf' & Hs' & Hl'); cbn.
    + exists (q ++ [skb]). cbn. rewrite Ha, app_assoc, Hs', Hf', Hl'. auto.
    + exists q. cbn. rewrite Hs', Hf', Hf, Hl'. auto.
  - pose proof (dequeue_refines w q Hr) as H.
    destruct (bpf_fifo_dequeue w) as [r w'].
    destruct H as (Hf' & Hl' & H). destruct q as [|skb q].
    + destruct H as (-> & Hr' & Hs'). exists []. cbn. rewrite Hs', Hf', Hl'. auto.
    + destruct H as (-> & Hr' & Hs'). exists q. cbn. rewrite Hs', Hf', Hl', Ha, Hs, <- app_assoc. auto.
Qed.

Lemma run_inv_holds ops st : run_inv st -> run_inv (run ops st).
Proof.
  unfold run; revert st; induction ops as [|o ops IH]; intros st H; [exact H|].
  cbn [fold_left]. apply IH, step_inv, H.
Qed.

(** An idle qdisc before its first packet. *)
Definition idle (w : world) : Prop :=
  kl_elems (q_fifo w) = [] /\ qlen (sch w) = 0 /\ backlog (sch w) = 0 /\
  sent w = [] /\ to_free w = [].

(** C4. First in, first out: after init and any interleaving of enqueues and
    dequeues, whatever allocations fail, the accepted packets are, in order, the
    delivered ones followed by the queued ones; each delivered packet was
    counted as sent and each refused one handed back, once; the counters agree
    with the queue, which never exceeds 1000 packets. *)
Theorem fifo_order w ops : idle w ->
  let (out, w') := run ops ({| accepted := []; delivered := []; dropped := [] |},
                            snd (bpf_fifo_init w)) in
  exists q, refines w' q /\ accepted out = delivered out ++ q /\
    sent w' = delivered out /\ to_free w' = dropped out /\ (length q <= 1000)%nat.
Proof.
  intros (He & Hq & Hb & Hs & Ht).
  pose proof (run_inv_holds ops ({| accepted := []; delivered := []; dropped := [] |},
    snd (bpf_fifo_init w))) as H.
  destruct (run _ _) as [out w'].
  destruct H as (q & Hr & Ha & Hse & Hf & Hl).
  { exists []. unfold refines; cbn. rewrite He, Hq, Hb, Hs, Ht. repeat split; lia. }
  exists q; repeat split; try apply Hr; try assumption.
  destruct Hr as (_ & _ & _ & Hr); cbn [snd] in *; lia.
Qed.

(** C34. Each operation implements the abstract queue: an enqueue appends at the
    tail exactly when there is room and memory and returns NET_XMIT_SUCCESS,
    otherwise hands the packet back and returns NET_XMIT_DROP with the queue
    unchanged; a dequeue takes the head or, on the empty queue, nothing. *)
Theorem fifo_refinement w q skb : refines w q ->
  (let (r, w') := bpf_fifo_enqueue skb w in
   if (Z.of_nat (length q) <? limit (sch w)) && obj_new (allocs w)
   then r = NET_XMIT_SUCCESS /\ refines w' (q ++ [skb]) /\ to_free w' = to_free w
   else r = NET_XMIT_DROP /\ refines w' q /\ to_free w' = to_free w ++ [skb]) /\
  (let (r, w') := bpf_fifo_dequeue w in
   match q with
   | [] => r = None /\ refines w' [] /\ sent w' = sent w
   | x :: q' => r = Some x /\ refines w' q' /\ sent w' = sent w ++ [x]
   end).
Proof.
  intros Hr; split.
  - pose proof (enqueue_refines skb w q Hr) as H. destruct (bpf_fifo_enqueue skb w).
    case_if; repeat split; apply H.
  - pose proof (dequeue_refines w q Hr) as H. destruct (bpf_fifo_dequeue w). apply H.
Qed.

(** Reset empties the queue and frees each queued packet exactly once, in
    order; the loop's bound, read from [qlen], is enough.  The backlog is left
    to the kernel. *)
Lemma fifo_reset w q : refines w q -> Z.of_nat (length q) <= BPF_MAX_LOOPS ->
  let w' := snd (bpf_fifo_reset w) in
  kl_elems (q_fifo w') = [] /\ qlen (sch w') = 0 /\ freed w' = freed w ++ q /\
  backlog (sch w') = backlog (sch w).
Proof. apply reset_spec. Qed.

End Fifo.

(** ** Concrete runs, on the list instance of the kernel's interface *)

#[local] Existing Instances list_klist list_klist_laws run_kloop.

Definition skb0 (n : Z) : sk_buff := {| skb_id := n; pkt_len := 100 * n |}.

Definition world0 (q : list sk_buff) : world :=
  {| sch := {| qlen := Z.of_nat (length q); limit := 1000; backlog := u32 (total q) |};
     q_fifo := map (fun s => {| node_skb := Some s |}) q; init_called := false; allocs := 0;
     to_free := []; sent := []; freed := [] |}.

(** Three packets offered, the second without memory, one delivered. *)
Lemma fifo_order_witness :
  let st := run (fun n => negb (Nat.eqb n 1))
              [Enqueue (skb0 1); Enqueue (skb0 2); Enqueue (skb0 3); Dequeue]
              ({| accepted := []; delivered := []; dropped := [] |},
               snd (bpf_fifo_init (world0 []))) in
  accepted (fst st) = [skb0 1; skb0 3] /\ dropped (fst st) = [skb0 2] /\
  sent (snd st) = delivered (fst st) /\ delivered (fst st) = [skb0 1].
Proof.
  intros st. split; [reflexivity|]; split; [reflexivity|]; split; [|reflexivity].
  pose proof (fifo_order (fun n => negb (Nat.eqb n 1)) (world0 [])
    [Enqueue (skb0 1); Enqueue (skb0 2); Enqueue (skb0 3); Dequeue] ltac:(now repeat split)) as H.
  change (run _ _ _) with st in H; destruct st as [out w']. destruct H as (q & _ & _ & H & _). exact H.
Defined.

Lemma refines0 q : Z.of_nat (length q) <= 1000 -> refines (world0 q) q.
Proof.
  intros; unfold refines; cbn. rewrite map_map. repeat split; lia.
Qed.

Lemma fifo_refinement_witness :
  fst (bpf_fifo_dequeue (world0 [skb0 1; skb0 2])) = Some (skb0 1).
Proof.
  destruct (fifo_refinement (fun _ => true) (world0 [skb0 1; skb0 2]) [skb0 1; skb0 2] (skb0 3)
    (refines0 [skb0 1; skb0 2] ltac:(cbn; lia))) as [_ H].
  destruct (bpf_fifo_dequeue _) as [r w']; destruct H as [-> _]. reflexivity.
Defined.

End Fifo.
