(* ===== verification/Fq.v ===== *)
(** The fair queueing packet scheduler: progs/bpf_qdisc_fq.rs.

    The state is the qdisc's counters, the configuration [q], the heap of
    reference-counted flows, the two hash maps that stash one reference per
    flow, the two lists and the tree that hold another for the active and the
    throttled flows, and the packets handed back to the kernel.  A flow is a
    heap address; a [fq_stashed_flow] pointer is a map and a key. *)

From Stdlib Require Import Permutation.
From S2P Require Import Prelude Kernel.
Local Open Scope st_scope.

Module Fq.

(** ** Constants *)

Definition NET_XMIT_SUCCESS := 0.
Definition NET_XMIT_DROP := 1.
Definition TC_PRIO_CONTROL := 7.
Definition TC_PRIO_MAX := 15.
Definition ENOMEM := 12.
Definition E2BIG := 7.
Definition TCP_CLOSE := 7.
Definition TCPF_LISTEN := Z.shiftl 1 10.
Definition TCPF_NEW_SYN_RECV := Z.shiftl 1 12.
Definition NSEC_PER_USEC := 1000.
Definition NSEC_PER_SEC := 1000000000.
Definition NUM_QUEUE := Z.shiftl 1 20.
Definition FQ_GC_MAX := 8.
Definition CLS_RET_PRIO := 0.
Definition CLS_RET_NONPRIO := 1.
Definition CLS_RET_ERR := 2.

(** [!0u64]: the age of a throttled flow, and the "never" of
    [time_next_delayed_flow]. *)
Definition U64_MAX := 2 ^ 64 - 1.

(** ** Data *)

Record sock := { skc_state : Z; skc_hash : Z }.

(** A packet: its identity, the fields the program reads, and the flow hash
    the kernel computes for it. *)
Record sk_buff := {
  skb_id : Z;
  sk : option sock;
  skb_tstamp : Z;
  pkt_len : Z;
  priority : Z;
  skb_hash : Z
}.

Record skb_node := { tstamp : Z; node_skb : option sk_buff }.

Record fq_bpf_data := {
  quantum : Z;
  initial_quantum : Z;
  flow_refill_delay : Z;
  flow_plimit : Z;
  horizon : Z;
  orphan_mask : Z;
  timer_slack : Z;
  time_next_delayed_flow : Z;
  unthrottle_latency_ns : Z;
  horizon_drop : Z;
  new_flow_cnt : Z;
  old_flow_cnt : Z;
  ktime_cache : Z
}.

Record Qdisc := { qlen : Z; limit : Z; backlog : Z; drops : Z }.

Record dequeue_nonprio_ctx := { stop_iter : bool; expire : Z; now : Z }.
Record remove_flows_ctx := { gc_only : bool; reset_cnt : Z; reset_max : Z }.

(** The helpers and kfuncs; the answers the program cannot foresee are
    functions of the number of the call. *)
Class Kernel := {
  ktime : nat -> Z;
  jiffies : nat -> Z;
  obj_new : nat -> bool;
  map_update_result : nat -> Z;
  elem_order : nat -> list Z;
  CONFIG_HZ : Z;
  dev_mtu : Z;
  dev_hard_header_len : Z
}.

Section Fq.
Context {KF : KList nat} {TF : KTree nat} {TS : KTree skb_node} {LP : KLoop} {K : Kernel}.

Record fq_flow_node := {
  credit : Z;
  flow_qlen : Z;
  age : Z;
  time_next_packet : Z;
  queue : ktree (A := skb_node);
  refcount : nat
}.

(** A hash map of [fq_stashed_flow]s: whether the key is there, and its kptr. *)
Definition stash := Z -> option (option nat).

Record world := {
  sch : Qdisc;
  q : fq_bpf_data;
  fq_nonprio_flows : stash;
  fq_prio_flows : stash;
  heap : nat -> fq_flow_node;
  next : nat;
  fq_delayed : ktree (A := nat);
  fq_new_flows : klist (A := nat);
  fq_old_flows : klist (A := nat);
  calls : nat;
  to_free : list sk_buff;
  sent : list sk_buff;
  released : list sk_buff;
  watchdog : option (Z * Z)
}.

Definition nset {A} (f : nat -> A) (k : nat) (v : A) : nat -> A := fun k' => if Nat.eqb k' k then v else f k'.
Definition zset {A} (f : Z -> A) (k : Z) (v : A) : Z -> A := fun k' => if k' =? k then v else f k'.

(** ** Helpers and kfuncs *)

Definition call {A} (f : nat -> A) : ST world A := fun w => (f (calls w), w <| calls ::= S |>).
Definition bpf_ktime_get_ns : ST world Z := call (fun n => u64 (ktime n)).
Definition bpf_jiffies64 : ST world Z := call (fun n => u64 (jiffies n)).

Definition mod_q (f : fq_bpf_data -> fq_bpf_data) : ST world unit := modify (fun w => w <| q ::= f |>).
Definition mod_sch (f : Qdisc -> Qdisc) : ST world unit := modify (fun w => w <| sch ::= f |>).
Definition mod_flow (id : nat) (f : fq_flow_node -> fq_flow_node) : ST world unit :=
  modify (fun w => w <| heap ::= (fun h => nset h id (f (h id))) |>).
Definition flow (id : nat) : ST world fq_flow_node := get (fun w => heap w id).

Definition skbs (t : ktree (A := skb_node)) : list sk_buff :=
  flat_map (fun n => match node_skb n with Some s => [s] | None => [] end) (kt_elems t).

(** [bpf_obj_drop(flow)]: the last reference releases the packets still queued. *)
Definition bpf_obj_drop (id : nat) : ST world unit :=
  f <- flow id ;;
  mod_flow id (fun f => f <| refcount ::= Nat.pred |>) ;;
  when (Nat.leb (refcount f) 1)
    (modify (fun w => w <| released ::= (fun l => l ++ skbs (queue f)) |>) ;;
     mod_flow id (fun f => f <| queue := kt_empty |>)).

Definition bpf_refcount_acquire (id : nat) : ST world nat :=
  mod_flow id (fun f => f <| refcount ::= S |>) ;; ret id.

Definition the_map (prio : bool) (w : world) : stash := if prio then fq_prio_flows w else fq_nonprio_flows w.
Definition mod_map (prio : bool) (f : stash -> stash) : ST world unit :=
  modify (fun w => if prio then w <| fq_prio_flows ::= f |> else w <| fq_nonprio_flows ::= f |>).

Definition bpf_map_lookup_elem (prio : bool) (hash : Z) : ST world (option (option nat)) :=
  get (fun w => the_map prio w hash).

(** [bpf_kptr_xchg(&sflow->flow, new)] *)
Definition bpf_kptr_xchg (prio : bool) (hash : Z) (new : option nat) : ST world (option nat) :=
  old <- get (fun w => match the_map prio w hash with Some o => o | None => None end) ;;
  mod_map prio (fun m => zset m hash (Some new)) ;;
  ret old.

Definition drop_opt (o : option nat) : ST world unit :=
  match o with Some id => bpf_obj_drop id | None => ret tt end.

Definition bpf_kptr_xchg_back (prio : bool) (hash : Z) (id : nat) : ST world unit :=
  old <- bpf_kptr_xchg prio hash (Some id) ;; drop_opt old.

(** An update with an empty stash: a stash it replaces is dropped. *)
Definition bpf_map_update_elem (prio : bool) (hash : Z) : ST world Z :=
  r <- call (fun n => i32 (map_update_result n)) ;;
  when (r =? 0) (old <- bpf_kptr_xchg prio hash None ;; drop_opt old) ;;
  ret r.

Definition bpf_map_delete_elem (prio : bool) (hash : Z) : ST world unit :=
  old <- bpf_kptr_xchg prio hash None ;;
  mod_map prio (fun m => zset m hash None) ;;
  drop_opt old.

(** [bpf_for_each_map_elem]: the elements present when they are reached, until
    the callback asks to stop. *)
Fixpoint for_each (prio : bool) {C} (cb : Z -> option nat -> C -> ST world (bool * C))
    (keys : list Z) (c : C) : ST world C :=
  match keys with
  | [] => ret c
  | k :: keys =>
      e <- bpf_map_lookup_elem prio k ;;
      match e with
      | None => for_each prio cb keys c
      | Some f => r <- cb k f c ;;
                  if fst r : bool then ret (snd r) else for_each prio cb keys (snd r)
      end
  end.

Definition bpf_for_each_map_elem (prio : bool) {C} (cb : Z -> option nat -> C -> ST world (bool * C))
    (c : C) : ST world C :=
  keys <- call elem_order ;; for_each prio cb keys c.

Definition bpf_qdisc_skb_drop (skb : sk_buff) : ST world unit :=
  modify (fun w => w <| to_free ::= (fun l => l ++ [skb]) |>).

(** ** Flows *)

Definition tree_key (w : world) (id : nat) : Z := time_next_packet (heap w id).

(** The two lists of active flows. *)
Definition push_front (new : bool) (id : nat) : ST world unit :=
  modify (fun w => if new then w <| fq_new_flows ::= (fun l => bpf_list_push_front l id) |>
                   else w <| fq_old_flows ::= (fun l => bpf_list_push_front l id) |>).
Definition push_back (new : bool) (id : nat) : ST world unit :=
  modify (fun w => if new then w <| fq_new_flows ::= (fun l => bpf_list_push_back l id) |>
                   else w <| fq_old_flows ::= (fun l => bpf_list_push_back l id) |>).
Definition pop_front (new : bool) : ST world (option nat) := fun w =>
  if new then let (n, l) := bpf_list_pop_front (fq_new_flows w) in (n, w <| fq_new_flows := l |>)
  else let (n, l) := bpf_list_pop_front (fq_old_flows w) in (n, w <| fq_old_flows := l |>).
Definition flow_cnt (new : bool) (f : Z -> Z) : ST world unit :=
  mod_q (fun c => if new then c <| new_flow_cnt ::= (fun n => u32 (f n)) |>
                  else c <| old_flow_cnt ::= (fun n => u32 (f n)) |>).

Definition fq_flows_add_head (new : bool) (id : nat) : ST world unit :=
  push_front new id ;; flow_cnt new (fun n => n + 1).
Definition fq_flows_add_tail (new : bool) (id : nat) : ST world unit :=
  push_back new id ;; flow_cnt new (fun n => n + 1).
Definition fq_flows_remove_front (new : bool) : ST world (option nat) :=
  node <- pop_front new ;; flow_cnt new (fun n => n - 1) ;; ret node.
Definition fq_flows_is_empty (new : bool) : ST world bool :=
  get (fun w => bpf_list_empty (if new then fq_new_flows w else fq_old_flows w)).

Definition fq_flow_set_detached (id : nat) : ST world unit :=
  j <- bpf_jiffies64 ;; mod_flow id (fun f => f <| age := j |>).
Definition fq_flow_is_detached (f : fq_flow_node) : bool :=
  negb (age f =? 0) && negb (age f =? U64_MAX).

Definition sk_listener (s : sock) : bool :=
  negb (Z.land (shl 32 1 (skc_state s)) (Z.lor TCPF_LISTEN TCPF_NEW_SYN_RECV) =? 0).

(** ** Garbage collection *)

Definition fq_gc_age : Z := u32 (3 * CONFIG_HZ).

Definition fq_gc_candidate (id : nat) : ST world bool :=
  j <- bpf_jiffies64 ;;
  f <- flow id ;;
  ret (fq_flow_is_detached f && (0 <? i64 (j ⊟ (age f ⊞ fq_gc_age))%w64)).

Definition fq_remove_flows (prio : bool) (hash : Z) (sflow : option nat) (ctx : remove_flows_ctx)
    : ST world (bool * remove_flows_ctx) :=
  remove <- (match sflow with
             | None => ret false
             | Some id => if gc_only ctx then fq_gc_candidate id else ret true
             end) ;;
  when remove (bpf_map_delete_elem prio hash) ;;
  let ctx := if remove : bool then ctx <| reset_cnt ::= (fun n => u32 (n + 1)) |> else ctx in
  ret (negb (reset_cnt ctx <? reset_max ctx), ctx).

Definition fq_gc : ST world unit :=
  bpf_for_each_map_elem false (fq_remove_flows false)
    {| gc_only := true; reset_cnt := 0; reset_max := FQ_GC_MAX |} ;; ret tt.

(** ** Classification *)

(** [bpf_obj_new(fq_flow_node_id())] and the stores that follow it. *)
Definition new_flow_node : ST world (option nat) := fun w =>
  let w' := w <| calls ::= S |> in
  if obj_new (calls w) then
    (Some (next w),
     w' <| next ::= S |>
        <| heap ::= (fun h => nset h (next w)
             {| credit := i32 (initial_quantum (q w)); flow_qlen := 0; age := 1;
                time_next_packet := 0; queue := kt_empty; refcount := 1 |}) |>)
  else (None, w').

(** The result and, when it is 0, whether the stash was found. *)
Definition fq_new_flow (prio : bool) (hash : Z) : ST world Z :=
  f <- new_flow_node ;;
  match f with
  | None => ret (- ENOMEM)
  | Some id =>
      r <- bpf_map_update_elem prio hash ;;
      when ((r =? - ENOMEM) || (r =? - E2BIG))
        (fq_gc ;; bpf_map_update_elem false hash ;; ret tt) ;;
      sflow <- bpf_map_lookup_elem prio hash ;;
      match sflow with
      | None => bpf_obj_drop id ;; ret (- ENOMEM)
      | Some _ => bpf_kptr_xchg_back prio hash id ;; ret 0
      end
  end.

Definition flow_key (skb : sk_buff) (c : fq_bpf_data) : Z :=
  let orphan := Z.lor (Z.land (skb_hash skb) (orphan_mask c)) (Z.shiftl 1 32) in
  match sk skb with
  | None => orphan
  | Some s => if sk_listener s then orphan
              else if skc_state s =? TCP_CLOSE then orphan else skc_hash s
  end.

(** The class, and the map and key of the stash. *)
Definition fq_classify (skb : sk_buff) : ST world (Z * (bool * Z)) :=
  c <- get q ;;
  let prio := Z.land (priority skb) TC_PRIO_MAX =? TC_PRIO_CONTROL in
  let hash := if prio then 0 else flow_key skb c in
  sflow <- bpf_map_lookup_elem prio hash ;;
  match sflow with
  | Some _ => ret (if prio then CLS_RET_PRIO else CLS_RET_NONPRIO, (prio, hash))
  | None => r <- fq_new_flow false hash ;;
            ret (if r <? 0 then CLS_RET_ERR else CLS_RET_NONPRIO, (false, hash))
  end.

(** ** Enqueue *)

Definition fq_packet_beyond_horizon (skb : sk_buff) (c : fq_bpf_data) : bool :=
  i64 (ktime_cache c ⊞ horizon c)%w64 <? skb_tstamp skb.

(** The packet and its time to send, or [None] to drop it. *)
Definition fq_time_to_send (skb : sk_buff) : ST world (option (sk_buff * Z)) :=
  let read_clock := t <- bpf_ktime_get_ns ;; mod_q (fun c => c <| ktime_cache := t |>) in
  if skb_tstamp skb =? 0 then
    read_clock ;; t <- get (fun w => ktime_cache (q w)) ;; ret (Some (skb, t))
  else
    c <- get q ;;
    if fq_packet_beyond_horizon skb c then
      read_clock ;;
      c <- get q ;;
      if fq_packet_beyond_horizon skb c then
        if negb (horizon_drop c =? 0) then ret None
        else let t := i64 (ktime_cache c ⊞ horizon c)%w64 in
             ret (Some (skb <| skb_tstamp := t |>, u64 t))
      else ret (Some (skb, u64 (skb_tstamp skb)))
    else ret (Some (skb, u64 (skb_tstamp skb))).

(** A detached flow becomes a new one, with its credit refilled when it was
    idle long enough. *)
Definition fq_activate (id : nat) : ST world unit :=
  f <- flow id ;;
  when (fq_flow_is_detached f)
    (flow_copy <- bpf_refcount_acquire id ;;
     j <- bpf_jiffies64 ;;
     c <- get q ;;
     mod_flow flow_copy (fun f =>
       if 0 <? i64 (j ⊟ (age f ⊞ flow_refill_delay c))%w64
       then if credit f <? i32 (quantum c) then f <| credit := i32 (quantum c) |> else f
       else f) ;;
     mod_flow flow_copy (fun f => f <| age := 0 |>) ;;
     fq_flows_add_tail true flow_copy).

Definition drop (skb : sk_buff) : ST world Z :=
  bpf_qdisc_skb_drop skb ;;
  mod_sch (fun s => s <| drops := u32 (drops s + 1) |>) ;;
  ret NET_XMIT_DROP.

Definition bpf_skb_node_new : ST world bool := call obj_new.

(** The end of enqueue, with the flow taken out of its stash. *)
Definition fq_queue_packet (skb : sk_buff) (time_to_send : Z) (sflow : bool * Z) (id : nat) : ST world Z :=
  ok <- bpf_skb_node_new ;;
  if negb ok then bpf_kptr_xchg_back (fst sflow) (snd sflow) id ;; drop skb else
  let skb := skb <| skb_tstamp := i64 time_to_send |> in
  mod_sch (fun s => s <| backlog := u32 (backlog s + pkt_len skb) |>) ;;
  mod_flow id (fun f => f <| queue ::= (fun t =>
    bpf_rbtree_add tstamp t {| tstamp := time_to_send; node_skb := Some skb |}) |>) ;;
  mod_flow id (fun f => f <| flow_qlen := u32 (flow_qlen f + 1) |>) ;;
  bpf_kptr_xchg_back (fst sflow) (snd sflow) id ;;
  mod_sch (fun s => s <| qlen := u32 (qlen s + 1) |>) ;;
  ret NET_XMIT_SUCCESS.

Definition bpf_fq_enqueue (skb : sk_buff) : ST world Z :=
  s <- get sch ;;
  if limit s <=? qlen s then drop skb else
  t <- fq_time_to_send skb ;;
  match t with
  | None => drop skb
  | Some (skb, time_to_send) =>
      c <- fq_classify skb ;;
      let (cls, sflow) := c in
      if cls =? CLS_RET_ERR then drop skb else
      f <- bpf_kptr_xchg (fst sflow) (snd sflow) None ;;
      match f with
      | None => drop skb
      | Some id =>
          node <- flow id ;;
          c <- get q ;;
          if (cls =? CLS_RET_NONPRIO) && (flow_plimit c <=? flow_qlen node)
          then bpf_kptr_xchg_back (fst sflow) (snd sflow) id ;; drop skb
          else when (cls =? CLS_RET_NONPRIO) (fq_activate id) ;;
               fq_queue_packet skb time_to_send sflow id
      end
  end.

(** ** Dequeue *)

Definition fq_unset_throttled_flows (unset_all : bool) (now : Z) : ST world bool :=
  node <- get (fun w => bpf_rbtree_first (fq_delayed w)) ;;
  match node with
  | None => ret true
  | Some id =>
      f <- flow id ;;
      if negb unset_all && (now <? time_next_packet f)
      then mod_q (fun c => c <| time_next_delayed_flow := time_next_packet f |>) ;; ret true
      else
        node <- (fun w => let (n, t) := bpf_rbtree_remove_first (fq_delayed w) in (n, w <| fq_delayed := t |>)) ;;
        match node with
        | None => ret true
        | Some id => mod_flow id (fun f => f <| age := 0 |>) ;; fq_flows_add_tail false id ;; ret false
        end
  end.

Definition fq_flow_set_throttled (id : nat) : ST world unit :=
  mod_flow id (fun f => f <| age := U64_MAX |>) ;;
  f <- flow id ;;
  mod_q (fun c => if time_next_packet f <? time_next_delayed_flow c
                  then c <| time_next_delayed_flow := time_next_packet f |> else c) ;;
  modify (fun w => w <| fq_delayed ::= (fun t => bpf_rbtree_add (tree_key w) t id) |>).

Definition fq_check_throttled (now : Z) : ST world unit :=
  c <- get q ;;
  if now <? time_next_delayed_flow c then ret tt else
  let sample := (now ⊟ time_next_delayed_flow c)%w64 in
  mod_q (fun c => c <| unthrottle_latency_ns ::= (fun l => (l ⊟ shr l 3)%w64) |>) ;;
  mod_q (fun c => c <| unthrottle_latency_ns ::= (fun l => (l ⊞ shr sample 3)%w64) |>) ;;
  mod_q (fun c => c <| time_next_delayed_flow := U64_MAX |>) ;;
  modify (bpf_loop NUM_QUEUE (fq_unset_throttled_flows false now)).

(** The first packet's node taken out of a flow's queue. *)
Definition remove_first (id : nat) : ST world (option skb_node) := fun w =>
  let (n, t) := bpf_rbtree_remove_first (queue (heap w id)) in
  (n, w <| heap ::= (fun h => nset h id ((h id) <| queue := t |>)) |>).

Definition fq_dequeue_nonprio_flows (ctx : dequeue_nonprio_ctx) : ST world (option sk_buff * dequeue_nonprio_ctx) :=
  c <- get q ;;
  let stop (skb : option sk_buff) (ctx : dequeue_nonprio_ctx) := ret (skb, ctx <| stop_iter := true |>) in
  if (new_flow_cnt c =? 0) && (old_flow_cnt c =? 0) then
    stop None (if negb (time_next_delayed_flow c =? U64_MAX)
               then ctx <| expire := time_next_delayed_flow c |> else ctx)
  else
  let new := negb (new_flow_cnt c =? 0) in
  node <- fq_flows_remove_front new ;;
  match node with
  | None => stop None ctx
  | Some id =>
      f <- flow id ;;
      if credit f <=? 0 then
        mod_flow id (fun f => f <| credit := i32 (credit f + i32 (quantum c)) |>) ;;
        fq_flows_add_tail false id ;; ret (None, ctx)
      else match bpf_rbtree_first (queue f) with
      | None =>
          is_empty <- fq_flows_is_empty false ;;
          if new && negb is_empty then fq_flows_add_tail false id ;; ret (None, ctx)
          else fq_flow_set_detached id ;; bpf_obj_drop id ;; ret (None, ctx)
      | Some skbn =>
          let t := if time_next_packet f <? tstamp skbn then tstamp skbn else time_next_packet f in
          if now ctx <? t then
            mod_flow id (fun f => f <| time_next_packet := t |>) ;;
            fq_flow_set_throttled id ;; ret (None, ctx)
          else
            node <- remove_first id ;;
            let skb := match node with Some n => node_skb n | None => None end in
            match skb with
            | None => ret tt
            | Some s => mod_flow id (fun f => f <| credit := i32 (credit f - i32 (pkt_len s)) |>
                                                <| flow_qlen := u32 (flow_qlen f - 1) |>)
            end ;;
            fq_flows_add_head new id ;;
            stop skb ctx
      end
  end.

Definition fq_dequeue_prio : ST world (option sk_buff) :=
  sflow <- bpf_map_lookup_elem true 0 ;;
  match sflow with
  | None => ret None
  | Some _ =>
      f <- bpf_kptr_xchg true 0 None ;;
      match f with
      | None => ret None
      | Some id =>
          first <- get (fun w => bpf_rbtree_first (queue (heap w id))) ;;
          skb <- (match first with
                  | None => ret None
                  | Some _ => node <- remove_first id ;;
                              ret (match node with Some n => node_skb n | None => None end)
                  end) ;;
          bpf_kptr_xchg_back true 0 id ;;
          ret skb
      end
  end.

(** The loop over [0 .. limit - 1]: the packet, the context and the world. *)
Definition dequeue_round (s : option sk_buff * dequeue_nonprio_ctx * world)
    : bool * (option sk_buff * dequeue_nonprio_ctx * world) :=
  let '(_, ctx, w) := s in
  let '((skb, ctx), w) := fq_dequeue_nonprio_flows ctx w in (stop_iter ctx, (skb, ctx, w)).

Definition dequeue_nonprio (now : Z) : ST world (option sk_buff * dequeue_nonprio_ctx) := fun w =>
  bpf_for (i32 (limit (sch w))) dequeue_round
    (None, {| stop_iter := false; expire := 0; now := now |}, w).

Definition fq_deliver (skb : sk_buff) : ST world (option sk_buff) :=
  mod_sch (fun s => s <| qlen := u32 (qlen s - 1) |> <| backlog := u32 (backlog s - pkt_len skb) |>) ;;
  modify (fun w => w <| sent ::= (fun l => l ++ [skb]) |>) ;;
  ret (Some skb).

Definition bpf_fq_dequeue : ST world (option sk_buff) :=
  s <- get sch ;;
  if qlen s =? 0 then ret None else
  skb <- fq_dequeue_prio ;;
  match skb with
  | Some skb => fq_deliver skb
  | None =>
      t <- bpf_ktime_get_ns ;;
      mod_q (fun c => c <| ktime_cache := t |>) ;;
      fq_check_throttled t ;;
      r <- dequeue_nonprio t ;;
      match fst r with
      | Some skb => fq_deliver skb
      | None =>
          when (negb (expire (snd r) =? 0))
            (modify (fun w => w <| watchdog := Some (expire (snd r), timer_slack (q w)) |>)) ;;
          ret None
      end
  end.

(** ** Reset and init *)

Definition fq_remove_flows_in_list : ST world bool :=
  node <- pop_front true ;;
  node <- (match node with Some id => ret (Some id) | None => pop_front false end) ;;
  match node with
  | None => ret true
  | Some id => bpf_obj_drop id ;; ret false
  end.

Definition bpf_fq_reset : ST world unit :=
  mod_sch (fun s => s <| qlen := 0 |> <| backlog := 0 |>) ;;
  ctx <- bpf_for_each_map_elem false (fq_remove_flows false)
           {| gc_only := false; reset_cnt := 0; reset_max := NUM_QUEUE |} ;;
  bpf_for_each_map_elem true (fq_remove_flows true) (ctx <| reset_cnt := 0 |>) ;;
  fq_new_flow true 0 ;;
  modify (bpf_loop NUM_QUEUE fq_remove_flows_in_list) ;;
  mod_q (fun c => c <| new_flow_cnt := 0 |> <| old_flow_cnt := 0 |>) ;;
  modify (bpf_loop NUM_QUEUE (fq_unset_throttled_flows true 0)).

Definition bpf_fq_init : ST world Z :=
  let psched_mtu := (dev_mtu ⊞ dev_hard_header_len)%w32 in
  r <- fq_new_flow true 0 ;;
  if r <? 0 then ret (- ENOMEM) else
  mod_sch (fun s => s <| limit := 10000 |>) ;;
  mod_q (fun c => {|
    quantum := (2 ⊠ psched_mtu)%w32; initial_quantum := (10 ⊠ psched_mtu)%w32;
    flow_refill_delay := 40; flow_plimit := 100; horizon := 10 * NSEC_PER_SEC;
    orphan_mask := 1024 - 1; timer_slack := 10 * NSEC_PER_USEC;
    time_next_delayed_flow := U64_MAX; unthrottle_latency_ns := 0; horizon_drop := 1;
    new_flow_cnt := 0; old_flow_cnt := 0; ktime_cache := ktime_cache c |}) ;;
  ret 0.

End Fq.

(** ** The invariant *)

Section Invariant.
Context {KF : KList nat} {TF : KTree nat} {TS : KTree skb_node} {LP : KLoop} {K : Kernel}.
Context {KFL : KListLaws nat} {TFL : KTreeLaws nat} {TSL : KTreeLaws skb_node}.

Definition news (w : world) : list nat := kl_elems (fq_new_flows w).
Definition olds (w : world) : list nat := kl_elems (fq_old_flows w).
Definition delayed (w : world) : list nat := kt_elems (fq_delayed w).
Definition queued (w : world) (id : nat) : list skb_node := kt_elems (queue (heap w id)).

(** The packets in the queues of all flows. *)
Definition packets (w : world) : list sk_buff := flat_map (fun id => skbs (queue (heap w id))) (seq 0 (next w)).

Definition listed (w : world) : list nat := news w ++ olds w ++ delayed w.

(** The flows: [fl] are between two lists, [N] are those that have been stashed
    under a hash, 0 is the priority flow made by [bpf_fq_init].  An active flow
    has age 0, a throttled one the age [U64_MAX]; one in neither state is
    detached and has no packet. *)
Record Inv (N : nat -> Prop) (fl : list nat) (w : world) : Prop := {
  i_next : (0 < next w)%nat;
  i_N : forall id, N id -> (0 < id < next w)%nat;
  i_lt : forall id, In id (fl ++ listed w) -> (0 < id < next w)%nat;
  i_nodup : NoDup (fl ++ listed w);
  i_active : forall id, In id (news w ++ olds w) -> age (heap w id) = 0;
  i_throttled : forall id, In id (delayed w) -> age (heap w id) = U64_MAX;
  i_detached : forall id, N id -> ~ In id (fl ++ listed w) -> fq_flow_is_detached (heap w id) = true;
  i_queue : forall id, (0 < id)%nat -> ~ In id (fl ++ listed w) -> queued w id = [];
  i_map : forall k id, fq_nonprio_flows w k = Some (Some id) -> N id;
  i_new_cnt : new_flow_cnt (q w) = u32 (Z.of_nat (length (news w)));
  i_old_cnt : old_flow_cnt (q w) = u32 (Z.of_nat (length (olds w)));
  i_nodes : forall id n, In n (queued w id) -> exists s, node_skb n = Some s /\ u64 (skb_tstamp s) = tstamp n
}.

(** What the invariant and the packets depend on. *)
Record alike (w w' : world) : Prop := {
  a_next : next w' = next w;
  a_new : news w' = news w;
  a_old : olds w' = olds w;
  a_delayed : delayed w' = delayed w;
  a_map : forall k id, fq_nonprio_flows w' k = Some (Some id) -> fq_nonprio_flows w k = Some (Some id);
  a_new_cnt : new_flow_cnt (q w') = new_flow_cnt (q w);
  a_old_cnt : old_flow_cnt (q w') = old_flow_cnt (q w);
  a_age : forall id, age (heap w' id) = age (heap w id);
  a_queue : forall id, queued w' id = queued w id
}.

Lemma alike_refl w : alike w w.
Proof. now constructor. Qed.

Lemma Inv_alike N fl w w' : alike w w' -> Inv N fl w -> Inv N fl w'.
Proof.
  intros [An Anw Ao Ad Am Anc Aoc Aa Aq] [? ? ? ? ? ? Hd Hq ? ? ? Hn].
  unfold listed, fq_flow_is_detached in *.
  constructor; unfold listed, fq_flow_is_detached;
    rewrite ?An, ?Anw, ?Ao, ?Ad, ?Anc, ?Aoc; auto.
  - intros; rewrite Aa; auto.
  - intros; rewrite Aa; auto.
  - intros; rewrite Aa; auto.
  - intros; rewrite Aq; auto.
  - intros k id Hk; eauto.
  - intros id n; rewrite Aq; eauto.
Qed.

Lemma packets_alike w w' : alike w w' -> packets w' = packets w.
Proof.
  intros [An _ _ _ _ _ _ _ Aq]; unfold packets; rewrite An.
  apply flat_map_ext; intros id; unfold skbs. specialize (Aq id); unfold queued in Aq; now rewrite Aq.
Qed.

(** Nothing is sent, dropped, released or counted; the packets may be listed
    in another order. *)
Record balanced (w0 w : world) : Prop := {
  b_packets : Permutation (packets w) (packets w0);
  b_sent : sent w = sent w0;
  b_released : released w = released w0;
  b_free : to_free w = to_free w0;
  b_sch : sch w = sch w0;
  b_prio : fq_prio_flows w 0 = fq_prio_flows w0 0
}.

Lemma balanced_refl w : balanced w w.
Proof. now constructor. Qed.

Lemma balanced_trans a b c : balanced a b -> balanced b c -> balanced a c.
Proof.
  intros [P ? ? ? ? ?] [P' ? ? ? ? ?]; constructor; try congruence.
  exact (Permutation_trans P' P).
Qed.

(** The invariant and the accounting. *)
Definition ok (N : nat -> Prop) (fl : list nat) (w0 w : world) : Prop := Inv N fl w /\ balanced w0 w.

Lemma balanced_alike w w' : alike w w' -> sent w' = sent w -> released w' = released w ->
  to_free w' = to_free w -> sch w' = sch w -> fq_prio_flows w' 0 = fq_prio_flows w 0 -> balanced w w'.
Proof. intros A ? ? ? ? ?; constructor; auto. now rewrite (packets_alike _ _ A). Qed.

Lemma ok_alike N fl w0 w w' : alike w w' -> ok N fl w0 w ->
  sent w' = sent w -> released w' = released w -> to_free w' = to_free w -> sch w' = sch w ->
  fq_prio_flows w' 0 = fq_prio_flows w 0 -> ok N fl w0 w'.
Proof.
  intros A [I B] ? ? ? ? ?; split; [exact (Inv_alike _ _ _ _ A I)|].
  apply (balanced_trans _ w); [exact B | now apply balanced_alike].
Qed.

Lemma mod_flow_alike w id g : age (g (heap w id)) = age (heap w id) -> kt_elems (queue (g (heap w id))) = queued w id ->
  alike w (snd (mod_flow id g w)).
Proof.
  intros Ha Hq; constructor; cbn; auto; intros j; unfold queued; cbn; unfold nset;
    destruct (Nat.eqb_spec j id); subst; auto.
Qed.

Lemma ok_flow N fl w0 w id g : age (g (heap w id)) = age (heap w id) -> kt_elems (queue (g (heap w id))) = queued w id ->
  ok N fl w0 w -> ok N fl w0 (snd (mod_flow id g w)).
Proof. intros Ha Hq H; apply (ok_alike N fl w0 w); auto using mod_flow_alike. Qed.

(** Dropping a reference to a flow without packets. *)
Lemma ok_drop N fl w0 w id : queued w id = [] -> ok N fl w0 w -> ok N fl w0 (snd (bpf_obj_drop id w)).
Proof.
  intros Hq H; unfold bpf_obj_drop, bind, flow, get. cbv beta iota.
  assert (A1 : alike w (snd (mod_flow id (fun f => f <| refcount ::= Nat.pred |>) w)))
    by (apply mod_flow_alike; reflexivity).
  assert (H1 : ok N fl w0 (snd (mod_flow id (fun f => f <| refcount ::= Nat.pred |>) w)))
    by (apply ok_flow; [reflexivity | reflexivity | exact H]).
  destruct (mod_flow id _ w) as [[] w1]; cbn [snd] in A1, H1.
  unfold when; case_if; [|exact H1].
  assert (Hq1 : queued w1 id = []) by now rewrite (a_queue _ _ A1).
  unfold modify, skbs. change (kt_elems (queue (heap w id))) with (queued w id). rewrite Hq; cbn [flat_map].
  apply ok_flow; [reflexivity | cbn; rewrite tree_empty; symmetry; exact Hq1 |].
  apply (ok_alike N fl w0 w1); try assumption; try reflexivity; [now constructor | apply app_nil_r].
Qed.

(** ** Flows between the lists *)

Lemma listed_in w id : In id (listed w) <-> In id (news w) \/ In id (olds w) \/ In id (delayed w).
Proof. unfold listed; now rewrite !in_app_iff. Qed.

Lemma Inv_moved N fl fl' w w' : Inv N fl w ->
  next w' = next w -> (forall id, queued w' id = queued w id) ->
  (forall k id, fq_nonprio_flows w' k = Some (Some id) -> fq_nonprio_flows w k = Some (Some id)) ->
  Permutation (fl' ++ listed w') (fl ++ listed w) ->
  (forall id, In id (news w' ++ olds w') -> age (heap w' id) = 0) ->
  (forall id, In id (delayed w') -> age (heap w' id) = U64_MAX) ->
  (forall id, ~ In id (fl ++ listed w) -> age (heap w' id) = age (heap w id)) ->
  new_flow_cnt (q w') = u32 (Z.of_nat (length (news w'))) ->
  old_flow_cnt (q w') = u32 (Z.of_nat (length (olds w'))) -> Inv N fl' w'.
Proof.
  intros [? ? Hlt Hnd ? ? Hd Hq ? ? ? Hn] En Eq Em P Ha Ht Hu Ec1 Ec2.
  assert (Pin : forall id, In id (fl' ++ listed w') <-> In id (fl ++ listed w))
    by (intros id; split; apply Permutation_in; [exact P | now apply Permutation_sym]).
  constructor; rewrite ?En; auto.
  - intros id Hi; apply Hlt; now apply Pin.
  - apply (Permutation_NoDup (Permutation_sym P)), Hnd.
  - intros id Hi Hni; unfold fq_flow_is_detached. rewrite Hu by (now rewrite <- Pin). apply Hd; [assumption | now rewrite <- Pin].
  - intros id Hi Hni; rewrite Eq; apply Hq; [assumption | now rewrite <- Pin].
  - intros k id Hk; eauto.
  - intros id n; rewrite Eq; eauto.
Qed.

Definition the_list (new : bool) (w : world) : list nat := if new then news w else olds w.
Definition the_cnt (new : bool) (w : world) : Z := if new then new_flow_cnt (q w) else old_flow_cnt (q w).

(** Two worlds that differ in the active lists and their counters only. *)
Record same_rest (w w' : world) : Prop := {
  r_next : next w' = next w;
  r_heap : heap w' = heap w;
  r_delayed : delayed w' = delayed w;
  r_map : fq_nonprio_flows w' = fq_nonprio_flows w;
  r_prio : fq_prio_flows w' = fq_prio_flows w;
  r_sch : sch w' = sch w;
  r_sent : sent w' = sent w;
  r_released : released w' = released w;
  r_free : to_free w' = to_free w
}.

Lemma remove_front_spec new w : the_list new w <> [] ->
  exists id r w', fq_flows_remove_front new w = (Some id, w') /\ same_rest w w' /\
    the_list new w = id :: r /\ the_list new w' = r /\ the_list (negb new) w' = the_list (negb new) w /\
    the_cnt new w' = u32 (the_cnt new w - 1) /\ the_cnt (negb new) w' = the_cnt (negb new) w.
Proof.
  unfold fq_flows_remove_front, bind, pop_front, flow_cnt, mod_q, modify, ret, the_list, the_cnt, news, olds.
  destruct new; cbn [negb]; intros Hne.
  - destruct (kl_elems (fq_new_flows w)) as [|a r] eqn:E; [contradiction|].
    destruct (pop_front_cons _ _ _ E) as [E1 E2]. destruct (bpf_list_pop_front (fq_new_flows w)) as [n l].
    cbn in E1, E2; subst. exists a; do 2 eexists. split; [reflexivity|]. split; [now constructor|]. now cbn.
  - destruct (kl_elems (fq_old_flows w)) as [|a r] eqn:E; [contradiction|].
    destruct (pop_front_cons _ _ _ E) as [E1 E2]. destruct (bpf_list_pop_front (fq_old_flows w)) as [n l].
    cbn in E1, E2; subst. exists a; do 2 eexists. split; [reflexivity|]. split; [now constructor|]. now cbn.
Qed.

Lemma u32_add_cnt n k : u32 (u32 n + k) = u32 (n + k).
Proof. unfold uw. now rewrite Zplus_mod_idemp_l. Qed.

Lemma add_tail_spec new id w : let w' := snd (fq_flows_add_tail new id w) in same_rest w w' /\
  the_list new w' = the_list new w ++ [id] /\ the_list (negb new) w' = the_list (negb new) w /\
  the_cnt new w' = u32 (the_cnt new w + 1) /\ the_cnt (negb new) w' = the_cnt (negb new) w.
Proof.
  destruct new; cbn; unfold the_list, the_cnt, news, olds; cbn; rewrite elems_push_back;
    repeat split.
Qed.

Lemma add_head_spec new id w : let w' := snd (fq_flows_add_head new id w) in same_rest w w' /\
  the_list new w' = id :: the_list new w /\ the_list (negb new) w' = the_list (negb new) w /\
  the_cnt new w' = u32 (the_cnt new w + 1) /\ the_cnt (negb new) w' = the_cnt (negb new) w.
Proof.
  destruct new; cbn; unfold the_list, the_cnt, news, olds; cbn; rewrite elems_push_front;
    repeat split.
Qed.

(** Putting a floating flow of age 0 into an active list. *)
Lemma Inv_put N id new w w' : Inv N [id] w -> age (heap w id) = 0 -> same_rest w w' ->
  Permutation (the_list new w') (id :: the_list new w) -> the_list (negb new) w' = the_list (negb new) w ->
  the_cnt new w' = u32 (the_cnt new w + 1) -> the_cnt (negb new) w' = the_cnt (negb new) w ->
  Inv N [] w'.
Proof.
  intros I Ha [Rn Rh Rd Rm _ _ _ _ _] P E Ec Ec'.
  pose proof (i_new_cnt _ _ _ I) as C1; pose proof (i_old_cnt _ _ _ I) as C2.
  assert (L := Permutation_length P).
  apply (Inv_moved N [id] [] w); auto.
  - intros j; unfold queued; now rewrite Rh.
  - intros k j; now rewrite Rm.
  - unfold listed; destruct new; cbn [the_list negb] in P, E; rewrite Rd, E.
    + cbn. rewrite P; reflexivity.
    + cbn. rewrite P; cbn. now rewrite <- Permutation_middle.
  - intros j Hj; rewrite Rh. destruct (Nat.eq_dec j id) as [->|Hne]; [exact Ha|].
    apply (i_active _ _ _ I). apply in_app_iff in Hj; apply in_app_iff.
    destruct new; cbn [the_list negb] in P, E; rewrite E in Hj; destruct Hj as [Hj|Hj]; auto;
      apply (Permutation_in _ P) in Hj as [->|Hj]; auto; contradiction.
  - intros j Hj; rewrite Rh; apply (i_throttled _ _ _ I). now rewrite <- Rd.
  - intros j _; now rewrite Rh.
  - destruct new; cbn [the_list the_cnt negb length] in *; [rewrite Ec, L, C1, u32_add_cnt; f_equal; lia|congruence].
  - destruct new; cbn [the_list the_cnt negb length] in *; [congruence|rewrite Ec, L, C2, u32_add_cnt; f_equal; lia].
Qed.

(** Taking a flow off an active list. *)
Lemma Inv_take N id new w w' : Inv N [] w -> same_rest w w' ->
  the_list new w = id :: the_list new w' -> the_list (negb new) w' = the_list (negb new) w ->
  the_cnt new w' = u32 (the_cnt new w - 1) -> the_cnt (negb new) w' = the_cnt (negb new) w ->
  Inv N [id] w' /\ age (heap w' id) = 0.
Proof.
  intros I [Rn Rh Rd Rm _ _ _ _ _] P E Ec Ec'.
  pose proof (i_new_cnt _ _ _ I) as C1; pose proof (i_old_cnt _ _ _ I) as C2.
  assert (A : forall j, In j (id :: news w' ++ olds w') -> age (heap w j) = 0).
  { intros j Hj; apply (i_active _ _ _ I). apply in_app_iff.
    destruct new; cbn [the_list negb] in P, E; rewrite P, E in *; cbn in Hj |- *;
      rewrite in_app_iff in Hj; tauto. }
  split; [|rewrite Rh; apply A; now left].
  apply (Inv_moved N [] [id] w); auto.
  - intros j; unfold queued; now rewrite Rh.
  - intros k j; now rewrite Rm.
  - unfold listed; destruct new; cbn [the_list negb] in P, E; rewrite Rd, E, P; cbn; [reflexivity|].
    now rewrite <- Permutation_middle.
  - intros j Hj; rewrite Rh; apply A; now right.
  - intros j Hj; rewrite Rh; apply (i_throttled _ _ _ I). now rewrite <- Rd.
  - intros j _; now rewrite Rh.
  - destruct new; cbn [the_list the_cnt negb length] in *; [|congruence].
    rewrite Ec, C1, P; cbn [length]. unfold Z.sub; rewrite u32_add_cnt; f_equal; lia.
  - destruct new; cbn [the_list the_cnt negb length] in *; [congruence|].
    rewrite Ec, C2, P; cbn [length]. unfold Z.sub; rewrite u32_add_cnt; f_equal; lia.
Qed.

Lemma Inv_float N id w : Inv N [] w -> N id -> ~ In id (listed w) -> Inv N [id] w.
Proof.
  intros [? ? Hlt Hnd ? ? Hd Hq ? ? ? Hn] Hi Hni; constructor; auto; cbn [app] in *.
  - intros j [<-|Hj]; auto.
  - now constructor.
  - intros j Hj Hnj; apply Hd; [exact Hj|]. intros X; apply Hnj; now right.
  - intros j Hj Hnj; apply Hq; [exact Hj|]. intros X; apply Hnj; now right.
Qed.

Lemma Inv_unfloat N id w : Inv N [id] w -> fq_flow_is_detached (heap w id) = true -> queued w id = [] ->
  Inv N [] w.
Proof.
  intros [? ? Hlt Hnd ? ? Hd Hq ? ? ? Hn] Hi Hni; constructor; auto; cbn [app] in *.
  - intros j Hj; apply Hlt; now right.
  - now inversion Hnd.
  - intros j Hj Hnj. destruct (Nat.eq_dec j id) as [->|]; [exact Hi|]. apply Hd; [exact Hj|]. intros [<-|]; auto.
  - intros j Hj Hnj. destruct (Nat.eq_dec j id) as [->|]; [exact Hni|]. apply Hq; [exact Hj|]. intros [<-|]; auto.
Qed.

(** A floating flow is free to change its age. *)
Lemma Inv_age N id w g : Inv N [id] w -> kt_elems (queue (g (heap w id))) = queued w id ->
  Inv N [id] (snd (mod_flow id g w)).
Proof.
  intros I Hq. assert (Hni : ~ In id (listed w)) by (pose proof (i_nodup _ _ _ I) as Hn; now inversion Hn).
  assert (O : forall j, j <> id -> heap (snd (mod_flow id g w)) j = heap w j)
    by (intros j Hj; cbn; unfold nset; now apply Nat.eqb_neq in Hj as ->).
  rewrite listed_in in Hni.
  apply (Inv_moved N [id] [id] w); auto; try apply I.
  - intros j; unfold queued; destruct (Nat.eq_dec j id) as [->|Hj]; [|now rewrite O].
    cbn; unfold nset; rewrite Nat.eqb_refl. exact Hq.
  - intros j Hj; change (In j (news w ++ olds w)) in Hj. rewrite O; [now apply (i_active _ _ _ I)|].
    intros ->; apply in_app_iff in Hj; tauto.
  - intros j Hj; change (In j (delayed w)) in Hj. rewrite O; [now apply (i_throttled _ _ _ I)|].
    intros ->; tauto.
  - intros j Hj; rewrite O; [reflexivity|]. intros ->; apply Hj; now left.
Qed.

Lemma perm_insert {A} (key : A -> Z) a l : Permutation (sorted_insert key a l) (a :: l).
Proof. destruct (insert_split key a l) as (l1 & l2 & -> & ->). symmetry; apply Permutation_middle. Qed.

Lemma Inv_throttle N id w key : Inv N [id] w -> age (heap w id) = U64_MAX ->
  Inv N [] (snd (modify (fun w => w <| fq_delayed ::= (fun t => bpf_rbtree_add (key w) t id) |>) w)).
Proof.
  intros I Ha. set (w' := snd _).
  assert (P : Permutation (delayed w') (id :: delayed w))
    by (subst w'; unfold delayed; cbn; rewrite tree_add; apply perm_insert).
  apply (Inv_moved N [id] [] w); auto; try apply I.
  - unfold listed; change (news w') with (news w); change (olds w') with (olds w). cbn [app].
    rewrite P, !app_assoc. symmetry; apply Permutation_middle.
  - intros j Hj; apply (Permutation_in _ P) in Hj as [<-|Hj]; [exact Ha | now apply (i_throttled _ _ _ I)].
Qed.

Lemma Inv_unthrottle N id r w t : Inv N [] w -> delayed w = id :: r -> kt_elems t = r ->
  Inv N [id] (w <| fq_delayed := t |>).
Proof.
  intros I E Et. set (w' := w <| fq_delayed := t |>).
  assert (P : delayed w = id :: delayed w') by (rewrite E; subst w'; unfold delayed; cbn; now rewrite Et).
  apply (Inv_moved N [] [id] w); auto; try apply I.
  - unfold listed; change (news w') with (news w); change (olds w') with (olds w). cbn [app].
    rewrite P, !app_assoc. apply Permutation_middle.
  - intros j Hj; apply (i_throttled _ _ _ I). rewrite P; now right.
Qed.

(** ** The steps of the program *)

Lemma same_queues w w' : next w' = next w -> (forall id, queued w' id = queued w id) ->
  packets w' = packets w.
Proof.
  intros En Eq; unfold packets; rewrite En. apply flat_map_ext; intros id.
  specialize (Eq id); unfold queued in Eq; unfold skbs; now rewrite Eq.
Qed.

Lemma balanced_rest w w' : same_rest w w' -> balanced w w'.
Proof.
  intros [? Rh ? ? Rp ? ? ? ?]; constructor; rewrite ?Rp; auto. rewrite (same_queues w w'); auto.
  intros id; unfold queued; now rewrite Rh.
Qed.

Lemma ok_add_tail N w0 w id new : ok N [id] w0 w -> age (heap w id) = 0 ->
  ok N [] w0 (snd (fq_flows_add_tail new id w)).
Proof.
  intros [I B] Ha. destruct (add_tail_spec new id w) as (R & P & E & C & C').
  split; [|exact (balanced_trans _ _ _ B (balanced_rest _ _ R))].
  apply (Inv_put N id new w); auto. rewrite P. symmetry; apply Permutation_cons_append.
Qed.

Lemma ok_add_head N w0 w id new : ok N [id] w0 w -> age (heap w id) = 0 ->
  ok N [] w0 (snd (fq_flows_add_head new id w)).
Proof.
  intros [I B] Ha. destruct (add_head_spec new id w) as (R & P & E & C & C').
  split; [|exact (balanced_trans _ _ _ B (balanced_rest _ _ R))].
  apply (Inv_put N id new w); auto. now rewrite P.
Qed.

Lemma mod_flow_balanced w id g : kt_elems (queue (g (heap w id))) = queued w id ->
  balanced w (snd (mod_flow id g w)).
Proof.
  intros Hq; constructor; try reflexivity. rewrite (same_queues w); [reflexivity | reflexivity|].
  intros j; unfold queued; cbn; unfold nset. destruct (Nat.eqb_spec j id); subst; auto.
Qed.

Lemma ok_age N w0 w id g : ok N [id] w0 w -> kt_elems (queue (g (heap w id))) = queued w id ->
  ok N [id] w0 (snd (mod_flow id g w)).
Proof.
  intros [I B] Hq; split; [now apply Inv_age|].
  exact (balanced_trans _ _ _ B (mod_flow_balanced w id g Hq)).
Qed.

Lemma heap_mod_flow w id g : heap (snd (mod_flow id g w)) id = g (heap w id).
Proof. cbn; unfold nset; now rewrite Nat.eqb_refl. Qed.

Lemma listed_not_detached N w id : Inv N [] w -> fq_flow_is_detached (heap w id) = true -> ~ In id (listed w).
Proof.
  intros I D Hi; unfold fq_flow_is_detached in D. apply listed_in in Hi.
  assert (A : age (heap w id) = 0 \/ age (heap w id) = U64_MAX).
  { destruct Hi as [Hi|[Hi|Hi]]; [left|left|right; now apply (i_throttled _ _ _ I)];
      apply (i_active _ _ _ I), in_app_iff; auto. }
  revert D; destruct A as [-> | ->]; discriminate.
Qed.

(** A helper call advances the call counter only. *)
Lemma ok_calls N fl w0 w : ok N fl w0 w -> ok N fl w0 (w <| calls ::= S |>).
Proof. intros H; apply (ok_alike _ _ _ w); auto. now constructor. Qed.

(** A change of the configuration that leaves the two counts. *)
Lemma ok_q N fl w0 w g : new_flow_cnt (g (q w)) = new_flow_cnt (q w) ->
  old_flow_cnt (g (q w)) = old_flow_cnt (q w) -> ok N fl w0 w -> ok N fl w0 (snd (mod_q g w)).
Proof. intros H1 H2 H; apply (ok_alike _ _ _ w); auto. now constructor. Qed.

Lemma fq_activate_ok N w0 id w : ok N [] w0 w -> N id ->
  let w' := snd (fq_activate id w) in
  ok N [] w0 w' /\ fq_nonprio_flows w' = fq_nonprio_flows w /\ In id (listed w').
Proof.
  intros H Hi w'; subst w'; unfold fq_activate, bpf_refcount_acquire, bpf_jiffies64, call, bind, flow, get, ret.
  destruct (fq_flow_is_detached (heap w id)) eqn:D; cbn [when].
  2: { cbn; split; [exact H|]. split; [reflexivity|].
       destruct (in_dec Nat.eq_dec id (listed w)) as [|Hn]; [assumption|].
       pose proof (i_detached _ _ _ (proj1 H) id Hi Hn); congruence. }
  assert (Hf : ok N [id] w0 w).
  { split; [|apply H]. apply Inv_float; [apply H | exact Hi |].
    apply (listed_not_detached N); [apply H | exact D]. }
  apply (ok_age _ _ _ _ (fun f => f <| refcount ::= S |>)) in Hf; [|reflexivity].
  destruct (mod_flow id (fun f => f <| refcount ::= S |>) w) as [[] w1] eqn:E1.
  assert (M1 : fq_nonprio_flows w1 = fq_nonprio_flows w) by (unfold mod_flow, modify in E1; injection E1 as <-; reflexivity).
  cbn [snd] in Hf. apply ok_calls in Hf.
  set (w2 := w1 <| calls ::= S |>) in *.
  match goal with |- context [mod_flow id ?g w2] =>
    apply (ok_age _ _ _ _ g) in Hf; [|repeat case_if; reflexivity]; set (w3 := snd (mod_flow id g w2)) in *;
    change (mod_flow id g w2) with (tt, w3) end.
  cbv beta iota.
  apply (ok_age _ _ _ _ (fun f => f <| age := 0 |>)) in Hf; [|reflexivity].
  set (w4 := snd (mod_flow id _ w3)) in *.
  change (mod_flow id (fun f => f <| age := 0 |>) w3) with (tt, w4). cbv beta iota.
  assert (Ha : age (heap w4 id) = 0) by (subst w4; now rewrite heap_mod_flow).
  destruct (add_tail_spec true id w4) as (R & P & _).
  split; [now apply ok_add_tail|]. split; [rewrite (r_map _ _ R); exact M1|].
  apply listed_in; left. change (In id (the_list true (snd (fq_flows_add_tail true id w4)))).
  rewrite P; apply in_app_iff; right; now left.
Qed.

Lemma fq_unset_throttled_ok N w0 all now w : ok N [] w0 w ->
  ok N [] w0 (snd (fq_unset_throttled_flows all now w)).
Proof.
  intros H; unfold fq_unset_throttled_flows, flow, bind, get.
  rewrite tree_first. change (kt_elems (fq_delayed w)) with (delayed w).
  destruct (delayed w) as [|id r] eqn:E; cbn [hd_error]; [exact H|].
  case_if; [now apply ok_q|].
  destruct (tree_remove_cons (fq_delayed w) id r E) as [E1 E2].
  destruct (bpf_rbtree_remove_first (fq_delayed w)) as [n t]; cbn in E1, E2; subst n.
  set (w1 := w <| fq_delayed := t |>).
  assert (H1 : ok N [id] w0 w1).
  { split; [now apply (Inv_unthrottle N id r); [apply H | |] |].
    apply (balanced_trans _ w); [apply H|]. now constructor. }
  apply (ok_age _ _ _ _ (fun f => f <| age := 0 |>)) in H1; [|reflexivity].
  set (w2 := snd (mod_flow id _ w1)) in *.
  change (mod_flow id (fun f => f <| age := 0 |>) w1) with (tt, w2). cbv beta iota.
  assert (Ha : age (heap w2 id) = 0) by (subst w2; now rewrite heap_mod_flow).
  now apply (ok_add_tail N w0 w2 id false).
Qed.

Lemma NUM_QUEUE_loops : 0 <= NUM_QUEUE <= BPF_MAX_LOOPS.
Proof. vm_compute; intuition discriminate. Qed.

Lemma fq_check_throttled_ok N w0 now : preserves (ok N [] w0) (fq_check_throttled now).
Proof.
  unfold fq_check_throttled. preserve.
  - intros w X; now apply ok_q.
  - intros w X; now apply ok_q.
  - intros w X; now apply ok_q.
  - apply preserves_modify; intros w X. rewrite bpf_loop_spec by apply NUM_QUEUE_loops.
    apply run_loop_inv; [|exact X]. intros s Hs; now apply fq_unset_throttled_ok.
Qed.

Lemma fq_set_throttled_ok N w0 id w : ok N [id] w0 w -> ok N [] w0 (snd (fq_flow_set_throttled id w)).
Proof.
  intros H; unfold fq_flow_set_throttled, flow, bind, get.
  apply (ok_age _ _ _ _ (fun f => f <| age := U64_MAX |>)) in H; [|reflexivity].
  set (w1 := snd (mod_flow id _ w)) in *.
  change (mod_flow id (fun f => f <| age := U64_MAX |>) w) with (tt, w1). cbv beta iota.
  assert (Ha : age (heap w1 id) = U64_MAX) by (subst w1; now rewrite heap_mod_flow).
  match goal with |- context [mod_q ?g w1] =>
    apply (ok_q _ _ _ _ g) in H; [|case_if; reflexivity|case_if; reflexivity];
    set (w2 := snd (mod_q g w1)) in *; change (mod_q g w1) with (tt, w2) end.
  cbv beta iota. change (age (heap w2 id) = U64_MAX) in Ha.
  split; [now apply (Inv_throttle N id w2); [apply H|] |].
  apply (balanced_trans _ w2); [apply H | now constructor].
Qed.

(** ** Packets in and out of a queue *)

Lemma packets_change w w' id x y : next w' = next w -> (id < next w)%nat ->
  (forall j, j <> id -> queued w' j = queued w j) ->
  Permutation (x ++ skbs (queue (heap w' id))) (y ++ skbs (queue (heap w id))) ->
  Permutation (x ++ packets w') (y ++ packets w).
Proof.
  intros En Hi Ho Hp; unfold packets; rewrite En.
  assert (E : seq 0 (next w) = seq 0 id ++ id :: seq (S id) (next w - S id)).
  { replace (next w) with (id + S (next w - S id))%nat at 1 by lia. now rewrite seq_app. }
  rewrite E, !flat_map_app; cbn [flat_map].
  assert (O : forall l, ~ In id l -> flat_map (fun j => skbs (queue (heap w' j))) l =
                                     flat_map (fun j => skbs (queue (heap w j))) l).
  { intros l Hl; apply flat_map_ext_in; intros j Hj.
    assert (Hne : j <> id) by (intros ->; contradiction).
    specialize (Ho j Hne); unfold queued in Ho; unfold skbs; now rewrite Ho. }
  rewrite !O by (rewrite in_seq; lia).
  set (l1 := flat_map _ (seq 0 id)). set (l2 := flat_map _ (seq (S id) _)).
  rewrite !(Permutation_app_swap_app _ l1). apply Permutation_app_head.
  rewrite !app_assoc. now apply Permutation_app_tail.
Qed.

(** A change of one queue of a flow that may have packets. *)
Lemma Inv_queue_change N fl w w' id : Inv N fl w -> id = 0%nat \/ In id (fl ++ listed w) ->
  next w' = next w -> news w' = news w -> olds w' = olds w -> delayed w' = delayed w ->
  (forall k j, fq_nonprio_flows w' k = Some (Some j) -> fq_nonprio_flows w k = Some (Some j)) ->
  new_flow_cnt (q w') = new_flow_cnt (q w) -> old_flow_cnt (q w') = old_flow_cnt (q w) ->
  (forall j, age (heap w' j) = age (heap w j)) -> (forall j, j <> id -> queued w' j = queued w j) ->
  (forall n, In n (queued w' id) -> exists s, node_skb n = Some s /\ u64 (skb_tstamp s) = tstamp n) ->
  Inv N fl w'.
Proof.
  intros [? ? ? ? ? ? Hd Hq ? ? ? Hn] Hid En Enw Eo Ed Em Ec1 Ec2 Ea Eq Hns.
  assert (El : listed w' = listed w) by (unfold listed; congruence).
  constructor; rewrite ?El, ?En, ?Enw, ?Eo, ?Ed, ?Ec1, ?Ec2; auto.
  - intros j; rewrite Ea; auto.
  - intros j; rewrite Ea; auto.
  - intros j; unfold fq_flow_is_detached; rewrite Ea; apply Hd.
  - intros j Hj Hnj. rewrite Eq; [auto|]. intros ->. destruct Hid; [lia | contradiction].
  - intros k j Hk; eauto.
  - intros j n. destruct (Nat.eq_dec j id) as [->|Hj]; [apply Hns | rewrite Eq by assumption; apply Hn].
Qed.

(** [s] left the queues for the hands of the caller. *)
Record took (s : sk_buff) (w0 w : world) : Prop := {
  t_packets : Permutation (s :: packets w) (packets w0);
  t_sent : sent w = sent w0;
  t_released : released w = released w0;
  t_free : to_free w = to_free w0;
  t_sch : sch w = sch w0;
  t_prio : fq_prio_flows w 0 = fq_prio_flows w0 0
}.

Lemma took_balanced s a b c : took s a b -> balanced b c -> took s a c.
Proof.
  intros [P ? ? ? ? ?] [P' ? ? ? ? ?]; constructor; try congruence.
  rewrite <- P. now apply perm_skip.
Qed.

Lemma balanced_took s a b c : balanced a b -> took s b c -> took s a c.
Proof.
  intros [P ? ? ? ? ?] [P' ? ? ? ? ?]; constructor; try congruence. exact (Permutation_trans P' P).
Qed.

Lemma remove_first_took N fl id w n r : Inv N fl w -> (id < next w)%nat ->
  id = 0%nat \/ In id (fl ++ listed w) -> queued w id = n :: r ->
  exists s w', remove_first id w = (Some n, w') /\ node_skb n = Some s /\ u64 (skb_tstamp s) = tstamp n /\
    Inv N fl w' /\ took s w w' /\ age (heap w' id) = age (heap w id) /\
    fq_nonprio_flows w' = fq_nonprio_flows w.
Proof.
  intros I Hlt Hid E. destruct (i_nodes _ _ _ I id n) as (s & Es & Et); [rewrite E; now left|].
  unfold remove_first. destruct (tree_remove_cons (queue (heap w id)) n r E) as [E1 E2].
  destruct (bpf_rbtree_remove_first (queue (heap w id))) as [m t]; cbn in E1, E2; subst m.
  exists s; eexists; split; [reflexivity|]. split; [exact Es|]. split; [exact Et|].
  set (w' := w <| heap ::= _ |>).
  assert (Hs : heap w' id = (heap w id) <| queue := t |>) by (subst w'; cbn; unfold nset; now rewrite Nat.eqb_refl).
  assert (Ho : forall j, j <> id -> heap w' j = heap w j)
    by (intros j Hj; subst w'; cbn; unfold nset; now apply Nat.eqb_neq in Hj as ->).
  assert (Ha : forall j, age (heap w' j) = age (heap w j))
    by (intros j; destruct (Nat.eq_dec j id) as [->|Hj]; [now rewrite Hs | now rewrite Ho]).
  assert (Hq : queued w' id = r) by (unfold queued; now rewrite Hs).
  split.
  { apply (Inv_queue_change N fl w w' id); auto.
    - intros j Hj; unfold queued; now rewrite Ho.
    - intros m Hm; apply (i_nodes _ _ _ I id). rewrite E; right. now rewrite <- Hq. }
  split; [|split; [apply Ha | reflexivity]].
  constructor; try reflexivity. apply (packets_change w w' id [s] []); auto.
  - intros j Hj; unfold queued; now rewrite Ho.
  - unfold skbs. fold (queued w id) (queued w' id). rewrite Hq, E; cbn [flat_map app]. now rewrite Es.
Qed.

(** ** Dequeue *)

Context (jiffies_range : forall n, 0 < jiffies n < U64_MAX).

Lemma detach_ok N w0 id w : ok N [id] w0 w -> queued w id = [] ->
  ok N [] w0 (snd ((fq_flow_set_detached id ;; bpf_obj_drop id) w)).
Proof.
  intros H Hq; unfold fq_flow_set_detached, bpf_jiffies64, call, bind.
  set (j := u64 (jiffies (calls w))). apply ok_calls in H. set (w1 := w <| calls ::= S |>) in *.
  assert (Hq1 : queued w1 id = []) by exact Hq.
  apply (ok_age _ _ _ _ (fun f => f <| age := j |>)) in H; [|reflexivity].
  set (w2 := snd (mod_flow id (fun f => f <| age := j |>) w1)) in *.
  change (mod_flow id (fun f => f <| age := j |>) w1) with (tt, w2).
  assert (Hq2 : queued w2 id = []) by (subst w2; unfold queued; rewrite heap_mod_flow; exact Hq1).
  apply ok_drop; [exact Hq2|]. destruct H as [I B]; split; [|exact B].
  apply (Inv_unfloat N id); [exact I | | exact Hq2].
  unfold fq_flow_is_detached; subst w2; rewrite heap_mod_flow.
  change (negb (j =? 0) && negb (j =? U64_MAX) = true).
  pose proof (jiffies_range (calls w)) as Hj.
  assert (Ej : j = jiffies (calls w)) by (apply uw_small; unfold is_u, U64_MAX in *; lia).
  rewrite Ej. apply andb_true_iff; split; apply negb_true_iff, Z.eqb_neq; lia.
Qed.

Lemma take_active N w0 w : ok N [] w0 w ->
  negb ((new_flow_cnt (q w) =? 0) && (old_flow_cnt (q w) =? 0)) = true ->
  let new := negb (new_flow_cnt (q w) =? 0) in
  exists id w', fq_flows_remove_front new w = (Some id, w') /\ ok N [id] w0 w' /\ age (heap w' id) = 0.
Proof.
  intros [I B] Hc new. pose proof (i_new_cnt _ _ _ I) as C1; pose proof (i_old_cnt _ _ _ I) as C2.
  assert (Hne : the_list new w <> []).
  { subst new; destruct (Z.eqb_spec (new_flow_cnt (q w)) 0) as [E1|E1]; cbn [negb andb] in Hc |- *; unfold the_list;
      intros E; rewrite E in *; [rewrite C2 in Hc; discriminate | now apply E1; rewrite C1]. }
  destruct (remove_front_spec new w Hne) as (id & r & w' & E & R & P & Er & E' & Ec & Ec').
  destruct (Inv_take N id new w w') as [I' Ha]; auto; [now rewrite Er|].
  exists id, w'; split; [exact E|]. split; [|exact Ha].
  split; [exact I'|]. exact (balanced_trans _ _ _ B (balanced_rest _ _ R)).
Qed.

(** One round: nothing leaves, or a packet whose time has come. *)
Definition round_result (N : nat -> Prop) (w0 : world) (t : Z)
    (s : option sk_buff * dequeue_nonprio_ctx * world) : Prop :=
  let '(skb, ctx, w) := s in
  now ctx = t /\
  match skb with
  | None => ok N [] w0 w
  | Some s => stop_iter ctx = true /\ Inv N [] w /\ took s w0 w /\ u64 (skb_tstamp s) <= t
  end.

Lemma bind_eq {S A B} (m : ST S A) (k : A -> ST S B) s : bind m k s = k (fst (m s)) (snd (m s)).
Proof. unfold bind; now destruct (m s). Qed.

Lemma i_lt_fl N id w : Inv N [id] w -> (0 < id < next w)%nat.
Proof. intros I; apply (i_lt _ _ _ I); now left. Qed.

(** The packet at the head of the flow's queue, when its time has come. *)
Lemma send_head N w0 t new ctx id w n r : ok N [id] w0 w -> age (heap w id) = 0 -> queued w id = n :: r ->
  now ctx = t -> tstamp n <= t ->
  round_result N w0 t ((node <- remove_first id ;;
    let skb := match node with Some n => node_skb n | None => None end in
    match skb with
    | None => ret tt
    | Some s => mod_flow id (fun f => f <| credit := i32 (credit f - i32 (pkt_len s)) |>
                                        <| flow_qlen := u32 (flow_qlen f - 1) |>)
    end ;;
    fq_flows_add_head new id ;;
    ret (skb, ctx <| stop_iter := true |>)) w).
Proof.
  intros [I B] Ha E Hn Ht. pose proof (i_lt_fl _ _ _ I) as Hlt.
  destruct (remove_first_took N [id] id w n r I) as (s & w1 & E1 & Es & Et & I1 & T1 & A1 & _);
    [lia | right; now left | exact E |].
  rewrite bind_eq, E1; cbn [fst snd]. cbv zeta. rewrite Es, !bind_eq.
  set (g := fun f => f <| credit := _ |> <| flow_qlen := _ |>).
  assert (Eg : kt_elems (queue (g (heap w1 id))) = queued w1 id) by reflexivity.
  pose proof (mod_flow_balanced w1 id g Eg) as B2. apply (Inv_age N id w1 g) in I1; [|exact Eg].
  set (w2 := snd (mod_flow id g w1)) in *. fold w2.
  assert (A2 : age (heap w2 id) = 0) by (subst w2; rewrite heap_mod_flow; cbn; congruence).
  destruct (ok_add_head N w2 w2 id new) as [I3 B3]; [split; [exact I1 | apply balanced_refl] | exact A2 |].
  split; [exact Hn|]. split; [reflexivity|]. split; [exact I3|]. split; [|lia].
  apply (balanced_took _ _ w); [exact B|]. apply (took_balanced _ _ w2); [|exact B3].
  exact (took_balanced _ _ _ _ T1 B2).
Qed.

Lemma fq_dequeue_nonprio_flows_result N w0 ctx w : ok N [] w0 w ->
  round_result N w0 (now ctx) (fq_dequeue_nonprio_flows ctx w).
Proof.
  intros H; unfold fq_dequeue_nonprio_flows. rewrite bind_eq; cbn [get fst snd]. cbv zeta.
  destruct (_ && _) eqn:Hc.
  { cbn. split; [now case_if | exact H]. }
  destruct (take_active N w0 w H) as (id & w1 & E1 & H1 & Ha1); [now rewrite Hc|].
  rewrite bind_eq, E1; cbn [fst snd]. rewrite bind_eq; cbn [flow get fst snd].
  destruct (credit (heap w1 id) <=? 0).
  { rewrite !bind_eq; cbn [ret]. split; [reflexivity|].
    apply ok_add_tail; [now apply ok_age | rewrite heap_mod_flow; exact Ha1]. }
  rewrite tree_first. change (kt_elems (queue (heap w1 id))) with (queued w1 id).
  destruct (queued w1 id) as [|n r] eqn:E; cbn [hd_error].
  { rewrite bind_eq. change (snd (fq_flows_is_empty false w1)) with w1. case_if.
    - rewrite bind_eq; split; [reflexivity | now apply ok_add_tail].
    - rewrite !bind_eq. split; [reflexivity|].
      pose proof (detach_ok N w0 id w1 H1 E) as D. rewrite bind_eq in D. exact D. }
  cbv zeta. destruct (Z.ltb_spec (time_next_packet (heap w1 id)) (tstamp n)) as [Hl|Hl].
  - destruct (Z.ltb_spec (now ctx) (tstamp n)).
    + rewrite !bind_eq; split; [reflexivity|]. now apply fq_set_throttled_ok, ok_age.
    + exact (send_head N w0 (now ctx) _ ctx id w1 n r H1 Ha1 E eq_refl ltac:(lia)).
  - destruct (Z.ltb_spec (now ctx) (time_next_packet (heap w1 id))).
    + rewrite !bind_eq; split; [reflexivity|]. now apply fq_set_throttled_ok, ok_age.
    + exact (send_head N w0 (now ctx) _ ctx id w1 n r H1 Ha1 E eq_refl ltac:(lia)).
Qed.

(** What holds between two calls of the kernel. *)
Record good (w : world) : Prop := {
  g_inv : exists N, Inv N [] w;
  g_prio : fq_prio_flows w 0 = Some (Some 0%nat);
  g_limit : limit (sch w) = 10000;
  g_qlen : qlen (sch w) = Z.of_nat (length (packets w));
  g_room : qlen (sch w) <= limit (sch w)
}.

Lemma the_prio w : the_map true w = fq_prio_flows w.
Proof. reflexivity. Qed.

(** Taking the reference out of the stash and putting it back. *)
Lemma kptr_take prio hash w id : the_map prio w hash = Some (Some id) ->
  let w' := snd (mod_map prio (fun m => zset m hash (Some None)) w) in
  bpf_kptr_xchg prio hash None w = (Some id, w') /\ alike w w' /\ sent w' = sent w /\
  released w' = released w /\ to_free w' = to_free w /\ sch w' = sch w /\ heap w' = heap w /\
  the_map prio w' hash = Some None /\ the_map (negb prio) w' = the_map (negb prio) w.
Proof.
  intros E w'; unfold bpf_kptr_xchg, bind, get, ret; rewrite E; cbv beta iota.
  split; [subst w'; destruct (mod_map _ _ w); reflexivity|].
  subst w'; destruct prio; cbn; repeat split; auto; try (now unfold zset; rewrite Z.eqb_refl).
  intros k j; cbn; unfold zset; destruct (k =? hash); [discriminate | auto].
Qed.

Lemma kptr_back prio hash w id : the_map prio w hash = Some None ->
  let w' := snd (bpf_kptr_xchg_back prio hash id w) in
  w' = snd (mod_map prio (fun m => zset m hash (Some (Some id))) w).
Proof.
  intros E; unfold bpf_kptr_xchg_back, bpf_kptr_xchg, bind, get, ret; rewrite E; cbv beta iota.
  now destruct (mod_map _ _ w).
Qed.

Lemma Inv_back_prio N w : Inv N [] w -> Inv N [] (snd (mod_map true (fun m => zset m 0 (Some (Some 0%nat))) w)).
Proof. apply Inv_alike; now constructor. Qed.

Lemma fq_dequeue_prio_result N w : Inv N [] w -> fq_prio_flows w 0 = Some (Some 0%nat) ->
  let (r, w') := fq_dequeue_prio w in
  match r with
  | None => ok N [] w w' /\ calls w' = calls w /\ queued w 0%nat = []
  | Some s => Inv N [] w' /\ took s w w' /\ option_map node_skb (hd_error (queued w 0%nat)) = Some (Some s)
  end.
Proof.
  intros I Ep; unfold fq_dequeue_prio. rewrite bind_eq; cbn [bpf_map_lookup_elem get fst snd].
  rewrite the_prio, Ep, bind_eq.
  destruct (kptr_take true 0 w 0%nat Ep) as (-> & A & Es & Er & Ef & Ec & Eh & Em & _).
  cbn [fst snd]. set (w1 := snd (mod_map true (fun m => zset m 0 (Some None)) w)) in *.
  pose proof (Inv_alike _ _ _ _ A I) as I1.
  rewrite bind_eq; cbn [get fst snd]. rewrite tree_first. fold (queued w1 0%nat).
  destruct (queued w1 0%nat) as [|n r] eqn:E; cbn [hd_error].
  - rewrite !bind_eq; cbn [ret fst snd]. rewrite (kptr_back true 0 w1 0%nat Em).
    split; [|split; [reflexivity | rewrite <- E; unfold queued; now rewrite Eh]]. split; [now apply Inv_back_prio|].
    constructor; cbn; auto; now unfold zset.
  - destruct (remove_first_took N [] 0%nat w1 n r I1) as (s & w2 & E2 & Ens & Et & I2 & T2 & _ & _);
      [rewrite (a_next _ _ A); apply (i_next _ _ _ I) | now left | exact E |].
    rewrite (bind_eq (bind _ _)), (bind_eq (remove_first 0%nat)), E2; cbn [ret fst snd].
    rewrite Ens, bind_eq; cbn [ret].
    assert (Em2 : the_map true w2 0 = Some None) by (rewrite the_prio, (t_prio _ _ _ T2); exact Em).
    rewrite (kptr_back true 0 w2 0%nat Em2). split; [now apply Inv_back_prio|].
    destruct T2 as [P ? ? ? ? ?]. rewrite (packets_alike _ _ A) in P.
    split; [constructor; cbn; auto; try congruence; now unfold zset|].
    unfold queued in E |- *; rewrite <- Eh, E; cbn. now rewrite Ens.
Qed.

Lemma dequeue_nonprio_result N w0 w t : ok N [] w0 w -> limit (sch w) = 10000 ->
  let (r, w') := dequeue_nonprio t w in
  match fst r with
  | None => ok N [] w0 w'
  | Some s => Inv N [] w' /\ took s w0 w' /\ u64 (skb_tstamp s) <= t
  end.
Proof.
  intros H Hl; unfold dequeue_nonprio; rewrite Hl.
  rewrite bpf_for_spec by (vm_compute; intuition discriminate).
  set (P := fun s : option sk_buff * dequeue_nonprio_ctx * world =>
              fst (fst s) = None /\ now (snd (fst s)) = t /\ ok N [] w0 (snd s)).
  destruct (run_loop_stop P (round_result N w0 t) (Z.to_nat (i32 10000)) dequeue_round
              (None, {| stop_iter := false; expire := 0; now := t |}, w)) as [Q|Q].
  - intros [[skb ctx] s] (_ & Hn & Hok); cbn [fst snd] in Hn, Hok; unfold dequeue_round.
    pose proof (fq_dequeue_nonprio_flows_result N w0 ctx s Hok) as R. rewrite Hn in R.
    destruct (fq_dequeue_nonprio_flows ctx s) as [[skb' ctx'] s']. destruct (stop_iter ctx') eqn:Es; [exact R|].
    destruct R as [Hn' R]. destruct skb' as [b|]; [destruct R; congruence|]. now split.
  - now split.
  - destruct (run_loop _ _ _) as [[[b|] ctx] w']; cbn [fst]; destruct Q as [_ Q]; [now destruct Q | exact Q].
  - destruct (run_loop _ _ _) as [[[b|] ctx] w']; cbn [fst]; destruct Q as (Hb & _ & Q); cbn in Hb, Q; [discriminate | exact Q].
Qed.

Lemma good_balanced N w w' : good w -> ok N [] w w' -> good w'.
Proof.
  intros [_ Gp Gl Gq Gr] [I [P _ _ _ Es Ep]]; constructor; rewrite ?Es, ?Ep; eauto.
  rewrite Gq. f_equal. now rewrite P.
Qed.

(** What a dequeue did: the packet it gave is one that was queued. *)
Definition dequeued (w : world) (r : option sk_buff) (w' : world) : Prop :=
  released w' = released w /\ to_free w' = to_free w /\
  match r with
  | None => Permutation (packets w') (packets w) /\ sent w' = sent w
  | Some s => Permutation (s :: packets w') (packets w) /\ sent w' = sent w ++ [s]
  end.

Lemma fq_deliver_result N s w w' : good w -> Inv N [] w' -> took s w w' ->
  let (r, w2) := fq_deliver s w' in r = Some s /\ good w2 /\ dequeued w (Some s) w2.
Proof.
  intros [_ Gp Gl Gq Gr] I [P Es Er Ef Ec Ep]; cbn. split; [reflexivity|].
  match goal with |- good ?x /\ _ => set (w2 := x) end. assert (A : alike w' w2) by now constructor.
  assert (L : Z.of_nat (length (packets w)) = Z.of_nat (length (packets w')) + 1)
    by (rewrite <- P; cbn [length]; lia).
  assert (Ek : packets w2 = packets w') by exact (packets_alike _ _ A).
  assert (Eq2 : qlen (sch w2) = qlen (sch w) - 1).
  { change (qlen (sch w2)) with (u32 (qlen (sch w') - 1)). rewrite Ec. apply uw_small; unfold is_u; lia. }
  assert (El : limit (sch w2) = limit (sch w)) by (change (limit (sch w2)) with (limit (sch w')); congruence).
  split.
  - constructor; rewrite ?Ek, ?Eq2, ?El; try lia.
    + exists N; exact (Inv_alike _ _ _ _ A I).
    + change (fq_prio_flows w2 0) with (fq_prio_flows w' 0). congruence.
  - split; [exact Er|]. split; [exact Ef|]. split; [now rewrite Ek|].
    change (sent w2) with (sent w' ++ [s]). now rewrite Es.
Qed.

Lemma ok_refl N w : Inv N [] w -> ok N [] w w.
Proof. intros I; split; [exact I | apply balanced_refl]. Qed.

Lemma dequeued_none N w w' : ok N [] w w' -> dequeued w None w'.
Proof. intros [_ [P Es Er Ef _ _]]; now repeat split. Qed.

Lemma fq_dequeue_result w : good w ->
  let (r, w') := bpf_fq_dequeue w in
  good w' /\ dequeued w r w' /\
  match hd_error (queued w 0%nat) with
  | Some n => 0 < qlen (sch w) -> r = node_skb n
  | None => forall s, r = Some s -> u64 (skb_tstamp s) <= u64 (ktime (calls w))
  end.
Proof.
  intros G; unfold bpf_fq_dequeue; rewrite bind_eq; cbn [get fst snd].
  destruct (g_inv _ G) as [N I]. pose proof (ok_refl N w I) as O.
  destruct (Z.eqb_spec (qlen (sch w)) 0) as [E0|_].
  { cbn. split; [exact G|]. split; [now apply (dequeued_none N)|].
    destruct (hd_error _); [lia | discriminate]. }
  pose proof (fq_dequeue_prio_result N w I (g_prio _ G)) as R.
  rewrite bind_eq. destruct (fq_dequeue_prio w) as [[s|] w1]; cbn [fst snd] in *.
  { destruct R as (I1 & T & Hs). pose proof (fq_deliver_result N s w w1 G I1 T) as D.
    destruct (fq_deliver s w1) as [r w2]; destruct D as (-> & G2 & D).
    split; [exact G2|]. split; [exact D|]. destruct (hd_error _); cbn in Hs; [now injection Hs as -> | discriminate]. }
  destruct R as (R & Ec & Hq). rewrite Hq; cbn [hd_error].
  rewrite bind_eq. cbn [bpf_ktime_get_ns call fst snd]. rewrite Ec.
  set (t := u64 (ktime (calls w))). apply ok_calls in R. rewrite bind_eq.
  apply (ok_q _ _ _ _ (fun c => c <| ktime_cache := t |>)) in R; [|reflexivity|reflexivity].
  set (w2 := snd (mod_q _ _)) in *. rewrite bind_eq.
  apply (fq_check_throttled_ok N w t) in R. set (w3 := snd (fq_check_throttled t w2)) in *.
  rewrite bind_eq.
  assert (Hl : limit (sch w3) = 10000) by (rewrite (b_sch _ _ (proj2 R)); apply G).
  pose proof (dequeue_nonprio_result N w w3 t R Hl) as D.
  destruct (dequeue_nonprio t w3) as [[[s|] ctx] w4]; cbn [fst snd] in *.
  - destruct D as (I4 & T & Ht). pose proof (fq_deliver_result N s w w4 G I4 T) as D.
    destruct (fq_deliver s w4) as [r w5]; destruct D as (-> & G2 & D).
    split; [exact G2|]. split; [exact D|]. now intros x [= <-].
  - rewrite bind_eq; cbn [ret]. set (w5 := snd (when _ _ w4)).
    assert (O5 : ok N [] w w5).
    { subst w5; unfold when; case_if; [|exact D]. apply (ok_alike _ _ _ w4); auto. now constructor. }
    split; [exact (good_balanced _ _ _ G O5)|]. split; [now apply (dequeued_none N) | discriminate].
Qed.

(** ** Garbage collection and new flows *)

(** Collecting flows only empties stashes. *)
Definition fewer (w w' : world) : Prop :=
  (forall k, fq_nonprio_flows w' k = None \/ fq_nonprio_flows w' k = fq_nonprio_flows w k) /\
  (forall j, queued w' j = queued w j).

Lemma fewer_refl w : fewer w w.
Proof. split; auto. Qed.

Lemma fewer_trans a b c : fewer a b -> fewer b c -> fewer a c.
Proof.
  intros [M Q] [M' Q']; split; [|congruence]. intros k.
  destruct (M' k) as [|E]; [now left|]. destruct (M k); [left | right]; congruence.
Qed.

Lemma drop_queued w id : queued w id = [] -> forall j, queued (snd (bpf_obj_drop id w)) j = queued w j.
Proof.
  intros Hq j; unfold bpf_obj_drop. rewrite !bind_eq; cbn [flow get fst snd].
  destruct (Nat.eq_dec j id) as [->|Hj].
  - unfold when, queued; case_if; rewrite ?bind_eq; cbn; unfold nset; rewrite !Nat.eqb_refl; [|reflexivity].
    cbn; rewrite tree_empty; symmetry; exact Hq.
  - apply Nat.eqb_neq in Hj. unfold when, queued; case_if; rewrite ?bind_eq; cbn; unfold nset; now rewrite !Hj.
Qed.

Lemma drop_nonprio id w : fq_nonprio_flows (snd (bpf_obj_drop id w)) = fq_nonprio_flows w.
Proof. unfold bpf_obj_drop. rewrite !bind_eq; unfold when; case_if; reflexivity. Qed.

Lemma fq_remove_flows_ok N w0 w hash f ctx : ok N [] w0 w -> fq_nonprio_flows w hash = Some f ->
  gc_only ctx = true ->
  let (r, w') := fq_remove_flows false hash f ctx w in
  ok N [] w0 w' /\ gc_only (snd r) = true /\ fewer w w'.
Proof.
  intros H Hf Hg; unfold fq_remove_flows. destruct f as [id|].
  2: { cbn. split; [exact H|]. split; [exact Hg | apply fewer_refl]. }
  rewrite Hg, bind_eq.
  destruct (fq_gc_candidate id w) as [b w1] eqn:E; cbn [fst snd].
  unfold fq_gc_candidate, bpf_jiffies64, call, flow, bind, get, ret in E. injection E as Eb Ew.
  assert (H1 : ok N [] w0 w1) by (subst w1; now apply ok_calls).
  assert (F1 : fewer w w1) by (subst w1; split; auto).
  assert (M1 : fq_nonprio_flows w1 = fq_nonprio_flows w) by now subst w1.
  rewrite bind_eq. destruct b; cbn [when ret fst snd]; [|now split].
  apply andb_true_iff in Eb as [D _].
  assert (D1 : fq_flow_is_detached (heap w1 id) = true) by now subst w1.
  pose proof (i_map _ _ _ (proj1 H) hash id Hf) as Hid.
  assert (Q1 : queued w1 id = []).
  { apply (i_queue _ _ _ (proj1 H1)); [apply (i_N _ _ _ (proj1 H1) _ Hid)|].
    apply (listed_not_detached N); [apply H1 | exact D1]. }
  unfold bpf_map_delete_elem. rewrite !bind_eq.
  assert (Hf1 : the_map false w1 hash = Some (Some id)) by (cbn; now rewrite M1).
  destruct (kptr_take false hash w1 id Hf1) as (-> & A & X1 & X2 & X3 & X4 & Eh & _ & Ep); cbn [fst snd].
  set (w2 := snd (mod_map false _ w1)) in *. cbn [drop_opt].
  assert (H2 : ok N [] w0 w2) by (apply (ok_alike _ _ _ w1); auto; cbn in Ep; now rewrite Ep).
  set (w3 := snd (mod_map false (fun m => zset m hash None) w2)).
  assert (A3 : alike w2 w3).
  { subst w3; constructor; auto. intros k j; cbn; unfold zset; case_if; [discriminate | auto]. }
  assert (H3 : ok N [] w0 w3) by (apply (ok_alike _ _ _ w2); auto).
  assert (Q3 : queued w3 id = []) by (rewrite (a_queue _ _ A3); unfold queued; rewrite Eh; exact Q1).
  split; [now apply ok_drop|]. split; [exact Hg|].
  apply (fewer_trans _ _ _ F1). split; [intros k | intros j].
  - rewrite drop_nonprio. cbn; unfold zset. destruct (k =? hash); auto.
  - rewrite drop_queued, (a_queue _ _ A3), (a_queue _ _ A) by exact Q3. reflexivity.
Qed.

Lemma fq_gc_ok N w0 w : ok N [] w0 w -> ok N [] w0 (snd (fq_gc w)) /\ fewer w (snd (fq_gc w)).
Proof.
  intros H; unfold fq_gc, bpf_for_each_map_elem. rewrite !bind_eq; cbn [ret snd].
  cbn [call fst snd]. apply ok_calls in H.
  assert (F0 : fewer w (w <| calls ::= S |>)) by (split; auto).
  generalize (elem_order (calls w)) as keys. set (w1 := w <| calls ::= S |>) in *. clearbody w1.
  set (c0 := {| gc_only := true; reset_cnt := 0; reset_max := FQ_GC_MAX |}).
  assert (Hc : gc_only c0 = true) by reflexivity. clearbody c0. intros keys.
  revert w1 c0 H F0 Hc; induction keys as [|k keys IH]; intros w1 c H F Hc; [now split|].
  cbn [for_each]. rewrite bind_eq; cbn [bpf_map_lookup_elem get fst snd].
  change (the_map false w1 k) with (fq_nonprio_flows w1 k).
  destruct (fq_nonprio_flows w1 k) as [f|] eqn:Ef; [|now apply IH].
  pose proof (fq_remove_flows_ok N w0 w1 k f c H Ef Hc) as R. rewrite bind_eq.
  destruct (fq_remove_flows false k f c w1) as [[stop c'] w2]; cbn [fst snd] in *.
  destruct R as (H2 & Hc' & F2).
  pose proof (fewer_trans _ _ _ F F2) as F'.
  destruct stop; [now split | now apply IH].
Qed.

(** A flow from [bpf_obj_new]: it has no packet and is on no list. *)
Lemma new_flow_node_ok N w0 w : ok N [] w0 w ->
  match new_flow_node w with
  | (None, w') => ok N [] w0 w' /\ fq_nonprio_flows w' = fq_nonprio_flows w
  | (Some id, w') => let N' := fun j => N j \/ j = id in
      ok N' [] w0 w' /\ N' id /\ fq_nonprio_flows w' = fq_nonprio_flows w /\ queued w' id = []
  end.
Proof.
  intros [I B]; unfold new_flow_node. destruct (obj_new (calls w)).
  2: { split; [|reflexivity]. now apply ok_calls. }
  cbv zeta. match goal with |- ok _ _ _ ?x /\ _ => set (w' := x) end.
  set (N' := fun j => N j \/ j = next w).
  assert (Ho : forall j, j <> next w -> heap w' j = heap w j)
    by (intros j Hj; subst w'; cbn; unfold nset; now apply Nat.eqb_neq in Hj as ->).
  assert (Hs : age (heap w' (next w)) = 1 /\ queued w' (next w) = []).
  { subst w'; unfold queued; cbn; unfold nset; rewrite Nat.eqb_refl; cbn. now rewrite tree_empty. }
  destruct Hs as [Ha Hq]. destruct I as [I0 IN Il Ind Iac It Idt Iq Im C1 C2 Ins].
  assert (Hl : ~ In (next w) (listed w)) by (intros X; specialize (Il _ X); lia).
  assert (En : next w' = S (next w)) by reflexivity.
  assert (Eq : forall j, j <> next w -> queued w' j = queued w j)
    by (intros j Hj; unfold queued; now rewrite Ho).
  assert (IN' : Inv N' [] w').
  { assert (L : listed w' = listed w) by reflexivity.
    rewrite listed_in in Hl.
    constructor; rewrite ?L, ?En; auto.
    - intros j [Hj| ->]; [specialize (IN j Hj); lia | lia].
    - intros j Hj; specialize (Il j Hj); lia.
    - intros j Hj; change (In j (news w ++ olds w)) in Hj. rewrite Ho; [now apply Iac|].
      intros ->; apply in_app_iff in Hj; tauto.
    - intros j Hj; change (In j (delayed w)) in Hj. rewrite Ho; [now apply It|]. intros ->; tauto.
    - intros j Hj Hnj. destruct (Nat.eq_dec j (next w)) as [->|Hne];
        [unfold fq_flow_is_detached; now rewrite Ha|].
      destruct Hj as [Hj|]; [|contradiction]. unfold fq_flow_is_detached; rewrite Ho by assumption. now apply Idt.
    - intros j Hj Hnj. destruct (Nat.eq_dec j (next w)) as [->|Hne]; [exact Hq|]. rewrite Eq by assumption. now apply Iq.
    - intros k j Hk; left. now apply (Im k).
    - intros j n. destruct (Nat.eq_dec j (next w)) as [->|Hne]; [now rewrite Hq|]. rewrite Eq by assumption. apply Ins. }
  split; [|split; [now right | split; [reflexivity | exact Hq]]].
  split; [exact IN'|]. apply (balanced_trans _ w); [exact B|]. constructor; try reflexivity.
  unfold packets; rewrite En, seq_S, flat_map_app; cbn [flat_map Nat.add]. unfold skbs at 2.
  fold (queued w' (next w)). rewrite Hq; cbn [flat_map]. rewrite !app_nil_r.
  rewrite (flat_map_ext_in _ (fun j => skbs (queue (heap w j)))); [reflexivity|].
  intros j Hj%in_seq; cbv beta. rewrite Ho; [reflexivity | lia].
Qed.

(** An update of a key without a flow. *)
Lemma map_update_ok N w0 w hash : ok N [] w0 w ->
  fq_nonprio_flows w hash = None \/ fq_nonprio_flows w hash = Some None ->
  let w' := snd (bpf_map_update_elem false hash w) in
  ok N [] w0 w' /\ (fq_nonprio_flows w' hash = None \/ fq_nonprio_flows w' hash = Some None) /\
  (forall j, queued w' j = queued w j).
Proof.
  intros H Hh; unfold bpf_map_update_elem. rewrite !bind_eq; cbn [call fst snd ret].
  apply ok_calls in H. set (w1 := w <| calls ::= S |>) in *.
  unfold when; case_if; [|cbn; auto].
  rewrite !bind_eq. unfold bpf_kptr_xchg, bind, get, ret. change (the_map false w1) with (fq_nonprio_flows w).
  assert (E : match fq_nonprio_flows w hash with Some o => o | None => None end = None)
    by (now destruct Hh as [-> | ->]).
  rewrite E. cbn [drop_opt mod_map modify fst snd ret].
  split; [|split; [right; cbn; unfold zset; now rewrite Z.eqb_refl | reflexivity]].
  apply (ok_alike _ _ _ w1); auto. constructor; auto.
  intros k j; cbn; unfold zset; case_if; [discriminate | auto].
Qed.

(** The result of making a flow. *)
Lemma fq_new_flow_ok N w0 w hash : ok N [] w0 w -> fq_nonprio_flows w hash = None ->
  exists N', ok N' [] w0 (snd (fq_new_flow false hash w)).
Proof.
  intros H Hh; unfold fq_new_flow. rewrite bind_eq.
  pose proof (new_flow_node_ok N w0 w H) as F.
  destruct (new_flow_node w) as [[id|] w1]; cbn [fst snd].
  2: { exists N; apply F. }
  destruct F as (H1 & Hid & M1 & Q1). set (N' := fun j => N j \/ j = id) in *. exists N'.
  rewrite bind_eq. destruct (map_update_ok N' w0 w1 hash H1) as (H2 & Hh2 & Q2); [left; now rewrite M1|].
  set (w2 := snd (bpf_map_update_elem false hash w1)) in *. rewrite bind_eq.
  set (w3 := snd (when _ _ w2)).
  assert (P3 : ok N' [] w0 w3 /\ (fq_nonprio_flows w3 hash = None \/ fq_nonprio_flows w3 hash = Some None) /\
               queued w3 id = []).
  { assert (Q2' : queued w2 id = []) by now rewrite Q2.
    subst w3; unfold when; case_if; [|auto]. rewrite !bind_eq; cbn [ret snd].
    destruct (fq_gc_ok N' w0 w2 H2) as (Hg & Fm & Fq). set (wg := snd (fq_gc w2)) in *.
    destruct (map_update_ok N' w0 wg hash Hg) as (H4 & Hh4 & Q4).
    - destruct (Fm hash) as [->| ->]; auto.
    - split; [exact H4|]. split; [exact Hh4|]. now rewrite Q4, Fq. }
  clearbody w3. destruct P3 as (H3 & Hh3 & Q3). rewrite bind_eq; cbn [bpf_map_lookup_elem get fst snd].
  change (the_map false w3 hash) with (fq_nonprio_flows w3 hash).
  destruct Hh3 as [Hh3|Hh3]; rewrite Hh3, bind_eq; cbn [ret snd].
  - now apply ok_drop.
  - rewrite (kptr_back false hash w3 id Hh3). destruct H3 as [I3 B3]; split; [|apply (balanced_trans _ w3); [exact B3|]].
    + destruct I3 as [? ? ? ? ? ? ? ? Im ? ? ?]; constructor; auto. intros k j; cbn; unfold zset; case_if; [|apply Im].
      now intros [= <-].
    + now constructor.
Qed.

Lemma fq_classify_ok N w0 skb w v : ok N [] w0 w -> fq_prio_flows w 0 = Some v ->
  exists N', let '((cls, (prio, hash)), w') := fq_classify skb w in
    ok N' [] w0 w' /\
    (cls = CLS_RET_ERR \/ cls = CLS_RET_PRIO /\ prio = true /\ hash = 0 \/ cls = CLS_RET_NONPRIO /\ prio = false).
Proof.
  intros H Hv; unfold fq_classify. rewrite !bind_eq; cbn [get bpf_map_lookup_elem fst snd]. cbv zeta.
  destruct (Z.land (priority skb) TC_PRIO_MAX =? TC_PRIO_CONTROL) eqn:Ep.
  - change (the_map true w 0) with (fq_prio_flows w 0). rewrite Hv. exists N; cbn; auto 6.
  - set (hash := flow_key skb (q w)). change (the_map false w hash) with (fq_nonprio_flows w hash).
    destruct (fq_nonprio_flows w hash) eqn:Em; [exists N; cbn; auto|].
    destruct (fq_new_flow_ok N w0 w hash H Em) as [N' H']. exists N'. rewrite bind_eq; cbn [ret].
    split; [exact H'|]. case_if; auto.
Qed.

Lemma fq_time_to_send_ok N w0 skb w : ok N [] w0 w ->
  let (r, w') := fq_time_to_send skb w in
  ok N [] w0 w' /\
  match r with Some (s, t) => is_u64 t /\ exists ts, s = skb <| skb_tstamp := ts |> | None => True end.
Proof.
  intros H; assert (Hs : skb = skb <| skb_tstamp := skb_tstamp skb |>) by (now destruct skb).
  assert (C : forall t, ok N [] w0 (snd (mod_q (fun c => c <| ktime_cache := t |>) (w <| calls ::= S |>))))
    by (intros t; apply ok_q; [reflexivity | reflexivity | now apply ok_calls]).
  unfold mod_q, modify in C; cbn [snd] in C.
  unfold fq_time_to_send, bpf_ktime_get_ns, call, mod_q, modify, bind, get, ret. cbv beta iota zeta.
  repeat case_if; cbv beta iota; repeat case_if; (split; [first [apply C | exact H] |]);
    first [exact I | split; [apply u64_range | eauto]].
Qed.

(** ** Enqueue *)

(** A new packet in the queue of a flow that is served. *)
Lemma insert_packet N w id s t : Inv N [] w -> (id < next w)%nat -> id = 0%nat \/ In id (listed w) ->
  u64 (skb_tstamp s) = t ->
  let w' := snd (mod_flow id (fun f => f <| queue ::= (fun q =>
              bpf_rbtree_add tstamp q {| tstamp := t; node_skb := Some s |}) |>) w) in
  Inv N [] w' /\ Permutation (packets w') (s :: packets w).
Proof.
  intros I Hlt Hid Ht w'. set (n := {| tstamp := t; node_skb := Some s |}).
  assert (Hq : queued w' id = sorted_insert tstamp n (queued w id))
    by (subst w'; unfold queued; rewrite heap_mod_flow; cbn; apply tree_add).
  assert (Ho : forall j, j <> id -> heap w' j = heap w j)
    by (intros j Hj; subst w'; cbn; unfold nset; now apply Nat.eqb_neq in Hj as ->).
  assert (P : Permutation (queued w' id) (n :: queued w id)) by (rewrite Hq; apply perm_insert).
  split.
  - apply (Inv_queue_change N [] w w' id); auto.
    + intros j; destruct (Nat.eq_dec j id) as [->|Hj]; [subst w'; now rewrite heap_mod_flow | now rewrite Ho].
    + intros j Hj; unfold queued; now rewrite Ho.
    + intros m Hm; apply (Permutation_in _ P) in Hm as [<-|Hm]; [now exists s | exact (i_nodes _ _ _ I id m Hm)].
  - apply (packets_change w w' id [] [s]); auto.
    + intros j Hj; unfold queued; now rewrite Ho.
    + unfold skbs. fold (queued w id) (queued w' id). cbn [app].
      rewrite (Permutation_flat_map _ P). reflexivity.
Qed.

(** What an enqueue did with the packet, whose time stamp it may have set:
    it is refused and counted, or it is in a queue. *)
Definition enqueued (w : world) (skb : sk_buff) (r : Z) (w' : world) : Prop :=
  sent w' = sent w /\ released w' = released w /\
  exists ts, let s := skb <| skb_tstamp := ts |> in
    r = NET_XMIT_DROP /\ Permutation (packets w') (packets w) /\ to_free w' = to_free w ++ [s] /\
      drops (sch w') = u32 (drops (sch w) + 1) \/
    r = NET_XMIT_SUCCESS /\ Permutation (packets w') (s :: packets w) /\ to_free w' = to_free w /\
      drops (sch w') = drops (sch w).

Lemma drop_result N w w' skb ts : good w -> ok N [] w w' ->
  let (r, w2) := drop (skb <| skb_tstamp := ts |>) w' in good w2 /\ enqueued w skb r w2.
Proof.
  intros G O; pose proof (good_balanced _ _ _ G O) as [[M I] Gp Gl Gq Gr].
  destruct O as [_ [P Es Er Ef Ec Ep]]. cbn.
  match goal with |- good ?x /\ _ => set (w2 := x) end.
  assert (A : alike w' w2) by now constructor.
  assert (Ek : packets w2 = packets w') by exact (packets_alike _ _ A).
  split; [constructor; rewrite ?Ek; auto; exists M; exact (Inv_alike _ _ _ _ A I)|].
  split; [exact Es|]. split; [exact Er|]. exists ts; left. split; [reflexivity|].
  rewrite Ek. split; [exact P|]. split; [cbn; now rewrite Ef | cbn; now rewrite Ec].
Qed.

(** The end of enqueue.  [w1] is the world with the flow [id] taken out of its
    stash; putting it back gives a world that accounts to [w]. *)
Lemma fq_queue_packet_result N w w1 skb ts t prio hash id : good w -> qlen (sch w) < limit (sch w) ->
  the_map prio w1 hash = Some None -> is_u64 t ->
  (id < next w1)%nat -> id = 0%nat \/ In id (listed w1) ->
  ok N [] w (snd (mod_map prio (fun m => zset m hash (Some (Some id))) w1)) ->
  let (r, w2) := fq_queue_packet (skb <| skb_tstamp := ts |>) t (prio, hash) id w1 in
  good w2 /\ enqueued w skb r w2.
Proof.
  intros G Hroom Em Ht Hlt Hid O; unfold fq_queue_packet. rewrite bind_eq; cbn [bpf_skb_node_new call fst snd].
  set (w1' := w1 <| calls ::= S |>).
  set (wr := snd (mod_map prio (fun m => zset m hash (Some (Some id))) w1')).
  assert (O' : ok N [] w wr) by (destruct prio; now apply ok_calls in O).
  destruct (obj_new (calls w1)); cbn [negb].
  2: { rewrite bind_eq, (kptr_back prio hash w1' id) by (destruct prio; exact Em). now apply (drop_result N). }
  cbv zeta. set (s := skb <| skb_tstamp := i64 t |>).
  rewrite !bind_eq; cbn [fst snd ret].
  match goal with |- good ?x /\ _ => set (w2 := x) end.
  set (g := fun f : fq_flow_node => f <| queue ::= (fun q => bpf_rbtree_add tstamp q {| tstamp := t; node_skb := Some s |}) |>).
  assert (Hts : u64 (skb_tstamp s) = t) by (change (u64 (i64 t) = t); rewrite uw_sw by lia; now apply uw_small).
  assert (Hn : (id < next wr)%nat) by (destruct prio; exact Hlt).
  assert (Hl : id = 0%nat \/ In id (listed wr)) by (destruct prio; exact Hid).
  destruct (insert_packet N wr id s t (proj1 O') Hn Hl Hts) as [I3 P3]. fold g in I3, P3.
  set (w3 := snd (mod_flow id g wr)) in *.
  assert (Ew : w2 = snd (mod_sch (fun s => s <| qlen := u32 (qlen s + 1) |>) (snd (mod_map prio
                      (fun m => zset m hash (Some (Some id))) (snd (mod_flow id
                      (fun f => f <| flow_qlen := u32 (flow_qlen f + 1) |>) (snd (mod_flow id g
                      (snd (mod_sch (fun c => c <| backlog := u32 (backlog c + pkt_len s) |>) w1'))))))))))
    by (subst w2; rewrite (kptr_back prio hash) by (destruct prio; exact Em); reflexivity).
  assert (A : alike w3 w2).
  { rewrite Ew; destruct prio; constructor; auto; intros j; unfold queued; cbn; unfold nset;
      destruct (Nat.eqb j id) eqn:Ej; auto; apply Nat.eqb_eq in Ej; subst j; now rewrite Nat.eqb_refl. }
  assert (Ek : packets w2 = packets w3) by exact (packets_alike _ _ A).
  assert (Er : qlen (sch w2) = u32 (qlen (sch w) + 1) /\ limit (sch w2) = limit (sch w) /\
               drops (sch w2) = drops (sch w)).
  { rewrite Ew, <- (b_sch _ _ (proj2 O')). destruct prio; repeat split. }
  destruct Er as (Eq & El & Ed).
  destruct O' as [_ [P Es Erl Ef _ Ep]]. destruct G as [_ Gp Gl Gq Gr].
  rewrite uw_small in Eq by (unfold is_u; lia).
  split.
  - constructor; rewrite ?Ek, ?Eq, ?El; try lia.
    + exists N; exact (Inv_alike _ _ _ _ A I3).
    + transitivity (fq_prio_flows wr 0); [rewrite Ew; destruct prio; reflexivity | congruence].
    + rewrite (Permutation_length P3); cbn [length]. rewrite (Permutation_length P). lia.
  - split; [rewrite Ew, <- Es; destruct prio; reflexivity|].
    split; [rewrite Ew, <- Erl; destruct prio; reflexivity|].
    exists (i64 t); right. split; [reflexivity|]. rewrite Ek, P3.
    split; [now apply perm_skip|]. split; [rewrite Ew, <- Ef; destruct prio; reflexivity | exact Ed].
Qed.

Lemma same_skb (skb : sk_buff) : skb = skb <| skb_tstamp := skb_tstamp skb |>.
Proof. now destruct skb. Qed.

Lemma drop_same N w w' skb : good w -> ok N [] w w' ->
  let (r, w2) := drop skb w' in good w2 /\ enqueued w skb r w2.
Proof. intros G O. pose proof (drop_result N w w' skb (skb_tstamp skb) G O) as D. now rewrite <- same_skb in D. Qed.

(** Putting the reference back after work on the flow. *)
Lemma restore_ok N w w1 w2 prio hash id : ok N [] w1 w2 ->
  (prio = true /\ hash = 0 /\ id = 0%nat /\ fq_prio_flows w 0 = Some (Some 0%nat) \/
   prio = false /\ N id /\ fq_prio_flows w1 0 = fq_prio_flows w 0) ->
  Permutation (packets w1) (packets w) -> sent w1 = sent w -> released w1 = released w ->
  to_free w1 = to_free w -> sch w1 = sch w ->
  ok N [] w (snd (mod_map prio (fun m => zset m hash (Some (Some id))) w2)).
Proof.
  intros [I [P Es Er Ef Ec Ep]] D P1 Es1 Er1 Ef1 Ec1; set (w3 := snd _).
  assert (Ek : packets w3 = packets w2) by (subst w3; destruct prio; reflexivity).
  split.
  - destruct D as [(-> & -> & -> & _)|(-> & Hid & _)]; [now apply Inv_back_prio|].
    destruct I as [? ? ? ? ? ? ? ? Im ? ? ?]; constructor; auto.
    intros k j; cbn; unfold zset; case_if; [now intros [= <-] | apply Im].
  - constructor; rewrite ?Ek; try (subst w3; destruct prio; cbn; congruence).
    + exact (Permutation_trans P P1).
    + destruct D as [(-> & -> & -> & Hp)|(-> & _ & Hp)]; subst w3; cbn; [|congruence].
      unfold zset; cbn. now rewrite Hp.
Qed.

Lemma fq_enqueue_result w skb : good w ->
  let (r, w') := bpf_fq_enqueue skb w in good w' /\ enqueued w skb r w'.
Proof.
  intros G; unfold bpf_fq_enqueue. rewrite bind_eq; cbn [get fst snd].
  destruct (g_inv _ G) as [N I]. pose proof (ok_refl N w I) as O.
  destruct (Z.leb_spec (limit (sch w)) (qlen (sch w))) as [_|Hroom].
  { now apply (drop_same N). }
  pose proof (fq_time_to_send_ok N w skb w O) as T. rewrite bind_eq.
  destruct (fq_time_to_send skb w) as [[[s t]|] w1]; cbn [fst snd]; destruct T as [O1 T].
  2: { now apply (drop_same N). }
  destruct T as [Ht [ts ->]].
  assert (Hp1 : fq_prio_flows w1 0 = Some (Some 0%nat)) by (rewrite (b_prio _ _ (proj2 O1)); apply G).
  destruct (fq_classify_ok N w (skb <| skb_tstamp := ts |>) w1 _ O1 Hp1) as [N' C]. rewrite bind_eq.
  destruct (fq_classify _ w1) as [[cls [prio hash]] w2]; cbn [fst snd]; destruct C as [O2 C].
  destruct (Z.eqb_spec cls CLS_RET_ERR) as [_|Hc]; [now apply (drop_result N')|].
  destruct C as [C|C]; [contradiction|]. rewrite bind_eq.
  assert (Hp2 : fq_prio_flows w2 0 = Some (Some 0%nat)) by (rewrite (b_prio _ _ (proj2 O2)); apply G).
  destruct (the_map prio w2 hash) as [[id|]|] eqn:Em.
  2, 3: unfold bpf_kptr_xchg, bind, get, ret; rewrite Em; cbv beta iota;
        destruct (mod_map prio (fun m => zset m hash (Some None)) w2) as [u w3] eqn:E3; cbn [fst snd];
        apply (drop_result N' w); [exact G|]; unfold mod_map, modify in E3; injection E3 as _ <-;
        destruct C as [(_ & -> & ->)|(_ & ->)]; [cbn in Em; congruence|];
        apply (ok_alike _ _ _ w2); auto; constructor; auto; intros k j; cbn; unfold zset; case_if; [discriminate | auto].
  destruct (kptr_take prio hash w2 id Em) as (-> & A & Es & Er & Ef & Ec & Eh & Em3 & Eo); cbn [fst snd].
  set (w3 := snd (mod_map prio _ w2)) in *.
  assert (I3 : Inv N' [] w3) by exact (Inv_alike _ _ _ _ A (proj1 O2)).
  assert (D : prio = true /\ hash = 0 /\ id = 0%nat /\ fq_prio_flows w 0 = Some (Some 0%nat) \/
              prio = false /\ N' id /\ fq_prio_flows w3 0 = fq_prio_flows w 0).
  { destruct C as [(_ & -> & ->)|(_ & ->)].
    - left. cbn in Em. split; [reflexivity|]. split; [reflexivity|]. split; [congruence | apply G].
    - right. split; [reflexivity|]. split; [exact (i_map _ _ _ (proj1 O2) _ _ Em)|].
      change (fq_prio_flows w3 = fq_prio_flows w2) in Eo. rewrite Eo, Hp2. symmetry; apply G. }
  assert (P3 : Permutation (packets w3) (packets w)) by (rewrite (packets_alike _ _ A); apply O2).
  assert (Hrest : forall v, ok N' [] w3 v -> ok N' [] w (snd (mod_map prio (fun m => zset m hash (Some (Some id))) v))).
  { intros v Hv; destruct O2 as [_ [? ? ? ? ? ?]]. apply (restore_ok N' w w3 v); try congruence; assumption. }
  rewrite !bind_eq; cbn [flow get fst snd].
  destruct ((cls =? CLS_RET_NONPRIO) && (flow_plimit (q w3) <=? flow_qlen (heap w3 id))) eqn:Hpl.
  { rewrite bind_eq, (kptr_back prio hash w3 id Em3). apply (drop_result N' w); [exact G|].
    apply Hrest, ok_refl, I3. }
  rewrite bind_eq.
  destruct C as [(-> & -> & ->)|(-> & ->)]; cbn [when Z.eqb CLS_RET_NONPRIO CLS_RET_PRIO Pos.eqb ret snd] in *.
  - destruct D as [(_ & _ & -> & _)|(? & _)]; [|discriminate].
    apply (fq_queue_packet_result N'); auto; [|apply Hrest, ok_refl, I3]. apply (i_next _ _ _ I3).
  - destruct D as [(? & _)|(_ & Hid & _)]; [discriminate|].
    destruct (fq_activate_ok N' w3 id w3 (ok_refl _ _ I3) Hid) as (O4 & Em4 & Hl4).
    set (w4 := snd (fq_activate id w3)) in *.
    apply (fq_queue_packet_result N'); auto.
    + cbn; rewrite Em4; exact Em3.
    + apply (i_lt _ _ _ (proj1 O4)), Hl4.
Qed.

(** ** Runs *)

(** The state when the qdisc is created: empty collections, no flow. *)
Record created (w : world) : Prop := {
  c_next : next w = 0%nat;
  c_lists : listed w = [];
  c_heap : forall id, queued w id = [];
  c_cnt : new_flow_cnt (q w) = 0 /\ old_flow_cnt (q w) = 0;
  c_nonprio : forall k, fq_nonprio_flows w k = None;
  c_prio : forall k, fq_prio_flows w k = None;
  c_qlen : qlen (sch w) = 0;
  c_out : sent w = [] /\ to_free w = [] /\ released w = []
}.

Inductive op := Enqueue (skb : sk_buff) | Dequeue.

Definition handle (o : op) : ST world unit :=
  match o with
  | Enqueue skb => bpf_fq_enqueue skb ;; ret tt
  | Dequeue => bpf_fq_dequeue ;; ret tt
  end.

Definition offered (o : op) : list sk_buff := match o with Enqueue skb => [skb] | Dequeue => [] end.

Definition run (ops : list op) (w : world) : world := fold_left (fun w o => snd (handle o w)) ops w.

(** Every packet, by identity: sent, refused or queued. *)
Definition whereabouts (w : world) : list Z := map skb_id (sent w ++ to_free w ++ packets w).

Lemma handle_whereabouts o w : good w -> let w' := snd (handle o w) in
  good w' /\ released w' = released w /\
  Permutation (whereabouts w') (map skb_id (offered o) ++ whereabouts w).
Proof.
  intros G; destruct o as [skb|]; cbn [handle offered map app]; rewrite bind_eq; cbn [ret snd].
  - pose proof (fq_enqueue_result w skb G) as R. destruct (bpf_fq_enqueue skb w) as [r w']; cbn [snd].
    destruct R as (G' & Es & Er & ts & D). split; [exact G'|]. split; [exact Er|].
    unfold whereabouts. rewrite Es. destruct D as [(_ & P & -> & _)|(_ & P & -> & _)]; rewrite P, !map_app; cbn [map].
    + rewrite <- !app_assoc. cbn [app]. rewrite app_assoc, <- Permutation_middle, <- app_assoc. reflexivity.
    + rewrite app_assoc, <- Permutation_middle, <- app_assoc. reflexivity.
  - pose proof (fq_dequeue_result w G) as R. destruct (bpf_fq_dequeue w) as [r w']; cbn [snd].
    destruct R as (G' & (Er & Ef & D) & _). split; [exact G'|]. split; [exact Er|].
    unfold whereabouts. rewrite Ef. destruct r as [s|]; destruct D as [P ->]; rewrite <- P, !map_app; [|reflexivity].
    cbn [map]. rewrite <- app_assoc; cbn [app]. rewrite <- Permutation_middle. 
    rewrite (app_assoc _ _ (skb_id s :: _)), <- Permutation_middle, <- app_assoc. reflexivity.
Qed.

Lemma run_whereabouts ops w : good w -> good (run ops w) /\ released (run ops w) = released w /\
  Permutation (whereabouts (run ops w)) (map skb_id (flat_map offered ops) ++ whereabouts w).
Proof.
  revert w; induction ops as [|o ops IH]; intros w G; [cbn; auto|]. cbn [run fold_left flat_map].
  destruct (handle_whereabouts o w G) as (G' & Er & P). destruct (IH _ G') as (G2 & Er2 & P2).
  split; [exact G2|]. split; [unfold run in Er2; congruence|].
  unfold run in P2; rewrite P2, P, map_app, !app_assoc. apply Permutation_app_tail, Permutation_app_comm.
Qed.

(** The priority flow is made first, at address 0. *)
Lemma first_flow w w1 id : created w -> new_flow_node w = (Some id, w1) ->
  id = 0%nat /\ Inv (fun _ => False) [] w1 /\ packets w1 = [] /\
  fq_prio_flows w1 = fq_prio_flows w /\ sch w1 = sch w /\ sent w1 = sent w /\
  to_free w1 = to_free w /\ released w1 = released w /\
  (forall k, fq_nonprio_flows w1 k = None) /\ news w1 = [] /\ olds w1 = [].
Proof.
  intros [En El Eh [Ec1 Ec2] Em _ _ _] E; unfold new_flow_node in E. destruct (obj_new (calls w)); [|discriminate].
  injection E as <- <-. rewrite En.
  assert (L : news w = [] /\ olds w = [] /\ delayed w = []).
  { unfold listed in El. apply app_eq_nil in El as [? El]. now apply app_eq_nil in El. }
  destruct L as (L1 & L2 & L3).
  match goal with |- _ /\ Inv _ _ ?x /\ _ => set (w1 := x) end.
  assert (Q : forall j, queued w1 j = []).
  { intros j; unfold queued; subst w1; cbn; unfold nset. destruct (Nat.eqb j 0); [apply tree_empty | apply Eh]. }
  assert (Lw : listed w1 = []) by exact El.
  split; [reflexivity|]. split.
  { constructor; rewrite ?Lw; cbn [app]; try contradiction; auto.
    - subst w1; cbn; lia.
    - constructor.
    - intros j Hj. change (In j (news w ++ olds w)) in Hj. rewrite L1, L2 in Hj; contradiction.
    - intros j Hj. change (In j (delayed w)) in Hj. rewrite L3 in Hj; contradiction.
    - intros k j Hk. change (fq_nonprio_flows w k = Some (Some j)) in Hk. now rewrite Em in Hk.
    - change (new_flow_cnt (q w) = u32 (Z.of_nat (length (news w)))). now rewrite L1.
    - change (old_flow_cnt (q w) = u32 (Z.of_nat (length (olds w)))). now rewrite L2.
    - intros j n; now rewrite Q. }
  split; [|repeat split; first [exact Em | exact L1 | exact L2]].
  unfold packets. induction (seq 0 (next w1)) as [|j l IH]; [reflexivity|]. cbn [flat_map].
  rewrite IH; unfold skbs; fold (queued w1 j). now rewrite Q.
Qed.

Lemma map_update_absent prio hash w : the_map prio w hash = None ->
  let w' := snd (bpf_map_update_elem prio hash w) in
  let r := fst (bpf_map_update_elem prio hash w) in
  w' = (if r =? 0 then snd (mod_map prio (fun m => zset m hash (Some None)) (w <| calls ::= S |>))
        else w <| calls ::= S |>).
Proof.
  intros E; unfold bpf_map_update_elem. rewrite !bind_eq; cbn [call fst snd ret].
  unfold when; case_if; [|reflexivity]. rewrite bind_eq. unfold bpf_kptr_xchg, bind, get, ret.
  replace (the_map prio (w <| calls ::= S |>) hash) with (the_map prio w hash) by now destruct prio.
  rewrite E. now destruct (mod_map _ _ _) as [[] w2].
Qed.

(** Making the priority flow succeeds with its stash holding it, or fails. *)
Lemma fq_new_prio_flow w : created w -> fst (fq_new_flow true 0 w) = 0 ->
  let w' := snd (fq_new_flow true 0 w) in
  Inv (fun _ => False) [] w' /\ packets w' = [] /\ fq_prio_flows w' 0 = Some (Some 0%nat) /\
  sch w' = sch w /\ sent w' = sent w /\ to_free w' = to_free w /\ released w' = released w /\
  news w' = [] /\ olds w' = [].
Proof.
  intros C; unfold fq_new_flow. rewrite bind_eq.
  destruct (new_flow_node w) as [[id|] w1] eqn:E; cbn [fst snd]; [|discriminate].
  destruct (first_flow w w1 id C E) as (-> & I1 & P1 & Ep & E1 & E2 & E3 & E4 & M1 & L1 & L2).
  pose proof (c_prio _ C) as Cp. rewrite <- Ep in Cp.
  rewrite bind_eq. pose proof (map_update_absent true 0 w1 (Cp 0)) as Hu; cbv zeta in Hu.
  set (r := fst (bpf_map_update_elem true 0 w1)) in *. rewrite Hu; clear Hu.
  destruct (Z.eqb_spec r 0) as [Hr|Hr]; rewrite bind_eq.
  - (* the stash is there *)
    rewrite Hr; cbn [when Z.eqb orb Z.opp ENOMEM E2BIG Pos.eqb ret snd].
    set (w2 := snd (mod_map true _ _)).
    rewrite bind_eq; cbn [bpf_map_lookup_elem get fst snd].
    assert (Em : the_map true w2 0 = Some None) by reflexivity.
    rewrite Em, bind_eq; cbn [ret fst snd]. rewrite (kptr_back true 0 w2 0%nat Em). intros _.
    set (w3 := snd (mod_map true _ w2)).
    assert (A : alike w1 w3) by now constructor.
    split; [exact (Inv_alike _ _ _ _ A I1)|]. rewrite (packets_alike _ _ A).
    split; [exact P1|]. split; [reflexivity|]. auto 7.
  - (* it is not, and nothing else creates it *)
    set (w2 := snd (when _ _ _)).
    assert (Em : the_map true w2 0 = None).
    { subst w2; unfold when; case_if; [|exact (Cp 0)]. rewrite !bind_eq; cbn [ret snd].
      set (w1' := w1 <| calls ::= S |>).
      assert (I1' : ok (fun _ => False) [] w1 w1') by (apply ok_calls, ok_refl, I1).
      destruct (fq_gc_ok _ w1 w1' I1') as [O [F _]].
      destruct (map_update_ok _ w1 _ 0 O) as [[_ B] _].
      { destruct (F 0) as [->| ->]; [auto | left; exact (M1 0)]. }
      rewrite the_prio, (b_prio _ _ B). exact (Cp 0). }
    rewrite bind_eq; cbn [bpf_map_lookup_elem get fst snd]. rewrite Em, bind_eq. discriminate.
Qed.

Lemma fq_new_flow_range prio hash w : fst (fq_new_flow prio hash w) = 0 \/ fst (fq_new_flow prio hash w) = - ENOMEM.
Proof.
  unfold fq_new_flow. rewrite bind_eq. destruct (fst (new_flow_node w)); [|now right].
  rewrite !bind_eq. destruct (fst (bpf_map_lookup_elem _ _ _)); rewrite bind_eq; auto.
Qed.

Lemma fq_init_good w : created w -> fst (bpf_fq_init w) = 0 ->
  let w' := snd (bpf_fq_init w) in
  good w' /\ whereabouts w' = [] /\ released w' = [].
Proof.
  intros C; unfold bpf_fq_init. rewrite bind_eq. pose proof (fq_new_prio_flow w C) as F.
  pose proof (fq_new_flow_range true 0 w) as R.
  destruct (fq_new_flow true 0 w) as [r w1]; cbn [fst snd] in *.
  destruct R as [-> | ->]; [|discriminate]. specialize (F eq_refl). intros _. cbn [Z.ltb Z.compare].
  destruct F as (I & P & Ep & Es & E1 & E2 & E3 & L1 & L2). destruct (c_out _ C) as (C1 & C2 & C3).
  rewrite !bind_eq; cbn [ret snd]. match goal with |- good ?x /\ _ => set (w2 := x) end.
  assert (Ek : packets w2 = []) by exact P.
  assert (I2 : Inv (fun _ => False) [] w2).
  { destruct I; constructor; auto.
    - change (0 = u32 (Z.of_nat (length (news w1)))). now rewrite L1.
    - change (0 = u32 (Z.of_nat (length (olds w1)))). now rewrite L2. }
  assert (Eq : qlen (sch w2) = 0) by (change (qlen (sch w1) = 0); rewrite Es; apply C).
  split; [constructor; rewrite ?Ek, ?Eq; eauto; discriminate|].
  unfold whereabouts. change (sent w2) with (sent w1). change (to_free w2) with (to_free w1).
  rewrite E1, E2, C1, C2, Ek. split; [reflexivity|]. change (released w2) with (released w1). congruence.
Qed.

(** C5. Conservation: over any sequence of enqueues and dequeues from a
    successful init, every packet offered has been sent, has been refused, or is
    in the queue of a flow, exactly once; none is released with a flow, and the
    qdisc's length is the number of queued packets. *)
Theorem fq_conservation w ops : created w -> fst (bpf_fq_init w) = 0 ->
  let w' := run ops (snd (bpf_fq_init w)) in
  Permutation (whereabouts w') (map skb_id (flat_map offered ops)) /\
  released w' = [] /\ qlen (sch w') = Z.of_nat (length (packets w')) /\ qlen (sch w') <= limit (sch w').
Proof.
  intros C E. destruct (fq_init_good w C E) as (G & W & R).
  destruct (run_whereabouts ops _ G) as (G' & R' & P). rewrite W, app_nil_r in P.
  split; [exact P|]. split; [congruence|]. split; apply G'.
Qed.

(** C6. No packet is stranded: after any such sequence a flow with packets is
    either the priority flow, held by its stash, or on exactly one of the lists
    the dequeue visits (new, old, throttled), with the age that marks it; and
    the counters the dequeue tests are the lists' lengths. *)
Theorem fq_no_stranded w ops id : created w -> fst (bpf_fq_init w) = 0 ->
  let w' := run ops (snd (bpf_fq_init w)) in
  queued w' id <> [] ->
  id = 0%nat /\ fq_prio_flows w' 0 = Some (Some 0%nat) \/
  (In id (listed w') /\ NoDup (listed w') /\
   (In id (news w' ++ olds w') /\ age (heap w' id) = 0 \/ In id (delayed w') /\ age (heap w' id) = U64_MAX) /\
   new_flow_cnt (q w') = u32 (Z.of_nat (length (news w'))) /\
   old_flow_cnt (q w') = u32 (Z.of_nat (length (olds w')))).
Proof.
  intros C E w' Hq. destruct (fq_init_good w C E) as (G & _ & _).
  destruct (run_whereabouts ops _ G) as ([[N I] Gp _ _ _] & _ & _). fold w' in I, Gp.
  destruct id as [|id]; [now left|right].
  assert (Hl : In (S id) (listed w')).
  { destruct (in_dec Nat.eq_dec (S id) (listed w')) as [|Hn]; [assumption|].
    destruct Hq. apply (i_queue _ _ _ I); [lia | exact Hn]. }
  split; [exact Hl|]. split; [apply I|]. split; [|split; apply I].
  unfold listed in Hl. rewrite app_assoc in Hl. apply in_app_iff in Hl as [H|H];
    [left; split; [exact H | now apply (i_active _ _ _ I)] | right; split; [exact H | now apply (i_throttled _ _ _ I)]].
Qed.

(** C7. What a dequeue may send: the first packet of the priority flow when
    there is one, and otherwise only a packet whose time to send has come by
    the clock this dequeue read. *)
Theorem fq_pacing w ops : created w -> fst (bpf_fq_init w) = 0 ->
  let w' := run ops (snd (bpf_fq_init w)) in
  match hd_error (queued w' 0%nat) with
  | Some n => 0 < qlen (sch w') -> fst (bpf_fq_dequeue w') = node_skb n
  | None => forall s, fst (bpf_fq_dequeue w') = Some s -> u64 (skb_tstamp s) <= u64 (ktime (calls w'))
  end.
Proof.
  intros C E w'. destruct (fq_init_good w C E) as (G & _ & _).
  destruct (run_whereabouts ops _ G) as (G' & _ & _). fold w' in G'.
  pose proof (fq_dequeue_result w' G') as R. now destruct (bpf_fq_dequeue w') as [r w2].
Qed.

End Invariant.

(** ** A concrete kernel *)

#[local] Instance kernel1 : Kernel := {
  ktime n := 100000000 * Z.of_nat n;
  jiffies n := 1 + Z.of_nat n mod 1000;
  obj_new _ := true;
  map_update_result _ := 0;
  elem_order _ := [0; 17; 18];
  CONFIG_HZ := 250;
  dev_mtu := 1500;
  dev_hard_header_len := 14
}.

Lemma jiffies1 n : 0 < jiffies (Kernel := kernel1) n < U64_MAX.
Proof.
  change (0 < 1 + Z.of_nat n mod 1000 < 2 ^ 64 - 1). pose proof (Z.mod_pos_bound (Z.of_nat n) 1000). lia.
Qed.

Definition world1 : world := {|
  sch := {| qlen := 0; limit := 0; backlog := 0; drops := 0 |};
  q := {| quantum := 0; initial_quantum := 0; flow_refill_delay := 0; flow_plimit := 0; horizon := 0;
          orphan_mask := 0; timer_slack := 0; time_next_delayed_flow := 0; unthrottle_latency_ns := 0;
          horizon_drop := 0; new_flow_cnt := 0; old_flow_cnt := 0; ktime_cache := 0 |};
  fq_nonprio_flows _ := None;
  fq_prio_flows _ := None;
  heap _ := {| credit := 0; flow_qlen := 0; age := 0; time_next_packet := 0; queue := kt_empty; refcount := 0 |};
  next := 0;
  fq_delayed := kt_empty;
  fq_new_flows := kl_empty;
  fq_old_flows := kl_empty;
  calls := 0;
  to_free := []; sent := []; released := [];
  watchdog := None
|}.

Lemma world1_created : created world1.
Proof. constructor; try reflexivity; repeat split; reflexivity. Qed.

(** Two packets of one socket, and a control packet. *)
Definition packet_a := {| skb_id := 1; sk := Some {| skc_state := 1; skc_hash := 17 |}; skb_tstamp := 0;
                          pkt_len := 100; priority := 0; skb_hash := 5 |}.
Definition packet_b := packet_a <| skb_id := 2 |> <| skb_tstamp := 1200000000 |>.
Definition packet_c := packet_a <| skb_id := 3 |> <| priority := 7 |>.

Lemma fq_conservation_witness :
  let w := run [Enqueue packet_a; Dequeue; Enqueue packet_c; Enqueue packet_b; Dequeue]
             (snd (bpf_fq_init world1)) in
  Permutation (whereabouts w) [1; 3; 2].
Proof.
  apply (fq_conservation jiffies1 world1 [Enqueue packet_a; Dequeue; Enqueue packet_c; Enqueue packet_b; Dequeue]
           world1_created).
  vm_compute; reflexivity.
Defined.

Lemma fq_no_stranded_witness :
  let w := run [Enqueue packet_b; Dequeue] (snd (bpf_fq_init world1)) in
  In 1%nat (listed w).
Proof.
  intros w.
  assert (Hq : queued w 1%nat <> []) by (vm_compute; discriminate).
  destruct (fq_no_stranded jiffies1 world1 [Enqueue packet_b; Dequeue] 1%nat world1_created eq_refl Hq)
    as [[? _]|[H _]]; [discriminate | exact H].
Defined.

Lemma fq_pacing_witness :
  let w := run [Enqueue packet_a; Enqueue packet_c] (snd (bpf_fq_init world1)) in
  option_map skb_id (fst (bpf_fq_dequeue w)) = Some 3.
Proof.
  intros w.
  pose proof (fq_pacing jiffies1 world1 [Enqueue packet_a; Enqueue packet_c] world1_created eq_refl) as H.
  cbv zeta in H. fold w in H.
  assert (E : option_map (fun n => option_map skb_id (node_skb n)) (hd_error (queued w 0%nat)) = Some (Some 3))
    by (vm_compute; reflexivity).
  destruct (hd_error (queued w 0%nat)) as [n|]; [|discriminate].
  injection E as E. rewrite (H ltac:(vm_compute; reflexivity)). exact E.
Defined.

End Fq.
