(* ===== verification/FqReset.v ===== *)
(** References to the flows of the fair queueing scheduler, and its reset:
    progs/bpf_qdisc_fq.rs.

    A flow is referenced by the stash that holds it and by the list or tree it
    is on.  [Ref] counts the references to one flow: it is kept by every
    enqueue and dequeue, and by the reset up to the point where it moves the
    throttled flows, whose packets it thereby keeps. *)

From Stdlib Require Import Permutation.
From S2P Require Import Prelude Kernel Fq.
Local Open Scope st_scope.

Module FqReset.
Import Fq.

Section Refs.
Context {KF : KList nat} {TF : KTree nat} {TS : KTree skb_node} {LP : KLoop} {K : Kernel}.
Context {KFL : KListLaws nat} {TFL : KTreeLaws nat} {TSL : KTreeLaws skb_node}.

(** ** References to one flow

    [f] is a flow but the priority flow; where [kept] is set it is moreover
    throttled, with the packets [Q], and the length of the qdisc is 0. *)

Variables (f : nat) (kept : bool) (Q : list skb_node).

Definition tok (id : nat) : nat := if Nat.eqb id f then 1 else 0.
Definition toko (o : option nat) : nat := match o with Some id => tok id | None => 0 end.
Definition is_f (o : option nat) : bool := match o with Some id => Nat.eqb id f | None => false end.
Definition places (w : world) : nat := count_occ Nat.eq_dec (listed w) f.

(** [t] references to [f] are in hand; [out]: no stash holds it. *)
Record Ref (out : bool) (t : nat) (w : world) : Prop := {
  rf_one : forall k k', fq_nonprio_flows w k = Some (Some f) -> fq_nonprio_flows w k' = Some (Some f) -> k = k';
  rf_prio : forall k, fq_prio_flows w k <> Some (Some f);
  rf_new : (next w <= f)%nat -> t = 0%nat /\ places w = 0%nat /\ forall k, fq_nonprio_flows w k <> Some (Some f);
  rf_out : out = true -> forall k, fq_nonprio_flows w k <> Some (Some f);
  rf_cnt : (t + places w <= refcount (heap w f))%nat;
  rf_held : forall k, fq_nonprio_flows w k = Some (Some f) -> (S (t + places w) <= refcount (heap w f))%nat;
  rf_kept : kept = true -> In f (delayed w) /\ queued w f = Q /\ qlen (sch w) = 0
}.

Lemma tok_same : tok f = 1%nat.
Proof. unfold tok. now rewrite Nat.eqb_refl. Qed.

Lemma tok_other id : id <> f -> tok id = 0%nat.
Proof. unfold tok. now intros ->%Nat.eqb_neq. Qed.

Lemma Ref_weaken out t w : Ref out t w -> Ref false t w.
Proof. intros []; now constructor. Qed.

(** What [Ref] depends on. *)
Lemma Ref_frame out t w w' : next w' = next w -> places w' = places w ->
  refcount (heap w' f) = refcount (heap w f) ->
  (forall k, fq_nonprio_flows w' k = Some (Some f) -> fq_nonprio_flows w k = Some (Some f)) ->
  (forall k, fq_prio_flows w' k = Some (Some f) -> fq_prio_flows w k = Some (Some f)) ->
  (kept = true -> delayed w' = delayed w /\ queued w' f = queued w f /\ sch w' = sch w) ->
  Ref out t w -> Ref out t w'.
Proof.
  intros En Ep Er Em Ek Ed [R1 R2 R3 R4 R5 R6 R7]; constructor; rewrite ?En, ?Ep, ?Er.
  - eauto.
  - intros k H; eapply R2; eauto.
  - intros H; destruct (R3 H) as (? & ? & H'); repeat split; auto. intros k Hk; eapply H'; eauto.
  - intros H k Hk; eapply R4; eauto.
  - exact R5.
  - eauto.
  - intros H; destruct (Ed H) as (-> & -> & ->); auto.
Qed.

Lemma in_places w : In f (delayed w) -> (1 <= places w)%nat.
Proof.
  intros H. unfold places. pose proof (proj1 (count_occ_In Nat.eq_dec (listed w) f)) as C.
  assert (In f (listed w)) by (apply listed_in; tauto). specialize (C H0). lia.
Qed.

Lemma kept_old out t w : kept = true -> Ref out t w -> (f < next w)%nat.
Proof.
  intros Hk R. destruct (Nat.lt_ge_cases f (next w)) as [|H]; [assumption|].
  destruct (rf_new _ _ _ R H) as (_ & E & _). pose proof (in_places w (proj1 (rf_kept _ _ _ R Hk))). lia.
Qed.

Lemma tok_old out id t w : Ref out (tok id + t) w -> id = f -> (f < next w)%nat.
Proof.
  intros R ->. destruct (Nat.lt_ge_cases f (next w)) as [|H]; [assumption|].
  destruct (rf_new _ _ _ R H) as (E & _). rewrite tok_same in E. lia.
Qed.

(** ** The helpers *)

Lemma ref_call {A} (g : nat -> A) out t : preserves (Ref out t) (call g).
Proof. intros w R. apply (Ref_frame out t w); auto. Qed.

Lemma ref_mod_q g out t : preserves (Ref out t) (mod_q g).
Proof. apply preserves_modify; intros w; apply Ref_frame; auto. Qed.

Lemma heap_same w id g : id <> f -> heap (snd (mod_flow id g w)) f = heap w f.
Proof. intros H. cbn. unfold nset. now rewrite (proj2 (Nat.eqb_neq f id)) by congruence. Qed.

Lemma ref_mod_flow id g out t : (forall x, refcount (g x) = refcount x) ->
  (kept = true -> forall x, queue (g x) = queue x) -> preserves (Ref out t) (mod_flow id g).
Proof.
  intros Hr Hq w. destruct (Nat.eq_dec id f) as [->|Hn].
  - apply Ref_frame; auto; unfold queued; rewrite heap_mod_flow; auto. intros H; split; [reflexivity|]; split; [now rewrite Hq | reflexivity].
  - apply Ref_frame; auto; unfold queued; now rewrite heap_same.
Qed.

(** Dropping one of the references in hand. *)
Lemma ref_drop id out t : triple (Ref out (tok id + t)) (bpf_obj_drop id) (fun _ => Ref out t).
Proof.
  intros w R. set (w' := snd (bpf_obj_drop id w)).
  assert (E : next w' = next w /\ listed w' = listed w /\ delayed w' = delayed w /\
              fq_nonprio_flows w' = fq_nonprio_flows w /\ fq_prio_flows w' = fq_prio_flows w /\ sch w' = sch w)
    by (subst w'; unfold bpf_obj_drop; rewrite !bind_eq; unfold when; case_if; now repeat split).
  destruct E as (En & El & Ed & Em & Ek & Es).
  assert (H : id <> f -> heap w' f = heap w f).
  { intros Hn. subst w'. unfold bpf_obj_drop. rewrite !bind_eq. unfold when.
    case_if; rewrite ?bind_eq; cbn; unfold nset; now rewrite ?(proj2 (Nat.eqb_neq f id)) by congruence. }
  destruct (Nat.eq_dec id f) as [->|Hn].
  2: { rewrite tok_other in R by exact Hn. apply (Ref_frame out t w); try assumption; try congruence.
       - unfold places; congruence.
       - now rewrite H.
       - intros _; unfold queued. now rewrite H. }
  assert (Er : refcount (heap w' f) = Nat.pred (refcount (heap w f)) /\
               ((1 < refcount (heap w f))%nat -> queued w' f = queued w f)).
  { subst w'; unfold queued, bpf_obj_drop; rewrite !bind_eq; unfold when, flow, get; cbn [fst snd].
    destruct (Nat.leb_spec (refcount (heap w f)) 1); rewrite ?bind_eq; cbn; unfold nset;
      rewrite ?Nat.eqb_refl; cbn; (split; [reflexivity | auto; lia]). }
  destruct Er as [Er Eq]. rewrite tok_same in R. pose proof (tok_old out f t w) as Ho. rewrite tok_same in Ho.
  specialize (Ho R eq_refl). destruct R as [R1 R2 R3 R4 R5 R6 R7].
  constructor; unfold places in *; rewrite ?En, ?El, ?Em, ?Ek, ?Er, ?Ed, ?Es; auto.
  - lia.
  - lia.
  - intros k Hk. specialize (R6 k Hk). lia.
  - intros Hk. destruct (R7 Hk) as (Hd & Hq & Hz). split; [exact Hd|]. split; [|exact Hz]. rewrite Eq; [exact Hq|].
    pose proof (in_places w Hd). unfold places in *. lia.
Qed.

Lemma ref_drop_opt o out t : triple (Ref out (toko o + t)) (drop_opt o) (fun _ => Ref out t).
Proof. destruct o as [id|]; [apply ref_drop | apply preserves_ret]. Qed.

(** What is taken out of a stash is in hand. *)
Lemma ref_take prio hash out t : triple (Ref out t) (bpf_kptr_xchg prio hash None)
  (fun o w => Ref (out || is_f o) (toko o + t) w /\ (is_f o = true -> prio = false)).
Proof.
  intros w R. unfold bpf_kptr_xchg, mod_map. rewrite !bind_eq. cbn [get ret modify fst snd].
  set (o := match the_map prio w hash with Some o => o | None => None end).
  set (w' := if prio then _ else _).
  assert (F : Ref out t w').
  { apply (Ref_frame out t w); subst w'; destruct prio; auto; intros k; cbn; unfold zset; case_if; easy. }
  destruct (is_f o) eqn:Eo.
  2: { rewrite orb_false_r. split; [|discriminate]. assert (E : toko o = 0%nat); [|now rewrite E].
       destruct o as [id|]; [|reflexivity]. cbn in *. unfold tok. now rewrite Eo. }
  assert (Eh : the_map prio w hash = Some (Some f)).
  { subst o. destruct (the_map prio w hash) as [[id|]|]; try discriminate. apply Nat.eqb_eq in Eo. now rewrite Eo. }
  destruct prio; [destruct (rf_prio _ _ _ R hash Eh)|]. cbn [the_map] in Eh. split; [|reflexivity].
  assert (No : forall k, fq_nonprio_flows w' k <> Some (Some f)).
  { intros k; subst w'; cbn; unfold zset. destruct (Z.eqb_spec k hash) as [|Hn]; [discriminate|]. intros H.
    exact (Hn (rf_one _ _ _ R k hash H Eh)). }
  assert (Et : toko o = 1%nat) by (destruct o as [id|]; [apply Nat.eqb_eq in Eo as ->; apply tok_same | discriminate]).
  rewrite Et. destruct F as [F1 F2 F3 F4 F5 F6 F7]. pose proof (rf_held _ _ _ R hash Eh) as H.
  assert (Ep : places w' = places w /\ heap w' = heap w /\ next w' = next w) by now subst w'.
  destruct Ep as (Ep & Ehp & En). constructor; auto.
  - rewrite En; intros Hn. destruct (rf_new _ _ _ R Hn) as (_ & _ & X). destruct (X hash Eh).
  - intros k Hk. destruct (No k Hk).
Qed.

Lemma ref_xchg prio hash id out t :
  triple (fun w => Ref out (tok id + t) w /\ (id = f -> prio = false /\ out = true))
    (bpf_kptr_xchg prio hash (Some id)) (fun o => Ref false (toko o + t)).
Proof.
  intros w [R Hid]. destruct (ref_take prio hash out (tok id + t) w R) as [F Hp]. revert F Hp.
  unfold bpf_kptr_xchg, mod_map. rewrite !bind_eq. cbn [get ret modify fst snd].
  set (o := match the_map prio w hash with Some o => o | None => None end).
  set (w1 := if prio then _ else _). set (w2 := if prio then _ else _). intros F Hp.
  assert (E : next w2 = next w1 /\ places w2 = places w1 /\ heap w2 = heap w1 /\ delayed w2 = delayed w1 /\ sch w2 = sch w1)
    by (subst w1 w2; now destruct prio).
  destruct E as (En & Ep & Eh & Ed & Es).
  destruct (Nat.eq_dec id f) as [->|Hn].
  - destruct (Hid eq_refl) as [-> ->]. cbn [orb] in F. rewrite tok_same in F. destruct F as [F1 F2 F3 F4 F5 F6 F7].
    assert (M : forall k, fq_nonprio_flows w2 k = Some (Some f) -> k = hash).
    { intros k; subst w2; cbn; unfold zset. destruct (Z.eqb_spec k hash) as [|_]; [auto|]. intros H. now destruct (rf_out _ _ _ R eq_refl k). }
    constructor; rewrite ?En, ?Ep, ?Eh, ?Ed, ?Es.
    + intros k k' H H'. now rewrite (M k H), (M k' H').
    + exact F2.
    + intros H. destruct (F3 H) as (X & _). lia.
    + discriminate.
    + lia.
    + intros k _. lia.
    + unfold queued. rewrite Eh. exact F7.
  - rewrite tok_other in F by exact Hn. apply (Ref_weaken (out || is_f o)).
    apply (Ref_frame _ _ w1); rewrite ?Eh; try assumption; try reflexivity.
    + intros k; subst w1 w2; destruct prio; [easy|]. cbn. unfold zset. case_if; congruence.
    + intros k; subst w1 w2; destruct prio; [|easy]. cbn. unfold zset. case_if; congruence.
    + intros _; unfold queued. now rewrite Eh.
Qed.

Lemma ref_back prio hash id out t :
  triple (fun w => Ref out (tok id + t) w /\ (id = f -> prio = false /\ out = true))
    (bpf_kptr_xchg_back prio hash id) (fun _ => Ref false t).
Proof. eapply triple_bind; [apply ref_xchg | intros o; apply ref_drop_opt]. Qed.

(** Updates and deletions of a map only take references away. *)
Lemma ref_update prio hash out t : preserves (Ref out t) (bpf_map_update_elem prio hash).
Proof.
  apply preserves_bind; [apply ref_call | intros r]. apply preserves_bind; [|intros; apply preserves_ret].
  apply preserves_when; intros _. eapply triple_bind; [apply ref_take|]. intros o.
  apply (triple_weaken (drop_opt o) (Ref out (toko o + t)) _ (fun _ => Ref out t) _ (ref_drop_opt o out t)).
  - intros w [R _]. destruct out; [exact R | eapply Ref_weaken, R].
  - auto.
Qed.

Lemma ref_delete prio hash out t : preserves (Ref out t) (bpf_map_delete_elem prio hash).
Proof.
  eapply triple_bind; [apply ref_take | intros o].
  apply (triple_bind _ _ _ (fun _ => Ref (out || is_f o) (toko o + t))).
  - intros w [R _]. unfold mod_map. apply (Ref_frame _ _ w); destruct prio; auto;
      intros k; cbn; unfold zset; case_if; easy.
  - intros _. apply (triple_weaken (drop_opt o) (Ref out (toko o + t)) _ (fun _ => Ref out t) _ (ref_drop_opt o out t)); auto.
    intros w R. destruct out; [exact R | eapply Ref_weaken, R].
Qed.

Lemma ref_remove prio hash sflow ctx out t : preserves (Ref out t) (fq_remove_flows prio hash sflow ctx).
Proof.
  unfold fq_remove_flows. apply preserves_bind.
  - destruct sflow as [id|]; [|apply preserves_ret]. apply preserves_if; intros _; [|apply preserves_ret].
    unfold fq_gc_candidate. apply preserves_bind; [apply ref_call | intros j].
    apply preserves_bind; [apply preserves_get | intros x; apply preserves_ret].
  - intros b. apply preserves_bind; [|intros; apply preserves_ret]. apply preserves_when; intros _; apply ref_delete.
Qed.

Lemma ref_for_each prio {C} (cb : Z -> option nat -> C -> ST world (bool * C)) out t :
  (forall k e c, preserves (Ref out t) (cb k e c)) -> forall c, preserves (Ref out t) (bpf_for_each_map_elem prio cb c).
Proof.
  intros Hcb c. unfold bpf_for_each_map_elem. apply preserves_bind; [apply ref_call | intros keys]. revert c.
  induction keys as [|k keys IH]; intros c; [apply preserves_ret|]. cbn [for_each].
  apply preserves_bind; [apply preserves_get | intros [e|]; [|apply IH]].
  apply preserves_bind; [apply Hcb | intros [[] c']; [apply preserves_ret | apply IH]].
Qed.

Lemma ref_gc out t : preserves (Ref out t) fq_gc.
Proof.
  unfold fq_gc. apply preserves_bind; [|intros; apply preserves_ret]. apply ref_for_each. intros; apply ref_remove.
Qed.

(** A new flow is referenced by the hand that made it. *)
Lemma ref_new t w : Ref false t w -> let (o, w') := new_flow_node w in
  Ref (is_f o) (toko o + t) w' /\ (o = None \/ o = Some (next w)).
Proof.
  intros R. unfold new_flow_node. cbv zeta. destruct (obj_new (calls w)).
  2: { split; [|now left]. cbn. now apply (Ref_frame false t w). }
  split; [|now right]. cbn [toko is_f]. set (w' := _ <| heap ::= _ |>). destruct (Nat.eq_dec (next w) f) as [E|Hn].
  - destruct (rf_new _ _ _ R) as (-> & Ep & Em); [lia|]. rewrite E, Nat.eqb_refl, tok_same.
    assert (Ep' : places w' = 0%nat) by exact Ep.
    assert (Er : refcount (heap w' f) = 1%nat) by (subst w'; cbn; unfold nset; now rewrite E, Nat.eqb_refl).
    constructor; rewrite ?Ep', ?Er.
    + intros k k' H. destruct (Em k H).
    + apply R.
    + subst w'; cbn. lia.
    + intros _. exact Em.
    + lia.
    + intros k H. destruct (Em k H).
    + intros Hk. pose proof (in_places w (proj1 (rf_kept _ _ _ R Hk))). lia.
  - rewrite tok_other, (proj2 (Nat.eqb_neq _ _)) by exact Hn.
    assert (Eh : heap w' f = heap w f) by (subst w'; cbn; unfold nset; now rewrite (proj2 (Nat.eqb_neq f (next w))) by congruence).
    destruct R as [R1 R2 R3 R4 R5 R6 R7]. constructor; unfold queued; rewrite ?Eh; try assumption.
    subst w'; cbn [next]. cbn. intros H. apply R3. lia.
Qed.

Lemma ref_new_flow prio hash w : Ref false 0 w -> (prio = true -> next w <> f) ->
  Ref false 0 (snd (fq_new_flow prio hash w)).
Proof.
  intros R Hp. unfold fq_new_flow. rewrite bind_eq. pose proof (ref_new 0 w R) as H.
  destruct (new_flow_node w) as [[id|] w1]; cbn [fst snd]; [|now destruct H]. destruct H as [R1 [H|[= ->]]]; [discriminate|].
  set (id := next w) in *. set (out := is_f (Some id)) in *.
  assert (T : triple (Ref out (tok id + 0))
    (r <- bpf_map_update_elem prio hash ;;
     when ((r =? - ENOMEM) || (r =? - E2BIG)) (fq_gc ;; bpf_map_update_elem false hash ;; ret tt) ;;
     sflow <- bpf_map_lookup_elem prio hash ;;
     match sflow with
     | None => bpf_obj_drop id ;; ret (- ENOMEM)
     | Some _ => bpf_kptr_xchg_back prio hash id ;; ret 0
     end) (fun _ => Ref false 0)).
  { apply (triple_bind _ _ _ (fun _ => Ref out (tok id + 0))); [apply ref_update | intros r].
    apply (triple_bind _ _ _ (fun _ => Ref out (tok id + 0))).
    { apply preserves_when; intros _. apply preserves_bind; [apply ref_gc | intros _].
      apply preserves_bind; [apply ref_update | intros; apply preserves_ret]. }
    intros _. apply (triple_bind _ _ _ (fun _ => Ref out (tok id + 0))); [apply preserves_get | intros [e|]].
    - apply (triple_bind _ _ _ (fun _ => Ref false 0)); [|intros; apply preserves_ret].
      eapply triple_weaken; [apply (ref_back prio hash id out 0) | | auto]. intros w' R'. split; [exact R'|].
      intros E. split; [destruct prio; [now destruct (Hp eq_refl) | reflexivity]|]. subst out; cbn. now rewrite E, Nat.eqb_refl.
    - apply (triple_bind _ _ _ (fun _ => Ref out 0)); [apply ref_drop|]. intros _. apply triple_ret. intros; eapply Ref_weaken; eauto. }
  exact (T w1 R1).
Qed.

(** ** The lists *)

(** A reference put on a list, or taken off it. *)
Lemma ref_listed out t t' w w' : (t' + places w' = t + places w)%nat -> next w' = next w ->
  refcount (heap w' f) = refcount (heap w f) ->
  fq_nonprio_flows w' = fq_nonprio_flows w -> fq_prio_flows w' = fq_prio_flows w ->
  (kept = true -> delayed w' = delayed w /\ queued w' f = queued w f /\ sch w' = sch w) -> Ref out t w -> Ref out t' w'.
Proof.
  intros Ec En Er Em Ek Ed [R1 R2 R3 R4 R5 R6 R7]. constructor; rewrite ?En, ?Er, ?Em, ?Ek, ?Ec; try assumption.
  - intros H. destruct (R3 H) as (X & Y & Z). repeat split; [lia | lia | exact Z].
  - intros X; destruct (Ed X) as (-> & -> & ->). auto.
Qed.

(** How often [f] is on a list. *)
Definition on (l : list nat) : nat := count_occ Nat.eq_dec l f.

Lemma on_cons id l : on (id :: l) = (tok id + on l)%nat.
Proof.
  unfold on, tok. cbn. destruct (Nat.eq_dec id f) as [->|H]; [now rewrite Nat.eqb_refl | now apply Nat.eqb_neq in H as ->].
Qed.

Lemma on_app l l' : on (l ++ l') = (on l + on l')%nat.
Proof. apply count_occ_app. Qed.

Lemma places_lists new w : places w = (on (the_list new w) + on (the_list (negb new) w) + on (delayed w))%nat.
Proof. unfold places. fold (on (listed w)). unfold listed. rewrite !on_app. destruct new; cbn [the_list negb]; lia. Qed.

Lemma ref_put new (head : bool) id out t : triple (Ref out (tok id + t))
  (if head then fq_flows_add_head new id else fq_flows_add_tail new id) (fun _ => Ref out t).
Proof.
  intros w R. set (w' := snd _).
  assert (H : same_rest w w' /\ on (the_list new w') = (tok id + on (the_list new w))%nat /\
              the_list (negb new) w' = the_list (negb new) w).
  { subst w'. destruct head.
    - destruct (add_head_spec new id w) as (S & P & E & _ & _). rewrite P, on_cons.
      split; [exact S|]. split; [reflexivity | exact E].
    - destruct (add_tail_spec new id w) as (S & P & E & _ & _). rewrite P, on_app, on_cons.
      split; [exact S|]. split; [cbn; lia | exact E]. }
  destruct H as (S & P & E). pose proof (places_lists new w) as E1. pose proof (places_lists new w') as E2.
  rewrite P, E, (r_delayed _ _ S) in E2.
  apply (ref_listed out (tok id + t) t w); try (apply S); try assumption; [lia | now rewrite (r_heap _ _ S)|].
  intros _. split; [apply S|]. split; [unfold queued; now rewrite (r_heap _ _ S) | apply S].
Qed.

Lemma ref_pop new out t : triple (Ref out t) (pop_front new) (fun o => Ref out (toko o + t)).
Proof.
  intros w R. set (o := fst _). set (w' := snd _).
  assert (H : on (the_list new w) = (toko o + on (the_list new w'))%nat /\
              the_list (negb new) w' = the_list (negb new) w /\
              next w' = next w /\ heap w' = heap w /\ fq_nonprio_flows w' = fq_nonprio_flows w /\
              fq_prio_flows w' = fq_prio_flows w /\ delayed w' = delayed w /\ sch w' = sch w).
  { subst o w'. unfold pop_front, the_list, news, olds. destruct new; cbn [negb].
    - destruct (kl_elems (fq_new_flows w)) as [|a r] eqn:E;
        [destruct (pop_front_nil _ E) as [E1 E2] | destruct (pop_front_cons _ _ _ E) as [E1 E2]];
        destruct (bpf_list_pop_front (fq_new_flows w)) as [n l]; cbn [fst snd] in E1, E2; subst n; cbn [fst snd toko];
        change (fq_new_flows (w <| fq_new_flows := l |>)) with l; rewrite ?E2, ?on_cons; now repeat split.
    - destruct (kl_elems (fq_old_flows w)) as [|a r] eqn:E;
        [destruct (pop_front_nil _ E) as [E1 E2] | destruct (pop_front_cons _ _ _ E) as [E1 E2]];
        destruct (bpf_list_pop_front (fq_old_flows w)) as [n l]; cbn [fst snd] in E1, E2; subst n; cbn [fst snd toko];
        change (fq_old_flows (w <| fq_old_flows := l |>)) with l; rewrite ?E2, ?on_cons; now repeat split. }
  destruct H as (P & E & En & Eh & Em & Ek & Ed & Es). pose proof (places_lists new w) as E1. pose proof (places_lists new w') as E2.
  rewrite E, Ed in E2. apply (ref_listed out t (toko o + t) w); try assumption; [lia | now rewrite Eh|].
  intros _. split; [exact Ed|]. split; [unfold queued; now rewrite Eh | exact Es].
Qed.

(** ** Enqueue and dequeue *)

Section Steps.
Hypothesis NK : kept = false.
Hypothesis jiffies_ok : forall n, 0 < jiffies n < U64_MAX.

Lemma not_kept : kept = true -> False.
Proof. rewrite NK; discriminate. Qed.

Lemma ref_mod_sch g out t : preserves (Ref out t) (mod_sch g).
Proof. apply preserves_modify; intros w; apply Ref_frame; auto. intros X; destruct (not_kept X). Qed.

Lemma ref_flow id g out t : (forall x, refcount (g x) = refcount x) -> preserves (Ref out t) (mod_flow id g).
Proof. intros H. apply ref_mod_flow; [exact H|]. intros X; destruct (not_kept X). Qed.

Lemma ref_remove_front new out t : triple (Ref out t) (fq_flows_remove_front new) (fun o => Ref out (toko o + t)).
Proof.
  eapply triple_bind; [apply ref_pop | intros o]. apply (triple_bind _ _ _ (fun _ => Ref out (toko o + t))).
  - apply ref_mod_q.
  - intros _. now apply triple_ret.
Qed.

(** On and off the tree of throttled flows. *)
Lemma ref_throttle id out t : triple (Ref out (tok id + t)) (fq_flow_set_throttled id) (fun _ => Ref out t).
Proof.
  apply (triple_bind _ _ _ (fun _ => Ref out (tok id + t))); [now apply ref_flow | intros _].
  apply (triple_bind _ _ _ (fun _ => Ref out (tok id + t))); [apply preserves_get | intros x].
  apply (triple_bind _ _ _ (fun _ => Ref out (tok id + t))); [apply ref_mod_q | intros _].
  apply triple_modify. intros w R. set (w' := w <| fq_delayed ::= _ |>).
  assert (P : on (delayed w') = (tok id + on (delayed w))%nat).
  { rewrite <- on_cons. unfold on, delayed.
    change (fq_delayed w') with (bpf_rbtree_add (tree_key w) (fq_delayed w) id). rewrite tree_add.
    apply (Permutation_count_occ Nat.eq_dec), perm_insert. }
  pose proof (places_lists true w) as E1. pose proof (places_lists true w') as E2. rewrite P in E2.
  change (the_list true w') with (the_list true w) in E2. change (the_list (negb true) w') with (the_list (negb true) w) in E2.
  apply (ref_listed out (tok id + t) t w); try assumption; try reflexivity; [lia|]. intros X; destruct (not_kept X).
Qed.

Lemma ref_unthrottle all now out t : preserves (Ref out t) (fq_unset_throttled_flows all now).
Proof.
  unfold fq_unset_throttled_flows. apply preserves_bind; [apply preserves_get | intros [first|]; [|apply preserves_ret]].
  apply preserves_bind; [apply preserves_get | intros x]. apply preserves_if; intros _.
  { apply preserves_bind; [apply ref_mod_q | intros _; apply preserves_ret]. }
  eapply triple_bind with (fun o => Ref out (toko o + t)).
  - intros w R. set (o := fst _). set (w' := snd _).
    assert (H : on (delayed w) = (toko o + on (delayed w'))%nat /\ news w' = news w /\ olds w' = olds w /\
              next w' = next w /\ heap w' = heap w /\ fq_nonprio_flows w' = fq_nonprio_flows w /\
              fq_prio_flows w' = fq_prio_flows w).
    { subst o w'. unfold delayed, news, olds. destruct (kt_elems (fq_delayed w)) as [|a r] eqn:E;
        [destruct (tree_remove_nil _ E) as [E1 E2] | destruct (tree_remove_cons _ _ _ E) as [E1 E2]];
        destruct (bpf_rbtree_remove_first (fq_delayed w)) as [n l]; cbn [fst snd] in E1, E2; subst n; cbn [fst snd toko];
        change (fq_delayed (w <| fq_delayed := l |>)) with l; rewrite ?E2, ?on_cons; now repeat split. }
    destruct H as (P & En1 & En2 & En & Eh & Em & Ek). pose proof (places_lists true w) as E1.
    pose proof (places_lists true w') as E2. cbn [the_list negb] in E1, E2. rewrite En1, En2 in E2.
    apply (ref_listed out t (toko o + t) w); try assumption; [lia | now rewrite Eh|]. intros X; destruct (not_kept X).
  - intros [id|]; [|apply preserves_ret]. cbn [toko].
    apply (triple_bind _ _ _ (fun _ => Ref out (tok id + t))); [now apply ref_flow | intros _].
    apply (triple_bind _ _ _ (fun _ => Ref out t)); [apply (ref_put false false) | intros _; now apply triple_ret].
Qed.

Lemma ref_check_throttled now out t : preserves (Ref out t) (fq_check_throttled now).
Proof.
  unfold fq_check_throttled. apply preserves_bind; [apply preserves_get | intros c]. apply preserves_if; intros _; [apply preserves_ret|].
  do 3 (apply preserves_bind; [apply ref_mod_q | intros _]). apply preserves_modify. intros w R.
  rewrite bpf_loop_spec by apply NUM_QUEUE_loops. apply run_loop_inv; [|exact R]. intros w' R'. now apply ref_unthrottle.
Qed.

(** A computation whose result is known. *)
Lemma triple_bind_eq {A B} a (m : ST world A) (k : A -> ST world B) P P' R :
  triple P m (fun b w => b = a /\ P' w) -> triple P' (k a) R -> triple P (bind m k) R.
Proof. intros Hm Hk. eapply triple_bind; [exact Hm|]. intros b w [-> H]. now apply Hk. Qed.

Lemma ref_activate id out t : preserves (Ref out (tok id + t)) (fq_activate id).
Proof.
  unfold fq_activate. apply preserves_bind; [apply preserves_get | intros x]. apply preserves_when; intros _.
  eapply triple_bind_eq with id (Ref out (tok id + (tok id + t))).
  - intros w R. split; [reflexivity|]. pose proof (tok_old out id t w R) as Hn. unfold bpf_refcount_acquire. rewrite bind_eq.
    cbn [ret fst snd]. set (w' := snd _). destruct (Nat.eq_dec id f) as [->|Hd].
    + specialize (Hn eq_refl). assert (Er : refcount (heap w' f) = S (refcount (heap w f))) by (subst w'; now rewrite heap_mod_flow).
      destruct R as [R1 R2 R3 R4 R5 R6 R7]. constructor; rewrite ?Er; auto.
      * intros H. change (next w' <= f)%nat with (next w <= f)%nat in H. lia.
      * change (places w') with (places w). rewrite tok_same in *. lia.
      * intros k Hk. specialize (R6 k Hk). change (places w') with (places w). rewrite tok_same in *. lia.
      * intros X; destruct (not_kept X).
    + rewrite tok_other in * by exact Hd. apply (Ref_frame out t w); try reflexivity; auto; [|intros X; destruct (not_kept X)].
      subst w'. now rewrite heap_same.
  - eapply triple_bind; [apply ref_call | intros j']. eapply triple_bind; [apply preserves_get | intros c].
    eapply triple_bind; [apply ref_flow; intros y; repeat case_if; reflexivity | intros u1].
    eapply triple_bind; [now apply ref_flow | intros u2]. apply (ref_put true false).
Qed.

Lemma ref_time_to_send skb out t : preserves (Ref out t) (fq_time_to_send skb).
Proof.
  unfold fq_time_to_send. cbv zeta.
  repeat first [ apply preserves_bind; [|intro] | apply preserves_if; intro | apply ref_call | apply ref_mod_q
               | apply preserves_get | apply preserves_ret ].
Qed.

Lemma ref_classify skb : preserves (Ref false 0) (fq_classify skb).
Proof.
  unfold fq_classify. cbv zeta. apply preserves_bind; [apply preserves_get | intros c].
  apply preserves_bind; [apply preserves_get | intros [e|]; [apply preserves_ret|]].
  apply preserves_bind; [|intros; apply preserves_ret]. intros w R. now apply ref_new_flow.
Qed.

Lemma ref_refuse skb out t : preserves (Ref out t) (drop skb).
Proof.
  unfold drop. apply preserves_bind; [|intros _; apply preserves_bind; [apply ref_mod_sch | intros; apply preserves_ret]].
  apply preserves_modify; intros w; apply Ref_frame; auto.
Qed.

(** With the flow taken out of its stash, and put back at the end. *)
Definition in_hand (prio : bool) (id : nat) (w : world) : Prop :=
  exists out, Ref out (tok id + 0) w /\ (id = f -> prio = false /\ out = true).

Lemma in_hand_back prio hash id {A} (m : ST world A) :
  preserves (Ref false 0) m -> triple (in_hand prio id) (bpf_kptr_xchg_back prio hash id ;; m) (fun _ => Ref false 0).
Proof. intros Hm. eapply triple_bind; [intros w [out H]; exact (ref_back prio hash id out 0 w H) | intros ?; exact Hm]. Qed.

Lemma in_hand_keep prio id {A} (m : ST world A) : (forall out, preserves (Ref out (tok id + 0)) m) -> preserves (in_hand prio id) m.
Proof. intros Hm w (out & R & H). exists out. split; [now apply Hm | exact H]. Qed.

Lemma ref_queue_packet skb ts prio hash id : triple (in_hand prio id) (fq_queue_packet skb ts (prio, hash) id) (fun _ => Ref false 0).
Proof.
  unfold fq_queue_packet. cbn [fst snd]. eapply triple_bind; [apply in_hand_keep; intros; apply ref_call | intros ok].
  apply triple_if; intros _; [apply in_hand_back, ref_refuse|]. cbv zeta.
  eapply triple_bind; [apply in_hand_keep; intros; apply ref_mod_sch | intros ?].
  do 2 (eapply triple_bind; [apply in_hand_keep; intros; now apply ref_flow | intros ?]).
  apply in_hand_back. apply preserves_bind; [apply ref_mod_sch | intros; apply preserves_ret].
Qed.

Lemma ref_enqueue skb : preserves (Ref false 0) (bpf_fq_enqueue skb).
Proof.
  unfold bpf_fq_enqueue. apply preserves_bind; [apply preserves_get | intros s]. apply preserves_if; intros _; [apply ref_refuse|].
  apply preserves_bind; [apply ref_time_to_send | intros [[skb' ts]|]; [|apply ref_refuse]].
  apply preserves_bind; [apply ref_classify | intros [cls [prio hash]]]. apply preserves_if; intros _; [apply ref_refuse|].
  eapply triple_bind; [apply ref_take | intros o]. cbn [fst snd]. destruct o as [id|].
  2: { apply (triple_weaken (drop skb') (Ref false 0) _ (fun _ => Ref false 0) _ (ref_refuse skb' false 0)); [|auto]. now intros w [R _]. }
  apply (triple_weaken _ (in_hand prio id) _ (fun _ => Ref false 0) _); [|intros w [R H]; exists (is_f (Some id)); split; [exact R|]|auto].
  2: { intros ->. cbn [is_f] in *. rewrite Nat.eqb_refl in *. auto. }
  eapply triple_bind; [apply in_hand_keep; intros; apply preserves_get | intros node].
  eapply triple_bind; [apply in_hand_keep; intros; apply preserves_get | intros c].
  apply triple_if; intros _; [apply in_hand_back, ref_refuse|].
  eapply triple_bind; [apply in_hand_keep; intros; apply preserves_when; intros _; apply ref_activate | intros ?; apply ref_queue_packet].
Qed.

Lemma ref_remove_first id out t : preserves (Ref out t) (remove_first id).
Proof.
  intros w R. unfold remove_first. destruct (bpf_rbtree_remove_first (queue (heap w id))) as [n l]. cbn [snd].
  apply (Ref_frame out t w); try reflexivity; auto; [|intros X; destruct (not_kept X)].
  cbn. unfold nset. destruct (Nat.eqb_spec f id) as [->|]; reflexivity.
Qed.

(** The end of a round, with the flow on a list again. *)
Lemma ref_put_then {A} new head id (m : ST world A) : preserves (Ref false 0) m ->
  triple (Ref false (tok id + 0)) ((if head : bool then fq_flows_add_head new id else fq_flows_add_tail new id) ;; m)
    (fun _ => Ref false 0).
Proof. intros Hm. eapply triple_bind; [apply ref_put | intros ?; exact Hm]. Qed.

Lemma ref_round ctx : preserves (Ref false 0) (fq_dequeue_nonprio_flows ctx).
Proof.
  unfold fq_dequeue_nonprio_flows. cbv zeta. apply preserves_bind; [apply preserves_get | intros c].
  apply preserves_if; intros _; [apply preserves_ret|].
  eapply triple_bind; [apply ref_remove_front | intros [id|]; [|now apply triple_ret]]. cbn [toko].
  eapply triple_bind; [apply preserves_get | intros x]. apply triple_if; intros _.
  { eapply triple_bind; [now apply ref_flow | intros ?]. apply (ref_put_then false false), preserves_ret. }
  destruct (bpf_rbtree_first (queue x)) as [n|].
  - apply triple_if; intros _.
    + eapply triple_bind; [now apply ref_flow | intros ?].
      eapply triple_bind; [apply ref_throttle | intros ?; apply preserves_ret].
    + eapply triple_bind; [apply ref_remove_first | intros node].
      eapply (triple_bind _ _ _ (fun _ => Ref false (tok id + 0))).
      { destruct (match node with Some n => node_skb n | None => None end); [now apply ref_flow | apply preserves_ret]. }
      intros ?. apply (ref_put_then _ true), preserves_ret.
  - eapply triple_bind; [apply preserves_get | intros e]. apply triple_if; intros _; [apply (ref_put_then false false), preserves_ret|].
    eapply triple_bind; [|intros ?; eapply triple_bind; [apply ref_drop | intros ?; apply preserves_ret]].
    unfold fq_flow_set_detached. apply preserves_bind; [apply ref_call | intros j]. now apply ref_flow.
Qed.

Lemma ref_prio : preserves (Ref false 0) fq_dequeue_prio.
Proof.
  unfold fq_dequeue_prio. apply preserves_bind; [apply preserves_get | intros [e|]; [|apply preserves_ret]].
  eapply triple_bind; [apply ref_take | intros o]. destruct o as [id|]; [|apply triple_ret; now intros w [R _]].
  apply (triple_weaken _ (in_hand true id) _ (fun _ => Ref false 0) _); [|intros w [R H]; exists (is_f (Some id)); split; [exact R|]|auto].
  2: { intros ->. cbn [is_f] in H. rewrite Nat.eqb_refl in H. now specialize (H eq_refl). }
  eapply triple_bind; [apply in_hand_keep; intros; apply preserves_get | intros first].
  apply (triple_bind _ _ _ (fun _ => in_hand true id)).
  - apply in_hand_keep; intros out. destruct first; [|apply preserves_ret].
    apply preserves_bind; [apply ref_remove_first | intros; apply preserves_ret].
  - intros skb. apply in_hand_back, preserves_ret.
Qed.

Lemma ref_deliver skb : preserves (Ref false 0) (fq_deliver skb).
Proof.
  unfold fq_deliver. apply preserves_bind; [apply ref_mod_sch | intros _]. apply preserves_bind; [|intros; apply preserves_ret].
  apply preserves_modify; intros w; apply Ref_frame; auto.
Qed.

Lemma ref_nonprio now w : limit (sch w) = 10000 -> Ref false 0 w -> Ref false 0 (snd (dequeue_nonprio now w)).
Proof.
  intros Hl R. unfold dequeue_nonprio. rewrite Hl, bpf_for_spec by (vm_compute; intuition discriminate).
  set (s0 := (None, {| stop_iter := false; expire := 0; now := now |}, w)).
  pose proof (run_loop_inv (fun s : option sk_buff * dequeue_nonprio_ctx * world => Ref false 0 (snd s))
    (Z.to_nat (i32 10000)) dequeue_round s0) as F.
  destruct (run_loop _ _ s0) as [x w']. apply F; [|exact R].
  intros [[skb ctx] w1] R1. unfold dequeue_round. pose proof (ref_round ctx w1 R1) as R2.
  now destruct (fq_dequeue_nonprio_flows ctx w1) as [[skb' ctx'] w2].
Qed.

Lemma ref_dequeue w : good w -> Ref false 0 w -> Ref false 0 (snd (bpf_fq_dequeue w)).
Proof.
  intros G R; unfold bpf_fq_dequeue. rewrite bind_eq; cbn [get fst snd]. case_if; [exact R|].
  destruct (g_inv _ G) as [N I]. pose proof (fq_dequeue_prio_result N w I (g_prio _ G)) as D.
  pose proof (ref_prio w R) as R1. rewrite bind_eq. destruct (fq_dequeue_prio w) as [[s|] w1]; cbn [fst snd] in *.
  { now apply ref_deliver. }
  destruct D as (D & _ & _). rewrite bind_eq. pose proof (ref_call (fun n => u64 (ktime n)) false 0 w1 R1) as R2.
  apply ok_calls in D. change (snd (call _ w1)) with (w1 <| calls ::= S |>) in R2. cbn [bpf_ktime_get_ns call fst snd].
  set (t := u64 (ktime (calls w1))). set (w2 := w1 <| calls ::= S |>) in *.
  rewrite bind_eq. apply (ref_mod_q (fun c => c <| ktime_cache := t |>)) in R2.
  apply (ok_q _ _ _ _ (fun c => c <| ktime_cache := t |>)) in D; [|reflexivity|reflexivity].
  set (w3 := snd (mod_q _ _)) in *. rewrite bind_eq.
  apply (fq_check_throttled_ok N w t) in D. apply (ref_check_throttled t) in R2. set (w4 := snd (fq_check_throttled t w3)) in *.
  rewrite bind_eq. apply (ref_nonprio t) in R2; [|rewrite (b_sch _ _ (proj2 D)); apply G].
  destruct (dequeue_nonprio t w4) as [[[s|] ctx] w5]; cbn [fst snd] in *; [now apply ref_deliver|].
  rewrite bind_eq. cbn [ret snd]. unfold when. case_if; [|exact R2]. now apply (Ref_frame false 0 w5).
Qed.

Lemma ref_run ops w : good w -> Ref false 0 w -> Ref false 0 (run ops w).
Proof.
  revert w; induction ops as [|o ops IH]; intros w G R; [exact R|]. cbn [run fold_left].
  apply IH; [apply (handle_whereabouts jiffies_ok o w G)|]. destruct o as [skb|]; cbn [handle]; rewrite bind_eq; cbn [ret snd].
  - now apply ref_enqueue.
  - now apply ref_dequeue.
Qed.

Lemma ref_created w : created w -> Ref false 0 w.
Proof.
  intros C. assert (P : places w = 0%nat) by (unfold places; now rewrite (c_lists _ C)). constructor; rewrite ?P.
  - intros k k' H. now rewrite (c_nonprio _ C) in H.
  - intros k H. now rewrite (c_prio _ C) in H.
  - intros _. repeat split. intros k H. now rewrite (c_nonprio _ C) in H.
  - discriminate.
  - lia.
  - intros k H. now rewrite (c_nonprio _ C) in H.
  - intros X; destruct (not_kept X).
Qed.

(** A flow but the first in any run. *)
Lemma ref_reached w ops : f <> 0%nat -> created w -> fst (bpf_fq_init w) = 0 ->
  Ref false 0 (run ops (snd (bpf_fq_init w))).
Proof.
  intros Hf C E. apply ref_run; [exact (proj1 (fq_init_good w C E))|]. revert E. unfold bpf_fq_init. rewrite bind_eq.
  assert (R : Ref false 0 (snd (fq_new_flow true 0 w))).
  { apply ref_new_flow; [now apply ref_created|]. intros _. rewrite (c_next _ C). auto. }
  destruct (fst (fq_new_flow true 0 w) <? 0); [discriminate|]. intros _. rewrite !bind_eq. cbn [ret snd].
  apply ref_mod_q, ref_mod_sch, R.
Qed.

End Steps.

(** ** The reset *)

Section Reset.
Hypothesis KP : kept = true.

Lemma ref_empty_lists : preserves (Ref false 0) fq_remove_flows_in_list.
Proof.
  unfold fq_remove_flows_in_list. eapply triple_bind; [apply ref_pop | intros o].
  apply (triple_bind _ _ _ (fun node => Ref false (toko node + 0))).
  - destruct o as [id|]; [now apply triple_ret | apply ref_pop].
  - intros [id|]; [|apply preserves_ret]. eapply triple_bind; [apply ref_drop | intros ?; apply preserves_ret].
Qed.

(** What the last loop of the reset keeps. *)
Definition moved (w : world) : Prop := In f (olds w ++ delayed w) /\ queued w f = Q /\ qlen (sch w) = 0.

Lemma moved_unthrottle w : moved w -> moved (snd (fq_unset_throttled_flows true 0 w)).
Proof.
  unfold moved, fq_unset_throttled_flows. intros (Hin & Hq & Hz). rewrite !bind_eq. cbn [get fst snd].
  rewrite tree_first. change (kt_elems (fq_delayed w)) with (delayed w). destruct (delayed w) as [|id r] eqn:E; cbn [hd_error].
  { cbn [ret snd]. now rewrite E. }
  rewrite !bind_eq. cbn [flow get fst snd negb andb]. rewrite bind_eq.
  destruct (tree_remove_cons (fq_delayed w) id r E) as [E1 E2].
  destruct (bpf_rbtree_remove_first (fq_delayed w)) as [n l]. cbn [fst snd] in E1, E2 |- *. subst n. rewrite !bind_eq. cbn [ret snd].
  set (w1 := snd (mod_flow id _ _)). destruct (add_tail_spec false id w1) as (S & P & _).
  cbn [the_list] in P. rewrite P, (r_delayed _ _ S), (r_sch _ _ S). unfold queued. rewrite (r_heap _ _ S).
  change (olds w1) with (olds w). change (delayed w1) with (kt_elems l). change (sch w1) with (sch w). rewrite E2.
  split; [|split; [|exact Hz]].
  - rewrite !in_app_iff in *. cbn in *. tauto.
  - unfold w1, queued in *. cbn. unfold nset. destruct (Nat.eqb_spec f id) as [->|]; exact Hq.
Qed.

Lemma reset_moves w : In f (delayed w) -> queued w f = Q -> Ref false 0 (w <| sch ::= (fun s => s <| qlen := 0 |> <| backlog := 0 |>) |>) ->
  moved (snd (bpf_fq_reset w)).
Proof.
  intros Hd Hq R. unfold bpf_fq_reset. rewrite bind_eq. set (w1 := snd (mod_sch _ w)). change (Ref false 0 w1) in R.
  rewrite bind_eq. pose proof (ref_for_each false (fq_remove_flows false) false 0 (fun k e c => ref_remove false k e c false 0)) as L1.
  pose proof (ref_for_each true (fq_remove_flows true) false 0 (fun k e c => ref_remove true k e c false 0)) as L2.
  set (c0 := {| gc_only := false; reset_cnt := 0; reset_max := NUM_QUEUE |}). specialize (L1 c0 w1 R).
  destruct (bpf_for_each_map_elem false _ c0 w1) as [c w2]. cbn [fst snd] in *. rewrite bind_eq.
  specialize (L2 (c <| reset_cnt := 0 |>) w2 L1). set (w3 := snd (bpf_for_each_map_elem true _ _ w2)) in *.
  rewrite bind_eq. pose proof (kept_old false 0 w3 KP L2) as Hf.
  assert (R4 : Ref false 0 (snd (fq_new_flow true 0 w3))) by (apply ref_new_flow; [exact L2 | lia]).
  set (w4 := snd (fq_new_flow true 0 w3)) in *. rewrite bind_eq. cbn [modify snd].
  rewrite bpf_loop_spec by apply NUM_QUEUE_loops. set (w5 := run_loop _ _ w4).
  assert (R5 : Ref false 0 w5) by (apply run_loop_inv; [intros v; apply ref_empty_lists | exact R4]).
  rewrite bind_eq. cbn [mod_q modify snd]. rewrite bpf_loop_spec by apply NUM_QUEUE_loops.
  apply run_loop_inv; [apply moved_unthrottle|]. destruct (rf_kept _ _ _ R5 KP) as (X & Y & Z).
  split; [apply in_app_iff; now right | now split].
Qed.

End Reset.

End Refs.

Section Reset.
Context {KF : KList nat} {TF : KTree nat} {TS : KTree skb_node} {LP : KLoop} {K : Kernel}.
Context {KFL : KListLaws nat} {TFL : KTreeLaws nat} {TSL : KTreeLaws skb_node}.
Hypothesis jiffies_ok : forall n, 0 < jiffies n < U64_MAX.

Lemma ref_throttled f Q0 w : Ref f false Q0 false 0 w -> In f (delayed w) ->
  Ref f true (queued w f) false 0 (w <| sch ::= (fun s => s <| qlen := 0 |> <| backlog := 0 |>) |>).
Proof. intros [R1 R2 R3 R4 R5 R6 _] Hd. constructor; try assumption. intros _. now split. Qed.

Lemma idle_run w n : qlen (sch w) = 0 -> run (repeat Dequeue n) w = w.
Proof.
  intros E. assert (S : snd (handle Dequeue w) = w).
  { unfold handle. rewrite bind_eq. unfold bpf_fq_dequeue. rewrite bind_eq; cbn [get fst snd].
    now rewrite E. }
  induction n as [|n IH]; [reflexivity|]. unfold run in *; cbn [repeat fold_left]. now rewrite S.
Qed.

(** C26. A reset does not drop the packets of throttled flows.  After any
    sequence of enqueues and dequeues from a successful init, a throttled flow
    goes through a reset with every packet still queued: the lists are emptied
    first, and only then is the flow moved from the tree of throttled flows to
    the old list (or left in the tree, were there more than [NUM_QUEUE] of
    them).  But the length is 0 then, so that no number of dequeues serves
    them. *)
Theorem fq_reset_keeps_throttled w ops f : created w -> fst (bpf_fq_init w) = 0 ->
  let w0 := run ops (snd (bpf_fq_init w)) in
  In f (delayed w0) ->
  let w1 := snd (bpf_fq_reset w0) in
  queued w1 f = queued w0 f /\ In f (olds w1 ++ delayed w1) /\ qlen (sch w1) = 0 /\
  forall n, run (repeat Dequeue n) w1 = w1.
Proof.
  intros C E w0 Hd w1. destruct (fq_init_good w C E) as (G & _ & _).
  destruct (run_whereabouts jiffies_ok ops _ G) as ([[N I] _ _ _ _] & _ & _). fold w0 in I.
  assert (Hf : f <> 0%nat) by (pose proof (i_lt _ _ _ I f) as X; specialize (X (proj2 (listed_in w0 f) ltac:(tauto))); lia).
  pose proof (ref_throttled f [] w0 (ref_reached f false [] eq_refl jiffies_ok w ops Hf C E) Hd) as R.
  destruct (reset_moves f true (queued w0 f) eq_refl w0 Hd eq_refl R) as (Hin & Hq & Hz). fold w1 in Hin, Hq, Hz.
  split; [exact Hq|]. split; [exact Hin|]. split; [exact Hz|]. intros n. now apply idle_run.
Qed.

End Reset.

#[local] Existing Instance kernel1.

(** Packet 2 of a throttled flow is still queued after a reset. *)
Lemma fq_reset_keeps_throttled_witness :
  let w0 := run [Enqueue packet_b; Dequeue] (snd (bpf_fq_init world1)) in
  let w1 := snd (bpf_fq_reset w0) in
  map (fun n => option_map skb_id (node_skb n)) (queued w1 1%nat) = [Some 2] /\ qlen (sch w1) = 0.
Proof.
  intros w0 w1. assert (Hd : In 1%nat (delayed w0)) by (vm_compute; tauto).
  destruct (fq_reset_keeps_throttled jiffies1 world1 [Enqueue packet_b; Dequeue] 1%nat world1_created eq_refl Hd)
    as (Eq & _ & Ez & _). split; [|exact Ez]. fold w0 in Eq. fold w1 in Eq. rewrite Eq. vm_compute. reflexivity.
Defined.

(** A packet of another socket, due after nine seconds. *)
Definition packet_d := packet_a <| skb_id := 4 |> <| sk := Some {| skc_state := 1; skc_hash := 18 |} |>
                                <| skb_tstamp := 9000000000 |>.

(** What comes of it: packet 2 survives the reset and is sent later on the
    count of packet 4, which then stays behind with length 0. *)
Example sent_on_the_count_of_another :
  let w0 := run [Enqueue packet_b; Dequeue] (snd (bpf_fq_init world1)) in
  let w1 := snd (bpf_fq_reset w0) in
  let w2 := run [Enqueue packet_d; Dequeue] w1 in
  (map skb_id (packets w1), released w1) = ([2], []) /\
  (map skb_id (sent w2), map skb_id (packets w2), qlen (sch w2)) = ([2], [4], 0).
Proof. split; vm_compute; reflexivity. Qed.

End FqReset.
