(* ===== verification/ArenaHtab.v ===== *)
(** The arena hash table: progs/arena_htab.rs, and the lookup of
    progs/arena_htab_asm.rs.

    A hash table of linked lists in an arena that user space maps: a page-fragment
    allocator, doubly linked lists, and the table.  Arena memory is a map from
    addresses to fields: every address the code accesses holds either an integer
    or a pointer.  An address is the offset in the arena; a pointer also says in
    whose numbering it is, the kernel's or the user's, which the casts change
    ([cast_kern], [cast_user]).  An access through anything but a kernel pointer
    to a mapped page faults (the kernel would read 0 and drop a store): a
    computation is a function from the state to an optional result, and the
    theorems say that it is not [None].

    [alloc_inv] is the allocator's invariant: live objects lie apart on the
    fragment pages, each page's counter is their number.  [table] adds the lists
    of the buckets ([hl]) as live objects.  Three theorems: the driver's table
    and what user space finds in it, updates and lookups as a finite map, and
    the pointers kept well typed. *)

From Stdlib Require Import Permutation.
From S2P Require Import Prelude Kernel.

Module ArenaHtab.

(** ** Constants *)

Definition PAGE_SIZE := 4096.
Definition NUMA_NO_NODE := -1.
Definition ENOMEM := 12.
Definition MAX_BUCKET_WALK : nat := 256.
Definition LIST_POISON1 := 0x100.
Definition LIST_POISON2 := 0x122.

(** Layout: [offset_of] and [size_of] of the structs. *)
Definition NEXT := 0.
Definition PPREV := 8.
Definition BUCKETS := 0.
Definition N_BUCKETS := 8.
Definition HTAB_SIZE := 16.
Definition BUCKET_SIZE := 8.
Definition HASH := 0.
Definition KEY := 4.
Definition VALUE := 8.
Definition HASH_NODE := 16.
Definition ELEM_SIZE := 32.

(** ** Data *)

Inductive view := Kern | User.

(** [Bad n] is a pointer with the value [n], to no arena address. *)
Inductive ptr := Null | At (v : view) (a : Z) | Bad (n : Z).

Definition cast_kern (p : ptr) : ptr := match p with At _ a => At Kern a | _ => p end.
Definition cast_user (p : ptr) : ptr := match p with At _ a => At User a | _ => p end.
Definition is_null (p : ptr) : bool := match p with Null => true | _ => false end.
Definition add (p : ptr) (n : Z) : ptr :=
  match p with Null => Bad n | At v a => At v (a + n) | Bad m => Bad (m + n) end.
Definition page_of (a : Z) : Z := a / PAGE_SIZE.

Record world := {
  mapped : Z -> bool;
  ints : Z -> Z;
  ptrs : Z -> ptr;
  page_frag_cur_page : Z -> ptr;
  page_frag_cur_offset : Z -> Z;
  htab_for_user : ptr;
  calls : nat
}.

Definition fset {A} (f : Z -> A) (k : Z) (v : A) : Z -> A := fun k' => if k' =? k then v else f k'.

(** ** Computations that may fault *)

Definition M (A : Type) : Type := world -> option (A * world).
Definition ret {A} (a : A) : M A := fun w => Some (a, w).
Definition bind {A B} (m : M A) (k : A -> M B) : M B :=
  fun w => match m w with Some (a, w') => k a w' | None => None end.
Definition get {A} (f : world -> A) : M A := fun w => Some (f w, w).
Definition modify (f : world -> world) : M unit := fun w => Some (tt, f w).
Definition when (b : bool) (m : M unit) : M unit := if b then m else ret tt.

Notation "x <- c ;; k" := (bind c (fun x => k)) (at level 61, c at next level, right associativity).
Notation "c ;; k" := (bind c (fun _ => k)) (at level 61, right associativity).

(** The address a kernel pointer accesses. *)
Definition access (p : ptr) : M Z := fun w =>
  match p with
  | At Kern a => if mapped w (page_of a) then Some (a, w) else None
  | _ => None
  end.
Definition load_int (p : ptr) : M Z := a <- access p ;; get (fun w => ints w a).
Definition load_ptr (p : ptr) : M ptr := a <- access p ;; get (fun w => ptrs w a).
Definition store_int (p : ptr) (v : Z) : M unit :=
  a <- access p ;; modify (fun w => w <| ints ::= (fun f => fset f a v) |>).
Definition store_ptr (p : ptr) (v : ptr) : M unit :=
  a <- access p ;; modify (fun w => w <| ptrs ::= (fun f => fset f a v) |>).

(** ** The kernel

    The CPU, how many rounds can_loop grants, and the kfuncs that hand out and
    take back pages. *)
Class Kernel := {
  cpu : Z;
  loop_budget : nat;
  bpf_arena_alloc_pages : Z -> M ptr;
  bpf_arena_free_pages : ptr -> M unit
}.

(** The pages of the arena. *)
Definition max_entries := 100.

Definition in_range (p cnt : Z) (a : Z) : bool := (p <=? page_of a) && (page_of a <? p + cnt).

(** The world with [cnt] zeroed pages from [p]. *)
Definition fresh (p cnt : Z) (w : world) : world :=
  w <| calls ::= S |>
    <| mapped ::= (fun m q => if (p <=? q) && (q <? p + cnt) then true else m q) |>
    <| ints ::= (fun f a => if in_range p cnt a then 0 else f a) |>
    <| ptrs ::= (fun f a => if in_range p cnt a then Null else f a) |>.

Definition unmap (p : ptr) (m : Z -> bool) : Z -> bool :=
  match p with At _ a => fset m (page_of a) false | _ => m end.

(** What is documented of it: an allocation fails, or hands out zeroed pages of
    the arena, not in use before and not at the address that means failure, in
    the user's numbering; can_loop grants as many rounds as bpf_loop. *)
Class KernelOk (K : Kernel) : Prop := {
  alloc_pages_ok : forall cnt w,
    bpf_arena_alloc_pages cnt w = Some (Null, w <| calls ::= S |>) \/
    exists p, 0 < p /\ p + cnt <= max_entries /\ (forall i, 0 <= i < cnt -> mapped w (p + i) = false) /\
      bpf_arena_alloc_pages cnt w = Some (At User (PAGE_SIZE * p), fresh p cnt w);
  free_pages_ok : forall p w, bpf_arena_free_pages p w = Some (tt, w <| mapped ::= unmap p |>);
  loop_budget_ok : BPF_MAX_LOOPS <= Z.of_nat loop_budget
}.

Section ArenaHtab.
Context {L : KLoop} {K : Kernel}.

(** ** The page-fragment allocator *)

Definition round_up (x y : Z) : Z := u32 (Z.lor (u32 (x - 1)) (u32 (y - 1)) + 1).

Definition set_cur (page : ptr) (offset : Z) : M unit :=
  modify (fun w => w <| page_frag_cur_page ::= (fun f => fset f cpu page) |>
                     <| page_frag_cur_offset ::= (fun f => fset f cpu offset) |>).

(** The page and its object counter. *)
Definition bpf_alloc_refill : M (option (ptr * ptr)) :=
  raw <- bpf_arena_alloc_pages 1 ;;
  if is_null raw then ret None else
  let page := cast_kern raw in
  set_cur page (PAGE_SIZE - 8) ;;
  let obj_cnt := add page (PAGE_SIZE - 8) in
  store_int obj_cnt 0 ;;
  ret (Some (page, obj_cnt)).

(** The end of bpf_alloc: [offset] is what is left once the object is cut off. *)
Definition take (page obj_cnt : ptr) (offset : Z) : M ptr :=
  n <- load_int obj_cnt ;;
  store_int obj_cnt (u64 (n + 1)) ;;
  modify (fun w => w <| page_frag_cur_offset ::= (fun f => fset f cpu offset) |>) ;;
  ret (add page offset).

Definition refill_and_take (size : Z) : M ptr :=
  r <- bpf_alloc_refill ;;
  match r with
  | None => ret Null
  | Some (page, obj_cnt) => take page obj_cnt (PAGE_SIZE - 8 - size)
  end.

Definition bpf_alloc (size : Z) : M ptr :=
  page <- get (fun w => page_frag_cur_page w cpu) ;;
  let size := round_up size 8 in
  if PAGE_SIZE - 8 <=? size then ret Null else
  start <- (if is_null page then
              r <- bpf_alloc_refill ;;
              ret (option_map (fun s => (fst s, snd s, PAGE_SIZE - 8)) r)
            else
              let page := cast_kern page in
              let obj_cnt := add page (PAGE_SIZE - 8) in
              offset <- get (fun w => page_frag_cur_offset w cpu) ;;
              ret (Some (page, obj_cnt, offset))) ;;
  match start with
  | None => ret Null
  | Some (page, obj_cnt, offset) =>
      let offset := i32 (offset - i32 size) in
      if offset <? 0 then refill_and_take size else take page obj_cnt offset
  end.

Definition bpf_free (addr : ptr) : M unit :=
  let base := match addr with At v a => At v (Z.land a (Z.lnot (PAGE_SIZE - 1))) | p => p end in
  let obj_cnt := add base (PAGE_SIZE - 8) in
  n <- load_int obj_cnt ;;
  store_int obj_cnt (u64 (n - 1)) ;;
  n <- load_int obj_cnt ;;
  when (n =? 0) (bpf_arena_free_pages base).

(** ** Lists *)

Definition list_entry_safe (p : ptr) : ptr :=
  if is_null p then Null else add (cast_kern p) (- HASH_NODE).

Definition list_add_head (n h : ptr) : M unit :=
  first <- load_ptr h ;;
  let first := cast_user first in
  let n := cast_kern n in
  store_ptr (add n NEXT) first ;;
  let first := cast_kern first in
  when (negb (is_null first)) (store_ptr (add first PPREV) (cast_user (add n NEXT))) ;;
  let n := cast_user n in
  store_ptr h n ;;
  let tmp := cast_user h in
  let n := cast_kern n in
  store_ptr (add n PPREV) tmp.

Definition list_del_impl (n : ptr) : M unit :=
  next <- load_ptr (add n NEXT) ;;
  pprev <- load_ptr (add n PPREV) ;;
  let next := cast_user next in
  let pprev := cast_kern pprev in
  store_ptr pprev next ;;
  when (negb (is_null next))
    (let pprev := cast_user pprev in
     let next := cast_kern next in
     store_ptr (add next PPREV) pprev).

Definition list_del (n : ptr) : M unit :=
  list_del_impl n ;;
  store_ptr (add n NEXT) (Bad LIST_POISON1) ;;
  store_ptr (add n PPREV) (Bad LIST_POISON2).

(** ** The table *)

Definition select_bucket (htab : ptr) (hash : Z) : M ptr :=
  raw_buckets <- load_ptr (add htab BUCKETS) ;;
  let buckets := cast_kern raw_buckets in
  n <- load_int (add htab N_BUCKETS) ;;
  let idx := Z.land hash (u32 (u32 n - 1)) in
  ret (add buckets (BUCKET_SIZE * idx)).

(** [n] rounds of the loop of lookup_elem_raw. *)
Fixpoint walk (n : nat) (pos : ptr) (hash key : Z) : M ptr :=
  match n with
  | O => ret Null
  | S n =>
      if is_null pos then ret Null else
      h <- load_int (add pos HASH) ;;
      k <- (if h =? hash then load_int (add pos KEY) else ret 0) ;;
      if (h =? hash) && (k =? key) then ret pos else
      raw <- load_ptr (add pos (HASH_NODE + NEXT)) ;;
      walk n (list_entry_safe raw) hash key
  end.

Definition lookup_elem_raw (head : ptr) (hash key : Z) : M ptr :=
  raw <- load_ptr head ;; walk MAX_BUCKET_WALK (list_entry_safe raw) hash key.

Definition htab_update_elem (htab : ptr) (key value : Z) : M Z :=
  let htab := cast_kern htab in
  head <- select_bucket htab (u32 key) ;;
  l_old <- lookup_elem_raw head key key ;;
  l_new <- bpf_alloc ELEM_SIZE ;;
  if is_null l_new then ret (- ENOMEM) else
  store_int (add l_new KEY) key ;;
  store_int (add l_new HASH) key ;;
  store_int (add l_new VALUE) value ;;
  list_add_head (add l_new HASH_NODE) head ;;
  when (negb (is_null l_old)) (list_del (add l_old HASH_NODE) ;; bpf_free l_old) ;;
  ret 0.

(** The same lookup in arena_htab_asm.rs, which walks the whole list for as long
    as can_loop lets it, and the lookup it serves. *)
Fixpoint scan (n : nat) (pos : ptr) (hash key : Z) : M ptr :=
  if is_null pos then ret Null else
  next <- load_ptr (add pos (HASH_NODE + NEXT)) ;;
  match n with
  | O => ret Null
  | S n =>
      h <- load_int (add pos HASH) ;;
      k <- (if h =? hash then load_int (add pos KEY) else ret 0) ;;
      if (h =? hash) && (k =? key) then ret pos else scan n (list_entry_safe next) hash key
  end.

Definition htab_lookup_elem (htab : ptr) (key : Z) : M Z :=
  let htab := cast_kern htab in
  head <- select_bucket htab (u32 key) ;;
  raw <- load_ptr head ;;
  l_old <- scan loop_budget (list_entry_safe raw) key key ;;
  if negb (is_null l_old) then load_int (add l_old VALUE) else ret 0.

Definition htab_init (htab : ptr) : M unit :=
  raw <- bpf_arena_alloc_pages 2 ;;
  let buckets := cast_user raw in
  store_ptr (add htab BUCKETS) buckets ;;
  store_int (add htab N_BUCKETS) (i32 (2 * PAGE_SIZE / BUCKET_SIZE)).

(** A round of bpf_loop: the index, and the world unless it faulted. *)
Definition htab_loop_cb (htab : ptr) (s : Z * option world) : bool * (Z * option world) :=
  let (index, w) := s in
  let i := i32 index in
  (false, (index + 1, match w with Some w => option_map snd (htab_update_elem htab i i w) | None => None end)).

Definition populate (n : Z) (htab : ptr) : M unit := fun w =>
  option_map (pair tt) (snd (bpf_loop n (htab_loop_cb htab) (0, Some w))).

Definition arena_htab_llvm : M Z :=
  raw <- bpf_alloc HTAB_SIZE ;;
  let htab := cast_kern raw in
  htab_init htab ;;
  populate 100000 htab ;;
  populate 1000 htab ;;
  modify (fun w => w <| htab_for_user := cast_user htab |>) ;;
  ret 0.

End ArenaHtab.

(** ** The shape of a list

    [hl m s l]: the slot [s] holds the first pointer of a list of the elements
    [l] (by the addresses of the whole elements), every pointer in the user's
    numbering, each [pprev] at the slot that points to its element. *)
Fixpoint hl (m : Z -> ptr) (s : Z) (l : list Z) : Prop :=
  match l with
  | [] => m s = Null
  | e :: l => m s = At User (e + HASH_NODE) /\ m (e + HASH_NODE + PPREV) = At User s /\ hl m (e + HASH_NODE) l
  end.

(** The addresses the list lives in. *)
Definition links (l : list Z) : list Z := flat_map (fun e => [e + HASH_NODE; e + HASH_NODE + PPREV]) l.
Definition cells (s : Z) (l : list Z) : list Z := s :: links l.

Lemma hl_frame m m' s l : (forall c, In c (cells s l) -> m' c = m c) -> hl m s l -> hl m' s l.
Proof.
  revert s; induction l as [|e l IH]; intros s F H; cbn in *.
  - rewrite F; auto.
  - destruct H as (H1 & H2 & H3). rewrite !F by auto. repeat split; auto.
    apply IH; [|exact H3]. intros c Hc; apply F. destruct Hc; auto.
Qed.

Lemma hl_head m s l : hl m s l -> m s = match l with [] => Null | e :: _ => At User (e + HASH_NODE) end.
Proof. destruct l; cbn; tauto. Qed.

(** The stores of list_add_head and list_del. *)
Definition link_head (m : Z -> ptr) (x s : Z) : Z -> ptr :=
  let m1 := fset m x (m s) in
  let m2 := match m s with At _ f => fset m1 (f + PPREV) (At User x) | _ => m1 end in
  fset (fset m2 s (At User x)) (x + PPREV) (At User s).

Definition unlink (m : Z -> ptr) (x : Z) : Z -> ptr :=
  let m1 := match m (x + PPREV) with At _ p => fset m p (m x) | _ => m end in
  match m x with At _ f => fset m1 (f + PPREV) (m (x + PPREV)) | _ => m1 end.

Lemma fset_eq {A} (f : Z -> A) k v : fset f k v k = v.
Proof. unfold fset; now rewrite Z.eqb_refl. Qed.
Lemma fset_ne {A} (f : Z -> A) k v k' : k' <> k -> fset f k v k' = f k'.
Proof. unfold fset; intros; destruct (Z.eqb_spec k' k); congruence. Qed.

(** Two addresses differ because one would be twice in a list. *)
Ltac ne :=
  solve [ tauto | let E := fresh in intros E; symmetry in E; tauto | intros ->; tauto | intros <-; tauto
        | let E := fresh in intros E; first [rewrite E in * | rewrite <- E in *]; tauto ].

Lemma link_head_other m x s l c : hl m s l -> c <> x -> ~ In c (cells s l) -> c <> x + PPREV ->
  link_head m x s c = m c.
Proof.
  intros H N1 N2 N3. unfold link_head. rewrite (hl_head _ _ _ H). cbn in N2.
  rewrite !fset_ne by ne. destruct l as [|f l]; [now rewrite fset_ne|].
  cbn in N2. rewrite !fset_ne by ne. reflexivity.
Qed.

Lemma hl_link_head m s l e : NoDup (cells s (e :: l)) -> hl m s l -> hl (link_head m (e + HASH_NODE) s) s (e :: l).
Proof.
  unfold link_head. intros ND H. rewrite (hl_head _ _ _ H).
  unfold cells, links in ND; cbn [flat_map app] in ND; fold (links l) in ND.
  inversion ND as [|? ? N1 ND1]; subst. inversion ND1 as [|? ? N2 ND2]; subst.
  inversion ND2 as [|? ? N3 ND3]; subst. cbn [In hl] in N1, N2 |- *.
  remember (e + HASH_NODE) as x eqn:Ex. clear Ex.
  split; [|split].
  - rewrite fset_ne, fset_eq by ne. reflexivity.
  - apply fset_eq.
  - destruct l as [|f l]; cbn [hl] in *; rewrite (fset_ne _ (x + PPREV) _ x), (fset_ne _ s _ x) by ne.
    + rewrite fset_eq. reflexivity.
    + destruct H as (H1 & H2 & H3). cbn [links flat_map app] in *. fold (links l) in *.
      cbn [In] in *. inversion ND3 as [|? ? N4 ND4]; subst. inversion ND4 as [|? ? N5 ND5]; subst. cbn [In] in *.
      rewrite (fset_ne _ (f + HASH_NODE + PPREV) _ x), fset_eq by ne. split; [reflexivity|].
      rewrite (fset_ne _ (x + PPREV)), (fset_ne _ s), fset_eq by ne. split; [reflexivity|].
      refine (hl_frame _ _ _ _ _ H3). intros c [<-|Hc].
      * rewrite !fset_ne by ne. reflexivity.
      * rewrite !fset_ne; [reflexivity|..]; ne.
Qed.

Lemma unlink_other m s l1 e l2 c : hl m s (l1 ++ e :: l2) -> ~ In c (cells s (l1 ++ e :: l2)) ->
  unlink m (e + HASH_NODE) c = m c.
Proof.
  revert s; induction l1 as [|e1 l1 IH]; intros s H N.
  - cbn [app hl] in H. destruct H as (_ & H2 & H3). unfold unlink. rewrite H2, (hl_head _ _ _ H3).
    cbn in N. destruct l2 as [|f l2]; cbn in N; rewrite !fset_ne by ne; reflexivity.
  - cbn [app hl] in H. apply (IH (e1 + HASH_NODE)); [apply H|]. cbn in N |- *. tauto.
Qed.

Lemma hl_unlink m s l1 e l2 : NoDup (cells s (l1 ++ e :: l2)) -> hl m s (l1 ++ e :: l2) ->
  hl (unlink m (e + HASH_NODE)) s (l1 ++ l2).
Proof.
  revert s; induction l1 as [|e1 l1 IH]; intros s ND H.
  - cbn [app hl] in *. destruct H as (H1 & H2 & H3). unfold unlink. rewrite H2, (hl_head _ _ _ H3).
    unfold cells, links in ND; cbn [flat_map app] in ND; fold (links l2) in ND.
    inversion ND as [|? ? N1 ND1]; subst. inversion ND1 as [|? ? N2 ND2]; subst.
    inversion ND2 as [|? ? N3 ND3]; subst. cbn [In] in *.
    destruct l2 as [|f l2]; cbn [hl]; [apply fset_eq|].
    cbn [hl] in H3. destruct H3 as (H4 & H5 & H6). cbn [links flat_map app In] in *; fold (links l2) in *.
    inversion ND3 as [|? ? N4 ND4]; subst. inversion ND4 as [|? ? N5 ND5]; subst. cbn [In] in *.
    rewrite (fset_ne _ _ _ s), fset_eq by ne. split; [reflexivity|].
    rewrite fset_eq. split; [reflexivity|].
    refine (hl_frame _ _ _ _ _ H6). intros c [<-|Hc]; rewrite !fset_ne; try reflexivity; ne.
  - cbn [app hl] in H |- *. destruct H as (H1 & H2 & H3).
    unfold cells, links in ND; cbn [flat_map app] in ND; fold (links (l1 ++ e :: l2)) in ND.
    inversion ND as [|? ? N1 ND1]; subst. inversion ND1 as [|? ? N2 ND2]; subst.
    inversion ND2 as [|? ? N3 ND3]; subst. cbn [In] in *.
    assert (ND' : NoDup (cells (e1 + HASH_NODE) (l1 ++ e :: l2))).
    { constructor; [|exact ND3]. tauto. }
    rewrite !(unlink_other m _ _ _ _ _ H3); cbn [cells In]; [|intros [E|?]; [first [tauto | symmetry in E; tauto] | tauto] ..].
    split; [exact H1|]. split; [exact H2|]. now apply IH.
Qed.

(** ** Running the code on a list *)

(** The [n] bytes at [a] are mapped. *)
Definition usable (w : world) (a n : Z) : Prop := forall k, 0 <= k < n -> mapped w (page_of (a + k)) = true.

Lemma bind_run {A B} (c : M A) (q : A -> M B) w a w' : c w = Some (a, w') -> bind c q w = q a w'.
Proof. unfold bind; now intros ->. Qed.

Lemma access_at w a : mapped w (page_of a) = true -> access (At Kern a) w = Some (a, w).
Proof. cbn; now intros ->. Qed.

Lemma load_ptr_at w a : mapped w (page_of a) = true -> load_ptr (At Kern a) w = Some (ptrs w a, w).
Proof. intros E; unfold load_ptr. now rewrite (bind_run _ _ _ _ _ (access_at w a E)). Qed.
Lemma load_int_at w a : mapped w (page_of a) = true -> load_int (At Kern a) w = Some (ints w a, w).
Proof. intros E; unfold load_int. now rewrite (bind_run _ _ _ _ _ (access_at w a E)). Qed.
Lemma store_ptr_at w a v : mapped w (page_of a) = true ->
  store_ptr (At Kern a) v w = Some (tt, w <| ptrs ::= (fun f => fset f a v) |>).
Proof. intros E; unfold store_ptr. now rewrite (bind_run _ _ _ _ _ (access_at w a E)). Qed.
Lemma store_int_at w a v : mapped w (page_of a) = true ->
  store_int (At Kern a) v w = Some (tt, w <| ints ::= (fun f => fset f a v) |>).
Proof. intros E; unfold store_int. now rewrite (bind_run _ _ _ _ _ (access_at w a E)). Qed.

(** One access, with its address as the program computes it. *)
Ltac step_by lem :=
  erewrite bind_run; [|apply lem; first [assumption | cbn; assumption]]; cbv beta zeta.

Lemma list_add_head_run w x s :
  mapped w (page_of x) = true -> mapped w (page_of (x + PPREV)) = true -> mapped w (page_of s) = true ->
  match ptrs w s with Null => True | At User f => mapped w (page_of (f + PPREV)) = true | _ => False end ->
  list_add_head (At Kern x) (At Kern s) w = Some (tt, w <| ptrs := link_head (ptrs w) x s |>).
Proof.
  intros H1 H2 H3 H4. unfold list_add_head. step_by load_ptr_at. cbn [cast_kern cast_user add].
  unfold NEXT. rewrite Z.add_0_r. step_by store_ptr_at.
  unfold link_head. destruct (ptrs w s) as [|[] f|]; try easy; cbn [cast_user cast_kern is_null negb when add].
  - erewrite bind_run by reflexivity. step_by store_ptr_at. cbn [cast_kern add].
    rewrite store_ptr_at by assumption. reflexivity.
  - step_by store_ptr_at. step_by store_ptr_at. cbn [cast_kern add].
    rewrite store_ptr_at by assumption. reflexivity.
Qed.

Lemma list_del_run w x p :
  mapped w (page_of x) = true -> mapped w (page_of (x + PPREV)) = true ->
  ptrs w (x + PPREV) = At User p -> mapped w (page_of p) = true ->
  match ptrs w x with Null => True | At User f => mapped w (page_of (f + PPREV)) = true | _ => False end ->
  list_del (At Kern x) w =
  Some (tt, w <| ptrs := fset (fset (unlink (ptrs w) x) x (Bad LIST_POISON1)) (x + PPREV) (Bad LIST_POISON2) |>).
Proof.
  intros H1 H2 E H3 H4. unfold list_del, list_del_impl. cbn [add]. unfold NEXT. rewrite Z.add_0_r.
  assert (R : (next <- load_ptr (At Kern x) ;; pprev <- load_ptr (At Kern (x + PPREV)) ;;
    store_ptr (cast_kern pprev) (cast_user next) ;;
    when (negb (is_null (cast_user next)))
      (store_ptr (add (cast_kern (cast_user next)) PPREV) (cast_user (cast_kern pprev)))) w =
    Some (tt, w <| ptrs := unlink (ptrs w) x |>)).
  { step_by load_ptr_at. step_by load_ptr_at. rewrite E. cbn [cast_kern cast_user]. step_by store_ptr_at.
    unfold unlink. rewrite E. destruct (ptrs w x) as [|[] f|]; try easy; cbn [cast_user cast_kern is_null negb when add].
    rewrite store_ptr_at by assumption. reflexivity. }
  rewrite (bind_run _ _ _ _ _ R). step_by store_ptr_at. rewrite store_ptr_at by assumption. reflexivity.
Qed.

(** The walk finds the first element with the key among as many as it visits. *)
Lemma walk_run w key l : forall n s, hl (ptrs w) s l ->
  (forall e, In e l -> usable w e ELEM_SIZE /\ ints w (e + HASH) = ints w (e + KEY)) ->
  walk n (list_entry_safe (ptrs w s)) key key w =
  Some (match find (fun e => ints w (e + KEY) =? key) (firstn n l) with Some e => At Kern e | None => Null end, w).
Proof.
  induction l as [|e l IH]; intros n s H U.
  - cbn in H. rewrite H. destruct n; reflexivity.
  - destruct H as (H1 & H2 & H3). rewrite H1. destruct n as [|n]; [reflexivity|].
    cbn [walk list_entry_safe is_null cast_kern add]. unfold list_entry_safe; cbn [is_null cast_kern add].
    destruct (U e (or_introl eq_refl)) as [Ue Uh]. unfold ELEM_SIZE, usable in Ue.
    replace (e + HASH_NODE + - HASH_NODE) with e by lia.
    rewrite (bind_run _ _ _ _ _ (load_int_at w (e + HASH) (Ue HASH ltac:(unfold HASH; lia)))). rewrite Uh.
    cbn [firstn find]. destruct (Z.eqb_spec (ints w (e + KEY)) key) as [E|E]; cbn [andb].
    + rewrite (bind_run _ _ _ _ _ (load_int_at w (e + KEY) (Ue KEY ltac:(unfold KEY; lia)))).
      rewrite E, Z.eqb_refl. reflexivity.
    + erewrite bind_run by reflexivity.
      rewrite (bind_run _ _ _ _ _ (load_ptr_at w (e + (HASH_NODE + NEXT)) (Ue (HASH_NODE + NEXT) ltac:(unfold HASH_NODE, NEXT; lia)))).
      unfold NEXT. rewrite Z.add_0_r. apply IH; [exact H3 | intros; apply U; now right].
Qed.

(** ** The allocator

    [objs] are the live objects, by address and size; [fr] the pages they are
    cut from, [bk] pages allocated for something else. *)

Definition on_page (p : Z) (objs : list (Z * Z)) : list (Z * Z) := filter (fun o => page_of (fst o) =? p) objs.
Definition count (p : Z) (objs : list (Z * Z)) : Z := Z.of_nat (length (on_page p objs)).
Definition apart (o o' : Z * Z) : Prop := fst o + snd o <= fst o' \/ fst o' + snd o' <= fst o.
Definition OBJ_CNT := PAGE_SIZE - 8.

Record base_inv (w : world) (fr bk : list Z) (objs : list (Z * Z)) : Prop := {
  bi_fr : NoDup fr;
  bi_pages : forall p, In p fr -> 0 < p < max_entries /\ mapped w p = true;
  bi_bk : forall p, In p bk -> 0 < p /\ mapped w p = true /\ ~ In p fr;
  bi_objs : forall o, In o objs -> In (page_of (fst o)) fr /\ fst o mod 8 = 0 /\ 8 <= snd o /\
              fst o + snd o <= PAGE_SIZE * page_of (fst o) + OBJ_CNT;
  bi_nodup : NoDup objs;
  bi_apart : forall o o', In o objs -> In o' objs -> o <> o' -> apart o o';
  bi_count : forall p, In p fr -> ints w (PAGE_SIZE * p + OBJ_CNT) = count p objs /\ 8 * count p objs <= OBJ_CNT
}.

(** The free space of the current page lies below its objects, of which it has
    at least one. *)
Record cur_inv (w : world) (c : Z) (fr : list Z) (objs : list (Z * Z)) (p : Z) : Prop := {
  ci_page : page_frag_cur_page w c = At Kern (PAGE_SIZE * p);
  ci_in : In p fr;
  ci_offset : 0 <= page_frag_cur_offset w c /\ page_frag_cur_offset w c mod 8 = 0 /\
              8 * count p objs + page_frag_cur_offset w c <= OBJ_CNT;
  ci_below : forall o, In o objs -> page_of (fst o) = p -> PAGE_SIZE * p + page_frag_cur_offset w c <= fst o
}.

Definition busy (p : Z) (objs : list (Z * Z)) : Prop := exists o, In o objs /\ page_of (fst o) = p.

Definition alloc_inv (w : world) (c : Z) (fr bk : list Z) (objs : list (Z * Z)) : Prop :=
  base_inv w fr bk objs /\
  (page_frag_cur_page w c = Null /\ fr = [] \/ exists p, cur_inv w c fr objs p /\ busy p objs).

(** What an allocator step leaves alone: other pages' bytes, and those of the
    fragment pages but the counters. *)
Definition keeps (fr bk : list Z) (w w' : world) : Prop :=
  forall a, In (page_of a) bk \/ In (page_of a) fr /\ a < PAGE_SIZE * page_of a + OBJ_CNT ->
  ints w' a = ints w a /\ ptrs w' a = ptrs w a /\ mapped w' (page_of a) = mapped w (page_of a).

Lemma page_of_add p k : 0 <= k < PAGE_SIZE -> page_of (PAGE_SIZE * p + k) = p.
Proof. unfold page_of, PAGE_SIZE; intros. rewrite Z.mul_comm, Z.div_add_l, Z.div_small by lia. lia. Qed.

Lemma count_nil p objs : (forall o, In o objs -> page_of (fst o) <> p) -> count p objs = 0.
Proof.
  intros H. unfold count, on_page. replace (filter _ objs) with (@nil (Z * Z)); [reflexivity|].
  induction objs as [|o objs IH]; [reflexivity|]. cbn. destruct (Z.eqb_spec (page_of (fst o)) p) as [E|_].
  - now destruct (H o (or_introl eq_refl)).
  - apply IH; intros; apply H; now right.
Qed.

Lemma count_cons p o objs : count p (o :: objs) = (if page_of (fst o) =? p then 1 else 0) + count p objs.
Proof. unfold count, on_page; cbn [filter]. case_if; cbn [length]; lia. Qed.

Lemma count_perm p objs objs' : Permutation objs objs' -> count p objs = count p objs'.
Proof.
  intros H; unfold count, on_page. f_equal.
  induction H; cbn; repeat case_if; cbn [length] in *; congruence.
Qed.

Lemma page_base a : Z.land a (Z.lnot (PAGE_SIZE - 1)) = PAGE_SIZE * page_of a.
Proof.
  rewrite <- Z.ldiff_land. change (PAGE_SIZE - 1) with (Z.ones 12). rewrite Z.ldiff_ones_r by lia.
  rewrite Z.shiftl_mul_pow2, Z.shiftr_div_pow2 by lia. unfold page_of, PAGE_SIZE. change (2 ^ 12) with 4096. lia.
Qed.

Lemma NoDup_remove_Z x l : NoDup l -> NoDup (remove Z.eq_dec x l).
Proof.
  induction 1 as [|y l N H IH]; cbn; [constructor|]. destruct (Z.eq_dec x y); [exact IH|].
  constructor; [|exact IH]. intros Hy. now apply in_remove in Hy as [Hy _].
Qed.

Section Allocator.
Context {K : Kernel} {KO : KernelOk K}.

Lemma alloc_inv_perm w fr bk objs objs' : Permutation objs objs' ->
  alloc_inv w cpu fr bk objs -> alloc_inv w cpu fr bk objs'.
Proof.
  intros P [[B1 B2 B3 B4 B5 B6 B7] C]. pose proof (Permutation_sym P) as P'.
  assert (I : forall o, In o objs' -> In o objs) by (intros o; apply (Permutation_in _ P')).
  split; [constructor; auto|].
  - now apply (Permutation_NoDup P).
  - intros p Hp. rewrite <- (count_perm p _ _ P). now apply B7.
  - destruct C as [C|(p & [C1 C2 C3 C4] & o & Ho & Hp)]; [now left|right]. exists p. split.
    + constructor; auto. now rewrite <- (count_perm p _ _ P).
    + exists o; split; [now apply (Permutation_in _ P) | exact Hp].
Qed.

(** Cutting an object off the current page. *)
Lemma take_run w fr bk objs p off size :
  base_inv w fr bk objs -> page_frag_cur_page w cpu = At Kern (PAGE_SIZE * p) -> In p fr ->
  0 <= off -> off mod 8 = 0 -> 8 <= size -> size mod 8 = 0 -> 8 * count p objs + off + size <= OBJ_CNT ->
  (forall o, In o objs -> page_of (fst o) = p -> PAGE_SIZE * p + off + size <= fst o) ->
  let a := PAGE_SIZE * p + off in
  exists w', take (At Kern (PAGE_SIZE * p)) (At Kern (PAGE_SIZE * p + OBJ_CNT)) off w = Some (At Kern a, w') /\
    alloc_inv w' cpu fr bk ((a, size) :: objs) /\ keeps fr bk w w'.
Proof.
  intros B Cp Hp H0 Ha Hs Hsa Hc Hb a. destruct (bi_pages _ _ _ _ B p Hp) as [P0 Pm].
  destruct (bi_count _ _ _ _ B p Hp) as [Cn Cb].
  unfold OBJ_CNT in *. assert (count p objs >= 0) by (unfold count; lia).
  assert (Pa : page_of a = p) by (apply page_of_add; unfold PAGE_SIZE in *; lia).
  assert (Pc : page_of (PAGE_SIZE * p + (PAGE_SIZE - 8)) = p) by (apply page_of_add; unfold PAGE_SIZE; lia).
  assert (Mc : mapped w (page_of (PAGE_SIZE * p + (PAGE_SIZE - 8))) = true) by now rewrite Pc.
  unfold take. step_by load_int_at. step_by store_int_at. erewrite bind_run by reflexivity.
  eexists; split; [reflexivity|].
  rewrite Cn, uw_small by (unfold is_u, PAGE_SIZE in *; lia).
  assert (New : ~ In (a, size) objs).
  { intros Hin. pose proof (Hb _ Hin Pa) as Hx. cbn [fst] in Hx. unfold a in Hx. lia. }
  split; [split|].
  - destruct B as [B1 B2 B3 B4 B5 B6 B7]. constructor; try assumption.
    + intros o [<-|Ho]; [|now apply B4]. cbn [fst snd]. rewrite Pa. unfold a, PAGE_SIZE in *.
      split; [exact Hp|]. split; [Z.div_mod_to_equations; lia | unfold OBJ_CNT, PAGE_SIZE; lia].
    + now constructor.
    + assert (N : forall o, In o objs -> apart (a, size) o).
      { intros o Ho. destruct (Z.eq_dec (page_of (fst o)) p) as [Eo|Eo].
        - left. pose proof (Hb o Ho Eo). cbn [fst snd]; unfold a; lia.
        - destruct (B4 o Ho) as (_ & _ & S8 & E8). unfold apart; cbn [fst snd].
          unfold page_of, a, PAGE_SIZE, OBJ_CNT in *. destruct o as [x t]; cbn [fst snd] in *.
          unfold PAGE_SIZE in E8. Z.div_mod_to_equations; lia. }
      intros o o' [<-|Ho] [<-|Ho'] Hn; [congruence | now apply N | | now apply B6].
      destruct (N o Ho); [now right | now left].
    + intros q Hq. cbn [ints]. rewrite count_cons. cbn [fst]. rewrite Pa.
      destruct (Z.eqb_spec p q) as [<-|Nq].
      * change (ints _ _) with (fset (ints w) (PAGE_SIZE * p + (PAGE_SIZE - 8)) (count p objs + 1) (PAGE_SIZE * p + OBJ_CNT)).
        unfold OBJ_CNT. rewrite fset_eq. lia.
      * change (ints _ _) with (fset (ints w) (PAGE_SIZE * p + (PAGE_SIZE - 8)) (count p objs + 1) (PAGE_SIZE * q + OBJ_CNT)).
        rewrite fset_ne by (unfold OBJ_CNT, PAGE_SIZE; lia). apply (B7 q Hq).
  - right. exists p. split.
    + constructor; [exact Cp | exact Hp | |].
      * change (page_frag_cur_offset _ cpu) with (fset (page_frag_cur_offset w) cpu off cpu). rewrite fset_eq.
        rewrite count_cons; cbn [fst]. rewrite Pa, Z.eqb_refl. unfold OBJ_CNT. lia.
      * change (page_frag_cur_offset _ cpu) with (fset (page_frag_cur_offset w) cpu off cpu). rewrite fset_eq.
        intros o [<-|Ho] Eo; [cbn [fst]; unfold a; lia | pose proof (Hb o Ho Eo); lia].
    + exists (a, size); split; [now left | exact Pa].
  - intros x Hx. split; [|now split].
    change (fset (ints w) (PAGE_SIZE * p + (PAGE_SIZE - 8)) (count p objs + 1) x = ints w x).
    apply fset_ne. intros ->. rewrite Pc in Hx. unfold OBJ_CNT in Hx.
    destruct Hx as [Hx|[_ Hx]]; [now apply (bi_bk _ _ _ _ B) in Hx as (_ & _ & Hx) | lia].
Qed.

Lemma base_inv_calls w fr bk objs : base_inv w fr bk objs -> base_inv (w <| calls ::= S |>) fr bk objs.
Proof. intros [B1 B2 B3 B4 B5 B6 B7]; now constructor. Qed.

Lemma alloc_inv_calls w fr bk objs : alloc_inv w cpu fr bk objs -> alloc_inv (w <| calls ::= S |>) cpu fr bk objs.
Proof.
  intros [B [C|(p & [C1 C2 C3 C4] & O)]]; (split; [now apply base_inv_calls|]); [now left|right].
  exists p; split; [now constructor | exact O].
Qed.

(** A fresh page. *)
Definition refilled (w w' : world) (fr bk : list Z) (objs : list (Z * Z)) (p : Z) : Prop :=
  base_inv w' (p :: fr) bk objs /\ page_frag_cur_page w' cpu = At Kern (PAGE_SIZE * p) /\
  page_frag_cur_offset w' cpu = OBJ_CNT /\ count p objs = 0 /\
  (forall o, In o objs -> page_of (fst o) <> p) /\ keeps fr bk w w'.

Lemma refill_run w fr bk objs : base_inv w fr bk objs ->
  bpf_alloc_refill w = Some (None, w <| calls ::= S |>) \/
  exists p w', bpf_alloc_refill w = Some (Some (At Kern (PAGE_SIZE * p), At Kern (PAGE_SIZE * p + OBJ_CNT)), w') /\
    refilled w w' fr bk objs p.
Proof.
  intros B. destruct (alloc_pages_ok 1 w) as [F|(p & P0 & P9 & Pf & F)].
  { left. unfold bpf_alloc_refill. rewrite (bind_run _ _ _ _ _ F). reflexivity. }
  right. specialize (Pf 0 ltac:(lia)). rewrite Z.add_0_r in Pf.
  set (w1 := fresh p 1 w
               <| page_frag_cur_page ::= (fun f => fset f cpu (At Kern (PAGE_SIZE * p))) |>
               <| page_frag_cur_offset ::= (fun f => fset f cpu (PAGE_SIZE - 8)) |>).
  assert (Rng : forall a, in_range p 1 a = (page_of a =? p)).
  { intros a; unfold in_range. apply eq_true_iff_eq. rewrite andb_true_iff, Z.leb_le, Z.ltb_lt, Z.eqb_eq. lia. }
  assert (Mp : forall q, mapped w1 q = if q =? p then true else mapped w q).
  { intros q. change (mapped w1 q) with (if (p <=? q) && (q <? p + 1) then true else mapped w q).
    replace ((p <=? q) && (q <? p + 1)) with (q =? p); [reflexivity|].
    apply eq_true_iff_eq. rewrite andb_true_iff, Z.leb_le, Z.ltb_lt, Z.eqb_eq. lia. }
  assert (Nf : forall q, In q fr \/ In q bk -> q <> p).
  { intros q [Hq|Hq] ->; [destruct (bi_pages _ _ _ _ B p Hq) | destruct (bi_bk _ _ _ _ B p Hq) as (_ & ? & _)]; congruence. }
  assert (No : forall o, In o objs -> page_of (fst o) <> p).
  { intros o Ho. apply Nf; left. apply (bi_objs _ _ _ _ B o Ho). }
  assert (Pc : page_of (PAGE_SIZE * p + OBJ_CNT) = p) by (apply page_of_add; unfold OBJ_CNT, PAGE_SIZE; lia).
  assert (I1 : forall a, ints w1 a = if page_of a =? p then 0 else ints w a).
  { intros a. rewrite <- Rng. reflexivity. }
  exists p, (w1 <| ints ::= (fun f => fset f (PAGE_SIZE * p + OBJ_CNT) 0) |>). split.
  { unfold bpf_alloc_refill. rewrite (bind_run _ _ _ _ _ F).
    cbn [is_null cast_kern]. erewrite bind_run by reflexivity. cbn [add].
    erewrite bind_run; [|apply (store_int_at w1); fold OBJ_CNT; rewrite Pc, Mp, Z.eqb_refl; reflexivity]. reflexivity. }
  assert (I2 : forall a, fset (ints w1) (PAGE_SIZE * p + OBJ_CNT) 0 a = if page_of a =? p then 0 else ints w a).
  { intros a. unfold fset. destruct (Z.eqb_spec a (PAGE_SIZE * p + OBJ_CNT)) as [->|_]; [now rewrite Pc, Z.eqb_refl | apply I1]. }
  split; [|split; [apply fset_eq|split; [apply fset_eq|split; [now apply count_nil|split; [exact No|]]]]].
  - destruct B as [B1 B2 B3 B4 B5 B6 B7]. constructor; try assumption.
    + constructor; [|exact B1]. intros Hp; now apply (Nf p (or_introl Hp)).
    + intros q Hq. change (mapped _ q) with (mapped w1 q). rewrite Mp.
      destruct Hq as [<-|Hq]; [rewrite Z.eqb_refl; split; [lia | reflexivity]|].
      destruct (q =? p); [|now apply B2]. split; [apply (B2 q Hq) | reflexivity].
    + intros q Hq. change (mapped _ q) with (mapped w1 q). rewrite Mp. destruct (B3 q Hq) as (Q0 & Q1 & Q2).
      split; [exact Q0|]. split; [now destruct (q =? p)|]. intros [<-|Hf]; [now apply (Nf p (or_intror Hq)) | now apply Q2].
    + intros o Ho. destruct (B4 o Ho) as (X & Y); split; [now right | exact Y].
    + intros q Hq.
      change (ints _ (PAGE_SIZE * q + OBJ_CNT)) with (fset (ints w1) (PAGE_SIZE * p + OBJ_CNT) 0 (PAGE_SIZE * q + OBJ_CNT)).
      rewrite I2, page_of_add by (unfold OBJ_CNT, PAGE_SIZE; lia).
      destruct (Z.eqb_spec q p) as [->|Nq]; [rewrite count_nil by exact No; unfold OBJ_CNT, PAGE_SIZE; lia|].
      destruct Hq as [->|Hq]; [congruence | now apply B7].
  - intros a Ha. assert (Na : page_of a <> p) by (apply Nf; tauto).
    split; [|split].
    + change (fset (ints w1) (PAGE_SIZE * p + OBJ_CNT) 0 a = ints w a). rewrite I2.
      destruct (Z.eqb_spec (page_of a) p); congruence.
    + change ((if in_range p 1 a then Null else ptrs w a) = ptrs w a). rewrite Rng.
      destruct (Z.eqb_spec (page_of a) p); congruence.
    + change (mapped w1 (page_of a) = mapped w (page_of a)). rewrite Mp.
      destruct (Z.eqb_spec (page_of a) p); congruence.
Qed.

Lemma keeps_trans fr fr' bk w1 w2 w3 : incl fr fr' -> keeps fr bk w1 w2 -> keeps fr' bk w2 w3 -> keeps fr bk w1 w3.
Proof.
  intros I K1 K2 a Ha. destruct (K1 a Ha) as (E1 & E2 & E3).
  destruct (K2 a) as (E4 & E5 & E6); [destruct Ha as [?|[? ?]]; [now left | right; auto]|].
  repeat split; congruence.
Qed.

Lemma keeps_calls fr bk w : keeps fr bk w (w <| calls ::= S |>).
Proof. intros a _; auto. Qed.

(** What an allocation returns: nothing, with every object where it was, or a
    new object apart from all the others, on the page that is now current. *)
Definition allocated (w w' : world) (fr bk : list Z) (objs : list (Z * Z)) (size : Z) (r : ptr) : Prop :=
  keeps fr bk w w' /\
  (r = Null /\ alloc_inv w' cpu fr bk objs \/
   exists a fr', r = At Kern a /\ alloc_inv w' cpu fr' bk ((a, size) :: objs) /\ incl fr fr' /\
     page_frag_cur_page w' cpu = At Kern (PAGE_SIZE * page_of a)).

Lemma take_cur page cnt off w r w' : take page cnt off w = Some (r, w') ->
  page_frag_cur_page w' = page_frag_cur_page w.
Proof.
  assert (L : forall p n x, load_int p w = Some (n, x) -> x = w).
  { intros p n x; unfold load_int, bind, access, get. destruct p as [|[] c|]; try discriminate.
    destruct (mapped w (page_of c)); [|discriminate]. congruence. }
  assert (T : forall p n x u, store_int p n w = Some (u, x) -> page_frag_cur_page x = page_frag_cur_page w).
  { intros p n x u; unfold store_int, bind, access, modify. destruct p as [|[] c|]; try discriminate.
    destruct (mapped w (page_of c)); [|discriminate]. intros X; injection X as _ <-; reflexivity. }
  unfold take. unfold bind at 1. destruct (load_int cnt w) as [[n x]|] eqn:E1; [|discriminate].
  apply L in E1 as ->. unfold bind at 1. destruct (store_int cnt _ w) as [[u x]|] eqn:E2; [|discriminate].
  apply T in E2. intros X; injection X as _ <-. exact E2.
Qed.

(** An allocation on a fresh page. *)
Lemma take_fresh w w1 fr bk objs p size : refilled w w1 fr bk objs p ->
  8 <= size -> size mod 8 = 0 -> size < OBJ_CNT ->
  exists r w', take (At Kern (PAGE_SIZE * p)) (At Kern (PAGE_SIZE * p + OBJ_CNT)) (OBJ_CNT - size) w1 = Some (r, w') /\
    allocated w w' fr bk objs size r.
Proof.
  intros (B & Cp & Co & C0 & No & Kp) S1 S2 S3.
  destruct (take_run w1 (p :: fr) bk objs p (OBJ_CNT - size) size B Cp (or_introl eq_refl)) as (w' & E & A & K2).
  1-5: unfold OBJ_CNT, PAGE_SIZE in *; try rewrite C0; Z.div_mod_to_equations; lia.
  { intros o Ho Eo. now destruct (No o Ho). }
  exists (At Kern (PAGE_SIZE * p + (OBJ_CNT - size))), w'. split; [exact E|]. split.
  - apply (keeps_trans _ (p :: fr) _ _ w1); [now apply incl_tl, incl_refl | exact Kp | exact K2].
  - right. exists (PAGE_SIZE * p + (OBJ_CNT - size)), (p :: fr). split; [reflexivity|]. split; [exact A|].
    split; [apply incl_tl, incl_refl|]. rewrite page_of_add by (unfold OBJ_CNT, PAGE_SIZE in *; lia).
    now rewrite (take_cur _ _ _ _ _ _ E).
Qed.

Lemma alloc_run w fr bk objs size : alloc_inv w cpu fr bk objs ->
  8 <= size -> size mod 8 = 0 -> size < OBJ_CNT -> round_up size 8 = size ->
  exists r w', bpf_alloc size w = Some (r, w') /\ allocated w w' fr bk objs size r.
Proof.
  intros A S1 S2 S3 R. pose proof A as [B C].
  assert (I32 : i32 size = size) by (apply i32_small; unfold OBJ_CNT, PAGE_SIZE in *; lia).
  assert (Fail : allocated w (w <| calls ::= S |>) fr bk objs size Null).
  { split; [apply keeps_calls | left; split; [reflexivity | now apply alloc_inv_calls]]. }
  unfold bpf_alloc. erewrite bind_run by reflexivity. cbv zeta. rewrite R, I32.
  fold OBJ_CNT. destruct (Z.leb_spec OBJ_CNT size); [lia|].
  destruct C as [[Cn Cf]|(p & [C1 C2 (O1 & O2 & O3) C4] & Busy)].
  - rewrite Cn; cbn [is_null]. destruct (refill_run w fr bk objs B) as [E|(p & w1 & E & Rf)].
    + rewrite (bind_run _ _ w None (w <| calls ::= S |>)) by (now rewrite (bind_run _ _ _ _ _ E)).
      exists Null, (w <| calls ::= S |>). now split.
    + erewrite bind_run; [|rewrite (bind_run _ _ _ _ _ E); reflexivity]. cbn [option_map fst snd].
      rewrite i32_small by (unfold OBJ_CNT, PAGE_SIZE in *; lia).
      destruct (Z.ltb_spec (OBJ_CNT - size) 0); [lia|]. now apply take_fresh.
  - rewrite C1; cbn [is_null cast_kern add]. fold OBJ_CNT.
    erewrite bind_run; [|erewrite bind_run by reflexivity; reflexivity]. cbv beta iota.
    assert (count p objs >= 0) by (unfold count; lia).
    rewrite i32_small by (unfold OBJ_CNT, PAGE_SIZE in *; lia).
    destruct (Z.ltb_spec (page_frag_cur_offset w cpu - size) 0) as [N|N].
    + unfold refill_and_take. destruct (refill_run w fr bk objs B) as [E|(p' & w1 & E & Rf)];
        rewrite (bind_run _ _ _ _ _ E); cbv beta iota.
      * exists Null, (w <| calls ::= S |>). now split.
      * now apply take_fresh.
    + destruct (take_run w fr bk objs p (page_frag_cur_offset w cpu - size) size B C1 C2) as (w' & E & A' & K');
        try (Z.div_mod_to_equations; lia).
      { intros o Ho Eo. pose proof (C4 o Ho Eo). lia. }
      eexists _, w'. split; [exact E|]. split; [exact K'|]. right.
      eexists _, fr. split; [reflexivity|]. split; [exact A'|]. split; [apply incl_refl|].
      rewrite (take_cur _ _ _ _ _ _ E), C1, page_of_add by (unfold OBJ_CNT, PAGE_SIZE in *; lia). reflexivity.
Qed.

(** A freed object's page goes with its last object; the current page is not
    that one as long as it has another. *)
Lemma free_run w fr bk objs a size p : alloc_inv w cpu fr bk ((a, size) :: objs) ->
  page_frag_cur_page w cpu = At Kern (PAGE_SIZE * p) -> busy p objs ->
  exists w' fr', bpf_free (At Kern a) w = Some (tt, w') /\ alloc_inv w' cpu fr' bk objs /\ incl fr' fr /\
    ptrs w' = ptrs w /\ (forall x, x <> PAGE_SIZE * page_of a + OBJ_CNT -> ints w' x = ints w x).
Proof.
  intros [[B1 B2 B3 B4 B5 B6 B7] C] Cp Busy. set (q := page_of a).
  assert (Ha : In (a, size) ((a, size) :: objs)) by now left.
  destruct (B4 _ Ha) as (Hq & _ & _ & _). cbn [fst] in Hq. fold q in Hq.
  destruct (B2 q Hq) as [Q0 Qm]. destruct (B7 q Hq) as [Cn Cb]. rewrite count_cons in Cn, Cb. cbn [fst] in Cn, Cb.
  fold q in Cn, Cb. rewrite Z.eqb_refl in Cn, Cb. assert (Cg : 0 <= count q objs) by (unfold count; lia).
  assert (Pc : page_of (PAGE_SIZE * q + OBJ_CNT) = q) by (apply page_of_add; unfold OBJ_CNT, PAGE_SIZE; lia).
  destruct C as [[C _]|(p' & [C1 C2 (O1 & O2 & O3) C4] & _)]; [congruence|].
  assert (p' = p) as ->.
  { assert (X : PAGE_SIZE * p = PAGE_SIZE * p') by congruence. unfold PAGE_SIZE in X; lia. }
  clear C1.
  set (w1 := w <| ints ::= (fun f => fset f (PAGE_SIZE * q + OBJ_CNT) (count q objs)) |>).
  assert (E : bpf_free (At Kern a) w =
    Some (tt, if count q objs =? 0 then w1 <| mapped ::= (fun m => fset m q false) |> else w1)).
  { unfold bpf_free. rewrite page_base. fold q. cbn [add]. fold OBJ_CNT.
    assert (M1 : mapped w (page_of (PAGE_SIZE * q + OBJ_CNT)) = true) by now rewrite Pc.
    step_by load_int_at. rewrite Cn. replace (1 + count q objs - 1) with (count q objs) by lia.
    rewrite uw_small by (unfold is_u, OBJ_CNT, PAGE_SIZE in *; lia). step_by store_int_at. fold w1.
    assert (M2 : mapped w1 (page_of (PAGE_SIZE * q + OBJ_CNT)) = true) by exact M1.
    step_by load_int_at. change (ints w1 _) with (fset (ints w) (PAGE_SIZE * q + OBJ_CNT) (count q objs) (PAGE_SIZE * q + OBJ_CNT)).
    rewrite fset_eq. destruct (count q objs =? 0); cbn [when]; [|reflexivity].
    rewrite free_pages_ok. unfold unmap. rewrite <- (Z.add_0_r (PAGE_SIZE * q)), page_of_add by (unfold PAGE_SIZE; lia).
    reflexivity. }
  assert (I1 : forall x, ints w1 x = fset (ints w) (PAGE_SIZE * q + OBJ_CNT) (count q objs) x) by reflexivity.
  assert (Cnt : forall r, In r fr -> ints w1 (PAGE_SIZE * r + OBJ_CNT) = count r objs /\ 8 * count r objs <= OBJ_CNT).
  { intros r Hr. rewrite I1. destruct (Z.eq_dec r q) as [->|Nr]; [rewrite fset_eq; lia|].
    rewrite fset_ne by (unfold PAGE_SIZE; lia). destruct (B7 r Hr) as [X Y]. rewrite count_cons in X, Y. cbn [fst] in X, Y.
    fold q in X, Y. destruct (Z.eqb_spec q r); [congruence|]. lia. }
  inversion B5 as [|? ? Nin B5']; subst.
  assert (Sep : forall o o', In o objs -> In o' objs -> o <> o' -> apart o o') by (intros; apply B6; auto; now right).
  destruct Busy as (b & Hb & Eb).
  assert (Cur : forall w2 fr', page_frag_cur_page w2 = page_frag_cur_page w -> page_frag_cur_offset w2 = page_frag_cur_offset w ->
    In p fr' -> exists p, cur_inv w2 cpu fr' objs p /\ busy p objs).
  { intros w2 fr' E1 E2 Hp. exists p. split; [|now exists b]. constructor; rewrite ?E1, ?E2; auto.
    - split; [exact O1|]. split; [exact O2|]. rewrite count_cons in O3. cbn [fst] in O3. revert O3. case_if; lia.
    - intros o Ho; apply C4; now right. }
  exists (if count q objs =? 0 then w1 <| mapped ::= (fun m => fset m q false) |> else w1).
  destruct (Z.eqb_spec (count q objs) 0) as [Z0|Z0].
  - exists (remove Z.eq_dec q fr). split; [exact E|].
    assert (Nq : forall o, In o objs -> page_of (fst o) <> q).
    { intros o Ho Eo. revert Z0. unfold count. intros Z0.
      assert (In o (on_page q objs)) by (apply filter_In; split; [exact Ho | now apply Z.eqb_eq]).
      destruct (on_page q objs); [contradiction | cbn [length] in Z0; lia]. }
    assert (Pq : p <> q) by (rewrite <- Eb; now apply Nq).
    split; [split|split; [|split; [reflexivity | intros x Hx; now apply fset_ne]]].
    + constructor.
      * now apply NoDup_remove_Z.
      * intros r Hr. apply in_remove in Hr as [Hr Nr]. destruct (B2 r Hr). split; [assumption|].
        change (fset (mapped w) q false r = true). now rewrite fset_ne.
      * intros r Hr. destruct (B3 r Hr) as (X & Y & N). split; [exact X|]. split.
        -- change (fset (mapped w) q false r = true). rewrite fset_ne; [exact Y | intros ->; now apply N].
        -- intros Hr'. apply in_remove in Hr' as [Hr' _]. now apply N.
      * intros o Ho. destruct (B4 o (or_intror Ho)) as (X & Y). split; [|exact Y].
        apply in_in_remove; [now apply Nq | exact X].
      * exact B5'.
      * exact Sep.
      * intros r Hr. apply in_remove in Hr as [Hr _]. apply (Cnt r Hr).
    + right. apply Cur; [reflexivity | reflexivity|]. apply in_in_remove; [exact Pq | exact C2].
    + intros r Hr. now apply in_remove in Hr as [Hr _].
  - exists fr. split; [exact E|].
    split; [split|split; [apply incl_refl|split; [reflexivity | intros x Hx; now apply fset_ne]]].
    + constructor; try assumption. intros o Ho. apply (B4 o (or_intror Ho)).
    + right. now apply Cur.
Qed.

End Allocator.
(** ** The table

    [T i] are the elements of bucket [i], first to last; the table's own record
    is at [h] and its buckets on the two pages from [bp]. *)

Definition NB : nat := 1024.
Definition slot (bp : Z) (i : nat) : Z := PAGE_SIZE * bp + BUCKET_SIZE * Z.of_nat i.
Definition bucket_of (key : Z) : nat := Z.to_nat (Z.land (u32 key) (Z.of_nat NB - 1)).
Definition elems (T : nat -> list Z) : list Z := flat_map T (seq 0 NB).
Definition elem (e : Z) : Z * Z := (e, ELEM_SIZE).
Definition objs_of (h : Z) (T : nat -> list Z) : list (Z * Z) := (h, HTAB_SIZE) :: map elem (elems T).
Definition entries (w : world) (l : list Z) : list (Z * Z) := map (fun e => (ints w (e + KEY), ints w (e + VALUE))) l.

(** Every pointer of the table that user space follows is in the user's
    numbering and leads to a live object. *)
Record table_inv (w : world) (h bp : Z) (T : nat -> list Z) : Prop := {
  ti_buckets : ptrs w (h + BUCKETS) = At User (PAGE_SIZE * bp);
  ti_n : ints w (h + N_BUCKETS) = Z.of_nat NB;
  ti_list : forall i, (i < NB)%nat -> hl (ptrs w) (slot bp i) (T i);
  ti_key : forall i e, (i < NB)%nat -> In e (T i) ->
    ints w (e + HASH) = ints w (e + KEY) /\ bucket_of (ints w (e + KEY)) = i
}.

Definition upd (T : nat -> list Z) (i : nat) (l : list Z) : nat -> list Z :=
  fun j => if Nat.eqb j i then l else T j.

Lemma upd_eq T i l : upd T i l i = l.
Proof. unfold upd; now rewrite Nat.eqb_refl. Qed.
Lemma upd_ne T i l j : j <> i -> upd T i l j = T j.
Proof. unfold upd; intros; destruct (Nat.eqb_spec j i); congruence. Qed.

(** The elements outside bucket [i]. *)
Definition others (T : nat -> list Z) (i : nat) : list Z := flat_map T (seq 0 i) ++ flat_map T (seq (S i) (NB - S i)).

Lemma elems_split T i : (i < NB)%nat -> Permutation (elems T) (T i ++ others T i).
Proof.
  intros Hi. unfold elems, others. replace NB with (i + S (NB - S i))%nat at 1 by lia.
  rewrite seq_app, flat_map_app. cbn [seq flat_map Nat.add]. rewrite app_assoc, (Permutation_app_comm (flat_map T (seq 0 i))).
  now rewrite <- app_assoc.
Qed.

Lemma others_upd T i l : others (upd T i l) i = others T i.
Proof.
  unfold others. f_equal; apply flat_map_ext_in; intros j Hj%in_seq; apply upd_ne; lia.
Qed.

Lemma elems_upd T i l : (i < NB)%nat -> Permutation (elems (upd T i l)) (l ++ others T i).
Proof. intros Hi. rewrite (elems_split _ i Hi), upd_eq, others_upd. reflexivity. Qed.

Lemma in_elems T e : In e (elems T) <-> exists i, (i < NB)%nat /\ In e (T i).
Proof.
  unfold elems. rewrite in_flat_map. split; intros (i & H1 & H2); exists i; (split; [|exact H2]).
  - apply in_seq in H1; lia.
  - apply in_seq; lia.
Qed.

Lemma in_links c l : In c (links l) <-> exists e, In e l /\ (c = e + HASH_NODE \/ c = e + HASH_NODE + PPREV).
Proof.
  unfold links. rewrite in_flat_map. split; intros (e & H1 & H2); exists e; (split; [exact H1|]); cbn [In] in *; intuition.
Qed.

Section Layout.
Context {w : world} {fr bk : list Z} {objs : list (Z * Z)} (B : base_inv w fr bk objs).

(** A byte of an object. *)
Lemma obj_cell o k : In o objs -> 0 <= k < snd o ->
  page_of (fst o + k) = page_of (fst o) /\ In (page_of (fst o)) fr /\
  fst o + k < PAGE_SIZE * page_of (fst o + k) + OBJ_CNT /\ mapped w (page_of (fst o + k)) = true.
Proof.
  intros Ho Hk. destruct (bi_objs _ _ _ _ B o Ho) as (Hp & _ & _ & He).
  assert (E : page_of (fst o + k) = page_of (fst o)).
  { unfold page_of, OBJ_CNT, PAGE_SIZE in *. Z.div_mod_to_equations; lia. }
  rewrite E. repeat split; [exact Hp | lia | apply (bi_pages _ _ _ _ B _ Hp)].
Qed.

Lemma obj_usable o : In o objs -> usable w (fst o) (snd o).
Proof. intros Ho k Hk. now apply (obj_cell o k Ho Hk). Qed.

Lemma elems_apart e e' : In (elem e) objs -> In (elem e') objs -> e <> e' ->
  e + ELEM_SIZE <= e' \/ e' + ELEM_SIZE <= e.
Proof. intros H H' N. apply (bi_apart _ _ _ _ B _ _ H H'). unfold elem; congruence. Qed.

(** The links of different elements are different. *)
Lemma link_owner e e' c : In (elem e) objs -> In (elem e') objs ->
  c = e + HASH_NODE \/ c = e + HASH_NODE + PPREV -> c = e' + HASH_NODE \/ c = e' + HASH_NODE + PPREV -> e = e'.
Proof.
  intros H H' C C'. destruct (Z.eq_dec e e') as [E|N]; [exact E|].
  pose proof (elems_apart e e' H H' N). unfold ELEM_SIZE, HASH_NODE, PPREV in *. lia.
Qed.

Lemma NoDup_links l : NoDup l -> (forall e, In e l -> In (elem e) objs) -> NoDup (links l).
Proof.
  induction 1 as [|e l N ND IH]; intros I; [constructor|]. cbn [links flat_map app].
  assert (X : forall c, c = e + HASH_NODE \/ c = e + HASH_NODE + PPREV -> ~ In c (links l)).
  { intros c C (e' & He' & C')%in_links. assert (e = e') as <-; [|contradiction].
    apply (link_owner e e' c); auto; apply I; [now left | now right]. }
  constructor; [|constructor].
  - intros [E|E]; [unfold PPREV in E; lia | now apply (X (e + HASH_NODE)); [left|]].
  - apply X; now right.
  - apply IH; intros; apply I; now right.
Qed.

(** A bucket lies outside the fragment pages. *)
Lemma link_not_slot s e c : In (page_of s) bk -> In (elem e) objs ->
  c = e + HASH_NODE \/ c = e + HASH_NODE + PPREV -> c <> s.
Proof.
  intros Hs He C ->. destruct (bi_bk _ _ _ _ B _ Hs) as (_ & _ & N). apply N.
  assert (X : exists k, 0 <= k < ELEM_SIZE /\ s = e + k).
  { destruct C as [-> | ->]; [exists HASH_NODE | exists (HASH_NODE + PPREV)]; unfold ELEM_SIZE, HASH_NODE, PPREV; lia. }
  destruct X as (k & Hk & ->). destruct (obj_cell (elem e) k He Hk) as (E & F & _). cbn [elem fst] in *. now rewrite E.
Qed.

Lemma cell_not_obj s l o k : In (page_of s) bk -> (forall e, In e l -> In (elem e) objs /\ o <> elem e) ->
  In o objs -> 0 <= k < snd o -> ~ In (fst o + k) (cells s l).
Proof.
  intros Hs I Ho Hk [E|(e & He & C)%in_links].
  - destruct (obj_cell o k Ho Hk) as (P & F & _). destruct (bi_bk _ _ _ _ B _ Hs) as (_ & _ & N). apply N. now rewrite E, P.
  - destruct (I e He) as [Ie Ne]. pose proof (bi_apart _ _ _ _ B o (elem e) Ho Ie Ne) as D.
    unfold apart, elem in D. cbn [fst snd] in D. unfold ELEM_SIZE, HASH_NODE, PPREV in *. lia.
Qed.

Lemma NoDup_cells s l : In (page_of s) bk -> NoDup l -> (forall e, In e l -> In (elem e) objs) -> NoDup (cells s l).
Proof.
  intros Hs ND I. constructor; [|now apply NoDup_links].
  intros (e & He & C)%in_links. now apply (link_not_slot s e s Hs (I e He) C).
Qed.

End Layout.

Lemma slot_page bp i : (i < NB)%nat -> In (page_of (slot bp i)) [bp; bp + 1].
Proof.
  unfold slot, page_of, PAGE_SIZE, BUCKET_SIZE, NB; intros Hi. cbn [In]. Z.div_mod_to_equations; lia.
Qed.

(** ** The abstract table

    A bucket is a list of keys and values, newest first.  An update puts the
    pair in front and takes away the first older one with the key, if it is
    among as many as the walk visits. *)

Fixpoint remove_key (n : nat) (k : Z) (l : list (Z * Z)) : list (Z * Z) :=
  match n, l with
  | S n, (k', v') :: l => if k' =? k then l else (k', v') :: remove_key n k l
  | _, _ => l
  end.
Definition put (k v : Z) (l : list (Z * Z)) : list (Z * Z) := (k, v) :: remove_key MAX_BUCKET_WALK k l.
Definition lookup (k : Z) (l : list (Z * Z)) : option Z := option_map snd (find (fun e => fst e =? k) l).

Lemma find_split w k n l :
  match find (fun e => ints w (e + KEY) =? k) (firstn n l) with
  | Some e => exists l1 l2, l = l1 ++ e :: l2 /\ remove_key n k (entries w l) = entries w (l1 ++ l2)
  | None => remove_key n k (entries w l) = entries w l
  end.
Proof.
  revert n; induction l as [|e l IH]; intros n; [now destruct n|]. destruct n as [|n]; [reflexivity|].
  cbn [firstn find entries map remove_key]. destruct (ints w (e + KEY) =? k) eqn:E.
  - now exists [], l.
  - specialize (IH n). destruct (find _ _) as [x|].
    + destruct IH as (l1 & l2 & -> & R). exists (e :: l1), l2. split; [reflexivity|].
      cbn [app entries map]. unfold entries in R. now rewrite R.
    + unfold entries in IH |- *. now rewrite IH.
Qed.

Lemma entries_ext w w' l :
  (forall e, In e l -> ints w' (e + KEY) = ints w (e + KEY) /\ ints w' (e + VALUE) = ints w (e + VALUE)) ->
  entries w' l = entries w l.
Proof. intros H. apply map_ext_in. intros e He. now destruct (H e He) as [-> ->]. Qed.

(** The table lives in objects and buckets: it is the same where they are. *)
Lemma table_ext w w' h bp T :
  (forall k, 0 <= k < HTAB_SIZE -> ints w' (h + k) = ints w (h + k) /\ ptrs w' (h + k) = ptrs w (h + k)) ->
  (forall i, (i < NB)%nat -> ptrs w' (slot bp i) = ptrs w (slot bp i)) ->
  (forall e k, In e (elems T) -> 0 <= k < ELEM_SIZE -> ints w' (e + k) = ints w (e + k) /\ ptrs w' (e + k) = ptrs w (e + k)) ->
  table_inv w h bp T -> table_inv w' h bp T.
Proof.
  intros Hh Hs He [T1 T2 T3 T4]. constructor.
  - destruct (Hh BUCKETS) as [_ ->]; [unfold BUCKETS, HTAB_SIZE; lia | exact T1].
  - destruct (Hh N_BUCKETS) as [-> _]; [unfold N_BUCKETS, HTAB_SIZE; lia | exact T2].
  - intros i Hi. refine (hl_frame _ _ _ _ _ (T3 i Hi)). intros c [<-|(e & Hc & C)%in_links]; [now apply Hs|].
    assert (X : In e (elems T)) by (apply in_elems; eauto).
    destruct C as [-> | ->]; [|rewrite <- Z.add_assoc]; apply (He e); auto; unfold ELEM_SIZE, HASH_NODE, PPREV; lia.
  - intros i e Hi Hin. assert (X : In e (elems T)) by (apply in_elems; eauto).
    destruct (He e HASH X) as [-> _]; [unfold HASH, ELEM_SIZE; lia|].
    destruct (He e KEY X) as [-> _]; [unfold KEY, ELEM_SIZE; lia|]. now apply T4.
Qed.

Section Update.
Context {L : KLoop} {K : Kernel} {KO : KernelOk K}.

Lemma objs_elem h T e : In e (elems T) -> In (elem e) (objs_of h T).
Proof. intros; right; now apply in_map. Qed.

(** An allocation does not touch the table. *)
Lemma keeps_table w w' fr h bp T : base_inv w fr [bp; bp + 1] (objs_of h T) -> keeps fr [bp; bp + 1] w w' ->
  table_inv w h bp T -> table_inv w' h bp T /\ forall e, In e (elems T) -> entries w' [e] = entries w [e].
Proof.
  intros B Kp TI.
  assert (O : forall o k, In o (objs_of h T) -> 0 <= k < snd o ->
    ints w' (fst o + k) = ints w (fst o + k) /\ ptrs w' (fst o + k) = ptrs w (fst o + k)).
  { intros o k Ho Hk. destruct (obj_cell B o k Ho Hk) as (E & F & G & _).
    destruct (Kp (fst o + k)) as (X & Y & _); [right; now rewrite E in * | now split]. }
  split.
  - apply (table_ext w); [| | |exact TI].
    + intros k Hk. apply (O (h, HTAB_SIZE) k); [now left | exact Hk].
    + intros i Hi. apply (Kp (slot bp i)). left. now apply slot_page.
    + intros e k He Hk. apply (O (elem e) k); [now apply objs_elem | exact Hk].
  - intros e He. apply entries_ext. intros x [<-|[]].
    split; apply (O (elem e)); try (now apply objs_elem); unfold KEY, VALUE, elem, ELEM_SIZE; cbn [snd]; lia.
Qed.

Lemma entries_each w w' l : (forall e, In e l -> entries w' [e] = entries w [e]) -> entries w' l = entries w l.
Proof.
  intros H. apply entries_ext. intros e He. specialize (H e He). cbn in H. split; congruence.
Qed.

Lemma select_run w fr h bp T key : base_inv w fr [bp; bp + 1] (objs_of h T) -> table_inv w h bp T ->
  select_bucket (At Kern h) (u32 key) w = Some (At Kern (slot bp (bucket_of key)), w).
Proof.
  intros B [T1 T2 _ _]. unfold select_bucket.
  pose proof (obj_usable B (h, HTAB_SIZE) (or_introl eq_refl)) as U. cbn [fst snd] in U.
  cbn [add]. rewrite (bind_run _ _ _ _ _ (load_ptr_at w (h + BUCKETS) (U BUCKETS ltac:(unfold BUCKETS, HTAB_SIZE; lia)))).
  rewrite T1. cbn [cast_kern].
  rewrite (bind_run _ _ _ _ _ (load_int_at w (h + N_BUCKETS) (U N_BUCKETS ltac:(unfold N_BUCKETS, HTAB_SIZE; lia)))).
  rewrite T2. change (u32 (u32 (Z.of_nat NB) - 1)) with (Z.of_nat NB - 1). cbn [add ret].
  unfold ret, slot, bucket_of. rewrite Z2Nat.id; [reflexivity|]. apply Z.land_nonneg. right; cbn; lia.
Qed.

Lemma bucket_lt key : (bucket_of key < NB)%nat.
Proof.
  unfold bucket_of. change (Z.of_nat NB - 1) with (Z.ones 10). rewrite Z.land_ones by lia.
  pose proof (Z.mod_pos_bound (u32 key) (2 ^ 10) ltac:(lia)). unfold NB. change (2 ^ 10) with 1024 in *. lia.
Qed.

(** ** Buckets do not overlap *)

Definition owned (objs : list (Z * Z)) (T : nat -> list Z) : Prop :=
  NoDup (elems T) /\ forall e, In e (elems T) -> In (elem e) objs.

Lemma owned_objs_of w fr bk h T : base_inv w fr bk (objs_of h T) -> owned (objs_of h T) T.
Proof.
  intros B. split; [|intros; now apply objs_elem]. pose proof (bi_nodup _ _ _ _ B) as N.
  inversion N as [|? ? _ N']; subst. now apply NoDup_map_inv in N'.
Qed.

Lemma owned_bucket objs T i : owned objs T -> (i < NB)%nat -> NoDup (T i) /\ forall e, In e (T i) -> In (elem e) objs.
Proof.
  intros [N O] Hi. split.
  - apply (Permutation_NoDup (elems_split T i Hi)) in N. now apply NoDup_app_remove_r in N.
  - intros e He. apply O, in_elems. eauto.
Qed.

Lemma NoDup_app_not_in {A} (l l' : list A) a : NoDup (l ++ l') -> In a l -> ~ In a l'.
Proof.
  induction l as [|b l IH]; cbn; [easy|]. intros N. inversion N as [|? ? N1 N2]; subst.
  intros [->|H]; [|now apply IH]. intros H; apply N1, in_app_iff; now right.
Qed.

Lemma owned_other objs T i j e : owned objs T -> (i < NB)%nat -> (j < NB)%nat -> i <> j -> In e (T i) -> ~ In e (T j).
Proof.
  intros [N _] Hi Hj Nij H1 H2. apply (Permutation_NoDup (elems_split T i Hi)) in N.
  apply (NoDup_app_not_in _ _ e N H1). unfold others. apply in_app_iff.
  destruct (Nat.lt_ge_cases j i); [left|right]; apply in_flat_map; exists j; (split; [apply in_seq; lia | exact H2]).
Qed.

Lemma cells_disjoint w fr bp objs T i j c : base_inv w fr [bp; bp + 1] objs -> owned objs T ->
  (i < NB)%nat -> (j < NB)%nat -> i <> j -> In c (cells (slot bp j) (T j)) -> ~ In c (cells (slot bp i) (T i)).
Proof.
  intros B O Hi Hj N [<-|(e & He & C)%in_links] [E|(e' & He' & C')%in_links].
  - unfold slot, BUCKET_SIZE in E. lia.
  - now apply (link_not_slot B (slot bp j) e' (slot bp j) (slot_page bp j Hj) (proj2 (owned_bucket _ _ _ O Hi) _ He') C').
  - apply (link_not_slot B (slot bp i) e c (slot_page bp i Hi) (proj2 (owned_bucket _ _ _ O Hj) _ He) C). now symmetry.
  - assert (e = e') as <-.
    { apply (link_owner B e e' c); [apply (owned_bucket _ _ _ O Hj); exact He | apply (owned_bucket _ _ _ O Hi); exact He' | exact C | exact C']. }
    now apply (owned_other _ _ i j e O Hi Hj N He').
Qed.

(** A change of the fields of objects is none of the allocator's business. *)
Lemma alloc_inv_ext w w' fr bk objs : mapped w' = mapped w -> page_frag_cur_page w' = page_frag_cur_page w ->
  page_frag_cur_offset w' = page_frag_cur_offset w ->
  (forall p, In p fr -> ints w' (PAGE_SIZE * p + OBJ_CNT) = ints w (PAGE_SIZE * p + OBJ_CNT)) ->
  alloc_inv w cpu fr bk objs -> alloc_inv w' cpu fr bk objs.
Proof.
  intros E1 E2 E3 E4 [[B1 B2 B3 B4 B5 B6 B7] C]. split.
  - constructor; rewrite ?E1; auto. intros p Hp. rewrite E4 by exact Hp. now apply B7.
  - destruct C as [[C1 C2]|(p & [C1 C2 C3 C4] & O)]; [left; now rewrite E2 | right].
    exists p; split; [|exact O]. constructor; rewrite ?E2, ?E3; auto.
Qed.

(** No byte of an object is a counter. *)
Lemma obj_not_count w fr bk objs o k p : base_inv w fr bk objs -> In o objs -> 0 <= k < snd o ->
  fst o + k <> PAGE_SIZE * p + OBJ_CNT.
Proof.
  intros B Ho Hk E. destruct (obj_cell B o k Ho Hk) as (_ & _ & X & _). rewrite E in X.
  rewrite page_of_add in X by (unfold OBJ_CNT, PAGE_SIZE; lia). lia.
Qed.

(** ** Inserting *)

Definition fill (a key value : Z) (head : ptr) : M unit :=
  store_int (add (At Kern a) KEY) key ;;
  store_int (add (At Kern a) HASH) key ;;
  store_int (add (At Kern a) VALUE) value ;;
  list_add_head (add (At Kern a) HASH_NODE) head.

Lemma fill_run w fr bp h T a key value :
  let i := bucket_of key in
  alloc_inv w cpu fr [bp; bp + 1] (elem a :: objs_of h T) -> table_inv w h bp T ->
  exists w', fill a key value (At Kern (slot bp i)) w = Some (tt, w') /\
    alloc_inv w' cpu fr [bp; bp + 1] (elem a :: objs_of h T) /\ table_inv w' h bp (upd T i (a :: T i)) /\
    page_frag_cur_page w' = page_frag_cur_page w /\
    entries w' [a] = [(key, value)] /\ (forall e, In e (elems T) -> entries w' [e] = entries w [e]).
Proof.
  intros i A TI. pose proof A as [B _]. set (objs := elem a :: objs_of h T) in *.
  assert (Ia : In (elem a) objs) by now left.
  pose proof (obj_usable B (elem a) Ia) as Ua. cbn [elem fst snd] in Ua.
  assert (O : owned objs T).
  { pose proof (bi_nodup _ _ _ _ B) as N. inversion N as [|? ? _ N']; subst. inversion N' as [|? ? _ N'']; subst.
    split; [now apply NoDup_map_inv in N''|]. intros e He; right; now apply objs_elem. }
  assert (Na : forall e, In e (elems T) -> e <> a).
  { intros e He ->. pose proof (bi_nodup _ _ _ _ B) as N. inversion N as [|? ? X _]; subst. now apply X, objs_elem. }
  pose proof (bucket_lt key) as Hi. fold i in Hi. destruct (owned_bucket _ _ i O Hi) as [Ni Oi].
  assert (Uk : forall k, 0 <= k < ELEM_SIZE -> mapped w (page_of (a + k)) = true) by exact Ua.
  pose proof (ti_list _ _ _ _ TI i Hi) as Hl. pose proof (slot_page bp i Hi) as Ps.
  assert (Ms : mapped w (page_of (slot bp i)) = true) by apply (bi_bk _ _ _ _ B _ Ps).
  set (w3 := w <| ints := fset (fset (fset (ints w) (a + KEY) key) (a + HASH) key) (a + VALUE) value |>).
  set (w4 := w3 <| ptrs := link_head (ptrs w) (a + HASH_NODE) (slot bp i) |>).
  assert (E : fill a key value (At Kern (slot bp i)) w = Some (tt, w4)).
  { unfold fill. cbn [add].
    rewrite (bind_run _ _ _ _ _ (store_int_at w (a + KEY) key (Uk KEY ltac:(unfold KEY, ELEM_SIZE; lia)))).
    erewrite bind_run; [|apply store_int_at; exact (Uk HASH ltac:(unfold HASH, ELEM_SIZE; lia))].
    erewrite bind_run; [|apply store_int_at; exact (Uk VALUE ltac:(unfold VALUE, ELEM_SIZE; lia))].
    apply (list_add_head_run w3).
    - exact (Uk HASH_NODE ltac:(unfold HASH_NODE, ELEM_SIZE; lia)).
    - rewrite <- Z.add_assoc. exact (Uk (HASH_NODE + PPREV) ltac:(unfold HASH_NODE, PPREV, ELEM_SIZE; lia)).
    - exact Ms.
    - change (ptrs w3) with (ptrs w). rewrite (hl_head _ _ _ Hl). destruct (T i) as [|f l] eqn:Ti; [exact I|].
      pose proof (obj_usable B (elem f) (Oi f (or_introl eq_refl))) as Uf. rewrite <- Z.add_assoc.
      exact (Uf (HASH_NODE + PPREV) ltac:(unfold HASH_NODE, PPREV, elem, ELEM_SIZE; cbn [snd]; lia)). }
  assert (Io : forall x, x <> a + KEY -> x <> a + HASH -> x <> a + VALUE -> ints w4 x = ints w x).
  { intros x N1 N2 N3. change (ints w4) with (fset (fset (fset (ints w) (a + KEY) key) (a + HASH) key) (a + VALUE) value).
    now rewrite !fset_ne. }
  assert (Ioo : forall o k, In o objs -> o <> elem a -> 0 <= k < snd o -> ints w4 (fst o + k) = ints w (fst o + k)).
  { intros o k Ho No Hk. pose proof (bi_apart _ _ _ _ B o (elem a) Ho Ia No) as D. unfold apart, elem, ELEM_SIZE in D. cbn [fst snd] in D.
    apply Io; unfold KEY, HASH, VALUE; lia. }
  exists w4. split; [exact E|]. split; [|split; [|split; [reflexivity|split]]].
  - apply (alloc_inv_ext w); try reflexivity; [|exact A]. intros p Hp.
    apply Io; intros X; symmetry in X; revert X;
      apply (obj_not_count w fr [bp; bp + 1] objs (elem a)); auto; unfold KEY, HASH, VALUE, elem, ELEM_SIZE; cbn [snd]; lia.
  - assert (Pm : forall c, c <> a + HASH_NODE -> ~ In c (cells (slot bp i) (T i)) -> c <> a + HASH_NODE + PPREV ->
      ptrs w4 c = ptrs w c) by (intros; now apply (link_head_other _ _ _ (T i))).
    assert (Po : forall o k, In o objs -> o <> elem a -> (forall e, In e (T i) -> o <> elem e) -> 0 <= k < snd o ->
      ptrs w4 (fst o + k) = ptrs w (fst o + k)).
    { intros o k Ho No Nt Hk. pose proof (bi_apart _ _ _ _ B o (elem a) Ho Ia No) as D. unfold apart, elem, ELEM_SIZE in D.
      cbn [fst snd] in D. apply Pm; [unfold HASH_NODE; lia | | unfold HASH_NODE, PPREV; lia].
      apply (cell_not_obj B); auto. }
    assert (Ih : In (h, HTAB_SIZE) objs) by (right; now left).
    assert (Nh : forall e, (h, HTAB_SIZE) <> elem e) by (intros e X; discriminate X).
    destruct TI as [T1 T2 T3 T4]. constructor.
    + rewrite <- T1. now apply (Po (h, HTAB_SIZE) BUCKETS).
    + rewrite <- T2. now apply (Ioo (h, HTAB_SIZE) N_BUCKETS).
    + intros j Hj. destruct (Nat.eq_dec j i) as [->|Nj].
      * rewrite upd_eq. apply hl_link_head; [|exact Hl]. apply (NoDup_cells B); [exact Ps | |].
        -- constructor; [|exact Ni]. intros Ha. apply (Na a); [apply in_elems; eauto | reflexivity].
        -- intros e [<-|He]; auto.
      * rewrite upd_ne by exact Nj. refine (hl_frame _ _ _ _ _ (T3 j Hj)). intros c Hc.
        assert (Nc : forall k, 0 <= k < ELEM_SIZE -> c <> a + k).
        { intros k Hk ->. revert Hc. apply (cell_not_obj B (slot bp j) (T j) (elem a) k); auto; [now apply slot_page|].
          intros e He. split; [now apply (owned_bucket _ _ _ O Hj)|]. intros X; injection X as <-.
          apply (Na a); [apply in_elems; eauto | reflexivity]. }
        apply Pm; [apply Nc; unfold HASH_NODE, ELEM_SIZE; lia | | rewrite <- Z.add_assoc; apply Nc; unfold HASH_NODE, PPREV, ELEM_SIZE; lia].
        now apply (cells_disjoint w fr bp objs T i j c B O Hi Hj).
    + intros j e Hj He. destruct (Nat.eq_dec j i) as [->|Nj]; [rewrite upd_eq in He; destruct He as [<-|He]|rewrite upd_ne in He by exact Nj].
      * change (ints w4) with (fset (fset (fset (ints w) (a + KEY) key) (a + HASH) key) (a + VALUE) value).
        unfold KEY, HASH, VALUE. split; [|]; repeat first [rewrite fset_eq | rewrite fset_ne by lia]; reflexivity.
      * assert (X : In e (elems T)) by (apply in_elems; eauto).
        rewrite !(Ioo (elem e)); try (apply T4; assumption); try (right; now apply objs_elem);
          try (intros Y; injection Y as ->; now apply (Na a)); unfold HASH, KEY, elem, ELEM_SIZE; cbn [snd]; lia.
      * assert (X : In e (elems T)) by (apply in_elems; eauto).
        rewrite !(Ioo (elem e)); try (apply T4; assumption); try (right; now apply objs_elem);
          try (intros Y; injection Y as ->; now apply (Na a)); unfold HASH, KEY, elem, ELEM_SIZE; cbn [snd]; lia.
  - unfold entries; cbn [map]. change (ints w4) with (fset (fset (fset (ints w) (a + KEY) key) (a + HASH) key) (a + VALUE) value).
    unfold KEY, HASH, VALUE. repeat first [rewrite fset_eq | rewrite fset_ne by lia]. reflexivity.
  - intros e He. apply entries_ext. intros x [<-|[]].
    split; apply (Ioo (elem e)); try (right; now apply objs_elem); try (intros Y; injection Y as ->; now apply (Na a));
      unfold KEY, VALUE, elem, ELEM_SIZE; cbn [snd]; lia.
Qed.

(** ** Deleting *)

Lemma hl_at m s l1 e l2 : hl m s (l1 ++ e :: l2) ->
  exists p, In p (cells s l1) /\ m (e + HASH_NODE + PPREV) = At User p /\ hl m (e + HASH_NODE) l2.
Proof.
  revert s; induction l1 as [|e1 l1 IH]; intros s H; cbn [app hl] in H; destruct H as (_ & H2 & H3).
  - exists s; split; [now left | now split].
  - destruct (IH _ H3) as (p & Hp & X). exists p; split; [|exact X]. right. cbn [links flat_map app].
    destruct Hp as [<-|Hp]; [now left | right; now right].
Qed.

Lemma cells_mapped w fr bp objs l i c : base_inv w fr [bp; bp + 1] objs -> (i < NB)%nat ->
  (forall e, In e l -> In (elem e) objs) -> In c (cells (slot bp i) l) -> mapped w (page_of c) = true.
Proof.
  intros B Hi I [<-|(e & He & C)%in_links].
  - apply (bi_bk _ _ _ _ B), slot_page, Hi.
  - pose proof (obj_usable B (elem e) (I e He)) as U.
    destruct C as [-> | ->]; [|rewrite <- Z.add_assoc]; apply U; unfold HASH_NODE, PPREV, elem, ELEM_SIZE; cbn [snd]; lia.
Qed.

Lemma del_run w fr bp h objs T i l1 e l2 :
  alloc_inv w cpu fr [bp; bp + 1] objs -> owned objs T -> In (h, HTAB_SIZE) objs -> table_inv w h bp T ->
  (i < NB)%nat -> T i = l1 ++ e :: l2 ->
  exists w', list_del (add (At Kern e) HASH_NODE) w = Some (tt, w') /\
    alloc_inv w' cpu fr [bp; bp + 1] objs /\ table_inv w' h bp (upd T i (l1 ++ l2)) /\
    page_frag_cur_page w' = page_frag_cur_page w /\ ints w' = ints w.
Proof.
  intros A O Ih TI Hi Ti. pose proof A as [B _].
  destruct (owned_bucket _ _ i O Hi) as [Ni Oi]. rewrite Ti in Ni, Oi.
  pose proof (ti_list _ _ _ _ TI i Hi) as Hl. rewrite Ti in Hl. pose proof (slot_page bp i Hi) as Ps.
  assert (Ie : In e (l1 ++ e :: l2)) by (apply in_app_iff; right; now left).
  pose proof (obj_usable B (elem e) (Oi e Ie)) as Ue. cbn [elem fst snd] in Ue.
  destruct (hl_at _ _ _ _ _ Hl) as (p & Hp & Ep & H2).
  set (x := e + HASH_NODE) in *.
  set (m' := fset (fset (unlink (ptrs w) x) x (Bad LIST_POISON1)) (x + PPREV) (Bad LIST_POISON2)).
  assert (Mx : mapped w (page_of x) = true) by (apply Ue; unfold HASH_NODE, ELEM_SIZE; lia).
  assert (Mx8 : mapped w (page_of (x + PPREV)) = true).
  { unfold x; rewrite <- Z.add_assoc. apply Ue; unfold HASH_NODE, PPREV, ELEM_SIZE; lia. }
  exists (w <| ptrs := m' |>). split.
  { cbn [add]. fold x. apply (list_del_run w x p); auto.
    - apply (cells_mapped w fr bp objs l1 i p B Hi); [|exact Hp]. intros; apply Oi, in_app_iff; now left.
    - rewrite (hl_head _ _ _ H2). destruct l2 as [|f l2]; [exact I|].
      apply (cells_mapped w fr bp objs (l1 ++ e :: f :: l2) i _ B Hi Oi). right. apply in_links. exists f.
      split; [apply in_app_iff; right; right; now left | now right]. }
  split; [now apply (alloc_inv_ext w)|]. split; [|now split].
  assert (Xc : forall c, c = x \/ c = x + PPREV -> In c (cells (slot bp i) (l1 ++ e :: l2))).
  { intros c C. right. apply in_links. exists e. now split. }
  assert (Pm : forall c, ~ In c (cells (slot bp i) (T i)) -> m' c = ptrs w c).
  { intros c N. rewrite Ti in N. unfold m'. rewrite !fset_ne by (intros ->; apply N, Xc; auto).
    now apply (unlink_other _ _ _ _ _ _ Hl). }
  assert (ND : NoDup (cells (slot bp i) (l1 ++ e :: l2))) by now apply (NoDup_cells B).
  destruct TI as [T1 T2 T3 T4].
  assert (Nh : forall k, 0 <= k < HTAB_SIZE -> m' (h + k) = ptrs w (h + k)).
  { intros k Hk. apply Pm. apply (cell_not_obj B (slot bp i) (T i) (h, HTAB_SIZE) k); auto.
    intros f Hf. split; [apply (owned_bucket _ _ i O Hi); exact Hf | intros X; discriminate X]. }
  constructor.
  - rewrite <- T1. apply Nh. unfold BUCKETS, HTAB_SIZE; lia.
  - exact T2.
  - intros j Hj. destruct (Nat.eq_dec j i) as [->|Nj].
    + rewrite upd_eq. change (ptrs _) with m'. unfold m'.
      apply (hl_frame (unlink (ptrs w) x)); [|now apply hl_unlink].
      intros c Hc. assert (Nc : forall d, d = x \/ d = x + PPREV -> c <> d).
      { intros d Hd ->. revert Hc. intros [E|(f & Hf & C)%in_links].
        - inversion ND as [|? ? N _]; subst d. apply N, in_links. exists e. now split.
        - assert (f = e) as ->.
          { apply (link_owner B f e d); auto. apply Oi. apply in_app_iff in Hf as [?|?]; apply in_app_iff; [now left | right; now right]. }
          apply NoDup_remove_2 in Ni. contradiction. }
      rewrite !fset_ne by (apply Nc; auto). reflexivity.
    + rewrite upd_ne by exact Nj. refine (hl_frame _ _ _ _ _ (T3 j Hj)). intros c Hc. apply Pm.
      now apply (cells_disjoint w fr bp objs T i j c B O Hi Hj).
  - intros j f Hj Hf. destruct (Nat.eq_dec j i) as [->|Nj].
    + rewrite upd_eq in Hf. apply T4; [exact Hi|]. rewrite Ti. apply in_app_iff in Hf as [?|?]; apply in_app_iff; [now left | right; now right].
    + rewrite upd_ne in Hf by exact Nj. now apply T4.
Qed.

(** ** Updating *)

(** The table at [h], with its elements. *)
Definition table (w : world) (h : Z) (T : nat -> list Z) : Prop :=
  exists fr bp, alloc_inv w cpu fr [bp; bp + 1] (objs_of h T) /\ table_inv w h bp T.

Definition content (w : world) (T : nat -> list Z) (i : nat) : list (Z * Z) := entries w (T i).

Lemma objs_insert h T i a : (i < NB)%nat -> Permutation (elem a :: objs_of h T) (objs_of h (upd T i (a :: T i))).
Proof.
  intros Hi. unfold objs_of. rewrite perm_swap. apply perm_skip.
  rewrite (elems_split T i Hi), (elems_upd T i (a :: T i) Hi). reflexivity.
Qed.

Lemma objs_delete h T i l1 e l2 : (i < NB)%nat -> T i = l1 ++ e :: l2 ->
  Permutation (objs_of h T) (elem e :: objs_of h (upd T i (l1 ++ l2))).
Proof.
  intros Hi E. unfold objs_of. rewrite perm_swap. apply perm_skip.
  rewrite (elems_split T i Hi), (elems_upd T i _ Hi), E, <- Permutation_middle. reflexivity.
Qed.

(** Taking the old element out and freeing it: the new one is on the current
    page, so that page stays. *)
Lemma replace_run w fr bp h T i a l1 e l2 :
  alloc_inv w cpu fr [bp; bp + 1] (objs_of h T) -> table_inv w h bp T -> (i < NB)%nat ->
  T i = (a :: l1) ++ e :: l2 -> page_frag_cur_page w cpu = At Kern (PAGE_SIZE * page_of a) ->
  let T' := upd T i ((a :: l1) ++ l2) in
  exists w' fr', (list_del (add (At Kern e) HASH_NODE) ;; bpf_free (At Kern e)) w = Some (tt, w') /\
    alloc_inv w' cpu fr' [bp; bp + 1] (objs_of h T') /\ table_inv w' h bp T' /\
    forall x, In x (elems T') -> entries w' [x] = entries w [x].
Proof.
  intros A TI Hi Ti Cur T'. pose proof A as [B _].
  destruct (del_run w fr bp h (objs_of h T) T i (a :: l1) e l2) as (w1 & E1 & A1 & TI1 & C1 & I1); auto;
    [now apply (owned_objs_of w fr [bp; bp + 1]) | now left|]. fold T' in TI1.
  apply (alloc_inv_perm _ _ _ _ _ (objs_delete h T i (a :: l1) e l2 Hi Ti)) in A1. fold T' in A1.
  assert (Busy : busy (page_of a) (objs_of h T')).
  { exists (elem a). split; [|reflexivity]. apply objs_elem, in_elems. exists i. split; [exact Hi|].
    unfold T'. rewrite upd_eq. now left. }
  destruct (free_run w1 fr [bp; bp + 1] (objs_of h T') e ELEM_SIZE (page_of a) A1) as (w2 & fr2 & E2 & A2 & _ & P2 & I2);
    [now rewrite C1 | exact Busy|].
  assert (O : forall o k, In o (objs_of h T') -> 0 <= k < snd o -> ints w2 (fst o + k) = ints w1 (fst o + k)).
  { intros o k Ho Hk. apply I2. apply (obj_not_count _ _ _ _ _ _ _ (proj1 A1)); [now right | exact Hk]. }
  exists w2, fr2. split; [now rewrite (bind_run _ _ _ _ _ E1)|]. split; [exact A2|]. split.
  - apply (table_ext w1); [| | |exact TI1]; rewrite ?P2.
    + intros k Hk. split; [apply (O (h, HTAB_SIZE)); [now left | exact Hk] | reflexivity].
    + reflexivity.
    + intros x k Hx Hk. split; [apply (O (elem x)); [now apply objs_elem | exact Hk] | reflexivity].
  - intros x Hx. rewrite <- (entries_ext w w1 [x]) by (intros; now rewrite I1).
    apply entries_ext. intros y [<-|[]].
    split; apply (O (elem x)); try (now apply objs_elem); unfold KEY, VALUE, elem, ELEM_SIZE; cbn [snd]; lia.
Qed.

Lemma fill_then a key value head (q : M Z) w : 
  (store_int (add (At Kern a) KEY) key ;; store_int (add (At Kern a) HASH) key ;;
   store_int (add (At Kern a) VALUE) value ;; list_add_head (add (At Kern a) HASH_NODE) head ;; q) w =
  (fill a key value head ;; q) w.
Proof. unfold fill, bind. now repeat match goal with |- context [match ?c with _ => _ end] => destruct c as [[]|] end. Qed.

Lemma lookup_run w fr h bp T key : base_inv w fr [bp; bp + 1] (objs_of h T) -> table_inv w h bp T ->
  lookup_elem_raw (At Kern (slot bp (bucket_of key))) key key w =
  Some (match find (fun e => ints w (e + KEY) =? key) (firstn MAX_BUCKET_WALK (T (bucket_of key))) with
        | Some e => At Kern e | None => Null end, w).
Proof.
  intros B TI. pose proof (bucket_lt key) as Hi. pose proof (slot_page bp _ Hi) as Ps.
  unfold lookup_elem_raw. rewrite (bind_run _ _ _ _ _ (load_ptr_at w _ (proj1 (proj2 (bi_bk _ _ _ _ B _ Ps))))).
  apply walk_run; [exact (ti_list _ _ _ _ TI _ Hi)|]. intros e He. split; [|now apply (ti_key _ _ _ _ TI _ e Hi)].
  apply (obj_usable B (elem e)). apply (owned_bucket _ _ _ (owned_objs_of _ _ _ _ _ B) Hi), He.
Qed.

Lemma content_keep w w' T : (forall e, In e (elems T) -> entries w' [e] = entries w [e]) ->
  forall j, (j < NB)%nat -> content w' T j = content w T j.
Proof. intros H j Hj. apply entries_each. intros e He. apply H, in_elems. eauto. Qed.

(** What an update did to the buckets. *)
Definition updated (w w' : world) (T T' : nat -> list Z) (key value : Z) (r : Z) : Prop :=
  r = - ENOMEM /\ (forall j, (j < NB)%nat -> content w' T' j = content w T j) \/
  r = 0 /\ forall j, (j < NB)%nat ->
    content w' T' j = if Nat.eqb j (bucket_of key) then put key value (content w T j) else content w T j.

Lemma update_run w h T v key value : table w h T ->
  exists r w' T', htab_update_elem (At v h) key value w = Some (r, w') /\ table w' h T' /\ updated w w' T T' key value r.
Proof.
  intros (fr & bp & A & TI). pose proof A as [B _]. pose proof (bucket_lt key) as Hi.
  unfold htab_update_elem. cbn [cast_kern].
  rewrite (bind_run _ _ _ _ _ (select_run w fr h bp T key B TI)), (bind_run _ _ _ _ _ (lookup_run w fr h bp T key B TI)).
  pose proof (find_split w key MAX_BUCKET_WALK (T (bucket_of key))) as FS. set (i := bucket_of key) in *.
  destruct (alloc_run w fr [bp; bp + 1] (objs_of h T) ELEM_SIZE A) as (r & w1 & E1 & K1 & R1);
    try reflexivity; try (unfold ELEM_SIZE, OBJ_CNT, PAGE_SIZE; lia).
  rewrite (bind_run _ _ _ _ _ E1). destruct (keeps_table w w1 fr h bp T B K1 TI) as [TI1 En1].
  pose proof (content_keep w w1 T En1) as C1.
  destruct R1 as [[-> A1]|(a & fr1 & -> & A1 & _ & Cur1)]; cbn [is_null].
  { exists (- ENOMEM), w1, T. split; [reflexivity|]. split; [now exists fr, bp | left; now split]. }
  fold (elem a) in A1.
  destruct (fill_run w1 fr1 bp h T a key value A1 TI1) as (w2 & E2 & A2 & TI2 & Cur2 & Ea & En2). fold i in E2, TI2.
  rewrite fill_then, (bind_run _ _ _ _ _ E2). apply (alloc_inv_perm _ _ _ _ _ (objs_insert h T i a Hi)) in A2.
  pose proof (content_keep w1 w2 T En2) as C2. set (T2 := upd T i (a :: T i)) in *.
  assert (U2 : forall j, (j < NB)%nat -> content w2 T2 j = if Nat.eqb j i then (key, value) :: content w T i else content w T j).
  { intros j Hj. unfold T2, content, upd. destruct (Nat.eqb_spec j i) as [->|_].
    - change (entries w2 (a :: T i)) with (entries w2 [a] ++ content w2 T i). rewrite Ea, C2, C1 by exact Hj. reflexivity.
    - fold (content w2 T j). now rewrite C2, C1. }
  destruct (find _ _) as [e|]; cbn [is_null negb when].
  - destruct FS as (l1 & l2 & Ti & Rk).
    destruct (replace_run w2 fr1 bp h T2 i a l1 e l2 A2 TI2 Hi) as (w3 & fr3 & E3 & A3 & TI3 & En3).
    { unfold T2. now rewrite upd_eq, Ti. } { now rewrite Cur2. }
    rewrite (bind_run _ _ _ _ _ E3). pose proof (content_keep w2 w3 _ En3) as C3. set (T3 := upd T2 i ((a :: l1) ++ l2)) in *.
    exists 0, w3, T3. split; [reflexivity|]. split; [now exists fr3, bp|]. right. split; [reflexivity|]. fold i.
    intros j Hj. rewrite C3 by exact Hj. unfold T3, content at 1, upd. destruct (Nat.eqb_spec j i) as [->|Nj].
    + cbn [app]. change (entries w2 (a :: l1 ++ l2)) with (entries w2 [a] ++ entries w2 (l1 ++ l2)).
      rewrite Ea. unfold put, content. rewrite Rk. cbn [app]. f_equal.
      apply entries_each. intros x Hx. assert (X : In x (elems T)).
      { apply in_elems. exists i. split; [exact Hi|]. rewrite Ti.
        apply in_app_iff in Hx as [?|?]; apply in_app_iff; [now left | right; now right]. }
      now rewrite En2, En1.
    + fold (content w2 T2 j). rewrite (U2 j Hj). destruct (Nat.eqb_spec j i); congruence.
  - erewrite bind_run by reflexivity. exists 0, w2, T2. split; [reflexivity|]. split; [now exists fr1, bp|].
    right. split; [reflexivity|]. fold i. intros j Hj. rewrite (U2 j Hj). destruct (Nat.eqb_spec j i) as [->|_]; [|reflexivity].
    unfold put, content. now rewrite FS.
Qed.

(** ** Looking up *)

Lemma scan_run w key l : forall n s, hl (ptrs w) s l ->
  (forall e, In e l -> usable w e ELEM_SIZE /\ ints w (e + HASH) = ints w (e + KEY)) ->
  scan n (list_entry_safe (ptrs w s)) key key w =
  Some (match find (fun e => ints w (e + KEY) =? key) (firstn n l) with Some e => At Kern e | None => Null end, w).
Proof.
  induction l as [|e l IH]; intros n s H U.
  - cbn in H. rewrite H. destruct n; reflexivity.
  - destruct H as (H1 & H2 & H3). rewrite H1. unfold list_entry_safe; cbn [is_null cast_kern add].
    replace (e + HASH_NODE + - HASH_NODE) with e by lia.
    destruct (U e (or_introl eq_refl)) as [Ue Uh]. unfold ELEM_SIZE, usable in Ue.
    assert (Ld : load_ptr (add (At Kern e) (HASH_NODE + NEXT)) w = Some (ptrs w (e + HASH_NODE), w)).
    { cbn [add]. rewrite (load_ptr_at w (e + (HASH_NODE + NEXT)) (Ue (HASH_NODE + NEXT) ltac:(unfold HASH_NODE, NEXT; lia))).
      unfold NEXT. now rewrite Z.add_0_r. }
    destruct n as [|n]; cbn [scan is_null]; rewrite (bind_run _ _ _ _ _ Ld); [reflexivity|]. cbn [add].
    rewrite (bind_run _ _ _ _ _ (load_int_at w (e + HASH) (Ue HASH ltac:(unfold HASH; lia)))). rewrite Uh.
    cbn [firstn find]. destruct (Z.eqb_spec (ints w (e + KEY)) key) as [E|E]; cbn [andb].
    + rewrite (bind_run _ _ _ _ _ (load_int_at w (e + KEY) (Ue KEY ltac:(unfold KEY; lia)))).
      rewrite E, Z.eqb_refl. reflexivity.
    + erewrite bind_run by reflexivity. apply IH; [exact H3 | intros; apply U; now right].
Qed.

Lemma lookup_find w k l :
  lookup k (entries w l) = option_map (fun e => ints w (e + VALUE)) (find (fun e => ints w (e + KEY) =? k) l).
Proof.
  unfold lookup. induction l as [|e l IH]; [reflexivity|]. cbn [entries map find fst].
  destruct (ints w (e + KEY) =? k); [reflexivity | exact IH].
Qed.

Lemma entries_firstn w n l : firstn n (entries w l) = entries w (firstn n l).
Proof. unfold entries. now rewrite firstn_map. Qed.

Definition found (o : option Z) : Z := match o with Some v => v | None => 0 end.

Lemma lookup_elem_run w h T v key : table w h T ->
  htab_lookup_elem (At v h) key w = Some (found (lookup key (firstn loop_budget (content w T (bucket_of key)))), w).
Proof.
  intros (fr & bp & [B _] & TI). pose proof (bucket_lt key) as Hi. unfold htab_lookup_elem. cbn [cast_kern].
  rewrite (bind_run _ _ _ _ _ (select_run w fr h bp T key B TI)). set (i := bucket_of key) in *.
  rewrite (bind_run _ _ _ _ _ (load_ptr_at w _ (proj1 (proj2 (bi_bk _ _ _ _ B _ (slot_page bp i Hi)))))).
  assert (U : forall e, In e (T i) -> usable w e ELEM_SIZE).
  { intros e He. apply (obj_usable B (elem e)). apply (owned_bucket _ _ _ (owned_objs_of _ _ _ _ _ B) Hi), He. }
  erewrite bind_run; [|apply scan_run; [exact (ti_list _ _ _ _ TI i Hi)|]].
  2: { intros e He. split; [now apply U | now apply (ti_key _ _ _ _ TI i e Hi)]. }
  unfold content. rewrite entries_firstn, lookup_find.
  destruct (find _ _) as [e|] eqn:F; cbn [is_null negb option_map found]; [|reflexivity].
  apply find_some in F as [F _]. apply load_int_at. apply (U e); [|unfold VALUE, ELEM_SIZE; lia].
  rewrite <- (firstn_skipn loop_budget (T i)). apply in_app_iff; now left.
Qed.

(** ** How much the arena holds *)

Lemma on_page_split p objs :
  Z.of_nat (length objs) = count p objs + Z.of_nat (length (filter (fun o => negb (page_of (fst o) =? p)) objs)).
Proof.
  induction objs as [|o objs IH]; [reflexivity|]. rewrite count_cons. cbn [filter length].
  destruct (page_of (fst o) =? p); cbn [negb length]; lia.
Qed.

Lemma count_filter_other p q objs : p <> q ->
  count p (filter (fun o => negb (page_of (fst o) =? q)) objs) = count p objs.
Proof.
  intros N. induction objs as [|o objs IH]; [reflexivity|]. cbn [filter]. rewrite count_cons.
  destruct (Z.eqb_spec (page_of (fst o)) q) as [->|]; cbn [negb]; [|rewrite count_cons]; rewrite IH; [|reflexivity].
  destruct (Z.eqb_spec q p); lia.
Qed.

Lemma objs_bound fr : NoDup fr -> forall objs, (forall o, In o objs -> In (page_of (fst o)) fr) ->
  (forall p, In p fr -> count p objs <= OBJ_CNT / 8) -> Z.of_nat (length objs) <= Z.of_nat (length fr) * (OBJ_CNT / 8).
Proof.
  induction 1 as [|p fr N ND IH]; intros objs I C.
  - destruct objs as [|o objs]; [cbn; lia | destruct (I o (or_introl eq_refl))].
  - rewrite (on_page_split p objs). cbn [length]. pose proof (C p (or_introl eq_refl)) as Cp.
    assert (X : Z.of_nat (length (filter (fun o => negb (page_of (fst o) =? p)) objs)) <=
      Z.of_nat (length fr) * (OBJ_CNT / 8)); [apply IH|].
    + intros o [Ho Hn]%filter_In. destruct (I o Ho) as [E|H]; [now rewrite <- E, Z.eqb_refl in Hn | exact H].
    + intros q Hq. rewrite count_filter_other by (intros ->; contradiction). apply C; now right.
    + lia.
Qed.

Lemma NoDup_range l n : 0 <= n -> NoDup l -> (forall x, In x l -> 0 <= x < n) -> Z.of_nat (length l) <= n.
Proof.
  intros Hn N R. enough (length l <= length (map Z.of_nat (seq 0 (Z.to_nat n))))%nat as X
    by (rewrite length_map, length_seq in X; lia).
  apply NoDup_incl_length; [exact N|]. intros x Hx. specialize (R x Hx).
  apply in_map_iff. exists (Z.to_nat x). split; [lia | apply in_seq; lia].
Qed.

(** The live objects are fewer than the keys the driver inserts. *)
Definition capacity := max_entries * (OBJ_CNT / 8).

Lemma elems_bound w h T : table w h T -> Z.of_nat (length (elems T)) <= capacity.
Proof.
  intros (fr & bp & [B _] & _).
  assert (X : Z.of_nat (length (objs_of h T)) <= Z.of_nat (length fr) * (OBJ_CNT / 8)).
  { apply objs_bound; [apply B | intros o Ho; apply (bi_objs _ _ _ _ B o Ho)|].
    intros p Hp. destruct (bi_count _ _ _ _ B p Hp). apply Z.div_le_lower_bound; lia. }
  assert (Y : Z.of_nat (length fr) <= max_entries).
  { apply NoDup_range; [unfold max_entries; lia | apply B | intros p Hp; pose proof (bi_pages _ _ _ _ B p Hp); lia]. }
  unfold objs_of in X. cbn [length] in X. rewrite length_map in X. unfold capacity, OBJ_CNT, PAGE_SIZE in *.
  change ((4096 - 8) / 8) with 511 in *. lia.
Qed.

Lemma bucket_bound w h T i : table w h T -> (i < NB)%nat -> (length (T i) <= loop_budget)%nat.
Proof.
  intros TB Hi. pose proof (elems_bound w h T TB) as X.
  rewrite (Permutation_length (elems_split T i Hi)), length_app in X. pose proof loop_budget_ok.
  enough (capacity <= BPF_MAX_LOOPS) by lia. now vm_compute.
Qed.

(** ** The table as a finite map *)

Definition abs (w : world) (T : nat -> list Z) (k : Z) : option Z := lookup k (content w T (bucket_of k)).

Lemma lookup_remove n k k' l : k' <> k -> lookup k' (remove_key n k l) = lookup k' l.
Proof.
  intros N. unfold lookup. revert n; induction l as [|[x v] l IH]; intros [|n]; try reflexivity.
  cbn [remove_key find fst]. destruct (Z.eqb_spec x k) as [->|_].
  - destruct (Z.eqb_spec k k'); congruence.
  - cbn [find fst]. destruct (x =? k'); [reflexivity | apply IH].
Qed.

Lemma lookup_put k v k' l : lookup k' (put k v l) = if k' =? k then Some v else lookup k' l.
Proof.
  unfold put, lookup. cbn [find fst]. rewrite Z.eqb_sym. destruct (Z.eqb_spec k' k) as [->|N]; [reflexivity|].
  now apply lookup_remove.
Qed.

Lemma abs_updated w w' T T' key value : updated w w' T T' key value 0 ->
  forall k, abs w' T' k = fset (abs w T) key (Some value) k.
Proof.
  intros [[X _]|[_ U]] k; [discriminate X|]. unfold abs, fset. rewrite U by apply bucket_lt.
  destruct (Nat.eqb_spec (bucket_of k) (bucket_of key)) as [E|E]; [now rewrite lookup_put|].
  destruct (Z.eqb_spec k key); congruence.
Qed.

Lemma abs_unchanged w w' T T' key value : updated w w' T T' key value (- ENOMEM) ->
  forall k, abs w' T' k = abs w T k.
Proof. intros [[_ U]|[X _]] k; [|discriminate X]. unfold abs. now rewrite U by apply bucket_lt. Qed.

(** ** Sequences of operations *)

Inductive op := Update (key value : Z) | Lookup (key : Z).

Definition do_op (htab : ptr) (o : op) : M Z :=
  match o with
  | Update key value => htab_update_elem htab key value
  | Lookup key => htab_lookup_elem htab key
  end.

Fixpoint run (htab : ptr) (ops : list op) : M (list Z) :=
  match ops with
  | [] => ret []
  | o :: ops => r <- do_op htab o ;; rs <- run htab ops ;; ret (r :: rs)
  end.

(** What a map promises: an update binds the key, or fails for want of memory
    and changes nothing; a lookup gives the value, 0 without one. *)
Inductive spec : (Z -> option Z) -> list op -> list Z -> (Z -> option Z) -> Prop :=
| spec_nil m m' : (forall k, m' k = m k) -> spec m [] [] m'
| spec_update m k v ops rs m' : spec (fset m k (Some v)) ops rs m' -> spec m (Update k v :: ops) (0 :: rs) m'
| spec_nomem m k v ops rs m' : spec m ops rs m' -> spec m (Update k v :: ops) (- ENOMEM :: rs) m'
| spec_lookup m k ops rs m' : spec m ops rs m' -> spec m (Lookup k :: ops) (found (m k) :: rs) m'.

Lemma spec_ext m ops rs m' : spec m ops rs m' -> forall n, (forall k, n k = m k) -> spec n ops rs m'.
Proof.
  induction 1 as [m m' E|m k v ops rs m' _ IH|m k v ops rs m' _ IH|m k ops rs m' _ IH]; intros n En.
  - constructor. intros k. now rewrite E, En.
  - constructor. apply IH. intros x. unfold fset. now rewrite En.
  - constructor. now apply IH.
  - rewrite <- En. constructor. now apply IH.
Qed.

Lemma do_op_run w h T v o : table w h T -> exists r w' T', do_op (At v h) o w = Some (r, w') /\ table w' h T' /\
  forall ops rs m', spec (abs w' T') ops rs m' -> spec (abs w T) (o :: ops) (r :: rs) m'.
Proof.
  intros TB. destruct o as [key value|key]; cbn [do_op].
  - destruct (update_run w h T v key value TB) as (r & w' & T' & E & TB' & U). exists r, w', T'.
    split; [exact E|]. split; [exact TB'|]. intros ops rs m' Sp.
    destruct (U) as [[-> _]|[-> _]]; constructor; apply (spec_ext _ _ _ _ Sp); intros k; symmetry.
    + now apply (abs_unchanged w w' T T' key value).
    + now apply abs_updated.
  - exists (found (abs w T key)), w, T. split; [|split; [exact TB | intros; now constructor]].
    rewrite (lookup_elem_run w h T v key TB). unfold abs. rewrite firstn_all2; [reflexivity|].
    unfold content, entries. rewrite length_map. apply (bucket_bound w h T _ TB), bucket_lt.
Qed.

Lemma run_table w h T v ops : table w h T -> exists rs w' T',
  run (At v h) ops w = Some (rs, w') /\ table w' h T' /\ spec (abs w T) ops rs (abs w' T').
Proof.
  revert w T; induction ops as [|o ops IH]; intros w T TB.
  - exists [], w, T. split; [reflexivity|]. split; [exact TB | now constructor].
  - destruct (do_op_run w h T v o TB) as (r & w1 & T1 & E1 & TB1 & S1).
    destruct (IH w1 T1 TB1) as (rs & w2 & T2 & E2 & TB2 & S2).
    exists (r :: rs), w2, T2. split; [|split; [exact TB2 | now apply S1]].
    cbn [run]. rewrite (bind_run _ _ _ _ _ E1). now rewrite (bind_run _ _ _ _ _ E2).
Qed.

(** ** The initial table *)

Lemma pages_run w fr objs raw w' : alloc_inv w cpu fr [] objs ->
  bpf_arena_alloc_pages 2 w = Some (raw, w') -> raw <> Null ->
  exists bp, raw = At User (PAGE_SIZE * bp) /\ alloc_inv w' cpu fr [bp; bp + 1] objs /\
    (forall a, In (page_of a) [bp; bp + 1] -> ptrs w' a = Null) /\
    (forall p, page_frag_cur_page w' p = page_frag_cur_page w p) /\
    (forall p, page_frag_cur_offset w' p = page_frag_cur_offset w p).
Proof.
  intros [B C] E N. destruct (alloc_pages_ok 2 w) as [F|(bp & P0 & P9 & Pf & F)]; [congruence|].
  rewrite F in E. injection E as <- <-. exists bp. split; [reflexivity|].
  assert (Rng : forall q, (bp <=? q) && (q <? bp + 2) = true <-> In q [bp; bp + 1]).
  { intros q. rewrite andb_true_iff, Z.leb_le, Z.ltb_lt. cbn [In]. lia. }
  assert (Fr : forall q, In q fr -> (bp <=? q) && (q <? bp + 2) = false).
  { intros q Hq. apply not_true_is_false. rewrite Rng. intros Hb.
    destruct (bi_pages _ _ _ _ B q Hq) as [_ Hm].
    destruct Hb as [<-|[<-|[]]]; [pose proof (Pf 0 ltac:(lia)) as X; rewrite Z.add_0_r in X | pose proof (Pf 1 ltac:(lia)) as X];
      congruence. }
  split; [split|split; [|split; reflexivity]].
  - destruct B as [B1 B2 B3 B4 B5 B6 B7]. constructor; try assumption.
    + intros q Hq. destruct (B2 q Hq) as [Q0 Qm]. split; [exact Q0|].
      change ((if (bp <=? q) && (q <? bp + 2) then true else mapped w q) = true). now destruct (_ && _).
    + intros q Hq. split; [destruct Hq as [<-|[<-|[]]]; lia|]. split.
      * change ((if (bp <=? q) && (q <? bp + 2) then true else mapped w q) = true). now rewrite (proj2 (Rng q) Hq).
      * intros Hf. apply Fr in Hf. rewrite (proj2 (Rng q) Hq) in Hf. discriminate.
    + intros q Hq. change (ints _ (PAGE_SIZE * q + OBJ_CNT)) with
        (if in_range bp 2 (PAGE_SIZE * q + OBJ_CNT) then 0 else ints w (PAGE_SIZE * q + OBJ_CNT)).
      unfold in_range. rewrite page_of_add, Fr by (try exact Hq; unfold OBJ_CNT, PAGE_SIZE; lia). now apply B7.
  - destruct C as [C|(p & [C1 C2 C3 C4] & O)]; [now left|right]. exists p; split; [now constructor | exact O].
  - intros a Ha. change ((if in_range bp 2 a then Null else ptrs w a) = Null). unfold in_range. now rewrite (proj2 (Rng _) Ha).
Qed.

Lemma init_run w h fr raw w' : alloc_inv w cpu fr [] [(h, HTAB_SIZE)] ->
  bpf_arena_alloc_pages 2 w = Some (raw, w') -> raw <> Null ->
  exists w2, htab_init (At Kern h) w = Some (tt, w2) /\ table w2 h (fun _ => []) /\
    page_frag_cur_page w2 cpu = page_frag_cur_page w cpu /\ page_frag_cur_offset w2 cpu = page_frag_cur_offset w cpu.
Proof.
  intros A E N. destruct (pages_run w fr _ raw w' A E N) as (bp & -> & A' & Pn & C1 & C2). pose proof A' as [B' _].
  pose proof (obj_usable B' (h, HTAB_SIZE) (or_introl eq_refl)) as U. cbn [fst snd] in U.
  assert (Hh : forall k, 0 <= k < HTAB_SIZE -> forall p, h + k <> PAGE_SIZE * p + OBJ_CNT).
  { intros k Hk p. apply (obj_not_count w' fr [bp; bp + 1] [(h, HTAB_SIZE)] (h, HTAB_SIZE) k p B'); [now left | exact Hk]. }
  set (w1 := w' <| ptrs ::= (fun f => fset f (h + BUCKETS) (At User (PAGE_SIZE * bp))) |>).
  set (w2 := w1 <| ints ::= (fun f => fset f (h + N_BUCKETS) 1024) |>).
  exists w2. split; [|split; [exists fr, bp; split|split; [apply C1 | apply C2]]].
  - unfold htab_init. rewrite (bind_run _ _ _ _ _ E). cbn [cast_user add].
    rewrite (bind_run _ _ _ _ _ (store_ptr_at w' (h + BUCKETS) _ (U BUCKETS ltac:(unfold BUCKETS, HTAB_SIZE; lia)))).
    change (i32 (2 * PAGE_SIZE / BUCKET_SIZE)) with 1024.
    apply (store_int_at w1). exact (U N_BUCKETS ltac:(unfold N_BUCKETS, HTAB_SIZE; lia)).
  - apply (alloc_inv_ext w'); try reflexivity; [|exact A']. intros p _. apply fset_ne. intros X. symmetry in X. revert X.
    apply Hh. unfold N_BUCKETS, HTAB_SIZE; lia.
  - constructor; [apply fset_eq | apply fset_eq | | now intros i e _ []].
    intros i Hi. pose proof (slot_page bp i Hi) as Ps. cbn [hl].
    change (fset (ptrs w') (h + BUCKETS) (At User (PAGE_SIZE * bp)) (slot bp i) = Null). rewrite fset_ne; [now apply Pn|].
    intros X. destruct (bi_bk _ _ _ _ B' _ Ps) as (_ & _ & Nf). apply Nf. rewrite X.
    destruct (obj_cell B' (h, HTAB_SIZE) BUCKETS (or_introl eq_refl)) as (Y & Z & _);
      [unfold BUCKETS, HTAB_SIZE; cbn [snd]; lia|]. cbn [fst] in *. now rewrite Y.
Qed.

Lemma start_run w0 raw w1 : page_frag_cur_page w0 cpu = Null -> bpf_alloc HTAB_SIZE w0 = Some (raw, w1) -> raw <> Null ->
  exists h fr, raw = At Kern h /\ alloc_inv w1 cpu fr [] [(h, HTAB_SIZE)] /\ page_frag_cur_page w1 cpu <> Null.
Proof.
  intros Cn E N. destruct (alloc_run w0 [] [] [] HTAB_SIZE) as (r & w' & E' & _ & R);
    try reflexivity; try (unfold HTAB_SIZE, OBJ_CNT, PAGE_SIZE; lia).
  { split; [|now left]. constructor; try constructor; try easy. }
  rewrite E' in E. injection E as -> ->. destruct R as [[-> _]|(a & fr & -> & A & _ & Cur)]; [congruence|].
  exists a, fr. rewrite Cur. now split.
Qed.

(** ** Room on the current page

    Only an allocation changes the current page and what is left of it. *)

Definition keeps_cur {A} (m : M A) : Prop := forall w a w', m w = Some (a, w') ->
  page_frag_cur_page w' cpu = page_frag_cur_page w cpu /\ page_frag_cur_offset w' cpu = page_frag_cur_offset w cpu.

Lemma kc_ret {A} (a : A) : keeps_cur (ret a).
Proof. intros w x w' E; injection E as _ <-; now split. Qed.
Lemma kc_get {A} (f : world -> A) : keeps_cur (get f).
Proof. intros w x w' E; injection E as _ <-; now split. Qed.
Lemma kc_modify f : (forall w, page_frag_cur_page (f w) = page_frag_cur_page w /\
  page_frag_cur_offset (f w) = page_frag_cur_offset w) -> keeps_cur (modify f).
Proof. intros H w x w' E; injection E as _ <-. now destruct (H w) as [-> ->]. Qed.
Lemma kc_bind {A B} (m : M A) (k : A -> M B) : keeps_cur m -> (forall a, keeps_cur (k a)) -> keeps_cur (bind m k).
Proof.
  intros Hm Hk w b w' E. unfold bind in E. destruct (m w) as [[a w1]|] eqn:Em; [|discriminate].
  destruct (Hm _ _ _ Em), (Hk _ _ _ _ E). split; congruence.
Qed.
Lemma kc_when b m : keeps_cur m -> keeps_cur (when b m).
Proof. destruct b; [easy | intros; apply kc_ret]. Qed.
Lemma kc_access p : keeps_cur (access p).
Proof.
  intros w a w'. unfold access. destruct p as [|[] b|]; try discriminate. destruct (mapped w (page_of b)); [|discriminate].
  intros E; injection E as _ <-; now split.
Qed.

Create HintDb kc.
#[local] Hint Resolve kc_ret kc_get kc_bind kc_when kc_access : kc.
#[local] Hint Extern 1 (keeps_cur (modify _)) => (apply kc_modify; now split) : kc.

Lemma kc_load_int p : keeps_cur (load_int p).
Proof. unfold load_int; auto with kc. Qed.
Lemma kc_load_ptr p : keeps_cur (load_ptr p).
Proof. unfold load_ptr; auto with kc. Qed.
Lemma kc_store_int p v : keeps_cur (store_int p v).
Proof. unfold store_int; auto with kc. Qed.
Lemma kc_store_ptr p v : keeps_cur (store_ptr p v).
Proof. unfold store_ptr; auto with kc. Qed.
#[local] Hint Resolve kc_load_int kc_load_ptr kc_store_int kc_store_ptr : kc.

Lemma kc_list_add_head n h : keeps_cur (list_add_head n h).
Proof. unfold list_add_head; cbv zeta; auto 10 with kc. Qed.
Lemma kc_list_del n : keeps_cur (list_del n).
Proof. unfold list_del, list_del_impl; cbv zeta; auto 10 with kc. Qed.
Lemma kc_free_pages p : keeps_cur (bpf_arena_free_pages p).
Proof. intros w u w' E. rewrite free_pages_ok in E. injection E as _ <-. now split. Qed.
#[local] Hint Resolve kc_free_pages : kc.
Lemma kc_free p : keeps_cur (bpf_free p).
Proof. unfold bpf_free; cbv zeta; auto 10 with kc. Qed.
Lemma kc_select htab hash : keeps_cur (select_bucket htab hash).
Proof. unfold select_bucket; cbv zeta; auto 10 with kc. Qed.
Lemma kc_walk n : forall pos hash key, keeps_cur (walk n pos hash key).
Proof.
  induction n as [|n IH]; intros; cbn [walk]; auto with kc. case_if; auto with kc.
  apply kc_bind; auto with kc. intros x. apply kc_bind; [case_if; auto with kc|]. intros y.
  case_if; auto with kc.
Qed.
#[local] Hint Resolve kc_list_add_head kc_list_del kc_free kc_select kc_walk : kc.

Lemma take_offset page cnt off w r w' : take page cnt off w = Some (r, w') ->
  r = add page off /\ page_frag_cur_page w' cpu = page_frag_cur_page w cpu /\ page_frag_cur_offset w' cpu = off.
Proof.
  intros E. rewrite (take_cur _ _ _ _ _ _ E). revert E. unfold take, bind.
  destruct (load_int cnt w) as [[n w1]|]; [|discriminate]. destruct (store_int cnt _ w1) as [[u w2]|]; [|discriminate].
  unfold modify, ret. intros X; injection X as <- <-. split; [reflexivity|]. split; [reflexivity | apply fset_eq].
Qed.

(** The current page has room for another element. *)
Definition room (w : world) (n : Z) : Prop :=
  page_frag_cur_page w cpu <> Null /\ ELEM_SIZE * n <= page_frag_cur_offset w cpu <= PAGE_SIZE.

Lemma alloc_room w n r w' : room w (n + 1) -> 0 <= n -> bpf_alloc ELEM_SIZE w = Some (r, w') ->
  is_null r = false /\ room w' n.
Proof.
  intros [Cp Co] Hn E. unfold bpf_alloc in E. erewrite bind_run in E by reflexivity. cbv zeta in E.
  change (round_up ELEM_SIZE 8) with 32 in E. change (PAGE_SIZE - 8 <=? 32) with false in E. cbv iota in E.
  unfold ELEM_SIZE, PAGE_SIZE in Co. change (i32 32) with 32 in E.
  destruct (page_frag_cur_page w cpu) as [|v a|x] eqn:P; [congruence| |]; cbn [is_null] in E;
    erewrite bind_run in E by (erewrite bind_run by reflexivity; reflexivity); cbv beta iota zeta in E;
    rewrite i32_small in E by (unfold PAGE_SIZE; lia); destruct (Z.ltb_spec (page_frag_cur_offset w cpu - 32) 0); try lia;
    apply take_offset in E as (-> & E1 & E2); split; try reflexivity; unfold room; rewrite E1, E2;
    unfold ELEM_SIZE, PAGE_SIZE; (split; [congruence | lia]).
Qed.

Lemma kc_room {A} (m : M A) w a w' n : keeps_cur m -> m w = Some (a, w') -> room w n -> room w' n.
Proof. unfold room. intros H E R. destruct (H _ _ _ E) as [-> ->]. exact R. Qed.

Lemma update_room htab key value w n r w' : room w (n + 1) -> 0 <= n ->
  htab_update_elem htab key value w = Some (r, w') -> r = 0 /\ room w' n.
Proof.
  intros R Hn E. unfold htab_update_elem in E. cbv zeta in E. unfold bind at 1 in E.
  destruct (select_bucket _ _ w) as [[head w1]|] eqn:E1; [|discriminate].
  apply (kc_room _ _ _ _ _ (kc_select _ _) E1) in R. unfold bind at 1 in E.
  destruct (lookup_elem_raw head key key w1) as [[old w2]|] eqn:E2; [|discriminate].
  assert (K2 : keeps_cur (lookup_elem_raw head key key)) by (unfold lookup_elem_raw; auto with kc).
  apply (kc_room _ _ _ _ _ K2 E2) in R. unfold bind at 1 in E.
  destruct (bpf_alloc ELEM_SIZE w2) as [[p w3]|] eqn:E3; [|discriminate].
  destruct (alloc_room _ _ _ _ R Hn E3) as [Np R3]. rewrite Np in E.
  match type of E with ?m w3 = _ => assert (K3 : keeps_cur m) by auto 20 with kc end.
  split; [|exact (kc_room _ _ _ _ _ K3 E R3)]. revert E. unfold bind.
  repeat match goal with |- context [match ?c with Some _ => _ | None => _ end] => destruct c as [[]|]; [|discriminate] end.
  unfold ret. congruence.
Qed.

Lemma start_room w0 raw w1 : page_frag_cur_page w0 cpu = Null -> bpf_alloc HTAB_SIZE w0 = Some (raw, w1) -> raw <> Null ->
  page_frag_cur_offset w1 cpu = PAGE_SIZE - 8 - HTAB_SIZE.
Proof.
  intros Cn E N. unfold bpf_alloc in E. erewrite bind_run in E by reflexivity. cbv zeta in E.
  rewrite Cn in E; cbn [is_null] in E. change (PAGE_SIZE - 8 <=? round_up HTAB_SIZE 8) with false in E. cbv iota in E.
  unfold bind at 1 2 in E. destruct (bpf_alloc_refill w0) as [[[[page cnt]|] w']|]; [| |discriminate].
  - cbn [option_map fst snd ret] in E. unfold ret in E. cbv iota beta in E.
    change (i32 (PAGE_SIZE - 8 - i32 (round_up HTAB_SIZE 8))) with 4072 in E. change (4072 <? 0) with false in E. cbv iota in E.
    now apply take_offset in E as (_ & _ & ->).
  - injection E as <- _. now destruct N.
Qed.

(** The world in which the table has been set up. *)
Lemma setup_run w0 raw w1 buckets w2 :
  page_frag_cur_page w0 cpu = Null -> bpf_alloc HTAB_SIZE w0 = Some (raw, w1) -> raw <> Null ->
  bpf_arena_alloc_pages 2 w1 = Some (buckets, w2) -> buckets <> Null ->
  exists h w3, raw = At Kern h /\ htab_init (cast_kern raw) w1 = Some (tt, w3) /\ table w3 h (fun _ => []) /\ room w3 127.
Proof.
  intros Cn E N E2 N2. destruct (start_run w0 raw w1 Cn E N) as (h & fr & -> & A & Cur).
  pose proof (start_room w0 _ w1 Cn E N) as Off.
  destruct (init_run w1 h fr buckets w2 A E2 N2) as (w3 & E3 & TB & P & O).
  exists h, w3. split; [reflexivity|]. split; [exact E3|]. split; [exact TB|].
  unfold room. rewrite P, O, Off. split; [exact Cur|]. unfold ELEM_SIZE, PAGE_SIZE, HTAB_SIZE; lia.
Qed.

(** ** The driver *)

Definition N_KEYS := 100000.

(** The driver's pairs: every key at most once, and with itself. *)
Definition good (w : world) (T : nat -> list Z) : Prop :=
  forall i, (i < NB)%nat -> NoDup (map fst (content w T i)) /\
    forall k v, In (k, v) (content w T i) -> v = k /\ 0 <= k < N_KEYS /\ bucket_of k = i.

Definition present (w : world) (T : nat -> list Z) (k : Z) : Prop := In (k, k) (content w T (bucket_of k)).

Lemma remove_key_in n k l x : In x (remove_key n k l) -> In x l.
Proof.
  revert n; induction l as [|[k' v'] l IH]; intros [|n]; try easy. cbn [remove_key].
  destruct (k' =? k); [now right|]. intros [->|H]; [now left | right; now apply (IH n)].
Qed.

Lemma remove_key_keeps n k l k' v : k' <> k -> In (k', v) l -> In (k', v) (remove_key n k l).
Proof.
  intros N. revert n; induction l as [|[x y] l IH]; intros [|n]; try easy. cbn [remove_key].
  destruct (Z.eqb_spec x k) as [->|_]; (intros [E|H]; [|]); [congruence | exact H | now left | right; now apply IH].
Qed.

Lemma remove_key_spec n k l : NoDup (map fst l) -> (length l <= n)%nat ->
  NoDup (map fst (remove_key n k l)) /\ ~ In k (map fst (remove_key n k l)).
Proof.
  revert n; induction l as [|[x y] l IH]; intros n N Hl; [destruct n; cbn; split; auto; constructor|].
  cbn [length map fst] in *. destruct n as [|n]; [lia|]. inversion N as [|? ? N1 N2]; subst. cbn [remove_key].
  destruct (Z.eqb_spec x k) as [->|Nx]; [now split|]. destruct (IH n N2 ltac:(lia)) as [I1 I2].
  cbn [map fst]. split; [|intros [E|E]; [congruence | contradiction]]. constructor; [|exact I1].
  intros H. apply in_map_iff in H as ([a b] & Ea & H). cbn in Ea; subst a. apply N1, (in_map fst _ (x, b)), (remove_key_in n k), H.
Qed.

Lemma bucket_of_mod k : 0 <= k < N_KEYS -> Z.of_nat (bucket_of k) = k mod 1024.
Proof.
  intros H. unfold bucket_of. rewrite uw_small by (unfold is_u, N_KEYS in *; lia).
  change (Z.of_nat NB - 1) with (Z.ones 10). rewrite Z.land_ones by lia. change (2 ^ 10) with 1024.
  rewrite Z2Nat.id; [reflexivity|]. now apply Z.mod_pos_bound.
Qed.

(** At most 98 keys share a bucket, fewer than the walk visits. *)
Lemma good_bucket w T i : good w T -> (i < NB)%nat -> (length (content w T i) <= 98)%nat.
Proof.
  intros G Hi. destruct (G i Hi) as [N R]. rewrite <- (length_map fst).
  assert (R' : forall k, In k (map fst (content w T i)) -> 0 <= k < N_KEYS /\ k mod 1024 = Z.of_nat i).
  { intros k ([k' v] & <- & H)%in_map_iff. destruct (R k' v H) as (_ & X & <-). split; [exact X|]. now rewrite bucket_of_mod. }
  enough (Z.of_nat (length (map (fun k => k / 1024) (map fst (content w T i)))) <= 98) as X by (rewrite length_map in X; lia).
  apply NoDup_range; [lia| |].
  - apply NoDup_map_NoDup_ForallPairs; [|exact N]. intros a b Ha Hb E. apply R' in Ha, Hb.
    rewrite (Z.div_mod a 1024), (Z.div_mod b 1024) by lia. lia.
  - intros x (k & <- & Hk)%in_map_iff. apply R' in Hk as [Hk _]. unfold N_KEYS in Hk. Z.div_mod_to_equations; lia.
Qed.

Lemma good_updated w w' T T' key r : good w T -> 0 <= key < N_KEYS -> updated w w' T T' key key r ->
  good w' T' /\ (forall k, present w T k -> present w' T' k) /\ (r = 0 -> present w' T' key).
Proof.
  intros G Hk [[-> U]|[-> U]].
  { split; [|split; [|discriminate]].
    - intros i Hi. rewrite U by exact Hi. now apply G.
    - intros k. unfold present. now rewrite U by apply bucket_lt. }
  pose proof (bucket_lt key) as Hb. pose proof (good_bucket w T _ G Hb) as Len.
  assert (P : In (key, key) (content w' T' (bucket_of key))) by (rewrite U, Nat.eqb_refl by exact Hb; now left).
  split; [|split; [|now intros _]].
  - intros i Hi. rewrite U by exact Hi. destruct (Nat.eqb_spec i (bucket_of key)) as [->|_]; [|now apply G].
    destruct (G _ Hb) as [N R]. destruct (remove_key_spec MAX_BUCKET_WALK key _ N) as [N1 N2];
      [unfold MAX_BUCKET_WALK; lia|]. unfold put. split; [cbn [map fst]; now constructor|].
    intros k v [E|H]; [injection E as <- <-; now split|]. apply R. now apply remove_key_in in H.
  - intros k Pk. destruct (Z.eq_dec k key) as [->|Nk]; [exact P|]. unfold present in *. rewrite U by apply bucket_lt.
    destruct (Nat.eqb_spec (bucket_of k) (bucket_of key)) as [E|_]; [|exact Pk].
    right. now apply remove_key_keeps.
Qed.

Lemma populate_rounds h m : forall idx w T, table w h T -> good w T -> 0 <= idx -> idx + Z.of_nat m <= N_KEYS ->
  exists w' T', run_loop m (htab_loop_cb (At Kern h)) (idx, Some w) = (idx + Z.of_nat m, Some w') /\
    table w' h T' /\ good w' T' /\ (forall k, present w T k -> present w' T' k) /\
    (forall n, room w n -> forall k, idx <= k < idx + Z.min n (Z.of_nat m) -> present w' T' k).
Proof.
  induction m as [|m IH]; intros idx w T TB G H0 Hm.
  - exists w, T. cbn [run_loop]. rewrite Z.add_0_r. do 3 (split; [easy|]). split; [easy | intros; lia].
  - assert (I : i32 idx = idx) by (apply i32_small; unfold N_KEYS in *; lia).
    destruct (update_run w h T Kern idx idx TB) as (r & w1 & T1 & E & TB1 & U).
    destruct (good_updated w w1 T T1 idx r G ltac:(lia) U) as (G1 & P1 & Pr).
    destruct (IH (idx + 1) w1 T1 TB1 G1 ltac:(lia) ltac:(lia)) as (w2 & T2 & E2 & TB2 & G2 & P2 & R2).
    exists w2, T2. split; [|split; [exact TB2|split; [exact G2|split; [intros; now apply P2, P1|]]]].
    + cbn [run_loop htab_loop_cb]. cbv zeta. rewrite I, E. cbn [option_map snd]. rewrite E2. f_equal. lia.
    + intros n R k Hk. replace n with (n - 1 + 1) in R by lia.
      destruct (update_room _ _ _ _ _ _ _ R ltac:(lia) E) as [-> R1].
      destruct (Z.eq_dec k idx) as [->|Nk]; [now apply P2, Pr | apply (R2 (n - 1) R1); lia].
Qed.

Lemma populate_run h n w T : table w h T -> good w T -> 0 <= n <= N_KEYS ->
  exists w' T', populate n (At Kern h) w = Some (tt, w') /\
    table w' h T' /\ good w' T' /\ (forall k, present w T k -> present w' T' k) /\
    (forall m, room w m -> forall k, 0 <= k < Z.min m n -> present w' T' k).
Proof.
  intros TB G Hn. destruct (populate_rounds h (Z.to_nat n) 0 w T TB G) as (w' & T' & E & X); try lia.
  exists w', T'. split.
  - unfold populate. rewrite bpf_loop_spec by (unfold N_KEYS, BPF_MAX_LOOPS in *; lia). now rewrite E.
  - rewrite Z2Nat.id in X by lia. exact X.
Qed.

Lemma present_missing w h T : table w h T -> ~ (forall k, 0 <= k < N_KEYS -> present w T k).
Proof.
  intros TB H. pose proof (elems_bound w h T TB) as X.
  enough (N_KEYS <= Z.of_nat (length (elems T))) by (unfold N_KEYS, capacity, max_entries, OBJ_CNT, PAGE_SIZE in *;
    change ((4096 - 8) / 8) with 511 in *; lia).
  rewrite <- (length_map (fun e => ints w (e + KEY))).
  assert (Y : Z.of_nat (length (map Z.of_nat (seq 0 (Z.to_nat N_KEYS)))) = N_KEYS)
    by (rewrite length_map, length_seq, Z2Nat.id; [reflexivity | unfold N_KEYS; lia]).
  rewrite <- Y at 1. apply Nat2Z.inj_le, NoDup_incl_length.
  - apply NoDup_map_NoDup_ForallPairs; [intros a b _ _; lia | apply seq_NoDup].
  - intros k (j & <- & Hj)%in_map_iff. apply in_seq in Hj.
    assert (P : present w T (Z.of_nat j)) by (apply H; unfold N_KEYS in *; lia).
    unfold present, content, entries in P. apply in_map_iff in P as (e & Ee & He). injection Ee as E1 _.
    apply in_map_iff. exists e. split; [exact E1|]. apply in_elems. exists (bucket_of (Z.of_nat j)).
    split; [apply bucket_lt | exact He].
Qed.

Lemma present_lookup w h T v k : table w h T -> good w T -> present w T k ->
  htab_lookup_elem (At v h) k w = Some (k, w).
Proof.
  intros TB G P. rewrite (lookup_elem_run w h T v k TB). pose proof (bucket_lt k) as Hb.
  rewrite firstn_all2; [|unfold content, entries; rewrite length_map; now apply (bucket_bound w h)].
  destruct (G _ Hb) as [_ R]. unfold present, lookup in *.
  destruct (find _ _) as [[k' v']|] eqn:F.
  - apply find_some in F as [F E]. apply Z.eqb_eq in E. cbn in E. subst k'. apply R in F as [-> _]. reflexivity.
  - apply (find_none _ _ F) in P. cbn in P. now rewrite Z.eqb_refl in P.
Qed.

(** ** What user space sees *)

(** A pointer that user space can follow, or stop at. *)
Definition shareable (w : world) (p : ptr) : Prop :=
  match p with Null => True | At User a => mapped w (page_of a) = true | _ => False end.

Lemma hl_next m s l : hl m s l -> m s = Null \/ exists e, In e l /\ m s = At User (e + HASH_NODE).
Proof. destruct l as [|e l]; [now left|]. intros (H & _). right. exists e. split; [now left | exact H]. Qed.

Lemma hl_links m s l : hl m s l -> forall e, In e l ->
  (m (e + HASH_NODE) = Null \/ exists f, In f l /\ m (e + HASH_NODE) = At User (f + HASH_NODE)) /\
  exists p, In p (cells s l) /\ m (e + HASH_NODE + PPREV) = At User p /\ m p = At User (e + HASH_NODE).
Proof.
  revert s; induction l as [|e0 l IH]; intros s H e He; [easy|]. destruct H as (H1 & H2 & H3). destruct He as [<-|He].
  - split; [|exists s; split; [now left | now split]].
    destruct (hl_next _ _ _ H3) as [E|(f & Hf & E)]; [now left | right; exists f; split; [now right | exact E]].
  - destruct (IH _ H3 e He) as [[E|(f & Hf & E)] (p & Hp & P)]; (split; [|]).
    1, 3: first [now left | right; exists f; split; [now right | exact E]].
    all: exists p; (split; [|exact P]); right; cbn [links flat_map app]; (destruct Hp as [<-|Hp]; [now left | right; now right]).
Qed.

(** The pointers of a table: the buckets', each first, each next and each pprev,
    the last leading back to the element. *)
Definition well_typed (w : world) (h : Z) (T : nat -> list Z) : Prop :=
  exists b, ptrs w (h + BUCKETS) = At User b /\ forall i, (i < NB)%nat ->
    mapped w (page_of (b + BUCKET_SIZE * Z.of_nat i)) = true /\
    shareable w (ptrs w (b + BUCKET_SIZE * Z.of_nat i)) /\
    forall e, In e (T i) -> usable w e ELEM_SIZE /\ shareable w (ptrs w (e + HASH_NODE + NEXT)) /\
      exists p, ptrs w (e + HASH_NODE + PPREV) = At User p /\ mapped w (page_of p) = true /\
        ptrs w p = At User (e + HASH_NODE).

Lemma table_typed w h T : table w h T -> well_typed w h T.
Proof.
  intros (fr & bp & [B _] & TI). exists (PAGE_SIZE * bp). split; [apply TI|]. intros i Hi.
  destruct (owned_bucket _ _ i (owned_objs_of _ _ _ _ _ B) Hi) as [_ Oi].
  pose proof (ti_list _ _ _ _ TI i Hi) as Hl. fold (slot bp i).
  assert (M : forall c, In c (cells (slot bp i) (T i)) -> mapped w (page_of c) = true)
    by (intros c; now apply (cells_mapped w fr bp (objs_of h T))).
  assert (Sh : forall c, (ptrs w c = Null \/ exists f, In f (T i) /\ ptrs w c = At User (f + HASH_NODE)) -> shareable w (ptrs w c)).
  { intros c [->|(f & Hf & ->)]; [exact I|]. apply M. right. apply in_links. exists f. split; [exact Hf | now left]. }
  split; [apply M; now left|]. split; [now apply Sh, hl_next|]. intros e He.
  destruct (hl_links _ _ _ Hl e He) as [Nx (p & Hp & P1 & P2)].
  split; [apply (obj_usable B (elem e)), Oi, He|]. split; [apply Sh; unfold NEXT; now rewrite Z.add_0_r|].
  exists p. split; [exact P1|]. split; [now apply M | exact P2].
Qed.

(** C8. The driver, its two first allocations granted, runs without a fault and
    publishes a well-typed table in which every key is bound once, to itself, in
    its bucket, and is found there.  The first 127 keys are in it, whatever the
    later allocations do; the arena is too small for all of the 100000. *)
Theorem arena_htab_llvm_spec (w0 w1 w2 : world) (raw buckets : ptr) :
  page_frag_cur_page w0 cpu = Null ->
  bpf_alloc HTAB_SIZE w0 = Some (raw, w1) -> raw <> Null ->
  bpf_arena_alloc_pages 2 w1 = Some (buckets, w2) -> buckets <> Null ->
  exists w T, arena_htab_llvm w0 = Some (0, w) /\ htab_for_user w = cast_user raw /\
    (exists h, raw = At Kern h /\ well_typed w h T) /\
    (forall i k v, (i < NB)%nat -> In (k, v) (content w T i) -> v = k /\ 0 <= k < N_KEYS /\ bucket_of k = i) /\
    (forall i, (i < NB)%nat -> NoDup (map fst (content w T i))) /\
    (forall k, present w T k -> htab_lookup_elem (htab_for_user w) k w = Some (k, w)) /\
    (forall k, 0 <= k < 127 -> present w T k) /\
    ~ (forall k, 0 <= k < N_KEYS -> present w T k).
Proof.
  intros Cn E N E2 N2. destruct (setup_run w0 raw w1 buckets w2 Cn E N E2 N2) as (h & w3 & -> & E3 & TB3 & R).
  assert (G3 : good w3 (fun _ => [])) by (intros i Hi; split; [constructor | now intros k v []]).
  destruct (populate_run h N_KEYS w3 _ TB3 G3 ltac:(unfold N_KEYS; lia)) as (w4 & T4 & E4 & TB4 & G4 & _ & R4).
  destruct (populate_run h 1000 w4 _ TB4 G4 ltac:(unfold N_KEYS; lia)) as (w5 & T5 & E5 & TB5 & G5 & P5 & _).
  set (w := w5 <| htab_for_user := At User h |>).
  assert (TB : table w h T5).
  { destruct TB5 as (fr & bp & A & [T51 T52 T53 T54]). exists fr, bp. split; [now apply (alloc_inv_ext w5) | now constructor]. }
  assert (G : good w T5) by exact G5.
  exists w, T5. split; [|split; [reflexivity|split; [exists h; split; [reflexivity | now apply table_typed]|]]].
  - unfold arena_htab_llvm. rewrite (bind_run _ _ _ _ _ E). cbv zeta. cbn [cast_kern] in *.
    rewrite (bind_run _ _ _ _ _ E3), (bind_run _ _ _ _ _ E4), (bind_run _ _ _ _ _ E5). reflexivity.
  - split; [intros i k v Hi; now apply G|]. split; [intros i Hi; now apply G|].
    split; [intros k; now apply (present_lookup w h T5 User)|]. split; [|now apply (present_missing w h)].
    intros k Hk. apply P5, (R4 127 R). unfold N_KEYS; lia.
Qed.

(** C9. From the initialised table on, any sequence of updates and lookups runs
    without a fault and answers like a finite map, in which an update may fail for
    want of memory, leaving the map as it was. *)
Theorem htab_refines (w0 w1 w2 : world) (raw buckets : ptr) (ops : list op) :
  page_frag_cur_page w0 cpu = Null ->
  bpf_alloc HTAB_SIZE w0 = Some (raw, w1) -> raw <> Null ->
  bpf_arena_alloc_pages 2 w1 = Some (buckets, w2) -> buckets <> Null ->
  exists w3 rs w4 m, htab_init (cast_kern raw) w1 = Some (tt, w3) /\ run raw ops w3 = Some (rs, w4) /\
    spec (fun _ => None) ops rs m.
Proof.
  intros Cn E N E2 N2. destruct (setup_run w0 raw w1 buckets w2 Cn E N E2 N2) as (h & w3 & -> & E3 & TB & _).
  destruct (run_table w3 h _ Kern ops TB) as (rs & w4 & T & E4 & _ & S). exists w3, rs, w4, (abs w4 T).
  split; [exact E3|]. split; [exact E4|]. exact S.
Qed.

(** C10. Over any sequence of updates and lookups, every pointer that user space
    follows stays null or in the user's numbering and on a mapped page, the
    elements stay live, and each pprev names the pointer to its element. *)
Theorem arena_typed (w : world) (h : Z) (T : nat -> list Z) (v : view) (ops : list op) : table w h T ->
  exists rs w' T', run (At v h) ops w = Some (rs, w') /\ table w' h T' /\ well_typed w' h T'.
Proof.
  intros TB. destruct (run_table w h T v ops TB) as (rs & w' & T' & E & TB' & _).
  exists rs, w', T'. split; [exact E|]. split; [exact TB' | now apply table_typed].
Qed.

End Update.

(** ** A concrete kernel: the first free pages, and an empty arena *)

Section Witness.

Definition fits (m : Z -> bool) (cnt p : Z) : bool :=
  (p + cnt <=? max_entries) && forallb (fun i => negb (m (p + Z.of_nat i))) (seq 0 (Z.to_nat cnt)).

#[local] Instance first_fit : Kernel := {
  cpu := 0;
  loop_budget := Z.to_nat BPF_MAX_LOOPS;
  bpf_arena_alloc_pages cnt w :=
    match find (fits (mapped w) cnt) (map Z.of_nat (seq 1 99)) with
    | Some p => Some (At User (PAGE_SIZE * p), fresh p cnt w)
    | None => Some (Null, w <| calls ::= S |>)
    end;
  bpf_arena_free_pages p w := Some (tt, w <| mapped ::= unmap p |>)
}.

#[local] Instance first_fit_ok : KernelOk first_fit.
Proof.
  constructor; [intros cnt w | reflexivity | cbn [loop_budget first_fit]; rewrite Z2Nat.id; [reflexivity | now vm_compute]].
  cbn [bpf_arena_alloc_pages first_fit]. destruct (find _ _) as [p|] eqn:F; [right | now left].
  exists p. apply find_some in F as [I [F1 F2]%andb_prop]. apply Z.leb_le in F1.
  apply in_map_iff in I as (j & <- & Hj%in_seq). split; [lia|]. split; [exact F1|]. split; [|reflexivity].
  intros i Hi. rewrite forallb_forall in F2. specialize (F2 (Z.to_nat i)).
  rewrite Z2Nat.id in F2 by lia. apply negb_true_iff, F2, in_seq. lia.
Qed.

Definition empty_arena : world := {|
  mapped _ := false; ints _ := 0; ptrs _ := Null;
  page_frag_cur_page _ := Null; page_frag_cur_offset _ := 0; htab_for_user := Null; calls := 0
|}.

Definition after_alloc : world := match bpf_alloc HTAB_SIZE empty_arena with Some (_, w) => w | None => empty_arena end.
Definition after_buckets : world :=
  match bpf_arena_alloc_pages 2 after_alloc with Some (_, w) => w | None => empty_arena end.

Lemma arena_htab_llvm_spec_witness : exists w T, arena_htab_llvm empty_arena = Some (0, w) /\
  (forall k, 0 <= k < 127 -> present w T k).
Proof.
  destruct (arena_htab_llvm_spec empty_arena after_alloc after_buckets (At Kern 8168) (At User 8192))
    as (w & T & E & _ & _ & _ & _ & _ & P & _); [reflexivity | reflexivity | discriminate | reflexivity | discriminate |].
  exists w, T. split; [exact E | exact P].
Defined.

Lemma htab_refines_witness : exists w rs w' m, htab_init (At Kern 8168) after_alloc = Some (tt, w) /\
  run (At Kern 8168) [Update 5 7; Update 1029 8; Update 5 9; Lookup 5; Lookup 6] w = Some (rs, w') /\
  spec (fun _ => None) [Update 5 7; Update 1029 8; Update 5 9; Lookup 5; Lookup 6] rs m.
Proof.
  apply (htab_refines empty_arena after_alloc after_buckets (At Kern 8168) (At User 8192));
    [reflexivity | reflexivity | discriminate | reflexivity | discriminate].
Defined.

Lemma arena_typed_witness : exists w T, table w 8168 T /\ exists rs w' T',
  run (At User 8168) [Update 5 7; Lookup 5] w = Some (rs, w') /\ table w' 8168 T' /\ well_typed w' 8168 T'.
Proof.
  destruct (setup_run empty_arena (At Kern 8168) after_alloc (At User 8192) after_buckets)
    as (h & w & E & _ & TB & _); [reflexivity | reflexivity | discriminate | reflexivity | discriminate |].
  assert (X : h = 8168) by congruence. subst h. exists w, (fun _ => []). split; [exact TB|]. exact (arena_typed w 8168 (fun _ => []) User _ TB).
Defined.

End Witness.

End ArenaHtab.
