(* ===== verification/ArenaSpinLock.v ===== *)
(** The arena spin lock: progs/arena_spin_lock.rs.

    The test runs [prog] on several CPUs at once; each run takes the lock word
    of the arena with a bounded number of compare-and-exchange attempts, moves
    [counter] one step towards [limit], holds the lock for [cs_count] rounds
    and releases it.  The memory is the one the orderings of the code are
    about: every location keeps the history of its writes by time stamp, a CPU
    may read any write not older than its view, an atomic write carries the
    view its ordering publishes and an [Acquire] read takes that view on.  A
    step of the machine is the access of one CPU to one write of a history,
    chosen by a scheduler; the theorems hold for every sequence of choices.
    Writes are made in program order: every write of the program depends on the
    reads before it.  [cs_count], [limit] and the two kernel configuration
    values are written before the programs run and are parameters. *)

From Stdlib Require Import PeanoNat.
From S2P Require Import Prelude Kernel.

Module ArenaSpinLock.

(** ** Memory *)

(** A history: the writes of a location by time stamp. *)
Definition hist (A : Type) := nat -> option A.

Definition written {A} (m : nat -> A) (t : nat) (x : A) : nat -> A :=
  fun u => if (u =? t)%nat then x else m u.

(** The newest write of each shared location a CPU knows of. *)
Record View := mk_view { v_lock : nat; v_counter : nat }.

Definition view0 := mk_view 0 0.

Definition join (a b : View) : View :=
  mk_view (Nat.max (v_lock a) (v_lock b)) (Nat.max (v_counter a) (v_counter b)).

(** A write of the lock word, with the view it publishes. *)
Record Write := mk_write { w_val : Z; w_view : View }.

(** Where a CPU is in [prog]; the states from [CompareLimit] to [StoreRelease]
    are the critical section. *)
Inductive Pc :=
| Idle
| TryLock (i : Z)
| CompareLimit
| Increment
| StoreCounter (v : Z)
| Delay (n : Z)
| Barrier
| StoreRelease.

Record Thread := mk_thread { pc : Pc; view : View }.

(** The histories of [lock] and [counter], the CPUs, and the values the runs
    returned, newest first. *)
Record State := mk_state {
  lock : hist Write;
  counter : hist Z;
  threads : nat -> Thread;
  rets : list (nat * Z) }.

Definition init : State :=
  mk_state (written (fun _ => None) 0%nat (Some (mk_write 0 view0)))
    (written (fun _ => None) 0%nat (Some 0)) (fun _ => mk_thread Idle view0) [].

(** CPU [c] goes on at [p] with the view [v]. *)
Definition go (c : nat) (p : Pc) (v : View) (s : State) : State :=
  mk_state (lock s) (counter s) (written (threads s) c (mk_thread p v)) (rets s).

Definition returns (c : nat) (r : Z) (v : View) (s : State) : State :=
  let s := go c Idle v s in mk_state (lock s) (counter s) (threads s) ((c, r) :: rets s).

(** *** The accesses

    [t] is the write chosen by the scheduler: an existing one that is not older
    than the view for a read, the place of the new one for a write. *)

(** [AtomicU32::compare_exchange(0, new, Acquire, Relaxed)]: a read of 0 puts
    the new value right after the write it read, and goes on publishing the
    view of that write; any other value is an error, with the time stamp as
    the only knowledge gained. *)
Definition compare_exchange (t : nat) (new : Z) (v : View) (m : hist Write) :
    option (bool * View * hist Write) :=
  if (t <? v_lock v)%nat then None else
  match m t with
  | None => None
  | Some w =>
      if w_val w =? 0 then
        match m (S t) with
        | Some _ => None
        | None =>
            let a := join v (w_view w) in
            let v := mk_view (S t) (v_counter a) in
            Some (true, v, written m (S t) (Some (mk_write new (w_view w))))
        end
      else Some (false, mk_view t (v_counter v), m)
  end.

(** [AtomicU32::store(x, Release)]. *)
Definition store_release (t : nat) (x : Z) (v : View) (m : hist Write) :
    option (View * hist Write) :=
  if (t <=? v_lock v)%nat then None else
  match m t with
  | Some _ => None
  | None => let v := mk_view t (v_counter v) in Some (v, written m t (Some (mk_write x v)))
  end.

(** A plain read of [counter]. *)
Definition load_counter (t : nat) (v : View) (m : hist Z) : option (Z * View) :=
  if (t <? v_counter v)%nat then None else
  option_map (fun x => (x, mk_view (v_lock v) t)) (m t).

(** A plain write of [counter]. *)
Definition store_counter (t : nat) (x : Z) (v : View) (m : hist Z) :
    option (View * hist Z) :=
  if (t <=? v_counter v)%nat then None else
  match m t with
  | Some _ => None
  | None => Some (mk_view (v_lock v) t, written m t (Some x))
  end.

(** ** The program *)

Definition LOCK_RETRY_BOUND := 8 * 1024 * 1024.

Section Program.
Context (cs_count limit CONFIG_NR_CPUS CONFIG_X86_64 : Z).

(** [arena_spin_lock] up to its loop. *)
Definition arena_spin_lock (c : nat) (v : View) (s : State) : State :=
  if 1024 <? CONFIG_NR_CPUS then returns c (-95) v s else go c (TryLock 0) v s.

(** Round [i] of the loop: [bpf_loop] stops it when the lock is taken or the
    bound is reached, and [arena_spin_lock] ends in 0 or -ETIMEDOUT. *)
Definition try_lock_cb (t : nat) (c : nat) (i : Z) (v : View) (s : State) : option State :=
  match compare_exchange t 1 v (lock s) with
  | None => None
  | Some (acquired, v, m) =>
      let s := mk_state m (counter s) (threads s) (rets s) in
      Some (if acquired : bool then go c CompareLimit v s
            else if i + 1 <? LOCK_RETRY_BOUND then go c (TryLock (i + 1)) v s
            else returns c (-110) v s)
  end.

(** The rounds of the delay: [bpf_loop] refuses more than BPF_MAX_LOOPS. *)
Definition cs_delay : Z :=
  let n := u32 cs_count in if BPF_MAX_LOOPS <? n then 0 else n.

(** The two stages of [arena_spin_unlock]; the barrier is a sequentially
    consistent [fetch_add] on a word of the CPU's own stack. *)
Definition arena_spin_unlock : Pc :=
  if CONFIG_X86_64 =? 0 then Barrier else StoreRelease.

(** One access of CPU [c], to the write [t]; [None] where there is no such
    write to read or no room for one to write. *)
Definition prog (c t : nat) (s : State) : option State :=
  let v := view (threads s c) in
  match pc (threads s c) with
  | Idle => Some (arena_spin_lock c v s)
  | TryLock i => try_lock_cb t c i v s
  | CompareLimit =>
      match load_counter t v (counter s) with
      | None => None
      | Some (x, v) => Some (go c (if x =? limit then Delay cs_delay else Increment) v s)
      end
  | Increment =>
      match load_counter t v (counter s) with
      | None => None
      | Some (x, v) => Some (go c (StoreCounter (i32 (x + 1))) v s)
      end
  | StoreCounter x =>
      match store_counter t x v (counter s) with
      | None => None
      | Some (v, m) =>
          Some (go c (Delay cs_delay) v (mk_state (lock s) m (threads s) (rets s)))
      end
  | Delay n => Some (go c (if n =? 0 then arena_spin_unlock else Delay (n - 1)) v s)
  | Barrier => Some (go c StoreRelease v s)
  | StoreRelease =>
      match store_release t 0 v (lock s) with
      | None => None
      | Some (v, m) => Some (returns c 0 v (mk_state m (counter s) (threads s) (rets s)))
      end
  end.

(** The machine under the choices of a scheduler. *)
Fixpoint run (l : list (nat * nat)) (s : State) : option State :=
  match l with
  | [] => Some s
  | (c, t) :: l => match prog c t s with Some s => run l s | None => None end
  end.

(** ** What it is to do

    The critical section run alone, and the value after [n] runs in a row. *)
Definition bump (x : Z) : Z := if x =? limit then x else i32 (x + 1).

Definition sequential (n : nat) : Z := Nat.iter n bump 0.

(** The runs that took the lock and are over. *)
Definition completed (s : State) : nat := length (filter (fun r => snd r =? 0) (rets s)).

Definition critical (p : Pc) : bool :=
  match p with Idle | TryLock _ => false | _ => true end.

(** The newest write of a history. *)
Definition newest {A} (m : hist A) (t : nat) (x : A) : Prop :=
  m t = Some x /\ forall u y, m u = Some y -> (u <= t)%nat.

(** ** The invariant *)

(** The newest value of [counter] while a CPU is at [p], [n] runs being over. *)
Definition counting (p : Pc) (n : nat) (x : Z) : Prop :=
  match p with
  | CompareLimit => x = sequential n
  | Increment => x = sequential n /\ x <> limit
  | StoreCounter y => x = sequential n /\ x <> limit /\ y = i32 (x + 1)
  | _ => x = sequential (S n)
  end.

(** The newest write of the lock word tells whether a CPU is in the critical
    section.  A 0 publishes the newest write of [counter]; a 1 is the write of
    that CPU, which knows every write of both locations. *)
Inductive phase (s : State) (tl tc : nat) : Prop :=
| unlocked V : newest (lock s) tl (mk_write 0 V) -> v_counter V = tc ->
    newest (counter s) tc (sequential (completed s)) ->
    (forall c, critical (pc (threads s c)) = false) -> phase s tl tc
| locked c x V : newest (lock s) tl (mk_write 1 V) -> view (threads s c) = mk_view tl tc ->
    critical (pc (threads s c)) = true ->
    (forall c', critical (pc (threads s c')) = true -> c' = c) ->
    newest (counter s) tc x -> counting (pc (threads s c)) (completed s) x -> phase s tl tc.

Definition within (tl tc : nat) (v : View) : Prop := (v_lock v <= tl /\ v_counter v <= tc)%nat.

(** No room is left after an older 0: the 1 that took it is there. *)
Record Inv (s : State) (tl tc : nat) : Prop := {
  inv_phase : phase s tl tc;
  inv_taken : forall t w, lock s t = Some w -> w_val w = 0 -> (t < tl)%nat -> lock s (S t) <> None;
  inv_views : forall c, within tl tc (view (threads s c));
  inv_writes : forall t w, lock s t = Some w -> within tl tc (w_view w) }.

Lemma written_eq {A} (m : nat -> A) t x : written m t x t = x.
Proof. unfold written. now rewrite Nat.eqb_refl. Qed.

Lemma written_ne {A} (m : nat -> A) t x u : u <> t -> written m t x u = m u.
Proof. unfold written. intros H. now apply Nat.eqb_neq in H as ->. Qed.

Lemma written_cases {A} (m : nat -> A) t x u :
  (u = t /\ written m t x u = x) \/ (u <> t /\ written m t x u = m u).
Proof. destruct (Nat.eq_dec u t) as [->|N]; [left | right]; auto using written_eq, written_ne. Qed.

Lemma newest_upd {A} (m : hist A) t x u y : newest m t x -> (t < u)%nat -> newest (written m u (Some y)) u y.
Proof.
  intros [_ H] L. split; [apply written_eq|]. intros v z.
  destruct (written_cases m u (Some y) v) as [[-> _]|[N ->]]; [lia|]. intros E. apply H in E. lia.
Qed.

Lemma newest_fun {A} (m : hist A) t x u y : newest m t x -> newest m u y -> t = u /\ x = y.
Proof.
  intros [E H] [E' H']. assert (t = u) as -> by (apply H' in E; apply H in E'; lia).
  split; congruence.
Qed.

Lemma within_mono tl tc tl' tc' v : (tl <= tl')%nat -> (tc <= tc')%nat -> within tl tc v -> within tl' tc' v.
Proof. unfold within. lia. Qed.

Lemma Inv_init : Inv init 0 0.
Proof.
  assert (N : forall A (x : A), newest (written (fun _ => None) 0%nat (Some x)) 0 x).
  { intros A x. split; [reflexivity|]. intros u y. destruct (written_cases (fun _ => @None A) 0%nat (Some x) u) as [[-> _]|[_ ->]]; [lia | discriminate]. }
  split.
  - apply (unlocked _ _ _ view0); try apply N; reflexivity.
  - lia.
  - intros c. split; cbn; lia.
  - intros t w; cbn. destruct (written_cases (fun _ => None) 0%nat (Some (mk_write 0 view0)) t) as [[-> ->]|[_ ->]]; [|discriminate].
    intros [= <-]. split; cbn; lia.
Qed.

(** A CPU outside the critical section goes on, or returns without the lock. *)
Lemma Inv_outside s tl tc c p v r : Inv s tl tc -> critical (pc (threads s c)) = false ->
  critical p = false -> within tl tc v -> Forall (fun r => snd r <> 0) r ->
  Inv (mk_state (lock s) (counter s) (written (threads s) c (mk_thread p v)) (r ++ rets s)) tl tc.
Proof.
  intros [P T V W] Hc Hp Hv Hr.
  assert (C : forall s', s' = mk_state (lock s) (counter s) (written (threads s) c (mk_thread p v)) (r ++ rets s) ->
              completed s' = completed s).
  { intros s' ->. unfold completed; cbn [rets]. induction Hr as [|a r Ha _ IH]; [reflexivity|].
    cbn [app filter]. apply Z.eqb_neq in Ha as ->. exact IH. }
  assert (O : forall c', critical (pc (written (threads s) c (mk_thread p v) c')) = critical (pc (threads s c'))).
  { intros c'. destruct (written_cases (threads s) c (mk_thread p v) c') as [[-> ->]|[_ ->]]; cbn; congruence. }
  split; [|exact T| |exact W].
  - destruct P as [V0 L E N F | c0 x V0 L E K U N Cn].
    + apply (unlocked _ _ _ V0); rewrite ?(C _ eq_refl); auto. intros c'; cbn. rewrite O. apply F.
    + assert (c0 <> c) as Nc by congruence.
      apply (locked _ _ _ c0 x V0); rewrite ?(C _ eq_refl); cbn [lock counter threads]; rewrite ?(written_ne _ _ _ _ Nc); auto.
      intros c'. rewrite O. apply U.
  - intros c'; cbn. destruct (written_cases (threads s) c (mk_thread p v) c') as [[-> ->]|[_ ->]]; [exact Hv | apply V].
Qed.

(** The CPU in the critical section knows every write. *)
Lemma Inv_critical s tl tc c : Inv s tl tc -> critical (pc (threads s c)) = true ->
  view (threads s c) = mk_view tl tc /\
  (forall c', critical (pc (threads s c')) = true -> c' = c) /\
  (exists V, newest (lock s) tl (mk_write 1 V)) /\
  exists x, newest (counter s) tc x /\ counting (pc (threads s c)) (completed s) x.
Proof.
  intros [[V0 L E N F | c0 x V0 L E K U N Cn] _ _ _] Hc; [rewrite F in Hc; discriminate|].
  rewrite (U c Hc). eauto 8.
Qed.

(** It goes on inside, having written nothing or the counter. *)
Lemma Inv_inside s tl tc tc' c p m x : Inv s tl tc -> critical (pc (threads s c)) = true ->
  critical p = true -> (tc <= tc')%nat -> newest m tc' x -> counting p (completed s) x ->
  Inv (mk_state (lock s) m (written (threads s) c (mk_thread p (mk_view tl tc'))) (rets s)) tl tc'.
Proof.
  intros I Hc Hp Ht N Cn. destruct (Inv_critical _ _ _ _ I Hc) as (_ & U & (V0 & L) & _).
  destruct I as [_ T V W]. split; [|exact T| |].
  - apply (locked _ _ _ c x V0); cbn [threads]; rewrite ?written_eq; auto.
    intros c'. destruct (written_cases (threads s) c (mk_thread p (mk_view tl tc')) c') as [[-> ->]|[_ ->]]; auto.
  - intros c'; cbn. destruct (written_cases (threads s) c (mk_thread p (mk_view tl tc')) c') as [[-> ->]|[_ ->]];
      [split; cbn; lia | now apply (within_mono tl tc)].
  - intros t w E. apply (within_mono tl tc); eauto.
Qed.

(** Only the newest write can be a 0 with room behind it, so an exchange that
    succeeds finds no one inside and learns all that was published. *)
Lemma Inv_exchange s tl tc c t v m : Inv s tl tc -> critical (pc (threads s c)) = false ->
  compare_exchange t 1 (view (threads s c)) (lock s) = Some (true, v, m) ->
  Inv (go c CompareLimit v (mk_state m (counter s) (threads s) (rets s))) (S t) tc.
Proof.
  intros [P T V W] Hc. unfold compare_exchange.
  destruct (Nat.ltb_spec t (v_lock (view (threads s c)))) as [|Hv]; [discriminate|].
  destruct (lock s t) as [w|] eqn:Ew; [|discriminate].
  destruct (Z.eqb_spec (w_val w) 0) as [W0|]; [|discriminate].
  destruct (lock s (S t)) eqn:Ef; [discriminate|]. intros [= <- <-].
  assert (Ht : forall x, newest (lock s) tl x -> t = tl /\ w = x).
  { intros x [Ex L]. destruct (Nat.lt_trichotomy t tl) as [X|[->|X]]; [now destruct (T t w) | split; congruence|].
    apply L in Ew. lia. }
  destruct P as [V0 L E N F | c0 x V0 L]; destruct (Ht _ L) as [-> ->]; [|discriminate]. cbn [w_view] in *.
  assert (J : Nat.max (v_counter (view (threads s c))) (v_counter V0) = tc) by (specialize (V c); unfold within in V; lia).
  cbn [join v_lock v_counter]. rewrite J. split.
  - apply (locked _ _ _ c (sequential (completed s)) V0); cbn [go threads lock counter]; rewrite ?written_eq; auto.
    + apply newest_upd with (1 := L). lia.
    + intros c'. destruct (written_cases (threads s) c (mk_thread CompareLimit (mk_view (S tl) tc)) c') as [[-> _]|[_ ->]]; [auto|].
      rewrite F; discriminate.
    + reflexivity.
  - cbn. intros u x. destruct (written_cases (lock s) (S tl) (Some (mk_write 1 V0)) u) as [[-> ->]|[_ ->]]; [lia|].
    intros E' X Hu. destruct (Nat.eq_dec u tl) as [->|Nu]; [rewrite written_eq; discriminate|].
    rewrite written_ne by lia. apply (T u x); auto; lia.
  - intros c'; cbn. destruct (written_cases (threads s) c (mk_thread CompareLimit (mk_view (S tl) tc)) c') as [[-> ->]|[_ ->]];
      [split; cbn; lia | apply (within_mono tl tc); auto].
  - cbn. intros u x. destruct (written_cases (lock s) (S tl) (Some (mk_write 1 V0)) u) as [[-> ->]|[_ ->]]; intros E'.
    + injection E' as <-. apply (within_mono tl tc); auto. exact (W tl _ Ew).
    + apply (within_mono tl tc); eauto.
Qed.

(** The release publishes the newest write of the counter. *)
Lemma Inv_release s tl tc c t v m : Inv s tl tc -> pc (threads s c) = StoreRelease ->
  store_release t 0 (view (threads s c)) (lock s) = Some (v, m) ->
  Inv (returns c 0 v (mk_state m (counter s) (threads s) (rets s))) t tc.
Proof.
  intros I Ep. destruct (Inv_critical _ _ _ c I) as (Ev & U & (V0 & L) & x & N & Cn); [now rewrite Ep|].
  rewrite Ev, Ep in *. cbn [counting] in Cn. unfold store_release; cbn [v_lock v_counter].
  destruct (Nat.leb_spec t tl) as [|Hl]; [discriminate|]. destruct (lock s t) eqn:Et; [discriminate|].
  intros [= <- <-]. destruct I as [_ T V W].
  assert (B : forall u w, lock s u = Some w -> (u < t)%nat) by (intros u w E; apply L in E; lia).
  split.
  - apply (unlocked _ _ _ (mk_view t tc)); cbn [returns go threads lock counter].
    + apply newest_upd with (1 := L). lia.
    + reflexivity.
    + subst x. exact N.
    + intros c'. destruct (written_cases (threads s) c (mk_thread Idle (mk_view t tc)) c') as [[-> ->]|[Nc ->]]; [reflexivity|].
      destruct (critical (pc (threads s c'))) eqn:E; [|reflexivity]. destruct Nc. auto.
  - cbn. intros u w. destruct (written_cases (lock s) t (Some (mk_write 0 (mk_view t tc))) u) as [[-> ->]|[_ ->]]; [lia|].
    intros E W0 _. destruct (Nat.eq_dec (S u) t) as [->|Nu]; [rewrite written_eq; discriminate|].
    rewrite written_ne by exact Nu. apply (T u w); auto. destruct (Nat.eq_dec u tl) as [->|Nt]; [|apply L in E; lia].
    destruct L as [L _]. rewrite L in E. injection E as <-. discriminate.
  - intros c'; cbn. destruct (written_cases (threads s) c (mk_thread Idle (mk_view t tc)) c') as [[-> ->]|[_ ->]];
      [split; cbn; lia | apply (within_mono tl tc); auto; lia].
  - cbn. intros u w. destruct (written_cases (lock s) t (Some (mk_write 0 (mk_view t tc))) u) as [[-> ->]|[_ ->]]; intros E.
    + injection E as <-. split; cbn; lia.
    + apply (within_mono tl tc); eauto; lia.
Qed.

(** In the critical section a read of the counter has one write to choose. *)
Lemma load_newest t tl tc x y v m : newest m tc x ->
  load_counter t (mk_view tl tc) m = Some (y, v) -> y = x /\ v = mk_view tl tc.
Proof.
  intros [E L]. unfold load_counter; cbn [v_lock v_counter].
  destruct (Nat.ltb_spec t tc) as [|H]; [discriminate|]. destruct (m t) as [z|] eqn:Et; [|discriminate].
  intros [= <- <-]. assert (t = tc) as -> by (apply L in Et; lia). split; congruence.
Qed.

Lemma exchange_fails t v m v' m' : compare_exchange t 1 v m = Some (false, v', m') ->
  m' = m /\ v' = mk_view t (v_counter v) /\ exists w, m t = Some w.
Proof.
  unfold compare_exchange. destruct (_ <? _)%nat; [discriminate|]. destruct (m t) as [w|]; [|discriminate].
  destruct (_ =? 0); [destruct (m (S t)); discriminate|]. intros [= <- <-]. eauto.
Qed.

(** A write chosen for a read is not newer than the newest. *)
Lemma lock_bound s tl tc t w : Inv s tl tc -> lock s t = Some w -> (t <= tl)%nat.
Proof. intros [[? [_ L] _ _ _ | ? ? ? [_ L] _ _ _ _ _] _ _ _]; eauto. Qed.

Lemma sequential_S n :
  sequential (S n) = if sequential n =? limit then sequential n else i32 (sequential n + 1).
Proof. reflexivity. Qed.

Lemma prog_Inv s tl tc c t s' : Inv s tl tc -> prog c t s = Some s' -> exists tl' tc', Inv s' tl' tc'.
Proof.
  intros I. pose proof (inv_views _ _ _ I c) as Vc. pose proof (Inv_critical s tl tc c I) as Cr.
  pose proof (fun p v r => Inv_outside s tl tc c p v r I) as Out.
  pose proof (fun tc' p m x => Inv_inside s tl tc tc' c p m x I) as In.
  unfold prog. destruct (pc (threads s c)) as [|i| | |x|n| |] eqn:Ep; cbn [critical] in *;
    try (destruct (Cr eq_refl) as (Ev & _ & _ & y & N & Cn); cbn [counting] in Cn; clear Cr Out Vc; rewrite ?Ev).
  - intros [= <-]. exists tl, tc. unfold arena_spin_lock. destruct (1024 <? _).
    + apply (Out Idle _ [(c, -95)]); auto. constructor; [discriminate | constructor].
    + apply (Out (TryLock 0) _ []); auto.
  - unfold try_lock_cb. destruct (compare_exchange _ _ _ _) as [[[[] v] m]|] eqn:E; [| |discriminate]; intros [= <-].
    + exists (S t), tc. apply (Inv_exchange s tl); auto. now rewrite Ep.
    + destruct (exchange_fails _ _ _ _ _ E) as (-> & -> & w & Ew). exists tl, tc.
      assert (within tl tc (mk_view t (v_counter (view (threads s c))))) by (split; cbn; [eapply lock_bound; eauto | apply Vc]).
      destruct (_ <? _); [apply (Out (TryLock (i + 1)) _ []) | apply (Out Idle _ [(c, -110)])]; auto.
      constructor; [discriminate | constructor].
  - destruct (load_counter _ _ _) as [[z v]|] eqn:E; [|discriminate]; intros [= <-].
    destruct (load_newest _ _ _ _ _ _ _ N E) as [-> ->]. exists tl, tc. apply (In tc _ _ y); auto; subst y.
    + now destruct (_ =? limit).
    + destruct (Z.eqb_spec (sequential (completed s)) limit) as [e|e]; [|split; auto].
      unfold counting. rewrite sequential_S, e, Z.eqb_refl. reflexivity.
  - destruct (load_counter _ _ _) as [[z v]|] eqn:E; [|discriminate]; intros [= <-].
    destruct (load_newest _ _ _ _ _ _ _ N E) as [-> ->]. exists tl, tc. apply (In tc _ _ y); auto. cbn [counting]. tauto.
  - destruct Cn as (Ey & Ny & ->). unfold store_counter; cbn [v_lock v_counter].
    destruct (Nat.leb_spec t tc) as [|Ht]; [discriminate|]. destruct (counter s t); [discriminate|]. intros [= <-].
    exists tl, t. apply (In t _ _ (i32 (y + 1))); auto; [lia | now apply newest_upd with (1 := N) |].
    unfold counting. apply Z.eqb_neq in Ny. now rewrite sequential_S, <- Ey, Ny.
  - intros [= <-]. exists tl, tc. apply (In tc _ _ y); auto; unfold arena_spin_unlock;
      destruct (n =? 0); try destruct (_ =? 0); auto.
  - intros [= <-]. exists tl, tc. now apply (In tc _ _ y).
  - destruct (store_release _ _ _ _) as [[v m]|] eqn:E; [|discriminate]; intros [= <-].
    exists t, tc. apply (Inv_release s tl); auto. now rewrite Ev.
Qed.

Lemma run_Inv l s s' tl tc : Inv s tl tc -> run l s = Some s' -> exists tl' tc', Inv s' tl' tc'.
Proof.
  revert s tl tc. induction l as [|[c t] l IH]; intros s tl tc I; cbn [run]; [intros [= <-]; eauto|].
  destruct (prog c t s) as [s1|] eqn:E; [|discriminate]. destruct (prog_Inv _ _ _ _ _ _ I E) as (tl1 & tc1 & I1). eauto.
Qed.

(** Below an upper limit the counter stops at it, with no overflow. *)
Lemma sequential_min n : 0 <= limit < 2 ^ 31 -> sequential n = Z.min (Z.of_nat n) limit.
Proof.
  intros H. induction n as [|n IH]; [cbn; lia|]. rewrite sequential_S, IH.
  destruct (Z.eqb_spec (Z.min (Z.of_nat n) limit) limit); [lia|]. rewrite i32_small by lia. lia.
Qed.

(** ** Termination

    The accesses a run still has at most, and in all. *)
Definition left (p : Pc) : Z :=
  match p with
  | Idle => 0
  | TryLock i => LOCK_RETRY_BOUND - i + cs_delay + 6
  | CompareLimit => cs_delay + 6
  | Increment => cs_delay + 5
  | StoreCounter _ => cs_delay + 4
  | Delay n => n + 3
  | Barrier => 2
  | StoreRelease => 1
  end.

Definition run_length : Z := LOCK_RETRY_BOUND + cs_delay + 7.

Definition busy (p : Pc) : Z := match p with Idle => 0 | _ => 1 end.

Definition pc_ok (p : Pc) : Prop :=
  p = Idle \/ CONFIG_NR_CPUS <= 1024 /\
  match p with TryLock i => 0 <= i < LOCK_RETRY_BOUND | Delay n => 0 <= n <= cs_delay | _ => True end.

(** What [prog] may return. *)
Definition verdict (r : Z) : Prop :=
  if 1024 <? CONFIG_NR_CPUS then r = -95 else r = 0 \/ r = -110.

Definition returned (c : nat) (s : State) : Z :=
  Z.of_nat (length (filter (fun r => fst r =? c)%nat (rets s))).

Definition accesses (c : nat) (l : list (nat * nat)) : Z :=
  Z.of_nat (length (filter (fun a => fst a =? c)%nat l)).

Definition budget (c : nat) (s : State) : Z :=
  run_length * (returned c s + busy (pc (threads s c))) - left (pc (threads s c)).

Lemma cs_delay_range : 0 <= cs_delay.
Proof. unfold cs_delay. pose proof (u32_range cs_count). unfold is_u in *. destruct (_ <? _); lia. Qed.

Lemma run_length_pos : 1 <= run_length.
Proof. pose proof cs_delay_range. assert (0 < LOCK_RETRY_BOUND) by reflexivity. unfold run_length. lia. Qed.

Lemma left_cases p : pc_ok p -> (busy p = 0 /\ left p = 0) \/ (busy p = 1 /\ 1 <= left p).
Proof.
  pose proof cs_delay_range as D. intros [->|[_ H]]; [now left|].
  destruct p; cbn [busy left]; [now left | right..]; split; try reflexivity; lia.
Qed.

(** An access of [c] moves [c] on inside its run, or ends the run. *)
Definition moves (c : nat) (s s' : State) (p : Pc) : Prop :=
  let q := pc (threads s c) in
  (rets s' = rets s /\ pc_ok p /\ busy p = 1 /\
   left p < (if busy q =? 0 then run_length else left q)) \/
  (p = Idle /\ exists r, rets s' = (c, r) :: rets s /\ verdict r).

(** The run is over; or it goes on. *)
Ltac ends := eexists _, _; split; [reflexivity|]; right; split; [reflexivity | eexists; split; [reflexivity | auto]].
Ltac goes_on :=
  eexists _, _; split; [reflexivity|]; left; split; [reflexivity|]; split; [right; split; [lia | try exact I; lia]|];
  split; [reflexivity | unfold run_length; cbn [left busy Z.eqb]; lia].

Lemma prog_moves c t s s' : pc_ok (pc (threads s c)) -> prog c t s = Some s' ->
  exists p v, threads s' = written (threads s) c (mk_thread p v) /\ moves c s s' p.
Proof.
  pose proof cs_delay_range as D. assert (B : 0 < LOCK_RETRY_BOUND) by reflexivity. unfold moves, verdict, prog, pc_ok.
  destruct (pc (threads s c)) as [|i| | |x|n| |] eqn:Ep; intros Ok;
    try (destruct Ok as [|[Cpus Ok]]; [discriminate|]; replace (1024 <? CONFIG_NR_CPUS) with false by lia).
  - intros [= <-]. unfold arena_spin_lock. destruct (Z.ltb_spec 1024 CONFIG_NR_CPUS); [ends | goes_on].
  - unfold try_lock_cb. destruct (compare_exchange _ _ _ _) as [[[[] v] m]|]; [| |discriminate]; intros [= <-]; [goes_on|].
    destruct (Z.ltb_spec (i + 1) LOCK_RETRY_BOUND); [goes_on | ends].
  - destruct (load_counter _ _ _) as [[z v]|]; [|discriminate]; intros [= <-]. destruct (z =? limit); goes_on.
  - destruct (load_counter _ _ _) as [[z v]|]; [|discriminate]; intros [= <-]. goes_on.
  - destruct (store_counter _ _ _ _) as [[v m]|]; [|discriminate]; intros [= <-]. goes_on.
  - intros [= <-]. unfold arena_spin_unlock. destruct (Z.eqb_spec n 0); [destruct (_ =? 0)|]; goes_on.
  - intros [= <-]. goes_on.
  - destruct (store_release _ _ _ _) as [[v m]|]; [|discriminate]; intros [= <-]. ends.
Qed.

(** Every access costs its CPU at least one of its budget, and no other CPU
    anything. *)
Lemma prog_budget c c' t s s' : (forall c, pc_ok (pc (threads s c))) -> prog c t s = Some s' ->
  (forall c, pc_ok (pc (threads s' c))) /\
  budget c' s + (if (c =? c')%nat then 1 else 0) <= budget c' s'.
Proof.
  intros Ok E. destruct (prog_moves _ _ _ _ (Ok c) E) as (p & v & Et & M). split.
  - intros d. rewrite Et. destruct (written_cases (threads s) c (mk_thread p v) d) as [[-> ->]|[_ ->]]; [|apply Ok].
    destruct M as [(_ & H & _)|[-> _]]; [exact H | now left].
  - pose proof cs_delay_range as D. unfold budget, returned. rewrite Et.
    destruct (Nat.eqb_spec c c') as [<-|N].
    + rewrite written_eq; cbn [pc]. specialize (Ok c). destruct M as [(-> & _ & -> & L)|[-> (r & -> & _)]].
      * destruct (pc (threads s c)) eqn:Ep; cbn [busy Z.eqb left] in *; lia.
      * cbn [filter fst]. rewrite Nat.eqb_refl. cbn [length busy left]. 
        pose proof run_length_pos. destruct (left_cases _ Ok) as [[-> ->]|[-> Hl]]; lia.
    + rewrite written_ne by auto. destruct M as [(-> & _)|[_ (r & -> & _)]]; [lia|].
      cbn [filter fst]. apply Nat.eqb_neq in N as ->. lia.
Qed.

Lemma run_budget c l s s' : (forall c, pc_ok (pc (threads s c))) -> run l s = Some s' ->
  (forall c, pc_ok (pc (threads s' c))) /\ budget c s + accesses c l <= budget c s'.
Proof.
  revert s. induction l as [|[d t] l IH]; intros s Ok; cbn [run]; [intros [= <-]; split; [exact Ok | cbn; lia]|].
  destruct (prog d t s) as [s1|] eqn:E; [|discriminate]. destruct (prog_budget _ c _ _ _ Ok E) as [Ok1 B]. intros R.
  destruct (IH _ Ok1 R) as [Ok2 B2]. split; [exact Ok2|].
  unfold accesses in *. cbn [filter fst]. destruct (d =? c)%nat; cbn [length]; lia.
Qed.

Lemma run_verdicts l s s' : (forall c, pc_ok (pc (threads s c))) -> Forall verdict (map snd (rets s)) ->
  run l s = Some s' -> Forall verdict (map snd (rets s')).
Proof.
  revert s. induction l as [|[d t] l IH]; intros s Ok V; cbn [run]; [now intros [= <-]|].
  destruct (prog d t s) as [s1|] eqn:E; [|discriminate]. destruct (prog_budget _ d _ _ _ Ok E) as [Ok1 _].
  apply IH; [exact Ok1|]. destruct (prog_moves _ _ _ _ (Ok d) E) as (p & v & _ & [(-> & _)|[_ (r & -> & Hr)]]); [exact V|].
  now constructor.
Qed.

(** The newest write can always be read, and there is always room behind it. *)
Lemma prog_enabled s tl tc c : Inv s tl tc -> exists t, prog c t s <> None.
Proof.
  intros I. pose proof (Inv_critical s tl tc c I) as Cr. unfold prog.
  destruct (pc (threads s c)) as [|i| | |x|n| |] eqn:Ep; cbn [critical] in Cr;
    try (destruct (Cr eq_refl) as (-> & _ & (V & L) & y & N & _)); try now exists 0%nat.
  - exists tl. unfold try_lock_cb, compare_exchange. pose proof (inv_views _ _ _ I c) as [Vl _].
    destruct (Nat.ltb_spec tl (v_lock (view (threads s c)))); [lia|].
    assert (L : exists w, newest (lock s) tl w) by (destruct I as [[] _ _ _]; eauto). destruct L as (w & -> & L).
    destruct (_ =? 0); [|discriminate]. destruct (lock s (S tl)) eqn:E; [apply L in E; lia | discriminate].
  - exists tc. unfold load_counter; cbn [v_lock v_counter]. rewrite Nat.ltb_irrefl. destruct N as [-> _]. discriminate.
  - exists tc. unfold load_counter; cbn [v_lock v_counter]. rewrite Nat.ltb_irrefl. destruct N as [-> _]. discriminate.
  - exists (S tc). unfold store_counter; cbn [v_lock v_counter]. destruct (Nat.leb_spec (S tc) tc); [lia|].
    destruct (counter s (S tc)) eqn:E; [apply N in E; lia | discriminate].
  - exists (S tl). unfold store_release; cbn [v_lock v_counter]. destruct (Nat.leb_spec (S tl) tl); [lia|].
    destruct (lock s (S tl)) eqn:E; [apply L in E; lia | discriminate].
Qed.

(** ** The properties *)

(** C20. Whatever the schedule and whatever older writes the memory gives to
    readers, at most one CPU is between taking the lock and releasing it, the
    newest write of the lock word is then its own 1, and it has the newest
    write of [counter] in view, so that none of its accesses races. *)
Theorem mutual_exclusion l s c : run l init = Some s -> critical (pc (threads s c)) = true ->
  (forall c', critical (pc (threads s c')) = true -> c' = c) /\
  (exists w, newest (lock s) (v_lock (view (threads s c))) w /\ w_val w = 1) /\
  (exists x, newest (counter s) (v_counter (view (threads s c))) x).
Proof.
  intros R Hc. destruct (run_Inv _ _ _ _ _ Inv_init R) as (tl & tc & I).
  destruct (Inv_critical _ _ _ _ I Hc) as (-> & U & (V & L) & x & N & _). repeat split; eauto.
Qed.

(** C21. When no CPU holds the lock, [counter] holds what the completed runs
    would have left had they come one after the other: no increment is lost and
    none is made twice.  With a limit from 0 on it is the number of runs that
    returned 0, up to the limit; the assertion of the test is the case where
    the two are equal. *)
Theorem counter_sequential l s : run l init = Some s ->
  (forall c, critical (pc (threads s c)) = false) ->
  exists t x, newest (counter s) t x /\ x = sequential (completed s) /\
    (0 <= limit < 2 ^ 31 -> x = Z.min (Z.of_nat (completed s)) limit).
Proof.
  intros R F. destruct (run_Inv _ _ _ _ _ Inv_init R) as (tl & tc & [[V _ _ N _|c ? ? _ _ K] _ _ _]); [|now rewrite F in K].
  exists tc, (sequential (completed s)). repeat split; auto using sequential_min; apply N.
Qed.

(** C22. Every run ends: no CPU is ever stuck, [n] accesses of one CPU contain a
    return for every [run_length] of them, and what is returned is 0 or
    -ETIMEDOUT, or -EOPNOTSUPP on a machine of more than 1024 CPUs. *)
Theorem prog_returns l s c : run l init = Some s ->
  (exists t, prog c t s <> None) /\
  accesses c l <= run_length * (returned c s + 1) /\
  Forall verdict (map snd (rets s)).
Proof.
  intros R. assert (Ok : forall c, pc_ok (pc (threads init c))) by (now left).
  destruct (run_Inv _ _ _ _ _ Inv_init R) as (tl & tc & I). split; [eapply prog_enabled, I|]. split.
  - destruct (run_budget c _ _ _ Ok R) as [Ok' B]. unfold budget in B. cbn [init threads pc left busy] in B.
    change (returned c init) with 0 in B.
    pose proof run_length_pos. destruct (left_cases _ (Ok' c)) as [[E1 E2]|[E1 E2]]; rewrite E1 in B; lia.
  - apply (run_verdicts _ _ _ Ok) with (2 := R). constructor.
Qed.

End Program.

(** ** Witnesses

    CPUs 1 and 2 run at once on a machine of eight CPUs that is not an x86; CPU 2
    fails twice, once on the 1 of CPU 1, once on that same write when a newer 0
    is already there. *)
Definition contended : list (nat * nat) :=
  [(1, 0); (2, 0); (1, 0); (2, 1); (1, 0); (1, 0); (1, 1); (1, 0); (1, 0); (1, 2);
   (2, 1); (2, 2); (2, 1)]%nat.

Definition finish : list (nat * nat) := [(2, 1); (2, 2); (2, 0); (2, 0); (2, 4)]%nat.

Definition after (l : list (nat * nat)) : State :=
  match run 0 5 8 0 l init with Some s => s | None => init end.

Example stale_read : prog 0 5 8 0 2 1 (after (firstn 10 contended)) <> None /\
  prog 0 5 8 0 2 0 (after (firstn 10 contended)) = None /\ rets (after (firstn 10 contended)) = [(1%nat, 0)].
Proof. split; [discriminate | split; reflexivity]. Qed.

Lemma mutual_exclusion_witness : exists w,
  newest (lock (after contended)) 3 w /\ w_val w = 1 /\ pc (threads (after contended) 2) = Increment.
Proof.
  destruct (mutual_exclusion 0 5 8 0 contended (after contended) 2) as (_ & (w & N & E) & _); [vm_compute; reflexivity | reflexivity|].
  exists w. split; [exact N | split; [exact E | reflexivity]].
Defined.

Lemma counter_sequential_witness : exists t, newest (counter (after (contended ++ finish))) t 2.
Proof.
  destruct (counter_sequential 0 5 8 0 (contended ++ finish) (after (contended ++ finish))) as (t & x & N & _ & E);
    [vm_compute; reflexivity | intros [|[|[|c]]]; reflexivity|].
  exists t. rewrite E in N by lia. exact N.
Defined.

Lemma prog_returns_witness :
  accesses 2 (contended ++ finish) <= (8 * 1024 * 1024 + 0 + 7) * 2 /\
  Forall (verdict 8) [0; 0].
Proof.
  destruct (prog_returns 0 5 8 0 (contended ++ finish) (after (contended ++ finish)) 2) as (_ & A & V); [vm_compute; reflexivity|].
  split; [change (returned 2 _) with 1 in A; exact A | exact V].
Defined.

End ArenaSpinLock.
