(* ===== verification/Packet.v ===== *)
(** Packets as lists of bytes: the loads and stores the packet programs make,
    on a little-endian machine, and their laws.  Network words are the values
    the CPU loads; [to_be] is the byte swap. *)

From S2P Require Import Prelude.

Definition byte (p : list Z) (off : nat) : Z := nth off p 0.
Definition word16 (p : list Z) (off : nat) : Z := byte p off + 256 * byte p (off + 1).
Definition word32 (p : list Z) (off : nat) : Z := word16 p off + 65536 * word16 p (off + 2).

Definition bytes16 (v : Z) : list Z := [v mod 256; v / 256 mod 256].
Definition bytes32 (v : Z) : list Z := bytes16 (v mod 65536) ++ bytes16 (v / 65536).

(** [u16::to_be] and [u16::from_be] on a little-endian machine. *)
Definition to_be (v : Z) : Z := 256 * (v mod 256) + v / 256 mod 256.

(** [u32::to_be] *)
Definition to_be32 (v : Z) : Z := 65536 * to_be (v mod 65536) + to_be (v / 65536).

(** Fields in network order. *)
Definition be16 (v : Z) : list Z := [v / 256; v mod 256].
Definition be32 (v : Z) : list Z := be16 (v / 65536) ++ be16 (v mod 65536).

(** The [n] bytes at an offset. *)
Definition sub (p : list Z) (off n : nat) : list Z := firstn n (skipn off p).

(** A store of bytes inside the packet. *)
Definition put (p : list Z) (off : nat) (bs : list Z) : list Z :=
  firstn off p ++ bs ++ skipn (off + length bs) p.

Definition words32 (p : list Z) (off : nat) (n : nat) : list Z :=
  map (fun i => word32 p (off + 4 * i)) (seq 0 n).

(** * Laws *)

Lemma byte_app pre l k : byte (pre ++ l) (length pre + k) = byte l k.
Proof. unfold byte; now rewrite app_nth2_plus. Qed.

Lemma word16_app pre l k : word16 (pre ++ l) (length pre + k) = word16 l k.
Proof. unfold word16; now rewrite <- Nat.add_assoc, !byte_app. Qed.

Lemma put_app pre old post bs : length old = length bs ->
  put (pre ++ old ++ post) (length pre) bs = pre ++ bs ++ post.
Proof.
  intros E; unfold put. rewrite <- E.
  rewrite firstn_app, firstn_all, Nat.sub_diag, firstn_O, app_nil_r.
  rewrite skipn_app, skipn_all2 by lia.
  replace (length pre + length old - length pre)%nat with (length old) by lia.
  now rewrite skipn_app, skipn_all, Nat.sub_diag.
Qed.

Lemma length_put b off bs : (off + length bs <= length b)%nat -> length (put b off bs) = length b.
Proof. intros; unfold put. rewrite !length_app, length_firstn, length_skipn. lia. Qed.

Lemma Forall_put (P : Z -> Prop) b off bs : Forall P b -> Forall P bs -> Forall P (put b off bs).
Proof.
  rewrite <- (firstn_skipn off b) at 1; intros [H1 H2]%Forall_app Hbs; unfold put.
  rewrite !Forall_app; repeat split; [exact H1 | exact Hbs |].
  rewrite Nat.add_comm, <- skipn_skipn. rewrite <- (firstn_skipn (length bs) (skipn off b)) in H2.
  now apply Forall_app in H2.
Qed.

(** A list of [n] elements is [n] variables. *)
Ltac explode l :=
  let H := fresh in
  match goal with E : length l = _ |- _ => rename E into H end;
  repeat (destruct l as [|? l]; [discriminate H|]; cbn [length] in H; apply Nat.succ_inj in H);
  apply length_zero_iff_nil in H; subst l.

Lemma word16_range p : Forall is_u8 p -> forall k, 0 <= word16 p k <= 65535.
Proof.
  intros Hp k; assert (B : forall j, 0 <= byte p j < 256).
  { intros j; unfold byte. destruct (nth_in_or_default j p 0) as [Hi| ->]; [|lia].
    rewrite Forall_forall in Hp; apply (Hp _ Hi). }
  unfold word16; pose proof (B k); pose proof (B (k + 1)%nat); lia.
Qed.

Lemma bytes16_range v : Forall is_u8 (bytes16 v).
Proof. repeat constructor; unfold is_u; try apply Z.mod_pos_bound; lia. Qed.

Lemma word_of_bytes16 v : 0 <= v <= 65535 -> word16 (bytes16 v) 0 = v.
Proof. intros; unfold word16, byte, bytes16; cbn [nth Nat.add]. Z.div_mod_to_equations; lia. Qed.

Lemma put_in pre h post k bs : (k + length bs <= length h)%nat ->
  put (pre ++ h ++ post) (length pre + k) bs = pre ++ put h k bs ++ post.
Proof.
  intros Hk; unfold put.
  rewrite firstn_app_2, <- app_assoc, <- !app_assoc; do 2 f_equal.
  rewrite firstn_app. replace (k - length h)%nat with O by lia. rewrite firstn_O, app_nil_r.
  f_equal. f_equal. rewrite <- Nat.add_assoc, skipn_app.
  rewrite (skipn_all2 pre) by lia.
  replace (length pre + (k + length bs) - length pre)%nat with (k + length bs)%nat by lia.
  rewrite skipn_app. now replace (k + length bs - length h)%nat with O by lia.
Qed.

(** ** Network order *)

Lemma to_be_u16 v : is_u16 v -> is_u16 (to_be v).
Proof. unfold is_u, to_be; intros. Z.div_mod_to_equations; lia. Qed.

Lemma to_be_to_be v : is_u16 v -> to_be (to_be v) = v.
Proof. unfold is_u, to_be; intros. Z.div_mod_to_equations; lia. Qed.

Lemma to_be_eqb a b : is_u16 a -> is_u16 b -> (to_be a =? to_be b) = (a =? b).
Proof.
  intros Ha Hb. destruct (Z.eqb_spec a b) as [->|N]; [apply Z.eqb_refl|].
  apply Z.eqb_neq; intros E; apply N. now rewrite <- (to_be_to_be a Ha), E, to_be_to_be.
Qed.

Lemma word_be16 v l : is_u16 v -> word16 (be16 v ++ l) 0 = to_be v.
Proof.
  unfold is_u, word16, byte, be16, to_be; intros; cbn [app nth Nat.add]. Z.div_mod_to_equations; lia.
Qed.

Lemma word_be32 v l : is_u32 v -> word32 (be32 v ++ l) 0 = to_be32 v.
Proof.
  unfold is_u, word32, word16, byte, be32, be16, to_be32, to_be; intros; cbn [app nth Nat.add].
  Z.div_mod_to_equations; lia.
Qed.

Lemma to_be32_eqb a b : is_u32 a -> is_u32 b -> (to_be32 a =? to_be32 b) = (a =? b).
Proof.
  intros Ha Hb. destruct (Z.eqb_spec a b) as [->|N]; [apply Z.eqb_refl|].
  apply Z.eqb_neq; intros E; apply N. revert E; unfold to_be32, to_be, is_u in *; intros.
  Z.div_mod_to_equations; lia.
Qed.

(** A mask applies to the two halves of a word. *)
Lemma land_halves n a b c d : 0 <= n -> 0 <= a < 2 ^ n -> 0 <= c < 2 ^ n -> 0 <= b -> 0 <= d ->
  Z.land (a + 2 ^ n * b) (c + 2 ^ n * d) = Z.land a c + 2 ^ n * Z.land b d.
Proof.
  intros Hn Ha Hc Hb Hd. pose proof (Z.pow_pos_nonneg 2 n ltac:(lia) Hn) as P.
  assert (D : forall x y, 0 <= x < 2 ^ n -> (x + 2 ^ n * y) / 2 ^ n = y /\ (x + 2 ^ n * y) mod 2 ^ n = x).
  { intros x y Hx. rewrite (Z.mul_comm _ y), Z.div_add, Z.div_small, Z_mod_plus_full, Z.mod_small by lia. lia. }
  rewrite (Z.div_mod (Z.land (a + _) _) (2 ^ n)) by lia.
  rewrite <- Z.shiftr_div_pow2, Z.shiftr_land, !Z.shiftr_div_pow2 by lia.
  rewrite <- (Z.land_ones (Z.land _ _)) by lia.
  replace (Z.ones n) with (Z.land (Z.ones n) (Z.ones n)) by apply Z.land_diag.
  rewrite Z.land_assoc, <- (Z.land_assoc (a + _)), (Z.land_comm (c + _)), Z.land_assoc, <- Z.land_assoc.
  rewrite !Z.land_ones by lia. destruct (D a b Ha) as [-> ->], (D c d Hc) as [-> ->]. lia.
Qed.

(** Masks commute with the byte swap. *)
Lemma land_to_be v m : is_u16 v -> is_u16 m -> Z.land (to_be v) (to_be m) = to_be (Z.land v m).
Proof.
  unfold is_u; intros Hv Hm.
  assert (D : forall x, 0 <= x < 2 ^ 16 -> 0 <= x mod 256 < 256 /\ 0 <= x / 256 < 256).
  { intros x Hx. split; [apply Z.mod_pos_bound; lia|]. split; [apply Z.div_pos | apply Z.div_lt_upper_bound]; lia. }
  pose proof (D v Hv) as [L1 H1]. pose proof (D m Hm) as [L2 H2].
  assert (S : forall x, 0 <= x < 2 ^ 16 -> to_be x = x / 256 + 2 ^ 8 * (x mod 256)).
  { intros x Hx. unfold to_be. destruct (D x Hx) as [_ Hx']. rewrite (Z.mod_small (x / 256)) by exact Hx'. change (2 ^ 8) with 256. lia. }
  pose proof (is_u_land 16 v m ltac:(lia) Hv Hm) as Hl. unfold is_u in Hl. rewrite !S by assumption.
  rewrite land_halves by (change (2 ^ 8) with 256; lia).
  assert (E : Z.land v m = Z.land (v mod 256) (m mod 256) + 2 ^ 8 * Z.land (v / 256) (m / 256)).
  { rewrite <- land_halves by (change (2 ^ 8) with 256; lia). change (2 ^ 8) with 256. now rewrite !(Z.add_comm (_ mod _)), <- !Z.div_mod by lia. }
  pose proof (is_u_land 8 (v mod 256) (m mod 256) ltac:(lia) L1 L2) as B. unfold is_u in B. change (2 ^ 8) with 256 in *.
  rewrite E. Z.div_mod_to_equations; lia.
Qed.

Lemma to_be_0 v : is_u16 v -> (to_be v =? 0) = (v =? 0).
Proof. intros Hv. exact (to_be_eqb v 0 Hv ltac:(easy)). Qed.

Lemma to_be32_halves v : to_be32 v = to_be (v / 65536) + 2 ^ 16 * to_be (v mod 65536).
Proof. unfold to_be32. change (2 ^ 16) with 65536. lia. Qed.

Lemma halves_u16 v : is_u32 v -> is_u16 (v mod 65536) /\ is_u16 (v / 65536).
Proof. unfold is_u; intros. Z.div_mod_to_equations; lia. Qed.

Lemma to_be32_u32 v : is_u32 v -> is_u32 (to_be32 v).
Proof.
  intros Hv. destruct (halves_u16 v Hv) as [H1 H2]. pose proof (to_be_u16 _ H1). pose proof (to_be_u16 _ H2).
  rewrite to_be32_halves. unfold is_u in *. change (2 ^ 16) with 65536 in *. change (2 ^ 32) with 4294967296. lia.
Qed.

Lemma to_be32_to_be32 v : is_u32 v -> to_be32 (to_be32 v) = v.
Proof.
  intros Hv. destruct (halves_u16 v Hv) as [H1 H2]. pose proof (to_be_u16 _ H1) as B1. pose proof (to_be_u16 _ H2) as B2.
  rewrite (to_be32_halves (to_be32 v)), to_be32_halves. unfold is_u in B1, B2. change (2 ^ 16) with 65536 in *.
  rewrite (Z.mul_comm 65536 (to_be (v mod _))), Z_mod_plus_full, Z.div_add, (Z.div_small (to_be _)), (Z.mod_small (to_be _)) by lia.
  rewrite Z.add_0_l, !to_be_to_be by assumption. Z.div_mod_to_equations; lia.
Qed.

Lemma land_to_be32 v m : is_u32 v -> is_u32 m -> Z.land (to_be32 v) (to_be32 m) = to_be32 (Z.land v m).
Proof.
  intros Hv Hm. destruct (halves_u16 v Hv) as [V1 V2]. destruct (halves_u16 m Hm) as [M1 M2].
  pose proof (to_be_u16 _ V1). pose proof (to_be_u16 _ V2). pose proof (to_be_u16 _ M1). pose proof (to_be_u16 _ M2).
  rewrite (to_be32_halves v), (to_be32_halves m).
  rewrite land_halves by (unfold is_u in *; lia). rewrite !land_to_be by assumption.
  assert (E : Z.land v m = Z.land (v mod 65536) (m mod 65536) + 65536 * Z.land (v / 65536) (m / 65536)).
  { change 65536 with (2 ^ 16) in *. unfold is_u in *. rewrite <- land_halves by lia. change (2 ^ 16) with 65536.
    now rewrite !(Z.add_comm (_ mod _)), <- !Z.div_mod by lia. }
  pose proof (is_u_land 16 _ _ ltac:(lia) V1 M1) as B. unfold is_u in B. change (2 ^ 16) with 65536 in *.
  rewrite to_be32_halves. change (2 ^ 16) with 65536.
  set (a := Z.land (v mod 65536) _) in *. set (b := Z.land (v / 65536) _) in *.
  replace (Z.land v m / 65536) with b by (Z.div_mod_to_equations; lia).
  replace (Z.land v m mod 65536) with a by (Z.div_mod_to_equations; lia). reflexivity.
Qed.

Lemma bytes32_to_be32 v : is_u32 v -> bytes32 (to_be32 v) = be32 v.
Proof.
  intros Hv. destruct (halves_u16 v Hv) as [H1 H2]. pose proof (to_be_u16 _ H1) as B1. pose proof (to_be_u16 _ H2) as B2.
  unfold bytes32, be32. rewrite to_be32_halves. unfold is_u in B1, B2, H1, H2. change (2 ^ 16) with 65536 in *.
  rewrite (Z.mul_comm 65536 (to_be (v mod _))), Z_mod_plus_full, Z.div_add, (Z.div_small (to_be _)), Z.mod_small by lia.
  assert (E : forall x, 0 <= x < 65536 -> bytes16 (to_be x) = be16 x).
  { intros x Hx. unfold bytes16, be16, to_be. f_equal; [|f_equal]; Z.div_mod_to_equations; lia. }
  rewrite Z.add_0_l, !E by assumption. reflexivity.
Qed.

Lemma bytes16_to_be v : is_u16 v -> bytes16 (to_be v) = be16 v.
Proof. unfold is_u, bytes16, be16, to_be; intros. f_equal; [|f_equal]; Z.div_mod_to_equations; lia. Qed.

(** A mask of one bit. *)
Lemma land_bit v k : 0 <= k -> (Z.land v (2 ^ k) =? 0) = negb (Z.testbit v k).
Proof.
  intros Hk. destruct (Z.testbit v k) eqn:T; [apply Z.eqb_neq | apply Z.eqb_eq].
  - intros E. assert (Z.testbit (Z.land v (2 ^ k)) k = false) as F by (rewrite E; apply Z.bits_0).
    rewrite Z.land_spec, T, Z.pow2_bits_true in F by lia. discriminate.
  - apply Z.bits_inj'; intros n Hn. rewrite Z.land_spec, Z.bits_0, Z.pow2_bits_eqb by lia.
    destruct (Z.eqb_spec k n) as [<-|]; [now rewrite T | apply andb_false_r].
Qed.

(** Bits that do not overlap. *)
Lemma lor_add n a b : 0 <= n -> 0 <= a < 2 ^ n -> 0 <= b -> Z.lor (2 ^ n * b) a = 2 ^ n * b + a.
Proof.
  intros Hn Ha Hb. rewrite <- Z.add_lor_land.
  replace (Z.land (2 ^ n * b) a) with 0; [lia|].
  pose proof (land_halves n 0 b a 0 Hn ltac:(lia) Ha Hb ltac:(lia)) as H.
  rewrite Z.add_0_l, Z.mul_0_r, Z.add_0_r, Z.land_0_l, Z.land_0_r in H. lia.
Qed.

Lemma lor_low n a b c : 0 < n -> 0 <= a < 2 ^ n -> 0 <= c < 2 ^ n -> 0 <= b ->
  Z.lor (2 ^ n * b + a) c = 2 ^ n * b + Z.lor a c.
Proof.
  intros Hn Ha Hc Hb. rewrite <- (lor_add n a b), <- Z.lor_assoc by lia. apply lor_add; try lia.
  now apply is_u_lor_lxor.
Qed.

(** A field, from its bytes. *)
Lemma word16_at l off v : is_u16 v -> byte l off = v / 256 -> byte l (off + 1) = v mod 256 ->
  word16 l off = to_be v.
Proof.
  unfold is_u, word16, to_be; intros Hv -> ->. Z.div_mod_to_equations; lia.
Qed.

Lemma word32_at l off v : is_u32 v -> sub l off 4 = be32 v -> word32 l off = to_be32 v.
Proof.
  intros Hv E. rewrite <- (word_be32 v [] Hv), app_nil_r, <- E.
  assert (B : forall i, (i < 4)%nat -> byte (sub l off 4) i = byte l (off + i)).
  { intros i Hi; unfold byte, sub. rewrite nth_firstn. destruct (Nat.ltb_spec i 4); [|lia].
    now rewrite nth_skipn. }
  unfold word32, word16; cbn [Nat.add]. rewrite !B, <- !Nat.add_assoc, !Nat.add_0_r by lia. reflexivity.
Qed.

(** * Parts of packets *)

Lemma byte_u8 l i : Forall is_u8 l -> is_u8 (byte l i).
Proof.
  intros U. unfold byte. destruct (nth_in_or_default i l 0) as [H| ->]; [|unfold is_u; lia].
  rewrite Forall_forall in U. auto.
Qed.

Lemma word16_u16 l i : Forall is_u8 l -> is_u16 (word16 l i).
Proof. intros U. pose proof (word16_range l U i). unfold is_u. lia. Qed.

Lemma sub_byte p off n k : (k < n)%nat -> byte (sub p off n) k = byte p (off + k).
Proof.
  intros H. unfold byte, sub. rewrite nth_firstn. destruct (Nat.ltb_spec k n); [|lia]. now rewrite nth_skipn.
Qed.

Lemma sub_u8 p off n : Forall is_u8 p -> Forall is_u8 (sub p off n).
Proof.
  intros U. unfold sub. rewrite <- (firstn_skipn off p), Forall_app in U. destruct U as [_ U].
  rewrite <- (firstn_skipn n (skipn off p)), Forall_app in U. apply U.
Qed.

Lemma sub_word16 p off n k : (k + 1 < n)%nat -> word16 (sub p off n) k = word16 p (off + k).
Proof. intros H. unfold word16. rewrite !sub_byte by lia. now rewrite Nat.add_assoc. Qed.

Lemma sub_word32 p off n k : (k + 3 < n)%nat -> word32 (sub p off n) k = word32 p (off + k).
Proof. intros H. unfold word32. rewrite !sub_word16 by lia. now rewrite Nat.add_assoc. Qed.

Lemma sub_length p off n : (off + n <= length p)%nat -> length (sub p off n) = n.
Proof. intros H. unfold sub. rewrite length_firstn, length_skipn. lia. Qed.

Lemma sub_sub q a n k m : (k + m <= n)%nat -> sub (sub q a n) k m = sub q (a + k) m.
Proof.
  intros H. unfold sub. rewrite skipn_firstn_comm, firstn_firstn, skipn_skipn, (Nat.add_comm k a).
  f_equal. lia.
Qed.

Lemma put_length p off bs n : length p = n -> (off + length bs <= n)%nat -> length (put p off bs) = n.
Proof. intros <-. apply length_put. Qed.

Lemma firstn_put p off bs n : (off <= length p)%nat -> (n = off + length bs)%nat -> firstn n (put p off bs) = firstn off p ++ bs.
Proof.
  intros H ->. unfold put. rewrite firstn_app, firstn_firstn, length_firstn.
  replace (Nat.min (off + length bs) off) with off by lia. replace (off + length bs - Nat.min off (length p))%nat with (length bs) by lia.
  now rewrite firstn_app, firstn_all, Nat.sub_diag, firstn_O, app_nil_r.
Qed.

Lemma skipn_put p off bs n : (off + length bs <= n)%nat -> (off <= length p)%nat -> skipn n (put p off bs) = skipn n p.
Proof.
  intros H Hp. unfold put. rewrite !skipn_app, !skipn_all2 by (rewrite ?length_firstn; lia). cbn [app].
  rewrite skipn_skipn, length_firstn. f_equal. lia.
Qed.

Lemma firstn_sub p off n m : (n = off + m)%nat -> firstn n p = firstn off p ++ sub p off m.
Proof.
  intros ->. unfold sub. rewrite <- (firstn_skipn off (firstn (off + m) p)). rewrite firstn_firstn, Nat.min_l by lia.
  f_equal. rewrite skipn_firstn_comm. f_equal. lia.
Qed.

Lemma sub_four p : forall off, (off + 4 <= length p)%nat ->
  sub p off 4 = [byte p off; byte p (off + 1); byte p (off + 2); byte p (off + 2 + 1)].
Proof.
  intros off; revert p; induction off as [|off IH]; intros p H.
  - do 4 (destruct p as [|? p]; [cbn [length] in H; lia|]). reflexivity.
  - destruct p as [|a p]; [cbn [length] in H; lia|]. cbn [length] in H. apply (IH p). lia.
Qed.

Lemma bytes_of_word32 p off : Forall is_u8 p -> (off + 4 <= length p)%nat -> bytes32 (word32 p off) = sub p off 4.
Proof.
  intros U H. rewrite sub_four by exact H. pose proof (fun k => byte_u8 p k U) as B. unfold is_u in B.
  unfold word32, bytes32, bytes16, word16. cbn [app].
  generalize (B off) (B (off + 1)%nat) (B (off + 2)%nat) (B (off + 2 + 1)%nat).
  generalize (byte p off) (byte p (off + 1)) (byte p (off + 2)) (byte p (off + 2 + 1)). clear. intros a b c d Ha Hb Hc Hd.
  assert (E1 : (a + 256 * b + 65536 * (c + 256 * d)) mod 65536 = a + 256 * b) by (Z.div_mod_to_equations; lia).
  assert (E2 : (a + 256 * b + 65536 * (c + 256 * d)) / 65536 = c + 256 * d) by (Z.div_mod_to_equations; lia).
  rewrite E1, E2. repeat f_equal; Z.div_mod_to_equations; lia.
Qed.

Lemma word_of_bytes32 v : is_u32 v -> word32 (bytes32 v) 0 = v /\ word16 (bytes32 v) 0 = v mod 65536 /\ word16 (bytes32 v) 2 = v / 65536.
Proof.
  unfold is_u; intros H.
  assert (A : 0 <= v mod 65536 <= 65535) by (pose proof (Z.mod_pos_bound v 65536); lia).
  assert (B : 0 <= v / 65536 <= 65535) by (Z.div_mod_to_equations; lia).
  assert (E : word16 (bytes32 v) 0 = v mod 65536 /\ word16 (bytes32 v) 2 = v / 65536)
    by (split; [exact (word_of_bytes16 _ A) | exact (word_of_bytes16 _ B)]).
  destruct E as [E1 E2]. unfold word32. cbn [Nat.add]. rewrite E1, E2. repeat split. Z.div_mod_to_equations; lia.
Qed.

Lemma word32_halves p k : Forall is_u8 p -> word32 p k mod 65536 = word16 p k /\ word32 p k / 65536 = word16 p (k + 2) /\ is_u32 (word32 p k).
Proof.
  intros U. pose proof (word16_range p U k). pose proof (word16_range p U (k + 2)). unfold word32, is_u. Z.div_mod_to_equations. lia.
Qed.

(** * The Internet checksum

    The sum of the 16-bit words of a list, as the CPU loads them; the order of
    the bytes does not matter for the test below. *)
Fixpoint csum16 (l : list Z) : Z :=
  match l with
  | a :: b :: l => a + 256 * b + csum16 l
  | [a] => a
  | [] => 0
  end.

(** What a receiver checks: the one's complement sum is all ones. *)
Definition csum_valid (l : list Z) : Prop := csum16 l mod 65535 = 0 /\ 0 < csum16 l.

Lemma check_value f : 0 <= f <= 65535 -> u16 (notw 32 f) = 65535 - f.
Proof.
  intros; unfold notw, uw, Z.lnot.
  replace (Z.pred (- f)) with (2 ^ 32 - 1 - f + (-1) * 2 ^ 32) by lia.
  rewrite Z_mod_plus_full, (Z.mod_small (2 ^ 32 - 1 - f)) by lia.
  replace (2 ^ 32 - 1 - f) with (65535 - f + 65535 * 2 ^ 16) by lia.
  rewrite Z_mod_plus_full. apply Z.mod_small; lia.
Qed.

Lemma csum16_app l l' : Nat.even (length l) = true -> csum16 (l ++ l') = csum16 l + csum16 l'.
Proof.
  revert l'. enough (H : forall n l l', (length l <= n)%nat -> Nat.even (length l) = true ->
    csum16 (l ++ l') = csum16 l + csum16 l') by (intros; now apply (H (length l))).
  intros n; induction n as [|n IH]; intros k l' Hn He.
  - destruct k; [reflexivity | cbn in Hn; lia].
  - destruct k as [|x [|y k]]; [reflexivity | discriminate|]. cbn [app csum16 length] in *.
    rewrite IH by (exact He || lia). lia.
Qed.

Lemma csum16_pos l : Forall is_u8 l -> 0 <= csum16 l.
Proof.
  enough (H : forall n k, (length k <= n)%nat -> Forall is_u8 k -> 0 <= csum16 k) by (apply (H (length l)); lia).
  intros n; induction n as [|n IH]; intros k Hn Hk.
  - destruct k; [cbn; lia | cbn in Hn; lia].
  - destruct k as [|x [|y k]]; [cbn; lia | |]; apply Forall_cons_iff in Hk as [Hx Hk]; unfold is_u in Hx; [cbn; lia|].
    apply Forall_cons_iff in Hk as [Hy Hk]. unfold is_u in Hy. cbn [csum16 length] in *.
    specialize (IH k ltac:(lia) Hk). lia.
Qed.
