(* ===== verification/Flow.v ===== *)
(** The flow dissector: progs/bpf_flow.rs.

    Six programs that call each other through a program array, each reading one
    header of the packet and recording what it finds in the kernel's flow keys.
    A program is a computation over the keys and the map of the last
    dissections; the packet, the program array and the helpers are its
    parameters.  [program] unfolds the tail calls, as many as the kernel
    allows.  [frame] is the reference: packets as trees of headers, with their
    bytes ([encode]) and what the dissector should find in them ([expect]). *)

From S2P Require Import Prelude Packet.
Local Open Scope st_scope.

Module Flow.

(** ** Constants *)

Definition BPF_OK := 0.
Definition BPF_DROP := 2.
Definition BPF_FLOW_DISSECTOR_CONTINUE := 129.
Definition BPF_FLOW_DISSECTOR_F_PARSE_1ST_FRAG := Z.shiftl 1 0.
Definition BPF_FLOW_DISSECTOR_F_STOP_AT_FLOW_LABEL := Z.shiftl 1 1.
Definition BPF_FLOW_DISSECTOR_F_STOP_AT_ENCAP := Z.shiftl 1 2.
Definition ETH_P_IP := 0x0800.
Definition ETH_P_IPV6 := 0x86DD.
Definition ETH_P_MPLS_UC := 0x8847.
Definition ETH_P_MPLS_MC := 0x8848.
Definition ETH_P_8021Q := 0x8100.
Definition ETH_P_8021AD := 0x88A8.
Definition ETH_P_TEB := 0x6558.
Definition IPPROTO_ICMP := 1.
Definition IPPROTO_IPIP := 4.
Definition IPPROTO_TCP := 6.
Definition IPPROTO_UDP := 17.
Definition IPPROTO_IPV6 := 41.
Definition IPPROTO_GRE := 47.
Definition IPPROTO_UDPLITE := 136.
Definition IPPROTO_HOPOPTS := 0.
Definition IPPROTO_FRAGMENT := 44.
Definition IPPROTO_DSTOPTS := 60.
Definition IP_MF := 0x2000.
Definition IP_OFFSET := 0x1FFF.
Definition IP6_OFFSET := 0xFFF8.
Definition GRE_CSUM := to_be 0x8000.
Definition GRE_KEY := to_be 0x2000.
Definition GRE_SEQ := to_be 0x1000.
Definition GRE_VERSION := to_be 0x0007.
Definition IPV6_FLOWLABEL_MASK := to_be32 0x000FFFFF.
Definition FLOW_CONTINUE_SADDR := 0x7f00007f.
Definition IP := 0.
Definition IPV6 := 1.
Definition IPV6OP := 2.
Definition IPV6FR := 3.
Definition MPLS := 4.
Definition VLAN := 5.

Definition htons (x : Z) : Z := to_be x.
Definition htonl (x : Z) : Z := to_be32 x.

(** ** Data *)

(** Header sizes: [size_of] of the header structs. *)
Definition VLAN_SZ : nat := 4.
Definition GRE_SZ : nat := 4.
Definition FRAG_SZ : nat := 8.
Definition ETH_SZ : nat := 14.
Definition IP_SZ : nat := 20.
Definition IP6_SZ : nat := 40.
Definition OPT_SZ : nat := 2.
Definition TCP_SZ : nat := 20.
Definition UDP_SZ : nat := 8.

(** The address union is its eight words; the IPv4 member is the first two. *)
Record bpf_flow_keys := {
  nhoff : Z;
  thoff : Z;
  addr_proto : Z;
  is_frag : Z;
  is_first_frag : Z;
  is_encap : Z;
  ip_proto : Z;
  n_proto : Z;
  sport : Z;
  dport : Z;
  addr : list Z;
  flags : Z;
  flow_label : Z
}.

(** The packet: the bytes between [data] and [data_end], and those only
    bpf_skb_load_bytes reaches. *)
Record sk_buff := { data : Z; linear : list Z; paged : list Z }.
Definition data_end (skb : sk_buff) : Z := data skb + Z.of_nat (length (linear skb)).
Definition packet (skb : sk_buff) : list Z := linear skb ++ paged skb.

Record world := { keys : bpf_flow_keys; last_dissection : Z -> option bpf_flow_keys }.

(** flow_dissector_0 to flow_dissector_5 *)
Inductive prog := P_IP | P_IPV6 | P_IPV6OP | P_IPV6FR | P_MPLS | P_VLAN.

(** The program array as user space filled it, how many tail calls the kernel
    allows, whether the hash map has room for a key, what bpf_skb_load_bytes
    copies, and the address of the buffer on the program's stack. *)
Class Kernel := {
  jmp_table : Z -> option prog;
  max_tail_calls : nat;
  map_room : (Z -> option bpf_flow_keys) -> Z -> bool;
  skb_load_bytes : sk_buff -> Z -> nat -> option (list Z);
  buffer_addr : Z
}.

(** What is documented of them. *)
Class KernelOk (K : Kernel) : Prop := {
  load_bytes : forall skb off n, skb_load_bytes skb (Z.of_nat off) n =
    if Nat.leb (off + n) (length (packet skb)) then Some (sub (packet skb) off n) else None
}.

(** The array as the loader of the test fills it. *)
Definition slots (i : Z) : option prog :=
  if i =? IP then Some P_IP else if i =? IPV6 then Some P_IPV6 else
  if i =? IPV6OP then Some P_IPV6OP else if i =? IPV6FR then Some P_IPV6FR else
  if i =? MPLS then Some P_MPLS else if i =? VLAN then Some P_VLAN else None.

Section Flow.
Context {K : Kernel}.

Definition flow_keys : ST world bpf_flow_keys := get keys.
Definition mod_keys (f : bpf_flow_keys -> bpf_flow_keys) : ST world unit :=
  modify (fun w => w <| keys ::= f |>).

(** ** Helper functions *)

Definition bpf_map_update_elem (key : Z) (val : bpf_flow_keys) : ST world unit :=
  modify (fun w => if map_room (last_dissection w) key
                   then w <| last_dissection := fun k => if k =? key then Some val else last_dissection w k |>
                   else w).

Definition export_flow_keys (r : Z) : ST world Z :=
  k <- flow_keys ;;
  let key := Z.lor (shl 32 (sport k) 16) (dport k) in
  bpf_map_update_elem key k ;;
  ret r.

Definition ip6_flowlabel (hdr : list Z) : Z := Z.land (word32 hdr 0) IPV6_FLOWLABEL_MASK.

(** The address of the header and its bytes. *)
Definition get_header (skb : sk_buff) (hdr_size : nat) : ST world (option (Z * list Z)) :=
  k <- flow_keys ;;
  let thoff := thoff k in
  let size := Z.of_nat hdr_size in
  if 65535 - size <? thoff then ret None else
  let hdr := (data skb ⊞ thoff)%w64 in
  if (hdr ⊞ size)%w64 <=? data_end skb
  then ret (Some (hdr, sub (linear skb) (Z.to_nat thoff) hdr_size))
  else ret (option_map (fun b => (buffer_addr, b)) (skb_load_bytes skb thoff hdr_size)).

Definition advance (n : Z) (k : bpf_flow_keys) : bpf_flow_keys := k <| thoff ::= (fun t => u16 (t + n)) |>.
Definition advance_nh (n : Z) (k : bpf_flow_keys) : bpf_flow_keys := k <| nhoff ::= (fun t => u16 (t + n)) |>.

(** ** Programs

    [tail i] is what a tail call to slot [i] runs, [None] when the call fails
    and the program goes on. *)

Section Bodies.
Variable tail : Z -> option (ST world Z).
Variable skb : sk_buff.

Definition bpf_tail_call (i : Z) (k : ST world Z) : ST world Z :=
  match tail i with Some p => p | None => k end.

Definition parse_eth_proto (proto : Z) : ST world Z :=
  let drop := export_flow_keys BPF_DROP in
  if proto =? htons ETH_P_IP then bpf_tail_call IP drop
  else if proto =? htons ETH_P_IPV6 then bpf_tail_call IPV6 drop
  else if (proto =? htons ETH_P_MPLS_MC) || (proto =? htons ETH_P_MPLS_UC) then bpf_tail_call MPLS drop
  else if (proto =? htons ETH_P_8021Q) || (proto =? htons ETH_P_8021AD) then bpf_tail_call VLAN drop
  else drop.

Definition dissect_body : ST world Z :=
  k <- flow_keys ;;
  let n_proto := n_proto k in
  stop <- (if n_proto =? htons ETH_P_IP then
             iph <- get_header skb IP_SZ ;;
             ret match iph with
                 | None => false
                 | Some (_, h) => (Z.land (byte h 0) 0x0F =? 5) && (word32 h 12 =? htonl FLOW_CONTINUE_SADDR)
                 end
           else ret false) ;;
  if stop : bool then ret BPF_FLOW_DISSECTOR_CONTINUE else parse_eth_proto n_proto.

Definition stop_at_encap (k : ST world Z) : ST world Z :=
  mod_keys (fun k => k <| is_encap := 1 |>) ;;
  ks <- flow_keys ;;
  if negb (Z.land (flags ks) BPF_FLOW_DISSECTOR_F_STOP_AT_ENCAP =? 0) then export_flow_keys BPF_OK else k.

Definition set_ports (h : list Z) : ST world unit :=
  mod_keys (fun k => k <| sport := word16 h 0 |> <| dport := word16 h 2 |>).

Definition parse_gre : ST world Z :=
  gre <- get_header skb GRE_SZ ;;
  match gre with
  | None => export_flow_keys BPF_DROP
  | Some (_, gre) =>
      let gre_flags := word16 gre 0 in
      if negb (Z.land gre_flags GRE_VERSION =? 0) then export_flow_keys BPF_OK else
      mod_keys (advance (Z.of_nat GRE_SZ)) ;;
      when (negb (Z.land gre_flags GRE_CSUM =? 0)) (mod_keys (advance 4)) ;;
      when (negb (Z.land gre_flags GRE_KEY =? 0)) (mod_keys (advance 4)) ;;
      when (negb (Z.land gre_flags GRE_SEQ =? 0)) (mod_keys (advance 4)) ;;
      stop_at_encap
        (let gre_proto := word16 gre 2 in
         if gre_proto =? htons ETH_P_TEB then
           eth <- get_header skb ETH_SZ ;;
           match eth with
           | None => export_flow_keys BPF_DROP
           | Some (_, eth) => mod_keys (advance (Z.of_nat ETH_SZ)) ;; parse_eth_proto (word16 eth 12)
           end
         else parse_eth_proto gre_proto)
  end.

Definition parse_tcp : ST world Z :=
  tcp <- get_header skb TCP_SZ ;;
  match tcp with
  | None => export_flow_keys BPF_DROP
  | Some (tcp, h) =>
      let doff := Z.land (Z.shiftr (byte h 12) 4) 0x0F in
      if doff <? 5 then export_flow_keys BPF_DROP else
      if data_end skb <? (tcp ⊞ shl 64 doff 2)%w64 then export_flow_keys BPF_DROP else
      set_ports h ;; export_flow_keys BPF_OK
  end.

Definition parse_udp : ST world Z :=
  udp <- get_header skb UDP_SZ ;;
  match udp with
  | None => export_flow_keys BPF_DROP
  | Some (_, h) => set_ports h ;; export_flow_keys BPF_OK
  end.

Definition parse_ip_proto (proto : Z) : ST world Z :=
  if proto =? IPPROTO_ICMP then
    icmp <- get_header skb 8 ;;
    export_flow_keys (match icmp with None => BPF_DROP | Some _ => BPF_OK end)
  else if proto =? IPPROTO_IPIP then stop_at_encap (parse_eth_proto (htons ETH_P_IP))
  else if proto =? IPPROTO_IPV6 then stop_at_encap (parse_eth_proto (htons ETH_P_IPV6))
  else if proto =? IPPROTO_GRE then parse_gre
  else if proto =? IPPROTO_TCP then parse_tcp
  else if (proto =? IPPROTO_UDP) || (proto =? IPPROTO_UDPLITE) then parse_udp
  else export_flow_keys BPF_DROP.

Definition parse_ipv6_proto (nexthdr : Z) : ST world Z :=
  let drop := export_flow_keys BPF_DROP in
  if (nexthdr =? IPPROTO_HOPOPTS) || (nexthdr =? IPPROTO_DSTOPTS) then bpf_tail_call IPV6OP drop
  else if nexthdr =? IPPROTO_FRAGMENT then bpf_tail_call IPV6FR drop
  else parse_ip_proto nexthdr.

(** The fragment bits of the IPv4 header: whether the dissection ends here. *)
Definition frag4 (frag_off : Z) : ST world bool :=
  if Z.land frag_off (htons (Z.lor IP_MF IP_OFFSET)) =? 0 then ret false else
  mod_keys (fun k => k <| is_frag := 1 |>) ;;
  if negb (Z.land frag_off (htons IP_OFFSET) =? 0) then ret true else
  mod_keys (fun k => k <| is_first_frag := 1 |>) ;;
  k <- flow_keys ;;
  ret (Z.land (flags k) BPF_FLOW_DISSECTOR_F_PARSE_1ST_FRAG =? 0).

Definition flow_dissector_0 : ST world Z :=
  iph <- get_header skb IP_SZ ;;
  match iph with
  | None => export_flow_keys BPF_DROP
  | Some (_, h) =>
      let ihl := Z.land (byte h 0) 0x0F in
      if ihl <? 5 then export_flow_keys BPF_DROP else
      let protocol := byte h 9 in
      mod_keys (fun k => k <| addr_proto := ETH_P_IP |>
                           <| addr := word32 h 12 :: word32 h 16 :: skipn 2 (addr k) |>
                           <| ip_proto := protocol |>) ;;
      mod_keys (advance (shl 16 ihl 2)) ;;
      k <- flow_keys ;;
      if data_end skb <? (data skb ⊞ thoff k)%w64 then export_flow_keys BPF_DROP else
      done <- frag4 (word16 h 6) ;;
      if done : bool then export_flow_keys BPF_OK else parse_ip_proto protocol
  end.

Definition flow_dissector_1 : ST world Z :=
  ip6h <- get_header skb IP6_SZ ;;
  match ip6h with
  | None => export_flow_keys BPF_DROP
  | Some (_, h) =>
      let nexthdr := byte h 6 in
      let label := ip6_flowlabel h in
      mod_keys (fun k => k <| addr_proto := ETH_P_IPV6 |> <| addr := words32 h 8 8 |>) ;;
      mod_keys (advance (Z.of_nat IP6_SZ)) ;;
      mod_keys (fun k => k <| ip_proto := nexthdr |> <| flow_label := label |>) ;;
      k <- flow_keys ;;
      if negb (label =? 0) && negb (Z.land (flags k) BPF_FLOW_DISSECTOR_F_STOP_AT_FLOW_LABEL =? 0)
      then export_flow_keys BPF_OK
      else parse_ipv6_proto nexthdr
  end.

Definition flow_dissector_2 : ST world Z :=
  ip6h <- get_header skb OPT_SZ ;;
  match ip6h with
  | None => export_flow_keys BPF_DROP
  | Some (_, h) =>
      let nexthdr := byte h 0 in
      mod_keys (advance (shl 16 (u16 (1 + byte h 1)) 3)) ;;
      mod_keys (fun k => k <| ip_proto := nexthdr |>) ;;
      parse_ipv6_proto nexthdr
  end.

Definition flow_dissector_3 : ST world Z :=
  fragh <- get_header skb FRAG_SZ ;;
  match fragh with
  | None => export_flow_keys BPF_DROP
  | Some (_, h) =>
      let nexthdr := byte h 0 in
      mod_keys (advance (Z.of_nat FRAG_SZ)) ;;
      mod_keys (fun k => k <| is_frag := 1 |> <| ip_proto := nexthdr |>) ;;
      if Z.land (word16 h 2) (htons IP6_OFFSET) =? 0 then
        mod_keys (fun k => k <| is_first_frag := 1 |>) ;;
        k <- flow_keys ;;
        if Z.land (flags k) BPF_FLOW_DISSECTOR_F_PARSE_1ST_FRAG =? 0
        then export_flow_keys BPF_OK else parse_ipv6_proto nexthdr
      else export_flow_keys BPF_OK
  end.

Definition flow_dissector_4 : ST world Z :=
  mpls <- get_header skb 4 ;;
  export_flow_keys (match mpls with None => BPF_DROP | Some _ => BPF_OK end).

(** The second half of flow_dissector_5. *)
Definition vlan_tag : ST world Z :=
  vlan <- get_header skb VLAN_SZ ;;
  match vlan with
  | None => export_flow_keys BPF_DROP
  | Some (_, h) =>
      mod_keys (advance_nh (Z.of_nat VLAN_SZ)) ;; mod_keys (advance (Z.of_nat VLAN_SZ)) ;;
      let encap_proto := word16 h 2 in
      if (encap_proto =? htons ETH_P_8021AD) || (encap_proto =? htons ETH_P_8021Q)
      then export_flow_keys BPF_DROP
      else mod_keys (fun k => k <| n_proto := encap_proto |>) ;; parse_eth_proto encap_proto
  end.

Definition flow_dissector_5 : ST world Z :=
  k <- flow_keys ;;
  if n_proto k =? htons ETH_P_8021AD then
    vlan <- get_header skb VLAN_SZ ;;
    match vlan with
    | None => export_flow_keys BPF_DROP
    | Some (_, h) =>
        if negb (word16 h 2 =? htons ETH_P_8021Q) then export_flow_keys BPF_DROP else
        mod_keys (advance_nh (Z.of_nat VLAN_SZ)) ;; mod_keys (advance (Z.of_nat VLAN_SZ)) ;;
        vlan_tag
    end
  else vlan_tag.

Definition body (p : prog) : ST world Z :=
  match p with
  | P_IP => flow_dissector_0 | P_IPV6 => flow_dissector_1 | P_IPV6OP => flow_dissector_2
  | P_IPV6FR => flow_dissector_3 | P_MPLS => flow_dissector_4 | P_VLAN => flow_dissector_5
  end.

End Bodies.

(** A program with [n] tail calls left. *)
Fixpoint program (n : nat) (skb : sk_buff) (p : prog) : ST world Z :=
  body (fun i => match n with O => None | S n => option_map (program n skb) (jmp_table i) end) skb p.

(** What a tail call runs with [n] calls left. *)
Definition tails (n : nat) (skb : sk_buff) (i : Z) : option (ST world Z) :=
  match n with O => None | S n => option_map (program n skb) (jmp_table i) end.

Definition _dissect (skb : sk_buff) : ST world Z := dissect_body (tails max_tail_calls skb) skb.

(** ** The reference

    Packets as trees of headers.  Fields are in host order; [V4 h f] is an IPv4
    header in front of [f], and so on down to the transport header. *)

Record v4hdr := { ver : Z; tos : Z; len : Z; id : Z; frag : Z; ttl : Z; csum : Z; src : Z; dst : Z; opts : list Z }.
Record v6hdr := { first : Z; plen : Z; hop : Z; addrs : list Z }.
Record tcphdr := { seq : Z; ack : Z; res1 : Z; tflags : Z; window : Z; tcsum : Z; urg : Z; topts : list Z }.

Inductive frame :=
| Vlan (tci : Z) (f : frame)
| QinQ (tci tci2 : Z) (f : frame)
| V4 (h : v4hdr) (f : frame)
| V6 (h : v6hdr) (f : frame)
| Opt (dst_opts : bool) (body : list Z) (f : frame)
| Frag (reserved off ident : Z) (f : frame)
| Gre (gflags : Z) (gopts : list Z) (macs : option (list Z)) (f : frame)
| Mpls (multicast : bool) (label : Z)
| Icmp (icmp : list Z)
| Udp (lite : bool) (sp dp ulen ucsum : Z)
| Tcp (sp dp : Z) (h : tcphdr)
| Raw (proto : Z) (bs : list Z).

(** What announces a frame: as an Ethernet type, and as an IP protocol. *)
Definition eth_type (f : frame) : Z :=
  match f with
  | V4 _ _ => ETH_P_IP | V6 _ _ => ETH_P_IPV6 | Vlan _ _ => ETH_P_8021Q | QinQ _ _ _ => ETH_P_8021AD
  | Mpls m _ => if m then ETH_P_MPLS_MC else ETH_P_MPLS_UC
  | Raw p _ => p | _ => 0
  end.

Definition ip_type (f : frame) : Z :=
  match f with
  | V4 _ _ => IPPROTO_IPIP | V6 _ _ => IPPROTO_IPV6 | Gre _ _ _ _ => IPPROTO_GRE
  | Opt d _ _ => if d then IPPROTO_DSTOPTS else IPPROTO_HOPOPTS | Frag _ _ _ _ => IPPROTO_FRAGMENT
  | Icmp _ => IPPROTO_ICMP | Udp l _ _ _ _ => if l then IPPROTO_UDPLITE else IPPROTO_UDP
  | Tcp _ _ _ => IPPROTO_TCP
  | Raw p _ => p | _ => 59
  end.

(** The bytes of the first header, and of the whole frame. *)
Definition hdr (f : frame) : list Z :=
  match f with
  | Vlan t f => be16 t ++ be16 (eth_type f)
  | QinQ t t2 f => be16 t ++ be16 ETH_P_8021Q ++ be16 t2 ++ be16 (eth_type f)
  | V4 h f =>
      [16 * ver h + (5 + Z.of_nat (length (opts h)) / 4); tos h] ++ be16 (len h) ++ be16 (id h) ++ be16 (frag h) ++
      [ttl h; ip_type f] ++ be16 (csum h) ++ be32 (src h) ++ be32 (dst h) ++ opts h
  | V6 h f => be32 (first h) ++ be16 (plen h) ++ [ip_type f; hop h] ++ flat_map be32 (addrs h)
  | Opt _ b f => [ip_type f; Z.of_nat (length b) / 8] ++ b
  | Frag r o i f => [ip_type f; r] ++ be16 o ++ be32 i
  | Gre fl o m f =>
      be16 fl ++ be16 (match m with Some _ => ETH_P_TEB | None => eth_type f end) ++ o ++
      match m with Some macs => macs ++ be16 (eth_type f) | None => [] end
  | Mpls _ l => be32 l
  | Icmp b => b
  | Udp _ s d l c => be16 s ++ be16 d ++ be16 l ++ be16 c
  | Tcp s d h =>
      be16 s ++ be16 d ++ be32 (seq h) ++ be32 (ack h) ++
      [16 * (5 + Z.of_nat (length (topts h)) / 4) + res1 h; tflags h] ++
      be16 (window h) ++ be16 (tcsum h) ++ be16 (urg h) ++ topts h
  | Raw _ b => b
  end.

Fixpoint encode (f : frame) : list Z :=
  hdr f ++
  match f with
  | Vlan _ f | QinQ _ _ f | V4 _ f | V6 _ f | Opt _ _ f | Frag _ _ _ f | Gre _ _ _ f => encode f
  | _ => []
  end.

(** The headers the dissector insists on finding between [data] and
    [data_end]: IPv4 and TCP.  [need off f] is where the last one ends. *)
Fixpoint need (off : nat) (f : frame) : nat :=
  let off' := (off + length (hdr f))%nat in
  match f with
  | V4 _ f => Nat.max off' (need off' f)
  | Tcp _ _ _ => off'
  | Vlan _ f | QinQ _ _ f | V6 _ f | Opt _ _ f | Frag _ _ _ f | Gre _ _ _ f => need off' f
  | _ => O
  end.

(** Where a frame may stand: after an Ethernet type, in IPv4, in IPv6. *)
Inductive place := InEth | In4 | In6.

Definition raw (f : frame) : Prop :=
  match f with Raw p _ => is_u8 p | _ => False end.

Definition known_eth : list Z :=
  [ETH_P_IP; ETH_P_IPV6; ETH_P_MPLS_MC; ETH_P_MPLS_UC; ETH_P_8021Q; ETH_P_8021AD].
Definition known_ip : list Z :=
  [IPPROTO_ICMP; IPPROTO_IPIP; IPPROTO_IPV6; IPPROTO_GRE; IPPROTO_TCP; IPPROTO_UDP; IPPROTO_UDPLITE].
Definition known_ip6 : list Z := [IPPROTO_HOPOPTS; IPPROTO_DSTOPTS; IPPROTO_FRAGMENT].

(** Fields in range, lengths that the length fields can say, headers where
    they may stand.  The payload of a later fragment is arbitrary. *)
Fixpoint wf (p : place) (f : frame) : Prop :=
  match f with
  | Vlan _ f | QinQ _ _ f => p = InEth /\ wf InEth f
  | V4 h f =>
      0 <= ver h < 16 /\ is_u16 (frag h) /\ is_u32 (src h) /\ is_u32 (dst h) /\
      (exists n, (n <= 10)%nat /\ length (opts h) = (4 * n)%nat) /\
      (if frag h mod 8192 =? 0 then wf In4 f else raw f)
  | V6 h f => is_u32 (first h) /\ length (addrs h) = 8%nat /\ Forall is_u32 (addrs h) /\ wf In6 f
  | Opt _ b f => p = In6 /\ (exists n, (n <= 255)%nat /\ length b = (8 * n + 6)%nat) /\ wf In6 f
  | Frag _ o _ f => p = In6 /\ is_u16 o /\ (if o / 8 =? 0 then wf In6 f else raw f)
  | Gre fl o m f =>
      p <> InEth /\ is_u16 fl /\
      length o = (4 * (Nat.b2n (Z.testbit fl 15) + Nat.b2n (Z.testbit fl 13) + Nat.b2n (Z.testbit fl 12)))%nat /\
      (match m with Some macs => length macs = 12%nat | None => True end) /\
      wf InEth f
  | Mpls _ _ => p = InEth
  | Icmp b => p <> InEth /\ length b = 8%nat
  | Udp _ s d _ _ => p <> InEth /\ is_u16 s /\ is_u16 d
  | Tcp s d h =>
      p <> InEth /\ is_u16 s /\ is_u16 d /\ 0 <= res1 h < 16 /\
      (exists n, (n <= 10)%nat /\ length (topts h) = (4 * n)%nat)
  | Raw t _ =>
      match p with
      | InEth => is_u16 t /\ ~ In t (ETH_P_TEB :: known_eth)
      | In4 => is_u8 t /\ ~ In t known_ip
      | In6 => is_u8 t /\ ~ In t (known_ip ++ known_ip6)
      end
  end.

(** The keys and the verdict the dissector should come to, with [n] tail calls
    left: each network header, VLAN tag, extension header and MPLS label costs
    one. *)
Definition asks (k : bpf_flow_keys) (flag : Z) : bool := negb (Z.land (flags k) flag =? 0).
Definition past (f : frame) (k : bpf_flow_keys) : bpf_flow_keys :=
  k <| thoff ::= Z.add (Z.of_nat (length (hdr f))) |>.

Definition payload (expect : nat -> frame -> bpf_flow_keys -> bpf_flow_keys * Z)
    (n : nat) (g : frame) (k : bpf_flow_keys) : bpf_flow_keys * Z :=
  match g with
  | V4 _ _ | V6 _ _ =>
      let k := k <| is_encap := 1 |> in
      if asks k BPF_FLOW_DISSECTOR_F_STOP_AT_ENCAP then (k, BPF_OK) else expect n g k
  | _ => expect n g k
  end.

Definition fragment (later : bool) (parse : bpf_flow_keys -> bpf_flow_keys * Z) (k : bpf_flow_keys)
    : bpf_flow_keys * Z :=
  let k := k <| is_frag := 1 |> in
  if later then (k, BPF_OK) else
  let k := k <| is_first_frag := 1 |> in
  if asks k BPF_FLOW_DISSECTOR_F_PARSE_1ST_FRAG then parse k else (k, BPF_OK).

(** After the VLAN tags: a third tag is refused. *)
Definition untagged (expect : nat -> frame -> bpf_flow_keys -> bpf_flow_keys * Z)
    (n : nat) (g : frame) (k : bpf_flow_keys) : bpf_flow_keys * Z :=
  match g with
  | Vlan _ _ | QinQ _ _ _ => (k, BPF_DROP)
  | _ => expect n g (k <| n_proto := htons (eth_type g) |>)
  end.

Definition ports (s d : Z) (k : bpf_flow_keys) : bpf_flow_keys :=
  k <| sport := htons s |> <| dport := htons d |>.

Fixpoint expect (n : nat) (f : frame) (k : bpf_flow_keys) : bpf_flow_keys * Z :=
  match f with
  | Gre fl _ m g =>
      if negb (fl mod 8 =? 0) then (k, BPF_OK) else
      let k := k <| is_encap := 1 |> in
      if asks k BPF_FLOW_DISSECTOR_F_STOP_AT_ENCAP
      then (k <| thoff ::= Z.add (Z.of_nat (length (hdr f)) - match m with Some _ => 14 | None => 0 end) |>, BPF_OK)
      else expect n g (past f k)
  | Icmp _ => (k, BPF_OK)
  | Udp _ s d _ _ => (ports s d k, BPF_OK)
  | Tcp s d _ => (ports s d k, BPF_OK)
  | Raw _ _ => (k, BPF_DROP)
  | _ =>
    match n with
    | O => (k, BPF_DROP)
    | S n =>
      match f with
      | V4 h g =>
          let k := past f k <| addr_proto := ETH_P_IP |> <| ip_proto := ip_type g |>
                     <| addr := htonl (src h) :: htonl (dst h) :: skipn 2 (addr k) |> in
          if frag h mod 16384 =? 0 then payload expect n g k
          else fragment (negb (frag h mod 8192 =? 0)) (payload expect n g) k
      | V6 h g =>
          let label := htonl (first h mod 2 ^ 20) in
          let k := past f k <| addr_proto := ETH_P_IPV6 |> <| ip_proto := ip_type g |>
                     <| addr := map htonl (addrs h) |> <| flow_label := label |> in
          if negb (label =? 0) && asks k BPF_FLOW_DISSECTOR_F_STOP_AT_FLOW_LABEL then (k, BPF_OK)
          else payload expect n g k
      | Opt _ _ g => payload expect n g (past f k <| ip_proto := ip_type g |>)
      | Frag _ o _ g => fragment (negb (o / 8 =? 0)) (payload expect n g) (past f k <| ip_proto := ip_type g |>)
      | Vlan _ g =>
          untagged expect n g (past f k <| nhoff ::= (fun t => u16 (t + 4)) |>)
      | QinQ _ _ g =>
          if negb (n_proto k =? htons ETH_P_8021AD)
          then (k <| thoff ::= Z.add 4 |> <| nhoff ::= (fun t => u16 (t + 4)) |>, BPF_DROP)
          else untagged expect n g (past f k <| nhoff ::= (fun t => u16 (t + 8)) |>)
      | _ => (k, BPF_OK)
      end
    end
  end.

(** Packets from 127.0.0.127 without options are left to the kernel. *)
Definition left_to_kernel (f : frame) : bool :=
  match f with
  | V4 h _ => (Z.of_nat (length (opts h)) / 4 =? 0) && (src h =? FLOW_CONTINUE_SADDR)
  | _ => false
  end.

(** The world in which a dissection ends. *)
Definition exported (w : world) (k : bpf_flow_keys) : world :=
  snd (bpf_map_update_elem (Z.lor (shl 32 (sport k) 16) (dport k)) k (w <| keys := k |>)).

(** ** Steps of a dissection *)

Notation W k m := {| keys := k; last_dissection := m |}.

Definition store (m : Z -> option bpf_flow_keys) (k : bpf_flow_keys) : Z -> option bpf_flow_keys :=
  last_dissection (snd (bpf_map_update_elem (Z.lor (shl 32 (sport k) 16) (dport k)) k (W k m))).
Definition done (m : Z -> option bpf_flow_keys) (r : bpf_flow_keys * Z) : Z * world :=
  (snd r, W (fst r) (store m (fst r))).

Lemma export_done r k m : export_flow_keys r (W k m) = done m (k, r).
Proof.
  unfold export_flow_keys, done, store, bpf_map_update_elem, modify, bind, flow_keys, get; cbn.
  now destruct (map_room m _).
Qed.

Lemma mod_keys_eq f k m : mod_keys f (W k m) = (tt, W (f k) m).
Proof. reflexivity. Qed.

(** Sequencing, once the first step is known. *)
Lemma bind_step {A B} (c : ST world A) (q : A -> ST world B) w a w' : c w = (a, w') -> bind c q w = q a w'.
Proof. intros E; unfold bind; now rewrite E. Qed.

Lemma bind_mod {A} f (q : unit -> ST world A) k m : bind (mod_keys f) q (W k m) = q tt (W (f k) m).
Proof. reflexivity. Qed.
Lemma bind_flow {A} (q : bpf_flow_keys -> ST world A) k m : bind flow_keys q (W k m) = q k (W k m).
Proof. reflexivity. Qed.
Lemma bind_when {A} b f (q : unit -> ST world A) k m :
  bind (when b (mod_keys f)) q (W k m) = q tt (W (if b then f k else k) m).
Proof. now destruct b. Qed.

(** The header [h] lies behind [pre]. *)
Definition placed (skb : sk_buff) (pre h post : list Z) : Prop :=
  packet skb = pre ++ h ++ post /\ Z.of_nat (length (pre ++ h)) <= 65535.

Section Proofs.
Context {KO : KernelOk K}.
Variable skb : sk_buff.
Hypothesis skb_ok : 0 <= data skb /\ data skb + Z.of_nat (length (linear skb)) < 2 ^ 64 - 2 ^ 17.

Lemma get_header_placed n k pre h post :
  placed skb pre h post -> thoff k = Z.of_nat (length pre) -> (n <= length h)%nat ->
  exists a, (forall m, get_header skb n (W k m) = (Some (a, firstn n h), W k m)) /\
            ((length pre + n <= length (linear skb))%nat -> a = data skb + Z.of_nat (length pre)).
Proof.
  intros [E L] T Hn. rewrite length_app in L.
  assert (S : sub (packet skb) (length pre) n = firstn n h).
  { unfold sub. rewrite E, skipn_app, skipn_all, Nat.sub_diag; cbn [app skipn].
    rewrite firstn_app. replace (n - length h)%nat with O by lia. now rewrite app_nil_r. }
  unfold get_header. setoid_rewrite bind_flow. rewrite T.
  replace (65535 - Z.of_nat n <? Z.of_nat (length pre)) with false by (symmetry; apply Z.ltb_ge; lia).
  rewrite (uw_small 64 (data skb + _)), uw_small by (unfold is_u; lia). unfold data_end.
  destruct (Z.leb_spec (data skb + Z.of_nat (length pre) + Z.of_nat n)
              (data skb + Z.of_nat (length (linear skb)))).
  - eexists; split; [intros m|reflexivity]. rewrite Nat2Z.id, <- S. unfold ret, sub, packet.
    rewrite skipn_app, firstn_app. rewrite length_skipn.
    replace (n - (length (linear skb) - length pre))%nat with O by lia. now rewrite app_nil_r.
  - exists buffer_addr. rewrite load_bytes, E, !length_app.
    destruct (Nat.leb_spec (length pre + n) (length pre + (length h + length post))); [|lia].
    rewrite <- E, S. split; [reflexivity | lia].
Qed.

(** ** Fields of the headers *)

(** A flag or mask of a field in network order. *)
Lemma field_mask v m : is_u16 v -> is_u16 m -> (Z.land (to_be v) (to_be m) =? 0) = (Z.land v m =? 0).
Proof. intros. rewrite land_to_be by assumption. apply to_be_0, is_u_land; easy. Qed.

Lemma gre_flags fl : is_u16 fl ->
  (Z.land (to_be fl) GRE_VERSION =? 0) = (fl mod 8 =? 0) /\
  (Z.land (to_be fl) GRE_CSUM =? 0) = negb (Z.testbit fl 15) /\
  (Z.land (to_be fl) GRE_KEY =? 0) = negb (Z.testbit fl 13) /\
  (Z.land (to_be fl) GRE_SEQ =? 0) = negb (Z.testbit fl 12).
Proof.
  intros Hf. unfold GRE_VERSION, GRE_CSUM, GRE_KEY, GRE_SEQ. rewrite !field_mask by easy.
  repeat split; [|now apply (land_bit fl 15)|now apply (land_bit fl 13)|now apply (land_bit fl 12)].
  change 7 with (Z.ones 3). now rewrite Z.land_ones by lia.
Qed.

Lemma frag_bits o : is_u16 o ->
  (Z.land (to_be o) (htons (Z.lor IP_MF IP_OFFSET)) =? 0) = (o mod 16384 =? 0) /\
  (Z.land (to_be o) (htons IP_OFFSET) =? 0) = (o mod 8192 =? 0) /\
  (Z.land (to_be o) (htons IP6_OFFSET) =? 0) = (o / 8 =? 0).
Proof.
  intros Ho. unfold htons. rewrite !field_mask by easy. repeat split.
  - change (Z.lor IP_MF IP_OFFSET) with (Z.ones 14). now rewrite Z.land_ones by lia.
  - change IP_OFFSET with (Z.ones 13). now rewrite Z.land_ones by lia.
  - unfold is_u in Ho. assert (0 <= o / 8 < 8192) by (Z.div_mod_to_equations; lia).
    rewrite (Z.div_mod o 8) at 1 by lia. rewrite Z.add_comm. change IP6_OFFSET with (0 + 2 ^ 3 * Z.ones 13).
    change 8 with (2 ^ 3) at 1 2. rewrite land_halves by (easy || (apply Z.mod_pos_bound; lia) || lia).
    rewrite Z.land_0_r, Z.land_ones, Z.mod_small by lia. change (2 ^ 3) with 8. apply eq_true_iff_eq. rewrite !Z.eqb_eq. lia.
Qed.

Lemma nibbles a b : 0 <= a < 16 -> 0 <= b < 16 ->
  Z.land (16 * a + b) 15 = b /\ Z.land (Z.shiftr (16 * a + b) 4) 15 = a.
Proof.
  intros Ha Hb. change 15 with (Z.ones 4). rewrite !Z.land_ones, Z.shiftr_div_pow2 by lia.
  change (2 ^ 4) with 16. Z.div_mod_to_equations; lia.
Qed.

Lemma label_mask v : is_u32 v -> Z.land (to_be32 v) IPV6_FLOWLABEL_MASK = htonl (v mod 2 ^ 20).
Proof.
  intros Hv. unfold IPV6_FLOWLABEL_MASK, htonl, to_be32.
  change (0xFFFFF mod 65536) with 65535. change (0xFFFFF / 65536) with 15.
  assert (B : forall x, 0 <= x < 65536 -> is_u16 (to_be x)) by (intros; now apply to_be_u16).
  pose proof (B (v mod 65536) ltac:(apply Z.mod_pos_bound; lia)) as B1.
  pose proof (B (v / 65536) ltac:(unfold is_u in Hv; split; [apply Z.div_pos|apply Z.div_lt_upper_bound]; lia)) as B2.
  rewrite (Z.add_comm (65536 * to_be (v mod _))), (Z.add_comm (65536 * to_be 65535)).
  pose proof (land_halves 16 (to_be (v / 65536)) (to_be (v mod 65536)) (to_be 15) (to_be 65535)
    ltac:(lia) B2 ltac:(easy) ltac:(apply B1) ltac:(easy)) as L.
  change (2 ^ 16) with 65536 in L. rewrite L; clear L.
  change (to_be 65535) with (Z.ones 16). rewrite Z.land_ones by lia. rewrite (Z.mod_small (to_be _)) by exact B1.
  assert (E : Z.land (to_be (v / 65536)) (to_be 15) = to_be (v / 65536 mod 16)).
  { rewrite land_to_be; [|unfold is_u in *; split; [apply Z.div_pos|apply Z.div_lt_upper_bound]; lia | easy].
    change 15 with (Z.ones 4). now rewrite Z.land_ones by lia. }
  change (2 ^ 20) with 1048576. rewrite E, Z.add_comm. f_equal; f_equal.
  - f_equal. Z.div_mod_to_equations; lia.
  - Z.div_mod_to_equations; lia.
Qed.

(** ** Running the programs on a frame *)

Ltac steps := rewrite ?bind_mod, ?bind_flow, ?bind_when, ?mod_keys_eq; cbv beta.

Definition child (f : frame) : option frame :=
  match f with
  | Vlan _ f | QinQ _ _ f | V4 _ f | V6 _ f | Opt _ _ f | Frag _ _ _ f | Gre _ _ _ f => Some f
  | _ => None
  end.

Lemma encode_eq f : encode f = hdr f ++ match child f with Some g => encode g | None => [] end.
Proof. now destruct f. Qed.

(** Inside a frame the keys never say that another double tag is due. *)
Definition tag_ok (f : frame) (k : bpf_flow_keys) : Prop :=
  match f with QinQ _ _ _ | Raw _ _ | Mpls _ _ => True | _ => n_proto k <> htons ETH_P_8021AD end.

(** The frame lies in the packet at [thoff]. *)
Record here (pre : list Z) (f : frame) (k : bpf_flow_keys) : Prop := {
  here_bytes : exists post, packet skb = pre ++ encode f ++ post;
  here_short : Z.of_nat (length pre + length (encode f)) <= 65535;
  here_need : (need (length pre) f <= length (linear skb))%nat;
  here_thoff : thoff k = Z.of_nat (length pre)
}.

Lemma here_placed pre f k : here pre f k -> exists post, placed skb pre (hdr f) post.
Proof.
  intros [[post E] S _ _]. rewrite encode_eq in E, S. rewrite <- app_assoc in E. rewrite length_app in S.
  eexists; split; [exact E | rewrite length_app; lia].
Qed.

Lemma here_child pre f g k k' : child f = Some g -> here pre f k ->
  thoff k' = thoff k + Z.of_nat (length (hdr f)) -> here (pre ++ hdr f) g k'.
Proof.
  intros C [[post E] S N T] T'. rewrite encode_eq, C in E, S. rewrite length_app in S.
  constructor; [| rewrite length_app; lia | | rewrite T', T, length_app; lia].
  - exists post. rewrite E. now rewrite <- !app_assoc.
  - rewrite length_app. destruct f; try discriminate C; injection C as ->; cbn [need] in N; try exact N. lia.
Qed.

(** Reading the header a program expects. *)
Lemma get_hdr n pre f k : here pre f k -> (n <= length (hdr f))%nat ->
  exists a, (forall m, get_header skb n (W k m) = (Some (a, firstn n (hdr f)), W k m)) /\
            ((length pre + n <= length (linear skb))%nat -> a = data skb + Z.of_nat (length pre)).
Proof. intros H Hn. destruct (here_placed _ _ _ H) as [post P]. apply (get_header_placed _ _ _ _ post P); [apply H | exact Hn]. Qed.

Ltac header H n :=
  let a := fresh "a" in let G := fresh "G" in let A := fresh "A" in
  destruct (get_hdr n _ _ _ H) as (a & G & A);
  [ | rewrite (bind_step _ _ _ _ _ (G _)); cbv beta iota; try clear G ].

Lemma udp_done l s d ul uc pre k m : here pre (Udp l s d ul uc) k -> is_u16 s -> is_u16 d ->
  parse_udp skb (W k m) = done m (ports s d k, BPF_OK).
Proof.
  intros H Hs Hd. unfold parse_udp. header H UDP_SZ; [unfold UDP_SZ; cbn; lia|].
  unfold set_ports. steps. rewrite export_done. unfold ports, htons.
  rewrite (word16_at _ 0 s), (word16_at _ 2 d) by (assumption || reflexivity). reflexivity.
Qed.

Lemma tcp_done s d h pre k m : here pre (Tcp s d h) k -> wf In4 (Tcp s d h) ->
  parse_tcp skb (W k m) = done m (ports s d k, BPF_OK).
Proof.
  intros H (_ & Hs & Hd & Hr & n & Hn & Ho). pose proof (here_need _ _ _ H) as N.
  assert (L : length (hdr (Tcp s d h)) = (4 * (5 + n))%nat) by (cbn [hdr be16 be32 app length]; lia).
  cbn [need] in N. rewrite L in N.
  unfold parse_tcp. header H TCP_SZ; [rewrite L; unfold TCP_SZ; lia|].
  rewrite (A ltac:(unfold TCP_SZ; lia)).
  change (byte _ 12) with (16 * (5 + Z.of_nat (length (topts h)) / 4) + res1 h).
  rewrite Ho. replace (Z.of_nat (4 * n) / 4) with (Z.of_nat n) by (rewrite Nat2Z.inj_mul, Z.mul_comm, Z.div_mul; lia).
  rewrite (proj2 (nibbles (5 + Z.of_nat n) (res1 h) ltac:(lia) Hr)).
  destruct (Z.ltb_spec (5 + Z.of_nat n) 5); [lia|].
  assert (S : shl 64 (5 + Z.of_nat n) 2 = 4 * (5 + Z.of_nat n)).
  { unfold shl. rewrite Z.shiftl_mul_pow2, uw_small by (unfold is_u; lia). lia. }
  rewrite S, uw_small by (unfold is_u; lia). unfold data_end at 1.
  match goal with |- context [?x <? ?y] => destruct (Z.ltb_spec x y); [lia|] end.
  unfold set_ports. steps. rewrite export_done. unfold ports, htons.
  rewrite (word16_at _ 0 s), (word16_at _ 2 d) by (assumption || reflexivity). reflexivity.
Qed.

Lemma keys_ext k k' : nhoff k = nhoff k' -> thoff k = thoff k' -> addr_proto k = addr_proto k'
  -> is_frag k = is_frag k' -> is_first_frag k = is_first_frag k' -> is_encap k = is_encap k'
  -> ip_proto k = ip_proto k' -> n_proto k = n_proto k' -> sport k = sport k' -> dport k = dport k' -> addr k = addr k' -> flags k = flags k'
  -> flow_label k = flow_label k' -> k = k'.
Proof. destruct k, k'; cbn; congruence. Qed.

(** Two sequences of updates that differ in how they add up [thoff]. *)
Ltac keys_eq := apply keys_ext; try reflexivity.

Hypothesis jmp_slots : forall i, jmp_table i = slots i.

Lemma tail_run n i p d : slots i = Some p ->
  bpf_tail_call (tails n skb) i d = match n with O => d | S n => body (tails n skb) skb p end.
Proof.
  intros E; unfold bpf_tail_call, tails. destruct n as [|n]; [reflexivity|].
  rewrite jmp_slots, E; cbn [option_map]. now destruct n.
Qed.

(** Each Ethernet type runs its program. *)
Definition prog_of (f : frame) : prog :=
  match f with V4 _ _ => P_IP | V6 _ _ => P_IPV6 | Mpls _ _ => P_MPLS | _ => P_VLAN end.

Lemma eth_dispatch n f :
  match f with V4 _ _ | V6 _ _ | Mpls _ _ | Vlan _ _ | QinQ _ _ _ => True | _ => False end ->
  parse_eth_proto (tails n skb) (htons (eth_type f)) =
  match n with O => export_flow_keys BPF_DROP | S n => body (tails n skb) skb (prog_of f) end.
Proof. destruct f as [| | | | | | |[]| | | |]; intros []; unfold parse_eth_proto; cbn -[tails body]; now apply tail_run. Qed.

Definition correct (f : frame) : Prop := forall n k m pre, here pre f k -> tag_ok f k ->
  (wf InEth f -> parse_eth_proto (tails n skb) (htons (eth_type f)) (W k m) = done m (expect n f k)) /\
  (wf In4 f -> parse_ip_proto (tails n skb) skb (ip_type f) (W k m) = done m (payload expect n f k)) /\
  (wf In6 f -> parse_ipv6_proto (tails n skb) skb (ip_type f) (W k m) = done m (payload expect n f k)).

Lemma here_ext pre f k k' : thoff k' = thoff k -> here pre f k -> here pre f k'.
Proof. intros T [B S N T']; constructor; try assumption; congruence. Qed.

Lemma tag_inner g k k' : n_proto k <> htons ETH_P_8021AD -> n_proto k' = n_proto k -> tag_ok g k'.
Proof. intros N P. destruct g; cbn [tag_ok]; first [exact I | congruence]. Qed.

Lemma encap_done c k m r :
  c (W (k <| is_encap := 1 |>) m) = done m r ->
  stop_at_encap c (W k m) =
  done m (if asks (k <| is_encap := 1 |>) BPF_FLOW_DISSECTOR_F_STOP_AT_ENCAP then (k <| is_encap := 1 |>, BPF_OK) else r).
Proof.
  intros E; unfold stop_at_encap. steps. unfold asks. case_if; [apply export_done | exact E].
Qed.

Lemma frag4_done v (rest : ST world Z) r k m : is_u16 v ->
  (v mod 8192 = 0 -> forall k', thoff k' = thoff k -> n_proto k' = n_proto k -> rest (W k' m) = done m (r k')) ->
  bind (frag4 (to_be v)) (fun d : bool => if d then export_flow_keys BPF_OK else rest) (W k m) =
  done m (if v mod 16384 =? 0 then r k else fragment (negb (v mod 8192 =? 0)) r k).
Proof.
  intros Hv R. destruct (frag_bits v Hv) as (E1 & E2 & _). unfold bind at 1, frag4. rewrite E1, E2. clear E1 E2.
  destruct (Z.eqb_spec (v mod 16384) 0) as [Z1|Z1].
  - apply R; [Z.div_mod_to_equations; lia | reflexivity | reflexivity].
  - unfold fragment. steps. destruct (Z.eqb_spec (v mod 8192) 0) as [Z2|Z2]; cbn [negb]; [|apply export_done].
    steps. unfold asks, ret. destruct (Z.land (flags _) _ =? 0); cbn [negb]; [apply export_done | now apply R].
Qed.

(** The IPv4 program, whatever becomes of the payload: [r] is the dissection of
    an unfragmented one. *)
Definition behind_v4 (h : v4hdr) (g : frame) (k : bpf_flow_keys) : bpf_flow_keys :=
  past (V4 h g) k <| addr_proto := ETH_P_IP |> <| ip_proto := ip_type g |>
    <| addr := htonl (src h) :: htonl (dst h) :: skipn 2 (addr k) |>.

Lemma ip_step h g n k m pre post r :
  placed skb pre (hdr (V4 h g)) post -> thoff k = Z.of_nat (length pre) ->
  (length pre + length (hdr (V4 h g)) <= length (linear skb))%nat ->
  0 <= ver h < 16 -> is_u16 (frag h) -> is_u32 (src h) -> is_u32 (dst h) ->
  (exists n, (n <= 10)%nat /\ length (opts h) = (4 * n)%nat) ->
  (frag h mod 8192 = 0 -> forall k2, thoff k2 = thoff k + Z.of_nat (length (hdr (V4 h g))) -> n_proto k2 = n_proto k ->
     parse_ip_proto (tails n skb) skb (ip_type g) (W k2 m) = done m (r k2)) ->
  flow_dissector_0 (tails n skb) skb (W k m) =
  done m (if frag h mod 16384 =? 0 then r (behind_v4 h g k)
          else fragment (negb (frag h mod 8192 =? 0)) r (behind_v4 h g k)).
Proof.
  intros P T N Hv Hf Hs Hd (q & Hq & Ho) R. pose proof (proj2 P) as S. rewrite length_app in S.
  assert (L : length (hdr (V4 h g)) = (4 * (5 + q))%nat) by (cbn [hdr be16 be32 app length]; lia).
  destruct (get_header_placed IP_SZ k pre _ post P T ltac:(rewrite L; unfold IP_SZ; lia)) as (a & G & _).
  rewrite L in N, S, R. unfold flow_dissector_0. rewrite (bind_step _ _ _ _ _ (G m)); cbv beta iota; clear G.
  change (byte _ 0) with (16 * ver h + (5 + Z.of_nat (length (opts h)) / 4)).
  rewrite Ho. replace (Z.of_nat (4 * q) / 4) with (Z.of_nat q) by (rewrite Nat2Z.inj_mul, Z.mul_comm, Z.div_mul; lia).
  rewrite (proj1 (nibbles (ver h) (5 + Z.of_nat q) Hv ltac:(lia))).
  destruct (Z.ltb_spec (5 + Z.of_nat q) 5); [lia|].
  change (byte _ 9) with (ip_type g).
  rewrite (word16_at _ 6 (frag h)), (word32_at _ 12 (src h)), (word32_at _ 16 (dst h)) by (assumption || reflexivity).
  assert (Sh : shl 16 (5 + Z.of_nat q) 2 = 4 * (5 + Z.of_nat q)).
  { unfold shl. rewrite Z.shiftl_mul_pow2, uw_small by (unfold is_u; lia). lia. }
  rewrite Sh. steps. cbv zeta.
  match goal with |- context [frag4 _ _ _] => idtac | |- context [W ?x m] => set (k1 := x) end.
  assert (E : k1 = behind_v4 h g k).
  { unfold k1, behind_v4, past, advance. rewrite L. keys_eq.
    change (u16 (thoff k + 4 * (5 + Z.of_nat q)) = Z.of_nat (4 * (5 + q)) + thoff k).
    rewrite uw_small by (unfold is_u; lia). lia. }
  assert (T1 : thoff k1 = thoff k + Z.of_nat (length (hdr (V4 h g)))).
  { rewrite E, L. unfold behind_v4, past. rewrite L. apply Z.add_comm. }
  assert (P1 : n_proto k1 = n_proto k) by (rewrite E; reflexivity).
  rewrite <- E; clearbody k1; clear E. rewrite T1, T, L, uw_small by (unfold is_u; lia).
  unfold data_end. match goal with |- context [?x <? ?y] => destruct (Z.ltb_spec x y); [lia|] end.
  rewrite (frag4_done (frag h) _ r k1 m Hf); [reflexivity|].
  intros Z0 k2 T2 P2. apply (R Z0); [rewrite T2, T1, L; reflexivity | congruence].
Qed.

Lemma v4_done h g n k m pre : correct g -> here pre (V4 h g) k -> tag_ok (V4 h g) k -> wf InEth (V4 h g) ->
  flow_dissector_0 (tails n skb) skb (W k m) = done m (expect (S n) (V4 h g) k).
Proof.
  intros IH H Ht (Hv & Hf & Hs & Hd & Ho & Hg). pose proof (here_need _ _ _ H) as N. cbn [need] in N.
  destruct (here_placed _ _ _ H) as [post P].
  rewrite (ip_step h g n k m pre post (payload expect n g)); try assumption; [reflexivity | apply H | lia |].
  intros Z0 k2 T2 P2. rewrite Z0 in Hg. apply (IH n k2 m (pre ++ hdr (V4 h g))); [| |exact Hg].
  - now apply (here_child _ _ _ k).
  - now apply (tag_inner _ k).
Qed.

(** A TCP header behind [data_end] is copied to the stack, and its options are
    looked for from there on. *)
Definition tcp_fits (t : tcphdr) : bool :=
  (buffer_addr ⊞ (20 + Z.of_nat (length (topts t))))%w64 <=? data_end skb.

Lemma tcp_paged s d t pre post k m : placed skb pre (hdr (Tcp s d t)) post -> thoff k = Z.of_nat (length pre) ->
  (length (linear skb) < length pre + TCP_SZ)%nat -> wf In4 (Tcp s d t) ->
  parse_tcp skb (W k m) = done m (if tcp_fits t then (ports s d k, BPF_OK) else (k, BPF_DROP)).
Proof.
  intros [E Hl] T N (_ & Hs & Hd & Hr & n & Hn & Ho).
  assert (L : length (hdr (Tcp s d t)) = (4 * (5 + n))%nat) by (cbn [hdr be16 be32 app length]; lia).
  rewrite length_app, L in Hl. unfold parse_tcp.
  rewrite (bind_step _ _ _ (Some (buffer_addr, firstn TCP_SZ (hdr (Tcp s d t)))) (W k m)).
  2: { unfold get_header. rewrite bind_flow, T.
       replace (65535 - Z.of_nat TCP_SZ <? Z.of_nat (length pre)) with false by (symmetry; apply Z.ltb_ge; unfold TCP_SZ; lia).
       rewrite (uw_small 64 (data skb + _)), uw_small by (unfold is_u, TCP_SZ; lia). unfold data_end.
       match goal with |- context [?x <=? ?y] => destruct (Z.leb_spec x y); [lia|] end.
       rewrite load_bytes, E, !length_app, L.
       match goal with |- context [Nat.leb ?x ?y] => destruct (Nat.leb_spec x y); [|unfold TCP_SZ in *; lia] end.
       unfold ret, sub. now rewrite skipn_app, skipn_all, Nat.sub_diag. }
  cbv beta iota. change (byte _ 12) with (16 * (5 + Z.of_nat (length (topts t)) / 4) + res1 t).
  rewrite Ho. replace (Z.of_nat (4 * n) / 4) with (Z.of_nat n) by (rewrite Nat2Z.inj_mul, Z.mul_comm, Z.div_mul; lia).
  rewrite (proj2 (nibbles (5 + Z.of_nat n) (res1 t) ltac:(lia) Hr)).
  destruct (Z.ltb_spec (5 + Z.of_nat n) 5); [lia|].
  assert (S : shl 64 (5 + Z.of_nat n) 2 = 20 + Z.of_nat (length (topts t))).
  { unfold shl. rewrite Z.shiftl_mul_pow2, uw_small by (unfold is_u; lia). lia. }
  rewrite S. unfold tcp_fits. rewrite Z.leb_antisym.
  destruct (_ <? _); cbn [negb]; [apply export_done|].
  unfold set_ports. steps. rewrite export_done. unfold ports, htons.
  rewrite (word16_at _ 0 s), (word16_at _ 2 d) by (assumption || reflexivity). reflexivity.
Qed.

Lemma v6_done h g n k m pre : correct g -> here pre (V6 h g) k -> tag_ok (V6 h g) k -> wf InEth (V6 h g) ->
  flow_dissector_1 (tails n skb) skb (W k m) = done m (expect (S n) (V6 h g) k).
Proof.
  intros IH H Ht (Hf & Hl & Ha & Hg).
  assert (L : length (hdr (V6 h g)) = 40%nat).
  { cbn [hdr]. rewrite !length_app, (flat_map_constant_length (c := 4%nat)), Hl by reflexivity. reflexivity. }
  pose proof (here_thoff _ _ _ H) as T. pose proof (here_short _ _ _ H) as Sh.
  rewrite encode_eq, length_app, L in Sh.
  unfold flow_dissector_1. header H IP6_SZ; [rewrite L; reflexivity|].
  change (byte _ 6) with (ip_type g).
  unfold ip6_flowlabel. rewrite (word32_at _ 0 (first h)) by (assumption || reflexivity).
  rewrite label_mask by exact Hf.
  assert (E : words32 (firstn IP6_SZ (hdr (V6 h g))) 8 8 = map htonl (addrs h)).
  { unfold words32. remember (addrs h) as l eqn:El in *. cbn [hdr]. rewrite <- El. clear El. explode l.
    repeat match goal with X : Forall _ (_ :: _) |- _ => inversion X; clear X; subst end.
    cbn [map List.seq]. repeat (apply (f_equal2 cons); [now apply word32_at|]). reflexivity. }
  rewrite E. steps. cbn [expect]. cbv zeta. unfold asks.
  match goal with |- context [W ?x m] => set (k1 := x) end.
  match goal with |- _ = done m (if _ then (?x, _) else _) => assert (E1 : k1 = x) end.
  { unfold k1, past, advance. rewrite L. keys_eq.
    change (u16 (thoff k + 40) = 40 + thoff k). rewrite uw_small by (unfold is_u; lia). lia. }
  rewrite <- E1. assert (T1 : thoff k1 = thoff k + Z.of_nat (length (hdr (V6 h g)))).
  { rewrite E1. unfold past. apply Z.add_comm. }
  assert (P1 : n_proto k1 = n_proto k) by (rewrite E1; reflexivity). clearbody k1; clear E E1.
  destruct (_ && _); [apply export_done|].
  apply (IH n k1 m (pre ++ hdr (V6 h g))); [| |exact Hg].
  - apply (here_child _ _ _ k); [reflexivity | exact H | exact T1].
  - apply (tag_inner _ k); [exact Ht | exact P1].
Qed.

Lemma opt_done d b g n k m pre : correct g -> here pre (Opt d b g) k -> tag_ok (Opt d b g) k -> wf In6 (Opt d b g) ->
  flow_dissector_2 (tails n skb) skb (W k m) = done m (expect (S n) (Opt d b g) k).
Proof.
  intros IH H Ht (_ & (q & Hq & Hl) & Hg).
  assert (L : length (hdr (Opt d b g)) = (8 * (1 + q))%nat) by (cbn [hdr app length]; lia).
  pose proof (here_thoff _ _ _ H) as T. pose proof (here_short _ _ _ H) as Sh.
  rewrite encode_eq, length_app, L in Sh.
  unfold flow_dissector_2. header H OPT_SZ; [rewrite L; unfold OPT_SZ; lia|].
  change (byte _ 0) with (ip_type g). change (byte _ 1) with (Z.of_nat (length b) / 8). rewrite Hl.
  replace (Z.of_nat (8 * q + 6) / 8) with (Z.of_nat q) by (Z.div_mod_to_equations; lia).
  assert (E : shl 16 (u16 (1 + Z.of_nat q)) 3 = Z.of_nat (8 * (1 + q))).
  { unfold shl. rewrite Z.shiftl_mul_pow2, (uw_small 16 (1 + _)), uw_small by (unfold is_u; lia). lia. }
  rewrite E. steps. cbn [expect]. match goal with |- context [W ?x m] => set (k1 := x) end.
  match goal with |- _ = done m (payload _ _ _ ?x) => assert (E1 : k1 = x) end.
  { unfold k1, past, advance. rewrite L. keys_eq.
    change (u16 (thoff k + Z.of_nat (8 * (1 + q))) = Z.of_nat (8 * (1 + q)) + thoff k).
    rewrite uw_small by (unfold is_u; lia). lia. }
  rewrite <- E1. apply (IH n k1 m (pre ++ hdr (Opt d b g))); [| |exact Hg].
  - apply (here_child _ _ _ k); [reflexivity | exact H | rewrite E1; apply Z.add_comm].
  - apply (tag_inner _ k); [exact Ht | now rewrite E1].
Qed.

Lemma mpls_done u l n k m pre : here pre (Mpls u l) k ->
  flow_dissector_4 skb (W k m) = done m (expect (S n) (Mpls u l) k).
Proof. intros H. unfold flow_dissector_4. header H 4%nat; [cbn; lia | apply export_done]. Qed.

Lemma frag_done r o i g n k m pre : correct g -> here pre (Frag r o i g) k -> tag_ok (Frag r o i g) k ->
  wf In6 (Frag r o i g) ->
  flow_dissector_3 (tails n skb) skb (W k m) = done m (expect (S n) (Frag r o i g) k).
Proof.
  intros IH H Ht (_ & Ho & Hg). pose proof (here_thoff _ _ _ H) as T. pose proof (here_short _ _ _ H) as Sh.
  rewrite encode_eq, length_app in Sh. change (length (hdr (Frag r o i g))) with 8%nat in Sh.
  unfold flow_dissector_3. header H FRAG_SZ; [unfold FRAG_SZ; cbn; lia|].
  change (byte _ 0) with (ip_type g). rewrite (word16_at _ 2 o) by (assumption || reflexivity).
  rewrite (proj2 (proj2 (frag_bits o Ho))). steps. cbn [expect]. unfold fragment; cbv zeta.
  match goal with |- context [W ?x m] => set (k1 := x) end.
  match goal with |- _ = done m (if _ then (?x, _) else _) => assert (E1 : k1 = x) end.
  { unfold k1, past, advance. keys_eq. change (u16 (thoff k + 8) = 8 + thoff k).
    rewrite uw_small by (unfold is_u; lia). lia. }
  rewrite <- E1. assert (T1 : thoff k1 = thoff k + 8) by (rewrite E1; apply Z.add_comm).
  assert (P1 : n_proto k1 = n_proto k) by (rewrite E1; reflexivity). clearbody k1; clear E1.
  destruct (o / 8 =? 0); cbn [negb]; [|apply export_done].
  steps. unfold asks. destruct (Z.land (flags _) _ =? 0); cbn [negb]; [apply export_done|].
  apply (IH n _ m (pre ++ hdr (Frag r o i g))); [| |exact Hg].
  - apply (here_child _ _ _ k); [reflexivity | exact H | exact T1].
  - apply (tag_inner _ k); [exact Ht | exact P1].
Qed.

Lemma eth_type_ok g : wf InEth g -> is_u16 (eth_type g) /\ eth_type g <> ETH_P_TEB.
Proof.
  destruct g as [| | | | | | |[]| | | |]; cbn [wf]; try (intros _; split; [easy | discriminate]); try tauto.
  intros [? N]; split; [assumption | intros E; apply N; now left].
Qed.

Lemma vlan_done t g n k m pre : correct g -> here pre (Vlan t g) k -> wf InEth g ->
  vlan_tag (tails n skb) skb (W k m) =
  done m (untagged expect n g (past (Vlan t g) k <| nhoff ::= (fun t => u16 (t + 4)) |>)).
Proof.
  intros IH H Hg. pose proof (here_thoff _ _ _ H) as T. pose proof (here_short _ _ _ H) as Sh.
  rewrite encode_eq, length_app in Sh. change (length (hdr (Vlan t g))) with 4%nat in Sh.
  destruct (eth_type_ok g Hg) as [U _].
  unfold vlan_tag. header H VLAN_SZ; [unfold VLAN_SZ; cbn; lia|].
  rewrite (word16_at _ 2 (eth_type g)) by (assumption || reflexivity). steps.
  match goal with |- context [W ?x m] => set (k1 := x) end.
  match goal with |- _ = done m (untagged _ _ _ ?x) => assert (E1 : k1 = x) end.
  { unfold k1, past, advance, advance_nh. keys_eq. change (u16 (thoff k + 4) = 4 + thoff k).
    rewrite uw_small by (unfold is_u; lia). lia. }
  rewrite <- E1. assert (T1 : thoff k1 = thoff k + 4) by (rewrite E1; apply Z.add_comm). clearbody k1; clear E1.
  unfold htons. rewrite !to_be_eqb by (assumption || easy).
  destruct ((eth_type g =? ETH_P_8021AD) || (eth_type g =? ETH_P_8021Q)) eqn:B.
  - unfold untagged. destruct g as [| | | | | | |[]| | | |]; try discriminate B; try apply export_done; cbn [wf] in Hg;
      try (now destruct Hg).
    exfalso. apply orb_true_iff in B as [B|B]; apply Z.eqb_eq in B; cbn [eth_type] in B; subst;
      apply (proj2 Hg); cbn [In known_eth]; tauto.
  - steps. fold (htons (eth_type g)). unfold untagged.
    assert (C : parse_eth_proto (tails n skb) (htons (eth_type g)) (W (k1 <| n_proto := htons (eth_type g) |>) m) =
      done m (expect n g (k1 <| n_proto := htons (eth_type g) |>))).
    { apply (IH n _ m (pre ++ hdr (Vlan t g))); [| |exact Hg].
      - apply (here_child _ _ _ k); [reflexivity | exact H | exact T1].
      - destruct g; cbn [tag_ok]; try exact I; try (cbn; discriminate); cbn [wf] in Hg; now destruct Hg. }
    destruct g; try exact C; discriminate B.
Qed.

Lemma here_second_tag t t2 g pre k k' : here pre (QinQ t t2 g) k -> thoff k' = thoff k + 4 ->
  here (pre ++ be16 t ++ be16 ETH_P_8021Q) (Vlan t2 g) k'.
Proof.
  intros [[post E] S N T] T'. constructor.
  - exists post. rewrite E. cbn [encode hdr]. now rewrite <- !app_assoc.
  - rewrite length_app. rewrite encode_eq in S |- *. cbn [child] in *. rewrite length_app in S |- *.
    cbn [hdr be16 app length] in *. lia.
  - rewrite length_app. cbn [need hdr be16 app length] in N |- *.
    replace (length pre + 4 + 4)%nat with (length pre + 8)%nat by lia. exact N.
  - rewrite T', T, length_app. cbn [be16 app length]. lia.
Qed.

Lemma qinq_done t t2 g n k m pre : correct g -> here pre (QinQ t t2 g) k -> wf InEth g ->
  flow_dissector_5 (tails n skb) skb (W k m) = done m (expect (S n) (QinQ t t2 g) k).
Proof.
  intros IH H Hg. pose proof (here_thoff _ _ _ H) as T. pose proof (here_short _ _ _ H) as Sh.
  rewrite encode_eq, length_app in Sh. change (length (hdr (QinQ t t2 g))) with 8%nat in Sh.
  unfold flow_dissector_5. steps. cbn [expect].
  assert (A4 : forall x, thoff x = thoff k -> u16 (thoff x + 4) = 4 + thoff x).
  { intros x E. rewrite E, uw_small by (unfold is_u; lia). lia. }
  destruct (n_proto k =? htons ETH_P_8021AD); cbn [negb].
  - header H VLAN_SZ; [unfold VLAN_SZ; cbn; lia|].
    rewrite (word16_at _ 2 ETH_P_8021Q) by (reflexivity || easy). rewrite Z.eqb_refl; cbn [negb]. steps.
    match goal with |- vlan_tag _ _ (W ?x m) = _ => set (k1 := x) end.
    assert (T1 : thoff k1 = thoff k + 4).
    { change (thoff k1) with (u16 (thoff k + 4)). rewrite A4 by reflexivity. apply Z.add_comm. }
    rewrite (vlan_done t2 g n k1 m (pre ++ be16 t ++ be16 ETH_P_8021Q) IH); [| |exact Hg].
    + f_equal. f_equal. unfold k1, past, advance, advance_nh. keys_eq.
      * change (u16 (u16 (nhoff k + 4) + 4) = u16 (nhoff k + 8)). unfold uw.
        rewrite Z.add_mod_idemp_l by lia. f_equal; lia.
      * change (4 + u16 (thoff k + 4) = 8 + thoff k). rewrite A4 by reflexivity. lia.
    + apply (here_second_tag t t2 g pre k); assumption.
  - unfold vlan_tag. header H VLAN_SZ; [unfold VLAN_SZ; cbn; lia|].
    rewrite (word16_at _ 2 ETH_P_8021Q) by (reflexivity || easy). steps.
    change (to_be ETH_P_8021Q =? htons ETH_P_8021AD) with false.
    change (to_be ETH_P_8021Q =? htons ETH_P_8021Q) with true. cbn [orb].
    rewrite export_done. f_equal; f_equal. unfold advance, advance_nh. keys_eq.
    change (u16 (thoff k + 4) = 4 + thoff k). now apply A4.
Qed.

(** The optional words of a GRE header. *)
Definition gre_skip (fl : Z) (k : bpf_flow_keys) : bpf_flow_keys :=
  let f (b : bool) k := if b then advance 4 k else k in
  f (Z.testbit fl 12) (f (Z.testbit fl 13) (f (Z.testbit fl 15) (advance 4 k))).

Definition adv (n : Z) (k : bpf_flow_keys) : bpf_flow_keys := k <| thoff ::= Z.add n |>.

Lemma advance_adv a b k : 0 <= a + b + thoff k <= 65535 -> advance a (adv b k) = adv (a + b) k.
Proof.
  intros B. unfold advance, adv. keys_eq. change (u16 (b + thoff k + a) = a + b + thoff k).
  rewrite uw_small by (unfold is_u; lia). lia.
Qed.

Lemma advance_eq a k : 0 <= a + thoff k <= 65535 -> advance a k = adv a k.
Proof.
  intros B. unfold advance, adv. keys_eq. change (u16 (thoff k + a) = a + thoff k).
  rewrite uw_small by (unfold is_u; lia). lia.
Qed.

Lemma gre_skip_adv fl k n : 0 <= thoff k ->
  n = (4 * (Nat.b2n (Z.testbit fl 15) + Nat.b2n (Z.testbit fl 13) + Nat.b2n (Z.testbit fl 12)))%nat ->
  thoff k + 4 + Z.of_nat n <= 65535 ->
  gre_skip fl k = adv (4 + Z.of_nat n) k.
Proof.
  intros H0 -> Hs. unfold gre_skip.
  destruct (Z.testbit fl 15), (Z.testbit fl 13), (Z.testbit fl 12); cbn [Nat.b2n] in *;
    rewrite (advance_eq 4 k) by lia; repeat rewrite advance_adv by lia; reflexivity.
Qed.

Lemma gre_done fl o mac g n k m pre : correct g -> here pre (Gre fl o mac g) k -> tag_ok (Gre fl o mac g) k ->
  wf In4 (Gre fl o mac g) ->
  parse_gre (tails n skb) skb (W k m) = done m (expect n (Gre fl o mac g) k).
Proof.
  intros IH H Ht (_ & Hf & Ho & Hm & Hg). pose proof (here_thoff _ _ _ H) as T.
  pose proof (here_short _ _ _ H) as Sh. rewrite encode_eq, length_app in Sh.
  destruct (gre_flags fl Hf) as (G1 & G2 & G3 & G4). destruct (eth_type_ok g Hg) as [U NT].
  assert (L : length (hdr (Gre fl o mac g)) = (4 + length o + match mac with Some _ => 14 | None => 0 end)%nat).
  { cbn [hdr]. rewrite !length_app. destruct mac; [rewrite length_app, Hm|]; cbn [be16 length]; lia. }
  rewrite L in Sh.
  unfold parse_gre. header H GRE_SZ; [rewrite L; unfold GRE_SZ; lia|].
  rewrite (word16_at _ 0 fl) by (assumption || reflexivity). rewrite G1. cbn [expect].
  destruct (fl mod 8 =? 0); cbn [negb]; [|apply export_done].
  rewrite G2, G3, G4, !negb_involutive. steps.
  match goal with |- stop_at_encap _ (W ?x m) = _ => change x with (gre_skip fl k) end.
  rewrite (gre_skip_adv fl k (length o)) by (assumption || lia).
  set (k1 := adv (4 + Z.of_nat (length o)) k).
  assert (T1 : thoff k1 = Z.of_nat (length (pre ++ be16 fl ++ be16 ETH_P_TEB ++ o))).
  { change (thoff k1) with (4 + Z.of_nat (length o) + thoff k). rewrite T, !length_app. cbn [be16 length]. lia. }
  rewrite (encap_done _ _ _ (expect n g (past (Gre fl o mac g) k <| is_encap := 1 |>))).
  - change (asks (k1 <| is_encap := 1 |>)) with (asks (k <| is_encap := 1 |>)). f_equal. cbv zeta. case_if; [|reflexivity].
    f_equal. unfold k1, adv. keys_eq. rewrite L.
    change (4 + Z.of_nat (length o) + thoff k =
            Z.of_nat (4 + length o + match mac with Some _ => 14 | None => 0 end) -
            match mac with Some _ => 14 | None => 0 end + thoff k). destruct mac; lia.
  - assert (C : forall k2, thoff k2 = thoff k + Z.of_nat (length (hdr (Gre fl o mac g))) -> n_proto k2 = n_proto k ->
      parse_eth_proto (tails n skb) (htons (eth_type g)) (W k2 m) = done m (expect n g k2)).
    { intros k2 T2 P2. apply (IH n k2 m (pre ++ hdr (Gre fl o mac g))); [| |exact Hg].
      - apply (here_child _ _ _ k); [reflexivity | exact H | exact T2].
      - apply (tag_inner _ k); [exact Ht | exact P2]. }
    clear A. destruct mac as [macs|].
    + rewrite (word16_at _ 2 ETH_P_TEB) by (reflexivity || easy). rewrite Z.eqb_refl.
      destruct (here_bytes _ _ _ H) as [post E]. cbn [encode hdr] in E.
      destruct (get_header_placed ETH_SZ (k1 <| is_encap := 1 |>) (pre ++ be16 fl ++ be16 ETH_P_TEB ++ o)
        (macs ++ be16 (eth_type g)) (encode g ++ post)) as (a2 & G & _).
      * split; [rewrite E; now rewrite <- !app_assoc|].
        rewrite !length_app. cbn [be16 length] in *. lia.
      * exact T1.
      * rewrite length_app, Hm. unfold ETH_SZ; cbn [be16 length]; lia.
      * rewrite (bind_step _ _ _ _ _ (G _)); cbv beta iota. steps.
        rewrite (word16_at _ 12 (eth_type g)) by (exact U || (explode macs; reflexivity)).
        replace (advance (Z.of_nat ETH_SZ) (k1 <| is_encap := 1 |>)) with (past (Gre fl o (Some macs) g) k <| is_encap := 1 |>).
        { apply C; [apply Z.add_comm | reflexivity]. }
        rewrite advance_eq by (change (thoff (k1 <| is_encap := 1 |>)) with (thoff k1); rewrite T1, !length_app;
                               unfold ETH_SZ; cbn [be16 length]; lia).
        unfold k1, past, adv. rewrite L. keys_eq.
        change (Z.of_nat (4 + length o + 14) + thoff k = 14 + (4 + Z.of_nat (length o) + thoff k)). lia.
    + rewrite (word16_at _ 2 (eth_type g)) by (exact U || reflexivity).
      unfold htons at 1. rewrite to_be_eqb by (exact U || easy).
      destruct (Z.eqb_spec (eth_type g) ETH_P_TEB) as [?|_]; [contradiction|].
      replace (k1 <| is_encap := 1 |>) with (past (Gre fl o None g) k <| is_encap := 1 |>).
      { apply C; [apply Z.add_comm | reflexivity]. }
      unfold k1, past, adv. rewrite L. keys_eq.
      change (Z.of_nat (4 + length o + 0) + thoff k = 4 + Z.of_nat (length o) + thoff k). lia.
Qed.

(** From the Ethernet type to the IP protocols. *)
Lemma payload_encap n f k m pre :
  match f with V4 _ _ | V6 _ _ => True | _ => False end -> here pre f k -> tag_ok f k ->
  (forall k', here pre f k' -> tag_ok f k' ->
     parse_eth_proto (tails n skb) (htons (eth_type f)) (W k' m) = done m (expect n f k')) ->
  parse_ip_proto (tails n skb) skb (ip_type f) (W k m) = done m (payload expect n f k).
Proof.
  intros F H Ht C.
  assert (E : parse_ip_proto (tails n skb) skb (ip_type f) =
              stop_at_encap (parse_eth_proto (tails n skb) (htons (eth_type f)))) by (destruct f; try easy).
  rewrite E. erewrite encap_done; [now destruct f|].
  apply C; [now apply (here_ext _ _ k) | now destruct f].
Qed.

Lemma in6_in4 t f w : wf In6 f -> match f with Opt _ _ _ | Frag _ _ _ _ => False | _ => True end ->
  parse_ipv6_proto t skb (ip_type f) w = parse_ip_proto t skb (ip_type f) w.
Proof.
  intros Hw F. unfold parse_ipv6_proto.
  destruct f as [| | | | | | | | |[]| |]; try easy; cbn [ip_type wf] in *.
  destruct Hw as [_ N].
  assert (D : forall c, In c (known_ip ++ known_ip6) -> (proto =? c) = false).
  { intros c Hc; apply Z.eqb_neq; intros ->; now apply N. }
  rewrite !D by (cbn; tauto). reflexivity.
Qed.

Lemma wf_in6_in4 f : wf In6 f -> match f with Opt _ _ _ | Frag _ _ _ _ => False | _ => True end -> wf In4 f.
Proof.
  destruct f; cbn [wf]; try tauto; try (intros [? _] _; discriminate); try (intros H _; repeat split; try apply H; easy).
  intros [? N] _; split; [assumption|]. intros Hi; apply N, in_app_iff; now left.
Qed.

Lemma ip_correct f :
  match f with Gre _ _ _ _ | Icmp _ | Udp _ _ _ _ _ | Tcp _ _ _ => True | _ => False end ->
  (forall n k m pre, here pre f k -> tag_ok f k -> wf In4 f ->
     parse_ip_proto (tails n skb) skb (ip_type f) (W k m) = done m (expect n f k)) ->
  correct f.
Proof.
  intros F C n k m pre H Ht. assert (P : payload expect n f k = expect n f k) by now destruct f.
  assert (N : wf InEth f -> False) by (destruct f; try easy; cbn [wf]; intros [? _]; congruence).
  split; [intros Hw; now destruct (N Hw)|]. rewrite P. split; [now apply (C n k m pre)|].
  intros Hw. rewrite in6_in4; [| assumption | now destruct f].
  apply (C n k m pre H Ht), wf_in6_in4; [assumption | now destruct f].
Qed.

Lemma net_correct f :
  match f with V4 _ _ | V6 _ _ | Mpls _ _ | Vlan _ _ | QinQ _ _ _ => True | _ => False end ->
  (forall n k m pre, here pre f k -> tag_ok f k -> wf InEth f ->
     body (tails n skb) skb (prog_of f) (W k m) = done m (expect (S n) f k)) ->
  correct f.
Proof.
  intros F C n k m pre H Ht.
  assert (E : forall k', here pre f k' -> tag_ok f k' -> wf InEth f ->
    parse_eth_proto (tails n skb) (htons (eth_type f)) (W k' m) = done m (expect n f k')).
  { intros k' H' Ht' Hw. rewrite eth_dispatch by exact F. destruct n as [|n]; [|now apply (C n k' m pre)].
    destruct f; try easy; apply export_done. }
  assert (P : wf In4 f -> parse_ip_proto (tails n skb) skb (ip_type f) (W k m) = done m (payload expect n f k)).
  { intros Hw. destruct f; try easy; try (destruct Hw; discriminate); try discriminate Hw;
      (apply (payload_encap n _ k m pre); [exact I | exact H | exact Ht | intros; now apply E]). }
  split; [now apply E | split; [exact P|]]. intros Hw.
  assert (G : match f with Opt _ _ _ | Frag _ _ _ _ => False | _ => True end) by now destruct f.
  rewrite in6_in4 by assumption. apply P. now apply wf_in6_in4.
Qed.

Lemma ext_correct f :
  match f with Opt _ _ _ | Frag _ _ _ _ => True | _ => False end ->
  (forall n k m pre, here pre f k -> tag_ok f k -> wf In6 f ->
     body (tails n skb) skb (match f with Opt _ _ _ => P_IPV6OP | _ => P_IPV6FR end) (W k m) = done m (expect (S n) f k)) ->
  correct f.
Proof.
  intros F C n k m pre H Ht.
  split; [|split]; try (intros Hw; destruct f; try easy; destruct Hw; discriminate).
  intros Hw. specialize (fun n => C n k m pre H Ht Hw).
  destruct f as [| | | |d| | | | | | |]; try easy; [destruct d|]; unfold parse_ipv6_proto; cbn -[tails body flow_dissector_2 flow_dissector_3 payload];
    erewrite tail_run by reflexivity; (destruct n as [|n]; [apply export_done | apply C]).
Qed.

Lemma raw_correct t b : correct (Raw t b).
Proof.
  intros n k m pre H _. cbn [wf eth_type ip_type payload expect].
  assert (D : forall c l, ~ In t l -> In c l -> (t =? c) = false).
  { intros c l N Hc; apply Z.eqb_neq; intros ->; contradiction. }
  split; [|split]; intros [U N].
  - unfold parse_eth_proto, htons. rewrite !to_be_eqb by (assumption || easy).
    rewrite !(D _ _ N) by (cbn [In known_eth]; tauto). apply export_done.
  - unfold parse_ip_proto. rewrite !(D _ _ N) by (cbn [In known_ip]; tauto). apply export_done.
  - unfold parse_ipv6_proto, parse_ip_proto.
    rewrite !(D _ _ N) by (cbn [In known_ip known_ip6 app]; tauto). apply export_done.
Qed.

Lemma all_correct f : correct f.
Proof.
  induction f as [t g IH|t t2 g IH|h g IH|h g IH|d b g IH|r o i g IH|fl o mac g IH|u l|b|l s d ul uc|s d h|t b].
  - apply net_correct; [exact I|]. intros n k m pre H Ht [_ Hw]. cbn [prog_of body]. unfold flow_dissector_5.
    steps. cbn [tag_ok] in Ht. rewrite (proj2 (Z.eqb_neq _ _) Ht). now apply (vlan_done t g n k m pre).
  - apply net_correct; [exact I|]. intros n k m pre H _ [_ Hw]. now apply (qinq_done t t2 g n k m pre).
  - apply net_correct; [exact I|]. intros; now apply (v4_done h g _ _ _ pre).
  - apply net_correct; [exact I|]. intros; now apply (v6_done h g _ _ _ pre).
  - apply ext_correct; [exact I|]. intros; now apply (opt_done d b g _ _ _ pre).
  - apply ext_correct; [exact I|]. intros; now apply (frag_done r o i g _ _ _ pre).
  - apply ip_correct; [exact I|]. intros; now apply (gre_done fl o mac g _ _ _ pre).
  - apply net_correct; [exact I|]. intros n k m pre H _ _. now apply (mpls_done u l n k m pre).
  - apply ip_correct; [exact I|]. intros n k m pre H _ [_ Hl]. cbn [ip_type]. unfold parse_ip_proto.
    cbn -[get_header export_flow_keys]. header H 8%nat; [cbn [hdr]; lia | apply export_done].
  - apply ip_correct; [exact I|]. intros n k m pre H _ (_ & Hs & Hd). destruct l; [now apply (udp_done true s d ul uc pre) | now apply (udp_done false s d ul uc pre)].
  - apply ip_correct; [exact I|]. intros n k m pre H _ Hw. now apply (tcp_done s d h pre).
  - apply raw_correct.
Qed.

Lemma top_tag f k : n_proto k = htons (eth_type f) -> wf InEth f -> tag_ok f k.
Proof.
  intros E Hw. destruct f; cbn [tag_ok]; try exact I; rewrite E; try (cbn; discriminate); cbn [wf] in Hw; now destruct Hw.
Qed.

(** The entry program in front of an IPv4 header. *)
Lemma dissect_v4 h g pre post k m : placed skb pre (hdr (V4 h g)) post -> thoff k = Z.of_nat (length pre) ->
  n_proto k = htons ETH_P_IP -> wf InEth (V4 h g) ->
  _dissect skb (W k m) =
  if left_to_kernel (V4 h g) then (BPF_FLOW_DISSECTOR_CONTINUE, W k m)
  else parse_eth_proto (tails max_tail_calls skb) (htons ETH_P_IP) (W k m).
Proof.
  intros P T E (Hv & Hf & Hs & Hd & (q & Hq & Ho) & Hg). unfold _dissect, dissect_body. steps. rewrite E.
  rewrite Z.eqb_refl. unfold bind at 1.
  destruct (get_header_placed IP_SZ k pre _ post P T ltac:(unfold IP_SZ; cbn [hdr be16 be32 app length]; lia)) as (a & G & _).
  rewrite (bind_step _ _ _ _ _ (G m)); cbv beta iota; clear G. unfold ret.
  change (byte _ 0) with (16 * ver h + (5 + Z.of_nat (length (opts h)) / 4)). cbn [left_to_kernel].
  rewrite Ho. replace (Z.of_nat (4 * q) / 4) with (Z.of_nat q) by (rewrite Nat2Z.inj_mul, Z.mul_comm, Z.div_mul; lia).
  rewrite (proj1 (nibbles (ver h) (5 + Z.of_nat q) Hv ltac:(lia))).
  rewrite (word32_at _ 12 (src h)) by (assumption || reflexivity). unfold htonl. rewrite to_be32_eqb by (assumption || easy).
  replace (5 + Z.of_nat q =? 5) with (Z.of_nat q =? 0) by (apply eq_true_iff_eq; rewrite !Z.eqb_eq; lia).
  now destruct (_ && _).
Qed.

Lemma dissect_spec f pre k m : here pre f k -> wf InEth f -> n_proto k = htons (eth_type f) ->
  _dissect skb (W k m) =
  if left_to_kernel f then (BPF_FLOW_DISSECTOR_CONTINUE, W k m) else done m (expect max_tail_calls f k).
Proof.
  intros H Hw P. assert (U0 : is_u16 ETH_P_IP) by easy.
  assert (C : parse_eth_proto (tails max_tail_calls skb) (htons (eth_type f)) (W k m) = done m (expect max_tail_calls f k)).
  { now apply (all_correct f max_tail_calls k m pre H (top_tag f k P Hw)). }
  assert (V : forall h g, f = V4 h g -> _dissect skb (W k m) =
    if left_to_kernel f then (BPF_FLOW_DISSECTOR_CONTINUE, W k m) else done m (expect max_tail_calls f k)).
  { intros h g ->. destruct (here_placed _ _ _ H) as [post Q].
    rewrite (dissect_v4 h g pre post k m Q (here_thoff _ _ _ H) P Hw). now rewrite <- C. }
  rewrite <- P in C. destruct (eth_type_ok f Hw) as [U _].
  destruct (Z.eqb_spec (eth_type f) ETH_P_IP) as [Z0|N].
  { destruct f as [| |h g| | | | |u| | | |t b]; try discriminate; [now apply (V h g) | destruct u; discriminate|].
    cbn [eth_type] in Z0. subst t. destruct Hw as [_ N]. exfalso; apply N. cbn [In known_eth]. tauto. }
  unfold _dissect, dissect_body. steps. rewrite P at 1. unfold htons at 1 2. rewrite to_be_eqb by assumption.
  rewrite (proj2 (Z.eqb_neq _ _) N). unfold bind at 1, ret. rewrite C.
  destruct f; try reflexivity. now destruct N.
Qed.

(** An IPv4 packet whose TCP header is not in the linear part. *)
Lemma dissect_paged h s d t pre post k m : max_tail_calls <> 0%nat ->
  packet skb = pre ++ encode (V4 h (Tcp s d t)) ++ post -> wf InEth (V4 h (Tcp s d t)) -> frag h mod 16384 = 0 ->
  Z.of_nat (length pre + length (encode (V4 h (Tcp s d t)))) <= 65535 ->
  (length pre + length (hdr (V4 h (Tcp s d t))) <= length (linear skb) <
   length pre + length (hdr (V4 h (Tcp s d t))) + TCP_SZ)%nat ->
  left_to_kernel (V4 h (Tcp s d t)) = false ->
  thoff k = Z.of_nat (length pre) -> n_proto k = htons ETH_P_IP ->
  let k' := behind_v4 h (Tcp s d t) k in
  _dissect skb (W k m) = done m (if tcp_fits t then (ports s d k', BPF_OK) else (k', BPF_DROP)).
Proof.
  intros M E Hw F S [N1 N2] L T P k'. rewrite encode_eq in E, S. cbn [child] in E, S. rewrite length_app in S.
  assert (Q : placed skb pre (hdr (V4 h (Tcp s d t))) (encode (Tcp s d t) ++ post)).
  { split; [now rewrite E, <- app_assoc | rewrite length_app; lia]. }
  rewrite (dissect_v4 h _ pre _ k m Q T P Hw), L. change ETH_P_IP with (eth_type (V4 h (Tcp s d t))).
  rewrite eth_dispatch by exact I. destruct max_tail_calls as [|n]; [now destruct M|].
  destruct Hw as (Hv & Hf & Hs & Hd & Ho & Hg). cbn [body prog_of].
  rewrite (ip_step h (Tcp s d t) n k m pre _ (fun k => if tcp_fits t then (ports s d k, BPF_OK) else (k, BPF_DROP)) Q T N1 Hv Hf Hs Hd Ho).
  { now rewrite F. }
  intros Z0 k2 T2 _. rewrite Z0 in Hg. cbn [ip_type].
  apply (tcp_paged s d t (pre ++ hdr (V4 h (Tcp s d t))) post k2 m); [| |rewrite length_app; exact N2|exact Hg].
  - rewrite (encode_eq (Tcp s d t)) in E, S. cbn [child] in E, S. rewrite app_nil_r in E, S.
    split; [now rewrite E, <- !app_assoc | rewrite !length_app; lia].
  - rewrite T2, T, length_app. lia.
Qed.

End Proofs.

Section Theorems.
Context {KO : KernelOk K}.
Hypothesis jmp_slots : forall i, jmp_table i = slots i.

(** C11. The dissector comes to the keys and the verdict of the reference, for
    every packet that carries a well-formed frame where the keys say: VLAN
    tags, IPv4 and IPv6 with options, extension headers and fragments, GRE and
    IP tunnels to any depth, MPLS, and TCP, UDP and ICMP behind them; the same
    keys are stored in the map under the two ports. *)
Theorem flow_dissects skb f pre post w :
  0 <= data skb -> data skb + Z.of_nat (length (linear skb)) < 2 ^ 64 - 2 ^ 17 ->
  packet skb = pre ++ encode f ++ post -> wf InEth f ->
  Z.of_nat (length pre + length (encode f)) <= 65535 -> (need (length pre) f <= length (linear skb))%nat ->
  thoff (keys w) = Z.of_nat (length pre) -> n_proto (keys w) = htons (eth_type f) ->
  _dissect skb w =
  if left_to_kernel f then (BPF_FLOW_DISSECTOR_CONTINUE, w)
  else let (k, r) := expect max_tail_calls f (keys w) in (r, exported w k).
Proof.
  intros D1 D2 E Hw S N T P. destruct w as [k m]; cbn [keys] in *.
  rewrite (dissect_spec skb (conj D1 D2) jmp_slots f pre k m); [| |exact Hw|exact P].
  - destruct (left_to_kernel f); [reflexivity|]. destruct (expect _ f k) as [k' r].
    unfold done, exported, store, bpf_map_update_elem, modify; cbn. now destruct (map_room m _).
  - constructor; [now exists post | exact S | exact N | exact T].
Qed.

(** C37. A well-formed IPv4 packet with TCP, any addresses, options and ports,
    whose TCP header does not lie in the linear part: the verdict depends on
    where the program's stack is.  Its header is copied to the stack, and the
    copy plus the data offset is compared with the end of the packet data: with
    a stack below that the packet is accepted with its ports, with one above it
    is dropped without them.  The same packet with all of its bytes in the
    linear part is accepted wherever the stack is. *)
Theorem tcp_paged_depends_on_stack skb h s d t pre post w :
  let f := V4 h (Tcp s d t) in let ip := (length pre + length (hdr f))%nat in
  0 <= data skb -> data skb + Z.of_nat (length (packet skb)) < 2 ^ 64 - 2 ^ 17 ->
  0 <= buffer_addr < 2 ^ 64 - 64 -> max_tail_calls <> 0%nat ->
  packet skb = pre ++ encode f ++ post -> wf InEth f -> Z.of_nat (length pre + length (encode f)) <= 65535 ->
  frag h mod 16384 = 0 -> left_to_kernel f = false ->
  thoff (keys w) = Z.of_nat (length pre) -> n_proto (keys w) = htons ETH_P_IP ->
  (ip <= length (linear skb) < ip + TCP_SZ)%nat ->
  let k := behind_v4 h (Tcp s d t) (keys w) in
  _dissect skb w =
    (if buffer_addr + 20 + Z.of_nat (length (topts t)) <=? data_end skb
     then (BPF_OK, exported w (ports s d k)) else (BPF_DROP, exported w k)) /\
  _dissect {| data := data skb; linear := packet skb; paged := [] |} w = (BPF_OK, exported w (ports s d k)).
Proof.
  intros f ip D1 D2 B M E Hw S F L T P N k. destruct w as [k0 m]; cbn [keys] in *.
  assert (X : forall k r, done m (k, r) = (r, exported (W k0 m) k)).
  { intros k1 r. unfold done, exported, store, bpf_map_update_elem, modify; cbn. now destruct (map_room m _). }
  assert (Ho : Z.of_nat (length (topts t)) <= 40).
  { destruct Hw as (_ & _ & _ & _ & _ & Hg). rewrite (proj2 (Z.eqb_eq _ 0)) in Hg by (Z.div_mod_to_equations; lia).
    destruct Hg as (_ & _ & _ & _ & n & Hn & Ho). lia. }
  split.
  - rewrite (fun A => dissect_paged skb A jmp_slots h s d t pre post k0 m M E Hw F S N L T P).
    2: { split; [exact D1|]. unfold packet in D2. rewrite length_app in D2. lia. }
    unfold tcp_fits. rewrite uw_small by (unfold is_u; lia). rewrite Z.add_assoc.
    destruct (_ <=? _); apply X.
  - rewrite (fun A => dissect_spec {| data := data skb; linear := packet skb; paged := [] |} A jmp_slots f pre k0 m).
    + rewrite L. destruct max_tail_calls as [|n]; [now destruct M|]. cbn [expect f]. rewrite F. apply X.
    + now split.
    + constructor; [exists post; unfold packet at 1; cbn [linear paged]; now rewrite app_nil_r | exact S | | exact T].
      cbn [linear]. unfold f in *. rewrite E, !length_app, encode_eq. cbn [need child]. rewrite (encode_eq (Tcp s d t)).
      cbn [child]. rewrite !length_app. lia.
    + exact Hw.
    + exact P.
Qed.

End Theorems.

(** ** Arbitrary packets

    Whatever the packet, the keys and the program array hold. *)

Section AnyPacket.
Context {KO : KernelOk K}.
Variable skb : sk_buff.
Hypothesis skb_ok : 0 <= data skb /\ data skb + Z.of_nat (length (linear skb)) < 2 ^ 64 - 2 ^ 17.

(** The ports are those of a header at [thoff] inside the packet. *)
Definition ports_of_packet (k : bpf_flow_keys) : Prop :=
  thoff k + Z.of_nat UDP_SZ <= Z.of_nat (length (packet skb)) /\
  sport k = word16 (packet skb) (Z.to_nat (thoff k)) /\
  dport k = word16 (packet skb) (Z.to_nat (thoff k) + 2).

(** How a dissection that started with the keys [k] ends. *)
Definition ends (k : bpf_flow_keys) (m : Z -> option bpf_flow_keys) (o : Z * world) : Prop :=
  let k' := keys (snd o) in
  (fst o = BPF_OK \/ fst o = BPF_DROP) /\ last_dissection (snd o) = store m k' /\
  is_u16 (thoff k') /\ flags k' = flags k /\
  (sport k' = sport k /\ dport k' = dport k \/ fst o = BPF_OK /\ ports_of_packet k').

Definition good (c : ST world Z) : Prop := forall k m, is_u16 (thoff k) -> ends k m (c (W k m)).

(** Updates that keep the ports. *)
Definition tame (f : bpf_flow_keys -> bpf_flow_keys) : Prop := forall k, is_u16 (thoff k) ->
  is_u16 (thoff (f k)) /\ flags (f k) = flags k /\ sport (f k) = sport k /\ dport (f k) = dport k.

Lemma good_export r : r = BPF_OK \/ r = BPF_DROP -> good (export_flow_keys r).
Proof. intros R k m U. rewrite export_done. cbn. repeat split; auto; apply U. Qed.

Lemma good_mod f c : tame f -> good c -> good (bind (mod_keys f) (fun _ => c)).
Proof.
  intros F C k m U. rewrite bind_mod. destruct (F k U) as (U1 & F1 & S1 & D1).
  destruct (C (f k) m U1) as (R & L & U2 & F2 & P). unfold ends. rewrite <- F1, <- S1, <- D1. auto.
Qed.

Lemma good_when b f c : tame f -> good c -> good (bind (when b (mod_keys f)) (fun _ => c)).
Proof. intros F C; destruct b; [now apply good_mod | exact C]. Qed.

Lemma good_flow q : (forall k, good (q k)) -> good (bind flow_keys q).
Proof. intros C k m U; rewrite bind_flow; now apply C. Qed.

Lemma good_if (b : bool) c d : good c -> good d -> good (if b then c else d).
Proof. now destruct b. Qed.

(** A header that is found lies in the packet. *)
Lemma get_header_any n k : is_u16 (thoff k) ->
  exists o, (forall m, get_header skb n (W k m) = (o, W k m)) /\
    match o with
    | None => True
    | Some (_, h) => h = sub (packet skb) (Z.to_nat (thoff k)) n /\
                     thoff k + Z.of_nat n <= Z.of_nat (length (packet skb))
    end.
Proof.
  intros U. unfold get_header. setoid_rewrite bind_flow.
  destruct (Z.ltb_spec (65535 - Z.of_nat n) (thoff k)); [now exists None|].
  rewrite (uw_small 64 (data skb + _)), uw_small by (unfold is_u in *; lia).
  unfold data_end. destruct (Z.leb_spec (data skb + thoff k + Z.of_nat n) (data skb + Z.of_nat (length (linear skb)))).
  - eexists; split; [reflexivity|]. unfold packet, is_u in *. rewrite length_app. split; [|lia].
    unfold sub. rewrite skipn_app, firstn_app, length_skipn.
    replace (n - (length (linear skb) - Z.to_nat (thoff k)))%nat with O by lia. now rewrite app_nil_r.
  - eexists; split; [reflexivity|]. pose proof (load_bytes skb (Z.to_nat (thoff k)) n) as E.
    rewrite Z2Nat.id in E by apply U. rewrite E.
    destruct (Nat.leb_spec (Z.to_nat (thoff k) + n) (length (packet skb))); cbn [option_map]; [|exact I].
    unfold is_u in U. split; [reflexivity | lia].
Qed.

Lemma good_header n q : (forall o, good (q o)) -> good (bind (get_header skb n) q).
Proof.
  intros C k m U. destruct (get_header_any n k U) as (o & G & _).
  rewrite (bind_step _ _ _ _ _ (G m)). now apply C.
Qed.

Lemma sub_word p off n k : (k + 2 <= n)%nat -> word16 (sub p off n) k = word16 p (off + k).
Proof.
  intros Hk. unfold word16, byte, sub. rewrite !nth_firstn.
  destruct (Nat.ltb_spec k n), (Nat.ltb_spec (k + 1) n); try lia.
  now rewrite !nth_skipn, <- Nat.add_assoc.
Qed.

(** The two headers with ports. *)
Lemma good_ports n h k m : (UDP_SZ <= n)%nat -> is_u16 (thoff k) ->
  h = sub (packet skb) (Z.to_nat (thoff k)) n -> thoff k + Z.of_nat n <= Z.of_nat (length (packet skb)) ->
  ends k m (bind (set_ports h) (fun _ => export_flow_keys BPF_OK) (W k m)).
Proof.
  unfold UDP_SZ. intros Hn U -> Hl. unfold set_ports. rewrite bind_mod, export_done. cbn -[ports_of_packet is_u].
  split; [now left|]. split; [reflexivity|]. split; [exact U|]. split; [reflexivity|]. right; split; [reflexivity|].
  unfold ports_of_packet; cbn -[word16 Z.of_nat sub packet Nat.add]. rewrite !sub_word, Nat.add_0_r by lia.
  unfold UDP_SZ; cbn -[word16 Z.of_nat sub packet Nat.add] in *. repeat split; lia || reflexivity.
Qed.

Lemma good_drop : good (export_flow_keys BPF_DROP).
Proof. apply good_export; now right. Qed.
Lemma good_ok : good (export_flow_keys BPF_OK).
Proof. apply good_export; now left. Qed.

Lemma tame_advance n : tame (advance n).
Proof. intros k U. unfold advance; cbn. repeat split; apply u16_range. Qed.

(** One step through a program: a header, a test, an update, an export or what
    is already known to be good. *)
Ltac tames := let U := fresh in intros ? U; split; [exact U | repeat split].
Ltac go_step :=
  match goal with
  | |- good (export_flow_keys _) =>
      first [exact good_ok | exact good_drop | apply good_export; case_if; tauto]
  | |- good (if _ then _ else _) => apply good_if
  | |- good (match ?o with Some _ => _ | None => _ end) => destruct o as [[? ?]|]
  | |- good (bind (get_header _ _) _) => apply good_header; intros ?
  | |- good (bind (mod_keys (advance _)) _) => apply good_mod; [apply tame_advance|]
  | |- good (bind (mod_keys _) _) => apply good_mod; [tames|]
  | |- good (bind (when _ _) _) => apply good_when; [apply tame_advance|]
  | |- good (bind flow_keys _) => apply good_flow; intros ?
  | |- good _ => solve [auto with flow nocore]
  end.
Ltac ifs := repeat match goal with |- good (if _ then _ else _) => apply good_if end.
Ltac go := cbv beta zeta; repeat (go_step; cbv beta zeta).

Section Tail.
Variable tail : Z -> option (ST world Z).
Hypothesis good_tail : forall i p, tail i = Some p -> good p.

Lemma good_call i c : good c -> good (bpf_tail_call tail i c).
Proof. intros C; unfold bpf_tail_call. destruct (tail i) eqn:E; [now apply (good_tail i) | exact C]. Qed.

Lemma good_eth p : good (parse_eth_proto tail p).
Proof. unfold parse_eth_proto; cbv zeta. ifs; try apply good_call; apply good_drop. Qed.

Lemma good_encap c : good c -> good (stop_at_encap c).
Proof. intros C; unfold stop_at_encap. go; exact C. Qed.

Lemma good_gre : good (parse_gre tail skb).
Proof.
  unfold parse_gre. go. apply good_encap. cbv zeta. go; apply good_eth.
Qed.

Lemma good_tcp : good (parse_tcp skb).
Proof.
  intros k m U. unfold parse_tcp. destruct (get_header_any TCP_SZ k U) as (o & G & O).
  rewrite (bind_step _ _ _ _ _ (G m)). destruct o as [[a h]|]; [|now apply good_drop]. cbv beta iota zeta.
  case_if; [now apply good_drop|]. case_if; [now apply good_drop|].
  destruct O as [-> O]. apply (good_ports TCP_SZ); unfold UDP_SZ, TCP_SZ in *; [lia | exact U | reflexivity | exact O].
Qed.

Lemma good_udp : good (parse_udp skb).
Proof.
  intros k m U. unfold parse_udp. destruct (get_header_any UDP_SZ k U) as (o & G & O).
  rewrite (bind_step _ _ _ _ _ (G m)). destruct o as [[a h]|]; [|now apply good_drop]. cbv beta iota zeta.
  destruct O as [-> O]. apply (good_ports UDP_SZ); [lia | exact U | reflexivity | exact O].
Qed.

Lemma good_ip p : good (parse_ip_proto tail skb p).
Proof.
  unfold parse_ip_proto. ifs; try apply good_encap; try apply good_eth.
  - go_step. apply good_export. destruct o; auto.
  - apply good_gre.
  - apply good_tcp.
  - apply good_udp.
  - apply good_drop.
Qed.

Lemma good_ipv6 p : good (parse_ipv6_proto tail skb p).
Proof.
  unfold parse_ipv6_proto. cbv zeta. ifs; try apply good_call; try apply good_drop. apply good_ip.
Qed.

Lemma good_frag4 v c : good c ->
  good (bind (frag4 v) (fun d : bool => if d then export_flow_keys BPF_OK else c)).
Proof.
  intros C k m U. unfold bind at 1, frag4. case_if; [now apply C|]. rewrite bind_mod.
  assert (T1 : tame (fun k => k <| is_frag := 1 |>)) by tames.
  assert (T2 : tame (fun k => k <| is_frag := 1 |> <| is_first_frag := 1 |>)) by tames.
  case_if; [exact (good_mod _ _ T1 good_ok k m U)|]. rewrite bind_mod, bind_flow. unfold ret.
  case_if; [exact (good_mod _ _ T2 good_ok k m U) | exact (good_mod _ _ T2 C k m U)].
Qed.

Lemma good_tag : good (vlan_tag tail skb).
Proof. unfold vlan_tag. go. apply good_eth. Qed.

Lemma good_body p : good (body tail skb p).
Proof.
  destruct p; cbn [body].
  - unfold flow_dissector_0. go. apply good_frag4, good_ip.
  - unfold flow_dissector_1. go; apply good_ipv6.
  - unfold flow_dissector_2. go; apply good_ipv6.
  - unfold flow_dissector_3. go; apply good_ipv6.
  - unfold flow_dissector_4. go_step. apply good_export; destruct o; auto.
  - unfold flow_dissector_5. go; apply good_tag.
Qed.

End Tail.

Lemma good_program n : forall p, good (program n skb p).
Proof.
  induction n as [|n IH]; intros p; cbn [program]; apply good_body; intros i q E; [discriminate|].
  destruct (jmp_table i); cbn in E; [injection E as <-; apply IH | discriminate].
Qed.

Lemma good_tails n i p : tails n skb i = Some p -> good p.
Proof.
  destruct n as [|n]; cbn [tails]; [discriminate|].
  destruct (jmp_table i); cbn; intros E; [injection E as <-; apply good_program | discriminate].
Qed.

Lemma dissect_cases k m : is_u16 (thoff k) -> exists stop : bool,
  _dissect skb (W k m) =
  if stop then (BPF_FLOW_DISSECTOR_CONTINUE, W k m)
  else parse_eth_proto (tails max_tail_calls skb) (n_proto k) (W k m).
Proof.
  intros U. unfold _dissect, dissect_body. rewrite bind_flow. cbv zeta.
  destruct (n_proto k =? htons ETH_P_IP); [|now exists false].
  unfold bind at 1. destruct (get_header_any IP_SZ k U) as (o & G & _).
  rewrite (bind_step _ _ _ _ _ (G m)). unfold ret.
  match goal with |- exists _, (if ?b then _ else _) _ = _ => exists b; now destruct b end.
Qed.

Lemma dissect_ends w : is_u16 (thoff (keys w)) ->
  _dissect skb w = (BPF_FLOW_DISSECTOR_CONTINUE, w) \/ ends (keys w) (last_dissection w) (_dissect skb w).
Proof.
  destruct w as [k m]; cbn [keys last_dissection]; intros U.
  destruct (dissect_cases k m U) as [[] ->]; [now left | right].
  apply good_eth; [apply good_tails | exact U].
Qed.

End AnyPacket.

(** C12. Whatever the packet holds and however the program array is filled, the
    dissector returns; it leaves the packet to the kernel untouched or answers
    OK or DROP with the keys stored under their two ports; the flags are never
    written; and ports appear only with an OK, read from a header that lies
    inside the packet at the offset it reports. *)
Theorem flow_ports {KO : KernelOk K} skb w :
  0 <= data skb -> data skb + Z.of_nat (length (linear skb)) < 2 ^ 64 - 2 ^ 17 -> is_u16 (thoff (keys w)) ->
  let (r, w') := _dissect skb w in
  let k := keys w in let k' := keys w' in
  r = BPF_FLOW_DISSECTOR_CONTINUE /\ w' = w \/
  (r = BPF_OK \/ r = BPF_DROP) /\ w' = exported w k' /\ flags k' = flags k /\ is_u16 (thoff k') /\
  (sport k' = sport k /\ dport k' = dport k \/
   r = BPF_OK /\ thoff k' + 8 <= Z.of_nat (length (packet skb)) /\
   sport k' = word16 (packet skb) (Z.to_nat (thoff k')) /\
   dport k' = word16 (packet skb) (Z.to_nat (thoff k') + 2)).
Proof.
  intros D1 D2 U. destruct (dissect_ends skb (conj D1 D2) w U) as [->|E]; [now left|].
  destruct (_dissect skb w) as [r w']. right. destruct E as (R & L & U' & F & P); cbn [fst snd] in *.
  split; [exact R|]. split; [|auto]. destruct w as [k m], w' as [k' m']; cbn in *. rewrite L.
  unfold exported, store, bpf_map_update_elem, modify; cbn. now destruct (map_room m _).
Qed.

End Flow.

(** ** Concrete kernels and packets *)

Definition kernel_at (stack : Z) : Kernel := {|
  jmp_table := slots;
  max_tail_calls := 33;
  map_room := fun _ _ => true;
  skb_load_bytes := fun skb off n =>
    if Nat.leb (Z.to_nat off + n) (length (packet skb)) then Some (sub (packet skb) (Z.to_nat off) n) else None;
  buffer_addr := stack
|}.

Lemma kernel_at_ok stack : @KernelOk (kernel_at stack).
Proof. constructor. intros skb off n; cbn. now rewrite Nat2Z.id. Qed.

Definition keys0 (proto fl : Z) : bpf_flow_keys := {|
  nhoff := 0; thoff := 0; addr_proto := 0; is_frag := 0; is_first_frag := 0; is_encap := 0; ip_proto := 0;
  n_proto := proto; sport := 0; dport := 0; addr := repeat 0 8; flags := fl; flow_label := 0 |}.
Definition world0 (proto fl : Z) : world := {| keys := keys0 proto fl; last_dissection := fun _ => None |}.

Definition ip4 (s d : Z) : v4hdr :=
  {| ver := 4; tos := 0; len := 60; id := 1; frag := 0x4000; ttl := 64; csum := 0; src := s; dst := d; opts := [] |}.
Definition ip6 : v6hdr := {| first := 0x60012345; plen := 64; hop := 1; addrs := [1; 2; 3; 4; 5; 6; 7; 8] |}.
Definition tcp0 : tcphdr :=
  {| seq := 1; ack := 2; res1 := 0; tflags := 16; window := 100; tcsum := 0; urg := 0; topts := [] |}.

(** A tagged IPv4 packet that tunnels Ethernet in GRE with a key; inside, IPv6
    with destination options, and UDP. *)
Definition tunnel : frame :=
  Vlan 7 (V4 (ip4 0x0A000001 0x0A000002)
    (Gre 0x2000 [0; 0; 0; 9] (Some (repeat 2 12))
      (V6 ip6 (Opt true [1; 4; 0; 0; 0; 0] (Udp false 1234 53 8 0))))).
Definition tunnel_skb : sk_buff :=
  {| data := 0x10000; linear := firstn 60 (encode tunnel); paged := skipn 60 (encode tunnel) ++ [1; 2; 3] |}.

(** Fields of a concrete frame. *)
Ltac in_range :=
  first [ reflexivity | discriminate | lia | exists 0%nat; split; [lia | reflexivity]
        | unfold is_u; split; [lia | reflexivity] ].

Lemma flow_dissects_witness :
  let K := kernel_at 0x1000 in
  let k := keys (snd (@_dissect K tunnel_skb (world0 (htons ETH_P_8021Q) 0))) in
  (thoff k, is_encap k, ip_proto k, sport k, dport k) = (94, 1, IPPROTO_UDP, htons 1234, htons 53).
Proof.
  intros K k. pose proof (kernel_at_ok 0x1000) as KO.
  unfold k. rewrite (@flow_dissects K KO (fun _ => eq_refl) tunnel_skb tunnel [] [1; 2; 3]).
  - vm_compute; reflexivity.
  - vm_compute; discriminate.
  - vm_compute; reflexivity.
  - vm_compute; reflexivity.
  - cbn; repeat match goal with |- _ /\ _ => split | |- Forall _ _ => constructor end; in_range.
  - vm_compute; discriminate.
  - apply Nat.leb_le; vm_compute; reflexivity.
  - reflexivity.
  - reflexivity.
Defined.

Lemma flow_ports_witness :
  let K := kernel_at 0x1000 in
  let w' := snd (@_dissect K tunnel_skb (world0 (htons ETH_P_8021Q) 0)) in
  sport (keys w') = word16 (packet tunnel_skb) 94.
Proof.
  intros K w'. pose proof (kernel_at_ok 0x1000) as KO.
  pose proof (@flow_ports K KO tunnel_skb (world0 (htons ETH_P_8021Q) 0)
    ltac:(vm_compute; discriminate) ltac:(vm_compute; reflexivity) ltac:(vm_compute; split; [discriminate | reflexivity])) as H.
  unfold w'. destruct (@_dissect K tunnel_skb (world0 (htons ETH_P_8021Q) 0)) as [r w1] eqn:E.
  assert (C : r = BPF_OK /\ thoff (keys w1) = 94 /\ sport (keys w1) <> 0).
  { vm_compute in E. injection E as <- <-. vm_compute. repeat split; discriminate. }
  destruct C as (R & T & S). cbn [snd].
  destruct H as [[H _]|(_ & _ & _ & _ & [[H _]|(_ & _ & H & _)])].
  - rewrite R in H; discriminate.
  - now destruct S.
  - now rewrite T in H.
Defined.

(** A packet whose TCP header only bpf_skb_load_bytes reaches. *)
Definition plain_tcp : frame := V4 (ip4 0x0A000001 0x0A000002) (Tcp 1234 80 tcp0).
Definition paged_skb : sk_buff :=
  {| data := 0x10000; linear := firstn 20 (encode plain_tcp); paged := skipn 20 (encode plain_tcp) |}.

(** A stack below the packet, and one above it. *)
Lemma tcp_paged_depends_on_stack_witness :
  let verdict stack skb := fst (@_dissect (kernel_at stack) skb (world0 (htons ETH_P_IP) 0)) in
  verdict 0x1000 paged_skb = BPF_OK /\ verdict 0x20000 paged_skb = BPF_DROP.
Proof.
  assert (A : forall stack, 0 <= stack < 2 ^ 64 - 64 ->
    let (r, w) := if stack + 20 <=? 0x10000 + 20 then (BPF_OK, tt) else (BPF_DROP, tt) in
    fst (@_dissect (kernel_at stack) paged_skb (world0 (htons ETH_P_IP) 0)) = r).
  { intros stack B. pose proof (kernel_at_ok stack) as KO.
    destruct (@tcp_paged_depends_on_stack (kernel_at stack) KO (fun _ => eq_refl) paged_skb (ip4 0x0A000001 0x0A000002)
      1234 80 tcp0 [] [] (world0 (htons ETH_P_IP) 0)) as [-> _]; try reflexivity; try discriminate; try exact B.
    - cbn. repeat match goal with |- _ /\ _ => split end; in_range.
    - split; apply Nat.leb_le; reflexivity.
    - change (data_end paged_skb) with (0x10000 + 20). cbn [buffer_addr kernel_at topts tcp0 length Z.of_nat].
      rewrite Z.add_0_r. now destruct (_ <=? _). }
  split; [apply (A 0x1000) | apply (A 0x20000)]; lia.
Defined.

End Flow.
