(* ===== verification/Bpf.v ===== *)
(** The BPF instruction set, as the [core::arch::asm!] bodies of the naked test
    programs under src/progs use it.

    Registers hold unsigned 64-bit values; [wN] instructions work on the low
    half and clear the high half; immediates are 32-bit fields the instruction
    extends.  Division by zero gives 0, the remainder by zero leaves the
    dividend, and the signed overflow [MIN / -1] wraps.  A run starts from
    arbitrary registers and an arbitrary stack; a helper call yields an
    arbitrary 64-bit value and destroys [r1]-[r5].  Memory is the 512-byte frame
    below [r10]; any other access, an unknown helper, a write to [r10] and
    running off the end are faults. *)

From S2P Require Import Prelude.
From Stdlib Require Import String Ascii.
Local Open Scope string_scope.
Local Open Scope Z_scope.

(** * Syntax *)

(** [R12] is the scratch register the kernel's own rewriting uses; programs
    never name it. *)
Inductive reg := R0 | R1 | R2 | R3 | R4 | R5 | R6 | R7 | R8 | R9 | R10 | R11 | R12.
Inductive width := W32 | W64.
Inductive operand := Reg (r : reg) | Imm (z : Z).
Inductive aluop :=
  ADD | SUB | MUL | DIV | SDIV | MOD | SMOD | AND | OR | XOR | LSH | RSH | ARSH | MOV.
Inductive cond := EQ | NE | GT | GE | LT | LE | SGT | SGE | SLT | SLE | SET.
Inductive target := Label (l : string) | Fwd (l : string) | Bwd (l : string) | Rel (n : Z).
Inductive endop := LE_ | BE_ | BSWAP.
Inductive esize := E16 | E32 | E64.
Inductive msize := B | H | W | DW.

(** Read-modify-write of memory, with or without the old value as a result,
    and ordered loads and stores. *)
Inductive atomic := Rmw (op : aluop) (fetch : bool) | Xchg | CmpXchg | LoadAcq | StoreRel.

Inductive insn :=
  | Alu (w : width) (op : aluop) (dst : reg) (src : operand)
  | Movsx (w : width) (bits : Z) (dst src : reg)
  | Neg (w : width) (dst : reg)
  | End (op : endop) (k : esize) (dst : reg)
  | LdImm64 (dst : reg) (imm : Z)
  | Ldx (n : msize) (dst base : reg) (off : Z)
  | Ldsx (n : msize) (dst base : reg) (off : Z)
  | Stx (n : msize) (base : reg) (off : Z) (src : operand)
  | Atomic (op : atomic) (n : msize) (base : reg) (off : Z) (r : reg)
  | Jmp (w : width) (c : cond) (dst : reg) (src : operand) (t : target)
  | Goto (t : target)
  | Call (id : Z)
  | Exit
  | Lab (l : string).

Definition reg_eqb (a b : reg) : bool :=
  match a, b with
  | R0, R0 | R1, R1 | R2, R2 | R3, R3 | R4, R4 | R5, R5
  | R6, R6 | R7, R7 | R8, R8 | R9, R9 | R10, R10 | R11, R11 | R12, R12 => true
  | _, _ => false
  end.

Lemma reg_eqb_spec a b : reflect (a = b) (reg_eqb a b).
Proof. destruct a, b; constructor; congruence. Qed.

Definition all_regs : list reg := [R0; R1; R2; R3; R4; R5; R6; R7; R8; R9; R10; R11; R12].

(** * Values *)

Definition bits (w : width) : Z := match w with W32 => 32 | W64 => 64 end.

(** An immediate field is 32 bits, sign-extended for 64-bit operations and
    used as it is for 32-bit ones. *)
Definition imm_val (w : width) (z : Z) : Z := uw (bits w) (i32 z).

(** The arithmetic instructions, on operands already reduced to the width. *)
Definition alu (w : width) (op : aluop) (a b : Z) : Z :=
  let n := bits w in
  match op with
  | ADD => uw n (a + b)
  | SUB => uw n (a - b)
  | MUL => uw n (a * b)
  | DIV => if b =? 0 then 0 else a / b
  | SDIV => if b =? 0 then 0 else uw n (Z.quot (sw n a) (sw n b))
  | MOD => if b =? 0 then a else a mod b
  | SMOD => if b =? 0 then a else uw n (Z.rem (sw n a) (sw n b))
  | AND => Z.land a b
  | OR => Z.lor a b
  | XOR => Z.lxor a b
  | LSH => uw n (Z.shiftl a (b mod n))
  | RSH => Z.shiftr a (b mod n)
  | ARSH => uw n (Z.shiftr (sw n a) (b mod n))
  | MOV => b
  end.

Definition alu_in (w : width) (op : aluop) (a b : Z) : Z :=
  alu w op (uw (bits w) a) (uw (bits w) b).

(** [rD = (sN)rS]: the low [k] bits of [a], sign-extended to the width. *)
Definition movsx (w : width) (k a : Z) : Z := uw (bits w) (sw k a).

Definition neg (w : width) (a : Z) : Z := uw (bits w) (- a).

(** Reverse the low [n] bytes of [v]. *)
Fixpoint bswap_bytes (n : nat) (v : Z) : Z :=
  match n with
  | O => 0
  | S n' => Z.lor (Z.shiftl (u8 v) (8 * Z.of_nat n')) (bswap_bytes n' (Z.shiftr v 8))
  end.

(** [leN], [beN] and [bswapN] on a little-endian machine: all three keep the
    low [k] bits only. *)
Definition ebytes (k : esize) : nat := match k with E16 => 2 | E32 => 4 | E64 => 8 end.
Definition ebits (k : esize) : Z := 8 * Z.of_nat (ebytes k).
Definition endian (op : endop) (k : esize) (v : Z) : Z :=
  match op with
  | LE_ => uw (ebits k) v
  | BE_ | BSWAP => uw (ebits k) (bswap_bytes (ebytes k) v)
  end.

Definition cmp (w : width) (c : cond) (a b : Z) : bool :=
  let n := bits w in
  match c with
  | EQ => a =? b
  | NE => negb (a =? b)
  | GT => b <? a
  | GE => b <=? a
  | LT => a <? b
  | LE => a <=? b
  | SGT => sw n b <? sw n a
  | SGE => sw n b <=? sw n a
  | SLT => sw n a <? sw n b
  | SLE => sw n a <=? sw n b
  | SET => negb (Z.land a b =? 0)
  end.

Definition cmp_in (w : width) (c : cond) (a b : Z) : bool :=
  cmp w c (uw (bits w) a) (uw (bits w) b).

(** * Programs and control flow *)

Definition program := list insn.

(** The 8-byte slots an instruction takes: relative jumps count slots. *)
Definition slots (i : insn) : Z :=
  match i with Lab _ => 0 | LdImm64 _ _ => 2 | _ => 1 end.

Fixpoint find_label (l : string) (p : program) (pc : nat) : option nat :=
  match p with
  | [] => None
  | Lab l' :: p' => if String.eqb l l' then Some pc else find_label l p' (S pc)
  | _ :: p' => find_label l p' (S pc)
  end.

(** The last definition of a numeric label before [stop]. *)
Fixpoint find_last (l : string) (p : program) (pc stop : nat) (acc : option nat) : option nat :=
  if Nat.leb stop pc then acc
  else match p with
  | [] => acc
  | Lab l' :: p' => find_last l p' (S pc) stop (if String.eqb l l' then Some pc else acc)
  | _ :: p' => find_last l p' (S pc) stop acc
  end.

Fixpoint skip_slots (n : Z) (p : program) (pc : nat) : option nat :=
  if n =? 0 then Some pc
  else match p with
  | [] => None
  | i :: p' => if slots i <=? n then skip_slots (n - slots i) p' (S pc) else None
  end.

(** Where a jump at index [pc] goes.  A forward relative jump counts the slots
    after the jump; the naked programs have no backward one. *)
Definition resolve (p : program) (pc : nat) (t : target) : option nat :=
  match t with
  | Label l => find_label l p 0
  | Fwd l => find_label l (skipn (S pc) p) (S pc)
  | Bwd l => find_last l p 0 pc None
  | Rel n => if 0 <=? n then skip_slots n (skipn (S pc) p) (S pc) else None
  end.

(** * Machine states and steps *)

Record state := {
  pc : nat;
  regs : reg -> Z;
  mem : Z -> Z;          (* the byte at an address *)
  calls : nat            (* helper calls so far *)
}.

(** What the machine does not decide: the frame pointer, what the helpers
    return and what a call leaves in the caller-saved registers. *)
Record env := {
  fp : Z;
  helper : Z -> nat -> Z;
  scratch : nat -> reg -> Z
}.

Inductive outcome := Next (s : state) | Return (r0 : Z) | Fault.

Definition STACK_SIZE : Z := 512.

(** The helpers the modelled programs call: bpf_ktime_get_ns (5) and
    bpf_get_prandom_u32 (7). *)
Definition known_helper (id : Z) : bool := (id =? 5) || (id =? 7).

Definition set_reg (f : reg -> Z) (r : reg) (v : Z) : reg -> Z :=
  fun r' => if reg_eqb r r' then v else f r'.

Definition caller_saved (r : reg) : bool :=
  match r with R1 | R2 | R3 | R4 | R5 => true | _ => false end.

Definition read (w : width) (f : reg -> Z) (o : operand) : Z :=
  match o with Reg r => uw (bits w) (f r) | Imm z => imm_val w z end.

(** The load and store of [n] little-endian bytes at an address. *)
Fixpoint load (m : Z -> Z) (a : Z) (n : nat) : Z :=
  match n with
  | O => 0
  | S n' => u8 (m a) + 256 * load m (a + 1) n'
  end.

Fixpoint store (m : Z -> Z) (a v : Z) (n : nat) : Z -> Z :=
  match n with
  | O => m
  | S n' => fun x => if x =? a then u8 v else store m (a + 1) (Z.shiftr v 8) n' x
  end.

Definition mbytes (n : msize) : nat := match n with B => 1 | H => 2 | W => 4 | DW => 8 end.

Definition mwidth (n : msize) : width := match n with DW => W64 | _ => W32 end.

(** The register an atomic instruction leaves the old value in. *)
Definition atomic_dest (op : atomic) (r : reg) : option reg :=
  match op with
  | Rmw _ fetch => if fetch then Some r else None
  | Xchg | LoadAcq => Some r
  | CmpXchg => Some R0
  | StoreRel => None
  end.

(** The value it stores. *)
Definition atomic_new (op : atomic) (n : msize) (f : reg -> Z) (old : Z) (r : reg) : option Z :=
  match op with
  | Rmw o _ => Some (alu_in (mwidth n) o old (f r))
  | Xchg | StoreRel => Some (f r)
  | CmpXchg => if old =? uw (8 * Z.of_nat (mbytes n)) (f R0) then Some (f r) else None
  | LoadAcq => None
  end.

(** Only the ordered accesses come in all sizes. *)
Definition atomic_ok (op : atomic) (n : msize) : bool :=
  match op, n with
  | (LoadAcq | StoreRel), _ | _, (W | DW) => true
  | _, _ => false
  end.

Definition in_frame (e : env) (a n : Z) : bool :=
  (fp e - STACK_SIZE <=? a) && (a + n <=? fp e).

Definition goto (p : program) (s : state) (t : target) : outcome :=
  match resolve p (pc s) t with
  | Some k => Next {| pc := k; regs := regs s; mem := mem s; calls := calls s |}
  | None => Fault
  end.

Definition next (s : state) : outcome :=
  Next {| pc := S (pc s); regs := regs s; mem := mem s; calls := calls s |}.

Definition put (s : state) (r : reg) (v : Z) : outcome :=
  if reg_eqb r R10 then Fault
  else Next {| pc := S (pc s); regs := set_reg (regs s) r v; mem := mem s; calls := calls s |}.

Definition step (e : env) (p : program) (s : state) : outcome :=
  match nth_error p (pc s) with
  | None => Fault
  | Some i =>
    match i with
    | Alu w op d o => put s d (alu_in w op (regs s d) (read w (regs s) o))
    | Movsx w k d r => put s d (movsx w k (regs s r))
    | Neg w d => put s d (neg w (regs s d))
    | End op k d => put s d (endian op k (regs s d))
    | LdImm64 d z => put s d (u64 z)
    | Ldx n d b off =>
        let a := u64 (regs s b + off) in
        if in_frame e a (Z.of_nat (mbytes n)) then put s d (load (mem s) a (mbytes n)) else Fault
    | Stx n b off o =>
        let a := u64 (regs s b + off) in
        if in_frame e a (Z.of_nat (mbytes n)) then
          Next {| pc := S (pc s); regs := regs s;
                  mem := store (mem s) a (read W64 (regs s) o) (mbytes n);
                  calls := calls s |}
        else Fault
    | Ldsx n d b off =>
        let a := u64 (regs s b + off) in
        if in_frame e a (Z.of_nat (mbytes n))
        then put s d (movsx W64 (8 * Z.of_nat (mbytes n)) (load (mem s) a (mbytes n))) else Fault
    | Atomic op n b off r =>
        let a := u64 (regs s b + off) in
        if atomic_ok op n && in_frame e a (Z.of_nat (mbytes n)) then
          let old := load (mem s) a (mbytes n) in
          let m := match atomic_new op n (regs s) old r with
                   | Some v => store (mem s) a v (mbytes n)
                   | None => mem s
                   end in
          let s' := {| pc := pc s; regs := regs s; mem := m; calls := calls s |} in
          match atomic_dest op r with Some d => put s' d old | None => next s' end
        else Fault
    | Jmp w c d o t =>
        if cmp_in w c (regs s d) (read w (regs s) o) then goto p s t else next s
    | Goto t => goto p s t
    | Call id =>
        if known_helper id then
          Next {| pc := S (pc s);
                  regs := set_reg (fun r => if caller_saved r then u64 (scratch e (calls s) r)
                                            else regs s r)
                            R0 (u64 (helper e id (calls s)));
                  mem := mem s; calls := S (calls s) |}
        else Fault
    | Exit => Return (regs s R0)
    | Lab _ => next s
    end
  end.

(** [n] steps; a run that has returned or faulted stays there. *)
Fixpoint run (n : nat) (e : env) (p : program) (s : state) : outcome :=
  match n with
  | O => Next s
  | S n' => match step e p s with
            | Next s' => run n' e p s'
            | o => o
            end
  end.

(** A start of a program: any register contents but for the frame pointer,
    any stack. *)
Definition starts (e : env) (s : state) : Prop :=
  pc s = O /\ calls s = O /\ (forall r, is_u64 (regs s r)) /\
  regs s R10 = fp e /\ STACK_SIZE <= fp e < 2 ^ 64.

(** * Type safety of the machine *)

Definition wf (e : env) (s : state) : Prop :=
  (forall r, is_u64 (regs s r)) /\ regs s R10 = fp e.

Lemma uw_bits_u64 w a : is_u64 (uw (bits w) a).
Proof.
  destruct w; cbn [bits]; [|apply u64_range].
  apply (is_u_mono 32); [lia | apply u32_range].
Qed.

Lemma bits_pos w : 0 < bits w.
Proof. destruct w; cbn; lia. Qed.

(** The result of an instruction fits its width. *)
Lemma alu_in_range w op a b : is_u (bits w) (alu_in w op a b).
Proof.
  unfold alu_in.
  pose proof (bits_pos w) as Hw.
  pose proof (uw_range (bits w) a ltac:(lia)) as Ha.
  pose proof (uw_range (bits w) b ltac:(lia)) as Hb.
  set (x := uw _ a) in *; set (y := uw _ b) in *.
  assert (Z0 : is_u (bits w) 0) by (unfold is_u in *; lia).
  destruct op; cbn [alu];
    try match goal with |- context [y =? 0] => destruct (Z.eqb_spec y 0) end;
    try assumption; try (apply uw_range; lia).
  - apply is_u_div; [assumption | unfold is_u in Hb; lia].
  - unfold is_u in *. pose proof (Z.mod_pos_bound x y). lia.
  - apply is_u_land; [lia | assumption | assumption].
  - now apply is_u_lor_lxor.
  - now apply is_u_lor_lxor.
  - apply (is_u_shr (bits w)); [assumption | apply Z.mod_pos_bound; lia].
Qed.

Lemma alu_in_u64 w op a b : is_u64 (alu_in w op a b).
Proof.
  apply (is_u_mono (bits w)); [destruct w; cbn; lia | apply alu_in_range].
Qed.

Lemma endian_range op k v : is_u (ebits k) (endian op k v).
Proof. destruct op, k; now apply uw_range. Qed.

Lemma load_range m a n : is_u (8 * Z.of_nat n) (load m a n).
Proof.
  revert a; induction n as [|n IH]; intros a; [unfold is_u; cbn; lia|].
  cbn [load]. specialize (IH (a + 1)). pose proof (u8_range (m a)) as H.
  unfold is_u in *.
  replace (8 * Z.of_nat (S n)) with (8 + 8 * Z.of_nat n) by lia.
  rewrite Z.pow_add_r by lia. change (2 ^ 8) with 256 in *. lia.
Qed.

Lemma in_frame_spec e a n :
  in_frame e a n = true <-> fp e - STACK_SIZE <= a /\ a + n <= fp e.
Proof. unfold in_frame; rewrite andb_true_iff, !Z.leb_le; tauto. Qed.

Lemma ebits_le k : 0 <= ebits k <= 64.
Proof. destruct k; cbn; lia. Qed.

Lemma mbytes_le n : 0 <= 8 * Z.of_nat (mbytes n) <= 64.
Proof. destruct n; cbn; lia. Qed.

Lemma put_wf e s r v s' : wf e s -> is_u64 v -> put s r v = Next s' -> wf e s'.
Proof.
  unfold put; intros [Hr H10] Hv; destruct (reg_eqb_spec r R10) as [->|N]; [discriminate|].
  intros [= <-]; split; cbn [regs]; [|unfold set_reg; destruct (reg_eqb_spec r R10); easy].
  intros r'; unfold set_reg; destruct (reg_eqb r r'); [assumption | apply Hr].
Qed.

Lemma goto_wf e p s t s' : wf e s -> goto p s t = Next s' -> wf e s'.
Proof. unfold goto; destruct (resolve p (pc s) t); [|discriminate]. now intros ? [= <-]. Qed.

Lemma next_wf e s s' : wf e s -> next s = Next s' -> wf e s'.
Proof. now unfold next; intros ? [= <-]. Qed.

Lemma movsx_range w k a : is_u (bits w) (movsx w k a).
Proof. apply uw_range; pose proof (bits_pos w); lia. Qed.

Lemma neg_range w a : is_u (bits w) (neg w a).
Proof. apply uw_range; pose proof (bits_pos w); lia. Qed.

(** Every instruction keeps the registers in range and [r10] the frame
    pointer. *)
Lemma step_wf e p s s' : wf e s -> step e p s = Next s' -> wf e s'.
Proof.
  unfold step; intros Hs; destruct (nth_error p (pc s)) as [i|]; [|discriminate].
  assert (B64 : forall w v, is_u (bits w) v -> is_u64 v)
    by (intros w v; apply is_u_mono; destruct w; cbn; lia).
  destruct i as [w op d o|w k d r|w d|op k d|d z|n d b off|n d b off|n b off o|op n b off r|w c d o t|t|id| |l];
    try (now apply put_wf; [|eauto using alu_in_range, movsx_range, neg_range, u64_range]).
  - apply put_wf; [assumption|]. apply (is_u_mono (ebits k)); [apply ebits_le | apply endian_range].
  - destruct (in_frame _ _ _); [|discriminate]. apply put_wf; [assumption|].
    eapply is_u_mono; [apply mbytes_le | apply load_range].
  - destruct (in_frame _ _ _); [|discriminate]. apply put_wf; [assumption|]. apply (B64 W64), movsx_range.
  - destruct (in_frame _ _ _); [|discriminate]. now intros [= <-].
  - destruct (_ && _); [|discriminate]. cbv zeta.
    match goal with |- context [put ?x] => assert (wf e x) by exact Hs end.
    destruct (atomic_dest op r); [|now apply next_wf]. apply put_wf; [assumption|].
    eapply is_u_mono; [apply mbytes_le | apply load_range].
  - destruct (cmp_in _ _ _ _); [now apply goto_wf | now apply next_wf].
  - now apply goto_wf.
  - destruct (known_helper id); [|discriminate]. intros [= <-]. destruct Hs as [Hr H10].
    split; [intros r|exact H10]. cbn [regs]. unfold set_reg.
    destruct r; cbn [reg_eqb caller_saved]; auto using u64_range.
  - discriminate.
  - now apply next_wf.
Qed.

Lemma starts_wf e s : starts e s -> wf e s.
Proof. unfold starts, wf; tauto. Qed.

Lemma run_plus n m e p s :
  run (n + m) e p s = match run n e p s with Next s' => run m e p s' | o => o end.
Proof.
  revert s; induction n as [|n IH]; intros s; [reflexivity|].
  cbn [run Nat.add]; destruct (step e p s); [apply IH | reflexivity | reflexivity].
Qed.

(** Once a run has returned, more steps change nothing. *)
Lemma run_mono n m e p s v : (n <= m)%nat -> run n e p s = Return v -> run m e p s = Return v.
Proof.
  intros Hnm Hr. replace m with (n + (m - n))%nat by lia. now rewrite run_plus, Hr.
Qed.

Lemma run_wf n e p s s' : wf e s -> run n e p s = Next s' -> wf e s'.
Proof.
  revert s; induction n as [|n IH]; intros s Hs; cbn [run]; [now intros [= <-]|].
  destruct (step e p s) as [s1| |] eqn:E; try discriminate.
  now apply IH, (step_wf e p s).
Qed.
