(* ===== verification/Asm.v ===== *)
(** The assembler: the text of a naked program's [core::arch::asm!] strings to
    the instructions of [Bpf].  The programs of the development are the
    strings of the source, verbatim; [assemble] is the translation the
    compiler's integrated assembler performs on them. *)

From S2P Require Import Prelude Bpf.
From Stdlib Require Import String Ascii.
Local Open Scope string_scope.
Local Open Scope Z_scope.

(** * Lexer *)

Inductive token :=
  | Word (s : string)
  | Plus | Minus | Star | Slash | Percent | Amp | Bar | Caret | Lt | Gt | Equal | Bang
  | LPar | RPar | Colon | Dot
  | KS | KIf | KGoto | KExit | KCall | KLl.

Definition is_word (c : ascii) : bool :=
  let n := Z.of_N (N_of_ascii c) in
  ((48 <=? n) && (n <=? 57)) || ((65 <=? n) && (n <=? 90)) ||
  ((97 <=? n) && (n <=? 122)) || (n =? 95).

Definition symbol (c : ascii) : option token :=
  match c with
  | "+" => Some Plus | "-" => Some Minus | "*" => Some Star | "/" => Some Slash
  | "%" => Some Percent | "&" => Some Amp | "|" => Some Bar | "^" => Some Caret
  | "<" => Some Lt | ">" => Some Gt | "=" => Some Equal | "!" => Some Bang
  | "(" => Some LPar | ")" => Some RPar | ":" => Some Colon | "." => Some Dot
  | _ => None
  end%char.

Definition keyword (s : string) : token :=
  if String.eqb s "s" then KS else if String.eqb s "if" then KIf
  else if String.eqb s "goto" then KGoto else if String.eqb s "gotol" then KGoto else if String.eqb s "exit" then KExit
  else if String.eqb s "call" then KCall else if String.eqb s "ll" then KLl
  else Word s.

Definition flush (w : string) (l : list token) : list token :=
  if String.eqb w "" then l else keyword w :: l.

(** [w] is the word read so far.  Blanks and the final semicolon separate
    tokens; a character of no token stops the lexer. *)
Fixpoint lex (w : string) (s : string) : option (list token) :=
  match s with
  | EmptyString => Some (flush w [])
  | String c s' =>
      if is_word c then lex (w ++ String c EmptyString) s'
      else if (Ascii.eqb c " " || Ascii.eqb c ";")%char then
        option_map (flush w) (lex "" s')
      else match symbol c with
      | Some t => option_map (fun l => flush w (t :: l)) (lex "" s')
      | None => None
      end
  end.

(** * Numbers and registers *)

Definition digit (base : Z) (c : ascii) : option Z :=
  let n := Z.of_N (N_of_ascii c) in
  let d := if (48 <=? n) && (n <=? 57) then n - 48
           else if (97 <=? n) && (n <=? 102) then n - 87
           else if (65 <=? n) && (n <=? 70) then n - 55 else 16 in
  if d <? base then Some d else None.

Fixpoint digits (base acc : Z) (s : string) : option Z :=
  match s with
  | EmptyString => Some acc
  | String c s' => match digit base c with
                   | Some d => digits base (base * acc + d) s'
                   | None => if String.eqb s "LL" then Some acc else None
                   end
  end.

Definition number (s : string) : option Z :=
  match s with
  | String "0" (String "x" (String _ _ as h)) => digits 16 0 h
  | String _ _ => digits 10 0 s
  | EmptyString => None
  end%char.

Definition reg_of (n : Z) : option reg := nth_error all_regs (Z.to_nat n).

Definition register (s : string) : option (width * reg) :=
  match s with
  | String "r" s' => match digits 10 0 s' with
                     | Some n => option_map (pair W64) (reg_of n) | None => None end
  | String "w" s' => match digits 10 0 s' with
                     | Some n => option_map (pair W32) (reg_of n) | None => None end
  | _ => None
  end%char.

(** An operand, or a signed number, and the tokens after it. *)
Definition p_num (l : list token) : option (Z * list token) :=
  match l with
  | Minus :: Word s :: l' => option_map (fun z => (- z, l')) (number s)
  | Word s :: l' => option_map (fun z => (z, l')) (number s)
  | _ => None
  end.

Definition p_operand (l : list token) : option (operand * list token) :=
  match l with
  | Word s :: l' =>
      match register s with
      | Some (_, r) => Some (Reg r, l')
      | None => option_map (fun z => (Imm z, l')) (number s)
      end
  | _ => option_map (fun '(z, l') => (Imm z, l')) (p_num l)
  end.

(** * Instructions *)

Definition p_aluop (l : list token) : option (aluop * list token) :=
  match l with
  | Plus :: Equal :: l' => Some (ADD, l')
  | Minus :: Equal :: l' => Some (SUB, l')
  | Star :: Equal :: l' => Some (MUL, l')
  | Slash :: Equal :: l' => Some (DIV, l')
  | KS :: Slash :: Equal :: l' => Some (SDIV, l')
  | Percent :: Equal :: l' => Some (MOD, l')
  | KS :: Percent :: Equal :: l' => Some (SMOD, l')
  | Amp :: Equal :: l' => Some (AND, l')
  | Bar :: Equal :: l' => Some (OR, l')
  | Caret :: Equal :: l' => Some (XOR, l')
  | Lt :: Lt :: Equal :: l' => Some (LSH, l')
  | Gt :: Gt :: Equal :: l' => Some (RSH, l')
  | KS :: Gt :: Gt :: Equal :: l' => Some (ARSH, l')
  | Equal :: l' => Some (MOV, l')
  | _ => None
  end.

Definition p_cond (l : list token) : option (cond * list token) :=
  match l with
  | Equal :: Equal :: l' => Some (EQ, l')
  | Bang :: Equal :: l' => Some (NE, l')
  | Gt :: Equal :: l' => Some (GE, l')
  | Gt :: l' => Some (GT, l')
  | Lt :: Equal :: l' => Some (LE, l')
  | Lt :: l' => Some (LT, l')
  | KS :: Gt :: Equal :: l' => Some (SGE, l')
  | KS :: Gt :: l' => Some (SGT, l')
  | KS :: Lt :: Equal :: l' => Some (SLE, l')
  | KS :: Lt :: l' => Some (SLT, l')
  | Amp :: l' => Some (SET, l')
  | _ => None
  end.

Fixpoint last_char (s : string) : option (string * ascii) :=
  match s with
  | EmptyString => None
  | String c EmptyString => Some (EmptyString, c)
  | String c s' => option_map (fun '(i, z) => (String c i, z)) (last_char s')
  end.

(** [l0_1], the numeric local labels [1f] and [1b], or [+2]. *)
Definition p_target (l : list token) : option target :=
  match l with
  | [Plus; Word s] => option_map Rel (number s)
  | [Minus; Word s] => option_map (fun z => Rel (- z)) (number s)
  | [Word _; Plus; Word s] => option_map Rel (number s)      (* [pc+2] of a listing *)
  | [Word s] =>
      match last_char s with
      | Some (n, "f"%char) => match number n with Some _ => Some (Fwd n) | None => Some (Label s) end
      | Some (n, "b"%char) => match number n with Some _ => Some (Bwd n) | None => Some (Label s) end
      | _ => Some (Label s)
      end
  | _ => None
  end.

(** The immediate of a conditional jump is a constant expression: in
    [if w1 & 1 != 1 goto l] the instruction is a [BPF_JSET] whose immediate is
    the value of [1 != 1]. *)
Definition p_jump_imm (o : operand) (l : list token) : option (operand * list token) :=
  match o, l with
  | Imm a, Bang :: Equal :: l' =>
      option_map (fun '(b, l'') => (Imm (if a =? b then 0 else 1), l'')) (p_num l')
  | _, _ => Some (o, l)
  end.

Definition p_msize (s : string) : option msize :=
  if String.eqb s "u8" then Some B else if String.eqb s "u16" then Some H
  else if String.eqb s "u32" then Some W else if String.eqb s "u64" then Some DW else None.

(** [( rB + off )] and what follows. *)
Definition p_address (l : list token) : option (reg * Z * list token) :=
  match l with
  | LPar :: Word b :: l1 =>
      match register b with
      | Some (W64, r) =>
          let l2 := match l1 with Plus :: m => m | _ => l1 end in
          match p_num l2 with
          | Some (off, RPar :: l3) => Some (r, off, l3)
          | _ => None
          end
      | _ => None
      end
  | _ => None
  end.

(** [( uN * ) ( rB + off )] and what follows. *)
Definition p_access (l : list token) : option (msize * reg * Z * list token) :=
  match l with
  | LPar :: Word u :: Star :: RPar :: l1 =>
      match p_msize u, p_address l1 with
      | Some n, Some (r, off, l2) => Some (n, r, off, l2)
      | _, _ => None
      end
  | _ => None
  end.

Definition p_ssize (s : string) : option msize :=
  if String.eqb s "s8" then Some B else if String.eqb s "s16" then Some H
  else if String.eqb s "s32" then Some W else None.

Definition p_endian (s : string) : option (endop * esize) :=
  if String.eqb s "le16" then Some (LE_, E16) else if String.eqb s "le32" then Some (LE_, E32)
  else if String.eqb s "le64" then Some (LE_, E64)
  else if String.eqb s "be16" then Some (BE_, E16) else if String.eqb s "be32" then Some (BE_, E32)
  else if String.eqb s "be64" then Some (BE_, E64)
  else if String.eqb s "bswap16" then Some (BSWAP, E16)
  else if String.eqb s "bswap32" then Some (BSWAP, E32)
  else if String.eqb s "bswap64" then Some (BSWAP, E64) else None.

Definition p_sbits (s : string) : option Z :=
  if String.eqb s "s8" then Some 8 else if String.eqb s "s16" then Some 16
  else if String.eqb s "s32" then Some 32 else None.

(** What follows [rD =] when it is not a plain operand. *)
Definition p_mov (w : width) (d : reg) (l : list token) : option insn :=
  match l with
  | Star :: l' =>
      match p_access l', l' with
      | Some (n, b, off, []), _ => Some (Ldx n d b off)
      | _, LPar :: Word u :: Star :: RPar :: l1 =>
          match p_ssize u, p_address l1 with
          | Some n, Some (b, off, []) => Some (Ldsx n d b off)
          | _, _ => None
          end
      | _, _ => None
      end
  | [LPar; Word s; RPar; Word r] =>
      match p_sbits s, register r with
      | Some k, Some (_, r') => Some (Movsx w k d r')
      | _, _ => None
      end
  | [Word e; Word r] =>
      match p_endian e, register r with
      | Some (op, k), Some (W64, r') => if reg_eqb d r' then Some (End op k d) else None
      | _, _ => None
      end
  | [Minus; Word s] =>
      match register s with
      | Some (_, r') => if reg_eqb d r' then Some (Neg w d) else None
      | None => option_map (fun z => Alu w MOV d (Imm (- z))) (number s)
      end
  | [Word s] =>
      match register s with
      | Some (_, r') => Some (Alu w MOV d (Reg r'))
      | None => option_map (fun z => Alu w MOV d (Imm z)) (number s)
      end
  | _ => match p_num l with Some (z, [KLl]) => Some (LdImm64 d z) | _ => None end
  end.

(** A raw instruction: opcode, registers, offset and immediate of an atomic
    access, which the assembler has no text for. *)
Definition raw_size (z : Z) : option msize :=
  match z with 0x18 => Some DW | 0x00 => Some W | 0x08 => Some H | 0x10 => Some B | _ => None end.

Definition raw_op (imm : Z) : option atomic :=
  match imm with
  | 0x00 => Some (Rmw ADD false) | 0x01 => Some (Rmw ADD true)
  | 0x40 => Some (Rmw OR false) | 0x41 => Some (Rmw OR true)
  | 0x50 => Some (Rmw AND false) | 0x51 => Some (Rmw AND true)
  | 0xa0 => Some (Rmw XOR false) | 0xa1 => Some (Rmw XOR true)
  | 0xe1 => Some Xchg | 0xf1 => Some CmpXchg | 0x100 => Some LoadAcq | 0x110 => Some StoreRel
  | _ => None
  end.

Definition raw (v : Z) : option insn :=
  let code := u8 v in
  let off := sw 16 (Z.shiftr v 16) in
  match raw_size (Z.land code 0x18), raw_op (Z.shiftr v 32),
        reg_of (Z.land (Z.shiftr v 8) 15), reg_of (Z.land (Z.shiftr v 12) 15) with
  | Some n, Some op, Some d, Some s =>
      if (Z.land code 0xe7 =? 0xc3) && atomic_ok op n then
        Some (match op with LoadAcq => Atomic op n s off d | _ => Atomic op n d off s end)
      else None
  | _, _, _, _ => None
  end.

Definition p_insn (l : list token) : option insn :=
  match l with
  | [KExit] => Some Exit
  | [Dot; Word k; Word s] =>
      if String.eqb k "8byte" then match number s with Some v => raw v | None => None end else None
  | [KCall; Word s] => option_map Call (number s)
  | [Word s; Colon] => Some (Lab s)
  | KGoto :: l' => option_map Goto (p_target l')
  | KIf :: Word d :: l' =>
      match register d, p_cond l' with
      | Some (w, r), Some (c, l1) =>
          match p_operand l1 with
          | Some (o, l2) =>
              match p_jump_imm o l2 with
              | Some (o', KGoto :: l3) => option_map (Jmp w c r o') (p_target l3)
              | _ => None
              end
          | None => None
          end
      | _, _ => None
      end
  | Star :: l' =>
      match p_access l' with
      | Some (n, b, off, Equal :: l'') =>
          match p_operand l'' with Some (o, []) => Some (Stx n b off o) | _ => None end
      | _ => None
      end
  | Word d :: l' =>
      match register d, p_aluop l' with
      | Some (w, r), Some (MOV, l'') => p_mov w r l''
      | Some (w, r), Some (op, l'') =>
          match p_operand l'' with Some (o, []) => Some (Alu w op r o) | _ => None end
      | _, _ => None
      end
  | _ => None
  end.

Definition parse (s : string) : option insn :=
  match lex "" s with Some l => p_insn l | None => None end.

Fixpoint assemble (l : list string) : option program :=
  match l with
  | [] => Some []
  | s :: l' => match parse s, assemble l' with
               | Some i, Some p => Some (i :: p)
               | _, _ => None
               end
  end.

(** * What the assembler makes of each form *)

Example parse_forms :
  assemble ["w1 s/= -3;"; "r0 = -1;"; "r0 = -r0;"; "r2 = 0xffffffff00000000LL ll;";
            "if w1 s< -10 goto l0_5;"; "if w1 & 1 != 1 goto l0_23;"; "l0_5:";
            "r3 = *(u8 *)(r10 -387);"; "*(u32*)(r6 + 0) = r7;"; "w1 = (s16)w0;";
            "r0 = be16 r0;"; "if r2 != -136 goto +1;"; "goto 1b;"; "call 7;"; "exit;";
            "w0 s>>= w1;"; "if r2 <= r1 goto 2f;"; "r1 = *(s8 *)(r10 - 8);"; "gotol 1f;";
            ".8byte 1103806111963;"; ".8byte 1172525550299;"; ".8byte 8589421275;"]
  = Some [Alu W32 SDIV R1 (Imm (-3)); Alu W64 MOV R0 (Imm (-1)); Neg W64 R0;
          LdImm64 R2 0xffffffff00000000; Jmp W32 SLT R1 (Imm (-10)) (Label "l0_5");
          Jmp W32 SET R1 (Imm 0) (Label "l0_23"); Lab "l0_5"; Ldx B R3 R10 (-387);
          Stx W R6 0 (Reg R7); Movsx W32 16 R1 R0; End BE_ E16 R0;
          Jmp W64 NE R2 (Imm (-136)) (Rel 1); Goto (Bwd "1"); Call 7; Exit;
          Alu W32 ARSH R0 (Reg R1); Jmp W64 LE R2 (Reg R1) (Fwd "2");
          Ldsx B R1 R10 (-8); Goto (Fwd "1"); Atomic LoadAcq DW R10 (-8) R0;
          Atomic StoreRel DW R10 (-8) R0; Atomic (Rmw ADD true) DW R10 (-8) R2].
Proof. reflexivity. Qed.
