(* ===== verification/Range.v ===== *)
(** A verified value-range analysis of BPF programs.

    [analyze] explores every path of a program with, for each register and each
    stack slot written, the set of values it may hold (a list of intervals,
    enumerated when small, or an offset from the frame pointer), and checks what
    is claimed of a register after an instruction.  [analyze_sound]: when it succeeds, every
    run of the program, from any start and for any helper results, returns a
    value of the computed sets without a fault, and every claim holds each time
    its instruction is executed.  It is the proof method of the files that
    model the naked test programs. *)

From S2P Require Import Prelude Bpf.
From Stdlib Require Import String.
Local Open Scope Z_scope.

(** * What the verifier's log says of a register *)

Record scalar := {
  smin : option Z; smax : option Z; umin : option Z; umax : option Z;
  smin32 : option Z; smax32 : option Z; umin32 : option Z; umax32 : option Z;
  var_off : option (Z * Z);        (* known bits: value and mask of unknown bits *)
  known : option Z                 (* a constant *)
}.

Definition at_least (b : option Z) (v : Z) : bool :=
  match b with Some m => m <=? v | None => true end.
Definition at_most (b : option Z) (v : Z) : bool :=
  match b with Some m => v <=? m | None => true end.

(** The log prints a large negative [smin] in hexadecimal as an unsigned
    number: the signed bounds are read back as signed. *)
Definition scalar_ok (sc : scalar) (v : Z) : bool :=
  at_least (option_map (sw 64) (smin sc)) (i64 v) &&
  at_most (option_map (sw 64) (smax sc)) (i64 v) &&
  at_least (umin sc) v && at_most (umax sc) v &&
  at_least (smin32 sc) (i32 v) && at_most (smax32 sc) (i32 v) &&
  at_least (umin32 sc) (u32 v) && at_most (umax32 sc) (u32 v) &&
  match var_off sc with
  | Some (value, mask) => Z.land v (notw 64 mask) =? value
  | None => true
  end &&
  match known sc with Some c => v =? u64 c | None => true end.

(** A claim: after the instruction at an index, of a register. *)
Definition claim : Type := nat * (reg * scalar).

Definition claims_at (cl : list claim) (k : nat) (f : reg -> scalar -> bool) : bool :=
  forallb (fun '(k', (r, sc)) => if Nat.eqb k' k then f r sc else true) cl.

(** * Value sets *)

Definition itv : Type := Z * Z.

(** The values of some intervals, those whose low half is in some intervals, or
    an address in the frame. *)
Inductive aval := Vals (l : list itv) | Low (l : list itv) | FP (off : Z).

Definition inside (i : itv) (v : Z) : Prop := fst i <= v <= snd i.
Definition among (l : list itv) (v : Z) : Prop := exists i, In i l /\ inside i v.

Definition has (e : env) (a : aval) (v : Z) : Prop :=
  match a with Vals l => among l v | Low l => among l (u32 v) | FP off => v = u64 (fp e + off) end.

Definition top (w : width) : list itv := [(0, 2 ^ bits w - 1)].

Definition LIMIT : Z := 4096.
Definition card (l : list itv) : Z :=
  fold_right (fun i n => Z.max 0 (snd i - fst i + 1) + n) 0 l.
Fixpoint zfrom (n : nat) (z : Z) : list Z :=
  match n with O => [] | S n' => z :: zfrom n' (z + 1) end.
Definition zrange (i : itv) : list Z := zfrom (Z.to_nat (snd i - fst i + 1)) (fst i).
Definition enum (l : list itv) : option (list Z) :=
  if card l <=? LIMIT then Some (flat_map zrange l) else None.

(** Adjacent repetitions dropped. *)
Fixpoint dedup (vs : list Z) : list Z :=
  match vs with
  | v :: ((v' :: _) as vs') => if v =? v' then dedup vs' else v :: dedup vs'
  | _ => vs
  end.
Definition single (vs : list Z) : list itv := map (fun v => (v, v)) (dedup vs).
Definition points (vs : list Z) : aval := Vals (single vs).

Lemma zfrom_spec n z v : In v (zfrom n z) <-> z <= v < z + Z.of_nat n.
Proof. revert z; induction n as [|n IH]; intros z; cbn [zfrom In]; [lia | rewrite IH; lia]. Qed.

Lemma zrange_spec i v : In v (zrange i) <-> inside i v.
Proof. unfold zrange, inside; rewrite zfrom_spec; lia. Qed.

Lemma enum_spec l vs v : enum l = Some vs -> among l v -> In v vs.
Proof.
  unfold enum; destruct (card l <=? LIMIT); [|discriminate]; intros [= <-] (i & Hi & Hv).
  apply in_flat_map; exists i; split; [assumption | now apply zrange_spec].
Qed.

Lemma dedup_In v vs : In v vs -> In v (dedup vs).
Proof.
  induction vs as [|x [|y vs] IH]; [easy | easy |]; intros Hv; cbn [dedup].
  destruct (Z.eqb_spec x y) as [->|].
  - apply IH. destruct Hv as [<-|Hv]; [now left | exact Hv].
  - destruct Hv as [<-|Hv]; [now left | right; now apply IH].
Qed.

Lemma single_spec vs v : In v vs -> among (single vs) v.
Proof.
  intros Hv; exists (v, v); split; [|unfold inside; cbn; lia].
  apply in_map_iff; exists v; split; [reflexivity | now apply dedup_In].
Qed.

Lemma points_spec e vs v : In v vs -> has e (points vs) v.
Proof. apply single_spec. Qed.

Lemma among_map (f : Z -> Z) (g : itv -> itv) l v :
  (forall i, inside i v -> inside (g i) (f v)) -> among l v -> among (map g l) (f v).
Proof. intros Hf (i & Hi & Hv); exists (g i); split; [now apply in_map | auto]. Qed.

Lemma among_flat_map (f : Z -> Z) (g : itv -> list itv) l v :
  (forall i, inside i v -> among (g i) (f v)) -> among l v -> among (flat_map g l) (f v).
Proof.
  intros Hf (i & Hi & Hv); destruct (Hf i Hv) as (j & Hj & Hjv).
  exists j; split; [apply in_flat_map; eauto | assumption].
Qed.

Lemma among_top w v : is_u (bits w) v -> among (top w) v.
Proof. intros Hv; exists (0, 2 ^ bits w - 1); split; [now left|]. unfold inside, is_u in *; cbn [fst snd]; lia. Qed.

#[local] Hint Resolve among_top : core.

Lemma among_one c v : among [(c, c)] v -> v = c.
Proof. intros (i & [<-|[]] & Hv). unfold inside in Hv; cbn in Hv; lia. Qed.

(** The low [w] bits of the values of an interval. *)
Definition trunc (w : width) (i : itv) : itv :=
  let full := 2 ^ bits w in
  if (0 <=? fst i) && (snd i <? full) then i
  else if fst i / full =? snd i / full then (fst i mod full, snd i mod full)
  else (0, full - 1).

Lemma trunc_spec w l v : among l v -> among (map (trunc w) l) (uw (bits w) v).
Proof.
  apply among_map; intros i [H1 H2]; unfold trunc.
  pose proof (bits_pos w). pose proof (uw_range (bits w) v ltac:(lia)) as Hr.
  assert (P : 0 < 2 ^ bits w) by (apply Z.pow_pos_nonneg; lia). set (full := 2 ^ bits w) in *.
  destruct ((0 <=? fst i) && (snd i <? full)) eqn:E.
  - bsimp; unfold inside; rewrite uw_small; [lia | unfold is_u; fold full; lia].
  - destruct (Z.eqb_spec (fst i / full) (snd i / full)) as [D|_]; unfold inside, is_u in *; cbn [fst snd]; [|fold full in Hr; lia].
    pose proof (Z.div_le_mono (fst i) v full P H1). pose proof (Z.div_le_mono v (snd i) full P H2). unfold uw; fold full.
    pose proof (Z.div_mod v full ltac:(lia)). pose proof (Z.div_mod (fst i) full ltac:(lia)). pose proof (Z.div_mod (snd i) full ltac:(lia)). nia.
Qed.

Lemma trunc_bounds w i v : inside (trunc w i) v -> is_u (bits w) v.
Proof.
  unfold trunc, inside, is_u. pose proof (bits_pos w). assert (P : 0 < 2 ^ bits w) by (apply Z.pow_pos_nonneg; lia).
  pose proof (Z.mod_pos_bound (fst i) _ P). pose proof (Z.mod_pos_bound (snd i) _ P).
  destruct ((0 <=? fst i) && (snd i <? 2 ^ bits w)) eqn:E; bsimp; cbn [fst snd]; [lia|].
  destruct (_ =? _); cbn [fst snd]; lia.
Qed.

(** * Fast evaluation

    The same casts by masking, for the enumerated sets. *)

Definition fpow (n : Z) : Z :=
  if n =? 64 then 18446744073709551616 else if n =? 32 then 4294967296
  else if n =? 63 then 9223372036854775808 else if n =? 31 then 2147483648
  else Z.shiftl 1 n.
Definition fuw (n z : Z) : Z := Z.land z (Z.pred (fpow n)).
Definition fsw (n z : Z) : Z :=
  let r := fuw n z in if r <? fpow (n - 1) then r else r - fpow n.

Lemma fpow_eq n : 0 <= n -> fpow n = 2 ^ n.
Proof.
  intros; unfold fpow.
  destruct (Z.eqb_spec n 64) as [->|]; [reflexivity|].
  destruct (Z.eqb_spec n 32) as [->|]; [reflexivity|].
  destruct (Z.eqb_spec n 63) as [->|]; [reflexivity|].
  destruct (Z.eqb_spec n 31) as [->|]; [reflexivity|].
  rewrite Z.shiftl_mul_pow2 by assumption; apply Z.mul_1_l.
Qed.

Lemma fuw_eq n z : 0 <= n -> fuw n z = uw n z.
Proof. intros; unfold fuw, uw; rewrite fpow_eq, <- Z.ones_equiv by lia. now apply Z.land_ones. Qed.

Lemma fsw_eq n z : 0 < n -> fsw n z = sw n z.
Proof. intros; unfold fsw, sw. now rewrite fuw_eq, !fpow_eq by lia. Qed.

Definition falu_in (w : width) (op : aluop) (a b : Z) : Z :=
  let n := bits w in
  match op with
  | ADD => fuw n (a + b)
  | SUB => fuw n (a - b)
  | AND => Z.land (fuw n a) (fuw n b)
  | OR => Z.lor (fuw n a) (fuw n b)
  | LSH => fuw n (Z.shiftl (fuw n a) (fuw n b mod n))
  | RSH => Z.shiftr (fuw n a) (fuw n b mod n)
  | ARSH => fuw n (Z.shiftr (fsw n a) (fuw n b mod n))
  | _ => alu_in w op a b
  end.

Lemma sw_uw n z : 0 <= n -> sw n (uw n z) = sw n z.
Proof. intros; unfold sw; now rewrite uw_uw. Qed.

Lemma falu_in_eq w op a b : falu_in w op a b = alu_in w op a b.
Proof.
  pose proof (bits_pos w). destruct op; unfold falu_in, alu_in; cbn [alu];
    rewrite ?fuw_eq, ?fsw_eq, ?sw_uw by lia; try reflexivity; unfold uw.
  - now rewrite <- Zplus_mod.
  - now rewrite <- Zminus_mod.
Qed.

Definition bounded (le : Z -> Z -> bool) (cast : Z -> Z) (b : option Z) (v : Z) : bool :=
  match b with Some m => le m (cast v) | None => true end.

Definition fscalar_ok (sc : scalar) (v : Z) : bool :=
  bounded Z.leb (fsw 64) (option_map (fsw 64) (smin sc)) v &&
  bounded Z.geb (fsw 64) (option_map (fsw 64) (smax sc)) v &&
  bounded Z.leb (fun v => v) (umin sc) v && bounded Z.geb (fun v => v) (umax sc) v &&
  bounded Z.leb (fsw 32) (smin32 sc) v && bounded Z.geb (fsw 32) (smax32 sc) v &&
  bounded Z.leb (fuw 32) (umin32 sc) v && bounded Z.geb (fuw 32) (umax32 sc) v &&
  match var_off sc with
  | Some (value, mask) => Z.land v (fuw 64 (Z.lnot mask)) =? value
  | None => true
  end &&
  match known sc with Some c => v =? fuw 64 c | None => true end.

Lemma bounded_least b cast cast' v : cast v = cast' v ->
  bounded Z.leb cast b v = at_least b (cast' v).
Proof. intros E; destruct b; [cbn; now rewrite E | reflexivity]. Qed.

Lemma bounded_most b cast cast' v : cast v = cast' v ->
  bounded Z.geb cast b v = at_most b (cast' v).
Proof. intros E; destruct b; [cbn; rewrite E; apply Z.geb_leb | reflexivity]. Qed.

Lemma option_map_fsw (o : option Z) : option_map (fsw 64) o = option_map (sw 64) o.
Proof. destruct o; cbn; [rewrite fsw_eq by lia|]; reflexivity. Qed.

Lemma fscalar_ok_eq sc v : fscalar_ok sc v = scalar_ok sc v.
Proof.
  unfold fscalar_ok, scalar_ok, notw. rewrite !option_map_fsw.
  rewrite (bounded_least _ (fsw 64) (sw 64) v), (bounded_most _ (fsw 64) (sw 64) v),
    (bounded_least _ (fsw 32) (sw 32) v), (bounded_most _ (fsw 32) (sw 32) v),
    (bounded_least _ (fuw 32) (uw 32) v), (bounded_most _ (fuw 32) (uw 32) v),
    (bounded_least (umin sc) (fun v => v) (fun v => v) v),
    (bounded_most (umax sc) (fun v => v) (fun v => v) v)
    by (reflexivity || (apply fsw_eq; lia) || (apply fuw_eq; lia)).
  destruct (var_off sc) as [[? ?]|], (known sc); rewrite ?fuw_eq by lia; reflexivity.
Qed.

(** * Transfer functions *)

Definition lift1 (f : Z -> Z) (dflt : list itv) (a : aval) : aval :=
  match a with
  | Vals l => match enum l with Some vs => points (map f vs) | None => Vals dflt end
  | _ => Vals dflt
  end.

Lemma lift1_spec e f dflt a v :
  (forall x, among dflt (f x)) -> has e a v -> has e (lift1 f dflt a) (f v).
Proof.
  intros Hd Ha; destruct a as [l|l|off]; cbn [lift1 has] in *; [|apply Hd|apply Hd].
  destruct (enum l) as [vs|] eqn:E; [|apply Hd].
  apply points_spec, in_map. eauto using enum_spec.
Qed.

(** The arithmetic shift of an interval of [w]-bit values, by its sign. *)
Definition arsh_itv (w : width) (k : Z) (i : itv) : list itv :=
  let half := 2 ^ (bits w - 1) in let full := 2 ^ bits w in
  [(Z.shiftr (fst i) k, Z.shiftr (Z.min (snd i) (half - 1)) k);
   (Z.shiftr (Z.max (fst i) half - full) k + full, Z.shiftr (snd i - full) k + full)].

(** What a range of sums below [2 * full] is modulo [full]. *)
Definition wrap_itv (full lo hi : Z) : list itv :=
  if hi <? full then [(lo, hi)]
  else if full <=? lo then [(lo - full, hi - full)]
  else [(lo, full - 1); (0, hi - full)].

(** The sums of an interval of [w]-bit values and a constant, which may wrap. *)
Definition add_itv (w : width) (c : Z) (i : itv) : list itv :=
  wrap_itv (2 ^ bits w) (fst i + c) (snd i + c).

(** One interval over a set, and one over each of its halves. *)
Definition hull (l : list itv) : list itv :=
  match l with
  | [] => []
  | i :: l => [fold_left (fun a i => (Z.min (fst a) (fst i), Z.max (snd a) (snd i))) l i]
  end.
Definition squeeze (w : width) (l : list itv) : list itv :=
  let half := 2 ^ (bits w - 1) in let ne := filter (fun i : itv => fst i <=? snd i) in
  hull (ne (map (fun i => (fst i, Z.min (snd i) (half - 1))) l)) ++
  hull (ne (map (fun i => (Z.max (fst i) half, snd i)) l)).

(** Operations on two sets too large to list. *)
Definition wide (w : width) (op : aluop) (la lb : list itv) : aval :=
  let full := 2 ^ bits w in
  let pairs := list_prod (squeeze w (map (trunc w) la)) (squeeze w (map (trunc w) lb)) in
  match op with
  | ADD => Vals (flat_map (fun '(i, j) => wrap_itv full (fst i + fst j) (snd i + snd j)) pairs)
  | SUB => Vals (flat_map (fun '(i, j) => wrap_itv full (fst i + (full - snd j)) (snd i + (full - fst j))) pairs)
  | OR => Vals (map (fun '(i, j) => (Z.max (fst i) (fst j), full - 1)) pairs)
  | _ => Vals (top w)
  end.

(** The numbers whose bits are among those of a mask. *)
Fixpoint bit_count (q : positive) : Z :=
  match q with xH => 1 | xO q => bit_count q | xI q => bit_count q + 1 end.
Fixpoint submasks (q : positive) : list Z :=
  match q with
  | xH => [0; 1]
  | xO q => map Z.double (submasks q)
  | xI q => map Z.double (submasks q) ++ map Z.succ_double (submasks q)
  end.
Definition MASK_BITS : Z := 12.

(** Operations with a constant right operand [c] on sets too large to list. *)
Definition coarse (w : width) (op : aluop) (la : list itv) (c : Z) : aval :=
  let k := c mod bits w in
  match op with
  | ADD => Vals (flat_map (add_itv w c) (map (trunc w) la))
  | SUB => Vals (flat_map (add_itv w (uw (bits w) (- c))) (map (trunc w) la))
  | AND => match c with
           | Zpos q => if bit_count q <=? MASK_BITS then points (submasks q) else Vals [(0, c)]
           | _ => Vals [(0, c)]
           end
  | LSH => match w with W64 => if 32 <=? k then Low [(0, 0)] else Vals (top w) | W32 => Vals (top w) end
  | RSH => Vals (map (fun i => (Z.shiftr (fst i) k, Z.shiftr (snd i) k)) (map (trunc w) la))
  | ARSH => Vals (flat_map (arsh_itv w k) (map (trunc w) la))
  | _ => wide w op la [(c, c)]
  end.

(** Sums are listed for as many pairs as a set may have elements. *)
Definition listed (op : aluop) (xs ys : list Z) : bool :=
  match op with
  | ADD | SUB => Z.of_nat (List.length xs) * Z.of_nat (List.length ys) <=? LIMIT
  | _ => true
  end.

Definition one (l : list itv) : option Z :=
  match l with [(c, c')] => if c =? c' then Some c else None | _ => None end.

(** The low halves. *)
Definition low (a : aval) : list itv :=
  match a with Vals l => map (trunc W32) l | Low l => l | FP _ => top W32 end.
Definition halve (w : width) (a : aval) : aval :=
  match w, a with W32, Low l => Vals l | _, _ => a end.

Definition aalu (w : width) (op : aluop) (a b : aval) : aval :=
  match op, w, halve w a, halve w b with
  | MOV, W64, _, _ => b
  | MOV, W32, _, Vals lb => Vals (map (trunc W32) lb)
  | ADD, W64, FP off, Vals lb =>
      match one lb with Some c => FP (i64 (off + c)) | None => Vals (top w) end
  | ADD, W64, Vals la, FP off =>
      match one la with Some c => FP (i64 (off + c)) | None => Vals (top w) end
  | _, _, Vals la, Vals lb =>
      match enum la, enum lb with
      | Some xs, Some ys => if listed op xs ys then points (map (fun '(x, y) => falu_in w op x y) (list_prod xs ys))
                            else wide w op la lb
      | _, _ => match one lb, one la, op with
                | Some c, _, _ => coarse w op la (uw (bits w) c)
                | None, Some c, AND => coarse w op lb (uw (bits w) c)
                | None, _, _ => wide w op la lb
                end
      end
  | _, _, _, _ => Vals (top w)
  end.

Lemma one_spec l c v : one l = Some c -> among l v -> v = c.
Proof.
  unfold one; destruct l as [|[x y] [|? ?]]; try discriminate.
  destruct (Z.eqb_spec x y) as [->|]; [|discriminate]; intros [= <-]. apply among_one.
Qed.

Lemma land_le a c : 0 <= c -> 0 <= Z.land a c <= c.
Proof.
  intros Hc; split; [apply Z.land_nonneg; now right|].
  assert (E : Z.ldiff (Z.land a c) c = 0).
  { apply Z.bits_inj'; intros n Hn. rewrite Z.ldiff_spec, Z.land_spec, Z.bits_0.
    destruct (Z.testbit a n), (Z.testbit c n); reflexivity. }
  pose proof (Z.sub_nocarry_ldiff c (Z.land a c) E) as D.
  assert (0 <= Z.ldiff c (Z.land a c)) by (apply Z.ldiff_nonneg; now left).
  lia.
Qed.

Lemma land_double a z : Z.land a (Z.double z) = Z.double (Z.land (Z.div2 a) z).
Proof.
  apply Z.bits_inj'; intros n Hn. rewrite Z.land_spec, !Z.double_spec.
  destruct (Z.eq_dec n 0) as [->|]; [now rewrite !Z.testbit_even_0, andb_false_r|].
  replace n with (Z.succ (n - 1)) by lia.
  rewrite !Z.testbit_even_succ, Z.land_spec, Z.div2_spec, Z.shiftr_spec by lia. reflexivity.
Qed.

Lemma land_odd h z (b : bool) :
  Z.land (2 * h + Z.b2z b) (2 * z + 1) = 2 * Z.land h z + Z.b2z b.
Proof.
  apply Z.bits_inj'; intros n Hn. rewrite Z.land_spec. destruct (Z.eq_dec n 0) as [->|].
  - rewrite Z.testbit_odd_0, !(Z.add_comm (2 * _)), !Z.add_b2z_double_bit0. apply andb_true_r.
  - replace n with (Z.succ (n - 1)) by lia. rewrite Z.testbit_odd_succ by lia.
    destruct b; cbn [Z.b2z]; rewrite ?Z.add_0_r, ?Z.testbit_odd_succ, ?Z.testbit_even_succ, Z.land_spec by lia;
      reflexivity.
Qed.

Lemma land_succ_double a z :
  Z.land a (Z.succ_double z) = Z.double (Z.land (Z.div2 a) z) \/
  Z.land a (Z.succ_double z) = Z.succ_double (Z.land (Z.div2 a) z).
Proof.
  pose proof (land_odd (Z.div2 a) z (Z.odd a)) as E. rewrite <- Z.div2_odd in E.
  rewrite Z.double_spec, !Z.succ_double_spec, E. destruct (Z.odd a); cbn [Z.b2z]; [now right | left; lia].
Qed.

Lemma submasks_spec q : forall a, In (Z.land a (Zpos q)) (submasks q).
Proof.
  induction q as [q IH|q IH|]; intros a; cbn [submasks].
  - change (Zpos q~1) with (Z.succ_double (Zpos q)). apply in_app_iff.
    destruct (land_succ_double a (Zpos q)) as [-> | ->]; [left | right]; now apply in_map.
  - change (Zpos q~0) with (Z.double (Zpos q)). rewrite land_double. now apply in_map.
  - pose proof (land_le a 1 ltac:(lia)) as L. cbn [In]. lia.
Qed.

Lemma shiftr_mono a b k : 0 <= k -> a <= b -> Z.shiftr a k <= Z.shiftr b k.
Proof.
  intros; rewrite !Z.shiftr_div_pow2 by lia. apply Z.div_le_mono; [|assumption].
  apply Z.pow_pos_nonneg; lia.
Qed.

Lemma arsh_spec w k l v : 0 <= k ->
  among (map (trunc w) l) v ->
  among (flat_map (arsh_itv w k) (map (trunc w) l)) (uw (bits w) (Z.shiftr (sw (bits w) v) k)).
Proof.
  intros Hk (i & Hi & Hv). pose proof (bits_pos w) as Hw.
  assert (Hu : is_u (bits w) v)
    by (apply in_map_iff in Hi as (j & <- & _); now apply trunc_bounds with j).
  assert (P : 2 ^ bits w = 2 * 2 ^ (bits w - 1))
    by (replace (bits w) with (Z.succ (bits w - 1)) at 1 by lia; apply Z.pow_succ_r; lia).
  apply (among_flat_map (fun v => uw (bits w) (Z.shiftr (sw (bits w) v) k))); [|now exists i].
  clear i Hi Hv; intros i Hv; unfold inside in Hv.
  unfold arsh_itv, sw; rewrite (uw_small (bits w) v) by assumption; unfold is_u in Hu.
  set (half := 2 ^ (bits w - 1)) in *; rewrite P in *.
  assert (Q : 0 < 2 ^ k) by (apply Z.pow_pos_nonneg; lia).
  destruct (Z.ltb_spec v half).
  - assert (0 <= Z.shiftr v k <= v).
    { rewrite Z.shiftr_div_pow2 by lia.
      split; [apply Z.div_pos; lia | apply Z.div_le_upper_bound; nia]. }
    rewrite uw_small by (unfold is_u; lia).
    eexists; split; [now left|]. split; cbn [fst snd]; apply shiftr_mono; lia.
  - assert (- (2 * half) <= Z.shiftr (v - 2 * half) k < 0).
    { split; [|now apply Z.shiftr_neg; lia].
      rewrite Z.shiftr_div_pow2 by lia. apply Z.div_le_lower_bound; nia. }
    assert (uw (bits w) (Z.shiftr (v - 2 * half) k) = Z.shiftr (v - 2 * half) k + 2 * half) as ->.
    { unfold uw; rewrite P. symmetry; apply Z.mod_unique with (-1); [left; lia | lia]. }
    eexists; split; [right; now left|]. split; cbn [fst snd]; apply Z.add_le_mono_r, shiftr_mono; lia.
Qed.

Lemma wrap_spec n lo hi v : 0 <= n -> lo <= v <= hi -> 0 <= v < 2 * 2 ^ n -> among (wrap_itv (2 ^ n) lo hi) (uw n v).
Proof.
  intros Hn H Hv. unfold wrap_itv. set (full := 2 ^ n) in *.
  assert (U : uw n v = if v <? full then v else v - full).
  { destruct (Z.ltb_spec v full); [apply uw_small; unfold is_u; fold full; lia|].
    unfold uw; fold full. symmetry; apply Z.mod_unique with 1; lia. }
  rewrite U. destruct (Z.ltb_spec hi full); [|destruct (Z.leb_spec full lo)];
    (destruct (Z.ltb_spec v full); try lia);
    first [eexists; split; [now left|]; unfold inside; cbn [fst snd]; lia
          |eexists; split; [right; now left|]; unfold inside; cbn [fst snd]; lia].
Qed.

Lemma add_itv_spec w c l v : is_u (bits w) c ->
  among (map (trunc w) l) v -> among (flat_map (add_itv w c) (map (trunc w) l)) (uw (bits w) (v + c)).
Proof.
  intros Hc (i & Hi & Hv). assert (Hu : is_u (bits w) v)
    by (apply in_map_iff in Hi as (j & <- & _); now apply trunc_bounds with j).
  apply (among_flat_map (fun v => uw (bits w) (v + c))); [|now exists i].
  clear i Hi Hv; intros i Hv. unfold inside in Hv. unfold is_u in *. pose proof (bits_pos w). apply wrap_spec; lia.
Qed.

Lemma hull_spec l v : among l v -> among (hull l) v.
Proof.
  intros (i & Hi & Hv). destruct l as [|i0 l]; [destruct Hi|]. eexists; split; [now left|]. unfold inside in *.
  enough (F : forall a, (In i l \/ fst a <= v <= snd a) -> 
    let r := fold_left (fun a i => (Z.min (fst a) (fst i), Z.max (snd a) (snd i))) l a in fst r <= v <= snd r)
    by (apply F; destruct Hi as [->|Hi]; [now right | now left]).
  clear Hi i0. induction l as [|j l IH]; intros a H; cbn [fold_left]; [now destruct H|].
  apply IH. cbn [fst snd]. destruct H as [[->|H]|H]; [right; lia | now left | right; lia].
Qed.

Lemma squeeze_spec w l v : among l v -> among (squeeze w l) v.
Proof.
  intros (i & Hi & Hv). unfold squeeze. set (half := 2 ^ (bits w - 1)). unfold inside in Hv.
  destruct (Z.lt_ge_cases v half) as [H|H].
  - enough (A : among (hull (filter (fun i : itv => fst i <=? snd i) (map (fun i => (fst i, Z.min (snd i) (half - 1))) l))) v)
      by (destruct A as (j & Hj & V); exists j; split; [apply in_or_app; now left | exact V]).
    apply hull_spec. exists (fst i, Z.min (snd i) (half - 1)). split; [|unfold inside; cbn [fst snd]; lia].
    apply filter_In. split; [apply in_map_iff; now exists i | cbn; lia].
  - enough (A : among (hull (filter (fun i : itv => fst i <=? snd i) (map (fun i => (Z.max (fst i) half, snd i)) l))) v)
      by (destruct A as (j & Hj & V); exists j; split; [apply in_or_app; now right | exact V]).
    apply hull_spec. exists (Z.max (fst i) half, snd i). split; [|unfold inside; cbn [fst snd]; lia].
    apply filter_In. split; [apply in_map_iff; now exists i | cbn; lia].
Qed.

Lemma lor_bounds n a b : 0 < n -> is_u n a -> is_u n b -> Z.max a b <= Z.lor a b <= 2 ^ n - 1.
Proof.
  intros Hn Ha Hb. pose proof (is_u_lor_lxor n a b Hn Ha Hb) as [H _].
  assert (L : forall x y, 0 <= Z.lor x y -> x <= Z.lor x y).
  { intros x y Hxy. assert (E : Z.land x (Z.lor x y) = x).
    { apply Z.bits_inj'; intros k _. rewrite Z.land_spec, Z.lor_spec. now destruct (Z.testbit x k), (Z.testbit y k). }
    rewrite <- E at 1. now apply land_le. }
  unfold is_u in *. pose proof (L a b ltac:(lia)). pose proof (L b a ltac:(rewrite Z.lor_comm; lia)) as Lb.
  rewrite (Z.lor_comm b a) in Lb. lia.
Qed.

Lemma wide_spec e w op la lb x y : among la x -> among lb y ->
  has e (wide w op la lb) (alu w op (uw (bits w) x) (uw (bits w) y)).
Proof.
  intros Hx Hy. pose proof (bits_pos w) as Hw.
  assert (Ht : has e (Vals (top w)) (alu w op (uw (bits w) x) (uw (bits w) y))) by (apply among_top, alu_in_range).
  pose proof (uw_range (bits w) x ltac:(lia)) as Rx. pose proof (uw_range (bits w) y ltac:(lia)) as Ry.
  apply (trunc_spec w), (squeeze_spec w) in Hx as (i & Hi & Vi), Hy as (j & Hj & Vj).
  unfold inside, is_u in *. unfold wide. set (pairs := list_prod _ _).
  assert (Hp : In (i, j) pairs) by now apply in_prod.
  set (a := uw (bits w) x) in *. set (b := uw (bits w) y) in *. clearbody a b.
  destruct op; try exact Ht; cbn [alu has].
  - destruct (wrap_spec (bits w) (fst i + fst j) (snd i + snd j) (a + b)) as (k & Hk & Vk); try lia.
    exists k. split; [apply in_flat_map; now exists (i, j) | exact Vk].
  - replace (uw (bits w) (a - b)) with (uw (bits w) (a + (2 ^ bits w - b)))
      by (unfold uw; rewrite <- (Z_mod_plus_full (a - b) 1); f_equal; lia).
    destruct (wrap_spec (bits w) (fst i + (2 ^ bits w - snd j)) (snd i + (2 ^ bits w - fst j)) (a + (2 ^ bits w - b))) as (k & Hk & Vk); try lia.
    exists k. split; [apply in_flat_map; now exists (i, j) | exact Vk].
  - destruct (lor_bounds (bits w) a b) as [L1 L2]; try (unfold is_u; lia).
    exists (Z.max (fst i) (fst j), 2 ^ bits w - 1). split; [apply in_map_iff; now exists (i, j) | unfold inside; cbn [fst snd]; lia].
Qed.

Lemma alu_sub w x c : alu w SUB x c = uw (bits w) (x + uw (bits w) (- c)).
Proof. cbn [alu]. unfold uw. now rewrite Zplus_mod_idemp_r. Qed.

Lemma shifted_out x k : 32 <= k -> inside (0, 0) (u32 (u64 (Z.shiftl x k))).
Proof.
  intros Hk. rewrite Z.shiftl_mul_pow2 by lia. replace k with (k - 32 + 32) by lia. rewrite Z.pow_add_r by lia.
  unfold uw. change (2 ^ 64) with (2 ^ 32 * 2 ^ 32). rewrite Z.mul_assoc, Z.mul_mod_distr_r, Z.mod_mul by lia.
  split; cbn; lia.
Qed.

Lemma coarse_spec e w op la c x : is_u (bits w) c -> among la x ->
  has e (coarse w op la c) (alu w op (uw (bits w) x) c).
Proof.
  intros Hc Hx.
  assert (Hr : is_u (bits w) (alu w op (uw (bits w) x) c)).
  { pose proof (alu_in_range w op x c) as Hr; unfold alu_in in Hr.
    now rewrite (uw_small _ c) in Hr. }
  pose proof (trunc_spec w la x Hx) as Ht.
  assert (Hk : 0 <= c mod bits w) by (apply Z.mod_pos_bound, bits_pos).
  assert (Hwd : has e (wide w op la [(c, c)]) (alu w op (uw (bits w) x) c)).
  { pose proof (wide_spec e w op la [(c, c)] x c Hx) as F. rewrite (uw_small (bits w) c Hc) in F. apply F.
    exists (c, c); split; [now left | unfold inside; cbn [fst snd]; lia]. }
  destruct op; cbn [coarse]; try exact Hwd; cbn [has].
  - now apply add_itv_spec.
  - rewrite alu_sub. apply add_itv_spec; [|assumption]. apply uw_range. pose proof (bits_pos w); lia.
  - cbn [alu]. destruct (land_le (uw (bits w) x) c) as [L1 L2]; [unfold is_u in Hc; lia|].
    destruct c as [|q|q]; [| destruct (bit_count q <=? MASK_BITS); [apply points_spec, submasks_spec|] |];
      (eexists; split; [now left | now split]).
  - assert (Htop : has e (Vals (top w)) (alu w LSH (uw (bits w) x) c)) by now apply among_top.
    destruct w; [exact Htop|]. destruct (Z.leb_spec 32 (c mod bits W64)) as [L|]; [|exact Htop].
    cbn [has alu bits] in *. exists (0, 0). split; [now left|]. apply shifted_out. lia.
  - apply (among_map (fun v => Z.shiftr v (c mod bits w))); [|assumption].
    intros i Hi; split; cbn [fst snd]; apply shiftr_mono; unfold inside in Hi; lia.
  - now apply arsh_spec.
Qed.

Lemma u64_fp_add e off c : u64 (u64 (fp e + off) + c) = u64 (fp e + i64 (off + c)).
Proof.
  unfold uw. rewrite Zplus_mod_idemp_l, <- Z.add_assoc.
  rewrite <- (Zplus_mod_idemp_r (off + c)), <- (Zplus_mod_idemp_r (i64 (off + c)) (fp e)).
  f_equal; f_equal. symmetry; apply (uw_sw 64); lia.
Qed.

Lemma alu_in_idem w op x y : alu_in w op x (uw (bits w) y) = alu_in w op x y.
Proof. unfold alu_in; rewrite (uw_uw (bits w) y); [reflexivity|]. pose proof (bits_pos w); lia. Qed.

Lemma alu_in_mov w x y : alu_in w MOV x y = uw (bits w) y.
Proof. reflexivity. Qed.

Lemma aalu_both e w op la lb x y : among la x -> among lb y ->
  has e (match enum la, enum lb with
         | Some xs, Some ys => if listed op xs ys then points (map (fun '(x, y) => falu_in w op x y) (list_prod xs ys))
                               else wide w op la lb
         | _, _ => match one lb, one la, op with
                   | Some c, _, _ => coarse w op la (uw (bits w) c)
                   | None, Some c, AND => coarse w op lb (uw (bits w) c)
                   | None, _, _ => wide w op la lb
                   end
         end) (alu_in w op x y).
Proof.
  intros Hx Hy. pose proof (wide_spec e w op la lb x y Hx Hy) as Hwd. fold (alu_in w op x y) in Hwd.
  assert (Hu : forall z, is_u (bits w) (uw (bits w) z)) by (intros; apply uw_range; pose proof (bits_pos w); lia).
  assert (Ht : has e (match one lb, one la, op with
                   | Some c, _, _ => coarse w op la (uw (bits w) c)
                   | None, Some c, AND => coarse w op lb (uw (bits w) c)
                   | None, _, _ => wide w op la lb
                   end) (alu_in w op x y)).
  { destruct (one lb) as [c|] eqn:E; [rewrite (one_spec lb c y E Hy); now apply coarse_spec|].
    destruct (one la) as [c|] eqn:E'; [|exact Hwd]. destruct op; try exact Hwd.
    rewrite (one_spec la c x E' Hx). unfold alu_in; cbn [alu]. rewrite Z.land_comm.
    exact (coarse_spec e w AND lb _ y (Hu c) Hy). }
  destruct (enum la) as [xs|] eqn:Ea; [|assumption].
  destruct (enum lb) as [ys|] eqn:Eb; [|assumption]. destruct (listed op xs ys); [|assumption].
  apply points_spec, in_map_iff; exists (x, y); split; [apply falu_in_eq|].
  apply in_prod; eauto using enum_spec.
Qed.

Lemma low_spec e a x : has e a x -> among (low a) (u32 x).
Proof.
  destruct a as [l|l|o]; cbn [low has]; [apply (trunc_spec W32) | easy |].
  intros _. apply (among_top W32), uw_range. cbn; lia.
Qed.

Lemma halve_spec e w a x : is_u64 x -> has e a x ->
  exists x', is_u64 x' /\ has e (halve w a) x' /\ uw (bits w) x' = uw (bits w) x.
Proof.
  intros Hx Ha. destruct w; [|now exists x]. destruct a as [l|l|o]; try (now exists x).
  exists (u32 x). split; [exact (uw_bits_u64 W32 x)|]. split; [exact Ha | exact (uw_uw 32 x ltac:(lia))].
Qed.

Lemma fp_plus e off c : alu_in W64 ADD (u64 (fp e + off)) c = u64 (fp e + i64 (off + c)).
Proof.
  unfold alu_in; cbn [alu bits]. rewrite (uw_uw 64) by lia. rewrite <- u64_fp_add. unfold uw. apply Zplus_mod_idemp_r.
Qed.

Lemma aalu_spec e w op a b x y : is_u64 x -> is_u64 y ->
  has e a x -> has e b y -> has e (aalu w op a b) (alu_in w op x y).
Proof.
  intros Hx Hy Ha Hb.
  assert (Htop : has e (Vals (top w)) (alu_in w op x y)) by apply among_top, alu_in_range.
  destruct (halve_spec e w a x Hx Ha) as (x' & Hx' & Ha' & Ex).
  destruct (halve_spec e w b y Hy Hb) as (y' & Hy' & Hb' & Ey).
  assert (E : alu_in w op x y = alu_in w op x' y') by (unfold alu_in; now rewrite Ex, Ey).
  destruct op, w; unfold aalu;
    try (rewrite alu_in_mov; cbn [bits]; rewrite uw_small by assumption; destruct (halve _ a); exact Hb);
    destruct (halve _ a) as [la|la|off], (halve _ b) as [lb|lb|off'];
    try exact Htop; try (rewrite E; now apply aalu_both); try (rewrite E; now apply (trunc_spec W32)).
  - destruct (one la) as [c|] eqn:E1; [|exact Htop]. rewrite E. cbn [has] in *.
    rewrite (one_spec la c x' E1 Ha'), Hb'. unfold alu_in; cbn [alu]. rewrite Z.add_comm. apply fp_plus.
  - destruct (one lb) as [c|] eqn:E1; [|exact Htop]. rewrite E. cbn [has] in *.
    rewrite (one_spec lb c y' E1 Hb'), Ha'. apply fp_plus.
Qed.

(** ** Conditional jumps *)

Definition negate (c : cond) : option cond :=
  match c with
  | EQ => Some NE | NE => Some EQ | GT => Some LE | LE => Some GT | GE => Some LT | LT => Some GE
  | SGT => Some SLE | SLE => Some SGT | SGE => Some SLT | SLT => Some SGE | SET => None
  end.

(** The test with its operands exchanged. *)
Definition swap (c : cond) : cond :=
  match c with
  | GT => LT | LT => GT | GE => LE | LE => GE | SGT => SLT | SLT => SGT | SGE => SLE | SLE => SGE
  | c => c
  end.

(** The unsigned values whose signed reading is in an interval. *)
Definition signed (n : Z) (i : itv) : list itv :=
  [(Z.max (fst i) 0, snd i); (fst i + 2 ^ n, Z.min (snd i) (-1) + 2 ^ n)].

(** The [w]-bit values that pass a test against the constant [b]. *)
Definition sat (w : width) (c : cond) (b : Z) : list itv :=
  let n := bits w in
  let m := 2 ^ n - 1 in let half := 2 ^ (n - 1) in let sb := sw n b in
  match c with
  | EQ => [(b, b)]
  | NE => [(0, b - 1); (b + 1, m)]
  | GT => [(b + 1, m)]
  | GE => [(b, m)]
  | LT => [(0, b - 1)]
  | LE => [(0, b)]
  | SGT => signed n (sb + 1, half - 1)
  | SGE => signed n (sb, half - 1)
  | SLT => signed n (- half, sb - 1)
  | SLE => signed n (- half, sb)
  | SET => [(0, m)]
  end.

Definition inter (l l' : list itv) : list itv :=
  filter (fun i => fst i <=? snd i)
    (map (fun '(i, j) => (Z.max (fst i) (fst j), Z.min (snd i) (snd j))) (list_prod l l')).

Definition fits (w : width) (i : itv) : bool := (0 <=? fst i) && (snd i <? 2 ^ bits w).

(** Addresses of the frame compare like their offsets. *)
Definition on_frame (o : Z) : bool := (- STACK_SIZE <=? o) && (o <? 0).
Definition plain (c : cond) : bool :=
  match c with EQ | NE | GT | GE | LT | LE => true | _ => false end.

(** The values of a set for which the test against another comes out as
    [want]. *)
Definition narrow (w : width) (c : cond) (la lb : list itv) (want : bool) : list itv :=
  match enum la, enum lb with
  | Some xs, Some ys => single (filter (fun x => existsb (fun y => Bool.eqb (cmp_in w c x y) want) ys) xs)
  | _, _ =>
      match one lb, (if want then Some c else negate c) with
      | Some k, Some c' => if forallb (fits w) la then inter la (sat w c' (uw (bits w) k)) else la
      | _, _ => la
      end
  end.

(** An interval cut where the high half changes: the high half and the low
    halves. *)
Definition BLOCKS : Z := 16.
Definition high (v : Z) : Z := v / 2 ^ 32.
Definition blocks (i : itv) : list (Z * itv) :=
  map (fun b => (2 ^ 32 * b, (Z.max (fst i) (2 ^ 32 * b) - 2 ^ 32 * b, Z.min (snd i - 2 ^ 32 * b) (2 ^ 32 - 1))))
      (zrange (high (fst i), high (snd i))).
Definition block_count (l : list itv) : Z :=
  fold_right (fun i n => Z.max 0 (high (snd i) - high (fst i) + 1) + n) 0 l.
Definition by_blocks (f : list itv -> list itv) (l : list itv) : list itv :=
  flat_map (fun i => flat_map (fun '(z, j) => map (fun r => (fst r + z, snd r + z)) (f [j])) (blocks i)) l.

(** A 32-bit test of a set of 64-bit values. *)
Definition narrow32 (c : cond) (la lb : list itv) (want : bool) : aval :=
  match enum la with
  | Some _ => Vals (narrow W32 c la lb want)
  | None =>
      if forallb (fits W32) la then Vals (narrow W32 c la lb want)
      else if block_count la <=? BLOCKS then Vals (by_blocks (fun l => narrow W32 c l lb want) la)
      else match one lb, (if want then Some c else negate c) with
           | Some _, Some _ => Low (narrow W32 c (map (trunc W32) la) lb want)
           | _, _ => Vals la
           end
  end.

(** The values of [a] for which the test against [b] comes out as [want]. *)
Definition refine (w : width) (c : cond) (a b : aval) (want : bool) : aval :=
  match w, a, b with
  | W64, FP x, FP y =>
      if on_frame x && on_frame y && plain c
      then if Bool.eqb (cmp W64 c (x + STACK_SIZE) (y + STACK_SIZE)) want then a else Vals []
      else a
  | W64, Vals la, Vals lb => Vals (narrow W64 c la lb want)
  | W32, Vals la, _ => narrow32 c la (low b) want
  | W32, Low la, _ => Low (narrow W32 c la (low b) want)
  | _, _, _ => a
  end.

Definition empty (a : aval) : bool :=
  match a with Vals [] | Low [] => true | _ => false end.

Lemma inter_spec l l' v : among l v -> among l' v -> among (inter l l') v.
Proof.
  intros (i & Hi & Hiv) (j & Hj & Hjv). unfold inside in *.
  exists (Z.max (fst i) (fst j), Z.min (snd i) (snd j)); split; [|unfold inside; cbn; lia].
  apply filter_In; split; [|cbn; apply Z.leb_le; lia].
  apply in_map_iff; exists (i, j); split; [reflexivity | now apply in_prod].
Qed.

Lemma signed_spec n i v : 0 < n -> is_u n v -> inside i (sw n v) -> among (signed n i) v.
Proof.
  unfold is_u, inside, signed, sw; intros Hn Hv; rewrite (uw_small n v) by assumption.
  destruct (v <? 2 ^ (n - 1)); intros Hi.
  - eexists; split; [now left|]. unfold inside; cbn [fst snd]; lia.
  - eexists; split; [right; now left|]. unfold inside; cbn [fst snd]; lia.
Qed.

Lemma sat_spec w c a b : is_u (bits w) a -> cmp w c a b = true -> among (sat w c b) a.
Proof.
  pose proof (bits_pos w) as Hw. intros Ha Ht.
  pose proof (sw_range (bits w) a Hw) as Hs.
  assert (Hone : forall lo hi, lo <= a <= hi -> among [(lo, hi)] a)
    by (intros lo hi ?; exists (lo, hi); split; [now left | assumption]).
  destruct c; cbn [sat cmp] in *; bsimp;
    try (apply signed_spec; [lia | assumption | unfold inside; cbn [fst snd]; lia]);
    try (apply Hone; unfold is_u in Ha; lia).
  unfold is_u in Ha. destruct (Z.lt_total a b) as [?|[?|?]]; [|lia|].
  - eexists; split; [now left|]. unfold inside; cbn [fst snd]; lia.
  - eexists; split; [right; now left|]. unfold inside; cbn [fst snd]; lia.
Qed.

Lemma negate_spec w c c' a b : negate c = Some c' -> cmp w c' a b = negb (cmp w c a b).
Proof.
  destruct c; intros [= <-]; cbn [cmp];
    rewrite ?negb_involutive, <- ?Z.ltb_antisym, <- ?Z.leb_antisym; reflexivity.
Qed.

Lemma swap_spec w c a b : cmp_in w (swap c) b a = cmp_in w c a b.
Proof.
  unfold cmp_in. destruct c; cbn [cmp swap]; rewrite ?(Z.eqb_sym (uw _ b)), ?(Z.land_comm (uw _ b)); reflexivity.
Qed.

Lemma cmp_in_idem w c a b : cmp_in w c a (uw (bits w) b) = cmp_in w c a b.
Proof. unfold cmp_in; rewrite (uw_uw (bits w) b); [reflexivity|]. pose proof (bits_pos w); lia. Qed.

Lemma fits_spec w l v : forallb (fits w) l = true -> among l v -> is_u (bits w) v.
Proof.
  rewrite forallb_forall; intros Hl (i & Hi & Hv); specialize (Hl i Hi).
  unfold fits in Hl; bsimp; unfold is_u, inside in *; lia.
Qed.

Lemma fp_cmp e c x y : STACK_SIZE <= fp e < 2 ^ 64 -> on_frame x = true -> on_frame y = true -> plain c = true ->
  cmp_in W64 c (u64 (fp e + x)) (u64 (fp e + y)) = cmp W64 c (x + STACK_SIZE) (y + STACK_SIZE).
Proof.
  unfold on_frame; intros He Hx Hy Hc; bsimp. unfold cmp_in; cbn [bits]. rewrite !(uw_uw 64) by lia.
  unfold STACK_SIZE in *. rewrite !uw_small by (unfold is_u; lia).
  destruct c; try discriminate; cbn [cmp]; apply eq_true_iff_eq;
    rewrite ?negb_true_iff, ?Z.eqb_neq, ?Z.eqb_eq, ?Z.ltb_lt, ?Z.leb_le; lia.
Qed.

Lemma narrow_spec w c la lb x y : among la x -> among lb y -> among (narrow w c la lb (cmp_in w c x y)) x.
Proof.
  intros Ha Hb. unfold narrow.
  assert (Ht : among match one lb, (if cmp_in w c x y then Some c else negate c) with
          | Some k, Some c' => if forallb (fits w) la then inter la (sat w c' (uw (bits w) k)) else la
          | _, _ => la
          end x).
  { destruct (one lb) as [k|] eqn:E1; [|assumption].
    apply (one_spec lb k y E1) in Hb as ->.
    destruct (forallb (fits w) la) eqn:Ef;
      [|destruct (cmp_in w c x k), (negate c); assumption].
    pose proof (fits_spec w la x Ef Ha) as Hx.
    destruct (if cmp_in w c x k then Some c else negate c) as [c'|] eqn:E2; [|assumption].
    apply inter_spec; [assumption|]. apply sat_spec; [assumption|].
    unfold cmp_in in E2; rewrite (uw_small _ x) in E2 by assumption.
    destruct (cmp w c x (uw (bits w) k)) eqn:E3.
    - injection E2 as <-; assumption.
    - rewrite (negate_spec w c c') by assumption. now rewrite E3. }
  destruct (enum la) as [xs|] eqn:Ea; [|assumption].
  destruct (enum lb) as [ys|] eqn:Eb; [|assumption].
  apply single_spec, filter_In; split; [eauto using enum_spec|].
  apply existsb_exists; exists y; split; [eauto using enum_spec | apply Bool.eqb_reflx].
Qed.

Lemma by_blocks_spec f l x :
  (forall j, inside j (u32 x) -> among (f [j]) (u32 x)) -> among l x -> among (by_blocks f l) x.
Proof.
  intros Hf. apply (among_flat_map (fun v => v)). intros i Hi.
  pose proof (Z.div_mod x (2 ^ 32) ltac:(lia)) as E. fold (high x) in E. change (x mod 2 ^ 32) with (u32 x) in E.
  pose proof (Z.mod_pos_bound x (2 ^ 32) ltac:(lia)) as B. change (x mod 2 ^ 32) with (u32 x) in B.
  set (z := 2 ^ 32 * high x) in *.
  set (j := (Z.max (fst i) z - z, Z.min (snd i - z) (2 ^ 32 - 1))).
  destruct (Hf j) as (r & Hr & R).
  { unfold inside, j in *; cbn [fst snd]. lia. }
  exists (fst r + z, snd r + z). split; [|unfold inside in *; cbn [fst snd]; lia].
  apply in_flat_map. exists (z, j). split; [|apply in_map_iff; now exists r].
  apply in_map_iff. exists (high x). split; [reflexivity|]. apply zrange_spec.
  unfold inside, high in *; cbn [fst snd]; split; apply Z.div_le_mono; lia.
Qed.

Lemma cmp_low c x y : cmp_in W32 c x y = cmp_in W32 c (u32 x) (u32 y).
Proof. unfold cmp_in; cbn [bits]. now rewrite !(uw_uw 32) by lia. Qed.

Lemma narrow_low c la lb x y : among la (u32 x) -> among lb (u32 y) ->
  among (narrow W32 c la lb (cmp_in W32 c x y)) (u32 x).
Proof. rewrite cmp_low. apply narrow_spec. Qed.

Lemma narrow32_spec e c la b x y : has e (Vals la) x -> has e b y ->
  has e (narrow32 c la (low b) (cmp_in W32 c x y)) x.
Proof.
  intros Ha Hb%low_spec. assert (H : among (narrow W32 c la (low b) (cmp_in W32 c x y)) x).
  { rewrite <- (cmp_in_idem W32 c x y). now apply narrow_spec. }
  unfold narrow32. destruct (enum la); [exact H|]. destruct (forallb (fits W32) la); [exact H|].
  destruct (block_count la <=? BLOCKS).
  - apply (by_blocks_spec (fun l => narrow W32 c l (low b) (cmp_in W32 c x y))); [|exact Ha].
    intros j Hj. apply narrow_low; [|exact Hb]. exists j. split; [now left | exact Hj].
  - destruct (one (low b)), (if cmp_in W32 c x y then Some c else negate c); try exact Ha.
    cbn [has]. apply narrow_low; [now apply (trunc_spec W32) | exact Hb].
Qed.

Lemma refine_spec e w c a b x y : STACK_SIZE <= fp e < 2 ^ 64 -> has e a x -> has e b y ->
  has e (refine w c a b (cmp_in w c x y)) x.
Proof.
  intros He Ha Hb. destruct w, a as [la|la|o], b as [lb|lb|o']; cbn [refine]; try assumption;
    try (apply narrow32_spec; assumption); try (apply (narrow_low c la), low_spec; assumption);
    try (apply (narrow_low c la); [assumption|]; exact (low_spec e _ y Hb)).
  - now apply narrow_spec.
  - destruct (on_frame o && on_frame o' && plain c) eqn:E; [|assumption]. bsimp.
    cbn [has] in Ha, Hb. subst x y. rewrite fp_cmp by assumption. now rewrite Bool.eqb_reflx.
Qed.

Lemma empty_spec e a v : has e a v -> empty a = false.
Proof. destruct a as [[|i l]|[|i l]|]; try reflexivity; intros (i & [] & _). Qed.

(** * The analysis *)

Definition aregs := reg -> aval.
Definition aset (f : aregs) (r : reg) (a : aval) : aregs :=
  fun r' => if reg_eqb r r' then a else f r'.

Definition aread (w : width) (f : aregs) (o : operand) : aval :=
  match o with Reg r => f r | Imm z => Vals [(imm_val w z, imm_val w z)] end.

(** The offset of an access of [n] bytes, if it is sure to be in the frame. *)
Definition aframe (a : aval) (off : Z) (n : nat) : option Z :=
  match a with
  | FP o => if (- STACK_SIZE <=? o + off) && (o + off + Z.of_nat n <=? 0) then Some (o + off) else None
  | _ => None
  end.

(** What is known of the stack: an entry [(o, n, a)] says that the [n] bytes at
    offset [o] read as a value of [a]. *)
Definition amem := list (Z * nat * aval).

Record astate := { ar : aregs; am : amem }.

Definition below (n : nat) : list itv := [(0, 2 ^ (8 * Z.of_nat n) - 1)].

(** [n] bytes from byte [d] of a value. *)
Definition cut (d : Z) (n : nat) (a : aval) : aval :=
  match a, d, n with
  | Low l, 0, 4%nat => Vals l
  | _, _, _ => lift1 (fun v => uw (8 * Z.of_nat n) (Z.shiftr v (8 * d))) (below n) a
  end.

Fixpoint aload (m : amem) (o : Z) (n : nat) : aval :=
  match m with
  | [] => Vals (below n)
  | (o', n', a) :: m =>
      if (o =? o') && Nat.eqb n n' then a
      else if (o' <=? o) && (o + Z.of_nat n <=? o' + Z.of_nat n') then cut (o - o') n a
      else aload m o n
  end.

Definition apart (o : Z) (n : nat) (x : Z * nat * aval) : bool :=
  let '(o', n', _) := x in (o + Z.of_nat n <=? o') || (o' + Z.of_nat n' <=? o).

Definition astore (m : amem) (o : Z) (n : nat) (a : aval) : amem :=
  (o, n, match n with 8%nat => a | _ => cut 0 n a end) :: filter (apart o n) m.

(** The stack after an atomic instruction at offset [o]. *)
Definition aatomic (op : atomic) (n : msize) (f : aregs) (o : Z) (old : aval) (m : amem) (r : reg) : amem :=
  match op with
  | Rmw x _ => astore m o (mbytes n) (aalu (mwidth n) x old (f r))
  | Xchg | StoreRel => astore m o (mbytes n) (f r)
  | CmpXchg => astore m o (mbytes n) (Vals (below (mbytes n)))
  | LoadAcq => m
  end.

Definition set_ar (s : astate) (f : aregs) : astate := {| ar := f; am := am s |}.

Definition aput (k : nat) (s : astate) (r : reg) (a : aval) : option (list (nat * astate)) :=
  if reg_eqb r R10 then None else Some [(S k, set_ar s (aset (ar s) r a))].

(** The registers on the branch of a test that came out as [want], if it can
    be taken: both operands are narrowed. *)
Definition branch (w : width) (c : cond) (f : aregs) (d : reg) (o : operand) (want : bool) : option aregs :=
  let b := aread w f o in
  let x := refine w c (f d) b want in
  let y := refine w (swap c) b (f d) want in
  if empty x || empty y then None
  else Some (match o with Reg r => aset (aset f d x) r y | Imm _ => aset f d x end).

Definition ajump (p : program) (k : nat) (s : astate) (w : width) (c : cond) (d : reg)
    (o : operand) (t : target) : option (list (nat * astate)) :=
  let fall := match branch w c (ar s) d o false with
              | Some f => [(S k, set_ar s f)]
              | None => []
              end in
  match branch w c (ar s) d o true with
  | None => Some fall
  | Some f => match resolve p k t with
              | Some k' => Some ((k', set_ar s f) :: fall)
              | None => None
              end
  end.

(** Sign extensions. *)
Definition sext (w : width) (n : Z) : list itv :=
  if (0 <? n) && (n <=? bits w) then signed (bits w) (- 2 ^ (n - 1), 2 ^ (n - 1) - 1) else top w.

(** The successors of an abstract state; [None] when the step may fault. *)
Definition astep (p : program) (k : nat) (s : astate) : option (list (nat * astate)) :=
  let f := ar s in
  match nth_error p k with
  | None | Some Exit => None
  | Some i =>
    match i with
    | Alu w op d o => aput k s d (aalu w op (f d) (aread w f o))
    | Movsx w n d r =>
        aput k s d (lift1 (movsx w n) (sext w n) (f r))
    | Neg w d => aput k s d (lift1 (neg w) (top w) (f d))
    | End op n d => aput k s d (lift1 (endian op n) [(0, 2 ^ ebits n - 1)] (f d))
    | LdImm64 d z => aput k s d (Vals [(u64 z, u64 z)])
    | Ldx n d b off =>
        match aframe (f b) off (mbytes n) with
        | Some o => aput k s d (aload (am s) o (mbytes n))
        | None => None
        end
    | Stx n b off v =>
        match aframe (f b) off (mbytes n) with
        | Some o => Some [(S k, {| ar := f; am := astore (am s) o (mbytes n) (aread W64 f v) |})]
        | None => None
        end
    | Ldsx n d b off =>
        match aframe (f b) off (mbytes n) with
        | Some o => aput k s d (lift1 (movsx W64 (8 * Z.of_nat (mbytes n)))
                      (sext W64 (8 * Z.of_nat (mbytes n))) (aload (am s) o (mbytes n)))
        | None => None
        end
    | Atomic op n b off r =>
        match aframe (f b) off (mbytes n) with
        | Some o =>
            if atomic_ok op n then
              let old := aload (am s) o (mbytes n) in
              let s' := {| ar := f; am := aatomic op n f o old (am s) r |} in
              match atomic_dest op r with
              | Some d => aput k s' d old
              | None => Some [(S k, s')]
              end
            else None
        | None => None
        end
    | Jmp w c d o t => ajump p k s w c d o t
    | Goto t => match resolve p k t with Some k' => Some [(k', s)] | None => None end
    | Call id =>
        if known_helper id
        then Some [(S k, set_ar s (aset (fun r => if caller_saved r then Vals (top W64) else f r)
                           R0 (Vals (top W64))))]
        else None
    | Lab _ => Some [(S k, s)]
    | Exit => None
    end
  end.

(** A bound over an interval on which a cast is increasing: one between two
    multiples of [d]. *)
Definition over (d : Z) (cast : Z -> Z) (lo hi : option Z) (i : itv) : bool :=
  match lo, hi with
  | None, None => true
  | _, _ => (fst i / d =? snd i / d) && at_least lo (cast (fst i)) && at_most hi (cast (snd i))
  end.

(** The known bits over an interval: the unknown ones are the low [k]. *)
Definition bits_over (vo : option (Z * Z)) (i : itv) : bool :=
  match vo with
  | None => true
  | Some (value, mask) =>
      let k := Z.log2 (mask + 1) in
      (0 <=? mask) && (mask =? 2 ^ k - 1) && (k <=? 64) &&
      (fst i / 2 ^ k =? snd i / 2 ^ k) && (value =? 2 ^ k * (fst i / 2 ^ k))
  end.

(** What the log says, over an interval. *)
Definition range_ok (sc : scalar) (i : itv) : bool :=
  (0 <=? fst i) && (snd i <? 2 ^ 64) &&
  over (2 ^ 63) (sw 64) (option_map (sw 64) (smin sc)) (option_map (sw 64) (smax sc)) i &&
  over (2 ^ 64) (fun v => v) (umin sc) (umax sc) i &&
  over (2 ^ 31) (sw 32) (smin32 sc) (smax32 sc) i &&
  over (2 ^ 32) (uw 32) (umin32 sc) (umax32 sc) i &&
  bits_over (var_off sc) i &&
  match known sc with Some c => (fst i =? u64 c) && (snd i =? u64 c) | None => true end.

Definition check (sc : scalar) (a : aval) : bool :=
  match a with
  | Vals l => match enum l with
              | Some vs => forallb (fscalar_ok sc) vs
              | None => forallb (range_ok sc) l
              end
  | _ => false
  end.

Fixpoint collect {A B} (f : A -> option (list B)) (l : list A) : option (list B) :=
  match l with
  | [] => Some []
  | a :: l' => match f a, collect f l' with
               | Some x, Some y => Some (x ++ y)
               | _, _ => None
               end
  end.

Definition is_exit (p : program) (k : nat) : bool :=
  match nth_error p k with Some Exit => true | _ => false end.

(** Where a register is copied, stored, compared with itself or added to an
    address of the frame, a small set of its values can be taken one at a time,
    so that what is derived from it stays linked to it. *)
Definition SPLIT : nat := 64.
Definition split_on (f : astate) (i : insn) : option reg :=
  match i with
  | Alu _ MOV _ (Reg r) | Stx _ _ _ (Reg r) => Some r
  | Alu W64 ADD d (Reg r) => match ar f d with FP _ => Some r | _ => None end
  | Jmp _ _ d (Reg r) _ => if reg_eqb d r then Some d else None
  | _ => None
  end.
Definition split_reg (r : reg) (f : astate) : list astate :=
  match ar f r with
  | Vals l => match enum l with
              | Some vs => if Nat.leb (List.length vs) SPLIT
                           then map (fun v => set_ar f (aset (ar f) r (Vals [(v, v)]))) vs else [f]
              | None => [f]
              end
  | _ => [f]
  end.
Definition astep_by (sp : bool) (p : program) (k : nat) (f : astate) : option (list (nat * astate)) :=
  match sp, option_map (split_on f) (nth_error p k) with
  | true, Some (Some r) => collect (astep p k) (split_reg r f)
  | _, _ => astep p k f
  end.

(** The value sets of [r0] at the exits reached from [(k, f)] in at most [n]
    steps, if every path ends there and every step on it passes the check. *)
Fixpoint survey (n : nat) (sp : bool) (chk : nat -> nat * astate -> bool) (p : program) (k : nat) (f : astate)
    : option (list aval) :=
  match n with
  | O => None
  | S n' =>
    if is_exit p k then Some [ar f R0]
    else match astep_by sp p k f with
         | None => None
         | Some succs =>
             if forallb (chk k) succs then collect (fun '(k', f') => survey n' sp chk p k' f') succs
             else None
         end
  end.

(** The same, where every claim is met. *)
Definition analyze (n : nat) (cl : list claim) : program -> nat -> astate -> option (list aval) :=
  survey n false (fun k x => claims_at cl k (fun r sc => check sc (ar (snd x) r))).

Definition start_regs : aregs :=
  fun r => match r with R10 => FP 0 | _ => Vals (top W64) end.
Definition start : astate := {| ar := start_regs; am := [] |}.

(** ** Soundness *)

Definition regs_agree (e : env) (f : aregs) (s : state) : Prop := forall r, has e (f r) (regs s r).

Definition entry_ok (e : env) (m : Z -> Z) (x : Z * nat * aval) : Prop :=
  let '(o, n, a) := x in
  - STACK_SIZE <= o /\ o + Z.of_nat n <= 0 /\ has e a (load m (u64 (fp e + o)) n).

Definition agrees (e : env) (f : astate) (s : state) : Prop :=
  regs_agree e (ar f) s /\ Forall (entry_ok e (mem s)) (am f).

Definition claims_hold (e : env) (p : program) (cl : list claim) (s : state) : Prop :=
  forall n s1 s2, run n e p s = Next s1 -> step e p s1 = Next s2 ->
    claims_at cl (pc s1) (fun r sc => scalar_ok sc (regs s2 r)) = true.

Lemma aset_agrees e f s r a v k c : agrees e f s -> has e a v ->
  agrees e (set_ar f (aset (ar f) r a)) {| pc := k; regs := set_reg (regs s) r v; mem := mem s; calls := c |}.
Proof.
  intros [Hf Hm] Ha; split; [|exact Hm].
  intros r'; unfold aset, set_reg; cbn [regs ar set_ar]. destruct (reg_eqb r r'); auto.
Qed.

Lemma aset_same e f s d a : agrees e f s -> has e a (regs s d) -> agrees e (set_ar f (aset (ar f) d a)) s.
Proof.
  intros [Hf Hm] Ha; split; [|exact Hm]. intros r; cbn [ar set_ar]; unfold aset.
  destruct (reg_eqb_spec d r) as [->|]; auto.
Qed.

Lemma aread_spec e w f s o : regs_agree e f s -> wf e s ->
  exists y, has e (aread w f o) y /\ is_u64 y /\ read w (regs s) o = uw (bits w) y.
Proof.
  intros Hf [Hr _]; destruct o as [r|z]; cbn [aread read].
  - exists (regs s r); auto.
  - exists (imm_val w z); repeat split.
    + exists (imm_val w z, imm_val w z); split; [now left | unfold inside; cbn; lia].
    + apply uw_bits_u64.
    + apply uw_bits_u64.
    + unfold imm_val. rewrite uw_uw; [reflexivity|]. pose proof (bits_pos w); lia.
Qed.

Lemma aframe_spec e a v off n o : STACK_SIZE <= fp e < 2 ^ 64 ->
  has e a v -> aframe a off n = Some o ->
  in_frame e (u64 (v + off)) (Z.of_nat n) = true /\ u64 (v + off) = u64 (fp e + o) /\
  - STACK_SIZE <= o /\ o + Z.of_nat n <= 0.
Proof.
  intros He Ha; destruct a as [| |x]; [discriminate|discriminate|]; cbn [aframe has] in *.
  destruct ((- STACK_SIZE <=? x + off) && (x + off + Z.of_nat n <=? 0)) eqn:E; [|discriminate].
  intros [= <-]; bsimp; subst v. unfold STACK_SIZE in *.
  assert (A : u64 (u64 (fp e + x) + off) = u64 (fp e + (x + off)))
    by (unfold uw; rewrite Zplus_mod_idemp_l; f_equal; lia).
  split; [|split; [exact A | lia]]. apply in_frame_spec. unfold STACK_SIZE. rewrite A.
  destruct (Z.eq_dec (x + off) 0) as [Z0|Z0]; [|rewrite uw_small by (unfold is_u; lia); lia].
  destruct n; [|lia]. rewrite uw_small by (unfold is_u; lia). lia.
Qed.

(** ** The stack *)

Lemma load_ext m m' n : forall a, (forall x, a <= x < a + Z.of_nat n -> m x = m' x) -> load m a n = load m' a n.
Proof.
  induction n as [|n IH]; intros a H; [reflexivity|]. cbn [load]. rewrite (H a) by lia. f_equal. f_equal.
  apply IH; intros; apply H; lia.
Qed.

Lemma load_store_other m v n : forall a b k, b + Z.of_nat k <= a \/ a + Z.of_nat n <= b ->
  load (store m a v n) b k = load m b k.
Proof.
  intros a b k H. apply load_ext. intros x Hx. revert a v H; induction n as [|n IH]; intros a v H; [reflexivity|].
  cbn [store]. destruct (Z.eqb_spec x a); [lia|]. apply IH; lia.
Qed.

Lemma bytes_split v n : u8 v + 256 * uw (8 * Z.of_nat n) (Z.shiftr v 8) = uw (8 * Z.of_nat (S n)) v.
Proof.
  unfold uw. rewrite Z.shiftr_div_pow2 by lia. replace (8 * Z.of_nat (S n)) with (8 + 8 * Z.of_nat n) by lia.
  rewrite Z.pow_add_r by lia. change (2 ^ 8) with 256.
  pose proof (Z.pow_pos_nonneg 2 (8 * Z.of_nat n) ltac:(lia) ltac:(lia)).
  rewrite Z.rem_mul_r by lia. reflexivity.
Qed.

Lemma load_store_same m n : forall a v, load (store m a v n) a n = uw (8 * Z.of_nat n) v.
Proof.
  induction n as [|n IH]; intros a v; [cbn; unfold uw; now rewrite Z.mod_1_r|].
  cbn [load store]. rewrite Z.eqb_refl, (uw_uw 8) by lia.
  rewrite (load_ext _ (store m (a + 1) (Z.shiftr v 8) n)).
  - rewrite IH. apply bytes_split.
  - intros x Hx. destruct (Z.eqb_spec x a); [lia | reflexivity].
Qed.

Lemma load_cut m d : forall n' a n, (d + n <= n')%nat ->
  load m (a + Z.of_nat d) n = uw (8 * Z.of_nat n) (Z.shiftr (load m a n') (8 * Z.of_nat d)).
Proof.
  induction d as [|d IH]; intros n' a n H.
  - rewrite Z.add_0_r, Z.shiftr_0_r. revert n' a H; induction n as [|n IHn]; intros n' a H.
    + cbn; unfold uw; now rewrite Z.mod_1_r.
    + destruct n' as [|n']; [lia|]. cbn [load]. rewrite (IHn n') by lia. symmetry. rewrite <- bytes_split.
      pose proof (u8_range (m a)) as R. unfold is_u in R. f_equal.
      * unfold uw. rewrite Z.mul_comm, Z.mod_add by lia. apply Z.mod_mod; lia.
      * f_equal; f_equal. rewrite Z.shiftr_div_pow2 by lia. change (2 ^ 8) with 256 in *.
        rewrite Z.mul_comm, Z.div_add, Z.div_small by lia. reflexivity.
  - destruct n' as [|n']; [lia|]. replace (a + Z.of_nat (S d)) with (a + 1 + Z.of_nat d) by lia.
    rewrite (IH n') by lia. f_equal. replace (8 * Z.of_nat (S d)) with (8 + 8 * Z.of_nat d) by lia.
    rewrite <- Z.shiftr_shiftr by lia. f_equal. cbn [load]. pose proof (u8_range (m a)) as R. unfold is_u in R.
    rewrite Z.shiftr_div_pow2 by lia. change (2 ^ 8) with 256 in *.
    rewrite Z.mul_comm, Z.div_add, Z.div_small by lia. reflexivity.
Qed.

Lemma among_below n v : is_u (8 * Z.of_nat n) v -> among (below n) v.
Proof.
  intros Hv; exists (0, 2 ^ (8 * Z.of_nat n) - 1); split; [now left|].
  unfold inside, is_u in *; cbn [fst snd]; lia.
Qed.

Lemma cut_spec e d n a v : has e a v -> has e (cut d n a) (uw (8 * Z.of_nat n) (Z.shiftr v (8 * d))).
Proof.
  intros Ha. assert (D : has e (lift1 (fun v => uw (8 * Z.of_nat n) (Z.shiftr v (8 * d))) (below n) a)
                           (uw (8 * Z.of_nat n) (Z.shiftr v (8 * d)))).
  { apply (lift1_spec e (fun v => uw (8 * Z.of_nat n) (Z.shiftr v (8 * d)))); [|exact Ha].
    intros x; apply among_below, uw_range. lia. }
  unfold cut. destruct a as [l|l|o]; try exact D. destruct d; try exact D.
  do 4 (destruct n as [|n]; [exact D|]). destruct n as [|n]; [|exact D]. cbn [has] in *. now rewrite Z.shiftr_0_r.
Qed.

(** An address of the frame. *)
Lemma frame_addr e o : STACK_SIZE <= fp e < 2 ^ 64 -> - STACK_SIZE <= o <= 0 -> u64 (fp e + o) = fp e + o.
Proof. intros; apply uw_small; unfold is_u, STACK_SIZE in *; lia. Qed.

Lemma aload_spec e m am0 o n : STACK_SIZE <= fp e < 2 ^ 64 -> - STACK_SIZE <= o -> o + Z.of_nat n <= 0 ->
  Forall (entry_ok e m) am0 -> has e (aload am0 o n) (load m (u64 (fp e + o)) n).
Proof.
  intros He H1 H2; induction 1 as [|[[o' n'] a] am0 (E1 & E2 & Ha) _ IH]; cbn [aload].
  - apply among_below, load_range.
  - destruct ((o =? o') && Nat.eqb n n') eqn:E.
    + apply andb_prop in E as [->%Z.eqb_eq ->%Nat.eqb_eq]. exact Ha.
    + destruct ((o' <=? o) && (o + Z.of_nat n <=? o' + Z.of_nat n')) eqn:E'; [|exact IH]. bsimp.
      apply (cut_spec e (o - o') n) in Ha. rewrite !frame_addr in * by lia.
      rewrite <- (Z2Nat.id (o - o')) in Ha at 2 by lia. rewrite <- load_cut in Ha by lia.
      rewrite Z2Nat.id in Ha by lia. replace (fp e + o' + (o - o')) with (fp e + o) in Ha by lia. exact Ha.
Qed.

Lemma astore_spec e m am0 o n a v : STACK_SIZE <= fp e < 2 ^ 64 -> - STACK_SIZE <= o -> o + Z.of_nat n <= 0 ->
  is_u64 v -> has e a v -> Forall (entry_ok e m) am0 ->
  Forall (entry_ok e (store m (u64 (fp e + o)) v n)) (astore am0 o n a).
Proof.
  intros He H1 H2 Hv Ha Hm. unfold astore. constructor.
  - split; [exact H1|]. split; [exact H2|]. rewrite load_store_same.
    assert (Hc : has e (cut 0 n a) (uw (8 * Z.of_nat n) v)) by exact (cut_spec e 0 n a v Ha).
    do 8 (destruct n as [|n]; [exact Hc|]). destruct n as [|n]; [|exact Hc].
    change (8 * Z.of_nat 8) with 64. now rewrite uw_small.
  - rewrite Forall_forall in *. intros [[o' n'] b] [Hin Hp]%filter_In.
    destruct (Hm _ Hin) as (E1 & E2 & Hb). split; [exact E1|]. split; [exact E2|]. cbn [apart] in Hp.
    rewrite !frame_addr in * by lia. rewrite load_store_other; [exact Hb|].
    apply orb_prop in Hp as [Hp|Hp]; apply Z.leb_le in Hp; lia.
Qed.

Lemma astore_any e m am0 o n : - STACK_SIZE <= o -> o + Z.of_nat n <= 0 ->
  Forall (entry_ok e m) am0 -> Forall (entry_ok e m) (astore am0 o n (Vals (below n))).
Proof.
  intros H1 H2 Hm. unfold astore. constructor.
  - split; [exact H1|]. split; [exact H2|]. assert (T : has e (Vals (below n)) (load m (u64 (fp e + o)) n))
      by apply among_below, load_range.
    assert (C : has e (cut 0 n (Vals (below n))) (load m (u64 (fp e + o)) n)).
    { apply (cut_spec e 0 n) in T. rewrite Z.mul_0_r, Z.shiftr_0_r, uw_small in T by apply load_range. exact T. }
    do 8 (destruct n as [|n]; [exact C|]). destruct n; [exact T | exact C].
  - rewrite Forall_forall in *. now intros x [Hx _]%filter_In; apply Hm.
Qed.

Lemma aatomic_spec e s f op n o r : STACK_SIZE <= fp e < 2 ^ 64 -> wf e s -> agrees e f s ->
  - STACK_SIZE <= o -> o + Z.of_nat (mbytes n) <= 0 ->
  let old := load (mem s) (u64 (fp e + o)) (mbytes n) in
  Forall (entry_ok e (match atomic_new op n (regs s) old r with
                      | Some v => store (mem s) (u64 (fp e + o)) v (mbytes n)
                      | None => mem s
                      end)) (aatomic op n (ar f) o (aload (am f) o (mbytes n)) (am f) r).
Proof.
  intros He [Hs _] [Hr Hm] H1 H2 old. pose proof (aload_spec e (mem s) (am f) o (mbytes n) He H1 H2 Hm) as Ho.
  destruct op as [x fetch| | | |]; cbn [atomic_new aatomic]; try exact Hm; try now apply astore_spec.
  - apply astore_spec; auto using alu_in_u64. apply aalu_spec; auto.
    pose proof (load_range (mem s) (u64 (fp e + o)) (mbytes n)) as R. unfold is_u64, is_u in *.
    subst old. destruct n; cbn [mbytes] in *; cbn in R; cbn; lia.
  - destruct (_ =? _); [|now apply astore_any]. cbv beta iota.
    pose proof (astore_spec e (mem s) (am f) o (mbytes n) (ar f r) (regs s r) He H1 H2 (Hs r) (Hr r) Hm) as F.
    unfold astore in *. inversion F as [|? ? F1 F2]; subst. constructor; [|exact F2].
    pose proof (astore_any e (store (mem s) (u64 (fp e + o)) (regs s r) (mbytes n)) [] o (mbytes n) H1 H2 ltac:(constructor)) as G.
    unfold astore in G. now inversion G.
Qed.

Definition covers (e : env) (succs : list (nat * astate)) (s' : state) : Prop :=
  exists f', In (pc s', f') succs /\ agrees e f' s'.

Lemma aput_sound e f s r a v succs : agrees e f s -> has e a v ->
  aput (pc s) f r a = Some succs -> exists s', put s r v = Next s' /\ covers e succs s'.
Proof.
  unfold aput, put; intros Hf Ha; destruct (reg_eqb r R10); [discriminate|]; intros [= <-].
  eexists; split; [reflexivity|]. eexists; split; [now left|]. now apply aset_agrees.
Qed.

Lemma branch_sound e f s w c d o : STACK_SIZE <= fp e < 2 ^ 64 -> wf e s -> agrees e f s ->
  exists g, branch w c (ar f) d o (cmp_in w c (regs s d) (read w (regs s) o)) = Some g /\ agrees e (set_ar f g) s.
Proof.
  intros Hfp Hs Hf. pose proof Hf as [Hr _]. unfold branch.
  assert (V : exists y, has e (aread w (ar f) o) y /\ read w (regs s) o = uw (bits w) y /\
                match o with Reg r => y = regs s r | Imm _ => True end).
  { destruct o as [r|z]; [exists (regs s r); repeat split; apply Hr|].
    destruct (aread_spec e w (ar f) s (Imm z) Hr Hs) as (y & ? & _ & ?). now exists y. }
  destruct V as (y & Hy & -> & Ho). rewrite cmp_in_idem.
  pose proof (refine_spec e w c _ _ _ y Hfp (Hr d) Hy) as X.
  pose proof (refine_spec e w (swap c) _ _ _ _ Hfp Hy (Hr d)) as Y. rewrite swap_spec in Y.
  rewrite (empty_spec e _ _ X), (empty_spec e _ _ Y). cbn [orb].
  eexists; split; [reflexivity|]. pose proof (aset_same e f s d _ Hf X) as G.
  destruct o as [r|z]; [subst y | exact G]. exact (aset_same e _ s r _ G Y).
Qed.

Lemma ajump_sound e p f s w c d o t succs : STACK_SIZE <= fp e < 2 ^ 64 -> wf e s -> agrees e f s ->
  ajump p (pc s) f w c d o t = Some succs ->
  exists s', (if cmp_in w c (regs s d) (read w (regs s) o) then goto p s t else next s) = Next s'
             /\ covers e succs s'.
Proof.
  unfold ajump; intros Hfp Hs Hf Hj.
  destruct (branch_sound e f s w c d o Hfp Hs Hf) as (g & Hb & Hg).
  destruct (cmp_in w c (regs s d) (read w (regs s) o)); rewrite Hb in Hj.
  - unfold goto. destruct (resolve p (pc s) t) as [k|]; [|discriminate].
    injection Hj as <-. eexists; split; [reflexivity|]. exists (set_ar f g); split; [now left | exact Hg].
  - eexists; split; [reflexivity|]. exists (set_ar f g); split; [|exact Hg].
    destruct (branch w c (ar f) d o true); [|injection Hj as <-; now left].
    destruct (resolve p (pc s) t); [|discriminate]. injection Hj as <-; right; now left.
Qed.

Lemma movsx_set w k x : among (sext w k) (movsx w k x).
Proof.
  unfold sext.
  pose proof (bits_pos w) as Hw.
  destruct ((0 <? k) && (k <=? bits w)) eqn:E; [|apply among_top, movsx_range].
  bsimp. apply signed_spec; [assumption | apply movsx_range|].
  pose proof (sw_range k x ltac:(lia)) as Hs.
  assert (2 ^ (k - 1) <= 2 ^ (bits w - 1)) by (apply Z.pow_le_mono_r; lia).
  unfold movsx.
  assert (sw (bits w) (uw (bits w) (sw k x)) = sw k x) as ->.
  { unfold sw at 1. rewrite uw_uw by lia.
    change (sw (bits w) (sw k x) = sw k x). apply sw_small; lia. }
  unfold inside; cbn [fst snd]; lia.
Qed.

Lemma among_bits n v : is_u n v -> among [(0, 2 ^ n - 1)] v.
Proof. intros Hv; exists (0, 2 ^ n - 1); split; [now left|]. unfold inside, is_u in *; cbn [fst snd]; lia. Qed.

Lemma among_const c : among [(c, c)] c.
Proof. exists (c, c); split; [now left | unfold inside; cbn; lia]. Qed.

Lemma astep_sound e p f s succs : STACK_SIZE <= fp e < 2 ^ 64 -> wf e s -> agrees e f s ->
  astep p (pc s) f = Some succs ->
  exists s', step e p s = Next s' /\ covers e succs s'.
Proof.
  intros He Hs Hf; pose proof Hf as [Hr Hm]; unfold astep, step.
  destruct (nth_error p (pc s)) as [i|]; [|discriminate].
  destruct i as [w op d o|w k d r|w d|op k d|d z|n d b off|n d b off|n b off o|op n b off r|w c d o t|t|id| |l].
  - destruct (aread_spec e w (ar f) s o Hr Hs) as (y & Hy & Hyu & ->).
    rewrite alu_in_idem. apply aput_sound; [assumption|]. apply aalu_spec; auto. apply Hs.
  - apply aput_sound; [assumption|]. apply lift1_spec; [apply movsx_set | apply Hr].
  - apply aput_sound; [assumption|]. apply lift1_spec; [|apply Hr].
    intros; apply among_top, neg_range.
  - apply aput_sound; [assumption|]. apply lift1_spec; [|apply Hr].
    intros; apply among_bits, endian_range.
  - apply aput_sound; [assumption | apply among_const].
  - destruct (aframe (ar f b) off _) as [o|] eqn:Ea; [|discriminate].
    destruct (aframe_spec e (ar f b) (regs s b) off _ o He (Hr b) Ea) as (-> & -> & O1 & O2).
    apply aput_sound; [assumption|]. now apply aload_spec.
  - destruct (aframe (ar f b) off _) as [o|] eqn:Ea; [|discriminate].
    destruct (aframe_spec e (ar f b) (regs s b) off _ o He (Hr b) Ea) as (-> & -> & O1 & O2).
    apply aput_sound; [assumption|]. apply lift1_spec; [intros; apply movsx_set | now apply aload_spec].
  - destruct (aframe (ar f b) off _) as [z|] eqn:Ea; [|discriminate].
    destruct (aframe_spec e (ar f b) (regs s b) off _ z He (Hr b) Ea) as (-> & -> & O1 & O2). intros [= <-].
    eexists; split; [reflexivity|]. eexists; split; [now left|]. split; [exact Hr|]. cbn [am mem].
    destruct (aread_spec e W64 (ar f) s o Hr Hs) as (y & Hy & Hyu & ->). cbn [bits]. rewrite (uw_small 64 y) by exact Hyu.
    now apply astore_spec.
  - destruct (aframe (ar f b) off _) as [o|] eqn:Ea; [|discriminate].
    destruct (aframe_spec e (ar f b) (regs s b) off _ o He (Hr b) Ea) as (-> & -> & O1 & O2).
    destruct (atomic_ok op n); [|discriminate]. cbn [andb]. cbv zeta.
    pose proof (aatomic_spec e s f op n o r He Hs Hf O1 O2) as Hm'. cbv zeta in Hm'.
    set (f' := {| ar := ar f; am := _ |}). set (s' := {| pc := pc s; regs := regs s; mem := _; calls := calls s |}).
    assert (Hf' : agrees e f' s') by (split; [exact Hr | exact Hm']).
    destruct (atomic_dest op r) as [d|].
    + apply (aput_sound e f' s'); [exact Hf' | now apply aload_spec].
    + intros [= <-]. eexists; split; [reflexivity|]. exists f'. split; [now left | exact Hf'].
  - now apply ajump_sound.
  - unfold goto; destruct (resolve p (pc s) t) as [k|]; [|discriminate]. intros [= <-].
    eexists; split; [reflexivity|]. exists f; split; [now left | exact Hf].
  - destruct (known_helper id); [|discriminate]. intros [= <-].
    eexists; split; [reflexivity|]. eexists; split; [now left|]. split; [|exact Hm].
    intros r; cbn [ar set_ar]; unfold aset, set_reg; cbn [regs].
    destruct r; cbn [reg_eqb caller_saved]; try apply Hr; apply among_top, u64_range.
  - discriminate.
  - intros [= <-]. eexists; split; [reflexivity|]. exists f; split; [now left | exact Hf].
Qed.

(** A cast that only takes off a constant. *)
Lemma over_spec d cast lo hi i v : 0 < d -> inside i v ->
  (forall x y, x / d = y / d -> cast x - x = cast y - y) -> over d cast lo hi i = true ->
  at_least lo (cast v) && at_most hi (cast v) = true.
Proof.
  intros Hd [H1 H2] Hc. unfold over. destruct lo as [a|], hi as [b|]; [| | |reflexivity];
    intros [[E A]%andb_prop B]%andb_prop; apply Z.eqb_eq in E;
    (assert (Ev : v / d = fst i / d) by (pose proof (Z.div_le_mono (fst i) v d Hd H1); pose proof (Z.div_le_mono v (snd i) d Hd H2); lia));
    pose proof (Hc v (fst i) Ev); pose proof (Hc v (snd i) ltac:(congruence));
    unfold at_least, at_most in *; bsimp; lia.
Qed.

Lemma sw_block n x y : 0 < n -> x / 2 ^ (n - 1) = y / 2 ^ (n - 1) -> sw n x - x = sw n y - y.
Proof.
  intros Hn E. unfold sw, uw. assert (P : 2 ^ n = 2 ^ (n - 1) * 2) by (rewrite Z.mul_comm, <- Z.pow_succ_r by lia; f_equal; lia).
  assert (0 < 2 ^ (n - 1)) by (apply Z.pow_pos_nonneg; lia). set (h := 2 ^ (n - 1)) in *. rewrite P. clearbody h.
  rewrite !Z.rem_mul_r by lia. pose proof (Z.mod_pos_bound x h ltac:(lia)). pose proof (Z.mod_pos_bound y h ltac:(lia)).
  pose proof (Z.div_mod x h ltac:(lia)) as X. pose proof (Z.div_mod y h ltac:(lia)) as Y. rewrite E in *.
  set (k := y / h) in *. clearbody k. pose proof (Z.mod_pos_bound k 2 ltac:(lia)) as B.
  assert (C : k mod 2 = 0 \/ k mod 2 = 1) by lia.
  destruct C as [-> | ->]; rewrite ?Z.mul_0_r, ?Z.mul_1_r, ?Z.add_0_r;
    destruct (Z.ltb_spec (x mod h) h), (Z.ltb_spec (y mod h) h), (Z.ltb_spec (x mod h + h) h), (Z.ltb_spec (y mod h + h) h); lia.
Qed.

Lemma uw_block n x y : 0 <= n -> x / 2 ^ n = y / 2 ^ n -> uw n x - x = uw n y - y.
Proof.
  intros Hn E. unfold uw. assert (0 < 2 ^ n) by (apply Z.pow_pos_nonneg; lia).
  pose proof (Z.div_mod x (2 ^ n) ltac:(lia)). pose proof (Z.div_mod y (2 ^ n) ltac:(lia)). rewrite E in *. lia.
Qed.

Lemma land_high v k : is_u64 v -> 0 <= k -> Z.land v (notw 64 (2 ^ k - 1)) = 2 ^ k * (v / 2 ^ k).
Proof.
  intros Hv Hk. unfold notw. assert (E : uw 64 (Z.lnot (2 ^ k - 1)) = Z.land (Z.lnot (Z.ones k)) (Z.ones 64))
    by (rewrite Z.land_ones, Z.ones_equiv by lia; reflexivity).
  rewrite E, (Z.land_comm (Z.lnot _)), Z.land_assoc, Z.land_ones, (Z.mod_small v) by (exact Hv || lia).
  rewrite <- Z.ldiff_land, Z.ldiff_ones_r, Z.shiftl_mul_pow2, Z.shiftr_div_pow2 by lia. lia.
Qed.

Lemma bits_over_spec vo i v : inside i v -> is_u64 v -> bits_over vo i = true ->
  match vo with Some (value, mask) => Z.land v (notw 64 mask) =? value | None => true end = true.
Proof.
  destruct vo as [[value mask]|]; [|reflexivity]. cbn [bits_over]. intros [H1 H2] Hv B. set (k := Z.log2 (mask + 1)) in *.
  assert (Hk : 0 <= k) by apply Z.log2_nonneg. assert (0 < 2 ^ k) by (apply Z.pow_pos_nonneg; lia). bsimp. subst value.
  match goal with E : mask = _ |- _ => rewrite E end. rewrite land_high by assumption. apply Z.eqb_eq. f_equal.
  pose proof (Z.div_le_mono (fst i) v (2 ^ k) ltac:(lia) H1). pose proof (Z.div_le_mono v (snd i) (2 ^ k) ltac:(lia) H2). lia.
Qed.

Lemma range_ok_spec sc i v : range_ok sc i = true -> inside i v -> scalar_ok sc v = true.
Proof.
  unfold range_ok, scalar_ok; intros R Hi. apply andb_prop in R as [R Kn]. apply andb_prop in R as [R Bo].
  apply andb_prop in R as [R O4]. apply andb_prop in R as [R O3]. apply andb_prop in R as [R O2]. apply andb_prop in R as [R O1].
  apply andb_prop in R as [R1 R2]. apply Z.leb_le in R1. apply Z.ltb_lt in R2.
  assert (Hv : is_u64 v) by (unfold inside, is_u in *; lia).
  apply (over_spec _ _ _ _ i v) in O1 as [A1 A2]%andb_prop; [|reflexivity | exact Hi | exact (fun x y => sw_block 64 x y eq_refl)].
  apply (over_spec _ _ _ _ i v) in O2 as [B1 B2]%andb_prop; [|reflexivity | exact Hi | intros; lia].
  apply (over_spec _ _ _ _ i v) in O3 as [C1 C2]%andb_prop; [|reflexivity | exact Hi | exact (fun x y => sw_block 32 x y eq_refl)].
  apply (over_spec _ _ _ _ i v) in O4 as [D1 D2]%andb_prop; [|reflexivity | exact Hi | intros x y; apply uw_block; lia].
  rewrite A1, A2, B1, B2, C1, C2, D1, D2. cbn [andb]. rewrite (bits_over_spec _ i v Hi Hv Bo).
  destruct (known sc); [|reflexivity]. unfold inside in Hi. bsimp. apply Z.eqb_eq. lia.
Qed.

Lemma check_sound e sc a v : check sc a = true -> has e a v -> scalar_ok sc v = true.
Proof.
  destruct a as [l| |]; try discriminate; cbn [check].
  destruct (enum l) as [vs|] eqn:E; rewrite forallb_forall; intros Hc Hv.
  - rewrite <- fscalar_ok_eq; eapply Hc, enum_spec; eauto.
  - destruct Hv as (i & Hi & V). eapply range_ok_spec; eauto.
Qed.

Lemma claims_at_impl cl k f g : (forall r sc, f r sc = true -> g r sc = true) ->
  claims_at cl k f = true -> claims_at cl k g = true.
Proof.
  unfold claims_at; rewrite !forallb_forall; intros Hfg Hf [k' [r sc]] Hi.
  specialize (Hf _ Hi); cbn in Hf. destruct (Nat.eqb k' k); auto.
Qed.

Lemma collect_spec {A B} (f : A -> option (list B)) l r a :
  collect f l = Some r -> In a l -> exists x, f a = Some x /\ incl x r.
Proof.
  revert r; induction l as [|b l IH]; intros r Hc []; cbn [collect] in Hc;
    destruct (f b) as [x|] eqn:E; try discriminate;
    destruct (collect f l) as [y|]; try discriminate; injection Hc as <-.
  - subst; exists x; split; [assumption | apply incl_appl, incl_refl].
  - destruct (IH y eq_refl H) as (z & ? & ?). exists z; split; [assumption | now apply incl_appr].
Qed.

Lemma exit_spec e p s : is_exit p (pc s) = true -> step e p s = Return (regs s R0).
Proof.
  unfold is_exit, step; destruct (nth_error p (pc s)) as [[]|]; try discriminate; reflexivity.
Qed.

(** Every step of a run passes the check, in a state that agrees. *)
Definition checked (e : env) (p : program) (chk : nat -> nat * astate -> bool) (s : state) : Prop :=
  forall n s1 s2, run n e p s = Next s1 -> step e p s1 = Next s2 ->
    exists f, chk (pc s1) (pc s2, f) = true /\ agrees e f s2.

Lemma split_spec e r f s : agrees e f s -> exists g, In g (split_reg r f) /\ agrees e g s.
Proof.
  intros Hf. unfold split_reg. pose proof (proj1 Hf r) as Hr. destruct (ar f r) as [l| |]; try (exists f; split; [now left | exact Hf]).
  destruct (enum l) as [vs|] eqn:E; [|exists f; split; [now left | exact Hf]].
  destruct (Nat.leb _ _); [|exists f; split; [now left | exact Hf]].
  eexists. split; [apply in_map, (enum_spec l vs (regs s r) E Hr)|]. apply aset_same; [exact Hf | apply among_const].
Qed.

Lemma astep_by_sound sp e p f s succs : STACK_SIZE <= fp e < 2 ^ 64 -> wf e s -> agrees e f s ->
  astep_by sp p (pc s) f = Some succs ->
  exists s', step e p s = Next s' /\ covers e succs s'.
Proof.
  intros He Hs Hf. unfold astep_by. destruct sp; [|now apply astep_sound].
  destruct (option_map (split_on f) (nth_error p (pc s))) as [[r|]|]; try now apply astep_sound.
  intros Hc. destruct (split_spec e r f s Hf) as (g & Hg & Ag). destruct (collect_spec _ _ _ _ Hc Hg) as (x & Hx & Hincl).
  destruct (astep_sound e p g s x He Hs Ag Hx) as (s' & Hst & f' & Hin & Hf'). exists s'. split; [exact Hst|]. exists f'. auto.
Qed.

Lemma survey_sound n sp chk p e f s rets : STACK_SIZE <= fp e < 2 ^ 64 -> wf e s -> agrees e f s ->
  survey n sp chk p (pc s) f = Some rets ->
  checked e p chk s /\
  exists v a, run n e p s = Return v /\ In a rets /\ has e a v.
Proof.
  intros He; revert s f rets; induction n as [|n IH]; intros s f rets Hs Hf Ha; [discriminate|].
  cbn [survey] in Ha. destruct (is_exit p (pc s)) eqn:Ei.
  - injection Ha as <-. pose proof (exit_spec e p s Ei) as Hx.
    split; [intros [|m] s1 s2; cbn [run]; [intros [= <-]|]; now rewrite Hx|].
    exists (regs s R0), (ar f R0); cbn [run]; rewrite Hx. split; [reflexivity|].
    split; [now left | apply Hf].
  - destruct (astep_by sp p (pc s) f) as [succs|] eqn:Es; [|discriminate].
    case_if_in Ha; [|discriminate].
    destruct (astep_by_sound sp e p f s succs He Hs Hf Es) as (s' & Hst & f' & Hin & Hf').
    destruct (collect_spec _ _ _ _ Ha Hin) as (x & Hx & Hincl).
    destruct (IH s' f' x) as (Hcl & v & a & Hrun & Hina & Hv); auto.
    { now apply (step_wf e p s). }
    split.
    + intros [|m] s1 s2; cbn [run]; rewrite ?Hst; [intros [= <-]; rewrite Hst; intros [= <-] | apply Hcl].
      rewrite forallb_forall in Hif. exists f'. split; [exact (Hif _ Hin) | exact Hf'].
    + exists v, a; cbn [run]; rewrite Hst; auto.
Qed.

Lemma analyze_sound n cl p e f s rets : STACK_SIZE <= fp e < 2 ^ 64 -> wf e s -> agrees e f s ->
  analyze n cl p (pc s) f = Some rets ->
  claims_hold e p cl s /\
  exists v a, run n e p s = Return v /\ In a rets /\ has e a v.
Proof.
  intros He Hs Hf Ha. destruct (survey_sound n _ _ p e f s rets He Hs Hf Ha) as [Hc Hr]. split; [|exact Hr].
  intros m s1 s2 H1 H2. destruct (Hc m s1 s2 H1 H2) as (f' & C & A).
  eapply claims_at_impl; [|exact C]. intros r sc Hk; apply (check_sound e _ _ _ Hk), A.
Qed.

Lemma start_agrees e s : starts e s -> agrees e start s.
Proof.
  intros (_ & _ & Hr & H10 & Hfp). split; [|constructor]. intros r.
  destruct r; cbn [ar start start_regs has]; try apply among_top, Hr.
  rewrite H10, Z.add_0_r, uw_small; [reflexivity|].
  unfold is_u, STACK_SIZE in *; lia.
Qed.
