(* ===== verification/Loader.v ===== *)
(** The test loader's contract: the [test_tags!] declarations of a translated
    test program and what they promise of it.

    A test is the verbatim tags and assembly text of one naked function.
    [passes] states the promise of a [__success] test for every start of the
    program and every result of its helper calls: it returns, without a fault,
    the value [__retval] declares, and each register state that an expected
    verifier log line ([__msg]) shows is true whenever execution reaches that
    instruction.  [rewritten] states that the kernel's translated listing
    ([__xlated]) computes the same value on a machine whose division
    instructions trap.  Both have an executable check proved sound. *)

From S2P Require Import Prelude Bpf Asm Range.
From Stdlib Require Import String Ascii.
Local Open Scope string_scope.
Local Open Scope Z_scope.

(** * Tags *)

Inductive tag :=
  | __description (s : string)
  | __success
  | __success_unpriv
  | __failure
  | __failure_unpriv
  | __retval (s : string)
  | __log_level (s : string)
  | __msg (s : string)
  | __msg_next (s : string)
  | __not_msg (s : string)
  | __flag (s : string)
  | __msg_unpriv (s : string)
  | __not_msg_unpriv (s : string)
  | __retval_unpriv (s : string)
  | __caps_unpriv (s : string)
  | __xlated (s : string)
  | __xlated_unpriv (s : string)
  | __jited (s : string)
  | __arch_x86_64
  | __arch_arm64
  | __arch_riscv64
  | __arch_loongarch
  | __arch_s390x
  | __load_if_JITed
  | __load_if_no_JITed
  | __load_if_large_stack
  | __load_if_no_large_stack
  | __linear_size (s : string)
  | __auxiliary
  | __auxiliary_unpriv.

Record test := { tags : list tag; body : list string }.

Definition succeeds (t : test) : bool :=
  existsb (fun g => match g with __success => true | _ => false end) (tags t).

Definition messages (t : test) : list string :=
  flat_map (fun g => match g with __msg s => [s] | _ => [] end) (tags t).

Definition xlated (t : test) : list string :=
  flat_map (fun g => match g with __xlated s => [s] | _ => [] end) (tags t).

(** * Values *)

Definition integer (s : string) : option Z :=
  match s with
  | String "-" s' => option_map Z.opp (number s')
  | _ => number s
  end%char.

(** [__retval("...")]: a C integer, or the one name the loader knows. *)
Definition parse_retval (s : string) : option Z :=
  if String.eqb s "_INT_MIN" then Some (- 2 ^ 31) else integer s.

Definition retvals (t : test) : list (option Z) :=
  flat_map (fun g => match g with __retval s => [parse_retval s] | _ => [] end) (tags t).

(** A declared value is compared with the 32-bit result of the run. *)
Definition ret_ok (l : list (option Z)) (v : Z) : bool :=
  forallb (fun o => match o with Some x => u32 v =? u32 x | None => false end) l.

(** * Log lines *)

Fixpoint split (c : ascii) (acc s : string) : list string :=
  match s with
  | EmptyString => [acc]
  | String d s' => if Ascii.eqb c d then acc :: split c "" s'
                   else split c (acc ++ String d EmptyString) s'
  end.

Definition drop (n : nat) (s : string) : string := substring n (String.length s - n) s.

(** The text before the first occurrence of [pat], and after it. *)
Definition cut (pat s : string) : option (string * string) :=
  option_map (fun i => (substring 0 i s, drop (i + String.length pat) s)) (index 0 pat s).

Fixpoint rtrim (s : string) : string :=
  match s with
  | EmptyString => EmptyString
  | String c s' => match rtrim s' with
                   | EmptyString => if Ascii.eqb c " " then EmptyString else String c EmptyString
                   | r => String c r
                   end
  end%char.

Definition no_bounds : scalar :=
  {| smin := None; smax := None; umin := None; umax := None; smin32 := None; smax32 := None;
     umin32 := None; umax32 := None; var_off := None; known := None |}.

Definition set_bound (key : string) (v : Z) (sc : scalar) : option scalar :=
  let '(Build_scalar a b c d e f g h o k) := sc in
  if String.eqb key "smin" then Some (Build_scalar (Some v) b c d e f g h o k)
  else if String.eqb key "smax" then Some (Build_scalar a (Some v) c d e f g h o k)
  else if String.eqb key "umin" then Some (Build_scalar a b (Some v) d e f g h o k)
  else if String.eqb key "umax" then Some (Build_scalar a b c (Some v) e f g h o k)
  else if String.eqb key "smin32" then Some (Build_scalar a b c d (Some v) f g h o k)
  else if String.eqb key "smax32" then Some (Build_scalar a b c d e (Some v) g h o k)
  else if String.eqb key "umin32" then Some (Build_scalar a b c d e f (Some v) h o k)
  else if String.eqb key "umax32" then Some (Build_scalar a b c d e f g (Some v) o k)
  else None.

Fixpoint set_bounds (keys : list string) (v : Z) (sc : scalar) : option scalar :=
  match keys with
  | [] => Some sc
  | k :: ks => match set_bound k v sc with Some sc' => set_bounds ks v sc' | None => None end
  end.

(** [smin=smin32=0] or [var_off=(0x0; 0x3)]; a wildcard says nothing. *)
Definition add_item (it : string) (sc : scalar) : option scalar :=
  if String.eqb it "{{.*}}" then Some sc
  else match cut "var_off=(" it with
  | Some (_, r) =>
      match cut "; " r with
      | Some (a, b) =>
          match number a, cut ")" b with
          | Some v, Some (m, _) =>
              option_map (fun mask => let '(Build_scalar a b c d e f g h _ k) := sc in
                            Build_scalar a b c d e f g h (Some (v, mask)) k) (number m)
          | _, _ => None
          end
      | None => None
      end
  | None =>
      match rev (split "=" "" it) with
      | v :: keys => match integer v with Some z => set_bounds keys z sc | None => None end
      | [] => None
      end
  end.

Fixpoint add_items (l : list string) (sc : scalar) : option scalar :=
  match l with
  | [] => Some sc
  | it :: l' => match add_item it sc with Some sc' => add_items l' sc' | None => None end
  end.

(** [R1=scalar(...)] or [R1=0x80000000]. *)
Definition parse_state (s : string) : option (reg * scalar) :=
  match cut "=" s with
  | Some (String "R"%char n, v) =>
      match number n, cut "scalar(" v with
      | Some k, Some ("", items) =>
          let items' := substring 0 (String.length items - 1) items in
          match reg_of k, add_items (if String.eqb items' "" then [] else split "," "" items') no_bounds with
          | Some r, Some sc => Some (r, sc)
          | _, _ => None
          end
      | Some k, None =>
          match reg_of k, integer v with
          | Some r, Some c =>
              Some (r, {| smin := None; smax := None; umin := None; umax := None; smin32 := None;
                          smax32 := None; umin32 := None; umax32 := None; var_off := None;
                          known := Some c |})
          | _, _ => None
          end
      | _, _ => None
      end
  | _ => None
  end.

(** A log line: an optional slot number and opcode, the instruction (its tail
    may be a wildcard) and the state after it. *)
Definition parse_msg (s : string) : option (option Z * string * (reg * scalar)) :=
  match cut "; R" s with
  | Some (head, st) =>
      let (num, text) := match cut ": (" head with
                         | Some (n, r) => (number n, match cut ") " r with
                                                     | Some (_, x) => x | None => r end)
                         | None => (None, head)
                         end in
      let text' := match cut "{{" text with Some (x, _) => x | None => text end in
      option_map (fun rs => (num, rtrim text', rs)) (parse_state ("R" ++ st))
  | None => None
  end.

Fixpoint slot_of (p : program) (k : nat) : Z :=
  match p, k with
  | i :: p', S k' => slots i + slot_of p' k'
  | _, _ => 0
  end.

(** The instructions a log line is about: those with its text, at its slot
    when it names one. *)
Definition matches (b : list string) (p : program) (num : option Z) (text : string) : list nat :=
  filter (fun k => match nth_error b k with
                   | Some line => prefix text line &&
                                  match num with Some n => slot_of p k =? n | None => true end
                   | None => false
                   end) (seq 0 (List.length b)).

(** The claims of a test's log lines; [None] when a line cannot be read or
    matches no instruction. *)
Fixpoint log_claims (b : list string) (p : program) (ms : list string) : option (list claim) :=
  match ms with
  | [] => Some []
  | m :: ms' =>
      match parse_msg m, log_claims b p ms' with
      | Some (num, text, rs), Some cl =>
          match matches b p num text with
          | [] => None
          | ks => Some (List.app (map (fun k => (k, rs)) ks) cl)
          end
      | _, _ => None
      end
  end.

(** * The promise of a test *)

(** Every start of the program returns the declared value, and every state
    the log shows is right. *)
Definition passes (t : test) : Prop :=
  exists p cl, assemble (body t) = Some p /\ log_claims (body t) p (messages t) = Some cl /\
  forall e s, starts e s ->
    claims_hold e p cl s /\
    exists n v, run n e p s = Return v /\ ret_ok (retvals t) v = true.

Definition all_values (f : Z -> bool) (a : aval) : bool :=
  match a with
  | Vals l => match enum l with Some vs => forallb f vs | None => false end
  | _ => false
  end.

Definition returns_ok (t : test) (rets : list aval) : bool :=
  match retvals t with
  | [] => true
  | l => forallb (all_values (ret_ok l)) rets
  end.

Definition FUEL : nat := 200.

Definition test_ok (t : test) : bool :=
  match assemble (body t) with
  | Some p =>
      match log_claims (body t) p (messages t) with
      | Some cl =>
          match analyze FUEL cl p 0 start with
          | Some rets => returns_ok t rets
          | None => false
          end
      | None => false
      end
  | None => false
  end.

Lemma all_values_spec e f a v : all_values f a = true -> has e a v -> f v = true.
Proof.
  destruct a as [l| |]; try discriminate; cbn [all_values].
  destruct (enum l) as [vs|] eqn:E; [|discriminate]. rewrite forallb_forall; eauto using enum_spec.
Qed.

Lemma test_ok_sound t : test_ok t = true -> passes t.
Proof.
  unfold test_ok, passes; destruct (assemble (body t)) as [p|]; [|discriminate].
  destruct (log_claims (body t) p (messages t)) as [cl|] eqn:El; [|discriminate].
  destruct (analyze FUEL cl p 0 start) as [rets|] eqn:Ea; [|discriminate]; intros Hr.
  exists p, cl; split; [reflexivity|]; split; [exact El|]; intros e s Hs.
  pose proof Hs as (Hpc & _ & _ & _ & Hfp); rewrite <- Hpc in Ea.
  destruct (analyze_sound FUEL cl p e start s rets) as (Hcl & v & a & Hrun & Hin & Hv);
    auto using starts_wf, start_agrees.
  split; [assumption|].
  exists FUEL, v; split; [assumption|].
  unfold returns_ok in Hr; destruct (retvals t) as [|o l]; [reflexivity|].
  rewrite forallb_forall in Hr. eauto using all_values_spec.
Qed.

Lemma tests_ok_sound l : forallb test_ok l = true -> Forall passes l.
Proof. rewrite forallb_forall, Forall_forall; auto using test_ok_sound. Qed.

(** All [__success] tests of a file. *)
Definition all_pass (l : list test) : Prop := Forall passes (filter succeeds l).

Lemma all_pass_sound l : forallb test_ok (filter succeeds l) = true -> all_pass l.
Proof. apply tests_ok_sound. Qed.

(** * The kernel's rewriting

    Some tests list the program the kernel runs in their place ([__xlated]):
    [N: instruction], numbered by slots. *)

Definition parse_listing (s : string) : option (Z * insn) :=
  match cut ": " s with
  | Some (n, text) =>
      match number n, parse text with Some k, Some i => Some (k, i) | _, _ => None end
  | None => None
  end.

(** A listing shows a 64-bit load as a plain move: it is one where the next
    number is two slots on. *)
Definition widen (i : insn) (gap : Z) : insn :=
  match i with
  | Alu W64 MOV d (Imm z) => if gap =? 2 then LdImm64 d z else i
  | _ => i
  end.

Fixpoint assemble_listing (l : list string) : option program :=
  match l with
  | [] => Some []
  | s :: l' =>
      match parse_listing s, assemble_listing l' with
      | Some (k, i), Some p =>
          let gap := match l' with
                     | s' :: _ => match parse_listing s' with Some (k', _) => k' - k | None => 1 end
                     | [] => 1
                     end in
          Some (widen i gap :: p)
      | _, _ => None
      end
  end.

(** ** A machine whose divisions trap

    The processor's own division instruction raises an exception on a zero
    divisor and, when signed, on [MIN / -1]. *)

Definition div_traps (w : width) (op : aluop) (x y : Z) : bool :=
  let n := bits w in
  match op with
  | DIV | MOD => uw n y =? 0
  | SDIV | SMOD => (uw n y =? 0) || ((sw n x =? - 2 ^ (n - 1)) && (sw n y =? -1))
  | _ => false
  end.

Definition traps (p : program) (s : state) : bool :=
  match nth_error p (pc s) with
  | Some (Alu w op d o) => div_traps w op (regs s d) (read w (regs s) o)
  | _ => false
  end.

Definition native_step (e : env) (p : program) (s : state) : outcome :=
  if traps p s then Fault else step e p s.

Fixpoint native_run (n : nat) (e : env) (p : program) (s : state) : outcome :=
  match n with
  | O => Next s
  | S n' => match native_step e p s with Next s' => native_run n' e p s' | o => o end
  end.

(** The listing of a test returns the declared value on such a machine. *)
Definition rewritten (t : test) : Prop :=
  exists p, assemble_listing (xlated t) = Some p /\
  forall e s, starts e s -> exists n v, native_run n e p s = Return v /\ ret_ok (retvals t) v = true.

Ltac native_listing :=
  eexists; split; [vm_compute; reflexivity|];
  intros ? [] (? & _); cbn in *; subst; exists FUEL; eexists; split; [vm_compute; reflexivity|];
  vm_compute; reflexivity.
