(* ===== verification/States.v ===== *)
(** The register states in a test's expected log lines.

    Where the verifier prints what it knows of a register or a stack slot after
    an instruction, on an edge between two, at a loop header, or as a constant
    that never arises, the line is read as a [state_claim] about every step of a
    run between the two instructions.  A line that speaks of a value and cannot
    be read makes the reading of the test fail: [state_claims] drops nothing. *)

From S2P Require Import Prelude Bpf Asm Range Loader.
From Stdlib Require Import String Ascii.
Local Open Scope string_scope.
Local Open Scope Z_scope.

(** * Claims *)

(** A register, or the eight bytes at an offset from the frame pointer. *)
Inductive loc := LReg (r : reg) | LStack (o : Z).

Definition loc_val (e : env) (s : state) (l : loc) : Z :=
  match l with LReg r => regs s r | LStack o => load (mem s) (u64 (fp e + o)) 8 end.

(** What is known of a value: its bounds and its step, that it points into the
    frame at an offset with these bounds, nothing (the context's address, bytes
    of any value), or that it is not a constant. *)
Inductive fact :=
  | Scalar (sc : scalar) (step : option (Z * Z))
  | Frame (sc : scalar)
  | Unknown
  | Never (c : Z).

(** [step=2+6]: two more than a multiple of six, as a signed number. *)
Definition step_ok (st : option (Z * Z)) (v : Z) : bool :=
  match st with Some (b, k) => (i64 v - b) mod k =? 0 | None => true end.

Definition fact_true (e : env) (fa : fact) (v : Z) : Prop :=
  match fa with
  | Scalar sc st => scalar_ok sc v = true /\ step_ok st v = true
  | Frame sc => exists o, v = u64 (fp e + o) /\ scalar_ok sc (u64 o) = true
  | Unknown => True
  | Never c => v <> u64 c
  end.

(** The value after a step from one instruction to the other. *)
Record state_claim := { from : nat; to : nat; whose : loc; says : fact }.

Definition states_hold (e : env) (p : program) (cl : list state_claim) (s : state) : Prop :=
  forall n s1 s2, run n e p s = Next s1 -> step e p s1 = Next s2 ->
    Forall (fun c => from c = pc s1 -> to c = pc s2 -> fact_true e (says c) (loc_val e s2 (whose c))) cl.

(** * States *)

(** [R3=] begins a state. *)
Definition is_digit (c : ascii) : bool := (N.leb 48 (N_of_ascii c) && N.leb (N_of_ascii c) 57)%bool.
Fixpoint digits_eq (s : string) (seen : bool) : bool :=
  match s with
  | String c s => if is_digit c then digits_eq s true else Ascii.eqb c "=" && seen
  | EmptyString => false
  end.

(** The text before the first state, and from it on. *)
Fixpoint find_state (s : string) : option (string * string) :=
  match s with
  | EmptyString => None
  | String c r =>
      if Ascii.eqb c "R" && digits_eq r false then Some ("", s)
      else option_map (fun x => (String c (fst x), snd x)) (find_state r)
  end.

(** The text up to the parenthesis that closes it, and after it. *)
Fixpoint closing (depth : nat) (s : string) : option (string * string) :=
  match s with
  | EmptyString => None
  | String c s =>
      let go d := option_map (fun x => (String c (fst x), snd x)) (closing d s) in
      if Ascii.eqb c ")" then match depth with O => Some ("", s) | S d => go d end
      else if Ascii.eqb c "(" then go (S depth) else go depth
  end.

(** The items of a state; the last item of an open end may be cut short and is
    not read. *)
Definition items_of (s : string) : list string * string :=
  match closing 0 s with
  | Some (x, rest) => (split "," "" x, rest)
  | None => (removelast (split "," "" s), "")
  end.

Definition drop_wild (s : string) : string :=
  match Loader.cut "{{.*}}" s with Some ("", r) => r | _ => s end.

(** The names of linked registers say nothing of their values. *)
Definition read_item (it : string) (x : scalar * option (Z * Z)) : option (scalar * option (Z * Z)) :=
  let it := drop_wild it in
  if String.eqb it "" || prefix "id=" it then Some x
  else match Loader.cut "step=" it with
       | Some ("", r) =>
           match Loader.cut "+" r with
           | Some (b, k) => match number b, number k with Some b, Some k => Some (fst x, Some (b, k)) | _, _ => None end
           | None => None
           end
       | _ => option_map (fun sc => (sc, snd x)) (add_item it (fst x))
       end.

Fixpoint read_items (l : list string) (x : scalar * option (Z * Z)) : option fact :=
  match l with
  | [] => Some (Scalar (fst x) (snd x))
  | it :: l => match read_item it x with Some y => read_items l y | None => None end
  end.

Definition just (c : Z) : scalar :=
  {| smin := None; smax := None; umin := None; umax := None; smin32 := None; smax32 := None;
     umin32 := None; umax32 := None; var_off := None; known := Some c |}.

Definition to_frame (fa : fact) : option fact :=
  match fa with Scalar sc None => Some (Frame sc) | _ => None end.

Definition before (pat s : string) : string * string :=
  match Loader.cut pat s with Some x => x | None => (s, "") end.

(** The word at the front, and the text after it. *)
Definition word_of (s : string) : string * string :=
  match Loader.cut " " s with Some (v, r) => (v, " " ++ r) | None => (s, "") end.

(** [scalar(...)], [fp(...)], a number, [fp-8] or [ctx()], and the text after
    it. *)
Definition read_value (s : string) : option (fact * string) :=
  match Loader.cut "scalar(" s, Loader.cut "fp(" s with
  | Some ("", r), _ =>
      let (items, rest) := items_of r in
      option_map (fun fa => (fa, rest)) (read_items items (no_bounds, None))
  | _, Some ("", r) =>
      let (items, rest) := items_of r in
      match read_items items (no_bounds, None) with
      | Some fa => option_map (fun fa => (fa, rest)) (to_frame fa)
      | None => None
      end
  | _, _ =>
      let (v, rest) := word_of s in
      if String.eqb v "ctx()" then Some (Unknown, rest)
      else match Loader.cut "fp" v with
           | Some ("", o) =>
               match integer o with
               | Some z => if z <=? 0 then Some (Frame (just z), rest) else None
               | None => None
               end
           | _ => option_map (fun c => (Scalar (just c) None, rest)) (integer v)
           end
  end.

(** [fp-8=7] or [fp-8=m???????]: a number, or bytes of any value. *)
Fixpoint misc (s : string) : bool :=
  match s with
  | String c s => (Ascii.eqb c "m" || Ascii.eqb c "?") && misc s
  | EmptyString => true
  end.
Definition read_slot (v : string) : option fact :=
  if misc v then Some Unknown else option_map (fun c => Scalar (just c) None) (integer v).
Definition slot_loc (o : string) : option loc :=
  match integer o with
  | Some z => if (- STACK_SIZE <=? z) && (z + 8 <=? 0) then Some (LStack z) else None
  | None => None
  end.

Fixpoint ltrim (s : string) : string :=
  match s with String c s' => if Ascii.eqb c " " then ltrim s' else s | EmptyString => s end.

(** [R0=0 R1=scalar(...) fp-8=7 loop_stack=1]: nothing else may follow. *)
Fixpoint read_states (n : nat) (s : string) : option (list (loc * fact)) :=
  match n, ltrim s with
  | _, EmptyString => Some []
  | S n, String c s =>
      if Ascii.eqb c "R" then
        match Loader.cut "=" s with
        | Some (d, v) =>
            match number d, read_value v with
            | Some k, Some (fa, rest) =>
                match reg_of k, read_states n rest with
                | Some r, Some l => Some ((LReg r, fa) :: l)
                | _, _ => None
                end
            | _, _ => None
            end
        | None => None
        end
      else
        let (w, rest) := word_of (String c s) in
        if prefix "loop_stack=" w then read_states n rest
        else match Loader.cut "fp" (fst (before "=" w)) with
             | Some ("", o) =>
                 match slot_loc o, read_slot (snd (before "=" w)), read_states n rest with
                 | Some l, Some fa, Some ls => Some ((l, fa) :: ls)
                 | _, _, _ => None
                 end
             | _ => None
             end
  | O, _ => None
  end.

(** * Instructions *)

(** The words of an instruction agree, [r10 - 8] written [r10 -8]; a number may
    be printed in another base, and a jump [goto pc+2] by its distance [d]. *)
Fixpoint signs (l : list string) : list string :=
  match l with
  | a :: ((b :: l') as r) => if String.eqb a "+" || String.eqb a "-" then (a ++ b) :: signs l' else a :: signs r
  | _ => l
  end.
Definition words (s : string) : list string := signs (filter (fun w => negb (String.eqb w "")) (split " " "" s)).
Definition signed_number (s : string) : option Z :=
  match s with String "+" r => number r | _ => integer s end%char.
Definition same_word (d : option Z) (a b : string) : bool :=
  String.eqb a b ||
  match Loader.cut "pc" a, d with
  | Some ("", n), Some z => match signed_number n with Some x => x =? z | None => false end
  | _, _ => match integer a, integer b with Some x, Some y => x =? y | _, _ => false end
  end.
Fixpoint words_prefix (d : option Z) (l l' : list string) : bool :=
  match l, l' with
  | [], _ => true
  | a :: l, b :: l' => same_word d a b && words_prefix d l l'
  | _, [] => false
  end.

Definition jump_target (i : insn) : option target :=
  match i with Jmp _ _ _ _ t | Goto t => Some t | _ => None end.

Section Lines.
Variables (b : list string) (p : program).

Definition real (k : nat) : bool := match nth_error p k with Some i => 0 <? slots i | None => false end.

(** How many slots a jump skips. *)
Definition distance (k : nat) : option Z :=
  match nth_error p k with
  | Some i => match jump_target i with
              | Some t => option_map (fun k' => slot_of p k' - slot_of p (S k)) (resolve p k t)
              | None => None
              end
  | None => None
  end.

(** The instructions with a text, at a slot if one is given. *)
Definition at_line (num : option Z) (text : string) : list nat :=
  filter (fun k => real k &&
                   match nth_error b k with
                   | Some line => words_prefix (distance k) (words text) (words (match Loader.cut ";" line with Some (x, _) => x | None => line end))
                   | None => false
                   end &&
                   match num with Some n => slot_of p k =? n | None => true end) (seq 0 (List.length b)).

Definition dest (i : insn) : option reg :=
  match i with
  | Alu _ _ d _ | Movsx _ _ d _ | Neg _ d | End _ _ d | LdImm64 d _ | Ldx _ d _ _ | Ldsx _ d _ _ => Some d
  | Atomic op _ _ _ r => atomic_dest op r
  | _ => None
  end.
Definition dest_at (k : nat) : option reg := match nth_error p k with Some i => dest i | None => None end.
Definition writers (r : reg) : list nat :=
  filter (fun k => match dest_at k with Some d => reg_eqb d r | None => false end) (seq 0 (List.length p)).

(** After the instruction [k], where it does not jump. *)
Definition after (k : nat) (x : loc * fact) : state_claim := {| from := k; to := S k; whose := fst x; says := snd x |}.
Definition edge (k k' : nat) (x : loc * fact) : state_claim := {| from := k; to := k'; whose := fst x; says := snd x |}.
Definition on_edges (ks ks' : list nat) (l : list (loc * fact)) : list state_claim :=
  flat_map (fun k => flat_map (fun k' => map (edge k k') l) ks') ks.

(** [5: (0f) r3 += r3 {{.*}} ]: the slot, and what follows it. *)
Definition head_of (s : string) : option Z * string :=
  match Loader.cut ": " s with
  | Some (n, r) => match number n with Some k => (Some k, r) | None => (None, s) end
  | None => (None, s)
  end.
(** The instruction, without its opcode. *)
Definition text_of (s : string) : string :=
  let s := if prefix "(" s then match Loader.cut ") " s with Some (_, x) => x | None => s end else s in
  let s := match Loader.cut "{{" s with Some (x, _) => x | None => s end in
  rtrim (match Loader.cut ";" s with Some (x, _) => x | None => s end).

(** [from 4 to 6: ]. *)
Definition from_to (s : string) : option (Z * Z) :=
  match Loader.cut "from " s with
  | Some ("", r) =>
      match Loader.cut " to " r with
      | Some (a, r) => match number a, Loader.cut ": " r with
                       | Some a, Some (b, "") => option_map (pair a) (number b)
                       | _, _ => None
                       end
      | None => None
      end
  | _ => None
  end.

Definition slots_at (n : Z) : list nat := filter (fun k => slot_of p k =? n) (seq 0 (List.length p)).
Definition nonempty {A} (l : list A) : option (list A) := match l with [] => None | _ => Some l end.

(** Lines without a slot come in the order of the program: each is about the
    first instruction with its text from [line] on.  States without an
    instruction are those at the last loop header the log named, if it named
    one. *)
Record cursor := { line : nat; header : option Z }.
Definition top_of_log : cursor := {| line := 0; header := None |}.
Definition past (k : nat) (c : cursor) : cursor := {| line := S k; header := header c |}.
Definition at_header_of (s : string) (c : cursor) : cursor :=
  match Loader.cut "loop header at " s with
  | Some (_, n) => {| line := line c; header := match Loader.cut "," n with Some (n, _) => number n | None => None end |}
  | None => c
  end.

Definition next_line (cur : nat) (text : string) : option nat :=
  find (Nat.leb cur) (at_line None text).

(** What the states [rs] after the text [head] are about. *)
Definition arrives (n : Z) (rs : list (loc * fact)) : option (list state_claim) :=
  option_map (fun ks => on_edges (seq 0 (List.length p)) ks rs) (nonempty (slots_at n)).
Definition written (x : loc * fact) : list state_claim :=
  match fst x with LReg r => map (fun k => after k x) (writers r) | LStack _ => [] end.

Definition place (cur : cursor) (head : string) (rs : list (loc * fact)) : option (list state_claim * cursor) :=
  let stay := option_map (fun l : list state_claim => (l, cur)) in
  match from_to head with
  | Some (x, y) => stay (nonempty (on_edges (filter real (slots_at x)) (slots_at y) rs))
  | None =>
      match head_of head with
      | (Some n, "") => stay (arrives n rs)  (* the state before the instruction *)
      | (Some n, t) => stay (nonempty (flat_map (fun k => map (after k) rs) (at_line (Some n) (text_of t))))
      | (None, t) =>
          if String.eqb (text_of t) "" then
            match header cur with
            | Some n => stay (arrives n rs)
            | None => stay (nonempty (flat_map written rs))  (* those that write the register *)
            end
          else option_map (fun k => (map (after k) rs, past k cur)) (next_line (line cur) (text_of t))
      end
  end.

(** A line that speaks of values. *)
Definition speaks (s : string) : bool :=
  existsb (fun k => match index 0 k s with Some _ => true | None => false end)
    ["smin"; "smax"; "umin"; "umax"; "var_off="; "step="; "scalar("; " fp-"].

(** The claims of a line, and where the next line without a slot is looked for.
    A line of some items only is about the register its instruction writes. *)
Definition read_line (cur : cursor) (s : string) : option (list state_claim * cursor) :=
  match find_state s with
  | Some (head, st) => match read_states (String.length st) st with Some rs => place cur head rs | None => None end
  | None =>
      if speaks s then
        match Loader.cut "{{.*}}" s with
        | Some (head, frag) =>
            match next_line (line cur) (text_of head) with
            | Some k =>
                match dest_at k, read_items (fst (items_of frag)) (no_bounds, None) with
                | Some r, Some fa => Some ([after k (LReg r, fa)], past k cur)
                | _, _ => None
                end
            | None => None
            end
        | None => None
        end
      else Some ([], at_header_of s cur)
  end.

(** A state that must not be printed: a constant the register never is.  Words
    that must not be printed deny the verifier some knowledge, not the register a
    value. *)
Definition denied (x : loc * fact) : option (loc * fact) :=
  match snd x with
  | Scalar {| known := Some c |} None => Some (fst x, Never c)
  | _ => None
  end.
Definition read_not (cur : cursor) (s : string) : option (list state_claim) :=
  match find_state s with
  | Some (head, st) =>
      match read_states (String.length st) st with
      | Some [x] => match denied x with Some y => option_map fst (place cur head [y]) | None => None end
      | _ => None
      end
  | None => Some []
  end.

Fixpoint read_log (cur : cursor) (l : list tag) : option (list state_claim) :=
  match l with
  | [] => Some []
  | __msg s :: l | __msg_next s :: l =>
      match read_line cur s with
      | Some (a, cur') => option_map (app a) (read_log cur' l)
      | None => None
      end
  | __not_msg s :: l =>
      match read_not cur s, read_log cur l with Some a, Some c => Some (a ++ c)%list | _, _ => None end
  | _ :: l => read_log cur l
  end.

End Lines.

Definition state_claims (t : test) (p : program) : option (list state_claim) :=
  read_log (body t) p top_of_log (tags t).

(** * The check *)

Definition step_check (st : option (Z * Z)) (a : aval) : bool :=
  match st with
  | None => true
  | Some _ => match a with
              | Vals l => match enum l with Some vs => forallb (step_ok st) vs | None => false end
              | _ => false
              end
  end.

Definition fact_check (fa : fact) (a : aval) : bool :=
  match fa with
  | Scalar sc st => check sc a && step_check st a
  | Frame sc => match a with FP x => scalar_ok sc (u64 x) | _ => false end
  | Unknown => true
  | Never c => match a with Vals l => forallb (fun i => (u64 c <? fst i) || (snd i <? u64 c)) l | _ => false end
  end.

Lemma fact_check_spec e fa a v : fact_check fa a = true -> has e a v -> fact_true e fa v.
Proof.
  intros C H. destruct fa as [sc st|sc| |c]; cbn [fact_check fact_true] in *; [| |exact I|].
  - apply andb_prop in C as [C1 C2]. split; [exact (check_sound e sc a v C1 H)|].
    destruct st as [[x k]|]; [|reflexivity]. destruct a as [l| |]; try discriminate. cbn [step_check] in C2.
    destruct (enum l) as [vs|] eqn:E; [|discriminate]. rewrite forallb_forall in C2. apply C2. eapply enum_spec; eauto.
  - destruct a as [| |o]; try discriminate. exists o. now split.
  - destruct a as [l| |]; try discriminate. destruct H as (i & Hi & V). rewrite forallb_forall in C. specialize (C i Hi).
    unfold inside in V. apply orb_prop in C as [C|C]; bsimp; lia.
Qed.

(** The value set of a location. *)
Definition aval_of (f : astate) (l : loc) : aval :=
  match l with LReg r => ar f r | LStack o => aload (am f) o 8 end.

Definition loc_ok (l : loc) : bool :=
  match l with LReg _ => true | LStack o => (- STACK_SIZE <=? o) && (o + 8 <=? 0) end.

Lemma aval_of_spec e f s l : STACK_SIZE <= fp e < 2 ^ 64 -> agrees e f s -> loc_ok l = true ->
  has e (aval_of f l) (loc_val e s l).
Proof.
  intros He [Hr Hm] Hl. destruct l as [r|o]; [apply Hr|]. cbn [loc_ok] in Hl. bsimp.
  apply aload_spec; auto; cbn; lia.
Qed.

Definition states_chk (cl : list state_claim) (k : nat) (x : nat * astate) : bool :=
  forallb (fun c => negb (Nat.eqb (from c) k) || negb (Nat.eqb (to c) (fst x)) ||
                    loc_ok (whose c) && fact_check (says c) (aval_of (snd x) (whose c))) cl.

Lemma states_chk_sound e p cl s : STACK_SIZE <= fp e < 2 ^ 64 -> checked e p (states_chk cl) s -> states_hold e p cl s.
Proof.
  intros He H n s1 s2 H1 H2. destruct (H n s1 s2 H1 H2) as (f & C & A). unfold states_chk in C. rewrite forallb_forall in C.
  apply Forall_forall. intros c Hc Ef Et. specialize (C c Hc). cbn [fst snd] in C.
  rewrite Ef, Et, !Nat.eqb_refl in C. apply andb_prop in C as [L C].
  exact (fact_check_spec e _ _ _ C (aval_of_spec e f s2 _ He A L)).
Qed.
