(* ===== verification/Loops.v ===== *)
(** Loops of the naked programs, and what the verifier's log says of them.

    For loops it understands the verifier prints how often a loop header is
    reached each time the loop is entered ([header_count]), the range it widens
    a variable to at the header, and the variables that change by a constant
    from one arrival at the header to the next ([linear]).  [arrivals] are the
    arrivals of a run at the loop headers; [true_of] says that the lines a test
    expects are right about them.  [explore] lists the paths of a program with
    their arrivals, with the value sets of [Range], and is proved sound. *)

From S2P Require Import Prelude Bpf Asm Range Loader States.
From Stdlib Require Import String Ascii.
Local Open Scope string_scope.
Local Open Scope Z_scope.

(** * Arrivals *)

Definition is_in (k : nat) (l : list nat) : bool := existsb (Nat.eqb k) l.

(** The arrivals at the instructions [hs] in [n] steps; the flag tells those
    from the instruction itself or a later one. *)
Fixpoint arrivals (n : nat) (e : env) (p : program) (hs : list nat) (back : bool) (s : state) : list (bool * state) :=
  match n with
  | O => []
  | S n =>
      let rest := match step e p s with
                  | Next s' => arrivals n e p hs (Nat.leb (pc s') (pc s)) s'
                  | _ => []
                  end in
      if is_in (pc s) hs then (back, s) :: rest else rest
  end.

Definition at_header (h : nat) (l : list (bool * state)) : list (bool * state) :=
  filter (fun x => Nat.eqb (pc (snd x)) h) l.

(** How many arrivals follow each other without entering the loop anew. *)
Fixpoint rounds (l : list bool) : Z * list Z :=
  match l with
  | [] => (0, [])
  | b :: l => let (n, done) := rounds l in if b then (n + 1, done) else (0, n + 1 :: done)
  end.
Definition lengths (l : list bool) : list Z := snd (rounds l).

(** * Claims *)

(** The headers a line is about, and what it says there. *)
Inductive loop_claim :=
  | Count (hs : list nat) (lo hi : Z)
  | Widen (hs : list nat) (l : loc) (lo hi step : Z)
  | Linear (hs : list nat) (l : loc) (step : Z).

Definition ranges_at (h : nat) (cl : list loop_claim) : list (Z * Z) :=
  flat_map (fun c => match c with Count hs lo hi => if is_in h hs then [(lo, hi)] else [] | _ => [] end) cl.

(** A value in a range and on its grid. *)
Definition on_grid (lo hi step v : Z) : bool :=
  (sw 64 lo <=? i64 v) && (i64 v <=? sw 64 hi) && ((i64 v - sw 64 lo) mod step =? 0).

(** Numbers are meant as they are, pointers to the stack by their offset. *)
Definition in_range (e : env) (lo hi step v : Z) : Prop :=
  on_grid lo hi step v = true \/ exists o, v = u64 (fp e + o) /\ on_grid lo hi step o = true.

(** Consecutive arrivals without entering anew. *)
Fixpoint steps_by (f : state -> Z) (step : Z) (l : list (bool * state)) : Prop :=
  match l with
  | (_, s) :: (((b, s') :: _) as l') => (b = true -> f s' = u64 (f s + step)) /\ steps_by f step l'
  | _ => True
  end.

Definition claim_true (e : env) (arr : list (bool * state)) (c : loop_claim) : Prop :=
  match c with
  | Count _ _ _ => True
  | Widen hs l lo hi step =>
      forall h, In h hs -> Forall (fun x => in_range e lo hi step (loc_val e (snd x) l)) (at_header h arr)
  | Linear hs l step =>
      forall h, In h hs -> steps_by (fun s => loc_val e s l) step (at_header h arr)
  end.

(** Every time a loop is entered the number of arrivals is one the lines
    declare for its header, if they declare any. *)
Definition counts_true (arr : list (bool * state)) (cl : list loop_claim) : Prop :=
  forall h, ranges_at h cl <> [] ->
    Forall (fun n => exists r, In r (ranges_at h cl) /\ fst r <= n <= snd r) (lengths (map fst (at_header h arr))).

Definition true_of (e : env) (arr : list (bool * state)) (cl : list loop_claim) : Prop :=
  counts_true arr cl /\ Forall (claim_true e arr) cl.

(** * Reading the lines *)

(** The targets of backward jumps. *)
Definition headers (p : program) : list nat :=
  flat_map (fun k => match nth_error p k with
                     | Some i => match jump_target i with
                                 | Some t => match resolve p k t with
                                             | Some h => if Nat.leb h k then [h] else []
                                             | None => []
                                             end
                                 | None => []
                                 end
                     | None => []
                     end) (seq 0 (List.length p)).

(** The header at a slot: its label is the first instruction there. *)
Definition header_at (p : program) (n : Z) : option (list nat) :=
  match find (fun k => slot_of p k =? n) (seq 0 (List.length p)) with
  | Some k => if is_in k (headers p) then Some [k] else None
  | None => None
  end.

(** The text of a location. *)
Definition parse_loc (s : string) : option loc :=
  match Loader.cut "*fp" s with
  | Some ("", o) => match integer o with
                    | Some z => if (- STACK_SIZE <=? z) && (z + 8 <=? 0) then Some (LStack z) else None
                    | None => None
                    end
  | _ => match register s with Some (W64, r) => Some (LReg r) | _ => None end
  end.

(** [12], or a wildcard: any header of the program. *)
Definition parse_header (p : program) (s : string) : option (list nat) :=
  match Loader.cut "loop header at " s with
  | Some (_, n) =>
      if prefix "{{" n then Some (headers p)
      else match number n with Some z => header_at p z | None => None end
  | None => Some (headers p)
  end.

Definition parse_range (s : string) : option (Z * Z) :=
  match Loader.cut ".." s with
  | Some (a, b) => match integer a, integer b with Some x, Some y => Some (x, y) | _, _ => None end
  | None => None
  end.

(** [7] or [[0..7]]. *)
Definition parse_count (s : string) : option (Z * Z) :=
  match Loader.cut "[" s with
  | Some (_, r) => match Loader.cut "]" r with Some (x, _) => parse_range x | None => None end
  | None => option_map (fun n => (n, n)) (number (rtrim s))
  end.

(** [None]: the line does not read. *)
Definition parse_line (p : program) (s : string) : option (list loop_claim) :=
  match Loader.cut "header_count is " s with
  | Some (head, n) =>
      let head := match Loader.cut ", " head with Some (h, _) => h | None => head end in
      match parse_header p head, parse_count n with
      | Some hs, Some (lo, hi) => Some [Count hs lo hi]
      | _, _ => None
      end
  | None =>
      match Loader.cut "widening " s with
      | Some (head, w) =>
          let head := match Loader.cut ", " head with Some (h, _) => h | None => head end in
          match Loader.cut " to " w with
          | Some (l, r) =>
              match Loader.cut " step " r with
              | Some (r, n) =>
                  match parse_header p head, parse_loc l, parse_range r, number n with
                  | Some hs, Some l, Some (lo, hi), Some st => Some [Widen hs l lo hi st]
                  | _, _, _, _ => None
                  end
              | None => None
              end
          | None => Some []
          end
      | None => Some []
      end
  end.

(** [  r0=(+ r0 1) / (linear r0 1)], in the section of a header. *)
Definition parse_linear (hs : list nat) (s : string) : option (list loop_claim) :=
  match Loader.cut " / (linear " s with
  | Some (eqn, r) =>
      match Loader.cut "=" eqn, Loader.cut " " r with
      | Some (l, _), Some (base, n) =>
          let l := match Loader.cut "  " l with Some ("", x) => x | _ => l end in
          match Loader.cut ")" n with
          | Some (n, _) =>
              if String.eqb l base then
                match parse_loc l, integer n with
                | Some x, Some c => Some [Linear hs x c]
                | _, _ => None
                end
              else Some []
          | None => None
          end
      | _, _ => None
      end
  | None => Some []
  end.

Definition log_line (g : tag) : option string :=
  match g with __msg s | __msg_next s => Some s | _ => None end.

(** [hs]: the header whose section is being read. *)
Fixpoint parse_lines (p : program) (hs : list nat) (l : list tag) : option (list loop_claim) :=
  match l with
  | [] => Some []
  | g :: l =>
      match log_line g with
      | None => parse_lines p hs l
      | Some s =>
          match Loader.cut "scev at header " s with
          | Some (_, n) =>
              match Loader.cut ":" n with
              | Some (n, _) => match number n with
                               | Some z => match header_at p z with
                                           | Some hs' => parse_lines p hs' l
                                           | None => None
                                           end
                               | None => None
                               end
              | None => None
              end
          | None =>
              if prefix " scev at latch" s then parse_lines p [] l
              else match parse_line p s, parse_linear hs s, parse_lines p hs l with
                   | Some a, Some b, Some c => Some (a ++ b ++ c)%list
                   | _, _, _ => None
                   end
          end
      end
  end.

Definition loop_claims (t : test) (p : program) : option (list loop_claim) := parse_lines p [] (tags t).

(** * The promise of a test

    From every start the program returns, with the declared value, and what
    the log says of its registers and loops is right. *)
Definition as_logged (t : test) : Prop :=
  exists p st cl, assemble (body t) = Some p /\ state_claims t p = Some st /\ loop_claims t p = Some cl /\
  forall e s, starts e s -> states_hold e p st s /\ exists n v,
    run n e p s = Return v /\ ret_ok (retvals t) v = true /\
    true_of e (arrivals n e p (headers p) false s) cl.

(** The register and stack states of a test's log. *)
Definition states_of (t : test) : list state_claim :=
  match assemble (body t) with
  | Some p => match state_claims t p with Some cl => cl | None => [] end
  | None => []
  end.

(** * Exploring the paths *)

Definition visit : Type := bool * (nat * astate).

Fixpoint explore (n : nat) (sp : bool) (p : program) (hs : list nat) (back : bool) (k : nat) (f : astate)
    : option (list (list visit * aval)) :=
  match n with
  | O => None
  | S n =>
      let here := fun l : list visit => if is_in k hs then (back, (k, f)) :: l else l in
      if is_exit p k then Some [(here [], ar f R0)]
      else match astep_by sp p k f with
           | None => None
           | Some succs =>
               option_map (map (fun x => (here (fst x), snd x)))
                 (collect (fun x => explore n sp p hs (Nat.leb (fst x) k) (fst x) (snd x)) succs)
           end
  end.

Definition visit_ok (e : env) (x : visit) (y : bool * state) : Prop :=
  fst x = fst y /\ fst (snd x) = pc (snd y) /\ agrees e (snd (snd x)) (snd y).

Lemma explore_sound n sp p e hs : STACK_SIZE <= fp e < 2 ^ 64 -> forall back s f paths,
  wf e s -> agrees e f s -> explore n sp p hs back (pc s) f = Some paths ->
  exists tr a v, run n e p s = Return v /\ In (tr, a) paths /\ has e a v /\
    Forall2 (visit_ok e) tr (arrivals n e p hs back s).
Proof.
  intros He; induction n as [|n IH]; intros back s f paths Hs Hf Hx; [discriminate|].
  cbn [explore] in Hx. cbv zeta in Hx. cbn [run arrivals].
  set (here := fun l : list visit => if is_in (pc s) hs then (back, (pc s, f)) :: l else l) in Hx.
  assert (Hh : forall tr l, Forall2 (visit_ok e) tr l ->
    Forall2 (visit_ok e) (here tr) (if is_in (pc s) hs then (back, s) :: l else l)).
  { intros tr l H. unfold here. destruct (is_in (pc s) hs); [|exact H]. constructor; [|exact H].
    split; [reflexivity|]. split; [reflexivity | exact Hf]. }
  destruct (is_exit p (pc s)) eqn:Ei.
  - injection Hx as <-. rewrite (exit_spec e p s Ei). exists (here []), (ar f R0), (regs s R0).
    split; [reflexivity|]. split; [now left|]. split; [apply Hf | apply Hh; constructor].
  - destruct (astep_by sp p (pc s) f) as [succs|] eqn:Es; [|discriminate].
    destruct (astep_by_sound sp e p f s succs He Hs Hf Es) as (s' & Hst & f' & Hin & Hf'). rewrite Hst.
    destruct (collect _ succs) as [all|] eqn:Ec; [|discriminate]. injection Hx as <-.
    destruct (collect_spec _ _ _ _ Ec Hin) as (x & Hx & Hincl). cbn [fst snd] in Hx.
    destruct (IH _ s' f' x (step_wf e p s s' Hs Hst) Hf' Hx) as (tr & a & v & R & Ix & Ha & F).
    exists (here tr), a, v. split; [exact R|]. split; [|split; [exact Ha | now apply Hh]].
    apply in_map_iff. exists (tr, a). split; [reflexivity | now apply Hincl].
Qed.

(** ** Checking the claims on a path *)

Definition anything (lo hi step : Z) : bool :=
  (sw 64 lo =? - 2 ^ 63) && (sw 64 hi =? 2 ^ 63 - 1) && (step =? 1).

Definition agrid (lo hi step : Z) (a : aval) : bool :=
  anything lo hi step ||
  match a with
  | Vals l => match enum l with Some vs => forallb (on_grid lo hi step) vs | None => false end
  | FP o => on_grid lo hi step o
  | Low _ => false
  end.

Lemma agrid_spec e lo hi step a v : agrid lo hi step a = true -> has e a v -> in_range e lo hi step v.
Proof.
  unfold agrid. intros [A|A]%orb_prop Ha.
  - left. unfold anything in A. unfold on_grid. bsimp. subst step. rewrite Z.mod_1_r, andb_true_r.
    pose proof (sw_range 64 v ltac:(lia)) as R. rewrite !andb_true_iff, !Z.leb_le.
    change (2 ^ (64 - 1)) with (2 ^ 63) in R. lia.
  - destruct a as [l| |o]; cbn [has] in Ha; [left|discriminate|right; exists o; now split].
    destruct (enum l) as [vs|] eqn:E; [|discriminate]. rewrite forallb_forall in A. eauto using enum_spec.
Qed.

Definition avisits (h : nat) (tr : list visit) : list visit := filter (fun x => Nat.eqb (fst (snd x)) h) tr.

(** One value after the other. *)
Definition asucc (step : Z) (a b : aval) : bool :=
  match a, b with
  | Vals la, Vals lb => match Range.one la, Range.one lb with Some x, Some y => y =? u64 (x + step) | _, _ => false end
  | FP x, FP y => y =? x + step
  | _, _ => false
  end.

Fixpoint asteps (l : loc) (step : Z) (tr : list visit) : bool :=
  match tr with
  | x :: ((y :: _) as tr') =>
      (negb (fst y) || asucc step (aval_of (snd (snd x)) l) (aval_of (snd (snd y)) l)) && asteps l step tr'
  | _ => true
  end.

Definition acheck (tr : list visit) (c : loop_claim) : bool :=
  match c with
  | Count _ _ _ => true
  | Widen hs l lo hi step =>
      loc_ok l && forallb (fun h => forallb (fun x => agrid lo hi step (aval_of (snd (snd x)) l)) (avisits h tr)) hs
  | Linear hs l step => loc_ok l && forallb (fun h => asteps l step (avisits h tr)) hs
  end.

Definition acounts (hs : list nat) (tr : list visit) (cl : list loop_claim) : bool :=
  forallb (fun h => match ranges_at h cl with
                    | [] => true
                    | rs => forallb (fun n => existsb (fun r => (fst r <=? n) && (n <=? snd r)) rs)
                              (lengths (map fst (avisits h tr)))
                    end) hs.

(** The headers the count lines name. *)
Definition counted (cl : list loop_claim) : list nat :=
  flat_map (fun c => match c with Count hs _ _ => hs | _ => [] end) cl.

Definition path_ok (cl : list loop_claim) (tr : list visit) : bool :=
  acounts (counted cl) tr cl && forallb (acheck tr) cl.

Lemma avisits_spec e h tr arr : Forall2 (visit_ok e) tr arr -> Forall2 (visit_ok e) (avisits h tr) (at_header h arr).
Proof.
  induction 1 as [|x y tr arr V _ IH]; [constructor|]. unfold avisits, at_header. cbn [filter].
  destruct V as (V1 & V2 & V3). rewrite V2. destruct (Nat.eqb (pc (snd y)) h); [|exact IH]. constructor; [|exact IH].
  split; [exact V1|]. split; [exact V2 | exact V3].
Qed.

Lemma flags_eq e tr arr : Forall2 (visit_ok e) tr arr -> map fst arr = map fst tr.
Proof. induction 1 as [|x y tr arr (V & _) _ IH]; cbn; congruence. Qed.

Lemma asucc_spec e step a b x y : asucc step a b = true -> has e a x -> has e b y -> y = u64 (x + step).
Proof.
  destruct a as [la| |o], b as [lb| |o']; try discriminate; cbn [asucc has].
  - destruct (Range.one la) as [u|] eqn:Ea; [|discriminate]. destruct (Range.one lb) as [v|] eqn:Eb; [|discriminate].
    intros E%Z.eqb_eq Hx Hy. now rewrite (one_spec _ _ _ Ea Hx), (one_spec _ _ _ Eb Hy).
  - intros ->%Z.eqb_eq -> ->. unfold uw. rewrite Zplus_mod_idemp_l. f_equal. lia.
Qed.

Lemma asteps_spec e l step tr arr : STACK_SIZE <= fp e < 2 ^ 64 -> loc_ok l = true ->
  Forall2 (visit_ok e) tr arr -> asteps l step tr = true -> steps_by (fun s => loc_val e s l) step arr.
Proof.
  intros He Hl F; induction F as [|x y tr arr V F IH]; intros A; [exact I|].
  destruct y as [b0 s]. destruct F as [|x' [b' s'] tr arr V' F]; [exact I|].
  cbn [asteps] in A. apply andb_prop in A as [A1 A2]. split; [|now apply IH].
  destruct V as (_ & _ & G). destruct V' as (E' & _ & G'). cbn [fst snd] in *. intros ->. rewrite E' in A1. cbn [negb orb] in A1.
  eapply asucc_spec; [exact A1 | now apply aval_of_spec | now apply aval_of_spec].
Qed.

Lemma acheck_spec e tr arr c : STACK_SIZE <= fp e < 2 ^ 64 -> Forall2 (visit_ok e) tr arr ->
  acheck tr c = true -> claim_true e arr c.
Proof.
  intros He F. destruct c as [hs lo hi|hs l lo hi step|hs l step]; cbn [acheck claim_true]; [easy| |].
  - intros [Hl A]%andb_prop h Hh. rewrite forallb_forall in A. specialize (A h Hh). rewrite forallb_forall in A.
    pose proof (avisits_spec e h tr arr F) as G. apply Forall_forall. intros y Hy.
    revert A; induction G as [|x y' tr' arr' V _ IH]; intros A; [destruct Hy|]. destruct Hy as [<-|Hy].
    + eapply agrid_spec; [apply A; now left|]. apply aval_of_spec; [exact He | apply V | exact Hl].
    + apply IH; [exact Hy | intros z Hz; apply A; now right].
  - intros [Hl A]%andb_prop h Hh. rewrite forallb_forall in A. specialize (A h Hh).
    eapply asteps_spec; eauto using avisits_spec.
Qed.

Lemma counted_spec h cl : ranges_at h cl <> [] -> In h (counted cl).
Proof.
  unfold ranges_at, counted. induction cl as [|c cl IH]; [easy|]. cbn [flat_map]. intros H. apply in_app_iff.
  destruct c as [hs lo hi| |]; [|right; now apply IH|right; now apply IH].
  destruct (is_in h hs) eqn:E; [left|right; now apply IH].
  unfold is_in in E. apply existsb_exists in E as (k & Hk & E). now apply Nat.eqb_eq in E as <-.
Qed.

Lemma path_ok_spec e cl tr arr : STACK_SIZE <= fp e < 2 ^ 64 -> Forall2 (visit_ok e) tr arr ->
  path_ok cl tr = true -> true_of e arr cl.
Proof.
  intros He F [A B]%andb_prop. split.
  - intros h Hh. unfold acounts in A. rewrite forallb_forall in A. specialize (A h (counted_spec h cl Hh)).
    rewrite (flags_eq e _ _ (avisits_spec e h tr arr F)). destruct (ranges_at h cl) as [|r rs]; [congruence|].
    rewrite forallb_forall in A. apply Forall_forall. intros n Hn. specialize (A n Hn).
    apply existsb_exists in A as (x & Hx & E). bsimp. exists x. split; [exact Hx | lia].
  - rewrite forallb_forall in B. apply Forall_forall. intros c Hc. eapply acheck_spec; eauto.
Qed.

(** * The check of a test *)

Definition LOOP_FUEL : nat := 3000.

(** The states the lines show, on every path. *)
Definition states_ok (sp : bool) (p : program) (cl : list state_claim) : bool :=
  match cl with
  | [] => true
  | _ => match survey LOOP_FUEL sp (states_chk cl) p 0 start with Some _ => true | None => false end
  end.

Definition logged_with (sp : bool) (t : test) : bool :=
  match assemble (body t) with
  | Some p =>
      match state_claims t p with Some st => states_ok sp p st | None => false end &&
      match loop_claims t p with
      | Some cl =>
          match explore LOOP_FUEL sp p (headers p) false 0 start with
          | Some paths => forallb (fun x => path_ok cl (fst x)) paths && returns_ok t (map snd paths)
          | None => false
          end
      | None => false
      end
  | None => false
  end.

(** Values are taken one at a time where it is needed. *)
Definition logged_ok (t : test) : bool := if logged_with false t then true else logged_with true t.

#[local] Opaque LOOP_FUEL.

Lemma states_ok_sound sp p cl e s : states_ok sp p cl = true -> starts e s -> states_hold e p cl s.
Proof.
  unfold states_ok; intros H Hs. destruct cl as [|c cl]; [intros n s1 s2 _ _; constructor|].
  destruct (survey LOOP_FUEL sp (states_chk (c :: cl)) p 0 start) as [rets|] eqn:Ea; [|discriminate].
  pose proof Hs as (Hpc & _ & _ & _ & Hfp); rewrite <- Hpc in Ea. apply states_chk_sound; [exact Hfp|].
  now apply (survey_sound LOOP_FUEL sp _ p e start s rets); auto using starts_wf, start_agrees.
Qed.

Lemma logged_with_sound sp t : logged_with sp t = true -> as_logged t.
Proof.
  unfold logged_with, as_logged; destruct (assemble (body t)) as [p|]; [|discriminate]. intros [St H]%andb_prop. revert H.
  destruct (state_claims t p) as [sc|] eqn:Es; [|discriminate].
  destruct (loop_claims t p) as [cl|] eqn:El; [|discriminate].
  destruct (explore _ _ _ _ _ _) as [paths|] eqn:Ex; [|discriminate]. intros [A R]%andb_prop.
  exists p, sc, cl. split; [reflexivity|]. split; [exact Es|]. split; [exact El|]. intros e s Hs.
  split; [now apply (states_ok_sound sp)|]. pose proof Hs as (Hpc & _ & _ & _ & Hfp).
  assert (Ex' : explore LOOP_FUEL sp p (headers p) false (pc s) start = Some paths) by (rewrite Hpc; exact Ex).
  destruct (explore_sound _ sp p e _ Hfp false s start paths (starts_wf e s Hs) (start_agrees e s Hs) Ex')
    as (tr & a & v & Hrun & Hin & Ha & F).
  exists LOOP_FUEL, v. split; [exact Hrun|]. rewrite forallb_forall in A. split.
  - unfold returns_ok in R. destruct (retvals t) as [|o l]; [reflexivity|]. rewrite forallb_forall in R.
    apply (all_values_spec e _ a); [|exact Ha]. apply R, in_map_iff. now exists (tr, a).
  - apply (path_ok_spec e cl tr); [exact Hfp | exact F | exact (A _ Hin)].
Qed.

Lemma logged_ok_sound t : logged_ok t = true -> as_logged t.
Proof. unfold logged_ok. destruct (logged_with false t) eqn:E; intros H; eauto using logged_with_sound. Qed.

Lemma all_logged_sound l : forallb logged_ok l = true -> Forall as_logged l.
Proof. rewrite forallb_forall, Forall_forall; auto using logged_ok_sound. Qed.
