(* ===== verification/Sdiv.v ===== *)
(** Signed division and remainder: src/progs/verifier_sdiv.rs.

    Each naked function is a [test]: its tags and its assembly text, verbatim. *)

From S2P Require Import Prelude Bpf Asm Range Loader.
From Stdlib Require Import String.
Local Open Scope string_scope.
Local Open Scope Z_scope.

Definition sdiv32_non_zero_imm_1_tags : list tag :=
  [__description "SDIV32, non-zero imm divisor, check 1"; __success; __success_unpriv;
   __retval "-20"].
Definition sdiv32_non_zero_imm_1 : test :=
  {| tags := sdiv32_non_zero_imm_1_tags;
     body := ["w0 = -41;"; "w0 s/= 2;"; "exit;"] |}.

Definition sdiv32_non_zero_imm_2_tags : list tag :=
  [__description "SDIV32, non-zero imm divisor, check 2"; __success; __success_unpriv;
   __retval "-20"].
Definition sdiv32_non_zero_imm_2 : test :=
  {| tags := sdiv32_non_zero_imm_2_tags;
     body := ["w0 = 41;"; "w0 s/= -2;"; "exit;"] |}.

Definition sdiv32_non_zero_imm_3_tags : list tag :=
  [__description "SDIV32, non-zero imm divisor, check 3"; __success; __success_unpriv;
   __retval "20"].
Definition sdiv32_non_zero_imm_3 : test :=
  {| tags := sdiv32_non_zero_imm_3_tags;
     body := ["w0 = -41;"; "w0 s/= -2;"; "exit;"] |}.

Definition sdiv32_non_zero_imm_4_tags : list tag :=
  [__description "SDIV32, non-zero imm divisor, check 4"; __success; __success_unpriv;
   __retval "-21"].
Definition sdiv32_non_zero_imm_4 : test :=
  {| tags := sdiv32_non_zero_imm_4_tags;
     body := ["w0 = -42;"; "w0 s/= 2;"; "exit;"] |}.

Definition sdiv32_non_zero_imm_5_tags : list tag :=
  [__description "SDIV32, non-zero imm divisor, check 5"; __success; __success_unpriv;
   __retval "-21"].
Definition sdiv32_non_zero_imm_5 : test :=
  {| tags := sdiv32_non_zero_imm_5_tags;
     body := ["w0 = 42;"; "w0 s/= -2;"; "exit;"] |}.

Definition sdiv32_non_zero_imm_6_tags : list tag :=
  [__description "SDIV32, non-zero imm divisor, check 6"; __success; __success_unpriv;
   __retval "21"].
Definition sdiv32_non_zero_imm_6 : test :=
  {| tags := sdiv32_non_zero_imm_6_tags;
     body := ["w0 = -42;"; "w0 s/= -2;"; "exit;"] |}.

Definition sdiv32_non_zero_imm_7_tags : list tag :=
  [__description "SDIV32, non-zero imm divisor, check 7"; __success; __success_unpriv;
   __retval "21"].
Definition sdiv32_non_zero_imm_7 : test :=
  {| tags := sdiv32_non_zero_imm_7_tags;
     body := ["w0 = 42;"; "w0 s/= 2;"; "exit;"] |}.

Definition sdiv32_non_zero_imm_8_tags : list tag :=
  [__description "SDIV32, non-zero imm divisor, check 8"; __success; __success_unpriv;
   __retval "20"].
Definition sdiv32_non_zero_imm_8 : test :=
  {| tags := sdiv32_non_zero_imm_8_tags;
     body := ["w0 = 41;"; "w0 s/= 2;"; "exit;"] |}.

Definition sdiv32_non_zero_reg_1_tags : list tag :=
  [__description "SDIV32, non-zero reg divisor, check 1"; __success; __success_unpriv;
   __retval "-20"].
Definition sdiv32_non_zero_reg_1 : test :=
  {| tags := sdiv32_non_zero_reg_1_tags;
     body := ["w0 = -41;"; "w1 = 2;"; "w0 s/= w1;"; "exit;"] |}.

Definition sdiv32_non_zero_reg_2_tags : list tag :=
  [__description "SDIV32, non-zero reg divisor, check 2"; __success; __success_unpriv;
   __retval "-20"].
Definition sdiv32_non_zero_reg_2 : test :=
  {| tags := sdiv32_non_zero_reg_2_tags;
     body := ["w0 = 41;"; "w1 = -2;"; "w0 s/= w1;"; "exit;"] |}.

Definition sdiv32_non_zero_reg_3_tags : list tag :=
  [__description "SDIV32, non-zero reg divisor, check 3"; __success; __success_unpriv;
   __retval "20"].
Definition sdiv32_non_zero_reg_3 : test :=
  {| tags := sdiv32_non_zero_reg_3_tags;
     body := ["w0 = -41;"; "w1 = -2;"; "w0 s/= w1;"; "exit;"] |}.

Definition sdiv32_non_zero_reg_4_tags : list tag :=
  [__description "SDIV32, non-zero reg divisor, check 4"; __success; __success_unpriv;
   __retval "-21"].
Definition sdiv32_non_zero_reg_4 : test :=
  {| tags := sdiv32_non_zero_reg_4_tags;
     body := ["w0 = -42;"; "w1 = 2;"; "w0 s/= w1;"; "exit;"] |}.

Definition sdiv32_non_zero_reg_5_tags : list tag :=
  [__description "SDIV32, non-zero reg divisor, check 5"; __success; __success_unpriv;
   __retval "-21"].
Definition sdiv32_non_zero_reg_5 : test :=
  {| tags := sdiv32_non_zero_reg_5_tags;
     body := ["w0 = 42;"; "w1 = -2;"; "w0 s/= w1;"; "exit;"] |}.

Definition sdiv32_non_zero_reg_6_tags : list tag :=
  [__description "SDIV32, non-zero reg divisor, check 6"; __success; __success_unpriv;
   __retval "21"].
Definition sdiv32_non_zero_reg_6 : test :=
  {| tags := sdiv32_non_zero_reg_6_tags;
     body := ["w0 = -42;"; "w1 = -2;"; "w0 s/= w1;"; "exit;"] |}.

Definition sdiv32_non_zero_reg_7_tags : list tag :=
  [__description "SDIV32, non-zero reg divisor, check 7"; __success; __success_unpriv;
   __retval "21"].
Definition sdiv32_non_zero_reg_7 : test :=
  {| tags := sdiv32_non_zero_reg_7_tags;
     body := ["w0 = 42;"; "w1 = 2;"; "w0 s/= w1;"; "exit;"] |}.

Definition sdiv32_non_zero_reg_8_tags : list tag :=
  [__description "SDIV32, non-zero reg divisor, check 8"; __success; __success_unpriv;
   __retval "20"].
Definition sdiv32_non_zero_reg_8 : test :=
  {| tags := sdiv32_non_zero_reg_8_tags;
     body := ["w0 = 41;"; "w1 = 2;"; "w0 s/= w1;"; "exit;"] |}.

Definition sdiv64_non_zero_imm_1_tags : list tag :=
  [__description "SDIV64, non-zero imm divisor, check 1"; __success; __success_unpriv;
   __retval "-20"].
Definition sdiv64_non_zero_imm_1 : test :=
  {| tags := sdiv64_non_zero_imm_1_tags;
     body := ["r0 = -41;"; "r0 s/= 2;"; "exit;"] |}.

Definition sdiv64_non_zero_imm_2_tags : list tag :=
  [__description "SDIV64, non-zero imm divisor, check 2"; __success; __success_unpriv;
   __retval "-20"].
Definition sdiv64_non_zero_imm_2 : test :=
  {| tags := sdiv64_non_zero_imm_2_tags;
     body := ["r0 = 41;"; "r0 s/= -2;"; "exit;"] |}.

Definition sdiv64_non_zero_imm_3_tags : list tag :=
  [__description "SDIV64, non-zero imm divisor, check 3"; __success; __success_unpriv;
   __retval "20"].
Definition sdiv64_non_zero_imm_3 : test :=
  {| tags := sdiv64_non_zero_imm_3_tags;
     body := ["r0 = -41;"; "r0 s/= -2;"; "exit;"] |}.

Definition sdiv64_non_zero_imm_4_tags : list tag :=
  [__description "SDIV64, non-zero imm divisor, check 4"; __success; __success_unpriv;
   __retval "-21"].
Definition sdiv64_non_zero_imm_4 : test :=
  {| tags := sdiv64_non_zero_imm_4_tags;
     body := ["r0 = -42;"; "r0 s/= 2;"; "exit;"] |}.

Definition sdiv64_non_zero_imm_5_tags : list tag :=
  [__description "SDIV64, non-zero imm divisor, check 5"; __success; __success_unpriv;
   __retval "-21"].
Definition sdiv64_non_zero_imm_5 : test :=
  {| tags := sdiv64_non_zero_imm_5_tags;
     body := ["r0 = 42;"; "r0 s/= -2;"; "exit;"] |}.

Definition sdiv64_non_zero_imm_6_tags : list tag :=
  [__description "SDIV64, non-zero imm divisor, check 6"; __success; __success_unpriv;
   __retval "21"].
Definition sdiv64_non_zero_imm_6 : test :=
  {| tags := sdiv64_non_zero_imm_6_tags;
     body := ["r0 = -42;"; "r0 s/= -2;"; "exit;"] |}.

Definition sdiv64_non_zero_reg_1_tags : list tag :=
  [__description "SDIV64, non-zero reg divisor, check 1"; __success; __success_unpriv;
   __retval "-20"].
Definition sdiv64_non_zero_reg_1 : test :=
  {| tags := sdiv64_non_zero_reg_1_tags;
     body := ["r0 = -41;"; "r1 = 2;"; "r0 s/= r1;"; "exit;"] |}.

Definition sdiv64_non_zero_reg_2_tags : list tag :=
  [__description "SDIV64, non-zero reg divisor, check 2"; __success; __success_unpriv;
   __retval "-20"].
Definition sdiv64_non_zero_reg_2 : test :=
  {| tags := sdiv64_non_zero_reg_2_tags;
     body := ["r0 = 41;"; "r1 = -2;"; "r0 s/= r1;"; "exit;"] |}.

Definition sdiv64_non_zero_reg_3_tags : list tag :=
  [__description "SDIV64, non-zero reg divisor, check 3"; __success; __success_unpriv;
   __retval "20"].
Definition sdiv64_non_zero_reg_3 : test :=
  {| tags := sdiv64_non_zero_reg_3_tags;
     body := ["r0 = -41;"; "r1 = -2;"; "r0 s/= r1;"; "exit;"] |}.

Definition sdiv64_non_zero_reg_4_tags : list tag :=
  [__description "SDIV64, non-zero reg divisor, check 4"; __success; __success_unpriv;
   __retval "-21"].
Definition sdiv64_non_zero_reg_4 : test :=
  {| tags := sdiv64_non_zero_reg_4_tags;
     body := ["r0 = -42;"; "r1 = 2;"; "r0 s/= r1;"; "exit;"] |}.

Definition sdiv64_non_zero_reg_5_tags : list tag :=
  [__description "SDIV64, non-zero reg divisor, check 5"; __success; __success_unpriv;
   __retval "-21"].
Definition sdiv64_non_zero_reg_5 : test :=
  {| tags := sdiv64_non_zero_reg_5_tags;
     body := ["r0 = 42;"; "r1 = -2;"; "r0 s/= r1;"; "exit;"] |}.

Definition sdiv64_non_zero_reg_6_tags : list tag :=
  [__description "SDIV64, non-zero reg divisor, check 6"; __success; __success_unpriv;
   __retval "21"].
Definition sdiv64_non_zero_reg_6 : test :=
  {| tags := sdiv64_non_zero_reg_6_tags;
     body := ["r0 = -42;"; "r1 = -2;"; "r0 s/= r1;"; "exit;"] |}.

Definition smod32_non_zero_imm_1_tags : list tag :=
  [__description "SMOD32, non-zero imm divisor, check 1"; __success; __success_unpriv;
   __retval "-1"].
Definition smod32_non_zero_imm_1 : test :=
  {| tags := smod32_non_zero_imm_1_tags;
     body := ["w0 = -41;"; "w0 s%= 2;"; "exit;"] |}.

Definition smod32_non_zero_imm_2_tags : list tag :=
  [__description "SMOD32, non-zero imm divisor, check 2"; __success; __success_unpriv; __retval "1"].
Definition smod32_non_zero_imm_2 : test :=
  {| tags := smod32_non_zero_imm_2_tags;
     body := ["w0 = 41;"; "w0 s%= -2;"; "exit;"] |}.

Definition smod32_non_zero_imm_3_tags : list tag :=
  [__description "SMOD32, non-zero imm divisor, check 3"; __success; __success_unpriv;
   __retval "-1"].
Definition smod32_non_zero_imm_3 : test :=
  {| tags := smod32_non_zero_imm_3_tags;
     body := ["w0 = -41;"; "w0 s%= -2;"; "exit;"] |}.

Definition smod32_non_zero_imm_4_tags : list tag :=
  [__description "SMOD32, non-zero imm divisor, check 4"; __success; __success_unpriv; __retval "0"].
Definition smod32_non_zero_imm_4 : test :=
  {| tags := smod32_non_zero_imm_4_tags;
     body := ["w0 = -42;"; "w0 s%= 2;"; "exit;"] |}.

Definition smod32_non_zero_imm_5_tags : list tag :=
  [__description "SMOD32, non-zero imm divisor, check 5"; __success; __success_unpriv; __retval "0"].
Definition smod32_non_zero_imm_5 : test :=
  {| tags := smod32_non_zero_imm_5_tags;
     body := ["w0 = 42;"; "w0 s%= -2;"; "exit;"] |}.

Definition smod32_non_zero_imm_6_tags : list tag :=
  [__description "SMOD32, non-zero imm divisor, check 6"; __success; __success_unpriv; __retval "0"].
Definition smod32_non_zero_imm_6 : test :=
  {| tags := smod32_non_zero_imm_6_tags;
     body := ["w0 = -42;"; "w0 s%= -2;"; "exit;"] |}.

Definition smod32_non_zero_reg_1_tags : list tag :=
  [__description "SMOD32, non-zero reg divisor, check 1"; __success; __success_unpriv;
   __retval "-1"].
Definition smod32_non_zero_reg_1 : test :=
  {| tags := smod32_non_zero_reg_1_tags;
     body := ["w0 = -41;"; "w1 = 2;"; "w0 s%= w1;"; "exit;"] |}.

Definition smod32_non_zero_reg_2_tags : list tag :=
  [__description "SMOD32, non-zero reg divisor, check 2"; __success; __success_unpriv; __retval "1"].
Definition smod32_non_zero_reg_2 : test :=
  {| tags := smod32_non_zero_reg_2_tags;
     body := ["w0 = 41;"; "w1 = -2;"; "w0 s%= w1;"; "exit;"] |}.

Definition smod32_non_zero_reg_3_tags : list tag :=
  [__description "SMOD32, non-zero reg divisor, check 3"; __success; __success_unpriv;
   __retval "-1"].
Definition smod32_non_zero_reg_3 : test :=
  {| tags := smod32_non_zero_reg_3_tags;
     body := ["w0 = -41;"; "w1 = -2;"; "w0 s%= w1;"; "exit;"] |}.

Definition smod32_non_zero_reg_4_tags : list tag :=
  [__description "SMOD32, non-zero reg divisor, check 4"; __success; __success_unpriv; __retval "0"].
Definition smod32_non_zero_reg_4 : test :=
  {| tags := smod32_non_zero_reg_4_tags;
     body := ["w0 = -42;"; "w1 = 2;"; "w0 s%= w1;"; "exit;"] |}.

Definition smod32_non_zero_reg_5_tags : list tag :=
  [__description "SMOD32, non-zero reg divisor, check 5"; __success; __success_unpriv; __retval "0"].
Definition smod32_non_zero_reg_5 : test :=
  {| tags := smod32_non_zero_reg_5_tags;
     body := ["w0 = 42;"; "w1 = -2;"; "w0 s%= w1;"; "exit;"] |}.

Definition smod32_non_zero_reg_6_tags : list tag :=
  [__description "SMOD32, non-zero reg divisor, check 6"; __success; __success_unpriv; __retval "0"].
Definition smod32_non_zero_reg_6 : test :=
  {| tags := smod32_non_zero_reg_6_tags;
     body := ["w0 = -42;"; "w1 = -2;"; "w0 s%= w1;"; "exit;"] |}.

Definition smod64_non_zero_imm_1_tags : list tag :=
  [__description "SMOD64, non-zero imm divisor, check 1"; __success; __success_unpriv;
   __retval "-1"].
Definition smod64_non_zero_imm_1 : test :=
  {| tags := smod64_non_zero_imm_1_tags;
     body := ["r0 = -41;"; "r0 s%= 2;"; "exit;"] |}.

Definition smod64_non_zero_imm_2_tags : list tag :=
  [__description "SMOD64, non-zero imm divisor, check 2"; __success; __success_unpriv; __retval "1"].
Definition smod64_non_zero_imm_2 : test :=
  {| tags := smod64_non_zero_imm_2_tags;
     body := ["r0 = 41;"; "r0 s%= -2;"; "exit;"] |}.

Definition smod64_non_zero_imm_3_tags : list tag :=
  [__description "SMOD64, non-zero imm divisor, check 3"; __success; __success_unpriv;
   __retval "-1"].
Definition smod64_non_zero_imm_3 : test :=
  {| tags := smod64_non_zero_imm_3_tags;
     body := ["r0 = -41;"; "r0 s%= -2;"; "exit;"] |}.

Definition smod64_non_zero_imm_4_tags : list tag :=
  [__description "SMOD64, non-zero imm divisor, check 4"; __success; __success_unpriv; __retval "0"].
Definition smod64_non_zero_imm_4 : test :=
  {| tags := smod64_non_zero_imm_4_tags;
     body := ["r0 = -42;"; "r0 s%= 2;"; "exit;"] |}.

Definition smod64_non_zero_imm_5_tags : list tag :=
  [__description "SMOD64, non-zero imm divisor, check 5"; __success; __success_unpriv;
   __retval "-0"].
Definition smod64_non_zero_imm_5 : test :=
  {| tags := smod64_non_zero_imm_5_tags;
     body := ["r0 = 42;"; "r0 s%= -2;"; "exit;"] |}.

Definition smod64_non_zero_imm_6_tags : list tag :=
  [__description "SMOD64, non-zero imm divisor, check 6"; __success; __success_unpriv; __retval "0"].
Definition smod64_non_zero_imm_6 : test :=
  {| tags := smod64_non_zero_imm_6_tags;
     body := ["r0 = -42;"; "r0 s%= -2;"; "exit;"] |}.

Definition smod64_non_zero_imm_7_tags : list tag :=
  [__description "SMOD64, non-zero imm divisor, check 7"; __success; __success_unpriv; __retval "0"].
Definition smod64_non_zero_imm_7 : test :=
  {| tags := smod64_non_zero_imm_7_tags;
     body := ["r0 = 42;"; "r0 s%= 2;"; "exit;"] |}.

Definition smod64_non_zero_imm_8_tags : list tag :=
  [__description "SMOD64, non-zero imm divisor, check 8"; __success; __success_unpriv; __retval "1"].
Definition smod64_non_zero_imm_8 : test :=
  {| tags := smod64_non_zero_imm_8_tags;
     body := ["r0 = 41;"; "r0 s%= 2;"; "exit;"] |}.

Definition smod64_non_zero_reg_1_tags : list tag :=
  [__description "SMOD64, non-zero reg divisor, check 1"; __success; __success_unpriv;
   __retval "-1"].
Definition smod64_non_zero_reg_1 : test :=
  {| tags := smod64_non_zero_reg_1_tags;
     body := ["r0 = -41;"; "r1 = 2;"; "r0 s%= r1;"; "exit;"] |}.

Definition smod64_non_zero_reg_2_tags : list tag :=
  [__description "SMOD64, non-zero reg divisor, check 2"; __success; __success_unpriv; __retval "1"].
Definition smod64_non_zero_reg_2 : test :=
  {| tags := smod64_non_zero_reg_2_tags;
     body := ["r0 = 41;"; "r1 = -2;"; "r0 s%= r1;"; "exit;"] |}.

Definition smod64_non_zero_reg_3_tags : list tag :=
  [__description "SMOD64, non-zero reg divisor, check 3"; __success; __success_unpriv;
   __retval "-1"].
Definition smod64_non_zero_reg_3 : test :=
  {| tags := smod64_non_zero_reg_3_tags;
     body := ["r0 = -41;"; "r1 = -2;"; "r0 s%= r1;"; "exit;"] |}.

Definition smod64_non_zero_reg_4_tags : list tag :=
  [__description "SMOD64, non-zero reg divisor, check 4"; __success; __success_unpriv; __retval "0"].
Definition smod64_non_zero_reg_4 : test :=
  {| tags := smod64_non_zero_reg_4_tags;
     body := ["r0 = -42;"; "r1 = 2;"; "r0 s%= r1;"; "exit;"] |}.

Definition smod64_non_zero_reg_5_tags : list tag :=
  [__description "SMOD64, non-zero reg divisor, check 5"; __success; __success_unpriv; __retval "0"].
Definition smod64_non_zero_reg_5 : test :=
  {| tags := smod64_non_zero_reg_5_tags;
     body := ["r0 = 42;"; "r1 = -2;"; "r0 s%= r1;"; "exit;"] |}.

Definition smod64_non_zero_reg_6_tags : list tag :=
  [__description "SMOD64, non-zero reg divisor, check 6"; __success; __success_unpriv; __retval "0"].
Definition smod64_non_zero_reg_6 : test :=
  {| tags := smod64_non_zero_reg_6_tags;
     body := ["r0 = -42;"; "r1 = -2;"; "r0 s%= r1;"; "exit;"] |}.

Definition smod64_non_zero_reg_7_tags : list tag :=
  [__description "SMOD64, non-zero reg divisor, check 7"; __success; __success_unpriv; __retval "0"].
Definition smod64_non_zero_reg_7 : test :=
  {| tags := smod64_non_zero_reg_7_tags;
     body := ["r0 = 42;"; "r1 = 2;"; "r0 s%= r1;"; "exit;"] |}.

Definition smod64_non_zero_reg_8_tags : list tag :=
  [__description "SMOD64, non-zero reg divisor, check 8"; __success; __success_unpriv; __retval "1"].
Definition smod64_non_zero_reg_8 : test :=
  {| tags := smod64_non_zero_reg_8_tags;
     body := ["r0 = 41;"; "r1 = 2;"; "r0 s%= r1;"; "exit;"] |}.

Definition sdiv32_zero_divisor_tags : list tag :=
  [__description "SDIV32, zero divisor"; __success; __success_unpriv; __retval "0"].
Definition sdiv32_zero_divisor : test :=
  {| tags := sdiv32_zero_divisor_tags;
     body := ["w0 = 42;"; "w1 = 0;"; "w2 = -1;"; "w2 s/= w1;"; "w0 = w2;"; "exit;"] |}.

Definition sdiv64_zero_divisor_tags : list tag :=
  [__description "SDIV64, zero divisor"; __success; __success_unpriv; __retval "0"].
Definition sdiv64_zero_divisor : test :=
  {| tags := sdiv64_zero_divisor_tags;
     body := ["r0 = 42;"; "r1 = 0;"; "r2 = -1;"; "r2 s/= r1;"; "r0 = r2;"; "exit;"] |}.

Definition smod32_zero_divisor_tags : list tag :=
  [__description "SMOD32, zero divisor"; __success; __success_unpriv; __retval "-1"].
Definition smod32_zero_divisor : test :=
  {| tags := smod32_zero_divisor_tags;
     body := ["w0 = 42;"; "w1 = 0;"; "w2 = -1;"; "w2 s%= w1;"; "w0 = w2;"; "exit;"] |}.

Definition smod64_zero_divisor_tags : list tag :=
  [__description "SMOD64, zero divisor"; __success; __success_unpriv; __retval "-1"].
Definition smod64_zero_divisor : test :=
  {| tags := smod64_zero_divisor_tags;
     body := ["r0 = 42;"; "r1 = 0;"; "r2 = -1;"; "r2 s%= r1;"; "r0 = r2;"; "exit;"] |}.

Definition sdiv64_overflow_rr_tags : list tag :=
  [__description "SDIV64, overflow r/r, LLONG_MIN/-1"; __success; __retval "1"; __arch_x86_64;
   __xlated "0: r2 = 0x8000000000000000"; __xlated "2: r3 = -1"; __xlated "3: r4 = r2";
   __xlated "4: r12 = r3"; __xlated "5: r12 += 1"; __xlated "6: if r12 > 0x1 goto pc+4";
   __xlated "7: if r12 == 0x0 goto pc+1"; __xlated "8: r2 = 0"; __xlated "9: r2 = -r2";
   __xlated "10: goto pc+1"; __xlated "11: r2 s/= r3"; __xlated "12: r0 = 0";
   __xlated "13: if r2 != r4 goto pc+1"; __xlated "14: r0 = 1"; __xlated "15: exit"].
Definition sdiv64_overflow_rr : test :=
  {| tags := sdiv64_overflow_rr_tags;
     body := ["r2 = -9223372036854775808 ll;"; "r3 = -1;"; "r4 = r2;"; "r2 s/= r3;"; "r0 = 0;";
              "if r2 != r4 goto +1;"; "r0 = 1;"; "exit;"] |}.

Definition sdiv64_rr_divisor_neg_1_tags : list tag :=
  [__description "SDIV64, r/r, small_val/-1"; __success; __retval "-5"; __arch_x86_64;
   __xlated "0: r2 = 5"; __xlated "1: r3 = -1"; __xlated "2: r12 = r3"; __xlated "3: r12 += 1";
   __xlated "4: if r12 > 0x1 goto pc+4"; __xlated "5: if r12 == 0x0 goto pc+1";
   __xlated "6: r2 = 0"; __xlated "7: r2 = -r2"; __xlated "8: goto pc+1"; __xlated "9: r2 s/= r3";
   __xlated "10: r0 = r2"; __xlated "11: exit"].
Definition sdiv64_rr_divisor_neg_1 : test :=
  {| tags := sdiv64_rr_divisor_neg_1_tags;
     body := ["r2 = 5;"; "r3 = -1;"; "r2 s/= r3;"; "r0 = r2;"; "exit;"] |}.

Definition sdiv64_overflow_ri_tags : list tag :=
  [__description "SDIV64, overflow r/i, LLONG_MIN/-1"; __success; __retval "1"; __arch_x86_64;
   __xlated "0: r2 = 0x8000000000000000"; __xlated "2: r4 = r2"; __xlated "3: r2 = -r2";
   __xlated "4: r0 = 0"; __xlated "5: if r2 != r4 goto pc+1"; __xlated "6: r0 = 1";
   __xlated "7: exit"].
Definition sdiv64_overflow_ri : test :=
  {| tags := sdiv64_overflow_ri_tags;
     body := ["r2 = -9223372036854775808 ll;"; "r4 = r2;"; "r2 s/= -1;"; "r0 = 0;";
              "if r2 != r4 goto +1;"; "r0 = 1;"; "exit;"] |}.

Definition sdiv64_ri_divisor_neg_1_tags : list tag :=
  [__description "SDIV64, r/i, small_val/-1"; __success; __retval "-5"; __arch_x86_64;
   __xlated "0: r2 = 5"; __xlated "1: r4 = r2"; __xlated "2: r2 = -r2"; __xlated "3: r0 = r2";
   __xlated "4: exit"].
Definition sdiv64_ri_divisor_neg_1 : test :=
  {| tags := sdiv64_ri_divisor_neg_1_tags;
     body := ["r2 = 5;"; "r4 = r2;"; "r2 s/= -1;"; "r0 = r2;"; "exit;"] |}.

Definition sdiv32_overflow_rr_tags : list tag :=
  [__description "SDIV32, overflow r/r, INT_MIN/-1"; __success; __retval "1"; __arch_x86_64;
   __xlated "0: w2 = -2147483648"; __xlated "1: w3 = -1"; __xlated "2: w4 = w2";
   __xlated "3: r12 = r3"; __xlated "4: w12 += 1"; __xlated "5: if w12 > 0x1 goto pc+4";
   __xlated "6: if w12 == 0x0 goto pc+1"; __xlated "7: w2 = 0"; __xlated "8: w2 = -w2";
   __xlated "9: goto pc+1"; __xlated "10: w2 s/= w3"; __xlated "11: r0 = 0";
   __xlated "12: if w2 != w4 goto pc+1"; __xlated "13: r0 = 1"; __xlated "14: exit"].
Definition sdiv32_overflow_rr : test :=
  {| tags := sdiv32_overflow_rr_tags;
     body := ["w2 = -2147483648;"; "w3 = -1;"; "w4 = w2;"; "w2 s/= w3;"; "r0 = 0;";
              "if w2 != w4 goto +1;"; "r0 = 1;"; "exit;"] |}.

Definition sdiv32_rr_divisor_neg_1_tags : list tag :=
  [__description "SDIV32, r/r, small_val/-1"; __success; __retval "5"; __arch_x86_64;
   __xlated "0: w2 = -5"; __xlated "1: w3 = -1"; __xlated "2: w4 = w2"; __xlated "3: r12 = r3";
   __xlated "4: w12 += 1"; __xlated "5: if w12 > 0x1 goto pc+4";
   __xlated "6: if w12 == 0x0 goto pc+1"; __xlated "7: w2 = 0"; __xlated "8: w2 = -w2";
   __xlated "9: goto pc+1"; __xlated "10: w2 s/= w3"; __xlated "11: w0 = w2"; __xlated "12: exit"].
Definition sdiv32_rr_divisor_neg_1 : test :=
  {| tags := sdiv32_rr_divisor_neg_1_tags;
     body := ["w2 = -5;"; "w3 = -1;"; "w4 = w2;"; "w2 s/= w3;"; "w0 = w2;"; "exit;"] |}.

Definition sdiv32_overflow_ri_tags : list tag :=
  [__description "SDIV32, overflow r/i, INT_MIN/-1"; __success; __retval "1"; __arch_x86_64;
   __xlated "0: w2 = -2147483648"; __xlated "1: w4 = w2"; __xlated "2: w2 = -w2";
   __xlated "3: r0 = 0"; __xlated "4: if w2 != w4 goto pc+1"; __xlated "5: r0 = 1";
   __xlated "6: exit"].
Definition sdiv32_overflow_ri : test :=
  {| tags := sdiv32_overflow_ri_tags;
     body := ["w2 = -2147483648;"; "w4 = w2;"; "w2 s/= -1;"; "r0 = 0;"; "if w2 != w4 goto +1;";
              "r0 = 1;"; "exit;"] |}.

Definition sdiv32_ri_divisor_neg_1_tags : list tag :=
  [__description "SDIV32, r/i, small_val/-1"; __success; __retval "-5"; __arch_x86_64;
   __xlated "0: w2 = 5"; __xlated "1: w4 = w2"; __xlated "2: w2 = -w2"; __xlated "3: w0 = w2";
   __xlated "4: exit"].
Definition sdiv32_ri_divisor_neg_1 : test :=
  {| tags := sdiv32_ri_divisor_neg_1_tags;
     body := ["w2 = 5;"; "w4 = w2;"; "w2 s/= -1;"; "w0 = w2;"; "exit;"] |}.

Definition smod64_overflow_rr_tags : list tag :=
  [__description "SMOD64, overflow r/r, LLONG_MIN/-1"; __success; __retval "0"; __arch_x86_64;
   __xlated "0: r2 = 0x8000000000000000"; __xlated "2: r3 = -1"; __xlated "3: r4 = r2";
   __xlated "4: r12 = r3"; __xlated "5: r12 += 1"; __xlated "6: if r12 > 0x1 goto pc+3";
   __xlated "7: if r12 == 0x1 goto pc+3"; __xlated "8: w2 = 0"; __xlated "9: goto pc+1";
   __xlated "10: r2 s%= r3"; __xlated "11: r0 = r2"; __xlated "12: exit"].
Definition smod64_overflow_rr : test :=
  {| tags := smod64_overflow_rr_tags;
     body := ["r2 = -9223372036854775808 ll;"; "r3 = -1;"; "r4 = r2;"; "r2 s%= r3;"; "r0 = r2;";
              "exit;"] |}.

Definition smod64_rr_divisor_neg_1_tags : list tag :=
  [__description "SMOD64, r/r, small_val/-1"; __success; __retval "0"; __arch_x86_64;
   __xlated "0: r2 = 5"; __xlated "1: r3 = -1"; __xlated "2: r4 = r2"; __xlated "3: r12 = r3";
   __xlated "4: r12 += 1"; __xlated "5: if r12 > 0x1 goto pc+3";
   __xlated "6: if r12 == 0x1 goto pc+3"; __xlated "7: w2 = 0"; __xlated "8: goto pc+1";
   __xlated "9: r2 s%= r3"; __xlated "10: r0 = r2"; __xlated "11: exit"].
Definition smod64_rr_divisor_neg_1 : test :=
  {| tags := smod64_rr_divisor_neg_1_tags;
     body := ["r2 = 5;"; "r3 = -1;"; "r4 = r2;"; "r2 s%= r3;"; "r0 = r2;"; "exit;"] |}.

Definition smod64_overflow_ri_tags : list tag :=
  [__description "SMOD64, overflow r/i, LLONG_MIN/-1"; __success; __retval "0"; __arch_x86_64;
   __xlated "0: r2 = 0x8000000000000000"; __xlated "2: r4 = r2"; __xlated "3: w2 = 0";
   __xlated "4: r0 = r2"; __xlated "5: exit"].
Definition smod64_overflow_ri : test :=
  {| tags := smod64_overflow_ri_tags;
     body := ["r2 = -9223372036854775808 ll;"; "r4 = r2;"; "r2 s%= -1;"; "r0 = r2;"; "exit;"] |}.

Definition smod64_ri_divisor_neg_1_tags : list tag :=
  [__description "SMOD64, r/i, small_val/-1"; __success; __retval "0"; __arch_x86_64;
   __xlated "0: r2 = 5"; __xlated "1: r4 = r2"; __xlated "2: w2 = 0"; __xlated "3: r0 = r2";
   __xlated "4: exit"].
Definition smod64_ri_divisor_neg_1 : test :=
  {| tags := smod64_ri_divisor_neg_1_tags;
     body := ["r2 = 5;"; "r4 = r2;"; "r2 s%= -1;"; "r0 = r2;"; "exit;"] |}.

Definition smod32_overflow_rr_tags : list tag :=
  [__description "SMOD32, overflow r/r, INT_MIN/-1"; __success; __retval "0"; __arch_x86_64;
   __xlated "0: w2 = -2147483648"; __xlated "1: w3 = -1"; __xlated "2: w4 = w2";
   __xlated "3: r12 = r3"; __xlated "4: w12 += 1"; __xlated "5: if w12 > 0x1 goto pc+3";
   __xlated "6: if w12 == 0x1 goto pc+4"; __xlated "7: w2 = 0"; __xlated "8: goto pc+1";
   __xlated "9: w2 s%= w3"; __xlated "10: goto pc+1"; __xlated "11: w2 = w2";
   __xlated "12: r0 = r2"; __xlated "13: exit"].
Definition smod32_overflow_rr : test :=
  {| tags := smod32_overflow_rr_tags;
     body := ["w2 = -2147483648;"; "w3 = -1;"; "w4 = w2;"; "w2 s%= w3;"; "r0 = r2;"; "exit;"] |}.

Definition smod32_rr_divisor_neg_1_tags : list tag :=
  [__description "SMOD32, r/r, small_val/-1"; __success; __retval "0"; __arch_x86_64;
   __xlated "0: w2 = -5"; __xlated "1: w3 = -1"; __xlated "2: w4 = w2"; __xlated "3: r12 = r3";
   __xlated "4: w12 += 1"; __xlated "5: if w12 > 0x1 goto pc+3";
   __xlated "6: if w12 == 0x1 goto pc+4"; __xlated "7: w2 = 0"; __xlated "8: goto pc+1";
   __xlated "9: w2 s%= w3"; __xlated "10: goto pc+1"; __xlated "11: w2 = w2";
   __xlated "12: r0 = r2"; __xlated "13: exit"].
Definition smod32_rr_divisor_neg_1 : test :=
  {| tags := smod32_rr_divisor_neg_1_tags;
     body := ["w2 = -5;"; "w3 = -1;"; "w4 = w2;"; "w2 s%= w3;"; "r0 = r2;"; "exit;"] |}.

Definition smod32_overflow_ri_tags : list tag :=
  [__description "SMOD32, overflow r/i, INT_MIN/-1"; __success; __retval "0"; __arch_x86_64;
   __xlated "0: w2 = -2147483648"; __xlated "1: w4 = w2"; __xlated "2: w2 = 0";
   __xlated "3: r0 = r2"; __xlated "4: exit"].
Definition smod32_overflow_ri : test :=
  {| tags := smod32_overflow_ri_tags;
     body := ["w2 = -2147483648;"; "w4 = w2;"; "w2 s%= -1;"; "r0 = r2;"; "exit;"] |}.

Definition smod32_ri_divisor_neg_1_tags : list tag :=
  [__description "SMOD32, r/i, small_val/-1"; __success; __retval "0"; __arch_x86_64;
   __xlated "0: w2 = 5"; __xlated "1: w4 = w2"; __xlated "2: w2 = 0"; __xlated "3: w0 = w2";
   __xlated "4: exit"].
Definition smod32_ri_divisor_neg_1 : test :=
  {| tags := smod32_ri_divisor_neg_1_tags;
     body := ["w2 = 5;"; "w4 = w2;"; "w2 s%= -1;"; "w0 = w2;"; "exit;"] |}.

Definition sdiv32_int_min_div_2_imm_tags : list tag :=
  [__description "SDIV32, INT_MIN divided by 2, imm"; __success; __success_unpriv;
   __retval "-1073741824"].
Definition sdiv32_int_min_div_2_imm : test :=
  {| tags := sdiv32_int_min_div_2_imm_tags;
     body := ["w0 = -2147483648;"; "w0 s/= 2;"; "exit;"] |}.

Definition sdiv32_int_min_div_2_reg_tags : list tag :=
  [__description "SDIV32, INT_MIN divided by 2, reg"; __success; __success_unpriv;
   __retval "-1073741824"].
Definition sdiv32_int_min_div_2_reg : test :=
  {| tags := sdiv32_int_min_div_2_reg_tags;
     body := ["w0 = -2147483648;"; "w1 = 2;"; "w0 s/= w1;"; "exit;"] |}.

Definition smod32_int_min_mod_2_imm_tags : list tag :=
  [__description "SMOD32, INT_MIN modulo 2, imm"; __success; __success_unpriv; __retval "0"].
Definition smod32_int_min_mod_2_imm : test :=
  {| tags := smod32_int_min_mod_2_imm_tags;
     body := ["w0 = -2147483648;"; "w0 s%= 2;"; "exit;"] |}.

Definition smod32_int_min_mod_neg2_imm_tags : list tag :=
  [__description "SMOD32, INT_MIN modulo -2, imm"; __success; __success_unpriv; __retval "0"].
Definition smod32_int_min_mod_neg2_imm : test :=
  {| tags := smod32_int_min_mod_neg2_imm_tags;
     body := ["w0 = -2147483648;"; "w0 s%= -2;"; "exit;"] |}.

Definition tests : list test :=
  [sdiv32_non_zero_imm_1; sdiv32_non_zero_imm_2; sdiv32_non_zero_imm_3; sdiv32_non_zero_imm_4;
   sdiv32_non_zero_imm_5; sdiv32_non_zero_imm_6; sdiv32_non_zero_imm_7; sdiv32_non_zero_imm_8;
   sdiv32_non_zero_reg_1; sdiv32_non_zero_reg_2; sdiv32_non_zero_reg_3; sdiv32_non_zero_reg_4;
   sdiv32_non_zero_reg_5; sdiv32_non_zero_reg_6; sdiv32_non_zero_reg_7; sdiv32_non_zero_reg_8;
   sdiv64_non_zero_imm_1; sdiv64_non_zero_imm_2; sdiv64_non_zero_imm_3; sdiv64_non_zero_imm_4;
   sdiv64_non_zero_imm_5; sdiv64_non_zero_imm_6; sdiv64_non_zero_reg_1; sdiv64_non_zero_reg_2;
   sdiv64_non_zero_reg_3; sdiv64_non_zero_reg_4; sdiv64_non_zero_reg_5; sdiv64_non_zero_reg_6;
   smod32_non_zero_imm_1; smod32_non_zero_imm_2; smod32_non_zero_imm_3; smod32_non_zero_imm_4;
   smod32_non_zero_imm_5; smod32_non_zero_imm_6; smod32_non_zero_reg_1; smod32_non_zero_reg_2;
   smod32_non_zero_reg_3; smod32_non_zero_reg_4; smod32_non_zero_reg_5; smod32_non_zero_reg_6;
   smod64_non_zero_imm_1; smod64_non_zero_imm_2; smod64_non_zero_imm_3; smod64_non_zero_imm_4;
   smod64_non_zero_imm_5; smod64_non_zero_imm_6; smod64_non_zero_imm_7; smod64_non_zero_imm_8;
   smod64_non_zero_reg_1; smod64_non_zero_reg_2; smod64_non_zero_reg_3; smod64_non_zero_reg_4;
   smod64_non_zero_reg_5; smod64_non_zero_reg_6; smod64_non_zero_reg_7; smod64_non_zero_reg_8;
   sdiv32_zero_divisor; sdiv64_zero_divisor; smod32_zero_divisor; smod64_zero_divisor;
   sdiv64_overflow_rr; sdiv64_rr_divisor_neg_1; sdiv64_overflow_ri; sdiv64_ri_divisor_neg_1;
   sdiv32_overflow_rr; sdiv32_rr_divisor_neg_1; sdiv32_overflow_ri; sdiv32_ri_divisor_neg_1;
   smod64_overflow_rr; smod64_rr_divisor_neg_1; smod64_overflow_ri; smod64_ri_divisor_neg_1;
   smod32_overflow_rr; smod32_rr_divisor_neg_1; smod32_overflow_ri; smod32_ri_divisor_neg_1;
   sdiv32_int_min_div_2_imm; sdiv32_int_min_div_2_reg; smod32_int_min_mod_2_imm;
   smod32_int_min_mod_neg2_imm].

(** All eighty programs of verifier_sdiv.rs return the value their
    [__retval] declares, from every start: signed quotients truncate toward
    zero, remainders take the dividend's sign, division by zero gives 0 and the
    overflow [MIN / -1] wraps. *)
Lemma sdiv_tests_pass : all_pass tests.
Proof. apply all_pass_sound; vm_compute; reflexivity. Qed.

(** * The kernel's rewriting of signed divisions *)

Definition rewritten_tests : list test :=
  filter (fun t => match xlated t with [] => false | _ => true end) tests.

(** C29. The sixteen programs whose rewritten listing is declared return the
    same value when that listing runs on a processor whose division traps on a
    zero divisor and on overflow. *)
Theorem listings_agree : List.length rewritten_tests = 16%nat /\ Forall rewritten rewritten_tests.
Proof.
  split; [reflexivity|].
  let l := eval vm_compute in rewritten_tests in change rewritten_tests with l.
  repeat (constructor; [native_listing|]); constructor.
Qed.

(** The instructions [k], ..., [k + n - 1] of a listing. *)
Definition fragment (t : test) (k n : nat) : program :=
  match assemble_listing (xlated t) with Some p => firstn n (skipn k p) | None => [] end.

(** A run on the trapping processor gets to a state with [Q]. *)
Definition reach (e : env) (p : program) (s : state) (Q : state -> Prop) : Prop :=
  exists n s', native_run n e p s = Next s' /\ Q s'.

(** On the trapping processor the fragment replaces [r2 op= r3]: it runs to its
    end, leaves the instruction's result in [r2] and changes no other register
    than its scratch [r12]. *)
Definition implements (p : program) (w : width) (op : aluop) : Prop :=
  forall e s, pc s = O -> (forall r, is_u64 (regs s r)) ->
  reach e p s (fun s' => pc s' = List.length p /\
    regs s' R2 = alu_in w op (regs s R2) (regs s R3) /\
    (forall r, r <> R2 -> r <> R12 -> regs s' r = regs s r) /\ mem s' = mem s).

(** ** The three cases of the guard

    [r12] is the divisor plus one: 0 for the divisor -1, 1 for 0. *)

Inductive divisor := DZero | DNeg1 | DOther.
Definition classify (w : width) (y : Z) : divisor :=
  if uw (bits w) y =? 0 then DZero else if sw (bits w) y =? -1 then DNeg1 else DOther.

Lemma neg1_uw w y : sw (bits w) y = -1 <-> uw (bits w) y = 2 ^ bits w - 1.
Proof.
  pose proof (bits_pos w). unfold sw.
  pose proof (uw_range (bits w) y ltac:(lia)) as Hr; unfold is_u in Hr.
  assert (1 <= 2 ^ (bits w - 1)) by (destruct w; cbn; lia).
  assert (2 ^ bits w = 2 * 2 ^ (bits w - 1)) by (destruct w; reflexivity).
  destruct (Z.ltb_spec (uw (bits w) y) (2 ^ (bits w - 1))); lia.
Qed.

Lemma uw_add1 w y : uw (bits w) (uw (bits w) y + 1) =
  match classify w y with DZero => 1 | DNeg1 => 0 | DOther => uw (bits w) y + 1 end.
Proof.
  pose proof (bits_pos w). pose proof (uw_range (bits w) y ltac:(lia)) as Hr; unfold is_u in Hr.
  unfold classify. destruct (Z.eqb_spec (uw (bits w) y) 0) as [->|]; [now destruct w|].
  destruct (Z.eqb_spec (sw (bits w) y) (-1)) as [E|E]; rewrite neg1_uw in E.
  - rewrite E. replace (2 ^ bits w - 1 + 1) with (2 ^ bits w) by lia. apply Z_mod_same_full.
  - apply uw_small; unfold is_u; lia.
Qed.

(** [r12 = r3; r12 += 1] and the first test on it. *)
Lemma guard w o y : is_u64 y ->
  alu_in w ADD (alu_in W64 MOV o (u64 y)) (imm_val w 1) =
  match classify w y with DZero => 1 | DNeg1 => 0 | DOther => uw (bits w) y + 1 end.
Proof.
  intros Hy; rewrite <- uw_add1, alu_in_mov; cbn [bits]. rewrite (uw_uw 64), (uw_small 64 y) by (lia || exact Hy).
  destruct w; reflexivity.
Qed.

Lemma guard_other w y : classify w y = DOther ->
  cmp_in w GT (uw (bits w) y + 1) (imm_val w 1) = true.
Proof.
  unfold classify; pose proof (bits_pos w).
  destruct (Z.eqb_spec (uw (bits w) y) 0); [discriminate|].
  destruct (Z.eqb_spec (sw (bits w) y) (-1)) as [|E]; [discriminate|]; rewrite neg1_uw in E; intros _.
  pose proof (uw_range (bits w) y ltac:(lia)) as Hr; unfold is_u in Hr.
  unfold cmp_in; cbn [cmp]. rewrite (uw_small _ (_ + 1)) by (unfold is_u; lia).
  assert (uw (bits w) (imm_val w 1) = 1) as -> by (destruct w; reflexivity).
  apply Z.ltb_lt; lia.
Qed.

(** What the rewritten instruction must leave in [r2], by the divisor. *)
Lemma div_cases w x y : classify w y = DZero ->
  alu_in w SDIV x y = 0 /\ alu_in w SMOD x y = uw (bits w) x.
Proof.
  unfold classify, alu_in; cbn [alu].
  destruct (Z.eqb_spec (uw (bits w) y) 0); [now split|].
  destruct (_ =? -1); discriminate.
Qed.

Lemma sw_idem w y : sw (bits w) (uw (bits w) y) = sw (bits w) y.
Proof. apply sw_uw; pose proof (bits_pos w); lia. Qed.

Lemma div_cases_neg1 w x y : classify w y = DNeg1 ->
  alu_in w SDIV x y = neg w x /\ alu_in w SMOD x y = 0.
Proof.
  unfold classify, alu_in, neg; pose proof (bits_pos w); cbn [alu].
  destruct (Z.eqb_spec (uw (bits w) y) 0); [discriminate|]; rewrite !sw_idem.
  destruct (Z.eqb_spec (sw (bits w) y) (-1)) as [->|]; [intros _|discriminate].
  pose proof (Z.quot_opp_r (sw (bits w) x) 1 ltac:(lia)) as Q; rewrite Z.quot_1_r in Q.
  pose proof (Z.rem_opp_r (sw (bits w) x) 1 ltac:(lia)) as M; rewrite Z.rem_1_r in M.
  change (- (1)) with (-1) in *; rewrite Q, M.
  split; [|apply uw_small; unfold is_u; destruct w; cbn; lia].
  unfold uw. rewrite <- (Z.sub_0_l (sw _ _)), <- (Z.sub_0_l x), <- (Zminus_mod_idemp_r 0 (sw _ x)).
  change (sw (bits w) x mod 2 ^ bits w) with (uw (bits w) (sw (bits w) x)).
  rewrite uw_sw by lia. apply Zminus_mod_idemp_r.
Qed.

Lemma div_other w op x y : classify w y = DOther -> div_traps w op x (uw (bits w) y) = false.
Proof.
  unfold classify, div_traps; pose proof (bits_pos w).
  destruct (Z.eqb_spec (uw (bits w) y) 0) as [|N]; [discriminate|]; intros Hc.
  rewrite uw_uw, sw_idem by lia. apply Z.eqb_neq in N; rewrite N.
  destruct (sw (bits w) y =? -1); [discriminate|]. rewrite andb_false_r. now destruct op.
Qed.

Lemma div_other_at w x y : classify w y = DOther ->
  div_traps w SDIV x (uw (bits w) y) = false /\ div_traps w SMOD x (uw (bits w) y) = false.
Proof. split; now apply div_other. Qed.

(** ** Running a fragment *)

Lemma reach_here e p s (Q : state -> Prop) : Q s -> reach e p s Q.
Proof. exists O, s; auto. Qed.

Lemma reach_step e p s s1 Q : native_step e p s = Next s1 -> reach e p s1 Q -> reach e p s Q.
Proof. intros Hs (n & s' & Hr & Hq); exists (S n), s'; cbn [native_run]; now rewrite Hs. Qed.

(** One step, with the tests on constants evaluated and [tac] for the others. *)
Ltac frag_step_with tac :=
  eapply reach_step;
  [unfold native_step, traps, step, put, goto, next; cbn -[alu_in cmp_in neg uw div_traps imm_val];
   tac;
   try match goal with |- context [cmp_in ?w ?c ?a ?b] =>
     let v := eval vm_compute in (cmp_in w c a b) in
     lazymatch v with true => idtac | false => idtac end;
     change (cmp_in w c a b) with v end;
   cbn -[alu_in cmp_in neg uw div_traps imm_val]; reflexivity
  |cbn -[alu_in cmp_in neg uw div_traps imm_val]].
Ltac frag_step := frag_step_with idtac.

(** The end of the fragment: [tac] settles the value of [r2]. *)
Ltac frag_end tac :=
  apply reach_here; cbn -[alu_in cmp_in neg uw imm_val];
  (split; [reflexivity|]); (split; [tac|]); (split; [|reflexivity]);
  let N2 := fresh in let N12 := fresh in intros [] N2 N12; (reflexivity || now elim N2 || now elim N12).

Ltac rewrite_bits H0 :=
  let H := fresh in pose proof H0 as H; cbn [bits] in H; first [rewrite H | rewrite (proj1 H) | rewrite (proj2 H)]; clear H.

(** The guard in three cases: divisor 0, divisor -1, the processor's division. *)
Ltac fragment_cases t k n w :=
  let e := fresh "e" in let r := fresh "r" in let Hr := fresh "Hr" in let E := fresh "E" in
  intros e [? r ? ?] Hpc Hr; cbn [pc regs] in *; subst;
  let p := eval vm_compute in (fragment t k n) in change (fragment t k n) with p;
  do 2 frag_step; rewrite (guard w (r R12) (r R3) (Hr R3));
  destruct (classify w (r R3)) eqn:E;
  [ repeat frag_step; frag_end ltac:(symmetry; first [apply (div_cases w _ _ E)
      | etransitivity; [apply (div_cases w _ _ E)|]; first [apply uw_small, Hr | symmetry; apply alu_in_idem]])
  | repeat frag_step; frag_end ltac:(symmetry; apply (div_cases_neg1 w _ _ E))
  | frag_step_with ltac:(rewrite_bits (guard_other w (r R3) E));
    frag_step_with ltac:(rewrite_bits (div_other_at w (r R2) (r R3) E));
    repeat frag_step; frag_end ltac:(apply alu_in_idem) ].

Lemma sdiv64_rewriting : implements (fragment sdiv64_overflow_rr 3 8) W64 SDIV.
Proof. fragment_cases sdiv64_overflow_rr 3%nat 8%nat W64. Qed.
Lemma sdiv32_rewriting : implements (fragment sdiv32_overflow_rr 3 8) W32 SDIV.
Proof. fragment_cases sdiv32_overflow_rr 3%nat 8%nat W32. Qed.
Lemma smod64_rewriting : implements (fragment smod64_overflow_rr 3 7) W64 SMOD.
Proof. fragment_cases smod64_overflow_rr 3%nat 7%nat W64. Qed.
Lemma smod32_rewriting : implements (fragment smod32_overflow_rr 3 9) W32 SMOD.
Proof. fragment_cases smod32_overflow_rr 3%nat 9%nat W32. Qed.

(** C1. The instruction sequences the kernel substitutes for a signed division
    or remainder by a register, as the tests list them, compute the BPF
    instruction for every dividend and divisor: they never reach the
    processor's division with a divisor or an overflow it traps on, give 0
    (the dividend, for a remainder) on division by zero and wrap on [MIN / -1],
    and change nothing but [r2] and the scratch register. *)
Theorem division_rewriting :
  implements (fragment sdiv64_overflow_rr 3 8) W64 SDIV /\
  implements (fragment sdiv32_overflow_rr 3 8) W32 SDIV /\
  implements (fragment smod64_overflow_rr 3 7) W64 SMOD /\
  implements (fragment smod32_overflow_rr 3 9) W32 SMOD.
Proof.
  exact (conj sdiv64_rewriting (conj sdiv32_rewriting (conj smod64_rewriting smod32_rewriting))).
Qed.
