(* ===== verification/Div0.v ===== *)
(** Division by zero: src/progs/verifier_div0.rs.

    Each naked function is a [test]: its tags and its assembly text, verbatim. *)

From S2P Require Import Prelude Bpf Asm Range Loader.
From Stdlib Require Import String.
Local Open Scope string_scope.
Local Open Scope Z_scope.

Definition by_0_zero_check_1_1_tags : list tag :=
  [__description "DIV32 by 0, zero check 1"; __success; __success_unpriv; __retval "42"].
Definition by_0_zero_check_1_1 : test :=
  {| tags := by_0_zero_check_1_1_tags;
     body := ["w0 = 42;"; "w1 = 0;"; "w2 = 1;"; "w2 /= w1;"; "exit;"] |}.

Definition by_0_zero_check_2_1_tags : list tag :=
  [__description "DIV32 by 0, zero check 2"; __success; __success_unpriv; __retval "42"].
Definition by_0_zero_check_2_1 : test :=
  {| tags := by_0_zero_check_2_1_tags;
     body := ["w0 = 42;"; "r1 = 0xffffffff00000000LL ll;"; "w2 = 1;"; "w2 /= w1;"; "exit;"] |}.

Definition div64_by_0_zero_check_tags : list tag :=
  [__description "DIV64 by 0, zero check"; __success; __success_unpriv; __retval "42"].
Definition div64_by_0_zero_check : test :=
  {| tags := div64_by_0_zero_check_tags;
     body := ["w0 = 42;"; "w1 = 0;"; "w2 = 1;"; "r2 /= r1;"; "exit;"] |}.

Definition by_0_zero_check_1_2_tags : list tag :=
  [__description "MOD32 by 0, zero check 1"; __success; __success_unpriv; __retval "42"].
Definition by_0_zero_check_1_2 : test :=
  {| tags := by_0_zero_check_1_2_tags;
     body := ["w0 = 42;"; "w1 = 0;"; "w2 = 1;"; "w2 %= w1;"; "exit;"] |}.

Definition by_0_zero_check_2_2_tags : list tag :=
  [__description "MOD32 by 0, zero check 2"; __success; __success_unpriv; __retval "42"].
Definition by_0_zero_check_2_2 : test :=
  {| tags := by_0_zero_check_2_2_tags;
     body := ["w0 = 42;"; "r1 = 0xffffffff00000000LL ll;"; "w2 = 1;"; "w2 %= w1;"; "exit;"] |}.

Definition mod64_by_0_zero_check_tags : list tag :=
  [__description "MOD64 by 0, zero check"; __success; __success_unpriv; __retval "42"].
Definition mod64_by_0_zero_check : test :=
  {| tags := mod64_by_0_zero_check_tags;
     body := ["w0 = 42;"; "w1 = 0;"; "w2 = 1;"; "r2 %= r1;"; "exit;"] |}.

Definition _0_zero_check_ok_cls_1_tags : list tag :=
  [__description "DIV32 by 0, zero check ok, cls"; __success; __retval "8"].
Definition _0_zero_check_ok_cls_1 : test :=
  {| tags := _0_zero_check_ok_cls_1_tags;
     body := ["w0 = 42;"; "w1 = 2;"; "w2 = 16;"; "w2 /= w1;"; "r0 = r2;"; "exit;"] |}.

Definition _0_zero_check_1_cls_1_tags : list tag :=
  [__description "DIV32 by 0, zero check 1, cls"; __success; __retval "0"].
Definition _0_zero_check_1_cls_1 : test :=
  {| tags := _0_zero_check_1_cls_1_tags;
     body := ["w1 = 0;"; "w0 = 1;"; "w0 /= w1;"; "exit;"] |}.

Definition _0_zero_check_2_cls_1_tags : list tag :=
  [__description "DIV32 by 0, zero check 2, cls"; __success; __retval "0"].
Definition _0_zero_check_2_cls_1 : test :=
  {| tags := _0_zero_check_2_cls_1_tags;
     body := ["r1 = 0xffffffff00000000LL ll;"; "w0 = 1;"; "w0 /= w1;"; "exit;"] |}.

Definition by_0_zero_check_cls_tags : list tag :=
  [__description "DIV64 by 0, zero check, cls"; __success; __retval "0"].
Definition by_0_zero_check_cls : test :=
  {| tags := by_0_zero_check_cls_tags;
     body := ["w1 = 0;"; "w0 = 1;"; "r0 /= r1;"; "exit;"] |}.

Definition _0_zero_check_ok_cls_2_tags : list tag :=
  [__description "MOD32 by 0, zero check ok, cls"; __success; __retval "2"].
Definition _0_zero_check_ok_cls_2 : test :=
  {| tags := _0_zero_check_ok_cls_2_tags;
     body := ["w0 = 42;"; "w1 = 3;"; "w2 = 5;"; "w2 %= w1;"; "r0 = r2;"; "exit;"] |}.

Definition _0_zero_check_1_cls_2_tags : list tag :=
  [__description "MOD32 by 0, zero check 1, cls"; __success; __retval "1"].
Definition _0_zero_check_1_cls_2 : test :=
  {| tags := _0_zero_check_1_cls_2_tags;
     body := ["w1 = 0;"; "w0 = 1;"; "w0 %= w1;"; "exit;"] |}.

Definition _0_zero_check_2_cls_2_tags : list tag :=
  [__description "MOD32 by 0, zero check 2, cls"; __success; __retval "1"].
Definition _0_zero_check_2_cls_2 : test :=
  {| tags := _0_zero_check_2_cls_2_tags;
     body := ["r1 = 0xffffffff00000000LL ll;"; "w0 = 1;"; "w0 %= w1;"; "exit;"] |}.

Definition _0_zero_check_1_cls_3_tags : list tag :=
  [__description "MOD64 by 0, zero check 1, cls"; __success; __retval "2"].
Definition _0_zero_check_1_cls_3 : test :=
  {| tags := _0_zero_check_1_cls_3_tags;
     body := ["w1 = 0;"; "w0 = 2;"; "r0 %= r1;"; "exit;"] |}.

Definition _0_zero_check_2_cls_3_tags : list tag :=
  [__description "MOD64 by 0, zero check 2, cls"; __success; __retval "-1"].
Definition _0_zero_check_2_cls_3 : test :=
  {| tags := _0_zero_check_2_cls_3_tags;
     body := ["w1 = 0;"; "w0 = -1;"; "r0 %= r1;"; "exit;"] |}.

Definition tests : list test :=
  [by_0_zero_check_1_1; by_0_zero_check_2_1; div64_by_0_zero_check; by_0_zero_check_1_2;
   by_0_zero_check_2_2; mod64_by_0_zero_check; _0_zero_check_ok_cls_1; _0_zero_check_1_cls_1;
   _0_zero_check_2_cls_1; by_0_zero_check_cls; _0_zero_check_ok_cls_2; _0_zero_check_1_cls_2;
   _0_zero_check_2_cls_2; _0_zero_check_1_cls_3; _0_zero_check_2_cls_3].

(** The fifteen programs of verifier_div0.rs return the value their
    [__retval] declares: a 32- or 64-bit division by zero gives 0, a remainder
    by zero leaves the dividend, whatever the rest of the divisor's register
    holds. *)
Lemma div0_tests_pass : all_pass tests.
Proof. apply all_pass_sound; vm_compute; reflexivity. Qed.
