(* ===== verification/DivOverflow.v ===== *)
(** Unsigned division where a signed one would overflow: src/progs/verifier_div_overflow.rs.

    Each naked function is a [test]: its tags and its assembly text, verbatim. *)

From S2P Require Import Prelude Bpf Asm Range Loader.
From Stdlib Require Import String.
Local Open Scope string_scope.
Local Open Scope Z_scope.

Definition div32_overflow_check_1_tags : list tag :=
  [__description "DIV32 overflow, check 1"; __success; __retval "0"].
Definition div32_overflow_check_1 : test :=
  {| tags := div32_overflow_check_1_tags;
     body := ["w1 = -1;"; "w0 = -2147483648;"; "w0 /= w1;"; "exit;"] |}.

Definition div32_overflow_check_2_tags : list tag :=
  [__description "DIV32 overflow, check 2"; __success; __retval "0"].
Definition div32_overflow_check_2 : test :=
  {| tags := div32_overflow_check_2_tags;
     body := ["w0 = -2147483648;"; "w0 /= -1;"; "exit;"] |}.

Definition div64_overflow_check_1_tags : list tag :=
  [__description "DIV64 overflow, check 1"; __success; __retval "0"].
Definition div64_overflow_check_1 : test :=
  {| tags := div64_overflow_check_1_tags;
     body := ["r1 = -1;"; "r2 = -9223372036854775808 ll;"; "r2 /= r1;"; "w0 = 0;";
              "if r0 == r2 goto l0_0;"; "w0 = 1;"; "l0_0:"; "exit;"] |}.

Definition div64_overflow_check_2_tags : list tag :=
  [__description "DIV64 overflow, check 2"; __success; __retval "0"].
Definition div64_overflow_check_2 : test :=
  {| tags := div64_overflow_check_2_tags;
     body := ["r1 = -9223372036854775808 ll;"; "r1 /= -1;"; "w0 = 0;"; "if r0 == r1 goto l0_1;";
              "w0 = 1;"; "l0_1:"; "exit;"] |}.

Definition mod32_overflow_check_1_tags : list tag :=
  [__description "MOD32 overflow, check 1"; __success; __retval "_INT_MIN"].
Definition mod32_overflow_check_1 : test :=
  {| tags := mod32_overflow_check_1_tags;
     body := ["w1 = -1;"; "w0 = -2147483648;"; "w0 %= w1;"; "exit;"] |}.

Definition mod32_overflow_check_2_tags : list tag :=
  [__description "MOD32 overflow, check 2"; __success; __retval "_INT_MIN"].
Definition mod32_overflow_check_2 : test :=
  {| tags := mod32_overflow_check_2_tags;
     body := ["w0 = -2147483648;"; "w0 %= -1;"; "exit;"] |}.

Definition mod64_overflow_check_1_tags : list tag :=
  [__description "MOD64 overflow, check 1"; __success; __retval "1"].
Definition mod64_overflow_check_1 : test :=
  {| tags := mod64_overflow_check_1_tags;
     body := ["r1 = -1;"; "r2 = -9223372036854775808 ll;"; "r3 = r2;"; "r2 %= r1;"; "w0 = 0;";
              "if r3 != r2 goto l0_4;"; "w0 = 1;"; "l0_4:"; "exit;"] |}.

Definition mod64_overflow_check_2_tags : list tag :=
  [__description "MOD64 overflow, check 2"; __success; __retval "1"].
Definition mod64_overflow_check_2 : test :=
  {| tags := mod64_overflow_check_2_tags;
     body := ["r2 = -9223372036854775808 ll;"; "r3 = r2;"; "r2 %= -1;"; "w0 = 0;";
              "if r3 != r2 goto l0_5;"; "w0 = 1;"; "l0_5:"; "exit;"] |}.

Definition tests : list test :=
  [div32_overflow_check_1; div32_overflow_check_2; div64_overflow_check_1; div64_overflow_check_2;
   mod32_overflow_check_1; mod32_overflow_check_2; mod64_overflow_check_1; mod64_overflow_check_2].

(** The eight programs of verifier_div_overflow.rs return the value their
    [__retval] declares: [/] and [%] are unsigned, so MIN and -1 are large
    numbers and nothing overflows. *)
Lemma div_overflow_tests_pass : all_pass tests.
Proof. apply all_pass_sound; vm_compute; reflexivity. Qed.
