(* ===== verification/Subreg.v ===== *)
(** Zero extension of 32-bit results: src/progs/verifier_subreg.rs.

    Each naked function is a [test]: its tags and its assembly text, verbatim. *)

From S2P Require Import Prelude Bpf Asm Range Loader.
From Stdlib Require Import String.
Local Open Scope string_scope.
Local Open Scope Z_scope.

Definition add32_reg_zero_extend_check_tags : list tag :=
  [__description "add32 reg zero extend check"; __success; __success_unpriv; __retval "0"].
Definition add32_reg_zero_extend_check : test :=
  {| tags := add32_reg_zero_extend_check_tags;
     body := ["call 7;"; "r1 = r0;"; "r0 = 0x100000000 ll;"; "w0 += w1;"; "r0 >>= 32;"; "exit;"] |}.

Definition add32_imm_zero_extend_check_tags : list tag :=
  [__description "add32 imm zero extend check"; __success; __success_unpriv; __retval "0"].
Definition add32_imm_zero_extend_check : test :=
  {| tags := add32_imm_zero_extend_check_tags;
     body := ["call 7;"; "r1 = 0x1000000000 ll;"; "r0 |= r1;"; "w0 += 0;"; "r0 >>= 32;";
              "r6 = r0;"; "call 7;"; "r1 = 0x1000000000 ll;"; "r0 |= r1;"; "w0 += -2;";
              "r0 >>= 32;"; "r0 |= r6;"; "exit;"] |}.

Definition sub32_reg_zero_extend_check_tags : list tag :=
  [__description "sub32 reg zero extend check"; __success; __success_unpriv; __retval "0"].
Definition sub32_reg_zero_extend_check : test :=
  {| tags := sub32_reg_zero_extend_check_tags;
     body := ["call 7;"; "r1 = r0;"; "r0 = 0x1ffffffff ll;"; "w0 -= w1;"; "r0 >>= 32;"; "exit;"] |}.

Definition sub32_imm_zero_extend_check_tags : list tag :=
  [__description "sub32 imm zero extend check"; __success; __success_unpriv; __retval "0"].
Definition sub32_imm_zero_extend_check : test :=
  {| tags := sub32_imm_zero_extend_check_tags;
     body := ["call 7;"; "r1 = 0x1000000000 ll;"; "r0 |= r1;"; "w0 -= 0;"; "r0 >>= 32;";
              "r6 = r0;"; "call 7;"; "r1 = 0x1000000000 ll;"; "r0 |= r1;"; "w0 -= 1;";
              "r0 >>= 32;"; "r0 |= r6;"; "exit;"] |}.

Definition mul32_reg_zero_extend_check_tags : list tag :=
  [__description "mul32 reg zero extend check"; __success; __success_unpriv; __retval "0"].
Definition mul32_reg_zero_extend_check : test :=
  {| tags := mul32_reg_zero_extend_check_tags;
     body := ["call 7;"; "r1 = r0;"; "r0 = 0x100000001 ll;"; "w0 *= w1;"; "r0 >>= 32;"; "exit;"] |}.

Definition mul32_imm_zero_extend_check_tags : list tag :=
  [__description "mul32 imm zero extend check"; __success; __success_unpriv; __retval "0"].
Definition mul32_imm_zero_extend_check : test :=
  {| tags := mul32_imm_zero_extend_check_tags;
     body := ["call 7;"; "r1 = 0x1000000000 ll;"; "r0 |= r1;"; "w0 *= 1;"; "r0 >>= 32;";
              "r6 = r0;"; "call 7;"; "r1 = 0x1000000000 ll;"; "r0 |= r1;"; "w0 *= -1;";
              "r0 >>= 32;"; "r0 |= r6;"; "exit;"] |}.

Definition div32_reg_zero_extend_check_tags : list tag :=
  [__description "div32 reg zero extend check"; __success; __success_unpriv; __retval "0"].
Definition div32_reg_zero_extend_check : test :=
  {| tags := div32_reg_zero_extend_check_tags;
     body := ["call 7;"; "r1 = r0;"; "r0 = -1;"; "w0 /= w1;"; "r0 >>= 32;"; "exit;"] |}.

Definition div32_imm_zero_extend_check_tags : list tag :=
  [__description "div32 imm zero extend check"; __success; __success_unpriv; __retval "0"].
Definition div32_imm_zero_extend_check : test :=
  {| tags := div32_imm_zero_extend_check_tags;
     body := ["call 7;"; "r1 = 0x1000000000 ll;"; "r0 |= r1;"; "w0 /= 1;"; "r0 >>= 32;";
              "r6 = r0;"; "call 7;"; "r1 = 0x1000000000 ll;"; "r0 |= r1;"; "w0 /= 2;";
              "r0 >>= 32;"; "r0 |= r6;"; "exit;"] |}.

Definition or32_reg_zero_extend_check_tags : list tag :=
  [__description "or32 reg zero extend check"; __success; __success_unpriv; __retval "0"].
Definition or32_reg_zero_extend_check : test :=
  {| tags := or32_reg_zero_extend_check_tags;
     body := ["call 7;"; "r1 = r0;"; "r0 = 0x100000001 ll;"; "w0 |= w1;"; "r0 >>= 32;"; "exit;"] |}.

Definition or32_imm_zero_extend_check_tags : list tag :=
  [__description "or32 imm zero extend check"; __success; __success_unpriv; __retval "0"].
Definition or32_imm_zero_extend_check : test :=
  {| tags := or32_imm_zero_extend_check_tags;
     body := ["call 7;"; "r1 = 0x1000000000 ll;"; "r0 |= r1;"; "w0 |= 0;"; "r0 >>= 32;";
              "r6 = r0;"; "call 7;"; "r1 = 0x1000000000 ll;"; "r0 |= r1;"; "w0 |= 1;";
              "r0 >>= 32;"; "r0 |= r6;"; "exit;"] |}.

Definition and32_reg_zero_extend_check_tags : list tag :=
  [__description "and32 reg zero extend check"; __success; __success_unpriv; __retval "0"].
Definition and32_reg_zero_extend_check : test :=
  {| tags := and32_reg_zero_extend_check_tags;
     body := ["call 7;"; "r1 = 0x100000000 ll;"; "r1 |= r0;"; "r0 = 0x1ffffffff ll;"; "w0 &= w1;";
              "r0 >>= 32;"; "exit;"] |}.

Definition and32_imm_zero_extend_check_tags : list tag :=
  [__description "and32 imm zero extend check"; __success; __success_unpriv; __retval "0"].
Definition and32_imm_zero_extend_check : test :=
  {| tags := and32_imm_zero_extend_check_tags;
     body := ["call 7;"; "r1 = 0x1000000000 ll;"; "r0 |= r1;"; "w0 &= -1;"; "r0 >>= 32;";
              "r6 = r0;"; "call 7;"; "r1 = 0x1000000000 ll;"; "r0 |= r1;"; "w0 &= -2;";
              "r0 >>= 32;"; "r0 |= r6;"; "exit;"] |}.

Definition lsh32_reg_zero_extend_check_tags : list tag :=
  [__description "lsh32 reg zero extend check"; __success; __success_unpriv; __retval "0"].
Definition lsh32_reg_zero_extend_check : test :=
  {| tags := lsh32_reg_zero_extend_check_tags;
     body := ["call 7;"; "r1 = 0x100000000 ll;"; "r0 |= r1;"; "r1 = 1;"; "w0 <<= w1;";
              "r0 >>= 32;"; "exit;"] |}.

Definition lsh32_imm_zero_extend_check_tags : list tag :=
  [__description "lsh32 imm zero extend check"; __success; __success_unpriv; __retval "0"].
Definition lsh32_imm_zero_extend_check : test :=
  {| tags := lsh32_imm_zero_extend_check_tags;
     body := ["call 7;"; "r1 = 0x1000000000 ll;"; "r0 |= r1;"; "w0 <<= 0;"; "r0 >>= 32;";
              "r6 = r0;"; "call 7;"; "r1 = 0x1000000000 ll;"; "r0 |= r1;"; "w0 <<= 1;";
              "r0 >>= 32;"; "r0 |= r6;"; "exit;"] |}.

Definition rsh32_reg_zero_extend_check_tags : list tag :=
  [__description "rsh32 reg zero extend check"; __success; __success_unpriv; __retval "0"].
Definition rsh32_reg_zero_extend_check : test :=
  {| tags := rsh32_reg_zero_extend_check_tags;
     body := ["call 7;"; "r1 = 0x1000000000 ll;"; "r0 |= r1;"; "r1 = 1;"; "w0 >>= w1;";
              "r0 >>= 32;"; "exit;"] |}.

Definition rsh32_imm_zero_extend_check_tags : list tag :=
  [__description "rsh32 imm zero extend check"; __success; __success_unpriv; __retval "0"].
Definition rsh32_imm_zero_extend_check : test :=
  {| tags := rsh32_imm_zero_extend_check_tags;
     body := ["call 7;"; "r1 = 0x1000000000 ll;"; "r0 |= r1;"; "w0 >>= 0;"; "r0 >>= 32;";
              "r6 = r0;"; "call 7;"; "r1 = 0x1000000000 ll;"; "r0 |= r1;"; "w0 >>= 1;";
              "r0 >>= 32;"; "r0 |= r6;"; "exit;"] |}.

Definition neg32_reg_zero_extend_check_tags : list tag :=
  [__description "neg32 reg zero extend check"; __success; __success_unpriv; __retval "0"].
Definition neg32_reg_zero_extend_check : test :=
  {| tags := neg32_reg_zero_extend_check_tags;
     body := ["call 7;"; "r1 = 0x1000000000 ll;"; "r0 |= r1;"; "w0 = -w0;"; "r0 >>= 32;"; "exit;"] |}.

Definition mod32_reg_zero_extend_check_tags : list tag :=
  [__description "mod32 reg zero extend check"; __success; __success_unpriv; __retval "0"].
Definition mod32_reg_zero_extend_check : test :=
  {| tags := mod32_reg_zero_extend_check_tags;
     body := ["call 7;"; "r1 = r0;"; "r0 = -1;"; "w0 %= w1;"; "r0 >>= 32;"; "exit;"] |}.

Definition mod32_imm_zero_extend_check_tags : list tag :=
  [__description "mod32 imm zero extend check"; __success; __success_unpriv; __retval "0"].
Definition mod32_imm_zero_extend_check : test :=
  {| tags := mod32_imm_zero_extend_check_tags;
     body := ["call 7;"; "r1 = 0x1000000000 ll;"; "r0 |= r1;"; "w0 %= 1;"; "r0 >>= 32;";
              "r6 = r0;"; "call 7;"; "r1 = 0x1000000000 ll;"; "r0 |= r1;"; "w0 %= 2;";
              "r0 >>= 32;"; "r0 |= r6;"; "exit;"] |}.

Definition xor32_reg_zero_extend_check_tags : list tag :=
  [__description "xor32 reg zero extend check"; __success; __success_unpriv; __retval "0"].
Definition xor32_reg_zero_extend_check : test :=
  {| tags := xor32_reg_zero_extend_check_tags;
     body := ["call 7;"; "r1 = r0;"; "r0 = 0x100000000 ll;"; "w0 ^= w1;"; "r0 >>= 32;"; "exit;"] |}.

Definition xor32_imm_zero_extend_check_tags : list tag :=
  [__description "xor32 imm zero extend check"; __success; __success_unpriv; __retval "0"].
Definition xor32_imm_zero_extend_check : test :=
  {| tags := xor32_imm_zero_extend_check_tags;
     body := ["call 7;"; "r1 = 0x1000000000 ll;"; "r0 |= r1;"; "w0 ^= 1;"; "r0 >>= 32;"; "exit;"] |}.

Definition mov32_reg_zero_extend_check_tags : list tag :=
  [__description "mov32 reg zero extend check"; __success; __success_unpriv; __retval "0"].
Definition mov32_reg_zero_extend_check : test :=
  {| tags := mov32_reg_zero_extend_check_tags;
     body := ["call 7;"; "r1 = 0x100000000 ll;"; "r1 |= r0;"; "r0 = 0x100000000 ll;"; "w0 = w1;";
              "r0 >>= 32;"; "exit;"] |}.

Definition mov32_imm_zero_extend_check_tags : list tag :=
  [__description "mov32 imm zero extend check"; __success; __success_unpriv; __retval "0"].
Definition mov32_imm_zero_extend_check : test :=
  {| tags := mov32_imm_zero_extend_check_tags;
     body := ["call 7;"; "r1 = 0x1000000000 ll;"; "r0 |= r1;"; "w0 = 0;"; "r0 >>= 32;";
              "r6 = r0;"; "call 7;"; "r1 = 0x1000000000 ll;"; "r0 |= r1;"; "w0 = 1;";
              "r0 >>= 32;"; "r0 |= r6;"; "exit;"] |}.

Definition arsh32_reg_zero_extend_check_tags : list tag :=
  [__description "arsh32 reg zero extend check"; __success; __success_unpriv; __retval "0"].
Definition arsh32_reg_zero_extend_check : test :=
  {| tags := arsh32_reg_zero_extend_check_tags;
     body := ["call 7;"; "r1 = 0x1000000000 ll;"; "r0 |= r1;"; "r1 = 1;"; "w0 s>>= w1;";
              "r0 >>= 32;"; "exit;"] |}.

Definition arsh32_imm_zero_extend_check_tags : list tag :=
  [__description "arsh32 imm zero extend check"; __success; __success_unpriv; __retval "0"].
Definition arsh32_imm_zero_extend_check : test :=
  {| tags := arsh32_imm_zero_extend_check_tags;
     body := ["call 7;"; "r1 = 0x1000000000 ll;"; "r0 |= r1;"; "w0 s>>= 0;"; "r0 >>= 32;";
              "r6 = r0;"; "call 7;"; "r1 = 0x1000000000 ll;"; "r0 |= r1;"; "w0 s>>= 1;";
              "r0 >>= 32;"; "r0 |= r6;"; "exit;"] |}.

Definition arsh32_imm_sign_extend_positive_check_tags : list tag :=
  [__description "arsh32 imm sign positive extend check"; __success; __retval "0";
   __log_level "2";
   __msg "2: (57) r6 &= 4095                    ; R6=scalar(smin=smin32=0,smax=umax=smax32=umax32=4095,var_off=(0x0; 0xfff))";
   __msg "3: (67) r6 <<= 32                     ; R6=scalar(smin=smin32=0,smax=umax=0xfff00000000,smax32=umax32=0,var_off=(0x0; 0xfff00000000))";
   __msg "4: (c7) r6 s>>= 32                    ; R6=scalar(smin=smin32=0,smax=umax=smax32=umax32=4095,var_off=(0x0; 0xfff))"].
Definition arsh32_imm_sign_extend_positive_check : test :=
  {| tags := arsh32_imm_sign_extend_positive_check_tags;
     body := ["call 7;"; "r6 = r0;"; "r6 &= 4095;"; "r6 <<= 32;"; "r6 s>>= 32;"; "r0 = 0;"; "exit;"] |}.

Definition arsh32_imm_sign_extend_negative_check_tags : list tag :=
  [__description "arsh32 imm sign negative extend check"; __success; __retval "0";
   __log_level "2";
   __msg "3: (17) r6 -= 4095                    ; R6=scalar(smin=smin32=-4095,smax=smax32=0)";
   __msg "4: (67) r6 <<= 32                     ; R6=scalar(smin=0xfffff00100000000,smax=smax32=umax32=0,smin32=0,var_off=(0x0; 0xffffffff00000000))";
   __msg "5: (c7) r6 s>>= 32                    ; R6=scalar(smin=smin32=-4095,smax=smax32=0)"].
Definition arsh32_imm_sign_extend_negative_check : test :=
  {| tags := arsh32_imm_sign_extend_negative_check_tags;
     body := ["call 7;"; "r6 = r0;"; "r6 &= 4095;"; "r6 -= 4095;"; "r6 <<= 32;"; "r6 s>>= 32;";
              "r0 = 0;"; "exit;"] |}.

Definition arsh32_imm_sign_extend_check_tags : list tag :=
  [__description "arsh32 imm sign extend check"; __success; __retval "0"; __log_level "2";
   __msg "3: (17) r6 -= 2047                    ; R6=scalar(smin=smin32=-2047,smax=smax32=2048)";
   __msg "4: (67) r6 <<= 32                     ; R6=scalar(smin=0xfffff80100000000,smax=0x80000000000,smin32=0,smax32=umax32=0,var_off=(0x0; 0xffffffff00000000))";
   __msg "5: (c7) r6 s>>= 32                    ; R6=scalar(smin=smin32=-2047,smax=smax32=2048)"].
Definition arsh32_imm_sign_extend_check : test :=
  {| tags := arsh32_imm_sign_extend_check_tags;
     body := ["call 7;"; "r6 = r0;"; "r6 &= 4095;"; "r6 -= 2047;"; "r6 <<= 32;"; "r6 s>>= 32;";
              "r0 = 0;"; "exit;"] |}.

Definition le_reg_zero_extend_check_1_tags : list tag :=
  [__description "end16 (to_le) reg zero extend check"; __success; __success_unpriv; __retval "0"].
Definition le_reg_zero_extend_check_1 : test :=
  {| tags := le_reg_zero_extend_check_1_tags;
     body := ["call 7;"; "r6 = r0;"; "r6 <<= 32;"; "call 7;"; "r0 |= r6;"; "r0 = le16 r0;";
              "r0 >>= 32;"; "exit;"] |}.

Definition le_reg_zero_extend_check_2_tags : list tag :=
  [__description "end32 (to_le) reg zero extend check"; __success; __success_unpriv; __retval "0"].
Definition le_reg_zero_extend_check_2 : test :=
  {| tags := le_reg_zero_extend_check_2_tags;
     body := ["call 7;"; "r6 = r0;"; "r6 <<= 32;"; "call 7;"; "r0 |= r6;"; "r0 = le32 r0;";
              "r0 >>= 32;"; "exit;"] |}.

Definition be_reg_zero_extend_check_1_tags : list tag :=
  [__description "end16 (to_be) reg zero extend check"; __success; __success_unpriv; __retval "0"].
Definition be_reg_zero_extend_check_1 : test :=
  {| tags := be_reg_zero_extend_check_1_tags;
     body := ["call 7;"; "r6 = r0;"; "r6 <<= 32;"; "call 7;"; "r0 |= r6;"; "r0 = be16 r0;";
              "r0 >>= 32;"; "exit;"] |}.

Definition be_reg_zero_extend_check_2_tags : list tag :=
  [__description "end32 (to_be) reg zero extend check"; __success; __success_unpriv; __retval "0"].
Definition be_reg_zero_extend_check_2 : test :=
  {| tags := be_reg_zero_extend_check_2_tags;
     body := ["call 7;"; "r6 = r0;"; "r6 <<= 32;"; "call 7;"; "r0 |= r6;"; "r0 = be32 r0;";
              "r0 >>= 32;"; "exit;"] |}.

Definition ldx_b_zero_extend_check_tags : list tag :=
  [__description "ldx_b zero extend check"; __success; __success_unpriv; __retval "0"].
Definition ldx_b_zero_extend_check : test :=
  {| tags := ldx_b_zero_extend_check_tags;
     body := ["r6 = r10;"; "r6 += -4;"; "r7 = 0xfaceb00c;"; "*(u32*)(r6 + 0) = r7;"; "call 7;";
              "r1 = 0x1000000000 ll;"; "r0 |= r1;"; "r0 = *(u8*)(r6 + 0);"; "r0 >>= 32;"; "exit;"] |}.

Definition ldx_h_zero_extend_check_tags : list tag :=
  [__description "ldx_h zero extend check"; __success; __success_unpriv; __retval "0"].
Definition ldx_h_zero_extend_check : test :=
  {| tags := ldx_h_zero_extend_check_tags;
     body := ["r6 = r10;"; "r6 += -4;"; "r7 = 0xfaceb00c;"; "*(u32*)(r6 + 0) = r7;"; "call 7;";
              "r1 = 0x1000000000 ll;"; "r0 |= r1;"; "r0 = *(u16*)(r6 + 0);"; "r0 >>= 32;"; "exit;"] |}.

Definition ldx_w_zero_extend_check_tags : list tag :=
  [__description "ldx_w zero extend check"; __success; __success_unpriv; __retval "0"].
Definition ldx_w_zero_extend_check : test :=
  {| tags := ldx_w_zero_extend_check_tags;
     body := ["r6 = r10;"; "r6 += -4;"; "r7 = 0xfaceb00c;"; "*(u32*)(r6 + 0) = r7;"; "call 7;";
              "r1 = 0x1000000000 ll;"; "r0 |= r1;"; "r0 = *(u32*)(r6 + 0);"; "r0 >>= 32;"; "exit;"] |}.

Definition arsh_31_and_tags : list tag :=
  [__success; __success_unpriv; __retval "0"].
Definition arsh_31_and : test :=
  {| tags := arsh_31_and_tags;
     body := ["call 7;"; "w2 = w0;"; "w2 s>>= 31;"; "w2 &= -134;"; "if w2 s> -1 goto +2;";
              "if w2 != -136 goto +1;"; "w0 /= 0;"; "w0 = 0;"; "exit;"] |}.

Definition arsh_63_and_tags : list tag :=
  [__success; __success_unpriv; __retval "0"].
Definition arsh_63_and : test :=
  {| tags := arsh_63_and_tags;
     body := ["call 7;"; "r2 = r0;"; "r2 <<= 32;"; "r2 s>>= 63;"; "r2 &= -134;";
              "if r2 s> -1 goto +2;"; "if r2 != -136 goto +1;"; "r0 /= 0;"; "r0 = 0;"; "exit;"] |}.

Definition arsh_31_or_tags : list tag :=
  [__success; __success_unpriv; __retval "0"].
Definition arsh_31_or : test :=
  {| tags := arsh_31_or_tags;
     body := ["call 7;"; "w2 = w0;"; "w2 s>>= 31;"; "w2 |= 134;"; "if w2 s> -1 goto +2;";
              "if w2 == -1 goto +1;"; "w0 /= 0;"; "w0 = 0;"; "exit;"] |}.

Definition arsh_63_or_tags : list tag :=
  [__success; __success_unpriv; __retval "0"].
Definition arsh_63_or : test :=
  {| tags := arsh_63_or_tags;
     body := ["call 7;"; "r2 = r0;"; "r2 <<= 32;"; "r2 s>>= 63;"; "r2 |= 134;";
              "if r2 s> -1 goto +2;"; "if r2 == -1 goto +1;"; "r0 /= 0;"; "r0 = 0;"; "exit;"] |}.

Definition arsh32_imm1_value_tags : list tag :=
  [__success; __retval "42"].
Definition arsh32_imm1_value : test :=
  {| tags := arsh32_imm1_value_tags;
     body := ["r0 = 42;"; "r1 = -2147483648;"; "w1 s>>= 1;"; "r2 = 0xC0000000 ll;";
              "if r1 == r2 goto l0_2;"; "r0 /= 0;"; "l0_2:"; "exit;"] |}.

Definition lsh32_reg0_zero_extend_check_tags : list tag :=
  [__success; __retval "1"].
Definition lsh32_reg0_zero_extend_check : test :=
  {| tags := lsh32_reg0_zero_extend_check_tags;
     body := ["r6 = 1;"; "call 7;"; "r1 = 0x1000000000 ll;"; "r0 |= r1;"; "w1 = 0;"; "w0 <<= w1;";
              "r0 >>= 32;"; "if r0 == 0 goto l0_3;"; "r6 /= 0;"; "l0_3:"; "r0 = r6;"; "exit;"] |}.

Definition rsh32_reg0_zero_extend_check_tags : list tag :=
  [__success; __retval "1"].
Definition rsh32_reg0_zero_extend_check : test :=
  {| tags := rsh32_reg0_zero_extend_check_tags;
     body := ["r6 = 1;"; "call 7;"; "r1 = 0x1000000000 ll;"; "r0 |= r1;"; "w1 = 0;"; "w0 >>= w1;";
              "r0 >>= 32;"; "if r0 == 0 goto l0_4;"; "r6 /= 0;"; "l0_4:"; "r0 = r6;"; "exit;"] |}.

Definition arsh32_reg0_zero_extend_check_tags : list tag :=
  [__success; __retval "1"].
Definition arsh32_reg0_zero_extend_check : test :=
  {| tags := arsh32_reg0_zero_extend_check_tags;
     body := ["r6 = 1;"; "call 7;"; "r1 = 0x1000000000 ll;"; "r0 |= r1;"; "w1 = 0;";
              "w0 s>>= w1;"; "r0 >>= 32;"; "if r0 == 0 goto l0_5;"; "r6 /= 0;"; "l0_5:";
              "r0 = r6;"; "exit;"] |}.

Definition lsh32_imm31_value_tags : list tag :=
  [__success; __retval "42"].
Definition lsh32_imm31_value : test :=
  {| tags := lsh32_imm31_value_tags;
     body := ["r0 = 42;"; "r1 = 1;"; "w1 <<= 31;"; "r2 = 0x80000000 ll;";
              "if r1 == r2 goto l0_6;"; "r0 /= 0;"; "l0_6:"; "exit;"] |}.

Definition rsh32_imm31_value_tags : list tag :=
  [__success; __retval "42"].
Definition rsh32_imm31_value : test :=
  {| tags := rsh32_imm31_value_tags;
     body := ["r0 = 42;"; "r1 = -2147483648;"; "w1 >>= 31;"; "if r1 == 1 goto l0_7;"; "r0 /= 0;";
              "l0_7:"; "exit;"] |}.

Definition arsh32_imm31_value_tags : list tag :=
  [__success; __retval "42"].
Definition arsh32_imm31_value : test :=
  {| tags := arsh32_imm31_value_tags;
     body := ["r0 = 42;"; "r1 = -2147483648;"; "w1 s>>= 31;"; "r2 = 0xFFFFFFFF ll;";
              "if r1 == r2 goto l0_8;"; "r0 /= 0;"; "l0_8:"; "exit;"] |}.

Definition lsh32_unknown_precise_bounds_tags : list tag :=
  [__success; __retval "1"].
Definition lsh32_unknown_precise_bounds : test :=
  {| tags := lsh32_unknown_precise_bounds_tags;
     body := ["r6 = 1;"; "call 7;"; "w0 &= 3;"; "w0 <<= 1;"; "if w0 < 7 goto l0_9;"; "r6 /= 0;";
              "l0_9:"; "r0 = r6;"; "exit;"] |}.

Definition rsh32_unknown_bounds_tags : list tag :=
  [__success; __retval "1"].
Definition rsh32_unknown_bounds : test :=
  {| tags := rsh32_unknown_bounds_tags;
     body := ["r6 = 1;"; "call 7;"; "w0 >>= 28;"; "if w0 < 16 goto l0_10;"; "r6 /= 0;"; "l0_10:";
              "r0 = r6;"; "exit;"] |}.

Definition tests : list test :=
  [add32_reg_zero_extend_check; add32_imm_zero_extend_check; sub32_reg_zero_extend_check;
   sub32_imm_zero_extend_check; mul32_reg_zero_extend_check; mul32_imm_zero_extend_check;
   div32_reg_zero_extend_check; div32_imm_zero_extend_check; or32_reg_zero_extend_check;
   or32_imm_zero_extend_check; and32_reg_zero_extend_check; and32_imm_zero_extend_check;
   lsh32_reg_zero_extend_check; lsh32_imm_zero_extend_check; rsh32_reg_zero_extend_check;
   rsh32_imm_zero_extend_check; neg32_reg_zero_extend_check; mod32_reg_zero_extend_check;
   mod32_imm_zero_extend_check; xor32_reg_zero_extend_check; xor32_imm_zero_extend_check;
   mov32_reg_zero_extend_check; mov32_imm_zero_extend_check; arsh32_reg_zero_extend_check;
   arsh32_imm_zero_extend_check; arsh32_imm_sign_extend_positive_check;
   arsh32_imm_sign_extend_negative_check; arsh32_imm_sign_extend_check;
   le_reg_zero_extend_check_1; le_reg_zero_extend_check_2; be_reg_zero_extend_check_1;
   be_reg_zero_extend_check_2; ldx_b_zero_extend_check; ldx_h_zero_extend_check;
   ldx_w_zero_extend_check; arsh_31_and; arsh_63_and; arsh_31_or; arsh_63_or; arsh32_imm1_value;
   lsh32_reg0_zero_extend_check; rsh32_reg0_zero_extend_check; arsh32_reg0_zero_extend_check;
   lsh32_imm31_value; rsh32_imm31_value; arsh32_imm31_value; lsh32_unknown_precise_bounds;
   rsh32_unknown_bounds].

(** All forty-eight programs of verifier_subreg.rs return the value their
    [__retval] declares for every value of their helper calls and every content
    of the stack: each 32-bit instruction and each narrow load clears the high
    half of its register, shifts keep their expected bounds, and the register
    ranges of the expected verifier log hold. *)
Lemma subreg_tests_pass : all_pass tests.
Proof. apply all_pass_sound; vm_compute; reflexivity. Qed.
