(* ===== verification/Movsx.v ===== *)
(** Sign-extending moves: src/progs/verifier_movsx.rs.

    Each naked function is a [test]: its tags and its assembly text, verbatim. *)

From S2P Require Import Prelude Bpf Asm Range Loader.
From Stdlib Require Import String.
Local Open Scope string_scope.
Local Open Scope Z_scope.

Definition mov32sx_s8_tags : list tag :=
  [__description "MOV32SX, S8"; __success; __success_unpriv; __retval "0x23"].
Definition mov32sx_s8 : test :=
  {| tags := mov32sx_s8_tags;
     body := ["w0 = 0xff23;"; "w0 = (s8)w0;"; "exit;"] |}.

Definition mov32sx_s16_tags : list tag :=
  [__description "MOV32SX, S16"; __success; __success_unpriv; __retval "0xFFFFff23"].
Definition mov32sx_s16 : test :=
  {| tags := mov32sx_s16_tags;
     body := ["w0 = 0xff23;"; "w0 = (s16)w0;"; "exit;"] |}.

Definition mov64sx_s8_tags : list tag :=
  [__description "MOV64SX, S8"; __success; __success_unpriv; __retval "-2"].
Definition mov64sx_s8 : test :=
  {| tags := mov64sx_s8_tags;
     body := ["r0 = 0x1fe;"; "r0 = (s8)r0;"; "exit;"] |}.

Definition mov64sx_s16_tags : list tag :=
  [__description "MOV64SX, S16"; __success; __success_unpriv; __retval "0xf23"].
Definition mov64sx_s16 : test :=
  {| tags := mov64sx_s16_tags;
     body := ["r0 = 0xf0f23;"; "r0 = (s16)r0;"; "exit;"] |}.

Definition mov64sx_s32_tags : list tag :=
  [__description "MOV64SX, S32"; __success; __success_unpriv; __retval "-1"].
Definition mov64sx_s32 : test :=
  {| tags := mov64sx_s32_tags;
     body := ["r0 = 0xfffffffe;"; "r0 = (s32)r0;"; "r0 >>= 1;"; "exit;"] |}.

Definition mov32sx_s8_range_tags : list tag :=
  [__description "MOV32SX, S8, range_check"; __success; __success_unpriv; __retval "1"].
Definition mov32sx_s8_range : test :=
  {| tags := mov32sx_s8_range_tags;
     body := ["call 7;"; "w1 = (s8)w0;"; "if w1 s> 0x7f goto l0_0;"; "if w1 s< -0x80 goto l0_0;";
              "r0 = 1;"; "l1_0:"; "exit;"; "l0_0:"; "r0 = 2;"; "goto l1_0;"] |}.

Definition mov32sx_s16_range_tags : list tag :=
  [__description "MOV32SX, S16, range_check"; __success; __success_unpriv; __retval "1"].
Definition mov32sx_s16_range : test :=
  {| tags := mov32sx_s16_range_tags;
     body := ["call 7;"; "w1 = (s16)w0;"; "if w1 s> 0x7fff goto l0_1;";
              "if w1 s< -0x80ff goto l0_1;"; "r0 = 1;"; "l1_1:"; "exit;"; "l0_1:"; "r0 = 2;";
              "goto l1_1;"] |}.

Definition mov32sx_s16_range_2_tags : list tag :=
  [__description "MOV32SX, S16, range_check 2"; __success; __success_unpriv; __retval "1"].
Definition mov32sx_s16_range_2 : test :=
  {| tags := mov32sx_s16_range_2_tags;
     body := ["r1 = 65535;"; "w2 = (s16)w1;"; "r2 >>= 1;"; "if r2 != 0x7fffFFFF goto l0_2;";
              "r0 = 1;"; "l1_2:"; "exit;"; "l0_2:"; "r0 = 0;"; "goto l1_2;"] |}.

Definition mov64sx_s8_range_tags : list tag :=
  [__description "MOV64SX, S8, range_check"; __success; __success_unpriv; __retval "1"].
Definition mov64sx_s8_range : test :=
  {| tags := mov64sx_s8_range_tags;
     body := ["call 7;"; "r1 = (s8)r0;"; "if r1 s> 0x7f goto l0_3;"; "if r1 s< -0x80 goto l0_3;";
              "r0 = 1;"; "l1_3:"; "exit;"; "l0_3:"; "r0 = 2;"; "goto l1_3;"] |}.

Definition mov64sx_s16_range_tags : list tag :=
  [__description "MOV64SX, S16, range_check"; __success; __success_unpriv; __retval "1"].
Definition mov64sx_s16_range : test :=
  {| tags := mov64sx_s16_range_tags;
     body := ["call 7;"; "r1 = (s16)r0;"; "if r1 s> 0x7fff goto l0_4;";
              "if r1 s< -0x8000 goto l0_4;"; "r0 = 1;"; "l1_4:"; "exit;"; "l0_4:"; "r0 = 2;";
              "goto l1_4;"] |}.

Definition mov64sx_s32_range_tags : list tag :=
  [__description "MOV64SX, S32, range_check"; __success; __success_unpriv; __retval "1"].
Definition mov64sx_s32_range : test :=
  {| tags := mov64sx_s32_range_tags;
     body := ["call 7;"; "r1 = (s32)r0;"; "if r1 s> 0x7fffffff goto l0_5;";
              "if r1 s< -0x80000000 goto l0_5;"; "r0 = 1;"; "l1_5:"; "exit;"; "l0_5:"; "r0 = 2;";
              "goto l1_5;"] |}.

Definition mov64sx_s16_r10_tags : list tag :=
  [__description "MOV64SX, S16, R10 Sign Extension"; __failure;
   __msg "R1 type=scalar expected=fp, pkt, pkt_meta, map_key, map_value, mem, ringbuf_mem, buf, trusted_ptr_";
   __failure_unpriv; __msg_unpriv "R10 sign-extension part of pointer"].
Definition mov64sx_s16_r10 : test :=
  {| tags := mov64sx_s16_r10_tags;
     body := ["r1 = 553656332;"; "*(u32 *)(r10 - 8) = r1;"; "r1 = (s16)r10;"; "r1 += -8;";
              "r2 = 3;"; "if r2 <= r1 goto l0_6;"; "l0_6:"; "call 6;"; "r0 = 0;"; "exit;"] |}.

Definition mov64sx_s32_varoff_1_tags : list tag :=
  [__description "MOV32SX, S8, var_off u32_max"; __failure; __msg "infinite loop detected";
   __failure_unpriv; __msg_unpriv "back-edge from insn 2 to 0"].
Definition mov64sx_s32_varoff_1 : test :=
  {| tags := mov64sx_s32_varoff_1_tags;
     body := ["l0_7:"; "r3 = *(u8 *)(r10 -387);"; "w7 = (s8)w3;";
              "if w7 >= 0x2533823b goto l0_7;"; "w0 = 0;"; "exit;"] |}.

Definition mov64sx_s32_varoff_2_tags : list tag :=
  [__description "MOV32SX, S8, var_off not u32_max, positive after s8 extension"; __success;
   __retval "0"; __success_unpriv; __xlated_unpriv "w0 = 0"; __xlated_unpriv "exit";
   __xlated_unpriv "nospec"; __xlated_unpriv "goto pc-1"].
Definition mov64sx_s32_varoff_2 : test :=
  {| tags := mov64sx_s32_varoff_2_tags;
     body := ["call 7;"; "r3 = r0;"; "r3 &= 0xf;"; "w7 = (s8)w3;"; "if w7 s>= 16 goto l0_8;";
              "w0 = 0;"; "exit;"; "l0_8:"; "r10 = 1;"; "exit;"] |}.

Definition mov64sx_s32_varoff_3_tags : list tag :=
  [__description "MOV32SX, S8, var_off not u32_max, negative after s8 extension"; __success;
   __retval "0"; __success_unpriv; __xlated_unpriv "w0 = 0"; __xlated_unpriv "exit";
   __xlated_unpriv "nospec"; __xlated_unpriv "goto pc-1"].
Definition mov64sx_s32_varoff_3 : test :=
  {| tags := mov64sx_s32_varoff_3_tags;
     body := ["call 7;"; "r3 = r0;"; "r3 &= 0xf;"; "r3 |= 0x80;"; "w7 = (s8)w3;";
              "if w7 s>= -5 goto l0_9;"; "w0 = 0;"; "exit;"; "l0_9:"; "r10 = 1;"; "exit;"] |}.

Definition mov64sx_s8_range_check_tags : list tag :=
  [__description "MOV64SX, S8, unsigned range_check"; __success; __retval "0"].
Definition mov64sx_s8_range_check : test :=
  {| tags := mov64sx_s8_range_check_tags;
     body := ["call 7;"; "r0 &= 0x1;"; "r0 += 0xfe;"; "r0 = (s8)r0;";
              "if r0 < 0xfffffffffffffffe goto label_10;"; "r0 = 0;"; "exit;"; "label_10:"; "exit;"] |}.

Definition mov32sx_s8_range_check_tags : list tag :=
  [__description "MOV32SX, S8, unsigned range_check"; __success; __retval "0"].
Definition mov32sx_s8_range_check : test :=
  {| tags := mov32sx_s8_range_check_tags;
     body := ["call 7;"; "w0 &= 0x1;"; "w0 += 0xfe;"; "w0 = (s8)w0;";
              "if w0 < 0xfffffffe goto label_11;"; "r0 = 0;"; "exit;"; "label_11:"; "exit;"] |}.

Definition tests : list test :=
  [mov32sx_s8; mov32sx_s16; mov64sx_s8; mov64sx_s16; mov64sx_s32; mov32sx_s8_range;
   mov32sx_s16_range; mov32sx_s16_range_2; mov64sx_s8_range; mov64sx_s16_range; mov64sx_s32_range;
   mov64sx_s16_r10; mov64sx_s32_varoff_1; mov64sx_s32_varoff_2; mov64sx_s32_varoff_3;
   mov64sx_s8_range_check; mov32sx_s8_range_check].

(** The fifteen [__success] programs of verifier_movsx.rs return the value
    their [__retval] declares for every value of their helper calls: a
    sign-extending move keeps the source's low bits as a signed number. *)
Lemma movsx_tests_pass : all_pass tests.
Proof. apply all_pass_sound; vm_compute; reflexivity. Qed.

(** * A rejected program *)

(** The loop of the program the verifier rejects: load a stack byte,
    sign-extend it, jump back when the result is large. *)
Definition looping : program :=
  [Lab "l0_7"; Ldx B R3 R10 (-387); Movsx W32 8 R7 R3; Jmp W32 GE R7 (Imm 0x2533823b) (Label "l0_7");
   Alu W32 MOV R0 (Imm 0); Exit].

Definition at_head (e : env) (s : state) : Prop :=
  pc s = O /\ wf e s /\ STACK_SIZE <= fp e < 2 ^ 64 /\ 128 <= u8 (mem s (fp e - 387)).

Lemma sext_high b : 128 <= b < 256 -> cmp_in W32 GE (movsx W32 8 b) (imm_val W32 0x2533823b) = true.
Proof.
  intros Hb; unfold cmp_in, movsx; cbn [cmp bits].
  assert (sw 8 b = b - 256) as ->
    by (unfold sw; rewrite (uw_small 8) by (unfold is_u; lia); change (2 ^ (8 - 1)) with 128;
        destruct (Z.ltb_spec b 128); lia).
  rewrite (uw_uw 32) by lia.
  assert (u32 (b - 256) = b - 256 + 2 ^ 32) as ->
    by (unfold uw; symmetry; apply Z.mod_unique with (-1); lia).
  change (u32 (imm_val W32 624132667)) with 624132667. apply Z.leb_le; lia.
Qed.

Lemma load1 m a : load m a 1 = u8 (m a).
Proof. cbn [load]; lia. Qed.

Lemma looping_runs e s : at_head e s -> exists r,
  run 4 e looping s = Next {| pc := 0; regs := r; mem := mem s; calls := calls s |}.
Proof.
  intros (Hpc & [_ H10] & Hfp & Hb); destruct s as [k r m c]; cbn [pc regs mem calls] in *; subst k.
  pose proof (u8_range (m (fp e - 387))) as Hu; unfold is_u in Hu.
  assert (Ha : u64 (r R10 + -387) = fp e - 387)
    by (rewrite H10; apply (uw_small 64); unfold is_u, STACK_SIZE in *; lia).
  assert (Hf : in_frame e (fp e - 387) 1 = true)
    by (apply in_frame_spec; unfold STACK_SIZE; lia).
  eexists; cbn -[uw cmp_in movsx imm_val in_frame load].
  rewrite Ha, Hf; cbn -[uw cmp_in movsx imm_val in_frame load].
  rewrite load1, sext_high by lia. reflexivity.
Qed.

Lemma looping_round e s : at_head e s -> exists s', run 4 e looping s = Next s' /\ at_head e s'.
Proof.
  intros Hs; destruct (looping_runs e s Hs) as (r & Er); destruct Hs as (_ & Hwf & Hs).
  eexists; split; [exact Er|]. split; [reflexivity|]; split; [|exact Hs].
  exact (run_wf 4 e looping s _ Hwf Er).
Qed.

Lemma looping_rounds k e s : at_head e s -> exists s', run (k * 4) e looping s = Next s' /\ at_head e s'.
Proof.
  revert s; induction k as [|k IH]; intros s Hs; [now exists s|].
  destruct (looping_round e s Hs) as (s1 & Hr & Hs1). destruct (IH s1 Hs1) as (s2 & Hr2 & Hs2).
  exists s2; split; [|assumption]. cbn [Nat.mul]. now rewrite run_plus, Hr.
Qed.

(** C35. The program of mov64sx_s32_varoff_1, which the loader expects the
    verifier to reject with an infinite loop, does loop: started with a stack
    byte of 128 or more at [r10 - 387], it never returns and never faults. *)
Theorem varoff_1_diverges e s :
  starts e s -> 128 <= u8 (mem s (fp e - 387)) ->
  assemble (body mov64sx_s32_varoff_1) = Some looping /\
  forall n, exists s', run n e looping s = Next s'.
Proof.
  intros Hs Hb; split; [reflexivity|]; intros n.
  assert (Hh : at_head e s) by (unfold at_head; pose proof (starts_wf e s Hs); unfold starts in Hs; tauto).
  destruct (looping_rounds n e s Hh) as (s' & Hr & _).
  replace (n * 4)%nat with (n + n * 3)%nat in Hr by lia; rewrite run_plus in Hr.
  destruct (run n e looping s) as [s1| |]; [now exists s1 | discriminate | discriminate].
Qed.

Lemma varoff_1_diverges_witness :
  exists s', run 1000 {| fp := 4096; helper := fun _ _ => 0; scratch := fun _ _ => 0 |} looping
      {| pc := 0; regs := fun r => match r with R10 => 4096 | _ => 0 end;
         mem := fun _ => 200; calls := 0 |} = Next s'.
Proof.
  refine (proj2 (varoff_1_diverges _ _ _ _) 1000%nat); [|vm_compute; discriminate].
  repeat split; try (cbn; unfold STACK_SIZE; lia); destruct r; cbn; lia.
Defined.
