(* ===== verification/Bswap.v ===== *)
(** Byte swaps: src/progs/verifier_bswap.rs.

    Each naked function is a [test]: its tags and its assembly text, verbatim. *)

From S2P Require Import Prelude Bpf Asm Range Loader.
From Stdlib Require Import String.
Local Open Scope string_scope.
Local Open Scope Z_scope.

Definition bswap_16_tags : list tag :=
  [__description "BSWAP, 16"; __success; __success_unpriv; __retval "0x23ff"].
Definition bswap_16 : test :=
  {| tags := bswap_16_tags;
     body := ["r0 = 0xff23;"; "r0 = bswap16 r0;"; "exit;"] |}.

Definition bswap_32_tags : list tag :=
  [__description "BSWAP, 32"; __success; __success_unpriv; __retval "0x23ff0000"].
Definition bswap_32 : test :=
  {| tags := bswap_32_tags;
     body := ["r0 = 0xff23;"; "r0 = bswap32 r0;"; "exit;"] |}.

Definition bswap_64_tags : list tag :=
  [__description "BSWAP, 64"; __success; __success_unpriv; __retval "0x34ff12ff"].
Definition bswap_64 : test :=
  {| tags := bswap_64_tags;
     body := ["r0 = -66710441369862280 ll;"; "r0 = bswap64 r0;"; "exit;"] |}.

Definition bswap16_range_tags : list tag :=
  [__success; __log_level "2"; __msg "r0 &= {{.*}}; R0=scalar({{.*}},var_off=(0x0; 0x3f00))";
   __msg "r0 = bswap16 r0 {{.*}}; R0=scalar({{.*}},var_off=(0x0; 0x3f))"].
Definition bswap16_range : test :=
  {| tags := bswap16_range_tags;
     body := ["call 7;"; "r0 &= 0x3f00;"; "r0 = bswap16 r0;"; "r2 = 0x3f ll;";
              "if r0 > r2 goto trap_0;"; "r0 = 0;"; "exit;"; "trap_0:"; "r1 = 42;";
              "r0 = *(u64 *)(r1 + 0);"; "exit;"] |}.

Definition bswap32_range_tags : list tag :=
  [__success; __log_level "2"; __msg "r0 &= {{.*}}; R0=scalar({{.*}},var_off=(0x0; 0x3f00))";
   __msg "r0 = bswap32 r0 {{.*}}; R0=scalar({{.*}},var_off=(0x0; 0x3f0000))"].
Definition bswap32_range : test :=
  {| tags := bswap32_range_tags;
     body := ["call 7;"; "r0 &= 0x3f00;"; "r0 = bswap32 r0;"; "r2 = 0x3f0000 ll;";
              "if r0 > r2 goto trap_1;"; "r0 = 0;"; "exit;"; "trap_1:"; "r1 = 42;";
              "r0 = *(u64 *)(r1 + 0);"; "exit;"] |}.

Definition bswap64_range_tags : list tag :=
  [__success; __log_level "2"; __msg "r0 &= {{.*}}; R0=scalar({{.*}},var_off=(0x0; 0x3f00))";
   __msg "r0 = bswap64 r0 {{.*}}; R0=scalar({{.*}},var_off=(0x0; 0x3f000000000000))"].
Definition bswap64_range : test :=
  {| tags := bswap64_range_tags;
     body := ["call 7;"; "r0 &= 0x3f00;"; "r0 = bswap64 r0;"; "r2 = 0x3f000000000000 ll;";
              "if r0 > r2 goto trap_2;"; "r0 = 0;"; "exit;"; "trap_2:"; "r1 = 42;";
              "r0 = *(u64 *)(r1 + 0);"; "exit;"] |}.

Definition be16_range_tags : list tag :=
  [__success; __log_level "2"; __msg "r0 &= {{.*}}; R0=scalar({{.*}},var_off=(0x0; 0x3f00))";
   __msg "r0 = be16 r0 {{.*}}; R0=scalar({{.*}},var_off=(0x0; 0x3f))"].
Definition be16_range : test :=
  {| tags := be16_range_tags;
     body := ["call 7;"; "r0 &= 0x3f00;"; "r0 = be16 r0;"; "r2 = 0x3f ll;";
              "if r0 > r2 goto trap_3;"; "r0 = 0;"; "exit;"; "trap_3:"; "r1 = 42;";
              "r0 = *(u64 *)(r1 + 0);"; "exit;"] |}.

Definition be32_range_tags : list tag :=
  [__success; __log_level "2"; __msg "r0 &= {{.*}}; R0=scalar({{.*}},var_off=(0x0; 0x3f00))";
   __msg "r0 = be32 r0 {{.*}}; R0=scalar({{.*}},var_off=(0x0; 0x3f0000))"].
Definition be32_range : test :=
  {| tags := be32_range_tags;
     body := ["call 7;"; "r0 &= 0x3f00;"; "r0 = be32 r0;"; "r2 = 0x3f0000 ll;";
              "if r0 > r2 goto trap_4;"; "r0 = 0;"; "exit;"; "trap_4:"; "r1 = 42;";
              "r0 = *(u64 *)(r1 + 0);"; "exit;"] |}.

Definition be64_range_tags : list tag :=
  [__success; __log_level "2"; __msg "r0 &= {{.*}}; R0=scalar({{.*}},var_off=(0x0; 0x3f00))";
   __msg "r0 = be64 r0 {{.*}}; R0=scalar({{.*}},var_off=(0x0; 0x3f000000000000))"].
Definition be64_range : test :=
  {| tags := be64_range_tags;
     body := ["call 7;"; "r0 &= 0x3f00;"; "r0 = be64 r0;"; "r2 = 0x3f000000000000 ll;";
              "if r0 > r2 goto trap_5;"; "r0 = 0;"; "exit;"; "trap_5:"; "r1 = 42;";
              "r0 = *(u64 *)(r1 + 0);"; "exit;"] |}.

Definition le16_range_tags : list tag :=
  [__success; __log_level "2"; __msg "r0 &= {{.*}}; R0=scalar({{.*}},var_off=(0x0; 0x3f00))";
   __msg "r0 = le16 r0 {{.*}}; R0=scalar({{.*}},var_off=(0x0; 0x3f00))"].
Definition le16_range : test :=
  {| tags := le16_range_tags;
     body := ["call 7;"; "r0 &= 0x3f00;"; "r0 = le16 r0;"; "r2 = 0x3f00 ll;";
              "if r0 > r2 goto trap_6;"; "r0 = 0;"; "exit;"; "trap_6:"; "r1 = 42;";
              "r0 = *(u64 *)(r1 + 0);"; "exit;"] |}.

Definition le32_range_tags : list tag :=
  [__success; __log_level "2"; __msg "r0 &= {{.*}}; R0=scalar({{.*}},var_off=(0x0; 0x3f00))";
   __msg "r0 = le32 r0 {{.*}}; R0=scalar({{.*}},var_off=(0x0; 0x3f00))"].
Definition le32_range : test :=
  {| tags := le32_range_tags;
     body := ["call 7;"; "r0 &= 0x3f00;"; "r0 = le32 r0;"; "r2 = 0x3f00 ll;";
              "if r0 > r2 goto trap_7;"; "r0 = 0;"; "exit;"; "trap_7:"; "r1 = 42;";
              "r0 = *(u64 *)(r1 + 0);"; "exit;"] |}.

Definition le64_range_tags : list tag :=
  [__success; __log_level "2"; __msg "r0 &= {{.*}}; R0=scalar({{.*}},var_off=(0x0; 0x3f00))";
   __msg "r0 = le64 r0 {{.*}}; R0=scalar({{.*}},var_off=(0x0; 0x3f00))"].
Definition le64_range : test :=
  {| tags := le64_range_tags;
     body := ["call 7;"; "r0 &= 0x3f00;"; "r0 = le64 r0;"; "r2 = 0x3f00 ll;";
              "if r0 > r2 goto trap_8;"; "r0 = 0;"; "exit;"; "trap_8:"; "r1 = 42;";
              "r0 = *(u64 *)(r1 + 0);"; "exit;"] |}.

Definition bswap_reset_reg_id_tags : list tag :=
  [__description "BSWAP, reset reg id"; __failure;
   __msg "math between fp pointer and register with unbounded min value is not allowed"].
Definition bswap_reset_reg_id : test :=
  {| tags := bswap_reset_reg_id_tags;
     body := ["call 5;"; "r1 = r0;"; "r0 = be16 r0;"; "if r0 != 1 goto l0_9;"; "r2 = r10;";
              "r2 += -512;"; "r2 += r1;"; "*(u8 *)(r2 + 0) = 0;"; "l0_9:"; "r0 = 0;"; "exit;"] |}.

Definition tests : list test :=
  [bswap_16; bswap_32; bswap_64; bswap16_range; bswap32_range; bswap64_range; be16_range;
   be32_range; be64_range; le16_range; le32_range; le64_range; bswap_reset_reg_id].

(** The twelve [__success] programs of verifier_bswap.rs return without a
    fault, with the value their [__retval] declares; and the known bits the
    expected verifier log states before and after each byte swap and
    endianness conversion hold for every value of the helper call. *)
Lemma bswap_tests_pass : all_pass tests.
Proof. apply all_pass_sound; vm_compute; reflexivity. Qed.

(** * A rejected program *)

Definition reset_reg_id_clock : Z := 0x10100.

(** The address the program stores to. *)
Lemma outside_frame e : STACK_SIZE <= fp e < 2 ^ 64 ->
  in_frame e (u64 (alu_in W64 ADD (alu_in W64 ADD (fp e) (imm_val W64 (-512))) reset_reg_id_clock + 0)) 1
  = false.
Proof.
  unfold STACK_SIZE; intros Hfp. unfold alu_in; cbn [alu bits].
  rewrite Z.add_0_r, !(uw_uw 64), (uw_small 64 (fp e)) by (lia || (unfold is_u; lia)).
  change (u64 (imm_val W64 (-512))) with (2 ^ 64 - 512).
  change (u64 reset_reg_id_clock) with 65792.
  unfold in_frame, STACK_SIZE, uw. rewrite Zplus_mod_idemp_l.
  apply not_true_is_false; intros Hb; bsimp.
  Z.div_mod_to_equations; lia.
Qed.

(** The program of bswap_reset_reg_id, which the loader expects the verifier
    to reject, is unsafe: from any start, a clock value whose low half swaps to
    1 takes it to a store outside its frame.  The byte swap says nothing of
    the other bits of the register it was copied from. *)
Lemma reset_reg_id_faults :
  exists p, assemble (body bswap_reset_reg_id) = Some p /\
  forall e s, starts e s -> helper e 5 0 = reset_reg_id_clock -> exists n, run n e p s = Fault.
Proof.
  eexists; split; [vm_compute; reflexivity|].
  intros e [k r m c] (Hpc & Hc & _ & H10 & Hfp) Hh; cbn [pc calls regs] in *; subst k c.
  exists 8%nat. cbn -[uw alu_in cmp_in imm_val in_frame endian]. rewrite Hh.
  change (cmp_in W64 NE (endian BE_ E16 (u64 reset_reg_id_clock)) (imm_val W64 1)) with false.
  cbn -[uw alu_in cmp_in imm_val in_frame endian]; rewrite H10.
  rewrite !alu_in_mov; cbn [bits]. rewrite (uw_small 64 (fp e)) by (unfold is_u, STACK_SIZE in *; lia).
  change (u64 (u64 (u64 (u64 reset_reg_id_clock)))) with reset_reg_id_clock.
  rewrite (uw_small 64 (fp e)) by (unfold is_u, STACK_SIZE in *; lia).
  now rewrite outside_frame.
Qed.
