(* ===== verification/Masking.v ===== *)
(** Branch-free index masking: src/progs/verifier_masking.rs.

    Each naked function is a [test]: its tags and its assembly text, verbatim. *)

From S2P Require Import Prelude Bpf Asm Range Loader.
From Stdlib Require Import String.
Local Open Scope string_scope.
Local Open Scope Z_scope.

Definition test_out_of_bounds_1_tags : list tag :=
  [__description "masking, test out of bounds 1"; __success; __success_unpriv; __retval "0"].
Definition test_out_of_bounds_1 : test :=
  {| tags := test_out_of_bounds_1_tags;
     body := ["w1 = 5;"; "w2 = 4;"; "r2 -= r1;"; "r2 |= r1;"; "r2 = -r2;"; "r2 s>>= 63;";
              "r1 &= r2;"; "r0 = r1;"; "exit;"] |}.

Definition test_out_of_bounds_2_tags : list tag :=
  [__description "masking, test out of bounds 2"; __success; __success_unpriv; __retval "0"].
Definition test_out_of_bounds_2 : test :=
  {| tags := test_out_of_bounds_2_tags;
     body := ["w1 = 1;"; "w2 = 0;"; "r2 -= r1;"; "r2 |= r1;"; "r2 = -r2;"; "r2 s>>= 63;";
              "r1 &= r2;"; "r0 = r1;"; "exit;"] |}.

Definition test_out_of_bounds_3_tags : list tag :=
  [__description "masking, test out of bounds 3"; __success; __success_unpriv; __retval "0"].
Definition test_out_of_bounds_3 : test :=
  {| tags := test_out_of_bounds_3_tags;
     body := ["w1 = 0xffffffff;"; "w2 = -2;"; "r2 -= r1;"; "r2 |= r1;"; "r2 = -r2;";
              "r2 s>>= 63;"; "r1 &= r2;"; "r0 = r1;"; "exit;"] |}.

Definition test_out_of_bounds_4_tags : list tag :=
  [__description "masking, test out of bounds 4"; __success; __success_unpriv; __retval "0"].
Definition test_out_of_bounds_4 : test :=
  {| tags := test_out_of_bounds_4_tags;
     body := ["w1 = 0xffffffff;"; "w2 = 0;"; "r2 -= r1;"; "r2 |= r1;"; "r2 = -r2;"; "r2 s>>= 63;";
              "r1 &= r2;"; "r0 = r1;"; "exit;"] |}.

Definition test_out_of_bounds_5_tags : list tag :=
  [__description "masking, test out of bounds 5"; __success; __success_unpriv; __retval "0"].
Definition test_out_of_bounds_5 : test :=
  {| tags := test_out_of_bounds_5_tags;
     body := ["w1 = -1;"; "w2 = 0;"; "r2 -= r1;"; "r2 |= r1;"; "r2 = -r2;"; "r2 s>>= 63;";
              "r1 &= r2;"; "r0 = r1;"; "exit;"] |}.

Definition test_out_of_bounds_6_tags : list tag :=
  [__description "masking, test out of bounds 6"; __success; __success_unpriv; __retval "0"].
Definition test_out_of_bounds_6 : test :=
  {| tags := test_out_of_bounds_6_tags;
     body := ["w1 = -1;"; "w2 = -2;"; "r2 -= r1;"; "r2 |= r1;"; "r2 = -r2;"; "r2 s>>= 63;";
              "r1 &= r2;"; "r0 = r1;"; "exit;"] |}.

Definition test_out_of_bounds_7_tags : list tag :=
  [__description "masking, test out of bounds 7"; __success; __success_unpriv; __retval "0"].
Definition test_out_of_bounds_7 : test :=
  {| tags := test_out_of_bounds_7_tags;
     body := ["r1 = 5;"; "w2 = 4;"; "r2 -= r1;"; "r2 |= r1;"; "r2 = -r2;"; "r2 s>>= 63;";
              "r1 &= r2;"; "r0 = r1;"; "exit;"] |}.

Definition test_out_of_bounds_8_tags : list tag :=
  [__description "masking, test out of bounds 8"; __success; __success_unpriv; __retval "0"].
Definition test_out_of_bounds_8 : test :=
  {| tags := test_out_of_bounds_8_tags;
     body := ["r1 = 1;"; "w2 = 0;"; "r2 -= r1;"; "r2 |= r1;"; "r2 = -r2;"; "r2 s>>= 63;";
              "r1 &= r2;"; "r0 = r1;"; "exit;"] |}.

Definition test_out_of_bounds_9_tags : list tag :=
  [__description "masking, test out of bounds 9"; __success; __success_unpriv; __retval "0"].
Definition test_out_of_bounds_9 : test :=
  {| tags := test_out_of_bounds_9_tags;
     body := ["r1 = 0xffffffff;"; "w2 = -2;"; "r2 -= r1;"; "r2 |= r1;"; "r2 = -r2;";
              "r2 s>>= 63;"; "r1 &= r2;"; "r0 = r1;"; "exit;"] |}.

Definition test_out_of_bounds_10_tags : list tag :=
  [__description "masking, test out of bounds 10"; __success; __success_unpriv; __retval "0"].
Definition test_out_of_bounds_10 : test :=
  {| tags := test_out_of_bounds_10_tags;
     body := ["r1 = 0xffffffff;"; "w2 = 0;"; "r2 -= r1;"; "r2 |= r1;"; "r2 = -r2;"; "r2 s>>= 63;";
              "r1 &= r2;"; "r0 = r1;"; "exit;"] |}.

Definition test_out_of_bounds_11_tags : list tag :=
  [__description "masking, test out of bounds 11"; __success; __success_unpriv; __retval "0"].
Definition test_out_of_bounds_11 : test :=
  {| tags := test_out_of_bounds_11_tags;
     body := ["r1 = -1;"; "w2 = 0;"; "r2 -= r1;"; "r2 |= r1;"; "r2 = -r2;"; "r2 s>>= 63;";
              "r1 &= r2;"; "r0 = r1;"; "exit;"] |}.

Definition test_out_of_bounds_12_tags : list tag :=
  [__description "masking, test out of bounds 12"; __success; __success_unpriv; __retval "0"].
Definition test_out_of_bounds_12 : test :=
  {| tags := test_out_of_bounds_12_tags;
     body := ["r1 = -1;"; "w2 = -2;"; "r2 -= r1;"; "r2 |= r1;"; "r2 = -r2;"; "r2 s>>= 63;";
              "r1 &= r2;"; "r0 = r1;"; "exit;"] |}.

Definition masking_test_in_bounds_1_tags : list tag :=
  [__description "masking, test in bounds 1"; __success; __success_unpriv; __retval "4"].
Definition masking_test_in_bounds_1 : test :=
  {| tags := masking_test_in_bounds_1_tags;
     body := ["w1 = 4;"; "w2 = 4;"; "r2 -= r1;"; "r2 |= r1;"; "r2 = -r2;"; "r2 s>>= 63;";
              "r1 &= r2;"; "r0 = r1;"; "exit;"] |}.

Definition masking_test_in_bounds_2_tags : list tag :=
  [__description "masking, test in bounds 2"; __success; __success_unpriv; __retval "0"].
Definition masking_test_in_bounds_2 : test :=
  {| tags := masking_test_in_bounds_2_tags;
     body := ["w1 = 0;"; "w2 = -2;"; "r2 -= r1;"; "r2 |= r1;"; "r2 = -r2;"; "r2 s>>= 63;";
              "r1 &= r2;"; "r0 = r1;"; "exit;"] |}.

Definition masking_test_in_bounds_3_tags : list tag :=
  [__description "masking, test in bounds 3"; __success; __success_unpriv; __retval "0xfffffffe"].
Definition masking_test_in_bounds_3 : test :=
  {| tags := masking_test_in_bounds_3_tags;
     body := ["w1 = 0xfffffffe;"; "w2 = -2;"; "r2 -= r1;"; "r2 |= r1;"; "r2 = -r2;";
              "r2 s>>= 63;"; "r1 &= r2;"; "r0 = r1;"; "exit;"] |}.

Definition masking_test_in_bounds_4_tags : list tag :=
  [__description "masking, test in bounds 4"; __success; __success_unpriv; __retval "0xabcde"].
Definition masking_test_in_bounds_4 : test :=
  {| tags := masking_test_in_bounds_4_tags;
     body := ["w1 = 0xabcde;"; "w2 = 11259374;"; "r2 -= r1;"; "r2 |= r1;"; "r2 = -r2;";
              "r2 s>>= 63;"; "r1 &= r2;"; "r0 = r1;"; "exit;"] |}.

Definition masking_test_in_bounds_5_tags : list tag :=
  [__description "masking, test in bounds 5"; __success; __success_unpriv; __retval "0"].
Definition masking_test_in_bounds_5 : test :=
  {| tags := masking_test_in_bounds_5_tags;
     body := ["w1 = 0;"; "w2 = 0;"; "r2 -= r1;"; "r2 |= r1;"; "r2 = -r2;"; "r2 s>>= 63;";
              "r1 &= r2;"; "r0 = r1;"; "exit;"] |}.

Definition masking_test_in_bounds_6_tags : list tag :=
  [__description "masking, test in bounds 6"; __success; __success_unpriv; __retval "46"].
Definition masking_test_in_bounds_6 : test :=
  {| tags := masking_test_in_bounds_6_tags;
     body := ["w1 = 46;"; "w2 = 46;"; "r2 -= r1;"; "r2 |= r1;"; "r2 = -r2;"; "r2 s>>= 63;";
              "r1 &= r2;"; "r0 = r1;"; "exit;"] |}.

Definition masking_test_in_bounds_7_tags : list tag :=
  [__description "masking, test in bounds 7"; __success; __success_unpriv; __retval "46"].
Definition masking_test_in_bounds_7 : test :=
  {| tags := masking_test_in_bounds_7_tags;
     body := ["r3 = -46;"; "r3 *= -1;"; "w2 = 46;"; "r2 -= r3;"; "r2 |= r3;"; "r2 = -r2;";
              "r2 s>>= 63;"; "r3 &= r2;"; "r0 = r3;"; "exit;"] |}.

Definition masking_test_in_bounds_8_tags : list tag :=
  [__description "masking, test in bounds 8"; __success; __success_unpriv; __retval "0"].
Definition masking_test_in_bounds_8 : test :=
  {| tags := masking_test_in_bounds_8_tags;
     body := ["r3 = -47;"; "r3 *= -1;"; "w2 = 46;"; "r2 -= r3;"; "r2 |= r3;"; "r2 = -r2;";
              "r2 s>>= 63;"; "r3 &= r2;"; "r0 = r3;"; "exit;"] |}.

Definition tests : list test :=
  [test_out_of_bounds_1; test_out_of_bounds_2; test_out_of_bounds_3; test_out_of_bounds_4;
   test_out_of_bounds_5; test_out_of_bounds_6; test_out_of_bounds_7; test_out_of_bounds_8;
   test_out_of_bounds_9; test_out_of_bounds_10; test_out_of_bounds_11; test_out_of_bounds_12;
   masking_test_in_bounds_1; masking_test_in_bounds_2; masking_test_in_bounds_3;
   masking_test_in_bounds_4; masking_test_in_bounds_5; masking_test_in_bounds_6;
   masking_test_in_bounds_7; masking_test_in_bounds_8].

(** * The masking idiom

    All but the last two programs load an index into [r1] and the largest
    valid index into [r2] and then run the same seven instructions. *)

Definition idiom : program :=
  [Alu W64 SUB R2 (Reg R1); Alu W64 OR R2 (Reg R1); Neg W64 R2; Alu W64 ARSH R2 (Imm 63);
   Alu W64 AND R1 (Reg R2); Alu W64 MOV R0 (Reg R1); Exit].

Definition clamp (i limit : Z) : Z := if i <=? limit then i else 0.

(** The sign mask the idiom computes: all ones or zero. *)
Lemma sign_mask x : - 2 ^ 63 <= x < 2 ^ 63 ->
  alu_in W64 ARSH (u64 x) 63 = if x <? 0 then 2 ^ 64 - 1 else 0.
Proof.
  intros Hx; unfold alu_in; cbn [alu bits].
  change (u64 63 mod 64) with 63.
  rewrite (uw_uw 64) by lia. unfold sw at 1. rewrite (uw_uw 64) by lia.
  change (u64 (Z.shiftr (i64 x) 63) = if x <? 0 then 2 ^ 64 - 1 else 0).
  rewrite i64_small by assumption. rewrite shiftr_div by lia.
  destruct (Z.ltb_spec x 0).
  - replace (x / 2 ^ 63) with (-1) by (apply Z.div_unique with (x + 2 ^ 63); lia). reflexivity.
  - now rewrite Z.div_small by lia.
Qed.

Lemma land_ones64 i : is_u64 i -> Z.land i (2 ^ 64 - 1) = i.
Proof.
  intros Hi. change (2 ^ 64 - 1) with (Z.ones 64). rewrite Z.land_ones by lia.
  now apply (uw_small 64).
Qed.

Lemma lor_top d : 0 <= d < 2 ^ 63 -> Z.lor (2 ^ 63) d = 2 ^ 63 + d.
Proof.
  intros Hd.
  assert (E : Z.land (2 ^ 63) d = 0).
  { apply Z.bits_inj'; intros n Hn. rewrite Z.land_spec, Z.bits_0, Z.pow2_bits_eqb by lia.
    destruct (Z.eqb_spec 63 n) as [<-|]; [|reflexivity]. cbn [andb].
    destruct (Z.eq_dec d 0) as [->|]; [apply Z.bits_0|].
    apply Z.bits_above_log2; [lia|]. apply Z.log2_lt_pow2; lia. }
  rewrite <- Z.lxor_lor by assumption. symmetry. now apply Z.add_nocarry_lxor.
Qed.

(** [(l - i) | i] has its top bit set exactly when [i > l], and is zero only
    when [i] is. *)
Lemma mask_bits i l : 0 <= i < 2 ^ 63 -> 0 <= l < 2 ^ 63 ->
  let x := Z.lor (u64 (l - i)) i in
  if i <=? l then 0 <= x < 2 ^ 63 /\ (x = 0 -> i = 0) else 2 ^ 63 < x < 2 ^ 64.
Proof.
  intros Hi Hl x. destruct (Z.leb_spec i l); subst x.
  - rewrite (uw_small 64) by (unfold is_u; lia).
    destruct (is_u_lor_lxor 63 (l - i) i) as [Hx _]; [lia | unfold is_u; lia | unfold is_u; lia|].
    split; [exact Hx|]. now intros [_ ?]%Z.lor_eq_0_iff.
  - assert (u64 (l - i) = 2 ^ 63 + (2 ^ 63 + (l - i))) as ->
      by (unfold uw; symmetry; apply Z.mod_unique with (-1); lia).
    set (d := 2 ^ 63 + (l - i)). assert (Hd : 0 < d < 2 ^ 63) by (subst d; lia).
    destruct (is_u_lor_lxor 63 d i) as [Hx _]; [lia | unfold is_u; lia | unfold is_u; lia|].
    rewrite <- lor_top, <- Z.lor_assoc, lor_top by (lia || exact Hx). unfold is_u in Hx.
    destruct (Z.eq_dec (Z.lor d i) 0) as [[Y _]%Z.lor_eq_0_iff|]; lia.
Qed.

(** The idiom on any 63-bit index and limit. *)
Lemma idiom_clamps e s : pc s = O -> 0 <= regs s R1 < 2 ^ 63 -> 0 <= regs s R2 < 2 ^ 63 ->
  run 7 e idiom s = Return (clamp (regs s R1) (regs s R2)).
Proof.
  intros Hpc Hi Hl; destruct s as [k r m c]; cbn [pc regs] in *; subst k.
  set (i := r R1) in *; set (l := r R2) in *.
  pose proof (mask_bits i l Hi Hl) as Hx; cbv zeta in Hx; set (x := Z.lor (u64 (l - i)) i) in Hx.
  transitivity (Return (u64 (alu_in W64 AND i (alu_in W64 ARSH (u64 (- x)) 63)))).
  - cbn -[uw alu_in neg]. fold i l.
    assert (alu_in W64 OR (alu_in W64 SUB l (u64 i)) (u64 i) = x) as ->.
    { unfold alu_in; cbn [alu bits]. rewrite !(uw_uw 64) by lia.
      now rewrite (uw_small 64 i), (uw_small 64 l) by (unfold is_u; lia). }
    rewrite alu_in_mov; cbn [bits]; rewrite (uw_uw 64) by lia.
    now rewrite (alu_in_idem W64 AND).
  - f_equal. rewrite (uw_small 64) by (apply (alu_in_range W64)).
    unfold clamp; destruct (i <=? l).
    + rewrite sign_mask by lia. destruct (Z.ltb_spec (- x) 0).
      * unfold alu_in; cbn [alu bits]. rewrite !(uw_small 64) by (unfold is_u; lia).
        apply land_ones64; unfold is_u; lia.
      * destruct Hx as [Hx0 Hi0]. now rewrite Hi0 by lia.
    + replace (u64 (- x)) with (u64 (2 ^ 64 - x)) by
        (unfold uw; rewrite <- (Z_mod_plus_full (- x) 1); f_equal; lia).
      rewrite sign_mask by lia. destruct (Z.ltb_spec (2 ^ 64 - x) 0); [lia|].
      apply Z.land_0_r.
Qed.

(** C30. The branch-free bounds clamp: each of the first eighteen programs ends
    in a sequence that, for any index in [r1] and any limit in [r2] below
    2^63, returns the index when it is within the limit and 0 when it is not,
    on every input and not only the ones the programs load. *)
Theorem masking_clamps :
  Forall (fun t => exists p, assemble (skipn 2 (body t)) = Some p /\
            forall e s, pc s = O -> 0 <= regs s R1 < 2 ^ 63 -> 0 <= regs s R2 < 2 ^ 63 ->
              exists n, run n e p s = Return (clamp (regs s R1) (regs s R2)))
    (firstn 18 tests).
Proof.
  repeat constructor; (exists idiom; split; [reflexivity|]);
    intros; exists 7%nat; now apply idiom_clamps.
Qed.

(** All twenty programs of verifier_masking.rs return the value their
    [__retval] declares, from every start. *)
Lemma masking_tests_pass : all_pass tests.
Proof. apply all_pass_sound; vm_compute; reflexivity. Qed.
