(* ===== verification/Scev.v ===== *)
(** Loops the verifier counts: src/progs/verifier_scev.rs.

    Each naked function is a [test]: its tags and its assembly text, verbatim.  The
    programs over maps, packets, contexts and subprograms are left out, and those
    the loader expects to be rejected; so are three whose counter lives in a
    stack slot they read before writing it, and nested_loop_with_two_exits,
    whose paths are too many to list. *)

From S2P Require Import Prelude Bpf Asm Range Loader Loops.
From Stdlib Require Import String.
Local Open Scope string_scope.
Local Open Scope Z_scope.

Definition simple_loop1_tags : list tag :=
  [__success; __log_level "2"; __msg_next "scev at header 1:";
   __msg_next "  r0=(+ r0 1) / (linear r0 1)"].
Definition simple_loop1 : test :=
  {| tags := simple_loop1_tags;
     body := ["r0 = 0;"; "loop_0:"; "if r0 == 10 goto exit_0;"; "r0 += 1;"; "goto loop_0;";
              "exit_0:"; "r0 = 0;"; "exit;"] |}.

Definition indirect_write_invalidates_scev_tags : list tag :=
  [__success; __log_level "2"; __msg "8: (7b) *(u64 *)(r1 +0) = r0     ; *fp-8 (+ *fp-8 1) -> ?"].
Definition indirect_write_invalidates_scev : test :=
  {| tags := indirect_write_invalidates_scev_tags;
     body := ["r0 = 0;"; "*(u64 *)(r10 - 8) = r0;"; "loop_1:"; "r0 = *(u64 *)(r10 - 8);";
              "if r0 == 10 goto exit_1;"; "r0 += 1;"; "*(u64 *)(r10 - 8) = r0;"; "r1 = r10;";
              "r1 += -8;"; "*(u64 *)(r1 + 0) = r0;"; "goto loop_1;"; "exit_1:"; "r0 = 0;"; "exit;"] |}.

Definition simple_loop2_tags : list tag :=
  [__success; __log_level "2"; __msg_next "scev at header 2:";
   __msg_next "  *fp-8=(+ *fp-8 1) / (linear *fp-8 1)"; __msg_next " scev at latch 3:";
   __msg_next "  r0=*fp-8 / (linear *fp-8 1)"; __msg_next "  *fp-8=*fp-8 / (linear *fp-8 1)"].
Definition simple_loop2 : test :=
  {| tags := simple_loop2_tags;
     body := ["r0 = 0;"; "*(u64 *)(r10 - 8) = r0;"; "loop_2:"; "r0 = *(u64 *)(r10 - 8);";
              "if r0 == 10 goto exit_2;"; "r0 = *(u64 *)(r10 - 8);"; "r0 += 1;";
              "*(u64 *)(r10 - 8) = r0;"; "goto loop_2;"; "exit_2:"; "r0 = 0;"; "exit;"] |}.

Definition meet_agrees_tags : list tag :=
  [__success; __log_level "2"; __msg_next "scev at header 2:";
   __msg_next "  r1=(+ r1 1) / (linear r1 1)"].
Definition meet_agrees : test :=
  {| tags := meet_agrees_tags;
     body := ["call 7;"; "r1 = 0;"; "1:"; "if r1 == 2 goto 3f;"; "if r0 == 7 goto 2f;";
              "r1 += 1;"; "goto 1b;"; "2:"; "r1 += 1;"; "goto 1b;"; "3:"; "r0 = 0;"; "exit;"] |}.

Definition entry_state_join_tags : list tag :=
  [__success; __log_level "2"; __flag "BPF_F_TEST_STATE_FREQ"; __msg "scev at header 2:";
   __msg_next "  r0=(+ r0 1) / (linear r0 1)"; __msg_next "  r1=42 / (any r1 42)";
   __msg_next " scev at latch 2:"; __msg_next "  r0=(+ r0 1) / (linear r0 1)";
   __msg_next "  r1=42 / (any r1 42)"; __msg "loop header at 2, widening r0 to 0..10 step 1";
   __msg_next "loop header at 2, widening r1 to 7..42 step 1"].
Definition entry_state_join : test :=
  {| tags := entry_state_join_tags;
     body := ["r0 = 0;"; "r1 = 7;"; "1:"; "if r0 == 10 goto 2f;"; "r0 += 1;"; "r1 = 42;";
              "goto 1b;"; "2:"; "r0 = r1;"; "exit;"] |}.

Definition alu_ops_exprs_tags : list tag :=
  [__success; __log_level "2"; __msg "r1 += 2 {{.*}}; r1 r6 -> (+ r6 2)";
   __msg "r1 += r7 {{.*}}; r1 r6 -> (+ r6 r7)";
   __msg "w1 += 2 {{.*}}; r1 r6 -> (zext32 (+ r6 2))";
   __msg "w1 += w7 {{.*}}; r1 r6 -> (zext32 (+ r6 r7))";
   __msg "r1 -= 2 {{.*}}; r1 r6 -> (- r6 2)"; __msg "r1 -= r7 {{.*}}; r1 r6 -> (- r6 r7)";
   __msg "w1 -= 2 {{.*}}; r1 r6 -> (zext32 (- r6 2))";
   __msg "w1 -= w7 {{.*}}; r1 r6 -> (zext32 (- r6 r7))";
   __msg "r1 *= 2 {{.*}}; r1 r6 -> (* r6 2)"; __msg "r1 *= r7 {{.*}}; r1 r6 -> (* r6 r7)";
   __msg "w1 *= 2 {{.*}}; r1 r6 -> (zext32 (* r6 2))";
   __msg "w1 *= w7 {{.*}}; r1 r6 -> (zext32 (* r6 r7))";
   __msg "r1 /= 2 {{.*}}; r1 r6 -> (/ r6 2)"; __msg "r1 /= r7 {{.*}}; r1 r6 -> (/ r6 r7)";
   __msg "w1 /= 2 {{.*}}; r1 r6 -> (zext32 (/ r6 2))";
   __msg "w1 /= w7 {{.*}}; r1 r6 -> (zext32 (/ r6 r7))";
   __msg "r1 s/= 2 {{.*}}; r1 r6 -> (s/ r6 2)"; __msg "r1 s/= r7 {{.*}}; r1 r6 -> (s/ r6 r7)";
   __msg "w1 s/= 2 {{.*}}; r1 r6 -> (zext32 (s/ r6 2))";
   __msg "w1 s/= w7 {{.*}}; r1 r6 -> (zext32 (s/ r6 r7))";
   __msg "r1 %= 2 {{.*}}; r1 r6 -> (% r6 2)"; __msg "r1 %= r7 {{.*}}; r1 r6 -> (% r6 r7)";
   __msg "w1 %= 2 {{.*}}; r1 r6 -> (zext32 (% r6 2))";
   __msg "w1 %= w7 {{.*}}; r1 r6 -> (zext32 (% r6 r7))";
   __msg "r1 s%= 2 {{.*}}; r1 r6 -> (s% r6 2)"; __msg "r1 s%= r7 {{.*}}; r1 r6 -> (s% r6 r7)";
   __msg "w1 s%= 2 {{.*}}; r1 r6 -> (zext32 (s% r6 2))";
   __msg "w1 s%= w7 {{.*}}; r1 r6 -> (zext32 (s% r6 r7))";
   __msg "r1 |= 2 {{.*}}; r1 r6 -> (| r6 2)"; __msg "r1 |= r7 {{.*}}; r1 r6 -> (| r6 r7)";
   __msg "w1 |= 2 {{.*}}; r1 r6 -> (zext32 (| r6 2))";
   __msg "w1 |= w7 {{.*}}; r1 r6 -> (zext32 (| r6 r7))";
   __msg "r1 &= 2 {{.*}}; r1 r6 -> (& r6 2)"; __msg "r1 &= r7 {{.*}}; r1 r6 -> (& r6 r7)";
   __msg "w1 &= 2 {{.*}}; r1 r6 -> (zext32 (& r6 2))";
   __msg "w1 &= w7 {{.*}}; r1 r6 -> (zext32 (& r6 r7))";
   __msg "r1 ^= 2 {{.*}}; r1 r6 -> (^ r6 2)"; __msg "r1 ^= r7 {{.*}}; r1 r6 -> (^ r6 r7)";
   __msg "w1 ^= 2 {{.*}}; r1 r6 -> (zext32 (^ r6 2))";
   __msg "w1 ^= w7 {{.*}}; r1 r6 -> (zext32 (^ r6 r7))";
   __msg "r1 <<= 2 {{.*}}; r1 r6 -> (<< r6 2)"; __msg "r1 <<= r7 {{.*}}; r1 r6 -> (<< r6 r7)";
   __msg "w1 <<= 2 {{.*}}; r1 r6 -> (zext32 (<< r6 2))";
   __msg "w1 <<= w7 {{.*}}; r1 r6 -> (zext32 (<< r6 r7))";
   __msg "r1 >>= 2 {{.*}}; r1 r6 -> (>> r6 2)"; __msg "r1 >>= r7 {{.*}}; r1 r6 -> (>> r6 r7)";
   __msg "w1 >>= 2 {{.*}}; r1 r6 -> (zext32 (>> r6 2))";
   __msg "w1 >>= w7 {{.*}}; r1 r6 -> (zext32 (>> r6 r7))";
   __msg "r1 s>>= 2 {{.*}}; r1 r6 -> (s>> r6 2)"; __msg "r1 s>>= r7 {{.*}}; r1 r6 -> (s>> r6 r7)";
   __msg "w1 s>>= 2 {{.*}}; r1 r6 -> (zext32 (s>> r6 2))";
   __msg "w1 s>>= w7 {{.*}}; r1 r6 -> (zext32 (s>> r6 r7))";
   __msg "r1 = -r1 {{.*}}; r1 r6 -> (- r6)"; __msg "w1 = -w1 {{.*}}; r1 r6 -> (zext32 (- r6))";
   __msg "r1 = 42 {{.*}}; r1 r6 -> 42"; __msg "w1 = 42 {{.*}}; r1 r6 -> (zext32 42)";
   __msg "r1 = r7 {{.*}}; r1 r6 -> r7"; __msg "w1 = w7 {{.*}}; r1 r6 -> (zext32 r7)";
   __msg "r1 = (s8)r6 {{.*}}; r1 r6 -> (sext8 r6)";
   __msg "r1 = (s16)r6 {{.*}}; r1 r6 -> (sext16 r6)";
   __msg "r1 = (s32)r6 {{.*}}; r1 r6 -> (sext32 r6)";
   __msg "w1 = (s8)w6 {{.*}}; r1 r6 -> (zext32 (sext8 r6))";
   __msg "w1 = (s16)w6 {{.*}}; r1 r6 -> (zext32 (sext16 r6))";
   __msg "r1 = bswap16 r1 {{.*}}; r1 r6 -> (bswap16 r6)";
   __msg "r1 = bswap32 r1 {{.*}}; r1 r6 -> (bswap32 r6)";
   __msg "r1 = bswap64 r1 {{.*}}; r1 r6 -> (bswap64 r6)";
   __msg "r1 = le16 r1 {{.*}}; r1 r6 -> (zext16 r6)";
   __msg "r1 = le32 r1 {{.*}}; r1 r6 -> (zext32 r6)"; __msg "r1 += 1 {{.*}}; r1 r6 -> (+ r6 1)";
   __msg "r1 = be16 r1 {{.*}}; r1 r6 -> (bswap16 r6)";
   __msg "r1 = be32 r1 {{.*}}; r1 r6 -> (bswap32 r6)";
   __msg "r1 = be64 r1 {{.*}}; r1 r6 -> (bswap64 r6)"].
Definition alu_ops_exprs : test :=
  {| tags := alu_ops_exprs_tags;
     body := ["r6 = 7;"; "r7 = 2;"; "r8 = 0;"; "1:"; "r0 = 0;"; "r1 = r6;"; "r1 += 2;";
              "r0 += r1;"; "r1 = r6;"; "r1 += r7;"; "r0 += r1;"; "r1 = r6;"; "w1 += 2;";
              "r0 += r1;"; "r1 = r6;"; "w1 += w7;"; "r0 += r1;"; "r1 = r6;"; "r1 -= 2;";
              "r0 += r1;"; "r1 = r6;"; "r1 -= r7;"; "r0 += r1;"; "r1 = r6;"; "w1 -= 2;";
              "r0 += r1;"; "r1 = r6;"; "w1 -= w7;"; "r0 += r1;"; "r1 = r6;"; "r1 *= 2;";
              "r0 += r1;"; "r1 = r6;"; "r1 *= r7;"; "r0 += r1;"; "r1 = r6;"; "w1 *= 2;";
              "r0 += r1;"; "r1 = r6;"; "w1 *= w7;"; "r0 += r1;"; "r1 = r6;"; "r1 /= 2;";
              "r0 += r1;"; "r1 = r6;"; "r1 /= r7;"; "r0 += r1;"; "r1 = r6;"; "w1 /= 2;";
              "r0 += r1;"; "r1 = r6;"; "w1 /= w7;"; "r0 += r1;"; "r1 = r6;"; "r1 s/= 2;";
              "r0 += r1;"; "r1 = r6;"; "r1 s/= r7;"; "r0 += r1;"; "r1 = r6;"; "w1 s/= 2;";
              "r0 += r1;"; "r1 = r6;"; "w1 s/= w7;"; "r0 += r1;"; "r1 = r6;"; "r1 %= 2;";
              "r0 += r1;"; "r1 = r6;"; "r1 %= r7;"; "r0 += r1;"; "r1 = r6;"; "w1 %= 2;";
              "r0 += r1;"; "r1 = r6;"; "w1 %= w7;"; "r0 += r1;"; "r1 = r6;"; "r1 s%= 2;";
              "r0 += r1;"; "r1 = r6;"; "r1 s%= r7;"; "r0 += r1;"; "r1 = r6;"; "w1 s%= 2;";
              "r0 += r1;"; "r1 = r6;"; "w1 s%= w7;"; "r0 += r1;"; "r1 = r6;"; "r1 |= 2;";
              "r0 += r1;"; "r1 = r6;"; "r1 |= r7;"; "r0 += r1;"; "r1 = r6;"; "w1 |= 2;";
              "r0 += r1;"; "r1 = r6;"; "w1 |= w7;"; "r0 += r1;"; "r1 = r6;"; "r1 &= 2;";
              "r0 += r1;"; "r1 = r6;"; "r1 &= r7;"; "r0 += r1;"; "r1 = r6;"; "w1 &= 2;";
              "r0 += r1;"; "r1 = r6;"; "w1 &= w7;"; "r0 += r1;"; "r1 = r6;"; "r1 ^= 2;";
              "r0 += r1;"; "r1 = r6;"; "r1 ^= r7;"; "r0 += r1;"; "r1 = r6;"; "w1 ^= 2;";
              "r0 += r1;"; "r1 = r6;"; "w1 ^= w7;"; "r0 += r1;"; "r1 = r6;"; "r1 <<= 2;";
              "r0 += r1;"; "r1 = r6;"; "r1 <<= r7;"; "r0 += r1;"; "r1 = r6;"; "w1 <<= 2;";
              "r0 += r1;"; "r1 = r6;"; "w1 <<= w7;"; "r0 += r1;"; "r1 = r6;"; "r1 >>= 2;";
              "r0 += r1;"; "r1 = r6;"; "r1 >>= r7;"; "r0 += r1;"; "r1 = r6;"; "w1 >>= 2;";
              "r0 += r1;"; "r1 = r6;"; "w1 >>= w7;"; "r0 += r1;"; "r1 = r6;"; "r1 s>>= 2;";
              "r0 += r1;"; "r1 = r6;"; "r1 s>>= r7;"; "r0 += r1;"; "r1 = r6;"; "w1 s>>= 2;";
              "r0 += r1;"; "r1 = r6;"; "w1 s>>= w7;"; "r0 += r1;"; "r1 = r6;"; "r1 = -r1;";
              "r0 += r1;"; "r1 = r6;"; "w1 = -w1;"; "r0 += r1;"; "r1 = r6;"; "r1 = 42;";
              "r0 += r1;"; "r1 = r6;"; "w1 = 42;"; "r0 += r1;"; "r1 = r6;"; "r1 = r7;";
              "r0 += r1;"; "r1 = r6;"; "w1 = w7;"; "r0 += r1;"; "r1 = r6;"; "r1 = (s8)r6;";
              "r0 += r1;"; "r1 = r6;"; "r1 = (s16)r6;"; "r0 += r1;"; "r1 = r6;"; "r1 = (s32)r6;";
              "r0 += r1;"; "r1 = r6;"; "w1 = (s8)w6;"; "r0 += r1;"; "r1 = r6;"; "w1 = (s16)w6;";
              "r0 += r1;"; "r1 = r6;"; "r1 = bswap16 r1;"; "r0 += r1;"; "r1 = r6;";
              "r1 = bswap32 r1;"; "r0 += r1;"; "r1 = r6;"; "r1 = bswap64 r1;"; "r0 += r1;";
              "r1 = r6;"; "r1 = le16 r1;"; "r0 += r1;"; "r1 = r6;"; "r1 = le32 r1;"; "r0 += r1;";
              "r1 = r6;"; "r1 = le64 r1;"; "r1 += 1;"; "r0 += r1;"; "r1 = r6;"; "r1 = be16 r1;";
              "r0 += r1;"; "r1 = r6;"; "r1 = be32 r1;"; "r0 += r1;"; "r1 = r6;"; "r1 = be64 r1;";
              "r1 += 1;"; "r0 += r1;"; "r8 += 1;"; "if r8 < 2 goto 1b;"; "r0 = 0;"; "exit;"] |}.

Definition store_load_exprs_tags : list tag :=
  [__success; __log_level "2"; __msg "*(u64 *)(r10 -8) = r1 {{.*}}; *fp-8 -8 -> 1";
   __msg "*(u32 *)(r10 -8) = r1 {{.*}}; *fp-8 -8 -> (spill32 1)";
   __msg "*(u16 *)(r10 -8) = r1 {{.*}}; *fp-8 -8 -> (spill16 1)";
   __msg "*(u8 *)(r10 -8) = r1 {{.*}}; *fp-8 -8 -> (spill8 1)";
   __msg "r1 = *(u64 *)(r10 -8) {{.*}}; r1 1 -> -8";
   __msg "r1 = *(u32 *)(r10 -8) {{.*}}; r1 1 -> (zext32 -8)";
   __msg "r1 = *(u16 *)(r10 -8) {{.*}}; r1 1 -> (zext16 -8)";
   __msg "r1 = *(u8 *)(r10 -8) {{.*}}; r1 1 -> (zext8 -8)";
   __msg "r1 = *(s32 *)(r10 -8) {{.*}}; r1 1 -> (sext32 -8)";
   __msg "r1 = *(s16 *)(r10 -8) {{.*}}; r1 1 -> (sext16 -8)";
   __msg "r1 = *(s8 *)(r10 -8) {{.*}}; r1 1 -> (sext8 -8)";
   __msg "r1 = load_acquire((u8 *)(r10 -8)) {{.*}}; r1 1 -> (zext8 -8)";
   __msg "r1 = load_acquire((u16 *)(r10 -8)) {{.*}}; r1 1 -> (zext16 -8)";
   __msg "r1 = load_acquire((u32 *)(r10 -8)) {{.*}}; r1 1 -> (zext32 -8)";
   __msg "r2 = load_acquire((u64 *)(r10 -8)) {{.*}}; r2 2 -> -8";
   __msg "store_release((u8 *)(r10 -8), r1) {{.*}}; *fp-8 -8 -> (spill8 1)";
   __msg "store_release((u16 *)(r10 -8), r1) {{.*}}; *fp-8 -8 -> (spill16 1)";
   __msg "store_release((u32 *)(r10 -8), r1) {{.*}}; *fp-8 -8 -> (spill32 1)";
   __msg "store_release((u64 *)(r10 -8), r1) {{.*}}; *fp-8 -8 -> 1";
   __msg "lock *(u64 *)(r10 -8) += r1 {{.*}}; *fp-8 -8 -> _";
   __msg "r1 = atomic64_fetch_add((u64 *)(r10 -8), r1) {{.*}}; r1 1 -> _, *fp-8 -8 -> _";
   __msg "r1 = atomic_fetch_add((u32 *)(r10 -8), r1) {{.*}}; r1 1 -> _, *fp-8 -8 -> _";
   __msg "r1 = atomic64_xchg((u64 *)(r10 -8), r1) {{.*}}; r1 1 -> _, *fp-8 -8 -> _";
   __msg "r0 = atomic64_cmpxchg((u64 *)(r10 -8), r0, r2) {{.*}}; r0 0 -> _, *fp-8 -8 -> _";
   __msg "*(u64 *)(r10 -8) = 42 {{.*}}; *fp-8 -8 -> 42";
   __msg "*(u8 *)(r10 -7) = r0 {{.*}}; *fp-8 -8 -> _"].
Definition store_load_exprs : test :=
  {| tags := store_load_exprs_tags;
     body := ["r7 = 0;"; "1:"; "r0 = 0;"; "r1 = 1;"; "r2 = 2;"; "*(u64 *)(r10 - 8) = -8;";
              "*(u64 *)(r10 - 8) = r1;"; "r0 += r1;"; "r0 += r2;"; "r3 = *(u64 *)(r10 - 8);";
              "r0 += r3;"; "r0 = 0;"; "r1 = 1;"; "r2 = 2;"; "*(u64 *)(r10 - 8) = -8;";
              "*(u32 *)(r10 - 8) = r1;"; "r0 += r1;"; "r0 += r2;"; "r3 = *(u64 *)(r10 - 8);";
              "r0 += r3;"; "r0 = 0;"; "r1 = 1;"; "r2 = 2;"; "*(u64 *)(r10 - 8) = -8;";
              "*(u16 *)(r10 - 8) = r1;"; "r0 += r1;"; "r0 += r2;"; "r3 = *(u64 *)(r10 - 8);";
              "r0 += r3;"; "r0 = 0;"; "r1 = 1;"; "r2 = 2;"; "*(u64 *)(r10 - 8) = -8;";
              "*(u8 *)(r10 - 8) = r1;"; "r0 += r1;"; "r0 += r2;"; "r3 = *(u64 *)(r10 - 8);";
              "r0 += r3;"; "r0 = 0;"; "r1 = 1;"; "r2 = 2;"; "*(u64 *)(r10 - 8) = -8;";
              "r1 = *(u64 *)(r10 - 8);"; "r0 += r1;"; "r0 += r2;"; "r3 = *(u64 *)(r10 - 8);";
              "r0 += r3;"; "r0 = 0;"; "r1 = 1;"; "r2 = 2;"; "*(u64 *)(r10 - 8) = -8;";
              "r1 = *(u32 *)(r10 - 8);"; "r0 += r1;"; "r0 += r2;"; "r3 = *(u64 *)(r10 - 8);";
              "r0 += r3;"; "r0 = 0;"; "r1 = 1;"; "r2 = 2;"; "*(u64 *)(r10 - 8) = -8;";
              "r1 = *(u16 *)(r10 - 8);"; "r0 += r1;"; "r0 += r2;"; "r3 = *(u64 *)(r10 - 8);";
              "r0 += r3;"; "r0 = 0;"; "r1 = 1;"; "r2 = 2;"; "*(u64 *)(r10 - 8) = -8;";
              "r1 = *(u8 *)(r10 - 8);"; "r0 += r1;"; "r0 += r2;"; "r3 = *(u64 *)(r10 - 8);";
              "r0 += r3;"; "r0 = 0;"; "r1 = 1;"; "r2 = 2;"; "*(u64 *)(r10 - 8) = -8;";
              "r1 = *(s32 *)(r10 - 8);"; "r0 += r1;"; "r0 += r2;"; "r3 = *(u64 *)(r10 - 8);";
              "r0 += r3;"; "r0 = 0;"; "r1 = 1;"; "r2 = 2;"; "*(u64 *)(r10 - 8) = -8;";
              "r1 = *(s16 *)(r10 - 8);"; "r0 += r1;"; "r0 += r2;"; "r3 = *(u64 *)(r10 - 8);";
              "r0 += r3;"; "r0 = 0;"; "r1 = 1;"; "r2 = 2;"; "*(u64 *)(r10 - 8) = -8;";
              "r1 = *(s8 *)(r10 - 8);"; "r0 += r1;"; "r0 += r2;"; "r3 = *(u64 *)(r10 - 8);";
              "r0 += r3;"; "r0 = 0;"; "r1 = 1;"; "r2 = 2;"; "*(u64 *)(r10 - 8) = -8;";
              ".8byte 1103806112211;"; "r0 += r1;"; "r0 += r2;"; "r3 = *(u64 *)(r10 - 8);";
              "r0 += r3;"; "r0 = 0;"; "r1 = 1;"; "r2 = 2;"; "*(u64 *)(r10 - 8) = -8;";
              ".8byte 1103806112203;"; "r0 += r1;"; "r0 += r2;"; "r3 = *(u64 *)(r10 - 8);";
              "r0 += r3;"; "r0 = 0;"; "r1 = 1;"; "r2 = 2;"; "*(u64 *)(r10 - 8) = -8;";
              ".8byte 1103806112195;"; "r0 += r1;"; "r0 += r2;"; "r3 = *(u64 *)(r10 - 8);";
              "r0 += r3;"; "r0 = 0;"; "r1 = 1;"; "r2 = 2;"; "*(u64 *)(r10 - 8) = -8;";
              ".8byte 1103806112475;"; "r0 += r1;"; "r0 += r2;"; "r3 = *(u64 *)(r10 - 8);";
              "r0 += r3;"; "r0 = 0;"; "r1 = 1;"; "r2 = 2;"; "*(u64 *)(r10 - 8) = -8;";
              ".8byte 1172525554387;"; "r0 += r1;"; "r0 += r2;"; "r3 = *(u64 *)(r10 - 8);";
              "r0 += r3;"; "r0 = 0;"; "r1 = 1;"; "r2 = 2;"; "*(u64 *)(r10 - 8) = -8;";
              ".8byte 1172525554379;"; "r0 += r1;"; "r0 += r2;"; "r3 = *(u64 *)(r10 - 8);";
              "r0 += r3;"; "r0 = 0;"; "r1 = 1;"; "r2 = 2;"; "*(u64 *)(r10 - 8) = -8;";
              ".8byte 1172525554371;"; "r0 += r1;"; "r0 += r2;"; "r3 = *(u64 *)(r10 - 8);";
              "r0 += r3;"; "r0 = 0;"; "r1 = 1;"; "r2 = 2;"; "*(u64 *)(r10 - 8) = -8;";
              ".8byte 1172525554395;"; "r0 += r1;"; "r0 += r2;"; "r3 = *(u64 *)(r10 - 8);";
              "r0 += r3;"; "r0 = 0;"; "r1 = 1;"; "r2 = 2;"; "*(u64 *)(r10 - 8) = -8;";
              ".8byte 4294449883;"; "r0 += r1;"; "r0 += r2;"; "r3 = *(u64 *)(r10 - 8);";
              "r0 += r3;"; "r0 = 0;"; "r1 = 1;"; "r2 = 2;"; "*(u64 *)(r10 - 8) = -8;";
              ".8byte 8589417179;"; "r0 += r1;"; "r0 += r2;"; "r3 = *(u64 *)(r10 - 8);";
              "r0 += r3;"; "r0 = 0;"; "r1 = 1;"; "r2 = 2;"; "*(u64 *)(r10 - 8) = -8;";
              ".8byte 8589417155;"; "r0 += r1;"; "r0 += r2;"; "r3 = *(u64 *)(r10 - 8);";
              "r0 += r3;"; "r0 = 0;"; "r1 = 1;"; "r2 = 2;"; "*(u64 *)(r10 - 8) = -8;";
              ".8byte 970662091483;"; "r0 += r1;"; "r0 += r2;"; "r3 = *(u64 *)(r10 - 8);";
              "r0 += r3;"; "r0 = 0;"; "r1 = 1;"; "r2 = 2;"; "*(u64 *)(r10 - 8) = -8;";
              ".8byte 1039381572315;"; "r0 += r1;"; "r0 += r2;"; "r3 = *(u64 *)(r10 - 8);";
              "r0 += r3;"; "r0 = 0;"; "r1 = 1;"; "r2 = 2;"; "*(u64 *)(r10 - 8) = -8;";
              "*(u64 *)(r10 - 8) = 42;"; "r0 += r1;"; "r0 += r2;"; "r3 = *(u64 *)(r10 - 8);";
              "r0 += r3;"; "r0 = 0;"; "r1 = 1;"; "r2 = 2;"; "*(u64 *)(r10 - 8) = -8;";
              "*(u8 *)(r10 - 7) = r0;"; "r0 += r1;"; "r0 += r2;"; "r3 = *(u64 *)(r10 - 8);";
              "r0 += r3;"; "r7 += 1;"; "if r7 < 2 goto 1b;"; "r0 = 0;"; "exit;"] |}.

Definition nested_loop1_tags : list tag :=
  [__success; __log_level "2"; __msg_next "scev at header 1:";
   __msg_next "  r6=(+ r6 1) / (linear r6 1)"; __msg_next "  r7=?";
   __msg_next " scev at latch 1:"; __msg_next "  r6=(+ r6 1) / (linear r6 1)";
   __msg_next "  r7=?"; __msg_next "scev at header 4:";
   __msg_next "  r7=(+ r7 1) / (linear r7 1)"; __msg_next " scev at latch 4:";
   __msg_next "  r7=(+ r7 1) / (linear r7 1)"].
Definition nested_loop1 : test :=
  {| tags := nested_loop1_tags;
     body := ["r6 = 0;"; "1:"; "if r6 == 2 goto 2f;"; "r6 += 1;"; "r7 = 0;"; "3:";
              "if r7 == 2 goto 4f;"; "r7 += 1;"; "goto 3b;"; "4:"; "goto 1b;"; "2:"; "r0 = r7;";
              "exit;"] |}.

Definition nested_loop_hdr_backedge1_tags : list tag :=
  [__success; __msg "loop at 1"; __msg_next "  backedge from 4{{$}}";
   __msg_next "  exit from 1 to 7"; __msg_next "loop at 4, nested in 1";
   __msg_next "  backedge from 6, latch at 4"; __msg_next "  exit from 4 to 1";
   __msg "scev at header 1:"; __msg_next "  r6=(+ r6 1) / (linear r6 1)"; __msg_next "  r7=?";
   __msg_next "scev at header 4:"; __msg_next "  r7=(+ r7 1) / (linear r7 1)";
   __msg_next " scev at latch 4:"; __msg_next "  r7=(+ r7 1) / (linear r7 1)";
   __msg "loop header at 1, latch not identified";
   __msg "loop header at 4, widening r7 to 0..2 step 1"; __log_level "2"].
Definition nested_loop_hdr_backedge1 : test :=
  {| tags := nested_loop_hdr_backedge1_tags;
     body := ["r6 = 0;"; "1:"; "if r6 == 2 goto 3f;"; "r6 += 1;"; "r7 = 0;"; "2:";
              "if r7 == 2 goto 1b;"; "r7 += 1;"; "goto 2b;"; "3:"; "r0 = r7;"; "exit;"] |}.

Definition nested_loop_hdr_backedge2_tags : list tag :=
  [__success; __log_level "2"; __flag "BPF_F_TEST_STATE_FREQ"; __msg "loop at 2{{$}}";
   __msg_next "  backedge from 4{{$}}"; __msg_next "  exit from 5 to 6";
   __msg_next "loop at 3, nested in 2"; __msg_next "  backedge from 5, latch at 5";
   __msg_next "  exit from 4 to 2"; __msg_next "  exit from 5 to 6"; __msg "scev at header 2:";
   __msg_next "  r6=?"; __msg_next "  r7=(+ r7 1) / (linear r7 1)";
   __msg_next "scev at header 3:"; __msg_next "  r6=(+ r6 1) / (linear r6 1)";
   __msg_next " scev at latch 5:"; __msg_next "  r6=(+ r6 1) / (linear (+ r6 1) 1)";
   __msg "loop header at 2, latch not identified";
   __msg "loop header at 3, header_count is [0..2] "].
Definition nested_loop_hdr_backedge2 : test :=
  {| tags := nested_loop_hdr_backedge2_tags;
     body := ["r6 = 0;"; "r7 = 0;"; "1:"; "r7 += 1;"; "2:"; "r6 += 1;"; "if r7 == 2 goto 1b;";
              "if r6 < 2 goto 2b;"; "r0 = 0;"; "exit;"] |}.

Definition nested_loops_shared_header_tags : list tag :=
  [__success; __log_level "2"; __flag "BPF_F_TEST_STATE_FREQ"; __msg "loop at 3{{$}}";
   __msg "scev at header 3:"; __msg_next "  r6=(any r6 (+ r6 1)) / ?";
   __msg_next "  r7=(any (+ r7 1) 0) / ?"; __msg_next "  r8=(+ r8 1) / (linear r8 1)";
   __msg "loop header at 3, unsupported loop: multiple backedges"].
Definition nested_loops_shared_header : test :=
  {| tags := nested_loops_shared_header_tags;
     body := ["r6 = 0;"; "r7 = 0;"; "r8 = 0;"; "1:"; "r8 += 1;"; "r7 += 1;"; "if r7 < 4 goto 1b;";
              "r7 = 0;"; "r6 += 1;"; "if r6 < 3 goto 1b;"; "r0 = r8;"; "exit;"] |}.

Definition nested_loops_outer_latch_true_branch_to_inner_tags : list tag :=
  [__success; __log_level "2"; __msg "loop header at 1, header_count is 10";
   __msg "loop header at 5, header_count is 5"; __flag "BPF_F_TEST_STATE_FREQ"].
Definition nested_loops_outer_latch_true_branch_to_inner : test :=
  {| tags := nested_loops_outer_latch_true_branch_to_inner_tags;
     body := ["r0 = 0;"; "1:"; "r0 += 1;"; "r1 = 0;"; "if r0 < 10 goto 2f;"; "goto 3f;"; "2:";
              "r1 += 1;"; "if r1 < 5 goto 2b;"; "goto 1b;"; "3:"; "r0 = 0;"; "exit;"] |}.

Definition pre_lt_tags : list tag :=
  [__success; __log_level "2"; __flag "BPF_F_TEST_STATE_FREQ";
   __msg "loop header at {{[0-9]+}}, header_count is 4 "].
Definition pre_lt : test :=
  {| tags := pre_lt_tags;
     body := ["r6 = 1 ll;"; "r7 = 7 ll;"; "r9 = 0;"; "1:"; "r8 = 2 ll;"; "if r6 >= r7 goto 2f;";
              "r6 += r8;"; "goto 1b;"; "2:"; "r0 = 0;"; "exit;"] |}.

Definition post_lt_tags : list tag :=
  [__success; __log_level "2"; __flag "BPF_F_TEST_STATE_FREQ";
   __msg "loop header at {{[0-9]+}}, header_count is 3 "].
Definition post_lt : test :=
  {| tags := post_lt_tags;
     body := ["r6 = 1 ll;"; "r7 = 7 ll;"; "r9 = 0;"; "1:"; "r8 = 2 ll;"; "r6 += r8;";
              "if r6 < r7 goto 1b;"; "2:"; "r0 = 0;"; "exit;"] |}.

Definition pre_le_tags : list tag :=
  [__success; __log_level "2"; __flag "BPF_F_TEST_STATE_FREQ";
   __msg "loop header at {{[0-9]+}}, header_count is 5 "].
Definition pre_le : test :=
  {| tags := pre_le_tags;
     body := ["r6 = 1 ll;"; "r7 = 7 ll;"; "r9 = 0;"; "1:"; "r8 = 2 ll;"; "if r6 > r7 goto 2f;";
              "r6 += r8;"; "goto 1b;"; "2:"; "r0 = 0;"; "exit;"] |}.

Definition post_le_tags : list tag :=
  [__success; __log_level "2"; __flag "BPF_F_TEST_STATE_FREQ";
   __msg "loop header at {{[0-9]+}}, header_count is 4 "].
Definition post_le : test :=
  {| tags := post_le_tags;
     body := ["r6 = 1 ll;"; "r7 = 7 ll;"; "r9 = 0;"; "1:"; "r8 = 2 ll;"; "r6 += r8;";
              "if r6 <= r7 goto 1b;"; "2:"; "r0 = 0;"; "exit;"] |}.

Definition pre_gt_tags : list tag :=
  [__success; __log_level "2"; __flag "BPF_F_TEST_STATE_FREQ";
   __msg "loop header at {{[0-9]+}}, header_count is 4 "].
Definition pre_gt : test :=
  {| tags := pre_gt_tags;
     body := ["r6 = 9 ll;"; "r7 = 3 ll;"; "r9 = 0;"; "1:"; "r8 = -2 ll;"; "if r6 <= r7 goto 2f;";
              "r6 += r8;"; "goto 1b;"; "2:"; "r0 = 0;"; "exit;"] |}.

Definition post_gt_tags : list tag :=
  [__success; __log_level "2"; __flag "BPF_F_TEST_STATE_FREQ";
   __msg "loop header at {{[0-9]+}}, header_count is 3 "].
Definition post_gt : test :=
  {| tags := post_gt_tags;
     body := ["r6 = 9 ll;"; "r7 = 3 ll;"; "r9 = 0;"; "1:"; "r8 = -2 ll;"; "r6 += r8;";
              "if r6 > r7 goto 1b;"; "2:"; "r0 = 0;"; "exit;"] |}.

Definition pre_ge_tags : list tag :=
  [__success; __log_level "2"; __flag "BPF_F_TEST_STATE_FREQ";
   __msg "loop header at {{[0-9]+}}, header_count is 5 "].
Definition pre_ge : test :=
  {| tags := pre_ge_tags;
     body := ["r6 = 9 ll;"; "r7 = 3 ll;"; "r9 = 0;"; "1:"; "r8 = -2 ll;"; "if r6 < r7 goto 2f;";
              "r6 += r8;"; "goto 1b;"; "2:"; "r0 = 0;"; "exit;"] |}.

Definition post_ge_tags : list tag :=
  [__success; __log_level "2"; __flag "BPF_F_TEST_STATE_FREQ";
   __msg "loop header at {{[0-9]+}}, header_count is 4 "].
Definition post_ge : test :=
  {| tags := post_ge_tags;
     body := ["r6 = 9 ll;"; "r7 = 3 ll;"; "r9 = 0;"; "1:"; "r8 = -2 ll;"; "r6 += r8;";
              "if r6 >= r7 goto 1b;"; "2:"; "r0 = 0;"; "exit;"] |}.

Definition pre_slt_tags : list tag :=
  [__success; __log_level "2"; __flag "BPF_F_TEST_STATE_FREQ";
   __msg "loop header at {{[0-9]+}}, header_count is 4 "].
Definition pre_slt : test :=
  {| tags := pre_slt_tags;
     body := ["r6 = -5 ll;"; "r7 = 1 ll;"; "r9 = 0;"; "1:"; "r8 = 2 ll;"; "if r6 s>= r7 goto 2f;";
              "r6 += r8;"; "goto 1b;"; "2:"; "r0 = 0;"; "exit;"] |}.

Definition post_slt_tags : list tag :=
  [__success; __log_level "2"; __flag "BPF_F_TEST_STATE_FREQ";
   __msg "loop header at {{[0-9]+}}, header_count is 3 "].
Definition post_slt : test :=
  {| tags := post_slt_tags;
     body := ["r6 = -5 ll;"; "r7 = 1 ll;"; "r9 = 0;"; "1:"; "r8 = 2 ll;"; "r6 += r8;";
              "if r6 s< r7 goto 1b;"; "2:"; "r0 = 0;"; "exit;"] |}.

Definition pre_sle_tags : list tag :=
  [__success; __log_level "2"; __flag "BPF_F_TEST_STATE_FREQ";
   __msg "loop header at {{[0-9]+}}, header_count is 5 "].
Definition pre_sle : test :=
  {| tags := pre_sle_tags;
     body := ["r6 = -5 ll;"; "r7 = 1 ll;"; "r9 = 0;"; "1:"; "r8 = 2 ll;"; "if r6 s> r7 goto 2f;";
              "r6 += r8;"; "goto 1b;"; "2:"; "r0 = 0;"; "exit;"] |}.

Definition post_sle_tags : list tag :=
  [__success; __log_level "2"; __flag "BPF_F_TEST_STATE_FREQ";
   __msg "loop header at {{[0-9]+}}, header_count is 4 "].
Definition post_sle : test :=
  {| tags := post_sle_tags;
     body := ["r6 = -5 ll;"; "r7 = 1 ll;"; "r9 = 0;"; "1:"; "r8 = 2 ll;"; "r6 += r8;";
              "if r6 s<= r7 goto 1b;"; "2:"; "r0 = 0;"; "exit;"] |}.

Definition pre_sgt_tags : list tag :=
  [__success; __log_level "2"; __flag "BPF_F_TEST_STATE_FREQ";
   __msg "loop header at {{[0-9]+}}, header_count is 4 "].
Definition pre_sgt : test :=
  {| tags := pre_sgt_tags;
     body := ["r6 = 5 ll;"; "r7 = -1 ll;"; "r9 = 0;"; "1:"; "r8 = -2 ll;";
              "if r6 s<= r7 goto 2f;"; "r6 += r8;"; "goto 1b;"; "2:"; "r0 = 0;"; "exit;"] |}.

Definition post_sgt_tags : list tag :=
  [__success; __log_level "2"; __flag "BPF_F_TEST_STATE_FREQ";
   __msg "loop header at {{[0-9]+}}, header_count is 3 "].
Definition post_sgt : test :=
  {| tags := post_sgt_tags;
     body := ["r6 = 5 ll;"; "r7 = -1 ll;"; "r9 = 0;"; "1:"; "r8 = -2 ll;"; "r6 += r8;";
              "if r6 s> r7 goto 1b;"; "2:"; "r0 = 0;"; "exit;"] |}.

Definition pre_sge_tags : list tag :=
  [__success; __log_level "2"; __flag "BPF_F_TEST_STATE_FREQ";
   __msg "loop header at {{[0-9]+}}, header_count is 5 "].
Definition pre_sge : test :=
  {| tags := pre_sge_tags;
     body := ["r6 = 5 ll;"; "r7 = -1 ll;"; "r9 = 0;"; "1:"; "r8 = -2 ll;"; "if r6 s< r7 goto 2f;";
              "r6 += r8;"; "goto 1b;"; "2:"; "r0 = 0;"; "exit;"] |}.

Definition post_sge_tags : list tag :=
  [__success; __log_level "2"; __flag "BPF_F_TEST_STATE_FREQ";
   __msg "loop header at {{[0-9]+}}, header_count is 4 "].
Definition post_sge : test :=
  {| tags := post_sge_tags;
     body := ["r6 = 5 ll;"; "r7 = -1 ll;"; "r9 = 0;"; "1:"; "r8 = -2 ll;"; "r6 += r8;";
              "if r6 s>= r7 goto 1b;"; "2:"; "r0 = 0;"; "exit;"] |}.

Definition pre_ne_tags : list tag :=
  [__success; __log_level "2"; __flag "BPF_F_TEST_STATE_FREQ";
   __msg "loop header at {{[0-9]+}}, header_count is 4 "].
Definition pre_ne : test :=
  {| tags := pre_ne_tags;
     body := ["r6 = 1 ll;"; "r7 = 7 ll;"; "r9 = 0;"; "1:"; "r8 = 2 ll;"; "if r6 == r7 goto 2f;";
              "r6 += r8;"; "goto 1b;"; "2:"; "r0 = 0;"; "exit;"] |}.

Definition post_ne_tags : list tag :=
  [__success; __log_level "2"; __flag "BPF_F_TEST_STATE_FREQ";
   __msg "loop header at {{[0-9]+}}, header_count is 3 "].
Definition post_ne : test :=
  {| tags := post_ne_tags;
     body := ["r6 = 1 ll;"; "r7 = 7 ll;"; "r9 = 0;"; "1:"; "r8 = 2 ll;"; "r6 += r8;";
              "if r6 != r7 goto 1b;"; "2:"; "r0 = 0;"; "exit;"] |}.

Definition pre_ne_down_tags : list tag :=
  [__success; __log_level "2"; __flag "BPF_F_TEST_STATE_FREQ";
   __msg "loop header at {{[0-9]+}}, header_count is 4 "].
Definition pre_ne_down : test :=
  {| tags := pre_ne_down_tags;
     body := ["r6 = 9 ll;"; "r7 = 3 ll;"; "r9 = 0;"; "1:"; "r8 = -2 ll;"; "if r6 == r7 goto 2f;";
              "r6 += r8;"; "goto 1b;"; "2:"; "r0 = 0;"; "exit;"] |}.

Definition post_ne_down_tags : list tag :=
  [__success; __log_level "2"; __flag "BPF_F_TEST_STATE_FREQ";
   __msg "loop header at {{[0-9]+}}, header_count is 3 "].
Definition post_ne_down : test :=
  {| tags := post_ne_down_tags;
     body := ["r6 = 9 ll;"; "r7 = 3 ll;"; "r9 = 0;"; "1:"; "r8 = -2 ll;"; "r6 += r8;";
              "if r6 != r7 goto 1b;"; "2:"; "r0 = 0;"; "exit;"] |}.

Definition pre_lt_round_tags : list tag :=
  [__success; __log_level "2"; __flag "BPF_F_TEST_STATE_FREQ";
   __msg "loop header at {{[0-9]+}}, header_count is 5 "].
Definition pre_lt_round : test :=
  {| tags := pre_lt_round_tags;
     body := ["r6 = 1 ll;"; "r7 = 8 ll;"; "r9 = 0;"; "1:"; "r8 = 2 ll;"; "if r6 >= r7 goto 2f;";
              "r6 += r8;"; "goto 1b;"; "2:"; "r0 = 0;"; "exit;"] |}.

Definition pre_le_round_tags : list tag :=
  [__success; __log_level "2"; __flag "BPF_F_TEST_STATE_FREQ";
   __msg "loop header at {{[0-9]+}}, header_count is 5 "].
Definition pre_le_round : test :=
  {| tags := pre_le_round_tags;
     body := ["r6 = 1 ll;"; "r7 = 8 ll;"; "r9 = 0;"; "1:"; "r8 = 2 ll;"; "if r6 > r7 goto 2f;";
              "r6 += r8;"; "goto 1b;"; "2:"; "r0 = 0;"; "exit;"] |}.

Definition pre_gt_round_tags : list tag :=
  [__success; __log_level "2"; __flag "BPF_F_TEST_STATE_FREQ";
   __msg "loop header at {{[0-9]+}}, header_count is 5 "].
Definition pre_gt_round : test :=
  {| tags := pre_gt_round_tags;
     body := ["r6 = 9 ll;"; "r7 = 2 ll;"; "r9 = 0;"; "1:"; "r8 = -2 ll;"; "if r6 <= r7 goto 2f;";
              "r6 += r8;"; "goto 1b;"; "2:"; "r0 = 0;"; "exit;"] |}.

Definition pre_ge_round_tags : list tag :=
  [__success; __log_level "2"; __flag "BPF_F_TEST_STATE_FREQ";
   __msg "loop header at {{[0-9]+}}, header_count is 5 "].
Definition pre_ge_round : test :=
  {| tags := pre_ge_round_tags;
     body := ["r6 = 9 ll;"; "r7 = 2 ll;"; "r9 = 0;"; "1:"; "r8 = -2 ll;"; "if r6 < r7 goto 2f;";
              "r6 += r8;"; "goto 1b;"; "2:"; "r0 = 0;"; "exit;"] |}.

Definition pre_slt_round_tags : list tag :=
  [__success; __log_level "2"; __flag "BPF_F_TEST_STATE_FREQ";
   __msg "loop header at {{[0-9]+}}, header_count is 5 "].
Definition pre_slt_round : test :=
  {| tags := pre_slt_round_tags;
     body := ["r6 = -5 ll;"; "r7 = 2 ll;"; "r9 = 0;"; "1:"; "r8 = 2 ll;"; "if r6 s>= r7 goto 2f;";
              "r6 += r8;"; "goto 1b;"; "2:"; "r0 = 0;"; "exit;"] |}.

Definition pre_sle_round_tags : list tag :=
  [__success; __log_level "2"; __flag "BPF_F_TEST_STATE_FREQ";
   __msg "loop header at {{[0-9]+}}, header_count is 5 "].
Definition pre_sle_round : test :=
  {| tags := pre_sle_round_tags;
     body := ["r6 = -5 ll;"; "r7 = 2 ll;"; "r9 = 0;"; "1:"; "r8 = 2 ll;"; "if r6 s> r7 goto 2f;";
              "r6 += r8;"; "goto 1b;"; "2:"; "r0 = 0;"; "exit;"] |}.

Definition pre_sgt_round_tags : list tag :=
  [__success; __log_level "2"; __flag "BPF_F_TEST_STATE_FREQ";
   __msg "loop header at {{[0-9]+}}, header_count is 5 "].
Definition pre_sgt_round : test :=
  {| tags := pre_sgt_round_tags;
     body := ["r6 = 5 ll;"; "r7 = -2 ll;"; "r9 = 0;"; "1:"; "r8 = -2 ll;";
              "if r6 s<= r7 goto 2f;"; "r6 += r8;"; "goto 1b;"; "2:"; "r0 = 0;"; "exit;"] |}.

Definition pre_sge_round_tags : list tag :=
  [__success; __log_level "2"; __flag "BPF_F_TEST_STATE_FREQ";
   __msg "loop header at {{[0-9]+}}, header_count is 5 "].
Definition pre_sge_round : test :=
  {| tags := pre_sge_round_tags;
     body := ["r6 = 5 ll;"; "r7 = -2 ll;"; "r9 = 0;"; "1:"; "r8 = -2 ll;"; "if r6 s< r7 goto 2f;";
              "r6 += r8;"; "goto 1b;"; "2:"; "r0 = 0;"; "exit;"] |}.

Definition pre_le_eq_tags : list tag :=
  [__success; __log_level "2"; __flag "BPF_F_TEST_STATE_FREQ";
   __msg "loop header at {{[0-9]+}}, header_count is 2 "].
Definition pre_le_eq : test :=
  {| tags := pre_le_eq_tags;
     body := ["r6 = 7 ll;"; "r7 = 7 ll;"; "r9 = 0;"; "1:"; "r8 = 2 ll;"; "if r6 > r7 goto 2f;";
              "r6 += r8;"; "goto 1b;"; "2:"; "r0 = 0;"; "exit;"] |}.

Definition pre_ge_eq_tags : list tag :=
  [__success; __log_level "2"; __flag "BPF_F_TEST_STATE_FREQ";
   __msg "loop header at {{[0-9]+}}, header_count is 2 "].
Definition pre_ge_eq : test :=
  {| tags := pre_ge_eq_tags;
     body := ["r6 = 3 ll;"; "r7 = 3 ll;"; "r9 = 0;"; "1:"; "r8 = -2 ll;"; "if r6 < r7 goto 2f;";
              "r6 += r8;"; "goto 1b;"; "2:"; "r0 = 0;"; "exit;"] |}.

Definition pre_sle_eq_tags : list tag :=
  [__success; __log_level "2"; __flag "BPF_F_TEST_STATE_FREQ";
   __msg "loop header at {{[0-9]+}}, header_count is 2 "].
Definition pre_sle_eq : test :=
  {| tags := pre_sle_eq_tags;
     body := ["r6 = 1 ll;"; "r7 = 1 ll;"; "r9 = 0;"; "1:"; "r8 = 2 ll;"; "if r6 s> r7 goto 2f;";
              "r6 += r8;"; "goto 1b;"; "2:"; "r0 = 0;"; "exit;"] |}.

Definition pre_sge_eq_tags : list tag :=
  [__success; __log_level "2"; __flag "BPF_F_TEST_STATE_FREQ";
   __msg "loop header at {{[0-9]+}}, header_count is 2 "].
Definition pre_sge_eq : test :=
  {| tags := pre_sge_eq_tags;
     body := ["r6 = -1 ll;"; "r7 = -1 ll;"; "r9 = 0;"; "1:"; "r8 = -2 ll;";
              "if r6 s< r7 goto 2f;"; "r6 += r8;"; "goto 1b;"; "2:"; "r0 = 0;"; "exit;"] |}.

Definition pre_lt_sign_tags : list tag :=
  [__success; __log_level "2"; __flag "BPF_F_TEST_STATE_FREQ";
   __msg "loop header at {{[0-9]+}}, header_count is 4 "].
Definition pre_lt_sign : test :=
  {| tags := pre_lt_sign_tags;
     body := ["r6 = 9223372036854775806 ll;"; "r7 = -9223372036854775807 ll;"; "r9 = 0;"; "1:";
              "r8 = 1 ll;"; "if r6 >= r7 goto 2f;"; "r6 += r8;"; "goto 1b;"; "2:"; "r0 = 0;";
              "exit;"] |}.

Definition pre_gt_sign_tags : list tag :=
  [__success; __log_level "2"; __flag "BPF_F_TEST_STATE_FREQ";
   __msg "loop header at {{[0-9]+}}, header_count is 4 "].
Definition pre_gt_sign : test :=
  {| tags := pre_gt_sign_tags;
     body := ["r6 = -9223372036854775807 ll;"; "r7 = 9223372036854775806 ll;"; "r9 = 0;"; "1:";
              "r8 = -1 ll;"; "if r6 <= r7 goto 2f;"; "r6 += r8;"; "goto 1b;"; "2:"; "r0 = 0;";
              "exit;"] |}.

Definition pre_lt_false_tags : list tag :=
  [__success; __log_level "2"; __flag "BPF_F_TEST_STATE_FREQ";
   __msg "loop header at {{[0-9]+}}, can't compute iterations count"].
Definition pre_lt_false : test :=
  {| tags := pre_lt_false_tags;
     body := ["r6 = 7 ll;"; "r7 = 7 ll;"; "r9 = 0;"; "1:"; "r8 = 2 ll;"; "if r6 >= r7 goto 2f;";
              "r6 += r8;"; "goto 1b;"; "2:"; "r0 = 0;"; "exit;"] |}.

Definition pre_le_false_tags : list tag :=
  [__success; __log_level "2"; __flag "BPF_F_TEST_STATE_FREQ";
   __msg "loop header at {{[0-9]+}}, can't compute iterations count"].
Definition pre_le_false : test :=
  {| tags := pre_le_false_tags;
     body := ["r6 = 8 ll;"; "r7 = 7 ll;"; "r9 = 0;"; "1:"; "r8 = 2 ll;"; "if r6 > r7 goto 2f;";
              "r6 += r8;"; "goto 1b;"; "2:"; "r0 = 0;"; "exit;"] |}.

Definition pre_gt_false_tags : list tag :=
  [__success; __log_level "2"; __flag "BPF_F_TEST_STATE_FREQ";
   __msg "loop header at {{[0-9]+}}, can't compute iterations count"].
Definition pre_gt_false : test :=
  {| tags := pre_gt_false_tags;
     body := ["r6 = 3 ll;"; "r7 = 3 ll;"; "r9 = 0;"; "1:"; "r8 = -2 ll;"; "if r6 <= r7 goto 2f;";
              "r6 += r8;"; "goto 1b;"; "2:"; "r0 = 0;"; "exit;"] |}.

Definition pre_ge_false_tags : list tag :=
  [__success; __log_level "2"; __flag "BPF_F_TEST_STATE_FREQ";
   __msg "loop header at {{[0-9]+}}, can't compute iterations count"].
Definition pre_ge_false : test :=
  {| tags := pre_ge_false_tags;
     body := ["r6 = 2 ll;"; "r7 = 3 ll;"; "r9 = 0;"; "1:"; "r8 = -2 ll;"; "if r6 < r7 goto 2f;";
              "r6 += r8;"; "goto 1b;"; "2:"; "r0 = 0;"; "exit;"] |}.

Definition pre_slt_false_tags : list tag :=
  [__success; __log_level "2"; __flag "BPF_F_TEST_STATE_FREQ";
   __msg "loop header at {{[0-9]+}}, can't compute iterations count"].
Definition pre_slt_false : test :=
  {| tags := pre_slt_false_tags;
     body := ["r6 = 1 ll;"; "r7 = 1 ll;"; "r9 = 0;"; "1:"; "r8 = 2 ll;"; "if r6 s>= r7 goto 2f;";
              "r6 += r8;"; "goto 1b;"; "2:"; "r0 = 0;"; "exit;"] |}.

Definition pre_sle_false_tags : list tag :=
  [__success; __log_level "2"; __flag "BPF_F_TEST_STATE_FREQ";
   __msg "loop header at {{[0-9]+}}, can't compute iterations count"].
Definition pre_sle_false : test :=
  {| tags := pre_sle_false_tags;
     body := ["r6 = 2 ll;"; "r7 = 1 ll;"; "r9 = 0;"; "1:"; "r8 = 2 ll;"; "if r6 s> r7 goto 2f;";
              "r6 += r8;"; "goto 1b;"; "2:"; "r0 = 0;"; "exit;"] |}.

Definition pre_sgt_false_tags : list tag :=
  [__success; __log_level "2"; __flag "BPF_F_TEST_STATE_FREQ";
   __msg "loop header at {{[0-9]+}}, can't compute iterations count"].
Definition pre_sgt_false : test :=
  {| tags := pre_sgt_false_tags;
     body := ["r6 = -1 ll;"; "r7 = -1 ll;"; "r9 = 0;"; "1:"; "r8 = -2 ll;";
              "if r6 s<= r7 goto 2f;"; "r6 += r8;"; "goto 1b;"; "2:"; "r0 = 0;"; "exit;"] |}.

Definition pre_sge_false_tags : list tag :=
  [__success; __log_level "2"; __flag "BPF_F_TEST_STATE_FREQ";
   __msg "loop header at {{[0-9]+}}, can't compute iterations count"].
Definition pre_sge_false : test :=
  {| tags := pre_sge_false_tags;
     body := ["r6 = -2 ll;"; "r7 = -1 ll;"; "r9 = 0;"; "1:"; "r8 = -2 ll;";
              "if r6 s< r7 goto 2f;"; "r6 += r8;"; "goto 1b;"; "2:"; "r0 = 0;"; "exit;"] |}.

Definition pre_ne_false_tags : list tag :=
  [__success; __log_level "2"; __flag "BPF_F_TEST_STATE_FREQ";
   __msg "loop header at {{[0-9]+}}, can't compute iterations count"].
Definition pre_ne_false : test :=
  {| tags := pre_ne_false_tags;
     body := ["r6 = 7 ll;"; "r7 = 7 ll;"; "r9 = 0;"; "1:"; "r8 = 2 ll;"; "if r6 == r7 goto 2f;";
              "r6 += r8;"; "goto 1b;"; "2:"; "r0 = 0;"; "exit;"] |}.

Definition pre_lt_dir_tags : list tag :=
  [__success; __log_level "2"; __flag "BPF_F_TEST_STATE_FREQ";
   __msg "loop header at {{[0-9]+}}, can't compute iterations count"].
Definition pre_lt_dir : test :=
  {| tags := pre_lt_dir_tags;
     body := ["r6 = 5 ll;"; "r7 = 7 ll;"; "r9 = 0;"; "1:"; "r8 = -2 ll;"; "r9 += 1;";
              "if r9 & 8 goto 2f;"; "if r6 >= r7 goto 2f;"; "r6 += r8;"; "goto 1b;"; "2:";
              "r0 = 0;"; "exit;"] |}.

Definition pre_le_dir_tags : list tag :=
  [__success; __log_level "2"; __flag "BPF_F_TEST_STATE_FREQ";
   __msg "loop header at {{[0-9]+}}, can't compute iterations count"].
Definition pre_le_dir : test :=
  {| tags := pre_le_dir_tags;
     body := ["r6 = 5 ll;"; "r7 = 7 ll;"; "r9 = 0;"; "1:"; "r8 = -2 ll;"; "r9 += 1;";
              "if r9 & 8 goto 2f;"; "if r6 > r7 goto 2f;"; "r6 += r8;"; "goto 1b;"; "2:";
              "r0 = 0;"; "exit;"] |}.

Definition pre_gt_dir_tags : list tag :=
  [__success; __log_level "2"; __flag "BPF_F_TEST_STATE_FREQ";
   __msg "loop header at {{[0-9]+}}, can't compute iterations count"].
Definition pre_gt_dir : test :=
  {| tags := pre_gt_dir_tags;
     body := ["r6 = 5 ll;"; "r7 = 3 ll;"; "r9 = 0;"; "1:"; "r8 = 2 ll;"; "r9 += 1;";
              "if r9 & 8 goto 2f;"; "if r6 <= r7 goto 2f;"; "r6 += r8;"; "goto 1b;"; "2:";
              "r0 = 0;"; "exit;"] |}.

Definition pre_ge_dir_tags : list tag :=
  [__success; __log_level "2"; __flag "BPF_F_TEST_STATE_FREQ";
   __msg "loop header at {{[0-9]+}}, can't compute iterations count"].
Definition pre_ge_dir : test :=
  {| tags := pre_ge_dir_tags;
     body := ["r6 = 5 ll;"; "r7 = 3 ll;"; "r9 = 0;"; "1:"; "r8 = 2 ll;"; "r9 += 1;";
              "if r9 & 8 goto 2f;"; "if r6 < r7 goto 2f;"; "r6 += r8;"; "goto 1b;"; "2:";
              "r0 = 0;"; "exit;"] |}.

Definition pre_slt_dir_tags : list tag :=
  [__success; __log_level "2"; __flag "BPF_F_TEST_STATE_FREQ";
   __msg "loop header at {{[0-9]+}}, can't compute iterations count"].
Definition pre_slt_dir : test :=
  {| tags := pre_slt_dir_tags;
     body := ["r6 = -1 ll;"; "r7 = 1 ll;"; "r9 = 0;"; "1:"; "r8 = -2 ll;"; "r9 += 1;";
              "if r9 & 8 goto 2f;"; "if r6 s>= r7 goto 2f;"; "r6 += r8;"; "goto 1b;"; "2:";
              "r0 = 0;"; "exit;"] |}.

Definition pre_sle_dir_tags : list tag :=
  [__success; __log_level "2"; __flag "BPF_F_TEST_STATE_FREQ";
   __msg "loop header at {{[0-9]+}}, can't compute iterations count"].
Definition pre_sle_dir : test :=
  {| tags := pre_sle_dir_tags;
     body := ["r6 = -1 ll;"; "r7 = 1 ll;"; "r9 = 0;"; "1:"; "r8 = -2 ll;"; "r9 += 1;";
              "if r9 & 8 goto 2f;"; "if r6 s> r7 goto 2f;"; "r6 += r8;"; "goto 1b;"; "2:";
              "r0 = 0;"; "exit;"] |}.

Definition pre_sgt_dir_tags : list tag :=
  [__success; __log_level "2"; __flag "BPF_F_TEST_STATE_FREQ";
   __msg "loop header at {{[0-9]+}}, can't compute iterations count"].
Definition pre_sgt_dir : test :=
  {| tags := pre_sgt_dir_tags;
     body := ["r6 = 1 ll;"; "r7 = -1 ll;"; "r9 = 0;"; "1:"; "r8 = 2 ll;"; "r9 += 1;";
              "if r9 & 8 goto 2f;"; "if r6 s<= r7 goto 2f;"; "r6 += r8;"; "goto 1b;"; "2:";
              "r0 = 0;"; "exit;"] |}.

Definition pre_sge_dir_tags : list tag :=
  [__success; __log_level "2"; __flag "BPF_F_TEST_STATE_FREQ";
   __msg "loop header at {{[0-9]+}}, can't compute iterations count"].
Definition pre_sge_dir : test :=
  {| tags := pre_sge_dir_tags;
     body := ["r6 = 1 ll;"; "r7 = -1 ll;"; "r9 = 0;"; "1:"; "r8 = 2 ll;"; "r9 += 1;";
              "if r9 & 8 goto 2f;"; "if r6 s< r7 goto 2f;"; "r6 += r8;"; "goto 1b;"; "2:";
              "r0 = 0;"; "exit;"] |}.

Definition pre_lt_wrap_tags : list tag :=
  [__success; __log_level "2"; __flag "BPF_F_TEST_STATE_FREQ";
   __msg "loop header at {{[0-9]+}}, can't compute iterations count"].
Definition pre_lt_wrap : test :=
  {| tags := pre_lt_wrap_tags;
     body := ["r6 = -2 ll;"; "r7 = -1 ll;"; "r9 = 0;"; "1:"; "r8 = 2 ll;"; "r9 += 1;";
              "if r9 & 8 goto 2f;"; "if r6 >= r7 goto 2f;"; "r6 += r8;"; "goto 1b;"; "2:";
              "r0 = 0;"; "exit;"] |}.

Definition pre_le_wrap_tags : list tag :=
  [__success; __log_level "2"; __flag "BPF_F_TEST_STATE_FREQ";
   __msg "loop header at {{[0-9]+}}, can't compute iterations count"].
Definition pre_le_wrap : test :=
  {| tags := pre_le_wrap_tags;
     body := ["r6 = -1 ll;"; "r7 = -1 ll;"; "r9 = 0;"; "1:"; "r8 = 1 ll;"; "r9 += 1;";
              "if r9 & 8 goto 2f;"; "if r6 > r7 goto 2f;"; "r6 += r8;"; "goto 1b;"; "2:";
              "r0 = 0;"; "exit;"] |}.

Definition pre_gt_wrap_tags : list tag :=
  [__success; __log_level "2"; __flag "BPF_F_TEST_STATE_FREQ";
   __msg "loop header at {{[0-9]+}}, can't compute iterations count"].
Definition pre_gt_wrap : test :=
  {| tags := pre_gt_wrap_tags;
     body := ["r6 = 1 ll;"; "r7 = 0 ll;"; "r9 = 0;"; "1:"; "r8 = -2 ll;"; "r9 += 1;";
              "if r9 & 8 goto 2f;"; "if r6 <= r7 goto 2f;"; "r6 += r8;"; "goto 1b;"; "2:";
              "r0 = 0;"; "exit;"] |}.

Definition pre_ge_wrap_tags : list tag :=
  [__success; __log_level "2"; __flag "BPF_F_TEST_STATE_FREQ";
   __msg "loop header at {{[0-9]+}}, can't compute iterations count"].
Definition pre_ge_wrap : test :=
  {| tags := pre_ge_wrap_tags;
     body := ["r6 = 0 ll;"; "r7 = 0 ll;"; "r9 = 0;"; "1:"; "r8 = -1 ll;"; "r9 += 1;";
              "if r9 & 8 goto 2f;"; "if r6 < r7 goto 2f;"; "r6 += r8;"; "goto 1b;"; "2:";
              "r0 = 0;"; "exit;"] |}.

Definition pre_slt_wrap_tags : list tag :=
  [__success; __log_level "2"; __flag "BPF_F_TEST_STATE_FREQ";
   __msg "loop header at {{[0-9]+}}, can't compute iterations count"].
Definition pre_slt_wrap : test :=
  {| tags := pre_slt_wrap_tags;
     body := ["r6 = 9223372036854775806 ll;"; "r7 = 9223372036854775807 ll;"; "r9 = 0;"; "1:";
              "r8 = 2 ll;"; "r9 += 1;"; "if r9 & 8 goto 2f;"; "if r6 s>= r7 goto 2f;";
              "r6 += r8;"; "goto 1b;"; "2:"; "r0 = 0;"; "exit;"] |}.

Definition pre_sle_wrap_tags : list tag :=
  [__success; __log_level "2"; __flag "BPF_F_TEST_STATE_FREQ";
   __msg "loop header at {{[0-9]+}}, can't compute iterations count"].
Definition pre_sle_wrap : test :=
  {| tags := pre_sle_wrap_tags;
     body := ["r6 = 9223372036854775807 ll;"; "r7 = 9223372036854775807 ll;"; "r9 = 0;"; "1:";
              "r8 = 1 ll;"; "r9 += 1;"; "if r9 & 8 goto 2f;"; "if r6 s> r7 goto 2f;"; "r6 += r8;";
              "goto 1b;"; "2:"; "r0 = 0;"; "exit;"] |}.

Definition pre_sgt_wrap_tags : list tag :=
  [__success; __log_level "2"; __flag "BPF_F_TEST_STATE_FREQ";
   __msg "loop header at {{[0-9]+}}, can't compute iterations count"].
Definition pre_sgt_wrap : test :=
  {| tags := pre_sgt_wrap_tags;
     body := ["r6 = -9223372036854775807 ll;"; "r7 = -9223372036854775808 ll;"; "r9 = 0;"; "1:";
              "r8 = -2 ll;"; "r9 += 1;"; "if r9 & 8 goto 2f;"; "if r6 s<= r7 goto 2f;";
              "r6 += r8;"; "goto 1b;"; "2:"; "r0 = 0;"; "exit;"] |}.

Definition pre_sge_wrap_tags : list tag :=
  [__success; __log_level "2"; __flag "BPF_F_TEST_STATE_FREQ";
   __msg "loop header at {{[0-9]+}}, can't compute iterations count"].
Definition pre_sge_wrap : test :=
  {| tags := pre_sge_wrap_tags;
     body := ["r6 = -9223372036854775808 ll;"; "r7 = -9223372036854775808 ll;"; "r9 = 0;"; "1:";
              "r8 = -1 ll;"; "r9 += 1;"; "if r9 & 8 goto 2f;"; "if r6 s< r7 goto 2f;";
              "r6 += r8;"; "goto 1b;"; "2:"; "r0 = 0;"; "exit;"] |}.

Definition pre_le_count_ovf_tags : list tag :=
  [__success; __log_level "2"; __flag "BPF_F_TEST_STATE_FREQ";
   __msg "loop header at {{[0-9]+}}, can't compute iterations count"].
Definition pre_le_count_ovf : test :=
  {| tags := pre_le_count_ovf_tags;
     body := ["r6 = 0 ll;"; "r7 = -1 ll;"; "r9 = 0;"; "1:"; "r8 = 1 ll;"; "r9 += 1;";
              "if r9 & 8 goto 2f;"; "if r6 > r7 goto 2f;"; "r6 += r8;"; "goto 1b;"; "2:";
              "r0 = 0;"; "exit;"] |}.

Definition pre_ge_count_ovf_tags : list tag :=
  [__success; __log_level "2"; __flag "BPF_F_TEST_STATE_FREQ";
   __msg "loop header at {{[0-9]+}}, can't compute iterations count"].
Definition pre_ge_count_ovf : test :=
  {| tags := pre_ge_count_ovf_tags;
     body := ["r6 = -1 ll;"; "r7 = 0 ll;"; "r9 = 0;"; "1:"; "r8 = -1 ll;"; "r9 += 1;";
              "if r9 & 8 goto 2f;"; "if r6 < r7 goto 2f;"; "r6 += r8;"; "goto 1b;"; "2:";
              "r0 = 0;"; "exit;"] |}.

Definition pre_sle_count_ovf_tags : list tag :=
  [__success; __log_level "2"; __flag "BPF_F_TEST_STATE_FREQ";
   __msg "loop header at {{[0-9]+}}, can't compute iterations count"].
Definition pre_sle_count_ovf : test :=
  {| tags := pre_sle_count_ovf_tags;
     body := ["r6 = -9223372036854775808 ll;"; "r7 = 9223372036854775807 ll;"; "r9 = 0;"; "1:";
              "r8 = 1 ll;"; "r9 += 1;"; "if r9 & 8 goto 2f;"; "if r6 s> r7 goto 2f;"; "r6 += r8;";
              "goto 1b;"; "2:"; "r0 = 0;"; "exit;"] |}.

Definition pre_sge_count_ovf_tags : list tag :=
  [__success; __log_level "2"; __flag "BPF_F_TEST_STATE_FREQ";
   __msg "loop header at {{[0-9]+}}, can't compute iterations count"].
Definition pre_sge_count_ovf : test :=
  {| tags := pre_sge_count_ovf_tags;
     body := ["r6 = 9223372036854775807 ll;"; "r7 = -9223372036854775808 ll;"; "r9 = 0;"; "1:";
              "r8 = -1 ll;"; "r9 += 1;"; "if r9 & 8 goto 2f;"; "if r6 s< r7 goto 2f;";
              "r6 += r8;"; "goto 1b;"; "2:"; "r0 = 0;"; "exit;"] |}.

Definition pre_ne_rem_tags : list tag :=
  [__success; __log_level "2"; __flag "BPF_F_TEST_STATE_FREQ";
   __msg "loop header at {{[0-9]+}}, can't compute iterations count"].
Definition pre_ne_rem : test :=
  {| tags := pre_ne_rem_tags;
     body := ["r6 = 1 ll;"; "r7 = 8 ll;"; "r9 = 0;"; "1:"; "r8 = 2 ll;"; "r9 += 1;";
              "if r9 & 8 goto 2f;"; "if r6 == r7 goto 2f;"; "r6 += r8;"; "goto 1b;"; "2:";
              "r0 = 0;"; "exit;"] |}.

Definition pre_ne_rem_down_tags : list tag :=
  [__success; __log_level "2"; __flag "BPF_F_TEST_STATE_FREQ";
   __msg "loop header at {{[0-9]+}}, can't compute iterations count"].
Definition pre_ne_rem_down : test :=
  {| tags := pre_ne_rem_down_tags;
     body := ["r6 = 9 ll;"; "r7 = 2 ll;"; "r9 = 0;"; "1:"; "r8 = -2 ll;"; "r9 += 1;";
              "if r9 & 8 goto 2f;"; "if r6 == r7 goto 2f;"; "r6 += r8;"; "goto 1b;"; "2:";
              "r0 = 0;"; "exit;"] |}.

Definition pre_ne_wrap_up_tags : list tag :=
  [__success; __log_level "2"; __flag "BPF_F_TEST_STATE_FREQ";
   __msg "loop header at {{[0-9]+}}, header_count is 2 "].
Definition pre_ne_wrap_up : test :=
  {| tags := pre_ne_wrap_up_tags;
     body := ["r6 = -2 ll;"; "r7 = 0 ll;"; "r9 = 0;"; "1:"; "r8 = 2 ll;"; "if r6 == r7 goto 2f;";
              "r6 += r8;"; "goto 1b;"; "2:"; "r0 = 0;"; "exit;"] |}.

Definition pre_ne_wrap_down_tags : list tag :=
  [__success; __log_level "2"; __flag "BPF_F_TEST_STATE_FREQ";
   __msg "loop header at {{[0-9]+}}, header_count is 2 "].
Definition pre_ne_wrap_down : test :=
  {| tags := pre_ne_wrap_down_tags;
     body := ["r6 = 1 ll;"; "r7 = -1 ll;"; "r9 = 0;"; "1:"; "r8 = -2 ll;"; "if r6 == r7 goto 2f;";
              "r6 += r8;"; "goto 1b;"; "2:"; "r0 = 0;"; "exit;"] |}.

Definition pre_lt_max_hdrs_tags : list tag :=
  [__success; __log_level "2"; __flag "BPF_F_TEST_STATE_FREQ";
   __msg "loop header at {{[0-9]+}}, header_count is [0..4294967294] "].
Definition pre_lt_max_hdrs : test :=
  {| tags := pre_lt_max_hdrs_tags;
     body := ["r6 = 0 ll;"; "r7 = 4294967293 ll;"; "r9 = 0;"; "1:"; "r8 = 1 ll;"; "r9 += 1;";
              "if r9 & 8 goto 2f;"; "if r6 >= r7 goto 2f;"; "r6 += r8;"; "goto 1b;"; "2:";
              "r0 = 0;"; "exit;"] |}.

Definition pre_lt_sentinel_tags : list tag :=
  [__success; __log_level "2"; __flag "BPF_F_TEST_STATE_FREQ";
   __msg "loop header at {{[0-9]+}}, can't compute iterations count"].
Definition pre_lt_sentinel : test :=
  {| tags := pre_lt_sentinel_tags;
     body := ["r6 = 0 ll;"; "r7 = 4294967294 ll;"; "r9 = 0;"; "1:"; "r8 = 1 ll;"; "r9 += 1;";
              "if r9 & 8 goto 2f;"; "if r6 >= r7 goto 2f;"; "r6 += r8;"; "goto 1b;"; "2:";
              "r0 = 0;"; "exit;"] |}.

Definition pre_lt_hdr_ovf_tags : list tag :=
  [__success; __log_level "2"; __flag "BPF_F_TEST_STATE_FREQ";
   __msg "loop header at {{[0-9]+}}, can't compute iterations count"].
Definition pre_lt_hdr_ovf : test :=
  {| tags := pre_lt_hdr_ovf_tags;
     body := ["r6 = 0 ll;"; "r7 = 4294967295 ll;"; "r9 = 0;"; "1:"; "r8 = 1 ll;"; "r9 += 1;";
              "if r9 & 8 goto 2f;"; "if r6 >= r7 goto 2f;"; "r6 += r8;"; "goto 1b;"; "2:";
              "r0 = 0;"; "exit;"] |}.

Definition pre_lt_step_max_tags : list tag :=
  [__success; __log_level "2"; __flag "BPF_F_TEST_STATE_FREQ";
   __msg "loop header at {{[0-9]+}}, header_count is 2 "].
Definition pre_lt_step_max : test :=
  {| tags := pre_lt_step_max_tags;
     body := ["r6 = 0 ll;"; "r7 = 9223372036854775807 ll;"; "r9 = 0;"; "1:";
              "r8 = 9223372036854775807 ll;"; "if r6 >= r7 goto 2f;"; "r6 += r8;"; "goto 1b;";
              "2:"; "r0 = 0;"; "exit;"] |}.

Definition pre_gt_step_min_tags : list tag :=
  [__success; __log_level "2"; __flag "BPF_F_TEST_STATE_FREQ";
   __msg "loop header at {{[0-9]+}}, header_count is 2 "].
Definition pre_gt_step_min : test :=
  {| tags := pre_gt_step_min_tags;
     body := ["r6 = -9223372036854775808 ll;"; "r7 = 0 ll;"; "r9 = 0;"; "1:";
              "r8 = -9223372036854775808 ll;"; "if r6 <= r7 goto 2f;"; "r6 += r8;"; "goto 1b;";
              "2:"; "r0 = 0;"; "exit;"] |}.

Definition pre_ne_step_min_tags : list tag :=
  [__success; __log_level "2"; __flag "BPF_F_TEST_STATE_FREQ";
   __msg "loop header at {{[0-9]+}}, header_count is 2 "].
Definition pre_ne_step_min : test :=
  {| tags := pre_ne_step_min_tags;
     body := ["r6 = 0 ll;"; "r7 = -9223372036854775808 ll;"; "r9 = 0;"; "1:";
              "r8 = -9223372036854775808 ll;"; "if r6 == r7 goto 2f;"; "r6 += r8;"; "goto 1b;";
              "2:"; "r0 = 0;"; "exit;"] |}.

Definition pre_lt_zero_step_tags : list tag :=
  [__success; __log_level "2"; __flag "BPF_F_TEST_STATE_FREQ";
   __msg "loop header at {{[0-9]+}}, can't compute iterations count"].
Definition pre_lt_zero_step : test :=
  {| tags := pre_lt_zero_step_tags;
     body := ["r6 = 1 ll;"; "r7 = 7 ll;"; "r9 = 0;"; "1:"; "r8 = 0 ll;"; "r9 += 1;";
              "if r9 & 8 goto 2f;"; "if r6 >= r7 goto 2f;"; "r6 += r8;"; "goto 1b;"; "2:";
              "r0 = 0;"; "exit;"] |}.

Definition post_cond_jlt_tags : list tag :=
  [__success; __log_level "2"; __flag "BPF_F_TEST_STATE_FREQ";
   __msg "loop header at 1, header_count is 10 ";
   __msg "loop header at 1, widening r0 to 0..9 step 1"; __msg "processed 5 insns"].
Definition post_cond_jlt : test :=
  {| tags := post_cond_jlt_tags;
     body := ["r0 = 0;"; "1:"; "r0 += 1;"; "if r0 < 10 goto 1b;"; "exit;"] |}.

Definition eval_expr_small_spill_bound_tags : list tag :=
  [__success; __log_level "2"; __msg "scev at header 3:";
   __msg_next "  r0=(+ r0 1) / (linear r0 1)";
   __msg "loop header at 3, can't compute iterations count"].
Definition eval_expr_small_spill_bound : test :=
  {| tags := eval_expr_small_spill_bound_tags;
     body := ["r0 = 256;"; "*(u8 *)(r10 - 8) = r0;"; "r0 = 0;"; "1:"; "r0 += 1;";
              "r1 = *(u64 *)(r10 - 8);"; "if r0 & 0x200 goto 2f;"; "if r0 < r1 goto 1b;"; "2:";
              "exit;"] |}.

Definition eval_expr_small_spill_bound_fits_tags : list tag :=
  [__success; __log_level "2"; __msg "scev at header 3:";
   __msg_next "  r0=(+ r0 1) / (linear r0 1)";
   __msg "loop header at 3, can't compute iterations count"].
Definition eval_expr_small_spill_bound_fits : test :=
  {| tags := eval_expr_small_spill_bound_fits_tags;
     body := ["r0 = 10;"; "*(u8 *)(r10 - 8) = r0;"; "r0 = 0;"; "1:"; "r0 += 1;";
              "r1 = *(u64 *)(r10 - 8);"; "if r0 & 0x80 goto 2f;"; "if r0 < r1 goto 1b;"; "2:";
              "exit;"] |}.

Definition widen_full_spill_counter_tags : list tag :=
  [__success; __log_level "2"; __msg "scev at header 2:";
   __msg_next "  *fp-8=(+ *fp-8 1) / (linear *fp-8 1)";
   __msg "loop header at 2, widening *fp-8 to 5..14 step 1"].
Definition widen_full_spill_counter : test :=
  {| tags := widen_full_spill_counter_tags;
     body := ["r0 = 5;"; "*(u64 *)(r10 - 8) = r0;"; "1:"; "r0 = *(u64 *)(r10 - 8);"; "r0 += 1;";
              "*(u64 *)(r10 - 8) = r0;"; "if r0 < 15 goto 1b;"; "exit;"] |}.

Definition widen_acquire_release_counter_tags : list tag :=
  [__success; __log_level "2"; __msg "scev at header 2:";
   __msg_next "  *fp-8=(+ *fp-8 1) / (linear *fp-8 1)";
   __msg "loop header at 2, widening *fp-8 to 5..14 step 1"].
Definition widen_acquire_release_counter : test :=
  {| tags := widen_acquire_release_counter_tags;
     body := ["r0 = 5;"; "*(u64 *)(r10 - 8) = r0;"; "1:"; ".8byte 1103806111963;"; "r0 += 1;";
              ".8byte 1172525550299;"; "if r0 < 15 goto 1b;"; "exit;"] |}.

Definition widen_any_unallocated_slot_tags : list tag :=
  [__success; __retval "7"; __log_level "2"; __msg "scev at header 1:";
   __msg_next "r6=(+ r6 1) / (linear r6 1)"; __msg_next "*fp-8=(any *fp-8 7) / (any *fp-8 7)";
   __msg "loop header at 1, widening r6 to 0..2 step 1";
   __msg "2: (7a) *(u64 *)(r10 -8) = 7          ; R10=fp0 fp-8=7 loop_stack=1"].
Definition widen_any_unallocated_slot : test :=
  {| tags := widen_any_unallocated_slot_tags;
     body := ["r6 = 0;"; "1:"; "if r6 != 1 goto 2f;"; "*(u64 *)(r10 - 8) = 7;"; "2:";
              "r0 = *(u64 *)(r10 - 8);"; "r6 += 1;"; "if r6 < 3 goto 1b;"; "exit;"] |}.

Definition widen_any_zero_spill_tags : list tag :=
  [__success; __retval "7"; __log_level "2";
   __msg "loop header at 2, widening *fp-8 to 0..7 step 1"].
Definition widen_any_zero_spill : test :=
  {| tags := widen_any_zero_spill_tags;
     body := ["*(u64 *)(r10 - 8) = 0;"; "r6 = 0;"; "1:"; "if r6 != 1 goto 2f;";
              "*(u64 *)(r10 - 8) = 7;"; "2:"; "r0 = *(u64 *)(r10 - 8);"; "r6 += 1;";
              "if r6 < 3 goto 1b;"; "exit;"] |}.

Definition widen_any_misc_slot_tags : list tag :=
  [__success; __retval "7"; __log_level "2"; __msg "scev at header 2:";
   __msg_next "r6=(+ r6 1) / (linear r6 1)"; __msg_next "*fp-8=(any *fp-8 7) / (any *fp-8 7)";
   __msg "loop header at 2, widening r6 to 0..2 step 1";
   __msg "3: (79) r1 = *(u64 *)(r10 -8)         ; R1=scalar() R10=fp0 fp-8=m???????"].
Definition widen_any_misc_slot : test :=
  {| tags := widen_any_misc_slot_tags;
     body := ["*(u8 *)(r10 - 1) = 1;"; "r6 = 0;"; "1:"; "if r6 != 1 goto 2f;";
              "r1 = *(u64 *)(r10 - 8);"; "*(u64 *)(r10 - 8) = 7;"; "2:";
              "r0 = *(u64 *)(r10 - 8);"; "r6 += 1;"; "if r6 < 3 goto 1b;"; "exit;"] |}.

Definition widen_overflowing_range_tags : list tag :=
  [__success; __log_level "2"; __msg "loop header at 4, header_count is 10";
   __msg "loop header at 4, widening r1 to 0..9 step 1";
   __msg "loop header at 4, widening r6 to 0x8000000000000000..0x7fffffffffffffff step 1";
   __flag "BPF_F_TEST_STATE_FREQ"].
Definition widen_overflowing_range : test :=
  {| tags := widen_overflowing_range_tags;
     body := ["call 7;"; "r6 = r0;"; "r6 |= 1;"; "r1 = 0;"; "1:"; "r6 += 24;"; "r1 += 1;";
              "if r1 < 10 goto 1b;"; "r0 = r6;"; "exit;"] |}.

Definition eval_expr_unallocated_stack_bound_tags : list tag :=
  [__success; __retval "0"; __log_level "2"; __msg "scev at header 1:";
   __msg_next "  r0=(+ r0 1) / (linear r0 1)";
   __msg "loop header at 1, can't compute iterations count"; __not_msg "widening"].
Definition eval_expr_unallocated_stack_bound : test :=
  {| tags := eval_expr_unallocated_stack_bound_tags;
     body := ["r0 = 0;"; "1:"; "r0 += 1;"; "r1 = *(u64 *)(r10 - 8);"; "if r0 & 0x80 goto 2f;";
              "if r0 < r1 goto 1b;"; "2:"; "r0 = 0;"; "exit;"] |}.

Definition post_cond_jlt_with_base_tags : list tag :=
  [__success; __log_level "2"; __flag "BPF_F_TEST_STATE_FREQ";
   __msg "loop header at 3, header_count is 8";
   __msg "loop header at 3, widening r0 to 2..9 step 1";
   __msg "3: R0=scalar(smin=umin=smin32=umin32=2,smax=umax=smax32=umax32=9,{{.*}})";
   __msg "processed 6 insns"].
Definition post_cond_jlt_with_base : test :=
  {| tags := post_cond_jlt_with_base_tags;
     body := ["r7 = 10 ll;"; "r0 = 2;"; "1:"; "r0 += 1;"; "if r0 < r7 goto 1b;"; "exit;"] |}.

Definition latch_base_differs_from_step_tags : list tag :=
  [__success; __log_level "2"; __flag "BPF_F_TEST_STATE_FREQ";
   __msg "loop header at 1, header_count is 4 "].
Definition latch_base_differs_from_step : test :=
  {| tags := latch_base_differs_from_step_tags;
     body := ["r0 = 0;"; "1:"; "r1 = r0;"; "r1 += 1;"; "if r1 >= 10 goto 2f;"; "r0 += 4;";
              "goto 1b;"; "2:"; "r0 = r1;"; "exit;"] |}.

Definition post_cond_jle_tags : list tag :=
  [__success; __log_level "2"; __flag "BPF_F_TEST_STATE_FREQ";
   __msg "loop header at 1, header_count is 11";
   __msg "loop header at 1, widening r0 to 0..10 step 1";
   __msg "1: R0=scalar(smin=smin32=0,smax=umax=smax32=umax32=10,{{.*}})"; __msg "processed 5 insns"].
Definition post_cond_jle : test :=
  {| tags := post_cond_jle_tags;
     body := ["r0 = 0;"; "1:"; "r0 += 1;"; "if r0 <= 10 goto 1b;"; "exit;"] |}.

Definition post_cond_jge_tags : list tag :=
  [__success; __log_level "2"; __flag "BPF_F_TEST_STATE_FREQ";
   __msg "loop header at 1, header_count is 10";
   __msg "loop header at 1, widening r0 to 0..9 step 1";
   __msg "1: R0=scalar(smin=smin32=0,smax=umax=smax32=umax32=9,{{.*}})"; __msg "processed 6 insns"].
Definition post_cond_jge : test :=
  {| tags := post_cond_jge_tags;
     body := ["r0 = 0;"; "1:"; "r0 += 1;"; "if r0 >= 10 goto 2f;"; "goto 1b;"; "2:"; "exit;"] |}.

Definition pre_cond_jge_tags : list tag :=
  [__success; __log_level "2"; __flag "BPF_F_TEST_STATE_FREQ";
   __msg "loop header at 1, header_count is 11";
   __msg "loop header at 1, widening r0 to 0..10 step 1";
   __msg "1: R0=scalar(smin=smin32=0,smax=umax=smax32=umax32=10,{{.*}})"; __msg "processed 6 insns"].
Definition pre_cond_jge : test :=
  {| tags := pre_cond_jge_tags;
     body := ["r0 = 0;"; "1:"; "if r0 >= 10 goto 2f;"; "r0 += 1;"; "goto 1b;"; "2:"; "exit;"] |}.

Definition post_cond_jne_tags : list tag :=
  [__success; __log_level "2"; __flag "BPF_F_TEST_STATE_FREQ"; __msg_next "scev at header 1:";
   __msg_next "  r0=(+ r0 1) / (linear r0 1)"; __msg_next " scev at latch 2:";
   __msg_next "  r0=(+ r0 1) / (linear (+ r0 1) 1)"; __msg "loop header at 1, widening r0";
   __msg "1: R0=scalar(smin=smin32=0,smax=umax=smax32=umax32=2,{{.*}})";
   __msg "1: (07) r0 += 1                       ; R0=scalar(smin=umin=smin32=umin32=1,smax=umax=smax32=umax32=3,{{.*}})";
   __msg "2: (55) if r0 != 0x3 goto pc-2"; __msg "3: (95) exit";
   __msg "loop header at 1, clamping r0"; __msg "from 2 to 1: safe"; __msg "processed 5 insns"].
Definition post_cond_jne : test :=
  {| tags := post_cond_jne_tags;
     body := ["r0 = 0;"; "1:"; "r0 += 1;"; "if r0 != 3 goto 1b;"; "exit;"] |}.

Definition post_cond_jne_neg_step_tags : list tag :=
  [__success; __log_level "2"; __flag "BPF_F_TEST_STATE_FREQ"; __msg_next "scev at header 1:";
   __msg_next "  r0=(+ r0 -1) / (linear r0 -1)"; __msg_next " scev at latch 2:";
   __msg_next "  r0=(+ r0 -1) / (linear (+ r0 -1) -1)";
   __msg "loop header at 1, header_count is 3 ";
   __msg "loop header at 1, widening r0 to 1..3 step 1";
   __msg "1: R0=scalar(smin=umin=smin32=umin32=1,smax=umax=smax32=umax32=3,var_off=(0x0; 0x3)) loop_stack=1";
   __msg "loop header at 1, clamping r0 to 1..2 step 1"; __msg "processed 5 insns"].
Definition post_cond_jne_neg_step : test :=
  {| tags := post_cond_jne_neg_step_tags;
     body := ["r0 = 3;"; "1:"; "r0 += -1;"; "if r0 != 0 goto 1b;"; "exit;"] |}.

Definition pre_cond_je1_tags : list tag :=
  [__success; __log_level "2"; __flag "BPF_F_TEST_STATE_FREQ"; __msg_next "scev at header 1:";
   __msg_next "  r0=(+ r0 1) / (linear r0 1)"; __msg_next " scev at latch 1:";
   __msg_next "  r0=(+ r0 1) / (linear r0 1)"; __msg "loop header at 1, widening r0";
   __msg "1: R0=scalar(smin=smin32=0,smax=umax=smax32=umax32=3,{{.*}})";
   __msg "1: (15) if r0 == 0x3 goto pc+2        ; R0=scalar(smin=smin32=0,smax=umax=smax32=umax32=2,{{.*}})";
   __msg "2: (07) r0 += 1                       ; R0=scalar(smin=umin=smin32=umin32=1,smax=umax=smax32=umax32=3,{{.*}})";
   __msg "3: (05) goto pc-3"; __msg "loop header at 1, clamping r0"; __msg "1: safe";
   __msg "from 1 to 4: R0=3"; __msg "4: R0=3"; __msg "4: (95) exit"; __msg "processed 6 insns"].
Definition pre_cond_je1 : test :=
  {| tags := pre_cond_je1_tags;
     body := ["r0 = 0;"; "1:"; "if r0 == 3 goto 2f;"; "r0 += 1;"; "goto 1b;"; "2:"; "exit;"] |}.

Definition one_backedge_two_exits_tags : list tag :=
  [__success; __log_level "2"; __flag "BPF_F_TEST_STATE_FREQ";
   __msg "loop header at 1, header_count is [0..3] "].
Definition one_backedge_two_exits : test :=
  {| tags := one_backedge_two_exits_tags;
     body := ["r6 = 0;"; "1:"; "call 7;"; "if r0 == 0 goto 2f;"; "r6 += 1;";
              "if r6 != 3 goto 1b;"; "2:"; "r0 = r6;"; "exit;"] |}.

Definition exit_loop_into_loop_header_tags : list tag :=
  [__success; __log_level "2"].
Definition exit_loop_into_loop_header : test :=
  {| tags := exit_loop_into_loop_header_tags;
     body := ["r1 = 0;"; "r2 = 0;"; "loop_a_4:"; "r1 += 1;"; "if r1 < 10 goto loop_a_4;";
              "loop_b_4:"; "r2 += 1;"; "if r2 < 10 goto loop_b_4;"; "r0 = 0;"; "exit;"] |}.

Definition nested_irreducible_loop_tags : list tag :=
  [__success; __log_level "2"; __msg "loop at 1{{$}}";
   __msg "loop at 5, nested in 1, irreducible"; __msg "loop at 11, nested in 5";
   __msg "scev at header 1:"; __msg_next "  r6=?"; __msg "scev at header 11:";
   __msg_next "  r9=(+ r9 1) / (linear r9 1)";
   __msg "loop header at 11, widening r9 to 0..2 step 1"; __not_msg "loop header at 1, widening r6"].
Definition nested_irreducible_loop : test :=
  {| tags := nested_irreducible_loop_tags;
     body := ["r6 = 0;"; "a_6:"; "r6 += 1;"; "call 7;"; "r7 = 0;"; "if r0 > 5 goto alternate_6;";
              "b_6:"; "r8 = r6;"; "goto body_6;"; "alternate_6:"; "r8 = r6;"; "r8 += 1;";
              "body_6:"; "r6 = r8;"; "r9 = 0;"; "c_6:"; "r9 += 1;"; "if r9 < 3 goto c_6;";
              "r7 += 1;"; "if r7 < 4 goto b_6;"; "if r6 < 4 goto a_6;"; "r0 = 0;"; "exit;"] |}.

Definition nested_irreducible_loop2_tags : list tag :=
  [__success; __log_level "2"].
Definition nested_irreducible_loop2 : test :=
  {| tags := nested_irreducible_loop2_tags;
     body := ["r6 = 0;"; "a_7:"; "r6 += 1;"; "call 7;"; "r7 = 0;"; "if r0 > 5 goto alternate_7;";
              "b_7:"; "r7 += 1;"; "alternate_7:"; "call 7;"; "if r0 == 42 goto exit_7;";
              "r7 += 1;"; "if r7 < 4 goto b_7;"; "if r6 < 4 goto a_7;"; "r0 = 0;"; "exit_7:";
              "exit;"] |}.

Definition widen_nonconst_base_tags : list tag :=
  [__success; __log_level "2"; __flag "BPF_F_TEST_STATE_FREQ";
   __msg "loop header at 4, widening r7 to 0..18 step 2";
   __msg "R7=scalar(smin=smin32=0,smax=umax=smax32=umax32=18,var_off=(0x0; 0x1e),step=0+2)"].
Definition widen_nonconst_base : test :=
  {| tags := widen_nonconst_base_tags;
     body := ["call 7;"; "r7 = r0;"; "r7 &= 0x6;"; "r6 = 0;"; "1:"; "r7 += 6;"; "r6 += 1;";
              "if r6 < 3 goto 1b;"; "r0 = 0;"; "exit;"] |}.

Definition widen_nonconst_base_refined_tags : list tag :=
  [__success; __log_level "2"; __flag "BPF_F_TEST_STATE_FREQ";
   __msg "loop header at 5, header_count is 3 ";
   __msg "5: R7=scalar({{.*}}smax=umax=smax32=umax32=20,{{.*}}step=0+4)"].
Definition widen_nonconst_base_refined : test :=
  {| tags := widen_nonconst_base_refined_tags;
     body := ["call 7;"; "r7 = r0;"; "r7 &= 0xc;"; "if r7 < 1 goto 2f;"; "r8 = 0;"; "1:";
              "r7 += 4;"; "r8 += 1;"; "if r8 < 3 goto 1b;"; "2:"; "r0 = 0;"; "exit;"] |}.

Definition sibling_inner_loops_tags : list tag :=
  [__success; __log_level "2"; __msg "loop header at 1, widening r6 to 0..3 step 1";
   __msg "loop header at 2, widening r7 to 0..2 step 1"; __msg "exiting loop 2";
   __msg "entering loop 4"; __msg "loop header at 4, widening r7 to 1..3 step 1"].
Definition sibling_inner_loops : test :=
  {| tags := sibling_inner_loops_tags;
     body := ["r6 = 0;"; "1:"; "r7 = 0;"; "2:"; "r7 += 1;"; "if r7 < 3 goto 2b;"; "3:";
              "r7 += -1;"; "if r7 != 0 goto 3b;"; "r6 += 1;"; "if r6 < 4 goto 1b;"; "r0 = 0;";
              "exit;"] |}.

Definition no_widen_changing_latch_bound_tags : list tag :=
  [__success; __log_level "2"; __msg "scev at header 2:";
   __msg_next "  r6=(+ r6 1) / (linear r6 1)"; __msg_next "  r7=(any r7 100) / (any r7 100)";
   __msg_next " scev at latch 3:"; __msg_next "  r6=(+ r6 1) / (linear (+ r6 1) 1)";
   __msg_next "  r7=r7 / (any r7 100)"].
Definition no_widen_changing_latch_bound : test :=
  {| tags := no_widen_changing_latch_bound_tags;
     body := ["r6 = 0;"; "r7 = 3;"; "loop_8:"; "r6 += 1;"; "if r6 >= r7 goto exit_8;";
              "if r6 != 1 goto next_8;"; "r7 = 100;"; "next_8:"; "goto loop_8;"; "exit_8:";
              "r0 = 0;"; "exit;"] |}.

Definition conditional_stack_pointer_assignment_tags : list tag :=
  [__success; __retval "0"; __log_level "2";
   __msg "loop header at 7, widening r7 to -16..-8 step 1";
   __msg "7: {{.*}}R7=fp(smin=smin32=-16,smax=smax32=-8,";
   __msg "12: R7=fp(smin=smin32=-16,smax=smax32=-8,"].
Definition conditional_stack_pointer_assignment : test :=
  {| tags := conditional_stack_pointer_assignment_tags;
     body := ["*(u64 *)(r10 - 16) = 0;"; "*(u64 *)(r10 - 8) = 0;"; "r7 = r10;"; "r7 += -16;";
              "r8 = r10;"; "r8 += -8;"; "r6 = 0;"; "1:"; "if r6 >= 3 goto 3f;";
              "if r6 != 1 goto 2f;"; "r7 = r8;"; "2:"; "r6 += 1;"; "goto 1b;"; "3:";
              "r0 = *(u64 *)(r7 + 0);"; "exit;"] |}.

Definition conditional_scalar_assignment_gcd_tags : list tag :=
  [__success; __retval "1"; __log_level "2"; __msg "r7 += 1 {{.*}}step=1+6)";
   __msg "r8 += 1 {{.*}}step=1+9)"; __msg "loop header at 9, widening r7 to 1..28 step 3";
   __msg "9: {{.*}}R7=scalar({{.*}},step=1+3)"; __msg "14: R7=scalar({{.*}},step=1+3)"].
Definition conditional_scalar_assignment_gcd : test :=
  {| tags := conditional_scalar_assignment_gcd_tags;
     body := ["call 7;"; "r0 &= 3;"; "r7 = r0;"; "r7 *= 6;"; "r7 += 1;"; "r8 = r0;"; "r8 *= 9;";
              "r8 += 1;"; "r6 = 0;"; "1:"; "if r6 >= 3 goto 3f;"; "if r6 != 1 goto 2f;";
              "r7 = r8;"; "2:"; "r6 += 1;"; "goto 1b;"; "3:"; "r0 = r7;"; "r0 %= 3;"; "exit;"] |}.

Definition no_widen_stack_spill_tags : list tag :=
  [__success; __log_level "2"; __flag "BPF_F_TEST_STATE_FREQ";
   __msg "loop header at 2, can't widen r2, expr is (+ r2 8), requires exact stack-offset tracking"].
Definition no_widen_stack_spill : test :=
  {| tags := no_widen_stack_spill_tags;
     body := ["r0 = 0;"; "r2 = 0;"; "1:"; "r3 = r10;"; "r3 += -64;"; "r3 += r2;";
              "*(u64 *)(r3 + 0) = r0;"; "r0 += 1;"; "r2 += 8;"; "if r0 < 4 goto 1b;"; "r0 = 0;";
              "exit;"] |}.

Definition no_widen_stack_spill_nested_tags : list tag :=
  [__success; __log_level "2"; __flag "BPF_F_TEST_STATE_FREQ";
   __msg "loop header at 2, can't widen r2, expr is (+ r2 8), requires exact stack-offset tracking";
   __msg "loop header at 3, widening r1 to 0..1 step 1"].
Definition no_widen_stack_spill_nested : test :=
  {| tags := no_widen_stack_spill_nested_tags;
     body := ["r0 = 0;"; "r2 = 0;"; "1:"; "r1 = 0;"; "2:"; "r3 = r10;"; "r3 += -64;"; "r3 += r2;";
              "*(u64 *)(r3 + 0) = r1;"; "r1 += 1;"; "if r1 < 2 goto 2b;"; "r0 += 1;"; "r2 += 8;";
              "if r0 < 4 goto 1b;"; "r0 = 0;"; "exit;"] |}.

Definition nested_loop_exit_preserves_reg_tags : list tag :=
  [__success; __retval "3"; __log_level "2"; __flag "BPF_F_TEST_STATE_FREQ";
   __msg "r6 = *(u64 *)(r10 -8) {{.*}}; r6 ? -> r6"; __msg "scev at header 1:";
   __msg_next "  r6=(+ r6 1) / (linear r6 1)"; __msg_next " scev at latch 16:";
   __msg_next "  r6=(+ r6 1) / (linear (+ r6 1) 1)"; __msg "scev at header 2:";
   __msg_next "  r7=(+ r7 1) / (linear r7 1)"; __msg "scev at header 4:";
   __msg_next "  r9=(+ r9 1) / (linear r9 1)"; __msg " scev at latch 9:";
   __msg_next "  r8=r6 / r6"; __msg_next "  r9=(+ r9 1) / (linear (+ r9 1) 1)"].
Definition nested_loop_exit_preserves_reg : test :=
  {| tags := nested_loop_exit_preserves_reg_tags;
     body := ["r6 = 0;"; "1:"; "r7 = 0;"; "2:"; "*(u64 *)(r10 - 8) = r6;"; "r9 = 0;"; "3:";
              "r8 = r6;"; "call 7;"; "if r0 & 1 goto 5f;"; "r6 = -1000;"; "r9 += 1;";
              "if r9 >= 2 goto 4f;"; "r6 = r8;"; "goto 3b;"; "4:"; "r6 = *(u64 *)(r10 - 8);";
              "r7 += 1;"; "if r7 < 2 goto 2b;"; "5:"; "r6 += 1;"; "if r6 < 3 goto 1b;";
              "r0 = r6;"; "exit;"] |}.

Definition widen_byte_stack_store_tags : list tag :=
  [__success; __log_level "2"; __flag "BPF_F_TEST_STATE_FREQ"; __msg "widening r2 to 0..24 step 8"].
Definition widen_byte_stack_store : test :=
  {| tags := widen_byte_stack_store_tags;
     body := ["r0 = 0;"; "r2 = 0;"; "1:"; "r3 = r10;"; "r3 += -64;"; "r3 += r2;";
              "*(u8 *)(r3 + 0) = r0;"; "r0 += 1;"; "r2 += 8;"; "if r0 < 4 goto 1b;"; "r0 = 0;";
              "exit;"] |}.

Definition no_widen_stack_fill_tags : list tag :=
  [__success; __log_level "2"; __flag "BPF_F_TEST_STATE_FREQ";
   __msg "loop header at 6, can't widen r2, expr is (+ r2 8), requires exact stack-offset tracking"].
Definition no_widen_stack_fill : test :=
  {| tags := no_widen_stack_fill_tags;
     body := ["r0 = 0;"; "*(u64 *)(r10 - 64) = r0;"; "*(u64 *)(r10 - 56) = r0;";
              "*(u64 *)(r10 - 48) = r0;"; "*(u64 *)(r10 - 40) = r0;"; "r2 = 0;"; "1:";
              "r3 = r10;"; "r3 += -64;"; "r3 += r2;"; "r4 = *(u64 *)(r3 + 0);"; "r0 += 1;";
              "r2 += 8;"; "if r0 < 4 goto 1b;"; "r0 = 0;"; "exit;"] |}.

Definition ptr_stack_tags : list tag :=
  [__success; __log_level "2"; __flag "BPF_F_TEST_STATE_FREQ"; __msg "header_count is 4 ";
   __msg "widening r6 to -16..-13 step 1"].
Definition ptr_stack : test :=
  {| tags := ptr_stack_tags;
     body := ["r6 = r10;"; "r6 += -16;"; "r7 = r6;"; "r7 += 4;"; "1:"; "r6 += 1;";
              "if r6 < r7 goto 1b;"; "r0 = 0;"; "exit;"] |}.

Definition nested_loop_backedge_to_outer_header_tags : list tag :=
  [__success; __log_level "2"; __flag "BPF_F_TEST_STATE_FREQ"; __msg "loop at 1{{$}}";
   __msg "loop at 4, nested in 1"; __msg "entering loop 1"; __msg "entering loop 4";
   __msg "exiting loop 4"; __not_msg "entering loop 1"; __msg "from 4 to 1:";
   __msg "loop_stack=1{{$}}"].
Definition nested_loop_backedge_to_outer_header : test :=
  {| tags := nested_loop_backedge_to_outer_header_tags;
     body := ["r6 = 0;"; "outer_13:"; "if r6 == 3 goto exit_13;"; "r6 += 1;"; "r7 = 0;";
              "inner_13:"; "if r7 == 2 goto outer_13;"; "r7 += 1;"; "goto inner_13;"; "exit_13:";
              "r0 = 0;"; "exit;"] |}.

Definition post_cond_ivar_src_tags : list tag :=
  [__success; __log_level "2"; __msg "loop header at 2, header_count is 10";
   __msg "loop header at 2, widening r1 to 0..9 step 1"; __flag "BPF_F_TEST_STATE_FREQ"].
Definition post_cond_ivar_src : test :=
  {| tags := post_cond_ivar_src_tags;
     body := ["r1 = 0;"; "r2 = 10;"; "1:"; "r1 += 1;"; "if r2 != r1 goto 1b;"; "r0 = 0;"; "exit;"] |}.

Definition dominating_exit_bounds_count_tags : list tag :=
  [__success; __log_level "2"; __msg "  backedge from 4, latch at 4, dominating exits at 2";
   __msg "loop header at 2, header_count is [0..15]";
   __msg "loop header at 2, widening r1 to 0..14 step 1"; __flag "BPF_F_TEST_STATE_FREQ"].
Definition dominating_exit_bounds_count : test :=
  {| tags := dominating_exit_bounds_count_tags;
     body := ["r1 = 0;"; "r2 = 14;"; "1:"; "if r2 == r1 goto 2f;"; "r1 += 1;";
              "if r1 != 63 goto 1b;"; "2:"; "r0 = 0;"; "exit;"] |}.

Definition modelled : list test :=
  [simple_loop1; indirect_write_invalidates_scev; simple_loop2; meet_agrees; entry_state_join;
   alu_ops_exprs; store_load_exprs; nested_loop1; nested_loop_hdr_backedge1;
   nested_loop_hdr_backedge2; nested_loops_shared_header;
   nested_loops_outer_latch_true_branch_to_inner; pre_lt; post_lt; pre_le; post_le; pre_gt;
   post_gt; pre_ge; post_ge; pre_slt; post_slt; pre_sle; post_sle; pre_sgt; post_sgt; pre_sge;
   post_sge; pre_ne; post_ne; pre_ne_down; post_ne_down; pre_lt_round; pre_le_round; pre_gt_round;
   pre_ge_round; pre_slt_round; pre_sle_round; pre_sgt_round; pre_sge_round; pre_le_eq; pre_ge_eq;
   pre_sle_eq; pre_sge_eq; pre_lt_sign; pre_gt_sign; pre_lt_false; pre_le_false; pre_gt_false;
   pre_ge_false; pre_slt_false; pre_sle_false; pre_sgt_false; pre_sge_false; pre_ne_false;
   pre_lt_dir; pre_le_dir; pre_gt_dir; pre_ge_dir; pre_slt_dir; pre_sle_dir; pre_sgt_dir;
   pre_sge_dir; pre_lt_wrap; pre_le_wrap; pre_gt_wrap; pre_ge_wrap; pre_slt_wrap; pre_sle_wrap;
   pre_sgt_wrap; pre_sge_wrap; pre_le_count_ovf; pre_ge_count_ovf; pre_sle_count_ovf;
   pre_sge_count_ovf; pre_ne_rem; pre_ne_rem_down; pre_ne_wrap_up; pre_ne_wrap_down;
   pre_lt_max_hdrs; pre_lt_sentinel; pre_lt_hdr_ovf; pre_lt_step_max; pre_gt_step_min;
   pre_ne_step_min; pre_lt_zero_step; post_cond_jlt; eval_expr_small_spill_bound;
   eval_expr_small_spill_bound_fits; widen_full_spill_counter; widen_acquire_release_counter;
   widen_any_unallocated_slot; widen_any_zero_spill; widen_any_misc_slot; widen_overflowing_range;
   eval_expr_unallocated_stack_bound; post_cond_jlt_with_base; latch_base_differs_from_step;
   post_cond_jle; post_cond_jge; pre_cond_jge; post_cond_jne; post_cond_jne_neg_step;
   pre_cond_je1; one_backedge_two_exits; exit_loop_into_loop_header; nested_irreducible_loop;
   nested_irreducible_loop2; widen_nonconst_base; widen_nonconst_base_refined;
   sibling_inner_loops; no_widen_changing_latch_bound; conditional_stack_pointer_assignment;
   conditional_scalar_assignment_gcd; no_widen_stack_spill; no_widen_stack_spill_nested;
   nested_loop_exit_preserves_reg; widen_byte_stack_store; no_widen_stack_fill; ptr_stack;
   nested_loop_backedge_to_outer_header; post_cond_ivar_src; dominating_exit_bounds_count].

(** The lines about loops the tests declare: header counts, widened ranges and
    linear variables. *)
Definition claims_of (t : test) : list loop_claim :=
  match assemble (body t) with
  | Some p => match loop_claims t p with Some cl => cl | None => [] end
  | None => []
  end.

Example claims_read : List.length (flat_map claims_of modelled) = 116%nat.
Proof. vm_compute. reflexivity. Qed.

(** C39. What the verifier prints about the loops of verifier_scev.rs is true.  All
    the programs taken here return, with the value their [__retval] declares if
    they have one, for every start and every result of their helper calls; each
    time a loop is entered its header is reached as often as the [header_count]
    line says, up to wrap-around and at the signed and unsigned limits; at each
    arrival a widened variable, in a register or spilled to the stack, is in the
    declared range and on its grid; and a variable called linear changes by the
    declared step from one arrival to the next. *)
Theorem scev_loops_as_logged : Forall as_logged modelled.
Proof. apply all_logged_sound; vm_compute; reflexivity. Qed.
