(* ===== verification/Bounds.v ===== *)
(** Ranges of registers and registers that are linked: src/progs/verifier_bounds.rs,
    verifier_bounds_deduction.rs, verifier_bounds_deduction_non_const.rs,
    verifier_bounds_step.rs, verifier_linked_scalars.rs, verifier_scalar_ids.rs
    and verifier_reg_equal.rs.

    Each naked function is a [test]: its tags and its assembly text, verbatim.  The
    programs the loader expects to be accepted are taken, save those that touch
    maps, packets, the context or subprograms or call other helpers than
    [bpf_ktime_get_ns] and [bpf_get_prandom_u32], and save five.
    bounds_refinement_tnum_umax, bounds_refinement_tnum_umin,
    bounds_refinement_tnum_middle and tnums_equal_impossible_constant rest on
    known bits in the middle of an unknown number, and
    refinement_32bounds_not_overwriting_64bounds on bounds of a number and of its
    low half at once: a value set of [Range] keeps neither. *)

From S2P Require Import Prelude Bpf Asm Range Loader Loops.
From Stdlib Require Import String.
Local Open Scope string_scope.
Local Open Scope Z_scope.

(** * verifier_bounds.rs *)

Definition _32bit_and_64bit_arithmetic_test1_tags : list tag :=
  [__description "bounds check mixed 32bit and 64bit arithmetic. test1"; __success;
   __success_unpriv; __retval "0"; __xlated_unpriv "goto pc+2"; __xlated_unpriv "nospec";
   __xlated_unpriv "goto pc-1"; __xlated_unpriv "exit"].
Definition _32bit_and_64bit_arithmetic_test1 : test :=
  {| tags := _32bit_and_64bit_arithmetic_test1_tags;
     body := ["r0 = 0;"; "r1 = -1;"; "r1 <<= 32;"; "r1 += 1;"; "if w1 > 1 goto l0_19;";
              "r1 += 1;"; "if w1 > 2 goto l0_19;"; "goto l1_19;"; "l0_19:";
              "r0 = *(u64*)(r0 - 1);"; "l1_19:"; "exit;"] |}.

Definition _32bit_and_64bit_arithmetic_test2_tags : list tag :=
  [__description "bounds check mixed 32bit and 64bit arithmetic. test2"; __success;
   __success_unpriv; __retval "0"; __xlated_unpriv "goto pc+2"; __xlated_unpriv "nospec";
   __xlated_unpriv "goto pc-1"; __xlated_unpriv "exit"].
Definition _32bit_and_64bit_arithmetic_test2 : test :=
  {| tags := _32bit_and_64bit_arithmetic_test2_tags;
     body := ["r0 = 0;"; "r1 = -1;"; "r1 <<= 32;"; "r1 += 1;"; "r2 = 3;"; "w1 += 1;";
              "if r1 > r2 goto l0_20;"; "goto l1_20;"; "l0_20:"; "r0 = *(u64*)(r0 - 1);";
              "l1_20:"; "exit;"] |}.

Definition non_const_xor_src_dst_tags : list tag :=
  [__description "bounds check for non const xor src dst"; __success; __log_level "2";
   __msg "5: (af) r0 ^= r6                      ; R0=scalar(smin=smin32=0,smax=umax=smax32=umax32=431,var_off=(0x0; 0x1af))"].
Definition non_const_xor_src_dst : test :=
  {| tags := non_const_xor_src_dst_tags;
     body := ["call 7;"; "r6 = r0;"; "call 7;"; "r6 &= 0xaf;"; "r0 &= 0x1a0;"; "r0 ^= r6;"; "exit;"] |}.

Definition non_const_or_src_dst_tags : list tag :=
  [__description "bounds check for non const or src dst"; __success; __log_level "2";
   __msg "5: (4f) r0 |= r6                      ; R0=scalar(smin=smin32=0,smax=umax=smax32=umax32=431,var_off=(0x0; 0x1af))"].
Definition non_const_or_src_dst : test :=
  {| tags := non_const_or_src_dst_tags;
     body := ["call 7;"; "r6 = r0;"; "call 7;"; "r6 &= 0xaf;"; "r0 &= 0x1a0;"; "r0 |= r6;"; "exit;"] |}.

Definition non_const_mul_regs_tags : list tag :=
  [__description "bounds check for non const mul regs"; __success; __log_level "2";
   __msg "5: (2f) r0 *= r6                      ; R0=scalar(smin=smin32=0,smax=umax=smax32=umax32=3825,var_off=(0x0; 0xfff))"].
Definition non_const_mul_regs : test :=
  {| tags := non_const_mul_regs_tags;
     body := ["call 7;"; "r6 = r0;"; "call 7;"; "r6 &= 0xff;"; "r0 &= 0x0f;"; "r0 *= r6;"; "exit;"] |}.

Definition mult_mixed0_sign_tags : list tag :=
  [__description "multiply mixed sign bounds. test 1"; __success; __log_level "2";
   __msg "r6 *= r7 {{.*}}; R6=scalar(smin=umin=0x1bc16d5cd4927ee1,smax=umax=0x1bc16d674ec80000,smax32=0x7ffffeff,var_off=(0x1bc16d4000000000; 0x3ffffffeff))"].
Definition mult_mixed0_sign : test :=
  {| tags := mult_mixed0_sign_tags;
     body := ["call 7;"; "r6 = r0;"; "call 7;"; "r7 = r0;"; "r6 &= 0xf;"; "r6 -= 1000000000;";
              "r7 &= 0xf;"; "r7 -= 2000000000;"; "r6 *= r7;"; "exit;"] |}.

Definition mult_mixed1_sign_tags : list tag :=
  [__description "multiply mixed sign bounds. test 2"; __success; __log_level "2";
   __msg "r6 *= r7 {{.*}}; R6=scalar(smin=smin32=-100,smax=smax32=200)"].
Definition mult_mixed1_sign : test :=
  {| tags := mult_mixed1_sign_tags;
     body := ["call 7;"; "r6 = r0;"; "call 7;"; "r7 = r0;"; "r6 &= 0xf;"; "r6 -= 0xa;";
              "r7 &= 0xf;"; "r7 -= 0x14;"; "r6 *= r7;"; "exit;"] |}.

Definition mult_sign_bounds_tags : list tag :=
  [__description "multiply negative bounds"; __success; __log_level "2";
   __msg "r6 *= r7 {{.*}}; R6=scalar(smin=umin=smin32=umin32=0x3ff280b0,smax=umax=smax32=umax32=0x3fff0001,var_off=(0x3ff00000; 0xf81ff))"].
Definition mult_sign_bounds : test :=
  {| tags := mult_sign_bounds_tags;
     body := ["r8 = 0x7fff;"; "call 7;"; "r6 = r0;"; "call 7;"; "r7 = r0;"; "r6 &= 0xa;";
              "r6 -= r8;"; "r7 &= 0xf;"; "r7 -= r8;"; "r6 *= r7;"; "exit;"] |}.

Definition mult_no_sign_crossing_tags : list tag :=
  [__description "multiply bounds that don't cross signed boundary"; __success; __log_level "2";
   __msg "r8 *= r6 {{.*}}; R6=scalar(smin=smin32=0,smax=umax=smax32=umax32=11,var_off=(0x0; 0xb)) R8=scalar(smin=0,smax=umax=0x7b96bb0a94a3a7cd,var_off=(0x0; 0x7fffffffffffffff))"].
Definition mult_no_sign_crossing : test :=
  {| tags := mult_no_sign_crossing_tags;
     body := ["r6 = 0xb;"; "r8 = 0xb3c3f8c99262687 ll;"; "call 7;"; "r7 = r0;"; "r6 &= r7;";
              "r8 *= r6;"; "exit;"] |}.

Definition mult_unsign_ovf_tags : list tag :=
  [__description "multiplication overflow, result in unbounded reg. test 1"; __success;
   __log_level "2"; __msg "r6 *= r7 {{.*}}; R6=scalar()"].
Definition mult_unsign_ovf : test :=
  {| tags := mult_unsign_ovf_tags;
     body := ["r8 = 0x7ffffffffff ll;"; "call 7;"; "r6 = r0;"; "call 7;"; "r7 = r0;";
              "r6 &= 0x7fffffff;"; "r7 &= r8;"; "r6 *= r7;"; "exit;"] |}.

Definition mult_sign_ovf_tags : list tag :=
  [__description "multiplication overflow, result in unbounded reg. test 2"; __success;
   __log_level "2"; __msg "r6 *= r7 {{.*}}; R6=scalar()"].
Definition mult_sign_ovf : test :=
  {| tags := mult_sign_ovf_tags;
     body := ["r8 = 0x7ffffffff ll;"; "call 7;"; "r6 = r0;"; "call 7;"; "r7 = r0;"; "r6 &= 0xa;";
              "r6 -= r8;"; "r7 &= 0x7fffffff;"; "r6 *= r7;"; "exit;"] |}.

Definition add64_full_overflow_tags : list tag :=
  [__description "64-bit addition, all outcomes overflow"; __success; __log_level "2";
   __msg "5: (0f) r3 += r3 {{.*}} R3=scalar(umin=0x4000000000000000,umax=0xfffffffffffffffe)";
   __retval "0"].
Definition add64_full_overflow : test :=
  {| tags := add64_full_overflow_tags;
     body := ["call 7;"; "r4 = r0;"; "r3 = 0xa000000000000000 ll;"; "r3 |= r4;"; "r3 += r3;";
              "r0 = 0;"; "exit;"] |}.

Definition add64_partial_overflow_tags : list tag :=
  [__description "64-bit addition, partial overflow, result in unbounded reg"; __success;
   __log_level "2"; __msg "4: (0f) r3 += r3 {{.*}} R3=scalar()"; __retval "0"].
Definition add64_partial_overflow : test :=
  {| tags := add64_partial_overflow_tags;
     body := ["call 7;"; "r4 = r0;"; "r3 = 2;"; "r3 |= r4;"; "r3 += r3;"; "r0 = 0;"; "exit;"] |}.

Definition add32_full_overflow_tags : list tag :=
  [__description "32-bit addition overflow, all outcomes overflow"; __success; __log_level "2";
   __msg "4: (0c) w3 += w3 {{.*}} R3=scalar(smin=umin=umin32=0x40000000,smax=umax=umax32=0xfffffffe,var_off=(0x0; 0xffffffff))";
   __retval "0"].
Definition add32_full_overflow : test :=
  {| tags := add32_full_overflow_tags;
     body := ["call 7;"; "w4 = w0;"; "w3 = 0xa0000000;"; "w3 |= w4;"; "w3 += w3;"; "r0 = 0;";
              "exit;"] |}.

Definition add32_partial_overflow_tags : list tag :=
  [__description "32-bit addition, partial overflow, result in unbounded u32 bounds"; __success;
   __log_level "2";
   __msg "4: (0c) w3 += w3 {{.*}} R3=scalar(smin=0,smax=umax=0xffffffff,var_off=(0x0; 0xffffffff))";
   __retval "0"].
Definition add32_partial_overflow : test :=
  {| tags := add32_partial_overflow_tags;
     body := ["call 7;"; "w4 = w0;"; "w3 = 2;"; "w3 |= w4;"; "w3 += w3;"; "r0 = 0;"; "exit;"] |}.

Definition sub64_full_overflow_tags : list tag :=
  [__description "64-bit subtraction, all outcomes underflow"; __success; __log_level "2";
   __msg "6: (1f) r3 -= r1 {{.*}} R3=scalar(umin=1,umax=0x8000000000000000)"; __retval "0"].
Definition sub64_full_overflow : test :=
  {| tags := sub64_full_overflow_tags;
     body := ["call 7;"; "r1 = r0;"; "r2 = 0x8000000000000000 ll;"; "r1 |= r2;"; "r3 = 0;";
              "r3 -= r1;"; "r0 = 0;"; "exit;"] |}.

Definition sub64_partial_overflow_tags : list tag :=
  [__description "64-bit subtraction, partial overflow, result in unbounded reg"; __success;
   __log_level "2"; __msg "3: (1f) r3 -= r2 {{.*}} R3=scalar(id=1-1)"; __retval "0"].
Definition sub64_partial_overflow : test :=
  {| tags := sub64_partial_overflow_tags;
     body := ["call 7;"; "r3 = r0;"; "r2 = 1;"; "r3 -= r2;"; "r0 = 0;"; "exit;"] |}.

Definition sub32_full_overflow_tags : list tag :=
  [__description "32-bit subtraction overflow, all outcomes underflow"; __success;
   __log_level "2";
   __msg "5: (1c) w3 -= w1 {{.*}} R3=scalar(smin=umin=umin32=1,smax=umax=umax32=0x80000000,var_off=(0x0; 0xffffffff))";
   __retval "0"].
Definition sub32_full_overflow : test :=
  {| tags := sub32_full_overflow_tags;
     body := ["call 7;"; "w1 = w0;"; "w2 = 0x80000000;"; "w1 |= w2;"; "w3 = 0;"; "w3 -= w1;";
              "r0 = 0;"; "exit;"] |}.

Definition sub32_partial_overflow_tags : list tag :=
  [__description "32-bit subtraction, partial overflow, result in unbounded u32 bounds";
   __success; __log_level "2";
   __msg "3: (1c) w3 -= w2 {{.*}} R3=scalar(smin=0,smax=umax=0xffffffff,var_off=(0x0; 0xffffffff))";
   __retval "0"].
Definition sub32_partial_overflow : test :=
  {| tags := sub32_partial_overflow_tags;
     body := ["call 7;"; "w3 = w0;"; "w2 = 1;"; "w3 -= w2;"; "r0 = 0;"; "exit;"] |}.

Definition bounds_deduct_negative_overlap_tags : list tag :=
  [__description "bounds deduction cross sign boundary, negative overlap"; __success;
   __log_level "2";
   __msg "7: (1f) r0 -= r6 {{.*}} R0=scalar(smin=smin32=-655,smax=smax32=-146,umin=0xfffffffffffffd71,umax=0xffffffffffffff6e,umin32=0xfffffd71,umax32=0xffffff6e,var_off=(0xfffffffffffffc00; 0x3ff))";
   __retval "0"].
Definition bounds_deduct_negative_overlap : test :=
  {| tags := bounds_deduct_negative_overlap_tags;
     body := ["call 7;"; "w3 = w0;"; "w6 = (s8)w0;"; "r0 = (s8)r0;";
              "if w6 >= 0xf0000000 goto l0_39;"; "r0 += r6;"; "r6 += 400;"; "r0 -= r6;";
              "if r3 < r0 goto l0_39;"; "l0_39:"; "r0 = 0;"; "exit;"] |}.

Definition bounds_deduct_positive_overlap_tags : list tag :=
  [__description "bounds deduction cross sign boundary, positive overlap"; __success;
   __log_level "2";
   __msg "3: (2d) if r0 > r1 {{.*}} R0=scalar(smin=smin32=0,smax=umax=smax32=umax32=127,var_off=(0x0; 0x7f))";
   __retval "0"].
Definition bounds_deduct_positive_overlap : test :=
  {| tags := bounds_deduct_positive_overlap_tags;
     body := ["call 7;"; "r0 = (s8)r0;"; "r1 = 0xffffffffffffff00;"; "if r0 > r1 goto l0_40;";
              "if r0 < 128 goto l0_40;"; "r10 = 0;"; "l0_40:"; "r0 = 0;"; "exit;"] |}.

Definition jne_disagreeing_tnums_tags : list tag :=
  [__description "dead jne branch due to disagreeing tnums"; __success; __log_level "2"].
Definition jne_disagreeing_tnums : test :=
  {| tags := jne_disagreeing_tnums_tags;
     body := ["call 7;"; "w0 = w0;"; "r0 >>= 30;"; "r0 <<= 30;"; "r1 = r0;"; "r1 += 1024;";
              "if r1 != r0 goto +1;"; "r10 = 0;"; "exit;"] |}.

Definition jeq_disagreeing_tnums_tags : list tag :=
  [__description "dead jeq branch due to disagreeing tnums"; __success; __log_level "2"].
Definition jeq_disagreeing_tnums : test :=
  {| tags := jeq_disagreeing_tnums_tags;
     body := ["call 7;"; "w0 = w0;"; "r0 >>= 30;"; "r0 <<= 30;"; "r1 = r0;"; "r1 += 1024;";
              "if r1 == r0 goto +1;"; "exit;"; "r10 = 0;"; "exit;"] |}.

Definition condition_jump_on_same_register_tags : list tag :=
  [__description "conditional jump on same register, branch taken";
   __not_msg "20: (b7) r0 = 1 {{.*}} R0=1"; __success; __log_level "2"; __retval "0"].
Definition condition_jump_on_same_register : test :=
  {| tags := condition_jump_on_same_register_tags;
     body := ["call 7;"; "w8 = 0x80000000;"; "r0 &= r8;"; "if r0 == r0 goto +1;"; "goto l1_42;";
              "if r0 >= r0 goto +1;"; "goto l1_42;"; "if r0 s>= r0 goto +1;"; "goto l1_42;";
              "if r0 <= r0 goto +1;"; "goto l1_42;"; "if r0 s<= r0 goto +1;"; "goto l1_42;";
              "if r0 != r0 goto l1_42;"; "if r0 > r0 goto l1_42;"; "if r0 s> r0 goto l1_42;";
              "if r0 < r0 goto l1_42;"; "if r0 s< r0 goto l1_42;"; "l0_42:"; "r0 = 0;"; "exit;";
              "l1_42:"; "r0 = 1;"; "exit;"] |}.

Definition jset_on_same_register_1_tags : list tag :=
  [__description "jset on same register, constant value branch taken";
   __not_msg "7: (b7) r0 = 1 {{.*}} R0=1"; __success; __log_level "2"; __retval "0"].
Definition jset_on_same_register_1 : test :=
  {| tags := jset_on_same_register_1_tags;
     body := ["r0 = 0;"; "if r0 & r0 goto l1_43;"; "r0 = 1;"; "if r0 & r0 goto +1;";
              "goto l1_43;"; "l0_43:"; "r0 = 0;"; "exit;"; "l1_43:"; "r0 = 1;"; "exit;"] |}.

Definition jset_on_same_register_2_tags : list tag :=
  [__description "jset on same register, scalar value branch taken";
   __not_msg "12: (b7) r0 = 1 {{.*}} R0=1"; __success; __log_level "2"; __retval "0"].
Definition jset_on_same_register_2 : test :=
  {| tags := jset_on_same_register_2_tags;
     body := ["call 7;"; "r0 &= 0x1;"; "r0 += 1;"; "if r0 & r0 goto +1;"; "goto l1_44;";
              "call 7;"; "r0 &= 0x1;"; "r0 -= 2;"; "if r0 & r0 goto +1;"; "goto l1_44;"; "l0_44:";
              "r0 = 0;"; "exit;"; "l1_44:"; "r0 = 1;"; "exit;"] |}.

Definition jset_on_same_register_3_tags : list tag :=
  [__description "jset on same register, scalar value unknown branch 1";
   __msg "3: (b7) r0 = 0 {{.*}} R0=0"; __msg "5: (b7) r0 = 1 {{.*}} R0=1"; __success;
   __log_level "2"].
Definition jset_on_same_register_3 : test :=
  {| tags := jset_on_same_register_3_tags;
     body := ["call 7;"; "r0 &= 0x1;"; "if r0 & r0 goto l1_45;"; "l0_45:"; "r0 = 0;"; "exit;";
              "l1_45:"; "r0 = 1;"; "exit;"] |}.

Definition jset_on_same_register_4_tags : list tag :=
  [__description "jset on same register, scalar value unknown branch 2";
   __msg "4: (b7) r0 = 0 {{.*}} R0=0"; __msg "6: (b7) r0 = 1 {{.*}} R0=1"; __success;
   __log_level "2"].
Definition jset_on_same_register_4 : test :=
  {| tags := jset_on_same_register_4_tags;
     body := ["call 7;"; "r0 &= 0x1;"; "r0 -= 1;"; "if r0 & r0 goto l1_46;"; "l0_46:"; "r0 = 0;";
              "exit;"; "l1_46:"; "r0 = 1;"; "exit;"] |}.

Definition jset_on_same_register_5_tags : list tag :=
  [__description "jset on same register, scalar value unknown branch 3";
   __msg "4: (b7) r0 = 0 {{.*}} R0=0"; __msg "6: (b7) r0 = 1 {{.*}} R0=1"; __success;
   __log_level "2"].
Definition jset_on_same_register_5 : test :=
  {| tags := jset_on_same_register_5_tags;
     body := ["call 7;"; "r0 &= 0x2;"; "r0 -= 1;"; "if r0 & r0 goto l1_47;"; "l0_47:"; "r0 = 0;";
              "exit;"; "l1_47:"; "r0 = 1;"; "exit;"] |}.

Definition signed_unsigned_intersection32_case1_tags : list tag :=
  [__success].
Definition signed_unsigned_intersection32_case1 : test :=
  {| tags := signed_unsigned_intersection32_case1_tags;
     body := ["call 7;"; "w0 &= 0xffffffff;"; "if w0 < 0x3 goto 1f;"; "if w0 s> 0x1 goto 1f;";
              "if w0 s< 0x0 goto 1f;"; "r10 = 0;"; "1:"; "exit;"] |}.

Definition signed_unsigned_intersection32_case2_tags : list tag :=
  [__success].
Definition signed_unsigned_intersection32_case2 : test :=
  {| tags := signed_unsigned_intersection32_case2_tags;
     body := ["call 7;"; "w0 &= 0xffffffff;"; "if w0 > 0x80000003 goto 1f;";
              "if w0 s< -3 goto 1f;"; "if w0 s> 5 goto 1f;"; "if w0 <= 5 goto 1f;"; "r10 = 0;";
              "1:"; "exit;"] |}.

Definition deduce64_from_32_before_block_start_tags : list tag :=
  [__success; __flag "BPF_F_TEST_REG_INVARIANTS"].
Definition deduce64_from_32_before_block_start : test :=
  {| tags := deduce64_from_32_before_block_start_tags;
     body := ["call 7;"; "r1 = 0x100000008 ll;"; "if r0 < r1 goto 2f;"; "r1 = 0x300000001 ll;";
              "if r0 > r1 goto 2f;"; "if w0 < 2 goto 2f;"; "if w0 > 5 goto 2f;";
              "r2 = 0x200000002 ll;"; "r3 = 0x200000005 ll;"; "if r0 >= r2 goto 1f;"; "r10 = 0;";
              "1:"; "if r0 <= r3 goto 2f;"; "r10 = 0;"; "2:"; "exit;"] |}.

Definition deduce64_from_32_wrapping_32bit_tags : list tag :=
  [__success; __flag "BPF_F_TEST_REG_INVARIANTS"].
Definition deduce64_from_32_wrapping_32bit : test :=
  {| tags := deduce64_from_32_wrapping_32bit_tags;
     body := ["call 7;"; "r1 = 0x100000006 ll;"; "if r0 < r1 goto 2f;"; "r1 = 0x2ffffffef ll;";
              "if r0 > r1 goto 2f;"; "if w0 s< -16 goto 2f;"; "if w0 s> 5 goto 2f;";
              "r1 = 0x1fffffff0 ll;"; "r2 = 0x200000005 ll;"; "if r0 >= r1 goto 1f;"; "r10 = 0;";
              "1:"; "if r0 <= r2 goto 2f;"; "r10 = 0;"; "2:"; "exit;"] |}.

(** * verifier_bounds_deduction.rs *)

Definition deducing_bounds_from_const_2_tags : list tag :=
  [__description "check deducing bounds from const, 2"; __success; __failure_unpriv;
   __msg_unpriv "R1 has pointer with unsupported alu operation"; __retval "1"].
Definition deducing_bounds_from_const_2 : test :=
  {| tags := deducing_bounds_from_const_2_tags;
     body := ["r0 = 1;"; "if r0 s>= 1 goto l0_1;"; "exit;"; "l0_1:"; "if r0 s<= 1 goto l1_1;";
              "exit;"; "l1_1:"; "r1 -= r0;"; "exit;"] |}.

Definition deducing_bounds_from_const_4_tags : list tag :=
  [__description "check deducing bounds from const, 4"; __success; __failure_unpriv;
   __msg_unpriv "R6 has pointer with unsupported alu operation"; __retval "0"].
Definition deducing_bounds_from_const_4 : test :=
  {| tags := deducing_bounds_from_const_4_tags;
     body := ["r6 = r1;"; "r0 = 0;"; "if r0 s<= 0 goto l0_3;"; "exit;"; "l0_3:";
              "if r0 s>= 0 goto l1_3;"; "exit;"; "l1_3:"; "r6 -= r0;"; "exit;"] |}.

(** * verifier_bounds_deduction_non_const.rs *)

Definition deducing_bounds_from_non_const_1_tags : list tag :=
  [__description "check deducing bounds from non-const, jmp64, <non_const> == <const>, 1";
   __success; __retval "0"].
Definition deducing_bounds_from_non_const_1 : test :=
  {| tags := deducing_bounds_from_non_const_1_tags;
     body := ["call 5;"; "if r0 < 3 goto l0_0;"; "r2 = 2;"; "if r0 == r2 goto l1_0;"; "l0_0:";
              "r0 = 0;"; "exit;"; "l1_0:"; "r0 -= r1;"; "exit;"] |}.

Definition deducing_bounds_from_non_const_2_tags : list tag :=
  [__description "check deducing bounds from non-const, jmp64, <non_const> == <const>, 2";
   __success; __retval "0"].
Definition deducing_bounds_from_non_const_2 : test :=
  {| tags := deducing_bounds_from_non_const_2_tags;
     body := ["call 5;"; "if r0 > 3 goto l0_1;"; "r2 = 4;"; "if r0 == r2 goto l1_1;"; "l0_1:";
              "r0 = 0;"; "exit;"; "l1_1:"; "r0 -= r1;"; "exit;"] |}.

Definition deducing_bounds_from_non_const_3_tags : list tag :=
  [__description "check deducing bounds from non-const, jmp64, <non_const> != <const>, 1";
   __success; __retval "0"].
Definition deducing_bounds_from_non_const_3 : test :=
  {| tags := deducing_bounds_from_non_const_3_tags;
     body := ["call 5;"; "if r0 < 3 goto l0_2;"; "r2 = 2;"; "if r0 != r2 goto l0_2;";
              "goto l1_2;"; "l0_2:"; "r0 = 0;"; "exit;"; "l1_2:"; "r0 -= r1;"; "exit;"] |}.

Definition deducing_bounds_from_non_const_4_tags : list tag :=
  [__description "check deducing bounds from non-const, jmp64, <non_const> != <const>, 2";
   __success; __retval "0"].
Definition deducing_bounds_from_non_const_4 : test :=
  {| tags := deducing_bounds_from_non_const_4_tags;
     body := ["call 5;"; "if r0 > 3 goto l0_3;"; "r2 = 4;"; "if r0 != r2 goto l0_3;";
              "goto l1_3;"; "l0_3:"; "r0 = 0;"; "exit;"; "l1_3:"; "r0 -= r1;"; "exit;"] |}.

Definition deducing_bounds_from_non_const_5_tags : list tag :=
  [__description "check deducing bounds from non-const, jmp32, <non_const> == <const>, 1";
   __success; __retval "0"].
Definition deducing_bounds_from_non_const_5 : test :=
  {| tags := deducing_bounds_from_non_const_5_tags;
     body := ["call 5;"; "if w0 < 4 goto l0_4;"; "w2 = 3;"; "if w0 == w2 goto l1_4;"; "l0_4:";
              "r0 = 0;"; "exit;"; "l1_4:"; "r0 -= r1;"; "exit;"] |}.

Definition deducing_bounds_from_non_const_6_tags : list tag :=
  [__description "check deducing bounds from non-const, jmp32, <non_const> == <const>, 2";
   __success; __retval "0"].
Definition deducing_bounds_from_non_const_6 : test :=
  {| tags := deducing_bounds_from_non_const_6_tags;
     body := ["call 5;"; "if w0 > 4 goto l0_5;"; "w2 = 5;"; "if w0 == w2 goto l1_5;"; "l0_5:";
              "r0 = 0;"; "exit;"; "l1_5:"; "r0 -= r1;"; "exit;"] |}.

Definition deducing_bounds_from_non_const_7_tags : list tag :=
  [__description "check deducing bounds from non-const, jmp32, <non_const> != <const>, 1";
   __success; __retval "0"].
Definition deducing_bounds_from_non_const_7 : test :=
  {| tags := deducing_bounds_from_non_const_7_tags;
     body := ["call 5;"; "if w0 < 3 goto l0_6;"; "w2 = 2;"; "if w0 != w2 goto l0_6;";
              "goto l1_6;"; "l0_6:"; "r0 = 0;"; "exit;"; "l1_6:"; "r0 -= r1;"; "exit;"] |}.

Definition deducing_bounds_from_non_const_8_tags : list tag :=
  [__description "check deducing bounds from non-const, jmp32, <non_const> != <const>, 2";
   __success; __retval "0"].
Definition deducing_bounds_from_non_const_8 : test :=
  {| tags := deducing_bounds_from_non_const_8_tags;
     body := ["call 5;"; "if w0 > 3 goto l0_7;"; "w2 = 4;"; "if w0 != w2 goto l0_7;";
              "goto l1_7;"; "l0_7:"; "r0 = 0;"; "exit;"; "l1_7:"; "r0 -= r1;"; "exit;"] |}.

Definition deducing_bounds_from_non_const_9_tags : list tag :=
  [__description "check deducing bounds from non-const, jmp64, <const> > <non_const>, 1";
   __success; __retval "0"].
Definition deducing_bounds_from_non_const_9 : test :=
  {| tags := deducing_bounds_from_non_const_9_tags;
     body := ["call 5;"; "r2 = 0;"; "if r2 > r0 goto l0_8;"; "r0 = 0;"; "exit;"; "l0_8:";
              "r0 -= r1;"; "exit;"] |}.

Definition deducing_bounds_from_non_const_10_tags : list tag :=
  [__description "check deducing bounds from non-const, jmp64, <const> > <non_const>, 2";
   __success; __retval "0"].
Definition deducing_bounds_from_non_const_10 : test :=
  {| tags := deducing_bounds_from_non_const_10_tags;
     body := ["call 5;"; "if r0 < 4 goto l0_9;"; "r2 = 4;"; "if r2 > r0 goto l1_9;"; "l0_9:";
              "r0 = 0;"; "exit;"; "l1_9:"; "r0 -= r1;"; "exit;"] |}.

Definition deducing_bounds_from_non_const_11_tags : list tag :=
  [__description "check deducing bounds from non-const, jmp64, <const> >= <non_const>"; __success;
   __retval "0"].
Definition deducing_bounds_from_non_const_11 : test :=
  {| tags := deducing_bounds_from_non_const_11_tags;
     body := ["call 5;"; "if r0 < 4 goto l0_10;"; "r2 = 3;"; "if r2 >= r0 goto l1_10;"; "l0_10:";
              "r0 = 0;"; "exit;"; "l1_10:"; "r0 -= r1;"; "exit;"] |}.

Definition deducing_bounds_from_non_const_12_tags : list tag :=
  [__description "check deducing bounds from non-const, jmp64, <const> < <non_const>"; __success;
   __retval "0"].
Definition deducing_bounds_from_non_const_12 : test :=
  {| tags := deducing_bounds_from_non_const_12_tags;
     body := ["call 5;"; "if r0 > 4 goto l0_11;"; "r2 = 4;"; "if r2 < r0 goto l1_11;"; "l0_11:";
              "r0 = 0;"; "exit;"; "l1_11:"; "r0 -= r1;"; "exit;"] |}.

Definition deducing_bounds_from_non_const_13_tags : list tag :=
  [__description "check deducing bounds from non-const, jmp64, <const> <= <non_const>"; __success;
   __retval "0"].
Definition deducing_bounds_from_non_const_13 : test :=
  {| tags := deducing_bounds_from_non_const_13_tags;
     body := ["call 5;"; "if r0 >= 4 goto l0_12;"; "r2 = 4;"; "if r2 <= r0 goto l1_12;"; "l0_12:";
              "r0 = 0;"; "exit;"; "l1_12:"; "r0 -= r1;"; "exit;"] |}.

Definition deducing_bounds_from_non_const_14_tags : list tag :=
  [__description "check deducing bounds from non-const, jmp64, <const> == <non_const>"; __success;
   __retval "0"].
Definition deducing_bounds_from_non_const_14 : test :=
  {| tags := deducing_bounds_from_non_const_14_tags;
     body := ["call 5;"; "if r0 < 3 goto l0_13;"; "r2 = 2;"; "if r2 == r0 goto l1_13;"; "l0_13:";
              "r0 = 0;"; "exit;"; "l1_13:"; "r0 -= r1;"; "exit;"] |}.

Definition deducing_bounds_from_non_const_15_tags : list tag :=
  [__description "check deducing bounds from non-const, jmp64, <const> s> <non_const>"; __success;
   __retval "0"].
Definition deducing_bounds_from_non_const_15 : test :=
  {| tags := deducing_bounds_from_non_const_15_tags;
     body := ["call 5;"; "if r0 s< 4 goto l0_14;"; "r2 = 4;"; "if r2 s> r0 goto l1_14;"; "l0_14:";
              "r0 = 0;"; "exit;"; "l1_14:"; "r0 -= r1;"; "exit;"] |}.

Definition deducing_bounds_from_non_const_16_tags : list tag :=
  [__description "check deducing bounds from non-const, jmp64, <const> s>= <non_const>";
   __success; __retval "0"].
Definition deducing_bounds_from_non_const_16 : test :=
  {| tags := deducing_bounds_from_non_const_16_tags;
     body := ["call 5;"; "if r0 s< 4 goto l0_15;"; "r2 = 3;"; "if r2 s>= r0 goto l1_15;";
              "l0_15:"; "r0 = 0;"; "exit;"; "l1_15:"; "r0 -= r1;"; "exit;"] |}.

Definition deducing_bounds_from_non_const_17_tags : list tag :=
  [__description "check deducing bounds from non-const, jmp64, <const> s< <non_const>"; __success;
   __retval "0"].
Definition deducing_bounds_from_non_const_17 : test :=
  {| tags := deducing_bounds_from_non_const_17_tags;
     body := ["call 5;"; "if r0 s> 4 goto l0_16;"; "r2 = 4;"; "if r2 s< r0 goto l1_16;"; "l0_16:";
              "r0 = 0;"; "exit;"; "l1_16:"; "r0 -= r1;"; "exit;"] |}.

Definition deducing_bounds_from_non_const_18_tags : list tag :=
  [__description "check deducing bounds from non-const, jmp64, <const> s<= <non_const>";
   __success; __retval "0"].
Definition deducing_bounds_from_non_const_18 : test :=
  {| tags := deducing_bounds_from_non_const_18_tags;
     body := ["call 5;"; "if r0 s> 4 goto l0_17;"; "r2 = 5;"; "if r2 s<= r0 goto l1_17;";
              "l0_17:"; "r0 = 0;"; "exit;"; "l1_17:"; "r0 -= r1;"; "exit;"] |}.

Definition deducing_bounds_from_non_const_19_tags : list tag :=
  [__description "check deducing bounds from non-const, jmp64, <const> != <non_const>"; __success;
   __retval "0"].
Definition deducing_bounds_from_non_const_19 : test :=
  {| tags := deducing_bounds_from_non_const_19_tags;
     body := ["call 5;"; "if r0 < 3 goto l0_18;"; "r2 = 2;"; "if r2 != r0 goto l0_18;";
              "goto l1_18;"; "l0_18:"; "r0 = 0;"; "exit;"; "l1_18:"; "r0 -= r1;"; "exit;"] |}.

Definition deducing_bounds_from_non_const_20_tags : list tag :=
  [__description "check deducing bounds from non-const, jmp32, <const> > <non_const>, 1";
   __success; __retval "0"].
Definition deducing_bounds_from_non_const_20 : test :=
  {| tags := deducing_bounds_from_non_const_20_tags;
     body := ["call 5;"; "w2 = 0;"; "if w2 > w0 goto l0_19;"; "r0 = 0;"; "exit;"; "l0_19:";
              "r0 -= r1;"; "exit;"] |}.

Definition deducing_bounds_from_non_const_21_tags : list tag :=
  [__description "check deducing bounds from non-const, jmp32, <const> > <non_const>, 2";
   __success; __retval "0"].
Definition deducing_bounds_from_non_const_21 : test :=
  {| tags := deducing_bounds_from_non_const_21_tags;
     body := ["call 5;"; "if w0 < 4 goto l0_20;"; "w2 = 4;"; "if w2 > w0 goto l1_20;"; "l0_20:";
              "r0 = 0;"; "exit;"; "l1_20:"; "r0 -= r1;"; "exit;"] |}.

Definition deducing_bounds_from_non_const_22_tags : list tag :=
  [__description "check deducing bounds from non-const, jmp32, <const> >= <non_const>"; __success;
   __retval "0"].
Definition deducing_bounds_from_non_const_22 : test :=
  {| tags := deducing_bounds_from_non_const_22_tags;
     body := ["call 5;"; "if w0 < 4 goto l0_21;"; "w2 = 3;"; "if w2 >= w0 goto l1_21;"; "l0_21:";
              "r0 = 0;"; "exit;"; "l1_21:"; "r0 -= r1;"; "exit;"] |}.

Definition deducing_bounds_from_non_const_23_tags : list tag :=
  [__description "check deducing bounds from non-const, jmp32, <const> < <non_const>"; __success;
   __retval "0"].
Definition deducing_bounds_from_non_const_23 : test :=
  {| tags := deducing_bounds_from_non_const_23_tags;
     body := ["call 5;"; "if w0 > 4 goto l0_22;"; "w2 = 4;"; "if w2 < w0 goto l1_22;"; "l0_22:";
              "r0 = 0;"; "exit;"; "l1_22:"; "r0 -= r1;"; "exit;"] |}.

Definition deducing_bounds_from_non_const_24_tags : list tag :=
  [__description "check deducing bounds from non-const, jmp32, <const> <= <non_const>"; __success;
   __retval "0"].
Definition deducing_bounds_from_non_const_24 : test :=
  {| tags := deducing_bounds_from_non_const_24_tags;
     body := ["call 5;"; "if w0 >= 4 goto l0_23;"; "w2 = 4;"; "if w2 <= w0 goto l1_23;"; "l0_23:";
              "r0 = 0;"; "exit;"; "l1_23:"; "r0 -= r1;"; "exit;"] |}.

Definition deducing_bounds_from_non_const_25_tags : list tag :=
  [__description "check deducing bounds from non-const, jmp32, <const> == <non_const>"; __success;
   __retval "0"].
Definition deducing_bounds_from_non_const_25 : test :=
  {| tags := deducing_bounds_from_non_const_25_tags;
     body := ["call 5;"; "if w0 < 4 goto l0_24;"; "w2 = 3;"; "if w2 == w0 goto l1_24;"; "l0_24:";
              "r0 = 0;"; "exit;"; "l1_24:"; "r0 -= r1;"; "exit;"] |}.

Definition deducing_bounds_from_non_const_26_tags : list tag :=
  [__description "check deducing bounds from non-const, jmp32, <const> s> <non_const>"; __success;
   __retval "0"].
Definition deducing_bounds_from_non_const_26 : test :=
  {| tags := deducing_bounds_from_non_const_26_tags;
     body := ["call 5;"; "if w0 s< 4 goto l0_25;"; "w2 = 4;"; "if w2 s> w0 goto l1_25;"; "l0_25:";
              "r0 = 0;"; "exit;"; "l1_25:"; "r0 -= r1;"; "exit;"] |}.

Definition deducing_bounds_from_non_const_27_tags : list tag :=
  [__description "check deducing bounds from non-const, jmp32, <const> s>= <non_const>";
   __success; __retval "0"].
Definition deducing_bounds_from_non_const_27 : test :=
  {| tags := deducing_bounds_from_non_const_27_tags;
     body := ["call 5;"; "if w0 s< 4 goto l0_26;"; "w2 = 3;"; "if w2 s>= w0 goto l1_26;";
              "l0_26:"; "r0 = 0;"; "exit;"; "l1_26:"; "r0 -= r1;"; "exit;"] |}.

Definition deducing_bounds_from_non_const_28_tags : list tag :=
  [__description "check deducing bounds from non-const, jmp32, <const> s< <non_const>"; __success;
   __retval "0"].
Definition deducing_bounds_from_non_const_28 : test :=
  {| tags := deducing_bounds_from_non_const_28_tags;
     body := ["call 5;"; "if w0 s> 4 goto l0_27;"; "w2 = 5;"; "if w2 s< w0 goto l1_27;"; "l0_27:";
              "r0 = 0;"; "exit;"; "l1_27:"; "r0 -= r1;"; "exit;"] |}.

Definition deducing_bounds_from_non_const_29_tags : list tag :=
  [__description "check deducing bounds from non-const, jmp32, <const> s<= <non_const>";
   __success; __retval "0"].
Definition deducing_bounds_from_non_const_29 : test :=
  {| tags := deducing_bounds_from_non_const_29_tags;
     body := ["call 5;"; "if w0 s>= 4 goto l0_28;"; "w2 = 4;"; "if w2 s<= w0 goto l1_28;";
              "l0_28:"; "r0 = 0;"; "exit;"; "l1_28:"; "r0 -= r1;"; "exit;"] |}.

Definition deducing_bounds_from_non_const_30_tags : list tag :=
  [__description "check deducing bounds from non-const, jmp32, <const> != <non_const>"; __success;
   __retval "0"].
Definition deducing_bounds_from_non_const_30 : test :=
  {| tags := deducing_bounds_from_non_const_30_tags;
     body := ["call 5;"; "if w0 < 3 goto l0_29;"; "w2 = 2;"; "if w2 != w0 goto l0_29;";
              "goto l1_29;"; "l0_29:"; "r0 = 0;"; "exit;"; "l1_29:"; "r0 -= r1;"; "exit;"] |}.

(** * verifier_bounds_step.rs *)

Definition step_arith64_no_overflow_tags : list tag :=
  [__success; __log_level "2"; __msg "r0 *= 3 {{.*}}step=0+3)"; __msg "r0 += 1 {{.*}}step=1+3)";
   __msg "r0 *= 2 {{.*}}step=2+6)"; __msg "r0 <<= 1 {{.*}}step=4+12)"].
Definition step_arith64_no_overflow : test :=
  {| tags := step_arith64_no_overflow_tags;
     body := ["call 7;"; "r0 &= 0xff;"; "r0 *= 3;"; "r0 += 1;"; "r0 *= 2;"; "r0 <<= 1;";
              "r0 = 0;"; "exit;"] |}.

Definition step_arith32_no_overflow_tags : list tag :=
  [__success; __log_level "2"; __msg "w0 *= 3 {{.*}}step=0+3)"; __msg "w0 += 1 {{.*}}step=1+3)";
   __msg "w0 *= 2 {{.*}}step=2+6)";
   __msg "w1 = w0 {{.*}}R0=scalar({{.*}}step=2+6) R1=scalar({{.*}}step=2+6)";
   __msg "w0 <<= 1 {{.*}}smax=umax=smax32=umax32=3064,"; __not_msg "step="; __msg "\n"].
Definition step_arith32_no_overflow : test :=
  {| tags := step_arith32_no_overflow_tags;
     body := ["call 7;"; "r0 &= 0xff;"; "w0 *= 3;"; "w0 += 1;"; "w0 *= 2;"; "w1 = w0;";
              "w0 <<= 1;"; "r0 = 0;"; "exit;"] |}.

Definition step_neg_value_range_tags : list tag :=
  [__success; __log_level "2"; __msg "r0 += -3 {{.*}}smax=smax32=6,step=0+3)"].
Definition step_neg_value_range : test :=
  {| tags := step_neg_value_range_tags;
     body := ["call 7;"; "r0 &= 3;"; "r0 *= 3;"; "r0 += -3;"; "r0 = 0;"; "exit;"] |}.

Definition step_arith32_overflow_tags : list tag :=
  [__success; __log_level "2"; __msg "w0 *= 7 {{.*}}umax=0xffffffff,"; __not_msg "step=";
   __msg "\n"; __msg "r2 = r0 {{.*}}R0=scalar({{.*}}step=0+3) R2=scalar({{.*}}step=0+3)";
   __msg "w0 += 4 {{.*}}smax=umax=smax32=umax32=3,"; __not_msg "step="; __msg "\n";
   __msg "w2 <<= 1 {{.*}}smax=umax=umax32=0xfffffffe,"; __not_msg "step="; __msg "\n"].
Definition step_arith32_overflow : test :=
  {| tags := step_arith32_overflow_tags;
     body := ["call 7;"; "w0 *= 7;"; "call 7;"; "r0 &= 1;"; "r0 *= 3;"; "r1 = 0xfffffffc ll;";
              "r0 += r1;"; "r2 = r0;"; "w0 += 4;"; "w2 <<= 1;"; "r0 = 0;"; "exit;"] |}.

Definition step_arith64_overflow_tags : list tag :=
  [__success; __log_level "2"; __msg "r0 *= 3 {{.*}}smax=0x8000000000000004,"; __not_msg "step=";
   __msg "\n"; __msg "r0 += r1 {{.*}}step=0+3)"; __msg "r0 += 5 {{.*}}smax=0x8000000000000003,";
   __not_msg "step="; __msg "\n"; __msg "r0 += r1 {{.*}}step=2+3)";
   __msg "r0 += -5 {{.*}}umax=0x7fffffffffffffff,"; __not_msg "step="; __msg "\n";
   __msg "r0 += r1 {{.*}}step=0+3)"; __msg "r0 <<= 1 {{.*}}smax=0x8000000000000016,";
   __not_msg "step="; __msg "\n"].
Definition step_arith64_overflow : test :=
  {| tags := step_arith64_overflow_tags;
     body := ["call 7;"; "r0 &= 1;"; "r2 = r0;"; "r1 = 0x2aaaaaaaaaaaaaab ll;"; "r0 += r1;";
              "r0 *= 3;"; "r2 *= 3;"; "r0 = r2;"; "r1 = 0x7ffffffffffffffb ll;"; "r0 += r1;";
              "r0 += 5;"; "r0 = r2;"; "r1 = 0x8000000000000001 ll;"; "r0 += r1;"; "r0 += -5;";
              "r0 = r2;"; "r1 = 0x4000000000000008 ll;"; "r0 += r1;"; "r0 <<= 1;"; "r0 = 0;";
              "exit;"] |}.

Definition step_mov32_truncate_tags : list tag :=
  [__success; __log_level "2"; __msg "r0 += r1 {{.*}}step=1+3)";
   __msg "w0 = w0 {{.*}}smax=umax=smax32=umax32=3,"; __not_msg "step="; __msg "\n"].
Definition step_mov32_truncate : test :=
  {| tags := step_mov32_truncate_tags;
     body := ["call 7;"; "r0 &= 1;"; "r0 *= 3;"; "r1 = 0x100000000 ll;"; "r0 += r1;"; "w0 = w0;";
              "r0 = 0;"; "exit;"] |}.

Definition step_mov32_negative_tags : list tag :=
  [__success; __log_level "2"; __msg "r0 += -4 {{.*}}step=2+3)";
   __msg "w0 = w0 {{.*}}umax=0xffffffff,"; __not_msg "step="; __msg "\n"].
Definition step_mov32_negative : test :=
  {| tags := step_mov32_negative_tags;
     body := ["call 7;"; "r0 &= 1;"; "r0 *= 3;"; "r0 += -4;"; "w0 = w0;"; "r0 = 0;"; "exit;"] |}.

Definition step_movsx_tags : list tag :=
  [__success; __log_level "2"; __msg "r0 += 128 {{.*}}step=2+3)";
   __msg "r0 = (s8)r0 {{.*}}smax=smax32=-125,"; __not_msg "step="; __msg "\n";
   __msg "r0 += 32768 {{.*}}step=2+3)"; __msg "r0 = (s16)r0 {{.*}}smax=smax32=-32765,";
   __not_msg "step="; __msg "\n"; __msg "r0 += r1 {{.*}}step=2+3)";
   __msg "r0 = (s32)r0 {{.*}}smax=0xffffffff80000003,"; __not_msg "step="; __msg "\n"].
Definition step_movsx : test :=
  {| tags := step_movsx_tags;
     body := ["call 7;"; "r0 &= 1;"; "r0 *= 3;"; "r2 = r0;"; "r0 += 128;"; "r0 = (s8)r0;";
              "r0 = r2;"; "r0 += 32768;"; "r0 = (s16)r0;"; "r0 = r2;"; "r1 = 0x80000000 ll;";
              "r0 += r1;"; "r0 = (s32)r0;"; "r0 = 0;"; "exit;"] |}.

Definition step_linked_regs_add64_tags : list tag :=
  [__success; __log_level "2"; __msg "r1 += 1 {{.*}}step=1+3)";
   __msg "if r0 > 0x6 {{.*}}R1=scalar({{.*}}smin=umin=smin32=umin32=1,smax=umax=smax32=umax32=7,{{.*}}step=1+3)"].
Definition step_linked_regs_add64 : test :=
  {| tags := step_linked_regs_add64_tags;
     body := ["call 7;"; "r0 &= 3;"; "r0 *= 3;"; "r1 = r0;"; "r1 += 1;";
              "if r0 > 6 goto l_out_0;"; "r0 = r1;"; "l_out_0:"; "r0 = 0;"; "exit;"] |}.

Definition step_bounds_resync_after_arith_tags : list tag :=
  [__success; __log_level "2";
   __msg "r0 += 8 {{.*}}smin=umin=smin32=umin32=8,smax=umax=smax32=umax32=176,{{.*}}step=8+24)";
   __msg "from 4 to 6: R0=scalar(smin=umin=smin32=umin32=32,smax=umax=smax32=umax32=176,{{.*}}step=8+24)";
   __msg "r1 = r0 {{.*}}R1=scalar(id={{[0-9]+}},smin=umin=smin32=umin32=104,smax=umax=smax32=umax32=176,{{.*}}step=8+24)";
   __msg "r1 += 24 {{.*}}R1=scalar({{.*}}smin=umin=smin32=umin32=128,smax=umax=smax32=umax32=200,{{.*}}step=8+24)"].
Definition step_bounds_resync_after_arith : test :=
  {| tags := step_bounds_resync_after_arith_tags;
     body := ["call 7;"; "r0 &= 7;"; "r0 *= 24;"; "r0 += 8;"; "if r0 & 0x10 goto l_set_1;";
              "goto l_out_1;"; "l_set_1:"; "if r0 <= 80 goto l_out_1;"; "r1 = r0;"; "r1 += 24;";
              "*(u64 *)(r10 - 8) = r1;"; "l_out_1:"; "r0 = 0;"; "exit;"] |}.

Definition step_movsx_bounds_on_line_tags : list tag :=
  [__success; __log_level "2";
   __msg "r1 = (s16)r0 {{.*}}R1=scalar(id={{[0-9]+}},smin=smin32=0,smax=umax=smax32=umax32=168,{{.*}}step=0+24)";
   __msg "r2 = (s16)r0 {{.*}}R2=scalar(smin=smin32=-24,smax=smax32=144,{{.*}}step=0+24)";
   __msg "r3 = (s8)r0 {{.*}}R3=scalar(smin=smin32=-128,smax=smax32=127)";
   __msg "w4 = (s16)w1 {{.*}}R4=scalar(id={{[0-9]+}},smin=smin32=0,smax=umax=smax32=umax32=168,{{.*}}step=0+24)";
   __msg "w5 = (s8)w1 {{.*}}R5=scalar({{.*}}smin32=-128,smax32=127,var_off=(0x0; 0xffffffff))"].
Definition step_movsx_bounds_on_line : test :=
  {| tags := step_movsx_bounds_on_line_tags;
     body := ["call 7;"; "r0 &= 7;"; "r0 *= 24;"; "r1 = (s16)r0;"; "r0 += -24;"; "r2 = (s16)r0;";
              "r3 = (s8)r0;"; "w4 = (s16)w1;"; "w5 = (s8)w1;"; "r0 = 0;"; "exit;"] |}.

Definition step_prune_hit_multiple_tags : list tag :=
  [__success; __log_level "2";
   __msg "7: (27) r6 *= 4                       ; R6=scalar({{.*}}umin32=8,{{.*}}umax32=68,{{.*}},step=0+4)";
   __msg "10: (27) r7 *= 2                      ; R7=scalar({{.*}}umin32=4,{{.*}}umax32=130,{{.*}},step=0+2)";
   __msg "11: (25) if r0 > 0x2a goto pc+1"; __msg "from 11 to 13: safe";
   __flag "BPF_F_TEST_STATE_FREQ"].
Definition step_prune_hit_multiple : test :=
  {| tags := step_prune_hit_multiple_tags;
     body := ["call 7;"; "r6 = r0;"; "call 7;"; "r7 = r0;"; "call 7;"; "r6 &= 0x0f;"; "r6 += 2;";
              "r6 *= 4;"; "r7 &= 0x3f;"; "r7 += 2;"; "r7 *= 2;"; "if r0 > 42 goto 1f;";
              "r6 = r7;"; "1:"; "r0 = r10;"; "r6 = -r6;"; "r0 += r6;"; "*(u8 *)(r0 + 0) = 7;";
              "exit;"] |}.

Definition step_prune_miss_non_multiple_tags : list tag :=
  [__success; __log_level "2";
   __msg "6: (27) r6 *= 2                       ; R6=scalar({{.*}}smin32=0,{{.*}}umax32=30,{{.*}},step=0+2)";
   __msg "8: (27) r7 *= 3                       ; R7=scalar({{.*}}smin32=0,{{.*}}umax32=189,{{.*}},step=0+3)";
   __msg "9: (25) if r0 > 0x2a goto pc+1"; __msg "17: (95) exit";
   __msg "from 9 to 11: R6=scalar({{.*}},step=0+2)"; __flag "BPF_F_TEST_STATE_FREQ"].
Definition step_prune_miss_non_multiple : test :=
  {| tags := step_prune_miss_non_multiple_tags;
     body := ["call 7;"; "r6 = r0;"; "call 7;"; "r7 = r0;"; "call 7;"; "r6 &= 0x0f;"; "r6 *= 2;";
              "r7 &= 0x3f;"; "r7 *= 3;"; "if r0 > 42 goto 1f;"; "r6 = r7;"; "1:"; "r2 = r10;";
              "r6 += 1;"; "r6 = -r6;"; "r2 += r6;"; "*(u8 *)(r2 + 0) = 7;"; "r0 = 0;"; "exit;"] |}.

(** * verifier_linked_scalars.rs *)

Definition sync_linked_regs_preserves_id_tags : list tag :=
  [__success].
Definition sync_linked_regs_preserves_id : test :=
  {| tags := sync_linked_regs_preserves_id_tags;
     body := ["call 7;"; "r0 &= 0xff;"; "r1 = r0;"; "r1 += 4;"; "if r1 < 10 goto l0_1;";
              "r2 = r0;"; "if r1 < 14 goto l0_1;"; "if r0 >= 10 goto l0_1;"; "r0 /= 0;"; "l0_1:";
              "r0 = 0;"; "exit;"] |}.

Definition scalars_neg_tags : list tag :=
  [__success].
Definition scalars_neg : test :=
  {| tags := scalars_neg_tags;
     body := ["call 7;"; "r0 &= 0xff;"; "r1 = r0;"; "r1 += -4;"; "if r1 s< 0 goto l0_2;";
              "if r0 != 0 goto l0_2;"; "r0 /= 0;"; "l0_2:"; "r0 = 0;"; "exit;"] |}.

Definition scalars_neg_sub_tags : list tag :=
  [__success].
Definition scalars_neg_sub : test :=
  {| tags := scalars_neg_sub_tags;
     body := ["call 7;"; "r0 &= 0xff;"; "r1 = r0;"; "r1 -= 4;"; "if r1 s< 0 goto l0_3;";
              "if r0 != 0 goto l0_3;"; "r0 /= 0;"; "l0_3:"; "r0 = 0;"; "exit;"] |}.

Definition scalars_neg_alu32_add_tags : list tag :=
  [__success].
Definition scalars_neg_alu32_add : test :=
  {| tags := scalars_neg_alu32_add_tags;
     body := ["call 7;"; "w0 &= 0xff;"; "w1 = w0;"; "w1 += -4;"; "if w1 s< 0 goto l0_4;";
              "if w0 != 0 goto l0_4;"; "r0 /= 0;"; "l0_4:"; "r0 = 0;"; "exit;"] |}.

Definition scalars_neg_alu32_sub_tags : list tag :=
  [__success].
Definition scalars_neg_alu32_sub : test :=
  {| tags := scalars_neg_alu32_sub_tags;
     body := ["call 7;"; "w0 &= 0xff;"; "w1 = w0;"; "w1 -= 4;"; "if w1 s< 0 goto l0_5;";
              "if w0 != 0 goto l0_5;"; "r0 /= 0;"; "l0_5:"; "r0 = 0;"; "exit;"] |}.

Definition scalars_pos_tags : list tag :=
  [__success].
Definition scalars_pos : test :=
  {| tags := scalars_pos_tags;
     body := ["call 7;"; "r0 &= 0xff;"; "r1 = r0;"; "r1 += 4;"; "if r1 < 6 goto l0_6;";
              "if r0 != 0 goto l0_6;"; "r0 /= 0;"; "l0_6:"; "r0 = 0;"; "exit;"] |}.

Definition scalars_sub_neg_imm_tags : list tag :=
  [__success].
Definition scalars_sub_neg_imm : test :=
  {| tags := scalars_sub_neg_imm_tags;
     body := ["call 7;"; "r0 &= 0xff;"; "r1 = r0;"; "r1 -= -4;"; "if r1 < 6 goto l0_7;";
              "if r0 != 0 goto l0_7;"; "r0 /= 0;"; "l0_7:"; "r0 = 0;"; "exit;"] |}.

Definition scalars_sync_delta_overflow_tags : list tag :=
  [__success].
Definition scalars_sync_delta_overflow : test :=
  {| tags := scalars_sync_delta_overflow_tags;
     body := ["call 7;"; "r0 &= 0xff;"; "r1 = r0;"; "r2 = r0;"; "r1 += -2147483648;"; "r2 += 1;";
              "if r2 s< 100 goto l0_9;"; "if r1 s< 0 goto l0_9;"; "r0 /= 0;"; "l0_9:"; "r0 = 0;";
              "exit;"] |}.

Definition scalars_sync_delta_overflow_large_range_tags : list tag :=
  [__success].
Definition scalars_sync_delta_overflow_large_range : test :=
  {| tags := scalars_sync_delta_overflow_large_range_tags;
     body := ["call 7;"; "r0 &= 0xff;"; "r1 = r0;"; "r2 = r0;"; "r1 += 2147483647;"; "r2 += -1;";
              "if r2 s< 0 goto l0_10;"; "if r1 s>= 0 goto l0_10;"; "r0 /= 0;"; "l0_10:";
              "r0 = 0;"; "exit;"] |}.

Definition scalars_alu32_big_offset_tags : list tag :=
  [__success].
Definition scalars_alu32_big_offset : test :=
  {| tags := scalars_alu32_big_offset_tags;
     body := ["call 7;"; "w0 &= 0xff;"; "w1 = w0;"; "w1 += 0x7FFFFFFF;";
              "if w1 s>= 0 goto l0_11;"; "if w0 != 0 goto l0_11;"; "r0 /= 0;"; "l0_11:";
              "r0 = 0;"; "exit;"] |}.

Definition scalars_alu32_wrap_tags : list tag :=
  [__success].
Definition scalars_alu32_wrap : test :=
  {| tags := scalars_alu32_wrap_tags;
     body := ["call 7;"; "w0 |= 0xffffff00;"; "r1 = r0;"; "w1 += 0x100;";
              "if r1 > 0x80 goto l0_12;"; "r2 = r0;"; "r2 >>= 32;"; "if r2 == 0 goto l0_12;";
              "r0 /= 0;"; "l0_12:"; "r0 = 0;"; "exit;"] |}.

Definition scalars_alu32_zext_linked_reg_tags : list tag :=
  [__success].
Definition scalars_alu32_zext_linked_reg : test :=
  {| tags := scalars_alu32_zext_linked_reg_tags;
     body := ["call 7;"; "w6 = w0;"; "r7 = r6;"; "w7 += 1;"; "r8 = 0xFFFFffff ll;";
              "if r6 < r8 goto l0_13;"; "r7 >>= 32;"; "if r7 == 0 goto l0_13;"; "r0 /= 0;";
              "l0_13:"; "r0 = 0;"; "exit;"] |}.

(** * verifier_scalar_ids.rs *)

Definition linked_regs_bpf_k_tags : list tag :=
  [__success; __log_level "2"; __msg "6: (0f) r3 += r0";
   __msg "frame0: regs=r0 stack= before 4: (25) if r1 > 0x7 goto pc+0";
   __msg "frame0: parent state regs=r0,r1,r2 stack=:";
   __msg "frame0: regs=r0,r1,r2 stack= before 3: (bf) r2 = r0"; __msg "from 4 to 5: ";
   __msg "6: (0f) r3 += r0"; __msg "frame0: regs=r0 stack= before 5: (bf) r3 = r10";
   __msg "frame0: regs=r0 stack= before 4: (25) if r1 > 0x7 goto pc+0";
   __msg "frame0: parent state regs= stack=:"; __flag "BPF_F_TEST_STATE_FREQ"].
Definition linked_regs_bpf_k : test :=
  {| tags := linked_regs_bpf_k_tags;
     body := ["call 5;"; "r0 &= 0xff;"; "r1 = r0;"; "r2 = r0;"; "if r1 > 7 goto +0;"; "r3 = r10;";
              "r3 += r0;"; "r1 = r1;"; "r2 = r2;"; "r0 = 0;"; "exit;"] |}.

Definition linked_regs_bpf_x_src_tags : list tag :=
  [__success; __log_level "2"; __flag "BPF_F_TEST_STATE_FREQ";
   __msg "frame0: regs=r0 stack= before 5: (2d) if r1 > r3 goto pc+0";
   __msg "frame0: parent state regs=r0,r1,r2,r3 stack=:";
   __msg "frame0: regs=r0,r1,r2,r3 stack= before 4: (b7) r3 = 7"].
Definition linked_regs_bpf_x_src : test :=
  {| tags := linked_regs_bpf_x_src_tags;
     body := ["call 5;"; "r0 &= 0xff;"; "r1 = r0;"; "r2 = r0;"; "r3 = 7;"; "if r1 > r3 goto +0;";
              "r4 = r10;"; "r4 += r0;"; "r1 = r1;"; "r2 = r2;"; "r0 = 0;"; "exit;"] |}.

Definition linked_regs_bpf_x_dst_tags : list tag :=
  [__success; __log_level "2"; __flag "BPF_F_TEST_STATE_FREQ";
   __msg "frame0: regs=r3 stack= before 5: (2d) if r1 > r3 goto pc+0";
   __msg "frame0: parent state regs=r0,r1,r2,r3 stack=:";
   __msg "frame0: regs=r0,r1,r2,r3 stack= before 4: (b7) r3 = 7"].
Definition linked_regs_bpf_x_dst : test :=
  {| tags := linked_regs_bpf_x_dst_tags;
     body := ["call 5;"; "r0 &= 0xff;"; "r1 = r0;"; "r2 = r0;"; "r3 = 7;"; "if r1 > r3 goto +0;";
              "r4 = r10;"; "r4 += r3;"; "r0 = r0;"; "r1 = r1;"; "r2 = r2;"; "r0 = 0;"; "exit;"] |}.

Definition linked_regs_broken_link_tags : list tag :=
  [__success; __log_level "2"; __msg "7: (0f) r3 += r0";
   __msg "frame0: regs=r0 stack= before 6: (bf) r3 = r10";
   __msg "frame0: parent state regs=r0 stack=:";
   __msg "frame0: regs=r0 stack= before 5: (25) if r0 > 0x7 goto pc+0";
   __msg "frame0: parent state regs=r0,r2 stack=:"; __flag "BPF_F_TEST_STATE_FREQ"].
Definition linked_regs_broken_link : test :=
  {| tags := linked_regs_broken_link_tags;
     body := ["call 5;"; "r0 &= 0xff;"; "r1 = r0;"; "r2 = r0;"; "r1 = 0;"; "if r0 > 7 goto +0;";
              "r3 = r10;"; "r3 += r0;"; "r1 = r1;"; "r2 = r2;"; "r0 = 0;"; "exit;"] |}.

Definition precision_two_ids_tags : list tag :=
  [__success; __log_level "2"; __msg "12: (0f) r3 += r7";
   __msg "frame0: regs=r7 stack= before 11: (bf) r3 = r10";
   __msg "frame0: regs=r7 stack= before 9: (25) if r7 > 0x7 goto pc+0";
   __msg "frame0: regs=r6,r7 stack= before 3: (bf) r7 = r0";
   __msg "frame0: regs=r0,r6 stack= before 2: (bf) r6 = r0"; __msg "13: (0f) r3 += r9";
   __msg "frame0: regs=r9 stack= before 12: (0f) r3 += r7";
   __msg "frame0: regs=r9 stack= before 10: (25) if r9 > 0x7 goto pc+0";
   __msg "frame0: regs=r8,r9 stack= before 7: (bf) r9 = r0";
   __msg "frame0: regs=r0,r8 stack= before 6: (bf) r8 = r0"; __flag "BPF_F_TEST_STATE_FREQ"].
Definition precision_two_ids : test :=
  {| tags := precision_two_ids_tags;
     body := ["call 5;"; "r0 &= 0xff;"; "r6 = r0;"; "r7 = r0;"; "call 5;"; "r0 &= 0xff;";
              "r8 = r0;"; "r9 = r0;"; "r0 = 0;"; "if r7 > 7 goto +0;"; "if r9 > 7 goto +0;";
              "r3 = r10;"; "r3 += r7;"; "r3 += r9;"; "r6 = r6;"; "r8 = r8;"; "exit;"] |}.

Definition linked_regs_too_many_regs_tags : list tag :=
  [__success; __log_level "2"; __flag "BPF_F_TEST_STATE_FREQ";
   __msg "7: (25) if r5 > 0x7 goto pc+0         ; R5=scalar(smin=";
   __msg "12: (bf) r5 = r5                      ; R5=scalar(id=2";
   __msg "frame0: regs=r0 stack= before 7: (25) if r5 > 0x7 goto pc+0";
   __msg "frame0: parent state regs=r0,r1,r2,r3,r4 stack=:"].
Definition linked_regs_too_many_regs : test :=
  {| tags := linked_regs_too_many_regs_tags;
     body := ["call 5;"; "r0 &= 0xff;"; "r1 = r0;"; "r2 = r0;"; "r3 = r0;"; "r4 = r0;";
              "r5 = r0;"; "if r5 > 7 goto +0;"; "r1 = r1;"; "r2 = r2;"; "r3 = r3;"; "r4 = r4;";
              "r5 = r5;"; "r7 = r10;"; "r7 += r0;"; "r0 = 0;"; "exit;"] |}.

Definition cjmp_no_linked_regs_trigger_tags : list tag :=
  [__success; __log_level "2"; __msg "3: (25) if r1 > 0x100 goto pc+0";
   __msg "frame0: regs=r1 stack= before 2: (bf) r1 = r0"].
Definition cjmp_no_linked_regs_trigger : test :=
  {| tags := cjmp_no_linked_regs_trigger_tags;
     body := ["call 5;"; "r0 &= 0xff;"; "r1 = r0;"; "if r1 > 256 goto +0;"; "r0 = 0;"; "exit;"] |}.

Definition no_scalar_id_for_const_tags : list tag :=
  [__success; __log_level "2"; __msg "14: (1d) if r3 == r4 goto pc+0";
   __msg "frame 0: propagating r3,r4"; __msg "14: safe"; __msg "processed 18 insns";
   __flag "BPF_F_TEST_STATE_FREQ"].
Definition no_scalar_id_for_const : test :=
  {| tags := no_scalar_id_for_const_tags;
     body := ["call 5;"; "if r0 > 7 goto l0_2;"; "r1 = 0;"; "r1 ^= r1;"; "r1 = r1;"; "r3 = r1;";
              "r4 = r1;"; "goto l1_2;"; "l0_2:"; "r1 = 0;"; "r1 ^= r1;"; "r2 = 0;"; "r2 ^= r2;";
              "r3 = r1;"; "r4 = r2;"; "l1_2:"; "if r3 == r4 goto +0;"; "r0 = 0;"; "exit;"] |}.

Definition no_scalar_id_for_const32_tags : list tag :=
  [__success; __log_level "2"; __msg "14: (1e) if w3 == w4 goto pc+0";
   __msg "frame 0: propagating r3,r4"; __msg "14: safe"; __msg "processed 18 insns";
   __flag "BPF_F_TEST_STATE_FREQ"].
Definition no_scalar_id_for_const32 : test :=
  {| tags := no_scalar_id_for_const32_tags;
     body := ["call 5;"; "if r0 > 7 goto l0_3;"; "w1 = 0;"; "w1 ^= w1;"; "w1 = w1;"; "w3 = w1;";
              "w4 = w1;"; "goto l1_3;"; "l0_3:"; "w1 = 0;"; "w1 ^= w1;"; "w2 = 0;"; "w2 ^= w2;";
              "w3 = w1;"; "w4 = w2;"; "l1_3:"; "if w3 == w4 goto +0;"; "r0 = 0;"; "exit;"] |}.

Definition ignore_unique_scalar_ids_cur_tags : list tag :=
  [__success; __log_level "2"; __msg "6: (25) if r6 > 0x7 goto pc+1"; __msg "7: (57) r1 &= 255";
   __msg "8: (bf) r2 = r10"; __msg "from 6 to 8: safe"; __msg "processed 12 insns";
   __flag "BPF_F_TEST_STATE_FREQ"].
Definition ignore_unique_scalar_ids_cur : test :=
  {| tags := ignore_unique_scalar_ids_cur_tags;
     body := ["call 5;"; "r6 = r0;"; "call 5;"; "r0 &= 0xff;"; "r1 = r0;"; "r0 = 0;";
              "if r6 > 7 goto l0_4;"; "r1 &= 0xff;"; "l0_4:"; "r2 = r10;"; "r2 += r1;"; "exit;"] |}.

Definition ignore_unique_scalar_ids_old_tags : list tag :=
  [__success; __log_level "2"; __msg "6: (25) if r6 > 0x7 goto pc+1"; __msg "7: (05) goto pc+1";
   __msg "9: (bf) r2 = r10"; __msg "9: safe"; __msg "processed 13 insns";
   __flag "BPF_F_TEST_STATE_FREQ"].
Definition ignore_unique_scalar_ids_old : test :=
  {| tags := ignore_unique_scalar_ids_old_tags;
     body := ["call 5;"; "r6 = r0;"; "call 5;"; "r0 &= 0xff;"; "r1 = r0;"; "r0 = 0;";
              "if r6 > 7 goto l1_5;"; "goto l0_5;"; "l1_5:"; "r1 &= 0xff;"; "l0_5:"; "r2 = r10;";
              "r2 += r1;"; "exit;"] |}.

Definition two_nil_old_ids_one_cur_id_tags : list tag :=
  [__success; __log_level "2"; __msg "12: safe"; __msg "processed 17 insns";
   __flag "BPF_F_TEST_STATE_FREQ"].
Definition two_nil_old_ids_one_cur_id : test :=
  {| tags := two_nil_old_ids_one_cur_id_tags;
     body := ["call 5;"; "r0 &= 0xff;"; "r6 = r0;"; "r6 *= 1;"; "call 5;"; "r0 &= 0xff;";
              "r7 = r0;"; "r7 *= 1;"; "r0 = 0;"; "if r6 > r7 goto l0_6;"; "goto l1_6;"; "l0_6:";
              "r6 = r7;"; "l1_6:"; "r2 = r10;"; "r2 += r6;"; "r2 += r7;"; "exit;"] |}.

Definition two_old_ids_one_cur_id_tags : list tag :=
  [__success; __log_level "2"; __msg "16: (95) exit"; __msg "16: (95) exit";
   __msg "processed 22 insns"; __flag "BPF_F_TEST_STATE_FREQ"].
Definition two_old_ids_one_cur_id : test :=
  {| tags := two_old_ids_one_cur_id_tags;
     body := ["call 5;"; "r0 &= 0xff;"; "r6 = r0;"; "r8 = r0;"; "call 5;"; "r0 &= 0xff;";
              "r7 = r0;"; "r9 = r0;"; "r0 = 0;"; "if r6 > r7 goto l0_7;"; "goto l1_7;"; "l0_7:";
              "r6 = r7;"; "l1_7:"; "r2 = r10;"; "r2 += r6;"; "r2 += r7;"; "r9 += r8;"; "exit;"] |}.

Definition linked_regs_and_subreg_def_tags : list tag :=
  [__flag "BPF_F_TEST_RND_HI32"; __success; __retval "0"; __log_level "2";
   __msg "4: (77) r1 >>= 32                     ; R1=0";
   __msg "5: (bf) r0 = r1                       ; R0=0 R1=0"; __msg "6: (95) exit";
   __msg "from 3 to 4"; __msg "4: (77) r1 >>= 32                     ; R1=0";
   __msg "5: (bf) r0 = r1                       ; R0=0 R1=0"; __msg "6: (95) exit";
   __xlated "call unknown"; __xlated "r0 &= 2147483647"; __xlated "w1 = w0";
   __xlated "if w0 < 0xa goto pc+0"; __xlated "r1 >>= 32"; __xlated "r0 = r1"; __xlated "exit"].
Definition linked_regs_and_subreg_def : test :=
  {| tags := linked_regs_and_subreg_def_tags;
     body := ["call 5;"; "r0 &= 0x7fffffff;"; "w1 = w0;"; "if w0 < 10 goto +0;"; "r1 >>= 32;";
              "r0 = r1;"; "exit;"] |}.

(** * verifier_reg_equal.rs *)

Definition subreg_equality_1_tags : list tag :=
  [__description "check w reg equal if r reg upper32 bits 0"; __success].
Definition subreg_equality_1 : test :=
  {| tags := subreg_equality_1_tags;
     body := ["call 5;"; "*(u64 *)(r10 - 8) = r0;"; "r2 = *(u32 *)(r10 - 8);"; "w3 = w2;";
              "if w2 < 9 goto l0_0;"; "exit;"; "l0_0:"; "if r3 < 9 goto l1_0;"; "r0 -= r1;";
              "l1_0:"; "exit;"] |}.

Definition modelled : list test :=
  [_32bit_and_64bit_arithmetic_test1; _32bit_and_64bit_arithmetic_test2; non_const_xor_src_dst;
   non_const_or_src_dst; non_const_mul_regs; mult_mixed0_sign; mult_mixed1_sign; mult_sign_bounds;
   mult_no_sign_crossing; mult_unsign_ovf; mult_sign_ovf; add64_full_overflow;
   add64_partial_overflow; add32_full_overflow; add32_partial_overflow; sub64_full_overflow;
   sub64_partial_overflow; sub32_full_overflow; sub32_partial_overflow;
   bounds_deduct_negative_overlap; bounds_deduct_positive_overlap; jne_disagreeing_tnums;
   jeq_disagreeing_tnums; condition_jump_on_same_register; jset_on_same_register_1;
   jset_on_same_register_2; jset_on_same_register_3; jset_on_same_register_4;
   jset_on_same_register_5; signed_unsigned_intersection32_case1;
   signed_unsigned_intersection32_case2; deduce64_from_32_before_block_start;
   deduce64_from_32_wrapping_32bit; deducing_bounds_from_const_2; deducing_bounds_from_const_4;
   deducing_bounds_from_non_const_1; deducing_bounds_from_non_const_2;
   deducing_bounds_from_non_const_3; deducing_bounds_from_non_const_4;
   deducing_bounds_from_non_const_5; deducing_bounds_from_non_const_6;
   deducing_bounds_from_non_const_7; deducing_bounds_from_non_const_8;
   deducing_bounds_from_non_const_9; deducing_bounds_from_non_const_10;
   deducing_bounds_from_non_const_11; deducing_bounds_from_non_const_12;
   deducing_bounds_from_non_const_13; deducing_bounds_from_non_const_14;
   deducing_bounds_from_non_const_15; deducing_bounds_from_non_const_16;
   deducing_bounds_from_non_const_17; deducing_bounds_from_non_const_18;
   deducing_bounds_from_non_const_19; deducing_bounds_from_non_const_20;
   deducing_bounds_from_non_const_21; deducing_bounds_from_non_const_22;
   deducing_bounds_from_non_const_23; deducing_bounds_from_non_const_24;
   deducing_bounds_from_non_const_25; deducing_bounds_from_non_const_26;
   deducing_bounds_from_non_const_27; deducing_bounds_from_non_const_28;
   deducing_bounds_from_non_const_29; deducing_bounds_from_non_const_30; step_arith64_no_overflow;
   step_arith32_no_overflow; step_neg_value_range; step_arith32_overflow; step_arith64_overflow;
   step_mov32_truncate; step_mov32_negative; step_movsx; step_linked_regs_add64;
   step_bounds_resync_after_arith; step_movsx_bounds_on_line; step_prune_hit_multiple;
   step_prune_miss_non_multiple; sync_linked_regs_preserves_id; scalars_neg; scalars_neg_sub;
   scalars_neg_alu32_add; scalars_neg_alu32_sub; scalars_pos; scalars_sub_neg_imm;
   scalars_sync_delta_overflow; scalars_sync_delta_overflow_large_range; scalars_alu32_big_offset;
   scalars_alu32_wrap; scalars_alu32_zext_linked_reg; linked_regs_bpf_k; linked_regs_bpf_x_src;
   linked_regs_bpf_x_dst; linked_regs_broken_link; precision_two_ids; linked_regs_too_many_regs;
   cjmp_no_linked_regs_trigger; no_scalar_id_for_const; no_scalar_id_for_const32;
   ignore_unique_scalar_ids_cur; ignore_unique_scalar_ids_old; two_nil_old_ids_one_cur_id;
   two_old_ids_one_cur_id; linked_regs_and_subreg_def; subreg_equality_1].

Lemma bounds_as_logged : Forall as_logged modelled.
Proof. apply all_logged_sound; vm_compute; reflexivity. Qed.
