(* ===== verification/Stack.v ===== *)
(** The stack and pointers to it: src/progs/verifier_stack_ptr.rs,
    verifier_spill_fill.rs, verifier_live_stack.rs, verifier_basic_stack.rs,
    verifier_raw_stack.rs, verifier_private_stack.rs, verifier_align.rs and
    verifier_unpriv.rs.

    Each naked function is a [test]: its tags and its assembly text, verbatim.  The
    programs the loader expects to be accepted are taken, save those that touch
    maps, packets, the context, global data or subprograms or call other helpers
    than [bpf_ktime_get_ns] and [bpf_get_prandom_u32], and save these.
    check_valid_spill_fill, check_corrupted_spill_fill_lsb,
    check_corrupted_spill_fill_msb and unpriv_return_pointer declare 0xbadcafe,
    which stands for a pointer; spill_32bit_range_track, spill_unbounded and
    fill_32bit_after_spill_64bit_preserve_id narrow a register together with its
    spilled copy, over too many values to take one at a time, and
    spill_64bit_of_64bit_ok rests on a single known bit; the lines of
    stack_ptr_subrange_in_loop show a state without the instruction it is of;
    spill_subregs_preserve_stack_zero, stack_check_size_512_with_may_goto_jit and
    stack_noperfmon_reject_atomic_on_narrow_spill use instructions [Asm] does not
    read, and to_stack_check_low_2_large a larger stack. *)

From S2P Require Import Prelude Bpf Asm Range Loader Loops.
From Stdlib Require Import String.
Local Open Scope string_scope.
Local Open Scope Z_scope.

(** * verifier_stack_ptr.rs *)

Definition ptr_to_stack_store_load_tags : list tag :=
  [__description "PTR_TO_STACK store/load"; __success; __success_unpriv; __retval "0xfaceb00c"].
Definition ptr_to_stack_store_load : test :=
  {| tags := ptr_to_stack_store_load_tags;
     body := ["r1 = r10;"; "r1 += -10;"; "r0 = 0xfaceb00c;"; "*(u64*)(r1 + 2) = r0;";
              "r0 = *(u64*)(r1 + 2);"; "exit;"] |}.

Definition to_stack_check_high_1_tags : list tag :=
  [__description "PTR_TO_STACK check high 1"; __success; __success_unpriv; __retval "42"].
Definition to_stack_check_high_1 : test :=
  {| tags := to_stack_check_high_1_tags;
     body := ["r1 = r10;"; "r1 += -1;"; "r0 = 42;"; "*(u8*)(r1 + 0) = r0;";
              "r0 = *(u8*)(r1 + 0);"; "exit;"] |}.

Definition to_stack_check_high_2_tags : list tag :=
  [__description "PTR_TO_STACK check high 2"; __success; __success_unpriv; __retval "42"].
Definition to_stack_check_high_2 : test :=
  {| tags := to_stack_check_high_2_tags;
     body := ["r1 = r10;"; "r0 = 42;"; "*(u8*)(r1 - 1) = r0;"; "r0 = *(u8*)(r1 - 1);"; "exit;"] |}.

Definition to_stack_check_high_3_tags : list tag :=
  [__description "PTR_TO_STACK check high 3"; __success; __failure_unpriv;
   __msg_unpriv "R1 stack pointer arithmetic goes out of range"; __retval "42"].
Definition to_stack_check_high_3 : test :=
  {| tags := to_stack_check_high_3_tags;
     body := ["r1 = r10;"; "r1 += 0;"; "r0 = 42;"; "*(u8*)(r1 - 1) = r0;"; "r0 = *(u8*)(r1 - 1);";
              "exit;"] |}.

Definition to_stack_check_low_1_tags : list tag :=
  [__description "PTR_TO_STACK check low 1"; __success; __success_unpriv; __retval "42"].
Definition to_stack_check_low_1 : test :=
  {| tags := to_stack_check_low_1_tags;
     body := ["r1 = r10;"; "r1 += -512;"; "r0 = 42;"; "*(u8*)(r1 + 0) = r0;";
              "r0 = *(u8*)(r1 + 0);"; "exit;"] |}.

Definition to_stack_check_low_2_tags : list tag :=
  [__description "PTR_TO_STACK check low 2"; __load_if_no_large_stack; __success;
   __failure_unpriv; __msg_unpriv "R1 stack pointer arithmetic goes out of range"; __retval "42"].
Definition to_stack_check_low_2 : test :=
  {| tags := to_stack_check_low_2_tags;
     body := ["r1 = r10;"; "r1 += -513;"; "r0 = 42;"; "*(u8*)(r1 + 1) = r0;";
              "r0 = *(u8*)(r1 + 1);"; "exit;"] |}.

Definition stack_mixed_reg_k_1_tags : list tag :=
  [__description "PTR_TO_STACK mixed reg/k, 1"; __success; __success_unpriv; __retval "42"].
Definition stack_mixed_reg_k_1 : test :=
  {| tags := stack_mixed_reg_k_1_tags;
     body := ["r1 = r10;"; "r1 += -3;"; "r2 = -3;"; "r1 += r2;"; "r0 = 42;";
              "*(u8*)(r1 + 0) = r0;"; "r0 = *(u8*)(r1 + 0);"; "exit;"] |}.

Definition stack_mixed_reg_k_2_tags : list tag :=
  [__description "PTR_TO_STACK mixed reg/k, 2"; __success; __success_unpriv; __retval "42"].
Definition stack_mixed_reg_k_2 : test :=
  {| tags := stack_mixed_reg_k_2_tags;
     body := ["r0 = 0;"; "*(u64*)(r10 - 8) = r0;"; "r0 = 0;"; "*(u64*)(r10 - 16) = r0;";
              "r1 = r10;"; "r1 += -3;"; "r2 = -3;"; "r1 += r2;"; "r0 = 42;";
              "*(u8*)(r1 + 0) = r0;"; "r5 = r10;"; "r0 = *(u8*)(r5 - 6);"; "exit;"] |}.

Definition stack_mixed_reg_k_3_tags : list tag :=
  [__description "PTR_TO_STACK mixed reg/k, 3"; __success; __success_unpriv; __retval "-3"].
Definition stack_mixed_reg_k_3 : test :=
  {| tags := stack_mixed_reg_k_3_tags;
     body := ["r1 = r10;"; "r1 += -3;"; "r2 = -3;"; "r1 += r2;"; "r0 = 42;";
              "*(u8*)(r1 + 0) = r0;"; "r0 = r2;"; "exit;"] |}.

Definition ptr_to_stack_reg_tags : list tag :=
  [__description "PTR_TO_STACK reg"; __success; __success_unpriv; __retval "42"].
Definition ptr_to_stack_reg : test :=
  {| tags := ptr_to_stack_reg_tags;
     body := ["r1 = r10;"; "r2 = -3;"; "r1 += r2;"; "r0 = 42;"; "*(u8*)(r1 + 0) = r0;";
              "r0 = *(u8*)(r1 + 0);"; "exit;"] |}.

Definition stack_pointer_arithmetic_tags : list tag :=
  [__description "stack pointer arithmetic"; __success; __success_unpriv; __retval "0"].
Definition stack_pointer_arithmetic : test :=
  {| tags := stack_pointer_arithmetic_tags;
     body := ["r1 = 4;"; "goto l0_0;"; "l0_0:"; "r7 = r10;"; "r7 += -10;"; "r7 += -10;";
              "r2 = r7;"; "r2 += r1;"; "r0 = 0;"; "*(u32*)(r2 + 4) = r0;"; "r2 = r7;"; "r2 += 8;";
              "r0 = 0;"; "*(u32*)(r2 + 4) = r0;"; "r0 = 0;"; "exit;"] |}.

(** * verifier_spill_fill.rs *)

Definition uninit_u32_from_the_stack_tags : list tag :=
  [__description "Spill a u32 const, refill from another half of the uninit u32 from the stack";
   __success; __failure_unpriv; __msg_unpriv "invalid read from stack off -4+0 size 4";
   __retval "0"].
Definition uninit_u32_from_the_stack : test :=
  {| tags := uninit_u32_from_the_stack_tags;
     body := ["w4 = 20;"; "*(u32*)(r10 - 8) = r4;"; "r4 = *(u32*)(r10 - 4);"; "r0 = 0;"; "exit;"] |}.

Definition and_then_at_fp_8_tags : list tag :=
  [__description "Spill a u32 scalar at fp-4 and then at fp-8"; __success; __retval "0"].
Definition and_then_at_fp_8 : test :=
  {| tags := and_then_at_fp_8_tags;
     body := ["w4 = 4321;"; "*(u32*)(r10 - 4) = r4;"; "*(u32*)(r10 - 8) = r4;";
              "r4 = *(u64*)(r10 - 8);"; "r0 = 0;"; "exit;"] |}.

Definition spill_32bit_of_32bit_ok_tags : list tag :=
  [__description "32-bit spill of 32-bit reg should assign ID"; __success; __retval "0"].
Definition spill_32bit_of_32bit_ok : test :=
  {| tags := spill_32bit_of_32bit_ok_tags;
     body := ["call 7;"; "w0 &= 0x80000000;"; "*(u32*)(r10 - 8) = r0;"; "r1 = *(u32*)(r10 - 8);";
              "r2 = 0;"; "if r1 != r2 goto l0_12;"; "if r0 == r2 goto l0_12;";
              "r0 = *(u64*)(r9 + 0);"; "exit;"; "l0_12:"; "r0 = 0;"; "exit;"] |}.

Definition spill_16bit_of_16bit_ok_tags : list tag :=
  [__description "16-bit spill of 16-bit reg should assign ID"; __success; __retval "0"].
Definition spill_16bit_of_16bit_ok : test :=
  {| tags := spill_16bit_of_16bit_ok_tags;
     body := ["call 7;"; "r0 &= 0x8000;"; "*(u16*)(r10 - 8) = r0;"; "r1 = *(u16*)(r10 - 8);";
              "r2 = 0;"; "if r1 != r2 goto l0_13;"; "if r0 == r2 goto l0_13;";
              "r0 = *(u64*)(r9 + 0);"; "exit;"; "l0_13:"; "r0 = 0;"; "exit;"] |}.

Definition spill_8bit_of_8bit_ok_tags : list tag :=
  [__description "8-bit spill of 8-bit reg should assign ID"; __success; __retval "0"].
Definition spill_8bit_of_8bit_ok : test :=
  {| tags := spill_8bit_of_8bit_ok_tags;
     body := ["call 7;"; "r0 &= 0x80;"; "*(u8*)(r10 - 8) = r0;"; "r1 = *(u8*)(r10 - 8);";
              "r2 = 0;"; "if r1 != r2 goto l0_14;"; "if r0 == r2 goto l0_14;";
              "r0 = *(u64*)(r9 + 0);"; "exit;"; "l0_14:"; "r0 = 0;"; "exit;"] |}.

Definition fill_32bit_after_spill_64bit_tags : list tag :=
  [__description "32-bit fill after 64-bit spill"; __success; __retval "0"].
Definition fill_32bit_after_spill_64bit : test :=
  {| tags := fill_32bit_after_spill_64bit_tags;
     body := ["call 7;"; "r0 <<= 32;"; "*(u64*)(r10 - 8) = r0;"; "r0 = *(u32*)(r10 - 8);";
              "if r0 == 0 goto l0_16;"; "r0 = *(u64*)(r9 + 0);"; "l0_16:"; "exit;"] |}.

Definition old_imprecise_scalar_vs_cur_stack_misc_tags : list tag :=
  [__success; __log_level "2"; __msg "8: (79) r1 = *(u64 *)(r10 -8)"; __msg "8: safe";
   __msg "processed 11 insns"; __failure_unpriv; __msg_unpriv "8: (79) r1 = *(u64 *)(r10 -8)";
   __msg_unpriv "9: (95) exit"; __msg_unpriv "8: (79) r1 = *(u64 *)(r10 -8)";
   __msg_unpriv "invalid read from stack off -8+2 size 8"; __flag "BPF_F_TEST_STATE_FREQ"].
Definition old_imprecise_scalar_vs_cur_stack_misc : test :=
  {| tags := old_imprecise_scalar_vs_cur_stack_misc_tags;
     body := ["call 5;"; "if r0 == 0 goto 1f;"; "r0 = 42;"; "*(u64*)(r10 - 8) = r0;"; "goto 2f;";
              "1:"; "call 5;"; "*(u16*)(r10 - 8) = r0;"; "*(u16*)(r10 - 4) = r0;"; "2:";
              "r1 = *(u64*)(r10 - 8);"; "exit;"] |}.

Definition old_precise_scalar_vs_cur_stack_misc_tags : list tag :=
  [__success; __log_level "2"; __msg "if r1 == 0x2a goto pc+0"; __msg "if r1 == 0x2a goto pc+0";
   __msg "processed 15 insns"; __flag "BPF_F_TEST_STATE_FREQ"].
Definition old_precise_scalar_vs_cur_stack_misc : test :=
  {| tags := old_precise_scalar_vs_cur_stack_misc_tags;
     body := ["call 5;"; "if r0 == 0 goto 1f;"; "r0 = 42;"; "*(u64*)(r10 - 8) = r0;"; "goto 2f;";
              "1:"; "call 5;"; "*(u64*)(r10 - 8) = r0;"; "*(u32*)(r10 - 4) = r0;"; "2:";
              "r1 = *(u64*)(r10 - 8);"; "if r1 == 42 goto +0;"; "exit;"] |}.

Definition old_stack_misc_vs_cur_scalar_tags : list tag :=
  [__success; __log_level "2"; __msg "8: (79) r0 = *(u64 *)(r10 -8)"; __msg "8: safe";
   __msg "processed 11 insns"; __flag "BPF_F_TEST_STATE_FREQ"].
Definition old_stack_misc_vs_cur_scalar : test :=
  {| tags := old_stack_misc_vs_cur_scalar_tags;
     body := ["call 5;"; "if r0 == 0 goto 1f;"; "call 5;"; "*(u16*)(r10 - 8) = r0;";
              "*(u16*)(r10 - 4) = r0;"; "goto 2f;"; "1:"; "r0 = 42;"; "*(u64*)(r10 - 8) = r0;";
              "2:"; "r0 = *(u64*)(r10 - 8);"; "exit;"] |}.

Definition old_stack_misc_vs_cur_ctx_ptr_tags : list tag :=
  [__success; __log_level "2"; __msg "8: (79) r1 = *(u64 *)(r10 -8)"; __msg "9: (95) exit";
   __msg "from 2 to 7"; __msg "8: safe"; __msg "processed 11 insns"; __flag "BPF_F_TEST_STATE_FREQ"].
Definition old_stack_misc_vs_cur_ctx_ptr : test :=
  {| tags := old_stack_misc_vs_cur_ctx_ptr_tags;
     body := ["r9 = r1;"; "call 5;"; "if r0 == 0 goto 1f;"; "call 5;"; "*(u64*)(r10 - 8) = r0;";
              "*(u32*)(r10 - 4) = r0;"; "goto 2f;"; "1:"; "*(u64*)(r10 - 8) = r9;"; "2:";
              "r1 = *(u64*)(r10 - 8);"; "exit;"] |}.

Definition stack_noperfmon_reject_invalid_read_tags : list tag :=
  [__description "stack_noperfmon: reject read of invalid slots"; __success; __caps_unpriv "39";
   __failure_unpriv; __msg_unpriv "invalid read from stack off -8+1 size 8";
   __msg_unpriv "Verification failed: Memory Safety: Uninitialized stack read";
   __msg_unpriv "Initialize every byte in the stack range before reading it"].
Definition stack_noperfmon_reject_invalid_read : test :=
  {| tags := stack_noperfmon_reject_invalid_read_tags;
     body := ["r2 = 1;"; "r6 = r10;"; "r6 += -8;"; "*(u8 *)(r6 + 0) = r2;";
              "r2 = *(u64 *)(r6 + 0);"; "r0 = 0;"; "exit;"] |}.

Definition stack_noperfmon_spill_32bit_onto_64bit_slot_tags : list tag :=
  [__description "stack_noperfmon: narrow spill onto 64-bit scalar spilled slots"; __success;
   __caps_unpriv "39"; __success_unpriv].
Definition stack_noperfmon_spill_32bit_onto_64bit_slot : test :=
  {| tags := stack_noperfmon_spill_32bit_onto_64bit_slot_tags;
     body := ["r0 = 0;"; "*(u64 *)(r10 - 8) = r0;"; "*(u32 *)(r10 - 8) = r0;"; "exit;"] |}.

Definition old_imprecise_scalar32_vs_cur_stack_misc_tags : list tag :=
  [__success; __log_level "2"; __msg "8: (79) r1 = *(u64 *)(r10 -8)"; __msg "8: safe";
   __msg "processed 11 insns"; __flag "BPF_F_TEST_STATE_FREQ"].
Definition old_imprecise_scalar32_vs_cur_stack_misc : test :=
  {| tags := old_imprecise_scalar32_vs_cur_stack_misc_tags;
     body := ["call 5;"; "if r0 == 0 goto 1f;"; "r0 = 42;"; "*(u32*)(r10 - 8) = r0;"; "goto 2f;";
              "1:"; "call 5;"; "*(u16*)(r10 - 8) = r0;"; "*(u16*)(r10 - 6) = r0;"; "2:";
              "r1 = *(u64*)(r10 - 8);"; "exit;"] |}.

Definition var_off_write_over_scalar_spill_tags : list tag :=
  [__success].
Definition var_off_write_over_scalar_spill : test :=
  {| tags := var_off_write_over_scalar_spill_tags;
     body := ["call 5;"; "r6 = r0;"; "r6 &= 4;"; "r7 = 0xdeadbeef00000000 ll;";
              "*(u64 *)(r10 - 16) = r7;"; "r8 = r10;"; "r8 += r6;"; "r8 += -12;"; "r9 = 0;";
              "*(u32 *)(r8 + 0) = r9;"; "r0 = *(u32 *)(r10 - 16);"; "r0 = 0;"; "exit;"] |}.

(** * verifier_live_stack.rs *)

Definition dead_spill_at_merge_enables_pruning_tags : list tag :=
  [__flag "BPF_F_TEST_STATE_FREQ"; __success; __log_level "2"; __msg "6: safe"].
Definition dead_spill_at_merge_enables_pruning : test :=
  {| tags := dead_spill_at_merge_enables_pruning_tags;
     body := ["call 7;"; "r6 = 7;"; "if r0 != 0 goto l_skip3;"; "*(u64 *)(r10 - 8) = r6;";
              "call 7;"; "r6 = *(u64 *)(r10 - 8);"; "l_skip3:"; "r0 = r6;"; "exit;"] |}.

Definition load_acquire_dont_clear_dst_tags : list tag :=
  [__log_level "2"; __success; __msg "*(u64 *)(r0 +0) = 42         ; def: fp0-16"].
Definition load_acquire_dont_clear_dst : test :=
  {| tags := load_acquire_dont_clear_dst_tags;
     body := ["r0 = r10;"; "r0 += -16;"; "*(u64 *)(r0 + 0) = r0;"; ".8byte 1099511627995;";
              "r0 = *(u64 *)(r10 - 16);"; "*(u64 *)(r0 + 0) = 42;"; "r0 = 0;"; "exit;"] |}.

Definition atomic_rmw_tags : list tag :=
  [__log_level "2"; __success;
   __msg "lock *(u64 *)(r10 -8) += r1{{.*}}use: fp0-8{{.*}}may_def: fp0-8";
   __msg "r1 = atomic64_fetch_add((u64 *)(r10 -8), r1){{.*}}use: fp0-8{{.*}}may_def: fp0-8";
   __msg "r1 = atomic64_xchg((u64 *)(r10 -8), r1){{.*}}use: fp0-8{{.*}}may_def: fp0-8";
   __msg "r0 = atomic64_cmpxchg((u64 *)(r10 -8), r0, r1){{.*}}use: fp0-8{{.*}}may_def: fp0-8"].
Definition atomic_rmw : test :=
  {| tags := atomic_rmw_tags;
     body := ["r1 = 0;"; "*(u64 *)(r10 - 8) = r1;"; ".8byte 4294449883;"; ".8byte 8589417179;";
              ".8byte 970662091483;"; "r0 = 0;"; ".8byte 1039381568219;"; "exit;"] |}.

Definition load_acquire_fills_spilled_ptr_tags : list tag :=
  [__log_level "2"; __success; __msg "r2 = load_acquire((u64 *)(r10 -16)){{.*}}use: fp0-16";
   __msg "*(u64 *)(r2 +0) = 42{{.*}}def: fp0-8 may_def: fp0-8"].
Definition load_acquire_fills_spilled_ptr : test :=
  {| tags := load_acquire_fills_spilled_ptr_tags;
     body := ["r1 = r10;"; "r1 += -8;"; "*(u64 *)(r10 - 16) = r1;"; ".8byte 1103805588187;";
              "*(u64 *)(r2 + 0) = 42;"; "r0 = 0;"; "exit;"] |}.

Definition store_release_spills_ptr_tags : list tag :=
  [__log_level "2"; __success; __msg "store_release((u64 *)(r10 -16), r1){{.*}}def: fp0-16";
   __msg "*(u64 *)(r2 +0) = 42{{.*}}def: fp0-8 may_def: fp0-8"].
Definition store_release_spills_ptr : test :=
  {| tags := store_release_spills_ptr_tags;
     body := ["r1 = r10;"; "r1 += -8;"; ".8byte 1172525030107;"; "r2 = *(u64 *)(r10 - 16);";
              "*(u64 *)(r2 + 0) = 42;"; "r0 = 0;"; "exit;"] |}.

Definition atomic_rmw_fills_spilled_ptr_tags : list tag :=
  [__log_level "2"; __success;
   __msg "r2 = atomic64_xchg((u64 *)(r10 -16), r2){{.*}}use: fp0-16{{.*}}may_def: fp0-16";
   __msg "*(u64 *)(r2 +0) = 42{{.*}}def: fp0-8 may_def: fp0-8";
   __msg "r3 = atomic64_fetch_add((u64 *)(r10 -16), r3){{.*}}use: fp0-16{{.*}}may_def: fp0-16";
   __msg "*(u64 *)(r3 +0) = 42{{.*}}def: fp0-8 may_def: fp0-8";
   __msg "r0 = atomic64_cmpxchg((u64 *)(r10 -16), r0, r4){{.*}}use: fp0-16{{.*}}may_def: fp0-16";
   __msg "*(u64 *)(r0 +0) = 42{{.*}}def: fp0-8 may_def: fp0-8"].
Definition atomic_rmw_fills_spilled_ptr : test :=
  {| tags := atomic_rmw_fills_spilled_ptr_tags;
     body := ["r1 = r10;"; "r1 += -8;"; "*(u64 *)(r10 - 16) = r1;"; "r2 = 0;";
              ".8byte 970661571291;"; "*(u64 *)(r2 + 0) = 42;"; "*(u64 *)(r10 - 16) = r1;";
              "r3 = 0;"; ".8byte 8588901083;"; "*(u64 *)(r3 + 0) = 42;";
              "*(u64 *)(r10 - 16) = r1;"; "r0 = 0;"; "r4 = 0;"; ".8byte 1039381056219;";
              "*(u64 *)(r0 + 0) = 42;"; "r0 = 0;"; "exit;"] |}.

Definition spill_join_with_multi_off_tags : list tag :=
  [__log_level "2"; __success; __msg "20: (79) r0 = *(u64 *)(r10 -16)";
   __msg "21: (79) r0 = *(u64 *)(r0 +0)         ; use: fp0-24 fp0-32"].
Definition spill_join_with_multi_off : test :=
  {| tags := spill_join_with_multi_off_tags;
     body := ["*(u64 *)(r10 - 24) = 0;"; "*(u64 *)(r10 - 32) = 0;"; "r1 = r10;"; "r1 += -24;";
              "*(u64 *)(r10 - 8) = r1;"; "r1 = r10;"; "r1 += -32;"; "*(u64 *)(r10 - 16) = r1;";
              "call 7;"; "if r0 == 0 goto 1f;"; "r1 = r10;"; "r1 += -8;"; "goto 2f;"; "1:";
              "r1 = r10;"; "r1 += -16;"; "2:"; "r2 = r10;"; "r2 += -24;";
              "*(u64 *)(r1 + 0) = r2;"; "r0 = *(u64 *)(r10 - 8);"; "r0 = *(u64 *)(r0 + 0);";
              "r0 = *(u64 *)(r10 - 16);"; "r0 = *(u64 *)(r0 + 0);"; "exit;"] |}.

Definition spill_join_with_imprecise_off_tags : list tag :=
  [__log_level "2"; __success; __msg "15: (79) r0 = *(u64 *)(r0 +0)         ; use: fp0-24 fp0-32"].
Definition spill_join_with_imprecise_off : test :=
  {| tags := spill_join_with_imprecise_off_tags;
     body := ["*(u64 *)(r10 - 24) = 0;"; "*(u64 *)(r10 - 32) = 0;"; "r1 = r10;"; "r1 += -24;";
              "*(u64 *)(r10 - 8) = r1;"; "r1 = r10;"; "r1 += -32;"; "*(u64 *)(r10 - 16) = r1;";
              "r1 = r10;"; "r2 = -8;"; "r1 += r2;"; "r3 = r10;"; "r3 += -24;";
              "*(u64 *)(r1 + 0) = r3;"; "r0 = *(u64 *)(r10 - 16);"; "r0 = *(u64 *)(r0 + 0);";
              "r0 = 0;"; "exit;"] |}.

Definition st_imm_join_with_single_off_tags : list tag :=
  [__log_level "2"; __success; __msg "5: (7a) *(u64 *)(r1 +0) = 0\tfp-8: fp0-16 -> _{{$}}"].
Definition st_imm_join_with_single_off : test :=
  {| tags := st_imm_join_with_single_off_tags;
     body := ["r2 = r10;"; "r2 += -16;"; "*(u64 *)(r10 - 8) = r2;"; "r1 = r10;"; "r1 += -8;";
              "*(u64 *)(r1 + 0) = 0;"; "r0 = 0;"; "exit;"] |}.

Definition st_imm_join_with_imprecise_off_tags : list tag :=
  [__log_level "2"; __success; __msg "13: (79) r0 = *(u64 *)(r0 +0)         ; use: fp0-32"].
Definition st_imm_join_with_imprecise_off : test :=
  {| tags := st_imm_join_with_imprecise_off_tags;
     body := ["*(u64 *)(r10 - 24) = 0;"; "*(u64 *)(r10 - 32) = 0;"; "r1 = r10;"; "r1 += -24;";
              "*(u64 *)(r10 - 8) = r1;"; "r1 = r10;"; "r1 += -32;"; "*(u64 *)(r10 - 16) = r1;";
              "r1 = r10;"; "r2 = -8;"; "r1 += r2;"; "*(u64 *)(r1 + 0) = 0;";
              "r0 = *(u64 *)(r10 - 16);"; "r0 = *(u64 *)(r0 + 0);"; "r0 = 0;"; "exit;"] |}.

(** * verifier_basic_stack.rs *)

Definition uninitialized_stack2_tags : list tag :=
  [__description "uninitialized stack2"; __success; __log_level "4";
   __msg "subprog 0 (uninitialized_stack2) main insns_self {{[0-9]+}} insns_total {{[0-9]+}} stack 8";
   __failure_unpriv; __msg_unpriv "invalid read from stack"].
Definition uninitialized_stack2 : test :=
  {| tags := uninitialized_stack2_tags;
     body := ["r2 = r10;"; "r0 = *(u64*)(r2 - 8);"; "exit;"] |}.

Definition non_invalid_fp_arithmetic_tags : list tag :=
  [__description "non-invalid fp arithmetic"; __success; __success_unpriv; __retval "0"].
Definition non_invalid_fp_arithmetic : test :=
  {| tags := non_invalid_fp_arithmetic_tags;
     body := ["r0 = 0;"; "*(u64*)(r10 - 8) = r0;"; "exit;"] |}.

(** * verifier_raw_stack.rs *)

Definition stack_no_skb_load_bytes_tags : list tag :=
  [__description "raw_stack: no skb_load_bytes"; __success; __failure_unpriv;
   __msg_unpriv "invalid read from stack R6 off=-8 size=8"].
Definition stack_no_skb_load_bytes : test :=
  {| tags := stack_no_skb_load_bytes_tags;
     body := ["r2 = 4;"; "r6 = r10;"; "r6 += -8;"; "r3 = r6;"; "r4 = 8;"; "r0 = *(u64*)(r6 + 0);";
              "exit;"] |}.

(** * verifier_private_stack.rs *)

Definition private_stack_single_prog_tags : list tag :=
  [__description "Private stack, single prog"; __success; __arch_x86_64;
   __jited "\tmovabsq\t$0x{{.*}}, %r9"; __jited "\taddq\t%gs:{{.*}}, %r9";
   __jited "\tmovl\t$0x2a, %edi"; __jited "\tmovq\t%rdi, -0x100(%r9)"; __arch_arm64;
   __jited "\tstp\tx25, x27, [sp, {{.*}}]!"; __jited "\tmov\tx27, {{.*}}";
   __jited "\tmovk\tx27, {{.*}}, lsl #16"; __jited "\tmovk\tx27, {{.*}}";
   __jited "\tmrs\tx10, TPIDR_EL{{[0-1]}}"; __jited "\tadd\tx27, x27, x10";
   __jited "\tadd\tx25, x27, {{.*}}"; __jited "\tmov\tx0, #0x2a"; __jited "\tstr\tx0, [x27]";
   __jited "..."; __jited "\tldp\tx25, x27, [sp], {{.*}}"].
Definition private_stack_single_prog : test :=
  {| tags := private_stack_single_prog_tags;
     body := ["r1 = 42;"; "*(u64 *)(r10 - 256) = r1;"; "r0 = 0;"; "exit;"] |}.

Definition no_private_stack_nested_tags : list tag :=
  [__description "No private stack"; __success; __arch_x86_64; __jited "\tsubq\t$0x8, %rsp";
   __arch_arm64; __jited "\tmov\tx25, sp"; __jited "\tsub\tsp, sp, #0x10"].
Definition no_private_stack_nested : test :=
  {| tags := no_private_stack_nested_tags;
     body := ["r1 = 42;"; "*(u64 *)(r10 - 8) = r1;"; "r0 = 0;"; "exit;"] |}.

(** * verifier_align.rs *)

Definition mov_tags : list tag :=
  [__success; __log_level "2"; __flag "BPF_F_ANY_ALIGNMENT"; __msg "0: R1=ctx() R10=fp0";
   __msg "0: {{.*}} R3=2"; __msg "1: {{.*}} R3=4"; __msg "2: {{.*}} R3=8";
   __msg "3: {{.*}} R3=16"; __msg "4: {{.*}} R3=32"].
Definition mov : test :=
  {| tags := mov_tags;
     body := ["r3 = 2;"; "r3 = 4;"; "r3 = 8;"; "r3 = 16;"; "r3 = 32;"; "r0 = 0;"; "exit;"] |}.

Definition shift_tags : list tag :=
  [__success; __log_level "2"; __flag "BPF_F_ANY_ALIGNMENT"; __msg "0: R1=ctx() R10=fp0";
   __msg "0: {{.*}}R3=1"; __msg "1: {{.*}}R3=2"; __msg "2: {{.*}}R3=4"; __msg "3: {{.*}}R3=8";
   __msg "4: {{.*}}R3=16"; __msg "5: {{.*}}R3=1"; __msg "6: {{.*}}R4=32"; __msg "7: {{.*}}R4=16";
   __msg "8: {{.*}}R4=8"; __msg "9: {{.*}}R4=4"; __msg "10: {{.*}}R4=2"].
Definition shift : test :=
  {| tags := shift_tags;
     body := ["r3 = 1;"; "r3 <<= 1;"; "r3 <<= 1;"; "r3 <<= 1;"; "r3 <<= 1;"; "r3 >>= 4;";
              "r4 = 32;"; "r4 >>= 1;"; "r4 >>= 1;"; "r4 >>= 1;"; "r4 >>= 1;"; "r0 = 0;"; "exit;"] |}.

Definition addsub_tags : list tag :=
  [__success; __log_level "2"; __flag "BPF_F_ANY_ALIGNMENT"; __msg "0: R1=ctx() R10=fp0";
   __msg "0: {{.*}}R3=4"; __msg "1: {{.*}}R3=8"; __msg "2: {{.*}}R3=10"; __msg "3: {{.*}}R4=8";
   __msg "4: {{.*}}R4=12"; __msg "5: {{.*}}R4=14"].
Definition addsub : test :=
  {| tags := addsub_tags;
     body := ["r3 = 4;"; "r3 += 4;"; "r3 += 2;"; "r4 = 8;"; "r4 += 4;"; "r4 += 2;"; "r0 = 0;";
              "exit;"] |}.

Definition mul_tags : list tag :=
  [__success; __log_level "2"; __flag "BPF_F_ANY_ALIGNMENT"; __msg "0: R1=ctx() R10=fp0";
   __msg "0: {{.*}}R3=7"; __msg "1: {{.*}}R3=7"; __msg "2: {{.*}}R3=14"; __msg "3: {{.*}}R3=56"].
Definition mul : test :=
  {| tags := mul_tags;
     body := ["r3 = 7;"; "r3 *= 1;"; "r3 *= 2;"; "r3 *= 4;"; "r0 = 0;"; "exit;"] |}.

(** * verifier_unpriv.rs *)

Definition unpriv_add_const_to_pointer_tags : list tag :=
  [__description "unpriv: add const to pointer"; __success; __success_unpriv; __retval "0"].
Definition unpriv_add_const_to_pointer : test :=
  {| tags := unpriv_add_const_to_pointer_tags;
     body := ["r1 += 8;"; "r0 = 0;"; "exit;"] |}.

Definition unpriv_neg_pointer_tags : list tag :=
  [__description "unpriv: neg pointer"; __success; __failure_unpriv;
   __msg_unpriv "R1 pointer arithmetic"; __retval "0"].
Definition unpriv_neg_pointer : test :=
  {| tags := unpriv_neg_pointer_tags;
     body := ["r1 = -r1;"; "r0 = 0;"; "exit;"] |}.

Definition unpriv_cmp_pointer_with_const_tags : list tag :=
  [__description "unpriv: cmp pointer with const"; __success; __failure_unpriv;
   __msg_unpriv "R1 pointer comparison"; __retval "0"].
Definition unpriv_cmp_pointer_with_const : test :=
  {| tags := unpriv_cmp_pointer_with_const_tags;
     body := ["if r1 == 0 goto l0_0;"; "l0_0:"; "r0 = 0;"; "exit;"] |}.

Definition unpriv_cmp_pointer_with_pointer_tags : list tag :=
  [__description "unpriv: cmp pointer with pointer"; __success; __failure_unpriv;
   __msg_unpriv "R10 pointer comparison"; __retval "0"].
Definition unpriv_cmp_pointer_with_pointer : test :=
  {| tags := unpriv_cmp_pointer_with_pointer_tags;
     body := ["if r1 == r10 goto l0_1;"; "l0_1:"; "r0 = 0;"; "exit;"] |}.

Definition mangle_pointer_on_stack_1_tags : list tag :=
  [__description "unpriv: mangle pointer on stack 1"; __success; __failure_unpriv;
   __msg_unpriv "attempt to corrupt spilled"; __retval "0"].
Definition mangle_pointer_on_stack_1 : test :=
  {| tags := mangle_pointer_on_stack_1_tags;
     body := ["*(u64*)(r10 - 8) = r10;"; "r0 = 0;"; "*(u32*)(r10 - 8) = r0;"; "r0 = 0;"; "exit;"] |}.

Definition mangle_pointer_on_stack_2_tags : list tag :=
  [__description "unpriv: mangle pointer on stack 2"; __success; __failure_unpriv;
   __msg_unpriv "attempt to corrupt spilled"; __retval "0"].
Definition mangle_pointer_on_stack_2 : test :=
  {| tags := mangle_pointer_on_stack_2_tags;
     body := ["*(u64*)(r10 - 8) = r10;"; "r0 = 0;"; "*(u8*)(r10 - 1) = r0;"; "r0 = 0;"; "exit;"] |}.

Definition unpriv_spill_fill_of_ctx_tags : list tag :=
  [__description "unpriv: spill/fill of ctx"; __success; __success_unpriv; __retval "0"].
Definition unpriv_spill_fill_of_ctx : test :=
  {| tags := unpriv_spill_fill_of_ctx_tags;
     body := ["r6 = r10;"; "r6 += -8;"; "*(u64*)(r6 + 0) = r1;"; "r1 = *(u64*)(r6 + 0);";
              "r0 = 0;"; "exit;"] |}.

Definition alu32_mov_u32_const_tags : list tag :=
  [__description "alu32: mov u32 const"; __success; __success_unpriv; __retval "0";
   __xlated_unpriv "if r0 == 0x0 goto pc+2"; __xlated_unpriv "nospec";
   __xlated_unpriv "goto pc-1"; __xlated_unpriv "exit"].
Definition alu32_mov_u32_const : test :=
  {| tags := alu32_mov_u32_const_tags;
     body := ["w7 = 0;"; "w7 ^= w7;"; "w0 = w7;"; "if r0 == 0 goto l0_9;";
              "r0 = *(u64*)(r7 + 0);"; "l0_9:"; "exit;"] |}.

Definition unpriv_partial_copy_of_pointer_tags : list tag :=
  [__description "unpriv: partial copy of pointer"; __success; __failure_unpriv;
   __msg_unpriv "R10 partial copy"; __retval "0"].
Definition unpriv_partial_copy_of_pointer : test :=
  {| tags := unpriv_partial_copy_of_pointer_tags;
     body := ["w1 = w10;"; "r0 = 0;"; "exit;"] |}.

Definition unpriv_cmp_of_frame_pointer_tags : list tag :=
  [__description "unpriv: cmp of frame pointer"; __success; __failure_unpriv;
   __msg_unpriv "R10 pointer comparison"; __retval "0"].
Definition unpriv_cmp_of_frame_pointer : test :=
  {| tags := unpriv_cmp_of_frame_pointer_tags;
     body := ["if r10 == 0 goto l0_12;"; "l0_12:"; "r0 = 0;"; "exit;"] |}.

Definition unpriv_adding_of_fp_reg_tags : list tag :=
  [__description "unpriv: adding of fp, reg"; __success; __failure_unpriv;
   __msg_unpriv "R1 stack pointer arithmetic goes out of range"; __retval "0"].
Definition unpriv_adding_of_fp_reg : test :=
  {| tags := unpriv_adding_of_fp_reg_tags;
     body := ["r0 = 0;"; "r1 = 0;"; "r1 += r10;"; "*(u64*)(r1 - 8) = r0;"; "exit;"] |}.

Definition unpriv_adding_of_fp_imm_tags : list tag :=
  [__description "unpriv: adding of fp, imm"; __success; __failure_unpriv;
   __msg_unpriv "R1 stack pointer arithmetic goes out of range"; __retval "0"].
Definition unpriv_adding_of_fp_imm : test :=
  {| tags := unpriv_adding_of_fp_imm_tags;
     body := ["r0 = 0;"; "r1 = r10;"; "r1 += 0;"; "*(u64*)(r1 - 8) = r0;"; "exit;"] |}.

Definition unpriv_cmp_of_stack_pointer_tags : list tag :=
  [__description "unpriv: cmp of stack pointer"; __success; __failure_unpriv;
   __msg_unpriv "R2 pointer comparison"; __retval "0"].
Definition unpriv_cmp_of_stack_pointer : test :=
  {| tags := unpriv_cmp_of_stack_pointer_tags;
     body := ["r2 = r10;"; "r2 += -8;"; "if r2 == 0 goto l0_13;"; "l0_13:"; "r0 = 0;"; "exit;"] |}.

Definition unpriv_ldimm64_spectre_v4_tags : list tag :=
  [__description "unpriv: ldimm64 before Spectre v4 barrier"; __success; __success_unpriv;
   __retval "0"; __xlated_unpriv "r1 = 0x2020200005642020";
   __xlated_unpriv "*(u64 *)(r10 -8) = r1"; __xlated_unpriv "nospec"].
Definition unpriv_ldimm64_spectre_v4 : test :=
  {| tags := unpriv_ldimm64_spectre_v4_tags;
     body := ["r1 = 0x2020200005642020 ll;"; "*(u64 *)(r10 -8) = r1;"; "r0 = 0;"; "exit;"] |}.

Definition unpriv_spectre_v1_and_v4_simple_tags : list tag :=
  [__description "unpriv: Spectre v1 and v4 barrier (simple)"; __success; __success_unpriv;
   __retval "0"; __xlated_unpriv "if r8 != 0x0 goto pc+1"; __xlated_unpriv "goto pc+2";
   __xlated_unpriv "goto pc-1"; __xlated_unpriv "goto pc-1"; __xlated_unpriv "nospec";
   __xlated_unpriv "*(u64 *)(r2 -64) = r1"; __xlated_unpriv "nospec"].
Definition unpriv_spectre_v1_and_v4_simple : test :=
  {| tags := unpriv_spectre_v1_and_v4_simple_tags;
     body := ["r8 = 0;"; "r8 ^= r8;"; "r9 = 0;"; "r9 ^= r9;"; "r0 = r10;"; "r1 = 0;"; "r2 = r10;";
              "if r8 != 0 goto l0_16;"; "if r9 != 0 goto l0_16;"; "r0 = 0;"; "l0_16:";
              "if r8 != 0 goto l1_16;"; "goto l2_16;"; "l1_16:"; "if r9 == 0 goto l3_16;";
              "r2 = r0;"; "l2_16:"; "*(u64 *)(r2 -64) = r1;"; "l3_16:"; "r0 = 0;"; "exit;"] |}.

Definition unpriv_ldimm64_spectre_v1_and_v4_simple_tags : list tag :=
  [__description "unpriv: ldimm64 before Spectre v1 and v4 barrier (simple)"; __success;
   __success_unpriv; __retval "0"; __xlated_unpriv "if r8 != 0x0 goto pc+1";
   __xlated_unpriv "goto pc+4"; __xlated_unpriv "goto pc-1"; __xlated_unpriv "goto pc-1";
   __xlated_unpriv "goto pc-1"; __xlated_unpriv "goto pc-1"; __xlated_unpriv "nospec";
   __xlated_unpriv "*(u64 *)(r2 -64) = r1"; __xlated_unpriv "nospec"].
Definition unpriv_ldimm64_spectre_v1_and_v4_simple : test :=
  {| tags := unpriv_ldimm64_spectre_v1_and_v4_simple_tags;
     body := ["r8 = 0;"; "r8 ^= r8;"; "r9 = 0;"; "r9 ^= r9;"; "r0 = r10;"; "r1 = 0;"; "r2 = r10;";
              "if r8 != 0 goto l0_17;"; "if r9 != 0 goto l0_17;"; "r0 = 0;"; "l0_17:";
              "if r8 != 0 goto l1_17;"; "goto l2_17;"; "l1_17:"; "if r9 == 0 goto l3_17;";
              "r2 = r0;"; "r1 = 0x2020200005642020 ll;"; "l2_17:"; "*(u64 *)(r2 -64) = r1;";
              "l3_17:"; "r0 = 0;"; "exit;"] |}.

Definition unpriv_dead_helper_stack_write_nospec_result_tags : list tag :=
  [__description "unpriv: nospec after dead stack write in helper"; __success; __success_unpriv;
   __retval "0"].
Definition unpriv_dead_helper_stack_write_nospec_result : test :=
  {| tags := unpriv_dead_helper_stack_write_nospec_result_tags;
     body := ["r0 = 0;"; "if r0 != 1 goto l0_18;"; "r2 = 0;"; "r3 = r10;"; "r3 += -16;";
              "r4 = 4;"; "r5 = 0;"; "call 68;"; "l0_18:"; "exit;"] |}.

Definition stack_write_nospec_slot_index_tags : list tag :=
  [__description "unpriv: Spectre v4 stack write slot index"; __success; __success_unpriv;
   __retval "0"; __xlated_unpriv "r0 = 0"; __xlated_unpriv "*(u32 *)(r10 -4) = r0";
   __xlated_unpriv "nospec"; __xlated_unpriv "*(u32 *)(r10 -8) = r0"; __xlated_unpriv "nospec";
   __xlated_unpriv "exit"].
Definition stack_write_nospec_slot_index : test :=
  {| tags := stack_write_nospec_slot_index_tags;
     body := ["r0 = 0;"; "*(u32 *)(r10 - 4) = r0;"; "*(u32 *)(r10 - 8) = r0;"; "exit;"] |}.

Definition modelled : list test :=
  [ptr_to_stack_store_load; to_stack_check_high_1; to_stack_check_high_2; to_stack_check_high_3;
   to_stack_check_low_1; to_stack_check_low_2; stack_mixed_reg_k_1; stack_mixed_reg_k_2;
   stack_mixed_reg_k_3; ptr_to_stack_reg; stack_pointer_arithmetic; uninit_u32_from_the_stack;
   and_then_at_fp_8; spill_32bit_of_32bit_ok; spill_16bit_of_16bit_ok; spill_8bit_of_8bit_ok;
   fill_32bit_after_spill_64bit; old_imprecise_scalar_vs_cur_stack_misc;
   old_precise_scalar_vs_cur_stack_misc; old_stack_misc_vs_cur_scalar;
   old_stack_misc_vs_cur_ctx_ptr; stack_noperfmon_reject_invalid_read;
   stack_noperfmon_spill_32bit_onto_64bit_slot; old_imprecise_scalar32_vs_cur_stack_misc;
   var_off_write_over_scalar_spill; dead_spill_at_merge_enables_pruning;
   load_acquire_dont_clear_dst; atomic_rmw; load_acquire_fills_spilled_ptr;
   store_release_spills_ptr; atomic_rmw_fills_spilled_ptr; spill_join_with_multi_off;
   spill_join_with_imprecise_off; st_imm_join_with_single_off; st_imm_join_with_imprecise_off;
   uninitialized_stack2; non_invalid_fp_arithmetic; stack_no_skb_load_bytes;
   private_stack_single_prog; no_private_stack_nested; mov; shift; addsub; mul;
   unpriv_add_const_to_pointer; unpriv_neg_pointer; unpriv_cmp_pointer_with_const;
   unpriv_cmp_pointer_with_pointer; mangle_pointer_on_stack_1; mangle_pointer_on_stack_2;
   unpriv_spill_fill_of_ctx; alu32_mov_u32_const; unpriv_partial_copy_of_pointer;
   unpriv_cmp_of_frame_pointer; unpriv_adding_of_fp_reg; unpriv_adding_of_fp_imm;
   unpriv_cmp_of_stack_pointer; unpriv_ldimm64_spectre_v4; unpriv_spectre_v1_and_v4_simple;
   unpriv_ldimm64_spectre_v1_and_v4_simple; unpriv_dead_helper_stack_write_nospec_result;
   stack_write_nospec_slot_index].

Lemma stack_as_logged : Forall as_logged modelled.
Proof. apply all_logged_sound; vm_compute; reflexivity. Qed.
