(* ===== verification/Widths.v ===== *)
(** Widths of loads and stores: src/progs/verifier_zext.rs, verifier_ldsx.rs,
    verifier_load_acquire.rs and verifier_store_release.rs.

    Each naked function is a [test]: its tags and its assembly text, verbatim.  The
    programs the loader expects to be accepted are taken, save those that touch
    maps, the arena, packets or subprograms or call other helpers than
    [bpf_ktime_get_ns] and [bpf_get_prandom_u32]. *)

From S2P Require Import Prelude Bpf Asm Range Loader Loops.
From Stdlib Require Import String.
Local Open Scope string_scope.
Local Open Scope Z_scope.

(** * verifier_zext.rs *)

Definition zext_lost_across_checkpoint_tags : list tag :=
  [__flag "BPF_F_TEST_STATE_FREQ"; __flag "BPF_F_TEST_RND_HI32"; __success; __retval "0"].
Definition zext_lost_across_checkpoint : test :=
  {| tags := zext_lost_across_checkpoint_tags;
     body := ["call 5;"; "r8 = r0;"; "r6 = 0xdeadbeefcafebabe ll;"; "if r8 != 0 goto 1f;";
              "r6 = 32;"; "goto 2f;"; "1:"; "w6 = 32;"; "2:"; "r0 = r6;"; "r0 >>= 32;"; "exit;"] |}.

Definition zext_alu32_hi_used_tags : list tag :=
  [__success; __log_level "2"; __msg "w1 = w0{{ +}}; zext"].
Definition zext_alu32_hi_used : test :=
  {| tags := zext_alu32_hi_used_tags;
     body := ["call 7;"; "w1 = w0;"; "r0 = r1;"; "exit;"] |}.

Definition no_zext_alu32_hi_unused_tags : list tag :=
  [__success; __log_level "2"; __not_msg "; zext"].
Definition no_zext_alu32_hi_unused : test :=
  {| tags := no_zext_alu32_hi_unused_tags;
     body := ["call 7;"; "w1 = w0;"; "w2 = w1;"; "w2 += w1;"; "w2 += 1;"; "w2 = w2;"; "r0 = 0;";
              "exit;"] |}.

Definition no_zext_mov64_tags : list tag :=
  [__success; __log_level "2"; __not_msg "r1 = r0{{.*}}; zext"].
Definition no_zext_mov64 : test :=
  {| tags := no_zext_mov64_tags;
     body := ["call 7;"; "r1 = r0;"; "r0 = r1;"; "exit;"] |}.

Definition zext_narrow_load_hi_used_tags : list tag :=
  [__success; __log_level "2"; __msg "r1 = *(u32 *)(r10 -8){{ +}}; zext"].
Definition zext_narrow_load_hi_used : test :=
  {| tags := zext_narrow_load_hi_used_tags;
     body := ["r0 = 0;"; "*(u64 *)(r10 - 8) = r0;"; "r1 = *(u32 *)(r10 - 8);"; "r0 = r1;"; "exit;"] |}.

Definition zext_atomic_fetch32_hi_used_tags : list tag :=
  [__success; __log_level "2"; __msg "r1 = atomic_fetch_add((u32 *)(r10 -8), r1){{ +}}; zext"].
Definition zext_atomic_fetch32_hi_used : test :=
  {| tags := zext_atomic_fetch32_hi_used_tags;
     body := ["r1 = 0;"; "*(u64 *)(r10 - 8) = r1;"; "w1 = 1;"; ".8byte 8589417155;"; "r0 = r1;";
              "exit;"] |}.

Definition zext_cmpxchg32_hi_used_tags : list tag :=
  [__success; __log_level "2"; __msg "r0 = atomic_cmpxchg((u32 *)(r10 -8), r0, r1){{ +}}; zext"].
Definition zext_cmpxchg32_hi_used : test :=
  {| tags := zext_cmpxchg32_hi_used_tags;
     body := ["r1 = 0;"; "*(u64 *)(r10 - 8) = r1;"; "w0 = 0;"; "w1 = 1;"; ".8byte 1039381568195;";
              "r2 = r0;"; "r0 = r2;"; "exit;"] |}.

Definition zext_cfg_hi_used_one_branch_tags : list tag :=
  [__success; __log_level "2"; __msg "w6 = 32{{ +}}; zext"].
Definition zext_cfg_hi_used_one_branch : test :=
  {| tags := zext_cfg_hi_used_one_branch_tags;
     body := ["call 7;"; "w6 = 32;"; "if r0 == 0 goto 1f;"; "r0 = r6;"; "exit;"; "1:"; "r0 = 0;";
              "exit;"] |}.

Definition no_zext_other_reg_hi_used_tags : list tag :=
  [__success; __log_level "2"; __not_msg "w1 = 1{{.*}}; zext"].
Definition no_zext_other_reg_hi_used : test :=
  {| tags := no_zext_other_reg_hi_used_tags;
     body := ["call 7;"; "r6 = r0;"; "r6 <<= 32;"; "w1 = 1;"; "r0 = r6;"; "exit;"] |}.

Definition alu32_and_32bit_conditional_tags : list tag :=
  [__success; __log_level "2"; __not_msg "; zext"].
Definition alu32_and_32bit_conditional : test :=
  {| tags := alu32_and_32bit_conditional_tags;
     body := ["call 7;"; "w1 = w0;"; "if w1 > 42 goto 1f;"; "w2 = 28;"; "if w2 > w1 goto 1f;";
              "r0 = 0;"; "1:"; "exit;"] |}.

Definition alu32_and_64bit_conditional_tags : list tag :=
  [__success; __log_level "2"; __msg "w1 = w0{{ +}}; zext"].
Definition alu32_and_64bit_conditional : test :=
  {| tags := alu32_and_64bit_conditional_tags;
     body := ["call 7;"; "w1 = w0;"; "if r1 > 42 goto 1f;"; "r2 = 28;"; "if r2 > r1 goto 1f;";
              "r0 = 0;"; "1:"; "exit;"] |}.

Definition alu64_and_conditionals_tags : list tag :=
  [__success; __log_level "2"; __not_msg "; zext"].
Definition alu64_and_conditionals : test :=
  {| tags := alu64_and_conditionals_tags;
     body := ["call 7;"; "r1 = r0;"; "if w1 > 42 goto 1f;"; "if r1 > 42 goto 1f;"; "r2 = 28;";
              "if w2 > w1 goto 1f;"; "if r2 > r1 goto 1f;"; "r0 = 0;"; "1:"; "exit;"] |}.

(** * verifier_ldsx.rs *)

Definition ldsx_s8_tags : list tag :=
  [__description "LDSX, S8"; __success; __success_unpriv; __retval "-2"].
Definition ldsx_s8 : test :=
  {| tags := ldsx_s8_tags;
     body := ["r1 = 0x3fe;"; "*(u64 *)(r10 - 8) = r1;"; "r0 = *(s8 *)(r10 - 8);"; "exit;"] |}.

Definition ldsx_s16_tags : list tag :=
  [__description "LDSX, S16"; __success; __success_unpriv; __retval "-2"].
Definition ldsx_s16 : test :=
  {| tags := ldsx_s16_tags;
     body := ["r1 = 0x3fffe;"; "*(u64 *)(r10 - 8) = r1;"; "r0 = *(s16 *)(r10 - 8);"; "exit;"] |}.

Definition ldsx_s32_tags : list tag :=
  [__description "LDSX, S32"; __success; __success_unpriv; __retval "-1"].
Definition ldsx_s32 : test :=
  {| tags := ldsx_s32_tags;
     body := ["r1 = 0xfffffffe;"; "*(u64 *)(r10 - 8) = r1;"; "r0 = *(s32 *)(r10 - 8);";
              "r0 >>= 1;"; "exit;"] |}.

Definition ldsx_s8_range_priv_tags : list tag :=
  [__description "LDSX, S8 range checking, privileged"; __log_level "2"; __success; __retval "1";
   __msg "R1=scalar(smin=smin32=-128,smax=smax32=127)"].
Definition ldsx_s8_range_priv : test :=
  {| tags := ldsx_s8_range_priv_tags;
     body := ["call 7;"; "*(u64 *)(r10 - 8) = r0;"; "r1 = *(s8 *)(r10 - 8);";
              "if r1 s> 0x7f goto l0_0;"; "if r1 s< -0x80 goto l0_0;"; "r0 = 1;"; "l1_0:";
              "exit;"; "l0_0:"; "r0 = 2;"; "goto l1_0;"] |}.

Definition ldsx_s16_range_tags : list tag :=
  [__description "LDSX, S16 range checking"; __success; __success_unpriv; __retval "1"].
Definition ldsx_s16_range : test :=
  {| tags := ldsx_s16_range_tags;
     body := ["call 7;"; "*(u64 *)(r10 - 8) = r0;"; "r1 = *(s16 *)(r10 - 8);";
              "if r1 s> 0x7fff goto l0_1;"; "if r1 s< -0x8000 goto l0_1;"; "r0 = 1;"; "l1_1:";
              "exit;"; "l0_1:"; "r0 = 2;"; "goto l1_1;"] |}.

Definition ldsx_s32_range_tags : list tag :=
  [__description "LDSX, S32 range checking"; __success; __success_unpriv; __retval "1"].
Definition ldsx_s32_range : test :=
  {| tags := ldsx_s32_range_tags;
     body := ["call 7;"; "*(u64 *)(r10 - 8) = r0;"; "r1 = *(s32 *)(r10 - 8);";
              "if r1 s> 0x7fffFFFF goto l0_2;"; "if r1 s< -0x80000000 goto l0_2;"; "r0 = 1;";
              "l1_2:"; "exit;"; "l0_2:"; "r0 = 2;"; "goto l1_2;"] |}.

(** * verifier_load_acquire.rs *)

Definition load_acquire_8_tags : list tag :=
  [__description "load-acquire, 8-bit"; __success; __success_unpriv; __retval "0"].
Definition load_acquire_8 : test :=
  {| tags := load_acquire_8_tags;
     body := ["r0 = 0;"; "w1 = 0xfe;"; "*(u8 *)(r10 - 1) = w1;"; ".8byte 1103806571219;";
              "if r2 == r1 goto 1f;"; "r0 = 1;"; "1:"; "exit;"] |}.

Definition load_acquire_16_tags : list tag :=
  [__description "load-acquire, 16-bit"; __success; __success_unpriv; __retval "0"].
Definition load_acquire_16 : test :=
  {| tags := load_acquire_16_tags;
     body := ["r0 = 0;"; "w1 = 0xfedc;"; "*(u16 *)(r10 - 2) = w1;"; ".8byte 1103806505675;";
              "if r2 == r1 goto 1f;"; "r0 = 1;"; "1:"; "exit;"] |}.

Definition load_acquire_32_tags : list tag :=
  [__description "load-acquire, 32-bit"; __success; __success_unpriv; __retval "0"].
Definition load_acquire_32 : test :=
  {| tags := load_acquire_32_tags;
     body := ["r0 = 0;"; "w1 = 0xfedcba09;"; "*(u32 *)(r10 - 4) = w1;"; ".8byte 1103806374595;";
              "if r2 == r1 goto 1f;"; "r0 = 1;"; "1:"; "exit;"] |}.

Definition load_acquire_64_tags : list tag :=
  [__description "load-acquire, 64-bit"; __success; __success_unpriv; __retval "0"].
Definition load_acquire_64 : test :=
  {| tags := load_acquire_64_tags;
     body := ["r0 = 0;"; "r1 = 0xfedcba0987654321 ll;"; "*(u64 *)(r10 - 8) = r1;";
              ".8byte 1103806112475;"; "if r2 == r1 goto 1f;"; "r0 = 1;"; "1:"; "exit;"] |}.

(** * verifier_store_release.rs *)

Definition store_release_8_tags : list tag :=
  [__description "store-release, 8-bit"; __success; __success_unpriv; __retval "0"].
Definition store_release_8 : test :=
  {| tags := store_release_8_tags;
     body := ["r0 = 0;"; "w1 = 0x12;"; ".8byte 1172526013139;"; "w2 = *(u8 *)(r10 - 1);";
              "if r2 == r1 goto 1f;"; "r0 = 1;"; "1:"; "exit;"] |}.

Definition store_release_16_tags : list tag :=
  [__description "store-release, 16-bit"; __success; __success_unpriv; __retval "0"].
Definition store_release_16 : test :=
  {| tags := store_release_16_tags;
     body := ["r0 = 0;"; "w1 = 0x1234;"; ".8byte 1172525947595;"; "w2 = *(u16 *)(r10 - 2);";
              "if r2 == r1 goto 1f;"; "r0 = 1;"; "1:"; "exit;"] |}.

Definition store_release_32_tags : list tag :=
  [__description "store-release, 32-bit"; __success; __success_unpriv; __retval "0"].
Definition store_release_32 : test :=
  {| tags := store_release_32_tags;
     body := ["r0 = 0;"; "w1 = 0x12345678;"; ".8byte 1172525816515;"; "w2 = *(u32 *)(r10 - 4);";
              "if r2 == r1 goto 1f;"; "r0 = 1;"; "1:"; "exit;"] |}.

Definition store_release_64_tags : list tag :=
  [__description "store-release, 64-bit"; __success; __success_unpriv; __retval "0"].
Definition store_release_64 : test :=
  {| tags := store_release_64_tags;
     body := ["r0 = 0;"; "r1 = 0x1234567890abcdef ll;"; ".8byte 1172525554395;";
              "r2 = *(u64 *)(r10 - 8);"; "if r2 == r1 goto 1f;"; "r0 = 1;"; "1:"; "exit;"] |}.

Definition store_release_leak_pointer_to_stack_tags : list tag :=
  [__description "store-release, leak pointer to stack"; __success; __success_unpriv; __retval "0"].
Definition store_release_leak_pointer_to_stack : test :=
  {| tags := store_release_leak_pointer_to_stack_tags;
     body := [".8byte 1172525554395;"; "r0 = 0;"; "exit;"] |}.

Definition modelled : list test :=
  [zext_lost_across_checkpoint; zext_alu32_hi_used; no_zext_alu32_hi_unused; no_zext_mov64;
   zext_narrow_load_hi_used; zext_atomic_fetch32_hi_used; zext_cmpxchg32_hi_used;
   zext_cfg_hi_used_one_branch; no_zext_other_reg_hi_used; alu32_and_32bit_conditional;
   alu32_and_64bit_conditional; alu64_and_conditionals; ldsx_s8; ldsx_s16; ldsx_s32;
   ldsx_s8_range_priv; ldsx_s16_range; ldsx_s32_range; load_acquire_8; load_acquire_16;
   load_acquire_32; load_acquire_64; store_release_8; store_release_16; store_release_32;
   store_release_64; store_release_leak_pointer_to_stack].

Lemma widths_as_logged : Forall as_logged modelled.
Proof. apply all_logged_sound; vm_compute; reflexivity. Qed.
