(* ===== verification/Paths.v ===== *)
(** Paths, loops and return codes: src/progs/verifier_precision.rs,
    verifier_loop_hierarchy.rs, verifier_loops1.rs, verifier_idoms.rs,
    verifier_search_pruning.rs, verifier_cfg.rs, verifier_subprog_insn_stats.rs,
    verifier_subprog_topo.rs, verifier_lsm.rs, verifier_netfilter_retcode.rs and
    verifier_cgroup_inv_retcode.rs.

    Each naked function is a [test]: its tags and its assembly text, verbatim.  The
    programs the loader expects to be accepted are taken, save those that touch
    maps, the context or subprograms or call other helpers than
    [bpf_ktime_get_ns] and [bpf_get_prandom_u32], and save three: the lines of
    state_loop_first_last_equal show the state at one of several visits,
    jumps_out_rather_than_in runs ten thousand rounds, and gotox_jump_table jumps
    through a table. *)

From S2P Require Import Prelude Bpf Asm Range Loader Loops.
From Stdlib Require Import String.
Local Open Scope string_scope.
Local Open Scope Z_scope.

(** * verifier_precision.rs *)

Definition bpf_neg_tags : list tag :=
  [__success; __log_level "2";
   __msg "mark_precise: frame0: regs=r2 stack= before 3: (bf) r1 = r10";
   __msg "mark_precise: frame0: regs=r2 stack= before 2: (55) if r2 != 0xfffffff8 goto pc+2";
   __msg "mark_precise: frame0: regs=r2 stack= before 1: (87) r2 = -r2";
   __msg "mark_precise: frame0: regs=r2 stack= before 0: (b7) r2 = 8"].
Definition bpf_neg : test :=
  {| tags := bpf_neg_tags;
     body := ["r2 = 8;"; "r2 = -r2;"; "if r2 != -8 goto 1f;"; "r1 = r10;"; "r1 += r2;"; "1:";
              "r0 = 0;"; "exit;"] |}.

Definition bpf_end_to_le_tags : list tag :=
  [__success; __log_level "2";
   __msg "mark_precise: frame0: regs=r2 stack= before 3: (bf) r1 = r10";
   __msg "mark_precise: frame0: regs=r2 stack= before 2: (55) if r2 != 0x0 goto pc+2";
   __msg "mark_precise: frame0: regs=r2 stack= before 1: (d4) r2 = le16 r2";
   __msg "mark_precise: frame0: regs=r2 stack= before 0: (b7) r2 = 0"].
Definition bpf_end_to_le : test :=
  {| tags := bpf_end_to_le_tags;
     body := ["r2 = 0;"; "r2 = le16 r2;"; "if r2 != 0 goto 1f;"; "r1 = r10;"; "r1 += r2;"; "1:";
              "r0 = 0;"; "exit;"] |}.

Definition bpf_end_to_be_tags : list tag :=
  [__success; __log_level "2";
   __msg "mark_precise: frame0: regs=r2 stack= before 3: (bf) r1 = r10";
   __msg "mark_precise: frame0: regs=r2 stack= before 2: (55) if r2 != 0x0 goto pc+2";
   __msg "mark_precise: frame0: regs=r2 stack= before 1: (dc) r2 = be16 r2";
   __msg "mark_precise: frame0: regs=r2 stack= before 0: (b7) r2 = 0"].
Definition bpf_end_to_be : test :=
  {| tags := bpf_end_to_be_tags;
     body := ["r2 = 0;"; "r2 = be16 r2;"; "if r2 != 0 goto 1f;"; "r1 = r10;"; "r1 += r2;"; "1:";
              "r0 = 0;"; "exit;"] |}.

Definition bpf_end_bswap_tags : list tag :=
  [__success; __log_level "2";
   __msg "mark_precise: frame0: regs=r2 stack= before 3: (bf) r1 = r10";
   __msg "mark_precise: frame0: regs=r2 stack= before 2: (55) if r2 != 0x0 goto pc+2";
   __msg "mark_precise: frame0: regs=r2 stack= before 1: (d7) r2 = bswap16 r2";
   __msg "mark_precise: frame0: regs=r2 stack= before 0: (b7) r2 = 0"].
Definition bpf_end_bswap : test :=
  {| tags := bpf_end_bswap_tags;
     body := ["r2 = 0;"; "r2 = bswap16 r2;"; "if r2 != 0 goto 1f;"; "r1 = r10;"; "r1 += r2;";
              "1:"; "r0 = 0;"; "exit;"] |}.

Definition bpf_load_acquire_tags : list tag :=
  [__success; __log_level "2";
   __msg "mark_precise: frame0: regs=r2 stack= before 3: (bf) r3 = r10";
   __msg "mark_precise: frame0: regs=r2 stack= before 2: (db) r2 = load_acquire((u64 *)(r10 -8))";
   __msg "mark_precise: frame0: regs= stack=-8 before 1: (7b) *(u64 *)(r10 -8) = r1";
   __msg "mark_precise: frame0: regs=r1 stack= before 0: (b7) r1 = 8"].
Definition bpf_load_acquire : test :=
  {| tags := bpf_load_acquire_tags;
     body := ["r1 = 8;"; "*(u64 *)(r10 - 8) = r1;"; ".8byte 1103806112475;"; "r3 = r10;";
              "r3 += r2;"; "r0 = 0;"; "exit;"] |}.

Definition bpf_store_release_tags : list tag :=
  [__success; __log_level "2";
   __msg "mark_precise: frame0: regs=r1 stack= before 3: (bf) r2 = r10";
   __msg "mark_precise: frame0: regs=r1 stack= before 2: (79) r1 = *(u64 *)(r10 -8)";
   __msg "mark_precise: frame0: regs= stack=-8 before 1: (db) store_release((u64 *)(r10 -8), r1)";
   __msg "mark_precise: frame0: regs=r1 stack= before 0: (b7) r1 = 8"].
Definition bpf_store_release : test :=
  {| tags := bpf_store_release_tags;
     body := ["r1 = 8;"; ".8byte 1172525554395;"; "r1 = *(u64 *)(r10 - 8);"; "r2 = r10;";
              "r2 += r1;"; "r0 = 0;"; "exit;"] |}.

Definition bpf_cond_op_not_r10_tags : list tag :=
  [__success; __log_level "2"; __msg "3: (bf) r3 = r10"; __msg "4: (bd) if r3 <= r2 goto pc+1";
   __msg "5: (b5) if r2 <= 0x8 goto pc+2";
   __msg "mark_precise: frame0: last_idx 5 first_idx 0 subseq_idx -1";
   __msg "mark_precise: frame0: regs=r2 stack= before 4: (bd) if r3 <= r2 goto pc+1";
   __msg "mark_precise: frame0: regs=r2 stack= before 3: (bf) r3 = r10"].
Definition bpf_cond_op_not_r10 : test :=
  {| tags := bpf_cond_op_not_r10_tags;
     body := ["r0 = 0;"; "r2 = 2314885393468386424 ll;"; "r3 = r10;"; "if r3 <= r2 goto +1;";
              "if r2 <= 8 goto +2;"; "r0 = 2 ll;"; "exit;"] |}.

Definition bpf_neg_2_tags : list tag :=
  [__success; __log_level "2"; __msg "0: (b7) r0 = 1                        ; R0=1";
   __msg "1: (84) w0 = -w0                      ; R0=0xffffffff";
   __msg "mark_precise: frame0: last_idx 2 first_idx 0 subseq_idx -1";
   __msg "mark_precise: frame0: regs=r0 stack= before 1: (84) w0 = -w0";
   __msg "mark_precise: frame0: regs=r0 stack= before 0: (b7) r0 = 1"].
Definition bpf_neg_2 : test :=
  {| tags := bpf_neg_2_tags;
     body := ["r0 = 1;"; "w0 = -w0;"; "exit;"] |}.

Definition bpf_neg_4_tags : list tag :=
  [__success; __log_level "2"; __msg "0: (b7) r0 = 1                        ; R0=1";
   __msg "1: (87) r0 = -r0                      ; R0=-1";
   __msg "mark_precise: frame0: last_idx 2 first_idx 0 subseq_idx -1";
   __msg "mark_precise: frame0: regs=r0 stack= before 1: (87) r0 = -r0";
   __msg "mark_precise: frame0: regs=r0 stack= before 0: (b7) r0 = 1"].
Definition bpf_neg_4 : test :=
  {| tags := bpf_neg_4_tags;
     body := ["r0 = 1;"; "r0 = -r0;"; "exit;"] |}.

Definition bpf_atomic_fetch_add_precision_tags : list tag :=
  [__success; __log_level "2";
   __msg "mark_precise: frame0: regs=r2 stack= before 4: (bf) r3 = r10";
   __msg "mark_precise: frame0: regs=r2 stack= before 3: (db) r2 = atomic64_fetch_add((u64 *)(r10 -8), r2)";
   __msg "mark_precise: frame0: regs= stack=-8 before 2: (b7) r2 = 0";
   __msg "mark_precise: frame0: regs= stack=-8 before 1: (7b) *(u64 *)(r10 -8) = r1";
   __msg "mark_precise: frame0: regs=r1 stack= before 0: (b7) r1 = 8"].
Definition bpf_atomic_fetch_add_precision : test :=
  {| tags := bpf_atomic_fetch_add_precision_tags;
     body := ["r1 = 8;"; "*(u64 *)(r10 - 8) = r1;"; "r2 = 0;"; ".8byte 8589421275;"; "r3 = r10;";
              "r3 += r2;"; "r0 = 0;"; "exit;"] |}.

Definition bpf_atomic_xchg_precision_tags : list tag :=
  [__success; __log_level "2";
   __msg "mark_precise: frame0: regs=r2 stack= before 4: (bf) r3 = r10";
   __msg "mark_precise: frame0: regs=r2 stack= before 3: (db) r2 = atomic64_xchg((u64 *)(r10 -8), r2)";
   __msg "mark_precise: frame0: regs= stack=-8 before 2: (b7) r2 = 0";
   __msg "mark_precise: frame0: regs= stack=-8 before 1: (7b) *(u64 *)(r10 -8) = r1";
   __msg "mark_precise: frame0: regs=r1 stack= before 0: (b7) r1 = 8"].
Definition bpf_atomic_xchg_precision : test :=
  {| tags := bpf_atomic_xchg_precision_tags;
     body := ["r1 = 8;"; "*(u64 *)(r10 - 8) = r1;"; "r2 = 0;"; ".8byte 970662095579;";
              "r3 = r10;"; "r3 += r2;"; "r0 = 0;"; "exit;"] |}.

Definition bpf_atomic_fetch_or_precision_tags : list tag :=
  [__success; __log_level "2";
   __msg "mark_precise: frame0: regs=r2 stack= before 4: (bf) r3 = r10";
   __msg "mark_precise: frame0: regs=r2 stack= before 3: (db) r2 = atomic64_fetch_or((u64 *)(r10 -8), r2)";
   __msg "mark_precise: frame0: regs= stack=-8 before 2: (b7) r2 = 0";
   __msg "mark_precise: frame0: regs= stack=-8 before 1: (7b) *(u64 *)(r10 -8) = r1";
   __msg "mark_precise: frame0: regs=r1 stack= before 0: (b7) r1 = 8"].
Definition bpf_atomic_fetch_or_precision : test :=
  {| tags := bpf_atomic_fetch_or_precision_tags;
     body := ["r1 = 8;"; "*(u64 *)(r10 - 8) = r1;"; "r2 = 0;"; ".8byte 283467328219;";
              "r3 = r10;"; "r3 += r2;"; "r0 = 0;"; "exit;"] |}.

Definition bpf_atomic_fetch_and_precision_tags : list tag :=
  [__success; __log_level "2";
   __msg "mark_precise: frame0: regs=r2 stack= before 4: (bf) r3 = r10";
   __msg "mark_precise: frame0: regs=r2 stack= before 3: (db) r2 = atomic64_fetch_and((u64 *)(r10 -8), r2)";
   __msg "mark_precise: frame0: regs= stack=-8 before 2: (b7) r2 = 0";
   __msg "mark_precise: frame0: regs= stack=-8 before 1: (7b) *(u64 *)(r10 -8) = r1";
   __msg "mark_precise: frame0: regs=r1 stack= before 0: (b7) r1 = 8"].
Definition bpf_atomic_fetch_and_precision : test :=
  {| tags := bpf_atomic_fetch_and_precision_tags;
     body := ["r1 = 8;"; "*(u64 *)(r10 - 8) = r1;"; "r2 = 0;"; ".8byte 352186804955;";
              "r3 = r10;"; "r3 += r2;"; "r0 = 0;"; "exit;"] |}.

Definition bpf_atomic_fetch_xor_precision_tags : list tag :=
  [__success; __log_level "2";
   __msg "mark_precise: frame0: regs=r2 stack= before 4: (bf) r3 = r10";
   __msg "mark_precise: frame0: regs=r2 stack= before 3: (db) r2 = atomic64_fetch_xor((u64 *)(r10 -8), r2)";
   __msg "mark_precise: frame0: regs= stack=-8 before 2: (b7) r2 = 0";
   __msg "mark_precise: frame0: regs= stack=-8 before 1: (7b) *(u64 *)(r10 -8) = r1";
   __msg "mark_precise: frame0: regs=r1 stack= before 0: (b7) r1 = 8"].
Definition bpf_atomic_fetch_xor_precision : test :=
  {| tags := bpf_atomic_fetch_xor_precision_tags;
     body := ["r1 = 8;"; "*(u64 *)(r10 - 8) = r1;"; "r2 = 0;"; ".8byte 695784188635;";
              "r3 = r10;"; "r3 += r2;"; "r0 = 0;"; "exit;"] |}.

Definition bpf_atomic_cmpxchg_precision_tags : list tag :=
  [__success; __log_level "2";
   __msg "mark_precise: frame0: regs=r0 stack= before 5: (bf) r3 = r10";
   __msg "mark_precise: frame0: regs=r0 stack= before 4: (db) r0 = atomic64_cmpxchg((u64 *)(r10 -8), r0, r2)";
   __msg "mark_precise: frame0: regs= stack=-8 before 3: (b7) r2 = 0";
   __msg "mark_precise: frame0: regs= stack=-8 before 2: (b7) r0 = 0";
   __msg "mark_precise: frame0: regs= stack=-8 before 1: (7b) *(u64 *)(r10 -8) = r1";
   __msg "mark_precise: frame0: regs=r1 stack= before 0: (b7) r1 = 8"].
Definition bpf_atomic_cmpxchg_precision : test :=
  {| tags := bpf_atomic_cmpxchg_precision_tags;
     body := ["r1 = 8;"; "*(u64 *)(r10 - 8) = r1;"; "r0 = 0;"; "r2 = 0;"; ".8byte 1039381572315;";
              "r3 = r10;"; "r3 += r0;"; "r0 = 0;"; "exit;"] |}.

Definition bpf_atomic_fetch_add_dual_precision_tags : list tag :=
  [__success; __log_level "2";
   __msg "mark_precise: frame0: regs=r2,r3 stack= before 4: (79) r3 = *(u64 *)(r10 -8)";
   __msg "mark_precise: frame0: regs=r2 stack= before 3: (db) r2 = atomic64_fetch_add((u64 *)(r10 -8), r2)";
   __msg "mark_precise: frame0: regs= stack=-8 before 2: (b7) r2 = 0";
   __msg "mark_precise: frame0: regs= stack=-8 before 1: (7b) *(u64 *)(r10 -8) = r1";
   __msg "mark_precise: frame0: regs=r1 stack= before 0: (b7) r1 = 8"].
Definition bpf_atomic_fetch_add_dual_precision : test :=
  {| tags := bpf_atomic_fetch_add_dual_precision_tags;
     body := ["r1 = 8;"; "*(u64 *)(r10 - 8) = r1;"; "r2 = 0;"; ".8byte 8589421275;";
              "r3 = *(u64 *)(r10 - 8);"; "r4 = r2;"; "r4 += r3;"; "r4 &= 7;"; "r5 = r10;";
              "r5 += r4;"; "r0 = 0;"; "exit;"] |}.

Definition bpf_atomic_cmpxchg_dual_precision_tags : list tag :=
  [__success; __log_level "2";
   __msg "mark_precise: frame0: regs=r0,r3 stack= before 5: (79) r3 = *(u64 *)(r10 -8)";
   __msg "mark_precise: frame0: regs=r0 stack= before 4: (db) r0 = atomic64_cmpxchg((u64 *)(r10 -8), r0, r2)";
   __msg "mark_precise: frame0: regs= stack=-8 before 3: (b7) r2 = 0";
   __msg "mark_precise: frame0: regs= stack=-8 before 2: (b7) r0 = 8";
   __msg "mark_precise: frame0: regs= stack=-8 before 1: (7b) *(u64 *)(r10 -8) = r1";
   __msg "mark_precise: frame0: regs=r1 stack= before 0: (b7) r1 = 8"].
Definition bpf_atomic_cmpxchg_dual_precision : test :=
  {| tags := bpf_atomic_cmpxchg_dual_precision_tags;
     body := ["r1 = 8;"; "*(u64 *)(r10 - 8) = r1;"; "r0 = 8;"; "r2 = 0;"; ".8byte 1039381572315;";
              "r3 = *(u64 *)(r10 - 8);"; "r4 = r0;"; "r4 += r3;"; "r4 &= 7;"; "r5 = r10;";
              "r5 += r4;"; "r0 = 0;"; "exit;"] |}.

(** * verifier_loop_hierarchy.rs *)

Definition loop_single_tags : list tag :=
  [__success; __log_level "2"; __msg "loop at 1{{$}}"; __msg "Program dump";
   __msg "         -1   0: {{.*}} (b7) r0 = 0"; __msg "  1       0   1: {{.*}} (07) r0 += 1";
   __msg "  1   1   1   2: {{.*}} (a5) if r0 < 0xa goto pc-2";
   __msg "          2   3: {{.*}} (95) exit"].
Definition loop_single : test :=
  {| tags := loop_single_tags;
     body := ["r0 = 0;"; "1:"; "r0 += 1;"; "if r0 < 10 goto 1b;"; "exit;"] |}.

Definition loop_two_independent_tags : list tag :=
  [__success; __log_level "2"; __msg "loop at 1{{$}}"; __msg "loop at 4{{$}}";
   __msg "Program dump"; __msg "         -1   0: {{.*}} (b7) r0 = 0";
   __msg "  2       0   1: {{.*}} (07) r0 += 1";
   __msg "  2   1   1   2: {{.*}} (a5) if r0 < 0xa goto pc-2";
   __msg "          2   3: {{.*}} (b7) r1 = 0"; __msg "  1       3   4: {{.*}} (07) r1 += 1";
   __msg "  1   4   4   5: {{.*}} (a5) if r1 < 0xa goto pc-2";
   __msg "          5   6: {{.*}} (95) exit"].
Definition loop_two_independent : test :=
  {| tags := loop_two_independent_tags;
     body := ["r0 = 0;"; "1:"; "r0 += 1;"; "if r0 < 10 goto 1b;"; "r1 = 0;"; "2:"; "r1 += 1;";
              "if r1 < 10 goto 2b;"; "exit;"] |}.

Definition loop_nested_tags : list tag :=
  [__success; __log_level "2"; __msg "loop at 1{{$}}"; __msg "loop at 3, nested in 1";
   __msg "Program dump"; __msg "         -1   0: {{.*}} (b7) r0 = 0";
   __msg "  1       0   1: {{.*}} (07) r0 += 1"; __msg "  1   1   1   2: {{.*}} (b7) r1 = 0";
   __msg "  1   1   2   3: {{.*}} (07) r1 += 1";
   __msg "  1   3   3   4: {{.*}} (a5) if r1 < 0x5 goto pc-2";
   __msg "  1   1   4   5: {{.*}} (a5) if r0 < 0xa goto pc-5";
   __msg "          5   6: {{.*}} (95) exit"].
Definition loop_nested : test :=
  {| tags := loop_nested_tags;
     body := ["r0 = 0;"; "1:"; "r0 += 1;"; "r1 = 0;"; "2:"; "r1 += 1;"; "if r1 < 5 goto 2b;";
              "if r0 < 10 goto 1b;"; "exit;"] |}.

Definition fwd_edges_no_loop_tags : list tag :=
  [__success; __log_level "2"; __msg "Program dump";
   __msg "         -1   0: {{.*}} (85) call bpf_get_prandom_u32";
   __msg "          0   1: {{.*}} (25) if r0 > 0x0 goto pc+2";
   __msg "          1   2: {{.*}} (b7) r0 = 2"; __msg "          2   3: {{.*}} (05) goto pc+1";
   __msg "          1   4: {{.*}} (b7) r0 = 3"; __msg "          1   5: {{.*}} (95) exit"].
Definition fwd_edges_no_loop : test :=
  {| tags := fwd_edges_no_loop_tags;
     body := ["call 7;"; "if r0 > 0 goto 1f;"; "r0 = 2;"; "goto 2f;"; "1:"; "r0 = 3;"; "2:";
              "exit;"] |}.

Definition loop_nested_siblings_tags : list tag :=
  [__success; __log_level "2"; __msg "loop at 1{{$}}"; __msg "loop at 3, nested in 1";
   __msg "loop at 6, nested in 1"; __msg "Program dump";
   __msg "         -1   0: {{.*}} (b7) r0 = 0"; __msg "  1       0   1: {{.*}} (07) r0 += 1";
   __msg "  1   1   1   2: {{.*}} (b7) r1 = 0"; __msg "  1   1   2   3: {{.*}} (07) r1 += 1";
   __msg "  1   3   3   4: {{.*}} (a5) if r1 < 0x5 goto pc-2";
   __msg "  1   1   4   5: {{.*}} (b7) r2 = 0"; __msg "  1   1   5   6: {{.*}} (07) r2 += 1";
   __msg "  1   6   6   7: {{.*}} (a5) if r2 < 0x5 goto pc-2";
   __msg "  1   1   7   8: {{.*}} (a5) if r0 < 0xa goto pc-8";
   __msg "          8   9: {{.*}} (95) exit"].
Definition loop_nested_siblings : test :=
  {| tags := loop_nested_siblings_tags;
     body := ["r0 = 0;"; "1:"; "r0 += 1;"; "r1 = 0;"; "2:"; "r1 += 1;"; "if r1 < 5 goto 2b;";
              "r2 = 0;"; "3:"; "r2 += 1;"; "if r2 < 5 goto 3b;"; "if r0 < 10 goto 1b;"; "exit;"] |}.

Definition loop_three_levels_tags : list tag :=
  [__success; __log_level "2"; __msg "loop at 1{{$}}"; __msg "loop at 3, nested in 1";
   __msg "loop at 5, nested in 3"; __msg "Program dump";
   __msg "         -1   0: {{.*}} (b7) r0 = 0"; __msg "  1       0   1: {{.*}} (07) r0 += 1";
   __msg "  1   1   1   2: {{.*}} (b7) r1 = 0"; __msg "  1   1   2   3: {{.*}} (07) r1 += 1";
   __msg "  1   3   3   4: {{.*}} (b7) r2 = 0"; __msg "  1   3   4   5: {{.*}} (07) r2 += 1";
   __msg "  1   5   5   6: {{.*}} (a5) if r2 < 0x3 goto pc-2";
   __msg "  1   3   6   7: {{.*}} (a5) if r1 < 0x5 goto pc-5";
   __msg "  1   1   7   8: {{.*}} (a5) if r0 < 0xa goto pc-8";
   __msg "          8   9: {{.*}} (95) exit"].
Definition loop_three_levels : test :=
  {| tags := loop_three_levels_tags;
     body := ["r0 = 0;"; "1:"; "r0 += 1;"; "r1 = 0;"; "2:"; "r1 += 1;"; "r2 = 0;"; "3:";
              "r2 += 1;"; "if r2 < 3 goto 3b;"; "if r1 < 5 goto 2b;"; "if r0 < 10 goto 1b;";
              "exit;"] |}.

Definition loop_with_if_else_tags : list tag :=
  [__success; __log_level "2"; __msg "loop at 1"; __msg "Program dump";
   __msg "         -1   0: {{.*}} (b7) r0 = 0"; __msg "  1       0   1: {{.*}} (07) r0 += 1";
   __msg "  1   1   1   2: {{.*}} (bf) r1 = r0";
   __msg "  1   1   2   3: {{.*}} (25) if r1 > 0x5 goto pc+1";
   __msg "  1   1   3   4: {{.*}} (b7) r1 = 1"; __msg "  1   1   3   5: {{.*}} (0f) r0 += r1";
   __msg "  1   1   5   6: {{.*}} (a5) if r0 < 0x64 goto pc-6";
   __msg "          6   7: {{.*}} (95) exit"].
Definition loop_with_if_else : test :=
  {| tags := loop_with_if_else_tags;
     body := ["r0 = 0;"; "1:"; "r0 += 1;"; "r1 = r0;"; "if r1 > 5 goto 2f;"; "r1 = 1;"; "2:";
              "r0 += r1;"; "if r0 < 100 goto 1b;"; "exit;"] |}.

Definition loop_irreducible_tags : list tag :=
  [__success; __log_level "2"; __msg "loop at 3, irreducible"; __msg "Program dump";
   __msg "         -1   0: {{.*}} (85) call bpf_get_prandom_u32#7";
   __msg "          0   1: {{.*}} (b7) r1 = 0";
   __msg "          1   2: {{.*}} (25) if r0 > 0x5 goto pc+2";
   __msg "  1       2   3: {{.*}} (b7) r1 = 1"; __msg "  1   3   3   4: {{.*}} (05) goto pc+1";
   __msg "          2   5: {{.*}} (b7) r1 = 2"; __msg "  1   3   2   6: {{.*}} (0f) r0 += r1";
   __msg "  1   3   6   7: {{.*}} (a5) if r0 < 0x10 goto pc-5";
   __msg "          7   8: {{.*}} (95) exit"].
Definition loop_irreducible : test :=
  {| tags := loop_irreducible_tags;
     body := ["call 7;"; "r1 = 0;"; "if r0 > 5 goto 2f;"; "1:"; "r1 = 1;"; "goto 3f;"; "2:";
              "r1 = 2;"; "3:"; "r0 += r1;"; "if r0 < 16 goto 1b;"; "exit;"] |}.

Definition loop_nested_siblings_common_ancestors_tags : list tag :=
  [__success; __log_level "2"; __msg "loop at 1{{$}}";
   __msg_next "  backedge from 10, latch at 10"; __msg_next "  exit from 10 to 11";
   __msg_next "loop at 3, nested in 1"; __msg_next "  backedge from 9, latch at 9";
   __msg_next "  exit from 9 to 10"; __msg_next "loop at 5, nested in 3";
   __msg_next "  backedge from 6, latch at 6"; __msg_next "  exit from 6 to 7";
   __msg_next "loop at 7, nested in 3"; __msg_next "  backedge from 8, latch at 8";
   __msg_next "  exit from 8 to 9"].
Definition loop_nested_siblings_common_ancestors : test :=
  {| tags := loop_nested_siblings_common_ancestors_tags;
     body := ["r0 = 0;"; "1:"; "r0 += 1;"; "r1 = 0;"; "2:"; "r1 += 1;"; "r2 = 0;"; "3:";
              "r2 += 1;"; "if r2 < 3 goto 3b;"; "4:"; "r2 += -1;"; "if r2 != 0 goto 4b;";
              "if r1 < 4 goto 2b;"; "if r0 < 5 goto 1b;"; "exit;"] |}.

Definition loop_outer_backedge_from_inner_tags : list tag :=
  [__success; __log_level "2"; __msg "loop at 2{{$}}"; __msg_next "  backedge from 4{{$}}";
   __msg_next "  exit from 5 to 7"; __msg_next "loop at 3, nested in 2";
   __msg_next "  backedge from 6, latch at 5"; __msg_next "  exit from 4 to 2";
   __msg_next "  exit from 5 to 7"].
Definition loop_outer_backedge_from_inner : test :=
  {| tags := loop_outer_backedge_from_inner_tags;
     body := ["r6 = 99;"; "r2 = 2;"; "2:"; "r6 += 1;"; "3:"; "r2 += 1;"; "4:";
              "if r2 == 3 goto 2b;"; "5:"; "if r6 > 100 goto 7f;"; "goto 3b;"; "7:"; "r0 = 0;";
              "exit;"] |}.

(** * verifier_loops1.rs *)

Definition bounded_loop_count_to_4_tags : list tag :=
  [__description "bounded loop, count to 4"; __success; __retval "4"].
Definition bounded_loop_count_to_4 : test :=
  {| tags := bounded_loop_count_to_4_tags;
     body := ["r0 = 0;"; "l0_0:"; "r0 += 1;"; "if r0 < 4 goto l0_0;"; "exit;"] |}.

Definition bounded_loop_count_to_20_tags : list tag :=
  [__description "bounded loop, count to 20"; __success].
Definition bounded_loop_count_to_20 : test :=
  {| tags := bounded_loop_count_to_20_tags;
     body := ["r0 = 0;"; "l0_1:"; "r0 += 3;"; "if r0 < 20 goto l0_1;"; "exit;"] |}.

Definition from_positive_unknown_to_4_tags : list tag :=
  [__description "bounded loop, count from positive unknown to 4"; __success].
Definition from_positive_unknown_to_4 : test :=
  {| tags := from_positive_unknown_to_4_tags;
     body := ["call 7;"; "if r0 s< 0 goto l0_2;"; "l1_2:"; "r0 += 1;"; "if r0 < 4 goto l1_2;";
              "l0_2:"; "exit;"] |}.

Definition from_totally_unknown_to_4_tags : list tag :=
  [__description "bounded loop, count from totally unknown to 4"; __success].
Definition from_totally_unknown_to_4 : test :=
  {| tags := from_totally_unknown_to_4_tags;
     body := ["call 7;"; "l0_3:"; "r0 += 1;"; "if r0 < 4 goto l0_3;"; "exit;"] |}.

Definition count_to_4_with_equality_tags : list tag :=
  [__description "bounded loop, count to 4 with equality"; __success].
Definition count_to_4_with_equality : test :=
  {| tags := count_to_4_with_equality_tags;
     body := ["r0 = 0;"; "l0_4:"; "r0 += 1;"; "if r0 != 4 goto l0_4;"; "exit;"] |}.

Definition loop_start_in_the_middle_tags : list tag :=
  [__description "bounded loop, start in the middle"; __success; __failure_unpriv;
   __msg_unpriv "back-edge"].
Definition loop_start_in_the_middle : test :=
  {| tags := loop_start_in_the_middle_tags;
     body := ["r0 = 0;"; "goto l0_5;"; "l1_5:"; "r0 += 1;"; "l0_5:"; "if r0 < 4 goto l1_5;";
              "exit;"] |}.

Definition loop_containing_a_forward_jump_tags : list tag :=
  [__description "bounded loop containing a forward jump"; __success; __retval "4"].
Definition loop_containing_a_forward_jump : test :=
  {| tags := loop_containing_a_forward_jump_tags;
     body := ["r0 = 0;"; "l1_6:"; "r0 += 1;"; "if r0 == r0 goto l0_6;"; "l0_6:";
              "if r0 < 4 goto l1_6;"; "exit;"] |}.

Definition back_jump_to_1st_insn_1_tags : list tag :=
  [__description "not-taken loop with back jump to 1st insn"; __success; __retval "123"].
Definition back_jump_to_1st_insn_1 : test :=
  {| tags := back_jump_to_1st_insn_1_tags;
     body := ["l0_12:"; "r0 = 123;"; "if r0 == 4 goto l0_12;"; "exit;"] |}.

Definition not_an_inifinite_loop_tags : list tag :=
  [__success].
Definition not_an_inifinite_loop : test :=
  {| tags := not_an_inifinite_loop_tags;
     body := ["call 7;"; "r0 &= 0xff;"; "*(u64 *)(r10 - 8) = r0;"; "r0 = 0;"; "loop_15:";
              "r0 = *(u64 *)(r10 - 8);"; "if r0 > 10 goto exit_15;"; "r0 += 1;";
              "*(u64 *)(r10 - 8) = r0;"; "r0 = 0;"; "goto loop_15;"; "exit_15:"; "r0 = 0;"; "exit;"] |}.

(** * verifier_idoms.rs *)

Definition straight_line_ldimm64_tags : list tag :=
  [__success; __log_level "2"; __msg "Program dump"; __msg "{{.*}} -1   0: {{.*}} (b7) r0 = 0";
   __msg "{{.*}}  0   1: {{.*}} (18) r1 = 0x1122334455667788";
   __msg "{{.*}}  1   3: {{.*}} (07) r0 += 1"; __msg "{{.*}}  3   4: {{.*}} (0f) r0 += r1";
   __msg "{{.*}}  4   5: {{.*}} (95) exit"].
Definition straight_line_ldimm64 : test :=
  {| tags := straight_line_ldimm64_tags;
     body := ["r0 = 0;"; "r1 = 0x1122334455667788 ll;"; "r0 += 1;"; "r0 += r1;"; "exit;"] |}.

Definition asymmetric_diamond_tags : list tag :=
  [__success; __log_level "2"; __msg "Program dump";
   __msg "{{.*}} -1   0: {{.*}} (85) call bpf_get_prandom_u32#7";
   __msg "{{.*}}  0   1: {{.*}} (25) if r0 > 0x0 goto pc+5";
   __msg "{{.*}}  1   2: {{.*}} (b7) r1 = 1"; __msg "{{.*}}  2   3: {{.*}} (b7) r1 = 2";
   __msg "{{.*}}  3   4: {{.*}} (b7) r1 = 3"; __msg "{{.*}}  4   5: {{.*}} (b7) r1 = 4";
   __msg "{{.*}}  5   6: {{.*}} (05) goto pc+1"; __msg "{{.*}}  1   7: {{.*}} (b7) r1 = 9";
   __msg "{{.*}}  1   8: {{.*}} (95) exit"].
Definition asymmetric_diamond : test :=
  {| tags := asymmetric_diamond_tags;
     body := ["call 7;"; "if r0 > 0 goto 1f;"; "r1 = 1;"; "r1 = 2;"; "r1 = 3;"; "r1 = 4;";
              "goto 2f;"; "1:"; "r1 = 9;"; "2:"; "exit;"] |}.

Definition simple_loop_tags : list tag :=
  [__success; __log_level "2"; __msg "Program dump"; __msg "{{.*}} -1   0: {{.*}} (b7) r0 = 0";
   __msg "{{.*}}  0   1: {{.*}} (07) r0 += 1";
   __msg "{{.*}}  1   2: {{.*}} (a5) if r0 < 0xa goto pc-2";
   __msg "{{.*}}  2   3: {{.*}} (95) exit"].
Definition simple_loop : test :=
  {| tags := simple_loop_tags;
     body := ["r0 = 0;"; "1:"; "r0 += 1;"; "if r0 < 10 goto 1b;"; "exit;"] |}.

Definition loop_with_if_else_body_tags : list tag :=
  [__success; __log_level "2"; __msg "Program dump"; __msg "{{.*}} -1   0: {{.*}} (b7) r0 = 0";
   __msg "{{.*}}  0   1: {{.*}} (07) r0 += 1"; __msg "{{.*}}  1   2: {{.*}} (bf) r1 = r0";
   __msg "{{.*}}  2   3: {{.*}} (25) if r1 > 0x5 goto pc+1";
   __msg "{{.*}}  3   4: {{.*}} (b7) r1 = 1"; __msg "{{.*}}  3   5: {{.*}} (0f) r0 += r1";
   __msg "{{.*}}  5   6: {{.*}} (a5) if r0 < 0x64 goto pc-6";
   __msg "{{.*}}  6   7: {{.*}} (95) exit"].
Definition loop_with_if_else_body : test :=
  {| tags := loop_with_if_else_body_tags;
     body := ["r0 = 0;"; "1:"; "r0 += 1;"; "r1 = r0;"; "if r1 > 5 goto 2f;"; "r1 = 1;"; "2:";
              "r0 += r1;"; "if r0 < 100 goto 1b;"; "exit;"] |}.

Definition nested_loops_tags : list tag :=
  [__success; __log_level "2"; __msg "Program dump"; __msg "{{.*}} -1   0: {{.*}} (b7) r0 = 0";
   __msg "{{.*}}  0   1: {{.*}} (07) r0 += 1"; __msg "{{.*}}  1   2: {{.*}} (b7) r1 = 0";
   __msg "{{.*}}  2   3: {{.*}} (07) r1 += 1";
   __msg "{{.*}}  3   4: {{.*}} (a5) if r1 < 0x5 goto pc-2";
   __msg "{{.*}}  4   5: {{.*}} (a5) if r0 < 0xa goto pc-5";
   __msg "{{.*}}  5   6: {{.*}} (95) exit"].
Definition nested_loops : test :=
  {| tags := nested_loops_tags;
     body := ["r0 = 0;"; "1:"; "r0 += 1;"; "r1 = 0;"; "2:"; "r1 += 1;"; "if r1 < 5 goto 2b;";
              "if r0 < 10 goto 1b;"; "exit;"] |}.

Definition multi_backedge_header_tags : list tag :=
  [__success; __log_level "2"; __msg "Program dump"; __msg "{{.*}} -1   0: {{.*}} (b7) r6 = 0";
   __msg "{{.*}}  0   1: {{.*}} (07) r6 += 1";
   __msg "{{.*}}  1   2: {{.*}} (25) if r6 > 0xa goto pc+3";
   __msg "{{.*}}  2   3: {{.*}} (bf) r7 = r6";
   __msg "{{.*}}  3   4: {{.*}} (a5) if r7 < 0x5 goto pc-4";
   __msg "{{.*}}  4   5: {{.*}} (05) goto pc-5"; __msg "{{.*}}  2   6: {{.*}} (b7) r0 = 0";
   __msg "{{.*}}  6   7: {{.*}} (95) exit"].
Definition multi_backedge_header : test :=
  {| tags := multi_backedge_header_tags;
     body := ["r6 = 0;"; "1:"; "r6 += 1;"; "if r6 > 10 goto 2f;"; "r7 = r6;";
              "if r7 < 5 goto 1b;"; "goto 1b;"; "2:"; "r0 = 0;"; "exit;"] |}.

Definition irreducible_tags : list tag :=
  [__success; __log_level "2"; __msg "Program dump";
   __msg "{{.*}} -1   0: {{.*}} (85) call bpf_get_prandom_u32#7";
   __msg "{{.*}}  0   1: {{.*}} (b7) r1 = 0";
   __msg "{{.*}}  1   2: {{.*}} (25) if r0 > 0x5 goto pc+2";
   __msg "{{.*}}  2   3: {{.*}} (b7) r1 = 1"; __msg "{{.*}}  3   4: {{.*}} (05) goto pc+1";
   __msg "{{.*}}  2   5: {{.*}} (b7) r1 = 2"; __msg "{{.*}}  2   6: {{.*}} (0f) r0 += r1";
   __msg "{{.*}}  6   7: {{.*}} (a5) if r0 < 0x10 goto pc-5";
   __msg "{{.*}}  7   8: {{.*}} (95) exit"].
Definition irreducible : test :=
  {| tags := irreducible_tags;
     body := ["call 7;"; "r1 = 0;"; "if r0 > 5 goto 2f;"; "1:"; "r1 = 1;"; "goto 3f;"; "2:";
              "r1 = 2;"; "3:"; "r0 += r1;"; "if r0 < 16 goto 1b;"; "exit;"] |}.

(** * verifier_search_pruning.rs *)

Definition allocated_stack_tags : list tag :=
  [__description "allocated_stack"; __success; __msg "processed 15 insns"; __success_unpriv;
   __msg_unpriv ""; __log_level "1"; __retval "0"].
Definition allocated_stack : test :=
  {| tags := allocated_stack_tags;
     body := ["r6 = r1;"; "call 7;"; "r7 = r0;"; "if r0 == 0 goto l0_8;"; "r0 = 0;";
              "*(u64*)(r10 - 8) = r6;"; "r6 = *(u64*)(r10 - 8);"; "*(u8*)(r10 - 9) = r7;";
              "r7 = *(u8*)(r10 - 9);"; "l0_8:"; "if r0 != 0 goto l1_8;"; "l1_8:";
              "if r0 != 0 goto l2_8;"; "l2_8:"; "if r0 != 0 goto l3_8;"; "l3_8:";
              "if r0 != 0 goto l4_8;"; "l4_8:"; "exit;"] |}.

Definition and_register_parent_chain_bug_tags : list tag :=
  [__description "write tracking and register parent chain bug"; __success; __failure_unpriv;
   __msg_unpriv "invalid read from stack off -8+1 size 8"; __retval "0";
   __flag "BPF_F_TEST_STATE_FREQ"].
Definition and_register_parent_chain_bug : test :=
  {| tags := and_register_parent_chain_bug_tags;
     body := ["call 5;"; "r6 = r0;"; "call 5;"; "if r0 > r6 goto l0_9;"; "r0 = 0xdeadbeef;";
              "*(u64*)(r10 - 8) = r0;"; "l0_9:"; "r1 = 42;"; "*(u8*)(r10 - 8) = r1;";
              "r2 = *(u64*)(r10 - 8);"; "r0 = 0;"; "exit;"] |}.

(** * verifier_cfg.rs *)

Definition conditional_loop2_tags : list tag :=
  [__description "conditional loop (2)"; __success; __failure_unpriv;
   __msg_unpriv "back-edge from insn 10 to 11"].
Definition conditional_loop2 : test :=
  {| tags := conditional_loop2_tags;
     body := ["r9 = 2 ll;"; "r3 = 0x20 ll;"; "r4 = 0x35 ll;"; "r8 = r4;"; "goto l1_5;"; "l0_5:";
              "r9 -= r3;"; "r9 -= r4;"; "r9 -= r8;"; "l1_5:"; "r8 += r4;";
              "if r8 < 0x64 goto l0_5;"; "r0 = r9;"; "exit;"] |}.

(** * verifier_subprog_insn_stats.rs *)

Definition stats_main_only_tags : list tag :=
  [__success; __log_level "4";
   __msg "subprog 0 (stats_main_only) main insns_self 2 insns_total 2 stack 0";
   __msg "processed 2 insns"].
Definition stats_main_only : test :=
  {| tags := stats_main_only_tags;
     body := ["r0 = 0;"; "exit;"] |}.

(** * verifier_subprog_topo.rs *)

Definition topo_no_calls_tags : list tag :=
  [__success; __log_level "2"; __msg "topo_order[0] = topo_no_calls"].
Definition topo_no_calls : test :=
  {| tags := topo_no_calls_tags;
     body := ["r0 = 0;"; "exit;"] |}.

(** * verifier_lsm.rs *)

Definition errno_zero_retval_test1_tags : list tag :=
  [__description "lsm bpf prog with -4095~0 retval. test 1"; __success].
Definition errno_zero_retval_test1 : test :=
  {| tags := errno_zero_retval_test1_tags;
     body := ["r0 = 0;"; "exit;"] |}.

Definition errno_zero_retval_test2_tags : list tag :=
  [__description "lsm bpf prog with -4095~0 retval. test 2"; __success].
Definition errno_zero_retval_test2 : test :=
  {| tags := errno_zero_retval_test2_tags;
     body := ["r0 = -4095;"; "exit;"] |}.

Definition bool_retval_test1_tags : list tag :=
  [__description "lsm bpf prog with bool retval. test 1"; __success].
Definition bool_retval_test1 : test :=
  {| tags := bool_retval_test1_tags;
     body := ["r0 = 1;"; "exit;"] |}.

Definition bool_retval_test2_tags : list tag :=
  [__description "lsm bpf prog with bool retval. test 2"; __success; __success].
Definition bool_retval_test2 : test :=
  {| tags := bool_retval_test2_tags;
     body := ["r0 = 0;"; "exit;"] |}.

Definition void_retval_test1_tags : list tag :=
  [__success; __description "lsm bpf prog with void retval. test 1"].
Definition void_retval_test1 : test :=
  {| tags := void_retval_test1_tags;
     body := ["r0 = -4096;"; "exit;"] |}.

Definition void_retval_test2_tags : list tag :=
  [__success; __description "lsm bpf prog with void retval. test 2"].
Definition void_retval_test2 : test :=
  {| tags := void_retval_test2_tags;
     body := ["r0 = 4096;"; "exit;"] |}.

(** * verifier_netfilter_retcode.rs *)

Definition with_valid_return_code_test2_tags : list tag :=
  [__description "bpf_exit with valid return code. test2"; __success].
Definition with_valid_return_code_test2 : test :=
  {| tags := with_valid_return_code_test2_tags;
     body := ["r0 = 0;"; "exit;"] |}.

Definition with_valid_return_code_test3_tags : list tag :=
  [__description "bpf_exit with valid return code. test3"; __success].
Definition with_valid_return_code_test3 : test :=
  {| tags := with_valid_return_code_test3_tags;
     body := ["r0 = 1;"; "exit;"] |}.

(** * verifier_cgroup_inv_retcode.rs *)

Definition with_invalid_return_code_test4_tags : list tag :=
  [__description "bpf_exit with invalid return code. test4"; __success].
Definition with_invalid_return_code_test4 : test :=
  {| tags := with_invalid_return_code_test4_tags;
     body := ["r0 = 1;"; "exit;"] |}.

Definition modelled : list test :=
  [bpf_neg; bpf_end_to_le; bpf_end_to_be; bpf_end_bswap; bpf_load_acquire; bpf_store_release;
   bpf_cond_op_not_r10; bpf_neg_2; bpf_neg_4; bpf_atomic_fetch_add_precision;
   bpf_atomic_xchg_precision; bpf_atomic_fetch_or_precision; bpf_atomic_fetch_and_precision;
   bpf_atomic_fetch_xor_precision; bpf_atomic_cmpxchg_precision;
   bpf_atomic_fetch_add_dual_precision; bpf_atomic_cmpxchg_dual_precision; loop_single;
   loop_two_independent; loop_nested; fwd_edges_no_loop; loop_nested_siblings; loop_three_levels;
   loop_with_if_else; loop_irreducible; loop_nested_siblings_common_ancestors;
   loop_outer_backedge_from_inner; bounded_loop_count_to_4; bounded_loop_count_to_20;
   from_positive_unknown_to_4; from_totally_unknown_to_4; count_to_4_with_equality;
   loop_start_in_the_middle; loop_containing_a_forward_jump; back_jump_to_1st_insn_1;
   not_an_inifinite_loop; straight_line_ldimm64; asymmetric_diamond; simple_loop;
   loop_with_if_else_body; nested_loops; multi_backedge_header; irreducible; allocated_stack;
   and_register_parent_chain_bug; conditional_loop2; stats_main_only; topo_no_calls;
   errno_zero_retval_test1; errno_zero_retval_test2; bool_retval_test1; bool_retval_test2;
   void_retval_test1; void_retval_test2; with_valid_return_code_test2;
   with_valid_return_code_test3; with_invalid_return_code_test4].

Lemma paths_as_logged : Forall as_logged modelled.
Proof. apply all_logged_sound; vm_compute; reflexivity. Qed.
