(* ===== verification/Suite.v ===== *)
(** The files of naked programs together. *)

From S2P Require Import Prelude Bpf Asm Range Loader Loops.
From S2P Require Import Sdiv Div0 DivOverflow Subreg Movsx Bswap Masking Bounds Stack Widths Paths.

(** Several lists of tests are one. *)
Lemma all_pass_app l l' : all_pass l -> all_pass l' -> all_pass (l ++ l').
Proof. unfold all_pass; intros H H'. rewrite filter_app. now apply Forall_app. Qed.

(** C38. The two hundred tests of verifier_sdiv.rs, verifier_subreg.rs,
    verifier_div0.rs, verifier_div_overflow.rs, verifier_movsx.rs,
    verifier_bswap.rs and verifier_masking.rs that the loader expects to succeed
    return the value they declare, for every start and every result of their
    helper calls, and the known bits and ranges of their expected verifier logs
    hold.  Signed quotients truncate toward zero and [MIN / -1] wraps; a
    division by zero gives 0 and a remainder by zero the dividend; each 32-bit
    instruction and each narrow load clears the high half of its register; sign
    extension, byte swaps and the masking idiom keep what they should. *)
Theorem suites_pass :
  all_pass (Sdiv.tests ++ Subreg.tests ++ Div0.tests ++ DivOverflow.tests ++ Movsx.tests ++ Bswap.tests
            ++ Masking.tests).
Proof.
  repeat apply all_pass_app.
  - apply Sdiv.sdiv_tests_pass.
  - apply Subreg.subreg_tests_pass.
  - apply Div0.div0_tests_pass.
  - apply DivOverflow.div_overflow_tests_pass.
  - apply Movsx.movsx_tests_pass.
  - apply Bswap.bswap_tests_pass.
  - apply Masking.masking_tests_pass.
Qed.

(** The states the log lines of each file show: in how many programs, and how
    many. *)
Definition shown (l : list test) : nat * nat :=
  let cls := map states_of l in
  (List.length (filter (fun cl => negb (Nat.eqb (List.length cl) 0)) cls), List.length (List.concat cls)).

Example states_read :
  map shown [Bounds.modelled; Stack.modelled; Widths.modelled; Paths.modelled] = [(40, 88); (4, 94); (1, 1); (2, 4)]%nat.
Proof. vm_compute. reflexivity. Qed.

