(* ===== verification/XdpLb.v ===== *)
(** The XDP load balancer: progs/xdp_lb_bench.rs.

    The state is the packet, the maps as this CPU sees them, and the program's
    globals.  The kernel's part is the class [Kernel]: moving the head of the
    packet, the clock, the random seed, the CPU, an LRU map's insert and how
    long a may_goto loop may run; [KernelOk] is what the program relies on.
    Network words are the little-endian values the CPU loads; [to_be] is the
    byte swap. *)

From S2P Require Import Prelude Packet.
Local Open Scope st_scope.

Module XdpLb.

(** ** Constants *)

Definition XDP_DROP := 1.
Definition XDP_PASS := 2.
Definition XDP_TX := 3.
Definition ETH_P_IP := 0x0800.
Definition ETH_P_IPV6 := 0x86DD.
Definition IPPROTO_IPIP := 4.
Definition IPPROTO_TCP := 6.
Definition IPPROTO_UDP := 17.
Definition IPPROTO_IPV6 := 41.
Definition IPPROTO_FRAGMENT := 44.
Definition F_IPV6 := 1.
Definition F_LRU_BYPASS := 2.
Definition CH_RING_SIZE := 65537.
Definition MAX_VIPS := 16.
Definition CH_RINGS_SIZE := MAX_VIPS * CH_RING_SIZE.
Definition MAX_REALS := 512.
Definition ONE_SEC := 1000000000.
Definition MAX_CONN_RATE := 100000000.
Definition LRU_UDP_TIMEOUT := 30000000000.
Definition PCKT_FRAGMENTED := 0x3FFF.
Definition KNUTH_HASH_MULT := 2654435761.
Definition IPIP_V4_PREFIX := 4268.
Definition IPIP_V6_PREFIX1 := 1.
Definition IPIP_V6_PREFIX2 := 0.
Definition IPIP_V6_PREFIX3 := 0.
Definition STATS_LRU := MAX_VIPS + 0.
Definition STATS_XDP_TX := MAX_VIPS + 1.
Definition STATS_XDP_PASS := MAX_VIPS + 2.
Definition STATS_XDP_DROP := MAX_VIPS + 3.
Definition STATS_NEW_CONN := MAX_VIPS + 4.
Definition STATS_LRU_MISS := MAX_VIPS + 5.
Definition STATS_SIZE := MAX_VIPS + 6.
Definition BENCH_NR_SAMPLES := 4096.
Definition BENCH_NR_CPUS := 256.
Definition BENCH_CPU_MASK := BENCH_NR_CPUS - 1.
Definition JHASH_INITVAL := 0xdeadbeef.
Definition TCPF_SYN := 2.
Definition TCPF_RST := 4.

(** Header sizes: [size_of] of ethhdr, iphdr, ipv6hdr, udphdr, tcphdr. *)
Definition ETH_SZ : nat := 14.
Definition IP_SZ : nat := 20.
Definition IP6_SZ : nat := 40.
Definition UDP_SZ : nat := 8.
Definition TCP_SZ : nat := 20.

(** ** Data *)

(** The packet's bytes, and how many times its head was asked to move. *)
Record packet := { moves : nat; bytes : list Z }.

(** The address unions hold four words; the IPv4 member is the first. *)
Record flow_key := { src : list Z; dst : list Z; port0 : Z; port1 : Z; proto : Z }.
Record vip_definition := { addr : list Z; vport : Z; vproto : Z }.
Record vip_meta := { vflags : Z; vip_num : Z }.
Record real_pos_lru := { pos : Z; atime : Z }.
Record real_definition := { rdst : Z; dstv6 : list Z; rflags : Z }.
Record lb_stats := { v1 : Z; v2 : Z }.

Definition flow_key_eq_dec (a b : flow_key) : {a = b} + {a <> b}.
Proof. decide equality; try apply Z.eq_dec; apply (list_eq_dec Z.eq_dec). Defined.

Definition lru := flow_key -> option real_pos_lru.

(** Array maps are functions with the map's size checked by the lookups.
    [clock] and [inserts] count bpf_ktime_get_ns calls and LRU inserts. *)
Record world := {
  pkt : packet;
  vip_map : vip_definition -> option vip_meta;
  lru_mapping : Z -> option lru;
  ch_rings : Z -> Z;
  reals : Z -> real_definition;
  stats : Z -> lb_stats;
  reals_stats : Z -> lb_stats;
  ctl_mac : list Z;
  vip_miss_stats : vip_definition;
  lru_miss_stats : Z -> Z;
  flow_mask : Z;
  cold_lru : Z;
  batch_gen : Z;
  batch_iters : Z;
  timing_samples : Z -> Z -> Z;
  timing_idx : Z -> Z;
  timing_enabled : Z;
  clock : nat;
  inserts : nat
}.

(** The helpers the program calls.  Those whose answer depends on kernel state
    the program cannot see take the number of the call. *)
Class Kernel := {
  xdp_adjust_head : nat -> list Z -> Z -> option (list Z);
  lru_store : nat -> lru -> flow_key -> real_pos_lru -> lru;
  ktime : nat -> Z;
  prandom : Z;
  cpu_id : Z;
  can_loop : nat -> bool
}.

(** What is documented of them: a negative move puts that many bytes in front
    of the packet, a positive one takes them off it; an update leaves the key
    bound to the value. *)
Class KernelOk (K : Kernel) : Prop := {
  adjust_grow : forall i b k b', xdp_adjust_head i b (- Z.of_nat k) = Some b' ->
    exists new, length new = k /\ b' = new ++ b;
  adjust_shrink : forall i b k b', xdp_adjust_head i b (Z.of_nat k) = Some b' -> b' = skipn k b;
  lru_store_same : forall i l f e, lru_store i l f e f = Some e
}.

(** ** Hashing *)

Definition rol32 (w s : Z) : Z := rotl 32 w s.

Definition jhash_mix (abc : Z * Z * Z) : Z * Z * Z :=
  let '(a, b, c) := abc in
  let a := (a ⊟ c)%w32 in
  let a := Z.lxor a (rol32 c 4) in
  let c := (c ⊞ b)%w32 in
  let b := (b ⊟ a)%w32 in
  let b := Z.lxor b (rol32 a 6) in
  let a := (a ⊞ c)%w32 in
  let c := (c ⊟ b)%w32 in
  let c := Z.lxor c (rol32 b 8) in
  let b := (b ⊞ a)%w32 in
  let a := (a ⊟ c)%w32 in
  let a := Z.lxor a (rol32 c 16) in
  let c := (c ⊞ b)%w32 in
  let b := (b ⊟ a)%w32 in
  let b := Z.lxor b (rol32 a 19) in
  let a := (a ⊞ c)%w32 in
  let c := (c ⊟ b)%w32 in
  let c := Z.lxor c (rol32 b 4) in
  let b := (b ⊞ a)%w32 in
  (a, b, c).

Definition jhash_final (abc : Z * Z * Z) : Z * Z * Z :=
  let '(a, b, c) := abc in
  let c := Z.lxor c b in
  let c := (c ⊟ rol32 b 14)%w32 in
  let a := Z.lxor a c in
  let a := (a ⊟ rol32 c 11)%w32 in
  let b := Z.lxor b a in
  let b := (b ⊟ rol32 a 25)%w32 in
  let c := Z.lxor c b in
  let c := (c ⊟ rol32 b 16)%w32 in
  let a := Z.lxor a c in
  let a := (a ⊟ rol32 c 4)%w32 in
  let b := Z.lxor b a in
  let b := (b ⊟ rol32 a 14)%w32 in
  let c := Z.lxor c b in
  let c := (c ⊟ rol32 b 24)%w32 in
  (a, b, c).

Definition jhash_2words (a b : Z) : Z :=
  let initval := ((CH_RING_SIZE ⊞ JHASH_INITVAL) ⊞ Z.shiftl 2 2)%w32 in
  let '(_, _, c) := jhash_final ((a ⊞ initval)%w32, (b ⊞ initval)%w32, initval) in c.

Definition jhash2_4words (k : list Z) : Z :=
  let a := ((JHASH_INITVAL ⊞ Z.shiftl 4 2) ⊞ MAX_VIPS)%w32 in
  let b := a in
  let c := a in
  let a := (a ⊞ nth 0 k 0)%w32 in
  let b := (b ⊞ nth 1 k 0)%w32 in
  let c := (c ⊞ nth 2 k 0)%w32 in
  let '(a, b, c) := jhash_mix (a, b, c) in
  let a := (a ⊞ nth 3 k 0)%w32 in
  let '(_, _, c) := jhash_final (a, b, c) in c.

(** ** Encapsulation *)

(** The sum of the header's ten 16-bit words. *)
Definition csum_words (p : list Z) (off : nat) : Z :=
  fold_left (fun s i => u32 (s + word16 p (off + 2 * i))) (seq 0 10) 0.

Definition csum_fold (s : Z) : Z :=
  let s := (Z.land s 0xffff ⊞ shr s 16)%w32 in
  (Z.land s 0xffff ⊞ shr s 16)%w32.

(** [ipv4_csum] of the header at offset [off]. *)
Definition ipv4_csum (p : list Z) (off : nat) : list Z :=
  put p (off + 10) (bytes16 (u16 (notw 32 (csum_fold (csum_words p off))))).

Definition create_encap_ipv4_src (port srcw : Z) : Z :=
  let ip_suffix := shl 32 (to_be port) 16 in
  let ip_suffix := Z.lxor ip_suffix srcw in
  Z.lor (Z.land 0xFFFF0000 ip_suffix) IPIP_V4_PREFIX.

Definition create_encap_ipv6_src (port srcw : Z) : list Z :=
  [IPIP_V6_PREFIX1; IPIP_V6_PREFIX2; IPIP_V6_PREFIX3; Z.lxor srcw port].

Section Program.
Context {K : Kernel}.

(** [bpf_xdp_adjust_head]: whether it succeeded, and the packet. *)
Definition adjust_head (p : packet) (delta : Z) : bool * packet :=
  match xdp_adjust_head (moves p) (bytes p) delta with
  | None => (false, p <| moves ::= S |>)
  | Some b => (true, {| moves := S (moves p); bytes := b |})
  end.

Definition fits (p : packet) (off sz : nat) : bool := Nat.leb (off + sz) (length (bytes p)).

(** The fixed part of an outer IPv4 header, from [ihl_version] to [daddr],
    with a zero checksum. *)
Definition outer_iphdr (saddr daddr payload_len : Z) : list Z :=
  [Z.lor (Z.shiftl 4 4) (Z.shiftr (Z.of_nat IP_SZ) 2); 0] ++
  bytes16 (to_be (u16 (payload_len + Z.of_nat IP_SZ))) ++ [0; 0; 0; 0; 64; IPPROTO_IPIP; 0; 0] ++
  bytes32 saddr ++ bytes32 daddr.

Definition outer_ipv6hdr (saddr daddr : list Z) (nexthdr payload_len : Z) : list Z :=
  [Z.shiftl 6 4; 0; 0; 0] ++ bytes16 (to_be payload_len) ++ [nexthdr; 64] ++
  flat_map bytes32 saddr ++ flat_map bytes32 daddr.

(** The new MAC header: the old one's destination becomes the source.  It is
    read from [old_eth], which overlaps the outer IP header, before that is
    written. *)
Definition new_eth (b : list Z) (old_eth : nat) (dst_mac : list Z) (h_proto : Z) : list Z :=
  let b := put b 6 (firstn 6 (skipn old_eth b)) in
  let b := put b 0 (firstn 6 dst_mac) in
  put b 12 (bytes16 (to_be h_proto)).

Definition encap_v4 (saddr daddr payload_len : Z) (dst_mac : list Z) (p : packet) : Z * packet :=
  let (ok, p) := adjust_head p (- Z.of_nat IP_SZ) in
  if negb ok then (-1, p)
  else if negb (fits p 0 ETH_SZ) || negb (fits p IP_SZ ETH_SZ) || negb (fits p ETH_SZ IP_SZ) then (-1, p)
  else
    let b := new_eth (bytes p) IP_SZ dst_mac ETH_P_IP in
    let b := put b ETH_SZ (outer_iphdr saddr daddr payload_len) in
    (0, p <| bytes := ipv4_csum b ETH_SZ |>).

Definition encap_v6 (saddr daddr : list Z) (nexthdr payload_len : Z) (dst_mac : list Z) (p : packet)
    : Z * packet :=
  let (ok, p) := adjust_head p (- Z.of_nat IP6_SZ) in
  if negb ok then (-1, p)
  else if negb (fits p 0 ETH_SZ) || negb (fits p IP6_SZ ETH_SZ) || negb (fits p ETH_SZ IP6_SZ) then (-1, p)
  else
    let b := new_eth (bytes p) IP6_SZ dst_mac ETH_P_IPV6 in
    (0, p <| bytes := put b ETH_SZ (outer_ipv6hdr saddr daddr nexthdr payload_len) |>).

(** ** Early exit

    A computation that may leave the block labelled ['out] with an action. *)

Definition Block (A : Type) : Type := ST world (Z + A).
Definition go {A} (a : A) : Block A := ret (inr a).
Definition out {A} (action : Z) : Block A := ret (inl action).
Definition bindP {A B} (m : Block A) (k : A -> Block B) : Block B :=
  bind m (fun r => match r with inl action => ret (inl action) | inr a => k a end).
Definition lift {A} (m : ST world A) : Block A := bind m go.
Notation "x <~ c ;; k" := (bindP c (fun x => k))
  (at level 61, c at next level, right associativity) : st_scope.
Notation "'do' c ;; k" := (bindP (lift c) (fun _ => k))
  (at level 61, c at next level, right associativity) : st_scope.

(** ** Statistics and lookups *)

Definition fset {A} (f : Z -> A) (k : Z) (v : A) : Z -> A := fun k' => if k' =? k then v else f k'.

Definition ns : ST world Z := fun w => (u64 (ktime (clock w)), w <| clock ::= S |>).

Definition bump1 (s : lb_stats) : lb_stats := s <| v1 := u64 (v1 s + 1) |>.
Definition bump2 (s : lb_stats) : lb_stats := s <| v2 := u64 (v2 s + 1) |>.
Definition bump (n : Z) (s : lb_stats) : lb_stats :=
  {| v1 := u64 (v1 s + 1); v2 := u64 (v2 s + n) |}.

(** A change of the entry [key] of [stats]; a key outside the map has none. *)
Definition mod_stats (key : Z) (f : lb_stats -> lb_stats) : ST world unit :=
  modify (fun w => if key <? STATS_SIZE
                   then w <| stats ::= (fun st => fset st key (f (st key))) |> else w).

Definition update_stats (key n : Z) : ST world unit := mod_stats key (bump n).

Definition update_reals_stats (key n : Z) : ST world unit :=
  modify (fun w => if key <? MAX_REALS
                   then w <| reals_stats ::= (fun st => fset st key (bump n (st key))) |> else w).

Definition action_key (action : Z) : Z :=
  if action =? XDP_TX then STATS_XDP_TX
  else if action =? XDP_PASS then STATS_XDP_PASS else STATS_XDP_DROP.

Definition count_action (action : Z) : ST world unit := mod_stats (action_key action) bump1.

Definition is_under_flood : ST world bool :=
  cur_time <- ns ;;
  st <- get (fun w => stats w STATS_NEW_CONN) ;;
  if ONE_SEC <? (cur_time ⊟ v2 st)%w64 then
    mod_stats STATS_NEW_CONN (fun _ => {| v1 := 1; v2 := cur_time |}) ;; ret false
  else
    mod_stats STATS_NEW_CONN bump1 ;;
    st <- get (fun w => stats w STATS_NEW_CONN) ;;
    ret (MAX_CONN_RATE <? v1 st).

(** The connection table of this CPU. *)
Definition lru_lookup (f : flow_key) : ST world (option real_pos_lru) :=
  get (fun w => match lru_mapping w cpu_id with Some l => l f | None => None end).

(** A write through the pointer a lookup returned. *)
Definition lru_write (f : flow_key) (e : real_pos_lru) : ST world unit :=
  modify (fun w => w <| lru_mapping ::= (fun m =>
    fset m cpu_id (option_map (fun l k => if flow_key_eq_dec k f then Some e else l k) (m cpu_id))) |>).

(** [bpf_map_update_elem] on this CPU's connection table. *)
Definition lru_update (f : flow_key) (e : real_pos_lru) : ST world unit :=
  modify (fun w => w <| lru_mapping ::= (fun m =>
    fset m cpu_id (option_map (fun l => lru_store (inserts w) l f e) (m cpu_id))) |>
    <| inserts ::= S |>).

Definition reals_lookup (key : Z) : ST world (option real_definition) :=
  get (fun w => if key <? MAX_REALS then Some (reals w key) else None).

(** The real a flow is bound to, and its index; an idle UDP entry does not
    count. *)
Definition connection_table_lookup (flow : flow_key) : ST world (option real_definition * Z) :=
  e <- lru_lookup flow ;;
  match e with
  | None => ret (None, 0)
  | Some e =>
      expired <- (if proto flow =? IPPROTO_UDP then
                    cur_time <- ns ;;
                    if LRU_UDP_TIMEOUT <? (cur_time ⊟ atime e)%w64 then ret true
                    else lru_write flow (e <| atime := cur_time |>) ;; ret false
                  else ret false) ;;
      if expired : bool then ret (None, 0)
      else r <- reals_lookup (pos e) ;; ret (r, pos e)
  end.

Definition flow_hash (is_v6 : bool) (flow : flow_key) : Z :=
  let ports := port0 flow + 65536 * port1 flow in
  if is_v6 then jhash_2words (jhash2_4words (src flow)) ports
  else jhash_2words (nth 0 (src flow) 0) ports.

Definition ch_key (vip_info : vip_meta) (hash : Z) : Z :=
  (CH_RING_SIZE ⊠ vip_num vip_info ⊞ hash mod CH_RING_SIZE)%w32.

(** The consistent-hash choice: the real and its index, or [None]. *)
Definition get_packet_dst (flow : flow_key) (vip_info : vip_meta) (is_v6 is_rst : bool)
    : ST world (option (real_definition * Z)) :=
  under_flood <- is_under_flood ;;
  let key := ch_key vip_info (flow_hash is_v6 flow) in
  if CH_RINGS_SIZE <=? key then ret None else
  real_pos <- get (fun w => ch_rings w key) ;;
  r <- reals_lookup real_pos ;;
  match r with
  | None => ret None
  | Some real =>
      when ((Z.land (vflags vip_info) F_LRU_BYPASS =? 0) && negb under_flood && negb is_rst)
        (t <- (if proto flow =? IPPROTO_UDP then ns else ret 0) ;;
         lru_update flow {| pos := real_pos; atime := t |}) ;;
      ret (Some (real, real_pos))
  end.

Definition same_vip (is_v6 : bool) (a b : vip_definition) : bool :=
  (if is_v6 then forallb (fun i => nth i (addr a) 0 =? nth i (addr b) 0) [0; 1; 2; 3]%nat
   else nth 0 (addr a) 0 =? nth 0 (addr b) 0)
  && (vport a =? vport b) && (vproto a =? vproto b).

Definition update_vip_lru_miss_stats (vip : vip_definition) (is_v6 : bool) (real_idx : Z)
    : ST world unit :=
  modify (fun w => if same_vip is_v6 (vip_miss_stats w) vip && (real_idx <? MAX_REALS)
                   then w <| lru_miss_stats ::= (fun f => fset f real_idx (u32 (f real_idx + 1))) |>
                   else w).

(** ** The load balancer *)

(** What the headers say of a packet that has a layer 4. *)
Record parsed := {
  is_v6 : bool;
  payload_len : Z;
  p_src : list Z;
  p_dst : list Z;
  p_proto : Z;
  l4 : nat
}.

Definition u32x4 (w : Z) : list Z := [w; 0; 0; 0].

(** The Ethernet and IP headers: an action, or what they say. *)
Definition parse_ip (p : packet) : Z + parsed :=
  let b := bytes p in
  if negb (fits p 0 ETH_SZ) then inl XDP_DROP
  else if word16 b 12 =? to_be ETH_P_IPV6 then
    if negb (fits p ETH_SZ IP6_SZ) then inl XDP_DROP
    else if byte b (ETH_SZ + 6) =? IPPROTO_FRAGMENT then inl XDP_DROP
    else inr {| is_v6 := true;
                payload_len := u16 (Z.of_nat IP6_SZ + to_be (word16 b (ETH_SZ + 4)));
                p_src := words32 b (ETH_SZ + 8) 4; p_dst := words32 b (ETH_SZ + 24) 4;
                p_proto := byte b (ETH_SZ + 6); l4 := ETH_SZ + IP6_SZ |}
  else if word16 b 12 =? to_be ETH_P_IP then
    if negb (fits p ETH_SZ IP_SZ) then inl XDP_DROP
    else if negb (Z.land (byte b ETH_SZ) 0x0f =? 5) then inl XDP_DROP
    else if negb (Z.land (word16 b (ETH_SZ + 6)) (to_be PCKT_FRAGMENTED) =? 0) then inl XDP_DROP
    else inr {| is_v6 := false;
                payload_len := to_be (word16 b (ETH_SZ + 2));
                p_src := u32x4 (word32 b (ETH_SZ + 12)); p_dst := u32x4 (word32 b (ETH_SZ + 16));
                p_proto := byte b (ETH_SZ + 9); l4 := ETH_SZ + IP_SZ |}
  else inl XDP_PASS.

(** The transport header: the flow, and the TCP flags. *)
Definition parse_l4 (p : packet) (h : parsed) : Z + (flow_key * bool * bool) :=
  let b := bytes p in
  if negb (p_proto h =? IPPROTO_TCP) && negb (p_proto h =? IPPROTO_UDP) then inl XDP_PASS
  else if negb (fits p (l4 h) UDP_SZ) then inl XDP_DROP
  else
    let flow := {| src := p_src h; dst := p_dst h; port0 := word16 b (l4 h);
                   port1 := word16 b (l4 h + 2); proto := p_proto h |} in
    if p_proto h =? IPPROTO_TCP then
      if negb (fits p (l4 h) TCP_SZ) then inl XDP_DROP
      else let flags := byte b (l4 h + 13) in
           inr (flow, negb (Z.land flags TCPF_SYN =? 0), negb (Z.land flags TCPF_RST =? 0))
    else inr (flow, false, false).

Definition vip_of (h : parsed) (flow : flow_key) : vip_definition :=
  {| addr := p_dst h; vport := port1 flow; vproto := p_proto h |}.

(** The real of the flow: the connection table's unless it is bypassed or the
    packet opens a connection, otherwise the ring's, which counts as a miss. *)
Definition choose_real (h : parsed) (flow : flow_key) (vip_info : vip_meta) (is_syn is_rst : bool)
    : Block (real_definition * Z) :=
  found <~ lift (if (Z.land (vflags vip_info) F_LRU_BYPASS =? 0) && negb is_syn
                 then connection_table_lookup flow else ret (None, 0)) ;;
  match found with
  | (Some real, real_pos) => go (real, real_pos)
  | (None, _) =>
      do (when (proto flow =? IPPROTO_TCP) (mod_stats STATS_LRU_MISS bump1)) ;;
      r <~ lift (get_packet_dst flow vip_info (is_v6 h) is_rst) ;;
      match r with
      | None => out XDP_DROP
      | Some (real, real_pos) =>
          do (update_vip_lru_miss_stats (vip_of h flow) (is_v6 h) real_pos) ;;
          do (mod_stats STATS_LRU bump2) ;;
          go (real, real_pos)
      end
  end.

(** The outer headers for a real. *)
Definition encap (h : parsed) (flow : flow_key) (real : real_definition) (mac : list Z)
    : packet -> Z * packet :=
  if is_v6 h then
    encap_v6 (create_encap_ipv6_src (port0 flow) (nth 0 (src flow) 0)) (dstv6 real) IPPROTO_IPV6
             (payload_len h) mac
  else if negb (Z.land (rflags real) F_IPV6 =? 0) then
    encap_v6 (create_encap_ipv6_src (port0 flow) (nth 0 (src flow) 0)) (dstv6 real) IPPROTO_IPIP
             (payload_len h) mac
  else
    encap_v4 (create_encap_ipv4_src (port0 flow) (nth 0 (src flow) 0)) (rdst real)
             (payload_len h) mac.

Definition do_encap (h : parsed) (flow : flow_key) (real : real_definition) : Block unit := fun w =>
  let (r, p) := encap h flow real (ctl_mac w) (pkt w) in
  (if negb (r =? 0) then inl XDP_DROP else inr tt, w <| pkt := p |>).

Definition forward (h : parsed) (flow : flow_key) (is_syn is_rst : bool) : Block unit :=
  vip_info <~ lift (get (fun w => vip_map w (vip_of h flow))) ;;
  match vip_info with
  | None => out XDP_PASS
  | Some vip_info =>
      do (mod_stats STATS_LRU bump1) ;;
      has_lru <~ lift (get (fun w => match lru_mapping w cpu_id with Some _ => true | None => false end)) ;;
      if negb has_lru then out XDP_DROP else
      chosen <~ choose_real h flow vip_info is_syn is_rst ;;
      let (real, real_pos) := chosen in
      do (update_stats (vip_num vip_info) (payload_len h)) ;;
      do (update_reals_stats real_pos (payload_len h)) ;;
      do_encap h flow real
  end.

(** The body of ['out: { ... }]; falling through sets [XDP_TX]. *)
Definition process_body : Block unit := fun w =>
  match parse_ip (pkt w) with
  | inl a => (inl a, w)
  | inr h => match parse_l4 (pkt w) h with
             | inl a => (inl a, w)
             | inr (flow, is_syn, is_rst) => forward h flow is_syn is_rst w
             end
  end.

Definition process_packet : ST world Z :=
  r <- process_body ;;
  let action := match r with inl a => a | inr _ => XDP_TX end in
  count_action action ;;
  ret action.

(** ** The benchmark driver *)

Definition strip_encap (saved_eth : list Z) (p : packet) : Z * packet :=
  if negb (fits p 0 ETH_SZ) then (-1, p) else
  let hdr_sz := if word16 (bytes p) 12 =? to_be ETH_P_IPV6 then IP6_SZ else IP_SZ in
  let (ok, p) := adjust_head p (Z.of_nat hdr_sz) in
  if negb ok then (-1, p)
  else if negb (fits p 0 ETH_SZ) then (-1, p)
  else (0, p <| bytes := put (bytes p) 0 saved_eth |>).

Definition xorshift (x : Z) : Z :=
  let x := Z.lxor x (shl 32 x 13) in
  let x := Z.lxor x (shr x 17) in
  Z.lxor x (shl 32 x 5).

Definition randomize_src (mask : Z) (saddr_off : nat) (rand_state : Z) (p : packet) : packet :=
  if fits p saddr_off 4
  then p <| bytes ::= (fun b => put b saddr_off (bytes32 (Z.land rand_state mask))) |> else p.

(** [*saddr ^= batch_hash] *)
Definition xor_src (saddr_off : nat) (hash : Z) (p : packet) : packet :=
  if fits p saddr_off 4
  then p <| bytes ::= (fun b => put b saddr_off (bytes32 (Z.lxor (word32 b saddr_off) hash))) |> else p.

Definition bench_record_sample (elapsed_ns : Z) : ST world unit :=
  modify (fun w =>
    if timing_enabled w =? 0 then w else
    let cpu := Z.land cpu_id BENCH_CPU_MASK in
    let idx := timing_idx w cpu in
    if BENCH_NR_SAMPLES <=? idx then w
    else w <| timing_samples ::= (fun t => fset t cpu (fset (t cpu) idx elapsed_ns)) |>
           <| timing_idx ::= (fun t => fset t cpu (u32 (idx + 1))) |>).

(** The reset block after one timed iteration; [None] makes the program
    return [XDP_DROP]. *)
Definition bench_reset (saved_eth : list Z) (saddr_off : nat) (batch_hash result rand_state : Z)
    : ST world (option Z) := fun w =>
  let undo := fun p => if negb (cold_lru w =? 0) then xor_src saddr_off batch_hash p else p in
  if result =? XDP_TX then
    let (e, p) := strip_encap saved_eth (pkt w) in
    if negb (e =? 0) then (None, w <| pkt := p |>)
    else if negb (rand_state =? 0) then
      let r := xorshift rand_state in
      (Some r, w <| pkt := undo (randomize_src (flow_mask w) saddr_off r p) |>)
    else (Some rand_state, w <| pkt := undo p |>)
  else (Some rand_state, w <| pkt ::= undo |>).

(** [while bench_i < batch_iters && can_loop() { ... }], [n] iterations left. *)
Fixpoint bench_loop (n i : nat) (saved_eth : list Z) (saddr_off : nat) (batch_hash rand_state : Z)
    : ST world (option Z) :=
  match n with
  | O => ret (Some rand_state)
  | S n' =>
      if can_loop i then
        result <- process_packet ;;
        r <- bench_reset saved_eth saddr_off batch_hash result rand_state ;;
        match r with
        | None => ret None
        | Some rand_state => bench_loop n' (S i) saved_eth saddr_off batch_hash rand_state
        end
      else ret (Some rand_state)
  end.

Definition xdp_lb_bench : ST world Z := fun w =>
  if negb (fits (pkt w) 0 ETH_SZ) then (XDP_DROP, w) else
  let saved_eth := firstn ETH_SZ (bytes (pkt w)) in
  let is_v6 := word16 (bytes (pkt w)) 12 =? to_be ETH_P_IPV6 in
  let saddr_off := if is_v6 then (ETH_SZ + 8)%nat else (ETH_SZ + 12)%nat in
  let rand_state := if negb (flow_mask w =? 0) then Z.lor prandom 1 else 0 in
  let gen := (batch_gen w ⊞ 1)%w32 in
  let batch_hash := if negb (cold_lru w =? 0) then ((gen ⊞ cpu_id) ⊠ KNUTH_HASH_MULT)%w32 else 0 in
  let w := if negb (cold_lru w =? 0)
           then w <| batch_gen := gen |> <| pkt ::= xor_src saddr_off batch_hash |> else w in
  (bench_start <- ns ;;
   n <- get (fun w => Z.to_nat (batch_iters w)) ;;
   r <- bench_loop n 0 saved_eth saddr_off batch_hash rand_state ;;
   match r with
   | None => ret XDP_DROP
   | Some _ =>
       t <- ns ;;
       bench_record_sample (t ⊟ bench_start)%w64 ;;
       process_packet
   end) w.

End Program.

(** ** The Internet checksum *)

Definition word_sum (p : list Z) (off : nat) : Z :=
  fold_right Z.add 0 (map (fun i => word16 p (off + 2 * i)) (seq 0 10)).

Lemma fold_sum (f : nat -> Z) l s : 0 <= s -> Forall (fun i => 0 <= f i <= 65535) l ->
  s + 65536 * Z.of_nat (length l) <= 2 ^ 32 ->
  fold_left (fun s i => u32 (s + f i)) l s = s + fold_right Z.add 0 (map f l) /\
  0 <= fold_right Z.add 0 (map f l) <= 65535 * Z.of_nat (length l).
Proof.
  intros Hs Hl; revert s Hs; induction Hl as [|i l Hi Hl IH]; intros s Hs Hb.
  - cbn; split; lia.
  - cbn [length] in Hb; cbn [fold_left map fold_right length].
    rewrite (uw_small 32) by (unfold is_u; lia).
    destruct (IH (s + f i)) as [-> Hr]; [lia | lia |]. split; lia.
Qed.

Lemma csum_words_sum p off : (forall k, 0 <= word16 p k <= 65535) ->
  csum_words p off = word_sum p off /\ 0 <= word_sum p off <= 655350.
Proof.
  intros Hw; unfold csum_words, word_sum.
  destruct (fold_sum (fun i => word16 p (off + 2 * i)) (seq 0 10) 0) as [-> H];
    [lia | apply Forall_forall; auto | vm_compute; discriminate |].
  change (Z.of_nat (length (seq 0 10))) with 10 in H. split; lia.
Qed.

Lemma csum_fold_spec s : 0 <= s < 2 ^ 20 ->
  0 <= csum_fold s <= 65535 /\ exists q, 0 <= q /\ s = csum_fold s + 65535 * q /\ (0 < s -> 0 < csum_fold s).
Proof.
  intros Hs; unfold csum_fold, shr; cbv zeta.
  change 65535 with (Z.ones 16); rewrite !Z.land_ones, !shiftr_div by lia.
  change (Z.ones 16) with 65535.
  rewrite (uw_small 32 (s mod 2 ^ 16 + s / 2 ^ 16)) by (unfold is_u; Z.div_mod_to_equations; lia).
  set (t := s mod 2 ^ 16 + s / 2 ^ 16).
  assert (Ht : 0 <= t < 2 ^ 17 /\ s = t + 65535 * (s / 2 ^ 16) /\ 0 <= s / 2 ^ 16 < 16 /\ (0 < s -> 0 < t))
    by (subst t; Z.div_mod_to_equations; lia).
  assert (Hq : 0 <= t / 2 ^ 16 <= 1) by (Z.div_mod_to_equations; lia).
  rewrite uw_small by (unfold is_u; Z.div_mod_to_equations; lia).
  assert (t <= 65535 + 15) by (subst t; Z.div_mod_to_equations; lia).
  split; [Z.div_mod_to_equations; lia|].
  exists (s / 2 ^ 16 + t / 2 ^ 16). Z.div_mod_to_equations; lia.
Qed.

Lemma word_sum_in pre h post : length h = IP_SZ ->
  word_sum (pre ++ h ++ post) (length pre) = word_sum h 0.
Proof.
  intros Hl; unfold word_sum; f_equal; apply map_ext_in; intros i Hi%in_seq.
  rewrite word16_app, Nat.add_0_l. unfold word16, byte, IP_SZ in *.
  rewrite !app_nth1 by lia. reflexivity.
Qed.

Lemma word_sum_put h c : length h = IP_SZ -> 0 <= c <= 65535 ->
  word_sum (put h 10 (bytes16 c)) 0 = word_sum h 0 - word16 h 10 + c.
Proof.
  intros Hl Hc. rewrite <- (word_of_bytes16 c Hc) at 2. unfold IP_SZ in Hl; explode h.
  unfold word_sum, word16, byte, put, bytes16. cbn [map seq fold_right nth firstn skipn app length Nat.add Nat.mul].
  lia.
Qed.

(** The header checksum: on a header whose checksum field is zero,
    [ipv4_csum] changes that field only, and a receiver's check of the result
    succeeds: the ones' complement sum of the ten words folds to 0xffff. *)
Lemma ipv4_csum_verifies pre h post :
  length h = IP_SZ -> Forall is_u8 (pre ++ h ++ post) -> word16 h 10 = 0 ->
  let b := ipv4_csum (pre ++ h ++ post) (length pre) in
  exists c, b = pre ++ put h 10 (bytes16 c) ++ post /\ 0 <= c <= 65535 /\
            csum_fold (csum_words b (length pre)) = 0xffff.
Proof.
  intros Hl Hb Hz b.
  destruct (csum_words_sum _ (length pre) (word16_range _ Hb)) as [E Hs].
  destruct (csum_fold_spec (word_sum (pre ++ h ++ post) (length pre))) as [Hf (q & Hq & Es & Hpos)]; [lia|].
  set (s := word_sum (pre ++ h ++ post) (length pre)) in *.
  set (c := 65535 - csum_fold s) in *.
  assert (Hc : 0 <= c <= 65535) by lia.
  assert (Eb : b = pre ++ put h 10 (bytes16 c) ++ post).
  { subst b; unfold ipv4_csum. rewrite E, check_value by lia. apply put_in. rewrite Hl; unfold IP_SZ; cbn [length bytes16]; lia. }
  exists c; split; [exact Eb|]; split; [exact Hc|]. rewrite Eb.
  assert (Hl' : length (put h 10 (bytes16 c)) = IP_SZ) by (rewrite length_put; [exact Hl | rewrite Hl; unfold IP_SZ; cbn [length bytes16]; lia]).
  assert (Hb' : Forall is_u8 (pre ++ put h 10 (bytes16 c) ++ post)).
  { rewrite !Forall_app in *; repeat split; try apply Hb.
    apply Forall_put; [apply Hb | apply bytes16_range]. }
  destruct (csum_words_sum _ (length pre) (word16_range _ Hb')) as [-> _].
  rewrite (word_sum_in pre _ post Hl'), word_sum_put, Hz by assumption.
  assert (S0 : word_sum h 0 = s) by (symmetry; apply (word_sum_in pre h post Hl)). rewrite S0.
  destruct (csum_fold_spec (s - 0 + c)) as [Hf' (q' & Hq' & Es' & Hpos')]; [lia|].
  assert (0 < csum_fold (s - 0 + c)) by (apply Hpos'; lia).
  lia.
Qed.

(** ** What encapsulation does to the packet *)

(** [b'] is [b] sent to [real] through the gateway [mac]: a new MAC header
    addressed to the gateway from the station that received [b], an outer IP
    header to the real, and [b] from its IP header on.  An outer IPv4 header
    has a valid checksum and a source in 172.16/16. *)
Inductive encapsulated (real : real_definition) (mac b b' : list Z) : Prop :=
| Encapsulated4 eth rest port srcw len c :
    b = eth ++ rest -> length eth = ETH_SZ -> Z.land (rflags real) F_IPV6 = 0 ->
    b' = mac ++ firstn 6 eth ++ bytes16 (to_be ETH_P_IP) ++
         put (outer_iphdr (create_encap_ipv4_src port srcw) (rdst real) len) 10 (bytes16 c) ++ rest ->
    csum_fold (csum_words b' ETH_SZ) = 0xffff ->
    firstn 2 (bytes32 (create_encap_ipv4_src port srcw)) = [172; 16] ->
    encapsulated real mac b b'
| Encapsulated6 eth rest port srcw nexthdr len :
    b = eth ++ rest -> length eth = ETH_SZ -> nexthdr = IPPROTO_IPV6 \/ nexthdr = IPPROTO_IPIP ->
    b' = mac ++ firstn 6 eth ++ bytes16 (to_be ETH_P_IPV6) ++
         outer_ipv6hdr (create_encap_ipv6_src port srcw) (dstv6 real) nexthdr len ++ rest ->
    encapsulated real mac b b'.

Lemma encap_src_prefix port srcw :
  firstn 2 (bytes32 (create_encap_ipv4_src port srcw)) = [172; 16].
Proof.
  unfold create_encap_ipv4_src, bytes32, bytes16, shl; cbn [firstn app]. cbv zeta.
  set (v := Z.lor _ _).
  assert (E : v mod 65536 = 4268).
  { subst v. change 65536 with (2 ^ 16). rewrite <- !Z.land_ones by lia.
    rewrite Z.land_lor_distr_l, <- Z.land_assoc, (Z.land_comm (Z.lxor _ _)), Z.land_assoc.
    change (Z.land 4294901760 (Z.ones 16)) with 0. reflexivity. }
  now rewrite E.
Qed.

Lemma outer_iphdr_range saddr daddr len : Forall is_u8 (outer_iphdr saddr daddr len).
Proof.
  unfold outer_iphdr, bytes32; rewrite !Forall_app.
  repeat split; try apply bytes16_range; repeat constructor; vm_compute; try discriminate; auto.
Qed.

Lemma bytes_set p b : bytes (p <| bytes := b |>) = b.
Proof. reflexivity. Qed.

Section Encap.
Context {K : Kernel} {KO : KernelOk K}.

Lemma adjust_head_grow p k p' : adjust_head p (- Z.of_nat k) = (true, p') ->
  exists new, length new = k /\ bytes p' = new ++ bytes p.
Proof.
  unfold adjust_head. destruct (xdp_adjust_head _ _ _) eqn:E; [|discriminate].
  intros [= <-]; exact (adjust_grow _ _ _ _ E).
Qed.

Lemma adjust_head_shrink p k p' : adjust_head p (Z.of_nat k) = (true, p') -> bytes p' = skipn k (bytes p).
Proof.
  unfold adjust_head. destruct (xdp_adjust_head _ _ _) eqn:E; [|discriminate].
  intros [= <-]; exact (adjust_shrink _ _ _ _ E).
Qed.

Lemma adjust_head_fail p d p' : adjust_head p d = (false, p') -> bytes p' = bytes p.
Proof. unfold adjust_head. destruct (xdp_adjust_head _ _ _); intros [= <-]; reflexivity. Qed.

Lemma fits_prefix p pre post off sz :
  bytes p = pre ++ post -> (off + sz <= length pre)%nat -> fits p off sz = true.
Proof. intros E H; unfold fits; rewrite E, length_app. apply Nat.leb_le; lia. Qed.

(** The new MAC header on explicit bytes. *)
Lemma new_eth_app new eth rest mac proto :
  (ETH_SZ <= length new)%nat -> length eth = ETH_SZ -> length mac = 6%nat ->
  new_eth (new ++ eth ++ rest) (length new) mac proto =
  (mac ++ firstn 6 eth ++ bytes16 (to_be proto)) ++ skipn ETH_SZ new ++ eth ++ rest.
Proof.
  unfold ETH_SZ; intros Hn He Hm; unfold new_eth.
  assert (E : firstn 6 (skipn (length new) (new ++ eth ++ rest)) = firstn 6 eth).
  { rewrite skipn_app, skipn_all, Nat.sub_diag. cbn [skipn app].
    rewrite firstn_app. replace (6 - length eth)%nat with O by lia. apply app_nil_r. }
  rewrite E; clear E.
  do 14 (destruct new as [|? new]; [cbn in Hn; lia|]). clear Hn.
  explode mac. do 6 (destruct eth as [|? eth]; [discriminate|]). reflexivity.
Qed.

Lemma encap_v4_result saddr daddr len mac p r p' eth rest :
  encap_v4 saddr daddr len mac p = (r, p') -> bytes p = eth ++ rest -> length eth = ETH_SZ ->
  length mac = 6%nat -> Forall is_u8 (bytes p) -> Forall is_u8 mac ->
  r <> 0 /\ bytes p' = bytes p \/
  r = 0 /\ exists c,
    bytes p' = mac ++ firstn 6 eth ++ bytes16 (to_be ETH_P_IP) ++
               put (outer_iphdr saddr daddr len) 10 (bytes16 c) ++ rest /\
    csum_fold (csum_words (bytes p') ETH_SZ) = 0xffff.
Proof.
  intros E Hb He Hm Ub Um; unfold encap_v4 in E.
  destruct (adjust_head p _) as [[|] q] eqn:Ea; cbn [negb] in E.
  2: { apply adjust_head_fail in Ea. injection E as <- <-. left; split; [lia | exact Ea]. }
  apply adjust_head_grow in Ea; destruct Ea as (new & Hn & Eq). rewrite Hb in Eq.
  pose proof (app_assoc new eth rest) as Ea; rewrite Ea in Eq.
  assert (Hl : length (new ++ eth) = 34%nat) by (rewrite length_app, Hn, He; reflexivity).
  rewrite !(fits_prefix q (new ++ eth) rest) in E by (exact Eq || (rewrite Hl; vm_compute; lia)).
  cbn [negb orb] in E; injection E as <- <-; right; split; [reflexivity|].
  rewrite Eq, <- Ea, <- Hn. rewrite new_eth_app by (rewrite ?Hn; assumption || (vm_compute; lia)).
  set (pre := mac ++ firstn 6 eth ++ bytes16 (to_be ETH_P_IP)).
  assert (Hp : length pre = ETH_SZ) by (subst pre; rewrite !length_app, length_firstn, Hm, He; reflexivity).
  set (h := outer_iphdr saddr daddr len).
  assert (Hh : length h = IP_SZ) by reflexivity.
  assert (Hold : length (skipn ETH_SZ new ++ eth) = IP_SZ).
  { rewrite length_app, length_skipn, Hn, He. reflexivity. }
  rewrite bytes_set.
  assert (P := put_app pre (skipn ETH_SZ new ++ eth) rest h (eq_trans Hold (eq_sym Hh))).
  rewrite Hp, <- (app_assoc _ eth rest) in P; rewrite P; clear P.
  assert (Ub' : Forall is_u8 (pre ++ h ++ rest)).
  { rewrite Hb in Ub; apply Forall_app in Ub as [Ue Ur]. subst pre.
    rewrite !Forall_app; repeat split; try assumption; try apply bytes16_range.
    - rewrite <- (firstn_skipn 6 eth) in Ue; now apply Forall_app in Ue.
    - apply outer_iphdr_range. }
  destruct (ipv4_csum_verifies pre h rest Hh Ub' eq_refl) as (c & Ec & _ & Hc).
  rewrite Hp in Ec, Hc; rewrite Hc, Ec.
  exists c. split; [subst pre; now rewrite <- !app_assoc | reflexivity].
Qed.

Lemma encap_v6_result saddr daddr nexthdr len mac p r p' eth rest :
  length (outer_ipv6hdr saddr daddr nexthdr len) = IP6_SZ ->
  encap_v6 saddr daddr nexthdr len mac p = (r, p') -> bytes p = eth ++ rest -> length eth = ETH_SZ ->
  length mac = 6%nat ->
  r <> 0 /\ bytes p' = bytes p \/
  r = 0 /\ bytes p' = mac ++ firstn 6 eth ++ bytes16 (to_be ETH_P_IPV6) ++
                      outer_ipv6hdr saddr daddr nexthdr len ++ rest.
Proof.
  intros Hh E Hb He Hm; unfold encap_v6 in E.
  destruct (adjust_head p _) as [[|] q] eqn:Ea; cbn [negb] in E.
  2: { apply adjust_head_fail in Ea. injection E as <- <-. left; split; [lia | exact Ea]. }
  apply adjust_head_grow in Ea; destruct Ea as (new & Hn & Eq). rewrite Hb in Eq.
  pose proof (app_assoc new eth rest) as Ea; rewrite Ea in Eq.
  assert (Hl : length (new ++ eth) = 54%nat) by (rewrite length_app, Hn, He; reflexivity).
  rewrite !(fits_prefix q (new ++ eth) rest) in E by (exact Eq || (rewrite Hl; vm_compute; lia)).
  cbn [negb orb] in E; injection E as <- <-; right; split; [reflexivity|].
  rewrite Eq, <- Ea, <- Hn. rewrite new_eth_app by (rewrite ?Hn; assumption || (vm_compute; lia)).
  set (pre := mac ++ firstn 6 eth ++ bytes16 (to_be ETH_P_IPV6)).
  assert (Hp : length pre = ETH_SZ) by (subst pre; rewrite !length_app, length_firstn, Hm, He; reflexivity).
  set (h := outer_ipv6hdr saddr daddr nexthdr len) in *.
  assert (Hold : length (skipn ETH_SZ new ++ eth) = IP6_SZ).
  { rewrite length_app, length_skipn, Hn, He. reflexivity. }
  rewrite bytes_set.
  assert (P := put_app pre (skipn ETH_SZ new ++ eth) rest h (eq_trans Hold (eq_sym Hh))).
  rewrite Hp, <- (app_assoc _ eth rest) in P; rewrite P.
  subst pre; now rewrite <- !app_assoc.
Qed.

(** The encapsulation the program chooses for [real]. *)
Lemma encap_result h flow real mac p r p' :
  encap h flow real mac p = (r, p') ->
  (ETH_SZ <= length (bytes p))%nat -> Forall is_u8 (bytes p) -> length mac = 6%nat ->
  Forall is_u8 mac -> length (dstv6 real) = 4%nat ->
  r <> 0 /\ bytes p' = bytes p \/ r = 0 /\ encapsulated real mac (bytes p) (bytes p').
Proof.
  intros E Hl Hb Hm Um Hd; unfold encap in E.
  assert (Eb := eq_sym (firstn_skipn ETH_SZ (bytes p))).
  assert (El : length (firstn ETH_SZ (bytes p)) = ETH_SZ) by (rewrite length_firstn; lia).
  assert (H6 : forall n, length (outer_ipv6hdr (create_encap_ipv6_src (port0 flow) (nth 0 (src flow) 0))
                                   (dstv6 real) n (payload_len h)) = IP6_SZ)
    by (intros n; revert Hd; generalize (dstv6 real); intros l Hl4; explode l; reflexivity).
  destruct (is_v6 h); [|destruct (Z.eqb_spec (Z.land (rflags real) F_IPV6) 0) as [Hf|Hf]; cbn [negb] in E].
  - destruct (encap_v6_result _ _ _ _ _ _ _ _ _ _ (H6 _) E Eb El Hm) as [?|[? E6]]; [now left | right].
    split; [assumption | eapply Encapsulated6]; try eassumption; auto.
  - destruct (encap_v4_result _ _ _ _ _ _ _ _ _ E Eb El Hm Hb Um) as [?|(? & c & E4 & Hc)];
      [now left | right].
    split; [assumption | eapply Encapsulated4]; try eassumption. apply encap_src_prefix.
  - destruct (encap_v6_result _ _ _ _ _ _ _ _ _ _ (H6 _) E Eb El Hm) as [?|[? E6]]; [now left | right].
    split; [assumption | eapply Encapsulated6]; try eassumption; auto.
Qed.

Lemma mac_header mac eth proto rest : length mac = 6%nat -> length eth = ETH_SZ -> is_u16 proto ->
  length (mac ++ firstn 6 eth ++ bytes16 (to_be proto)) = ETH_SZ /\
  word16 ((mac ++ firstn 6 eth ++ bytes16 (to_be proto)) ++ rest) 12 = to_be proto.
Proof.
  unfold ETH_SZ; intros Hm He Hp. explode mac. do 6 (destruct eth as [|? eth]; [discriminate|]).
  split; [reflexivity|]. cbn [app firstn]. unfold word16, byte, bytes16, to_be; cbn [nth app Nat.add].
  unfold is_u in Hp. Z.div_mod_to_equations; lia.
Qed.

(** The shape [strip_encap] relies on: the ethertype tells the length of the
    outer header. *)
Lemma encapsulated_shape real mac b b' : encapsulated real mac b b' -> length mac = 6%nat ->
  length (dstv6 real) = 4%nat ->
  exists pre hdr eth rest, b' = pre ++ hdr ++ rest /\ b = eth ++ rest /\
    length eth = ETH_SZ /\ length pre = ETH_SZ /\
    length hdr = if word16 b' 12 =? to_be ETH_P_IPV6 then IP6_SZ else IP_SZ.
Proof.
  intros [eth rest port srcw len c -> He _ -> _ _|eth rest port srcw nexthdr len -> He _ ->] Hm Hd.
  - set (hdr := put _ 10 (bytes16 c)).
    destruct (mac_header mac eth ETH_P_IP (hdr ++ rest) Hm He) as [Hp Hw]; [vm_compute; intuition discriminate|].
    exists (mac ++ firstn 6 eth ++ bytes16 (to_be ETH_P_IP)), hdr, eth, rest.
    rewrite <- !app_assoc in *. rewrite Hw. repeat split; assumption || reflexivity.
  - set (hdr := outer_ipv6hdr _ _ _ _).
    destruct (mac_header mac eth ETH_P_IPV6 (hdr ++ rest) Hm He) as [Hp Hw]; [vm_compute; intuition discriminate|].
    exists (mac ++ firstn 6 eth ++ bytes16 (to_be ETH_P_IPV6)), hdr, eth, rest.
    rewrite <- !app_assoc in *. rewrite Hw. repeat split; try assumption.
    subst hdr; revert Hd; generalize (dstv6 real); intros l Hl; explode l; reflexivity.
Qed.

(** ** One packet *)

(** What holds of the tables the program is configured with. *)
Record configured (w : world) : Prop := {
  mac_length : length (ctl_mac w) = 6%nat;
  mac_bytes : Forall is_u8 (ctl_mac w);
  real_words : forall i, length (dstv6 (reals w i)) = 4%nat;
  vip_nums : forall v m, vip_map w v = Some m -> 0 <= vip_num m < MAX_VIPS
}.

(** Choosing a real touches neither the packet, nor the configuration, nor the
    counters of the actions. *)
Record untouched (w0 w : world) : Prop := {
  same_pkt : pkt w = pkt w0;
  same_reals : reals w = reals w0;
  same_mac : ctl_mac w = ctl_mac w0;
  same_vips : vip_map w = vip_map w0;
  same_mask : flow_mask w = flow_mask w0;
  same_cold : cold_lru w = cold_lru w0;
  same_counts : forall k, STATS_XDP_TX <= k <= STATS_XDP_DROP -> stats w k = stats w0 k
}.

Lemma untouched_refl w : untouched w w.
Proof. now constructor. Qed.

(** Every update before the encapsulation is one of these. *)
Ltac untouch := apply preserves_modify; intros ? [? ? ? ? ? ? ?]; try case_if; constructor; cbn; auto.

Lemma ns_untouched w0 : preserves (untouched w0) ns.
Proof. intros s [? ? ? ? ? ? ?]; constructor; cbn; auto. Qed.

Lemma mod_stats_untouched w0 key f : ~ STATS_XDP_TX <= key <= STATS_XDP_DROP ->
  preserves (untouched w0) (mod_stats key f).
Proof.
  intros Hk; unfold mod_stats; untouch. intros k Hr; unfold fset.
  destruct (Z.eqb_spec k key); [subst; contradiction | auto].
Qed.

Lemma update_reals_stats_untouched w0 key n : preserves (untouched w0) (update_reals_stats key n).
Proof. unfold update_reals_stats; untouch. Qed.

Lemma lru_write_untouched w0 f e : preserves (untouched w0) (lru_write f e).
Proof. unfold lru_write; untouch. Qed.

Lemma lru_update_untouched w0 f e : preserves (untouched w0) (lru_update f e).
Proof. unfold lru_update; untouch. Qed.

Lemma miss_stats_untouched w0 v b i : preserves (untouched w0) (update_vip_lru_miss_stats v b i).
Proof. unfold update_vip_lru_miss_stats; untouch. Qed.

End Encap.

#[export] Hint Resolve ns_untouched update_reals_stats_untouched lru_write_untouched
  lru_update_untouched miss_stats_untouched : inv.
#[export] Hint Extern 2 (preserves (untouched _) (mod_stats _ _)) =>
  (apply mod_stats_untouched; vm_compute; intuition discriminate) : inv.

Section Packet.
Context {K : Kernel} {KO : KernelOk K}.

Lemma is_under_flood_untouched w0 : preserves (untouched w0) is_under_flood.
Proof. unfold is_under_flood; preserve. Qed.
#[local] Hint Resolve is_under_flood_untouched : inv.

Lemma triple_lift {A B} (m : ST world A) (k : A -> Block B) P Q R :
  triple P m Q -> (forall a, triple (Q a) (k a) R) -> triple P (bindP (lift m) k) R.
Proof.
  intros Hm Hk s Hs; unfold bindP, lift, bind, go, ret. specialize (Hm s Hs).
  destruct (m s) as [a s']; apply Hk, Hm.
Qed.

Lemma triple_bindP {A B} (m : Block A) (k : A -> Block B) P Q (R : Z + B -> world -> Prop) :
  triple P m (fun r w => match r with inl a => R (inl a) w | inr a => Q a w end) ->
  (forall a, triple (Q a) (k a) R) -> triple P (bindP m k) R.
Proof.
  intros Hm Hk s Hs; unfold bindP, bind, ret. specialize (Hm s Hs).
  destruct (m s) as [[a|a] s']; [exact Hm | apply Hk, Hm].
Qed.

(** A real that was found is an entry of the table. *)
Definition found_real (w0 : world) (r : option real_definition * Z) (w : world) : Prop :=
  untouched w0 w /\ match r with (Some real, i) => real = reals w0 i /\ i < MAX_REALS | _ => True end.

Lemma reals_lookup_found w0 i :
  triple (untouched w0) (reals_lookup i) (fun r w => found_real w0 (r, i) w).
Proof.
  apply triple_get; intros s H; split; [exact H|].
  destruct (Z.ltb_spec i MAX_REALS); [|exact I]. now rewrite (same_reals _ _ H).
Qed.

Lemma connection_table_lookup_found w0 flow :
  triple (untouched w0) (connection_table_lookup flow) (found_real w0).
Proof.
  unfold connection_table_lookup. eapply triple_bind; [apply preserves_get|]. intros [e|].
  2: { apply triple_ret; intros s H; now split. }
  eapply triple_bind with (Q := fun _ => untouched w0).
  - enough (P : preserves (untouched w0) (if proto flow =? IPPROTO_UDP then
        cur_time <- ns ;;
        if LRU_UDP_TIMEOUT <? (cur_time ⊟ atime e)%w64 then ret true
        else lru_write flow (e <| atime := cur_time |>) ;; ret false
      else ret false)) by exact P.
    preserve.
  - intros expired; apply triple_if; intros _; [apply triple_ret; intros s H; now split|].
    eapply triple_bind; [apply reals_lookup_found|]. intros r; apply triple_ret; auto.
Qed.

Lemma get_packet_dst_found w0 flow vip_info is6 is_rst :
  triple (untouched w0) (get_packet_dst flow vip_info is6 is_rst)
    (fun r w => match r with Some (real, i) => found_real w0 (Some real, i) w | None => untouched w0 w end).
Proof.
  unfold get_packet_dst. eapply triple_bind; [apply is_under_flood_untouched|]. intros uf.
  apply triple_if; intros _; [now apply triple_ret|].
  eapply triple_bind; [apply preserves_get|]. intros i.
  eapply triple_bind; [apply reals_lookup_found|]. intros [real|].
  2: { apply triple_ret; now intros s [H _]. }
  eapply triple_bind with (Q := fun _ => found_real w0 (Some real, i)).
  2: { intros _; now apply triple_ret. }
  apply triple_when; [intros _ | now auto]. intros s [H F].
  split; [|exact F]. revert s H F. 
  enough (P : preserves (untouched w0) (t <- (if proto flow =? IPPROTO_UDP then ns else ret 0) ;;
              lru_update flow {| pos := i; atime := t |})) by (intros s H _; exact (P s H)).
  preserve.
Qed.

Lemma choose_real_found w0 h flow vip_info is_syn is_rst :
  triple (untouched w0) (choose_real h flow vip_info is_syn is_rst)
    (fun r w => match r with
                | inr (real, i) => found_real w0 (Some real, i) w
                | inl a => untouched w0 w /\ a = XDP_DROP end).
Proof.
  unfold choose_real. eapply triple_lift with (Q := found_real w0).
  { apply triple_if; intros _;
      [apply connection_table_lookup_found | apply triple_ret; intros s H; now split]. }
  intros [[real|] i]; [now apply triple_ret|].
  eapply triple_lift with (Q := fun _ => untouched w0).
  { intros s [H _]; revert s H. apply preserves_when; intros _; auto with inv. }
  intros _; eapply triple_lift; [apply get_packet_dst_found|].
  intros [[real j]|]; [|apply triple_ret; now split].
  eapply triple_lift with (Q := fun _ => found_real w0 (Some real, j)).
  { intros s [H F]; split; [apply miss_stats_untouched, H | exact F]. }
  intros _; eapply triple_lift with (Q := fun _ => found_real w0 (Some real, j)).
  { intros s [H F]; split; [apply mod_stats_untouched; [vm_compute; intuition discriminate | exact H] | exact F]. }
  intros _; now apply triple_ret.
Qed.

(** What [process_body] leaves: a packet that is not sent is as it came, and
    the others went to a real of the table. *)
Definition forwarded (w0 : world) (r : Z + unit) (w : world) : Prop :=
  untouched w0 (w <| pkt := pkt w0 |>) /\
  match r with
  | inl a => (a = XDP_DROP \/ a = XDP_PASS) /\ bytes (pkt w) = bytes (pkt w0)
  | inr _ => exists i, i < MAX_REALS /\
               encapsulated (reals w0 i) (ctl_mac w0) (bytes (pkt w0)) (bytes (pkt w))
  end.

Lemma untouched_forwarded w0 w a : untouched w0 w -> a = XDP_DROP \/ a = XDP_PASS ->
  forwarded w0 (inl a) w.
Proof. intros [? ? ? ? ? ? ?] Ha; split; [constructor; cbn; auto | split; [exact Ha|congruence]]. Qed.

Lemma do_encap_forwarded w0 h flow real i : configured w0 ->
  (ETH_SZ <= length (bytes (pkt w0)))%nat -> Forall is_u8 (bytes (pkt w0)) ->
  triple (found_real w0 (Some real, i)) (do_encap h flow real) (forwarded w0).
Proof.
  intros C Hl Hb w [U [Hr Hi]]; unfold do_encap.
  destruct (encap h flow real (ctl_mac w) (pkt w)) as [r p] eqn:E.
  rewrite (same_pkt _ _ U), (same_mac _ _ U) in E.
  destruct U as [? ? ? ? ? ? ?]; destruct C.
  assert (U' : untouched w0 (w <| pkt := p |> <| pkt := pkt w0 |>)) by (constructor; cbn; auto).
  apply encap_result in E; try assumption; [|subst real; auto].
  destruct E as [[Hr0 E]|[-> E]]; cbn [fst snd].
  - destruct (Z.eqb_spec r 0); [contradiction|]; cbn [negb]. split; [exact U'|]. split; [auto|exact E].
  - cbn [negb Z.eqb]. split; [exact U'|]. exists i; split; [exact Hi|]. now rewrite <- Hr.
Qed.

Lemma forward_forwarded w0 h flow is_syn is_rst : configured w0 ->
  (ETH_SZ <= length (bytes (pkt w0)))%nat -> Forall is_u8 (bytes (pkt w0)) ->
  triple (untouched w0) (forward h flow is_syn is_rst) (forwarded w0).
Proof.
  intros C Hl Hb; unfold forward.
  eapply triple_lift with (Q := fun v w => untouched w0 w /\ v = vip_map w0 (vip_of h flow)).
  { apply triple_get; intros s U; split; [exact U | now rewrite (same_vips _ _ U)]. }
  intros [v|]; [|apply triple_ret; intros s [U _]; apply untouched_forwarded; auto].
  eapply triple_lift with (Q := fun _ w => untouched w0 w /\ 0 <= vip_num v < MAX_VIPS).
  { intros s [U Hv]; split; [|exact (vip_nums _ C _ _ (eq_sym Hv))].
    revert s U Hv; enough (P : preserves (untouched w0) (mod_stats STATS_LRU bump1))
      by (intros s U _; exact (P s U)). auto with inv. }
  intros _. eapply triple_lift; [apply preserves_get|]. intros b; apply triple_if; intros _.
  { apply triple_ret; intros s [U _]; apply untouched_forwarded; auto. }
  apply triple_bindP with (Q := fun r w => found_real w0 (Some (fst r), snd r) w /\ 0 <= vip_num v < MAX_VIPS).
  { intros s [U Hv]. generalize (choose_real_found w0 h flow v is_syn is_rst s U).
    destruct (choose_real _ _ _ _ _ s) as [[a|[real i]] s']; cbn [fst snd].
    - intros [U' ->]; apply untouched_forwarded; auto.
    - now split. }
  intros [real i]; cbn [fst snd].
  eapply triple_lift with (Q := fun _ => found_real w0 (Some real, i)).
  { intros s [[U F] Hv]; split; [|exact F]. apply mod_stats_untouched; [|exact U].
    unfold STATS_XDP_TX, STATS_XDP_DROP; lia. }
  intros _; eapply triple_lift with (Q := fun _ => found_real w0 (Some real, i)).
  { intros s [U F]; split; [apply update_reals_stats_untouched, U | exact F]. }
  intros _; now apply do_encap_forwarded.
Qed.

Lemma parse_ip_action p a : parse_ip p = inl a -> a = XDP_DROP \/ a = XDP_PASS.
Proof. unfold parse_ip; repeat (case_if; [|]); intros [= <-]; auto. Qed.

Lemma parse_l4_action p h a : parse_l4 p h = inl a -> a = XDP_DROP \/ a = XDP_PASS.
Proof. unfold parse_l4; repeat (case_if; [|]); intros [= <-]; auto. Qed.

Lemma parse_ip_length p h : parse_ip p = inr h -> (ETH_SZ <= length (bytes p))%nat.
Proof.
  unfold parse_ip. destruct (fits p 0 ETH_SZ) eqn:E; [|discriminate].
  intros _; now apply Nat.leb_le in E.
Qed.

Lemma process_body_forwarded w0 : configured w0 -> Forall is_u8 (bytes (pkt w0)) ->
  let '(r, w) := process_body w0 in forwarded w0 r w.
Proof.
  intros C Hb; unfold process_body. pose proof (untouched_refl w0) as U.
  destruct (parse_ip (pkt w0)) as [a|h] eqn:E1.
  { apply untouched_forwarded; [exact U | exact (parse_ip_action _ _ E1)]. }
  destruct (parse_l4 (pkt w0) h) as [a|[[flow is_syn] is_rst]] eqn:E2.
  { apply untouched_forwarded; [exact U | exact (parse_l4_action _ _ _ E2)]. }
  generalize (forward_forwarded w0 h flow is_syn is_rst C (parse_ip_length _ _ E1) Hb w0 U).
  now destruct (forward _ _ _ _ w0).
Qed.

(** The answer to a packet and what becomes of its bytes. *)
Definition answered (w0 : world) (a : Z) (w : world) : Prop :=
  a = XDP_TX /\ (exists i, i < MAX_REALS /\
    encapsulated (reals w0 i) (ctl_mac w0) (bytes (pkt w0)) (bytes (pkt w))) \/
  (a = XDP_DROP \/ a = XDP_PASS) /\ bytes (pkt w) = bytes (pkt w0).

Lemma action_key_range a : STATS_XDP_TX <= action_key a <= STATS_XDP_DROP.
Proof. unfold action_key; repeat case_if; vm_compute; intuition discriminate. Qed.

Lemma process_packet_result w0 a w :
  configured w0 -> Forall is_u8 (bytes (pkt w0)) -> process_packet w0 = (a, w) ->
  exists w1, w = w1 <| stats ::= (fun st => fset st (action_key a) (bump1 (st (action_key a)))) |> /\
    untouched w0 (w1 <| pkt := pkt w0 |>) /\ answered w0 a w1.
Proof.
  intros C Hb E; unfold process_packet, bind in E.
  pose proof (process_body_forwarded w0 C Hb) as F.
  destruct (process_body w0) as [r w1]; destruct F as [U F].
  unfold count_action, mod_stats, modify, ret in E.
  set (b := match r with inl x => x | inr _ => XDP_TX end) in *.
  assert (Hk : (action_key b <? STATS_SIZE) = true).
  { apply Z.ltb_lt; pose proof (action_key_range b). unfold STATS_XDP_DROP, STATS_SIZE in *; lia. }
  rewrite Hk in E; injection E as <- <-.
  exists w1; split; [reflexivity|]. split; [exact U|].
  destruct r as [x|[]]; [right; exact F | left; split; [reflexivity | exact F]].
Qed.

Lemma configured_kept w0 w : configured w0 -> untouched w0 (w <| pkt := pkt w0 |>) -> configured w.
Proof.
  intros [? ? ? ?] [_ Er Em Ev _ _ _]; cbn in Er, Em, Ev. constructor; rewrite ?Er, ?Em, ?Ev; auto.
Qed.

(** C23. One packet: what [process_packet] answers and leaves.  A packet it sends
    ([XDP_TX]) is the received one from its IP header on, behind an outer
    header to an entry of the table of reals and a MAC header to the gateway
    (the outer IPv4 checksum verifies, its source is in 172.16/16); one it drops
    or passes has its bytes unchanged.  Exactly the counter of the answer is
    incremented. *)
Theorem process_packet_spec w0 a w :
  configured w0 -> Forall is_u8 (bytes (pkt w0)) -> process_packet w0 = (a, w) ->
  answered w0 a w /\
  forall k, STATS_XDP_TX <= k <= STATS_XDP_DROP ->
    stats w k = if k =? action_key a then bump1 (stats w0 k) else stats w0 k.
Proof.
  intros C Hb E. destruct (process_packet_result w0 a w C Hb E) as (w1 & -> & U & A).
  split; [exact A|]. intros k Hk; apply same_counts with (k := k) in U as Hs; [|exact Hk].
  cbn in Hs. cbn. unfold fset. destruct (Z.eqb_spec k (action_key a)) as [<-|]; congruence.
Qed.

(** ** The benchmark loop *)

Lemma put_outside b off bs : (off + length bs <= length b)%nat ->
  firstn off (put b off bs) = firstn off b /\ skipn (off + length bs) (put b off bs) = skipn (off + length bs) b.
Proof.
  intros H; unfold put. rewrite firstn_app, firstn_firstn, length_firstn, Nat.min_id.
  replace (off - Nat.min off (length b))%nat with O by lia. split; [apply app_nil_r|].
  rewrite app_assoc, skipn_app, skipn_all2 by (rewrite length_app, length_firstn; lia).
  rewrite length_app, length_firstn.
  now replace (off + length bs - (Nat.min off (length b) + length bs))%nat with O by lia.
Qed.

(** [b'] is [b] up to the four bytes of the source address. *)
Definition but_source (off : nat) (b b' : list Z) : Prop :=
  length b' = length b /\ firstn off b' = firstn off b /\ skipn (off + 4) b' = skipn (off + 4) b /\
  (Forall is_u8 b -> Forall is_u8 b').

Lemma but_source_refl off b : but_source off b b.
Proof. unfold but_source; auto. Qed.

Lemma but_source_trans off a b c : but_source off a b -> but_source off b c -> but_source off a c.
Proof. unfold but_source; intuition congruence. Qed.

Lemma but_source_put off b v : (off + 4 <= length b)%nat -> but_source off b (put b off (bytes32 v)).
Proof.
  intros H; destruct (put_outside b off (bytes32 v) H) as [Hf Hs].
  repeat split; auto; [now apply length_put|]. intros Hb; apply Forall_put; [exact Hb|].
  unfold bytes32; apply Forall_app; split; apply bytes16_range.
Qed.

Lemma but_source_prefix n off b b' : (n <= off)%nat -> but_source off b b' -> firstn n b' = firstn n b.
Proof.
  intros Hn (_ & Hf & _). rewrite <- (Nat.min_l n off Hn), <- !firstn_firstn. now rewrite Hf.
Qed.

Lemma randomize_src_source mask off r p : but_source off (bytes p) (bytes (randomize_src mask off r p)).
Proof.
  unfold randomize_src. destruct (fits p off 4) eqn:E; [|apply but_source_refl].
  apply but_source_put. now apply Nat.leb_le.
Qed.

Lemma xor_src_source off h p : but_source off (bytes p) (bytes (xor_src off h p)).
Proof.
  unfold xor_src. destruct (fits p off 4) eqn:E; [|apply but_source_refl].
  apply but_source_put. now apply Nat.leb_le.
Qed.

(** The kernel lets the program take off bytes the packet has. *)
Definition head_shrinks : Prop := forall i b k, (k <= length b)%nat ->
  xdp_adjust_head i b (Z.of_nat k) <> None.

(** Stripping an encapsulated packet gives the packet back, when the saved MAC
    header is its own. *)
Lemma strip_encapsulated real mac b p : head_shrinks -> encapsulated real mac b (bytes p) ->
  length mac = 6%nat -> length (dstv6 real) = 4%nat ->
  exists p', strip_encap (firstn ETH_SZ b) p = (0, p') /\ bytes p' = b.
Proof.
  intros Hk H Hm Hd; unfold strip_encap.
  destruct (encapsulated_shape _ _ _ _ H Hm Hd) as (pre & hdr & eth & rest & Ep & -> & He & Hp & Hh).
  assert (El : firstn ETH_SZ (eth ++ rest) = eth).
  { rewrite <- He, firstn_app, firstn_all, Nat.sub_diag. apply app_nil_r. }
  rewrite El; clear El.
  rewrite (fits_prefix p pre (hdr ++ rest)) by (exact Ep || (rewrite Hp; lia)).
  cbn [negb]. rewrite <- Hh. specialize (Hk (moves p) (bytes p) (length hdr)).
  destruct (adjust_head p _) as [[|] q] eqn:Ea; unfold adjust_head in Ea.
  2: { destruct (xdp_adjust_head _ _ _); [discriminate|]. destruct Hk; [|reflexivity].
       rewrite Ep, !length_app; lia. }
  apply adjust_head_shrink in Ea.
  (* dropping the outer header leaves its last bytes where the MAC header was *)
  set (cut := skipn (length hdr) (pre ++ hdr)).
  assert (Hc : length cut = length eth) by (subst cut; rewrite length_skipn, length_app, Hp, He; lia).
  assert (Eq : bytes q = cut ++ rest).
  { rewrite Ea, Ep, (app_assoc pre), skipn_app.
    now replace (length hdr - length (pre ++ hdr))%nat with O by (rewrite length_app; lia). }
  cbn [negb]. rewrite (fits_prefix q cut rest) by (exact Eq || (rewrite Hc, He; lia)). cbn [negb].
  eexists; split; [reflexivity|]. rewrite bytes_set, Eq. exact (put_app [] cut rest eth Hc).
Qed.

(** ** The generator *)

(** A word equal to its own shift is zero. *)
Lemma shl_fixed x k : is_u32 x -> 0 < k -> x = shl 32 x k -> x = 0.
Proof.
  intros Hx Hk E; apply Z.bits_inj'; intros i Hi; rewrite Z.bits_0.
  rewrite <- (Z2Nat.id i Hi). induction (Z.to_nat i) as [j IH] using lt_wf_ind; clear i Hi.
  rewrite E; unfold shl, uw. destruct (Z.ltb_spec (Z.of_nat j) 32).
  - rewrite Z.mod_pow2_bits_low, Z.shiftl_spec by lia.
    destruct (Z.ltb_spec (Z.of_nat j - k) 0); [now rewrite Z.testbit_neg_r|].
    replace (Z.of_nat j - k) with (Z.of_nat (Z.to_nat (Z.of_nat j - k))) by lia. apply IH; lia.
  - apply Z.mod_pow2_bits_high; lia.
Qed.

Lemma shr_fixed x k : is_u32 x -> 0 < k -> x = shr x k -> x = 0.
Proof.
  unfold is_u, shr; intros Hx Hk E. rewrite shiftr_div in E by lia.
  pose proof (Z.pow_le_mono_r 2 1 k ltac:(lia) ltac:(lia)).
  destruct (Z.eq_dec x 0); [assumption|]. pose proof (Z.div_lt x (2 ^ k)); lia.
Qed.

Lemma xorshift_u32 x : is_u32 x -> is_u32 (xorshift x) /\ (x <> 0 -> xorshift x <> 0).
Proof.
  intros H0; unfold xorshift.
  assert (L : forall y k, is_u32 y -> is_u32 (Z.lxor y (shl 32 y k)))
    by (intros; apply is_u_lor_lxor; [lia | assumption | apply u32_range]).
  assert (R : forall y k, is_u32 y -> 0 <= k -> is_u32 (Z.lxor y (shr y k)))
    by (intros; apply is_u_lor_lxor; [lia | assumption | now apply is_u_shr]).
  pose proof (L x 13 H0) as H1. set (y := Z.lxor x (shl 32 x 13)) in *.
  pose proof (R y 17 H1 ltac:(lia)) as H2. set (z := Z.lxor y (shr y 17)) in *.
  split; [now apply L|]. intros Hn E.
  apply Z.lxor_eq, (shl_fixed z) in E; [|assumption | lia].
  apply Z.lxor_eq, (shr_fixed y) in E; [|assumption | lia].
  apply Z.lxor_eq, (shl_fixed x) in E; [|assumption | lia]. contradiction.
Qed.

(** The state of the generator stays in its range, and zero stays zero. *)
Definition generator (r r' : Z) : Prop := is_u32 r -> is_u32 r' /\ (r' = 0 <-> r = 0).

Lemma generator_step r : (if r =? 0 then True else generator r (xorshift r)) /\ generator r r.
Proof.
  split; [|unfold generator; tauto]. destruct (Z.eqb_spec r 0) as [|Hn]; [exact I|]. intros Hr.
  destruct (xorshift_u32 r Hr); split; [assumption | tauto].
Qed.

Lemma undo_source off h p (c : bool) :
  but_source off (bytes p) (bytes (if c then xor_src off h p else p)).
Proof. destruct c; [apply xor_src_source | apply but_source_refl]. Qed.

(** The reset block puts the packet back, up to the source address. *)
Lemma bench_reset_result off h a rs w0 w : head_shrinks -> configured w0 -> answered w0 a w ->
  exists r p', bench_reset (firstn ETH_SZ (bytes (pkt w0))) off h a rs w = (Some r, w <| pkt := p' |>) /\
    generator rs r /\ but_source off (bytes (pkt w0)) (bytes p') /\
    (rs = 0 -> cold_lru w = 0 -> r = 0 /\ bytes p' = bytes (pkt w0)).
Proof.
  intros Hk C A; unfold bench_reset. destruct (generator_step rs) as [G1 G0].
  destruct A as [[-> (i & _ & He)]|[Ha Eb]].
  - destruct (strip_encapsulated _ _ _ _ Hk He (mac_length _ C) (real_words _ C i)) as (p & -> & Ep).
    cbn [Z.eqb XDP_TX Pos.eqb negb]. destruct (Z.eqb_spec rs 0) as [->|Hn]; cbn [negb].
    + do 2 eexists; split; [reflexivity|]. split; [exact G0|].
      split; [rewrite <- Ep; apply undo_source|]. intros _ ->. split; [reflexivity | exact Ep].
    + do 2 eexists; split; [reflexivity|]. split; [exact G1|].
      split; [|contradiction].
      rewrite <- Ep; eapply but_source_trans; [apply randomize_src_source | apply undo_source].
  - assert (Et : (a =? XDP_TX) = false) by (apply Z.eqb_neq; destruct Ha as [-> | ->]; discriminate).
    rewrite Et. do 2 eexists; split; [reflexivity|]. split; [exact G0|].
    split; [rewrite <- Eb; apply undo_source|]. intros -> ->. split; [reflexivity | exact Eb].
Qed.

(** The timed loop terminates with the packet it started from, up to the
    four bytes of the source address, whatever [process_packet] answered in
    each iteration; when neither [flow_mask] nor [cold_lru] is set, those are
    the same too.  The generator's state never leaves zero nor reaches it, so
    randomisation is not lost. *)
Lemma bench_loop_result n i off h rs w :
  head_shrinks -> configured w -> Forall is_u8 (bytes (pkt w)) -> (ETH_SZ <= off)%nat ->
  exists r w', bench_loop n i (firstn ETH_SZ (bytes (pkt w))) off h rs w = (Some r, w') /\ configured w' /\
    but_source off (bytes (pkt w)) (bytes (pkt w')) /\ generator rs r /\
    (rs = 0 -> cold_lru w = 0 -> bytes (pkt w') = bytes (pkt w)).
Proof.
  intros Hk C Hb Ho.
  remember (firstn ETH_SZ (bytes (pkt w))) as saved eqn:Es; revert i rs w C Hb Es.
  induction n as [|n IH]; intros i rs w C Hb Es.
  { do 2 eexists; split; [reflexivity|]. split; [exact C|]. split; [apply but_source_refl|]. split; [apply generator_step | auto]. }
  cbn [bench_loop]. destruct (can_loop i).
  2: { do 2 eexists; split; [reflexivity|]. split; [exact C|]. split; [apply but_source_refl|]. split; [apply generator_step | auto]. }
  unfold bind. destruct (process_packet w) as [a w1] eqn:E.
  destruct (process_packet_result _ _ _ C Hb E) as (w2 & -> & U & A).
  set (w3 := w2 <| stats ::= _ |>).
  destruct (bench_reset_result off h a rs w w3 Hk C A) as (r & p' & Er & G & B & R).
  rewrite Es, Er, <- Es.
  destruct (IH (S i) r (w3 <| pkt := p' |>)) as (r' & w' & -> & C' & B' & G' & R').
  - destruct (configured_kept _ _ C U); now constructor.
  - now apply B.
  - rewrite Es; symmetry; apply (but_source_prefix _ off); assumption.
  - exists r', w'; split; [reflexivity|]. split; [exact C'|]. cbn in B', R'.
    split; [exact (but_source_trans _ _ _ _ B B')|].
    split; [unfold generator in *; tauto|].
    intros Hr Hc. assert (Hc3 : cold_lru w2 = 0) by (rewrite <- Hc; exact (same_cold _ _ U)).
    destruct (R Hr Hc3) as [Hr0 <-]. exact (R' Hr0 Hc3).
Qed.

Lemma record_sample_keeps t w : let w' := snd (bench_record_sample t w) in
  pkt w' = pkt w /\ (configured w -> configured w').
Proof.
  unfold bench_record_sample, modify; cbn. repeat case_if; cbn; split; auto;
    intros [? ? ? ?]; now constructor.
Qed.

(** C24. The benchmark driver: whatever the timed iterations did, the final,
    answered run of [process_packet] is on the packet that arrived, up to the
    four bytes of its source address; when neither [flow_mask] nor [cold_lru]
    is set those are the same too.  The loop always ends (the timed packets are
    put back), so no other answer is given. *)
Theorem xdp_lb_bench_spec w : head_shrinks -> configured w -> Forall is_u8 (bytes (pkt w)) ->
  (ETH_SZ <= length (bytes (pkt w)))%nat ->
  let off := if word16 (bytes (pkt w)) 12 =? to_be ETH_P_IPV6 then (ETH_SZ + 8)%nat else (ETH_SZ + 12)%nat in
  exists w1, xdp_lb_bench w = process_packet w1 /\ configured w1 /\
    but_source off (bytes (pkt w)) (bytes (pkt w1)) /\
    (flow_mask w = 0 -> cold_lru w = 0 -> bytes (pkt w1) = bytes (pkt w)).
Proof.
  intros Hk C Hb Hl off; unfold xdp_lb_bench.
  assert (Ef : fits (pkt w) 0 ETH_SZ = true) by now apply Nat.leb_le.
  rewrite Ef; cbn [negb]. fold off. cbv zeta.
  set (rs := if negb (flow_mask w =? 0) then _ else _).
  set (h := if negb (cold_lru w =? 0) then _ else _).
  set (w0 := if negb (cold_lru w =? 0) then _ else w).
  assert (Ho : (ETH_SZ <= off)%nat) by (subst off; case_if; lia).
  assert (W : configured w0 /\ but_source off (bytes (pkt w)) (bytes (pkt w0)) /\
              cold_lru w0 = cold_lru w /\ (cold_lru w = 0 -> w0 = w)).
  { subst w0; destruct (Z.eqb_spec (cold_lru w) 0); cbn [negb].
    - auto using but_source_refl.
    - split; [destruct C; now constructor|]. split; [apply xor_src_source|]. split; [reflexivity | contradiction]. }
  destruct W as (C0 & B0 & Ec & E0).
  unfold bind, ns, get. set (w1 := w0 <| clock ::= S |>).
  assert (C1 : configured w1) by (destruct C0; now constructor).
  assert (Es : firstn ETH_SZ (bytes (pkt w)) = firstn ETH_SZ (bytes (pkt w1)))
    by (symmetry; apply (but_source_prefix _ off); assumption).
  rewrite Es.
  destruct (bench_loop_result (Z.to_nat (batch_iters w1)) 0 off h rs w1 Hk C1) as (r & w2 & -> & C2 & B2 & _ & R2);
    [now apply B0 | exact Ho |].
  set (w3 := w2 <| clock ::= S |>).
  assert (C3 : configured w3) by (destruct C2; now constructor).
  match goal with |- context [bench_record_sample ?t w3] => destruct (record_sample_keeps t w3) as [Ep Cp];
    destruct (bench_record_sample t w3) as [[] w4] end.
  cbn [snd] in Ep, Cp. exists w4; split; [reflexivity|]. split; [auto|]. rewrite Ep.
  split; [exact (but_source_trans _ _ _ _ B0 B2)|].
  intros Hm Hc. change (bytes (pkt w2) = bytes (pkt w)). rewrite R2.
  - change (bytes (pkt w0) = bytes (pkt w)). now rewrite (E0 Hc).
  - subst rs; now rewrite Hm.
  - change (cold_lru w0 = 0). congruence.
Qed.

(** ** Choosing a real *)

Lemma is_under_flood_keeps w : let w' := snd (is_under_flood w) in
  ch_rings w' = ch_rings w /\ reals w' = reals w /\ lru_mapping w' = lru_mapping w /\
  clock w' = S (clock w) /\ inserts w' = inserts w.
Proof.
  unfold is_under_flood, bind, ns, get, mod_stats, modify, ret; cbn.
  case_if; cbn; auto.
Qed.

(** C27. Consistent hashing: for a configured VIP the key is in the VIP's own
    slice of the ring array (nothing wraps), so the lookup cannot miss, and the
    choice is the ring's: it depends on the flow and the ring only, not on the
    connection tables, the clock or the flood state. *)
Theorem get_packet_dst_ring flow v is6 is_rst w : 0 <= vip_num v < MAX_VIPS ->
  let key := ch_key v (flow_hash is6 flow) in
  vip_num v * CH_RING_SIZE <= key < (vip_num v + 1) * CH_RING_SIZE /\
  fst (get_packet_dst flow v is6 is_rst w) =
    let i := ch_rings w key in if i <? MAX_REALS then Some (reals w i, i) else None.
Proof.
  intros Hv key.
  assert (Hk : vip_num v * CH_RING_SIZE <= key < (vip_num v + 1) * CH_RING_SIZE).
  { subst key; unfold ch_key, CH_RING_SIZE, MAX_VIPS in *.
    pose proof (Z.mod_pos_bound (flow_hash is6 flow) 65537).
    rewrite !(uw_small 32) by (rewrite ?(uw_small 32) by (unfold is_u; lia); unfold is_u; lia). lia. }
  split; [exact Hk|]. unfold get_packet_dst, reals_lookup, bind, get. cbv zeta.
  destruct (is_under_flood_keeps w) as (Er & Es & _).
  destruct (is_under_flood w) as [uf w1]; cbn [snd] in Er, Es. fold key.
  assert (Hr : (CH_RINGS_SIZE <=? key) = false)
    by (apply Z.leb_gt; unfold CH_RINGS_SIZE, CH_RING_SIZE, MAX_VIPS in *; lia).
  rewrite Hr, Er. cbv beta iota zeta.
  rewrite Es. destruct (_ <? MAX_REALS); [|reflexivity].
  unfold when; case_if; [case_if|]; reflexivity.
Qed.

(** C25. Affinity: a flow that was bound to a real (the VIP does not bypass the
    table, the machine is not flooded and the packet is no reset) finds the same
    real in the connection table as long as its entry and the table of reals
    stay, for UDP within the timeout of 30 s on a clock that does not go back. *)
Theorem flow_affinity flow v is6 w w1 w2 real i l :
  fst (is_under_flood w) = false -> Z.land (vflags v) F_LRU_BYPASS = 0 ->
  lru_mapping w cpu_id = Some l ->
  get_packet_dst flow v is6 false w = (Some (real, i), w1) ->
  fst (lru_lookup flow w2) = fst (lru_lookup flow w1) -> reals w2 = reals w1 ->
  (proto flow = IPPROTO_UDP -> 0 <= ktime (clock w2) - ktime (S (clock w)) <= LRU_UDP_TIMEOUT) ->
  fst (connection_table_lookup flow w2) = (Some real, i).
Proof.
  intros Hf Hb Hl E Hsame Hr Hud.
  destruct (is_under_flood_keeps w) as (_ & Es & El & Ek & _).
  unfold get_packet_dst, reals_lookup, bind, get, ret in E.
  destruct (is_under_flood w) as [uf w0]; cbn [fst snd] in *; subst uf.
  rewrite Hb in E; cbn [Z.eqb negb andb when] in E.
  case_if_in E; [discriminate|]. cbv beta iota zeta in E.
  case_if_in E; [|discriminate].
  set (at_ := if proto flow =? IPPROTO_UDP then u64 (ktime (S (clock w))) else 0).
  assert (Hw1 : fst (lru_lookup flow w1) = Some {| pos := i; atime := at_ |} /\ reals w1 = reals w0 /\
                real = reals w0 i /\ i < MAX_REALS).
  { unfold at_, lru_update, modify, ns in *. destruct (proto flow =? IPPROTO_UDP);
      injection E as <- <- <-; bsimp; unfold lru_lookup, get; cbn; unfold fset;
      rewrite Z.eqb_refl, El, Hl; cbn; rewrite lru_store_same, ?Ek; auto. }
  destruct Hw1 as (Hlk & Hr1 & -> & Hi). rewrite Hlk in Hsame.
  unfold lru_lookup, get in Hsame; cbn [fst] in Hsame.
  unfold connection_table_lookup, lru_lookup, get, bind. rewrite Hsame. cbv beta iota. cbn [atime pos].
  assert (Hin : (i <? MAX_REALS) = true) by now apply Z.ltb_lt.
  unfold at_ in *; destruct (Z.eqb_spec (proto flow) IPPROTO_UDP) as [Hu|_].
  - specialize (Hud Hu). unfold ns. 
    assert (Ht : (u64 (ktime (clock w2)) ⊟ u64 (ktime (S (clock w))))%w64 =
                 ktime (clock w2) - ktime (S (clock w))).
    { unfold uw; rewrite <- Zminus_mod. apply Z.mod_small. unfold LRU_UDP_TIMEOUT in Hud; lia. }
    rewrite Ht. destruct (Z.ltb_spec LRU_UDP_TIMEOUT (ktime (clock w2) - ktime (S (clock w)))); [lia|].
    cbn. rewrite Hin, Hr, Hr1. reflexivity.
  - cbn. rewrite Hin, Hr, Hr1. reflexivity.
Qed.

End Packet.

(** ** A concrete kernel and packet *)

(** The head always moves, an insert evicts nothing, the clock ticks. *)
#[local] Instance kernel1 : Kernel := {
  xdp_adjust_head _ b d :=
    if d <? 0 then Some (repeat 0 (Z.to_nat (- d)) ++ b)
    else if Nat.leb (Z.to_nat d) (length b) then Some (skipn (Z.to_nat d) b) else None;
  lru_store _ l f e k := if flow_key_eq_dec k f then Some e else l k;
  ktime n := Z.of_nat n;
  prandom := 7;
  cpu_id := 0;
  can_loop _ := true
}.

Lemma kernel1_ok : KernelOk kernel1.
Proof.
  split; cbn.
  - intros _ b k b'. destruct (Z.ltb_spec (- Z.of_nat k) 0); intros E.
    + injection E as <-. exists (repeat 0 k). rewrite repeat_length.
      split; [reflexivity | do 2 f_equal; lia].
    + assert (k = 0%nat) as -> by lia. injection E as <-. now exists [].
  - intros _ b k b'. destruct (Z.ltb_spec (Z.of_nat k) 0); [lia|]. rewrite Nat2Z.id.
    destruct (Nat.leb _ _); [now intros [= <-] | discriminate].
  - intros _ l f e. now destruct (flow_key_eq_dec f f).
Qed.

Lemma kernel1_shrinks : head_shrinks (K := kernel1).
Proof.
  intros i b k Hk. cbn. destruct (Z.ltb_spec (Z.of_nat k) 0); [lia|]. rewrite Nat2Z.id.
  now apply Nat.leb_le in Hk as ->.
Qed.

(** A TCP segment from 10.1.2.3:1024 to the VIP 10.0.0.1:80. *)
Definition packet1 : list Z :=
  [2; 0; 0; 0; 0; 1;  2; 0; 0; 0; 0; 2;  8; 0;
   0x45; 0; 0; 40;  0; 1; 0; 0;  64; 6; 0; 0;  10; 1; 2; 3;  10; 0; 0; 1;
   4; 0; 0; 80;  0; 0; 0; 1;  0; 0; 0; 0;  0x50; 2; 0xff; 0xff;  0; 0; 0; 0].

Definition world1 : world := {|
  pkt := {| moves := 0; bytes := packet1 |};
  vip_map v := if vport v =? to_be 80 then Some {| vflags := 0; vip_num := 3 |} else None;
  lru_mapping _ := Some (fun _ => None);
  ch_rings _ := 5;
  reals _ := {| rdst := 0x0302000a; dstv6 := [1; 2; 3; 4]; rflags := 0 |};
  stats _ := {| v1 := 0; v2 := 0 |};
  reals_stats _ := {| v1 := 0; v2 := 0 |};
  ctl_mac := [6; 6; 6; 6; 6; 6];
  vip_miss_stats := {| addr := [0; 0; 0; 0]; vport := 0; vproto := 0 |};
  lru_miss_stats _ := 0;
  flow_mask := 0; cold_lru := 0; batch_gen := 0; batch_iters := 2;
  timing_samples _ _ := 0; timing_idx _ := 0; timing_enabled := 1;
  clock := 0; inserts := 0
|}.

Lemma world1_configured : configured world1.
Proof.
  split; [reflexivity | repeat constructor; unfold is_u; lia | reflexivity |].
  intros v m; cbn; case_if; [|discriminate]. intros [= <-]. vm_compute; intuition discriminate.
Qed.

Lemma packet1_bytes : Forall is_u8 packet1.
Proof. repeat constructor; vm_compute; intuition discriminate. Qed.

Lemma process_packet_spec_witness :
  fst (process_packet world1) = XDP_TX /\
  answered world1 XDP_TX (snd (process_packet world1)).
Proof.
  split; [vm_compute; reflexivity|].
  apply (process_packet_spec (KO := kernel1_ok) world1 XDP_TX (snd (process_packet world1))
           world1_configured packet1_bytes).
  vm_compute; reflexivity.
Defined.

Lemma xdp_lb_bench_spec_witness :
  exists w1, xdp_lb_bench world1 = process_packet w1 /\ configured w1 /\
    but_source 26 packet1 (bytes (pkt w1)) /\
    (flow_mask world1 = 0 -> cold_lru world1 = 0 -> bytes (pkt w1) = packet1).
Proof.
  apply (xdp_lb_bench_spec (KO := kernel1_ok) world1 kernel1_shrinks world1_configured packet1_bytes).
  vm_compute; lia.
Defined.

Lemma get_packet_dst_ring_witness :
  let flow := {| src := [1; 0; 0; 0]; dst := [2; 0; 0; 0]; port0 := 3; port1 := 4; proto := 6 |} in
  fst (get_packet_dst flow {| vflags := 0; vip_num := 3 |} false false world1) =
  Some (reals world1 5, 5).
Proof.
  intros flow.
  apply (get_packet_dst_ring flow {| vflags := 0; vip_num := 3 |} false false world1).
  vm_compute; intuition discriminate.
Defined.

Lemma flow_affinity_witness :
  let flow := {| src := [1; 0; 0; 0]; dst := [2; 0; 0; 0]; port0 := 3; port1 := 4; proto := IPPROTO_UDP |} in
  let w1 := snd (get_packet_dst flow {| vflags := 0; vip_num := 3 |} false false world1) in
  fst (connection_table_lookup flow w1) = (Some (reals world1 5), 5).
Proof.
  intros flow w1.
  apply (flow_affinity (KO := kernel1_ok) flow {| vflags := 0; vip_num := 3 |} false world1 w1 w1
           (reals world1 5) 5 (fun _ => None)); try reflexivity.
  intros _; vm_compute; intuition discriminate.
Defined.

End XdpLb.
