(* ===== verification/Early.v ===== *)
(** Computations that fault or return early: a Rust function over a state [W]
    whose packet accesses may fault ([None]) and whose [return] gives an integer
    ([inl]), the two being the same for the calls the code inlines. *)

From S2P Require Import Prelude.

Section Early.
Context {W : Type}.

Definition M (A : Type) : Type := W -> option ((Z + A) * W).
Definition ret {A} (a : A) : M A := fun w => Some (inr a, w).
Definition out {A} (action : Z) : M A := fun w => Some (inl action, w).
Definition bind {A B} (m : M A) (k : A -> M B) : M B := fun w =>
  match m w with
  | Some (inr a, w') => k a w'
  | Some (inl r, w') => Some (inl r, w')
  | None => None
  end.
Definition get {A} (f : W -> A) : M A := fun w => Some (inr (f w), w).
Definition modify (f : W -> W) : M unit := fun w => Some (inr tt, f w).
Definition when (b : bool) (m : M unit) : M unit := if b then m else ret tt.

(** What a function returned, early or not. *)
Definition result (m : M Z) : W -> option (Z * W) := fun w =>
  match m w with
  | Some (inr r, w') | Some (inl r, w') => Some (r, w')
  | None => None
  end.

(** A call of such a function. *)
Definition call (m : M Z) : M Z := fun w => option_map (fun x => (inr (fst x), snd x)) (result m w).

Lemma bind_inr {A B} (m : M A) (k : A -> M B) w a w1 : m w = Some (inr a, w1) -> bind m k w = k a w1.
Proof. intros H. unfold bind. now rewrite H. Qed.

Lemma bind_some {A B} (m : M A) (k : A -> M B) w x : m w = Some x ->
  bind m k w = match fst x with inr a => k a (snd x) | inl v => Some (inl v, snd x) end.
Proof. intros H. unfold bind. rewrite H. now destruct x as [[]]. Qed.

Lemma bind_assoc {A B C} (m : M A) (k : A -> M B) (k' : B -> M C) w :
  bind (bind m k) k' w = bind m (fun a => bind (k a) k') w.
Proof. unfold bind. now destruct (m w) as [[[v|a] w1]|]. Qed.

End Early.

Arguments M W A : clear implicits.

Declare Scope early_scope.
Notation "x <- c ;; k" := (bind c (fun x => k)) (at level 61, c at next level, right associativity) : early_scope.
Notation "c ;; k" := (bind c (fun _ => k)) (at level 61, right associativity) : early_scope.

(** A step whose result is known, on whichever path. *)
Ltac by_run L := rewrite (bind_inr _ _ _ _ _ L).
Ltac by_do L := rewrite (bind_some _ _ _ _ L).
