(* ===== verification/XdpSynproxy.v ===== *)
(** The SYN proxy: progs/xdp_synproxy_kern.rs.

    Both programs run on a packet of bytes; a pointer into it is an offset from
    its start, and a load or store outside it is a fault.  A computation may
    also return early: that is the [return] of the Rust function it stands for.
    The kernel's part is the class [Kernel]: checksums, SYN cookies, the
    conntrack lookup, the clock and the moves of the packet's tail; [KernelOk]
    is what is documented of it. *)

From S2P Require Import Prelude Kernel Early Packet.
Local Open Scope early_scope.

Module Synproxy.

(** ** Constants *)

Definition XDP_ABORTED := 0.
Definition XDP_DROP := 1.
Definition XDP_PASS := 2.
Definition XDP_TX := 3.
Definition TC_ACT_OK := 0.
Definition TC_ACT_SHOT := 2.
Definition NSEC_PER_SEC := 1000000000.
Definition ETH_P_IP := 0x0800.
Definition ETH_P_IPV6 := 0x86DD.
Definition IP_MF := 0x2000.
Definition IP_OFFSET := 0x1fff.
Definition IPPROTO_TCP := 6.
Definition NEXTHDR_TCP := 6.
Definition TCPOPT_NOP := 1.
Definition TCPOPT_EOL := 0.
Definition TCPOPT_MSS := 2.
Definition TCPOPT_WINDOW := 3.
Definition TCPOPT_SACK_PERM := 4.
Definition TCPOPT_TIMESTAMP := 8.
Definition TCPOLEN_MSS := 4.
Definition TCPOLEN_WINDOW := 3.
Definition TCPOLEN_SACK_PERM := 2.
Definition TCPOLEN_TIMESTAMP := 10.
Definition TCP_TS_HZ := 1000.
Definition TS_OPT_WSCALE_MASK := 0xf.
Definition TS_OPT_SACK := 2 ^ 4.
Definition TS_OPT_ECN := 2 ^ 5.
Definition TSBITS := 6.
Definition TSMASK := 2 ^ TSBITS - 1.
Definition TCP_MAX_WSCALE := 14.
Definition IPV4_MAXLEN : nat := 60.
Definition TCP_MAXLEN : nat := 60.
Definition DEFAULT_MSS4 := 1460.
Definition DEFAULT_MSS6 := 1440.
Definition DEFAULT_WSCALE := 7.
Definition DEFAULT_TTL := 64.
Definition MAX_ALLOWED_PORTS : nat := 8.
Definition MAX_PACKET_OFF := 0xffff.
Definition TCP_FLAG_SYN := 0x00000200.
Definition TCP_FLAG_ACK := 0x00001000.
Definition TCP_FLAG_ECE := 0x00004000.
Definition TCPF_FIN := 2 ^ 0.
Definition TCPF_SYN := 2 ^ 1.
Definition TCPF_RST := 2 ^ 2.
Definition TCPF_ACK := 2 ^ 4.
Definition TCPF_ECE := 2 ^ 6.
Definition TCPF_CWR := 2 ^ 7.
Definition ENOENT := 2.
Definition IPS_CONFIRMED := 2 ^ 3.

(** [size_of] of ethhdr, iphdr, ipv6hdr and tcphdr, and the offsets of their
    fields. *)
Definition ETH_SZ : nat := 14.
Definition IP_SZ : nat := 20.
Definition IP6_SZ : nat := 40.
Definition TCP_SZ : nat := 20.

(** ** The state

    The packet, the two array maps, the references to connections held, and how
    often the clock was read. *)
Record world := {
  pkt : list Z;
  values : list Z;
  allowed_ports : list Z;
  ct_refs : Z;
  clock : nat
}.

Abbreviation M := (Early.M world).

(** [n] bytes of the packet, and words as the CPU loads and stores them. *)
Definition rd (p : list Z) (off n : nat) : option (list Z) :=
  if Nat.leb (off + n) (length p) then Some (sub p off n) else None.
Definition load (off n : nat) : M (list Z) := fun w => option_map (fun b => (inr b, w)) (rd (pkt w) off n).
Definition ld8 (off : nat) : M Z := b <- load off 1 ;; ret (byte b 0).
Definition ld16 (off : nat) : M Z := b <- load off 2 ;; ret (word16 b 0).
Definition ld32 (off : nat) : M Z := b <- load off 4 ;; ret (word32 b 0).
Definition store (off : nat) (bs : list Z) : M unit := fun w =>
  if Nat.leb (off + length bs) (length (pkt w)) then Some (inr tt, w <| pkt := put (pkt w) off bs |>) else None.
Definition st8 (off : nat) (v : Z) : M unit := store off [v].
Definition st16 (off : nat) (v : Z) : M unit := store off (bytes16 v).
Definition st32 (off : nat) (v : Z) : M unit := store off (bytes32 v).

(** [data + off > data_end] *)
Definition past (off : nat) : M bool := get (fun w => Nat.ltb (length (pkt w)) off).

(** ** The kernel

    [ct_lookup] gives the status of a connection ([inl]) or an error ([inr]);
    the flag tells bpf_xdp_ct_lookup from bpf_skb_ct_lookup.  The tail moves
    give the new packet, or [None] when they fail. *)
Class Kernel := {
  bpf_csum_diff : list Z -> Z;
  bpf_tcp_raw_gen_syncookie_ipv4 : list Z -> list Z -> Z;
  bpf_tcp_raw_gen_syncookie_ipv6 : list Z -> list Z -> Z;
  bpf_tcp_raw_check_syncookie_ipv4 : list Z -> list Z -> Z;
  bpf_tcp_raw_check_syncookie_ipv6 : list Z -> list Z -> Z;
  bpf_ktime_get_ns : nat -> Z;
  ct_lookup : bool -> list Z -> Z + Z;
  bpf_xdp_adjust_tail : list Z -> Z -> option (list Z);
  bpf_skb_change_tail : list Z -> Z -> option (list Z);
  bpf_redirect : Z -> Z
}.

Section Synproxy.
Context {L : KLoop} {K : Kernel}.

(** A helper that reads packet memory. *)
Definition csum_diff (off n : nat) : M Z := b <- load off n ;; ret (bpf_csum_diff b).

Definition ktime : M Z :=
  n <- get clock ;; modify (fun w => w <| clock ::= S |>) ;; ret (bpf_ktime_get_ns n).

Definition move_tail (f : list Z -> option (list Z)) : M unit := fun w =>
  match f (pkt w) with
  | Some p => Some (inr tt, w <| pkt := p |>)
  | None => Some (inl XDP_ABORTED, w)
  end.

(** ** Byte helpers and header fields *)

(** [vswap8] and [vswap32]: [n] bytes at [a] and [b] are exchanged, element by
    element of [k] bytes. *)
Fixpoint vswap (k : nat) (a b : nat) (n : nat) : M unit :=
  match n with
  | O => ret tt
  | S n => ta <- load a k ;; tb <- load b k ;; store a tb ;; store b ta ;; vswap k (a + k) (b + k) n
  end.
Definition vswap8 := vswap 1.
Definition vswap32 := vswap 4.

Fixpoint vcopy32 (dst src : nat) (words : nat) : M unit :=
  match words with
  | O => ret tt
  | S n => t <- load src 4 ;; store dst t ;; vcopy32 (dst + 4) (src + 4) n
  end.

Definition swap_eth_addr (a b : nat) : M unit := vswap8 a b 6.

(** Of the four bytes read. *)
Definition get_unaligned_be32 (p : list Z) : Z := word32 p 0.

Definition tcp_doff (tcp : nat) : M Z := b <- ld8 (tcp + 12) ;; ret (Z.shiftr b 4).
Definition tcp_set_doff (tcp : nat) (doff : Z) : M unit :=
  b <- ld8 (tcp + 12) ;; st8 (tcp + 12) (Z.lor (Z.land b 0x0f) (shl 8 doff 4)).
Definition tcp_flags (tcp : nat) : M Z := ld8 (tcp + 13).
Definition tcp_flag_word (tcp : nat) : nat := tcp + 12.
Definition ipv4_ihl (ip : nat) : M Z := b <- ld8 ip ;; ret (Z.land b 0x0f).

(** A test of flag bits. *)
Definition has (flags mask : Z) : bool := negb (Z.land flags mask =? 0).

(** ** Checksums *)

Definition csum_fold (csum : Z) : Z :=
  let csum := u32 (Z.land csum 0xffff + shr csum 16) in
  let csum := u32 (Z.land csum 0xffff + shr csum 16) in
  u16 (notw 32 csum).

(** [(s & 0xffffffff) + (s >> 32)], twice. *)
Definition fold64 (s : Z) : Z :=
  let s := u64 (Z.land s 0xffffffff + shr s 32) in
  u64 (Z.land s 0xffffffff + shr s 32).

Definition csum_tcpudp_magic (saddr daddr len proto csum : Z) : Z :=
  let s := csum in
  let s := u64 (s + saddr) in
  let s := u64 (s + daddr) in
  let s := u64 (s + shl 32 (u32 (proto + len)) 8) in
  csum_fold (u32 (fold64 s)).

Definition csum_ipv6_magic (saddr daddr : list Z) (len proto csum : Z) : Z :=
  let sum := fold_left (fun sum w => u64 (sum + w)) saddr csum in
  let sum := fold_left (fun sum w => u64 (sum + w)) daddr sum in
  let sum := u64 (sum + to_be32 len) in
  let sum := u64 (sum + to_be32 proto) in
  csum_fold (u32 (fold64 sum)).

Definition tcp_clock_ns : M Z := ktime.
Definition tcp_ns_to_ts (ns : Z) : Z := u32 (ns / (NSEC_PER_SEC / TCP_TS_HZ)).
Definition tcp_clock_ms : M Z := ns <- tcp_clock_ns ;; ret (tcp_ns_to_ts ns).

(** ** TCP options

    [tsecr] is the word the context points to; the packet is an argument. *)
Record tcpopt_context := {
  tsecr : Z;
  wscale : Z;
  option_timestamp : bool;
  option_sack : bool;
  off : Z
}.

(** [None]: the null pointer. *)
Definition next (p : list Z) (ctx : tcpopt_context) (sz : Z) : option nat * tcpopt_context :=
  let o := off ctx in
  if MAX_PACKET_OFF - sz <? o then (None, ctx) else
  if Z.of_nat (length p) <=? o + sz then (None, ctx) else
  (Some (Z.to_nat o), ctx <| off := u32 (o + sz) |>).

(** The next byte, read through the pointer; [inl] is a [return 1]. *)
Definition next_byte (p : list Z) (ctx : tcpopt_context) : option (tcpopt_context + Z * tcpopt_context) :=
  match next p ctx 1 with
  | (None, ctx) => Some (inl ctx)
  | (Some a, ctx) => option_map (fun b => inr (byte b 0, ctx)) (rd p a 1)
  end.

(** [Some (r, ctx)]: the function returned [r]; [None]: it faulted. *)
Definition tscookie_tcpopt_parse (p : list Z) (ctx : tcpopt_context) : option (Z * tcpopt_context) :=
  let start := off ctx in
  let jump (opsize : Z) (ctx : tcpopt_context) := Some (0, ctx <| off := u32 (start + opsize) |>) in
  match next_byte p ctx with
  | None => None
  | Some (inl ctx) => Some (1, ctx)
  | Some (inr (opcode, ctx)) =>
  if opcode =? TCPOPT_EOL then Some (1, ctx) else
  if opcode =? TCPOPT_NOP then Some (0, ctx) else
  match next_byte p ctx with
  | None => None
  | Some (inl ctx) => Some (1, ctx)
  | Some (inr (opsize, ctx)) =>
  if opsize <? 2 then Some (1, ctx) else
  if opcode =? TCPOPT_WINDOW then
    match next p ctx 1 with
    | (None, ctx) => Some (1, ctx)
    | (Some a, ctx) =>
        if opsize =? TCPOLEN_WINDOW then
          match rd p a 1 with
          | None => None
          | Some w => jump opsize (ctx <| wscale := if byte w 0 <? TCP_MAX_WSCALE then byte w 0 else TCP_MAX_WSCALE |>)
          end
        else jump opsize ctx
    end
  else if opcode =? TCPOPT_TIMESTAMP then
    match next p ctx 4 with
    | (None, ctx) => Some (1, ctx)
    | (Some a, ctx) =>
        if opsize =? TCPOLEN_TIMESTAMP then
          match rd p a 4 with
          | None => None
          | Some t => jump opsize (ctx <| option_timestamp := true |> <| tsecr := get_unaligned_be32 t |>)
          end
        else jump opsize ctx
    end
  else if opcode =? TCPOPT_SACK_PERM then
    jump opsize (if opsize =? TCPOLEN_SACK_PERM then ctx <| option_sack := true |> else ctx)
  else jump opsize ctx
  end end.

(** Up to [n] options; the flag is a nonzero return. *)
Fixpoint parse_batch (n : nat) (p : list Z) (ctx : tcpopt_context) : option (bool * tcpopt_context) :=
  match n with
  | O => Some (false, ctx)
  | S n => match tscookie_tcpopt_parse p ctx with
           | None => None
           | Some (r, ctx) => if negb (r =? 0) then Some (true, ctx) else parse_batch n p ctx
           end
  end.
Definition tscookie_tcpopt_parse_batch := parse_batch 7.

(** The loop: a fault of the callback ends it for good. *)
Definition parse_options (p : list Z) (ctx : tcpopt_context) : option tcpopt_context :=
  bpf_loop 6 (fun s => match s with
                       | None => (true, None)
                       | Some ctx => match tscookie_tcpopt_parse_batch p ctx with
                                     | None => (true, None)
                                     | Some (stop, ctx) => (stop, Some ctx)
                                     end
                       end) (Some ctx).

Definition first_context (tcp_header : nat) : tcpopt_context :=
  {| tsecr := 0; wscale := TS_OPT_WSCALE_MASK; option_timestamp := false; option_sack := false;
     off := u32 (Z.of_nat (tcp_header + TCP_SZ)) |}.

(** The cookie of the time stamp: the time in steps of 64 ms, and what the
    client's options said. *)
Definition ts_cookie (ms : Z) (ctx : tcpopt_context) (flags : Z) : Z :=
  let cookie := Z.land ms (notw 32 TSMASK) in
  let cookie := Z.lor cookie (Z.land (wscale ctx) TS_OPT_WSCALE_MASK) in
  let cookie := if option_sack ctx then Z.lor cookie TS_OPT_SACK else cookie in
  if has flags TCPF_ECE && has flags TCPF_CWR then Z.lor cookie TS_OPT_ECN else cookie.

(** The two words of [tsopt_buf] when the function returns true. *)
Definition tscookie_init (tcp_header : nat) (_tcp_len : Z) : M (option (Z * Z)) :=
  ctx <- (fun w => option_map (fun ctx => (inr ctx, w)) (parse_options (pkt w) (first_context tcp_header))) ;;
  if negb (option_timestamp ctx) then ret None else
  ms <- tcp_clock_ms ;;
  flags <- tcp_flags tcp_header ;;
  ret (Some (to_be32 (ts_cookie ms ctx flags), tsecr ctx)).

(** ** The maps *)

Definition values_get_tcpipopts (ipv6 : bool) : M (Z * Z * Z) :=
  value <- get (fun w => nth_error (values w) 0) ;;
  match value with
  | Some v =>
      if negb (v =? 0) then
        let mss := if ipv6 then u16 (shr v 32) else u16 v in
        ret (mss, u8 (Z.land (shr v 16) 0xf), u8 (shr v 24))
      else ret (if ipv6 then DEFAULT_MSS6 else DEFAULT_MSS4, DEFAULT_WSCALE, DEFAULT_TTL)
  | None => ret (if ipv6 then DEFAULT_MSS6 else DEFAULT_MSS4, DEFAULT_WSCALE, DEFAULT_TTL)
  end.

Definition values_inc_synacks : M unit :=
  modify (fun w => match values w with
                   | v0 :: v1 :: l => w <| values := v0 :: u64 (v1 + 1) :: l |>
                   | _ => w
                   end).

(** The ports from the [i]th on, [n] of them. *)
Fixpoint port_allowed (ports : list Z) (port : Z) (n i : nat) : bool :=
  match n with
  | O => false
  | S n => match nth_error ports i with
           | None => false
           | Some v => if v =? 0 then false else if v =? port then true else port_allowed ports port n (S i)
           end
  end.
Definition check_port_allowed (port : Z) : M bool :=
  get (fun w => port_allowed (allowed_ports w) port MAX_ALLOWED_PORTS 0).

(** ** Header dissection and conntrack *)

Record header_pointers := {
  eth : nat;
  ipv4 : option nat;
  ipv6 : option nat;
  tcp : nat;
  tcp_len : Z
}.

Definition no_headers : header_pointers := {| eth := 0; ipv4 := None; ipv6 := None; tcp := 0; tcp_len := 0 |}.

(** A return of XDP_TX goes on. *)
Definition tcp_dissect : M header_pointers :=
  let hdr := no_headers in
  b <- past (eth hdr + ETH_SZ) ;; if b : bool then out XDP_DROP else
  h_proto <- ld16 (eth hdr + 12) ;;
  let proto := to_be h_proto in
  hdr <- (if proto =? ETH_P_IP then
            let ip := (eth hdr + ETH_SZ)%nat in
            b <- past (ip + IP_SZ) ;; if b : bool then out XDP_DROP else
            ihl <- ipv4_ihl ip ;; if ihl * 4 <? Z.of_nat IP_SZ then out XDP_DROP else
            ihl_version <- ld8 ip ;; if negb (Z.shiftr ihl_version 4 =? 4) then out XDP_DROP else
            protocol <- ld8 (ip + 9) ;; if negb (protocol =? IPPROTO_TCP) then out XDP_PASS else
            ihl <- ipv4_ihl ip ;;
            ret (hdr <| ipv6 := None |> <| ipv4 := Some ip |> <| tcp := ip + Z.to_nat (ihl * 4) |>)%nat
          else if proto =? ETH_P_IPV6 then
            let ip := (eth hdr + ETH_SZ)%nat in
            b <- past (ip + IP6_SZ) ;; if b : bool then out XDP_DROP else
            priority_version <- ld8 ip ;; if negb (Z.shiftr priority_version 4 =? 6) then out XDP_DROP else
            nexthdr <- ld8 (ip + 6) ;; if negb (nexthdr =? NEXTHDR_TCP) then out XDP_PASS else
            ret (hdr <| ipv4 := None |> <| ipv6 := Some ip |> <| tcp := ip + IP6_SZ |>)%nat
          else out XDP_PASS) ;;
  b <- past (tcp hdr + TCP_SZ) ;; if b : bool then out XDP_DROP else
  doff <- tcp_doff (tcp hdr) ;;
  let hdr := hdr <| tcp_len := u16 (doff * 4) |> in
  if tcp_len hdr <? Z.of_nat TCP_SZ then out XDP_DROP else
  ret hdr.

(** The tuple of the lookup: addresses and ports, as they are in the packet. *)
Definition bpf_ct_lookup (xdp : bool) (tup : list Z) : M (Z + Z) := fun w =>
  match ct_lookup xdp tup with
  | inl status => Some (inr (inl status), w <| ct_refs ::= Z.add 1 |>)
  | inr error => Some (inr (inr error), w)
  end.
Definition bpf_ct_release : M unit := modify (fun w => w <| ct_refs ::= Z.add (-1) |>).

Definition ct_tuple (hdr : header_pointers) : M (list Z) :=
  match ipv4 hdr, ipv6 hdr with
  | Some ip, _ =>
      frag_off <- ld16 (ip + 6) ;;
      if negb (Z.land frag_off (to_be (Z.lor IP_MF IP_OFFSET)) =? 0) then out XDP_DROP else
      saddr <- load (ip + 12) 4 ;; daddr <- load (ip + 16) 4 ;;
      sport <- load (tcp hdr) 2 ;; dport <- load (tcp hdr + 2) 2 ;;
      ret (saddr ++ daddr ++ sport ++ dport)
  | None, Some ip =>
      saddr <- load (ip + 8) 16 ;; daddr <- load (ip + 24) 16 ;;
      sport <- load (tcp hdr) 2 ;; dport <- load (tcp hdr + 2) 2 ;;
      ret (saddr ++ daddr ++ sport ++ dport)
  | None, None => out XDP_ABORTED
  end.

Definition tcp_lookup (xdp : bool) (hdr : header_pointers) : M unit :=
  tup <- ct_tuple hdr ;;
  ct <- bpf_ct_lookup xdp tup ;;
  match ct with
  | inl status => bpf_ct_release ;; if has status IPS_CONFIRMED then out XDP_PASS else ret tt
  | inr error => if negb (error =? - ENOENT) then out XDP_ABORTED else ret tt
  end.

(** ** SYNACK generation *)

(** The options at [buf]; how many words they take. *)
Definition tcp_mkoptions (buf : nat) (tsopt : option (Z * Z)) (mss wscale : Z) : M Z :=
  st32 buf (to_be32 (Z.lor (Z.lor (shl 32 TCPOPT_MSS 24) (shl 32 TCPOLEN_MSS 16)) mss)) ;;
  match tsopt with
  | None => ret 1
  | Some (tsval, tsecr) =>
      st32 (buf + 4)
        (if has tsval (to_be32 (shl 32 1 4))
         then to_be32 (Z.lor (Z.lor (Z.lor (shl 32 TCPOPT_SACK_PERM 24) (shl 32 TCPOLEN_SACK_PERM 16))
                                (shl 32 TCPOPT_TIMESTAMP 8)) TCPOLEN_TIMESTAMP)
         else to_be32 (Z.lor (Z.lor (Z.lor (shl 32 TCPOPT_NOP 24) (shl 32 TCPOPT_NOP 16))
                                (shl 32 TCPOPT_TIMESTAMP 8)) TCPOLEN_TIMESTAMP)) ;;
      st32 (buf + 8) tsval ;;
      st32 (buf + 12) tsecr ;;
      if negb (Z.land tsval (to_be32 0xf) =? to_be32 0xf) then
        st32 (buf + 16) (to_be32 (Z.lor (Z.lor (Z.lor (shl 32 TCPOPT_NOP 24) (shl 32 TCPOPT_WINDOW 16))
                                           (shl 32 TCPOLEN_WINDOW 8)) wscale)) ;;
        ret 5
      else ret 4
  end.

Definition tcp_gen_synack (tcp_header : nat) (cookie : Z) (tsopt : option (Z * Z)) (mss wscale : Z) : M unit :=
  st32 (tcp_flag_word tcp_header) (Z.lor TCP_FLAG_SYN TCP_FLAG_ACK) ;;
  when (match tsopt with Some (tsval, _) => has tsval (to_be32 (shl 32 1 5)) | None => false end)
    (f <- ld32 (tcp_flag_word tcp_header) ;; st32 (tcp_flag_word tcp_header) (Z.lor f TCP_FLAG_ECE)) ;;
  tcp_set_doff tcp_header 5 ;;
  tmp <- load tcp_header 2 ;;
  dest <- load (tcp_header + 2) 2 ;; store tcp_header dest ;;
  store (tcp_header + 2) tmp ;;
  seq <- ld32 (tcp_header + 4) ;; st32 (tcp_header + 8) (to_be32 (u32 (to_be32 seq + 1))) ;;
  st32 (tcp_header + 4) (to_be32 cookie) ;;
  st16 (tcp_header + 14) 0 ;;
  st16 (tcp_header + 18) 0 ;;
  st16 (tcp_header + 16) 0 ;;
  n <- tcp_mkoptions (tcp_header + TCP_SZ) tsopt mss wscale ;;
  doff <- tcp_doff tcp_header ;;
  tcp_set_doff tcp_header (u8 (doff + n)).

Definition tcpv4_gen_synack (ip : nat) (hdr : header_pointers) (cookie : Z) (tsopt : option (Z * Z))
    : M header_pointers :=
  opts <- values_get_tcpipopts false ;;
  let '(mss, wscale, ttl) := opts in
  swap_eth_addr (eth hdr + 6) (eth hdr) ;;
  tmp <- load (ip + 12) 4 ;;
  daddr <- load (ip + 16) 4 ;; store (ip + 12) daddr ;;
  store (ip + 16) tmp ;;
  st16 (ip + 10) 0 ;;
  st8 (ip + 1) 0 ;;
  st16 (ip + 4) 0 ;;
  st8 (ip + 8) ttl ;;
  tcp_gen_synack (tcp hdr) cookie tsopt mss wscale ;;
  doff <- tcp_doff (tcp hdr) ;;
  let hdr := hdr <| tcp_len := u16 (doff * 4) |> in
  st16 (ip + 2) (to_be (u16 (Z.of_nat IP_SZ + tcp_len hdr))) ;;
  ret hdr.

Definition tcpv6_gen_synack (ip : nat) (hdr : header_pointers) (cookie : Z) (tsopt : option (Z * Z))
    : M header_pointers :=
  opts <- values_get_tcpipopts true ;;
  let '(mss, wscale, ttl) := opts in
  swap_eth_addr (eth hdr + 6) (eth hdr) ;;
  vswap32 (ip + 8) (ip + 24) 4 ;;
  st32 ip (to_be32 0x60000000) ;;
  st8 (ip + 7) ttl ;;
  tcp_gen_synack (tcp hdr) cookie tsopt mss wscale ;;
  doff <- tcp_doff (tcp hdr) ;;
  let hdr := hdr <| tcp_len := u16 (doff * 4) |> in
  st16 (ip + 4) (to_be (tcp_len hdr)) ;;
  ret hdr.

(** ** Handling SYN and ACK *)

(** A helper's result, negative on errors. *)
Definition checked (m : M Z) : M Z := value <- m ;; if value <? 0 then out XDP_ABORTED else ret value.

Definition tcpv4_magic (ip : nat) (tcp_len value : Z) : M Z :=
  saddr <- ld32 (ip + 12) ;; daddr <- ld32 (ip + 16) ;;
  ret (csum_tcpudp_magic saddr daddr tcp_len IPPROTO_TCP (u32 value)).

Definition tcpv6_magic (ip : nat) (tcp_len value : Z) : M Z :=
  saddr <- load (ip + 8) 16 ;; daddr <- load (ip + 24) 16 ;;
  ret (csum_ipv6_magic (words32 saddr 0 4) (words32 daddr 0 4) tcp_len IPPROTO_TCP (u32 value)).

(** The checks of the request's checksums; the length of the IP header of the
    answer and the result of the cookie helper. *)
Definition syn_checksums (hdr : header_pointers) : M (nat * Z) :=
  match ipv4 hdr, ipv6 hdr with
  | Some ip, _ =>
      ihl <- ipv4_ihl ip ;;
      value <- checked (csum_diff ip (Z.to_nat (ihl * 4))) ;;
      if negb (csum_fold (u32 value) =? 0) then out XDP_DROP else
      value <- checked (csum_diff (tcp hdr) (Z.to_nat (tcp_len hdr))) ;;
      c <- tcpv4_magic ip (tcp_len hdr) value ;;
      if negb (c =? 0) then out XDP_DROP else
      iph <- load ip IP_SZ ;; th <- load (tcp hdr) (Z.to_nat (tcp_len hdr)) ;;
      ret (IP_SZ, bpf_tcp_raw_gen_syncookie_ipv4 iph th)
  | None, Some ip =>
      value <- checked (csum_diff (tcp hdr) (Z.to_nat (tcp_len hdr))) ;;
      c <- tcpv6_magic ip (tcp_len hdr) value ;;
      if negb (c =? 0) then out XDP_DROP else
      iph <- load ip IP6_SZ ;; th <- load (tcp hdr) (Z.to_nat (tcp_len hdr)) ;;
      ret (IP6_SZ, bpf_tcp_raw_gen_syncookie_ipv6 iph th)
  | None, None => out XDP_ABORTED
  end.

(** The answer's headers are written over the request's. *)
Definition gen_synack (hdr : header_pointers) (cookie : Z) (tsopt : option (Z * Z)) : M header_pointers :=
  match ipv4 hdr, ipv6 hdr with
  | Some ip, _ =>
      ihl <- ipv4_ihl ip ;;
      hdr <- (if Z.of_nat IP_SZ <? ihl * 4 then
                let new_tcp_header := (ETH_SZ + IP_SZ)%nat in
                vcopy32 new_tcp_header (tcp hdr) 5 ;;
                ihl_version <- ld8 ip ;;
                st8 ip (Z.lor (Z.land ihl_version 0xf0) (Z.of_nat (Nat.div IP_SZ 4))) ;;
                ret (hdr <| tcp := new_tcp_header |>)
              else ret hdr) ;;
      tcpv4_gen_synack ip hdr cookie tsopt
  | None, Some ip => tcpv6_gen_synack ip hdr cookie tsopt
  | None, None => out XDP_ABORTED
  end.

(** Checksums of the answer. *)
Definition fill_checksums (hdr : header_pointers) : M unit :=
  st16 (tcp hdr + 16) 0 ;;
  value <- checked (csum_diff (tcp hdr) (Z.to_nat (tcp_len hdr))) ;;
  match ipv4 hdr, ipv6 hdr with
  | Some ip, _ =>
      c <- tcpv4_magic ip (tcp_len hdr) value ;; st16 (tcp hdr + 16) c ;;
      st16 (ip + 10) 0 ;;
      value <- checked (csum_diff ip IP_SZ) ;;
      st16 (ip + 10) (csum_fold (u32 value))
  | None, Some ip =>
      c <- tcpv6_magic ip (tcp_len hdr) value ;; st16 (tcp hdr + 16) c
  | None, None => out XDP_ABORTED
  end.

(** The packet gets its new size; a failure is XDP_ABORTED. *)
Definition set_size (xdp : bool) (old_pkt_size new_pkt_size : Z) : M unit :=
  move_tail (fun p => if xdp then bpf_xdp_adjust_tail p (i32 (new_pkt_size - old_pkt_size))
                      else bpf_skb_change_tail p new_pkt_size).

Definition syncookie_handle_syn (xdp : bool) (hdr : header_pointers) : M Z :=
  flags <- tcp_flags (tcp hdr) ;;
  if has flags (Z.lor TCPF_FIN TCPF_RST) then out XDP_DROP else
  dest <- ld16 (tcp hdr + 2) ;;
  allowed <- check_port_allowed (to_be dest) ;;
  if negb allowed then out XDP_DROP else
  r <- syn_checksums hdr ;;
  let '(ip_len, value) := r in
  if value <? 0 then out XDP_ABORTED else
  let cookie := u32 value in
  tsopt <- tscookie_init (tcp hdr) (tcp_len hdr) ;;
  b <- past (ETH_SZ + ip_len + TCP_MAXLEN) ;; if b : bool then out XDP_ABORTED else
  hdr <- gen_synack hdr cookie tsopt ;;
  fill_checksums hdr ;;
  old_pkt_size <- get (fun w => u32 (Z.of_nat (length (pkt w)))) ;;
  doff <- tcp_doff (tcp hdr) ;;
  let new_pkt_size := u32 (Z.of_nat (ETH_SZ + ip_len) + doff * 4) in
  set_size xdp old_pkt_size new_pkt_size ;;
  values_inc_synacks ;;
  ret XDP_TX.

Definition syncookie_handle_ack (hdr : header_pointers) : M Z :=
  flags <- tcp_flags (tcp hdr) ;;
  if has flags TCPF_RST then out XDP_DROP else
  err <- match ipv4 hdr, ipv6 hdr with
         | Some ip, _ => iph <- load ip IP_SZ ;; th <- load (tcp hdr) TCP_SZ ;; ret (bpf_tcp_raw_check_syncookie_ipv4 iph th)
         | None, Some ip => iph <- load ip IP6_SZ ;; th <- load (tcp hdr) TCP_SZ ;; ret (bpf_tcp_raw_check_syncookie_ipv6 iph th)
         | None, None => out XDP_ABORTED
         end ;;
  if negb (err =? 0) then out XDP_DROP else ret XDP_PASS.

(** A return of XDP_TX goes on. *)
Definition syncookie_part1 (xdp : bool) : M header_pointers :=
  hdr <- tcp_dissect ;;
  tcp_lookup xdp hdr ;;
  flags <- tcp_flags (tcp hdr) ;;
  if negb (Z.lxor (Z.shiftr (Z.land flags TCPF_SYN) 1) (Z.shiftr (Z.land flags TCPF_ACK) 4) =? 1) then out XDP_DROP else
  old_len <- get (fun w => Z.of_nat (length (pkt w))) ;;
  move_tail (fun p => if xdp then bpf_xdp_adjust_tail p (Z.of_nat TCP_MAXLEN - tcp_len hdr)
                      else bpf_skb_change_tail p (u32 (u64 (old_len + Z.of_nat TCP_MAXLEN - tcp_len hdr)))) ;;
  ret hdr.

Definition syncookie_part2 (xdp : bool) (hdr : header_pointers) : M Z :=
  hdr <- match ipv4 hdr, ipv6 hdr with
         | Some _, _ =>
             let hdr := hdr <| eth := O |> in
             let ip := (eth hdr + ETH_SZ)%nat in
             b <- past (ip + IPV4_MAXLEN) ;; if b : bool then out XDP_ABORTED else
             ihl <- ipv4_ihl ip ;;
             ret (hdr <| ipv4 := Some ip |> <| tcp := ip + Z.to_nat (ihl * 4) |>)%nat
         | None, Some _ =>
             let hdr := hdr <| eth := O |> in
             let ip := (eth hdr + ETH_SZ)%nat in
             ret (hdr <| ipv6 := Some ip |> <| tcp := ip + IP6_SZ |>)%nat
         | None, None => out XDP_ABORTED
         end ;;
  b <- past (tcp hdr + TCP_MAXLEN) ;; if b : bool then out XDP_ABORTED else
  doff <- tcp_doff (tcp hdr) ;;
  let hdr := hdr <| tcp_len := u16 (doff * 4) |> in
  if tcp_len hdr <? Z.of_nat TCP_SZ then out XDP_ABORTED else
  flags <- tcp_flags (tcp hdr) ;;
  if has flags TCPF_SYN then syncookie_handle_syn xdp hdr else syncookie_handle_ack hdr.

Definition syncookie_xdp : world -> option (Z * world) :=
  result (hdr <- syncookie_part1 true ;; syncookie_part2 true hdr).

Definition syncookie_tc (ifindex : Z) : world -> option (Z * world) :=
  let verdict1 (ret : Z) := if ret =? XDP_PASS then TC_ACT_OK else TC_ACT_SHOT in
  let verdict2 (ret : Z) := if ret =? XDP_PASS then TC_ACT_OK
                            else if ret =? XDP_TX then bpf_redirect ifindex else TC_ACT_SHOT in
  fun w => match syncookie_part1 false w with
           | None => None
           | Some (inl r, w) => Some (verdict1 r, w)
           | Some (inr hdr, w) => option_map (fun x => (verdict2 (fst x), snd x)) (result (syncookie_part2 false hdr) w)
           end.

End Synproxy.

(** ** What is documented of the kernel

    The checksum helper takes whole words and gives a 32-bit sum that is right
    modulo 65535 and 0 for zeros only; a move of the tail gives the size asked
    for and keeps the bytes that stay. *)

Definition same_prefix (p p' : list Z) : Prop :=
  let n := Nat.min (length p) (length p') in firstn n p' = firstn n p.

Class KernelOk (K : Kernel) : Prop := {
  csum_diff_ok : forall l, Forall is_u8 l -> (length l mod 4 = 0)%nat ->
    is_u32 (bpf_csum_diff l) /\ bpf_csum_diff l mod 65535 = csum16 l mod 65535 /\
    (bpf_csum_diff l = 0 <-> csum16 l = 0);
  adjust_tail_ok : forall p d p', Forall is_u8 p -> bpf_xdp_adjust_tail p d = Some p' ->
    Z.of_nat (length p') = Z.of_nat (length p) + d /\ same_prefix p p' /\ Forall is_u8 p';
  change_tail_ok : forall p n p', Forall is_u8 p -> bpf_skb_change_tail p n = Some p' ->
    (- 2 ^ 31 <= n - Z.of_nat (length p) < 2 ^ 31 -> Z.of_nat (length p') = n) /\ same_prefix p p' /\ Forall is_u8 p'
}.

(** ** Checksums *)

(** A sum folded to 16 bits. *)
Definition folded (s f : Z) : Prop := 0 <= f <= 65535 /\ f mod 65535 = s mod 65535 /\ (f = 0 <-> s = 0).

Lemma csum_fold_folds c : is_u32 c -> exists f, csum_fold c = 65535 - f /\ folded c f.
Proof.
  unfold is_u; intros Hc. unfold csum_fold, shr; cbv zeta.
  change 0xffff with (Z.ones 16); rewrite !Z.land_ones, !shiftr_div by lia.
  rewrite (uw_small 32 (c mod 2 ^ 16 + c / 2 ^ 16)) by (unfold is_u; Z.div_mod_to_equations; lia).
  set (t := c mod 2 ^ 16 + c / 2 ^ 16).
  assert (Ht : 0 <= t <= 131070 /\ c = t + 65535 * (c / 2 ^ 16) /\ 0 <= c / 2 ^ 16 /\ (t = 0 <-> c = 0))
    by (subst t; change (2 ^ 32) with 4294967296 in *; Z.div_mod_to_equations; lia).
  rewrite (uw_small 32) by (unfold is_u; Z.div_mod_to_equations; lia).
  exists (t mod 2 ^ 16 + t / 2 ^ 16). unfold folded.
  rewrite check_value by (Z.div_mod_to_equations; lia). split; [reflexivity|].
  split; [Z.div_mod_to_equations; lia|]. split; [|Z.div_mod_to_equations; lia].
  transitivity ((t mod 2 ^ 16 + t / 2 ^ 16 + (c / 2 ^ 16 + t / 2 ^ 16) * 65535) mod 65535);
    [now rewrite Z_mod_plus_full | f_equal; Z.div_mod_to_equations; lia].
Qed.

Lemma fold64_spec s : 0 <= s < 2 ^ 40 ->
  let r := fold64 s in is_u32 r /\ r mod 65535 = s mod 65535 /\ (r = 0 <-> s = 0).
Proof.
  intros Hs; unfold fold64, shr; cbv zeta.
  change 0xffffffff with (Z.ones 32); rewrite !Z.land_ones, !shiftr_div by lia.
  change (2 ^ 32) with 4294967296. change (2 ^ 40) with (256 * 4294967296) in Hs.
  assert (U : forall x, 0 <= x < 2 * 4294967296 -> u64 x = x)
    by (intros; apply uw_small; unfold is_u; change (2 ^ 64) with (4294967296 * 4294967296); lia).
  rewrite (U (s mod 4294967296 + s / 4294967296)) by (Z.div_mod_to_equations; lia).
  set (t := s mod 4294967296 + s / 4294967296).
  assert (Ht : 0 <= t < 4294967296 + 256 /\ s = t + 65535 * (65537 * (s / 4294967296)) /\ 0 <= s / 4294967296 /\ (t = 0 <-> s = 0))
    by (subst t; Z.div_mod_to_equations; lia).
  rewrite U by (Z.div_mod_to_equations; lia).
  assert (Et : t = (t mod 4294967296 + t / 4294967296) + 65535 * (65537 * (t / 4294967296))) by (Z.div_mod_to_equations; lia).
  unfold is_u; change (2 ^ 32) with 4294967296. split; [|split].
  - Z.div_mod_to_equations; lia.
  - transitivity ((t mod 4294967296 + t / 4294967296 + 65537 * (t / 4294967296 + s / 4294967296) * 65535) mod 65535);
      [now rewrite Z_mod_plus_full | f_equal; lia].
  - Z.div_mod_to_equations; lia.
Qed.

Lemma folded_mod s s' f : s' mod 65535 = s mod 65535 -> (s' = 0 <-> s = 0) -> folded s' f -> folded s f.
Proof. unfold folded; intuition congruence. Qed.

(** Both checksum functions fold the sum of the words, the addresses, the
    length and the protocol. *)
Lemma magic_folds s : 0 <= s < 2 ^ 40 -> exists f, csum_fold (u32 (fold64 s)) = 65535 - f /\ folded s f.
Proof.
  intros Hs. destruct (fold64_spec s Hs) as (Hr & E & Z0). rewrite (uw_small 32) by exact Hr.
  destruct (csum_fold_folds _ Hr) as (f & Ef & F). exists f. split; [exact Ef|]. now apply (folded_mod _ (fold64 s)).
Qed.

Lemma tcpudp_magic_spec saddr daddr len csum : is_u32 saddr -> is_u32 daddr -> is_u32 csum -> 0 <= len <= 60 ->
  exists f, csum_tcpudp_magic saddr daddr len IPPROTO_TCP csum = 65535 - f /\
            folded (csum + saddr + daddr + 256 * (6 + len)) f.
Proof.
  unfold is_u; intros Hs Hd Hc Hl. unfold csum_tcpudp_magic; cbv zeta.
  assert (E : shl 32 (u32 (IPPROTO_TCP + len)) 8 = 256 * (6 + len)).
  { unfold shl, IPPROTO_TCP. rewrite Z.shiftl_mul_pow2, (uw_small 32 (6 + len)) by (unfold is_u; lia).
    rewrite uw_small by (unfold is_u; change (2 ^ 8) with 256; lia). change (2 ^ 8) with 256. lia. }
  rewrite E, (uw_small 64 (csum + saddr)), (uw_small 64 (csum + saddr + daddr)), (uw_small 64) by (unfold is_u; lia).
  apply magic_folds. lia.
Qed.

Lemma csum16_words l : length l = 16%nat ->
  csum16 l mod 65535 = (fold_left Z.add (words32 l 0 4) 0) mod 65535.
Proof.
  intros Hl. explode l. unfold words32, word32, word16, byte. cbn [csum16 map seq Nat.add Nat.mul nth fold_left].
  match goal with |- ?a mod _ = ?b mod _ =>
    replace b with (a + (z1 + 256 * z2 + z5 + 256 * z6 + z9 + 256 * z10 + z13 + 256 * z14) * 65535) by lia end.
  now rewrite Z_mod_plus_full.
Qed.

Lemma word32_range p k : Forall is_u8 p -> is_u32 (word32 p k).
Proof.
  intros Hp. unfold word32, is_u. pose proof (word16_range p Hp k). pose proof (word16_range p Hp (k + 2)%nat). lia.
Qed.

Lemma sum_u64 l s : Forall is_u32 l -> 0 <= s -> s + 2 ^ 32 * Z.of_nat (length l) <= 2 ^ 64 ->
  fold_left (fun sum w => u64 (sum + w)) l s = s + fold_left Z.add l 0 /\
  0 <= fold_left Z.add l 0 <= 2 ^ 32 * Z.of_nat (length l).
Proof.
  intros Hl. revert s. induction Hl as [|w l Hw Hl IH]; intros s Hs Hb; [cbn; lia|].
  cbn [fold_left length] in *. unfold is_u in Hw. rewrite (uw_small 64) by (unfold is_u; lia).
  destruct (IH (s + w) ltac:(lia) ltac:(lia)) as [-> H]. rewrite Z.add_0_l.
  assert (A : forall k a, fold_left Z.add k a = a + fold_left Z.add k 0).
  { clear. intros k; induction k as [|x k IH]; intros a; [cbn; lia|]. cbn [fold_left]. rewrite IH, (IH (0 + x)). lia. }
  rewrite (A l w). lia.
Qed.

Lemma ipv6_magic_spec saddr daddr len csum : length saddr = 16%nat -> length daddr = 16%nat ->
  Forall is_u8 saddr -> Forall is_u8 daddr -> is_u32 csum -> 0 <= len <= 60 ->
  exists f, csum_ipv6_magic (words32 saddr 0 4) (words32 daddr 0 4) len IPPROTO_TCP csum = 65535 - f /\
            folded (csum + csum16 saddr + csum16 daddr + 256 * (6 + len)) f.
Proof.
  intros Ls Ld Us Ud Hc Hl. unfold csum_ipv6_magic; cbv zeta.
  assert (W : forall l, Forall is_u8 l -> Forall is_u32 (words32 l 0 4)).
  { intros l Hu. unfold words32. rewrite Forall_map. apply Forall_forall. intros; now apply word32_range. }
  unfold is_u in Hc. pose proof (csum16_pos saddr Us). pose proof (csum16_pos daddr Ud).
  destruct (sum_u64 (words32 saddr 0 4) csum (W _ Us)) as [-> B1]; [lia | cbn [length words32 map seq]; lia|].
  destruct (sum_u64 (words32 daddr 0 4) (csum + fold_left Z.add (words32 saddr 0 4) 0) (W _ Ud)) as [-> B2];
    [lia | change (length (words32 daddr 0 4)) with 4%nat; change (length (words32 saddr 0 4)) with 4%nat in B1; lia|].
  change (length (words32 saddr 0 4)) with 4%nat in B1. change (length (words32 daddr 0 4)) with 4%nat in B2.
  assert (E : to_be32 len = 16777216 * len).
  { unfold to_be32, to_be. rewrite (Z.div_small len), (Z.mod_small len 65536), (Z.mod_small len 256), (Z.div_small len) by lia.
    change (0 mod 256) with 0. change (0 / 256 mod 256) with 0. lia. }
  rewrite E. change (to_be32 IPPROTO_TCP) with 100663296.
  set (A := fold_left Z.add (words32 saddr 0 4) 0) in *. set (B := fold_left Z.add (words32 daddr 0 4) 0) in *.
  rewrite (uw_small 64 (csum + A + B + _)), (uw_small 64) by (unfold is_u; lia).
  destruct (magic_folds (csum + A + B + 16777216 * len + 100663296)) as (f & Ef & F); [lia|].
  exists f. split; [exact Ef|]. eapply folded_mod; [| |exact F]; [|lia].
  pose proof (csum16_words saddr Ls) as E1. pose proof (csum16_words daddr Ld) as E2. fold A in E1. fold B in E2.
  assert (C : forall a b c a' b', a mod 65535 = a' mod 65535 -> b mod 65535 = b' mod 65535 ->
    (c + a + b) mod 65535 = (c + a' + b') mod 65535).
  { intros a b c a' b' Ha Hb. rewrite Zplus_mod, (Zplus_mod c a), Ha, Hb, <- (Zplus_mod c a'). apply eq_sym, Zplus_mod. }
  replace (csum + A + B + 16777216 * len + 100663296) with (csum + 256 * (6 + len) + A + B + 256 * (6 + len) * 65535) by lia.
  rewrite Z_mod_plus_full. replace (csum + csum16 saddr + csum16 daddr + 256 * (6 + len))
    with (csum + 256 * (6 + len) + csum16 saddr + csum16 daddr) by lia. now apply C.
Qed.

(** ** TCP options: what they say *)

Inductive tcpopt :=
  | Nop
  | WScale (shift : Z)
  | Timestamp (tsval tsecr : Z)
  | SackPerm
  | Other (kind : Z) (data : list Z).

Definition encode (o : tcpopt) : list Z :=
  match o with
  | Nop => [1]
  | WScale s => [3; 3; s]
  | Timestamp v e => 8 :: 10 :: be32 v ++ be32 e
  | SackPerm => [4; 2]
  | Other k d => k :: Z.of_nat (2 + length d) :: d
  end.
Definition encode_all (l : list tcpopt) : list Z := flat_map encode l.

Definition opt_wf (o : tcpopt) : Prop :=
  match o with
  | Timestamp v e => is_u32 v /\ is_u32 e
  | Other k d => ~ In k [0; 1; 3; 4; 8]
  | _ => True
  end.

(** What ends the options: an end-of-options byte, the client's or one of the
    zeros the packet has grown by, or else the end of the packet.  There the
    last byte is never read: an option that is known by it must not be last. *)
Definition seen_last (o : tcpopt) : Prop :=
  match o with WScale _ | SackPerm => False | _ => True end.
Definition ended (opts : list tcpopt) (rest : list Z) : Prop :=
  match rest with [] => seen_last (last opts Nop) | b :: _ => b = 0 end.

(** What the proxy is to learn from an option. *)
Definition learn (ctx : tcpopt_context) (o : tcpopt) : tcpopt_context :=
  match o with
  | WScale s => ctx <| wscale := Z.min s TCP_MAX_WSCALE |>
  | Timestamp v _ => ctx <| option_timestamp := true |> <| tsecr := to_be32 v |>
  | SackPerm => ctx <| option_sack := true |>
  | _ => ctx
  end.

Definition at_off (ctx : tcpopt_context) (n : nat) : tcpopt_context := ctx <| off := Z.of_nat n |>.

Lemma sub_at pre h l : sub (pre ++ h ++ l) (length pre) (length h) = h.
Proof.
  unfold sub. rewrite skipn_app, skipn_all, Nat.sub_diag. cbn [app skipn].
  now rewrite firstn_app, firstn_all, Nat.sub_diag, firstn_O, app_nil_r.
Qed.

Lemma off_at ctx n : off (at_off ctx n) = Z.of_nat n.
Proof. now destruct ctx. Qed.

Lemma set_off ctx n z m : z = Z.of_nat m -> (at_off ctx n) <| off := z |> = at_off ctx m.
Proof. intros ->. now destruct ctx. Qed.

Section Parse.
Variable p : list Z.
Hypothesis Hp : Z.of_nat (length p) <= MAX_PACKET_OFF.

Lemma next_at ctx n sz : (n + Z.to_nat sz < length p)%nat -> 0 <= sz ->
  next p (at_off ctx n) sz = (Some n, at_off ctx (n + Z.to_nat sz)).
Proof.
  intros Hn Hs. unfold next, MAX_PACKET_OFF in *. cbv zeta. rewrite off_at.
  destruct (Z.ltb_spec (0xffff - sz) (Z.of_nat n)) as [H|_]; [lia|].
  destruct (Z.leb_spec (Z.of_nat (length p)) (Z.of_nat n + sz)) as [H|_]; [lia|].
  rewrite Nat2Z.id, uw_small by (unfold is_u; lia). rewrite (set_off _ _ _ (n + Z.to_nat sz)) by lia. reflexivity.
Qed.

Lemma next_out ctx n sz : Z.of_nat (length p) <= Z.of_nat n + sz -> next p (at_off ctx n) sz = (None, at_off ctx n).
Proof.
  intros H. unfold next. cbv zeta. rewrite off_at. destruct (_ <? _); [reflexivity|].
  destruct (Z.leb_spec (Z.of_nat (length p)) (Z.of_nat n + sz)); [reflexivity | lia].
Qed.

Lemma rd_at pre h l n k : p = pre ++ h ++ l -> n = length pre -> k = length h -> rd p n k = Some h.
Proof.
  intros -> -> ->. unfold rd. rewrite !length_app, sub_at.
  destruct (Nat.leb_spec (length pre + length h) (length pre + (length h + length l))); [reflexivity | lia].
Qed.

Lemma next_byte_at ctx n pre b l : p = pre ++ b :: l -> l <> [] -> n = length pre ->
  next_byte p (at_off ctx n) = Some (inr (b, at_off ctx (n + 1))).
Proof.
  intros E Hl ->. unfold next_byte.
  assert (B : (length pre + Z.to_nat 1 < length p)%nat)
    by (rewrite E, length_app; destruct l; [congruence | cbn [length]; lia]).
  rewrite next_at by (exact B || lia). now rewrite (rd_at pre [b] l) by (exact E || reflexivity).
Qed.

Lemma jump_at ctx n m k : (n + k <= length p)%nat ->
  (at_off ctx m) <| off := u32 (Z.of_nat n + Z.of_nat k) |> = at_off ctx (n + k).
Proof.
  intros H. unfold MAX_PACKET_OFF in Hp. apply set_off. rewrite uw_small by (unfold is_u; lia). lia.
Qed.

(** Tests of constants. *)
Ltac known :=
  repeat match goal with
  | |- context [?a =? ?b] => let v := eval vm_compute in (a =? b) in
      match v with true => change (a =? b) with true | false => change (a =? b) with false end
  | |- context [?a <? ?b] => let v := eval vm_compute in (a <? b) in
      match v with true => change (a <? b) with true | false => change (a <? b) with false end
  end; cbv iota.
Ltac apps := rewrite ?length_app, <- ?app_assoc; cbn [app length]; (easy || lia).

(** Options whose last byte is not looked at, with bytes before it. *)
Definition long (o : tcpopt) : Prop := match o with Timestamp _ _ | Other _ (_ :: _) => True | _ => False end.

Lemma parse_one o ctx pre l : p = pre ++ encode o ++ l -> l <> [] \/ long o -> opt_wf o ->
  tscookie_tcpopt_parse p (at_off ctx (length pre)) = Some (0, at_off (learn ctx o) (length pre + length (encode o))).
Proof.
  intros E Hl Hw. set (n := length pre) in *. unfold tscookie_tcpopt_parse; cbv zeta. rewrite off_at.
  assert (L : (n + length (encode o) <= length p)%nat) by (rewrite E, !length_app; lia).
  assert (L' : l <> [] -> (n + length (encode o) < length p)%nat)
    by (rewrite E, !length_app; destruct l; [congruence | cbn [length]; lia]).
  assert (B : forall q b r, pre ++ encode o ++ l = q ++ b :: r -> r <> [] -> forall c m, m = length q ->
    next_byte p (at_off c m) = Some (inr (b, at_off c (m + 1)))).
  { intros q b r Eq Hr c m Hm. apply (next_byte_at c m q b r); [now rewrite E | exact Hr | exact Hm]. }
  destruct o as [|sh|v e| |k d]; cbn [encode app long] in *;
    try (destruct Hl as [Hl|[]]; specialize (L' Hl)).
  - rewrite (B pre 1 l) by easy. reflexivity.
  - rewrite (B pre 3 (3 :: sh :: l)) by easy. known. rewrite (B (pre ++ [3]) 3 (sh :: l)) by apps. known.
    rewrite next_at by (cbn [length] in *; lia). rewrite (rd_at (pre ++ [3; 3]) [sh] l) by apps. known.
    change (length [3; 3; sh]) with 3%nat in *. rewrite <- (jump_at (learn ctx (WScale sh)) n n 3) by lia.
    assert (M : (if byte [sh] 0 <? TCP_MAX_WSCALE then byte [sh] 0 else TCP_MAX_WSCALE) = Z.min sh TCP_MAX_WSCALE)
      by (unfold byte; cbn [nth]; destruct (Z.ltb_spec sh TCP_MAX_WSCALE); lia).
    rewrite M. now destruct ctx.
  - rewrite (B pre 8 (10 :: be32 v ++ be32 e ++ l)) by easy. known.
    rewrite (B (pre ++ [8]) 10 (be32 v ++ be32 e ++ l)) by apps. known.
    rewrite next_at by (cbn [length be32 be16 app] in *; lia).
    rewrite (rd_at (pre ++ [8; 10]) (be32 v) (be32 e ++ l)) by apps. known.
    change (length (8 :: 10 :: be32 v ++ be32 e)) with 10%nat in *.
    rewrite <- (jump_at (learn ctx (Timestamp v e)) n n 10) by (cbn [length] in *; lia).
    unfold get_unaligned_be32. rewrite <- (app_nil_r (be32 v)), word_be32 by apply Hw. now destruct ctx.
  - rewrite (B pre 4 (2 :: l)) by easy. known. rewrite (B (pre ++ [4]) 2 l) by apps. known.
    change (length [4; 2]) with 2%nat in *. rewrite <- (jump_at (learn ctx SackPerm) n n 2) by lia. now destruct ctx.
  - cbn [opt_wf In] in Hw. set (sz := Z.of_nat (2 + length d)) in *.
    rewrite (B pre k (sz :: d ++ l)) by easy. rewrite (B (pre ++ [k]) sz (d ++ l)) by (apps || (destruct d; [now destruct Hl | easy])).
    assert (N : forall c, In c [0; 1; 3; 4; 8] -> (k =? c) = false)
      by (intros c Hc; apply Z.eqb_neq; intros ->; now apply Hw).
    unfold TCPOPT_EOL, TCPOPT_NOP, TCPOPT_WINDOW, TCPOPT_TIMESTAMP, TCPOPT_SACK_PERM.
    rewrite !N by (cbn; tauto). destruct (Z.ltb_spec sz 2); [lia|].
    rewrite <- (jump_at (learn ctx (Other k d)) n n (length (k :: sz :: d))) by lia. now destruct ctx.
Qed.

(** Where nothing is left to read. *)
Lemma parse_none ctx n : (length p <= n + 1)%nat ->
  tscookie_tcpopt_parse p (at_off ctx n) = Some (1, at_off ctx n).
Proof. intros H. unfold tscookie_tcpopt_parse, next_byte; cbv zeta. now rewrite next_out by lia. Qed.

Lemma parse_end ctx pre l : p = pre ++ 0 :: l ->
  exists m, tscookie_tcpopt_parse p (at_off ctx (length pre)) = Some (1, at_off ctx m).
Proof.
  intros E. destruct l as [|b l].
  - eexists. apply parse_none. rewrite E, length_app. cbn; lia.
  - eexists. unfold tscookie_tcpopt_parse; cbv zeta. now rewrite (next_byte_at ctx (length pre) pre 0 (b :: l) E ltac:(easy) eq_refl).
Qed.

(** The last option, at the end of the packet. *)
Lemma parse_last o ctx pre : p = pre ++ encode o -> opt_wf o -> seen_last o -> long o \/
  exists m, tscookie_tcpopt_parse p (at_off ctx (length pre)) = Some (1, at_off (learn ctx o) m).
Proof.
  intros E Hw Hs. destruct o as [|sh|v e| |k [|x d]]; try (now left); try (now destruct Hs); right; cbn [encode learn] in *.
  - eexists. apply parse_none. rewrite E, length_app. cbn; lia.
  - exists (length pre + 1)%nat. unfold tscookie_tcpopt_parse; cbv zeta.
    rewrite (next_byte_at ctx (length pre) pre k [2] E ltac:(easy) eq_refl). cbn [opt_wf In] in Hw.
    unfold TCPOPT_EOL, TCPOPT_NOP. destruct (Z.eqb_spec k 0), (Z.eqb_spec k 1); try (exfalso; lia).
    unfold next_byte. rewrite next_out by (rewrite E, length_app; cbn [length]; lia). reflexivity.
Qed.

Lemma parse_list opts : Forall opt_wf opts -> forall ctx pre rest N, p = pre ++ encode_all opts ++ rest -> ended opts rest ->
  (length opts < N)%nat -> exists m, parse_batch N p (at_off ctx (length pre)) = Some (true, at_off (fold_left learn opts ctx) m).
Proof.
  induction 1 as [|o opts Ho _ IH]; intros ctx pre rest [|N] E Hl HN; cbn [length] in HN; try lia; cbn [parse_batch].
  - cbn [encode_all flat_map app fold_left] in *. destruct rest as [|b rest].
    + rewrite parse_none by (rewrite E, length_app; cbn; lia). eexists; reflexivity.
    + cbn [ended] in Hl. subst b. destruct (parse_end ctx pre rest E) as (m & ->). eexists; reflexivity.
  - cbn [encode_all flat_map fold_left] in *. fold (encode_all opts) in *. rewrite <- app_assoc in E.
    assert (Hl' : ended opts rest) by (destruct rest, opts; try exact Hl; exact I).
    assert (C : encode_all opts ++ rest <> [] \/ long o -> exists m,
      match tscookie_tcpopt_parse p (at_off ctx (length pre)) with
      | Some (r, c) => if negb (r =? 0) then Some (true, c) else parse_batch N p c
      | None => None
      end = Some (true, at_off (fold_left learn opts (learn ctx o)) m)).
    { intros Hn. rewrite (parse_one o ctx pre _ E Hn Ho). cbn [negb Z.eqb]. rewrite app_assoc in E.
      rewrite <- length_app. apply (IH _ _ rest N E Hl'). lia. }
    destruct opts as [|o' opts]; [|apply C; left; cbn [encode_all flat_map]; now destruct o'].
    destruct rest as [|b rest]; [|apply C; now left]. cbn [encode_all flat_map app] in E. rewrite app_nil_r in E.
    destruct (parse_last o ctx pre E Ho Hl) as [Hn|(m & Em)]; [now apply C; right|].
    rewrite Em. eexists; reflexivity.
Qed.

End Parse.

Section Proofs.
Context {L : KLoop} {K : Kernel}.

Lemma parse_batch_plus n m p ctx : parse_batch (n + m) p ctx =
  match parse_batch n p ctx with Some (false, ctx') => parse_batch m p ctx' | r => r end.
Proof.
  revert ctx; induction n as [|n IH]; intros ctx; [reflexivity|]. cbn [Nat.add parse_batch].
  destruct (tscookie_tcpopt_parse p ctx) as [[r ctx']|]; [|reflexivity]. destruct (negb (r =? 0)); [reflexivity | apply IH].
Qed.

(** The six rounds of seven options are forty-two options in a row. *)
Lemma parse_options_flat p ctx : parse_options p ctx = option_map snd (parse_batch 42 p ctx).
Proof.
  unfold parse_options. rewrite bpf_loop_spec by (unfold BPF_MAX_LOOPS; lia).
  change 42%nat with (7 + (7 + (7 + (7 + (7 + 7)))))%nat. rewrite !parse_batch_plus.
  change (Z.to_nat 6) with 6%nat. unfold tscookie_tcpopt_parse_batch. cbn [run_loop].
  do 6 (destruct (parse_batch 7 p _) as [[[] ?]|]; try reflexivity; rewrite ?parse_batch_plus). 
Qed.

Lemma encode_pos o : (0 < length (encode o))%nat.
Proof. destruct o; cbn; lia. Qed.

Lemma encode_all_long l : (length l <= length (encode_all l))%nat.
Proof.
  induction l as [|o l IH]; [cbn; lia|]. cbn [encode_all flat_map length]. rewrite length_app. pose proof (encode_pos o).
  unfold encode_all in IH. lia.
Qed.

Lemma parse_options_spec pre opts rest ctx : let p := pre ++ encode_all opts ++ rest in
  Z.of_nat (length p) <= MAX_PACKET_OFF -> ended opts rest -> Forall opt_wf opts -> (length (encode_all opts) <= 40)%nat ->
  exists m, parse_options p (at_off ctx (length pre)) = Some (at_off (fold_left learn opts ctx) m).
Proof.
  intros p Hp He Hw Hl. rewrite parse_options_flat. pose proof (encode_all_long opts).
  destruct (parse_list p Hp opts Hw ctx pre rest 42 eq_refl He) as (m & ->); [lia|]. now exists m.
Qed.

(** The cookie keeps the time but for its low six bits, which say what the
    client offered. *)
Lemma ts_cookie_eq ms ctx flags : is_u32 ms -> 0 <= wscale ctx < 16 ->
  ts_cookie ms ctx flags = 64 * (ms / 64) + (if has flags TCPF_ECE && has flags TCPF_CWR then 32 else 0)
                           + (if option_sack ctx then 16 else 0) + wscale ctx.
Proof.
  unfold is_u; intros Hms Hw. unfold ts_cookie; cbv zeta.
  assert (E : Z.land ms (notw 32 TSMASK) = 64 * (ms / 64)).
  { change (notw 32 TSMASK) with (0 + 2 ^ 6 * Z.ones 26). rewrite (Z.div_mod ms 64) at 1 by lia.
    rewrite Z.add_comm. change 64 with (2 ^ 6) at 1 2.
    rewrite land_halves by (easy || (apply Z.mod_pos_bound; lia) || (apply Z.div_pos; lia)).
    rewrite Z.land_0_r, Z.land_ones, Z.mod_small; [change (2 ^ 6) with 64; lia | | lia].
    change (2 ^ 6) with 64. change (2 ^ 26) with 67108864. Z.div_mod_to_equations; lia. }
  rewrite E. change TS_OPT_WSCALE_MASK with (Z.ones 4). rewrite Z.land_ones, (Z.mod_small (wscale ctx)) by (change (2 ^ 4) with 16; lia).
  assert (H : 0 <= ms / 64) by (apply Z.div_pos; lia).
  set (h := ms / 64) in *. set (v := wscale ctx) in *. change 64 with (2 ^ 6). rewrite (lor_add 6 v h) by (change (2 ^ 6) with 64; lia).
  assert (S4 : Z.lor (2 ^ 6 * h + v) TS_OPT_SACK = 2 ^ 6 * h + (16 + v)).
  { change TS_OPT_SACK with (2 ^ 4 * 1). rewrite (lor_low 6), (Z.lor_comm v), (lor_add 4 v 1) by (change (2 ^ 6) with 64; lia). lia. }
  assert (S5 : forall a, 0 <= a < 32 -> Z.lor (2 ^ 6 * h + a) TS_OPT_ECN = 2 ^ 6 * h + (32 + a)).
  { intros a Ha. change TS_OPT_ECN with (2 ^ 5 * 1). rewrite (lor_low 6), (Z.lor_comm a), (lor_add 5 a 1) by (change (2 ^ 6) with 64; lia). lia. }
  destruct (option_sack ctx), (has flags TCPF_ECE && has flags TCPF_CWR); rewrite ?S4, ?S5 by lia; lia.
Qed.

(** ** Accesses stay in the packet

    [ok n m n' Q]: on a packet of at least [n] bytes [m] does not fault; it goes
    on with a value of [Q] and a packet of at least [n'] bytes, or returns
    early, but not XDP_TX; and it gives back the references it takes. *)
Definition room (n : nat) (w : world) : Prop := (n <= length (pkt w))%nat /\ Forall is_u8 (pkt w).

Definition ok {A} (n : nat) (m : M A) (n' : A -> nat) (Q : A -> Prop) : Prop :=
  forall w, room n w -> exists r w', m w = Some (r, w') /\ ct_refs w' = ct_refs w /\
    match r with inr a => room (n' a) w' /\ Q a | inl v => room 0 w' /\ v <> XDP_TX end.

Lemma room_le n m w : (m <= n)%nat -> room n w -> room m w.
Proof. unfold room; intros H [H1 H2]; split; [lia | exact H2]. Qed.

Lemma ok_ret {A} n (a : A) (n' : A -> nat) (Q : A -> Prop) : (n' a <= n)%nat -> Q a -> ok n (ret a) n' Q.
Proof. intros Hn Hq w Hw. exists (inr a), w. do 2 (split; [reflexivity|]). split; [now apply (room_le n) | exact Hq]. Qed.

Lemma ok_out {A} n v (n' : A -> nat) (Q : A -> Prop) : v <> XDP_TX -> ok n (out v) n' Q.
Proof. intros Hv w Hw. exists (inl v), w. do 2 (split; [reflexivity|]). split; [apply (room_le n); [lia | exact Hw] | exact Hv]. Qed.

Lemma ok_bind {A B} n (m : M A) n1 Q (k : A -> M B) n2 R :
  ok n m n1 Q -> (forall a, Q a -> ok (n1 a) (k a) n2 R) -> ok n (bind m k) n2 R.
Proof.
  intros Hm Hk w Hw. destruct (Hm w Hw) as ([v|a] & w1 & E & Er & H); unfold bind; rewrite E.
  - exists (inl v), w1. split; [reflexivity | now split].
  - destruct H as [H Hq]. destruct (Hk a Hq w1 H) as (r & w2 & E2 & Er2 & H2). exists r, w2. rewrite Er2. now split.
Qed.

Lemma ok_weaken {A} n n0 (m : M A) n1 n1' (Q Q' : A -> Prop) : ok n0 m n1 Q -> (n0 <= n)%nat ->
  (forall a, Q a -> (n1' a <= n1 a)%nat /\ Q' a) -> ok n m n1' Q'.
Proof.
  intros Hm Hn Hq w Hw. destruct (Hm w (room_le _ _ _ Hn Hw)) as (r & w1 & E & Er & H). exists r, w1. do 2 (split; [assumption|]).
  destruct r as [v|a]; [exact H|]. destruct H as [H Q1]. destruct (Hq a Q1) as [H1 H2]. split; [now apply (room_le (n1 a)) | exact H2].
Qed.

Lemma ok_if {A} n (b : bool) (m m' : M A) n' Q : (b = true -> ok n m n' Q) -> (b = false -> ok n m' n' Q) ->
  ok n (if b then m else m') n' Q.
Proof. destruct b; auto. Qed.

Lemma ok_get {A} n (f : world -> A) : ok n (get f) (fun _ => n) (fun _ => True).
Proof. intros w Hw. now exists (inr (f w)), w. Qed.

Lemma ok_modify n f : (forall w, pkt (f w) = pkt w /\ ct_refs (f w) = ct_refs w) -> ok n (modify f) (fun _ => n) (fun _ => True).
Proof. intros Hf w Hw. exists (inr tt), (f w). destruct (Hf w) as [E1 E2].
  split; [reflexivity|]. split; [exact E2|]. split; [|exact I]. unfold room. rewrite E1. exact Hw.
Qed.

(** A test against the end of the packet. *)
Lemma ok_past {A} n k v (m : M A) n' Q : v <> XDP_TX -> ok (Nat.max n k) m n' Q ->
  ok n (b <- past k ;; if b : bool then out v else m) n' Q.
Proof.
  intros Hv Hm w Hw. unfold past, get, bind. destruct (Nat.ltb_spec (length (pkt w)) k).
  - now apply (ok_out n v n' Q Hv).
  - apply Hm. destruct Hw. split; [lia | assumption].
Qed.

Lemma rd_in p o k : (o + k <= length p)%nat -> rd p o k = Some (sub p o k).
Proof. intros H. unfold rd. now destruct (Nat.leb_spec (o + k) (length p)); [|lia]. Qed.

Lemma ok_load n o k : (o + k <= n)%nat ->
  ok n (load o k) (fun _ => n) (fun b => length b = k /\ Forall is_u8 b).
Proof.
  intros H w [Hl Hu]. unfold load. rewrite rd_in by lia. eexists _, w. do 2 (split; [reflexivity|]).
  split; [now split|]. split; [apply sub_length; lia | now apply sub_u8].
Qed.

Lemma ok_store n o bs : (o + length bs <= n)%nat -> Forall is_u8 bs ->
  ok n (store o bs) (fun _ => n) (fun _ => True).
Proof.
  intros H Hb w [Hl Hu]. unfold store. destruct (Nat.leb_spec (o + length bs) (length (pkt w))); [|lia].
  eexists _, _. do 2 (split; [reflexivity|]). split; [|exact I].
  split; change (pkt (w <| pkt := put (pkt w) o bs |>)) with (put (pkt w) o bs).
  - now rewrite length_put by lia.
  - now apply Forall_put.
Qed.

Lemma ok_ld8 n o : (o + 1 <= n)%nat -> ok n (ld8 o) (fun _ => n) is_u8.
Proof.
  intros H. eapply ok_bind; [now apply ok_load|]. intros b [_ Hb]. apply ok_ret; [lia | now apply byte_u8].
Qed.

Lemma ok_ld16 n o : (o + 2 <= n)%nat -> ok n (ld16 o) (fun _ => n) is_u16.
Proof.
  intros H. eapply ok_bind; [now apply ok_load|]. intros b [_ Hb]. apply ok_ret; [lia|].
  pose proof (word16_range b Hb 0). unfold is_u; lia.
Qed.

Lemma ok_ld32 n o : (o + 4 <= n)%nat -> ok n (ld32 o) (fun _ => n) is_u32.
Proof.
  intros H. eapply ok_bind; [now apply ok_load|]. intros b [_ Hb]. apply ok_ret; [lia | now apply word32_range].
Qed.

Lemma ok_st8 n o v : (o + 1 <= n)%nat -> is_u8 v -> ok n (st8 o v) (fun _ => n) (fun _ => True).
Proof. intros H Hv. apply ok_store; [exact H | now constructor]. Qed.

Lemma ok_st16 n o v : (o + 2 <= n)%nat -> ok n (st16 o v) (fun _ => n) (fun _ => True).
Proof. intros H. apply ok_store; [exact H | apply bytes16_range]. Qed.

Lemma bytes32_range v : Forall is_u8 (bytes32 v).
Proof. unfold bytes32. apply Forall_app; split; apply bytes16_range. Qed.

Lemma ok_st32 n o v : (o + 4 <= n)%nat -> ok n (st32 o v) (fun _ => n) (fun _ => True).
Proof. intros H. apply ok_store; [exact H | apply bytes32_range]. Qed.

Lemma ok_swap n k c a b : (a + c * k <= n)%nat -> (b + c * k <= n)%nat -> ok n (vswap k a b c) (fun _ => n) (fun _ => True).
Proof.
  revert a b; induction c as [|c IH]; intros a b Ha Hb; cbn [vswap]; [now apply ok_ret|]. cbn [Nat.mul] in *.
  eapply ok_bind; [apply ok_load; lia|]. intros ta [La Ua]. eapply ok_bind; [apply ok_load; lia|]. intros tb [Lb Ub].
  eapply ok_bind; [apply ok_store; [lia | exact Ub]|]. intros [] _.
  eapply ok_bind; [apply ok_store; [lia | exact Ua]|]. intros [] _. apply IH; lia.
Qed.

Lemma ok_copy n dst src c : (dst + 4 * c <= n)%nat -> (src + 4 * c <= n)%nat ->
  ok n (vcopy32 dst src c) (fun _ => n) (fun _ => True).
Proof.
  revert dst src; induction c as [|c IH]; intros dst src Hd Hs; cbn [vcopy32]; [now apply ok_ret|].
  eapply ok_bind; [apply ok_load; lia|]. intros t [Lt Ut].
  eapply ok_bind; [apply ok_store; [lia | exact Ut]|]. intros [] _. apply IH; lia.
Qed.

Definition nibble (v : Z) : Prop := 0 <= v <= 15.

Lemma ok_ihl n ip : (ip + 1 <= n)%nat -> ok n (ipv4_ihl ip) (fun _ => n) nibble.
Proof.
  intros H. eapply ok_bind; [now apply ok_ld8|]. intros b Hb. apply ok_ret; [lia|].
  change 0x0f with (Z.ones 4). rewrite Z.land_ones by lia. unfold nibble. Z.div_mod_to_equations; lia.
Qed.

Lemma ok_doff n tcp : (tcp + 13 <= n)%nat -> ok n (tcp_doff tcp) (fun _ => n) nibble.
Proof.
  intros H. eapply ok_bind; [apply ok_ld8; lia|]. intros b Hb. apply ok_ret; [lia|].
  unfold is_u in Hb. rewrite Z.shiftr_div_pow2 by lia. unfold nibble. Z.div_mod_to_equations; lia.
Qed.

Lemma ok_set_doff n tcp d : (tcp + 13 <= n)%nat -> ok n (tcp_set_doff tcp d) (fun _ => n) (fun _ => True).
Proof.
  intros H. eapply ok_bind; [apply ok_ld8; lia|]. intros b Hb. apply ok_st8; [lia|].
  apply is_u_lor_lxor; [lia | now apply is_u_land | now apply uw_range].
Qed.

Lemma ok_csum_diff n o k : (o + k <= n)%nat -> ok n (csum_diff o k) (fun _ => n) (fun _ => True).
Proof. intros H. eapply ok_bind; [now apply ok_load|]. intros b _. now apply ok_ret. Qed.

Lemma ok_checked n m n' Q : ok n m n' Q -> ok n (checked m) n' Q.
Proof.
  intros H. eapply ok_bind; [exact H|]. intros v Hv. apply ok_if; intros _; [now apply ok_out | now apply ok_ret].
Qed.

(** One operation, or one test, at the head of a computation. *)
Ltac op :=
  first [ apply ok_ld8 | apply ok_ld16 | apply ok_ld32 | apply ok_load | apply ok_st16 | apply ok_st32
        | apply ok_swap | apply ok_copy | apply ok_ihl | apply ok_doff | apply ok_set_doff | apply ok_csum_diff
        | apply ok_checked | apply ok_get ]; try lia.
Ltac acc :=
  repeat match goal with
  | |- ok _ (bind (past _) _) _ _ => apply ok_past; [discriminate|]
  | |- ok _ (bind _ _) _ _ => eapply ok_bind; [solve [repeat op]|]; intros ? ?
  | |- ok _ (if _ then _ else _) _ _ => apply ok_if; intro; bsimp
  | |- ok _ (out _) _ _ => apply ok_out; discriminate
  end.

Definition headers (hdr : header_pointers) : Prop :=
  eth hdr = O /\
  (ipv4 hdr = Some ETH_SZ /\ ipv6 hdr = None \/
   ipv4 hdr = None /\ ipv6 hdr = Some ETH_SZ /\ tcp hdr = (ETH_SZ + IP6_SZ)%nat).

Lemma ok_dissect : ok 0 tcp_dissect (fun hdr => Nat.max (ETH_SZ + IP_SZ) (tcp hdr + TCP_SZ)) (fun hdr => headers hdr /\ 20 <= tcp_len hdr <= 60).
Proof.
  unfold tcp_dissect, no_headers, ETH_SZ, IP_SZ, IP6_SZ, TCP_SZ. cbv zeta. cbn [eth Nat.add]. acc.
  eapply ok_bind with (n1 := fun _ => 34%nat) (Q := headers).
  - acc.
    + apply ok_ret; [lia|]. split; [reflexivity|]. left. now split.
    + apply ok_ret; [lia|]. split; [reflexivity|]. right. now repeat split.
  - intros [e i4 i6 t l] Hh. acc. unfold nibble in *. cbn in *. rewrite uw_small in * by (unfold is_u; lia).
    apply ok_ret; [cbn; lia|]. split; [exact Hh | cbn; lia].
Qed.

Lemma ok_lookup xdp hdr n : (ETH_SZ + IP_SZ <= n)%nat -> (tcp hdr + TCP_SZ <= n)%nat -> headers hdr ->
  ok n (tcp_lookup xdp hdr) (fun _ => n) (fun _ => True).
Proof.
  intros Hn Ht [_ Hh]. unfold tcp_lookup, ETH_SZ, IP_SZ, IP6_SZ, TCP_SZ in *.
  eapply ok_bind with (n1 := fun _ => n) (Q := fun _ => True).
  - unfold ct_tuple. destruct Hh as [(E4 & E6)|(E4 & E6 & E)]; rewrite E4, ?E6; acc; now apply ok_ret.
  - intros tup _ w Hw. unfold bind, bpf_ct_lookup, bpf_ct_release, modify.
    destruct (ct_lookup xdp tup) as [status|error].
    + set (w1 := _ <| ct_refs ::= Z.add (-1) |>). assert (R : room n w1) by exact Hw.
      assert (G : ok n (if has status IPS_CONFIRMED then out XDP_PASS else ret tt) (fun _ => n) (fun _ => True))
        by (acc; now apply ok_ret).
      destruct (G w1 R) as (r & w2 & E & Er & H). exists r, w2. split; [exact E|]. split; [|exact H].
      rewrite Er. change (-1 + (1 + ct_refs w) = ct_refs w). lia.
    + revert w Hw. change (ok n (if negb (error =? - ENOENT) then out XDP_ABORTED else ret tt) (fun _ => n) (fun _ => True)).
      acc. now apply ok_ret.
Qed.

(** The option parser reads inside the packet, whatever the options are. *)
Definition ctx_ok (ctx : tcpopt_context) : Prop :=
  is_u32 (off ctx) /\ 0 <= wscale ctx < 16 /\ is_u32 (tsecr ctx).

Lemma next_in p ctx sz : 0 < sz -> ctx_ok ctx ->
  ctx_ok (snd (next p ctx sz)) /\
  match fst (next p ctx sz) with Some a => (a + Z.to_nat sz <= length p)%nat | None => True end.
Proof.
  intros Hs (Ho & Hw & Ht). unfold next. destruct (MAX_PACKET_OFF - sz <? off ctx); [now split|].
  destruct (Z.leb_spec (Z.of_nat (length p)) (off ctx + sz)); [now split|]. unfold is_u in *. cbn [fst snd]. split; [|lia].
  destruct ctx. split; [now apply uw_range | now split].
Qed.

Lemma next_byte_in p ctx : Forall is_u8 p -> ctx_ok ctx ->
  exists r, next_byte p ctx = Some r /\ match r with inl ctx' => ctx_ok ctx' | inr (b, ctx') => is_u8 b /\ ctx_ok ctx' end.
Proof.
  intros Hp Hc. unfold next_byte. destruct (next_in p ctx 1 ltac:(lia) Hc) as [H1 H2].
  destruct (next p ctx 1) as [[a|] ctx']; cbn [fst snd] in *; [|eauto]. rewrite rd_in by exact H2. cbn [option_map].
  eexists; split; [reflexivity|]. split; [now apply byte_u8, sub_u8 | exact H1].
Qed.

Lemma ctx_ok_jump ctx o : ctx_ok ctx -> ctx_ok (ctx <| off := u32 o |>).
Proof. intros (Ho & Hw & Ht). destruct ctx. split; [now apply uw_range | now split]. Qed.

Lemma parse_in p ctx : Forall is_u8 p -> ctx_ok ctx ->
  exists r ctx', tscookie_tcpopt_parse p ctx = Some (r, ctx') /\ ctx_ok ctx'.
Proof.
  intros Hp Hc. unfold tscookie_tcpopt_parse; cbv zeta.
  destruct (next_byte_in p ctx Hp Hc) as ([c1|[opcode c1]] & -> & H1); [eauto|]. destruct H1 as [_ H1].
  destruct (opcode =? TCPOPT_EOL); [eauto|]. destruct (opcode =? TCPOPT_NOP); [eauto|].
  destruct (next_byte_in p c1 Hp H1) as ([c2|[opsize c2]] & -> & H2); [eauto|]. destruct H2 as [_ H2].
  destruct (opsize <? 2); [eauto|].
  assert (J : forall c, ctx_ok c -> exists r c', Some (0, c <| off := u32 (off ctx + opsize) |>) = Some (r, c') /\ ctx_ok c')
    by (intros c H; eexists _, _; split; [reflexivity | now apply ctx_ok_jump]).
  destruct (opcode =? TCPOPT_WINDOW); [|destruct (opcode =? TCPOPT_TIMESTAMP)].
  - destruct (next_in p c2 1 ltac:(lia) H2) as [H3 H4]. destruct (next p c2 1) as [[a|] c3]; cbn [fst snd] in *; [|eauto].
    destruct (opsize =? TCPOLEN_WINDOW); [|now apply J]. rewrite rd_in by exact H4. apply J.
    destruct H3 as (Ho & Hw & Ht). pose proof (byte_u8 _ 0 (sub_u8 p a 1 Hp)) as B. unfold is_u in B.
    change (Z.to_nat 1) with 1%nat in *. set (v := byte _ _) in *.
    assert (V : 0 <= (if v <? TCP_MAX_WSCALE then v else TCP_MAX_WSCALE) < 16)
      by (unfold TCP_MAX_WSCALE; destruct (Z.ltb_spec v 14); lia).
    destruct c3. split; [exact Ho | now split].
  - destruct (next_in p c2 4 ltac:(lia) H2) as [H3 H4]. destruct (next p c2 4) as [[a|] c3]; cbn [fst snd] in *; [|eauto].
    destruct (opsize =? TCPOLEN_TIMESTAMP); [|now apply J]. rewrite rd_in by exact H4. apply J.
    destruct H3 as (Ho & Hw & Ht), c3. split; [exact Ho|]. split; [exact Hw|]. now apply word32_range, sub_u8.
  - destruct (opcode =? TCPOPT_SACK_PERM); [|now apply J]. apply J.
    destruct (opsize =? TCPOLEN_SACK_PERM); [|exact H2]. now destruct c2.
Qed.

Lemma parse_batch_in n p ctx : Forall is_u8 p -> ctx_ok ctx ->
  exists r ctx', parse_batch n p ctx = Some (r, ctx') /\ ctx_ok ctx'.
Proof.
  intros Hp. revert ctx; induction n as [|n IH]; intros ctx Hc; cbn [parse_batch]; [eauto|].
  destruct (parse_in p ctx Hp Hc) as (r & ctx' & -> & Hc'). destruct (negb (r =? 0)); eauto.
Qed.

Lemma parse_options_in p ctx : Forall is_u8 p -> ctx_ok ctx -> exists ctx', parse_options p ctx = Some ctx' /\ ctx_ok ctx'.
Proof.
  intros Hp Hc. rewrite parse_options_flat. destruct (parse_batch_in 42 p ctx Hp Hc) as (r & ctx' & -> & H). now exists ctx'.
Qed.

Lemma first_context_ok tcp : ctx_ok (first_context tcp).
Proof. split; [now apply uw_range|]. split; [change (0 <= 15 < 16); lia | easy]. Qed.

Lemma ok_init tcp len n : (tcp + 14 <= n)%nat -> ok n (tscookie_init tcp len) (fun _ => n) (fun _ => True).
Proof.
  intros Hn. unfold tscookie_init. eapply ok_bind with (n1 := fun _ => n) (Q := fun _ => True).
  - intros w Hw. destruct (parse_options_in (pkt w) _ (proj2 Hw) (first_context_ok tcp)) as (ctx & -> & _).
    cbn [option_map]. eexists _, w. do 2 (split; [reflexivity|]). now split.
  - intros ctx _. acc; [now apply ok_ret|].
    eapply ok_bind with (n1 := fun _ => n) (Q := fun _ => True).
    + unfold tcp_clock_ms, tcp_clock_ns, ktime. eapply ok_bind with (n1 := fun _ => n) (Q := fun _ => True).
      * acc. eapply ok_bind; [now apply ok_modify|]. intros [] _. now apply ok_ret.
      * intros ns _. now apply ok_ret.
    + intros ms _. unfold tcp_flags. acc. now apply ok_ret.
Qed.

Lemma ok_opts v6 n : ok n (values_get_tcpipopts v6) (fun _ => n) (fun o => is_u8 (snd o)).
Proof.
  unfold values_get_tcpipopts. acc. assert (T : is_u8 DEFAULT_TTL) by (split; reflexivity || discriminate).
  destruct a as [v|]; [|now apply ok_ret]. apply ok_if; intros _; [|now apply ok_ret].
  apply ok_ret; [lia|]. apply u8_range.
Qed.

Lemma ok_mkoptions buf tsopt mss ws n : (buf + 20 <= n)%nat ->
  ok n (tcp_mkoptions buf tsopt mss ws) (fun _ => n) (fun _ => True).
Proof.
  intros Hn. unfold tcp_mkoptions. acc. destruct tsopt as [[tsval tsecr]|]; acc; now apply ok_ret.
Qed.

Lemma ok_when n b (m : M unit) : ok n m (fun _ => n) (fun _ => True) -> ok n (when b m) (fun _ => n) (fun _ => True).
Proof. intros H. destruct b; [exact H | now apply ok_ret]. Qed.

Lemma ok_store2 n o bs k : (o + k <= n)%nat -> length bs = k /\ Forall is_u8 bs ->
  ok n (store o bs) (fun _ => n) (fun _ => True).
Proof. intros H [<- Hu]. now apply ok_store. Qed.

Lemma ok_gen_tcp tcp cookie tsopt mss ws n : (tcp + 40 <= n)%nat ->
  ok n (tcp_gen_synack tcp cookie tsopt mss ws) (fun _ => n) (fun _ => True).
Proof.
  intros Hn. unfold tcp_gen_synack, tcp_flag_word, TCP_SZ. acc.
  eapply ok_bind; [apply ok_when; acc; op|]. intros [] _. acc.
  eapply ok_bind; [eapply (ok_store2 _ _ _ 2); [lia | eassumption]|]. intros [] _.
  eapply ok_bind; [eapply (ok_store2 _ _ _ 2); [lia | eassumption]|]. intros [] _. acc.
  eapply ok_bind; [apply ok_mkoptions; lia|]. intros n0 _. acc. op.
Qed.

(** The headers of an answer. *)
Definition answer (hdr hdr' : header_pointers) : Prop :=
  eth hdr' = eth hdr /\ ipv4 hdr' = ipv4 hdr /\ ipv6 hdr' = ipv6 hdr /\ tcp hdr' = tcp hdr /\ 0 <= tcp_len hdr' <= 60.

Lemma ok_gen4 hdr cookie tsopt n : eth hdr = O -> (ETH_SZ + IP_SZ <= n)%nat -> (tcp hdr + 40 <= n)%nat ->
  ok n (tcpv4_gen_synack ETH_SZ hdr cookie tsopt) (fun _ => n) (answer hdr).
Proof.
  intros He Hn Ht. unfold tcpv4_gen_synack, ETH_SZ, IP_SZ in *. rewrite He.
  eapply ok_bind; [apply ok_opts|]. intros [[mss ws] ttl] Httl. unfold swap_eth_addr, vswap8. acc.
  eapply ok_bind; [eapply (ok_store2 _ _ _ 4); [lia | eassumption]|]. intros [] _.
  eapply ok_bind; [eapply (ok_store2 _ _ _ 4); [lia | eassumption]|]. intros [] _. acc.
  eapply ok_bind; [apply ok_st8; [lia | easy]|]. intros [] _. acc.
  eapply ok_bind; [apply ok_st8; [lia | exact Httl]|]. intros [] _.
  eapply ok_bind; [apply ok_gen_tcp; lia|]. intros [] _. acc. unfold nibble in *. destruct hdr as [e i4 i6 t l].
  apply ok_ret; [lia|]. unfold answer. cbn in *. rewrite uw_small by (unfold is_u; lia). repeat split; lia.
Qed.

Lemma ok_gen6 hdr cookie tsopt n : eth hdr = O -> (ETH_SZ + IP6_SZ <= n)%nat -> (tcp hdr + 40 <= n)%nat ->
  ok n (tcpv6_gen_synack ETH_SZ hdr cookie tsopt) (fun _ => n) (answer hdr).
Proof.
  intros He Hn Ht. unfold tcpv6_gen_synack, ETH_SZ, IP6_SZ in *. rewrite He.
  eapply ok_bind; [apply ok_opts|]. intros [[mss ws] ttl] Httl. unfold swap_eth_addr, vswap8, vswap32. acc.
  eapply ok_bind; [apply ok_st8; [lia | exact Httl]|]. intros [] _.
  eapply ok_bind; [apply ok_gen_tcp; lia|]. intros [] _. acc. unfold nibble in *. destruct hdr as [e i4 i6 t l].
  apply ok_ret; [lia|]. unfold answer. cbn in *. rewrite uw_small by (unfold is_u; lia). repeat split; lia.
Qed.

(** What part 2 knows of the headers. *)
Definition grown (hdr : header_pointers) (n : nat) : Prop :=
  headers hdr /\ 20 <= tcp_len hdr <= 60 /\ (tcp hdr + TCP_MAXLEN <= n)%nat /\
  (ipv4 hdr <> None -> (ETH_SZ + IPV4_MAXLEN <= n)%nat).

Lemma ok_gen hdr cookie tsopt n : grown hdr n -> (ETH_SZ + IP_SZ + TCP_MAXLEN <= n)%nat ->
  ok n (gen_synack hdr cookie tsopt) (fun _ => n) (fun hdr' => headers hdr' /\ 0 <= tcp_len hdr' <= 60 /\ (tcp hdr' + TCP_MAXLEN <= n)%nat).
Proof.
  intros ((He & Hh) & Hl & Ht & Hip) Hn. unfold gen_synack, headers, IPV4_MAXLEN, TCP_MAXLEN, ETH_SZ, IP_SZ, IP6_SZ in *. cbv zeta.
  destruct Hh as [(E4 & E6)|(E4 & E6 & E)]; rewrite E4, ?E6.
  - specialize (Hip ltac:(now rewrite E4)). acc.
    eapply ok_bind with (n1 := fun _ => n) (Q := fun h => eth h = O /\ ipv4 h = ipv4 hdr /\ ipv6 h = ipv6 hdr /\ (tcp h + 60 <= n)%nat).
    + acc; [|now apply ok_ret]. eapply ok_bind; [apply ok_st8; [lia|]|].
      * apply is_u_lor_lxor; [lia | now apply is_u_land | easy].
      * intros [] _. destruct hdr. now apply ok_ret.
    + intros h (Eh & F4 & F6 & Fh). eapply ok_weaken; [apply (ok_gen4 h cookie tsopt n); unfold ETH_SZ, IP_SZ; (assumption || lia) | lia |].
      intros h' (G0 & G4 & G6 & G & Gl). split; [lia|]. split; [|split; [exact Gl | lia]].
      split; [congruence|]. left; split; congruence.
  - eapply ok_weaken; [apply (ok_gen6 hdr cookie tsopt n); unfold ETH_SZ, IP6_SZ in *; (assumption || lia) | lia |].
    intros h' (G0 & G4 & G6 & G & Gl). split; [lia|]. split; [|split; [exact Gl | lia]].
    split; [congruence|]. right; repeat split; congruence.
Qed.

Lemma ok_magic4 ip len v n : (ip + 20 <= n)%nat -> ok n (tcpv4_magic ip len v) (fun _ => n) (fun _ => True).
Proof. intros H. unfold tcpv4_magic. acc. now apply ok_ret. Qed.

Lemma ok_magic6 ip len v n : (ip + 40 <= n)%nat -> ok n (tcpv6_magic ip len v) (fun _ => n) (fun _ => True).
Proof. intros H. unfold tcpv6_magic. acc. now apply ok_ret. Qed.

Lemma ok_fill hdr n : headers hdr -> 0 <= tcp_len hdr <= 60 -> (tcp hdr + TCP_MAXLEN <= n)%nat -> (ETH_SZ + IP_SZ <= n)%nat ->
  ok n (fill_checksums hdr) (fun _ => n) (fun _ => True).
Proof.
  intros (_ & Hh) Hl Ht Hn. unfold fill_checksums, TCP_MAXLEN, ETH_SZ, IP_SZ, IP6_SZ in *. acc.
  destruct Hh as [(E4 & E6)|(E4 & E6 & E)]; rewrite E4, ?E6.
  - eapply ok_bind; [apply ok_magic4; lia|]. intros c _. acc. op.
  - eapply ok_bind; [apply ok_magic6; lia|]. intros c _. op.
Qed.

Lemma ok_syn_checksums hdr n : grown hdr n -> ok n (syn_checksums hdr) (fun _ => n) (fun r => fst r = IP_SZ \/ fst r = IP6_SZ).
Proof.
  intros ((_ & Hh) & Hl & Ht & Hip). unfold syn_checksums, IPV4_MAXLEN, TCP_MAXLEN, ETH_SZ, IP_SZ, IP6_SZ in *.
  destruct Hh as [(E4 & E6)|(E4 & E6 & E)]; rewrite E4, ?E6.
  - specialize (Hip ltac:(now rewrite E4)). eapply ok_bind; [op|]. intros ihl Hihl. unfold nibble in Hihl. acc.
    eapply ok_bind; [apply ok_magic4; lia|]. intros c _. acc. apply ok_ret; [lia | now left].
  - acc. eapply ok_bind; [apply ok_magic6; lia|]. intros c _. acc. apply ok_ret; [lia | now right].
Qed.

Section Kernel.
Context {KO : KernelOk K}.

Lemma ok_tail f n : (forall p p', Forall is_u8 p -> f p = Some p' -> Forall is_u8 p') ->
  ok n (move_tail f) (fun _ => O) (fun _ => True).
Proof.
  intros Hf w [_ Hu]. unfold move_tail. destruct (f (pkt w)) as [p'|] eqn:E; eexists _, _; do 2 (split; [reflexivity|]).
  - split; [|exact I]. split; [lia | now apply (Hf (pkt w))].
  - split; [|discriminate]. split; [lia | exact Hu].
Qed.

Lemma tail_u8 (xdp : bool) p d n p' : Forall is_u8 p ->
  (if xdp then bpf_xdp_adjust_tail p d else bpf_skb_change_tail p n) = Some p' -> Forall is_u8 p'.
Proof. intros Hp. destruct xdp; intros E; [now apply (adjust_tail_ok p d p') | now apply (change_tail_ok p n p')]. Qed.

Lemma ok_handle_syn xdp hdr n : grown hdr n -> ok n (syncookie_handle_syn xdp hdr) (fun _ => O) (fun r => r = XDP_TX).
Proof.
  intros G. pose proof G as ((He & Hh) & Hl & Ht & Hip). unfold syncookie_handle_syn, tcp_flags, TCP_MAXLEN in *. acc.
  unfold check_port_allowed. acc. eapply ok_bind; [now apply ok_syn_checksums|]. intros [ip_len value] Hlen. cbn [fst] in Hlen. acc.
  eapply ok_bind; [apply ok_init; lia|]. intros tsopt _. acc. set (m := Nat.max n _).
  assert (Hm : (n <= m)%nat /\ (ETH_SZ + IP_SZ + 60 <= m)%nat)
    by (unfold m, IP_SZ, IP6_SZ, ETH_SZ, TCP_MAXLEN in *; destruct Hlen as [->| ->]; lia).
  eapply ok_bind; [apply (ok_gen hdr (u32 value) tsopt m); [|unfold TCP_MAXLEN; lia]|].
  { split; [exact (conj He Hh)|]. split; [exact Hl|]. unfold TCP_MAXLEN. split; [lia|]. intros F; specialize (Hip F); lia. }
  intros hdr' (Hh' & Hl' & Ht'). unfold TCP_MAXLEN in Ht'.
  eapply ok_bind; [apply (ok_fill hdr' m); unfold TCP_MAXLEN; (assumption || lia)|]. intros [] _. acc.
  eapply ok_bind; [unfold set_size; apply (ok_tail _ m); intros p p' Hp; now apply tail_u8|]. intros [] _.
  eapply ok_bind; [apply ok_modify|].
  - intros w. now destruct w as [? [|? [|? ?]] ? ? ?].
  - intros [] _. now apply ok_ret.
Qed.

Lemma ok_handle_ack hdr n : grown hdr n -> ok n (syncookie_handle_ack hdr) (fun _ => n) (fun r => r = XDP_PASS).
Proof.
  intros ((He & Hh) & Hl & Ht & Hip). unfold syncookie_handle_ack, tcp_flags, IPV4_MAXLEN, TCP_MAXLEN, ETH_SZ, IP_SZ, IP6_SZ, TCP_SZ in *. acc.
  eapply ok_bind with (n1 := fun _ => n) (Q := fun _ => True).
  - destruct Hh as [(E4 & E6)|(E4 & E6 & E)]; rewrite E4, ?E6.
    + specialize (Hip ltac:(now rewrite E4)). acc. now apply ok_ret.
    + acc. now apply ok_ret.
  - intros err _. acc. now apply ok_ret.
Qed.

Lemma ok_part1 xdp : ok 0 (syncookie_part1 xdp) (fun _ => O) headers.
Proof.
  unfold syncookie_part1. eapply ok_bind; [apply ok_dissect|]. intros hdr [Hh Hl].
  eapply ok_bind; [apply ok_lookup; [lia | lia | exact Hh]|]. intros [] _. unfold tcp_flags, TCP_SZ. acc.
  eapply ok_bind; [apply (ok_tail _ _); intros p p' Hp; now apply tail_u8|]. intros [] _. now apply ok_ret.
Qed.

Lemma ok_part2 xdp hdr : headers hdr ->
  ok 0 (syncookie_part2 xdp hdr) (fun _ => O) (fun r => r = XDP_TX \/ r = XDP_PASS).
Proof.
  intros (He & Hh). unfold syncookie_part2.
  set (N := fun h : header_pointers => (match ipv4 h with Some _ => ETH_SZ + IPV4_MAXLEN | None => 0 end)%nat).
  eapply ok_bind with (n1 := N) (Q := headers).
  - cbv zeta. destruct hdr as [e i4 i6 t l]. unfold headers, ETH_SZ, IPV4_MAXLEN, IP6_SZ in *. cbn in *. subst e.
    destruct Hh as [(-> & ->)|(-> & -> & ->)].
    + acc. apply ok_ret; [cbn; lia|]. split; [reflexivity | now left].
    + apply ok_ret; [cbn; lia|]. split; [reflexivity | now right].
  - intros [e i4 i6 t l] Hh'. apply ok_past; [discriminate|].
    change (tcp {| eth := e; ipv4 := i4; ipv6 := i6; tcp := t; tcp_len := l |}) with t. set (n := Nat.max _ _).
    assert (Hn : (t + 60 <= n)%nat /\ (i4 <> None -> (ETH_SZ + IPV4_MAXLEN <= n)%nat))
      by (unfold n, N, TCP_MAXLEN; cbn [ipv4]; destruct i4; split; (congruence || lia)).
    eapply ok_bind; [apply ok_doff; lia|]. unfold nibble. intros doff Hd. cbv zeta.
    change ({| eth := e; ipv4 := i4; ipv6 := i6; tcp := t; tcp_len := l |} <| tcp_len := u16 (doff * 4) |>)
      with {| eth := e; ipv4 := i4; ipv6 := i6; tcp := t; tcp_len := u16 (doff * 4) |}.
    rewrite uw_small by (unfold is_u; lia). cbn [tcp tcp_len]. apply ok_if; [intros _; apply ok_out; discriminate | intros Hlen].
    apply Z.ltb_ge in Hlen. unfold TCP_SZ in Hlen.
    assert (G : grown {| eth := e; ipv4 := i4; ipv6 := i6; tcp := t; tcp_len := doff * 4 |} n).
    { split; [exact Hh'|]. split; [cbn; lia|]. split; [exact (proj1 Hn) | exact (proj2 Hn)]. }
    eapply ok_bind; [unfold tcp_flags; op|]. intros flags _. apply ok_if; intros _.
    + eapply ok_weaken; [apply (ok_handle_syn xdp _ _ G) | reflexivity|]. intros a Ha; split; [lia | now left].
    + eapply ok_weaken; [apply (ok_handle_ack _ _ G) | reflexivity|]. intros a Ha; split; [lia | now right].
Qed.

(** The body of both programs. *)
Lemma ok_body xdp : ok 0 (hdr <- syncookie_part1 xdp ;; syncookie_part2 xdp hdr) (fun _ => O) (fun r => r = XDP_TX \/ r = XDP_PASS).
Proof. eapply ok_bind; [apply ok_part1|]. intros hdr Hh. now apply ok_part2. Qed.

End Kernel.

End Proofs.

(** ** What a computation that goes on has seen *)

Lemma go_bind {A B} (m : M A) (k : A -> M B) w b w' : bind m k w = Some (inr b, w') ->
  exists a w1, m w = Some (inr a, w1) /\ k a w1 = Some (inr b, w').
Proof. unfold bind. destruct (m w) as [[[v|a] w1]|]; try discriminate. eauto. Qed.

Lemma go_load o k w b w' : load o k w = Some (inr b, w') -> w' = w /\ b = sub (pkt w) o k /\ (o + k <= length (pkt w))%nat.
Proof. unfold load, rd. destruct (Nat.leb_spec (o + k) (length (pkt w))); [|discriminate]. cbn [option_map]. intros [= <- <-]. auto. Qed.

Lemma byte_sub p o k j : (j < k)%nat -> byte (sub p o k) j = byte p (o + j).
Proof. intros H. unfold byte, sub. rewrite nth_firstn. destruct (Nat.ltb_spec j k); [|lia]. now rewrite nth_skipn. Qed.

Lemma word16_sub p o k j : (j + 1 < k)%nat -> word16 (sub p o k) j = word16 p (o + j).
Proof. intros H. unfold word16. now rewrite !byte_sub, Nat.add_assoc by lia. Qed.

Lemma word32_sub p o k j : (j + 3 < k)%nat -> word32 (sub p o k) j = word32 p (o + j).
Proof. intros H. unfold word32. now rewrite !word16_sub, Nat.add_assoc by lia. Qed.

Lemma go_ld8 o w v w' : ld8 o w = Some (inr v, w') -> w' = w /\ v = byte (pkt w) o /\ (o < length (pkt w))%nat.
Proof.
  intros (b & w1 & (-> & -> & Hl)%go_load & [= <- <-])%go_bind. rewrite byte_sub, Nat.add_0_r by lia. repeat split; lia.
Qed.

Lemma go_ld16 o w v w' : ld16 o w = Some (inr v, w') -> w' = w /\ v = word16 (pkt w) o.
Proof. intros (b & w1 & (-> & -> & Hl)%go_load & [= <- <-])%go_bind. now rewrite word16_sub, Nat.add_0_r by lia. Qed.

Lemma go_ld32 o w v w' : ld32 o w = Some (inr v, w') -> w' = w /\ v = word32 (pkt w) o.
Proof. intros (b & w1 & (-> & -> & Hl)%go_load & [= <- <-])%go_bind. now rewrite word32_sub, Nat.add_0_r by lia. Qed.

Lemma go_past {A} k v (m : M A) w a w' : (b <- past k ;; if b : bool then out v else m) w = Some (inr a, w') ->
  (k <= length (pkt w))%nat /\ m w = Some (inr a, w').
Proof.
  unfold past, get, bind. destruct (Nat.ltb_spec (length (pkt w)) k); [discriminate | auto].
Qed.

Lemma go_if {A} (b : bool) v (m : M A) w a w' : (if b then out v else m) w = Some (inr a, w') ->
  b = false /\ m w = Some (inr a, w').
Proof. destruct b; [discriminate | auto]. Qed.

Lemma go_ret {A} (a b : A) (w w' : world) : ret a w = Some (inr b, w') -> b = a /\ w' = w.
Proof. now intros [= -> ->]. Qed.

Lemma go_get {A} (f : world -> A) w b w' : get f w = Some (inr b, w') -> b = f w /\ w' = w.
Proof. now intros [= -> ->]. Qed.

Lemma go_ihl ip w v w' : ipv4_ihl ip w = Some (inr v, w') -> w' = w /\ v = byte (pkt w) ip mod 16.
Proof.
  intros (b & w1 & (-> & -> & Hl)%go_ld8 & [= <- <-])%go_bind. change 0x0f with (Z.ones 4). now rewrite Z.land_ones by lia.
Qed.

Lemma go_doff t w v w' : tcp_doff t w = Some (inr v, w') -> w' = w /\ v = byte (pkt w) (t + 12) / 16.
Proof.
  intros (b & w1 & (-> & -> & Hl)%go_ld8 & [= <- <-])%go_bind. now rewrite Z.shiftr_div_pow2 by lia.
Qed.

Lemma go_csum {K : Kernel} o k w v w' : checked (csum_diff o k) w = Some (inr v, w') -> w' = w /\ v = bpf_csum_diff (sub (pkt w) o k).
Proof.
  intros (x & w1 & (b & w2 & (-> & -> & _)%go_load & [-> ->]%go_ret)%go_bind & H)%go_bind.
  apply go_if in H as [_ [-> ->]%go_ret]. auto.
Qed.

Lemma go_tail f w a w' : move_tail f w = Some (inr a, w') -> exists p, f (pkt w) = Some p /\ w' = w <| pkt := p |>.
Proof. unfold move_tail. destruct (f (pkt w)); [|discriminate]. intros [= <- <-]. eauto. Qed.

(** Take a computation that went on apart. *)
Ltac go :=
  repeat match goal with
  | H : bind (past _) _ _ = Some (inr _, _) |- _ => apply go_past in H as [? H]
  | H : bind _ _ _ = Some (inr _, _) |- _ => apply go_bind in H as (? & ? & ? & H)
  | H : (if _ then out _ else _) _ = Some (inr _, _) |- _ => apply go_if in H as [? H]
  | H : out _ _ = Some (inr _, _) |- _ => discriminate H
  | H : ret _ _ = Some (inr _, _) |- _ => apply go_ret in H as [-> ->]
  | H : get _ _ = Some (inr _, _) |- _ => apply go_get in H as [-> ->]
  | H : ld8 _ _ = Some (inr _, _) |- _ => apply go_ld8 in H as (-> & -> & ?)
  | H : tcp_flags _ _ = Some (inr _, _) |- _ => apply go_ld8 in H as (-> & -> & ?)
  | H : ld16 _ _ = Some (inr _, _) |- _ => apply go_ld16 in H as [-> ->]
  | H : ld32 _ _ = Some (inr _, _) |- _ => apply go_ld32 in H as [-> ->]
  | H : load _ _ _ = Some (inr _, _) |- _ => apply go_load in H as (-> & -> & ?)
  | H : ipv4_ihl _ _ = Some (inr _, _) |- _ => apply go_ihl in H as [-> ->]
  | H : tcp_doff _ _ = Some (inr _, _) |- _ => apply go_doff in H as [-> ->]
  | H : checked (csum_diff _ _) _ = Some (inr _, _) |- _ => apply go_csum in H as [-> ->]
  end; bsimp.

(** Fields of records just built. *)
Ltac flds := cbn [tset set gafu_getter gafu_field_updater const eth ipv4 ipv6 tcp tcp_len pkt values allowed_ports
                  ct_refs clock] in *.

Section Seen.
Context {L : KLoop} {K : Kernel} {KO : KernelOk K}.

(** The headers found in a packet, the ones of part 1. *)
Definition found4 (p : list Z) (hdr : header_pointers) : Prop :=
  ipv4 hdr = Some ETH_SZ /\ ipv6 hdr = None /\ tcp hdr = (ETH_SZ + Z.to_nat (byte p 14 mod 16 * 4))%nat.
Definition found6 (hdr : header_pointers) : Prop :=
  ipv4 hdr = None /\ ipv6 hdr = Some ETH_SZ /\ tcp hdr = (ETH_SZ + IP6_SZ)%nat.

Definition ip4_header (p : list Z) : Prop :=
  to_be (word16 p 12) = ETH_P_IP /\ 5 <= byte p 14 mod 16 /\ byte p 14 / 16 = 4 /\ byte p 23 = IPPROTO_TCP.
Definition ip6_header (p : list Z) : Prop :=
  to_be (word16 p 12) = ETH_P_IPV6 /\ byte p 14 / 16 = 6 /\ byte p 20 = NEXTHDR_TCP.

Lemma dissect_go w hdr w' : Forall is_u8 (pkt w) -> tcp_dissect w = Some (inr hdr, w') ->
  let p := pkt w in
  w' = w /\ eth hdr = O /\ (tcp hdr + TCP_SZ <= length p)%nat /\
  tcp_len hdr = byte p (tcp hdr + 12) / 16 * 4 /\ 20 <= tcp_len hdr <= 60 /\
  (found4 p hdr /\ ip4_header p \/ found6 hdr /\ ip6_header p).
Proof.
  intros Hu H p. unfold tcp_dissect, no_headers in H. cbv zeta in H. flds. change (0 + ETH_SZ)%nat with 14%nat in H. go.
  assert (N : forall k, 0 <= byte (pkt w) k / 16 <= 15)
    by (intros k; pose proof (byte_u8 (pkt w) k Hu) as B; unfold is_u in B; Z.div_mod_to_equations; lia).
  destruct (to_be (word16 (pkt w) (0 + 12)) =? ETH_P_IP) eqn:E4; [|destruct (_ =? ETH_P_IPV6) eqn:E6]; go; unfold found4, found6; flds.
  - set (T := (14 + Z.to_nat _)%nat) in *. specialize (N (T + 12)%nat). rewrite uw_small in * by (unfold is_u; lia).
    unfold TCP_SZ, IP_SZ in *. rewrite Z.shiftr_div_pow2 in * by lia. change (2 ^ 4) with 16 in *.
    subst p. do 2 (split; [reflexivity|]). split; [lia|]. split; [reflexivity|]. split; [lia|].
    left. split; [now repeat split|]. repeat split; try assumption. lia.
  - specialize (N (14 + IP6_SZ + 12)%nat). rewrite uw_small in * by (unfold is_u; lia).
    unfold TCP_SZ in *. rewrite Z.shiftr_div_pow2 in * by lia. change (2 ^ 4) with 16 in *.
    subst p. do 2 (split; [reflexivity|]). split; [lia|]. split; [reflexivity|]. split; [lia|].
    right. split; [now repeat split|]. now repeat split.
Qed.

(** The connection is not an established one. *)
Definition unknown (xdp : bool) (tup : list Z) : Prop :=
  match ct_lookup xdp tup with
  | inl status => has status IPS_CONFIRMED = false
  | inr error => error = - ENOENT
  end.

Definition tuple4 (p : list Z) (t : nat) : list Z := sub p 26 4 ++ sub p 30 4 ++ sub p t 2 ++ sub p (t + 2) 2.
Definition tuple6 (p : list Z) (t : nat) : list Z := sub p 22 16 ++ sub p 38 16 ++ sub p t 2 ++ sub p (t + 2) 2.

Lemma lookup_go xdp hdr w u w' : tcp_lookup xdp hdr w = Some (inr u, w') -> ipv4 hdr = Some ETH_SZ \/ ipv4 hdr = None /\ ipv6 hdr = Some ETH_SZ ->
  w' = w /\
  match ipv4 hdr with
  | Some _ => Z.land (word16 (pkt w) 20) (to_be (Z.lor IP_MF IP_OFFSET)) = 0 /\ unknown xdp (tuple4 (pkt w) (tcp hdr))
  | None => unknown xdp (tuple6 (pkt w) (tcp hdr))
  end.
Proof.
  unfold tcp_lookup. intros H Hh. apply go_bind in H as (tup & w1 & Ht & H).
  assert (T : w1 = w /\ match ipv4 hdr with
                        | Some _ => Z.land (word16 (pkt w) 20) (to_be (Z.lor IP_MF IP_OFFSET)) = 0 /\ tup = tuple4 (pkt w) (tcp hdr)
                        | None => tup = tuple6 (pkt w) (tcp hdr)
                        end).
  { unfold ct_tuple in Ht. destruct Hh as [E4|[E4 E6]]; rewrite E4, ?E6 in *; go; now repeat split. }
  destruct T as [-> T].
  assert (C : w' = w /\ unknown xdp tup).
  { unfold unknown. clear T. apply go_bind in H as (ct & w1 & Hc & H). unfold bpf_ct_lookup in Hc.
    destruct (ct_lookup xdp tup) as [status|error]; injection Hc as <- <-.
    - apply go_bind in H as ([] & w1 & Hr & H). injection Hr as <-. apply go_if in H as [H1 [-> ->]%go_ret]. split; [|exact H1].
      destruct w as [a b c r d]. change ({| pkt := a; values := b; allowed_ports := c; ct_refs := -1 + (1 + r); clock := d |} =
        {| pkt := a; values := b; allowed_ports := c; ct_refs := r; clock := d |}). f_equal. lia.
    - go. now split. }
  destruct C as [-> C]. split; [reflexivity|]. destruct (ipv4 hdr); [destruct T as [T1 ->]; now split | now subst].
Qed.

(** The packet with its tail moved: what was there stays. *)
Definition regrown (p p' : list Z) (len : Z) : Prop :=
  Z.of_nat (length p') = len /\ same_prefix p p' /\ Forall is_u8 p'.

Lemma tail_regrown (xdp : bool) p d n p' : Forall is_u8 p -> n = Z.of_nat (length p) + d -> - 2 ^ 31 <= d < 2 ^ 31 ->
  (if xdp then bpf_xdp_adjust_tail p d else bpf_skb_change_tail p n) = Some p' -> regrown p p' n.
Proof.
  intros Hp -> Hd E. destruct xdp; [now apply (adjust_tail_ok p d p')|].
  destruct (change_tail_ok p _ p' Hp E) as (Hl & Hs & Hu). split; [apply Hl; lia | now split].
Qed.

Lemma part1_go xdp w hdr w' : Forall is_u8 (pkt w) -> Z.of_nat (length (pkt w)) <= MAX_PACKET_OFF ->
  syncookie_part1 xdp w = Some (inr hdr, w') ->
  let p := pkt w in
  exists p', w' = w <| pkt := p' |> /\ regrown p p' (Z.of_nat (length p) + 60 - tcp_len hdr) /\
  eth hdr = O /\ (tcp hdr + TCP_SZ <= length p)%nat /\
  tcp_len hdr = byte p (tcp hdr + 12) / 16 * 4 /\ 20 <= tcp_len hdr <= 60 /\
  Z.lxor (Z.shiftr (Z.land (byte p (tcp hdr + 13)) TCPF_SYN) 1) (Z.shiftr (Z.land (byte p (tcp hdr + 13)) TCPF_ACK) 4) = 1 /\
  (found4 p hdr /\ ip4_header p /\ Z.land (word16 p 20) (to_be (Z.lor IP_MF IP_OFFSET)) = 0 /\ unknown xdp (tuple4 p (tcp hdr)) \/
   found6 hdr /\ ip6_header p /\ unknown xdp (tuple6 p (tcp hdr))).
Proof.
  intros Hu Hl H p. unfold syncookie_part1 in H. apply go_bind in H as (hdr' & w1 & Hd & H).
  destruct (dissect_go w hdr' w1 Hu Hd) as (-> & He & Ht & Hlen & Hr & Hf). apply go_bind in H as (u & w1 & Hk & H).
  assert (Hi : ipv4 hdr' = Some ETH_SZ \/ ipv4 hdr' = None /\ ipv6 hdr' = Some ETH_SZ)
    by (destruct Hf as [[(? & ? & ?) _]|[(? & ? & ?) _]]; auto).
  destruct (lookup_go _ _ _ _ _ Hk Hi) as [-> Hc]. go.
  match goal with H : move_tail _ _ = _ |- _ => apply go_tail in H as (p' & Hp' & ->) end.
  exists p'. split; [reflexivity|]. unfold MAX_PACKET_OFF, TCP_MAXLEN in *.
  split; [apply (tail_regrown xdp _ (60 - tcp_len hdr')); [exact Hu | lia | lia |]|].
  { rewrite (uw_small 64), (uw_small 32) in Hp' by (unfold is_u; lia). exact Hp'. }
  do 5 (split; [assumption || lia|]).
  destruct Hf as [[F G]|[F G]]; pose proof F as (E4 & _); rewrite E4 in Hc; [left | right]; tauto.
Qed.

(** The time stamp of the answer, cookie and echo, as numbers. *)
Definition ts_answer (w : world) (tcp : nat) : option (Z * Z) :=
  match parse_options (pkt w) (first_context tcp) with
  | Some ctx =>
      if option_timestamp ctx
      then Some (ts_cookie (tcp_ns_to_ts (bpf_ktime_get_ns (clock w))) ctx (byte (pkt w) (tcp + 13)), to_be32 (tsecr ctx))
      else None
  | None => None
  end.

Definition words (ts : option (Z * Z)) : option (Z * Z) := option_map (fun x => (to_be32 (fst x), to_be32 (snd x))) ts.

Lemma ts_cookie_u32 ms ctx flags : is_u32 ms -> 0 <= wscale ctx < 16 -> is_u32 (ts_cookie ms ctx flags).
Proof.
  intros Hm Hw. rewrite ts_cookie_eq by assumption. unfold is_u in *. change (2 ^ 32) with 4294967296 in *.
  assert (0 <= ms / 64 <= 67108863) by (Z.div_mod_to_equations; lia).
  destruct (_ && _), (option_sack ctx); lia.
Qed.

Lemma ts_answer_u32 w tcp : Forall is_u8 (pkt w) ->
  match ts_answer w tcp with Some (c, v) => is_u32 c /\ is_u32 v | None => True end.
Proof.
  intros Hu. unfold ts_answer. destruct (parse_options_in (pkt w) _ Hu (first_context_ok tcp)) as (ctx & -> & Ho & Hw & Ht).
  destruct (option_timestamp ctx); [|exact I]. split; [apply ts_cookie_u32; [apply u32_range | exact Hw] | now apply to_be32_u32].
Qed.

Lemma init_go tcp len w r w' : Forall is_u8 (pkt w) -> tscookie_init tcp len w = Some (inr r, w') ->
  r = words (ts_answer w tcp) /\ exists n, w' = w <| clock := n |>.
Proof.
  intros Hu H. unfold tscookie_init in H. apply go_bind in H as (ctx & w1 & Hc & H).
  destruct (parse_options_in (pkt w) _ Hu (first_context_ok tcp)) as (ctx' & Ep & Ho & Hw & Ht).
  rewrite Ep in Hc. injection Hc as <- <-. unfold ts_answer. rewrite Ep.
  destruct (option_timestamp ctx'); cbn [negb] in H.
  - apply go_bind in H as (ms & w1 & Hm & H). unfold tcp_clock_ms, tcp_clock_ns, ktime in Hm.
    change (Some (inr (tcp_ns_to_ts (bpf_ktime_get_ns (clock w))) : Z + Z, w <| clock := S (clock w) |>) = Some (inr ms, w1)) in Hm.
    injection Hm as <- <-. go. cbn [words option_map fst snd]. rewrite to_be32_to_be32 by exact Ht.
    split; [reflexivity | now eexists].
  - apply go_ret in H as [-> ->]. split; [reflexivity|]. exists (clock w). now destruct w.
Qed.

(** The rest of the SYN handler, once the answer is decided. *)
Definition send_synack (xdp : bool) (ip_len : nat) (hdr : header_pointers) (cookie : Z) (tsopt : option (Z * Z)) : M Z :=
  hdr <- gen_synack hdr cookie tsopt ;;
  fill_checksums hdr ;;
  old_pkt_size <- get (fun w => u32 (Z.of_nat (length (pkt w)))) ;;
  doff <- tcp_doff (tcp hdr) ;;
  let new_pkt_size := u32 (Z.of_nat (ETH_SZ + ip_len) + doff * 4) in
  set_size xdp old_pkt_size new_pkt_size ;;
  values_inc_synacks ;;
  ret XDP_TX.

Lemma syn_checksums_go hdr w r w1 : syn_checksums hdr w = Some (inr r, w1) ->
  let p := pkt w in let len := Z.to_nat (tcp_len hdr) in
  w1 = w /\
  match ipv4 hdr with
  | Some ip =>
      let ihl := Z.to_nat (byte p ip mod 16 * 4) in
      csum_fold (u32 (bpf_csum_diff (sub p ip ihl))) = 0 /\
      csum_tcpudp_magic (word32 p (ip + 12)) (word32 p (ip + 16)) (tcp_len hdr) IPPROTO_TCP
        (u32 (bpf_csum_diff (sub p (tcp hdr) len))) = 0 /\
      r = (IP_SZ, bpf_tcp_raw_gen_syncookie_ipv4 (sub p ip IP_SZ) (sub p (tcp hdr) len))
  | None =>
      exists ip, ipv6 hdr = Some ip /\
      csum_ipv6_magic (words32 (sub p (ip + 8) 16) 0 4) (words32 (sub p (ip + 24) 16) 0 4) (tcp_len hdr) IPPROTO_TCP
        (u32 (bpf_csum_diff (sub p (tcp hdr) len))) = 0 /\
      r = (IP6_SZ, bpf_tcp_raw_gen_syncookie_ipv6 (sub p ip IP6_SZ) (sub p (tcp hdr) len))
  end.
Proof.
  intros H p len. unfold syn_checksums, tcpv4_magic, tcpv6_magic in H.
  destruct (ipv4 hdr) as [ip|]; [|destruct (ipv6 hdr) as [ip|]]; go.
  - subst p len. now repeat split.
  - subst p len. split; [reflexivity|]. exists ip. now repeat split.
Qed.

Lemma part2_go xdp hdr w w' : Forall is_u8 (pkt w) -> headers hdr -> syncookie_part2 xdp hdr w = Some (inr XDP_TX, w') ->
  let p := pkt w in
  let t := match ipv4 hdr with Some _ => (ETH_SZ + Z.to_nat (byte p 14 mod 16 * 4))%nat | None => (ETH_SZ + IP6_SZ)%nat end in
  let hdr' := {| eth := O; ipv4 := ipv4 hdr; ipv6 := ipv6 hdr; tcp := t; tcp_len := byte p (t + 12) / 16 * 4 |} in
  exists ip_len value w2,
    (t + TCP_MAXLEN <= length p)%nat /\ 20 <= tcp_len hdr' /\
    has (byte p (t + 13)) TCPF_SYN = true /\ has (byte p (t + 13)) (Z.lor TCPF_FIN TCPF_RST) = false /\
    port_allowed (allowed_ports w) (to_be (word16 p (t + 2))) MAX_ALLOWED_PORTS 0 = true /\
    syn_checksums hdr' w = Some (inr (ip_len, value), w) /\ (ETH_SZ + ip_len + TCP_MAXLEN <= length p)%nat /\
    (exists n, w2 = w <| clock := n |>) /\
    send_synack xdp ip_len hdr' (u32 value) (words (ts_answer w t)) w2 = Some (inr XDP_TX, w').
Proof.
  intros Hu (He & Hh) H p t hdr'. unfold syncookie_part2 in H. apply go_bind in H as (h1 & w1 & H1 & H).
  assert (E : w1 = w /\ h1 = {| eth := O; ipv4 := ipv4 hdr; ipv6 := ipv6 hdr; tcp := t; tcp_len := tcp_len hdr |}).
  { clear H. subst t p. destruct hdr as [e i4 i6 tc l]. cbv zeta in H1. flds. subst e.
    destruct Hh as [[E4 E6]|(E4 & E6 & E)]; rewrite E4, E6 in *; go; now split. }
  destruct E as [-> ->]. go. flds.
  assert (N : 0 <= byte (pkt w) (t + 12) / 16 <= 15)
    by (pose proof (byte_u8 (pkt w) (t + 12) Hu) as B; unfold is_u in B; Z.div_mod_to_equations; lia).
  rewrite uw_small in * by (unfold is_u; lia). fold hdr' in H. fold p in H, H0.
  destruct (has (byte p (t + 13)) TCPF_SYN) eqn:Hs.
  2: { unfold syncookie_handle_ack in H. apply go_bind in H as (f & w1 & Hf & H). apply go_if in H as [_ H].
       apply go_bind in H as (err & w2 & _ & H). apply go_if in H as [_ H]. now apply go_ret in H as [H _]. }
  unfold syncookie_handle_syn in H. cbn [tcp tcp_len] in H. apply go_bind in H as (f & w1 & (-> & -> & _)%go_ld8 & H).
  apply go_if in H as [Hfr H]. apply go_bind in H as (d & w1 & (-> & ->)%go_ld16 & H).
  unfold check_port_allowed in H. apply go_bind in H as (al & w1 & [-> ->]%go_get & H). apply go_if in H as [Hport H].
  apply go_bind in H as ([ip_len value] & w1 & Hc & H). apply go_if in H as [Hv H].
  pose proof (syn_checksums_go _ _ _ _ Hc) as (-> & _).
  cbv zeta in H. apply go_bind in H as (tsopt & w2 & Ht & H). apply init_go in Ht as (-> & n & ->); [|exact Hu].
  apply go_past in H as [Hroom H].
  exists ip_len, value, (w <| clock := n |>). apply negb_false_iff in Hport.
  unfold TCP_SZ in *. split; [assumption|]. split; [cbn; subst p; lia|]. do 3 (split; [assumption || reflexivity|]).
  split; [exact Hc|]. split; [exact Hroom|]. split; [now exists n | exact H].
Qed.

End Seen.

End Synproxy.
