(* ===== verification/Synack.v ===== *)
(** The answer of the SYN proxy, byte by byte: what the programs of
    progs/xdp_synproxy_kern.rs write over a SYN they accept, on the model of
    XdpSynproxy.v, and that its checksums are right. *)

From S2P Require Import Prelude Kernel Early Packet XdpSynproxy.
Local Open Scope early_scope.

Module Synack.

Import Synproxy.

(** ** The specification *)

(** The options of the answer: [ts] is the time stamp, cookie and echo. *)
Definition synack_options (ts : option (Z * Z)) (mss ws : Z) : list tcpopt :=
  Other TCPOPT_MSS (be16 mss) ::
  match ts with
  | None => []
  | Some (cookie, echo) =>
      (if Z.testbit cookie 4 then [SackPerm] else [Nop; Nop]) ++ [Timestamp cookie echo] ++
      (if cookie mod 16 =? 15 then [] else [Nop; WScale ws])
  end.

(** SYN and ACK, with ECE where the cookie says that ECN was offered. *)
Definition synack_flags (ts : option (Z * Z)) : Z :=
  match ts with
  | Some (cookie, _) => if Z.testbit cookie 5 then 0x52 else 0x12
  | None => 0x12
  end.

Definition tcp_header (dport sport : list Z) (seq ack words flags : Z) (ck : list Z) : list Z :=
  dport ++ sport ++ be32 seq ++ be32 ack ++ [16 * words; flags; 0; 0] ++ ck ++ [0; 0].

Definition seq_of (t : list Z) : Z := to_be32 (word32 t 4).

Definition words_of (ts : option (Z * Z)) (mss ws : Z) : Z :=
  5 + Z.of_nat (length (encode_all (synack_options ts mss ws))) / 4.

(** The answer to the TCP header [t]. *)
Definition synack_header (t : list Z) (cookie : Z) (ts : option (Z * Z)) (mss ws : Z) (ck : list Z) : list Z :=
  tcp_header (sub t 2 2) (sub t 0 2) cookie (u32 (seq_of t + 1)) (words_of ts mss ws) (synack_flags ts) ck.

(** The answers to the Ethernet header [e] and the IP headers [i], for a
    segment of [len] bytes. *)
Definition synack_eth (e : list Z) : list Z := sub e 6 6 ++ sub e 0 6 ++ sub e 12 2.
Definition synack_ip4 (i : list Z) (ttl len : Z) (ck : list Z) : list Z :=
  [0x45; 0] ++ be16 (20 + len) ++ [0; 0] ++ sub i 6 2 ++ [ttl; IPPROTO_TCP] ++ ck ++ sub i 16 4 ++ sub i 12 4.
Definition synack_ip6 (i : list Z) (ttl len : Z) : list Z :=
  [0x60; 0; 0; 0] ++ be16 len ++ [NEXTHDR_TCP; ttl] ++ sub i 24 16 ++ sub i 8 16.

(** The segment length, maximum segment size, window scale and hop limit of the
    answers: from the word user space sets, or the defaults. *)
Definition tcpip_opts (vals : list Z) (ipv6 : bool) : Z * Z * Z :=
  let v := hd 0 vals in
  if v =? 0 then (if ipv6 then DEFAULT_MSS6 else DEFAULT_MSS4, DEFAULT_WSCALE, DEFAULT_TTL)
  else (v / (if ipv6 then 2 ^ 32 else 1) mod 2 ^ 16, v / 2 ^ 16 mod 16, v / 2 ^ 24 mod 256).

(** ** Stores and loads in the parts of a packet *)

Definition pk (e i t o r : list Z) : list Z := e ++ i ++ t ++ o ++ r.
Definition on (w : world) (p : list Z) : world := w <| pkt := p |>.

Lemma store_at pre h post w n k bs : n = (length pre + k)%nat -> (k + length bs <= length h)%nat ->
  store n bs (on w (pre ++ h ++ post)) = Some (inr tt, on w (pre ++ put h k bs ++ post)).
Proof.
  intros -> Hk. unfold store. change (pkt (on w (pre ++ h ++ post))) with (pre ++ h ++ post).
  rewrite !length_app. destruct (Nat.leb_spec (length pre + k + length bs) (length pre + (length h + length post))); [|lia].
  now rewrite put_in by exact Hk.
Qed.

Lemma sub_in pre h post k n : (k + n <= length h)%nat -> sub (pre ++ h ++ post) (length pre + k) n = sub h k n.
Proof.
  intros Hk. unfold sub. rewrite skipn_app, (skipn_all2 pre) by lia.
  replace (length pre + k - length pre)%nat with k by lia. cbn [app]. rewrite skipn_app, firstn_app.
  replace (n - length (skipn k h))%nat with O by (rewrite length_skipn; lia). now rewrite firstn_O, app_nil_r.
Qed.

Lemma load_at pre h post w m k n : m = (length pre + k)%nat -> (k + n <= length h)%nat ->
  load m n (on w (pre ++ h ++ post)) = Some (inr (sub h k n), on w (pre ++ h ++ post)).
Proof.
  intros -> Hk. unfold load. change (pkt (on w (pre ++ h ++ post))) with (pre ++ h ++ post).
  rewrite rd_in, sub_in by (rewrite ?length_app; lia). reflexivity.
Qed.

Section Parts.
Variable w : world.

Lemma store_e e i t o r n bs : (n + length bs <= length e)%nat ->
  store n bs (on w (pk e i t o r)) = Some (inr tt, on w (pk (put e n bs) i t o r)).
Proof. intros H. now apply (store_at []). Qed.

Lemma store_i e i t o r n k bs : n = (length e + k)%nat -> (k + length bs <= length i)%nat ->
  store n bs (on w (pk e i t o r)) = Some (inr tt, on w (pk e (put i k bs) t o r)).
Proof. apply store_at. Qed.

Lemma store_t e i t o r n k bs : n = (length e + length i + k)%nat -> (k + length bs <= length t)%nat ->
  store n bs (on w (pk e i t o r)) = Some (inr tt, on w (pk e i (put t k bs) o r)).
Proof. unfold pk. intros. rewrite !(app_assoc e i). apply store_at; [now rewrite length_app | assumption]. Qed.

Lemma store_o e i t o r n k bs : n = (length e + length i + length t + k)%nat -> (k + length bs <= length o)%nat ->
  store n bs (on w (pk e i t o r)) = Some (inr tt, on w (pk e i t (put o k bs) r)).
Proof.
  unfold pk. intros. rewrite !(app_assoc e i), !(app_assoc (e ++ i) t). apply store_at; [rewrite !length_app; lia | assumption].
Qed.

Lemma load_e e i t o r n m : (n + m <= length e)%nat ->
  load n m (on w (pk e i t o r)) = Some (inr (sub e n m), on w (pk e i t o r)).
Proof. intros H. now apply (load_at []). Qed.

Lemma load_i e i t o r n k m : n = (length e + k)%nat -> (k + m <= length i)%nat ->
  load n m (on w (pk e i t o r)) = Some (inr (sub i k m), on w (pk e i t o r)).
Proof. apply load_at. Qed.

Lemma load_t e i t o r n k m : n = (length e + length i + k)%nat -> (k + m <= length t)%nat ->
  load n m (on w (pk e i t o r)) = Some (inr (sub t k m), on w (pk e i t o r)).
Proof. unfold pk. intros. rewrite !(app_assoc e i). apply load_at; [now rewrite length_app | assumption]. Qed.

Lemma ld8_t e i t o r n k : n = (length e + length i + k)%nat -> (k + 1 <= length t)%nat ->
  ld8 n (on w (pk e i t o r)) = Some (inr (byte t k), on w (pk e i t o r)).
Proof.
  intros Hn Hk. unfold ld8. rewrite (bind_inr _ _ _ _ _ (load_t e i t o r n k 1 Hn Hk)). unfold ret.
  now rewrite byte_sub, Nat.add_0_r by lia.
Qed.

Lemma ld32_t e i t o r n k : n = (length e + length i + k)%nat -> (k + 4 <= length t)%nat ->
  ld32 n (on w (pk e i t o r)) = Some (inr (word32 t k), on w (pk e i t o r)).
Proof.
  intros Hn Hk. unfold ld32. rewrite (bind_inr _ _ _ _ _ (load_t e i t o r n k 4 Hn Hk)). unfold ret.
  now rewrite word32_sub, Nat.add_0_r by lia.
Qed.

Lemma ld8_i e i t o r n k : n = (length e + k)%nat -> (k + 1 <= length i)%nat ->
  ld8 n (on w (pk e i t o r)) = Some (inr (byte i k), on w (pk e i t o r)).
Proof.
  intros Hn Hk. unfold ld8. rewrite (bind_inr _ _ _ _ _ (load_i e i t o r n k 1 Hn Hk)). unfold ret.
  now rewrite byte_sub, Nat.add_0_r by lia.
Qed.

Lemma ld32_i e i t o r n k : n = (length e + k)%nat -> (k + 4 <= length i)%nat ->
  ld32 n (on w (pk e i t o r)) = Some (inr (word32 i k), on w (pk e i t o r)).
Proof.
  intros Hn Hk. unfold ld32. rewrite (bind_inr _ _ _ _ _ (load_i e i t o r n k 4 Hn Hk)). unfold ret.
  now rewrite word32_sub, Nat.add_0_r by lia.
Qed.

End Parts.

(** One access at the head of a computation: [at_t 12] is a store to byte 12 of
    the TCP header. *)
Ltac norm := cbn [put sub firstn skipn app length Nat.add byte nth encode_all flat_map encode be32 be16].
Ltac in_part := first [reflexivity | cbn [length app encode_all flat_map encode be32 be16 bytes16] in *; lia].
Ltac at_t k := erewrite bind_inr; [|apply (store_t _ _ _ _ _ _ _ k); in_part]; norm.
Ltac at_o k := erewrite bind_inr; [|apply (store_o _ _ _ _ _ _ _ k); in_part]; norm.
Ltac get_t k := erewrite bind_inr; [|apply (load_t _ _ _ _ _ _ _ k); in_part]; norm.
Tactic Notation "by_step" uconstr(L) := erewrite bind_inr; [|apply L; in_part]; norm.

(** The masks of the cookie, in network order. *)
Lemma has_be32 c k : is_u32 c -> 0 <= k < 32 -> has (to_be32 c) (to_be32 (2 ^ k)) = Z.testbit c k.
Proof.
  intros Hc Hk. assert (Hm : is_u32 (2 ^ k)) by (unfold is_u; split; [lia | apply Z.pow_lt_mono_r; lia]).
  unfold has. rewrite land_to_be32 by assumption. change 0 with (to_be32 0).
  rewrite to_be32_eqb by (easy || now apply is_u_land). rewrite land_bit by lia. apply negb_involutive.
Qed.

Lemma wscale_mask c : is_u32 c -> (Z.land (to_be32 c) (to_be32 0xf) =? to_be32 0xf) = (c mod 16 =? 15).
Proof.
  intros Hc. rewrite land_to_be32 by easy. rewrite to_be32_eqb by (easy || now apply is_u_land).
  change 0xf with (Z.ones 4). now rewrite Z.land_ones by lia.
Qed.

Definition ts_u32 (ts : option (Z * Z)) : Prop :=
  match ts with Some (c, v) => is_u32 c /\ is_u32 v | None => True end.

Lemma options_length ts mss ws :
  exists n, length (encode_all (synack_options ts mss ws)) = (4 * n)%nat /\ (1 <= n <= 5)%nat.
Proof.
  destruct ts as [[c v]|]; [|now exists 1%nat; split; [|lia]].
  unfold synack_options. destruct (Z.testbit c 4), (c mod 16 =? 15); [exists 4%nat | exists 5%nat | exists 4%nat | exists 5%nat]; split; (reflexivity || lia).
Qed.

(** The words the options are made of. *)
Lemma be32_add h l : 0 <= h < 65536 -> 0 <= l < 65536 -> be32 (65536 * h + l) = be16 h ++ be16 l.
Proof.
  intros Hh Hl. unfold be32. replace ((65536 * h + l) / 65536) with h by (Z.div_mod_to_equations; lia).
  replace ((65536 * h + l) mod 65536) with l by (Z.div_mod_to_equations; lia). reflexivity.
Qed.

Lemma mss_word mss : is_u16 mss ->
  bytes32 (to_be32 (Z.lor (Z.lor (shl 32 TCPOPT_MSS 24) (shl 32 TCPOLEN_MSS 16)) mss)) = encode (Other TCPOPT_MSS (be16 mss)).
Proof.
  intros Hm. change (Z.lor (shl 32 TCPOPT_MSS 24) (shl 32 TCPOLEN_MSS 16)) with (2 ^ 16 * 0x0204).
  unfold is_u in Hm. rewrite lor_add by lia. change (2 ^ 16) with 65536 in *.
  rewrite bytes32_to_be32, be32_add by (unfold is_u; lia). reflexivity.
Qed.

Lemma wscale_word ws : is_u8 ws ->
  bytes32 (to_be32 (Z.lor (Z.lor (Z.lor (shl 32 TCPOPT_NOP 24) (shl 32 TCPOPT_WINDOW 16)) (shl 32 TCPOLEN_WINDOW 8)) ws)) =
  encode_all [Nop; WScale ws].
Proof.
  intros Hw. change (Z.lor (Z.lor (shl 32 TCPOPT_NOP 24) (shl 32 TCPOPT_WINDOW 16)) (shl 32 TCPOLEN_WINDOW 8)) with (2 ^ 8 * 0x010303).
  unfold is_u in Hw. rewrite lor_add by lia. change (2 ^ 8 * 0x010303 + ws) with (65536 * 0x0103 + 0x0300 + ws).
  rewrite <- Z.add_assoc, bytes32_to_be32, be32_add by (unfold is_u; lia). cbn [encode_all flat_map encode app be16].
  change (259 / 256) with 1. change (259 mod 256) with 3. do 2 f_equal. unfold be16. f_equal; [|f_equal]; Z.div_mod_to_equations; lia.
Qed.

Lemma mkoptions_run w e i t o r buf ts mss ws : buf = (length e + length i + length t)%nat -> length o = 20%nat ->
  ts_u32 ts -> is_u16 mss -> is_u8 ws ->
  let opts := encode_all (synack_options ts mss ws) in
  tcp_mkoptions buf (words ts) mss ws (on w (pk e i t o r)) =
    Some (inr (Z.of_nat (length opts) / 4), on w (pk e i t (opts ++ skipn (length opts) o) r)).
Proof.
  intros -> Ho Hts Hm Hw opts. unfold tcp_mkoptions, st32. rewrite mss_word by exact Hm. explode o.
  change (encode (Other TCPOPT_MSS (be16 mss))) with [2; 4; mss / 256; mss mod 256].
  subst opts. destruct ts as [[c v]|]; [|at_o 0%nat; reflexivity]. destruct Hts as [Hc Hv].
  unfold words, option_map, fst, snd. change (shl 32 1 4) with (2 ^ 4). rewrite has_be32, wscale_mask by (exact Hc || lia).
  rewrite wscale_word, !(bytes32_to_be32 c), !(bytes32_to_be32 v) by assumption. unfold synack_options.
  destruct (Z.testbit c 4);
    match goal with |- context [store _ (bytes32 ?x)] => let l := eval vm_compute in (bytes32 x) in change (bytes32 x) with l end;
    destruct (c mod 16 =? 15); cbn [negb]; at_o 0%nat; at_o 4%nat; at_o 8%nat; at_o 12%nat; try at_o 16%nat; reflexivity.
Qed.

Lemma ece_run w e i t o r ts : ts_u32 ts -> length t = 20%nat ->
  let f := (length e + length i + 12)%nat in
  when (match words ts with Some (tsval, _) => has tsval (to_be32 (shl 32 1 5)) | None => false end)
    (v <- ld32 f ;; st32 f (Z.lor v TCP_FLAG_ECE)) (on w (pk e i (put t 12 [0; 0x12; 0; 0]) o r)) =
  Some (inr tt, on w (pk e i (put t 12 [0; synack_flags ts; 0; 0]) o r)).
Proof.
  intros Hts Ht f. subst f. destruct ts as [[c v]|]; [|reflexivity]. unfold words, option_map, fst, snd, synack_flags.
  change (shl 32 1 5) with (2 ^ 5). rewrite has_be32 by (apply Hts || lia). destruct (Z.testbit c 5); [|reflexivity].
  unfold when. explode t. norm. by_step (ld32_t w _ _ _ _ _ _ 12). unfold st32.
  rewrite (store_t _ _ _ _ _ _ _ 12) by (reflexivity || (cbn; lia)). reflexivity.
Qed.

Lemma gen_tcp_run w e i t o r tcp cookie ts mss ws : tcp = (length e + length i)%nat -> length t = 20%nat -> length o = 20%nat ->
  Forall is_u8 t -> is_u32 cookie -> ts_u32 ts -> is_u16 mss -> is_u8 ws ->
  let opts := encode_all (synack_options ts mss ws) in
  tcp_gen_synack tcp cookie (words ts) mss ws (on w (pk e i t o r)) =
    Some (inr tt, on w (pk e i (synack_header t cookie ts mss ws [0; 0]) (opts ++ skipn (length opts) o) r)).
Proof.
  intros -> Lt Lo Hu Hc Hts Hm Hw opts. pose proof (word32_range t 4 Hu) as Hseq.
  unfold synack_header, seq_of. set (seq := word32 t 4) in *. assert (Es : seq = word32 t 4) by reflexivity. clearbody seq.
  unfold tcp_gen_synack, tcp_flag_word, tcp_set_doff, tcp_doff, st32, st16, st8.
  change (bytes32 (Z.lor TCP_FLAG_SYN TCP_FLAG_ACK)) with [0; 0x12; 0; 0].
  erewrite bind_inr; [|apply (store_t _ _ _ _ _ _ _ 12); [reflexivity | cbn [length]; lia]].
  erewrite bind_inr; [|exact (ece_run w e i t o r ts Hts Lt)]. explode t. norm.
  rewrite bind_assoc. by_step (ld8_t w _ _ _ _ _ _ 12). at_t 12%nat.
  change (Z.lor (Z.land 0 15) (shl 8 5 4)) with 80.
  get_t 0%nat. get_t 2%nat. at_t 0%nat. at_t 2%nat. by_step (ld32_t w _ _ _ _ _ _ 4).
  match goal with |- context [word32 ?l 4] => replace (word32 l 4) with seq by (rewrite Es; reflexivity) end.
  rewrite !bytes32_to_be32 by (exact Hc || apply u32_range). change (bytes16 0) with [0; 0].
  at_t 8%nat. at_t 4%nat. at_t 14%nat. at_t 18%nat. at_t 16%nat.
  erewrite bind_inr; [|apply (mkoptions_run w _ _ _ _ _ _ ts mss ws); first [reflexivity | assumption]].
  fold opts. rewrite bind_assoc. by_step (ld8_t w _ _ _ _ _ _ 12). unfold bind at 1, ret at 1.
  by_step (ld8_t w _ _ _ _ _ _ 12). rewrite (store_t _ _ _ _ _ _ _ 12) by (reflexivity || (cbn; lia)).
  assert (D : Z.lor (Z.land 80 15) (shl 8 (u8 (Z.shiftr 80 4 + Z.of_nat (length opts) / 4)) 4) = 16 * words_of ts mss ws).
  { unfold words_of. fold opts. destruct (options_length ts mss ws) as (n & En & Hn). fold opts in En. rewrite En.
    destruct n as [|[|[|[|[|[|n]]]]]]; try reflexivity; lia. }
  rewrite D. reflexivity.
Qed.

Lemma opts_run w v6 : Forall is_u64 (values w) ->
  values_get_tcpipopts v6 w = Some (inr (tcpip_opts (values w) v6), w) /\
  let '(mss, ws, ttl) := tcpip_opts (values w) v6 in is_u16 mss /\ is_u8 ws /\ is_u8 ttl.
Proof.
  intros Hv. unfold values_get_tcpipopts, tcpip_opts, bind, get, ret.
  assert (D : let '(mss, ws, ttl) := (if v6 then DEFAULT_MSS6 else DEFAULT_MSS4, DEFAULT_WSCALE, DEFAULT_TTL) in
              is_u16 mss /\ is_u8 ws /\ is_u8 ttl) by (destruct v6; easy).
  destruct (values w) as [|v l]; cbn [nth_error hd]; [split; [destruct v6; reflexivity | exact D]|].
  apply Forall_cons_iff in Hv as [Hv _]. destruct (v =? 0); cbn [negb]; [split; [destruct v6; reflexivity | exact D]|].
  unfold shr. change 0xf with (Z.ones 4). rewrite Z.land_ones, !shiftr_div by lia. unfold is_u in *.
  assert (E : u8 (v / 2 ^ 16 mod 2 ^ 4) = v / 2 ^ 16 mod 16)
    by (apply uw_small; unfold is_u; change (2 ^ 4) with 16; Z.div_mod_to_equations; lia).
  rewrite E. split.
  - unfold uw. destruct v6; rewrite ?Z.div_1_r; reflexivity.
  - change (2 ^ 8) with 256. repeat split; try apply Z.mod_pos_bound; try lia. Z.div_mod_to_equations; lia.
Qed.

Ltac at_e k := erewrite bind_inr; [|apply (store_e _ _ _ _ _ _ k); in_part]; norm.
Ltac get_e k := erewrite bind_inr; [|apply (load_e _ _ _ _ _ _ k); in_part]; norm.
Ltac at_i k := erewrite bind_inr; [|apply (store_i _ _ _ _ _ _ _ k); in_part]; norm.
Ltac get_i k := erewrite bind_inr; [|apply (load_i _ _ _ _ _ _ _ k); in_part]; norm.

Lemma swap_run w e i t o r : length e = 14%nat ->
  swap_eth_addr 6 0 (on w (pk e i t o r)) = Some (inr tt, on w (pk (synack_eth e) i t o r)).
Proof.
  intros He. explode e. unfold swap_eth_addr, vswap8. cbn [vswap Nat.add].
  do 6 (erewrite bind_inr; [|apply load_e; cbn; lia]; norm; erewrite bind_inr; [|apply load_e; cbn; lia]; norm;
        erewrite bind_inr; [|apply store_e; cbn; lia]; norm; erewrite bind_inr; [|apply store_e; cbn; lia]; norm).
  reflexivity.
Qed.

Lemma swap6_run w e i t o r : length e = 14%nat -> length i = 40%nat ->
  vswap32 (14 + 8) (14 + 24) 4 (on w (pk e i t o r)) =
    Some (inr tt, on w (pk e (sub i 0 8 ++ sub i 24 16 ++ sub i 8 16) t o r)).
Proof.
  intros He Hi. unfold vswap32. cbn [vswap Nat.add]. explode i.
  get_i 8%nat. get_i 24%nat. at_i 8%nat. at_i 24%nat. get_i 12%nat. get_i 28%nat. at_i 12%nat. at_i 28%nat.
  get_i 16%nat. get_i 32%nat. at_i 16%nat. at_i 32%nat. get_i 20%nat. get_i 36%nat. at_i 20%nat. at_i 36%nat. reflexivity.
Qed.

Lemma synack_eth_length e : length e = 14%nat -> length (synack_eth e) = 14%nat.
Proof. intros He. now explode e. Qed.

Lemma header_length t cookie ts mss ws ck : length t = 20%nat -> length ck = 2%nat ->
  length (synack_header t cookie ts mss ws ck) = 20%nat.
Proof. intros Ht Hc. explode t. now explode ck. Qed.

Definition reply_len (ts : option (Z * Z)) (mss ws : Z) : Z := 20 + Z.of_nat (length (encode_all (synack_options ts mss ws))).

Lemma words_len ts mss ws : 4 * words_of ts mss ws = reply_len ts mss ws /\ 24 <= reply_len ts mss ws <= 40.
Proof.
  unfold words_of, reply_len. destruct (options_length ts mss ws) as (n & -> & Hn).
  rewrite Nat2Z.inj_mul. change (Z.of_nat 4) with 4. Z.div_mod_to_equations; lia.
Qed.

(** The header length of the answer, as it is read back. *)
Lemma doff_run w e i t o r tcp cookie ts mss ws ck : tcp = (length e + length i)%nat -> length t = 20%nat -> length ck = 2%nat ->
  tcp_doff tcp (on w (pk e i (synack_header t cookie ts mss ws ck) o r)) =
    Some (inr (words_of ts mss ws), on w (pk e i (synack_header t cookie ts mss ws ck) o r)).
Proof.
  intros -> Ht Hc. unfold tcp_doff. erewrite bind_inr;
    [|apply (ld8_t _ _ _ _ _ _ _ 12); [reflexivity | rewrite header_length by assumption; lia]].
  assert (E : byte (synack_header t cookie ts mss ws ck) 12 = 16 * words_of ts mss ws) by (explode t; reflexivity).
  rewrite E, Z.shiftr_div_pow2, Z.mul_comm, Z.div_mul by lia. reflexivity.
Qed.

Section Gen.
Variables (w : world) (e t o r : list Z) (hdr : header_pointers) (cookie : Z) (ts : option (Z * Z)) (mss ws ttl : Z).
Hypotheses (He : length e = 14%nat) (Ht : length t = 20%nat) (Ho : length o = 20%nat) (Hu : Forall is_u8 t)
  (Hc : is_u32 cookie) (Hts : ts_u32 ts) (Hv : Forall is_u64 (values w)) (Heth : eth hdr = O).

Let opts := encode_all (synack_options ts mss ws).
Let answered (i' : list Z) : list Z :=
  pk (synack_eth e) i' (synack_header t cookie ts mss ws [0; 0]) (opts ++ skipn (length opts) o) r.

Lemma gen4_run i : length i = 20%nat -> byte i 0 = 0x45 -> byte i 9 = IPPROTO_TCP -> tcp hdr = (ETH_SZ + IP_SZ)%nat ->
  tcpip_opts (values w) false = (mss, ws, ttl) ->
  tcpv4_gen_synack ETH_SZ hdr cookie (words ts) (on w (pk e i t o r)) =
    Some (inr (hdr <| tcp_len := reply_len ts mss ws |>), on w (answered (synack_ip4 i ttl (reply_len ts mss ws) [0; 0]))).
Proof.
  intros Hi I0 I9 Htcp Hopts. destruct (opts_run (on w (pk e i t o r)) false Hv) as [Eo Ro].
  change (values (on w (pk e i t o r))) with (values w) in Eo, Ro. rewrite Hopts in Eo, Ro. destruct Ro as (Rm & Rw & Rt).
  unfold tcpv4_gen_synack. erewrite bind_inr; [|exact Eo]. rewrite Heth, Htcp. change (0 + 6)%nat with 6%nat.
  erewrite bind_inr; [|now apply swap_run]. pose proof (synack_eth_length e He) as He'.
  unfold answered. set (e' := synack_eth e) in *. clearbody e'. explode i.
  change (byte (?a :: _) 0) with a in I0. subst z. 
  unfold ETH_SZ, IP_SZ in *. get_i 12%nat.
  get_i 16%nat. at_i 12%nat. at_i 16%nat. unfold st16, st8. change (bytes16 0) with [0; 0].
  at_i 10%nat. at_i 1%nat. at_i 4%nat. at_i 8%nat.
  erewrite bind_inr; [|apply (gen_tcp_run w _ _ _ _ _ _ cookie ts mss ws); first [assumption | cbn [length]; lia]].
  erewrite bind_inr; [|apply doff_run; first [assumption | reflexivity | cbn [length]; lia]].
  destruct (words_len ts mss ws) as [Ew Rw']. rewrite Z.mul_comm, Ew.
  rewrite (uw_small 16 (reply_len ts mss ws)) by (unfold is_u; lia). destruct hdr as [h1 h2 h3 h4 h5]. flds.
  rewrite (uw_small 16), bytes16_to_be by (unfold is_u; lia). at_i 2%nat.
  change (byte _ 9) with z8 in I9. subst z8. reflexivity.
Qed.

Lemma gen6_run i : length i = 40%nat -> byte i 6 = NEXTHDR_TCP -> tcp hdr = (ETH_SZ + IP6_SZ)%nat ->
  tcpip_opts (values w) true = (mss, ws, ttl) ->
  tcpv6_gen_synack ETH_SZ hdr cookie (words ts) (on w (pk e i t o r)) =
    Some (inr (hdr <| tcp_len := reply_len ts mss ws |>), on w (answered (synack_ip6 i ttl (reply_len ts mss ws)))).
Proof.
  intros Hi I6 Htcp Hopts. destruct (opts_run (on w (pk e i t o r)) true Hv) as [Eo Ro].
  change (values (on w (pk e i t o r))) with (values w) in Eo, Ro. rewrite Hopts in Eo, Ro. destruct Ro as (Rm & Rw & Rt).
  unfold tcpv6_gen_synack. erewrite bind_inr; [|exact Eo]. rewrite Heth, Htcp. change (0 + 6)%nat with 6%nat. clear Eo.
  erewrite bind_inr; [|now apply swap_run]. pose proof (synack_eth_length e He) as He'.
  unfold answered. set (e' := synack_eth e) in *. clearbody e'. unfold ETH_SZ, IP6_SZ in *.
  erewrite bind_inr; [|now apply swap6_run]. unfold st16, st8, st32. change (bytes32 (to_be32 0x60000000)) with [0x60; 0; 0; 0].
  explode i. norm. at_i 0%nat. at_i 7%nat.
  erewrite bind_inr; [|apply (gen_tcp_run w _ _ _ _ _ _ cookie ts mss ws); first [assumption | cbn [length]; lia]].
  erewrite bind_inr; [|apply doff_run; first [assumption | reflexivity | cbn [length]; lia]].
  destruct (words_len ts mss ws) as [Ew Rw']. rewrite Z.mul_comm, Ew.
  rewrite (uw_small 16 (reply_len ts mss ws)) by (unfold is_u; lia). destruct hdr as [h1 h2 h3 h4 h5]. flds.
  rewrite bytes16_to_be by (unfold is_u; lia). at_i 4%nat.
  change (byte _ 6) with z5 in I6. subst z5. reflexivity.
Qed.

End Gen.

(** ** The headers move up over the IP options *)

Lemma sub_split p o a b : sub p o (a + b) = sub p o a ++ sub p (o + a) b.
Proof.
  unfold sub. replace (skipn (o + a) p) with (skipn a (skipn o p)) by now rewrite skipn_skipn, Nat.add_comm.
  revert a. induction (skipn o p) as [|x l IH]; intros [|a]; cbn [Nat.add firstn skipn app]; rewrite ?firstn_nil; try reflexivity.
  now rewrite IH.
Qed.

Lemma sub_put_after p o bs k n : (o + length bs <= k)%nat -> (o + length bs <= length p)%nat ->
  sub (put p o bs) k n = sub p k n.
Proof.
  intros Hk Hl. unfold sub, put. f_equal. rewrite app_assoc, skipn_app, skipn_all2 by (rewrite length_app, length_firstn; lia).
  rewrite length_app, length_firstn, skipn_skipn. cbn [app]. f_equal. lia.
Qed.

Lemma put_put p o a b : (o + length a + length b <= length p)%nat -> put (put p o a) (o + length a) b = put p o (a ++ b).
Proof.
  intros H. assert (L : length (firstn o p) = o) by (rewrite length_firstn; lia).
  assert (E : put p o a = firstn o p ++ a ++ skipn (o + length a) p) by reflexivity.
  rewrite E; clear E. assert (Lq : (length b <= length (skipn (o + length a) p))%nat) by (rewrite length_skipn; lia).
  assert (Eq : skipn (o + length (a ++ b)) p = skipn (length b) (skipn (o + length a) p))
    by (rewrite skipn_skipn, length_app; f_equal; lia).
  unfold put at 2. rewrite Eq. clear Eq. set (q := skipn (o + length a) p) in *. clearbody q.
  rewrite <- (firstn_skipn (length b) q) at 1. rewrite (app_assoc (firstn o p) a).
  replace (o + length a)%nat with (length (firstn o p ++ a)) by (rewrite length_app; lia).
  rewrite put_app by (rewrite length_firstn; lia). now rewrite <- !app_assoc.
Qed.

Lemma copy_run w n : forall p dst src, (dst <= src)%nat -> (src + 4 * n <= length p)%nat ->
  vcopy32 dst src n (on w p) = Some (inr tt, on w (put p dst (sub p src (4 * n)))).
Proof.
  induction n as [|n IH]; intros p dst src Hd Hs; cbn [vcopy32].
  - unfold sub, put. change (4 * 0)%nat with O. rewrite firstn_O. cbn [length app]. now rewrite Nat.add_0_r, firstn_skipn.
  - assert (L : length (sub p src 4) = 4%nat) by (apply sub_length; lia).
    erewrite bind_inr; [|unfold load; change (pkt (on w p)) with p; rewrite rd_in by lia; reflexivity].
    erewrite bind_inr; [|unfold store; change (pkt (on w p)) with p; destruct (Nat.leb_spec (dst + length (sub p src 4)) (length p)); [reflexivity | lia]].
    change ((on w p) <| pkt := put p dst (sub p src 4) |>) with (on w (put p dst (sub p src 4))).
    rewrite IH, sub_put_after by (rewrite ?length_put; lia). do 3 f_equal.
    replace (dst + 4)%nat with (dst + length (sub p src 4))%nat by lia. rewrite put_put by (rewrite (sub_length _ (src + 4)); lia).
    f_equal.
    replace (4 * S n)%nat with (4 + 4 * n)%nat by lia. now rewrite sub_split.
Qed.

(** A packet with [n] bytes of IP header. *)
Lemma split_packet p n : (14 + n + 40 <= length p)%nat ->
  p = pk (sub p 0 14) (sub p 14 n) (sub p (14 + n) 20) (sub p (14 + n + 20) 20) (skipn (14 + n + 40) p).
Proof.
  intros H. unfold pk. rewrite !app_assoc, <- (sub_split p 0 14 n : _ = sub p 0 14 ++ sub p 14 n),
    <- (sub_split p 0 (14 + n) 20 : _ = _ ++ sub p (14 + n) 20), <- (sub_split p 0 (14 + n + 20) 20 : _ = _ ++ sub p (14 + n + 20) 20).
  unfold sub. rewrite skipn_O. replace (14 + n + 20 + 20)%nat with (14 + n + 40)%nat by lia. now rewrite firstn_skipn.
Qed.

Lemma ld8_run w p o : (o < length p)%nat -> ld8 o (on w p) = Some (inr (byte p o), on w p).
Proof.
  intros H. unfold ld8. erewrite bind_inr; [|unfold load; change (pkt (on w p)) with p; rewrite rd_in by lia; reflexivity].
  unfold ret. now rewrite byte_sub, Nat.add_0_r by lia.
Qed.

Lemma ihl_run w p o : (o < length p)%nat -> ipv4_ihl o (on w p) = Some (inr (byte p o mod 16), on w p).
Proof.
  intros H. unfold ipv4_ihl. erewrite bind_inr; [|now apply ld8_run]. change 0x0f with (Z.ones 4). now rewrite Z.land_ones by lia.
Qed.

(** The headers of part 2. *)
Definition headers4 (T : nat) (l : Z) : header_pointers :=
  {| eth := O; ipv4 := Some ETH_SZ; ipv6 := None; tcp := T; tcp_len := l |}.
Definition headers6 (l : Z) : header_pointers :=
  {| eth := O; ipv4 := None; ipv6 := Some ETH_SZ; tcp := ETH_SZ + IP6_SZ; tcp_len := l |}.

Section Reply.
Variables (p : list Z) (w : world) (cookie : Z) (ts : option (Z * Z)) (mss ws ttl : Z).
Hypotheses (Hu : Forall is_u8 p) (Hc : is_u32 cookie) (Hts : ts_u32 ts) (Hv : Forall is_u64 (values w)).

Let opts := encode_all (synack_options ts mss ws).
Let len := reply_len ts mss ws.

Lemma byte_of_sub o k j b : (j < k)%nat -> byte p (o + j) = b -> byte (sub p o k) j = b.
Proof. intros Hj <-. now apply byte_sub. Qed.

Lemma pk_options e i t o r : pk e i t (opts ++ skipn (length opts) o) r = pk e i t opts (skipn (length opts) o ++ r).
Proof. unfold pk. now rewrite <- app_assoc. Qed.

Lemma rest_length n : (n + 20 <= length p)%nat ->
  (length (skipn (length opts) (sub p n 20) ++ skipn (n + 20) p) + length opts + n = length p)%nat.
Proof.
  intros Hn. destruct (options_length ts mss ws) as (k & Ek & Hk). fold opts in Ek.
  rewrite length_app, !length_skipn, sub_length by lia. lia.
Qed.

Lemma put_head i b : length i = 20%nat ->
  length (put i 0 [b]) = 20%nat /\ byte (put i 0 [b]) 0 = b /\ byte (put i 0 [b]) 9 = byte i 9 /\
  forall n ck, synack_ip4 (put i 0 [b]) ttl n ck = synack_ip4 i ttl n ck.
Proof. intros Hi. explode i. now repeat split. Qed.

(** An IP header with options is cut to its first twenty bytes, and the TCP
    header moved up to it. *)
Lemma move_up T l : let b := byte p 14 in
  b / 16 = 4 -> 5 <= b mod 16 -> T = (14 + Z.to_nat (b mod 16 * 4))%nat -> (T + 60 <= length p)%nat ->
  exists i', (if Z.of_nat IP_SZ <? b mod 16 * 4
              then vcopy32 (ETH_SZ + IP_SZ) T 5 ;; v <- ld8 ETH_SZ ;;
                   st8 ETH_SZ (Z.lor (Z.land v 0xf0) (Z.of_nat (Nat.div IP_SZ 4))) ;; ret (headers4 34 l)
              else ret (headers4 T l)) (on w p) =
    Some (inr (headers4 34 l), on w (pk (sub p 0 14) i' (sub p T 20) (sub p 54 20) (skipn 74 p))) /\
    length i' = 20%nat /\ byte i' 0 = 0x45 /\ byte i' 9 = byte p 23 /\
    forall n ck, synack_ip4 i' ttl n ck = synack_ip4 (sub p 14 20) ttl n ck.
Proof.
  intros b Hver Hihl HT Hroom. pose proof (byte_u8 p 14 Hu : 0 <= b < 2 ^ 8) as Bu.
  assert (Hb : 0 <= b mod 16 <= 15) by (Z.div_mod_to_equations; lia).
  pose proof (split_packet p 20 ltac:(lia) : p = pk (sub p 0 14) (sub p 14 20) (sub p 34 20) (sub p 54 20) (skipn 74 p)) as Ep.
  assert (Ls : forall o n, (o + n <= length p)%nat -> length (sub p o n) = n) by (intros; now apply sub_length).
  unfold IP_SZ, ETH_SZ. destruct (Z.ltb_spec (Z.of_nat 20) (b mod 16 * 4)) as [Hlong|Hshort].
  - exists (put (sub p 14 20) 0 [0x45]). destruct (put_head (sub p 14 20) 0x45) as (Li & H0 & H9 & Hi); [apply Ls; lia|].
    rewrite H9, byte_sub by lia. split; [|now repeat split]. erewrite bind_inr; [|apply copy_run; lia].
    change (4 * 5)%nat with 20%nat. change (14 + 20)%nat with 34%nat.
    assert (E : put p 34 (sub p T 20) = pk (sub p 0 14) (sub p 14 20) (sub p T 20) (sub p 54 20) (skipn 74 p)).
    { rewrite Ep at 1. unfold pk. rewrite !(app_assoc (sub p 0 14) (sub p 14 20)).
      pose proof (put_app (sub p 0 14 ++ sub p 14 20) (sub p 34 20) (sub p 54 20 ++ skipn 74 p) (sub p T 20)) as X.
      rewrite length_app, !Ls in X by lia. now apply X. }
    rewrite E. erewrite bind_inr; [|apply (ld8_i _ _ _ _ _ _ _ 0); rewrite Ls by lia; [reflexivity | lia]].
    rewrite byte_sub by lia. change (byte p (14 + 0)) with b.
    assert (V : Z.lor (Z.land b 0xf0) (Z.of_nat (Nat.div 20 4)) = 0x45).
    { rewrite (Z.div_mod b 16), Hver, Z.add_comm by lia. change (16 * 4) with (2 ^ 4 * 4). change 0xf0 with (0 + 2 ^ 4 * 15).
      rewrite land_halves by (change (2 ^ 4) with 16; lia). now rewrite Z.land_0_r. }
    rewrite V. unfold st8. erewrite bind_inr; [|apply (store_i _ _ _ _ _ _ _ 0); rewrite Ls by lia; [reflexivity | cbn [length]; lia]].
    reflexivity.
  - assert (E5 : b = 0x45) by (Z.div_mod_to_equations; lia). assert (ET : T = 34%nat) by (subst T; rewrite E5; reflexivity).
    exists (sub p 14 20). rewrite Ls, !byte_sub by lia. rewrite ET, <- Ep. now repeat split.
Qed.

Lemma gen_synack4 T l : byte p 14 / 16 = 4 -> 5 <= byte p 14 mod 16 -> byte p 23 = IPPROTO_TCP ->
  T = (ETH_SZ + Z.to_nat (byte p 14 mod 16 * 4))%nat -> (T + TCP_MAXLEN <= length p)%nat ->
  tcpip_opts (values w) false = (mss, ws, ttl) ->
  exists r, (length r + length opts + 54 = length p)%nat /\ gen_synack (headers4 T l) cookie (words ts) (on w p) =
    Some (inr (headers4 34 len),
          on w (pk (synack_eth (sub p 0 14)) (synack_ip4 (sub p 14 20) ttl len [0; 0])
                   (synack_header (sub p T 20) cookie ts mss ws [0; 0]) opts r)).
Proof.
  intros Hver Hihl Hproto HT Hroom Hopts. unfold TCP_MAXLEN in *.
  destruct (move_up T l Hver Hihl HT Hroom) as (i' & Em & Li & I0 & I9 & Ei).
  exists (skipn (length opts) (sub p 54 20) ++ skipn 74 p). split; [apply rest_length; lia|]. rewrite <- pk_options, <- Ei. rewrite Hproto in I9.
  unfold gen_synack. cbn [ipv4 ipv6 tcp headers4].
  assert (Hl : (74 <= length p)%nat) by lia.
  erewrite bind_inr; [|apply ihl_run; unfold ETH_SZ; lia]. erewrite bind_inr; [|exact Em].
  rewrite (gen4_run w (sub p 0 14) (sub p T 20) (sub p 54 20) (skipn 74 p) (headers4 34 l) cookie ts mss ws ttl);
    first [assumption | reflexivity | now apply sub_u8 | apply sub_length; lia].
Qed.

Lemma gen_synack6 l : byte p 20 = NEXTHDR_TCP -> (ETH_SZ + IP6_SZ + TCP_MAXLEN <= length p)%nat ->
  tcpip_opts (values w) true = (mss, ws, ttl) ->
  exists r, (length r + length opts + 74 = length p)%nat /\ gen_synack (headers6 l) cookie (words ts) (on w p) =
    Some (inr (headers6 len),
          on w (pk (synack_eth (sub p 0 14)) (synack_ip6 (sub p 14 40) ttl len)
                   (synack_header (sub p 54 20) cookie ts mss ws [0; 0]) opts r)).
Proof.
  intros Hproto Hroom Hopts. unfold ETH_SZ, IP6_SZ, TCP_MAXLEN in *.
  pose proof (split_packet p 40 ltac:(lia) : p = pk (sub p 0 14) (sub p 14 40) (sub p 54 20) (sub p 74 20) (skipn 94 p)) as Ep.
  exists (skipn (length opts) (sub p 74 20) ++ skipn 94 p). split; [apply rest_length; lia|]. rewrite <- pk_options.
  unfold gen_synack. cbn [ipv4 ipv6 tcp headers6]. rewrite Ep at 1.
  rewrite (gen6_run w (sub p 0 14) (sub p 54 20) (sub p 74 20) (skipn 94 p) (headers6 l) cookie ts mss ws ttl);
    first [assumption | reflexivity | now apply sub_u8 | apply sub_length; lia | now apply byte_of_sub; [lia|]].
Qed.

End Reply.

(** ** The checksums of the answer *)

(** The sum over the IPv4 and IPv6 pseudo headers and the segment. *)
Definition pseudo4 (i s : list Z) : list Z := sub i 12 4 ++ sub i 16 4 ++ [0; IPPROTO_TCP] ++ be16 (Z.of_nat (length s)) ++ s.
Definition pseudo6 (i s : list Z) : list Z := sub i 8 16 ++ sub i 24 16 ++ be32 (Z.of_nat (length s)) ++ [0; 0; 0; NEXTHDR_TCP] ++ s.

(** A sum with the complement of its fold. *)
Lemma complement_valid s f c : folded s f -> s mod 65535 = c mod 65535 -> (s = 0 <-> c = 0) -> 0 <= c ->
  (c + (65535 - f)) mod 65535 = 0 /\ 0 < c + (65535 - f).
Proof.
  intros (Hf & Em & Ez) Ec Hz Hc. split; [|destruct (Z.eq_dec f 65535); lia].
  assert (E : f mod 65535 = c mod 65535) by congruence. Z.div_mod_to_equations. lia.
Qed.

Lemma csum16_put_ip i c : length i = 20%nat -> sub i 10 2 = [0; 0] -> is_u16 c -> csum16 (put i 10 (bytes16 c)) = csum16 i + c.
Proof.
  unfold is_u; intros Hi Hz Hc. explode i. cbn [sub firstn skipn] in Hz. injection Hz as -> ->.
  norm. cbn [bytes16 length app Nat.add skipn csum16]. Z.div_mod_to_equations; lia.
Qed.

Lemma csum16_put_tcp t c : length t = 20%nat -> sub t 16 2 = [0; 0] -> is_u16 c -> csum16 (put t 16 (bytes16 c)) = csum16 t + c.
Proof.
  unfold is_u; intros Hi Hz Hc. explode t. cbn [sub firstn skipn] in Hz. injection Hz as -> ->.
  norm. cbn [bytes16 length app Nat.add skipn csum16]. Z.div_mod_to_equations; lia.
Qed.

Lemma csum16_word l : length l = 4%nat -> csum16 l mod 65535 = word32 l 0 mod 65535.
Proof.
  intros Hl. explode l. unfold word32, word16, byte. cbn [csum16 nth Nat.add].
  match goal with |- ?a mod _ = ?b mod _ => replace b with (a + (z1 + 256 * z2) * 65535) by lia end.
  now rewrite Z_mod_plus_full.
Qed.

Lemma csum16_be16 n : 0 <= n < 256 -> csum16 (be16 n) = 256 * n.
Proof. intros Hn. unfold be16. cbn [csum16]. Z.div_mod_to_equations; lia. Qed.

Lemma put_same p o bs : sub p o (length bs) = bs -> (o + length bs <= length p)%nat -> put p o bs = p.
Proof.
  intros E H. unfold put. rewrite <- E at 1. unfold sub. rewrite Nat.add_comm, <- skipn_skipn. now rewrite !firstn_skipn.
Qed.

Lemma pk_segment e i t o r : pk e i t o r = (e ++ i) ++ (t ++ o) ++ r.
Proof. unfold pk. now rewrite <- !app_assoc. Qed.

Lemma mod_diff x y : x mod 65535 = y mod 65535 -> exists k, x = y + k * 65535.
Proof. intros H. exists (x / 65535 - y / 65535). Z.div_mod_to_equations; lia. Qed.

Lemma mod_of_diff x y k : x = y + k * 65535 -> x mod 65535 = y mod 65535.
Proof. intros ->. apply Z_mod_plus_full. Qed.

Lemma segment_mod (t o : list Z) : length t = 20%nat -> (length o mod 4 = 0)%nat -> (length (t ++ o) mod 4 = 0)%nat.
Proof. intros Ht Ho. now rewrite length_app, Ht, <- Nat.Div0.add_mod_idemp_r, Ho. Qed.

Lemma csum16_segment t o c : length t = 20%nat -> sub t 16 2 = [0; 0] -> is_u16 c ->
  csum16 (put t 16 (bytes16 c) ++ o) = csum16 (t ++ o) + c /\ length (put t 16 (bytes16 c) ++ o) = length (t ++ o).
Proof.
  intros Ht Hz Hc. assert (L : length (put t 16 (bytes16 c)) = 20%nat) by (rewrite length_put; cbn [length bytes16]; lia).
  rewrite !csum16_app, csum16_put_tcp by (assumption || now rewrite ?L, ?Ht). rewrite !length_app, L, Ht. split; [lia | reflexivity].
Qed.

Lemma csum16_pseudo4 i s : length i = 20%nat -> (length s < 256)%nat ->
  csum16 (pseudo4 i s) = csum16 (sub i 12 4) + csum16 (sub i 16 4) + 256 * (6 + Z.of_nat (length s)) + csum16 s.
Proof.
  intros Hi Hs. unfold pseudo4. rewrite !csum16_app by (rewrite ?sub_length by lia; reflexivity).
  rewrite csum16_be16 by lia. change (csum16 [0; IPPROTO_TCP]) with 1536. lia.
Qed.

Lemma csum16_pseudo6 i s : length i = 40%nat -> (length s < 256)%nat ->
  csum16 (pseudo6 i s) = csum16 (sub i 8 16) + csum16 (sub i 24 16) + 256 * (6 + Z.of_nat (length s)) + csum16 s.
Proof.
  intros Hi Hs. unfold pseudo6. rewrite !csum16_app by (rewrite ?sub_length by lia; reflexivity).
  unfold be32. rewrite csum16_app, csum16_be16 by reflexivity || (Z.div_mod_to_equations; lia).
  rewrite Z.mod_small, csum16_be16, Z.div_small by lia. change (csum16 [0; 0; 0; NEXTHDR_TCP]) with 1536. lia.
Qed.

Lemma put_ck_ip4 i ttl len ck : length i = 20%nat -> length ck = 2%nat ->
  put (synack_ip4 i ttl len [0; 0]) 10 ck = synack_ip4 i ttl len ck /\
  length (synack_ip4 i ttl len ck) = 20%nat /\ sub (synack_ip4 i ttl len ck) 10 2 = ck.
Proof. intros Hi Hc. explode i. now explode ck. Qed.

Lemma put_ck_tcp t cookie ts mss ws ck : length t = 20%nat -> length ck = 2%nat ->
  put (synack_header t cookie ts mss ws [0; 0]) 16 ck = synack_header t cookie ts mss ws ck /\
  sub (synack_header t cookie ts mss ws ck) 16 2 = ck.
Proof. intros Ht Hc. explode t. now explode ck. Qed.

Lemma pseudo4_ck i ttl len ck ck' s : length i = 20%nat -> length ck = 2%nat -> length ck' = 2%nat ->
  pseudo4 (synack_ip4 i ttl len ck) s = pseudo4 (synack_ip4 i ttl len ck') s.
Proof. intros Hi Hc Hc'. explode i. explode ck. now explode ck'. Qed.

Lemma folds_valid s g c : 65535 - g = 0 -> folded s g -> s mod 65535 = c mod 65535 -> (s = 0 <-> c = 0) -> 0 <= c -> c mod 65535 = 0 /\ 0 < c.
Proof.
  intros Hg (Rf & Em & Ez) E Z0 Hc. assert (g = 65535) by lia. subst g.
  change (65535 mod 65535) with 0 in Em. split; [congruence|]. destruct (Z.eq_dec c 0) as [C|C]; [|lia]. apply Z0 in C. apply Ez in C. lia.
Qed.

Section Checksums.
Context {K : Kernel} {KO : KernelOk K}.
(** The checksum functions fold the sum over the pseudo header and the segment. *)
Definition folds (c : Z) (l : list Z) : Prop :=
  exists g s, c = 65535 - g /\ folded s g /\ s mod 65535 = csum16 l mod 65535 /\ (s = 0 <-> csum16 l = 0) /\ 0 <= csum16 l.

Lemma folds_range c l : folds c l -> is_u16 c.
Proof. intros (g & s & -> & (Hg & _) & _). unfold is_u. lia. Qed.

Lemma folds_zero l : folds 0 l -> csum_valid l.
Proof. intros (g & s & Eg & F & Em & Ez & Hc). unfold csum_valid. now apply (folds_valid s g). Qed.

Lemma folds_complement c l l' : folds c l -> csum16 l' = csum16 l + c -> csum_valid l'.
Proof. intros (g & s & -> & F & Em & Ez & Hc) E. unfold csum_valid. rewrite E. now apply (complement_valid s). Qed.

Lemma diff_folds l : Forall is_u8 l -> (length l mod 4 = 0)%nat -> folds (csum_fold (u32 (bpf_csum_diff l))) l.
Proof.
  intros Hu Hm. destruct (csum_diff_ok l Hu Hm) as (R & E & D). rewrite (uw_small 32) by exact R.
  destruct (csum_fold_folds _ R) as (f & -> & F). exists f, (bpf_csum_diff l). pose proof (csum16_pos l Hu). tauto.
Qed.

Lemma pseudo4_folds i s : length i = 20%nat -> Forall is_u8 i -> Forall is_u8 s -> (length s mod 4 = 0)%nat -> (length s <= 60)%nat ->
  folds (csum_tcpudp_magic (word32 i 12) (word32 i 16) (Z.of_nat (length s)) IPPROTO_TCP (u32 (bpf_csum_diff s))) (pseudo4 i s).
Proof.
  intros Hi Ui Us Hm Hl. destruct (csum_diff_ok s Us Hm) as (Rs & Es & Ds). rewrite (uw_small 32) by assumption.
  pose proof (csum16_pos s Us) as Ps. pose proof (word32_range i 12 Ui) as W1. pose proof (word32_range i 16 Ui) as W2.
  destruct (tcpudp_magic_spec (word32 i 12) (word32 i 16) (Z.of_nat (length s)) (bpf_csum_diff s) W1 W2 Rs)
    as (g & -> & Fg); [lia|]. exists g. eexists. split; [reflexivity|]. split; [exact Fg|].
  rewrite csum16_pseudo4 by lia. set (n := Z.of_nat (length s)) in *.
  pose proof (csum16_pos _ (sub_u8 i 12 4 Ui)). pose proof (csum16_pos _ (sub_u8 i 16 4 Ui)). unfold is_u in *.
  split; [|lia]. destruct (mod_diff _ _ Es) as (k & ->).
  assert (E1 : csum16 (sub i 12 4) mod 65535 = word32 i 12 mod 65535)
    by (rewrite csum16_word, word32_sub by (apply sub_length || idtac; lia); reflexivity).
  assert (E2 : csum16 (sub i 16 4) mod 65535 = word32 i 16 mod 65535)
    by (rewrite csum16_word, word32_sub by (apply sub_length || idtac; lia); reflexivity).
  destruct (mod_diff _ _ E1) as (k1 & ->), (mod_diff _ _ E2) as (k2 & ->). apply mod_of_diff with (k := k - k1 - k2). lia.
Qed.

Lemma pseudo6_folds i s : length i = 40%nat -> Forall is_u8 i -> Forall is_u8 s -> (length s mod 4 = 0)%nat -> (length s <= 60)%nat ->
  folds (csum_ipv6_magic (words32 (sub i 8 16) 0 4) (words32 (sub i 24 16) 0 4) (Z.of_nat (length s)) IPPROTO_TCP
           (u32 (bpf_csum_diff s))) (pseudo6 i s).
Proof.
  intros Hi Ui Us Hm Hl. destruct (csum_diff_ok s Us Hm) as (Rs & Es & Ds). rewrite (uw_small 32) by assumption.
  pose proof (csum16_pos s Us) as Ps.
  destruct (ipv6_magic_spec (sub i 8 16) (sub i 24 16) (Z.of_nat (length s)) (bpf_csum_diff s))
    as (g & -> & Fg); try (apply sub_length; lia); try (now apply sub_u8); [exact Rs | lia|].
  exists g. eexists. split; [reflexivity|]. split; [exact Fg|]. rewrite csum16_pseudo6 by lia. set (n := Z.of_nat (length s)) in *.
  pose proof (csum16_pos _ (sub_u8 i 8 16 Ui)). pose proof (csum16_pos _ (sub_u8 i 24 16 Ui)). unfold is_u in *.
  split; [|lia]. destruct (mod_diff _ _ Es) as (k & ->). apply mod_of_diff with (k := k). lia.
Qed.

Definition filled4 (i t o : list Z) : list Z * list Z :=
  let c := csum_tcpudp_magic (word32 i 12) (word32 i 16) (Z.of_nat (length (t ++ o))) IPPROTO_TCP (u32 (bpf_csum_diff (t ++ o))) in
  (put i 10 (bytes16 (csum_fold (u32 (bpf_csum_diff i)))), put t 16 (bytes16 c)).

Lemma csum_at w pre h post n k : n = length pre -> k = length h -> Forall is_u8 h -> (length h mod 4 = 0)%nat ->
  checked (csum_diff n k) (on w (pre ++ h ++ post)) = Some (inr (bpf_csum_diff h), on w (pre ++ h ++ post)).
Proof.
  intros -> -> Hu Hm. destruct (csum_diff_ok h Hu Hm) as (Hr & _). unfold is_u in Hr. unfold checked, csum_diff.
  rewrite bind_assoc. erewrite bind_inr; [|apply (load_at pre h post w _ 0); lia].
  assert (E : sub h 0 (length h) = h) by (unfold sub; now rewrite skipn_O, firstn_all).
  rewrite E. unfold bind, ret. destruct (Z.ltb_spec (bpf_csum_diff h) 0); [lia | reflexivity].
Qed.

Lemma fill4_run w e r i t o : length e = 14%nat -> length i = 20%nat -> length t = 20%nat -> (length o mod 4 = 0)%nat ->
  Forall is_u8 i -> Forall is_u8 t -> Forall is_u8 o -> sub i 10 2 = [0; 0] -> sub t 16 2 = [0; 0] ->
  fill_checksums (headers4 34 (Z.of_nat (length (t ++ o)))) (on w (pk e i t o r)) =
    Some (inr tt, on w (pk e (fst (filled4 i t o)) (snd (filled4 i t o)) o r)).
Proof.
  intros He Hi Ht Ho Ui Ut Uo Zi Zt. unfold fill_checksums, headers4, ETH_SZ, IP_SZ. cbn [tcp tcp_len ipv4 Nat.add].
  unfold st16. change (bytes16 0) with [0; 0].
  erewrite bind_inr; [|apply (store_t _ _ _ _ _ _ _ 16); cbn [length]; lia]. rewrite (put_same t) by (exact Zt || cbn [length]; lia).
  rewrite Nat2Z.id. erewrite bind_inr;
    [|rewrite pk_segment; apply csum_at; [rewrite length_app; lia | reflexivity | now apply Forall_app | now apply segment_mod]].
  rewrite <- pk_segment. unfold tcpv4_magic. rewrite bind_assoc. erewrite bind_inr; [|apply (ld32_i _ _ _ _ _ _ _ 12); lia].
  rewrite bind_assoc. erewrite bind_inr; [|apply (ld32_i _ _ _ _ _ _ _ 16); lia]. unfold bind at 1, ret at 1.
  erewrite bind_inr; [|apply (store_t _ _ _ _ _ _ _ 16); cbn [length bytes16]; lia].
  erewrite bind_inr; [|apply (store_i _ _ _ _ _ _ _ 10); cbn [length]; lia]. rewrite (put_same i) by (exact Zi || cbn [length]; lia).
  erewrite bind_inr; [|apply csum_at; [lia | lia | exact Ui | now rewrite Hi]].
  apply (store_i w e i _ o r 24 10); cbn [length bytes16]; lia.
Qed.

(** What the receiver checks. *)
Lemma filled4_valid i t o : length i = 20%nat -> length t = 20%nat -> (length o mod 4 = 0)%nat -> (length o <= 40)%nat ->
  Forall is_u8 i -> Forall is_u8 t -> Forall is_u8 o -> sub i 10 2 = [0; 0] -> sub t 16 2 = [0; 0] ->
  csum_valid (fst (filled4 i t o)) /\ csum_valid (pseudo4 i (snd (filled4 i t o) ++ o)).
Proof.
  intros Hi Ht Ho Lo Ui Ut Uo Zi Zt. unfold filled4. cbn [fst snd].
  pose proof (diff_folds i Ui ltac:(now rewrite Hi)) as Fi. split; [apply (folds_complement _ _ _ Fi), csum16_put_ip; try assumption; exact (folds_range _ _ Fi)|].
  pose proof (pseudo4_folds i (t ++ o) Hi Ui ltac:(now apply Forall_app) (segment_mod t o Ht Ho) ltac:(rewrite length_app; lia)) as F.
  destruct (csum16_segment t o _ Ht Zt (folds_range _ _ F)) as [Sc Sl]. apply (folds_complement _ _ _ F).
  rewrite !csum16_pseudo4 by (rewrite ?Sl, ?length_app; lia). rewrite Sl, Sc. lia.
Qed.

Definition filled6 (i t o : list Z) : list Z :=
  let c := csum_ipv6_magic (words32 (sub i 8 16) 0 4) (words32 (sub i 24 16) 0 4) (Z.of_nat (length (t ++ o))) IPPROTO_TCP
             (u32 (bpf_csum_diff (t ++ o))) in
  put t 16 (bytes16 c).

Lemma fill6_run w e r i t o : length e = 14%nat -> length i = 40%nat -> length t = 20%nat -> (length o mod 4 = 0)%nat ->
  Forall is_u8 i -> Forall is_u8 t -> Forall is_u8 o -> sub t 16 2 = [0; 0] ->
  fill_checksums (headers6 (Z.of_nat (length (t ++ o)))) (on w (pk e i t o r)) =
    Some (inr tt, on w (pk e i (filled6 i t o) o r)).
Proof.
  intros He Hi Ht Ho Ui Ut Uo Zt. unfold fill_checksums, headers6, ETH_SZ, IP6_SZ. cbn [tcp tcp_len ipv4 ipv6 Nat.add].
  unfold st16. change (bytes16 0) with [0; 0].
  erewrite bind_inr; [|apply (store_t _ _ _ _ _ _ _ 16); cbn [length]; lia]. rewrite (put_same t) by (exact Zt || cbn [length]; lia).
  rewrite Nat2Z.id. erewrite bind_inr;
    [|rewrite pk_segment; apply csum_at; [rewrite length_app; lia | reflexivity | now apply Forall_app | now apply segment_mod]].
  rewrite <- pk_segment. unfold tcpv6_magic. rewrite bind_assoc. erewrite bind_inr; [|apply (load_i _ _ _ _ _ _ _ 8); lia].
  rewrite bind_assoc. erewrite bind_inr; [|apply (load_i _ _ _ _ _ _ _ 24); lia]. unfold bind at 1, ret at 1.
  apply (store_t w e i t o r _ 16); cbn [length bytes16]; lia.
Qed.

Lemma filled6_valid i t o : length i = 40%nat -> length t = 20%nat -> (length o mod 4 = 0)%nat -> (length o <= 40)%nat ->
  Forall is_u8 i -> Forall is_u8 t -> Forall is_u8 o -> sub t 16 2 = [0; 0] ->
  csum_valid (pseudo6 i (filled6 i t o ++ o)).
Proof.
  intros Hi Ht Ho Lo Ui Ut Uo Zt. unfold filled6.
  pose proof (pseudo6_folds i (t ++ o) Hi Ui ltac:(now apply Forall_app) (segment_mod t o Ht Ho) ltac:(rewrite length_app; lia)) as F.
  destruct (csum16_segment t o _ Ht Zt (folds_range _ _ F)) as [Sc Sl]. apply (folds_complement _ _ _ F).
  rewrite !csum16_pseudo6 by (rewrite ?Sl, ?length_app; lia). rewrite Sl, Sc. lia.
Qed.

(** Both, for an answer. *)
Lemma fill_reply4 w e r i t cookie ts mss ws ttl :
  let opts := encode_all (synack_options ts mss ws) in
  let len := reply_len ts mss ws in
  let packet ck ck' := pk e (synack_ip4 i ttl len ck) (synack_header t cookie ts mss ws ck') opts r in
  length e = 14%nat -> length i = 20%nat -> length t = 20%nat -> Forall is_u8 (packet [0; 0] [0; 0]) ->
  exists ck ck', fill_checksums (headers4 34 len) (on w (packet [0; 0] [0; 0])) = Some (inr tt, on w (packet ck ck')) /\
    length ck = 2%nat /\ length ck' = 2%nat /\ csum_valid (synack_ip4 i ttl len ck) /\
    csum_valid (pseudo4 (synack_ip4 i ttl len ck) (synack_header t cookie ts mss ws ck' ++ opts)).
Proof.
  intros opts len packet Le Li Lt Hu. unfold packet in *. unfold pk in Hu. rewrite !Forall_app in Hu. destruct Hu as (_ & Ui & Ut & Uo & _).
  destruct (put_ck_ip4 i ttl len [0; 0] Li eq_refl) as (_ & Li0 & Zi).
  destruct (put_ck_tcp t cookie ts mss ws [0; 0] Lt eq_refl) as (_ & Zt).
  pose proof (header_length t cookie ts mss ws [0; 0] Lt eq_refl) as Lt0.
  destruct (options_length ts mss ws) as (k & Lo & Hk). fold opts in Lo.
  assert (Mo : (length opts mod 4 = 0)%nat) by (rewrite Lo, Nat.mul_comm; apply Nat.Div0.mod_mul).
  assert (Es : len = Z.of_nat (length (synack_header t cookie ts mss ws [0; 0] ++ opts)))
    by (rewrite length_app, Lt0; unfold len, reply_len; fold opts; lia).
  pose proof (fill4_run w e r _ _ _ Le Li0 Lt0 Mo Ui Ut Uo Zi Zt) as Hf. rewrite <- Es in Hf.
  destruct (filled4_valid _ _ _ Li0 Lt0 Mo ltac:(lia) Ui Ut Uo Zi Zt) as [V1 V2].
  unfold filled4 in Hf, V1, V2. cbn [fst snd] in Hf, V1, V2. set (ck := bytes16 _) in Hf, V1. set (ck' := bytes16 _) in Hf, V2.
  destruct (put_ck_ip4 i ttl len ck Li eq_refl) as (Pi & _).
  destruct (put_ck_tcp t cookie ts mss ws ck' Lt eq_refl) as (Pt & _). rewrite Pi in Hf, V1. rewrite Pt in Hf, V2.
  exists ck, ck'. rewrite (pseudo4_ck i ttl len ck [0; 0]) by (exact Li || reflexivity).
  split; [exact Hf|]. split; [reflexivity|]. split; [reflexivity|]. now split.
Qed.

Lemma fill_reply6 w e r i t cookie ts mss ws ttl :
  let opts := encode_all (synack_options ts mss ws) in
  let len := reply_len ts mss ws in
  let packet ck' := pk e (synack_ip6 i ttl len) (synack_header t cookie ts mss ws ck') opts r in
  length e = 14%nat -> length i = 40%nat -> length t = 20%nat -> Forall is_u8 (packet [0; 0]) ->
  exists ck', fill_checksums (headers6 len) (on w (packet [0; 0])) = Some (inr tt, on w (packet ck')) /\
    length ck' = 2%nat /\ csum_valid (pseudo6 (synack_ip6 i ttl len) (synack_header t cookie ts mss ws ck' ++ opts)).
Proof.
  intros opts len packet Le Li Lt Hu. unfold packet in *. unfold pk in Hu. rewrite !Forall_app in Hu. destruct Hu as (_ & Ui & Ut & Uo & _).
  assert (Li0 : length (synack_ip6 i ttl len) = 40%nat) by (clear - Li; now explode i).
  destruct (put_ck_tcp t cookie ts mss ws [0; 0] Lt eq_refl) as (_ & Zt).
  pose proof (header_length t cookie ts mss ws [0; 0] Lt eq_refl) as Lt0.
  destruct (options_length ts mss ws) as (k & Lo & Hk). fold opts in Lo.
  assert (Mo : (length opts mod 4 = 0)%nat) by (rewrite Lo, Nat.mul_comm; apply Nat.Div0.mod_mul).
  assert (Es : len = Z.of_nat (length (synack_header t cookie ts mss ws [0; 0] ++ opts)))
    by (rewrite length_app, Lt0; unfold len, reply_len; fold opts; lia).
  pose proof (fill6_run w e r _ _ _ Le Li0 Lt0 Mo Ui Ut Uo Zt) as Hf. rewrite <- Es in Hf.
  pose proof (filled6_valid _ _ _ Li0 Lt0 Mo ltac:(lia) Ui Ut Uo Zt) as V2.
  unfold filled6 in Hf, V2. set (ck' := bytes16 _) in Hf, V2.
  destruct (put_ck_tcp t cookie ts mss ws ck' Lt eq_refl) as (Pt & _). rewrite Pt in Hf, V2. exists ck'. split; [exact Hf|]. now split.
Qed.

End Checksums.

(** ** The packet sent *)

Definition inc_synacks (vals : list Z) : list Z :=
  match vals with v0 :: v1 :: l => v0 :: u64 (v1 + 1) :: l | _ => vals end.

(** What is left of the world: the packet apart, the counter. *)
Definition sent (w w' : world) (p : list Z) : Prop :=
  pkt w' = p /\ values w' = inc_synacks (values w) /\ allowed_ports w' = allowed_ports w /\ ct_refs w' = ct_refs w.

Section Send.
Context {L : KLoop} {K : Kernel} {KO : KernelOk K}.

(** The tail cut to the answer. *)
Lemma cut_tail (xdp : bool) w h r n v w' : Forall is_u8 (h ++ r) -> Z.of_nat (length (h ++ r)) < 2 ^ 31 -> n = Z.of_nat (length h) ->
  (set_size xdp (u32 (Z.of_nat (length (h ++ r)))) (u32 n) ;; values_inc_synacks ;; ret XDP_TX) (on w (h ++ r)) = Some (inr v, w') ->
  sent w w' h.
Proof.
  intros Hu Hl -> H. rewrite length_app, Nat2Z.inj_add in *. rewrite !(uw_small 32) in H by (unfold is_u; lia).
  apply go_bind in H as (u & w1 & H1 & H). unfold set_size in H1. apply go_tail in H1 as (p & Hp & ->).
  change (pkt (on w (h ++ r))) with (h ++ r) in Hp.
  replace (Z.of_nat (length h) - (Z.of_nat (length h) + Z.of_nat (length r))) with (- Z.of_nat (length r)) in Hp by lia.
  rewrite i32_small in Hp by lia. apply tail_regrown in Hp; [|exact Hu | rewrite length_app; lia | lia].
  destruct Hp as (Hn & Hs & _). apply Nat2Z.inj in Hn.
  assert (E : p = h).
  { unfold same_prefix in Hs. rewrite Hn, length_app, Nat.min_r in Hs by lia.
    rewrite <- Hn, firstn_all, Hn, firstn_app, firstn_all, Nat.sub_diag, firstn_O, app_nil_r in Hs. exact Hs. }
  subst p. apply go_bind in H as (u2 & w2 & H2 & H). injection H2 as _ H2. injection H as _ H. rewrite <- H, <- H2.
  destruct w as [q [|v0 [|v1 vs]] ports refs clk]; now repeat split.
Qed.

Lemma headers4_ok T l : headers (headers4 T l).
Proof. split; [reflexivity | now left]. Qed.

Lemma headers6_ok l : headers (headers6 l).
Proof. split; [reflexivity | now right]. Qed.

(** The bytes written are bytes. *)
Lemma gen_u8 hdr cookie tsopt w p n hdr' q : Forall is_u8 p -> grown hdr n -> (n <= length p)%nat ->
  (ETH_SZ + IP_SZ + TCP_MAXLEN <= n)%nat -> gen_synack hdr cookie tsopt (on w p) = Some (inr hdr', on w q) -> Forall is_u8 q.
Proof.
  intros Hu Hg Hn Hl H. destruct (ok_gen hdr cookie tsopt n Hg Hl (on w p)) as (r & w1 & E & _ & R); [now split|].
  rewrite H in E. injection E as <- <-. apply R.
Qed.

Lemma fill_u8 hdr w p n q : Forall is_u8 p -> headers hdr -> 0 <= tcp_len hdr <= 60 -> (tcp hdr + TCP_MAXLEN <= n)%nat ->
  (ETH_SZ + IP_SZ <= n)%nat -> (n <= length p)%nat -> fill_checksums hdr (on w p) = Some (inr tt, on w q) -> Forall is_u8 q.
Proof.
  intros Hu Hh Hl Ht Hn Hp H. destruct (ok_fill hdr n Hh Hl Ht Hn (on w p)) as (r & w1 & E & _ & R); [now split|].
  rewrite H in E. injection E as <- <-. apply R.
Qed.

(** What follows the checksums. *)
Lemma finish_go xdp w e i t r ip_len hdr cookie ts mss ws ck v w' : let opts := encode_all (synack_options ts mss ws) in
  let h := synack_header t cookie ts mss ws ck in
  length e = 14%nat -> length i = ip_len -> length t = 20%nat -> length ck = 2%nat -> tcp hdr = (ETH_SZ + ip_len)%nat ->
  Forall is_u8 (pk e i h opts r) -> Z.of_nat (length (pk e i h opts r)) < 2 ^ 31 ->
  (old_pkt_size <- get (fun w => u32 (Z.of_nat (length (pkt w)))) ;;
   doff <- tcp_doff (tcp hdr) ;;
   set_size xdp old_pkt_size (u32 (Z.of_nat (ETH_SZ + ip_len) + doff * 4)) ;;
   values_inc_synacks ;;
   ret XDP_TX) (on w (pk e i h opts r)) = Some (inr v, w') ->
  sent w w' (e ++ i ++ h ++ opts).
Proof.
  intros opts h Le Li Lt Lc Htcp Hu Hl H. apply go_bind in H as (old & w1 & [-> ->]%go_get & H).
  change (pkt (on w ?q)) with q in H. rewrite Htcp in H. unfold ETH_SZ in *.
  rewrite (bind_inr _ _ _ _ _ (doff_run w e i t opts r (14 + ip_len) cookie ts mss ws ck ltac:(lia) Lt Lc)) in H.
  destruct (words_len ts mss ws) as [Ew _]. fold h in H.
  assert (Eh : pk e i h opts r = (e ++ i ++ h ++ opts) ++ r) by (unfold pk; now rewrite <- !app_assoc).
  rewrite Eh in H, Hu, Hl. apply (cut_tail xdp _ _ r (Z.of_nat (14 + ip_len) + words_of ts mss ws * 4) v); [exact Hu | exact Hl | | exact H].
  rewrite !length_app, Le, Li. unfold h. rewrite header_length by assumption. unfold reply_len in Ew. fold opts in Ew. lia.
Qed.

(** The answer as it is built over the request: the headers, what the old packet
    leaves behind them, and that the sums are right. *)
Section Build.
Variables (w : world) (cookie : Z) (ts : option (Z * Z)) (mss ws ttl : Z).
Let p := pkt w.
Hypotheses (Hu : Forall is_u8 p) (Hc : is_u32 cookie) (Hts : ts_u32 ts) (Hv : Forall is_u64 (values w)).

Let len := reply_len ts mss ws.
Let opts := encode_all (synack_options ts mss ws).

Lemma built4 T l : 20 <= l <= 60 -> byte p 14 / 16 = 4 -> 5 <= byte p 14 mod 16 -> byte p 23 = IPPROTO_TCP ->
  T = (ETH_SZ + Z.to_nat (byte p 14 mod 16 * 4))%nat -> (T + TCP_MAXLEN <= length p)%nat ->
  tcpip_opts (values w) false = (mss, ws, ttl) ->
  exists ck ck' r, let i := synack_ip4 (sub p 14 20) ttl len ck in let h := synack_header (sub p T 20) cookie ts mss ws ck' in
    let q := pk (synack_eth (sub p 0 14)) i h opts r in
    (forall A (k : header_pointers -> M A), (h <- gen_synack (headers4 T l) cookie (words ts) ;; fill_checksums h ;; k h) w = k (headers4 34 len) (on w q)) /\
    Forall is_u8 q /\ length q = length p /\ length i = 20%nat /\ length ck' = 2%nat /\ csum_valid i /\ csum_valid (pseudo4 i (h ++ opts)).
Proof.
  intros Hl Hver Hihl Hproto HT Hroom Hopts.
  assert (Ew : w = on w p) by (unfold p; now destruct w).
  destruct (gen_synack4 p w cookie ts mss ws ttl Hu Hc Hts Hv T l Hver Hihl Hproto HT Hroom Hopts) as (r & Lr & Hg).
  unfold ETH_SZ, TCP_MAXLEN in *. pose proof (words_len ts mss ws) as [_ Wl].
  assert (Ls : forall o n, (o + n <= length p)%nat -> length (sub p o n) = n) by (intros; now apply sub_length).
  assert (UP := Hg). apply (gen_u8 _ _ _ w p (length p) _ _ Hu) in UP; [| | lia | unfold ETH_SZ, IP_SZ, TCP_MAXLEN; lia].
  2: { split; [apply headers4_ok|]. unfold headers4, ETH_SZ, TCP_MAXLEN, IPV4_MAXLEN. cbn [tcp tcp_len].
       split; [exact Hl|]. split; [lia | intros _; lia]. }
  destruct (fill_reply4 w (synack_eth (sub p 0 14)) r (sub p 14 20) (sub p T 20) cookie ts mss ws ttl) as (ck & ck' & Hf & L1 & L2 & V1 & V2);
    [apply synack_eth_length, Ls; lia | apply Ls; lia | apply Ls; lia | exact UP|].
  assert (Li : forall c, length c = 2%nat -> length (synack_ip4 (sub p 14 20) ttl len c) = 20%nat)
    by (intros c Hc2; apply put_ck_ip4; [apply Ls; lia | exact Hc2]).
  assert (Lp : forall c c', length c = 2%nat -> length c' = 2%nat -> length (pk (synack_eth (sub p 0 14))
    (synack_ip4 (sub p 14 20) ttl len c) (synack_header (sub p T 20) cookie ts mss ws c') opts r) = length p).
  { intros c c' Hc1 Hc2. unfold pk. rewrite !length_app, header_length, Li by (assumption || apply Ls; lia).
    rewrite synack_eth_length by (apply Ls; lia). unfold opts. lia. }
  exists ck, ck', r. split; [intros A k; rewrite Ew at 1; rewrite (bind_inr _ _ _ _ _ Hg); now rewrite (bind_inr _ _ _ _ _ Hf)|].
  split; [|split; [now apply Lp | split; [now apply Li | now split]]].
  apply (fill_u8 _ _ _ (length p)) in Hf; [exact Hf | exact UP | apply headers4_ok | cbn [tcp_len headers4]; lia
    | cbn [tcp headers4]; unfold TCP_MAXLEN; lia | unfold ETH_SZ, IP_SZ; lia |]. apply Nat.eq_le_incl, eq_sym, (Lp [0; 0] [0; 0]); reflexivity.
Qed.

Lemma built6 l : 20 <= l <= 60 -> byte p 20 = NEXTHDR_TCP -> (ETH_SZ + IP6_SZ + TCP_MAXLEN <= length p)%nat ->
  tcpip_opts (values w) true = (mss, ws, ttl) ->
  exists ck' r, let i := synack_ip6 (sub p 14 40) ttl len in let h := synack_header (sub p 54 20) cookie ts mss ws ck' in
    let q := pk (synack_eth (sub p 0 14)) i h opts r in
    (forall A (k : header_pointers -> M A), (h <- gen_synack (headers6 l) cookie (words ts) ;; fill_checksums h ;; k h) w = k (headers6 len) (on w q)) /\
    Forall is_u8 q /\ length q = length p /\ length i = 40%nat /\ length ck' = 2%nat /\ csum_valid (pseudo6 i (h ++ opts)).
Proof.
  intros Hl Hproto Hroom Hopts.
  assert (Ew : w = on w p) by (unfold p; now destruct w).
  destruct (gen_synack6 p w cookie ts mss ws ttl Hu Hc Hts Hv l Hproto Hroom Hopts) as (r & Lr & Hg).
  unfold ETH_SZ, IP6_SZ, TCP_MAXLEN in Hroom. pose proof (words_len ts mss ws) as [_ Wl].
  assert (Ls : forall o n, (o + n <= length p)%nat -> length (sub p o n) = n) by (intros; now apply sub_length).
  assert (UP := Hg). apply (gen_u8 _ _ _ w p (length p) _ _ Hu) in UP; [| | lia | unfold ETH_SZ, IP_SZ, TCP_MAXLEN; lia].
  2: { split; [apply headers6_ok|]. unfold headers6, ETH_SZ, IP6_SZ, TCP_MAXLEN. cbn [tcp tcp_len ipv4].
       split; [exact Hl|]. split; [lia | congruence]. }
  destruct (fill_reply6 w (synack_eth (sub p 0 14)) r (sub p 14 40) (sub p 54 20) cookie ts mss ws ttl) as (ck' & Hf & L2 & V2);
    [apply synack_eth_length, Ls; lia | apply Ls; lia | apply Ls; lia | exact UP|].
  assert (Li : length (synack_ip6 (sub p 14 40) ttl len) = 40%nat)
    by (assert (X := Ls 14%nat 40%nat ltac:(lia)); set (i := sub p 14 40) in *; clearbody i; clear - X; now explode i).
  assert (Lp : forall c', length c' = 2%nat -> length (pk (synack_eth (sub p 0 14)) (synack_ip6 (sub p 14 40) ttl len)
    (synack_header (sub p 54 20) cookie ts mss ws c') opts r) = length p).
  { intros c' Hc'. unfold pk. rewrite !length_app, header_length, Li by (assumption || apply Ls; lia).
    rewrite synack_eth_length by (apply Ls; lia). unfold opts. lia. }
  exists ck', r. split; [intros A k; rewrite Ew at 1; rewrite (bind_inr _ _ _ _ _ Hg); now rewrite (bind_inr _ _ _ _ _ Hf)|].
  split; [|split; [now apply Lp | split; [exact Li | now split]]].
  apply (fill_u8 _ _ _ (length p)) in Hf; [exact Hf | exact UP | apply headers6_ok | cbn [tcp_len headers6]; lia
    | cbn [tcp headers6]; unfold TCP_MAXLEN, ETH_SZ, IP6_SZ; lia | unfold ETH_SZ, IP_SZ; lia |]. apply Nat.eq_le_incl, eq_sym, (Lp [0; 0]); reflexivity.
Qed.

Lemma send4_go xdp T l v w' : Z.of_nat (length p) < 2 ^ 31 -> 20 <= l <= 60 ->
  byte p 14 / 16 = 4 -> 5 <= byte p 14 mod 16 -> byte p 23 = IPPROTO_TCP ->
  T = (ETH_SZ + Z.to_nat (byte p 14 mod 16 * 4))%nat -> (T + TCP_MAXLEN <= length p)%nat ->
  tcpip_opts (values w) false = (mss, ws, ttl) ->
  send_synack xdp IP_SZ (headers4 T l) cookie (words ts) w = Some (inr v, w') ->
  exists ck ck', let i := synack_ip4 (sub p 14 20) ttl len ck in let s := synack_header (sub p T 20) cookie ts mss ws ck' ++ opts in
    sent w w' (synack_eth (sub p 0 14) ++ i ++ s) /\ csum_valid i /\ csum_valid (pseudo4 i s).
Proof.
  intros Hlen Hl Hver Hihl Hproto HT Hroom Hopts H.
  destruct (built4 T l Hl Hver Hihl Hproto HT Hroom Hopts) as (ck & ck' & r & Hk & Uq & Lq & Li & L2 & V). exists ck, ck'. split; [|exact V].
  unfold send_synack in H. rewrite Hk in H. unfold ETH_SZ, TCP_MAXLEN in *.
  apply (finish_go xdp w _ (synack_ip4 _ ttl _ ck) (sub p T 20) r IP_SZ) in H; try (assumption || reflexivity);
    [apply synack_eth_length, sub_length; lia | apply sub_length; lia | eapply eq_ind_r with (P := fun n => Z.of_nat n < _); [exact Hlen | exact Lq]].
Qed.

Lemma send6_go xdp l v w' : Z.of_nat (length p) < 2 ^ 31 -> 20 <= l <= 60 ->
  byte p 20 = NEXTHDR_TCP -> (ETH_SZ + IP6_SZ + TCP_MAXLEN <= length p)%nat -> tcpip_opts (values w) true = (mss, ws, ttl) ->
  send_synack xdp IP6_SZ (headers6 l) cookie (words ts) w = Some (inr v, w') ->
  exists ck', let i := synack_ip6 (sub p 14 40) ttl len in let s := synack_header (sub p 54 20) cookie ts mss ws ck' ++ opts in
    sent w w' (synack_eth (sub p 0 14) ++ i ++ s) /\ csum_valid (pseudo6 i s).
Proof.
  intros Hlen Hl Hproto Hroom Hopts H.
  destruct (built6 l Hl Hproto Hroom Hopts) as (ck' & r & Hk & Uq & Lq & Li & L2 & V). exists ck'. split; [|exact V].
  unfold send_synack in H. rewrite Hk in H. unfold ETH_SZ, IP6_SZ, TCP_MAXLEN in *.
  apply (finish_go xdp w _ (synack_ip6 _ ttl _) (sub p 54 20) r IP6_SZ) in H; try (assumption || reflexivity);
    [apply synack_eth_length, sub_length; lia | apply sub_length; lia | eapply eq_ind_r with (P := fun n => Z.of_nat n < _); [exact Hlen | exact Lq]].
Qed.

End Build.

End Send.

End Synack.
