(* ===== verification/SynProxy.v ===== *)
(** The SYN proxy as a whole: what the two programs of
    progs/xdp_synproxy_kern.rs do with a packet, on the model of XdpSynproxy.v
    and the answers of Synack.v. *)

From S2P Require Import Prelude Kernel Early Packet XdpSynproxy Synack.
Local Open Scope early_scope.

Module SynProxy.

Import Synproxy Synack.

(** ** The requests that are answered *)

(** The ports the map lists: up to the first zero. *)
Fixpoint until_zero (l : list Z) : list Z :=
  match l with [] => [] | v :: l => if v =? 0 then [] else v :: until_zero l end.

Lemma skipn_nth (l : list Z) i v : nth_error l i = Some v -> skipn i l = v :: skipn (S i) l.
Proof. revert i; induction l as [|x l IH]; intros [|i] H; try discriminate; [now injection H as -> | now apply IH]. Qed.

Lemma port_allowed_spec ports port n i : port_allowed ports port n i = true <-> In port (until_zero (firstn n (skipn i ports))).
Proof.
  revert i; induction n as [|n IH]; intros i; cbn [port_allowed]; [rewrite firstn_O; cbn; easy|].
  destruct (nth_error ports i) as [v|] eqn:E.
  - rewrite (skipn_nth _ _ _ E). cbn [firstn until_zero]. destruct (v =? 0); [easy|]. destruct (Z.eqb_spec v port) as [->|N].
    + now split; [left|].
    + rewrite IH. cbn [In]. tauto.
  - rewrite skipn_all2 by (now apply nth_error_None). easy.
Qed.

(** Where the TCP header is, and the header with its options. *)
Definition is_ip6 (p : list Z) : bool := to_be (word16 p 12) =? ETH_P_IPV6.
Definition ihl (p : list Z) : nat := Z.to_nat (byte p 14 mod 16 * 4).
Definition tcp_at (p : list Z) : nat := if is_ip6 p then (ETH_SZ + IP6_SZ)%nat else (ETH_SZ + ihl p)%nat.
Definition doff (p : list Z) : nat := Z.to_nat (byte p (tcp_at p + 12) / 16 * 4).
Definition segment (p : list Z) : list Z := sub p (tcp_at p) (doff p).
Definition flag (p : list Z) (k : Z) : bool := Z.testbit (byte p (tcp_at p + 13)) k.

(** A SYN that is to be answered: to an allowed port, no part of a known
    connection, with checksums that are right. *)
Definition checksums_ok (p : list Z) : Prop :=
  if is_ip6 p then csum_valid (pseudo6 (sub p 14 40) (segment p))
  else csum_valid (sub p 14 (ihl p)) /\ csum_valid (pseudo4 (sub p 14 20) (segment p)).

Definition headers_ok (p : list Z) : Prop :=
  if is_ip6 p then ip6_header p else ip4_header p /\ Z.land (word16 p 20) (to_be (Z.lor IP_MF IP_OFFSET)) = 0.

Definition tuple (p : list Z) : list Z := if is_ip6 p then tuple6 p (tcp_at p) else tuple4 p (tcp_at p).

Section Theorems.
Context {L : KLoop} {K : Kernel} {KO : KernelOk K}.

Record syn_request (xdp : bool) (ports : list Z) (p : list Z) : Prop := build_request {
  req_headers : headers_ok p;
  req_length : (20 <= doff p)%nat /\ (tcp_at p + doff p <= length p)%nat;
  req_unknown : unknown xdp (tuple p);
  req_flags : flag p 1 = true /\ flag p 0 = false /\ flag p 2 = false /\ flag p 4 = false;
  req_port : In (to_be (word16 p (tcp_at p + 2))) (until_zero (firstn MAX_ALLOWED_PORTS ports));
  req_checksums : checksums_ok p
}.

(** The cookie the kernel makes of the request. *)
Definition cookie_of (p : list Z) : Z :=
  u32 (if is_ip6 p then bpf_tcp_raw_gen_syncookie_ipv6 (sub p 14 40) (segment p)
       else bpf_tcp_raw_gen_syncookie_ipv4 (sub p 14 20) (segment p)).

(** A packet that has grown. *)
Lemma grown_app p p' n : regrown p p' n -> Z.of_nat (length p) <= n -> exists x, p' = p ++ x.
Proof.
  intros (Hn & Hs & _) Hl. exists (skipn (length p) p'). unfold same_prefix in Hs.
  rewrite Nat.min_l, firstn_all in Hs by lia. rewrite <- Hs at 1. symmetry. apply firstn_skipn.
Qed.

Lemma sub_app p x o n : (o + n <= length p)%nat -> sub (p ++ x) o n = sub p o n.
Proof. intros H. exact (sub_in [] p x o n H). Qed.

Lemma byte_app_l p x k : (k < length p)%nat -> byte (p ++ x) k = byte p k.
Proof. intros H. unfold byte. now rewrite app_nth1. Qed.

Lemma word16_app_l p x k : (k + 1 < length p)%nat -> word16 (p ++ x) k = word16 p k.
Proof. intros H. unfold word16. now rewrite !byte_app_l by lia. Qed.

Lemma word32_app_l p x k : (k + 3 < length p)%nat -> word32 (p ++ x) k = word32 p k.
Proof. intros H. unfold word32. now rewrite !word16_app_l by lia. Qed.

(** The test of the flags. *)
Lemma land_pow2 v k : 0 <= k -> Z.land v (2 ^ k) = if Z.testbit v k then 2 ^ k else 0.
Proof.
  intros Hk. apply Z.bits_inj'; intros n Hn. rewrite Z.land_spec, Z.pow2_bits_eqb by lia.
  destruct (Z.eqb_spec k n) as [<-|N]; [rewrite andb_true_r | rewrite andb_false_r]; destruct (Z.testbit v k);
    rewrite ?Z.pow2_bits_eqb, ?Z.bits_0 by lia; try reflexivity; [now rewrite Z.eqb_refl|]. symmetry. now apply Z.eqb_neq.
Qed.

Lemma syn_flags f : Z.lxor (Z.shiftr (Z.land f TCPF_SYN) 1) (Z.shiftr (Z.land f TCPF_ACK) 4) = 1 ->
  has f TCPF_SYN = true -> has f (Z.lor TCPF_FIN TCPF_RST) = false ->
  Z.testbit f 1 = true /\ Z.testbit f 0 = false /\ Z.testbit f 2 = false /\ Z.testbit f 4 = false.
Proof.
  unfold TCPF_SYN, TCPF_ACK, has. rewrite !land_pow2 by lia. intros Hx Hs Hr.
  destruct (Z.testbit f 1); [|discriminate]. destruct (Z.testbit f 4); [discriminate|].
  apply negb_false_iff, Z.eqb_eq in Hr.
  assert (B : forall n, Z.testbit (Z.lor TCPF_FIN TCPF_RST) n = true -> Z.testbit f n = false).
  { intros n Hn. rewrite <- (andb_true_r (Z.testbit f n)), <- Hn, <- Z.land_spec, Hr. apply Z.bits_0. }
  now rewrite !B by reflexivity.
Qed.

Lemma body_go xdp w w' : Forall is_u8 (pkt w) -> result (hdr <- syncookie_part1 xdp ;; syncookie_part2 xdp hdr) w = Some (XDP_TX, w') ->
  exists hdr w1, syncookie_part1 xdp w = Some (inr hdr, w1) /\ syncookie_part2 xdp hdr w1 = Some (inr XDP_TX, w').
Proof.
  intros Hu H. destruct (ok_body xdp w) as (r & w2 & E & _ & R); [split; [lia | exact Hu]|].
  unfold result in H. rewrite E in H. destruct r as [v|v]; injection H as -> ->; [now destruct R|]. now apply go_bind in E.
Qed.

(** What is sent for the SYN in [w]; [x] is what the kernel grew the packet by. *)
Definition answered (w w' : world) : Prop :=
  let p := pkt w in let '(mss, ws, ttl) := tcpip_opts (values w) (is_ip6 p) in
  exists x ck ck', let ts := ts_answer (on w (p ++ x)) (tcp_at p) in
    let len := reply_len ts mss ws in
    let s := synack_header (sub p (tcp_at p) 20) (cookie_of p) ts mss ws ck' ++ encode_all (synack_options ts mss ws) in
    let i := if is_ip6 p then synack_ip6 (sub p 14 40) ttl len else synack_ip4 (sub p 14 20) ttl len ck in
    sent w w' (synack_eth (sub p 0 14) ++ i ++ s) /\
    if is_ip6 p then csum_valid (pseudo6 i s) else csum_valid i /\ csum_valid (pseudo4 i s).

(** The checksums the SYN handler has checked are right. *)
Lemma checked4 p T l : Forall is_u8 p -> 20 <= l <= 60 -> l mod 4 = 0 -> (T + Z.to_nat l <= length p)%nat -> (14 + ihl p <= length p)%nat ->
  (34 <= length p)%nat ->
  csum_fold (u32 (bpf_csum_diff (sub p 14 (ihl p)))) = 0 ->
  csum_tcpudp_magic (word32 p 26) (word32 p 30) l IPPROTO_TCP (u32 (bpf_csum_diff (sub p T (Z.to_nat l)))) = 0 ->
  csum_valid (sub p 14 (ihl p)) /\ csum_valid (pseudo4 (sub p 14 20) (sub p T (Z.to_nat l))).
Proof.
  intros Hu Hl Hm HT Hi H34 H1 H2. assert (Ls : length (sub p T (Z.to_nat l)) = Z.to_nat l) by (apply sub_length; lia). split; apply folds_zero.
  - rewrite <- H1. apply diff_folds; [now apply sub_u8|]. rewrite sub_length by lia. unfold ihl. rewrite Z.mul_comm, Z2Nat.inj_mul by (try apply Z.mod_pos_bound; lia).
    change (Z.to_nat 4) with 4%nat. rewrite Nat.mul_comm. apply Nat.Div0.mod_mul.
  - rewrite <- H2. pose proof (pseudo4_folds (sub p 14 20) (sub p T (Z.to_nat l))) as F. rewrite !word32_sub, Ls, Z2Nat.id in F by lia.
    apply F; [apply sub_length; lia | now apply sub_u8 | now apply sub_u8 | | lia].
    apply Nat2Z.inj. rewrite Nat2Z.inj_mod, Z2Nat.id by lia. exact Hm.
Qed.

Lemma checked6 p l : Forall is_u8 p -> 20 <= l <= 60 -> l mod 4 = 0 -> (54 + Z.to_nat l <= length p)%nat ->
  csum_ipv6_magic (words32 (sub p 22 16) 0 4) (words32 (sub p 38 16) 0 4) l IPPROTO_TCP (u32 (bpf_csum_diff (sub p 54 (Z.to_nat l)))) = 0 ->
  csum_valid (pseudo6 (sub p 14 40) (sub p 54 (Z.to_nat l))).
Proof.
  intros Hu Hl Hm HT H2. assert (Ls : length (sub p 54 (Z.to_nat l)) = Z.to_nat l) by (apply sub_length; lia). apply folds_zero.
  rewrite <- H2. pose proof (pseudo6_folds (sub p 14 40) (sub p 54 (Z.to_nat l))) as F. rewrite !sub_sub, Ls, Z2Nat.id in F by lia.
  apply F; [apply sub_length; lia | now apply sub_u8 | now apply sub_u8 | | lia].
  apply Nat2Z.inj. rewrite Nat2Z.inj_mod, Z2Nat.id by lia. exact Hm.
Qed.

(** The two versions, after part 1. *)
Lemma answer4 xdp w w' x : let p := pkt w in let T := (ETH_SZ + ihl p)%nat in let len := byte p (T + 12) / 16 * 4 in
  Forall is_u8 (p ++ x) -> Z.of_nat (length (p ++ x)) < 2 ^ 31 -> Forall is_u64 (values w) -> is_ip6 p = false -> ip4_header p ->
  (T + 20 <= length p)%nat -> Z.of_nat (length (p ++ x)) = Z.of_nat (length p) + 60 - len -> 20 <= len <= 60 ->
  syncookie_part2 xdp (headers4 T len) (on w (p ++ x)) = Some (inr XDP_TX, w') ->
  Z.lxor (Z.shiftr (Z.land (byte p (T + 13)) TCPF_SYN) 1) (Z.shiftr (Z.land (byte p (T + 13)) TCPF_ACK) 4) = 1 ->
  (T + Z.to_nat len <= length p)%nat /\ (flag p 1 = true /\ flag p 0 = false /\ flag p 2 = false /\ flag p 4 = false) /\
  In (to_be (word16 p (T + 2))) (until_zero (firstn MAX_ALLOWED_PORTS (allowed_ports w))) /\
  checksums_ok p /\ answered w w'.
Proof.
  intros p T len Hu Hl Hv H6 Hip Ht Hn Hlen H Hx. set (q := p ++ x) in *.
  assert (Bq : forall k, (k < length p)%nat -> byte q k = byte p k) by (intros; now apply byte_app_l).
  assert (Hmin : (54 <= length p)%nat) by (destruct Hip as (_ & Hi & _); unfold T, ihl, ETH_SZ in *; lia).
  apply (part2_go xdp _ (on w q) w' Hu (headers4_ok T len)) in H. cbv zeta in H. change (pkt (on w q)) with q in H.
  change (ipv4 (headers4 T len)) with (Some ETH_SZ) in H. change (ipv6 (headers4 T len)) with (@None nat) in H. cbv iota in H.
  rewrite (Bq 14%nat) in H by lia. change (ETH_SZ + Z.to_nat (byte p 14 mod 16 * 4))%nat with T in H.
  rewrite !(Bq (T + 12)%nat), !(Bq (T + 13)%nat) in H by lia.
  destruct H as (ip_len & value & w2 & Hroom & _ & Hsyn & Hfr & Hport & Hck & Hroom2 & (n & Ew2) & Hsend).
  assert (HT : (T + Z.to_nat len <= length p)%nat) by (unfold TCP_MAXLEN in Hroom; lia). split; [exact HT|].
  assert (ET : tcp_at p = T) by (unfold tcp_at; now rewrite H6).
  assert (Up : Forall is_u8 p) by now apply Forall_app in Hu.
  apply syn_checksums_go in Hck. cbv zeta in Hck. cbn [ipv4 tcp tcp_len] in Hck. change (pkt (on w q)) with q in Hck.
  destruct Hck as (_ & Hc1 & Hc2 & Hr). apply pair_equal_spec in Hr as [-> ->]. unfold ETH_SZ, IP_SZ in *. change (14 + 12)%nat with 26%nat in Hc2. change (14 + 16)%nat with 30%nat in Hc2.
  rewrite (Bq 14%nat) in Hc1 by lia. fold (ihl p) in Hc1. fold len in Hc2, Hsend.
  assert (Hi : (14 + ihl p <= length p)%nat) by (unfold T in *; lia).
  unfold q in Hc1, Hc2, Hport, Hsend. rewrite sub_app in Hc1 by lia. rewrite sub_app, !word32_app_l in Hc2 by lia.
  rewrite !sub_app in Hsend by lia. rewrite word16_app_l in Hport by lia. fold q in Hsend.
  assert (Hm : len mod 4 = 0) by (unfold len; apply Z_mod_mult).
  destruct (checked4 p T len Up Hlen Hm HT Hi ltac:(lia) Hc1 Hc2) as [V1 V2].
  assert (Es : segment p = sub p T (Z.to_nat len)) by (unfold segment, doff; now rewrite ET).
  unfold flag, checksums_ok, answered, cookie_of. cbv zeta. fold p. rewrite H6, ET, Es.
  split; [now apply syn_flags|]. split; [apply port_allowed_spec in Hport; exact Hport|]. split; [now split|].
  destruct (tcpip_opts (values w) false) as [[mss ws] ttl] eqn:Eo.
  pose proof (ts_answer_u32 (on w q) T Hu) as Hts. destruct Hip as (_ & Hi5 & Hi4 & Hpr).
  apply (send4_go w2 _ _ mss ws ttl) in Hsend; subst w2; try assumption; try apply u32_range; flds; change (pkt (on w q)) with q in *;
    rewrite ?Bq by lia; try assumption; try reflexivity; try lia.
  assert (Sq : forall o n, (o + n <= length p)%nat -> sub q o n = sub p o n) by (intros; now apply sub_app).
  rewrite !Sq in Hsend by lia. destruct Hsend as (ck & ck' & Hs & W1 & W2). exists x, ck, ck'. now split.
Qed.

Lemma answer6 xdp w w' x : let p := pkt w in let len := byte p 66 / 16 * 4 in
  Forall is_u8 (p ++ x) -> Z.of_nat (length (p ++ x)) < 2 ^ 31 -> Forall is_u64 (values w) -> is_ip6 p = true -> ip6_header p ->
  (74 <= length p)%nat -> Z.of_nat (length (p ++ x)) = Z.of_nat (length p) + 60 - len -> 20 <= len <= 60 ->
  syncookie_part2 xdp (headers6 len) (on w (p ++ x)) = Some (inr XDP_TX, w') ->
  Z.lxor (Z.shiftr (Z.land (byte p 67) TCPF_SYN) 1) (Z.shiftr (Z.land (byte p 67) TCPF_ACK) 4) = 1 ->
  (54 + Z.to_nat len <= length p)%nat /\ (flag p 1 = true /\ flag p 0 = false /\ flag p 2 = false /\ flag p 4 = false) /\
  In (to_be (word16 p 56)) (until_zero (firstn MAX_ALLOWED_PORTS (allowed_ports w))) /\
  checksums_ok p /\ answered w w'.
Proof.
  intros p len Hu Hl Hv H6 Hip Ht Hn Hlen H Hx. set (q := p ++ x) in *.
  assert (Bq : forall k, (k < length p)%nat -> byte q k = byte p k) by (intros; now apply byte_app_l).
  assert (Sq : forall o n, (o + n <= length p)%nat -> sub q o n = sub p o n) by (intros; now apply sub_app).
  apply (part2_go xdp _ (on w q) w' Hu (headers6_ok len)) in H. cbv zeta in H. change (pkt (on w q)) with q in H.
  change (ipv4 (headers6 len)) with (@None nat) in H. change (ipv6 (headers6 len)) with (Some ETH_SZ) in H. cbv iota in H.
  change (ETH_SZ + IP6_SZ)%nat with 54%nat in H. change (54 + 12)%nat with 66%nat in H. change (54 + 13)%nat with 67%nat in H.
  rewrite !(Bq 66%nat), !(Bq 67%nat) in H by lia.
  destruct H as (ip_len & value & w2 & Hroom & _ & Hsyn & Hfr & Hport & Hck & Hroom2 & (n & Ew2) & Hsend).
  assert (HT : (54 + Z.to_nat len <= length p)%nat) by (unfold TCP_MAXLEN in Hroom; lia). split; [exact HT|].
  assert (ET : tcp_at p = 54%nat) by (unfold tcp_at; now rewrite H6).
  assert (Up : Forall is_u8 p) by now apply Forall_app in Hu.
  apply syn_checksums_go in Hck. cbv zeta in Hck. cbn [ipv4 ipv6 tcp tcp_len] in Hck. change (pkt (on w q)) with q in Hck.
  destruct Hck as (_ & ip & Hip_ & Hc & Hr). injection Hip_ as <-. apply pair_equal_spec in Hr as [-> ->].
  unfold ETH_SZ, IP6_SZ in *. change (14 + 8)%nat with 22%nat in Hc. change (14 + 24)%nat with 38%nat in Hc.
  fold len in Hc, Hsend. change (54 + 2)%nat with 56%nat in Hport. rewrite !(Sq 54%nat (Z.to_nat len)) in Hc, Hsend by lia. rewrite !Sq in Hc by lia. rewrite !Sq in Hsend by lia.
  unfold q in Hport. rewrite word16_app_l in Hport by lia.
  assert (Hm : len mod 4 = 0) by (unfold len; apply Z_mod_mult).
  pose proof (checked6 p len Up Hlen Hm HT Hc) as V.
  assert (Es : segment p = sub p 54 (Z.to_nat len)) by (unfold segment, doff; now rewrite ET).
  unfold flag, checksums_ok, answered, cookie_of. cbv zeta. fold p. rewrite H6, ET, Es. change (54 + 13)%nat with 67%nat.
  split; [now apply syn_flags|]. split; [apply port_allowed_spec in Hport; exact Hport|]. split; [exact V|].
  destruct (tcpip_opts (values w) true) as [[mss ws] ttl] eqn:Eo.
  pose proof (ts_answer_u32 (on w q) 54 Hu) as Hts. destruct Hip as (_ & _ & Hpr).
  apply (send6_go w2 _ _ mss ws ttl) in Hsend; subst w2; try assumption; try apply u32_range; flds; change (pkt (on w q)) with q in *;
    rewrite ?Bq by lia; try assumption; try reflexivity; try lia.
  rewrite !Sq in Hsend by lia. destruct Hsend as (ck' & Hs & W). exists x, [], ck'. now split.
Qed.

(** What a packet of part 1 looks like. *)
Lemma seen_headers p hdr : found4 p hdr /\ ip4_header p \/ found6 hdr /\ ip6_header p -> eth hdr = O ->
  tcp hdr = tcp_at p /\ (is_ip6 p = false /\ ip4_header p /\ ipv4 hdr = Some ETH_SZ /\ ipv6 hdr = None \/
                         is_ip6 p = true /\ ip6_header p /\ ipv4 hdr = None /\ ipv6 hdr = Some ETH_SZ).
Proof.
  intros [[(F4 & F6 & Ft) H]|[(F4 & F6 & Ft) H]] _; unfold tcp_at, is_ip6; pose proof H as (-> & _).
  - split; [exact Ft | left]. now split.
  - split; [exact Ft | right]. now split.
Qed.

(** Both programs. *)
Lemma body_answers xdp w w' : Forall is_u8 (pkt w) -> Z.of_nat (length (pkt w)) <= MAX_PACKET_OFF -> Forall is_u64 (values w) ->
  result (hdr <- syncookie_part1 xdp ;; syncookie_part2 xdp hdr) w = Some (XDP_TX, w') ->
  syn_request xdp (allowed_ports w) (pkt w) /\ answered w w'.
Proof.
  intros Hu Hl Hv H. apply body_go in H as (hdr & w1 & H1 & H2); [|exact Hu].
  destruct (part1_go xdp w hdr w1 Hu Hl H1) as (p' & -> & Hg & He & Ht & Hlen & Hr & Hx & Hf).
  destruct (grown_app _ _ _ Hg ltac:(lia)) as (x & ->). destruct Hg as (Hn & _ & Ux). clear H1.
  assert (Hf' : found4 (pkt w) hdr /\ ip4_header (pkt w) \/ found6 hdr /\ ip6_header (pkt w)) by tauto.
  destruct (seen_headers (pkt w) hdr Hf' He) as (Et & Hc). unfold MAX_PACKET_OFF, TCP_SZ in *.
  assert (Ux31 : Z.of_nat (length (pkt w ++ x)) < 2 ^ 31) by lia. destruct hdr as [e i4 i6 T len]. cbn [eth ipv4 ipv6 tcp tcp_len] in *. subst e T len.
  destruct Hc as [(H6 & Hip & -> & ->)|(H6 & Hip & -> & ->)].
  - assert (ET : tcp_at (pkt w) = (ETH_SZ + ihl (pkt w))%nat) by (unfold tcp_at; now rewrite H6). rewrite ET in *.
    change (syncookie_part2 xdp (headers4 (ETH_SZ + ihl (pkt w)) (byte (pkt w) (ETH_SZ + ihl (pkt w) + 12) / 16 * 4)) (on w (pkt w ++ x)) = Some (inr XDP_TX, w')) in H2.
    destruct (answer4 xdp w w' x Ux Ux31 Hv H6 Hip Ht Hn Hr H2 Hx) as (HT & Hfl & Hp & Hck & Ha). split; [|exact Ha].
    destruct Hf as [(_ & _ & Hfrag & Hk)|((D & _) & _)]; [|discriminate].
    apply build_request; unfold headers_ok, tuple, doff; rewrite ?H6, ?ET; try assumption; try (now split).
    split; [lia | exact HT].
  - assert (ET : tcp_at (pkt w) = 54%nat) by (unfold tcp_at; now rewrite H6). rewrite ET in *.
    change (54 + 12)%nat with 66%nat in *. change (54 + 13)%nat with 67%nat in *.
    change (syncookie_part2 xdp (headers6 (byte (pkt w) 66 / 16 * 4)) (on w (pkt w ++ x)) = Some (inr XDP_TX, w')) in H2.
    destruct (answer6 xdp w w' x Ux Ux31 Hv H6 Hip Ht Hn Hr H2 Hx) as (HT & Hfl & Hp & Hck & Ha). split; [|exact Ha].
    destruct Hf as [((D & _) & _)|(_ & _ & Hk)]; [discriminate|].
    apply build_request; unfold headers_ok, tuple, doff; rewrite ?H6, ?ET; try assumption.
    split; [change (54 + 12)%nat with 66%nat; lia | exact HT].
Qed.

(** C13. A packet is sent back only for a valid SYN: TCP over an unfragmented
    IPv4 or an IPv6 header, to an allowed port, of no known connection, with SYN
    and without ACK, FIN or RST, its checksums right.  What is sent is exactly
    the SYN-ACK that answers it: addresses and ports exchanged, the cookie as
    sequence number, the request's sequence number plus one acknowledged, the
    options of the answer, right checksums, cut to its length; the counter of
    SYN-ACKs is one more. *)
Theorem synack_sent w w' : Forall is_u8 (pkt w) -> Z.of_nat (length (pkt w)) <= MAX_PACKET_OFF -> Forall is_u64 (values w) ->
  syncookie_xdp w = Some (XDP_TX, w') ->
  syn_request true (allowed_ports w) (pkt w) /\ answered w w'.
Proof. apply body_answers. Qed.

(** C15. Neither program ever reads or writes outside the packet, whatever its
    bytes are: both run to the end, and give back every reference to a
    connection they took.  *)
Theorem stays_in_packet w ifindex : Forall is_u8 (pkt w) ->
  (exists r w', syncookie_xdp w = Some (r, w') /\ ct_refs w' = ct_refs w) /\
  (exists r w', syncookie_tc ifindex w = Some (r, w') /\ ct_refs w' = ct_refs w).
Proof.
  intros Hu. assert (R : room 0 w) by (split; [lia | exact Hu]). split.
  - destruct (ok_body true w R) as (r & w' & E & Er & _). unfold syncookie_xdp, result. rewrite E. destruct r; eauto.
  - unfold syncookie_tc. destruct (ok_part1 false w R) as (r & w1 & E & Er & H). rewrite E. destruct r as [v|hdr]; [eauto|].
    destruct H as [R1 Hh]. destruct (ok_part2 false hdr Hh w1 R1) as (r & w2 & E2 & Er2 & _). unfold result. rewrite E2.
    destruct r; cbn [option_map fst snd]; eexists _, w2; (split; [reflexivity | congruence]).
Qed.

(** ** The two programs *)

(** The verdicts of the two hooks. *)
Definition tc_verdict (ifindex ret : Z) : Z :=
  if ret =? XDP_PASS then TC_ACT_OK else if ret =? XDP_TX then bpf_redirect ifindex else TC_ACT_SHOT.

(** The helpers of the two hooks agree: the same connections, the same moves of
    the tail, given as a size and as a difference. *)
Definition same_helpers : Prop :=
  (forall t, ct_lookup false t = ct_lookup true t) /\
  (forall p n, bpf_skb_change_tail p n = bpf_xdp_adjust_tail p (i32 (n - Z.of_nat (length p)))).

Lemma bind_ext {A B} (m m' : M A) (k k' : A -> M B) w : m w = m' w ->
  (forall a w', m' w = Some (inr a, w') -> k a w' = k' a w') -> bind m k w = bind m' k' w.
Proof. intros E Hk. unfold bind. rewrite E. destruct (m' w) as [[[v|a] w']|]; auto. Qed.

Lemma sw_mod n a b : a mod 2 ^ n = b mod 2 ^ n -> sw n a = sw n b.
Proof. intros E. unfold sw, uw. now rewrite E. Qed.

Section Same.
Hypothesis Same : same_helpers.

Lemma same_size w new : set_size false (u32 (Z.of_nat (length (pkt w)))) new w = set_size true (u32 (Z.of_nat (length (pkt w)))) new w.
Proof.
  destruct Same as [_ Ht]. unfold set_size, move_tail. rewrite Ht.
  replace (i32 (new - Z.of_nat (length (pkt w)))) with (i32 (new - u32 (Z.of_nat (length (pkt w))))); [reflexivity|].
  apply sw_mod. unfold uw. apply Zminus_mod_idemp_r.
Qed.

(** Take the two computations apart step by step, as far as they agree. *)
Ltac same :=
  repeat match goal with
  | |- ?x = ?x => reflexivity
  | |- (if ?b then _ else _) _ = _ => destruct b
  | |- (let '(_, _) := ?x in _) _ = _ => destruct x
  | |- bind _ _ _ = bind _ _ _ => apply bind_ext; [match goal with |- ?x = ?x => reflexivity end | intros ? ? ?]
  | |- _ => progress cbv zeta beta
  end.

Lemma same_syn hdr w : syncookie_handle_syn false hdr w = syncookie_handle_syn true hdr w.
Proof.
  unfold syncookie_handle_syn. same.
  match goal with H : get _ _ = _, H' : tcp_doff _ _ = _ |- _ => apply go_get in H as [-> ->]; apply go_doff in H' as [-> _] end.
  apply bind_ext; [apply same_size | reflexivity].
Qed.

Lemma same_part2 hdr w : syncookie_part2 false hdr w = syncookie_part2 true hdr w.
Proof. unfold syncookie_part2. same. apply same_syn. Qed.

Lemma same_lookup hdr w : tcp_lookup false hdr w = tcp_lookup true hdr w.
Proof.
  unfold tcp_lookup. apply bind_ext; [reflexivity | intros tup w1 _]. apply bind_ext; [|reflexivity].
  unfold bpf_ct_lookup. destruct Same as [Hc _]. now rewrite Hc.
Qed.

Lemma same_part1 w : Forall is_u8 (pkt w) -> syncookie_part1 false w = syncookie_part1 true w.
Proof.
  intros Hu. unfold syncookie_part1. apply bind_ext; [reflexivity | intros hdr w1 Hd].
  destruct (dissect_go w hdr w1 Hu Hd) as (-> & _ & _ & _ & Hl & Hf). apply bind_ext; [apply same_lookup | intros u w1 Hk].
  apply lookup_go in Hk as [-> _]; [|destruct Hf as [[(F4 & _) _]|[(F4 & F6 & _) _]]; tauto].
  apply bind_ext; [reflexivity | intros f w1 (-> & -> & _)%go_ld8]. same.
  match goal with H : get _ _ = _ |- _ => apply go_get in H as [-> ->] end. apply bind_ext; [|reflexivity].
  destruct Same as [_ Ht]. unfold move_tail. rewrite Ht. unfold TCP_MAXLEN. set (n := Z.of_nat (length (pkt w))).
  assert (E : i32 (u32 (u64 (n + Z.of_nat 60 - tcp_len hdr)) - n) = Z.of_nat 60 - tcp_len hdr).
  { transitivity (i32 (Z.of_nat 60 - tcp_len hdr)); [|apply i32_small; lia]. apply sw_mod. unfold uw.
    rewrite Zminus_mod_idemp_l, <- Zminus_mod_idemp_l, Z.mod_mod_divide by (now exists (2 ^ 32)).
    rewrite Zminus_mod_idemp_l. f_equal. lia. }
  now rewrite E.
Qed.

(** C16. The TC program decides every packet as the XDP program does, and leaves
    the same packet, when the helpers of the two hooks agree: only the verdicts
    are translated. *)
Theorem tc_as_xdp ifindex w : Forall is_u8 (pkt w) ->
  syncookie_tc ifindex w = option_map (fun x => (tc_verdict ifindex (fst x), snd x)) (syncookie_xdp w).
Proof.
  intros Hu. unfold syncookie_tc, syncookie_xdp, result, bind. rewrite (same_part1 w Hu).
  destruct (ok_part1 true w) as (r & w1 & -> & _ & H); [split; [lia | exact Hu]|].
  destruct r as [v|hdr]; cbn [option_map fst snd].
  - unfold tc_verdict. destruct (v =? XDP_PASS); [reflexivity|]. destruct (Z.eqb_spec v XDP_TX) as [E|_]; [now destruct H | reflexivity].
  - rewrite same_part2. reflexivity.
Qed.

End Same.

(** ** What the time stamp tells *)

(** What the last option of a kind says. *)
Definition last_of (f : tcpopt -> option Z) (opts : list tcpopt) : option Z :=
  fold_left (fun acc o => match f o with Some v => Some v | None => acc end) opts None.
Definition tsval_of (o : tcpopt) : option Z := match o with Timestamp v _ => Some v | _ => None end.
Definition shift_of (o : tcpopt) : option Z := match o with WScale s => Some s | _ => None end.
Definition is_sack (o : tcpopt) : bool := match o with SackPerm => true | _ => false end.

Lemma last_of_snoc f opts o : last_of f (opts ++ [o]) = match f o with Some v => Some v | None => last_of f opts end.
Proof. unfold last_of. rewrite fold_left_app. reflexivity. Qed.

Lemma last_of_in f opts v : last_of f opts = Some v -> exists o, In o opts /\ f o = Some v.
Proof.
  induction opts as [|o opts IH] using rev_ind; [discriminate|]. rewrite last_of_snoc. destruct (f o) as [u|] eqn:E.
  - intros [= ->]. exists o. split; [apply in_elt | exact E].
  - intros H. destruct (IH H) as (o' & Hi & Ho). exists o'. split; [apply in_or_app; now left | exact Ho].
Qed.

(** Reading the options one after the other keeps the last of each kind. *)
Lemma learn_all ctx opts : let ctx' := fold_left learn opts ctx in
  option_timestamp ctx' = (option_timestamp ctx || match last_of tsval_of opts with Some _ => true | None => false end) /\
  tsecr ctx' = match last_of tsval_of opts with Some v => to_be32 v | None => tsecr ctx end /\
  wscale ctx' = match last_of shift_of opts with Some s => Z.min s TCP_MAX_WSCALE | None => wscale ctx end /\
  option_sack ctx' = (option_sack ctx || existsb is_sack opts).
Proof.
  induction opts as [|o opts IH] using rev_ind; intros ctx'; subst ctx'; [cbn; now rewrite !orb_false_r|].
  rewrite fold_left_app, !last_of_snoc, existsb_app. cbv zeta in IH. cbn [fold_left existsb]. destruct IH as (E1 & E2 & E3 & E4).
  destruct (fold_left learn opts ctx) as [a b c d e]. cbn [option_timestamp tsecr wscale option_sack] in *. subst a b c d.
  destruct o; cbn [learn tsval_of shift_of is_sack]; rewrite ?orb_false_r, ?orb_true_r; now repeat split.
Qed.

Lemma shift_u8 opts s : Forall is_u8 (encode_all opts) -> last_of shift_of opts = Some s -> is_u8 s.
Proof.
  intros Hu H. apply last_of_in in H as (o & Hi & Ho). destruct o; try discriminate. injection Ho as ->.
  rewrite Forall_forall in Hu. apply Hu. unfold encode_all. apply in_flat_map. exists (WScale s). cbn. tauto.
Qed.

Lemma at_off_same ctx n : option_timestamp (at_off ctx n) = option_timestamp ctx /\ wscale (at_off ctx n) = wscale ctx /\
  tsecr (at_off ctx n) = tsecr ctx /\ option_sack (at_off ctx n) = option_sack ctx.
Proof. now destruct ctx. Qed.

Lemma has_bit f k : 0 <= k -> has f (2 ^ k) = Z.testbit f k.
Proof. intros Hk. unfold has. rewrite land_bit by exact Hk. apply negb_involutive. Qed.

Lemma cookie_bits q (e s : bool) v : 0 <= v < 16 -> let c := 64 * q + (if e then 32 else 0) + (if s then 16 else 0) + v in
  c / 64 = q /\ Z.testbit c 5 = e /\ Z.testbit c 4 = s /\ c mod 16 = v.
Proof.
  intros Hv c. assert (E : forall n b, 0 <= n -> (c / 2 ^ n) mod 2 = Z.b2z b -> Z.testbit c n = b).
  { intros n b Hn H. apply Z.b2z_inj. now rewrite Z.testbit_spec'. }
  split; [subst c; destruct e, s; Z.div_mod_to_equations; lia|].
  split; [apply E; [lia|]; change (2 ^ 5) with 32; subst c; destruct e, s; cbn [Z.b2z]; Z.div_mod_to_equations; lia|].
  split; [apply E; [lia|]; change (2 ^ 4) with 16; subst c; destruct e, s; cbn [Z.b2z]; Z.div_mod_to_equations; lia|].
  subst c; destruct e, s; Z.div_mod_to_equations; lia.
Qed.

(** C17. Well-formed options are read right, the loop being long enough for the
    forty bytes a header can hold, when what follows them in the packet is an
    end-of-options byte (the client's, or one of the zeros the packet has grown
    by) or nothing, with the last option none that its last byte tells (a window
    scale or SACK).  Data right behind the options, and such a last option of a
    full header, are excluded: there they are misread.  Without a time stamp
    there is none in the answer; with one it is echoed, and the answer's own
    time stamp tells what the client offered, so that no state need be kept: the
    window scale (15 for none), SACK, ECN, and the time in steps of 64 ms. *)
Theorem timestamp_tells w tcp pre opts rest : pkt w = pre ++ encode_all opts ++ rest -> length pre = (tcp + TCP_SZ)%nat ->
  Forall is_u8 (pkt w) -> Z.of_nat (length (pkt w)) <= MAX_PACKET_OFF -> ended opts rest -> Forall opt_wf opts ->
  (length (encode_all opts) <= 40)%nat ->
  match last_of tsval_of opts with
  | None => ts_answer w tcp = None
  | Some tsval => exists cookie, ts_answer w tcp = Some (cookie, tsval) /\
      cookie / 64 = tcp_ns_to_ts (bpf_ktime_get_ns (clock w)) / 64 /\
      Z.testbit cookie 5 = (Z.testbit (byte (pkt w) (tcp + 13)) 6 && Z.testbit (byte (pkt w) (tcp + 13)) 7) /\
      Z.testbit cookie 4 = existsb is_sack opts /\
      cookie mod 16 = match last_of shift_of opts with Some s => Z.min s 14 | None => 15 end
  end.
Proof.
  intros Ep Hpre Hu Hl Hend Hw Ho. unfold ts_answer.
  assert (E0 : first_context tcp = at_off (first_context tcp) (length pre)).
  { unfold first_context, at_off. cbn. rewrite uw_small; [now rewrite Hpre|].
    rewrite Ep, !length_app, Hpre in Hl. unfold is_u, MAX_PACKET_OFF in *. lia. }
  destruct (parse_options_spec pre opts rest (first_context tcp)) as (m & Em); try assumption; [now rewrite <- Ep|].
  rewrite E0, Ep, Em, <- Ep.
  destruct (learn_all (first_context tcp) opts) as (E1 & E2 & E3 & E4). set (ctx := fold_left learn opts _) in *.
  destruct (at_off_same ctx m) as (-> & S2 & S3 & S4).
  unfold first_context in E1, E3, E4. cbn [option_timestamp option_sack wscale] in E1, E3, E4. rewrite E1. cbn [orb].
  destruct (last_of tsval_of opts) as [v|] eqn:Ev; [|reflexivity].
  apply last_of_in in Ev as (o & Hi & Ho'). rewrite Forall_forall in Hw. specialize (Hw o Hi). destruct o; try discriminate. injection Ho' as ->.
  eexists. rewrite S3, E2, to_be32_to_be32 by apply Hw. split; [reflexivity|].
  assert (Hws : 0 <= wscale ctx < 16).
  { rewrite E3. destruct (last_of shift_of opts) as [s|] eqn:Es; [|easy]. apply shift_u8 in Es; [unfold is_u, TCP_MAX_WSCALE in *; lia|].
    rewrite Ep, !Forall_app in Hu. apply Hu. }
  rewrite ts_cookie_eq by (apply u32_range || now rewrite S2). rewrite S2, S4. unfold TCPF_ECE, TCPF_CWR. rewrite !has_bit by lia.
  destruct (cookie_bits (tcp_ns_to_ts (bpf_ktime_get_ns (clock w)) / 64)
    (Z.testbit (byte (pkt w) (tcp + 13)) 6 && Z.testbit (byte (pkt w) (tcp + 13)) 7) (option_sack ctx) (wscale ctx) Hws) as (-> & -> & -> & ->).
  split; [reflexivity|]. split; [reflexivity|]. split; [exact E4 | exact E3].
Qed.

End Theorems.

(** ** A valid SYN is answered *)

Lemma load_run w o n : (o + n <= length (pkt w))%nat -> load o n w = Some (inr (sub (pkt w) o n), w).
Proof. intros H. unfold load. now rewrite rd_in by exact H. Qed.

Lemma get8 w o : (o < length (pkt w))%nat -> ld8 o w = Some (inr (byte (pkt w) o), w).
Proof.
  intros H. unfold ld8. rewrite (bind_inr _ _ _ _ _ (load_run w o 1 ltac:(lia))). unfold ret. now rewrite byte_sub, Nat.add_0_r by lia.
Qed.

Lemma get16 w o : (o + 1 < length (pkt w))%nat -> ld16 o w = Some (inr (word16 (pkt w) o), w).
Proof.
  intros H. unfold ld16. rewrite (bind_inr _ _ _ _ _ (load_run w o 2 ltac:(lia))). unfold ret. now rewrite word16_sub, Nat.add_0_r by lia.
Qed.

Lemma get32 w o : (o + 3 < length (pkt w))%nat -> ld32 o w = Some (inr (word32 (pkt w) o), w).
Proof.
  intros H. unfold ld32. rewrite (bind_inr _ _ _ _ _ (load_run w o 4 ltac:(lia))). unfold ret. now rewrite word32_sub, Nat.add_0_r by lia.
Qed.

Lemma get_ihl w o : (o < length (pkt w))%nat -> ipv4_ihl o w = Some (inr (byte (pkt w) o mod 16), w).
Proof.
  intros H. unfold ipv4_ihl. rewrite (bind_inr _ _ _ _ _ (get8 w o H)). change 0x0f with (Z.ones 4). now rewrite Z.land_ones by lia.
Qed.

Lemma get_doff w t : (t + 12 < length (pkt w))%nat -> tcp_doff t w = Some (inr (byte (pkt w) (t + 12) / 16), w).
Proof.
  intros H. unfold tcp_doff. rewrite (bind_inr _ _ _ _ _ (get8 w (t + 12) H)). now rewrite Z.shiftr_div_pow2 by lia.
Qed.

Lemma past_run {A} k v (m : M A) w : (k <= length (pkt w))%nat -> (b <- past k ;; if b : bool then out v else m) w = m w.
Proof. intros H. unfold past, get, bind. now destruct (Nat.ltb_spec (length (pkt w)) k); [lia|]. Qed.

Lemma if_run {A} (b : bool) v (m : M A) w : b = false -> (if b then out v else m) w = m w.
Proof. now intros ->. Qed.

(** One step that succeeds. *)
Ltac run :=
  first [ rewrite past_run by lia
        | rewrite if_run by (apply Z.ltb_ge; lia)
        | rewrite if_run by (apply negb_false_iff, Z.eqb_eq; assumption)
        | erewrite bind_inr; [|first [apply get8 | apply get16 | apply get_ihl | apply get_doff | apply load_run]; lia] ].

Section Live.
Context {L : KLoop} {K : Kernel} {KO : KernelOk K}.

Definition found (p : list Z) : header_pointers :=
  if is_ip6 p then headers6 (Z.of_nat (doff p)) else headers4 (tcp_at p) (Z.of_nat (doff p)).

Lemma doff_eq p : Forall is_u8 p -> Z.of_nat (doff p) = byte p (tcp_at p + 12) / 16 * 4 /\ (doff p <= 60)%nat.
Proof.
  intros Hu. pose proof (byte_u8 p (tcp_at p + 12) Hu) as B. unfold is_u in B. unfold doff.
  assert (0 <= byte p (tcp_at p + 12) / 16 <= 15) by (Z.div_mod_to_equations; lia). lia.
Qed.

Lemma dissect_run w : let p := pkt w in Forall is_u8 p -> headers_ok p -> (20 <= doff p)%nat -> (tcp_at p + doff p <= length p)%nat ->
  tcp_dissect w = Some (inr (found p), w).
Proof.
  intros p Hu Hh Hd Ht. destruct (doff_eq p Hu) as [Ed Bd]. unfold headers_ok in Hh. unfold found.
  unfold tcp_dissect, no_headers. cbv zeta. flds. change (0 + ETH_SZ)%nat with 14%nat. change (0 + 12)%nat with 12%nat.
  unfold tcp_at in *. unfold is_ip6 in *. destruct (Z.eqb_spec (to_be (word16 p 12)) ETH_P_IPV6) as [E6|N6].
  - destruct Hh as (_ & Hv & Hn). unfold ETH_SZ, IP6_SZ, TCP_SZ in *. change (14 + 40)%nat with 54%nat in *. fold p in Ed.
    assert (Hl : (74 <= length (pkt w))%nat) by (subst p; lia).
    run. erewrite bind_inr; [|apply get16; lia]. fold p. rewrite E6. change (ETH_P_IPV6 =? ETH_P_IP) with false. change (ETH_P_IPV6 =? ETH_P_IPV6) with true. cbv iota.
    assert (Hs : Z.shiftr (byte (pkt w) 14) 4 = 6) by (now rewrite Z.shiftr_div_pow2 by lia).
    erewrite bind_inr; [|rewrite past_run by lia; run; run; run; run; reflexivity]. flds.
    run. erewrite bind_inr; [|apply get_doff; lia]. fold p. rewrite uw_small by (unfold is_u; lia). rewrite if_run by (apply Z.ltb_ge; lia).
    rewrite <- Ed. reflexivity.
  - destruct Hh as ((E4 & Hi & Hv & Hn) & _). unfold ETH_SZ, IP_SZ, TCP_SZ in *.
    assert (Hl : (54 <= length (pkt w))%nat) by (unfold ihl in Ht; subst p; lia).
    rewrite past_run by lia. erewrite bind_inr; [|apply get16; lia]. fold p. rewrite E4. change (ETH_P_IP =? ETH_P_IP) with true. cbv iota.
    assert (Hs : Z.shiftr (byte (pkt w) 14) 4 = 4) by (now rewrite Z.shiftr_div_pow2 by lia).
    erewrite bind_inr; [|rewrite past_run by lia; run; fold p; run; run; run; run; run; run; reflexivity]. flds.
    fold p. fold (ihl p). assert (Ht' : (14 + ihl p + 20 <= length (pkt w))%nat) by (fold p; lia).
    run. erewrite bind_inr; [|apply get_doff; lia]. fold p. rewrite uw_small by (unfold is_u; lia). rewrite if_run by (apply Z.ltb_ge; lia).
    rewrite <- Ed. reflexivity.
Qed.

Lemma found_tcp p : tcp (found p) = tcp_at p /\ tcp_len (found p) = Z.of_nat (doff p).
Proof. unfold found, tcp_at. now destruct (is_ip6 p). Qed.

Lemma ct_lookup_run xdp w : let p := pkt w in headers_ok p -> unknown xdp (tuple p) -> (tcp_at p + 20 <= length p)%nat -> (34 <= tcp_at p)%nat ->
  tcp_lookup xdp (found p) w = Some (inr tt, w).
Proof.
  intros p Hh Hk Hl H34. unfold tcp_lookup. subst p.
  assert (Et : ct_tuple (found (pkt w)) w = Some (inr (tuple (pkt w)), w)).
  { unfold ct_tuple, tuple, found, headers_ok in *. assert (E6 : is_ip6 (pkt w) = true -> tcp_at (pkt w) = 54%nat) by (unfold tcp_at; now intros ->).
    destruct (is_ip6 (pkt w)); cbn [ipv4 ipv6 headers4 headers6 tcp]; unfold ETH_SZ, IP6_SZ in *.
    - rewrite E6 in * by reflexivity. run. run. run. run. reflexivity.
    - destruct Hh as [_ Hfrag]. erewrite bind_inr; [|apply get16; lia]. change (14 + 6)%nat with 20%nat. run. run. run. run. run. reflexivity. }
  rewrite (bind_inr _ _ _ _ _ Et). unfold unknown in Hk. unfold bpf_ct_lookup, bind.
  destruct (ct_lookup xdp (tuple (pkt w))) as [status|error].
  - unfold bpf_ct_release, modify. rewrite Hk. unfold ret. do 2 f_equal. destruct w as [a b c r d].
    change ({| pkt := a; values := b; allowed_ports := c; ct_refs := -1 + (1 + r); clock := d |} =
            {| pkt := a; values := b; allowed_ports := c; ct_refs := r; clock := d |}). f_equal. lia.
  - rewrite Hk. reflexivity.
Qed.

(** The tail of a packet can be moved to any size a packet can have. *)
Definition tail_works (xdp : bool) : Prop := forall q n, 0 <= n <= MAX_PACKET_OFF + 60 ->
  (if xdp then bpf_xdp_adjust_tail q (n - Z.of_nat (length q)) else bpf_skb_change_tail q n) <> None.

Lemma flags_run f : Z.testbit f 1 = true -> Z.testbit f 4 = false ->
  Z.lxor (Z.shiftr (Z.land f TCPF_SYN) 1) (Z.shiftr (Z.land f TCPF_ACK) 4) = 1.
Proof. intros H1 H4. unfold TCPF_SYN, TCPF_ACK. rewrite !land_pow2, H1, H4 by lia. reflexivity. Qed.

Lemma part1_run xdp w : let p := pkt w in Forall is_u8 p -> Z.of_nat (length p) <= MAX_PACKET_OFF ->
  syn_request xdp (allowed_ports w) p -> tail_works xdp ->
  exists x, syncookie_part1 xdp w = Some (inr (found p), on w (p ++ x)) /\ Forall is_u8 (p ++ x) /\
    Z.of_nat (length (p ++ x)) = Z.of_nat (length p) + 60 - Z.of_nat (doff p).
Proof.
  intros p Hu Hl [Hh [Hd Ht] Hk (F1 & F0 & F2 & F4) _ _] Htail. subst p. unfold tail_works in Htail. destruct (doff_eq _ Hu) as [Ed Bd]. destruct (found_tcp (pkt w)) as [Tp Tl].
  assert (H34 : (34 <= tcp_at (pkt w))%nat).
  { unfold headers_ok, tcp_at, ihl, ETH_SZ, IP6_SZ in *. destruct (is_ip6 (pkt w)); [lia|]. destruct Hh as [(_ & Hi & _) _]. lia. }
  unfold syncookie_part1. erewrite bind_inr; [|now apply dissect_run]. erewrite bind_inr; [|apply ct_lookup_run; (assumption || lia)].
  rewrite Tp, Tl. unfold tcp_flags. erewrite bind_inr; [|apply get8; lia]. rewrite flags_run by assumption.
  rewrite if_run by reflexivity. unfold get at 1, bind at 1. unfold TCP_MAXLEN, MAX_PACKET_OFF in *.
  set (n := Z.of_nat (length (pkt w)) + 60 - Z.of_nat (doff (pkt w))). specialize (Htail (pkt w) n ltac:(lia)).
  replace (n - Z.of_nat (length (pkt w))) with (60 - Z.of_nat (doff (pkt w))) in Htail by lia.
  destruct (if xdp then _ else _) as [q|] eqn:Eq in Htail; [|congruence].
  assert (Hg : regrown (pkt w) q n) by (apply (tail_regrown xdp _ (60 - Z.of_nat (doff (pkt w)))); [exact Hu | lia | lia | exact Eq]).
  destruct (grown_app _ _ _ Hg ltac:(lia)) as (x & ->). destruct Hg as (Hn & _ & Hx). exists x. split; [|now split].
  unfold move_tail, bind. change (Z.of_nat 60) with 60. fold n. rewrite (uw_small 64 n), (uw_small 32 n) by (unfold is_u; lia). rewrite Eq. reflexivity.
Qed.

Lemma folds_valid_zero c l : folds c l -> csum_valid l -> c = 0.
Proof.
  intros (g & s & -> & (Rg & Eg & Zg) & Es & Zs & _) [Hv Hp]. assert (g <> 0) by (rewrite Zg, Zs; lia).
  rewrite Es, Hv in Eg. Z.div_mod_to_equations; lia.
Qed.

Lemma checked_run w o n : Forall is_u8 (pkt w) -> (o + n <= length (pkt w))%nat -> (n mod 4 = 0)%nat ->
  checked (csum_diff o n) w = Some (inr (bpf_csum_diff (sub (pkt w) o n)), w).
Proof.
  intros Hu Hn Hm. destruct (csum_diff_ok (sub (pkt w) o n)) as (Hr & _); [now apply sub_u8 | now rewrite sub_length|]. unfold is_u in Hr.
  unfold checked, csum_diff. rewrite bind_assoc. rewrite (bind_inr _ _ _ _ _ (load_run w o n Hn)). unfold bind, ret.
  destruct (Z.ltb_spec (bpf_csum_diff (sub (pkt w) o n)) 0); [lia | reflexivity].
Qed.

Lemma mul4_mod z : 0 <= z -> (Z.to_nat (z * 4) mod 4 = 0)%nat.
Proof. intros Hz. rewrite Z2Nat.inj_mul by lia. apply Nat.Div0.mod_mul. Qed.

Lemma checksums4_run w T l : Forall is_u8 (pkt w) -> let p := pkt w in let len := Z.to_nat l in
  (14 + ihl p <= length p)%nat -> (T + len <= length p)%nat -> (34 <= length p)%nat -> 20 <= l <= 60 -> (len mod 4 = 0)%nat ->
  csum_valid (sub p 14 (ihl p)) -> csum_valid (pseudo4 (sub p 14 20) (sub p T len)) ->
  syn_checksums (headers4 T l) w = Some (inr (IP_SZ, bpf_tcp_raw_gen_syncookie_ipv4 (sub p 14 20) (sub p T len)), w).
Proof.
  intros Hu p len Hi HT H34 Hl Hm V1 V2. unfold syn_checksums, headers4. cbn [ipv4 tcp tcp_len]. unfold ETH_SZ, IP_SZ. subst p.
  assert (Mi : (ihl (pkt w) mod 4 = 0)%nat) by (apply mul4_mod, Z.mod_pos_bound; lia).
  erewrite bind_inr; [|apply get_ihl; lia]. fold (ihl (pkt w)). rewrite (bind_inr _ _ _ _ _ (checked_run w 14 (ihl (pkt w)) Hu Hi Mi)).
  pose proof (diff_folds (sub (pkt w) 14 (ihl (pkt w))) (sub_u8 _ _ _ Hu)) as F1. rewrite sub_length in F1 by lia. specialize (F1 Mi).
  rewrite if_run by (rewrite (folds_valid_zero _ _ F1 V1); reflexivity). fold len.
  rewrite (bind_inr _ _ _ _ _ (checked_run w T len Hu HT Hm)). unfold tcpv4_magic. rewrite bind_assoc.
  erewrite bind_inr; [|apply get32; lia]. rewrite bind_assoc. erewrite bind_inr; [|apply get32; lia]. unfold bind at 1, ret at 1.
  pose proof (pseudo4_folds (sub (pkt w) 14 20) (sub (pkt w) T len)) as F2. rewrite !word32_sub, !sub_length in F2 by lia.
  assert (El : Z.of_nat len = l) by (unfold len; lia).
  rewrite El in F2.
  rewrite if_run by (rewrite (folds_valid_zero _ _ (F2 ltac:(lia) (sub_u8 _ _ _ Hu) (sub_u8 _ _ _ Hu) Hm ltac:(lia)) V2); reflexivity).
  run. run. reflexivity.
Qed.

Lemma checksums6_run w l : Forall is_u8 (pkt w) -> let p := pkt w in let len := Z.to_nat l in
  (54 + len <= length p)%nat -> 20 <= l <= 60 -> (len mod 4 = 0)%nat -> csum_valid (pseudo6 (sub p 14 40) (sub p 54 len)) ->
  syn_checksums (headers6 l) w = Some (inr (IP6_SZ, bpf_tcp_raw_gen_syncookie_ipv6 (sub p 14 40) (sub p 54 len)), w).
Proof.
  intros Hu p len HT Hl Hm V2. unfold syn_checksums, headers6. cbn [ipv4 ipv6 tcp tcp_len]. unfold ETH_SZ, IP6_SZ.
  change (14 + 40)%nat with 54%nat. subst p. fold len. rewrite (bind_inr _ _ _ _ _ (checked_run w 54 len Hu HT Hm)). unfold tcpv6_magic. rewrite bind_assoc.
  erewrite bind_inr; [|apply load_run; lia]. rewrite bind_assoc. erewrite bind_inr; [|apply load_run; lia]. unfold bind at 1, ret at 1.
  pose proof (pseudo6_folds (sub (pkt w) 14 40) (sub (pkt w) 54 len)) as F2. rewrite !sub_sub, !sub_length in F2 by lia.
  assert (El : Z.of_nat len = l) by (unfold len; lia). rewrite El in F2.
  rewrite if_run by (rewrite (folds_valid_zero _ _ (F2 ltac:(lia) (sub_u8 _ _ _ Hu) (sub_u8 _ _ _ Hu) Hm ltac:(lia)) V2); reflexivity).
  run. run. reflexivity.
Qed.

Lemma parsing_init_run tcp len w : Forall is_u8 (pkt w) -> (tcp + 13 < length (pkt w))%nat ->
  exists n, tscookie_init tcp len w = Some (inr (words (ts_answer w tcp)), w <| clock := n |>).
Proof.
  intros Hu Hl. unfold tscookie_init, ts_answer. destruct (parse_options_in (pkt w) _ Hu (first_context_ok tcp)) as (ctx & Ep & _ & _ & Ht).
  rewrite Ep. unfold bind at 1. rewrite Ep. cbn [option_map]. cbv beta iota. destruct (option_timestamp ctx); cbn [negb].
  - exists (S (clock w)). unfold tcp_clock_ms, tcp_clock_ns, ktime.
    cbn [words option_map fst snd]. rewrite to_be32_to_be32 by exact Ht.
    erewrite bind_inr; [|reflexivity]. unfold tcp_flags. erewrite bind_inr; [|apply get8; exact Hl]. reflexivity.
  - exists (clock w). now destruct w.
Qed.

(** The last steps succeed too. *)
Lemma finish_run (xdp : bool) w e i t r ip_len hdr cookie ts mss ws ck : let opts := encode_all (synack_options ts mss ws) in
  let h := synack_header t cookie ts mss ws ck in let q := pk e i h opts r in
  length e = 14%nat -> length i = ip_len -> length t = 20%nat -> length ck = 2%nat -> tcp hdr = (ETH_SZ + ip_len)%nat -> (ip_len <= 40)%nat ->
  Z.of_nat (length q) < 2 ^ 31 ->
  (forall n, 0 <= n <= MAX_PACKET_OFF + 60 -> (if xdp then bpf_xdp_adjust_tail q (n - Z.of_nat (length q)) else bpf_skb_change_tail q n) <> None) ->
  exists w', (old_pkt_size <- get (fun w => u32 (Z.of_nat (length (pkt w)))) ;;
   doff <- tcp_doff (tcp hdr) ;;
   set_size xdp old_pkt_size (u32 (Z.of_nat (ETH_SZ + ip_len) + doff * 4)) ;;
   values_inc_synacks ;;
   ret XDP_TX) (on w q) = Some (inr XDP_TX, w').
Proof.
  intros opts h q Le Li Lt Lc Htcp H40 Hl Hw. erewrite bind_inr; [|reflexivity]. change (pkt (on w q)) with q. rewrite Htcp. unfold ETH_SZ in *.
  subst q. rewrite (bind_inr _ _ _ _ _ (doff_run w e i t opts r (14 + ip_len) cookie ts mss ws ck ltac:(lia) Lt Lc)). fold h.
  set (q := pk e i h opts r) in *. destruct (words_len ts mss ws) as [Ew Rw].
  set (n := Z.of_nat (14 + ip_len) + words_of ts mss ws * 4). assert (Rn : 0 <= n <= MAX_PACKET_OFF + 60) by (unfold n, MAX_PACKET_OFF; lia).
  specialize (Hw n Rn). unfold MAX_PACKET_OFF in Rn. rewrite (uw_small 32 n), (uw_small 32 (Z.of_nat (length q))) by (unfold is_u; lia).
  destruct (if xdp then _ else _) as [q'|] eqn:Eq in Hw; [|congruence]. eexists. unfold set_size, move_tail.
  erewrite bind_inr; [|change (pkt (on w q)) with q; rewrite i32_small by lia; rewrite Eq; reflexivity]. reflexivity.
Qed.

Lemma no_fin_rst f : Z.testbit f 0 = false -> Z.testbit f 2 = false -> has f (Z.lor TCPF_FIN TCPF_RST) = false.
Proof. intros H0 H2. unfold has, TCPF_FIN, TCPF_RST. now rewrite Z.land_lor_distr_r, !land_pow2, H0, H2 by lia. Qed.

(** What follows the checksums: the cookie is [value]. *)
Definition answer_with (xdp : bool) (hdr : header_pointers) (r : nat * Z) : M Z :=
  let '(ip_len, value) := r in
  if value <? 0 then out XDP_ABORTED else
  tsopt <- tscookie_init (tcp hdr) (tcp_len hdr) ;;
  b <- past (ETH_SZ + ip_len + TCP_MAXLEN) ;; if b : bool then out XDP_ABORTED else
  send_synack xdp ip_len hdr (u32 value) tsopt.

Lemma answer4_run xdp w T l value : let p := pkt w in Forall is_u8 p -> Z.of_nat (length p) < 2 ^ 31 -> Forall is_u64 (values w) -> tail_works xdp ->
  0 <= value -> 20 <= l <= 60 -> byte p 14 / 16 = 4 -> 5 <= byte p 14 mod 16 -> byte p 23 = IPPROTO_TCP ->
  T = (ETH_SZ + Z.to_nat (byte p 14 mod 16 * 4))%nat -> (T + TCP_MAXLEN <= length p)%nat ->
  exists w', answer_with xdp (headers4 T l) (IP_SZ, value) w = Some (inr XDP_TX, w').
Proof.
  intros p Hu Hl Hv Htail Hval Hlen Hver Hihl Hproto HT Hroom. unfold answer_with, ETH_SZ, IP_SZ, TCP_MAXLEN in *.
  assert (HT34 : (34 <= T)%nat) by lia. rewrite if_run by (apply Z.ltb_ge; lia).
  destruct (parsing_init_run T l w Hu ltac:(fold p; lia)) as (n & Hi). cbn [tcp tcp_len headers4]. rewrite (bind_inr _ _ _ _ _ Hi).
  rewrite past_run by (change (pkt (w <| clock := n |>)) with p; lia). pose proof (ts_answer_u32 w T Hu) as Hts.
  destruct (tcpip_opts (values w) false) as [[mss ws] ttl] eqn:Eo. set (w2 := w <| clock := n |>).
  destruct (built4 w2 (u32 value) (ts_answer w T) mss ws ttl Hu (u32_range _) Hts Hv T l Hlen Hver Hihl Hproto HT Hroom Eo)
    as (ck & ck' & r & Hk & Uq & Lq & Li & L2 & _). unfold send_synack. rewrite Hk.
  apply finish_run; try (assumption || reflexivity); [apply synack_eth_length, sub_length; change (pkt w2) with p; lia | apply sub_length; change (pkt w2) with p; lia | lia | | intros; now apply Htail].
  eapply eq_ind_r with (P := fun n => Z.of_nat n < _); [exact Hl | exact Lq].
Qed.

Lemma answer6_run xdp w l value : let p := pkt w in Forall is_u8 p -> Z.of_nat (length p) < 2 ^ 31 -> Forall is_u64 (values w) -> tail_works xdp ->
  0 <= value -> 20 <= l <= 60 -> byte p 20 = NEXTHDR_TCP -> (ETH_SZ + IP6_SZ + TCP_MAXLEN <= length p)%nat ->
  exists w', answer_with xdp (headers6 l) (IP6_SZ, value) w = Some (inr XDP_TX, w').
Proof.
  intros p Hu Hl Hv Htail Hval Hlen Hproto Hroom. unfold answer_with, ETH_SZ, IP6_SZ, TCP_MAXLEN in *.
  rewrite if_run by (apply Z.ltb_ge; lia). change (tcp (headers6 l)) with 54%nat. change (tcp_len (headers6 l)) with l.
  destruct (parsing_init_run 54 l w Hu ltac:(fold p; lia)) as (n & Hi). rewrite (bind_inr _ _ _ _ _ Hi).
  rewrite past_run by (change (pkt (w <| clock := n |>)) with p; lia). pose proof (ts_answer_u32 w 54 Hu) as Hts.
  destruct (tcpip_opts (values w) true) as [[mss ws] ttl] eqn:Eo. set (w2 := w <| clock := n |>).
  destruct (built6 w2 (u32 value) (ts_answer w 54) mss ws ttl Hu (u32_range _) Hts Hv l Hlen Hproto Hroom Eo)
    as (ck' & r & Hk & Uq & Lq & Li & L2 & _). unfold send_synack. rewrite Hk.
  apply finish_run; try (assumption || reflexivity); [apply synack_eth_length, sub_length; change (pkt w2) with p; lia | apply sub_length; change (pkt w2) with p; lia | | intros; now apply Htail].
  eapply eq_ind_r with (P := fun n => Z.of_nat n < _); [exact Hl | exact Lq].
Qed.

(** From the headers found on, a SYN that is valid is answered. *)
Lemma handle_run xdp w x : let p := pkt w in let q := p ++ x in Forall is_u8 q -> Z.of_nat (length q) < 2 ^ 31 -> Forall is_u64 (values w) ->
  syn_request xdp (allowed_ports w) p -> tail_works xdp ->
  0 <= (if is_ip6 p then bpf_tcp_raw_gen_syncookie_ipv6 (sub p 14 40) (segment p) else bpf_tcp_raw_gen_syncookie_ipv4 (sub p 14 20) (segment p)) ->
  Z.of_nat (length q) = Z.of_nat (length p) + 60 - Z.of_nat (doff p) ->
  exists w', syncookie_handle_syn xdp (found p) (on w q) = Some (inr XDP_TX, w').
Proof.
  intros p q Hu Hl Hv [Hh [Hd Ht] Hk (F1 & F0 & F2 & F4) Hport Hck] Htail Hc Hn.
  assert (Up : Forall is_u8 p) by now apply Forall_app in Hu. destruct (doff_eq p Up) as [Ed Bd]. destruct (found_tcp p) as [Tp Tl].
  assert (Bq : forall k, (k < length p)%nat -> byte q k = byte p k) by (intros; now apply byte_app_l).
  assert (Sq : forall o n, (o + n <= length p)%nat -> sub q o n = sub p o n) by (intros; now apply sub_app).
  assert (Wq : word16 q (tcp_at p + 2) = word16 p (tcp_at p + 2)) by (apply word16_app_l; lia).
  assert (Lq : (tcp_at p + 60 <= length q)%nat) by lia.
  unfold syncookie_handle_syn. rewrite Tp, Tl. unfold tcp_flags. erewrite bind_inr; [|apply get8; change (pkt (on w q)) with q; lia].
  change (pkt (on w q)) with q. rewrite Bq by lia.
  assert (Ff : has (byte p (tcp_at p + 13)) (Z.lor TCPF_FIN TCPF_RST) = false) by now apply no_fin_rst.
  rewrite if_run by exact Ff. erewrite bind_inr; [|apply get16; change (pkt (on w q)) with q; lia]. change (pkt (on w q)) with q. rewrite Wq.
  unfold check_port_allowed at 1. unfold bind at 1, get at 1. change (allowed_ports (on w q)) with (allowed_ports w).
  assert (Hp : port_allowed (allowed_ports w) (to_be (word16 p (tcp_at p + 2))) MAX_ALLOWED_PORTS 0 = true) by (apply port_allowed_spec; exact Hport).
  rewrite Hp, if_run by reflexivity.
  change (exists w', bind (syn_checksums (found p)) (fun r => let '(ip_len, value) := r in if value <? 0 then out XDP_ABORTED else
    tsopt <- tscookie_init (tcp_at p) (Z.of_nat (doff p)) ;; b <- past (ETH_SZ + ip_len + TCP_MAXLEN) ;; if b : bool then out XDP_ABORTED else
    send_synack xdp ip_len (found p) (u32 value) tsopt) (on w q) = Some (inr XDP_TX, w')).
  rewrite <- Tp, <- Tl. change (exists w', bind (syn_checksums (found p)) (answer_with xdp (found p)) (on w q) = Some (inr XDP_TX, w')).
  assert (Md : (doff p mod 4 = 0)%nat) by (apply mul4_mod; pose proof (byte_u8 p (tcp_at p + 12) Up) as B; unfold is_u in B; Z.div_mod_to_equations; lia).
  assert (Ed' : Z.to_nat (Z.of_nat (doff p)) = doff p) by apply Nat2Z.id.
  unfold found, headers_ok, checksums_ok, segment in *. destruct (is_ip6 p) eqn:E6.
  - assert (ET : tcp_at p = 54%nat) by (unfold tcp_at; now rewrite E6). rewrite ET in *. destruct Hh as (_ & _ & Hpr).
    pose proof (checksums6_run (on w q) (Z.of_nat (doff p)) Hu) as Hs. cbv zeta in Hs. change (pkt (on w q)) with q in Hs.
    rewrite Ed', !Sq in Hs by lia. rewrite (bind_inr _ _ _ _ _ (Hs ltac:(lia) ltac:(lia) Md Hck)).
    apply (answer6_run xdp (on w q)); change (pkt (on w q)) with q; try assumption; try lia; rewrite ?Bq by lia; try assumption.
  - destruct Hh as ((_ & Hi5 & Hv4 & Hpr) & _). destruct Hck as [V1 V2].
    assert (ET : tcp_at p = (14 + ihl p)%nat) by (unfold tcp_at; now rewrite E6). assert (L34 : (34 <= tcp_at p)%nat) by (unfold ihl in ET; lia).
    assert (Ei : ihl q = ihl p) by (unfold ihl; now rewrite Bq by lia).
    pose proof (checksums4_run (on w q) (tcp_at p) (Z.of_nat (doff p)) Hu) as Hs. cbv zeta in Hs. change (pkt (on w q)) with q in Hs.
    rewrite Ei, Ed', !Sq in Hs by lia. rewrite (bind_inr _ _ _ _ _ (Hs ltac:(lia) ltac:(lia) ltac:(lia) ltac:(lia) Md V1 V2)).
    apply (answer4_run xdp (on w q)); change (pkt (on w q)) with q; rewrite ?Bq by lia; try assumption; try lia; reflexivity.
Qed.

Lemma part2_run xdp w x : let p := pkt w in let q := p ++ x in Forall is_u8 q -> syn_request xdp (allowed_ports w) p ->
  Z.of_nat (length q) = Z.of_nat (length p) + 60 - Z.of_nat (doff p) ->
  syncookie_part2 xdp (found p) (on w q) = syncookie_handle_syn xdp (found p) (on w q).
Proof.
  intros p q Hu [Hh [Hd Ht] _ (F1 & _) _ _] Hn. assert (Up : Forall is_u8 p) by now apply Forall_app in Hu.
  destruct (doff_eq p Up) as [Ed Bd].
  assert (Bq : forall k, (k < length p)%nat -> byte q k = byte p k) by (intros; now apply byte_app_l).
  assert (Lq : (tcp_at p + 60 <= length q)%nat) by lia.
  assert (H34 : (34 <= tcp_at p)%nat).
  { unfold headers_ok, tcp_at, ihl, ETH_SZ, IP6_SZ in *. destruct (is_ip6 p); [lia|]. destruct Hh as [(_ & Hi & _) _]. lia. }
  assert (E1 : forall A (k : header_pointers -> M A), bind
    match ipv4 (found p), ipv6 (found p) with
    | Some _, _ => let hdr := (found p) <| eth := O |> in let ip := (eth hdr + ETH_SZ)%nat in
        b <- past (ip + IPV4_MAXLEN) ;; if b : bool then out XDP_ABORTED else ihl <- ipv4_ihl ip ;;
        ret (hdr <| ipv4 := Some ip |> <| tcp := ip + Z.to_nat (ihl * 4) |>)%nat
    | None, Some _ => let hdr := (found p) <| eth := O |> in let ip := (eth hdr + ETH_SZ)%nat in
        ret (hdr <| ipv6 := Some ip |> <| tcp := ip + IP6_SZ |>)%nat
    | None, None => out XDP_ABORTED
    end k (on w q) = k (found p) (on w q)).
  { intros A k. unfold found. destruct (is_ip6 p) eqn:E6; [reflexivity|].
    assert (ET : tcp_at p = (ETH_SZ + ihl p)%nat) by (unfold tcp_at; now rewrite E6). unfold headers4, ETH_SZ in *. cbv zeta. flds. cbv iota.
    erewrite bind_inr; [|rewrite past_run by (change (pkt (on w q)) with q; unfold IPV4_MAXLEN; lia); erewrite bind_inr;
      [|apply get_ihl; change (pkt (on w q)) with q; lia]; reflexivity].
    change (pkt (on w q)) with q. rewrite Bq by lia. fold (ihl p). rewrite ET. reflexivity. }
  unfold syncookie_part2. rewrite E1. destruct (found_tcp p) as [Tp Tl]. rewrite Tp. rewrite past_run by (change (pkt (on w q)) with q; unfold TCP_MAXLEN; lia).
  erewrite bind_inr; [|apply get_doff; change (pkt (on w q)) with q; lia]. change (pkt (on w q)) with q. rewrite Bq, <- Ed by lia.
  rewrite (uw_small 16) by (unfold is_u; lia).
  assert (Ef : (found p) <| tcp_len := Z.of_nat (doff p) |> = found p) by (unfold found; now destruct (is_ip6 p)).
  rewrite Ef, Tl, if_run, Tp by (apply Z.ltb_ge; unfold TCP_SZ; lia). unfold tcp_flags.
  erewrite bind_inr; [|apply get8; change (pkt (on w q)) with q; lia]. change (pkt (on w q)) with q. rewrite Bq by lia.
  unfold TCPF_SYN. rewrite has_bit by lia. unfold flag in F1. now rewrite F1.
Qed.

(** C14. And every valid SYN is answered, when the helpers do their part: the
    tail of a packet can be moved to any size a packet can have, and the cookie
    is made. *)
Theorem syn_answered w : let p := pkt w in Forall is_u8 p -> Z.of_nat (length p) <= MAX_PACKET_OFF -> Forall is_u64 (values w) ->
  syn_request true (allowed_ports w) p -> tail_works true ->
  0 <= (if is_ip6 p then bpf_tcp_raw_gen_syncookie_ipv6 (sub p 14 40) (segment p) else bpf_tcp_raw_gen_syncookie_ipv4 (sub p 14 20) (segment p)) ->
  exists w', syncookie_xdp w = Some (XDP_TX, w').
Proof.
  intros p Hu Hl Hv Hreq Htail Hc. destruct (part1_run true w Hu Hl Hreq Htail) as (x & H1 & Ux & Hn).
  assert (Hl' : Z.of_nat (length (p ++ x)) < 2 ^ 31) by (unfold MAX_PACKET_OFF in Hl; fold p in Hn; lia).
  destruct (handle_run true w x Ux Hl' Hv Hreq Htail Hc Hn) as (w' & Hw). exists w'.
  unfold syncookie_xdp, result. rewrite (bind_inr _ _ _ _ _ H1), part2_run by assumption. now rewrite Hw.
Qed.

End Live.

(** ** A concrete kernel *)

Definition resize (p : list Z) (n : Z) : option (list Z) :=
  if n <? 0 then None else Some (firstn (Z.to_nat n) (p ++ repeat 0 (Z.to_nat n - length p))).

(** Sums modulo 65535, one cookie, no connections. *)
Definition K1 : Kernel := {|
  bpf_csum_diff l := if csum16 l =? 0 then 0 else (csum16 l - 1) mod 65535 + 1;
  bpf_tcp_raw_gen_syncookie_ipv4 _ _ := 0x12345678 + 2 ^ 32 * 1460;
  bpf_tcp_raw_gen_syncookie_ipv6 _ _ := 0x12345678;
  bpf_tcp_raw_check_syncookie_ipv4 _ _ := 0;
  bpf_tcp_raw_check_syncookie_ipv6 _ _ := 0;
  bpf_ktime_get_ns n := 5000000000;
  ct_lookup _ _ := inr (- ENOENT);
  bpf_xdp_adjust_tail p d := resize p (Z.of_nat (length p) + d);
  bpf_skb_change_tail p n := resize p (Z.of_nat (length p) + i32 (n - Z.of_nat (length p)));
  bpf_redirect _ := 7
|}.

Lemma resize_ok p n p' : Forall is_u8 p -> resize p n = Some p' -> Z.of_nat (length p') = n /\ same_prefix p p' /\ Forall is_u8 p'.
Proof.
  intros Hu. unfold resize. destruct (Z.ltb_spec n 0); [discriminate|]. intros [= <-].
  assert (L : length (firstn (Z.to_nat n) (p ++ repeat 0 (Z.to_nat n - length p))) = Z.to_nat n)
    by (rewrite length_firstn, length_app, repeat_length; lia).
  split; [lia|]. split.
  - unfold same_prefix. rewrite L, firstn_firstn, Nat.min_l, firstn_app by lia.
    replace (Nat.min _ _ - length p)%nat with O by lia. now rewrite firstn_O, app_nil_r.
  - assert (A : Forall is_u8 (p ++ repeat 0 (Z.to_nat n - length p))).
    { apply Forall_app. split; [exact Hu|]. apply Forall_forall. intros y Hy. apply repeat_spec in Hy. now subst. }
    rewrite <- (firstn_skipn (Z.to_nat n)) in A. now apply Forall_app in A as [A _].
Qed.

Lemma K1_sum c : 0 <= c -> let s := if c =? 0 then 0 else (c - 1) mod 65535 + 1 in
  is_u32 s /\ s mod 65535 = c mod 65535 /\ (s = 0 <-> c = 0).
Proof.
  intros Hc. cbv zeta. destruct (Z.eqb_spec c 0) as [->|N]; [easy|]. unfold is_u. change (2 ^ 32) with 4294967296.
  split; [Z.div_mod_to_equations; lia|]. split; [|Z.div_mod_to_equations; lia].
  rewrite Zplus_mod_idemp_l. f_equal. lia.
Qed.

Instance K1_ok : KernelOk K1.
Proof.
  split.
  - intros l Hu _. exact (K1_sum (csum16 l) (csum16_pos l Hu)).
  - intros p d p' Hu H. now apply (resize_ok p _ p').
  - intros p n p' Hu H. destruct (resize_ok _ _ _ Hu H) as (Hl & Hs). split; [|exact Hs].
    intros Hr. rewrite Hl, i32_small by exact Hr. lia.
Qed.

Lemma K1_same : @same_helpers K1.
Proof. now split. Qed.

(** SYNs to port 80 over IPv4, with all options, and over IPv6. *)
Definition packet4 : list Z :=
  [2; 0; 0; 0; 0; 2; 2; 0; 0; 0; 0; 1; 8; 0;
   69; 0; 0; 60; 0; 7; 64; 0; 64; 6; 38; 179; 10; 0; 0; 1; 10; 0; 0; 2;
   156; 64; 0; 80; 0; 0; 3; 232; 0; 0; 0; 0; 160; 2; 250; 240; 135; 114; 0; 0;
   2; 4; 5; 180; 4; 2; 8; 10; 0; 0; 17; 34; 0; 0; 0; 0; 1; 3; 3; 7].
Definition packet6 : list Z :=
  [2; 0; 0; 0; 0; 2; 2; 0; 0; 0; 0; 1; 134; 221;
   96; 0; 0; 0; 0; 20; 6; 64; 0; 1; 2; 3; 4; 5; 6; 7; 8; 9; 10; 11; 12; 13; 14; 15;
   16; 17; 18; 19; 20; 21; 22; 23; 24; 25; 26; 27; 28; 29; 30; 31;
   156; 64; 0; 80; 255; 255; 255; 255; 0; 0; 0; 0; 80; 2; 250; 240; 39; 97; 0; 0].
Definition w4 : world := {| pkt := packet4; values := [0; 5]; allowed_ports := [22; 80; 0; 0; 0; 0; 0; 0]; ct_refs := 0; clock := 0 |}.
Definition w6 : world := {| pkt := packet6; values := [0; 5]; allowed_ports := [22; 80; 0; 0; 0; 0; 0; 0]; ct_refs := 0; clock := 0 |}.

(** What the XDP program makes of a world, if it sends. *)
Definition sent_world (w : world) : world :=
  match @syncookie_xdp run_kloop K1 w with Some (_, w') => w' | None => w end.

Lemma all_u8 l : forallb (fun b => (0 <=? b) && (b <? 256)) l = true -> Forall is_u8 l.
Proof.
  intros H. apply Forall_forall. intros b Hb. rewrite forallb_forall in H. specialize (H b Hb). unfold is_u. change (2 ^ 8) with 256. bsimp; lia.
Qed.

Lemma values_u64 : Forall is_u64 [0; 5].
Proof. repeat constructor; unfold is_u; lia. Qed.

Lemma synack_sent_witness :
  (@syn_request K1 true [22; 80; 0; 0; 0; 0; 0; 0] packet4 /\ @answered run_kloop K1 w4 (sent_world w4)) /\
  (@syn_request K1 true [22; 80; 0; 0; 0; 0; 0; 0] packet6 /\ @answered run_kloop K1 w6 (sent_world w6)).
Proof.
  split.
  - refine (@synack_sent run_kloop K1 K1_ok w4 (sent_world w4) _ _ values_u64 _);
      [now apply all_u8 | vm_compute; discriminate | vm_compute; reflexivity].
  - refine (@synack_sent run_kloop K1 K1_ok w6 (sent_world w6) _ _ values_u64 _);
      [now apply all_u8 | vm_compute; discriminate | vm_compute; reflexivity].
Defined.

Lemma w4_request : @syn_request K1 true [22; 80; 0; 0; 0; 0; 0; 0] packet4.
Proof.
  apply build_request.
  - now vm_compute.
  - vm_compute. split; lia.
  - reflexivity.
  - now vm_compute.
  - vm_compute. tauto.
  - now vm_compute.
Qed.

Lemma syn_answered_witness : exists w', @syncookie_xdp run_kloop K1 w4 = Some (XDP_TX, w').
Proof.
  refine (@syn_answered run_kloop K1 K1_ok w4 (all_u8 packet4 eq_refl) _ values_u64 w4_request _ _);
    [vm_compute; discriminate | | vm_compute; discriminate].
  intros q n Hn. change (resize q (Z.of_nat (length q) + (n - Z.of_nat (length q))) <> None).
  unfold resize. destruct (Z.ltb_spec (Z.of_nat (length q) + (n - Z.of_nat (length q))) 0); [lia | discriminate].
Defined.

Lemma stays_in_packet_witness :
  (exists r w', @syncookie_xdp run_kloop K1 w4 = Some (r, w') /\ ct_refs w' = 0) /\
  (exists r w', @syncookie_tc run_kloop K1 3 w4 = Some (r, w') /\ ct_refs w' = 0).
Proof. exact (@stays_in_packet run_kloop K1 K1_ok w4 3 (all_u8 packet4 eq_refl)). Defined.

Lemma tc_as_xdp_witness : @syncookie_tc run_kloop K1 3 w4 = Some (7, sent_world w4).
Proof.
  rewrite (@tc_as_xdp run_kloop K1 K1_ok K1_same 3 w4 (all_u8 packet4 eq_refl)). vm_compute. reflexivity.
Defined.

(** The options of [packet4] once it has grown. *)
Definition options4 : list tcpopt := [Other 2 [5; 180]; SackPerm; Timestamp 4386 0; Nop; WScale 7].

Lemma timestamp_tells_witness : exists cookie,
  @ts_answer run_kloop K1 (on w4 (packet4 ++ repeat 0 20)) 34 = Some (cookie, 4386) /\ cookie / 64 = 78 /\
  Z.testbit cookie 5 = false /\ Z.testbit cookie 4 = true /\ cookie mod 16 = 7.
Proof.
  apply (@timestamp_tells run_kloop K1 (on w4 (packet4 ++ repeat 0 20)) 34 (firstn 54 packet4) options4 (repeat 0 20));
    [reflexivity | reflexivity | now apply all_u8 | vm_compute; discriminate | reflexivity | | cbn; lia].
  repeat constructor; unfold is_u; cbn; lia.
Defined.

(** The parser never reads the last byte of the packet: a header of sixty bytes
    that ends a packet loses a window scale that ends the options. *)
Example last_byte_unread : next [3; 3; 7] (at_off (first_context 0) 2) 1 = (None, at_off (first_context 0) 2) /\ rd [3; 3; 7] 2 1 = Some [7].
Proof. split; reflexivity. Qed.

End SynProxy.
