(* ===== verification/ClsRedirect.v ===== *)
(** The load balancer's decapsulator: progs/test_cls_redirect.rs.

    A packet encapsulated in GUE carries a list of next hops.  The program
    parses the outer headers and the packet inside, asks the kernel for a socket
    of the flow, and takes the packet off its encapsulation for this host, or
    sends it to the next hop, in GUE or in GRE.

    The packet is a list of bytes of which the first [linear] are mapped; the
    cursor ([Buf]) is an offset from its start with the end it was created with.
    A direct access beyond the mapped part is a fault; [bpf_skb_load_bytes]
    reaches everything.  What [buf_assign] returns is a pointer to bytes that are
    not written while it is used, and it is modelled by those bytes.  The
    kernel's answers are the class [Kernel], those that may differ from call to
    call being functions of the number of the call; [KernelOk] is what is
    documented of them. *)

From S2P Require Import Prelude Kernel Early Packet.
Local Open Scope early_scope.

Module Redirect.

(** ** Constants *)

Definition TC_ACT_OK := 0.
Definition TC_ACT_SHOT := 2.
Definition ETH_ALEN : nat := 6.
Definition ETH_P_IP := 0x0800.
Definition ETH_P_IPV6 := 0x86DD.
Definition IPPROTO_HOPOPTS := 0.
Definition IPPROTO_ICMP := 1.
Definition IPPROTO_IPIP := 4.
Definition IPPROTO_TCP := 6.
Definition IPPROTO_UDP := 17.
Definition IPPROTO_IPV6 := 41.
Definition IPPROTO_GRE := 47.
Definition IPPROTO_ROUTING := 43.
Definition IPPROTO_FRAGMENT := 44.
Definition IPPROTO_ICMPV6 := 58.
Definition IPPROTO_DSTOPTS := 60.
Definition IPPROTO_MH := 135.
Definition ICMP_ECHOREPLY := 0.
Definition ICMP_DEST_UNREACH := 3.
Definition ICMP_FRAG_NEEDED := 4.
Definition ICMP_ECHO := 8.
Definition ICMPV6_PKT_TOOBIG := 2.
Definition ICMPV6_ECHO_REQUEST := 128.
Definition ICMPV6_ECHO_REPLY := 129.
Definition IP_OFFSET_MASK := 0x1FFF.
Definition IP_MF := 0x2000.
Definition BPF_TCP_ESTABLISHED := 1.
Definition BPF_TCP_LISTEN := 10.
Definition BPF_F_INGRESS := 1.
Definition BPF_ADJ_ROOM_NET := 0.
Definition BPF_ADJ_ROOM_MAC := 1.
Definition BPF_CSUM_LEVEL_INC := 1.
Definition BPF_CSUM_LEVEL_DEC := 2.

(** The verdicts *)
Definition INVALID := 0.
Definition UNKNOWN := 1.
Definition ECHO_REQUEST := 2.
Definition SYN := 3.
Definition SYN_COOKIE := 4.
Definition ESTABLISHED := 5.

Definition IPV4_TTL_OFFSET : nat := 8.
Definition IPV4_CHECK_OFFSET : nat := 10.
Definition IPV6_HOP_LIMIT_OFFSET : nat := 7.

(** [size_of] of the headers. *)
Definition EthHdr : nat := 14.
Definition IpHdr : nat := 20.
Definition Ipv6Hdr : nat := 40.
Definition UdpHdr : nat := 8.
Definition TcpHdr : nat := 20.
Definition IcmpHdr : nat := 8.
Definition Icmp6Hdr : nat := 8.
Definition InAddr : nat := 4.
Definition GreBaseHdr : nat := 4.
Definition Unigue : nat := 4.
Definition EncapHeaders : nat := 50.
Definition EncapGre : nat := 38.
Definition ExtHdr : nat := 2.
Definition FlowPorts : nat := 4.

(** Where the headers of [EncapHeaders] and their fields lie in the packet. *)
Definition H_PROTO : nat := 12.
Definition IP : nat := 14.
Definition UDP : nat := 34.
Definition GUE : nat := 42.
Definition UNIGUE : nat := 46.

Definition ip_ihl (b : Z) : Z := Z.land b 0xF.
Definition ip_version (b : Z) : Z := Z.land (shr b 4) 0xF.
Definition ipv6_version (b : Z) : Z := Z.land (shr b 4) 0xF.
Definition gue_control (b : Z) : Z := Z.land (shr b 5) 0x1.
Definition gue_variant (b : Z) : Z := Z.land (shr b 6) 0x3.
Definition gue_hlen (b : Z) : Z := Z.land b 0x1F.
Definition unigue_last_hop_gre (b : Z) : Z := Z.land (shr b 2) 0x1.
Definition unigue_forward_syn (b : Z) : Z := Z.land (shr b 3) 0x1.
Definition unigue_version (b : Z) : Z := Z.land (shr b 4) 0xF.
Definition tcp_syn (b : Z) : bool := negb (Z.land (shr b 1) 0x1 =? 0).

(** ** The state *)

(** The counters of [Metrics]. *)
Inductive Metric :=
| processed_packets_total
| l3_protocol_packets_total_ipv4
| l3_protocol_packets_total_ipv6
| l4_protocol_packets_total_tcp
| l4_protocol_packets_total_udp
| accepted_packets_total_syn
| accepted_packets_total_syn_cookies
| accepted_packets_total_last_hop
| accepted_packets_total_icmp_echo_request
| accepted_packets_total_established
| forwarded_packets_total_gue
| forwarded_packets_total_gre
| errors_total_unknown_l3_proto
| errors_total_unknown_l4_proto
| errors_total_malformed_ip
| errors_total_fragmented_ip
| errors_total_malformed_icmp
| errors_total_unwanted_icmp
| errors_total_malformed_icmp_pkt_too_big
| errors_total_malformed_tcp
| errors_total_malformed_udp
| errors_total_icmp_echo_replies
| errors_total_malformed_encapsulation
| errors_total_encap_adjust_failed
| errors_total_encap_buffer_too_small
| errors_total_redirect_loop
| errors_total_encap_mtu_violate.

Definition Metric_eq (a b : Metric) : {a = b} + {a <> b}.
Proof. decide equality. Defined.

(** [buf_t]: the offsets of [head] and [tail]. *)
Record Buf := mk_buf { head : nat; tail : nat }.

(** The packet, its mapped length, the cursor in use, the counters, the sockets
    held, where the packet is redirected to, and the number of helper calls. *)
Record world := {
  data : list Z;
  linear : nat;
  buf : Buf;
  metrics : Metric -> Z;
  sk_refs : Z;
  redirected : option (Z * Z);
  calls : nat
}.

Abbreviation M := (Early.M world).

(** ** The kernel

    [bpf_skb_pull_data n p l k]: the mapped length when the call succeeds, asked
    for [k] bytes of the packet [p] of which [l] are mapped.
    [bpf_skb_adjust_room] gives the new packet and its mapped length;
    [writable]: a store succeeds; [l3_csum] is the checksum a replacement
    leaves; the socket lookups give the state of the socket. *)
Class Kernel := {
  ENCAPSULATION_PORT : Z;
  ENCAPSULATION_IP : Z;
  metrics_map : bool;
  bpf_skb_pull_data : nat -> list Z -> nat -> nat -> option nat;
  bpf_skb_adjust_room : nat -> list Z -> Z -> Z -> option (list Z * nat);
  bpf_csum_level : nat -> Z -> Z;
  bpf_check_mtu : nat -> Z -> Z -> Z;
  writable : nat -> bool;
  l3_csum : Z -> Z -> Z -> Z -> Z;
  bpf_redirect_ret : Z -> Z -> Z;
  bpf_skc_lookup_tcp : list Z -> option Z;
  bpf_sk_lookup_udp : list Z -> option Z;
  bpf_tcp_check_syncookie : list Z -> list Z -> Z
}.

Section Program.
Context {K : Kernel}.

(** The fields of [__sk_buff] that do not change. *)
Variables (protocol ifindex : Z).

Definition bump (m : Metric) : M unit :=
  modify (fun w => w <| metrics := fun m' => if Metric_eq m' m then u64 (metrics w m' + 1) else metrics w m' |>).

(** The number of the call a helper is in. *)
Definition tick : M nat := n <- get calls ;; modify (fun w => w <| calls ::= S |>) ;; ret n.

(** *** Direct accesses *)

Definition load (off n : nat) : M (list Z) := fun w =>
  if Nat.leb (off + n) (linear w) then Some (inr (sub (data w) off n), w) else None.
Definition ld8 (off : nat) : M Z := b <- load off 1 ;; ret (byte b 0).
Definition ld16 (off : nat) : M Z := b <- load off 2 ;; ret (word16 b 0).
Definition ld32 (off : nat) : M Z := b <- load off 4 ;; ret (word32 b 0).
Definition store (off : nat) (bs : list Z) : M unit := fun w =>
  if Nat.leb (off + length bs) (linear w) then Some (inr tt, w <| data := put (data w) off bs |>) else None.
Definition st8 (off : nat) (v : Z) : M unit := store off [v].
Definition st16 (off : nat) (v : Z) : M unit := store off (bytes16 v).
Definition st32 (off : nat) (v : Z) : M unit := store off (bytes32 v).

(** *** Helpers *)

Definition bpf_skb_load_bytes (off len : nat) : M (option (list Z)) :=
  get (fun w => if Nat.leb (off + len) (length (data w)) then Some (sub (data w) off len) else None).

(** 0, or an error. *)
Definition bpf_skb_store_bytes (off : nat) (bs : list Z) : M Z :=
  n <- tick ;;
  ok <- get (fun w => writable n && Nat.leb (off + length bs) (length (data w))) ;;
  if ok then modify (fun w => w <| data := put (data w) off bs |>) ;; ret 0 else ret (-14).

Definition bpf_l3_csum_replace (off : nat) (from to size : Z) : M Z :=
  n <- tick ;;
  ok <- get (fun w => writable n && Nat.leb (off + 2) (length (data w))) ;;
  if ok then modify (fun w => w <| data := put (data w) off (bytes16 (l3_csum (word16 (data w) off) from to size)) |>) ;; ret 0
  else ret (-14).

Definition pull_data (len : nat) : M Z :=
  n <- tick ;;
  r <- get (fun w => bpf_skb_pull_data n (data w) (linear w) len) ;;
  match r with
  | Some l => modify (fun w => w <| linear := l |>) ;; ret 0
  | None => ret (-12)
  end.

Definition adjust_room (delta mode : Z) : M Z :=
  n <- tick ;;
  r <- get (fun w => bpf_skb_adjust_room n (data w) delta mode) ;;
  match r with
  | Some (p, l) => modify (fun w => w <| data := p |> <| linear := l |>) ;; ret 0
  | None => ret (-524)
  end.

Definition csum_level (level : Z) : M Z := n <- tick ;; ret (bpf_csum_level n level).
Definition check_mtu (delta : Z) : M Z :=
  n <- tick ;; len <- get (fun w => Z.of_nat (length (data w))) ;; ret (bpf_check_mtu n len delta).
Definition bpf_redirect (flags : Z) : M Z :=
  modify (fun w => w <| redirected := Some (ifindex, flags) |>) ;; ret (bpf_redirect_ret ifindex flags).

(** A socket found is held. *)
Definition lookup (f : list Z -> option Z) (tuple : list Z) : M (option Z) :=
  match f tuple with
  | Some state => modify (fun w => w <| sk_refs ::= Z.add 1 |>) ;; ret (Some state)
  | None => ret None
  end.
Definition bpf_sk_release : M unit := modify (fun w => w <| sk_refs ::= Z.add (-1) |>).

(** ** The cursor *)

Definition advance (len : nat) : M unit := modify (fun w => w <| buf := mk_buf (head (buf w) + len) (tail (buf w)) |>).
Definition buf_off : M nat := get (fun w => head (buf w)).

(** A new cursor at the start of the packet, up to the end of the mapped part. *)
Definition new_buf : M unit := modify (fun w => w <| buf := mk_buf 0 (linear w) |>).

Definition buf_copy (len : nat) : M (option (list Z)) :=
  off <- buf_off ;;
  r <- bpf_skb_load_bytes off len ;;
  match r with
  | Some bs => advance len ;; ret (Some bs)
  | None => ret None
  end.

Definition buf_skip (len : nat) : M bool :=
  off <- buf_off ;;
  n <- get (fun w => length (data w)) ;;
  if Nat.ltb n (off + len) then ret false else advance len ;; ret true.

Definition buf_assign (len : nat) (scratch : bool) : M (option (list Z)) :=
  want <- get (fun w => head (buf w) + len)%nat ;;
  tail <- get (fun w => tail (buf w)) ;;
  if Nat.ltb tail want then (if scratch then buf_copy len else ret None) else
  off <- buf_off ;;
  bs <- load off len ;;
  advance len ;;
  ret (Some bs).

(** ** Parsing *)

Definition pkt_skip_ipv4_options (ipv4 : list Z) : M bool :=
  let ihl := ip_ihl (byte ipv4 0) in
  if ihl <=? 5 then ret true else buf_skip (Z.to_nat (u8 (ihl - 5)) * 4).

Definition ipv4_is_fragment (ip : list Z) : bool :=
  let frag_off_raw := word16 ip 6 in
  let frag_off := Z.land frag_off_raw (to_be IP_OFFSET_MASK) in
  negb (Z.land frag_off_raw (to_be IP_MF) =? 0) || (0 <? frag_off).

Definition pkt_parse_ipv4 : M (option (list Z)) :=
  r <- buf_assign IpHdr true ;;
  match r with
  | None => ret None
  | Some ipv4 =>
      if ip_ihl (byte ipv4 0) <? 5 then ret None else
      ok <- pkt_skip_ipv4_options ipv4 ;;
      ret (if ok then Some ipv4 else None)
  end.

(** The ports, source and destination exchanged. *)
Definition pkt_parse_icmp_l4_ports : M (option (list Z)) :=
  r <- buf_copy FlowPorts ;;
  ret (option_map (fun ports => sub ports 2 2 ++ sub ports 0 2) r).

Definition pkt_checksum_fold (csum : Z) : Z :=
  let csum := u32 (Z.land csum 0xffff + shr csum 16) in
  let csum := u32 (Z.land csum 0xffff + shr csum 16) in
  notw 16 (u16 csum).

Definition pkt_ipv4_checksum (iph : nat) : M unit :=
  st16 (iph + 10) 0 ;;
  words <- load iph IpHdr ;;
  let acc := fold_left (fun acc i => u32 (acc + word16 words (2 * i))) (seq 0 (IpHdr / 2)) 0 in
  st16 (iph + 10) (pkt_checksum_fold acc).

(** Over the extension header in hand: [next] is the one after it. *)
Definition skip_header (k : Z -> M (option (Z * bool))) : M (option (Z * bool)) :=
  r <- buf_copy ExtHdr ;;
  match r with
  | None => ret None
  | Some exthdr =>
      ok <- buf_skip (Z.to_nat ((byte exthdr 1 + 1) * 8) - ExtHdr) ;;
      if ok then k (byte exthdr 0) else ret None
  end.

(** The rounds left, and the header in hand: upper protocol and whether a
    fragment header was seen. *)
Fixpoint skip_headers (n : nat) (next : Z) (is_fragment : bool) : M (option (Z * bool)) :=
  match n with
  | O => ret None
  | S n =>
      if next =? IPPROTO_FRAGMENT then skip_header (fun next => skip_headers n next true)
      else if (next =? IPPROTO_HOPOPTS) || (next =? IPPROTO_ROUTING) || (next =? IPPROTO_DSTOPTS) || (next =? IPPROTO_MH)
      then skip_header (fun next => skip_headers n next is_fragment)
      else ret (Some (next, is_fragment))
  end.

Definition pkt_skip_ipv6_extension_headers (ipv6 : list Z) : M (option (Z * bool)) :=
  skip_headers 6 (byte ipv6 6) false.

Definition pkt_parse_ipv6 : M (option (list Z * Z * bool)) :=
  r <- buf_assign Ipv6Hdr true ;;
  match r with
  | None => ret None
  | Some ipv6 =>
      r <- pkt_skip_ipv6_extension_headers ipv6 ;;
      ret (option_map (fun x => (ipv6, fst x, snd x)) r)
  end.

(** ** Redirecting and forwarding *)

(** Where the packet inside starts. *)
Definition payload_off (hop_count : Z) : nat := EncapHeaders + InAddr * Z.to_nat hop_count.

(** [r == 0 || return] *)
Definition must (r : Z) (m : Metric) : M unit := if r =? 0 then ret tt else bump m ;; out TC_ACT_SHOT.

Definition accept_locally : M Z :=
  hop_count <- ld8 (UNIGUE + 3) ;;
  let encap_overhead := Z.of_nat (payload_off hop_count) - Z.of_nat EthHdr in
  proto <- ld8 (GUE + 1) ;;
  when (proto =? IPPROTO_IPV6) (st16 H_PROTO (to_be ETH_P_IPV6)) ;;
  r <- adjust_room (- encap_overhead) BPF_ADJ_ROOM_MAC ;;
  if negb (r =? 0) then out TC_ACT_SHOT else
  r <- csum_level BPF_CSUM_LEVEL_DEC ;;
  if negb (r =? 0) then out TC_ACT_SHOT else
  bpf_redirect BPF_F_INGRESS.

(** The hop limit of the packet inside goes down by one, at [off]. *)
Definition load_ttl (off : nat) : M Z :=
  r <- bpf_skb_load_bytes off 1 ;;
  match r with
  | None => bump errors_total_malformed_encapsulation ;; out TC_ACT_SHOT
  | Some b =>
      if byte b 0 =? 0 then bump errors_total_redirect_loop ;; out TC_ACT_SHOT else ret (byte b 0)
  end.

Definition dec_ttl (proto hop_count : Z) : M Z :=
  if proto =? IPPROTO_IPV6 then
    let off := (payload_off hop_count + IPV6_HOP_LIMIT_OFFSET)%nat in
    ttl <- load_ttl off ;;
    r <- bpf_skb_store_bytes off [u8 (ttl - 1)] ;;
    must r errors_total_malformed_encapsulation ;;
    ret ETH_P_IPV6
  else
    let off := (payload_off hop_count + IPV4_TTL_OFFSET)%nat in
    ttl <- load_ttl off ;;
    let check_off := (payload_off hop_count + IPV4_CHECK_OFFSET)%nat in
    r <- bpf_l3_csum_replace check_off ttl (u8 (ttl - 1)) 2 ;;
    must r errors_total_malformed_encapsulation ;;
    r <- bpf_skb_store_bytes off [u8 (ttl - 1)] ;;
    must r errors_total_malformed_encapsulation ;;
    ret ETH_P_IP.

(** The outer header, rewritten for GRE. *)
Definition write_gre (delta proto next_hop : Z) : M unit :=
  st8 (IP + 9) IPPROTO_GRE ;;
  st32 (IP + 16) next_hop ;;
  st32 (IP + 12) ENCAPSULATION_IP ;;
  tot_len <- ld16 (IP + 2) ;;
  st16 (IP + 2) (to_be (u16 (to_be tot_len + delta))) ;;
  st16 (IP + IpHdr) 0 ;;
  st16 (IP + IpHdr + 2) (to_be proto) ;;
  pkt_ipv4_checksum IP.

(** From the check of the MTU on. *)
Definition leave_in_gre (delta proto next_hop : Z) : M Z :=
  r <- check_mtu delta ;;
  must r errors_total_encap_mtu_violate ;;
  r <- adjust_room delta BPF_ADJ_ROOM_NET ;;
  must r errors_total_encap_adjust_failed ;;
  r <- csum_level BPF_CSUM_LEVEL_INC ;;
  must r errors_total_encap_adjust_failed ;;
  r <- pull_data EncapGre ;;
  must r errors_total_encap_buffer_too_small ;;
  new_buf ;;
  r <- buf_assign EncapGre false ;;
  match r with
  | None => bump errors_total_encap_buffer_too_small ;; out TC_ACT_SHOT
  | Some _ => write_gre delta proto next_hop ;; bpf_redirect 0
  end.

Definition forward_with_gre (next_hop : Z) : M Z :=
  bump forwarded_packets_total_gre ;;
  hop_count <- ld8 (UNIGUE + 3) ;;
  let encap_overhead := Z.of_nat (payload_off hop_count) - Z.of_nat EthHdr - Z.of_nat IpHdr in
  let delta := Z.of_nat GreBaseHdr - encap_overhead in
  proto_ctype <- ld8 (GUE + 1) ;;
  proto <- dec_ttl proto_ctype hop_count ;;
  leave_in_gre delta proto next_hop.

Definition forward_to_next_hop (next_hop : Z) : M Z :=
  dest <- load 0 ETH_ALEN ;;
  source <- load ETH_ALEN ETH_ALEN ;;
  store 0 source ;;
  store ETH_ALEN dest ;;
  hop_count <- ld8 (UNIGUE + 3) ;;
  next_hop_idx <- ld8 (UNIGUE + 2) ;;
  b0 <- ld8 UNIGUE ;;
  if (next_hop_idx =? u8 (hop_count - 1)) && negb (unigue_last_hop_gre b0 =? 0) then forward_with_gre next_hop else
  bump forwarded_packets_total_gue ;;
  old_saddr <- ld32 (IP + 12) ;;
  daddr <- ld32 (IP + 16) ;;
  st32 (IP + 12) daddr ;;
  st32 (IP + 16) next_hop ;;
  when (next_hop_idx <? hop_count) (st8 (UNIGUE + 2) (u8 (next_hop_idx + 1))) ;;
  r <- bpf_l3_csum_replace (EthHdr + IPV4_CHECK_OFFSET) old_saddr next_hop 4 ;;
  if r <? 0 then out TC_ACT_SHOT else bpf_redirect 0.

(** The two are left by a return other than CONTINUE_PROCESSING. *)
Definition skip_next_hops (n : Z) : M unit :=
  if n =? 1 then ok <- buf_skip InAddr ;; if ok : bool then ret tt else out TC_ACT_SHOT
  else if n =? 0 then ret tt else out TC_ACT_SHOT.

Definition get_next_hop : M Z :=
  next_hop_idx <- ld8 (UNIGUE + 2) ;;
  hop_count <- ld8 (UNIGUE + 3) ;;
  if hop_count <? next_hop_idx then out TC_ACT_SHOT else
  skip_next_hops next_hop_idx ;;
  if next_hop_idx =? hop_count then ret 0 else
  r <- buf_copy InAddr ;;
  match r with
  | None => out TC_ACT_SHOT
  | Some next_hop => skip_next_hops (u8 (u8 (hop_count - next_hop_idx) - 1)) ;; ret (word32 next_hop 0)
  end.

(** ** Classification *)

(** The source address, the destination address and the ports. *)
Definition fill_tuple (iph : list Z) (sport dport : list Z) : list Z :=
  if Nat.eqb (length iph) IpHdr then sub iph 12 4 ++ sub iph 16 4 ++ sport ++ dport
  else if Nat.eqb (length iph) Ipv6Hdr then sub iph 8 16 ++ sub iph 24 16 ++ sport ++ dport
  else [].

(** [headers]: the IP and TCP headers, where they are given. *)
Definition classify_tcp (tuple : list Z) (headers : option (list Z * list Z)) : M Z :=
  sk <- lookup bpf_skc_lookup_tcp tuple ;;
  match sk with
  | None => out UNKNOWN
  | Some state =>
      if negb (state =? BPF_TCP_LISTEN) then bpf_sk_release ;; out ESTABLISHED else
      match headers with
      | Some (iph, tcp) =>
          if bpf_tcp_check_syncookie iph tcp =? 0 then bpf_sk_release ;; out SYN_COOKIE else bpf_sk_release ;; ret UNKNOWN
      | None => bpf_sk_release ;; ret UNKNOWN
      end
  end.

Definition classify_udp (tuple : list Z) : M Z :=
  sk <- lookup bpf_sk_lookup_udp tuple ;;
  match sk with
  | None => out UNKNOWN
  | Some state =>
      if state =? BPF_TCP_ESTABLISHED then bpf_sk_release ;; out ESTABLISHED else bpf_sk_release ;; ret UNKNOWN
  end.

Definition classify_icmp (proto : Z) (tuple : list Z) : M Z :=
  if proto =? IPPROTO_TCP then classify_tcp tuple None
  else if proto =? IPPROTO_UDP then classify_udp tuple
  else bump errors_total_malformed_icmp ;; ret INVALID.

(** ** Processing *)

(** A verdict of INVALID, counted. *)
Definition invalid (m : Metric) : M Z := bump m ;; out INVALID.

Definition process_icmpv4 : M Z :=
  r <- buf_copy IcmpHdr ;;
  match r with
  | None => invalid errors_total_malformed_icmp
  | Some icmp =>
  let type := byte icmp 0 in
  if type =? ICMP_ECHOREPLY then invalid errors_total_icmp_echo_replies else
  if type =? ICMP_ECHO then out ECHO_REQUEST else
  if negb (type =? ICMP_DEST_UNREACH) || negb (byte icmp 1 =? ICMP_FRAG_NEEDED) then invalid errors_total_unwanted_icmp else
  r <- pkt_parse_ipv4 ;;
  match r with
  | None => invalid errors_total_malformed_icmp_pkt_too_big
  | Some ipv4 =>
  ports <- pkt_parse_icmp_l4_ports ;;
  match ports with
  | None => invalid errors_total_malformed_icmp_pkt_too_big
  | Some ports => classify_icmp (byte ipv4 9) (sub ipv4 16 4 ++ sub ipv4 12 4 ++ ports)
  end end end.

Definition process_icmpv6 : M Z :=
  r <- buf_copy Icmp6Hdr ;;
  match r with
  | None => invalid errors_total_malformed_icmp
  | Some icmp6 =>
  let type := byte icmp6 0 in
  if type =? ICMPV6_ECHO_REPLY then invalid errors_total_icmp_echo_replies else
  if type =? ICMPV6_ECHO_REQUEST then out ECHO_REQUEST else
  if negb (type =? ICMPV6_PKT_TOOBIG) then invalid errors_total_unwanted_icmp else
  r <- pkt_parse_ipv6 ;;
  match r with
  | None => invalid errors_total_malformed_icmp_pkt_too_big
  | Some (ipv6, l4_proto, is_fragment) =>
  if is_fragment : bool then invalid errors_total_fragmented_ip else
  ports <- pkt_parse_icmp_l4_ports ;;
  match ports with
  | None => invalid errors_total_malformed_icmp_pkt_too_big
  | Some ports => classify_icmp l4_proto (sub ipv6 24 16 ++ sub ipv6 8 16 ++ ports)
  end end end.

Definition process_tcp (iph : list Z) : M Z :=
  bump l4_protocol_packets_total_tcp ;;
  r <- buf_assign TcpHdr true ;;
  match r with
  | None => invalid errors_total_malformed_tcp
  | Some tcp =>
      if tcp_syn (byte tcp 13) then out SYN else
      classify_tcp (fill_tuple iph (sub tcp 0 2) (sub tcp 2 2)) (Some (iph, tcp))
  end.

Definition process_udp (iph : list Z) : M Z :=
  bump l4_protocol_packets_total_udp ;;
  r <- buf_assign UdpHdr true ;;
  match r with
  | None => invalid errors_total_malformed_udp
  | Some udph => classify_udp (fill_tuple iph (sub udph 0 2) (sub udph 2 2))
  end.

Definition process_ipv4 : M Z :=
  bump l3_protocol_packets_total_ipv4 ;;
  r <- pkt_parse_ipv4 ;;
  match r with
  | None => invalid errors_total_malformed_ip
  | Some ipv4 =>
  if negb (ip_version (byte ipv4 0) =? 4) then invalid errors_total_malformed_ip else
  if ipv4_is_fragment ipv4 then invalid errors_total_fragmented_ip else
  let protocol := byte ipv4 9 in
  if protocol =? IPPROTO_ICMP then process_icmpv4
  else if protocol =? IPPROTO_TCP then process_tcp ipv4
  else if protocol =? IPPROTO_UDP then process_udp ipv4
  else invalid errors_total_unknown_l4_proto
  end.

Definition process_ipv6 : M Z :=
  bump l3_protocol_packets_total_ipv6 ;;
  r <- pkt_parse_ipv6 ;;
  match r with
  | None => invalid errors_total_malformed_ip
  | Some (ipv6, l4_proto, is_fragment) =>
  if negb (ipv6_version (byte ipv6 0) =? 6) then invalid errors_total_malformed_ip else
  if is_fragment : bool then invalid errors_total_fragmented_ip else
  if l4_proto =? IPPROTO_ICMPV6 then process_icmpv6
  else if l4_proto =? IPPROTO_TCP then process_tcp ipv6
  else if l4_proto =? IPPROTO_UDP then process_udp ipv6
  else invalid errors_total_unknown_l4_proto
  end.

(** ** The program *)

(** The checks of the outer headers, which lie in the mapped part. *)
Definition check_encap : M unit :=
  ihl_version <- ld8 IP ;;
  if negb (ip_ihl ihl_version =? 5) then out TC_ACT_OK else
  daddr <- ld32 (IP + 16) ;;
  ip_proto <- ld8 (IP + 9) ;;
  if negb (daddr =? ENCAPSULATION_IP) || negb (ip_proto =? IPPROTO_UDP) then out TC_ACT_OK else
  dest <- ld16 (UDP + 2) ;;
  if negb (dest =? ENCAPSULATION_PORT) then out TC_ACT_OK else
  ip <- load IP IpHdr ;;
  let malformed := bump errors_total_malformed_encapsulation ;; out TC_ACT_SHOT in
  if ipv4_is_fragment ip then bump errors_total_fragmented_ip ;; out TC_ACT_SHOT else
  gue_b0 <- ld8 GUE ;;
  if negb (gue_variant gue_b0 =? 0) then malformed else
  if negb (gue_control gue_b0 =? 0) then malformed else
  flags <- ld16 (GUE + 2) ;;
  if negb (flags =? 0) then malformed else
  hop_count <- ld8 (UNIGUE + 3) ;;
  if negb (gue_hlen gue_b0 =? u8 (Z.of_nat (Unigue / 4) + hop_count)) then malformed else
  unigue_b0 <- ld8 UNIGUE ;;
  if negb (unigue_version unigue_b0 =? 0) then malformed else
  reserved <- ld8 (UNIGUE + 1) ;;
  if negb (reserved =? 0) then out TC_ACT_SHOT else ret tt.

(** What is done with a verdict. *)
Definition act (verdict next_hop : Z) : M Z :=
  if verdict =? INVALID then out TC_ACT_SHOT
  else if verdict =? UNKNOWN then forward_to_next_hop next_hop
  else if verdict =? ECHO_REQUEST then bump accepted_packets_total_icmp_echo_request ;; accept_locally
  else if verdict =? SYN then
    b0 <- ld8 UNIGUE ;;
    if negb (unigue_forward_syn b0 =? 0) then forward_to_next_hop next_hop
    else bump accepted_packets_total_syn ;; accept_locally
  else if verdict =? SYN_COOKIE then bump accepted_packets_total_syn_cookies ;; accept_locally
  else if verdict =? ESTABLISHED then bump accepted_packets_total_established ;; accept_locally
  else out TC_ACT_SHOT.

Definition cls_redirect_body : M Z :=
  if negb metrics_map then out TC_ACT_SHOT else
  bump processed_packets_total ;;
  if negb (protocol =? to_be ETH_P_IP) then out TC_ACT_OK else
  r <- pull_data EncapHeaders ;;
  if negb (r =? 0) then out TC_ACT_OK else
  new_buf ;;
  encap <- buf_assign EncapHeaders false ;;
  match encap with None => out TC_ACT_OK | Some _ =>
  check_encap ;;
  next_hop <- get_next_hop ;;
  if next_hop =? 0 then bump accepted_packets_total_last_hop ;; accept_locally else
  proto <- ld8 (GUE + 1) ;;
  verdict <- (if proto =? IPPROTO_IPIP then call process_ipv4
              else if proto =? IPPROTO_IPV6 then call process_ipv6
              else bump errors_total_unknown_l3_proto ;; out TC_ACT_SHOT) ;;
  act verdict next_hop
  end.

Definition cls_redirect : world -> option (Z * world) := result cls_redirect_body.

End Program.

(** ** What is documented of the kernel

    A pull maps at least the bytes asked for.  Room is taken away behind the
    Ethernet header, or behind the network header, which is IPv4.  A checksum
    replaced stays as right as it was. *)
Definition room_off (mode : Z) : nat := if mode =? BPF_ADJ_ROOM_MAC then EthHdr else EthHdr + IpHdr.

Class KernelOk (K : Kernel) : Prop := {
  pull_ok : forall n p l k l', bpf_skb_pull_data n p l k = Some l' -> (k <= l' <= length p)%nat;
  adjust_ok : forall n p d mode p' l', 0 <= d -> bpf_skb_adjust_room n p (- d) mode = Some (p', l') ->
    p' = firstn (room_off mode) p ++ skipn (room_off mode + Z.to_nat d) p /\ (l' <= length p')%nat /\
    (room_off mode + Z.to_nat d <= length p)%nat;
  l3_csum_ok : forall c from to size, is_u16 c -> is_u16 (l3_csum c from to size) /\
    l3_csum c from to size mod 65535 = (c + from / 65536 + from mod 65536 - to / 65536 - to mod 65536) mod 65535
}.

(** No helper fails but for the packet: it is too short to be mapped as far as
    asked, or no IPv4 header would be left of it. *)
Definition helpful (K : Kernel) : Prop :=
  (forall n p l k, (k <= length p)%nat -> bpf_skb_pull_data n p l k <> None) /\
  (forall n p d mode, 0 <= d -> (EthHdr + IpHdr + Z.to_nat d <= length p)%nat -> bpf_skb_adjust_room n p (- d) mode <> None) /\
  (forall n level, bpf_csum_level n level = 0) /\
  (forall n len delta, bpf_check_mtu n len delta = 0) /\
  (forall n, writable n = true).

(** ** The reference

    The same decision on the bytes of the packet, with no cursor, no mapped
    part and no state: the counters that go up and what to do. *)

Inductive Decision :=
| Pass
| Drop
| Local
| Gue (hop : Z)
| Gre (hop : Z).

Definition take (n : nat) (l : list Z) : option (list Z * list Z) :=
  if Nat.leb n (length l) then Some (firstn n l, skipn n l) else None.

Section Reference.
Context {K : Kernel}.

(** A packet is a fragment if more follow it or if it is not the first. *)
Definition fragment (ip : list Z) : bool := negb (to_be (word16 ip 6) mod 2 ^ 14 =? 0).

Definition ref_ip4 (l : list Z) : option (list Z * list Z) :=
  match take IpHdr l with
  | None => None
  | Some (h, l) =>
      let ihl := byte h 0 mod 16 in
      if ihl <? 5 then None else option_map (fun x => (h, snd x)) (take (4 * Z.to_nat (ihl - 5)) l)
  end.

Definition extension (proto : Z) : bool :=
  existsb (Z.eqb proto) [IPPROTO_HOPOPTS; IPPROTO_ROUTING; IPPROTO_FRAGMENT; IPPROTO_DSTOPTS; IPPROTO_MH].

(** Fewer than [n] extension headers: the protocol above them, whether one is a
    fragment header, and what follows. *)
Fixpoint ref_exts (n : nat) (next : Z) (frag : bool) (l : list Z) : option (Z * bool * list Z) :=
  match n with
  | O => None
  | S n =>
      if negb (extension next) then Some (next, frag, l) else
      match take 2 l with
      | None => None
      | Some (h, l) =>
          match take (Z.to_nat (8 * byte h 1 + 6)) l with
          | None => None
          | Some (_, l) => ref_exts n (byte h 0) (frag || (next =? IPPROTO_FRAGMENT)) l
          end
      end
  end.

Definition ref_ip6 (l : list Z) : option (list Z * Z * bool * list Z) :=
  match take Ipv6Hdr l with
  | None => None
  | Some (h, l) => option_map (fun x => (h, fst (fst x), snd (fst x), snd x)) (ref_exts 6 (byte h 6) false l)
  end.

(** The verdict the sockets of a flow give. *)
Definition tcp_verdict (tuple : list Z) (headers : option (list Z * list Z)) : Z :=
  match bpf_skc_lookup_tcp tuple with
  | None => UNKNOWN
  | Some state =>
      if negb (state =? BPF_TCP_LISTEN) then ESTABLISHED else
      match headers with
      | Some (iph, tcp) => if bpf_tcp_check_syncookie iph tcp =? 0 then SYN_COOKIE else UNKNOWN
      | None => UNKNOWN
      end
  end.

Definition udp_verdict (tuple : list Z) : Z :=
  match bpf_sk_lookup_udp tuple with
  | Some state => if state =? BPF_TCP_ESTABLISHED then ESTABLISHED else UNKNOWN
  | None => UNKNOWN
  end.

(** The flow of a packet and, for an error about a packet sent from here, the
    flow of the packets that come here. *)
Definition tuple_of (saddr daddr sport dport : list Z) : list Z := saddr ++ daddr ++ sport ++ dport.

Definition ref_tcp (iph saddr daddr l : list Z) : list Metric * Z :=
  match take TcpHdr l with
  | None => ([l4_protocol_packets_total_tcp; errors_total_malformed_tcp], INVALID)
  | Some (t, _) =>
      ([l4_protocol_packets_total_tcp],
       if byte t 13 / 2 mod 2 =? 1 then SYN else tcp_verdict (tuple_of saddr daddr (sub t 0 2) (sub t 2 2)) (Some (iph, t)))
  end.

Definition ref_udp (saddr daddr l : list Z) : list Metric * Z :=
  match take UdpHdr l with
  | None => ([l4_protocol_packets_total_udp; errors_total_malformed_udp], INVALID)
  | Some (u, _) => ([l4_protocol_packets_total_udp], udp_verdict (tuple_of saddr daddr (sub u 0 2) (sub u 2 2)))
  end.

(** The packet an ICMP error is about, sent to [daddr] from [saddr]. *)
Definition ref_error (proto : Z) (saddr daddr l : list Z) : list Metric * Z :=
  match take FlowPorts l with
  | None => ([errors_total_malformed_icmp_pkt_too_big], INVALID)
  | Some (ports, _) =>
      let tuple := tuple_of daddr saddr (sub ports 2 2) (sub ports 0 2) in
      if proto =? IPPROTO_TCP then ([], tcp_verdict tuple None)
      else if proto =? IPPROTO_UDP then ([], udp_verdict tuple)
      else ([errors_total_malformed_icmp], INVALID)
  end.

Definition ref_icmp4 (l : list Z) : list Metric * Z :=
  match take IcmpHdr l with
  | None => ([errors_total_malformed_icmp], INVALID)
  | Some (h, l) =>
      let type := byte h 0 in
      if type =? ICMP_ECHOREPLY then ([errors_total_icmp_echo_replies], INVALID)
      else if type =? ICMP_ECHO then ([], ECHO_REQUEST)
      else if (type =? ICMP_DEST_UNREACH) && (byte h 1 =? ICMP_FRAG_NEEDED) then
        match ref_ip4 l with
        | None => ([errors_total_malformed_icmp_pkt_too_big], INVALID)
        | Some (ip, l) => ref_error (byte ip 9) (sub ip 12 4) (sub ip 16 4) l
        end
      else ([errors_total_unwanted_icmp], INVALID)
  end.

Definition ref_icmp6 (l : list Z) : list Metric * Z :=
  match take Icmp6Hdr l with
  | None => ([errors_total_malformed_icmp], INVALID)
  | Some (h, l) =>
      let type := byte h 0 in
      if type =? ICMPV6_ECHO_REPLY then ([errors_total_icmp_echo_replies], INVALID)
      else if type =? ICMPV6_ECHO_REQUEST then ([], ECHO_REQUEST)
      else if type =? ICMPV6_PKT_TOOBIG then
        match ref_ip6 l with
        | None => ([errors_total_malformed_icmp_pkt_too_big], INVALID)
        | Some (ip, proto, frag, l) =>
            if frag : bool then ([errors_total_fragmented_ip], INVALID)
            else ref_error proto (sub ip 8 16) (sub ip 24 16) l
        end
      else ([errors_total_unwanted_icmp], INVALID)
  end.

Definition count (m : Metric) (r : list Metric * Z) : list Metric * Z := (m :: fst r, snd r).

Definition ref_inner4 (l : list Z) : list Metric * Z :=
  count l3_protocol_packets_total_ipv4
  match ref_ip4 l with
  | None => ([errors_total_malformed_ip], INVALID)
  | Some (ip, l) =>
      if negb (byte ip 0 / 16 =? 4) then ([errors_total_malformed_ip], INVALID)
      else if fragment ip then ([errors_total_fragmented_ip], INVALID)
      else let proto := byte ip 9 in
      if proto =? IPPROTO_ICMP then ref_icmp4 l
      else if proto =? IPPROTO_TCP then ref_tcp ip (sub ip 12 4) (sub ip 16 4) l
      else if proto =? IPPROTO_UDP then ref_udp (sub ip 12 4) (sub ip 16 4) l
      else ([errors_total_unknown_l4_proto], INVALID)
  end.

Definition ref_inner6 (l : list Z) : list Metric * Z :=
  count l3_protocol_packets_total_ipv6
  match ref_ip6 l with
  | None => ([errors_total_malformed_ip], INVALID)
  | Some (ip, proto, frag, l) =>
      if negb (byte ip 0 / 16 =? 6) then ([errors_total_malformed_ip], INVALID)
      else if frag : bool then ([errors_total_fragmented_ip], INVALID)
      else if proto =? IPPROTO_ICMPV6 then ref_icmp6 l
      else if proto =? IPPROTO_TCP then ref_tcp ip (sub ip 8 16) (sub ip 24 16) l
      else if proto =? IPPROTO_UDP then ref_udp (sub ip 8 16) (sub ip 24 16) l
      else ([errors_total_unknown_l4_proto], INVALID)
  end.

(** *** The outer headers *)

Definition hop_count (p : list Z) : Z := byte p 49.
Definition hop_index (p : list Z) : Z := byte p 48.
Definition inner_proto (p : list Z) : Z := byte p 43.
Definition inner (p : list Z) : list Z := skipn (payload_off (hop_count p)) p.

(** A packet for the encapsulation address and port of this host. *)
Definition ours (p : list Z) : bool :=
  Nat.leb EncapHeaders (length p) && (byte p 14 mod 16 =? 5) && (word32 p 30 =? ENCAPSULATION_IP) &&
  (byte p 23 =? IPPROTO_UDP) && (word16 p 36 =? ENCAPSULATION_PORT).

(** A GUE data message of version 0 with no flags and the extension of version
    0 that its length leaves room for, as the code counts it. *)
Definition gue_ok (p : list Z) : bool :=
  (byte p 42 / 32 =? 0) && (word16 p 44 =? 0) && (byte p 42 mod 32 =? (1 + hop_count p) mod 256) && (byte p 46 / 16 =? 0).

(** The next hop: [None] when the list cannot be walked, 0 behind its end. *)
Definition next_hop (p : list Z) : option Z :=
  let i := hop_index p in
  let n := hop_count p in
  if (n <? i) || (1 <? i) || (Z.of_nat (length p) <? 50 + 4 * i) then None
  else if i =? n then Some 0
  else if (i + 2 <? n) || (Z.of_nat (length p) <? 50 + 4 * n) then None
  else Some (word32 p (50 + 4 * Z.to_nat i)).

(** At the last hop the packet may have to leave in GRE, if its hop limit lasts. *)
Definition gre (p : list Z) : bool := (hop_index p =? hop_count p - 1) && (byte p 46 / 4 mod 2 =? 1).
Definition hop_limit (p : list Z) : Z := byte (inner p) (if inner_proto p =? IPPROTO_IPV6 then 7 else 8).

Definition forward (p : list Z) (hop : Z) : list Metric * Decision :=
  if negb (gre p) then ([forwarded_packets_total_gue], Gue hop)
  else if hop_limit p =? 0 then ([forwarded_packets_total_gre; errors_total_redirect_loop], Drop)
  else ([forwarded_packets_total_gre], Gre hop).

Definition decide_verdict (p : list Z) (hop verdict : Z) : list Metric * Decision :=
  if verdict =? UNKNOWN then forward p hop
  else if verdict =? ECHO_REQUEST then ([accepted_packets_total_icmp_echo_request], Local)
  else if verdict =? SYN then
    if byte p 46 / 8 mod 2 =? 1 then forward p hop else ([accepted_packets_total_syn], Local)
  else if verdict =? SYN_COOKIE then ([accepted_packets_total_syn_cookies], Local)
  else if verdict =? ESTABLISHED then ([accepted_packets_total_established], Local)
  else ([], Drop).

Definition inner_verdict (p : list Z) : option (list Metric * Z) :=
  if inner_proto p =? IPPROTO_IPIP then Some (ref_inner4 (inner p))
  else if inner_proto p =? IPPROTO_IPV6 then Some (ref_inner6 (inner p))
  else None.

Definition decision (p : list Z) : list Metric * Decision :=
  if negb (ours p) then ([], Pass)
  else if fragment (sub p IP IpHdr) then ([errors_total_fragmented_ip], Drop)
  else if negb (gue_ok p) then ([errors_total_malformed_encapsulation], Drop)
  else if negb (byte p 47 =? 0) then ([], Drop)
  else match next_hop p with
  | None => ([], Drop)
  | Some hop =>
      if hop =? 0 then ([accepted_packets_total_last_hop], Local) else
      match inner_verdict p with
      | None => ([errors_total_unknown_l3_proto], Drop)
      | Some (ms, v) => let (ms', d) := decide_verdict p hop v in (ms ++ ms', d)
      end
  end.

(** *** The packets that leave *)

(** For this host: what was inside, behind the Ethernet header. *)
Definition decap (p : list Z) : list Z :=
  firstn 12 p ++ (if inner_proto p =? IPPROTO_IPV6 then be16 ETH_P_IPV6 else sub p 12 2) ++ inner p.

(** Back to the sender of the frame. *)
Definition turned (p : list Z) : list Z := sub p 6 6 ++ sub p 0 6 ++ sub p 12 2.

(** In GUE: to the next hop, from the host it was sent to. *)
Definition gue_forward (p : list Z) (hop : Z) : list Z :=
  turned p ++ sub p 14 10 ++ bytes16 (l3_csum (word16 p 24) (word32 p 26) hop 4) ++ sub p 30 4 ++ bytes32 hop ++
  sub p 34 14 ++ [hop_index p + 1] ++ skipn 49 p.

(** The packet inside, one hop further. *)
Definition hopped (p : list Z) : list Z :=
  let l := inner p in
  if inner_proto p =? IPPROTO_IPV6 then firstn 7 l ++ [byte l 7 - 1] ++ skipn 8 l
  else firstn 8 l ++ [byte l 8 - 1; byte l 9] ++ bytes16 (l3_csum (word16 l 10) (byte l 8) (byte l 8 - 1) 2) ++ skipn 12 l.

(** In GRE: an IPv4 header for the new length, and the packet inside. *)
Definition gre_ip (p : list Z) (hop : Z) (check : list Z) : list Z :=
  sub p 14 2 ++ be16 ((to_be (word16 p 16) - 12 - 4 * hop_count p) mod 65536) ++ sub p 18 5 ++ [IPPROTO_GRE] ++ check ++
  bytes32 ENCAPSULATION_IP ++ bytes32 hop.
Definition gre_header (p : list Z) : list Z :=
  [0; 0] ++ be16 (if inner_proto p =? IPPROTO_IPV6 then ETH_P_IPV6 else ETH_P_IP).
Definition gre_forward (p : list Z) (hop : Z) (check : list Z) : list Z :=
  turned p ++ gre_ip p hop check ++ gre_header p ++ hopped p.

End Reference.

(** ** What comes of a packet *)

Section Outcome.
Context {K : Kernel}.

Definition bumps (ms : list Metric) (f : Metric -> Z) : Metric -> Z :=
  fold_left (fun f m m' => if Metric_eq m' m then u64 (f m' + 1) else f m') ms f.

Definition val (r : Z + Z) : Z := match r with inl v | inr v => v end.

(** The packet [p] leaves by a redirection. *)
Definition sent (ifindex : Z) (w w' : world) (p : list Z) (flags : Z) (ms : list Metric) (r : Z) : Prop :=
  r = bpf_redirect_ret ifindex flags /\ redirected w' = Some (ifindex, flags) /\ data w' = p /\
  metrics w' = bumps ms (metrics w) /\ sk_refs w' = sk_refs w.

(** The packet goes nowhere. *)
Definition stopped (w w' : world) (ms : list Metric) : Prop :=
  redirected w' = redirected w /\ sk_refs w' = sk_refs w /\ exists e, metrics w' = bumps (ms ++ e) (metrics w).

Definition dropped (w w' : world) (ms : list Metric) (r : Z) (cause : Prop) : Prop :=
  r = TC_ACT_SHOT /\ stopped w w' ms /\ cause.

(** The sum of the words of an IPv4 header: 0 modulo 65535 if the checksum is right. *)
Definition header_sum (h : list Z) : Z := fold_left (fun s i => s + word16 h (2 * i)) (seq 0 10) 0.

(** The checksum the code writes. *)
Definition gre_check (p : list Z) (hop : Z) : list Z := bytes16 (pkt_checksum_fold (header_sum (gre_ip p hop [0; 0]))).

(** What a decision comes to: the packet it stands for leaves with the counters
    [ms] up, unless a helper fails; the packets dropped go nowhere. *)
Definition outcome (ifindex : Z) (w w' : world) (q : list Z) (ms : list Metric) (d : Decision) (r : Z) : Prop :=
  match d with
  | Pass => r = TC_ACT_OK /\ data w' = q /\ redirected w' = redirected w /\ metrics w' = bumps ms (metrics w) /\ sk_refs w' = sk_refs w
  | Drop => r = TC_ACT_SHOT /\ redirected w' = redirected w /\ metrics w' = bumps ms (metrics w) /\ sk_refs w' = sk_refs w
  | Local => sent ifindex w w' (decap q) BPF_F_INGRESS ms r \/ dropped w w' [] r (~ helpful K \/ (length (inner q) < 20)%nat)
  | Gue to => sent ifindex w w' (gue_forward q to) 0 ms r \/ dropped w w' [] r (~ helpful K)
  | Gre to => (exists check, length check = 2%nat /\ header_sum (gre_ip q to check) mod 65535 = 0 /\
                 (inner_proto q <> IPPROTO_IPV6 -> header_sum (hopped q) mod 65535 = header_sum (inner q) mod 65535) /\
                 sent ifindex w w' (gre_forward q to check) 0 ms r) \/ dropped w w' [] r (~ helpful K)
  end.

End Outcome.

End Redirect.
