(* ===== verification/ClsParse.v ===== *)
(** progs/test_cls_redirect.rs: the parsers of the cursor come to what the
    reference reads from the bytes ([reads]), and the classification to the
    reference's verdict and counters ([judged]); then the checks of the outer
    headers and the next hop.  Uses the model of ClsRedirect.v. *)

From S2P Require Import Prelude Kernel Early Packet ClsRedirect.
Local Open Scope early_scope.

Module Parse.

Import Redirect.

(** ** Parsing follows the reference *)

(** The state [w] with the cursor at [h] and the counters [ms] one up. *)
Definition cur (w : world) (h : nat) (ms : list Metric) : world :=
  w <| buf := mk_buf h (tail (buf w)) |> <| metrics := bumps ms (metrics w) |>.

(** The cursor reaches no further than the mapped part of a packet of bytes. *)
Definition mapped (w : world) : Prop :=
  (tail (buf w) <= linear w <= length (data w))%nat /\ Forall is_u8 (data w).

(** [rest] is what lies behind the cursor. *)
Definition here (w : world) (h : nat) (rest : list Z) : Prop := (h <= length (data w))%nat /\ rest = skipn h (data w).

Section Parsing.
Context {K : Kernel}.

Lemma bump_cur m w h ms : bump m (cur w h ms) = Some (inr tt, cur w h (ms ++ [m])).
Proof. unfold bump, modify, cur, bumps. rewrite fold_left_app. reflexivity. Qed.

Lemma load_cur w h ms off n : (off + n <= linear w)%nat ->
  load off n (cur w h ms) = Some (inr (sub (data w) off n), cur w h ms).
Proof.
  intros H. unfold load. cbn [cur data linear metrics buf set const].
  destruct (Nat.leb_spec (off + n) (linear w)); [reflexivity | lia].
Qed.

Lemma advance_cur w h ms n : advance n (cur w h ms) = Some (inr tt, cur w (h + n) ms).
Proof. reflexivity. Qed.

Lemma take_some n l a b : take n l = Some (a, b) -> (n <= length l)%nat /\ a = firstn n l /\ b = skipn n l.
Proof. unfold take. destruct (Nat.leb_spec n (length l)); [intros [= <- <-]; auto | discriminate]. Qed.

Lemma here_take w h rest n a l : here w h rest -> take n rest = Some (a, l) -> here w (h + n) l.
Proof.
  intros [Hh ->] (Hn & -> & ->)%take_some. rewrite length_skipn in Hn. split; [lia|].
  now rewrite skipn_skipn, Nat.add_comm.
Qed.

Lemma take_here w h rest n : here w h rest ->
  take n rest = if Nat.leb (h + n) (length (data w)) then Some (sub (data w) h n, skipn (h + n) (data w)) else None.
Proof.
  intros [Hh ->]. unfold take, sub. rewrite length_skipn, skipn_skipn, (Nat.add_comm n h).
  destruct (Nat.leb_spec n (length (data w) - h)), (Nat.leb_spec (h + n) (length (data w))); try lia; reflexivity.
Qed.

(** A computation that reads what [f] takes from the front of the rest. *)
Definition reads {A} (m : M (option A)) (f : list Z -> option (A * list Z)) : Prop :=
  forall w h rest ms, mapped w -> here w h rest -> exists h',
    m (cur w h ms) = Some (inr (option_map fst (f rest)), cur w h' ms) /\
    (forall a l, f rest = Some (a, l) -> here w h' l).

Lemma copy_cur w h ms n : buf_copy n (cur w h ms) =
  Some (if Nat.leb (h + n) (length (data w)) then (inr (Some (sub (data w) h n)), cur w (h + n) ms)
        else (inr None, cur w h ms)).
Proof.
  unfold buf_copy, bpf_skb_load_bytes, buf_off, bind, get, ret; cbn [cur buf head tail data linear metrics set const].
  destruct (Nat.leb (h + n) (length (data w))); reflexivity.
Qed.

Lemma reads_copy n : reads (buf_copy n) (take n).
Proof.
  intros w h rest ms _ Hr. exists (if Nat.leb (h + n) (length (data w)) then h + n else h)%nat. split.
  - rewrite (take_here _ _ _ _ Hr), copy_cur. now destruct (Nat.leb (h + n) (length (data w))).
  - intros a l E. pose proof (here_take _ _ _ _ _ _ Hr E). rewrite (take_here _ _ _ _ Hr) in E.
    destruct (Nat.leb (h + n) (length (data w))); [assumption | discriminate].
Qed.

Lemma reads_assign n : reads (buf_assign n true) (take n).
Proof.
  intros w h rest ms Hm Hr. destruct (Nat.leb_spec (h + n) (tail (buf w))) as [L|L].
  - exists (h + n)%nat. split; [|intros a l; now apply here_take].
    rewrite (take_here _ _ _ _ Hr). unfold mapped in Hm.
    destruct (Nat.leb_spec (h + n) (length (data w))); [|lia].
    unfold buf_assign, buf_off, bind at 1 2, get at 1 2; cbn [cur buf head tail data linear metrics set const].
    destruct (Nat.ltb_spec (tail (buf w)) (h + n)); [lia|].
    unfold bind at 1, get. rewrite (bind_inr _ _ _ _ _ (load_cur w h ms h n ltac:(lia))).
    now rewrite (bind_inr _ _ _ _ _ (advance_cur w h ms n)).
  - destruct (reads_copy n w h rest ms Hm Hr) as (h' & E & H). exists h'. split; [|exact H].
    unfold buf_assign, bind at 1 2, get at 1 2; cbn [cur buf head tail data linear metrics set const].
    destruct (Nat.ltb_spec (tail (buf w)) (h + n)); [exact E | lia].
Qed.

Lemma skip_here n w h rest ms : here w h rest ->
  match take n rest with
  | Some (_, l) => buf_skip n (cur w h ms) = Some (inr true, cur w (h + n) ms) /\ here w (h + n) l
  | None => buf_skip n (cur w h ms) = Some (inr false, cur w h ms)
  end.
Proof.
  intros Hr. pose proof (fun a l => here_take w h rest n a l Hr) as T. rewrite (take_here _ _ _ _ Hr) in *.
  unfold buf_skip, buf_off, bind, get, ret; cbn [cur buf head tail data linear metrics set const].
  destruct (Nat.ltb_spec (length (data w)) (h + n)), (Nat.leb_spec (h + n) (length (data w))); try lia; [reflexivity|].
  split; [reflexivity | eauto].
Qed.

(** Sequencing. *)
Lemma reads_bind {A B} (m : M (option A)) f (k : option A -> M (option B)) g :
  reads m f -> (forall w, k None w = Some (inr None, w)) ->
  (forall a, reads (k (Some a)) (g a)) ->
  reads (r <- m ;; k r) (fun l => match f l with Some (a, l) => g a l | None => None end).
Proof.
  intros Hm Hn Hk w h rest ms Hw Hr. destruct (Hm w h rest ms Hw Hr) as (h1 & E1 & H1).
  rewrite (bind_inr _ _ _ _ _ E1). destruct (f rest) as [[a l]|] eqn:Ef; cbn [option_map fst].
  - apply (Hk a w h1 l ms Hw). now apply (H1 a).
  - exists h1. rewrite Hn. split; [reflexivity | discriminate].
Qed.

Lemma ihl_mod b : ip_ihl b = b mod 16.
Proof. unfold ip_ihl. change 0xF with (Z.ones 4). now rewrite Z.land_ones by lia. Qed.

Lemma reads_ip4 : reads pkt_parse_ipv4 ref_ip4.
Proof.
  apply (reads_bind _ (take IpHdr) _ (fun ip l => let ihl := byte ip 0 mod 16 in
    if ihl <? 5 then None else option_map (fun x => (ip, snd x)) (take (4 * Z.to_nat (ihl - 5)) l))).
  { apply reads_assign. } { reflexivity. }
  intros ip w h rest ms Hw Hr. rewrite ihl_mod. set (ihl := byte ip 0 mod 16). assert (R : 0 <= ihl < 16) by (apply Z.mod_pos_bound; lia).
  cbv zeta. destruct (Z.ltb_spec ihl 5) as [|L]; [exists h; split; [reflexivity | discriminate]|].
  pose proof (skip_here (4 * Z.to_nat (ihl - 5)) w h rest ms Hr) as S.
  unfold pkt_skip_ipv4_options. rewrite ihl_mod. fold ihl. cbv zeta. destruct (Z.leb_spec ihl 5) as [L5|L5].
  - assert (ihl = 5) as E by lia. rewrite E in *. cbn [Z.sub Z.to_nat Nat.mul] in *. exists h. split; [|].
    + unfold take. cbn [Nat.leb]. reflexivity.
    + unfold take. cbn [Nat.leb option_map snd firstn skipn]. intros a l [= <- <-]. exact Hr.
  - rewrite uw_small by (unfold is_u; lia). rewrite (Nat.mul_comm _ 4).
    destruct (take _ rest) as [[x l]|]; cbn [option_map fst snd].
    + destruct S as [S H]. exists (h + 4 * Z.to_nat (ihl - 5))%nat. rewrite (bind_inr _ _ _ _ _ S).
      split; [reflexivity|]. intros a l' [= <- <-]. exact H.
    + exists h. rewrite (bind_inr _ _ _ _ _ S). split; [reflexivity | discriminate].
Qed.

Lemma here_u8 w h rest : mapped w -> here w h rest -> Forall is_u8 rest.
Proof.
  intros [_ U] [_ ->]. rewrite <- (firstn_skipn h (data w)) in U. now apply Forall_app in U.
Qed.

Lemma take_u8 n l a b : take n l = Some (a, b) -> Forall is_u8 l -> Forall is_u8 a /\ Forall is_u8 b /\ length a = n.
Proof.
  intros (Hn & -> & ->)%take_some U. rewrite <- (firstn_skipn n l) in U. apply Forall_app in U.
  rewrite length_firstn. intuition lia.
Qed.

Lemma extension_cases next :
  extension next = (next =? IPPROTO_FRAGMENT) ||
    ((next =? IPPROTO_HOPOPTS) || (next =? IPPROTO_ROUTING) || (next =? IPPROTO_DSTOPTS) || (next =? IPPROTO_MH)).
Proof.
  unfold extension; cbn [existsb]. destruct (next =? IPPROTO_FRAGMENT), (next =? IPPROTO_HOPOPTS), (next =? IPPROTO_ROUTING),
    (next =? IPPROTO_DSTOPTS), (next =? IPPROTO_MH); reflexivity.
Qed.

Lemma reads_skip k g : (forall next, reads (k next) (g next)) ->
  reads (skip_header k) (fun l => match take 2 l with
    | None => None
    | Some (h, l) => match take (Z.to_nat (8 * byte h 1 + 6)) l with None => None | Some (_, l) => g (byte h 0) l end
    end).
Proof.
  intros Hk w h rest ms Hw Hr. unfold skip_header. destruct (reads_copy 2 w h rest ms Hw Hr) as (h1 & E1 & H1).
  rewrite (bind_inr _ _ _ _ _ E1). destruct (take 2 rest) as [[x l]|] eqn:Et; cbn [option_map fst];
    [|exists h1; split; [reflexivity | discriminate]].
  destruct (take_u8 _ _ _ _ Et (here_u8 _ _ _ Hw Hr)) as [Ux _]. pose proof (byte_u8 x 1 Ux) as B. unfold is_u in B.
  replace (Z.to_nat ((byte x 1 + 1) * 8) - ExtHdr)%nat with (Z.to_nat (8 * byte x 1 + 6)) by (unfold ExtHdr; lia).
  pose proof (skip_here (Z.to_nat (8 * byte x 1 + 6)) w h1 l ms (H1 _ _ eq_refl)) as S.
  destruct (take _ l) as [[y l2]|].
  - destruct S as [S Hs]. rewrite (bind_inr _ _ _ _ _ S). apply Hk; assumption.
  - rewrite (bind_inr _ _ _ _ _ S). exists h1. split; [reflexivity | discriminate].
Qed.

Lemma reads_exts n : forall next frag, reads (skip_headers n next frag) (ref_exts n next frag).
Proof.
  induction n as [|n IH]; intros next frag; cbn [skip_headers ref_exts].
  { intros w h rest ms Hw Hr. exists h. split; [reflexivity | discriminate]. }
  pose proof (fun f => reads_skip _ _ (fun next => IH next f)) as Sk.
  rewrite extension_cases. destruct (next =? IPPROTO_FRAGMENT); cbn [orb negb].
  - rewrite orb_true_r. apply Sk.
  - rewrite orb_false_r. destruct (_ || _); cbn [negb]; [apply Sk|].
    intros w h rest ms Hw Hr. exists h. split; [reflexivity|]. now intros a l [= <- <-].
Qed.

Lemma reads_ip6 : reads pkt_parse_ipv6 ref_ip6.
Proof.
  intros w h rest ms Hw Hr. destruct (reads_assign Ipv6Hdr w h rest ms Hw Hr) as (h1 & E1 & H1).
  unfold pkt_parse_ipv6, ref_ip6. rewrite (bind_inr _ _ _ _ _ E1).
  destruct (take Ipv6Hdr rest) as [[ip l]|]; cbn [option_map fst]; [|exists h1; split; [reflexivity | discriminate]].
  destruct (reads_exts 6 (byte ip 6) false w h1 l ms Hw (H1 _ _ eq_refl)) as (h2 & E2 & H2).
  unfold pkt_skip_ipv6_extension_headers. rewrite (bind_inr _ _ _ _ _ E2). exists h2.
  destruct (ref_exts _ _ _ l) as [[[p f] l']|]; cbn [option_map fst snd]; split; try reflexivity; [|discriminate].
  intros a l0 [= <- <-]. now apply (H2 (p, f)).
Qed.

Lemma ip4_u8 l ip r : ref_ip4 l = Some (ip, r) -> Forall is_u8 l ->
  Forall is_u8 ip /\ length ip = 20%nat /\ (20 <= length l)%nat.
Proof.
  unfold ref_ip4. destruct (take IpHdr l) as [[h l1]|] eqn:E; [|discriminate].
  destruct (_ <? 5); [discriminate|]. intros H U. destruct (take_u8 _ _ _ _ E U) as (Uh & _ & L). apply take_some in E as [Hl _].
  destruct (take _ l1); [injection H as <- _; auto | discriminate].
Qed.

Lemma ip6_u8 l ip p f r : ref_ip6 l = Some (ip, p, f, r) -> Forall is_u8 l ->
  Forall is_u8 ip /\ length ip = 40%nat /\ (40 <= length l)%nat.
Proof.
  unfold ref_ip6. destruct (take Ipv6Hdr l) as [[h l1]|] eqn:E; [|discriminate].
  intros H U. destruct (take_u8 _ _ _ _ E U) as (Uh & _ & L). apply take_some in E as [Hl _].
  destruct (ref_exts _ _ _ l1); [injection H as <- _; auto | discriminate].
Qed.

(** *** Verdicts *)

(** A function that comes to the verdict and the counters [r]. *)
Definition judged (m : M Z) (w : world) (h : nat) (ms : list Metric) (r : list Metric * Z) : Prop :=
  exists h', call m (cur w h ms) = Some (inr (snd r), cur w h' (ms ++ fst r)).

Lemma judged_out v w h ms : judged (out v) w h ms ([], v).
Proof. exists h. cbn [fst snd]. rewrite app_nil_r. reflexivity. Qed.

Lemma judged_bump m k w h ms r : judged k w h (ms ++ [m]) r -> judged (bump m ;; k) w h ms (count m r).
Proof.
  intros (h' & E). exists h'. unfold call, result in *. rewrite (bind_inr _ _ _ _ _ (bump_cur m w h ms)), E.
  unfold count; cbn [fst snd]. now rewrite <- app_assoc.
Qed.

Lemma judged_invalid m w h ms : judged (invalid m) w h ms ([m], INVALID).
Proof. exact (judged_bump m (out INVALID) w h ms ([], INVALID) (judged_out INVALID w h _)). Qed.

Lemma judged_read {A} (m : M (option A)) f k w h rest ms (g : A -> list Z -> list Metric * Z) r :
  reads m f -> mapped w -> here w h rest ->
  (forall h', f rest = None -> judged (k None) w h' ms r) ->
  (forall h' a l, f rest = Some (a, l) -> here w h' l -> judged (k (Some a)) w h' ms (g a l)) ->
  judged (x <- m ;; k x) w h ms (match f rest with Some (a, l) => g a l | None => r end).
Proof.
  intros Hm Hw Hr Hn Hk. destruct (Hm w h rest ms Hw Hr) as (h1 & E1 & H1).
  unfold judged, call, result. rewrite (bind_inr _ _ _ _ _ E1).
  destruct (f rest) as [[a l]|] eqn:Ef; [apply (Hk h1 a l eq_refl); eauto | exact (Hn h1 eq_refl)].
Qed.

Lemma judged_if (b b' : bool) m m' w h ms r r' : b = b' ->
  (b' = true -> judged m w h ms r) -> (b' = false -> judged m' w h ms r') ->
  judged (if b then m else m') w h ms (if b' then r else r').
Proof. intros ->. destruct b'; auto. Qed.

(** A socket looked up is released. *)
Lemma release_cur w h ms : (cur w h ms) <| sk_refs ::= Z.add 1 |> <| sk_refs ::= Z.add (-1) |> = cur w h ms.
Proof.
  destruct w as [d l b m s r c].
  change (Build_world d l (mk_buf h (tail b)) (bumps ms m) (-1 + (1 + s)) r c = Build_world d l (mk_buf h (tail b)) (bumps ms m) s r c).
  f_equal. lia.
Qed.

Lemma judged_tcp tuple hs w h ms : judged (classify_tcp tuple hs) w h ms ([], tcp_verdict tuple hs).
Proof.
  exists h. rewrite app_nil_r. unfold call, result, classify_tcp, tcp_verdict, lookup, bpf_sk_release; cbn [snd].
  destruct (bpf_skc_lookup_tcp tuple) as [state|]; [|reflexivity]. unfold bind, modify, ret, out.
  destruct (negb _); [now rewrite release_cur|]. destruct hs as [[iph tcp]|]; [destruct (_ =? 0)|]; now rewrite release_cur.
Qed.

Lemma judged_udp tuple w h ms : judged (classify_udp tuple) w h ms ([], udp_verdict tuple).
Proof.
  exists h. rewrite app_nil_r. unfold call, result, classify_udp, udp_verdict, lookup, bpf_sk_release; cbn [snd].
  destruct (bpf_sk_lookup_udp tuple) as [state|]; [|reflexivity]. unfold bind, modify, ret, out.
  destruct (_ =? BPF_TCP_ESTABLISHED); now rewrite release_cur.
Qed.

(** *** The protocols *)

Lemma field b k n : 0 <= k -> 0 <= n -> Z.land (shr b k) (Z.ones n) = b / 2 ^ k mod 2 ^ n.
Proof. intros. unfold shr. now rewrite Z.land_ones, shiftr_div by lia. Qed.

Lemma syn_bit b : tcp_syn b = (b / 2 mod 2 =? 1).
Proof.
  unfold tcp_syn. change 1 with (Z.ones 1) at 2. rewrite field by lia. change (2 ^ 1) with 2.
  pose proof (Z.mod_pos_bound (b / 2) 2 ltac:(lia)). destruct (Z.eqb_spec (b / 2 mod 2) 0), (Z.eqb_spec (b / 2 mod 2) 1); lia.
Qed.

Lemma version_div b : is_u8 b -> Z.land (shr b 4) 0xF = b / 16.
Proof.
  unfold is_u; intros H. change 0xF with (Z.ones 4). rewrite field by lia. change (2 ^ 4) with 16.
  apply Z.mod_small. split; [apply Z.div_pos; lia | apply Z.div_lt_upper_bound; lia].
Qed.

Lemma to_be_zero v : is_u16 v -> (to_be v = 0 <-> v = 0).
Proof. unfold is_u, to_be. intros. Z.div_mod_to_equations. lia. Qed.

Lemma is_fragment_spec ip : Forall is_u8 ip -> ipv4_is_fragment ip = fragment ip.
Proof.
  intros U. pose proof (to_be_u16 _ (word16_u16 ip 6 U)) as Hv. unfold ipv4_is_fragment, fragment.
  rewrite <- (to_be_to_be (word16 ip 6)) at 1 2 by now apply word16_u16. set (v := to_be (word16 ip 6)) in *.
  rewrite !land_to_be by (try exact Hv; unfold is_u, IP_OFFSET_MASK, IP_MF; lia).
  change IP_OFFSET_MASK with (Z.ones 13). rewrite Z.land_ones by lia.
  assert (E : Z.land v IP_MF = 2 ^ 13 * (v / 2 ^ 13 mod 2)).
  { unfold is_u in Hv. rewrite (Z.div_mod v (2 ^ 13)) at 1 by lia. rewrite Z.add_comm. change IP_MF with (0 + 2 ^ 13 * Z.ones 1).
    rewrite land_halves by (try (apply Z.mod_pos_bound; lia); try apply Z.div_pos; cbn; lia).
    rewrite Z.land_0_r, Z.land_ones by lia. reflexivity. }
  rewrite E. unfold is_u in Hv. set (a := v / 2 ^ 13 mod 2). set (b := v mod 2 ^ 13).
  assert (Hab : 0 <= a < 2 /\ 0 <= b < 2 ^ 13 /\ v mod 2 ^ 14 = b + 2 ^ 13 * a).
  { subst a b. repeat split; try (apply Z.mod_pos_bound; lia). change (2 ^ 14) with (2 ^ 13 * 2). now rewrite Z.rem_mul_r by lia. }
  destruct Hab as (Ha & Hb & ->). pose proof (to_be_zero (2 ^ 13 * a) ltac:(unfold is_u; lia)) as Za.
  pose proof (to_be_u16 b ltac:(unfold is_u; lia)) as Ub. unfold is_u in Ub.
  pose proof (to_be_zero b ltac:(unfold is_u; lia)) as Zb.
  destruct (Z.eqb_spec (to_be (2 ^ 13 * a)) 0), (Z.ltb_spec 0 (to_be b)), (Z.eqb_spec (b + 2 ^ 13 * a) 0); cbn [negb orb]; lia.
Qed.

Ltac judge := first [ apply judged_invalid | apply judged_out | apply judged_tcp | apply judged_udp ].

Lemma judged_error proto saddr daddr w h rest ms : mapped w -> here w h rest ->
  judged (ports <- pkt_parse_icmp_l4_ports ;;
          match ports with
          | None => invalid errors_total_malformed_icmp_pkt_too_big
          | Some ports => classify_icmp proto (daddr ++ saddr ++ ports)
          end) w h ms (ref_error proto saddr daddr rest).
Proof.
  intros Hw Hr. unfold ref_error.
  assert (R : reads pkt_parse_icmp_l4_ports (fun l => option_map (fun x => (sub (fst x) 2 2 ++ sub (fst x) 0 2, snd x)) (take FlowPorts l))).
  { intros w' h' l ms' Hw' Hl. destruct (reads_copy FlowPorts w' h' l ms' Hw' Hl) as (h1 & E1 & H1). exists h1.
    unfold pkt_parse_icmp_l4_ports. rewrite (bind_inr _ _ _ _ _ E1).
    destruct (take FlowPorts l) as [[ports l']|]; cbn [option_map fst snd]; split; try reflexivity; [|discriminate].
    intros a b [= <- <-]. now apply (H1 ports). }
  pose proof (judged_read _ _ (fun ports => match ports with
    | None => invalid errors_total_malformed_icmp_pkt_too_big
    | Some ports => classify_icmp proto (daddr ++ saddr ++ ports) end) w h rest ms
    (fun ports _ => if proto =? IPPROTO_TCP then ([], tcp_verdict (daddr ++ saddr ++ ports) None)
                    else if proto =? IPPROTO_UDP then ([], udp_verdict (daddr ++ saddr ++ ports))
                    else ([errors_total_malformed_icmp], INVALID)) ([errors_total_malformed_icmp_pkt_too_big], INVALID) R Hw Hr) as J.
  cbn beta in J. revert J. destruct (take FlowPorts rest) as [[ports l]|]; cbn [option_map fst snd]; unfold tuple_of; intros J;
    apply J; intros; try discriminate; try judge; unfold classify_icmp;
    (apply judged_if; [reflexivity | intros; judge | intros; apply judged_if; [reflexivity | intros; judge | intros; judge]]).
Qed.

Lemma judged_icmp4 w h rest ms : mapped w -> here w h rest -> judged process_icmpv4 w h ms (ref_icmp4 rest).
Proof.
  intros Hw Hr. unfold process_icmpv4, ref_icmp4.
  apply (judged_read _ _ _ _ _ _ _ (fun icmp l => let type := byte icmp 0 in _) _ (reads_copy IcmpHdr) Hw Hr); [intros; judge|].
  intros h1 icmp l _ H1. cbv zeta. set (type := byte icmp 0).
  apply judged_if; [reflexivity | intros; judge | intros _]. apply judged_if; [reflexivity | intros; judge | intros _].
  rewrite <- negb_andb. destruct (_ && _); cbn [negb]; [|judge].
  apply (judged_read _ _ _ _ _ _ _ (fun ip l => ref_error _ _ _ l) _ reads_ip4 Hw H1); [intros; judge|].
  intros h2 ip l' _ H2. now apply (judged_error (byte ip 9) (sub ip 12 4) (sub ip 16 4)).
Qed.

Lemma judged_icmp6 w h rest ms : mapped w -> here w h rest -> judged process_icmpv6 w h ms (ref_icmp6 rest).
Proof.
  intros Hw Hr. unfold process_icmpv6, ref_icmp6.
  apply (judged_read _ _ _ _ _ _ _ (fun icmp l => let type := byte icmp 0 in _) _ (reads_copy Icmp6Hdr) Hw Hr); [intros; judge|].
  intros h1 icmp l _ H1. cbv zeta. set (type := byte icmp 0).
  apply judged_if; [reflexivity | intros; judge | intros _]. apply judged_if; [reflexivity | intros; judge | intros _].
  destruct (type =? ICMPV6_PKT_TOOBIG); cbn [negb]; [|judge].
  pose proof (judged_read _ _ (fun r => match r with
    | None => invalid errors_total_malformed_icmp_pkt_too_big
    | Some (ipv6, l4_proto, is_fragment) =>
      if is_fragment : bool then invalid errors_total_fragmented_ip else
      ports <- pkt_parse_icmp_l4_ports ;;
      match ports with
      | None => invalid errors_total_malformed_icmp_pkt_too_big
      | Some ports => classify_icmp l4_proto (sub ipv6 24 16 ++ sub ipv6 8 16 ++ ports)
      end end) w h1 l ms (fun x l => if snd x : bool then ([errors_total_fragmented_ip], INVALID)
      else ref_error (snd (fst x)) (sub (fst (fst x)) 8 16) (sub (fst (fst x)) 24 16) l)
      ([errors_total_malformed_icmp_pkt_too_big], INVALID) reads_ip6 Hw H1) as J.
  revert J. destruct (ref_ip6 l) as [[[[ip p] f] l']|]; intros J; apply J; try discriminate; try (intros; judge);
    intros h2 a l2 [= <- <-] H2; cbn [fst snd]; (apply judged_if; [reflexivity | intros; judge | intros _]); now apply judged_error.
Qed.

(** The addresses of an IPv4 or IPv6 header. *)
Definition addresses (iph : list Z) : list Z * list Z :=
  if Nat.eqb (length iph) IpHdr then (sub iph 12 4, sub iph 16 4) else (sub iph 8 16, sub iph 24 16).

Lemma fill_addresses iph sport dport : length iph = IpHdr \/ length iph = Ipv6Hdr ->
  fill_tuple iph sport dport = tuple_of (fst (addresses iph)) (snd (addresses iph)) sport dport.
Proof. unfold fill_tuple, addresses, tuple_of. intros [-> | ->]; reflexivity. Qed.

Lemma judged_process_tcp iph w h rest ms : mapped w -> here w h rest -> length iph = IpHdr \/ length iph = Ipv6Hdr ->
  judged (process_tcp iph) w h ms (ref_tcp iph (fst (addresses iph)) (snd (addresses iph)) rest).
Proof.
  intros Hw Hr Hl. unfold process_tcp, ref_tcp.
  pose proof (judged_read _ _ (fun r => match r with
    | None => invalid errors_total_malformed_tcp
    | Some tcp => if tcp_syn (byte tcp 13) then out SYN else classify_tcp (fill_tuple iph (sub tcp 0 2) (sub tcp 2 2)) (Some (iph, tcp))
    end) w h rest (ms ++ [l4_protocol_packets_total_tcp])
    (fun t _ => if byte t 13 / 2 mod 2 =? 1 then ([], SYN)
     else ([], tcp_verdict (tuple_of (fst (addresses iph)) (snd (addresses iph)) (sub t 0 2) (sub t 2 2)) (Some (iph, t))))
    ([errors_total_malformed_tcp], INVALID) (reads_assign TcpHdr) Hw Hr) as J.
  apply judged_bump in J.
  - revert J. destruct (take TcpHdr rest) as [[t l]|]; [|exact id]. destruct (_ =? 1); exact id.
  - intros; judge.
  - intros h' t l _ _. apply judged_if; [apply syn_bit | intros; judge | intros]. rewrite fill_addresses by exact Hl. judge.
Qed.

Lemma judged_process_udp iph w h rest ms : mapped w -> here w h rest -> length iph = IpHdr \/ length iph = Ipv6Hdr ->
  judged (process_udp iph) w h ms (ref_udp (fst (addresses iph)) (snd (addresses iph)) rest).
Proof.
  intros Hw Hr Hl. unfold process_udp, ref_udp.
  pose proof (judged_read _ _ (fun r => match r with
    | None => invalid errors_total_malformed_udp
    | Some udph => classify_udp (fill_tuple iph (sub udph 0 2) (sub udph 2 2))
    end) w h rest (ms ++ [l4_protocol_packets_total_udp])
    (fun u _ => ([], udp_verdict (tuple_of (fst (addresses iph)) (snd (addresses iph)) (sub u 0 2) (sub u 2 2))))
    ([errors_total_malformed_udp], INVALID) (reads_assign UdpHdr) Hw Hr) as J.
  apply judged_bump in J.
  - revert J. destruct (take UdpHdr rest) as [[u l]|]; exact id.
  - intros; judge.
  - intros h' u l _ _. rewrite fill_addresses by exact Hl. judge.
Qed.

Lemma judged_ipv4 w h rest ms : mapped w -> here w h rest -> judged process_ipv4 w h ms (ref_inner4 rest).
Proof.
  intros Hw Hr. unfold process_ipv4, ref_inner4. apply judged_bump.
  apply (judged_read _ _ _ _ _ _ _ (fun ip l => _) _ reads_ip4 Hw Hr); [intros; judge|].
  intros h1 ip l El H1. destruct (ip4_u8 _ _ _ El (here_u8 _ _ _ Hw Hr)) as (Ui & Li & _).
  assert (A : addresses ip = (sub ip 12 4, sub ip 16 4)) by (unfold addresses; now rewrite Li).
  pose proof (judged_process_tcp ip w h1 l (ms ++ [l3_protocol_packets_total_ipv4]) Hw H1 (or_introl Li)) as T.
  pose proof (judged_process_udp ip w h1 l (ms ++ [l3_protocol_packets_total_ipv4]) Hw H1 (or_introl Li)) as U. rewrite A in T, U.
  apply judged_if; [unfold ip_version; now rewrite version_div by now apply byte_u8 | intros; judge | intros _].
  apply judged_if; [now apply is_fragment_spec | intros; judge | intros _].
  cbv zeta. apply judged_if; [reflexivity | intros; now apply judged_icmp4 | intros _].
  apply judged_if; [reflexivity | intros; exact T | intros _]. apply judged_if; [reflexivity | intros; exact U | intros _; judge].
Qed.

Lemma judged_ipv6 w h rest ms : mapped w -> here w h rest -> judged process_ipv6 w h ms (ref_inner6 rest).
Proof.
  intros Hw Hr. unfold process_ipv6, ref_inner6. apply judged_bump. set (ms1 := ms ++ _).
  pose proof (judged_read _ _ (fun r => match r with
    | None => invalid errors_total_malformed_ip
    | Some (ipv6, l4_proto, is_fragment) =>
      if negb (ipv6_version (byte ipv6 0) =? 6) then invalid errors_total_malformed_ip else
      if is_fragment : bool then invalid errors_total_fragmented_ip else
      if l4_proto =? IPPROTO_ICMPV6 then process_icmpv6
      else if l4_proto =? IPPROTO_TCP then process_tcp ipv6
      else if l4_proto =? IPPROTO_UDP then process_udp ipv6
      else invalid errors_total_unknown_l4_proto
    end) w h rest ms1 (fun x l => let '(ip, proto, frag) := x in
      if negb (byte ip 0 / 16 =? 6) then ([errors_total_malformed_ip], INVALID)
      else if frag : bool then ([errors_total_fragmented_ip], INVALID)
      else if proto =? IPPROTO_ICMPV6 then ref_icmp6 l
      else if proto =? IPPROTO_TCP then ref_tcp ip (sub ip 8 16) (sub ip 24 16) l
      else if proto =? IPPROTO_UDP then ref_udp (sub ip 8 16) (sub ip 24 16) l
      else ([errors_total_unknown_l4_proto], INVALID)) ([errors_total_malformed_ip], INVALID) reads_ip6 Hw Hr) as J.
  pose proof (fun ip p f l E => ip6_u8 rest ip p f l E (here_u8 _ _ _ Hw Hr)) as U6.
  revert J. destruct (ref_ip6 rest) as [[[[ip p] f] l]|]; intros J; apply J; try discriminate; try (intros; judge).
  intros h1 a l1 [= <- <-] H1. destruct (U6 _ _ _ _ eq_refl) as (Ui & Li & _).
  assert (A : addresses ip = (sub ip 8 16, sub ip 24 16)) by (unfold addresses; now rewrite Li).
  pose proof (judged_process_tcp ip w h1 l ms1 Hw H1 (or_intror Li)) as T.
  pose proof (judged_process_udp ip w h1 l ms1 Hw H1 (or_intror Li)) as U. rewrite A in T, U.
  apply judged_if; [unfold ipv6_version; now rewrite version_div by now apply byte_u8 | intros; judge | intros _].
  apply judged_if; [reflexivity | intros; judge | intros _].
  apply judged_if; [reflexivity | intros; now apply judged_icmp6 | intros _].
  apply judged_if; [reflexivity | intros; exact T | intros _]. apply judged_if; [reflexivity | intros; exact U | intros _; judge].
Qed.

(** ** The outer headers *)

Lemma ld8_cur w h ms off : (off < linear w)%nat -> ld8 off (cur w h ms) = Some (inr (byte (data w) off), cur w h ms).
Proof.
  intros H. unfold ld8. rewrite (bind_inr _ _ _ _ _ (load_cur w h ms off 1 ltac:(lia))), sub_byte by lia.
  now rewrite Nat.add_0_r.
Qed.

Lemma ld16_cur w h ms off : (off + 2 <= linear w)%nat -> ld16 off (cur w h ms) = Some (inr (word16 (data w) off), cur w h ms).
Proof.
  intros H. unfold ld16. rewrite (bind_inr _ _ _ _ _ (load_cur w h ms off 2 ltac:(lia))), sub_word16 by lia.
  now rewrite Nat.add_0_r.
Qed.

Lemma ld32_cur w h ms off : (off + 4 <= linear w)%nat -> ld32 off (cur w h ms) = Some (inr (word32 (data w) off), cur w h ms).
Proof.
  intros H. unfold ld32. rewrite (bind_inr _ _ _ _ _ (load_cur w h ms off 4 ltac:(lia))), sub_word32 by lia.
  now rewrite Nat.add_0_r.
Qed.

End Parsing.

Ltac offs := cbv delta [H_PROTO IP UDP GUE UNIGUE IpHdr EthHdr ETH_ALEN EncapHeaders EncapGre]; lia.
Ltac nums := cbv delta [H_PROTO IP UDP GUE UNIGUE IpHdr EthHdr ETH_ALEN EncapHeaders EncapGre]; cbn [Nat.add].
Ltac runs :=
  repeat match goal with
  | |- context [bind (ld8 ?o) _ (cur ?w ?h ?ms)] => by_run (ld8_cur w h ms o ltac:(offs)); cbn beta
  | |- context [bind (ld16 ?o) _ (cur ?w ?h ?ms)] => by_run (ld16_cur w h ms o ltac:(offs)); cbn beta
  | |- context [bind (ld32 ?o) _ (cur ?w ?h ?ms)] => by_run (ld32_cur w h ms o ltac:(offs)); cbn beta
  | |- context [bind (load ?o ?n) _ (cur ?w ?h ?ms)] => by_run (load_cur w h ms o n ltac:(offs)); cbn beta
  | |- context [bind (bump ?m) _ (cur ?w ?h ?ms)] => by_run (bump_cur m w h ms); cbn beta
  end.

Section OuterHeaders.
Context {K : Kernel}.

(** Where the checks end, if they do: the counters and the answer. *)
Definition check_fails (p : list Z) : option (list Metric * Z) :=
  if negb (ours p) then Some ([], TC_ACT_OK)
  else if fragment (sub p IP IpHdr) then Some ([errors_total_fragmented_ip], TC_ACT_SHOT)
  else if negb (gue_ok p) then Some ([errors_total_malformed_encapsulation], TC_ACT_SHOT)
  else if negb (byte p 47 =? 0) then Some ([], TC_ACT_SHOT) else None.

Lemma gue_bits b : is_u8 b -> (b / 32 =? 0) = (gue_variant b =? 0) && (gue_control b =? 0).
Proof.
  unfold is_u; intros H. unfold gue_variant, gue_control. change 3 with (Z.ones 2). change 1 with (Z.ones 1). rewrite !field by lia.
  change (2 ^ 6) with 64. change (2 ^ 5) with 32. change (2 ^ 2) with 4. change (2 ^ 1) with 2.
  apply Bool.eq_true_iff_eq. rewrite andb_true_iff, !Z.eqb_eq. Z.div_mod_to_equations. lia.
Qed.

Lemma check_spec w h ms : mapped w -> (EncapHeaders <= linear w)%nat ->
  check_encap (cur w h ms) = Some (match check_fails (data w) with
                                   | Some (ms', v) => (inl v, cur w h (ms ++ ms'))
                                   | None => (inr tt, cur w h ms) end).
Proof.
  intros [[_ Hl] U] H50. unfold EncapHeaders in H50. pose proof (fun i => byte_u8 (data w) i U) as B.
  unfold check_encap, check_fails, ours, gue_ok, hop_count.
  destruct (Nat.leb_spec EncapHeaders (length (data w))); [|unfold EncapHeaders in *; lia]. cbn [andb].
  runs. rewrite ihl_mod. nums. destruct (byte (data w) 14 mod 16 =? 5); cbn [negb andb]; [|unfold out; now rewrite app_nil_r].
  runs. nums. destruct (word32 (data w) 30 =? ENCAPSULATION_IP); cbn [negb andb orb]; [|unfold out; now rewrite app_nil_r].
  destruct (byte (data w) 23 =? IPPROTO_UDP); cbn [negb andb orb]; [|unfold out; now rewrite app_nil_r].
  runs. nums. destruct (word16 (data w) 36 =? ENCAPSULATION_PORT); cbn [negb andb]; [|unfold out; now rewrite app_nil_r].
  runs. rewrite is_fragment_spec by now apply sub_u8.
  destruct (fragment _); [now runs|]. runs. nums. rewrite gue_bits by apply B.
  destruct (gue_variant (byte (data w) 42) =? 0); cbn [negb andb]; [|now runs].
  destruct (gue_control (byte (data w) 42) =? 0); cbn [negb andb]; [|now runs].
  runs. nums. destruct (word16 (data w) 44 =? 0); cbn [negb andb]; [|now runs].
  runs. nums. unfold gue_hlen. change 0x1F with (Z.ones 5). rewrite Z.land_ones by lia. change (2 ^ 5) with 32.
  change (u8 (Z.of_nat (Unigue / 4) + byte (data w) 49)) with ((1 + byte (data w) 49) mod 256).
  destruct (byte (data w) 42 mod 32 =? _); cbn [negb andb]; [|now runs].
  runs. unfold unigue_version. rewrite version_div by apply B. destruct (byte (data w) 46 / 16 =? 0); cbn [negb andb]; [|now runs].
  runs. nums. destruct (byte (data w) 47 =? 0); cbn [negb]; [reflexivity | unfold out; now rewrite app_nil_r].
Qed.

(** The list of hops is walked to its end. *)
Lemma skip_hops_spec n w h ms : (h <= length (data w))%nat -> 0 <= n ->
  skip_next_hops n (cur w h ms) =
    Some (if (1 <? n) || (Z.of_nat (length (data w)) <? Z.of_nat h + 4 * n) then (inl TC_ACT_SHOT, cur w h ms)
          else (inr tt, cur w (h + 4 * Z.to_nat n) ms)).
Proof.
  intros Hh Hn. unfold skip_next_hops. destruct (Z.eqb_spec n 1) as [->|N1].
  - pose proof (skip_here InAddr w h _ ms (conj Hh eq_refl)) as S. unfold take, InAddr in S. rewrite length_skipn in S. cbn [Z.ltb Z.compare orb Z.to_nat Nat.mul].
    destruct (Nat.leb_spec 4 (length (data w) - h)).
    + destruct S as [S _]. rewrite (bind_inr _ _ _ _ _ S). destruct (Z.ltb_spec (Z.of_nat (length (data w))) (Z.of_nat h + 4 * 1)); [lia | reflexivity].
    + rewrite (bind_inr _ _ _ _ _ S). destruct (Z.ltb_spec (Z.of_nat (length (data w))) (Z.of_nat h + 4 * 1)); [reflexivity | lia].
  - destruct (Z.eqb_spec n 0) as [->|N0]; [|destruct (Z.ltb_spec 1 n); [reflexivity | lia]].
    cbn [Z.ltb Z.compare orb Z.to_nat Nat.mul]. destruct (Z.ltb_spec (Z.of_nat (length (data w))) (Z.of_nat h + 4 * 0)); [lia|].
    now rewrite Nat.add_0_r.
Qed.

Lemma next_hop_spec w ms : mapped w -> (EncapHeaders <= linear w)%nat ->
  exists h, get_next_hop (cur w EncapHeaders ms) =
    Some (match next_hop (data w) with
          | None => (inl TC_ACT_SHOT, cur w h ms)
          | Some hop => (inr hop, cur w (payload_off (hop_count (data w))) ms)
          end).
Proof.
  intros [[_ Hl] U] H50. unfold EncapHeaders in H50.
  pose proof (byte_u8 (data w) 48 U) as Hi. pose proof (byte_u8 (data w) 49 U) as Hn. unfold is_u in Hi, Hn.
  unfold get_next_hop, next_hop, hop_index, hop_count. runs. nums.
  set (i := byte (data w) 48) in *. set (n := byte (data w) 49) in *. set (len := Z.of_nat (length (data w))) in *.
  destruct (Z.ltb_spec n i); cbn [orb]; [now exists EncapHeaders|].
  pose proof (skip_hops_spec i w 50 ms ltac:(lia) ltac:(lia)) as S. fold len in S. change (Z.of_nat 50) with 50 in S.
  destruct (_ || _) eqn:E0; [exists 50%nat; unfold bind; now rewrite S|]. apply orb_false_iff in E0 as [E1 E2].
  rewrite (bind_inr _ _ _ _ _ S). destruct (Z.eqb_spec i n) as [<-|Ne]; [now exists O|].
  set (h := (50 + 4 * Z.to_nat i)%nat) in *.
  pose proof (copy_cur w h ms InAddr) as C. unfold InAddr in C at 2 3 4. destruct (Nat.leb_spec (h + 4) (length (data w))) as [L|L];
    rewrite (bind_inr _ _ _ _ _ C).
  2:{ destruct (Z.ltb_spec len (50 + 4 * n)); [|lia]. rewrite orb_true_r. now exists h. }
  pose proof (skip_hops_spec (n - i - 1) w (h + 4) ms ltac:(lia) ltac:(lia)) as S2. fold len in S2.
  replace (u8 (u8 (n - i) - 1)) with (n - i - 1) by (rewrite (uw_small 8 (n - i)) by (unfold is_u; lia); now rewrite uw_small by (unfold is_u; lia)).
  replace (1 <? n - i - 1) with (i + 2 <? n) in S2 by (apply Bool.eq_true_iff_eq; rewrite !Z.ltb_lt; lia).
  replace (len <? Z.of_nat (h + 4) + 4 * (n - i - 1)) with (len <? 50 + 4 * n) in S2
    by (apply Bool.eq_true_iff_eq; rewrite !Z.ltb_lt; lia).
  destruct (_ || _); [exists (h + 4)%nat; unfold bind; now rewrite S2|].
  exists O. rewrite (bind_inr _ _ _ _ _ S2), sub_word32, Nat.add_0_r by lia. unfold ret, payload_off, EncapHeaders, InAddr.
  replace (h + 4 + 4 * Z.to_nat (n - i - 1))%nat with (50 + 4 * Z.to_nat n)%nat by lia. reflexivity.
Qed.

End OuterHeaders.

End Parse.
