(* ===== verification/ClsForward.v ===== *)
(** progs/test_cls_redirect.rs: what the actions make of a packet, accepting it
    locally and forwarding it in GUE or in GRE, each against the packet the
    reference says should leave.  Uses ClsParse.v. *)

From S2P Require Import Prelude Kernel Early Packet ClsRedirect ClsParse.
Local Open Scope early_scope.

Module Forward.

Import Redirect Parse.

Section Accepting.
Context {K : Kernel}.

(** ** What is done with the packet *)

(** The state with another packet, mapped part, and one call later. *)
Definition on (w : world) (p : list Z) : world := w <| data := p |>.
Definition lin (w : world) (l : nat) : world := w <| linear := l |>.
Definition ticked (w : world) : world := w <| calls ::= S |>.

Lemma on_data w : on w (data w) = w.
Proof. now destruct w. Qed.

Lemma store_on w p h ms off bs : (off + length bs <= linear w)%nat ->
  store off bs (cur (on w p) h ms) = Some (inr tt, cur (on w (put p off bs)) h ms).
Proof.
  intros H. unfold store. change (linear (cur (on w p) h ms)) with (linear w).
  destruct (Nat.leb_spec (off + length bs) (linear w)); [reflexivity | lia].
Qed.

Lemma adjust_on d mode w p h ms : adjust_room d mode (cur (on w p) h ms) =
  Some (match bpf_skb_adjust_room (calls w) p d mode with
        | Some (p, l) => (inr 0, cur (on (lin (ticked w) l) p) h ms)
        | None => (inr (-524), cur (on (ticked w) p) h ms)
        end).
Proof.
  unfold adjust_room, tick, bind, get, modify, ret.
  change (data (set calls S (cur (on w p) h ms))) with p. change (calls (cur (on w p) h ms)) with (calls w).
  now destruct (bpf_skb_adjust_room _ _ _ _) as [[q l]|].
Qed.

Lemma level_on level w p h ms :
  csum_level level (cur (on w p) h ms) = Some (inr (bpf_csum_level (calls w) level), cur (on (ticked w) p) h ms).
Proof. reflexivity. Qed.

Lemma mtu_on d w p h ms : check_mtu d (cur (on w p) h ms) =
  Some (inr (bpf_check_mtu (calls w) (Z.of_nat (length p)) d), cur (on (ticked w) p) h ms).
Proof. reflexivity. Qed.

Lemma pull_on k w p h ms : pull_data k (cur (on w p) h ms) =
  Some (match bpf_skb_pull_data (calls w) p (linear w) k with
        | Some l => (inr 0, cur (on (lin (ticked w) l) p) h ms)
        | None => (inr (-12), cur (on (ticked w) p) h ms)
        end).
Proof.
  unfold pull_data, tick, bind, get, modify, ret.
  change (data (set calls S (cur (on w p) h ms))) with p. change (calls (cur (on w p) h ms)) with (calls w).
  change (linear (set calls S (cur (on w p) h ms))) with (linear w).
  now destruct (bpf_skb_pull_data _ _ _ _).
Qed.

Lemma store_bytes_on off bs w p h ms : bpf_skb_store_bytes off bs (cur (on w p) h ms) =
  Some (if writable (calls w) && Nat.leb (off + length bs) (length p)
        then (inr 0, cur (on (ticked w) (put p off bs)) h ms) else (inr (-14), cur (on (ticked w) p) h ms)).
Proof.
  unfold bpf_skb_store_bytes, tick, bind, get, modify, ret.
  change (data (set calls S (cur (on w p) h ms))) with p. change (calls (cur (on w p) h ms)) with (calls w).
  now destruct (_ && _).
Qed.

Lemma l3_csum_on off from to size w p h ms : bpf_l3_csum_replace off from to size (cur (on w p) h ms) =
  Some (if writable (calls w) && Nat.leb (off + 2) (length p)
        then (inr 0, cur (on (ticked w) (put p off (bytes16 (l3_csum (word16 p off) from to size)))) h ms)
        else (inr (-14), cur (on (ticked w) p) h ms)).
Proof.
  unfold bpf_l3_csum_replace, tick, bind, get, modify, ret.
  change (data (set calls S (cur (on w p) h ms))) with p. change (calls (cur (on w p) h ms)) with (calls w).
  now destruct (_ && _).
Qed.

(** *** Parts of packets *)

(** *** Outcomes *)

Context {ok : KernelOk K} (ifindex : Z).

Lemma decap_cut p n : n = payload_off (hop_count p) -> (n <= length p)%nat ->
  let p1 := if inner_proto p =? IPPROTO_IPV6 then put p 12 (bytes16 (to_be ETH_P_IPV6)) else p in
  firstn 14 p1 ++ skipn n p1 = decap p.
Proof.
  intros -> Hn. assert (H50 : (50 <= payload_off (hop_count p))%nat) by (unfold payload_off, EncapHeaders; lia).
  unfold decap, inner. destruct (_ =? IPPROTO_IPV6); cbv zeta.
  - rewrite (firstn_put p 12 _ 14), skipn_put, bytes16_to_be, <- app_assoc by (try (unfold is_u, ETH_P_IPV6); cbn [length bytes16]; lia).
    reflexivity.
  - now rewrite (firstn_sub p 12 14 2), <- app_assoc by reflexivity.
Qed.

Lemma accept_spec w h ms : (EncapHeaders <= linear w <= length (data w))%nat -> (payload_off (hop_count (data w)) <= length (data w))%nat ->
  exists r w', accept_locally ifindex (cur w h ms) = Some (r, w') /\
    (sent ifindex w w' (decap (data w)) BPF_F_INGRESS ms (val r) \/
     dropped w w' ms (val r) (~ helpful K \/ (length (inner (data w)) < 20)%nat)).
Proof.
  intros H50 Hp. unfold accept_locally. unfold EncapHeaders in H50. nums. runs.
  fold (hop_count (data w)) (inner_proto (data w)).
  set (n := payload_off (hop_count (data w))) in *.
  assert (Hn : (50 <= n)%nat) by (subst n; unfold payload_off, EncapHeaders; lia).
  set (p1 := if inner_proto (data w) =? IPPROTO_IPV6 then put (data w) 12 (bytes16 (to_be ETH_P_IPV6)) else data w).
  assert (E1 : when (inner_proto (data w) =? IPPROTO_IPV6) (st16 12 (to_be ETH_P_IPV6)) (cur w h ms)
               = Some (inr tt, cur (on w p1) h ms)).
  { subst p1. unfold when. rewrite <- (on_data w) at 2. destruct (_ =? _); [apply store_on; cbn; lia | reflexivity]. }
  by_run E1. set (d := Z.of_nat n - Z.of_nat 14). assert (Hd : 0 <= d) by (subst d; lia).
  assert (Lp : length p1 = length (data w)) by (subst p1; destruct (_ =? _); [apply length_put; cbn; lia | reflexivity]).
  by_do (adjust_on (- d) BPF_ADJ_ROOM_MAC w p1 h ms).
  destruct (bpf_skb_adjust_room _ _ _ _) as [[p' l']|] eqn:Ea; cbn [fst snd Z.eqb negb].
  - destruct (adjust_ok _ _ _ _ _ _ Hd Ea) as (-> & _).
    by_run (level_on BPF_CSUM_LEVEL_DEC (lin (ticked w) l') (firstn 14 p1 ++ skipn (14 + Z.to_nat d) p1) h ms).
    destruct (Z.eqb_spec (bpf_csum_level (calls (lin (ticked w) l')) BPF_CSUM_LEVEL_DEC) 0) as [L|L]; cbn [negb].
    + eexists _, _. split; [reflexivity|]. left. unfold sent. repeat split. cbn [data cur on set const].
      replace (14 + Z.to_nat d)%nat with n by (subst d; lia). now apply decap_cut.
    + eexists _, _. split; [reflexivity|]. right. repeat split; [exists []; now rewrite app_nil_r|].
      left. intros (_ & _ & H & _). now apply L, H.
  - eexists _, _. split; [reflexivity|]. right. repeat split; [exists []; now rewrite app_nil_r|].
    destruct (Nat.ltb_spec (length (inner (data w))) 20) as [|G]; [now right|]. left. intros (_ & H & _).
    apply (H _ _ _ _ Hd) in Ea; [contradiction|]. unfold inner in G. rewrite length_skipn in G. unfold EthHdr, IpHdr. lia.
Qed.

End Accepting.

Section Turning.
Context {K : Kernel} {ok : KernelOk K}.

(** *** Forwarding *)

(** What no helper changes but the redirection. *)
Definition same (w w' : world) : Prop :=
  redirected w' = redirected w /\ sk_refs w' = sk_refs w /\ metrics w' = metrics w.

Lemma same_stopped w w' q h ms e : same w w' -> stopped w (cur (on w' q) h (ms ++ e)) ms.
Proof.
  intros (R & S & E). unfold stopped. cbn [redirected sk_refs metrics cur on set const]. rewrite E. eauto.
Qed.

Lemma same_ticked w w' : same w w' -> same w (ticked w'). Proof. exact id. Qed.
Lemma same_lin w w' l : same w w' -> same w (lin w' l). Proof. exact id. Qed.

Lemma put_app2 a b k bs : (k + length bs <= length b)%nat -> put (a ++ b) (length a + k) bs = a ++ put b k bs.
Proof. intros H. pose proof (put_in a b [] k bs H) as E. now rewrite !app_nil_r in E. Qed.

Lemma ttl_load p l m k w h ms : l = skipn m p -> (m <= length p)%nat -> (k < length l)%nat ->
  load_ttl (m + k) (cur (on w p) h ms) =
    Some (if byte l k =? 0 then (inl TC_ACT_SHOT, cur (on w p) h (ms ++ [errors_total_redirect_loop]))
          else (inr (byte l k), cur (on w p) h ms)).
Proof.
  intros -> Hm Hk. rewrite length_skipn in Hk. unfold load_ttl, bpf_skb_load_bytes. unfold bind at 1, get.
  cbn [data cur on set const]. destruct (Nat.leb_spec (m + k + 1) (length p)); [|lia].
  rewrite sub_byte, Nat.add_0_r by lia. replace (byte (skipn m p) k) with (byte p (m + k)) by (unfold byte; now rewrite nth_skipn).
  destruct (_ =? 0); [|reflexivity]. now by_run (bump_cur errors_total_redirect_loop (on w p) h ms).
Qed.

(** A byte and a word replaced in the packet inside. *)
Lemma put_byte8 l v c : (12 <= length l)%nat -> length c = 2%nat ->
  put (put l 10 c) 8 [v] = firstn 8 l ++ [v; byte l 9] ++ c ++ skipn 12 l.
Proof.
  intros H Hc. destruct c as [|c0 [|c1 [|]]]; try discriminate.
  do 12 (destruct l as [|? l]; [cbn [length] in H; lia|]). reflexivity.
Qed.

(** What the hop limit's decrease comes to: none is left, or the packet inside is
    one hop further, or a helper failed. *)
Definition hop_outcome (p : list Z) (w : world) (h : nat) (ms : list Metric) (x : option ((Z + Z) * world)) : Prop :=
  exists r w' q e, x = Some (r, cur (on w' q) h (ms ++ e)) /\ same w w' /\
    ((hop_limit p = 0 /\ r = inl TC_ACT_SHOT /\ e = [errors_total_redirect_loop]) \/
     (hop_limit p <> 0 /\ r = inr (if inner_proto p =? IPPROTO_IPV6 then ETH_P_IPV6 else ETH_P_IP) /\ e = [] /\
      q = firstn (payload_off (hop_count p)) p ++ hopped p) \/
     (hop_limit p <> 0 /\ r = inl TC_ACT_SHOT /\ ~ helpful K)).

Lemma hop_zero p w h ms : hop_limit p = 0 ->
  hop_outcome p w h ms (Some (inl TC_ACT_SHOT, cur (on w p) h (ms ++ [errors_total_redirect_loop]))).
Proof. intros H. exists (inl TC_ACT_SHOT), w, p, [errors_total_redirect_loop]. repeat split. tauto. Qed.

Lemma hop_done p w h ms w' q : hop_limit p <> 0 -> same w w' -> q = firstn (payload_off (hop_count p)) p ++ hopped p ->
  hop_outcome p w h ms (Some (inr (if inner_proto p =? IPPROTO_IPV6 then ETH_P_IPV6 else ETH_P_IP), cur (on w' q) h ms)).
Proof. intros H S E. exists (inr (if inner_proto p =? IPPROTO_IPV6 then ETH_P_IPV6 else ETH_P_IP)), w', q, []. rewrite app_nil_r. tauto. Qed.

(** A store that fails, or after which the rest comes to the outcome. *)
Lemma hop_must p w h ms w' q (b : bool) q' k : hop_limit p <> 0 -> same w w' -> (b = false -> ~ helpful K) ->
  (b = true -> hop_outcome p w h ms (k (cur (on w' q') h ms))) ->
  let x := if b then (inr 0, cur (on w' q') h ms) else (inr (-14), cur (on w' q) h ms) in
  hop_outcome p w h ms
    (match fst x with inr r => bind (must r errors_total_malformed_encapsulation) (fun _ => k) (snd x) | inl v => Some (inl v, snd x) end).
Proof.
  intros Z0 Sw Hf Hk. destruct b; cbn [fst snd]; [exact (Hk eq_refl)|].
  eexists (inl TC_ACT_SHOT), w', q, _. unfold must; cbn [Z.eqb]. rewrite bind_assoc.
  rewrite (bind_inr _ _ _ _ _ (bump_cur errors_total_malformed_encapsulation (on w' q) h ms)). split; [reflexivity|].
  split; [exact Sw|]. right; right. auto.
Qed.

Lemma not_writable n b : (b = true) -> writable n && b = false -> ~ helpful K.
Proof. intros -> E (_ & _ & _ & _ & H). now rewrite H in E. Qed.

Section Hop.
Variables (w : world) (p : list Z) (h : nat) (ms : list Metric).
Hypothesis (U : Forall is_u8 p) (Hl : (payload_off (hop_count p) + 20 <= length p)%nat).
Notation n := (payload_off (hop_count p)).
Notation l := (inner p).

Lemma inner_split : p = firstn n p ++ l. Proof. symmetry. apply firstn_skipn. Qed.
Lemma inner_bytes k : 0 <= byte l k < 2 ^ 8.
Proof. pose proof U as V. rewrite inner_split, Forall_app in V. now apply byte_u8. Qed.
Lemma inner_length : length l = (length p - n)%nat. Proof. apply length_skipn. Qed.

Lemma put_behind b k bs : (k + length bs <= length b)%nat -> put (firstn n p ++ b) (n + k) bs = firstn n p ++ put b k bs.
Proof.
  intros H. assert (L : length (firstn n p) = n) by (rewrite length_firstn; lia).
  pose proof (put_app2 (firstn n p) b k bs H) as E. now rewrite L in E.
Qed.

Lemma put_inner k bs : (k + length bs <= length l)%nat -> put p (n + k) bs = firstn n p ++ put l k bs.
Proof. intros H. rewrite inner_split at 1. now apply put_behind. Qed.

Lemma inner_word16 k : word16 p (n + k) = word16 l k.
Proof. unfold word16, byte, inner. now rewrite !nth_skipn, Nat.add_assoc. Qed.

Lemma dec_ttl_spec : hop_outcome p w h ms (dec_ttl (inner_proto p) (hop_count p) (cur (on w p) h ms)).
Proof.
  pose proof inner_length as Ll. unfold dec_ttl, IPV6_HOP_LIMIT_OFFSET, IPV4_TTL_OFFSET, IPV4_CHECK_OFFSET; cbv zeta.
  destruct (inner_proto p =? IPPROTO_IPV6) eqn:E.
  - pose proof (inner_bytes 7) as B. by_do (ttl_load p l n 7 w h ms eq_refl ltac:(lia) ltac:(lia)).
    assert (L : hop_limit p = byte l 7) by (unfold hop_limit; now rewrite E).
    destruct (Z.eqb_spec (byte l 7) 0) as [Z0|Z0]; [apply hop_zero; congruence|]. cbn [fst snd].
    by_do (store_bytes_on (n + 7) [u8 (byte l 7 - 1)] w p h ms). rewrite uw_small by (unfold is_u; lia).
    apply hop_must; [congruence | now repeat split | apply not_writable, Nat.leb_le; cbn [length]; lia|]. intros _.
    pose proof (hop_done p w h ms (ticked w)) as D. rewrite E in D. apply D; [congruence | now repeat split|].
    unfold hopped. rewrite E, put_inner by (cbn [length]; lia). reflexivity.
  - pose proof (inner_bytes 8) as B. by_do (ttl_load p l n 8 w h ms eq_refl ltac:(lia) ltac:(lia)).
    assert (L : hop_limit p = byte l 8) by (unfold hop_limit; now rewrite E).
    destruct (Z.eqb_spec (byte l 8) 0) as [Z0|Z0]; [apply hop_zero; congruence|]. cbn [fst snd].
    rewrite uw_small by (unfold is_u; lia).
    by_do (l3_csum_on (n + 10) (byte l 8) (byte l 8 - 1) 2 w p h ms).
    apply hop_must; [congruence | now repeat split | apply not_writable, Nat.leb_le; lia|]. intros _.
    rewrite put_inner, inner_word16 by (cbn [length bytes16]; lia). set (c := bytes16 _). assert (Lc : length c = 2%nat) by reflexivity.
    by_do (store_bytes_on (n + 8) [byte l 8 - 1] (ticked w) (firstn n p ++ put l 10 c) h ms).
    apply hop_must; [congruence | now repeat split | apply not_writable, Nat.leb_le; rewrite length_app, length_firstn, length_put by (rewrite Lc; lia); cbn [length]; lia|].
    intros _. pose proof (hop_done p w h ms (ticked (ticked w))) as D. rewrite E in D.
    apply D; [congruence | now repeat split|]. rewrite put_behind, put_byte8 by (try rewrite length_put by (rewrite Lc; lia); cbn [length]; lia).
    unfold hopped. now rewrite E.
Qed.
End Hop.

(** The frame goes back the way it came. *)
Definition turn (p : list Z) : list Z := turned p ++ skipn 14 p.

Lemma turn_puts p : (14 <= length p)%nat -> put (put p 0 (sub p 6 6)) 6 (sub p 0 6) = turn p.
Proof. intros H. do 14 (destruct p as [|? p]; [cbn [length] in H; lia|]). reflexivity. Qed.

Lemma mod_eq a b m : m <> 0 -> a mod m = b mod m -> exists k, a = b + k * m.
Proof. intros Hm E. exists (a / m - b / m). pose proof (Z.div_mod a m Hm). pose proof (Z.div_mod b m Hm). lia. Qed.

(** The packet inside, one hop further, keeps a right header checksum. *)
Lemma hopped_header_sum p : Forall is_u8 p -> (20 <= length (inner p))%nat -> inner_proto p <> IPPROTO_IPV6 -> hop_limit p <> 0 ->
  header_sum (hopped p) mod 65535 = header_sum (inner p) mod 65535 /\
  byte (hopped p) 8 = hop_limit p - 1 /\ length (hopped p) = length (inner p).
Proof.
  intros U Hl Hp. unfold hopped, hop_limit. apply Z.eqb_neq in Hp as ->.
  assert (Ul : Forall is_u8 (inner p)) by (unfold inner; rewrite <- (firstn_skipn (payload_off (hop_count p)) p), Forall_app in U; apply U).
  set (l := inner p) in *. clearbody l. intros Hz. pose proof (byte_u8 l 8 Ul) as B. unfold is_u in B.
  destruct (l3_csum_ok (word16 l 10) (byte l 8) (byte l 8 - 1) 2 (word16_u16 l 10 Ul)) as [Uc Ec].
  set (c := l3_csum _ _ _ _) in *. rewrite !Z.div_small, !(Z.mod_small _ 65536) in Ec by lia.
  destruct (mod_eq _ _ 65535 ltac:(lia) Ec) as (k & Ek). unfold is_u in Uc. assert (Hc : 0 <= c <= 65535) by lia.
  pose proof (word_of_bytes16 c Hc) as Wc. clearbody c. set (cb := bytes16 c) in *. assert (Lc : length cb = 2%nat) by reflexivity. clearbody cb.
  explode cb. do 20 (destruct l as [|? l]; [cbn [length] in Hl; lia|]).
  split; [|split; reflexivity]. rewrite <- (Z_mod_plus_full (header_sum (_ :: _)) k 65535) at 1. f_equal.
  unfold header_sum, word16, byte in *; cbn [app firstn skipn seq fold_left Nat.mul Nat.add nth] in *. lia.
Qed.

Section Turn.
Variable p : list Z.
Hypothesis H : (50 <= length p)%nat.

Lemma turned_length : length (turned p) = 14%nat.
Proof. unfold turned, sub. rewrite !length_app, !length_firstn, !length_skipn. lia. Qed.

Lemma turn_length : length (turn p) = length p.
Proof. unfold turn. rewrite length_app, turned_length, length_skipn. lia. Qed.

Lemma turn_skip k : (14 <= k)%nat -> skipn k (turn p) = skipn k p.
Proof.
  intros Hk. unfold turn. rewrite skipn_app, skipn_all2 by (rewrite turned_length; lia). cbn [app].
  rewrite skipn_skipn, turned_length. f_equal. lia.
Qed.

Lemma turn_byte k : (14 <= k)%nat -> byte (turn p) k = byte p k.
Proof.
  intros Hk. unfold byte. replace k with (k + 0)%nat by lia. rewrite <- !nth_skipn. now rewrite turn_skip.
Qed.

Lemma turn_word16 k : (14 <= k)%nat -> word16 (turn p) k = word16 p k.
Proof. intros Hk. unfold word16. now rewrite !turn_byte by lia. Qed.

Lemma turn_word32 k : (14 <= k)%nat -> word32 (turn p) k = word32 p k.
Proof. intros Hk. unfold word32. now rewrite !turn_word16 by lia. Qed.

Lemma turn_inner : inner (turn p) = inner p.
Proof.
  unfold inner, hop_count. rewrite turn_byte by lia. apply turn_skip. unfold payload_off, EncapHeaders. lia.
Qed.

Lemma turn_hopped : hopped (turn p) = hopped p.
Proof. unfold hopped, inner_proto. now rewrite turn_inner, turn_byte by lia. Qed.

Lemma turn_limit : hop_limit (turn p) = hop_limit p.
Proof. unfold hop_limit, inner_proto. now rewrite turn_inner, turn_byte by lia. Qed.

Lemma turn_u8 : Forall is_u8 p -> Forall is_u8 (turn p).
Proof.
  intros U. unfold turn, turned. rewrite !Forall_app. repeat split; try now apply sub_u8.
  rewrite <- (firstn_skipn 14 p), Forall_app in U. apply U.
Qed.
End Turn.

Lemma ld8_on w p h ms off : (off < linear w)%nat -> ld8 off (cur (on w p) h ms) = Some (inr (byte p off), cur (on w p) h ms).
Proof. exact (ld8_cur (on w p) h ms off). Qed.
Lemma ld16_on w p h ms off : (off + 2 <= linear w)%nat -> ld16 off (cur (on w p) h ms) = Some (inr (word16 p off), cur (on w p) h ms).
Proof. exact (ld16_cur (on w p) h ms off). Qed.
Lemma ld32_on w p h ms off : (off + 4 <= linear w)%nat -> ld32 off (cur (on w p) h ms) = Some (inr (word32 p off), cur (on w p) h ms).
Proof. exact (ld32_cur (on w p) h ms off). Qed.
Lemma load_on w p h ms off n : (off + n <= linear w)%nat -> load off n (cur (on w p) h ms) = Some (inr (sub p off n), cur (on w p) h ms).
Proof. exact (load_cur (on w p) h ms off n). Qed.

End Turning.

Ltac step :=
  match goal with
  | |- context [bind (ld8 ?o) _ (cur (on ?w ?p) ?h ?ms)] => by_run (ld8_on w p h ms o ltac:(offs))
  | |- context [bind (ld16 ?o) _ (cur (on ?w ?p) ?h ?ms)] => by_run (ld16_on w p h ms o ltac:(offs))
  | |- context [bind (ld32 ?o) _ (cur (on ?w ?p) ?h ?ms)] => by_run (ld32_on w p h ms o ltac:(offs))
  | |- context [bind (load ?o ?n) _ (cur (on ?w ?p) ?h ?ms)] => by_run (load_on w p h ms o n ltac:(offs))
  | |- context [bind (store ?o ?bs) _ (cur (on ?w ?p) ?h ?ms)] => by_run (store_on w p h ms o bs ltac:(cbn [length bytes16 bytes32 app]; offs))
  | |- context [bind (bump ?m) _ (cur ?w ?h ?ms)] => by_run (bump_cur m w h ms)
  end.

Section Sending.
Context {K : Kernel} {ok : KernelOk K} (ifindex : Z).

(** A new cursor, over headers that are mapped. *)
Lemma rebuf n v q h' ms' (k : option (list Z) -> M Z) : (n <= linear v)%nat ->
  (new_buf ;; r <- buf_assign n false ;; k r) (cur (on v q) h' ms') =
  k (Some (sub q 0 n)) (cur (on (v <| buf := mk_buf 0 (linear v) |>) q) n ms').
Proof.
  intros Hn. set (v1 := v <| buf := _ |>).
  assert (Enew : new_buf (cur (on v q) h' ms') = Some (inr tt, cur (on v1 q) 0 ms')) by reflexivity. by_run Enew.
  assert (E : buf_assign n false (cur (on v1 q) 0 ms') = Some (inr (Some (sub q 0 n)), cur (on v1 q) n ms')); [|by_run E; reflexivity].
  unfold buf_assign, buf_off. unfold bind at 1 2 3, get at 1 2 3.
  change (tail (buf (cur (on v1 q) 0 ms'))) with (linear v). change (head (buf (cur (on v1 q) 0 ms'))) with 0%nat.
  cbn [Nat.add]. destruct (Nat.ltb_spec (linear v) n); [lia|]. by_run (load_on v1 q 0 ms' 0 n ltac:(exact Hn)). reflexivity.
Qed.

(** *** In GUE *)

Lemma gue_puts p hop : (50 <= length p)%nat -> Forall is_u8 p ->
  let t := turn p in
  let q := put (put (put t 26 (bytes32 (word32 t 30))) 30 (bytes32 hop)) 48 [hop_index p + 1] in
  put q 24 (bytes16 (l3_csum (word16 q 24) (word32 t 26) hop 4)) = gue_forward p hop.
Proof.
  intros H U. cbv zeta. rewrite (turn_word32 p H 30), (turn_word32 p H 26), bytes_of_word32 by (try exact U; lia).
  unfold gue_forward, turn, hop_index.
  do 50 (destruct p as [|? p]; [cbn [length] in H; lia|]). reflexivity.
Qed.

(** *** The checksum of a header *)

Lemma sum_no_wrap ip l : Forall is_u8 ip -> forall s, 0 <= s -> s + 65535 * Z.of_nat (length l) < 2 ^ 32 ->
  fold_left (fun acc i => u32 (acc + word16 ip (2 * i))) l s = fold_left (fun s i => s + word16 ip (2 * i)) l s.
Proof.
  intros Ui. induction l as [|i l IH]; intros s Hs Hb; [reflexivity|]. cbn [fold_left length] in *.
  pose proof (word16_range ip Ui (2 * i)). rewrite uw_small by (unfold is_u; lia). apply IH; lia.
Qed.

Lemma checksum_fold s : 0 <= s < 2 ^ 20 -> 0 <= pkt_checksum_fold s <= 65535 /\ (s + pkt_checksum_fold s) mod 65535 = 0.
Proof.
  intros Hs. unfold pkt_checksum_fold, shr, notw. cbv zeta.
  change 0xffff with (Z.ones 16). rewrite !Z.land_ones, !shiftr_div by lia. change (Z.ones 16) with 65535.
  rewrite (uw_small 32 (s mod 2 ^ 16 + s / 2 ^ 16)) by (unfold is_u; Z.div_mod_to_equations; lia).
  set (t := s mod 2 ^ 16 + s / 2 ^ 16). assert (Ht : 0 <= t <= 65535 + 15 /\ s = t + 65535 * (s / 2 ^ 16)) by (subst t; Z.div_mod_to_equations; lia).
  assert (Hq : 0 <= t / 2 ^ 16 <= 1) by (Z.div_mod_to_equations; lia).
  assert (Hf : 0 <= t mod 2 ^ 16 + t / 2 ^ 16 <= 65535) by (Z.div_mod_to_equations; lia).
  set (f := t mod 2 ^ 16 + t / 2 ^ 16) in *. rewrite (uw_small 32 f), (uw_small 16 f) by (unfold is_u; lia).
  assert (E : uw 16 (Z.lnot f) = 65535 - f) by (unfold uw, Z.lnot; change (2 ^ 16) with 65536; Z.div_mod_to_equations; lia).
  rewrite E. split; [lia|]. destruct Ht as [_ Es].
  replace (s + (65535 - f)) with ((1 + s / 2 ^ 16 + t / 2 ^ 16) * 65535) by (pose proof (Z.div_mod t (2 ^ 16)); change (2 ^ 16) with 65536 in *; subst f; lia).
  apply Z_mod_mult.
Qed.

Lemma header_sum_range l : Forall is_u8 l -> 0 <= header_sum l < 2 ^ 20.
Proof.
  intros Ul. unfold header_sum.
  assert (G : forall ks s, s <= fold_left (fun s i => s + word16 l (2 * i)) ks s <= s + 65535 * Z.of_nat (length ks)).
  { induction ks as [|i ks IH]; intros s; cbn [fold_left length]; [lia|].
    pose proof (word16_range l Ul (2 * i)). specialize (IH (s + word16 l (2 * i))). lia. }
  specialize (G (seq 0 10) 0). rewrite length_seq in G. lia.
Qed.

Lemma header_sum_check a b c : length a = 10%nat -> length b = 8%nat -> length c = 2%nat ->
  header_sum (a ++ c ++ b) = header_sum (a ++ [0; 0] ++ b) + word16 c 0.
Proof.
  intros La Lb Lc. explode a. explode b. explode c.
  unfold header_sum, word16, byte; cbn [app seq fold_left Nat.mul Nat.add nth]. lia.
Qed.

Section Forward.
Variables (w : world) (p : list Z) (h : nat) (ms : list Metric) (hop : Z).
Hypothesis (U : Forall is_u8 p) (H50 : (50 <= linear w <= length p)%nat) (Hi : 0 <= hop_index p < hop_count p).

Lemma gre_bits : (hop_index p =? u8 (hop_count p - 1)) && negb (unigue_last_hop_gre (byte p 46) =? 0) = gre p.
Proof.
  pose proof (byte_u8 p 49 U) as B. fold (hop_count p) in B. unfold is_u in B. rewrite uw_small by (unfold is_u; lia).
  unfold gre, unigue_last_hop_gre. change 1 with (Z.ones 1) at 2. rewrite field by lia. change (2 ^ 2) with 4. change (2 ^ 1) with 2.
  f_equal. pose proof (Z.mod_pos_bound (byte p 46 / 4) 2 ltac:(lia)).
  destruct (Z.eqb_spec (byte p 46 / 4 mod 2) 0), (Z.eqb_spec (byte p 46 / 4 mod 2) 1); cbn [negb]; lia.
Qed.

(** The frame is turned; the rest of the packet is still [p]'s. *)
Lemma turn_run k : (dest <- load 0 ETH_ALEN ;; source <- load ETH_ALEN ETH_ALEN ;; store 0 source ;; store ETH_ALEN dest ;; k)
  (cur (on w p) h ms) = (k : M Z) (cur (on w (turn p)) h ms).
Proof.
  unfold ETH_ALEN. by_run (load_on w p h ms 0 6 ltac:(lia)). by_run (load_on w p h ms 6 6 ltac:(lia)).
  by_run (store_on w p h ms 0 (sub p 6 6) ltac:(rewrite sub_length; lia)).
  by_run (store_on w (put p 0 (sub p 6 6)) h ms 6 (sub p 0 6) ltac:(rewrite sub_length; lia)).
  now rewrite turn_puts by lia.
Qed.

Lemma gue_spec : gre p = false ->
  exists r w', forward_to_next_hop ifindex hop (cur (on w p) h ms) = Some (r, w') /\
    (sent ifindex w w' (gue_forward p hop) 0 (ms ++ [forwarded_packets_total_gue]) (val r) \/
     dropped w w' ms (val r) (~ helpful K)).
Proof.
  intros G. pose proof (byte_u8 p 49 U) as B. fold (hop_count p) in B. unfold is_u in B.
  unfold forward_to_next_hop. rewrite turn_run. unfold EthHdr, IPV4_CHECK_OFFSET. nums.
  do 3 step. rewrite !turn_byte by lia. fold (hop_count p) (hop_index p). rewrite gre_bits, G.
  do 3 step. set (t := turn p). by_run (store_on w t h (ms ++ [forwarded_packets_total_gue]) 26 (bytes32 (word32 t 30)) ltac:(cbn; lia)).
  set (p1 := put t 26 _). by_run (store_on w p1 h (ms ++ [forwarded_packets_total_gue]) 30 (bytes32 hop) ltac:(cbn; lia)).
  set (p2 := put p1 30 _). destruct (Z.ltb_spec (hop_index p) (hop_count p)); [|lia]. cbn [when].
  rewrite uw_small by (unfold is_u; lia).
  by_run (store_on w p2 h (ms ++ [forwarded_packets_total_gue]) 48 [hop_index p + 1] ltac:(cbn; lia)). set (q := put p2 48 _).
  by_do (l3_csum_on 24 (word32 t 26) hop 4 w q h (ms ++ [forwarded_packets_total_gue])).
  assert (Lq : length q = length p) by (repeat (apply put_length; [|cbn; lia]); apply turn_length; lia).
  destruct (Nat.leb_spec (24 + 2) (length q)); [|lia]. rewrite andb_true_r.
  destruct (writable (calls w)) eqn:Ew; cbn [fst snd Z.ltb Z.compare].
  - eexists _, _. split; [reflexivity|]. left. repeat split. cbn [data cur on set const]. apply gue_puts; [lia | exact U].
  - eexists _, _. split; [reflexivity|]. right. repeat split; [exists [forwarded_packets_total_gue]; reflexivity|].
    intros (_ & _ & _ & _ & W). now rewrite W in Ew.
Qed.

(** *** In GRE *)

Lemma gre_ip_u8 check : Forall is_u8 check -> Forall is_u8 (gre_ip p hop check).
Proof.
  intros Uc. unfold gre_ip, bytes32, be16. pose proof (Z.mod_pos_bound (to_be (word16 p 16) - 12 - 4 * hop_count p) 65536 ltac:(lia)) as M.
  pose proof (sub_u8 p 14 2 U). pose proof (sub_u8 p 18 5 U). pose proof bytes16_range as Ub.
  rewrite !Forall_app. repeat split; auto; repeat constructor; unfold is_u, IPPROTO_GRE; Z.div_mod_to_equations; lia.
Qed.

(** The header that leaves has a right checksum. *)
Lemma gre_checksum : header_sum (gre_ip p hop (gre_check p hop)) mod 65535 = 0.
Proof.
  unfold gre_check. pose proof (header_sum_range _ (gre_ip_u8 [0; 0] ltac:(repeat constructor; unfold is_u; lia))) as Hs.
  destruct (checksum_fold _ Hs) as [Hc Hm]. set (c := pkt_checksum_fold _) in *.
  assert (E : forall ck, gre_ip p hop ck = (sub p 14 2 ++ be16 ((to_be (word16 p 16) - 12 - 4 * hop_count p) mod 65536) ++ sub p 18 5 ++ [IPPROTO_GRE])
              ++ ck ++ (bytes32 ENCAPSULATION_IP ++ bytes32 hop)) by (intros; unfold gre_ip; now rewrite <- !app_assoc).
  rewrite E in *. rewrite header_sum_check, word_of_bytes16; [exact Hm | exact Hc | | reflexivity | reflexivity].
  now rewrite !length_app, !sub_length by lia.
Qed.

(** The rewritten header, the frame before and the rest after it. *)
Definition gre_image (e i T ck A B P rest : list Z) : list Z :=
  e ++ (sub i 0 2 ++ T ++ sub i 4 5 ++ [IPPROTO_GRE] ++ ck ++ A ++ B) ++ ([0; 0] ++ P) ++ rest.

Lemma gre_image_puts e i x T A B P rest : length e = 14%nat -> length i = 20%nat -> length x = 4%nat ->
  length T = 2%nat -> length A = 4%nat -> length B = 4%nat -> length P = 2%nat ->
  let q := put (put (put (e ++ i ++ x ++ rest) 23 [IPPROTO_GRE]) 30 B) 26 A in
  word16 q 16 = word16 i 2 /\ put (put (put q 16 T) 34 [0; 0]) 36 P = gre_image e i T (sub i 10 2) A B P rest.
Proof.
  intros Le Li Lx LT LA LB LP. explode e. explode i. explode x. explode T. explode A. explode B. explode P.
  split; reflexivity.
Qed.

Lemma gre_image_check e i T ck ck' A B P rest : length e = 14%nat -> length i = 20%nat ->
  length T = 2%nat -> length ck = 2%nat -> length ck' = 2%nat -> length A = 4%nat -> length B = 4%nat ->
  put (gre_image e i T ck A B P rest) 24 ck' = gre_image e i T ck' A B P rest /\
  sub (gre_image e i T ck A B P rest) 14 20 = sub i 0 2 ++ T ++ sub i 4 5 ++ [IPPROTO_GRE] ++ ck ++ A ++ B.
Proof.
  intros Le Li LT Lc Lc' LA LB. explode e. explode i. explode T. explode ck. explode ck'. explode A. explode B.
  split; reflexivity.
Qed.

Lemma write_gre_run v x rest proto h' ms' : (38 <= linear v)%nat -> length x = 4%nat -> is_u16 proto ->
  write_gre (-12 - 4 * hop_count p) proto hop (cur (on v (turned p ++ sub p 14 20 ++ x ++ rest)) h' ms') =
  Some (inr tt, cur (on v (turned p ++ gre_ip p hop (gre_check p hop) ++ ([0; 0] ++ be16 proto) ++ rest)) h' ms').
Proof.
  intros Hv Lx Hp. unfold write_gre. set (e := turned p). set (i := sub p 14 20).
  assert (Le : length e = 14%nat) by (apply turned_length; lia). assert (Li : length i = 20%nat) by (apply sub_length; lia).
  nums. set (q0 := e ++ i ++ x ++ rest).
  by_run (store_on v q0 h' ms' 23 [IPPROTO_GRE] ltac:(cbn; lia)).
  by_run (store_on v (put q0 23 [IPPROTO_GRE]) h' ms' 30 (bytes32 hop) ltac:(cbn; lia)).
  by_run (store_on v (put (put q0 23 [IPPROTO_GRE]) 30 (bytes32 hop)) h' ms' 26 (bytes32 ENCAPSULATION_IP) ltac:(cbn; lia)).
  set (T := be16 ((to_be (word16 p 16) - 12 - 4 * hop_count p) mod 65536)).
  destruct (gre_image_puts e i x T (bytes32 ENCAPSULATION_IP) (bytes32 hop) (be16 proto) rest Le Li Lx eq_refl eq_refl eq_refl eq_refl) as [E16 Eq].
  fold q0 in E16, Eq. set (q1 := put (put (put q0 23 _) 30 _) 26 _) in *. by_run (ld16_on v q1 h' ms' 16 ltac:(lia)).
  assert (ET : bytes16 (to_be (u16 (to_be (word16 q1 16) + (-12 - 4 * hop_count p)))) = T).
  { rewrite E16. subst i T. rewrite sub_word16 by lia. rewrite bytes16_to_be by apply u16_range. cbn [Nat.add].
    now replace (to_be (word16 p 16) + (-12 - 4 * hop_count p)) with (to_be (word16 p 16) - 12 - 4 * hop_count p) by lia. }
  by_run (store_on v q1 h' ms' 16 (bytes16 (to_be (u16 (to_be (word16 q1 16) + (-12 - 4 * hop_count p))))) ltac:(cbn; lia)). rewrite ET.
  by_run (store_on v (put q1 16 T) h' ms' 34 [0; 0] ltac:(cbn; lia)).
  by_run (store_on v (put (put q1 16 T) 34 [0; 0]) h' ms' 36 (bytes16 (to_be proto)) ltac:(cbn; lia)).
  rewrite bytes16_to_be, Eq by exact Hp. unfold pkt_ipv4_checksum. change IpHdr with 20%nat. cbn [Nat.add].
  pose proof (fun ck ck' H H' => gre_image_check e i T ck ck' (bytes32 ENCAPSULATION_IP) (bytes32 hop) (be16 proto) rest Le Li eq_refl H H' eq_refl eq_refl) as C.
  assert (Ei : forall ck, sub i 0 2 ++ T ++ sub i 4 5 ++ [IPPROTO_GRE] ++ ck ++ bytes32 ENCAPSULATION_IP ++ bytes32 hop = gre_ip p hop ck)
    by (intros ck; unfold gre_ip; subst i; rewrite !sub_sub by lia; reflexivity).
  destruct (C (sub i 10 2) [0; 0] ltac:(apply sub_length; lia) eq_refl) as [E1 _].
  destruct (C [0; 0] (gre_check p hop) eq_refl eq_refl) as [E2 S2].
  by_run (store_on v (gre_image e i T (sub i 10 2) (bytes32 ENCAPSULATION_IP) (bytes32 hop) (be16 proto) rest) h' ms' 24 [0; 0] ltac:(cbn; lia)).
  rewrite E1. set (image := gre_image e i T [0; 0] _ _ _ _) in *.
  by_run (load_on v image h' ms' 14 20 ltac:(lia)). rewrite S2, Ei.
  rewrite (sum_no_wrap _ (seq 0 (20 / 2)) (gre_ip_u8 [0; 0] ltac:(repeat constructor; unfold is_u; lia)) 0) by (cbn; lia).
  change (fold_left _ (seq 0 (20 / 2)) 0) with (header_sum (gre_ip p hop [0; 0])). fold (gre_check p hop).
  unfold st16. rewrite (store_on v image h' ms' 24) by (cbn; lia). fold (gre_check p hop). rewrite E2. unfold gre_image. rewrite Ei. reflexivity.
Qed.

(** A call that fails is counted and ends it; else the rest. *)
Lemma must_zero m (k : M Z) v : (must 0 m ;; k) v = k v.
Proof. reflexivity. Qed.

Lemma must_fails (k : M Z) r m v q h' ms' : r <> 0 -> same w v -> ~ helpful K ->
  exists r' w', (must r m ;; k) (cur (on v q) h' (ms ++ ms')) = Some (r', w') /\ dropped w w' ms (val r') (~ helpful K).
Proof.
  intros Hr Sv Hh. unfold must. apply Z.eqb_neq in Hr as ->. rewrite bind_assoc.
  by_run (bump_cur m (on v q) h' (ms ++ ms')). eexists _, _. split; [reflexivity|]. split; [reflexivity|]. split; [|exact Hh].
  rewrite <- app_assoc. now apply same_stopped.
Qed.

Lemma gre_cut b : let q := firstn (payload_off (hop_count p)) (turn p) ++ b in
  (payload_off (hop_count p) <= length p)%nat ->
  exists x, length x = 4%nat /\
    firstn 34 q ++ skipn (34 + Z.to_nat (12 + 4 * hop_count p)) q = turned p ++ sub p 14 20 ++ x ++ b.
Proof.
  intros q Hn. pose proof (byte_u8 p 49 U) as B. fold (hop_count p) in B. unfold is_u in B.
  set (n := payload_off (hop_count p)) in *. assert (En : n = (50 + 4 * Z.to_nat (hop_count p))%nat) by reflexivity.
  assert (Ln : length (firstn n (turn p)) = n) by (rewrite length_firstn, turn_length by lia; lia).
  exists (skipn (n - 4) (firstn n (turn p))). split; [rewrite length_skipn; lia|]. subst q.
  rewrite firstn_app, skipn_app, Ln. replace (34 - n)%nat with 0%nat by lia. rewrite firstn_O, app_nil_r, firstn_firstn, Nat.min_l by lia.
  replace (34 + Z.to_nat (12 + 4 * hop_count p))%nat with (n - 4)%nat by lia. replace (n - 4 - n)%nat with 0%nat by lia. rewrite skipn_O.
  rewrite (firstn_sub (turn p) 14 34 20) by reflexivity. unfold turn at 1. rewrite firstn_app, turned_length, Nat.sub_diag, firstn_O, app_nil_r by lia.
  rewrite firstn_all2 by (rewrite turned_length; lia). unfold sub at 1. rewrite turn_skip by lia. now rewrite <- app_assoc.
Qed.

Ltac fails Sv :=
  lazymatch goal with
  | |- exists r0 w', bind (must ?r ?m) (fun _ => ?k) (cur (on ?v ?q) ?h' (?ms ++ ?ms')) = _ /\ _ =>
      let r' := fresh "r" in let w' := fresh "w" in let E := fresh "E" in let D := fresh "D" in
      enough (exists r' w', bind (must r m) (fun _ => k) (cur (on v q) h' (ms ++ ms')) = Some (r', w') /\ dropped w w' ms (val r') (~ helpful K))
        as (r' & w' & E & D) by (exists r', w'; split; [exact E | now right]);
      apply must_fails; [try assumption; try discriminate | exact Sv |]
  end.

Lemma leave_spec v b proto h' ms' : same w v -> is_u16 proto -> (payload_off (hop_count p) <= length p)%nat ->
  exists r w', leave_in_gre ifindex (-12 - 4 * hop_count p) proto hop (cur (on v (firstn (payload_off (hop_count p)) (turn p) ++ b)) h' (ms ++ ms')) = Some (r, w') /\
    (sent ifindex w w' (turned p ++ gre_ip p hop (gre_check p hop) ++ ([0; 0] ++ be16 proto) ++ b) 0 (ms ++ ms') (val r) \/
     dropped w w' ms (val r) (~ helpful K)).
Proof.
  intros Sv Hp Hn. destruct (gre_cut b Hn) as (x & Lx & Ex). pose proof (byte_u8 p 49 U) as B. fold (hop_count p) in B. unfold is_u in B.
  set (q := firstn _ (turn p) ++ b) in *. unfold leave_in_gre.
  by_run (mtu_on (-12 - 4 * hop_count p) v q h' (ms ++ ms')).
  destruct (Z.eq_dec (bpf_check_mtu (calls v) (Z.of_nat (length q)) (-12 - 4 * hop_count p)) 0) as [-> |Nm];
    [rewrite must_zero | fails (same_ticked _ _ Sv); intros (_ & _ & _ & H & _); now apply Nm, H].
  by_do (adjust_on (-12 - 4 * hop_count p) BPF_ADJ_ROOM_NET (ticked v) q h' (ms ++ ms')).
  destruct (bpf_skb_adjust_room _ _ _ _) as [[q' l']|] eqn:Ea; cbn [fst snd];
    replace (-12 - 4 * hop_count p) with (- (12 + 4 * hop_count p)) in Ea by lia;
    [rewrite must_zero | fails (same_ticked _ _ (same_ticked _ _ Sv))].
  2:{ intros (_ & H & _). apply (H _ _ (12 + 4 * hop_count p)) in Ea; [exact Ea | lia|].
      subst q. rewrite length_app, length_firstn, turn_length by lia. unfold payload_off, EthHdr, IpHdr, EncapHeaders, InAddr in *. lia. }
  destruct (adjust_ok _ _ (12 + 4 * hop_count p) _ _ _ ltac:(lia) Ea) as (-> & _). cbn [room_off] in *.
  change (room_off BPF_ADJ_ROOM_NET) with 34%nat. rewrite Ex. set (q' := turned p ++ _).
  assert (L38 : (38 <= length q')%nat) by (subst q'; rewrite !length_app, turned_length, sub_length, Lx by lia; lia).
  set (v1 := lin (ticked (ticked v)) l'). by_run (level_on BPF_CSUM_LEVEL_INC v1 q' h' (ms ++ ms')).
  destruct (Z.eq_dec (bpf_csum_level (calls v1) BPF_CSUM_LEVEL_INC) 0) as [-> |Nl];
    [rewrite must_zero | fails (same_ticked _ _ (same_lin _ _ l' (same_ticked _ _ (same_ticked _ _ Sv)))); intros (_ & _ & H & _); now apply Nl, H].
  by_do (pull_on EncapGre (ticked v1) q' h' (ms ++ ms')).
  destruct (bpf_skb_pull_data _ _ _ _) as [l2|] eqn:El; cbn [fst snd];
    [rewrite must_zero | fails (same_ticked _ _ (same_ticked _ _ (same_lin _ _ l' (same_ticked _ _ (same_ticked _ _ Sv)))))].
  2:{ intros (H & _). apply H in El; [exact El | exact L38]. }
  destruct (pull_ok _ _ _ _ _ El) as [Hl2 _]. change EncapGre with 38%nat in Hl2.
  set (v2 := lin (ticked (ticked v1)) l2) in *.
  rewrite (rebuf 38 v2) by exact Hl2. set (v3 := v2 <| buf := _ |>). cbn beta iota. subst q'. by_run (write_gre_run v3 x b proto 38 (ms ++ ms') Hl2 Lx Hp).
  eexists _, _. split; [reflexivity|]. left. destruct Sv as (_ & S2 & S3).
  unfold sent. cbn [data metrics sk_refs cur on set const]. repeat split; [now rewrite <- S3 | exact S2].
Qed.

(** *** Every decision *)

Lemma dropped_base w1 w' ms1 r c : dropped w1 w' ms1 r c -> dropped w1 w' [] r c.
Proof.
  intros (R & (A & B & e & E) & C). split; [exact R|]. split; [|exact C]. split; [exact A|]. split; [exact B|]. eauto.
Qed.

Lemma gre_spec : gre p = true -> (payload_off (hop_count p) + 20 <= length p)%nat ->
  exists r w', forward_to_next_hop ifindex hop (cur (on w p) h ms) = Some (r, w') /\
    if hop_limit p =? 0 then outcome ifindex w w' p (ms ++ [forwarded_packets_total_gre; errors_total_redirect_loop]) Drop (val r)
    else outcome ifindex w w' p (ms ++ [forwarded_packets_total_gre]) (Gre hop) (val r).
Proof.
  intros G Hl. unfold forward_to_next_hop. rewrite turn_run. nums. do 3 step. rewrite !turn_byte by lia. fold (hop_count p) (hop_index p).
  rewrite gre_bits, G. unfold forward_with_gre. nums. do 3 step. rewrite !turn_byte by lia. fold (hop_count p) (inner_proto p).
  set (t := turn p). set (ms1 := ms ++ [forwarded_packets_total_gre]).
  assert (Ht : hop_count t = hop_count p /\ inner_proto t = inner_proto p /\ hop_limit t = hop_limit p /\ hopped t = hopped p).
  { subst t. unfold hop_count, inner_proto. rewrite !turn_byte, turn_limit, turn_hopped by lia. auto. }
  destruct Ht as (E1 & E2 & E3 & E4).
  pose proof (dec_ttl_spec w t h ms1 (turn_u8 p U)) as D. rewrite E1, E2 in D. subst t. rewrite turn_length in D by lia. specialize (D Hl).
  destruct D as (r & v & q & e & E & Sv & O). rewrite E1, E2, E3, E4 in O. by_do E. cbn [fst snd].
  destruct O as [(Z0 & -> & ->)|[(Z0 & -> & -> & ->)|(Z0 & -> & Hh)]]; destruct (Z.eqb_spec (hop_limit p) 0) as [Z1|Z1]; try contradiction.
  - eexists _, _. split; [reflexivity|]. destruct Sv as (S1 & S2 & S3). unfold outcome. cbn [redirected metrics sk_refs cur on set const].
    subst ms1. rewrite <- app_assoc, S3. auto.
  - subst ms1. rewrite app_nil_r.
    set (proto := if inner_proto p =? IPPROTO_IPV6 then ETH_P_IPV6 else ETH_P_IP).
    assert (Hp : is_u16 proto) by (subst proto; destruct (_ =? _); unfold is_u, ETH_P_IPV6, ETH_P_IP; lia).
    replace (Z.of_nat GreBaseHdr - _) with (-12 - 4 * hop_count p)
      by (pose proof (byte_u8 p 49 U) as B; fold (hop_count p) in B; unfold is_u in B; unfold payload_off, GreBaseHdr, EncapHeaders, InAddr; lia).
    destruct (leave_spec v (hopped p) proto h [forwarded_packets_total_gre] Sv Hp ltac:(lia)) as (r & w' & E' & O).
    exists r, w'. split; [exact E'|]. unfold outcome. destruct O as [O|O]; [left | right; now apply dropped_base in O].
    exists (gre_check p hop). split; [reflexivity|]. split; [apply gre_checksum|]. split; [|exact O].
    intros H6. apply hopped_header_sum; try assumption. unfold inner. rewrite length_skipn. lia.
  - eexists _, _. split; [reflexivity|]. right. apply (dropped_base _ _ ms1).
    split; [reflexivity|]. split; [|exact Hh]. now apply same_stopped.
Qed.

Lemma forward_spec : (gre p = true -> (payload_off (hop_count p) + 20 <= length p)%nat) ->
  exists r w', forward_to_next_hop ifindex hop (cur (on w p) h ms) = Some (r, w') /\
    outcome ifindex w w' p (ms ++ fst (forward p hop)) (snd (forward p hop)) (val r).
Proof.
  intros Hl. unfold forward. destruct (gre p) eqn:G; cbn [negb].
  - destruct (gre_spec G (Hl eq_refl)) as (r & w' & E & O). exists r, w'. split; [exact E|].
    destruct (hop_limit p =? 0); exact O.
  - destruct (gue_spec G) as (r & w' & E & O). exists r, w'. split; [exact E|]. cbn [fst snd outcome].
    destruct O as [O|O]; [now left | right; now apply dropped_base in O].
Qed.

Lemma act_spec v : (v = UNKNOWN \/ v = SYN -> (payload_off (hop_count p) + 20 <= length p)%nat) ->
  (payload_off (hop_count p) <= length p)%nat ->
  exists r w', act ifindex v hop (cur (on w p) h ms) = Some (r, w') /\
    outcome ifindex w w' p (ms ++ fst (decide_verdict p hop v)) (snd (decide_verdict p hop v)) (val r).
Proof.
  intros Hl Hn. unfold act, decide_verdict.
  assert (A : forall ms', exists r w', accept_locally ifindex (cur (on w p) h ms') = Some (r, w') /\ outcome ifindex w w' p ms' Local (val r)).
  { intros ms'. destruct (accept_spec ifindex (on w p) h ms') as (r & w' & E & [O|O]).
    - exact H50.
    - exact Hn.
    - exists r, w'. split; [exact E | now left].
    - exists r, w'. split; [exact E | right; now apply dropped_base in O]. }
  destruct (Z.eqb_spec v INVALID) as [->|N0].
  { eexists _, _. split; [reflexivity|]. cbn. rewrite app_nil_r. repeat split. }
  destruct (Z.eqb_spec v UNKNOWN) as [->|N1]; [apply forward_spec; auto|].
  destruct (Z.eqb_spec v ECHO_REQUEST) as [->|N2]; [step; apply A|].
  destruct (Z.eqb_spec v SYN) as [->|N3].
  { nums. step. unfold unigue_forward_syn. change 1 with (Z.ones 1) at 1. rewrite field by lia. change (2 ^ 3) with 8. change (2 ^ 1) with 2.
    pose proof (Z.mod_pos_bound (byte p 46 / 8) 2 ltac:(lia)).
    destruct (Z.eqb_spec (byte p 46 / 8 mod 2) 0), (Z.eqb_spec (byte p 46 / 8 mod 2) 1); try lia; cbn [negb]; [step; apply A | apply forward_spec; auto]. }
  destruct (Z.eqb_spec v SYN_COOKIE) as [->|N4]; [step; apply A|].
  destruct (Z.eqb_spec v ESTABLISHED) as [->|N5]; [step; apply A|].
  eexists _, _. split; [reflexivity|]. cbn. rewrite app_nil_r. repeat split.
Qed.
End Forward.

(** A packet too short for its network header is not forwarded. *)
Lemma short_inner4 l : (length l < 20)%nat -> snd (ref_inner4 l) = INVALID.
Proof.
  intros H. unfold ref_inner4, ref_ip4, take. change IpHdr with 20%nat. destruct (Nat.leb_spec 20 (length l)); [lia | reflexivity].
Qed.

Lemma short_inner6 l : (length l < 20)%nat -> snd (ref_inner6 l) = INVALID.
Proof.
  intros H. unfold ref_inner6, ref_ip6, take. change Ipv6Hdr with 40%nat. destruct (Nat.leb_spec 40 (length l)); [lia | reflexivity].
Qed.

Lemma next_hop_bounds q to : Forall is_u8 q -> next_hop q = Some to -> to <> 0 ->
  0 <= hop_index q < hop_count q /\ (payload_off (hop_count q) <= length q)%nat.
Proof.
  intros U. pose proof (byte_u8 q 48 U) as Hi. pose proof (byte_u8 q 49 U) as Hn. unfold is_u in Hi, Hn.
  unfold next_hop, hop_index, hop_count, payload_off, EncapHeaders, InAddr in *.
  destruct (_ || (_ <? 50 + 4 * byte q 48)) eqn:E1; [discriminate|]. destruct (Z.eqb_spec (byte q 48) (byte q 49)); [intros [= <-] H; now destruct H|].
  destruct (_ || (_ <? 50 + 4 * byte q 49)) eqn:E2; [discriminate|]. intros _ _. rewrite !orb_false_iff, !Z.ltb_ge in E1, E2. lia.
Qed.

Lemma next_hop_end q to : Forall is_u8 q -> next_hop q = Some to ->
  (payload_off (hop_count q) <= length q)%nat.
Proof.
  intros U H. pose proof (byte_u8 q 48 U) as Hi. pose proof (byte_u8 q 49 U) as Hn. unfold is_u in Hi, Hn.
  unfold next_hop, hop_index, hop_count, payload_off, EncapHeaders, InAddr in *.
  destruct (_ || (_ <? 50 + 4 * byte q 48)) eqn:E1; [discriminate|]. destruct (Z.eqb_spec (byte q 48) (byte q 49)).
  - rewrite !orb_false_iff, !Z.ltb_ge in E1. lia.
  - destruct (_ || (_ <? 50 + 4 * byte q 49)) eqn:E2; [discriminate|]. rewrite !orb_false_iff, !Z.ltb_ge in E1, E2. lia.
Qed.

End Sending.

End Forward.
