(* ===== verification/ClsDecide.v ===== *)
(** progs/test_cls_redirect.rs: the whole program comes to the decision of the
    reference, and a packet sent on in GUE is one the next host accepts; with
    concrete packets the theorems apply to.  Uses ClsForward.v. *)

From S2P Require Import Prelude Kernel Early Packet ClsRedirect ClsParse ClsForward.
Local Open Scope early_scope.

Module Decide.

Import Redirect Parse Forward.

Section Program.
Context {K : Kernel} {ok : KernelOk K} (ifindex : Z).

(** *** The program *)

Lemma start w : Forall is_u8 (data w) ->
  forall protocol, metrics_map = true -> protocol = to_be ETH_P_IP ->
  cls_redirect_body protocol ifindex w =
    (r <- pull_data EncapHeaders ;;
     if negb (r =? 0) then out TC_ACT_OK else
     new_buf ;;
     encap <- buf_assign EncapHeaders false ;;
     match encap with None => out TC_ACT_OK | Some _ =>
     check_encap ;;
     hop <- get_next_hop ;;
     if hop =? 0 then bump accepted_packets_total_last_hop ;; accept_locally ifindex else
     proto <- ld8 (GUE + 1) ;;
     verdict <- (if proto =? IPPROTO_IPIP then call process_ipv4
                 else if proto =? IPPROTO_IPV6 then call process_ipv6
                 else bump errors_total_unknown_l3_proto ;; out TC_ACT_SHOT) ;;
     act ifindex verdict hop
     end) (cur (on w (data w)) (head (buf w)) [processed_packets_total]).
Proof.
  intros U protocol Em ->. unfold cls_redirect_body. rewrite Em. cbn [negb].
  assert (Ec : w = cur w (head (buf w)) []) by (destruct w as [d l [h t] m s r c]; reflexivity).
  rewrite Ec at 1. by_run (bump_cur processed_packets_total w (head (buf w)) []). rewrite Z.eqb_refl. cbn [negb app].
  now rewrite on_data.
Qed.

(** The verdict on the packet inside, and what is done with it. *)
Lemma judged_acts w q h ms to f : Forall is_u8 q -> (50 <= linear w <= length q)%nat ->
  0 <= hop_index q < hop_count q -> (payload_off (hop_count q) <= length q)%nat ->
  (forall l, (length l < 20)%nat -> snd (f l) = INVALID) ->
  exists r w', act ifindex (snd (f (inner q))) to (cur (on w q) h (ms ++ fst (f (inner q)))) = Some (r, w') /\
    outcome ifindex w w' q (ms ++ fst (let (ms0, v) := f (inner q) in let (ms', d) := decide_verdict q to v in (ms0 ++ ms', d)))
      (snd (let (ms0, v) := f (inner q) in let (ms', d) := decide_verdict q to v in (ms0 ++ ms', d))) (val r).
Proof.
  intros U H50 Hi Hn Hf.
  destruct (act_spec ifindex w q h (ms ++ fst (f (inner q))) to U H50 Hi (snd (f (inner q)))) as (r & w' & E & O).
  - intros Hv. destruct (Nat.ltb_spec (length (inner q)) 20) as [L|L]; [rewrite (Hf _ L) in Hv; now destruct Hv|].
    unfold inner in L. rewrite length_skipn in L. lia.
  - exact Hn.
  - exists r, w'. split; [exact E|]. destruct (f (inner q)) as [ms0 v]. cbn [fst snd] in *. destruct (decide_verdict q to v) as [ms' d].
    cbn [fst snd] in *. now rewrite app_assoc.
Qed.

Lemma inner_spec w q ms to : Forall is_u8 q -> (50 <= linear w <= length q)%nat -> tail (buf w) = linear w ->
  0 <= hop_index q < hop_count q /\ (payload_off (hop_count q) <= length q)%nat ->
  exists r w', (proto <- ld8 (GUE + 1) ;;
     verdict <- (if proto =? IPPROTO_IPIP then call process_ipv4
                 else if proto =? IPPROTO_IPV6 then call process_ipv6
                 else bump errors_total_unknown_l3_proto ;; out TC_ACT_SHOT) ;;
     act ifindex verdict to) (cur (on w q) (payload_off (hop_count q)) ms) = Some (r, w') /\
    let x := match inner_verdict q with
             | None => ([errors_total_unknown_l3_proto], Drop)
             | Some (ms, v) => let (ms', d) := decide_verdict q to v in (ms ++ ms', d)
             end in
    outcome ifindex w w' q (ms ++ fst x) (snd x) (val r).
Proof.
  intros U H50 Ht [Hi Hn]. assert (Mw : mapped (on w q)) by (split; [cbn; lia | exact U]).
  nums. step. fold (inner_proto q).
  assert (Hh : here (on w q) (payload_off (hop_count q)) (inner q)) by (split; [exact Hn | reflexivity]).
  unfold inner_verdict. destruct (inner_proto q =? IPPROTO_IPIP); [|destruct (inner_proto q =? IPPROTO_IPV6)].
  - destruct (judged_ipv4 (on w q) _ _ ms Mw Hh) as (h' & E). by_run E. now apply (judged_acts w q h' ms to ref_inner4), short_inner4.
  - destruct (judged_ipv6 (on w q) _ _ ms Mw Hh) as (h' & E). by_run E. now apply (judged_acts w q h' ms to ref_inner6), short_inner6.
  - rewrite bind_assoc. by_run (bump_cur errors_total_unknown_l3_proto (on w q) (payload_off (hop_count q)) ms). cbn [fst snd].
    eexists _, _. split; [reflexivity|]. repeat split.
Qed.

(** What is left of the program once the outer headers are mapped. *)
Lemma body_spec w q ms : Forall is_u8 q -> (50 <= linear w <= length q)%nat -> tail (buf w) = linear w ->
  exists r w', (check_encap ;;
     hop <- get_next_hop ;;
     if hop =? 0 then bump accepted_packets_total_last_hop ;; accept_locally ifindex else
     proto <- ld8 (GUE + 1) ;;
     verdict <- (if proto =? IPPROTO_IPIP then call process_ipv4
                 else if proto =? IPPROTO_IPV6 then call process_ipv6
                 else bump errors_total_unknown_l3_proto ;; out TC_ACT_SHOT) ;;
     act ifindex verdict hop) (cur (on w q) EncapHeaders ms) = Some (r, w') /\
    outcome ifindex w w' q (ms ++ fst (decision q)) (snd (decision q)) (val r).
Proof.
  intros U H50 Ht. assert (Mw : mapped (on w q)) by (split; [cbn; lia | exact U]).
  assert (Fin : forall ms' v, v = TC_ACT_SHOT -> outcome ifindex w (cur (on w q) EncapHeaders (ms ++ ms')) q (ms ++ ms') Drop v)
    by (intros ms' v ->; repeat split).
  by_do (check_spec (on w q) EncapHeaders ms Mw ltac:(exact (proj1 H50))). change (data (on w q)) with q.
  unfold check_fails, decision. destruct (ours q); cbn [negb fst snd].
  2:{ eexists _, _. split; [reflexivity|]. rewrite app_nil_r. repeat split. }
  destruct (fragment _); cbn [fst snd]; [eexists _, _; split; [reflexivity | now apply Fin]|].
  destruct (gue_ok q); cbn [negb fst snd]; [|eexists _, _; split; [reflexivity | now apply Fin]].
  destruct (byte q 47 =? 0); cbn [negb fst snd]; [|eexists _, _; split; [reflexivity | now apply Fin]].
  destruct (next_hop_spec (on w q) ms Mw (proj1 H50)) as (h & N). change (data (on w q)) with q in N. by_do N. cbn [fst snd].
  destruct (next_hop q) as [to|] eqn:En; cbn [fst snd].
  2:{ eexists _, _. split; [reflexivity|]. rewrite app_nil_r. repeat split. }
  destruct (Z.eqb_spec to 0) as [->|Nt].
  { by_run (bump_cur accepted_packets_total_last_hop (on w q) (payload_off (hop_count q)) ms). cbn [fst snd].
    destruct (accept_spec ifindex (on w q) (payload_off (hop_count q)) (ms ++ [accepted_packets_total_last_hop]) H50 (next_hop_end q 0 U En)) as (r & w' & E & [O|O]);
      exists r, w'; (split; [exact E|]); [now left | right; now apply dropped_base in O]. }
  apply (inner_spec w q ms to U H50 Ht (next_hop_bounds q to U En Nt)).
Qed.

(** The program comes to the decision of the reference. *)
Lemma redirect_outcome protocol w : metrics_map = true -> protocol = to_be ETH_P_IP -> Forall is_u8 (data w) ->
  exists r w', cls_redirect protocol ifindex w = Some (r, w') /\
    (outcome ifindex w w' (data w) (processed_packets_total :: fst (decision (data w))) (snd (decision (data w))) r \/
     r = TC_ACT_OK /\ data w' = data w /\ stopped w w' [] /\ ~ helpful K).
Proof.
  intros Em Ep U.
  enough (exists r w', cls_redirect_body protocol ifindex w = Some (r, w') /\
    (outcome ifindex w w' (data w) (processed_packets_total :: fst (decision (data w))) (snd (decision (data w))) (val r) \/
     val r = TC_ACT_OK /\ data w' = data w /\ stopped w w' [] /\ ~ helpful K)) as (r & w' & E & O).
  { exists (val r), w'. split; [|exact O]. unfold cls_redirect, result. rewrite E. now destruct r. }
  rewrite (start w U protocol Em Ep). set (p := data w) in *. set (h := head (buf w)). set (ms := [processed_packets_total]).
  by_do (pull_on EncapHeaders w p h ms). destruct (bpf_skb_pull_data _ _ _ _) as [l|] eqn:El; cbn [fst snd Z.eqb negb].
  - destruct (pull_ok _ _ _ _ _ El) as [L50 L]. unfold EncapHeaders in L50. set (v := lin (ticked w) l). set (v1 := v <| buf := mk_buf 0 l |>).
    rewrite (rebuf 50 v) by exact L50. cbn beta iota.
    destruct (body_spec v1 p ms U (conj L50 L) eq_refl) as (r & w' & E & O). exists r, w'. split; [exact E | left; exact O].
  - eexists _, _. split; [reflexivity|]. destruct (Nat.leb_spec EncapHeaders (length p)) as [L|L].
    + right. repeat split; [exists ms; reflexivity|]. intros (H & _). now apply (H _ _ _ _ L) in El.
    + left. unfold decision, ours. destruct (Nat.leb_spec EncapHeaders (length p)); [lia|]. cbn. repeat split.
Qed.

(** C18. On every packet of IPv4 the program comes to the decision the reference
    makes on the bytes, whatever part of the packet is mapped: it passes the
    packets not meant for it, drops the malformed ones, hands over the last
    hop's and those of its own flows without their encapsulation, and sends on
    the others in GUE or, with a right header checksum, in GRE; exactly the
    counters of the decision go up.  It never accesses a byte that is not
    mapped, and it releases every socket it looks up.  A packet the reference
    sends is dropped only when a helper fails or, for this host, when there is
    not even an IPv4 header inside; and let pass unread only when the headers
    cannot be mapped though they are there. *)
Theorem redirect_decides protocol w : metrics_map = true -> protocol = to_be ETH_P_IP -> Forall is_u8 (data w) ->
  exists r w', cls_redirect protocol ifindex w = Some (r, w') /\
    (outcome ifindex w w' (data w) (processed_packets_total :: fst (decision (data w))) (snd (decision (data w))) r \/
     r = TC_ACT_OK /\ data w' = data w /\ stopped w w' [] /\ ~ helpful K).
Proof. apply redirect_outcome. Qed.

End Program.

(** ** What arrives *)

Section Chain.
Context {K : Kernel} {ok : KernelOk K}.

Lemma header_sum_parts a c s d : length a = 10%nat -> length c = 2%nat -> length s = 4%nat -> length d = 4%nat ->
  header_sum (a ++ c ++ s ++ d) = header_sum (a ++ repeat 0 10) + word16 c 0 + word16 s 0 + word16 s 2 + word16 d 0 + word16 d 2.
Proof.
  intros La Lc Ls Ld. explode a. explode c. explode s. explode d.
  unfold header_sum, word16, byte; cbn [app repeat seq fold_left Nat.mul Nat.add nth]. lia.
Qed.

(** A header of the packet, cut at the fields the code rewrites. *)
Lemma ip_parts p : (34 <= length p)%nat -> sub p 14 20 = sub p 14 10 ++ sub p 24 2 ++ sub p 26 4 ++ sub p 30 4.
Proof. intros H. do 34 (destruct p as [|? p]; [cbn [length] in H; lia|]). reflexivity. Qed.

(** The fields of a packet sent on in GUE. *)
Lemma gue_fields p hop : (50 <= length p)%nat -> let p' := gue_forward p hop in
  sub p' 14 20 = sub p 14 10 ++ bytes16 (l3_csum (word16 p 24) (word32 p 26) hop 4) ++ sub p 30 4 ++ bytes32 hop /\
  (forall k, In k [14; 23; 42; 43; 46; 47; 49]%nat -> byte p' k = byte p k) /\
  (forall k, In k [20; 36; 44]%nat -> word16 p' k = word16 p k) /\
  byte p' 48 = byte p 48 + 1 /\ word32 p' 30 = word32 (bytes32 hop) 0 /\ sub p' 0 14 = turned p /\ skipn 50 p' = skipn 50 p /\
  length p' = length p.
Proof.
  intros H. unfold gue_forward, turned, hop_index. generalize (l3_csum (word16 p 24) (word32 p 26) hop 4). intros c.
  do 50 (destruct p as [|? p]; [cbn [length] in H; lia|]).
  repeat match goal with |- _ /\ _ => split end; try reflexivity; intros k Hk; cbn [In] in Hk;
    repeat destruct Hk as [<-|Hk]; try reflexivity; destruct Hk.
Qed.

(** The checksum of the outer header stays as right as it was. *)
Lemma gue_header_sum p hop : Forall is_u8 p -> (50 <= length p)%nat -> is_u32 hop ->
  header_sum (sub (gue_forward p hop) 14 20) mod 65535 = header_sum (sub p 14 20) mod 65535.
Proof.
  intros U H Hop. destruct (gue_fields p hop H) as (E & _). rewrite E, (ip_parts p) by lia.
  rewrite !header_sum_parts by (try apply sub_length; try reflexivity; lia).
  destruct (word_of_bytes32 hop Hop) as (_ & -> & ->). rewrite !sub_word16 by lia. cbn [Nat.add].
  pose proof (word16_u16 p 24 U) as U24. destruct (l3_csum_ok (word16 p 24) (word32 p 26) hop 4 U24) as [Uc Ec].
  set (c := l3_csum _ _ _ _) in *. rewrite word_of_bytes16 by (unfold is_u in Uc; lia).
  destruct (word32_halves p 26 U) as (E1 & E2 & _). rewrite E1, E2 in Ec. cbn [Nat.add] in Ec.
  destruct (mod_eq _ _ 65535 ltac:(lia) Ec) as (k & Ek). rewrite <- (Z_mod_plus_full (_ + word16 p 32) k 65535).
  f_equal. lia.
Qed.

Lemma decide_gue p hop v ms to : decide_verdict p hop v = (ms, Gue to) -> to = hop.
Proof.
  unfold decide_verdict, forward. repeat (destruct (_ =? _) || destruct (negb _)); intros E; inversion E; reflexivity.
Qed.

(** What a decision to send on says of the packet. *)
Lemma gue_decided p ms hop : decision p = (ms, Gue hop) ->
  ours p = true /\ fragment (sub p 14 20) = false /\ gue_ok p = true /\ byte p 47 = 0 /\ next_hop p = Some hop /\ hop <> 0.
Proof.
  unfold decision. destruct (ours p); [|discriminate]. change (sub p IP IpHdr) with (sub p 14 20).
  destruct (fragment _); [discriminate|]. destruct (gue_ok p); [|discriminate]. cbn [negb].
  destruct (Z.eqb_spec (byte p 47) 0); [|discriminate]. cbn [negb]. destruct (next_hop p) as [to|]; [|discriminate].
  destruct (Z.eqb_spec to 0); [discriminate|]. destruct (inner_verdict p) as [[ms0 v]|]; [|discriminate].
  destruct (decide_verdict p to v) as [ms' d] eqn:E. intros [= _ ->]. apply decide_gue in E. subst. auto 7.
Qed.

Lemma next_hop_u32 p hop : Forall is_u8 p -> next_hop p = Some hop -> is_u32 hop.
Proof.
  intros U. unfold next_hop. destruct (_ || (_ <? 50 + 4 * hop_index p)); [discriminate|].
  destruct (hop_index p =? hop_count p); [intros [= <-]; unfold is_u; lia|].
  destruct (_ || (_ <? 50 + 4 * hop_count p)); [discriminate|]. intros [= <-]. now apply word32_halves.
Qed.

Lemma gue_inner p hop : (50 <= length p)%nat -> inner (gue_forward p hop) = inner p.
Proof.
  intros H. destruct (gue_fields p hop H) as (_ & B & _ & _ & _ & _ & Sk & _). unfold inner, hop_count. rewrite B by (cbn; tauto).
  unfold payload_off, EncapHeaders, InAddr. now rewrite !(Nat.add_comm 50), <- !skipn_skipn, Sk.
Qed.

Lemma gue_decap p hop : (50 <= length p)%nat -> decap (gue_forward p hop) =
  sub p 6 6 ++ sub p 0 6 ++ (if inner_proto p =? IPPROTO_IPV6 then be16 ETH_P_IPV6 else sub p 12 2) ++ inner p.
Proof.
  intros H. unfold decap. rewrite gue_inner by exact H. destruct (gue_fields p hop H) as (_ & B & _ & _ & _ & S0 & _).
  unfold inner_proto. rewrite B by (cbn; tauto).
  rewrite <- (sub_sub (gue_forward p hop) 0 14 12 2), S0 by lia. change (firstn 12 (gue_forward p hop)) with (sub (gue_forward p hop) 0 12).
  rewrite <- (sub_sub (gue_forward p hop) 0 14 0 12), S0 by lia. unfold turned.
  pose proof (sub_length p 6 6 ltac:(lia)) as L1. pose proof (sub_length p 0 6 ltac:(lia)) as L2. pose proof (sub_length p 12 2 ltac:(lia)) as L3.
  set (a := sub p 6 6) in *. set (b := sub p 0 6) in *. set (c := sub p 12 2) in *. clearbody a b c. explode a. explode b. explode c. reflexivity.
Qed.

(** The packet that leaves in GUE, as the next host sees it: it passes every
    check, one hop further down the same list, with the same packet inside. *)
Lemma gue_next (K' : Kernel) p ms hop : Forall is_u8 p -> @decision K p = (ms, Gue hop) ->
  @ENCAPSULATION_IP K' = hop -> @ENCAPSULATION_PORT K' = @ENCAPSULATION_PORT K ->
  let p' := @gue_forward K p hop in
  @ours K' p' = true /\ fragment (sub p' 14 20) = false /\ gue_ok p' = true /\
  hop_index p' = hop_index p + 1 /\ hop_count p' = hop_count p /\ inner_proto p' = inner_proto p /\ inner p' = inner p /\
  header_sum (sub p' 14 20) mod 65535 = header_sum (sub p 14 20) mod 65535 /\
  (hop_count p = 1 -> @decision K' p' = ([accepted_packets_total_last_hop], Local) /\
     decap p' = sub p 6 6 ++ sub p 0 6 ++ (if inner_proto p =? IPPROTO_IPV6 then be16 ETH_P_IPV6 else sub p 12 2) ++ inner p) /\
  (hop_index p = 1 -> @decision K' p' = ([], Drop)).
Proof.
  intros U D EI EP p'. destruct (gue_decided p ms hop D) as (O & F & G & R & N & Hz).
  assert (H : (50 <= length p)%nat).
  { unfold ours in O. destruct (Nat.leb_spec EncapHeaders (length p)); [assumption | discriminate]. }
  pose proof (next_hop_u32 p hop U N) as Uh. destruct (next_hop_bounds p hop U N Hz) as [Hi Hn].
  pose proof (gue_header_sum p hop U H Uh) as Hs. destruct (word_of_bytes32 hop Uh) as (Eh & _).
  pose proof (gue_inner p hop H) as Ei. pose proof (gue_decap p hop H) as Ed.
  destruct (gue_fields p hop H) as (_ & B & W & B48 & W30 & _ & _ & L). fold p' in B, W, B48, W30, L, Hs, Ei, Ed.
  assert (O' : @ours K' p' = true).
  { unfold ours in *. rewrite L, !B, W, W30, Eh, EI, EP, Z.eqb_refl by (cbn; tauto). now rewrite !andb_true_iff in *. }
  assert (F' : fragment (sub p' 14 20) = false).
  { unfold fragment in *. rewrite sub_word16 in F |- * by lia. now rewrite W by (cbn; tauto). }
  assert (G' : gue_ok p' = true) by (unfold gue_ok, hop_count in *; rewrite !B, W by (cbn; tauto); exact G).
  assert (I' : hop_index p' = hop_index p + 1) by exact B48.
  assert (C' : hop_count p' = hop_count p) by (apply B; cbn; tauto).
  assert (D' : @decision K' p' = match next_hop p' with
    | None => ([], Drop) | Some to => if to =? 0 then ([accepted_packets_total_last_hop], Local) else
      match inner_verdict p' with None => ([errors_total_unknown_l3_proto], Drop)
      | Some (ms, v) => let (ms', d) := decide_verdict p' to v in (ms ++ ms', d) end end).
  { unfold decision. rewrite O', G'. change (sub p' IP IpHdr) with (sub p' 14 20). rewrite F', B, R by (cbn; tauto). reflexivity. }
  repeat (split; [first [assumption | apply B; cbn; tauto]|]). unfold payload_off, EncapHeaders, InAddr in Hn. rewrite D'. split.
  - intros E1. split; [|exact Ed]. replace (next_hop p') with (Some 0); [reflexivity|]. unfold next_hop. rewrite I', C', L, E1.
    replace (hop_index p) with 0 by lia. change (0 + 1) with 1. destruct (Z.ltb_spec (Z.of_nat (length p)) (50 + 4 * 1)); [lia | reflexivity].
  - intros E1. unfold next_hop. rewrite I', E1. cbn [Z.add Z.ltb Z.compare]. now rewrite orb_true_r.
Qed.

Lemma gue_forward_u8 p ms hop : Forall is_u8 p -> decision p = (ms, Gue hop) -> Forall is_u8 (gue_forward p hop).
Proof.
  intros U D. destruct (gue_decided p ms hop D) as (_ & _ & _ & _ & N & Hz).
  destruct (next_hop_bounds p hop U N Hz) as [Hi _]. pose proof (byte_u8 p 49 U) as B. fold (hop_count p) in B.
  unfold gue_forward, turned, bytes32. rewrite !Forall_app. repeat split; try (now apply sub_u8); try apply bytes16_range.
  - repeat constructor; unfold is_u in *; lia.
  - rewrite <- (firstn_skipn 49 p), Forall_app in U. apply U.
Qed.

(** A packet that leaves in GUE is the one the decision says. *)
Lemma gue_sent ifindex protocol w r w' ms hop : metrics_map = true -> protocol = to_be ETH_P_IP -> Forall is_u8 (data w) ->
  decision (data w) = (ms, Gue hop) -> redirected w = None -> redirected w' <> None ->
  cls_redirect protocol ifindex w = Some (r, w') -> data w' = gue_forward (data w) hop.
Proof.
  intros Em Ep U D R R' E. destruct (redirect_outcome ifindex protocol w Em Ep U) as (r1 & w1 & E1 & O).
  rewrite E1 in E. injection E as -> ->. rewrite D in O. cbn [fst snd outcome] in O.
  destruct O as [[(_ & _ & O & _)|(_ & (O & _) & _)]|(_ & _ & (O & _) & _)]; [exact O | congruence | congruence].
Qed.

End Chain.

(** C19. A packet sent on in GUE arrives.  When the program on one host sends a
    packet to the next hop of its list, and the packet reaches that host with
    nothing changed, the outer header checksum is as right as it was, and the
    program there does what the list says: it was a list of one hop, so it takes
    the packet off its encapsulation, and what is handed over is the packet
    inside behind the turned Ethernet header, the counter of last hops going up.
    But the host behind the second hop of a list drops the packet: it would have
    to skip two hops, and the code skips at most one. *)
Theorem gue_arrives (K K' : Kernel) (ok : KernelOk K) (ok' : KernelOk K') ifindex ifindex' protocol w r w' w2 ms hop :
  @metrics_map K = true -> @metrics_map K' = true -> protocol = to_be ETH_P_IP -> Forall is_u8 (data w) -> redirected w = None ->
  @decision K (data w) = (ms, Gue hop) -> @cls_redirect K protocol ifindex w = Some (r, w') -> redirected w' <> None ->
  @ENCAPSULATION_IP K' = hop -> @ENCAPSULATION_PORT K' = @ENCAPSULATION_PORT K -> data w2 = data w' ->
  let p := data w in
  header_sum (sub (data w2) 14 20) mod 65535 = header_sum (sub p 14 20) mod 65535 /\
  exists r2 w2', @cls_redirect K' protocol ifindex' w2 = Some (r2, w2') /\
    (hop_count p = 1 ->
       @sent K' ifindex' w2 w2' (sub p 6 6 ++ sub p 0 6 ++ (if inner_proto p =? IPPROTO_IPV6 then be16 ETH_P_IPV6 else sub p 12 2) ++ inner p)
         BPF_F_INGRESS [processed_packets_total; accepted_packets_total_last_hop] r2 \/
       ~ @helpful K' \/ (length (inner p) < 20)%nat) /\
    (hop_index p = 1 -> r2 = TC_ACT_SHOT /\ redirected w2' = redirected w2 \/ ~ @helpful K').
Proof.
  intros Em Em' Ep U R D E R' EI EP E2 p.
  pose proof (@gue_sent K ok ifindex protocol w r w' ms hop Em Ep U D R R' E) as E3. rewrite E3 in E2. fold p in D, U, E2.
  destruct (@gue_next K ok K' p ms hop U D EI EP) as (_ & _ & _ & _ & _ & _ & Ei & Hs & L1 & L2).
  rewrite E2. split; [exact Hs|].
  pose proof (@gue_forward_u8 K p ms hop U D) as U2.
  destruct (@redirect_outcome K' ok' ifindex' protocol w2 Em' Ep ltac:(rewrite E2; exact U2)) as (r2 & w2' & Er & O).
  exists r2, w2'. split; [exact Er|]. rewrite E2 in O. split; intros C.
  - destruct (L1 C) as [Ed Ec]. rewrite Ed in O. cbn [fst snd outcome] in O. rewrite Ec, Ei in O.
    destruct O as [[O|(_ & _ & [O|O])]|(_ & _ & _ & O)]; auto.
  - rewrite (L2 C) in O. cbn [fst snd outcome] in O. destruct O as [(-> & O & _)|(_ & _ & _ & O)]; auto.
Qed.

(** ** Concrete packets *)

(** A kernel that does what it is asked: the host is [ip], no socket is found. *)
Definition demo (ip : Z) : Kernel := {|
  ENCAPSULATION_PORT := to_be 6080;
  ENCAPSULATION_IP := ip;
  metrics_map := true;
  bpf_skb_pull_data := fun _ p _ k => if Nat.leb k (length p) then Some k else None;
  bpf_skb_adjust_room := fun _ p delta mode =>
    let cut := (room_off mode + Z.to_nat (- delta))%nat in
    if Nat.leb cut (length p) then Some (firstn (room_off mode) p ++ skipn cut p, room_off mode) else None;
  bpf_csum_level := fun _ _ => 0;
  bpf_check_mtu := fun _ _ _ => 0;
  writable := fun _ => true;
  l3_csum := fun c from to _ => (c + from / 65536 + from mod 65536 - to / 65536 - to mod 65536) mod 65535;
  bpf_redirect_ret := fun _ _ => 7;
  bpf_skc_lookup_tcp := fun _ => None;
  bpf_sk_lookup_udp := fun _ => None;
  bpf_tcp_check_syncookie := fun _ _ => -1
|}.

#[export] Instance demo_ok ip : KernelOk (demo ip).
Proof.
  split.
  - intros n p l k l'. cbn. destruct (Nat.leb_spec k (length p)); [intros [= <-]; lia | discriminate].
  - intros n p d mode p' l' Hd. cbn. rewrite Z.opp_involutive. destruct (Nat.leb_spec (room_off mode + Z.to_nat d) (length p)); [|discriminate].
    intros [= <- <-]. repeat split; [rewrite length_app, length_firstn; lia | assumption].
  - intros c from to size _. cbn. split; [|now rewrite Z.mod_mod]. pose proof (Z.mod_pos_bound (c + from / 65536 + from mod 65536 - to / 65536 - to mod 65536) 65535 ltac:(lia)). unfold is_u. lia.
Qed.

Lemma demo_helpful ip : @helpful (demo ip).
Proof.
  repeat split.
  - intros n p l k H. cbn. apply Nat.leb_le in H. now rewrite H.
  - intros n p d mode Hd H. cbn. rewrite Z.opp_involutive.
    assert (L : (room_off mode + Z.to_nat d <= length p)%nat)
      by (unfold room_off, EthHdr, IpHdr in *; destruct (_ =? _); lia). apply Nat.leb_le in L. now rewrite L.
Qed.

(** A datagram in an encapsulation of one hop, 10.0.0.2, for the host 10.0.0.1;
    [flags] are the first byte of the unigue header. *)
Definition gue_packet (flags : Z) : list Z :=
  [2; 0; 0; 0; 0; 1] ++ [2; 0; 0; 0; 0; 2] ++ [8; 0] ++
  [69; 0; 0; 68; 0; 1; 0; 0; 64; 17; 102; 165; 10; 0; 0; 3; 10; 0; 0; 1] ++
  [64; 0] ++ be16 6080 ++ [0; 48; 0; 0] ++ [2; 4; 0; 0] ++ [flags; 0; 0; 1] ++ [10; 0; 0; 2] ++
  [69; 0; 0; 28; 0; 1; 0; 0; 64; 17; 102; 205; 10; 0; 0; 3; 10; 0; 0; 1] ++ [0; 53; 0; 53; 0; 8; 0; 0].
Definition host := word32 [10; 0; 0; 1] 0.
Definition next_host := word32 [10; 0; 0; 2] 0.

Definition demo_world (p : list Z) : world :=
  {| data := p; linear := 34; buf := mk_buf 0 34; metrics := fun _ => 0; sk_refs := 0; redirected := None; calls := 0 |}.

Definition metrics_for (v : Metric) : list Metric := [l3_protocol_packets_total_ipv4; l4_protocol_packets_total_udp; v].

Example demo_gue : @decision (demo host) (gue_packet 0) = (metrics_for forwarded_packets_total_gue, Gue next_host).
Proof. vm_compute. reflexivity. Qed.

Example demo_gre : @decision (demo host) (gue_packet 4) = (metrics_for forwarded_packets_total_gre, Gre next_host).
Proof. vm_compute. reflexivity. Qed.

Example demo_sum : header_sum (sub (gue_packet 0) 14 20) mod 65535 = 0 /\ header_sum (inner (gue_packet 0)) mod 65535 = 0.
Proof. vm_compute. auto. Qed.

(** The length that is checked wraps: 255 hops have the length of none. *)
Example length_wraps : gue_ok (put (put (gue_packet 0) 42 [0]) 49 [255]) = true.
Proof. reflexivity. Qed.

Lemma gue_packet_u8 flags : is_u8 flags -> Forall is_u8 (gue_packet flags).
Proof.
  intros H. unfold gue_packet, be16. cbn [app]. repeat (apply Forall_cons; [first [exact H | unfold is_u; cbn; lia]|]). apply Forall_nil.
Qed.

Lemma redirect_decides_witness : exists r w', @cls_redirect (demo host) (to_be ETH_P_IP) 3 (demo_world (gue_packet 4)) = Some (r, w') /\
  (@outcome (demo host) 3 (demo_world (gue_packet 4)) w' (gue_packet 4)
     (processed_packets_total :: fst (@decision (demo host) (gue_packet 4))) (snd (@decision (demo host) (gue_packet 4))) r \/
   r = TC_ACT_OK /\ data w' = gue_packet 4 /\ stopped (demo_world (gue_packet 4)) w' [] /\ ~ helpful (demo host)).
Proof.
  refine (@redirect_decides (demo host) (demo_ok host) 3 (to_be ETH_P_IP) (demo_world (gue_packet 4)) eq_refl eq_refl _).
  apply gue_packet_u8. unfold is_u. lia.
Defined.

Lemma demo_u8 : Forall is_u8 (gue_packet 0).
Proof. apply gue_packet_u8. unfold is_u. lia. Qed.

Lemma demo_sends : exists r w, @cls_redirect (demo host) (to_be ETH_P_IP) 3 (demo_world (gue_packet 0)) = Some (r, w) /\ redirected w <> None.
Proof.
  destruct (@redirect_outcome (demo host) (demo_ok host) 3 (to_be ETH_P_IP) (demo_world (gue_packet 0)) eq_refl eq_refl demo_u8) as (r & w & E & O).
  exists r, w. split; [exact E|]. change (data (demo_world (gue_packet 0))) with (gue_packet 0) in O. rewrite demo_gue in O. cbn [fst snd outcome] in O.
  destruct O as [[(_ & -> & _)|(_ & _ & H)]|(_ & _ & _ & H)]; [discriminate | now destruct H; apply demo_helpful | now destruct H; apply demo_helpful].
Qed.

(** The packet reaches the second host, and what comes out there. *)
Lemma gue_arrives_witness : exists r1 w1 r2 w2,
  @cls_redirect (demo host) (to_be ETH_P_IP) 3 (demo_world (gue_packet 0)) = Some (r1, w1) /\
  @cls_redirect (demo next_host) (to_be ETH_P_IP) 4 (demo_world (data w1)) = Some (r2, w2) /\
  data w2 = [2; 0; 0; 0; 0; 2] ++ [2; 0; 0; 0; 0; 1] ++ [8; 0] ++ inner (gue_packet 0).
Proof.
  destruct demo_sends as (r1 & w1 & E1 & R).
  destruct (@gue_arrives (demo host) (demo next_host) (demo_ok host) (demo_ok next_host) 3 4 (to_be ETH_P_IP) (demo_world (gue_packet 0))
    r1 w1 (demo_world (data w1)) (metrics_for forwarded_packets_total_gue) next_host eq_refl eq_refl eq_refl demo_u8 eq_refl demo_gue E1 R
    eq_refl eq_refl eq_refl) as (_ & r2 & w2 & E2 & A & _).
  exists r1, w1, r2, w2. split; [exact E1|]. split; [exact E2|].
  destruct (A eq_refl) as [(_ & _ & O & _)|[H|H]]; [exact O | exfalso; apply H; apply demo_helpful | exfalso; vm_compute in H; lia].
Defined.

End Decide.
